(* ===== verification/_CoqProject ===== *)
-Q . S2P
Prelude.v
PyFloat.v
PyDict.v
Json.v
PyText.v
Redis.v
Constants.v
Regime.v
Risk.v
MarketData.v
PyDate.v
NumPy.v
Web.v
Compliance.v
Signals.v
Execution.v
Reconciliation.v
Session.v
Monitor.v
Orchestrator.v
Memory.v
Ingestion.v
Auth.v
Feeds.v
IngestionAgent.v
Backtesting.v
Alerts.v
RegimeClassifier.v
SignalPublisher.v
Universe.v
NewsFeeds.v
Sentiment.v
Patterns.v
Indicators.v
PyParse.v
Instruments.v
Config.v
Api.v
Storage.v
Reporting.v
ReportDocs.v
LongTerm.v
Background.v
LiveBrokers.v
Telemetry.v
BacktestReports.v
ModelStore.v
VerifyDoubles.v
ComplianceVerify.v
ExecutionVerify.v
ReconciliationVerify.v
MonitorVerify.v
OrchestratorVerify.v
RiskVerify.v
IngestionVerify.v
AuthVerify.v
ApiApp.v
ApiVerify.v
AlertsVerify.v
SignalsVerify.v
ReportingVerify.v
MarketCommands.v
DataCommands.v
Dashboard.v
Apps.v
SessionCommand.v
CommandOutput.v
