(* ===== verification/Prelude.v ===== *)
(** * Verification of the intraday trading platform

    This library models the platform under [src/shared], from ticks to orders,
    and proves the properties that make it safe to run.  It is written beside
    the Python code: a definition carries the name of the function, method or
    class it translates, one file per component, and the guards, early
    returns, exceptions and evaluation order are those of the source.

    ** How the program fits together

    Market data comes in over the broker's connections ([auth], [ingestion]):
    the feed clients rebuild ticks, the tick buffer fills one-minute bars, the
    ingestion agent watches for silence.  The universe filter ([universe])
    chooses the day's symbols, the sentiment agent ([sentiment]) scores the
    news before the open.  From the candles come the indicators
    ([indicators]), the patterns ([patterns]) and the regime ([regime]).  A
    market snapshot goes through the nine gates of the signal engine
    ([signals]); a signal is sized and checked by the risk engine ([risk]);
    the order is checked and tagged by the compliance engine ([compliance])
    and submitted, with retries and a dead-letter queue, by the execution
    engine ([execution]) to a broker.  Around this path stand the kill switch
    ([compliance/kill_switch.py]) and the halt key in Redis, the
    reconciliation agent that blocks entries on symbols whose books disagree
    ([reconciliation]), the session state machine and holiday calendar
    ([session_manager.py]), the monitor that watches heartbeats and losses
    ([monitor]), the alert dispatcher ([alerts]) and the orchestrator that
    runs one LangGraph cycle over a shared state ([orchestrator]).  Offline,
    the backtester ([backtesting]) replays candles and gates the promotion of
    a strategy.

    ** Files

    Foundations:
    - [Prelude] (this file): exceptions and the error monad [result], the
      state-and-error monad [M] (mutations made before an exception stay),
      loops, stable sorting, sequences of external readings, Python string
      operations.
    - [PyFloat]: Python floats as IEEE-754 binary64 ([SpecFloat]), with exact
      decimal literals, rounding, [sum], formatting, [repr] and the theory of
      the float order ([float_order], hint base [pyfloat]).
    - [PyDict]: insertion-ordered dictionaries.  [Json]: JSON values.
      [PyText]: [int], [float], [json.dumps] and [json.loads], with the round
      trip [json_round_trip].  [PyDate]: the civil calendar, [strftime],
      [isoformat] and [fromisoformat].
    - [Redis]: the client as type classes ([RedisKV], [RedisList],
      [RedisStream]) with the laws the proofs use and the in-memory server
      [MemRedis] that satisfies them.  [NumPy], [Web]: NumPy, TA-Lib and HTTP
      as type classes.
    - [PyParse]: regular expressions, the CSV reader and writer with their
      round trip, [strptime] and [date.fromisoformat], iteration over JSON
      values.
    - [Constants] ([core/constants.py]), [Regime] ([regime/models.py]),
      [MarketData] (models of [storage], [patterns] and [sentiment]).

    Decisions:
    - [Risk] ([risk/engine.py], [sizing.py], [correlation.py],
      [circuit_breaker.py], [models.py]): [evaluate] and what it calls.
    - [Compliance] ([compliance/engine.py], [india.py], [australia.py],
      [strategy_registry.py], [kill_switch.py], [models.py]): [check], and
      [KillSwitchManager] as a state machine over Redis or its memory flag.
    - [Signals] ([signals/gates.py], [engine.py], [models.py]): [gate_1_regime]
      to [gate_9_confidence], [evaluate].
    - [Execution] ([execution/engine.py], [dead_letter.py],
      [brokers/base.py], [brokers/paper.py], [models.py]): [submit] against
      the class [Broker]; [BrokerContract] and [IdempotentBroker] state what a
      broker promises, the paper broker discharges them.
    - [Reconciliation] ([reconciliation/differ.py], [block_registry.py],
      [publisher.py], [agent.py], [models.py]): the diffs, the registry and
      [run_cycle].
    - [Session] ([session_manager.py], [RegionConfig] of [core/config.py]):
      calendar, session states, square-off, staggered open.
    - [Monitor] ([monitor/heartbeat.py], [pnl_tracker.py], [agent.py],
      [models.py]): [check_all] and [poll_once].
    - [Orchestrator] ([orchestrator/state.py], [nodes.py], [graph.py]): the
      nodes, the wiring and [OrchestratorGraph]; [Memory] and [LongTerm]
      ([orchestrator/memory.py]): working and short-term memory; the
      activation-ranked long-term tier and the facade over the three.
    - [Background] ([reconciliation/agent.py], [monitor/agent.py]): the timer
      chain and the polling thread over all interleavings of the callers and
      the background threads.

    Data:
    - [Ingestion] ([ingestion/aggregator.py], [buffer.py], [validator.py]): bars and the
      write buffer.  [Auth] ([auth]): broker sessions and their stored tokens.
      [Feeds] ([kite_ws.py], [ibkr_ws.py]): callbacks as steps of a state
      machine.  [IngestionAgent] ([ingestion/agent.py]): the watchdog.
    - [Indicators] ([indicators]): registry, engine, the sixteen indicators
      and their cache.  [Patterns] ([patterns]): candlesticks, opening range,
      support and resistance, agreement of timeframes.
    - [RegimeClassifier] ([regime]): features, training, classification, the
      promotion gate; [SignalPublisher] ([signals/publisher.py] and its Lua
      script), with what the orchestrator sees of both publishers.
    - [Universe] ([universe]): exclusions, scoring, the filter, storage.
      [NewsFeeds], [Sentiment] ([sentiment]): headlines and market indicators;
      the batch scorer, the semantic cache, the cost tracker and [run].
    - [Backtesting] ([backtesting]): costs, simulation, metrics, walk-forward,
      optimisation, the promotion gate.
    - [Alerts] ([alerts]): channels, the rate-limited dispatcher, the cost
      monitor.

    - [Instruments] ([instruments]): live sources and their parsers, the two
      tables, manual overrides, the refresh, price adjustment.
    - [Storage] ([storage/validation.py], [sqlite_buffer.py],
      [repositories.py], [backfill.py]): tick validation, the failover buffer
      and its flush, the repositories, the backfill.

    Surroundings:
    - [Config] ([core/config.py], [types.py] and the holiday sources and cache
      files of [session_manager.py]): settings from keyword arguments and the
      environment, region files, the sources behind the calendar; [cache_files_refine] shows that
      the files implement the cache that [Session] reasons about.
    - [Api] ([api/auth.py], [models.py], [routers], [dashboard/fetcher.py]):
      the endpoints over the state the other components write, the controls,
      the websocket loop, the dashboard's client.
    - [Reporting] ([reporting/models.py], [metrics.py], [csv_export.py]):
      daily and monthly figures, CSV and workbook.  [ReportDocs]
      ([html_report.py], [pdf_report.py]): the HTML text and the calls of the
      PDF library.  [BacktestReports] ([backtesting/report.py],
      [repository.py]): the report files of a backtest and the table of
      results.  [ModelStore] ([regime/mlflow_registry.py]): saved classifiers.
    - [Telemetry] ([signals/explainer.py], [monitor/metrics.py],
      [compliance/audit.py]): explanations of signals, the gauges, the audit
      log.  [LiveBrokers] ([brokers/kite.py], [ibkr.py]): the adapters of the
      live brokers.
    - [ApiApp] ([api/app.py] and the decorators of [routers]): the
      application as its routes, and the answer to every request under any
      routing with the laws of [Starlette].
    - [Dashboard] ([dashboard/app.py]): a run of the page over the values of
      its widgets, on any HTTP client and on one that the application itself
      serves ([Served], with the [Rendering] of responses).

    Entry points:
    - [MarketCommands] ([regime/cli.py], [universe/cli.py],
      [sentiment/cli.py], [storage/schema.sql]) and [DataCommands]
      ([patterns/cli.py], [indicators/cli.py], [instruments/cli.py],
      [backtesting/cli.py]): the commands, each composed of the components it
      runs over the database, Redis and the feeds.  [CommandOutput]: what the
      pattern and sentiment commands log, and the backfill command
      ([storage/backfill.py]).
    - [Apps] ([apps/india/main.py], [apps/australia/main.py],
      [core/logging.py]): the process of an application as an interaction
      tree, its heartbeat loop and its log level.  [SessionCommand]
      ([session_manager.py]): time zones and the session command.
    - [ComplianceVerify], [ExecutionVerify], [ReconciliationVerify],
      [MonitorVerify], [OrchestratorVerify], [RiskVerify], [IngestionVerify],
      [AuthVerify], [ApiVerify], [AlertsVerify], [SignalsVerify] and
      [ReportingVerify]: the acceptance scenarios of the [cli.py] of each
      component, run against its model, with the doubles of the scenarios
      ([VerifyDoubles] holds the shared ones) as instances of the interfaces.

    ** State and operations

    An object with mutable fields is a record; a method that mutates it is a
    function of the record, in [M] when it can raise.  What the code gets from
    outside (the clock, random numbers, the environment, the answers of the
    providers) is an argument or a sequence of readings consumed one by one.
    A component that calls Redis, a broker, HTTP or an LLM threads the state
    of that world, and every call may fail; theorems quantify over all such
    behaviours unless a hypothesis says otherwise.

    ** What the theorems show

    - Orders: an approved risk decision satisfied every guard
      ([evaluate_approved_sound]); the compliance verdicts are exactly the
      regulatory conditions ([india_approval_iff], [asx_approval_iff]); an
      order is booked at most once over all retries
      ([submit_at_most_once]); blocked orders touch nothing; stop-loss exits
      and liquidations reach the broker whatever the kill switch and the entry
      rules say ([exits_always_routed]); the retry loop is bounded.
    - Halting: triggers halt ([trigger_halts]), the halt is permanent in the
      kill switch ([halt_is_permanent]) and in the orchestrator
      also after a trigger that raised ([kill_switch_latched]), and preempts
      human approval whatever state a cycle is given ([cycle_preempts]).
    - Signals: when a signal is generated and why it is not, bounds of its
      confidence, the exceptions that can escape; a signal is published once
      while its dedup key lasts and never while trading is halted
      ([signal_published_once]).
    - Books: the diff is empty exactly when the books agree
      ([reconciled_iff_no_mismatch]); mismatched symbols are blocked, and
      which blocks are lifted.
    - Sessions: the calendar fails closed, the state moves forward, the
      Indian schedule agrees with the compliance cut-off, the staggered open
      is total.
    - Monitoring: heartbeats are counted exactly; what a poll reports; the
      dispatcher limits exactly as a reference that remembers every message
      ([rate_limiter_exact]).
    - Ingestion: the candles are the runs of the ticks by minute
      ([candles_are_runs]), the buffer drains in order, a feed that falls
      silent is noticed, one that is silent from the start is not
      ([silent_feed_degrades]), an IBKR stream never shares a slot; a stored token is read
      back.
    - Analysis: which candles give an opening-range breakout
      ([orb_first_breakout]) and which levels are reported
      ([sr_levels_sound]); what gates 2, 3 and 5 see of the candles
      ([short_history_has_no_ema_vote], [order_flow_is_last_candle],
      [gate_5_follows_engine]); the chaos override precedes every model, with
      its triggers down to the candles ([chaos_override_exact]), and which
      regimes a fit elects.
    - Selection: the watchlist is the top of the ranking and holds no excluded
      symbol, from the fetch of the lists on
      ([surveillance_symbol_never_listed]).
    - Sentiment: whatever the LLM does, every headline gets one score in range
      ([scores_every_headline], [run_scores_every_headline]); the cache
      answers with the nearest entry ([cache_get_exact]).
    - Backtesting: the walk-forward windows never look ahead and end
      ([walk_forward_windows]); when a backtest passes the promotion
      gate ([promoted_backtest]).
    - Storage: a tick that was buffered waits or is in the table, whatever
      fails ([no_buffered_tick_lost]); queries give the candles last written;
      manual overrides win over live corporate actions
      ([manual_overrides_win]) and the table's rows stay valid.
    - Surroundings: live trading needs both flags, as keyword arguments or in
      the environment ([live_trading_needs_both_flags]); a holiday source returns dates or
      its own exception; no request without the key changes a key of Redis
      ([only_keyed_posts_write], [controls_need_key]) and a
      kill over the API is seen by the readers of the halt key
      ([kill_reaches_every_reader]); the stored watchlist is served; a
      websocket is sent a run of the stream ([ws_sends_a_run]).
    - Dashboard: the kill button halts the system and the page says so
      ([kill_button_halts]); without a pressed button and the key a session
      of any length changes nothing ([dashboard_only_watches]).
    - Processes: an application that logs at [INFO] beats until it is
      interrupted ([app_beats_until_interrupted]), and what it prints is known
      exactly ([app_run_exact]); every line of the session command agrees with
      itself ([session_lines_agree]).
    - Background threads: one chain of cycles and none after a stop
      ([stop_ends_cycles]), a running agent keeps cycling
      ([running_agent_cycles]), a started monitor polls until its stop
      ([monitor_polls_until_stop]).
    - Reports: exported trades are read back ([csv_gives_back_trades]), no
      text of a trade injects markup ([daily_html_structure]), the counts and
      the drawdown path are exact; the reports of a backtest are on disk and
      its result is loaded back ([reports_written],
      [backtest_command_recorded]); a saved classifier is loaded back.
    - Records: every decision of the compliance engine leaves one audit entry
      ([audit_trail_complete]); an order to a live broker raises.
    - Commands: a high VIX that the regime command publishes empties the
      universe of the next run ([high_vix_empties_universe]); what an
      indicator command cached is loaded back ([indicator_command_cached]);
      what the backfill command got is served by the queries
      ([backfill_command_served]).
    - Acceptance: each [*_verify_passes] computes the scenarios of a
      component and finds them to hold, so that the definitions agree with
      the expectations the authors wrote down.
    - Theorems that describe defects of the code as it is, stated about the
      faithful model, among them [trigger_has_no_memory_fallback],
      [untracked_blocks_persist], [silent_agent_never_halts],
      [signal_counted_again], [gate_4_accepts_stale_patterns],
      [products_collapse], [published_regime_invisible],
      [published_signal_escapes_block], [refused_cost_alert_is_lost],
      [failed_refit_mixes_models], [chaos_keeps_stored_watchlist],
      [malformed_row_breaks_fetch], [local_offset_shifts_headlines],
      [outage_poisons_cache], [nan_score_is_bullish],
      [single_timeframe_confirms], [session_over_midnight_has_no_range],
      [sydney_vwap_drops_first_hour], [refused_statement_blocks_sync],
      [duplicate_action_fails_refresh], [empty_listing_opens_every_weekday],
      [pnl_keys_disjoint], [published_signal_is_blank],
      [status_of_shut_down], [universe_command_fails],
      [unreadable_regime_is_bull], [replay_status_is_zero],
      [offline_command_skips_overrides], [unanswered_page_says_running],
      [pattern_command_needs_the_ticker].

    ** Fuel and bounds

    [submit_loop] gets [max_retries + 2] units ([submit_fuel]), enough for
    every attempt and the exit test: [submit_loop_bounded] shows it never
    runs out.  [interp_run] of the orchestrator gets six, the wiring being
    acyclic with paths of at most five nodes.  [prune] of the working memory
    gets the number of entries, each iteration removing one: [prune_spec].
    The walk-forward loop gets more units than there are trading dates, and
    every iteration starts at a later one.  [batches] gets the number of
    headlines and takes some in each step; [strip_fences] gets the length of
    the text and shortens it ([strip_fences_fuel]).  [pages] gets the
    number of rows ([concat_pages]).  [json_loads] gets the
    length of the text plus one; the round trip shows it suffices for what
    [json_dumps] writes.  [shortest] of [repr] tries the 17 digits that
    binary64 needs.  Integers of Python are unbounded and are [Z]; floats keep
    their binary64 rounding and overflow everywhere.

    ** What is not modelled

    Logging, but for the commands and applications whose output is modelled;
    locks (a method, or a section under a lock where
    [Background] and [Feeds] interleave them, is one atomic step);
    [time.sleep], which is recorded. Third-party code is a parameter: NumPy,
    TA-Lib, vectorbt, scikit-learn and the HMM, MLflow, the Kite and IBKR
    client libraries, LangGraph, the LLM and the embedding model, feedparser,
    the protobuf encoder, FastAPI, Starlette, httpx, Streamlit, structlog, pydantic, yfinance,
    HTTP, SMTP, PostgreSQL, SQLite and the file system, openpyxl and fpdf;
    tables follow the SQL of the modules. Failures of the database are modelled
    where a component handles or documents them: the flush of the tick buffer
    (the insert, the commit and the update of the buffer), the start of the
    universe and backtest commands ([CommandStart]) and the save of a result;
    the disk may refuse a cache file of the calendar ([CacheDisk]). Elsewhere
    the schema is in place and a statement that is not refused for its values
    succeeds, and the remaining commands find their configuration. Timezone
    conversion outside
    [SessionCommand] (operations take local or UTC times, as each file says);
    characters beyond 8 bits, and letters beyond ASCII in case conversions;
    escapes in the [repr] of strings inside messages. The dead-letter queue,
    the cache list and the streams carry JSON and field lists at the level of
    values. The scenarios that look at the bytes of a PDF file, the log, a
    thread or the time a loop takes, the parsing of the command lines, the
    making of the Redis client and the database connection, the start of the
    server, the layout of the dashboard, an interrupt that reaches an
    application outside its sleep and the generated protobuf code are outside
    the library. *)

From Stdlib Require Export ZArith Lia Ascii Sorted.
From stdpp Require Export base option list strings gmap pretty.

#[global] Set Default Goal Selector "!".

(** ** Python exceptions and the error monad

    Fallible code returns [result A].  The constructors of [exn] are the
    exception classes that the modelled code raises, catches or lets escape. *)

Inductive exn : Type :=
| ValueError (msg : string)
| TypeError (msg : string)
| KeyError (msg : string)
| AssertionError
| ZeroDivisionError
| OverflowError
| RedisError (msg : string)
| BrokerTransientError (msg : string)
| BrokerPermanentError (msg : string)
| MarketClosedError (msg : string)
| CalendarFetchError (msg : string)
| CalendarUnavailableError (msg : string)
| TickValidationError (msg : string)
| AuthError (msg : string)
| RequestException (msg : string)
| NotImplementedError (msg : string)
| IndexError
| RuntimeError (msg : string)
| AttributeError (msg : string)
| OtherError (msg : string).

Inductive result (A : Type) : Type :=
| Ok (a : A)
| Raise (e : exn).
Arguments Ok {A} a.
Arguments Raise {A} e.

#[export] Instance exn_eq_dec : EqDecision exn.
Proof. solve_decision. Defined.

#[export] Instance result_eq_dec `{EqDecision A} : EqDecision (result A).
Proof. solve_decision. Defined.

#[export] Instance result_ret : MRet result := @Ok.

#[export] Instance result_bind : MBind result := fun A B f r =>
  match r with
  | Ok a => f a
  | Raise e => Raise e
  end.

Definition is_ok {A} (r : result A) : bool :=
  match r with Ok _ => true | Raise _ => false end.

Lemma bind_ok {A B} (a : A) (f : A -> result B) : (Ok a ≫= f) = f a.
Proof. reflexivity. Qed.

Lemma bind_raise {A B} e (f : A -> result B) : (Raise e ≫= f) = Raise e.
Proof. reflexivity. Qed.

Lemma bind_ok_inv {A B} (r : result A) (f : A -> result B) b :
  (r ≫= f) = Ok b -> exists a, r = Ok a /\ f a = Ok b.
Proof. destruct r; cbn; [eauto | discriminate]. Qed.

(** The monad laws, so that a chain of binds can be re-associated. *)
Lemma bind_assoc {A B C} (r : result A) (f : A -> result B) (g : B -> result C) :
  ((r ≫= f) ≫= g) = (r ≫= (fun a => f a ≫= g)).
Proof. by destruct r. Qed.

Lemma bind_ret_r {A} (r : result A) : (r ≫= mret) = r.
Proof. by destruct r. Qed.

(** ** Automation shared by the component files *)

Create Rewrite HintDb pydb.
#[export] Hint Rewrite @bind_ok @bind_raise : pydb.

(** Split a hypothesis [r ≫= f = Ok b] into its two steps. *)
Ltac bind_inv H :=
  let a := fresh "a" in
  let Ha := fresh "Ha" in
  apply bind_ok_inv in H as (a & Ha & H).

(** Case analysis on the first [if] or [match] of the goal. *)
Ltac case_if :=
  match goal with
  | |- context [if ?b then _ else _] => destruct b eqn:?
  end.

Ltac case_match_in H :=
  match type of H with
  | context [match ?x with _ => _ end] => destruct x eqn:?
  end.

Lemma mapM_result {A B} (f : A -> result B) l k : mapM f l = Ok k -> Forall2 (fun x y => f x = Ok y) l k.
Proof.
  revert k. induction l as [|x l IH]; intros k Hk; [injection Hk as <-; constructor|].
  cbn in Hk. bind_inv Hk. bind_inv Hk. injection Hk as <-. constructor; [done|by apply IH].
Qed.

Lemma result_mapM {A B} (f : A -> result B) l k : Forall2 (fun x y => f x = Ok y) l k -> mapM f l = Ok k.
Proof. induction 1 as [|x y l k Hx _ IH]; [done|]. cbn. by rewrite Hx, IH. Qed.

Lemma Forall2_elem_r {A B} (R : A -> B -> Prop) l k y : Forall2 R l k -> y ∈ k -> exists x, x ∈ l /\ R x y.
Proof. induction 1 as [|x z l k Hr Hf IH]; [set_solver|]. intros [->|Hy]%elem_of_cons; set_solver. Qed.

Lemma Forall2_elem_l {A B} (R : A -> B -> Prop) l k x : Forall2 R l k -> x ∈ l -> exists y, y ∈ k /\ R x y.
Proof. induction 1 as [|z y l k Hr Hf IH]; [set_solver|]. intros [->|Hx]%elem_of_cons; set_solver. Qed.

(** ** Lists *)

(** [l[-n:]] for [n >= 1]: the last [n] elements. *)
Definition last_n {A} (n : nat) (l : list A) : list A := drop (length l - n) l.

Lemma last_n_length {A} n (l : list A) : length (last_n n l) = n `min` length l.
Proof. unfold last_n. rewrite length_drop. lia. Qed.

(** [l[i]]: negative indices count from the end. *)
Definition py_index {A} (l : list A) (i : Z) : result A :=
  let i := if (i <? 0)%Z then (i + Z.of_nat (length l))%Z else i in
  if (i <? 0)%Z then Raise IndexError
  else match l !! Z.to_nat i with Some x => Ok x | None => Raise IndexError end.

Lemma py_index_lookup {A} (l : list A) (n : nat) x : l !! n = Some x -> py_index l (Z.of_nat n) = Ok x.
Proof.
  intros Hl. unfold py_index. destruct (Z.ltb_spec (Z.of_nat n) 0); [lia|].
  destruct (Z.ltb_spec (Z.of_nat n) 0); [lia|]. by rewrite Nat2Z.id, Hl.
Qed.

(** First element satisfying a boolean test: a [for] loop that returns at the
    first hit. *)
Fixpoint find_first {A} (p : A -> bool) (l : list A) : option A :=
  match l with
  | [] => None
  | x :: l => if p x then Some x else find_first p l
  end.

Lemma find_first_None {A} p (l : list A) :
  find_first p l = None <-> forall x, x ∈ l -> p x = false.
Proof.
  induction l as [|y l IH]; cbn; [set_solver|].
  destruct (p y) eqn:E; split; intros H.
  - discriminate.
  - specialize (H y). rewrite H in E; [discriminate | set_solver].
  - intros x [->|Hx]%elem_of_cons; [done|]. by apply IH.
  - apply IH. set_solver.
Qed.

Lemma find_first_Some {A} p (l : list A) x :
  find_first p l = Some x -> x ∈ l /\ p x = true.
Proof.
  induction l as [|y l IH]; cbn; [done|].
  destruct (p y) eqn:E; intros H; [simplify_eq; set_solver|].
  destruct (IH H); set_solver.
Qed.

Lemma filter_all {A} (P : A -> Prop) `{forall x, Decision (P x)} (l : list A) :
  Forall P l -> filter P l = l.
Proof. induction 1 as [|x l Hx Hl IH]; [done|]. rewrite filter_cons_True by done. by rewrite IH. Qed.

Lemma filter_none {A} (P : A -> Prop) `{forall x, Decision (P x)} (l : list A) :
  Forall (fun x => ~ P x) l -> filter P l = [].
Proof. induction 1 as [|x l Hx Hl IH]; [done|]. by rewrite filter_cons_False. Qed.

(** ** Sorting

    [sorted(l, key=...)] with the comparison [lt] of the keys: the stable
    result, by insertion.  When the keys are not totally ordered (floats with
    NaN) the result of Python depends on its algorithm; the theorems about
    order exclude that case. *)

Fixpoint insert_sorted {A} (lt : A -> A -> bool) (x : A) (l : list A) : list A :=
  match l with
  | [] => [x]
  | y :: l' => if lt x y then x :: l else y :: insert_sorted lt x l'
  end.

Definition py_sorted {A} (lt : A -> A -> bool) (l : list A) : list A :=
  foldl (fun acc x => insert_sorted lt x acc) [] l.

Lemma insert_sorted_perm {A} lt (x : A) l : insert_sorted lt x l ≡ₚ x :: l.
Proof.
  induction l as [|y l IH]; cbn; [done|]. destruct (lt x y); [done|]. rewrite IH. by constructor.
Qed.

Lemma py_sorted_perm {A} lt (l : list A) : py_sorted lt l ≡ₚ l.
Proof.
  unfold py_sorted. assert (Hgen : forall acc, foldl (fun acc x => insert_sorted lt x acc) acc l ≡ₚ acc ++ l).
  { induction l as [|x l IH]; intros acc; cbn; [by rewrite app_nil_r|].
    rewrite IH, insert_sorted_perm. by rewrite (Permutation_middle acc l x). }
  apply Hgen.
Qed.

(** [le x y] says that [y] does not come before [x].  Among the elements that
    satisfy [P], where it is total and transitive, sorting orders. *)
Lemma py_sorted_ordered {A} (P : A -> Prop) (lt : A -> A -> bool) (le : A -> A -> Prop) l :
  (forall x y, P x -> P y -> lt x y = true -> le x y) ->
  (forall x y, P x -> P y -> lt x y = false -> le y x) ->
  (forall x y z, P x -> P y -> P z -> le x y -> le y z -> le x z) ->
  Forall P l -> StronglySorted le (py_sorted lt l).
Proof.
  intros Hlt Hge Htr Hl.
  assert (Hins : forall x acc, P x -> Forall P acc -> StronglySorted le acc ->
    StronglySorted le (insert_sorted lt x acc)).
  { intros x acc Hx Hacc Hs. induction Hs as [|y acc Hs IH Hy]; cbn; [repeat constructor|].
    apply Forall_cons in Hacc as [Hpy Hacc]. destruct (lt x y) eqn:E.
    - constructor; [by constructor|]. constructor; [by apply Hlt|].
      rewrite Forall_forall in Hy, Hacc |- *. intros z Hz. apply (Htr x y z); auto.
    - constructor; [by apply IH|]. rewrite insert_sorted_perm. constructor; [by apply Hge|done]. }
  unfold py_sorted. assert (Hgen : forall acc, Forall P acc -> StronglySorted le acc ->
    StronglySorted le (foldl (fun acc x => insert_sorted lt x acc) acc l)).
  { induction Hl as [|x l Hx Hl IH]; intros acc Hacc Hs; cbn; [done|].
    apply IH; [rewrite insert_sorted_perm; by constructor|by apply Hins]. }
  apply Hgen; constructor.
Qed.

(** [l[:n]]: a negative [n] drops from the end. *)
Definition slice_to {A} (n : Z) (l : list A) : list A :=
  take (Z.to_nat (if (n <? 0)%Z then n + Z.of_nat (length l) else n)%Z) l.

(** Monadic iteration: a [for] loop whose body may raise. *)
Fixpoint for_each {A S} (body : S -> A -> result S) (s : S) (l : list A) : result S :=
  match l with
  | [] => Ok s
  | x :: l => s' ← body s x; for_each body s' l
  end.

(** Invariant rule for [for_each]. *)
Lemma for_each_invariant {A S} (P : S -> Prop) body (l : list A) :
  (forall s x s', x ∈ l -> P s -> body s x = Ok s' -> P s') ->
  forall s s', P s -> for_each body s l = Ok s' -> P s'.
Proof.
  induction l as [|x l IH]; cbn; intros Hstep s s' Hs H; [by simplify_eq|].
  bind_inv H. eapply IH; [|eapply Hstep; [| exact Hs | exact Ha]; set_solver | exact H].
  intros; eapply Hstep; [|done|done]; set_solver.
Qed.

(** ** Strings

    A Python [str] is a Rocq [string]: identifiers are sequences of
    characters below 256, and literal message texts carry the UTF-8 bytes of
    the source. *)

Fixpoint str_join (sep : string) (l : list string) : string :=
  match l with
  | [] => ""
  | [x] => x
  | x :: l => x +:+ sep +:+ str_join sep l
  end.

(** [s[:n]] *)
Fixpoint str_take (n : nat) (s : string) : string :=
  match n, s with
  | O, _ => ""
  | _, EmptyString => ""
  | S n, String c s => String c (str_take n s)
  end.

Definition str_repeat (n : nat) (c : Ascii.ascii) : string :=
  Nat.iter n (String c) "".

(** Left padding with zeros up to width [w], as in [f"{n:06d}"] for [n >= 0]. *)
Definition zero_pad (w : nat) (s : string) : string :=
  str_repeat (w - String.length s) "0"%char +:+ s.

Definition ascii_upper (c : Ascii.ascii) : Ascii.ascii :=
  let n := Ascii.N_of_ascii c in
  if (97 <=? n)%N && (n <=? 122)%N then Ascii.ascii_of_N (n - 32) else c.

Definition ascii_lower (c : Ascii.ascii) : Ascii.ascii :=
  let n := Ascii.N_of_ascii c in
  if (65 <=? n)%N && (n <=? 90)%N then Ascii.ascii_of_N (n + 32) else c.

Fixpoint str_map (f : Ascii.ascii -> Ascii.ascii) (s : string) : string :=
  match s with
  | EmptyString => ""
  | String c s => String (f c) (str_map f s)
  end.

Definition str_upper : string -> string := str_map ascii_upper.
Definition str_lower : string -> string := str_map ascii_lower.

Definition is_space (c : Ascii.ascii) : bool :=
  let n := Ascii.N_of_ascii c in
  ((9 <=? n)%N && (n <=? 13)%N) || ((28 <=? n)%N && (n <=? 32)%N).

Fixpoint str_lstrip (s : string) : string :=
  match s with
  | EmptyString => ""
  | String c s' => if is_space c then str_lstrip s' else s
  end.

Fixpoint str_rev (s acc : string) : string :=
  match s with
  | EmptyString => acc
  | String c s => str_rev s (String c acc)
  end.

(** [s.strip()] *)
Definition str_strip (s : string) : string :=
  str_rev (str_lstrip (str_rev (str_lstrip s) "")) "".

(** [s.split(sep, 1)] when the separator occurs: the parts before and after
    its first occurrence. *)
Fixpoint str_split1 (sep : Ascii.ascii) (s : string) : option (string * string) :=
  match s with
  | EmptyString => None
  | String c s' =>
      if Ascii.eqb c sep then Some ("", s')
      else '(a, b) ← str_split1 sep s'; Some (String c a, b)
  end.

Fixpoint str_has (c : Ascii.ascii) (s : string) : bool :=
  match s with
  | EmptyString => false
  | String d s => Ascii.eqb d c || str_has c s
  end.

Lemma str_take_length n s : (String.length (str_take n s) <= n)%nat.
Proof. revert s; induction n as [|n IH]; intros [|c s]; cbn; auto with lia. specialize (IH s). lia. Qed.

Lemma str_take_id n s : (String.length s <= n)%nat -> str_take n s = s.
Proof.
  revert s; induction n as [|n IH]; intros [|c s]; cbn; intros; try done; [lia|].
  by rewrite IH by lia.
Qed.

Lemma str_split1_app sep a b :
  str_has sep a = false -> str_split1 sep (a +:+ String sep b) = Some (a, b).
Proof.
  induction a as [|c a IH]; intros H.
  - change ((if Ascii.eqb sep sep then Some ("", b) else
              '(x, y) ← str_split1 sep b; Some (String sep x, y)) = Some ("", b)).
    by rewrite Ascii.eqb_refl.
  - change (Ascii.eqb c sep || str_has sep a = false) in H.
    change ((if Ascii.eqb c sep then Some ("", a +:+ String sep b) else
              '(x, y) ← str_split1 sep (a +:+ String sep b); Some (String c x, y))
            = Some (String c a, b)).
    apply orb_false_iff in H as [H1 H2]. by rewrite H1, IH.
Qed.

Lemma str_split1_Some sep s a b : str_split1 sep s = Some (a, b) -> s = a +:+ String sep b.
Proof.
  revert a. induction s as [|c s IH]; intros a; [done|].
  change (str_split1 sep (String c s)) with
    (if Ascii.eqb c sep then Some ("", s)
     else '(x, y) ← str_split1 sep s; Some (String c x, y)).
  destruct (Ascii.eqb_spec c sep) as [->|]; [by intros [= <- <-]|].
  destruct (str_split1 sep s) as [[x y]|]; [|done]. cbn. intros [= <- <-].
  by rewrite (IH x eq_refl).
Qed.

Lemma str_split1_is_Some sep a b : is_Some (str_split1 sep (a +:+ String sep b)).
Proof.
  induction a as [|c a [[x y] IH]].
  - change (is_Some (if Ascii.eqb sep sep then Some ("", b) else
              '(x, y) ← str_split1 sep b; Some (String sep x, y))).
    by rewrite Ascii.eqb_refl.
  - change (is_Some (if Ascii.eqb c sep then Some ("", a +:+ String sep b) else
              '(x, y) ← str_split1 sep (a +:+ String sep b); Some (String c x, y))).
    rewrite IH. by destruct (Ascii.eqb c sep).
Qed.

Lemma str_app_assoc (a b c : string) : (a +:+ b) +:+ c = a +:+ (b +:+ c).
Proof. induction a as [|x a IH]; [done|].
  change (String x ((a +:+ b) +:+ c) = String x (a +:+ (b +:+ c))). by rewrite IH.
Qed.

#[export] Hint Rewrite @length_app @length_cons @length_map : pydb.

(** ** Stateful code that may raise

    [M S A] threads a mutable object of type [S] through code that returns an
    [A] or raises; the mutations made before an exception stay. *)

Definition M (S A : Type) : Type := S -> result A * S.

#[export] Instance M_ret {S} : MRet (M S) := fun A a s => (Ok a, s).

#[export] Instance M_bind {S} : MBind (M S) := fun A B f m s =>
  match m s with
  | (Ok a, s') => f a s'
  | (Raise e, s') => (Raise e, s')
  end.

Definition M_raise {S A} (e : exn) : M S A := fun s => (Raise e, s).
Definition M_get {S} : M S S := fun s => (Ok s, s).
Definition M_put {S} (s : S) : M S unit := fun _ => (Ok tt, s).
Definition M_modify {S} (f : S -> S) : M S unit := fun s => (Ok tt, f s).
Definition M_lift {S A} (r : result A) : M S A := fun s => (r, s).

(** [try: m  except Exception: h e] *)
Definition M_try {S A} (m : M S A) (h : exn -> M S A) : M S A := fun s =>
  match m s with
  | (Ok a, s') => (Ok a, s')
  | (Raise e, s') => h e s'
  end.

(** The outcome of [m] as a value, for a [try] with several handlers. *)
Definition M_catch {S A} (m : M S A) : M S (result A) := fun s =>
  match m s with (r, s') => (Ok r, s') end.

(** A [for] loop whose body mutates the state and may raise. *)
Fixpoint M_for {S A} (body : A -> M S unit) (l : list A) : M S unit :=
  match l with
  | [] => mret tt
  | x :: l => _ ← body x; M_for body l
  end.

(** Invariant rule for [M_for]: what every iteration preserves, the loop
    preserves, also when an iteration raises. *)
Lemma M_for_invariant {S A} (P : S -> Prop) (body : A -> M S unit) (l : list A) :
  (forall x s, x ∈ l -> P s -> P (body x s).2) -> forall s, P s -> P (M_for body l s).2.
Proof.
  induction l as [|x l IH]; intros Hb s Hs; [done|].
  cbn. unfold mbind, M_bind. pose proof (Hb x s) as Hx.
  destruct (body x s) as [[u|e] s'] eqn:E; simpl in *.
  - apply IH; [intros; apply Hb; set_solver | apply Hx; set_solver].
  - apply Hx; set_solver.
Qed.

(** [for] loop that accumulates a local value as well. *)
Fixpoint M_fold {S A B} (body : B -> A -> M S B) (b : B) (l : list A) : M S B :=
  match l with
  | [] => mret b
  | x :: l => b' ← body b x; M_fold body b' l
  end.

Lemma M_fold_cons {S A B} (body : B -> A -> M S B) b x l s :
  M_fold body b (x :: l) s
  = match body b x s with
    | (Ok b', s') => M_fold body b' l s'
    | (Raise e, s') => (Raise e, s')
    end.
Proof. reflexivity. Qed.

(** Run [m] on a part of the state. *)
Definition M_zoom {S T A} (get : S -> T) (set : T -> S -> S) (m : M T A) : M S A := fun s =>
  match m (get s) with (r, t) => (r, set t s) end.

(** [keeps P m]: the state satisfies [P] after [m], also when [m] raises, if it
    did before.  The lemmas follow the structure of the code. *)
Definition keeps {S A} (P : S -> Prop) (m : M S A) : Prop := forall s, P s -> P (m s).2.

Create HintDb keeps.

Section Keeps.
Context {S : Type} (P : S -> Prop).

Lemma keeps_ret {A} (a : A) : keeps P (mret a).
Proof. by intros s Hs. Qed.

Lemma keeps_get : keeps P M_get.
Proof. by intros s Hs. Qed.

Lemma keeps_lift {A} (r : result A) : keeps P (M_lift r).
Proof. by intros s Hs. Qed.

Lemma keeps_raise {A} e : keeps P (M_raise (A := A) e).
Proof. by intros s Hs. Qed.

Lemma keeps_modify f : (forall s, P s -> P (f s)) -> keeps P (M_modify f).
Proof. intros Hf s Hs. by apply Hf. Qed.

Lemma keeps_bind {A B} (m : M S A) (f : A -> M S B) :
  keeps P m -> (forall a, keeps P (f a)) -> keeps P (m ≫= f).
Proof.
  intros Hm Hf s Hs. unfold mbind, M_bind. specialize (Hm s Hs).
  destruct (m s) as [[a|e] s']; [by apply Hf|done].
Qed.

Lemma keeps_try {A} (m : M S A) h : keeps P m -> (forall e, keeps P (h e)) -> keeps P (M_try m h).
Proof.
  intros Hm Hh s Hs. unfold M_try. specialize (Hm s Hs).
  destruct (m s) as [[a|e] s']; [done|by apply Hh].
Qed.

Lemma keeps_for {A} (body : A -> M S unit) l :
  (forall x, x ∈ l -> keeps P (body x)) -> keeps P (M_for body l).
Proof. intros Hb s Hs. apply M_for_invariant; [|done]. intros x s' Hx. by apply Hb. Qed.
End Keeps.

#[export] Hint Resolve keeps_ret keeps_get keeps_lift keeps_raise : keeps.

(** Descend through the binds and branches of a computation. *)
Ltac keeps_step :=
  match goal with
  | |- keeps _ (_ ≫= _) => apply keeps_bind; [|intros ?]
  | |- keeps _ (if ?b then _ else _) => destruct b
  | |- keeps _ (match ?x with _ => _ end) => destruct x
  | |- keeps _ (M_modify _) => apply keeps_modify; intros ? ?
  | |- keeps _ (M_try _ _) => apply keeps_try; [|intros ?]
  | |- keeps _ _ => solve [eauto with keeps]
  end.

(** Values read from the environment one after the other: the clock, random
    draws. *)
Record Readings (A : Type) := { reading : nat -> A; taken : nat }.
Arguments reading {A}.
Arguments taken {A}.

Definition next_reading {A} : M (Readings A) A := fun w =>
  (Ok (reading w (taken w)), {| reading := reading w; taken := S (taken w) |}).

(** Expose the state passing of an [M] computation. *)
Ltac M_unfold :=
  unfold mbind, M_bind, M_lift, M_get, M_put, M_modify, M_raise, M_try, mret, M_ret; cbn.

(** ** Decimal numerals

    Reading a numeral back gives the number: identifiers that embed a counter
    are distinct for distinct counters. *)

Fixpoint dec_value (acc : N) (s : string) : N :=
  match s with
  | EmptyString => acc
  | String c s => dec_value (acc * 10 + (Ascii.N_of_ascii c - 48))%N s
  end.

Lemma dec_value_digit acc d s :
  (d < 10)%N -> dec_value acc (String (pretty_N_char d) s) = dec_value (acc * 10 + d)%N s.
Proof.
  intros H. cbn. f_equal. f_equal.
  assert (Hd : forallb (fun d => (Ascii.N_of_ascii (pretty_N_char d) - 48 =? d)%N)
                 [0; 1; 2; 3; 4; 5; 6; 7; 8; 9]%N = true) by reflexivity.
  rewrite forallb_forall in Hd. apply N.eqb_eq, Hd. cbn. lia.
Qed.

Lemma dec_value_go x s : dec_value 0 (pretty_N_go x s) = dec_value x s.
Proof.
  revert s. induction (N.lt_wf_0 x) as [x _ IH]; intros s.
  destruct (decide (x = 0)%N) as [->|Hx]; [by rewrite pretty_N_go_0|].
  rewrite pretty_N_go_step by lia. rewrite IH by (apply N.div_lt; lia).
  rewrite dec_value_digit by (apply N.mod_lt; lia). f_equal.
  rewrite (N.mul_comm _ 10). symmetry. apply N.div_mod'.
Qed.

Lemma dec_value_pretty (z : Z) : (0 <= z)%Z -> dec_value 0 (pretty z) = Z.to_N z.
Proof.
  intros Hz. destruct z as [|p|p]; [done| |lia].
  change (dec_value 0 (pretty_N_go (N.pos p) "") = N.pos p). by rewrite dec_value_go.
Qed.

Lemma dec_value_zero_pad w s : dec_value 0 (zero_pad w s) = dec_value 0 s.
Proof. unfold zero_pad. induction (w - String.length s)%nat as [|n IH]; [done|]. exact IH. Qed.

Lemma zero_pad_inj w (a b : Z) :
  (0 <= a)%Z -> (0 <= b)%Z -> zero_pad w (pretty a) = zero_pad w (pretty b) -> a = b.
Proof.
  intros Ha Hb E. apply (f_equal (dec_value 0)) in E.
  rewrite !dec_value_zero_pad, !dec_value_pretty in E by done. lia.
Qed.
