(* ===== verification/PyFloat.v ===== *)
(** * Python [float]: IEEE-754 binary64

    A Python [float] is a [spec_float] of the standard library's executable
    specification of binary64 (53-bit mantissa, [emax = 1024]).  The
    operators are the correctly rounded IEEE ones; the Python-level
    operations that can raise ([/] by zero, [math.floor], [int()], [float()]
    of a huge [int]) return a [result].  The file also models the built-ins
    the platform uses on floats: [abs], [max]/[min], [round(x, n)],
    [sum] (compensated, as in CPython 3.12), [f"{x:.nf}"] and [repr].
    The second half is the theory of the float order used by the guards. *)

From Stdlib Require Import SpecFloat.
From S2P Require Import Prelude.
Local Open Scope Z_scope.

Abbreviation float := spec_float.

Definition prec : Z := 53.
Definition emax : Z := 1024.

Create HintDb pyfloat.

Declare Scope pf_scope.
Delimit Scope pf_scope with pf.

Definition fadd (x y : float) : float := SFadd prec emax x y.
Definition fsub (x y : float) : float := SFsub prec emax x y.
Definition fmul (x y : float) : float := SFmul prec emax x y.
Definition fdiv (x y : float) : float := SFdiv prec emax x y.
Definition fneg (x : float) : float := SFopp x.
Definition fabs (x : float) : float := SFabs x.
Definition flt (x y : float) : bool := SFltb x y.
Definition fle (x y : float) : bool := SFleb x y.
Definition feq (x y : float) : bool := SFeqb x y.

Notation "x + y" := (fadd x y) : pf_scope.
Notation "x - y" := (fsub x y) : pf_scope.
Notation "x * y" := (fmul x y) : pf_scope.
Notation "- x" := (fneg x) : pf_scope.
Notation "x <? y" := (flt x y) : pf_scope.
Notation "x <=? y" := (fle x y) : pf_scope.
Notation "x >? y" := (flt y x) (only parsing) : pf_scope.
Notation "x >=? y" := (fle y x) (only parsing) : pf_scope.
Notation "x =? y" := (feq x y) : pf_scope.

Definition f_inf : float := S754_infinity false.
Definition f_ninf : float := S754_infinity true.
Definition f_nan : float := S754_nan.
Definition f_zero : float := S754_zero false.

Definition is_nan (x : float) : bool :=
  match x with S754_nan => true | _ => false end.

Definition is_finite (x : float) : bool :=
  match x with S754_finite _ _ _ | S754_zero _ => true | _ => false end.

#[export] Instance spec_float_eq_dec : EqDecision spec_float.
Proof. solve_decision. Defined.

(** ** Exact rationals and correct rounding

    [fQ s n d] is the binary64 number nearest to [n/d] (ties to even), with
    the sign [s].  Decimal literals, [int/int] true division and [round]
    are instances of it. *)

Definition fQ (s : bool) (n : Z) (d : positive) : float :=
  if n =? 0 then S754_zero s
  else
    let '(q, e, l) := SFdiv_core_binary prec emax n 0 (Zpos d) 0 in
    binary_round_aux prec emax s q e l.

Definition fZ_sign (n : Z) (d : positive) : float :=
  fQ (n <? 0) (Z.abs n) d.

(** The literal [m * 10^-k], e.g. [dec 15 1] is [1.5]. *)
Definition dec (m : Z) (k : nat) : float := fZ_sign m (Z.to_pos (10 ^ Z.of_nat k)).

(** [float(n)] for an [int]: correctly rounded, [OverflowError] when too large. *)
Definition float_of_int (n : Z) : result float :=
  let x := binary_normalize prec emax n 0 false in
  if is_finite x then Ok x else Raise OverflowError.

(** [a / b] on two [int]s. *)
Definition int_truediv (a b : Z) : result float :=
  match b with
  | Z0 => Raise ZeroDivisionError
  | Zpos d => let x := fZ_sign a d in if is_finite x then Ok x else Raise OverflowError
  | Zneg d => let x := fZ_sign (- a) d in if is_finite x then Ok x else Raise OverflowError
  end.

Definition is_zero (x : float) : bool :=
  match x with S754_zero _ => true | _ => false end.

(** Python's [x / y]: dividing by a zero raises, whatever its sign. *)
Definition pydiv (x y : float) : result float :=
  if is_zero y then Raise ZeroDivisionError else Ok (fdiv x y).

(** A finite float as [(-1)^s * n / d]. *)
Definition to_rational (m : positive) (e : Z) : Z * positive :=
  match e with
  | Zneg p => (Zpos m, Pos.pow 2 p)
  | _ => (Zpos m * 2 ^ e, 1%positive)
  end.

(** Nearest integer to [n/d], ties to even, for [n >= 0]. *)
Definition round_half_even (n : Z) (d : positive) : Z :=
  let '(q, r) := Z.div_eucl n (Zpos d) in
  match 2 * r ?= Zpos d with
  | Lt => q
  | Gt => q + 1
  | Eq => if Z.even q then q else q + 1
  end.

(** [math.floor(x)]. *)
Definition floor (x : float) : result Z :=
  match x with
  | S754_nan => Raise (ValueError "cannot convert float NaN to integer")
  | S754_infinity _ => Raise OverflowError
  | S754_zero _ => Ok 0
  | S754_finite s m e =>
      let '(n, d) := to_rational m e in
      Ok (if s then (- n) / Zpos d else n / Zpos d)
  end.

(** [int(x)]: truncation towards zero. *)
Definition int_of_float (x : float) : result Z :=
  match x with
  | S754_nan => Raise (ValueError "cannot convert float NaN to integer")
  | S754_infinity _ => Raise OverflowError
  | S754_zero _ => Ok 0
  | S754_finite s m e =>
      let '(n, d) := to_rational m e in
      Ok (if s then - (n / Zpos d) else n / Zpos d)
  end.

(** [round(x, k)] for [k >= 0]: the exact decimal rounding (ties to even) of
    the binary value, then the nearest float. *)
Definition pyround (x : float) (k : nat) : float :=
  match x with
  | S754_finite s m e =>
      let '(n, d) := to_rational m e in
      fQ s (round_half_even (n * 10 ^ Z.of_nat k) d) (Z.to_pos (10 ^ Z.of_nat k))
  | _ => x
  end.

(** [max(a, b)] and [min(a, b)]: the first argument wins unless the second
    compares strictly better, so a NaN second argument is dropped. *)
Definition pymax (a b : float) : float := if flt a b then b else a.
Definition pymin (a b : float) : float := if flt b a then b else a.

(** [sum(l)] over floats: CPython 3.12 accumulates with Neumaier's
    compensation and adds it at the end when it is finite and non-zero. *)
Fixpoint neumaier (s c : float) (l : list float) : float :=
  match l with
  | [] => if is_finite c && negb (is_zero c) then fadd s c else s
  | x :: l =>
      let t := fadd s x in
      let c' :=
        if fle (fabs x) (fabs s) then fadd c (fadd (fsub s t) x)
        else fadd c (fadd (fsub x t) s) in
      neumaier t c' l
  end.

(** The first addition is [0 + x] with the [int] start value. *)
Definition pysum (l : list float) : float :=
  match l with
  | [] => f_zero
  | x :: l => neumaier (fadd f_zero x) f_zero l
  end.

(** [x > n] for an [int] [n]: Python compares the exact values. *)
Definition float_gt_int (x : float) (n : Z) : bool :=
  match x with
  | S754_nan => false
  | S754_infinity s => negb s
  | S754_zero _ => n <? 0
  | S754_finite s m e =>
      let '(p, d) := to_rational m e in n * Zpos d <? (if s then - p else p)
  end.

(** The nearest float of [(-1)^s * m * 10^k]. *)
Definition decimal_float (s : bool) (m k : Z) : float :=
  if m =? 0 then S754_zero s
  else if 0 <=? k then fQ s (m * 10 ^ k) 1
  else fQ s m (Z.to_pos (10 ^ (- k))).

(** ** Formatting *)

Definition digits_of (n : Z) : string := pretty (Z.to_N n).

(** [f"{x:.kf}"]. *)
Definition fmt_fixed (k : nat) (x : float) : string :=
  match x with
  | S754_nan => "nan"
  | S754_infinity s => if s then "-inf" else "inf"
  | _ =>
      let '(s, n) :=
        match x with
        | S754_finite s m e =>
            let '(n, d) := to_rational m e in
            (s, round_half_even (n * 10 ^ Z.of_nat k) d)
        | S754_zero s => (s, 0)
        | _ => (false, 0)
        end in
      let ds := zero_pad (S k) (digits_of n) in
      let ip := str_take (String.length ds - k) ds in
      let fp := String.substring (String.length ds - k) k ds in
      (if s : bool then "-" else "") +:+ ip +:+
        (match k with O => "" | _ => "." +:+ fp end)
  end.

(** [f"{x:+.kf}"]: as above with an explicit plus sign. *)
Definition fmt_fixed_signed (k : nat) (x : float) : string :=
  match x with
  | S754_infinity true | S754_finite true _ _ | S754_zero true => fmt_fixed k x
  | _ => "+" +:+ fmt_fixed k x
  end.

(** [f"{x:.2%}"] *)
Definition fmt_percent (k : nat) (x : float) : string :=
  fmt_fixed k (fmul x (dec 100 0)) +:+ "%".

Definition ndigits (n : Z) : Z :=
  if n <=? 0 then 0 else Z.of_nat (String.length (digits_of n)).

(** Decimal exponent of [n/d]: the [E] with [10^E <= n/d < 10^(E+1)]. *)
Definition dec_exponent (n : Z) (d : positive) : Z :=
  if Zpos d <=? n then ndigits (n / Zpos d) - 1
  else - ndigits ((Zpos d - 1) / n).

(** [n/d * 10^k] rounded to an integer. *)
Definition scaled (n : Z) (d : positive) (k : Z) : Z :=
  if 0 <=? k then round_half_even (n * 10 ^ k) d
  else round_half_even n (d * Z.to_pos (10 ^ (- k))).

(** [m * 10^k] as a float. *)
Definition of_decimal (m k : Z) : float :=
  if 0 <=? k then fQ false (m * 10 ^ k) 1 else fQ false m (Z.to_pos (10 ^ (- k))).

(** The shortest decimal [(m, k)] whose nearest float is [x], trying
    [p, p+1, ...] significant digits (17 always suffice).  The second
    candidate matters at powers of two, whose rounding interval is wider
    above than below. *)
Fixpoint shortest (fuel : nat) (p : Z) (x : float) (n : Z) (d : positive) : Z * Z :=
  let k := p - 1 - dec_exponent n d in
  let m := scaled n d k in
  match fuel with
  | O => (m, - k)
  | S fuel =>
      if feq (of_decimal m (- k)) x then (m, - k)
      else if feq (of_decimal (m + 1) (- k)) x then (m + 1, - k)
      else shortest fuel (p + 1) x n d
  end.

Fixpoint strip_zeros (fuel : nat) (m k : Z) : Z * Z :=
  match fuel with
  | O => (m, k)
  | S f => if (m mod 10 =? 0) && negb (m =? 0) then strip_zeros f (m / 10) (k + 1) else (m, k)
  end.

Definition repr_exponent (e : Z) : string :=
  (if e <? 0 then "-" else "+") +:+ zero_pad 2 (digits_of (Z.abs e)).

(** [repr(x)], the conversion used by [f"{x}"] and [str(x)]. *)
Definition repr (x : float) : string :=
  match x with
  | S754_nan => "nan"
  | S754_infinity s => if s then "-inf" else "inf"
  | S754_zero s => if s then "-0.0" else "0.0"
  | S754_finite s m e =>
      let '(n, d) := to_rational m e in
      let '(m0, k0) := shortest 16 1 (S754_finite false m e) n d in
      let '(dm, k) := strip_zeros 20 m0 k0 in
      let ds := digits_of dm in
      let len := Z.of_nat (String.length ds) in
      let point := len + k in
      (if s then "-" else "") +:+
      (if (point <=? -4) || (16 <? point) then
         str_take 1 ds +:+
         (if len =? 1 then "" else "." +:+ String.substring 1 (Z.to_nat len) ds) +:+
         "e" +:+ repr_exponent (point - 1)
       else if point <=? 0 then
         "0." +:+ str_repeat (Z.to_nat (- point)) "0"%char +:+ ds
       else if len <=? point then
         ds +:+ str_repeat (Z.to_nat (point - len)) "0"%char +:+ ".0"
       else
         str_take (Z.to_nat point) ds +:+ "." +:+
         String.substring (Z.to_nat point) (Z.to_nat len) ds)
  end.

#[global] Arguments fmt_fixed : simpl never.
#[global] Arguments fmt_fixed_signed : simpl never.
#[global] Arguments fmt_percent : simpl never.
#[global] Arguments repr : simpl never.
#[global] Arguments dec : simpl never.
#[global] Arguments fQ : simpl never.
#[global] Arguments pyround : simpl never.
#[global] Arguments fadd : simpl never.
#[global] Arguments fsub : simpl never.
#[global] Arguments fmul : simpl never.
#[global] Arguments fdiv : simpl never.
#[global] Arguments flt : simpl never.
#[global] Arguments fle : simpl never.
#[global] Arguments feq : simpl never.
#[global] Arguments float_of_int : simpl never.
#[global] Arguments int_truediv : simpl never.
#[global] Arguments floor : simpl never.
#[global] Arguments int_of_float : simpl never.
#[global] Arguments pysum : simpl never.

(** ** The order of non-NaN floats

    [key] embeds the non-NaN floats into lexicographically ordered triples
    (class, exponent, mantissa), negated for negative numbers; the float
    comparisons are the order of the keys. *)

Definition key (x : float) : Z * Z * Z :=
  match x with
  | S754_nan => (0, 0, 0)
  | S754_infinity s => (if s then -2 else 2, 0, 0)
  | S754_zero _ => (0, 0, 0)
  | S754_finite true m e => (-1, - e, Zneg m)
  | S754_finite false m e => (1, e, Zpos m)
  end.

Definition key_lt (a b : Z * Z * Z) : Prop :=
  let '(a1, a2, a3) := a in
  let '(b1, b2, b3) := b in
  a1 < b1 \/ (a1 = b1 /\ (a2 < b2 \/ (a2 = b2 /\ a3 < b3))).

Definition key_cmp (a b : Z * Z * Z) : comparison :=
  let '(a1, a2, a3) := a in
  let '(b1, b2, b3) := b in
  match a1 ?= b1 with
  | Eq => match a2 ?= b2 with Eq => a3 ?= b3 | c => c end
  | c => c
  end.

Lemma key_cmp_spec a b :
  match key_cmp a b with
  | Lt => key_lt a b
  | Eq => a = b
  | Gt => key_lt b a
  end.
Proof.
  destruct a as [[a1 a2] a3], b as [[b1 b2] b3]; cbn.
  destruct (Z.compare_spec a1 b1), (Z.compare_spec a2 b2), (Z.compare_spec a3 b3);
    subst; first [done | lia].
Qed.

Lemma SFcompare_key x y :
  SFcompare x y =
  if is_nan x || is_nan y then None else Some (key_cmp (key x) (key y)).
Proof.
  destruct x as [[]|[]| |[] mx ex], y as [[]|[]| |[] my ey]; cbn; try done.
  - rewrite Z.compare_opp, (Z.compare_antisym ex ey).
    destruct (ex ?= ey); reflexivity.
Qed.

Lemma flt_spec x y :
  flt x y = true <->
  is_nan x = false /\ is_nan y = false /\ key_lt (key x) (key y).
Proof.
  unfold flt, SFltb. rewrite SFcompare_key.
  pose proof (key_cmp_spec (key x) (key y)) as H.
  destruct (is_nan x), (is_nan y); cbn; try intuition congruence.
  destruct (key x) as [[a1 a2] a3], (key y) as [[b1 b2] b3], (key_cmp _ _);
    cbn in *; intuition (first [congruence | lia | simplify_eq; lia]).
Qed.

Lemma fle_spec x y :
  fle x y = true <->
  is_nan x = false /\ is_nan y = false /\ ~ key_lt (key y) (key x).
Proof.
  unfold fle, SFleb. rewrite SFcompare_key.
  pose proof (key_cmp_spec (key x) (key y)) as H.
  destruct (is_nan x), (is_nan y); cbn; try intuition congruence.
  destruct (key x) as [[a1 a2] a3], (key y) as [[b1 b2] b3], (key_cmp _ _);
    cbn in *; intuition (first [congruence | lia | simplify_eq; lia]).
Qed.

Lemma bool_false_iff (b : bool) (P : Prop) : (b = true <-> P) -> (b = false <-> ~ P).
Proof. destruct b; intuition congruence. Qed.

(** [float_order] decides goals about [flt] and [fle] from hypotheses about
    them by passing to the keys. *)
Ltac float_keys :=
  repeat match goal with
  | H : flt ?x ?y = true |- _ => apply flt_spec in H; destruct H as (? & ? & H)
  | H : fle ?x ?y = true |- _ => apply fle_spec in H; destruct H as (? & ? & H)
  | H : flt ?x ?y = false |- _ => apply (bool_false_iff _ _ (flt_spec x y)) in H
  | H : fle ?x ?y = false |- _ => apply (bool_false_iff _ _ (fle_spec x y)) in H
  | |- flt ?x ?y = true => apply flt_spec
  | |- fle ?x ?y = true => apply fle_spec
  | |- flt ?x ?y = false => apply (bool_false_iff _ _ (flt_spec x y))
  | |- fle ?x ?y = false => apply (bool_false_iff _ _ (fle_spec x y))
  end.

Ltac float_order :=
  float_keys;
  repeat match goal with H : context [key _] |- _ => revert H end;
  repeat match goal with
  | |- context [key ?x] => generalize (key x); intros [[? ?] ?]
  end;
  intros; unfold key_lt in *;
  intuition (first [congruence | lia]).

Section FloatOrder.
Context (x y z : float).

Lemma flt_irrefl : flt x x = false.
Proof. float_order. Qed.

Lemma fle_refl : is_nan x = false -> fle x x = true.
Proof. intros; float_order. Qed.

Lemma flt_trans : flt x y = true -> flt y z = true -> flt x z = true.
Proof. intros; float_order. Qed.

Lemma fle_trans : fle x y = true -> fle y z = true -> fle x z = true.
Proof. intros; float_order. Qed.

Lemma flt_fle_trans : flt x y = true -> fle y z = true -> flt x z = true.
Proof. intros; float_order. Qed.

Lemma fle_flt_trans : fle x y = true -> flt y z = true -> flt x z = true.
Proof. intros; float_order. Qed.

Lemma flt_fle : flt x y = true -> fle x y = true.
Proof. intros; float_order. Qed.

Lemma fle_not_flt : fle x y = true -> flt y x = false.
Proof. intros; float_order. Qed.

Lemma flt_not_fle : flt x y = true -> fle y x = false.
Proof. intros; float_order. Qed.

(** Without NaN the order is total, so a failed test is its converse. *)
Lemma flt_false_fle :
  is_nan x = false -> is_nan y = false -> flt x y = false -> fle y x = true.
Proof. intros; float_order. Qed.

Lemma fle_false_flt :
  is_nan x = false -> is_nan y = false -> fle x y = false -> flt y x = true.
Proof. intros; float_order. Qed.

Lemma flt_nan_l : is_nan x = true -> flt x y = false.
Proof. destruct x, y; done. Qed.

Lemma flt_nan_r : is_nan y = true -> flt x y = false.
Proof. destruct x, y; done. Qed.

Lemma fle_nan_l : is_nan x = true -> fle x y = false.
Proof. destruct x, y; done. Qed.

Lemma flt_not_nan : flt x y = true -> is_nan x = false /\ is_nan y = false.
Proof. intros; float_order. Qed.

Lemma fle_not_nan : fle x y = true -> is_nan x = false /\ is_nan y = false.
Proof. intros; float_order. Qed.

End FloatOrder.

(** ** Clamping and division *)

Lemma pymax_ge_l a b : is_nan a = false -> fle a (pymax a b) = true.
Proof.
  intros Ha. unfold pymax. destruct (flt a b) eqn:E; [by apply flt_fle | by apply fle_refl].
Qed.

Lemma pymin_le_l a b : is_nan a = false -> fle (pymin a b) a = true.
Proof.
  intros Ha. unfold pymin. destruct (flt b a) eqn:E; [by apply flt_fle | by apply fle_refl].
Qed.

(** [max(lo, min(hi, x))] stays inside [[lo, hi]] whatever [x] is, NaN and
    infinities included. *)
Lemma clamp_bounds lo hi x :
  fle lo hi = true ->
  fle lo (pymax lo (pymin hi x)) = true /\ fle (pymax lo (pymin hi x)) hi = true.
Proof.
  intros H. destruct (fle_not_nan _ _ H) as [Hlo Hhi]. split.
  - by apply pymax_ge_l.
  - unfold pymax. destruct (flt lo _) eqn:E; [by apply pymin_le_l | done].
Qed.

Lemma pydiv_nonzero x y : is_zero y = false -> pydiv x y = Ok (fdiv x y).
Proof. unfold pydiv. by intros ->. Qed.

Lemma pydiv_zero x y : is_zero y = true -> pydiv x y = Raise ZeroDivisionError.
Proof. unfold pydiv. by intros ->. Qed.

(** A guard [y <= 0 -> reject] protects the division that follows it. *)
Lemma fle_zero_false_nonzero y : fle y f_zero = false -> is_zero y = false.
Proof. by destruct y as [[]| | |]. Qed.

Lemma flt_zero_nonzero y : flt f_zero y = true -> is_zero y = false.
Proof. by destruct y as [[]| | |]. Qed.

#[export] Hint Resolve flt_fle fle_refl fle_trans flt_trans flt_fle_trans
  fle_flt_trans fle_zero_false_nonzero flt_zero_nonzero : pyfloat.

(** [math.floor] of a finite float never raises. *)
Lemma floor_finite x : is_finite x = true -> exists n, floor x = Ok n.
Proof.
  destruct x; intros H; cbn; try discriminate; eauto.
  unfold floor. destruct (to_rational _ _); eauto.
Qed.

Lemma fmul_zero_r x y : is_finite x = true -> is_zero y = true -> is_zero (fmul x y) = true.
Proof. by destruct x, y. Qed.

(** Zero divided by anything floors to zero, when it does not raise. *)
Lemma floor_zero_div x y q n :
  is_zero x = true -> pydiv x y = Ok q -> floor q = Ok n -> n = 0.
Proof.
  unfold pydiv. intros Hx. destruct (is_zero y) eqn:Hy; intros [= <-].
  destruct x, y; try discriminate; unfold fdiv, SFdiv, floor; intros; by simplify_eq.
Qed.
