(* ===== verification/PyDict.v ===== *)
(** * Insertion-ordered Python dictionaries

    A Python [dict] iterates in insertion order, and the reports that the
    platform builds (mismatch lists, candle flushes, recorded fills) expose
    that order.  A [dict K V] is therefore an association list with at most
    one binding per key: assignment updates a binding in place or appends a
    new one.  [to_gmap] relates it to the order-free finite map. *)

From S2P Require Import Prelude.

Create HintDb dict.
Create Rewrite HintDb dict.

Section Dict.
Context {K V : Type} `{EqDecision K}.

Definition dict : Type := list (K * V).

(** [d.get(k)] *)
Fixpoint dget (k : K) (d : list (K * V)) : option V :=
  match d with
  | [] => None
  | (k', v) :: d => if decide (k = k') then Some v else dget k d
  end.

(** [d[k] = v] *)
Fixpoint dset (k : K) (v : V) (d : list (K * V)) : list (K * V) :=
  match d with
  | [] => [(k, v)]
  | (k', v') :: d => if decide (k = k') then (k', v) :: d else (k', v') :: dset k v d
  end.

(** [d.pop(k, None)] *)
Fixpoint ddel (k : K) (d : list (K * V)) : list (K * V) :=
  match d with
  | [] => []
  | (k', v') :: d => if decide (k = k') then d else (k', v') :: ddel k d
  end.

Definition dkeys (d : list (K * V)) : list K := d.*1.
Definition dvalues (d : list (K * V)) : list V := d.*2.
Definition dmem (k : K) (d : list (K * V)) : bool :=
  match dget k d with Some _ => true | None => false end.

(** [{key(x): x for x in l}]: later items overwrite earlier ones in place. *)
Definition dict_of (key : V -> K) (l : list V) : list (K * V) :=
  foldl (fun d x => dset (key x) x d) [] l.

Lemma dget_dset k k' v d :
  dget k (dset k' v d) = if decide (k = k') then Some v else dget k d.
Proof.
  induction d as [|[k1 v1] d IH]; csimpl; [done|].
  repeat (case_decide; simplify_eq; csimpl; try done).
Qed.

Lemma dget_dset_eq k v d : dget k (dset k v d) = Some v.
Proof. rewrite dget_dset. by case_decide. Qed.

Lemma dget_dset_ne k k' v d : k <> k' -> dget k (dset k' v d) = dget k d.
Proof. intros. rewrite dget_dset. by case_decide. Qed.

Lemma dget_elem k v d : dget k d = Some v -> (k, v) ∈ d.
Proof.
  induction d as [|[k1 v1] d IH]; csimpl; [done|].
  case_decide; intros; simplify_eq; set_solver.
Qed.

Lemma dget_None k d : dget k d = None <-> k ∉ dkeys d.
Proof.
  induction d as [|[k1 v1] d IH]; csimpl; [set_solver|].
  unfold dkeys in *; csimpl. case_decide; set_solver.
Qed.

Lemma elem_dget k v d : NoDup (dkeys d) -> (k, v) ∈ d -> dget k d = Some v.
Proof.
  unfold dkeys. induction d as [|[k1 v1] d IH]; csimpl; [set_solver|].
  intros [Hn Hd]%NoDup_cons [Heq|Hin]%elem_of_cons.
  - simplify_eq. by case_decide.
  - case_decide as E; [|by apply IH].
    subst. exfalso. apply Hn. apply list_elem_of_fmap. by exists (k1, v).
Qed.

Lemma dkeys_dset k v d :
  dkeys (dset k v d) = if dmem k d then dkeys d else dkeys d ++ [k].
Proof.
  unfold dmem, dkeys. induction d as [|[k1 v1] d IH]; csimpl; [done|].
  case_decide; simplify_eq; csimpl; [done|]. rewrite IH. by destruct (dget k d).
Qed.

Lemma dset_NoDup k v d : NoDup (dkeys d) -> NoDup (dkeys (dset k v d)).
Proof.
  intros H. rewrite dkeys_dset. unfold dmem. destruct (dget k d) eqn:G; [done|].
  apply dget_None in G. apply NoDup_app; split; [done|]. split; [|apply NoDup_singleton].
  intros x Hx ->%list_elem_of_singleton. done.
Qed.

Lemma dset_fresh k v d : dget k d = None -> dset k v d = d ++ [(k, v)].
Proof.
  induction d as [|[k1 v1] d IH]; csimpl; [done|].
  case_decide; [done|]. intros Hd. by rewrite IH.
Qed.

Lemma dset_length k v d :
  length (dset k v d) = if dmem k d then length d else S (length d).
Proof.
  rewrite <- !(length_fmap fst). fold (dkeys (dset k v d)). rewrite dkeys_dset.
  unfold dkeys. destruct (dmem k d); [done|]. rewrite length_app. csimpl. lia.
Qed.

Lemma dget_ddel_ne k k' d : k <> k' -> dget k (ddel k' d) = dget k d.
Proof.
  intros Hne. induction d as [|[k1 v1] d IH]; csimpl; [done|].
  repeat (case_decide; simplify_eq; csimpl); done.
Qed.

Lemma dget_ddel_eq k d : NoDup (dkeys d) -> dget k (ddel k d) = None.
Proof.
  unfold dkeys. induction d as [|[k1 v1] d IH]; csimpl; [done|].
  intros [Hn Hd]%NoDup_cons. case_decide as E; simplify_eq; csimpl.
  - by apply dget_None.
  - rewrite decide_False by done. by apply IH.
Qed.

Lemma dkeys_ddel x k d : x ∈ dkeys (ddel k d) -> x ∈ dkeys d.
Proof.
  unfold dkeys. induction d as [|[k1 v1] d IH]; csimpl; [done|].
  case_decide; [by right|]. intros [->|Hx]%elem_of_cons; [by left|right; by apply IH].
Qed.

Lemma ddel_NoDup k d : NoDup (dkeys d) -> NoDup (dkeys (ddel k d)).
Proof.
  unfold dkeys. induction d as [|[k1 v1] d IH]; csimpl; [done|]. intros [Hk Hd]%NoDup_cons.
  case_decide; [done|]. csimpl. apply NoDup_cons. split; [|by apply IH].
  intros Hin. by apply Hk, (dkeys_ddel _ k).
Qed.

(** Every value of a dictionary satisfies [P] after an assignment when the
    new value does. *)
Lemma dset_Forall (P : K * V -> Prop) k v d :
  Forall P d -> (forall k', k = k' -> P (k', v)) -> Forall P (dset k v d).
Proof.
  intros Hd Hv. induction Hd as [|[k1 v1] d Hp Hd IH]; csimpl.
  - constructor; auto.
  - case_decide; constructor; auto.
Qed.

Lemma dict_of_snoc key l x : dict_of key (l ++ [x]) = dset (key x) x (dict_of key l).
Proof. unfold dict_of. by rewrite foldl_snoc. Qed.

Lemma dict_of_NoDup key l : NoDup (dkeys (dict_of key l)).
Proof.
  induction l as [|x l IH] using rev_ind; [constructor|].
  rewrite dict_of_snoc. by apply dset_NoDup.
Qed.

Lemma dict_of_key key l k x : dget k (dict_of key l) = Some x -> key x = k /\ x ∈ l.
Proof.
  induction l as [|y l IH] using rev_ind; [done|].
  rewrite dict_of_snoc, dget_dset. case_decide; intros; simplify_eq; set_solver.
Qed.

(** With pairwise distinct keys nothing is overwritten. *)
Lemma dict_of_get key l x :
  NoDup (key <$> l) -> x ∈ l -> dget (key x) (dict_of key l) = Some x.
Proof.
  induction l as [|y l IH] using rev_ind; [set_solver|].
  rewrite fmap_app, dict_of_snoc, dget_dset. intros (H1 & H2 & _)%NoDup_app Hx.
  apply elem_of_app in Hx as [Hx| ->%list_elem_of_singleton].
  - case_decide as E; [|by apply IH].
    exfalso. apply (H2 (key x)); [by apply list_elem_of_fmap_2|]. csimpl. set_solver.
  - by rewrite decide_True.
Qed.

Lemma dict_of_keys_elem key l k : k ∈ dkeys (dict_of key l) <-> k ∈ key <$> l.
Proof.
  induction l as [|y l IH] using rev_ind; [done|].
  rewrite dict_of_snoc, fmap_app, elem_of_app, <- IH, dkeys_dset. unfold dmem.
  destruct (dget (key y) (dict_of key l)) as [w|] eqn:G; [|by rewrite elem_of_app].
  split; [by left|]. intros [H|H]; [done|].
  apply list_elem_of_singleton in H as ->.
  destruct (decide (key y ∈ dkeys (dict_of key l))) as [|n]; [done|].
  apply dget_None in n. congruence.
Qed.

End Dict.

#[global] Arguments dict : clear implicits.

#[export] Hint Rewrite @dget_dset_eq : dict.
#[export] Hint Resolve dset_NoDup ddel_NoDup dict_of_NoDup : dict.
