(* ===== verification/Json.v ===== *)
(** * JSON documents

    The values of [json.dumps] and [json.loads].  Payloads of lists and
    streams are kept as values; the text form, for the documents stored under
    a key, is in [PyText]. *)

From S2P Require Import Prelude PyFloat PyDict.

Inductive json : Type :=
| JNull
| JBool (b : bool)
| JInt (z : Z)
| JFloat (f : float)
| JStr (s : string)
| JList (l : list json)
| JObj (fields : list (string * json)).

(** [data[key]] *)
Definition jfield (key : string) (data : json) : result json :=
  match data with
  | JObj fields =>
      match dget key fields with
      | Some v => Ok v
      | None => Raise (KeyError key)
      end
  | _ => Raise (TypeError "indices must be integers")
  end.

Definition jstr (v : json) : result string :=
  match v with JStr s => Ok s | _ => Raise (TypeError "str expected") end.

Definition jint (v : json) : result Z :=
  match v with JInt z => Ok z | _ => Raise (TypeError "int expected") end.

Definition jfield_str (key : string) (data : json) : result string := jfield key data ≫= jstr.
Definition jfield_int (key : string) (data : json) : result Z := jfield key data ≫= jint.
