(* ===== verification/PyText.v ===== *)
(** * Python's conversions from text

    [int(s)] and [float(s)] on decimal numerals (digit-group underscores are
    not modelled), and the text form of JSON: [json.dumps] with its default
    separators and ASCII escapes, and [json.loads].  A [\\u] escape above
    [00ff] has no character in the model and is rejected.  The round trip is
    proved for every document whose floats are written as numerals that read
    back, a decidable condition. *)

From Stdlib Require Import SpecFloat.
From S2P Require Import Prelude PyFloat PyDict Json.
Local Open Scope Z_scope.

(** ** Scanning *)

Definition is_digit (c : ascii) : bool :=
  let n := N_of_ascii c in (48 <=? n)%N && (n <=? 57)%N.

(** The longest prefix of characters satisfying [p], and the rest. *)
Fixpoint span (p : ascii -> bool) (s : string) : string * string :=
  match s with
  | EmptyString => ("", "")
  | String c s' => if p c then let '(a, b) := span p s' in (String c a, b) else ("", s)
  end.

(** An optional sign. *)
Definition read_sign (s : string) : bool * string :=
  match s with
  | String c s' =>
      if Ascii.eqb c "-" then (true, s') else if Ascii.eqb c "+" then (false, s') else (false, s)
  | EmptyString => (false, s)
  end.

Definition is_empty (s : string) : bool := String.eqb s "".

Definition digits_value (s : string) : Z := Z.of_N (dec_value 0 s).

Definition py_int (s : string) : result Z :=
  let '(neg, t) := read_sign (str_strip s) in
  let '(ds, r) := span is_digit t in
  if is_empty ds || negb (is_empty r) then
    Raise (ValueError "invalid literal for int() with base 10")
  else mret (if neg then - digits_value ds else digits_value ds).

Definition not_a_float : result float := Raise (ValueError "could not convert string to float").

Definition py_float (s : string) : result float :=
  let '(neg, t) := read_sign (str_strip s) in
  let low := str_lower t in
  if String.eqb low "inf" || String.eqb low "infinity" then mret (S754_infinity neg)
  else if String.eqb low "nan" then mret S754_nan
  else
    let '(ip, r) := span is_digit t in
    let '(fp, r) :=
      match r with
      | String c r' => if Ascii.eqb c "." then span is_digit r' else ("", r)
      | EmptyString => ("", r)
      end in
    let m := digits_value (ip +:+ fp) in
    let k := - Z.of_nat (String.length fp) in
    if is_empty ip && is_empty fp then not_a_float
    else match r with
         | EmptyString => mret (decimal_float neg m k)
         | String c r =>
             if Ascii.eqb (ascii_lower c) "e" then
               let '(eneg, r) := read_sign r in
               let '(ed, r) := span is_digit r in
               let e := digits_value ed in
               if is_empty ed || negb (is_empty r) then not_a_float
               else mret (decimal_float neg m (k + (if eneg then - e else e)))
             else not_a_float
         end.

(** ** Writing JSON *)

Definition dquote : ascii := "034"%char.
Definition backslash : ascii := "092"%char.

Definition hex_digit (n : N) : ascii := ascii_of_N (if (n <? 10)%N then 48 + n else 87 + n)%N.

Definition escape_with (c : ascii) : string := String backslash (String c "").

Definition json_escape (c : ascii) : string :=
  let n := N_of_ascii c in
  if Ascii.eqb c dquote || Ascii.eqb c backslash then escape_with c
  else if (n =? 8)%N then escape_with "b"
  else if (n =? 9)%N then escape_with "t"
  else if (n =? 10)%N then escape_with "n"
  else if (n =? 12)%N then escape_with "f"
  else if (n =? 13)%N then escape_with "r"
  else if (32 <=? n)%N && (n <=? 126)%N then String c ""
  else escape_with "u" +:+ "00" +:+
         String (hex_digit (n / 16)) (String (hex_digit (n mod 16)) "").

Fixpoint json_escapes (s : string) : string :=
  match s with
  | EmptyString => ""
  | String c s => json_escape c +:+ json_escapes s
  end.

Definition json_quote (s : string) : string := String dquote (json_escapes s +:+ String dquote "").

Definition json_float (x : float) : string :=
  match x with
  | S754_nan => "NaN"
  | S754_infinity s => if s then "-Infinity" else "Infinity"
  | _ => repr x
  end.

Fixpoint json_dumps (v : json) : string :=
  match v with
  | JNull => "null"
  | JBool b => if b then "true" else "false"
  | JInt z => pretty z
  | JFloat x => json_float x
  | JStr s => json_quote s
  | JList l => "[" +:+ str_join ", " (map json_dumps l) +:+ "]"
  | JObj fields =>
      "{" +:+ str_join ", " (map (fun kv => json_quote kv.1 +:+ ": " +:+ json_dumps kv.2) fields) +:+ "}"
  end.

(** ** Reading JSON *)

Definition json_ws (c : ascii) : bool :=
  let n := N_of_ascii c in (n =? 32)%N || (n =? 9)%N || (n =? 10)%N || (n =? 13)%N.

Fixpoint skip_ws (s : string) : string :=
  match s with
  | EmptyString => ""
  | String c s' => if json_ws c then skip_ws s' else s
  end.

(** The rest of [s] after the prefix [p]. *)
Fixpoint strip_prefix (p s : string) : option string :=
  match p, s with
  | EmptyString, _ => Some s
  | String a p, String b s => if Ascii.eqb a b then strip_prefix p s else None
  | String _ _, EmptyString => None
  end.

Definition hex_value (c : ascii) : option N :=
  let n := N_of_ascii c in
  if (48 <=? n)%N && (n <=? 57)%N then Some (n - 48)%N
  else if (97 <=? n)%N && (n <=? 102)%N then Some (n - 87)%N
  else if (65 <=? n)%N && (n <=? 70)%N then Some (n - 55)%N
  else None.

Definition unescape (c : ascii) : option ascii :=
  if Ascii.eqb c dquote || Ascii.eqb c backslash || Ascii.eqb c "/" then Some c
  else if Ascii.eqb c "b" then Some "008"%char
  else if Ascii.eqb c "t" then Some "009"%char
  else if Ascii.eqb c "n" then Some "010"%char
  else if Ascii.eqb c "f" then Some "012"%char
  else if Ascii.eqb c "r" then Some "013"%char
  else None.

(** The body of a string literal, after its opening quote. *)
Fixpoint parse_string (s : string) : option (string * string) :=
  match s with
  | EmptyString => None
  | String c s =>
      if Ascii.eqb c dquote then Some ("", s)
      else if Ascii.eqb c backslash then
        match s with
        | EmptyString => None
        | String e s =>
            if Ascii.eqb e "u" then
              match s with
              | String h3 (String h2 (String h1 (String h0 s))) =>
                  match hex_value h3, hex_value h2, hex_value h1, hex_value h0 with
                  | Some 0%N, Some 0%N, Some n1, Some n0 =>
                      '(x, y) ← parse_string s; Some (String (ascii_of_N (16 * n1 + n0)) x, y)
                  | _, _, _, _ => None
                  end
              | _ => None
              end
            else
              match unescape e with
              | Some d => '(x, y) ← parse_string s; Some (String d x, y)
              | None => None
              end
        end
      else if (N_of_ascii c <? 32)%N then None
      else '(x, y) ← parse_string s; Some (String c x, y)
  end.

Definition num_char (c : ascii) : bool :=
  is_digit c || Ascii.eqb c "+" || Ascii.eqb c "-" || Ascii.eqb c "." || Ascii.eqb c "e"
  || Ascii.eqb c "E".

(** A fraction [.d+] and an exponent [e[+-]d+], both optional, and nothing else. *)
Definition is_exponent (s : string) : bool :=
  match s with
  | EmptyString => true
  | String c r =>
      if Ascii.eqb (ascii_lower c) "e" then
        let '(ed, r) := span is_digit (read_sign r).2 in negb (is_empty ed) && is_empty r
      else false
  end.

Definition is_fraction_exponent (s : string) : bool :=
  match s with
  | String c r =>
      if Ascii.eqb c "." then
        let '(fp, r) := span is_digit r in negb (is_empty fp) && is_exponent r
      else is_exponent s
  | EmptyString => true
  end.

(** A whole number token: an [int] without, a [float] with fraction or exponent. *)
Definition parse_number (tok : string) : option json :=
  let '(neg, t) := match strip_prefix "-" tok with Some t => (true, t) | None => (false, tok) end in
  let '(ip, r) := span is_digit t in
  if is_empty ip || (bool_decide (is_Some (strip_prefix "0" ip)) && (1 <? String.length ip)%nat) then None
  else if is_empty r then Some (JInt (if neg then - digits_value ip else digits_value ip))
  else if is_fraction_exponent r then
    match py_float tok with Ok x => Some (JFloat x) | Raise _ => None end
  else None.

Definition parse_atom (s : string) : option (json * string) :=
  let '(tok, rest) := span num_char s in
  match parse_number tok with
  | Some v => Some (v, rest)
  | None =>
      match strip_prefix "null" s, strip_prefix "true" s, strip_prefix "false" s,
            strip_prefix "NaN" s, strip_prefix "Infinity" s, strip_prefix "-Infinity" s with
      | Some r, _, _, _, _, _ => Some (JNull, r)
      | _, Some r, _, _, _, _ => Some (JBool true, r)
      | _, _, Some r, _, _, _ => Some (JBool false, r)
      | _, _, _, Some r, _, _ => Some (JFloat S754_nan, r)
      | _, _, _, _, Some r, _ => Some (JFloat (S754_infinity false), r)
      | _, _, _, _, _, Some r => Some (JFloat (S754_infinity true), r)
      | _, _, _, _, _, _ => None
      end
  end.

(** The characters that continue or close a container. *)
Definition after_item (close : ascii) (s : string) : option (bool * string) :=
  match skip_ws s with
  | String c r =>
      if Ascii.eqb c "," then Some (true, skip_ws r)
      else if Ascii.eqb c close then Some (false, r) else None
  | EmptyString => None
  end.

Fixpoint parse_value (fuel : nat) (s : string) {struct fuel} : option (json * string) :=
  match fuel, s with
  | S n, String c r =>
      if Ascii.eqb c dquote then '(x, y) ← parse_string r; Some (JStr x, y)
      else if Ascii.eqb c "[" then
        match strip_prefix "]" (skip_ws r) with
        | Some r' => Some (JList [], r')
        | None => '(l, r') ← parse_items n (skip_ws r); Some (JList l, r')
        end
      else if Ascii.eqb c "{" then
        match strip_prefix "}" (skip_ws r) with
        | Some r' => Some (JObj [], r')
        | None => '(l, r') ← parse_members n (skip_ws r);
                  Some (JObj (fold_left (fun d kv => dset kv.1 kv.2 d) l []), r')
        end
      else parse_atom s
  | _, _ => None
  end
with parse_items (fuel : nat) (s : string) {struct fuel} : option (list json * string) :=
  match fuel with
  | S n =>
      '(v, r) ← parse_value n s;
      '(more, r) ← after_item "]" r;
      if (more : bool) then '(l, r') ← parse_items n r; Some (v :: l, r') else Some ([v], r)
  | O => None
  end
with parse_members (fuel : nat) (s : string) {struct fuel} : option (list (string * json) * string) :=
  match fuel, s with
  | S n, String c r =>
      if Ascii.eqb c dquote then
        '(k, r) ← parse_string r;
        r ← strip_prefix ":" (skip_ws r);
        '(v, r) ← parse_value n (skip_ws r);
        '(more, r) ← after_item "}" r;
        if (more : bool) then '(l, r') ← parse_members n r; Some ((k, v) :: l, r')
        else Some ([(k, v)], r)
      else None
  | _, _ => None
  end.

(** [json.loads(s)]: the fuel exceeds the length of the text, hence the
    nesting and the number of items. *)
Definition json_loads (s : string) : result json :=
  match parse_value (S (String.length s)) (skip_ws s) with
  | Some (v, r) => if is_empty (skip_ws r) then mret v else Raise (ValueError "Extra data")
  | None => Raise (ValueError "Expecting value")
  end.

(** ** Facts about scanning *)

Fixpoint str_forall (p : ascii -> bool) (s : string) : bool :=
  match s with
  | EmptyString => true
  | String c s => p c && str_forall p s
  end.

Definition head_not (p : ascii -> bool) (s : string) : bool :=
  match s with
  | EmptyString => true
  | String c _ => negb (p c)
  end.

Lemma str_cons_app c a b : String c a +:+ b = String c (a +:+ b).
Proof. reflexivity. Qed.

Lemma str_nil_app b : "" +:+ b = b.
Proof. reflexivity. Qed.

Lemma str_app_nil_r a : a +:+ "" = a.
Proof. induction a as [|c a IH]; [done|]. by rewrite str_cons_app, IH. Qed.

Lemma str_length_app a b : String.length (a +:+ b) = (String.length a + String.length b)%nat.
Proof. induction a as [|c a IH]; [done|]. rewrite str_cons_app. cbn. by rewrite IH. Qed.

Lemma str_forall_app p a b : str_forall p (a +:+ b) = str_forall p a && str_forall p b.
Proof. induction a as [|c a IH]; [done|]. rewrite str_cons_app. cbn. by rewrite IH, andb_assoc. Qed.

Lemma str_forall_impl (p q : ascii -> bool) s :
  (forall c, p c = true -> q c = true) -> str_forall p s = true -> str_forall q s = true.
Proof.
  intros Hpq. induction s as [|c s IH]; [done|]. cbn.
  intros [Hc Hs]%andb_true_iff. by rewrite (Hpq c Hc), (IH Hs).
Qed.

Lemma span_app p a r :
  str_forall p a = true -> head_not p r = true -> span p (a +:+ r) = (a, r).
Proof.
  intros Ha Hr. induction a as [|c a IH].
  - rewrite str_nil_app. destruct r as [|c r]; [done|]. cbn in Hr |- *.
    apply negb_true_iff in Hr. by rewrite Hr.
  - rewrite str_cons_app. cbn in Ha |- *. apply andb_true_iff in Ha as [-> Ha]. by rewrite IH.
Qed.

Lemma span_all p a : str_forall p a = true -> span p a = (a, "").
Proof.
  intros Ha. induction a as [|c a IH]; [done|]. cbn in Ha |- *.
  apply andb_true_iff in Ha as [-> Ha]. by rewrite IH.
Qed.

Lemma skip_ws_id s : head_not json_ws s = true -> skip_ws s = s.
Proof. destruct s as [|c s]; [done|]. cbn. intros H%negb_true_iff. by rewrite H. Qed.

Lemma strip_prefix_app p s : strip_prefix p (p +:+ s) = Some s.
Proof. induction p as [|c p IH]; [by destruct s|]. rewrite str_cons_app. cbn. by rewrite Ascii.eqb_refl. Qed.

(** ** Decimal numerals of integers *)

Lemma pretty_char_digit d : (d < 10)%N -> is_digit (pretty_N_char d) = true.
Proof.
  intros H.
  assert (Hd : forallb (fun d => is_digit (pretty_N_char d)) [0; 1; 2; 3; 4; 5; 6; 7; 8; 9]%N = true)
    by reflexivity.
  rewrite forallb_forall in Hd. apply Hd. cbn. lia.
Qed.

Lemma pretty_go_digits x s :
  str_forall is_digit s = true -> str_forall is_digit (pretty_N_go x s) = true.
Proof.
  revert s. induction (N.lt_wf_0 x) as [x _ IH]; intros s Hs.
  destruct (decide (x = 0)%N) as [->|Hx]; [by rewrite pretty_N_go_0|].
  rewrite pretty_N_go_step by lia. apply IH; [apply N.div_lt; lia|].
  cbn. rewrite Hs, pretty_char_digit by (apply N.mod_lt; lia). done.
Qed.

(** The numeral of a positive number starts with a digit other than 0. *)
Lemma pretty_go_head x s : (0 < x)%N ->
  exists c r, pretty_N_go x s = String c r /\ is_digit c = true /\ Ascii.eqb "0" c = false.
Proof.
  revert s. induction (N.lt_wf_0 x) as [x _ IH]; intros s Hx.
  rewrite pretty_N_go_step by lia. destruct (decide (x / 10 = 0)%N) as [E|E].
  - rewrite E, pretty_N_go_0. apply N.div_small_iff in E; [|lia].
    rewrite N.mod_small by done. eexists _, _. split; [done|].
    split; [by apply pretty_char_digit|].
    assert (Hd : forallb (fun d => negb (Ascii.eqb "0" (pretty_N_char d))) [1; 2; 3; 4; 5; 6; 7; 8; 9]%N
                 = true) by reflexivity.
    rewrite forallb_forall in Hd. apply negb_true_iff, Hd. cbn. lia.
  - apply IH; [apply N.div_lt; lia | by apply N.neq_0_lt_0].
Qed.

Lemma pretty_pos p : exists c r, pretty (Zpos p) = String c r
  /\ str_forall is_digit (String c r) = true /\ Ascii.eqb "0" c = false.
Proof.
  change (pretty (Zpos p)) with (pretty_N_go (Npos p) "").
  destruct (pretty_go_head (Npos p) "") as (c & r & E & _ & H0); [lia|].
  exists c, r. split_and!; [done| |done]. rewrite <- E. by apply pretty_go_digits.
Qed.

Lemma pretty_neg p : pretty (Zneg p) = String "-" (pretty (Zpos p)).
Proof. reflexivity. Qed.

Lemma digit_num c : is_digit c = true -> num_char c = true.
Proof. unfold num_char. by intros ->. Qed.

Lemma parse_number_digits neg tok c r :
  match strip_prefix "-" tok with Some t => (true, t) | None => (false, tok) end = (neg, String c r) ->
  str_forall is_digit (String c r) = true -> Ascii.eqb "0" c = false ->
  parse_number tok = Some (JInt (if neg : bool then - digits_value (String c r) else digits_value (String c r))).
Proof.
  intros E Hd H0. unfold parse_number. rewrite E, span_all by done. cbn [is_empty String.eqb orb].
  cbn [strip_prefix]. rewrite H0. cbn. done.
Qed.

Lemma digit_not_minus c : is_digit c = true -> Ascii.eqb "-" c = false.
Proof. destruct (Ascii.eqb_spec "-" c) as [<-|]; done. Qed.

Lemma strip_minus_digit c r : is_digit c = true -> strip_prefix "-" (String c r) = None.
Proof. intros H. cbn [strip_prefix]. by rewrite digit_not_minus. Qed.

Lemma str_forall_head p c r : str_forall p (String c r) = true -> p c = true.
Proof. cbn. by intros [? _]%andb_true_iff. Qed.

Lemma parse_number_pretty z :
  parse_number (pretty z) = Some (JInt z) /\ str_forall num_char (pretty z) = true
  /\ head_not (fun c => negb (num_char c)) (pretty z) = true /\ pretty z <> "".
Proof.
  destruct z as [|p|p]; [done| |].
  - destruct (pretty_pos p) as (c & r & E & Hd & H0).
    assert (Hv : digits_value (pretty (Zpos p)) = Zpos p).
    { unfold digits_value. rewrite dec_value_pretty by lia. done. }
    rewrite E in *. split_and!; [|by eapply str_forall_impl, Hd; apply digit_num| |done].
    + rewrite (parse_number_digits false _ c r); [by rewrite Hv| |done|done].
      by rewrite strip_minus_digit by (by eapply str_forall_head).
    + cbn [head_not]. by rewrite digit_num by (by eapply str_forall_head).
  - rewrite pretty_neg. destruct (pretty_pos p) as (c & r & E & Hd & H0).
    assert (Hv : digits_value (pretty (Zpos p)) = Zpos p).
    { unfold digits_value. rewrite dec_value_pretty by lia. done. }
    rewrite E in *. split_and!; [| |done|done].
    + rewrite (parse_number_digits true _ c r); [by rewrite Hv|done|done|done].
    + exact (str_forall_impl is_digit num_char (String c r) digit_num Hd).
Qed.

(** ** String literals *)

Lemma parse_escaped c s :
  parse_string (json_escape c +:+ s) = '(x, y) ← parse_string s; Some (String c x, y).
Proof. destruct c as [[][][][][][][][]]; reflexivity. Qed.

Lemma parse_string_quote s r : parse_string (json_escapes s +:+ String dquote r) = Some (s, r).
Proof.
  induction s as [|c s IH]; [done|].
  change (json_escapes (String c s)) with (json_escape c +:+ json_escapes s).
  by rewrite str_app_assoc, parse_escaped, IH.
Qed.

Lemma json_quote_app s r : json_quote s +:+ r = String dquote (json_escapes s +:+ String dquote r).
Proof.
  unfold json_quote. rewrite str_cons_app, str_app_assoc. done.
Qed.

(** ** Conversions of JSON values *)

(** [bool(v)] *)
Definition truthy (v : json) : bool :=
  match v with
  | JNull => false
  | JBool b => b
  | JInt z => negb (z =? 0)
  | JFloat x => negb (is_zero x)
  | JStr s => negb (is_empty s)
  | JList l => match l with [] => false | _ => true end
  | JObj l => match l with [] => false | _ => true end
  end.

(** [float(v)] and [int(v)] of a JSON value. *)
Definition json_to_float (v : json) : result float :=
  match v with
  | JFloat x => mret x
  | JInt z => float_of_int z
  | JBool b => mret (if b then dec 1 0 else f_zero)
  | JStr s => py_float s
  | _ => Raise (TypeError "float() argument")
  end.

Definition json_to_int (v : json) : result Z :=
  match v with
  | JInt z => mret z
  | JFloat x => int_of_float x
  | JBool b => mret (Z.b2z b)
  | JStr s => py_int s
  | _ => Raise (TypeError "int() argument")
  end.

(** [repr(v)] and [str(v)]; the characters of strings are not escaped. *)
Fixpoint py_repr (v : json) : string :=
  match v with
  | JNull => "None"
  | JBool b => if b then "True" else "False"
  | JInt z => pretty z
  | JFloat x => repr x
  | JStr s => "'" +:+ s +:+ "'"
  | JList l => "[" +:+ str_join ", " (map py_repr l) +:+ "]"
  | JObj fields =>
      "{" +:+ str_join ", " (map (fun kv => match kv with (k, v) => "'" +:+ k +:+ "': " +:+ py_repr v end) fields)
      +:+ "}"
  end.

Definition py_str (v : json) : string :=
  match v with JStr s => s | _ => py_repr v end.

(** [float(str(v))] *)
Definition json_text_float (v : json) : result float := py_float (py_str v).

(** [s.replace(c, "")] for a single character *)
Fixpoint str_without (c : ascii) (s : string) : string :=
  match s with
  | EmptyString => ""
  | String d s => if Ascii.eqb d c then str_without c s else String d (str_without c s)
  end.

(** [sub in s] *)
Fixpoint str_contains (sub s : string) : bool :=
  match strip_prefix sub s with
  | Some _ => true
  | None => match s with EmptyString => false | String _ s => str_contains sub s end
  end.

(** ** Round trip *)

(** A document that [json.dumps] writes faithfully: the numerals of its
    finite floats read back, and its objects, being dictionaries, have
    distinct keys. *)
Fixpoint json_ok (v : json) : Prop :=
  match v with
  | JFloat x =>
      is_finite x = true -> parse_number (repr x) = Some (JFloat x) /\ str_forall num_char (repr x) = true
                            /\ head_not (fun c => negb (num_char c)) (repr x) = true /\ repr x <> ""
  | JList l => foldr (fun v P => json_ok v /\ P) True l
  | JObj fields => NoDup (dkeys fields) /\ foldr (fun kv P => json_ok kv.2 /\ P) True fields
  | _ => True
  end.

(** A boolean form of [json_ok] on floats. *)
Definition float_reads (x : float) : bool :=
  match parse_number (repr x) with Some (JFloat y) => bool_decide (y = x) | _ => false end
  && str_forall num_char (repr x) && head_not (fun c => negb (num_char c)) (repr x) && negb (is_empty (repr x)).

Lemma float_reads_ok x : float_reads x = true -> json_ok (JFloat x).
Proof.
  unfold float_reads. rewrite !andb_true_iff, negb_true_iff. intros [[[Hp ?] ?] He] _. split_and!; try done.
  - destruct (parse_number (repr x)) as [[]|]; try done. by apply bool_decide_eq_true in Hp as ->.
  - intros Hr. by rewrite Hr in He.
Qed.

Section json_ind.
Context (P : json -> Prop)
  (Hatom : forall v, match v with JList _ | JObj _ => False | _ => True end -> P v)
  (Hlist : forall l, Forall P l -> P (JList l))
  (Hobj : forall fields, Forall (fun kv => P kv.2) fields -> P (JObj fields)).

Fixpoint json_rect_nested (v : json) : P v :=
  match v with
  | JList l =>
      Hlist l ((fix go l := match l return Forall P l with
                            | [] => List.Forall_nil P
                            | x :: l => List.Forall_cons P _ _ (json_rect_nested x) (go l)
                            end) l)
  | JObj fields =>
      Hobj fields ((fix go l := match l return Forall (fun kv => P kv.2) l with
                                | [] => List.Forall_nil _
                                | kv :: l => List.Forall_cons (fun kv => P kv.2) _ _ (json_rect_nested kv.2) (go l)
                                end) fields)
  | JNull => Hatom JNull I
  | JBool b => Hatom (JBool b) I
  | JInt z => Hatom (JInt z) I
  | JFloat x => Hatom (JFloat x) I
  | JStr s => Hatom (JStr s) I
  end.
End json_ind.

(** What may follow a value: not another character of a number. *)
Abbreviation stops r := (head_not num_char r = true).

Lemma parse_number_token tok v r :
  parse_number tok = Some v -> str_forall num_char tok = true -> stops r ->
  parse_atom (tok +:+ r) = Some (v, r).
Proof. intros Hp Ht Hr. unfold parse_atom. by rewrite span_app, Hp. Qed.

Lemma parse_value_atom n c s :
  Ascii.eqb c dquote = false -> Ascii.eqb c "[" = false -> Ascii.eqb c "{" = false ->
  parse_value (S n) (String c s) = parse_atom (String c s).
Proof. intros H1 H2 H3. cbn [parse_value]. by rewrite H1, H2, H3. Qed.

Lemma num_char_plain c : num_char c = true ->
  Ascii.eqb c dquote = false /\ Ascii.eqb c "[" = false /\ Ascii.eqb c "{" = false /\ json_ws c = false.
Proof. destruct c as [[][][][][][][][]]; vm_compute; auto. Qed.

Lemma parse_value_number n tok v r :
  parse_number tok = Some v -> str_forall num_char tok = true ->
  head_not (fun c => negb (num_char c)) tok = true -> tok <> "" -> stops r ->
  parse_value (S n) (tok +:+ r) = Some (v, r).
Proof.
  intros Hp Ht Hh He Hr. destruct tok as [|c tok]; [done|]. rewrite str_cons_app.
  destruct (num_char_plain c) as (H1 & H2 & H3 & _); [by eapply str_forall_head|].
  rewrite parse_value_atom, <- str_cons_app by done. by apply parse_number_token.
Qed.

Definition reads (v : json) : Prop :=
  forall n r, stops r -> (String.length (json_dumps v) < n)%nat ->
    parse_value n (json_dumps v +:+ r) = Some (v, r).

(** A written value starts neither with a blank nor with a closing bracket. *)
Definition opening (c : ascii) : bool :=
  negb (json_ws c) && negb (Ascii.eqb "]" c) && negb (Ascii.eqb "}" c).

Lemma num_char_opening c : num_char c = true -> opening c = true.
Proof. destruct c as [[][][][][][][][]]; vm_compute; auto. Qed.

Lemma number_opening tok :
  str_forall num_char tok = true -> tok <> "" -> exists c t, tok = String c t /\ opening c = true.
Proof.
  destruct tok as [|c t]; [done|]. intros Ht _. exists c, t. split; [done|].
  apply num_char_opening. by eapply str_forall_head.
Qed.

Lemma json_float_special x : is_finite x = false -> json_float x = "NaN" /\ x = S754_nan
  \/ json_float x = "Infinity" /\ x = S754_infinity false
  \/ json_float x = "-Infinity" /\ x = S754_infinity true.
Proof. destruct x as [|[]| |]; cbn; intros; try done; auto. Qed.

Lemma json_float_finite x : is_finite x = true -> json_float x = repr x.
Proof. by destruct x. Qed.

Lemma dumps_opening v : json_ok v -> exists c t, json_dumps v = String c t /\ opening c = true.
Proof.
  destruct v as [|[]|z|x|s|l|l]; intros Hok; try (by eexists _, _).
  - destruct (parse_number_pretty z) as (_ & Hn & _ & He). by apply number_opening.
  - destruct (is_finite x) eqn:Ex.
    + destruct (Hok Ex) as (_ & Hn & _ & He).
      change (json_dumps (JFloat x)) with (json_float x). rewrite json_float_finite by done.
      by apply number_opening.
    + change (json_dumps (JFloat x)) with (json_float x).
      destruct (json_float_special x Ex) as [[-> _]|[[-> _]|[-> _]]]; by eexists _, _.
Qed.

Lemma skip_ws_opening c t : opening c = true -> skip_ws (String c t) = String c t.
Proof.
  intros [[H _]%andb_true_iff _]%andb_true_iff. apply skip_ws_id. exact H.
Qed.

Lemma strip_opening c t : opening c = true ->
  strip_prefix "]" (String c t) = None /\ strip_prefix "}" (String c t) = None.
Proof.
  intros [[_ H1%negb_true_iff]%andb_true_iff H2%negb_true_iff]%andb_true_iff.
  cbn [strip_prefix]. by rewrite H1, H2.
Qed.

Lemma after_item_more close c t : opening c = true ->
  after_item close (", " +:+ String c t) = Some (true, String c t).
Proof.
  intros H. change (after_item close (", " +:+ String c t)) with (Some (true, skip_ws (String c t))).
  by rewrite skip_ws_opening.
Qed.

Lemma atom_reads v : match v with JList _ | JObj _ => False | _ => True end -> json_ok v -> reads v.
Proof.
  destruct v as [|b|z|x|s|l|l]; intros Hv Hok n r Hr Hn; try done; (destruct n as [|n]; [lia|]).
  - done.
  - by destruct b.
  - destruct (parse_number_pretty z) as (Hp & Ht & Hh & He). by apply parse_value_number.
  - change (json_dumps (JFloat x)) with (json_float x). destruct (is_finite x) eqn:Ex.
    + rewrite json_float_finite by done. destruct (Hok Ex) as (Hp & Ht & Hh & He).
      by apply parse_value_number.
    + by destruct (json_float_special x Ex) as [[-> ->]|[[-> ->]|[-> ->]]].
  - change (json_dumps (JStr s)) with (json_quote s). rewrite json_quote_app.
    cbn [parse_value]. rewrite Ascii.eqb_refl, parse_string_quote. done.
Qed.

Lemma items_read l : l <> [] -> Forall json_ok l -> Forall reads l ->
  forall n r, (String.length (str_join ", " (map json_dumps l)) + 1 < n)%nat ->
    parse_items n (str_join ", " (map json_dumps l) +:+ "]" +:+ r) = Some (l, r).
Proof.
  induction l as [|v l IH]; [done|]. intros _ Hok Hread n r Hn.
  apply Forall_cons in Hok as [Hv Hok], Hread as [Rv Hread]. destruct n as [|n]; [lia|].
  destruct l as [|w l].
  - cbn [map str_join] in *. cbn [parse_items]. rewrite Rv by (done || lia). done.
  - cbn [map] in *. set (rest := str_join ", " (json_dumps w :: map json_dumps l)) in *.
    change (str_join ", " (json_dumps v :: json_dumps w :: map json_dumps l))
      with (json_dumps v +:+ ", " +:+ rest) in *.
    rewrite !str_length_app in Hn. rewrite !str_app_assoc. cbn [parse_items].
    rewrite Rv by (done || lia). cbn [mbind option_bind].
    assert (Hhead : exists c t, rest +:+ "]" +:+ r = String c t /\ opening c = true).
    { apply Forall_cons in Hok as [Hw _]. destruct (dumps_opening w Hw) as (c & t & E & Hc).
      unfold rest. destruct l as [|u l]; cbn [map str_join]; rewrite E, !str_cons_app; by eexists _, _. }
    destruct Hhead as (c & t & E & Hc). rewrite E, after_item_more, <- E by done.
    cbn [mbind option_bind]. rewrite (IH ltac:(done) Hok Hread); [done|]. change (String.length ", ") with 2%nat in Hn.
    change (String.length rest + 1 < n)%nat. lia.
Qed.

Definition member (kv : string * json) : string := json_quote kv.1 +:+ ": " +:+ json_dumps kv.2.

Lemma member_app kv r :
  member kv +:+ r = String dquote (json_escapes kv.1 +:+ String dquote (": " +:+ json_dumps kv.2 +:+ r)).
Proof. unfold member. rewrite !str_app_assoc, json_quote_app. done. Qed.

Lemma members_read l : l <> [] -> Forall (fun kv => json_ok kv.2) l -> Forall (fun kv => reads kv.2) l ->
  forall n r, (String.length (str_join ", " (map member l)) + 1 < n)%nat ->
    parse_members n (str_join ", " (map member l) +:+ "}" +:+ r) = Some (l, r).
Proof.
  assert (Hval : forall k v n r, json_ok v -> reads v -> stops r ->
    (String.length (member (k, v)) < n)%nat ->
    ('(k, r) ← parse_string (json_escapes k +:+ String dquote (": " +:+ json_dumps v +:+ r));
     r ← strip_prefix ":" (skip_ws r);
     '(v, r) ← parse_value n (skip_ws r); Some (k, v, r)) = Some (k, v, r)).
  { intros k v n r Hok Hv Hr Hn. rewrite parse_string_quote. cbn [mbind option_bind].
    change (strip_prefix ":" (skip_ws (": " +:+ json_dumps v +:+ r)))
      with (Some (" " +:+ json_dumps v +:+ r)). cbn [mbind option_bind].
    change (skip_ws (" " +:+ json_dumps v +:+ r)) with (skip_ws (json_dumps v +:+ r)).
    destruct (dumps_opening v Hok) as (c & t & E & Hc).
    assert (Hs : skip_ws (json_dumps v +:+ r) = json_dumps v +:+ r)
      by (rewrite E, str_cons_app; by apply skip_ws_opening).
    rewrite Hs, Hv; [done..|]. unfold member in Hn. rewrite !str_length_app in Hn. cbn in Hn. lia. }
  induction l as [|[k v] l IH]; [done|]. intros _ Hok Hread n r Hn.
  apply Forall_cons in Hok as [Hv Hok], Hread as [Rv Hread]. destruct n as [|n]; [lia|].
  destruct l as [|kw l].
  - cbn [map str_join] in *. rewrite member_app. cbn [parse_members]. rewrite Ascii.eqb_refl.
    specialize (Hval k v n ("}" +:+ r) Hv Rv eq_refl ltac:(lia)).
    cbn [fst snd] in *. destruct (parse_string _) as [[k' r1]|]; [|done]. cbn [mbind option_bind] in *.
    destruct (strip_prefix ":" (skip_ws r1)) as [r2|]; [|done]. cbn [mbind option_bind] in *.
    destruct (parse_value n (skip_ws r2)) as [[v' r3]|]; [|done]. cbn [mbind option_bind] in *.
    by injection Hval as -> -> ->.
  - cbn [map] in *. set (rest := str_join ", " (member kw :: map member l)) in *.
    change (str_join ", " (member (k, v) :: member kw :: map member l))
      with (member (k, v) +:+ ", " +:+ rest) in *.
    rewrite !str_length_app in Hn. rewrite !str_app_assoc, member_app.
    assert (Hhead : exists t, rest +:+ "}" +:+ r = String dquote t).
    { unfold rest. destruct l as [|u l]; cbn [map str_join]; rewrite ?str_app_assoc, member_app; by eexists. }
    destruct Hhead as (t & E).
    cbn [parse_members]. rewrite Ascii.eqb_refl.
    specialize (Hval k v n (", " +:+ rest +:+ "}" +:+ r) Hv Rv eq_refl ltac:(lia)).
    cbn [fst snd] in *. destruct (parse_string _) as [[k' r1]|]; [|done]. cbn [mbind option_bind] in *.
    destruct (strip_prefix ":" (skip_ws r1)) as [r2|]; [|done]. cbn [mbind option_bind] in *.
    destruct (parse_value n (skip_ws r2)) as [[v' r3]|]; [|done]. cbn [mbind option_bind] in *.
    injection Hval as -> -> ->. rewrite E, after_item_more, <- E by done.
    cbn [mbind option_bind]. rewrite (IH ltac:(done) Hok Hread); [done|]. change (String.length ", ") with 2%nat in Hn.
    change (String.length rest + 1 < n)%nat. lia.
Qed.

Lemma foldr_Forall {A} (P : A -> Prop) l : foldr (fun x Q => P x /\ Q) True l <-> Forall P l.
Proof. induction l as [|x l IH]; cbn; [by rewrite Forall_nil | by rewrite Forall_cons, IH]. Qed.

(** Rebuilding a dictionary from its items in order. *)
Lemma dset_items {V} (l : list (string * V)) acc :
  NoDup (dkeys (acc ++ l)) -> fold_left (fun d kv => dset kv.1 kv.2 d) l acc = acc ++ l.
Proof.
  revert acc. induction l as [|[k v] l IH]; intros acc Hn; cbn [fold_left]; [by rewrite app_nil_r|].
  rewrite dset_fresh.
  - rewrite IH; [by rewrite <- app_assoc|]. by rewrite <- app_assoc.
  - apply dget_None. unfold dkeys in *. rewrite fmap_app, fmap_cons in Hn.
    apply NoDup_app in Hn as (_ & Hd & _). intros Hin. apply (Hd k Hin). by left.
Qed.

Lemma join_opening {A} (f : A -> string) x l rest :
  (exists c t, f x = String c t /\ opening c = true) ->
  exists c t, str_join ", " (map f (x :: l)) +:+ rest = String c t /\ opening c = true.
Proof.
  intros (c & t & E & Hc). destruct l as [|y l]; cbn [map str_join];
    rewrite E, !str_cons_app; by eexists _, _.
Qed.

Lemma list_reads l : Forall json_ok l -> Forall reads l -> reads (JList l).
Proof.
  intros Hok Hread n r Hr Hn. destruct n as [|n]; [lia|].
  change (json_dumps (JList l)) with ("[" +:+ str_join ", " (map json_dumps l) +:+ "]") in *.
  rewrite !str_length_app in Hn. cbn [String.length] in Hn. rewrite !str_app_assoc.
  change (parse_value (S n) ("[" +:+ str_join ", " (map json_dumps l) +:+ "]" +:+ r))
    with (match strip_prefix "]" (skip_ws (str_join ", " (map json_dumps l) +:+ "]" +:+ r)) with
          | Some r' => Some (JList [], r')
          | None => '(l, r') ← parse_items n (skip_ws (str_join ", " (map json_dumps l) +:+ "]" +:+ r));
                    Some (JList l, r')
          end).
  destruct l as [|v l]; [by destruct r|].
  destruct (join_opening json_dumps v l ("]" +:+ r)) as (c & t & E & Hc).
  { apply Forall_cons in Hok as [Hv _]. by apply dumps_opening. }
  rewrite E, skip_ws_opening, (proj1 (strip_opening c t Hc)), <- E by done.
  rewrite items_read; [done..|]. lia.
Qed.

Lemma obj_reads fields :
  NoDup (dkeys fields) -> Forall (fun kv => json_ok kv.2) fields ->
  Forall (fun kv => reads kv.2) fields -> reads (JObj fields).
Proof.
  intros Hnd Hok Hread n r Hr Hn. destruct n as [|n]; [lia|].
  change (json_dumps (JObj fields)) with ("{" +:+ str_join ", " (map member fields) +:+ "}") in *.
  rewrite !str_length_app in Hn. cbn [String.length] in Hn. rewrite !str_app_assoc.
  change (parse_value (S n) ("{" +:+ str_join ", " (map member fields) +:+ "}" +:+ r))
    with (match strip_prefix "}" (skip_ws (str_join ", " (map member fields) +:+ "}" +:+ r)) with
          | Some r' => Some (JObj [], r')
          | None => '(l, r') ← parse_members n (skip_ws (str_join ", " (map member fields) +:+ "}" +:+ r));
                    Some (JObj (fold_left (fun d kv => dset kv.1 kv.2 d) l []), r')
          end).
  destruct fields as [|kv fields]; [by destruct r|].
  destruct (join_opening member kv fields ("}" +:+ r)) as (c & t & E & Hc).
  { by eexists _, _. }
  rewrite E, skip_ws_opening, (proj2 (strip_opening c t Hc)), <- E by done.
  rewrite members_read by (done || lia). cbn [mbind option_bind]. by rewrite dset_items.
Qed.

Lemma json_reads v : json_ok v -> reads v.
Proof.
  induction v as [v Hv|l IH|fields IH] using json_rect_nested; intros Hok.
  - by apply atom_reads.
  - cbn in Hok. rewrite foldr_Forall in Hok. apply list_reads; [done|].
    apply Forall_forall. intros x Hx.
    rewrite Forall_forall in IH, Hok. auto.
  - destruct Hok as [Hnd Hok]. rewrite (foldr_Forall (fun kv => json_ok kv.2)) in Hok.
    apply obj_reads; [done|done|].
    apply Forall_forall. intros x Hx. rewrite Forall_forall in IH, Hok. auto.
Qed.

(** What [json.dumps] writes, [json.loads] reads back. *)
Lemma json_round_trip v : json_ok v -> json_loads (json_dumps v) = Ok v.
Proof.
  intros Hok. destruct (dumps_opening v Hok) as (c & t & E & Hc).
  unfold json_loads. pose proof (json_reads v Hok (S (String.length (json_dumps v))) "" eq_refl ltac:(lia)) as H.
  rewrite str_app_nil_r in H. rewrite E in *. rewrite skip_ws_opening by done. by rewrite H.
Qed.

Example loads_sample :
  json_loads (json_dumps (JObj [("a", JList [JInt 1; JFloat (dec (-25) 1); JBool true]); ("b", JNull)]))
  = Ok (JObj [("a", JList [JInt 1; JFloat (dec (-25) 1); JBool true]); ("b", JNull)]).
Proof. vm_compute. reflexivity. Qed.

Example loads_floats :
  json_loads " [1e3, -0.125 , 12, 01]" = Raise (ValueError "Expecting value")
  /\ json_loads " [1e3, -0.125 , -12] " = Ok (JList [JFloat (dec 1000 0); JFloat (dec (-125) 3); JInt (-12)]).
Proof. split; vm_compute; reflexivity. Qed.

Example py_floats :
  py_float " 1750000000123.5 " = Ok (dec 17500000001235 1)
  /\ py_float "-Infinity" = Ok (S754_infinity true) /\ py_int "-007" = Ok (-7).
Proof. split_and!; vm_compute; reflexivity. Qed.
