(* ===== verification/Redis.v ===== *)
(** * The Redis client as an interface

    Redis is an external service.  The platform reaches it through small
    protocol classes; [RedisKV] lists the key-value operations they use,
    [RedisList] the list operations, whose payloads are JSON documents, and
    [RedisStream] the stream operations.  Every call may raise, and a call
    that raises may or may not have taken effect on the server.
    [RedisKVLaws] states the documented behaviour that client theorems rely
    on; [MemRedis] is a concrete server that satisfies it, used to evaluate
    the models on inputs. *)

From S2P Require Import Prelude Json.

(** Outcome of a call: the returned value or exception and the new server state. *)
Class RedisKV (R : Type) := {
  redis_get : string -> R -> result (option string) * R;
  (** [set(name, value, ex)] *)
  redis_set : string -> string -> option Z -> R -> result unit * R;
  redis_delete : string -> R -> result unit * R;
}.

Class RedisKVLaws (R : Type) `{RedisKV R} := {
  redis_kv : R -> gmap string string;
  redis_get_spec k r v r' :
    redis_get k r = (v, r') ->
    redis_kv r' = redis_kv r /\ forall o, v = Ok o -> o = redis_kv r !! k;
  redis_set_spec k x r v r' :
    redis_set k x None r = (v, r') ->
    redis_kv r' = <[k := x]> (redis_kv r)
    \/ (redis_kv r' = redis_kv r /\ is_ok v = false);
  redis_delete_spec k r v r' :
    redis_delete k r = (v, r') ->
    redis_kv r' = delete k (redis_kv r)
    \/ (redis_kv r' = redis_kv r /\ is_ok v = false);
  (** a server that answers, and keeps answering *)
  redis_up : R -> Prop;
  redis_get_up k r : redis_up r ->
    exists r', redis_get k r = (Ok (redis_kv r !! k), r') /\ redis_up r';
  redis_set_up k x ex r : redis_up r ->
    exists r', redis_set k x ex r = (Ok tt, r') /\ redis_up r' /\ redis_kv r' = <[k := x]> (redis_kv r);
  redis_delete_up k r : redis_up r ->
    exists r', redis_delete k r = (Ok tt, r') /\ redis_up r' /\ redis_kv r' = delete k (redis_kv r);
}.

(** A server that answers reads and is not changed by them. *)
Definition reachable {R} `{RedisKVLaws R} (r : R) : Prop :=
  forall k, redis_get k r = (Ok (redis_kv r !! k), r).

Class RedisList (R : Type) := {
  redis_rpush : string -> json -> R -> result unit * R;
  (** [lrange(name, start, end)] with Python's negative indices *)
  redis_lrange : string -> Z -> Z -> R -> result (list json) * R;
  redis_llen : string -> R -> result Z * R;
  redis_ltrim : string -> Z -> Z -> R -> result unit * R;
}.

(** Redis index resolution: negative indices count from the end, both ends
    are inclusive. *)
Definition lrange_slice (start stop : Z) (l : list json) : list json :=
  let n := Z.of_nat (length l) in
  let s := Z.max 0 (if (start <? 0)%Z then n + start else start)%Z in
  let e := (if (stop <? 0)%Z then n + stop else stop)%Z in
  take (Z.to_nat (e - s + 1)) (drop (Z.to_nat s) l).

(** [redis_list_up] holds of a server that answers, and keeps answering.  A
    push that raises may have taken effect. *)
Class RedisListLaws (R : Type) `{RedisList R} := {
  redis_list : R -> string -> list json;
  redis_list_up : R -> Prop;
  redis_rpush_spec k x r v r' :
    redis_rpush k x r = (v, r') ->
    redis_list r' k = redis_list r k ++ [x]
    \/ (redis_list r' k = redis_list r k /\ is_ok v = false);
  redis_rpush_up k x r : redis_list_up r ->
    exists r', redis_rpush k x r = (Ok tt, r') /\ redis_list_up r';
  redis_llen_up k r : redis_list_up r ->
    exists r', redis_llen k r = (Ok (Z.of_nat (length (redis_list r k))), r') /\ redis_list_up r'
               /\ redis_list r' k = redis_list r k;
  redis_lrange_up k s e r : redis_list_up r ->
    exists r', redis_lrange k s e r = (Ok (lrange_slice s e (redis_list r k)), r') /\ redis_list_up r'
               /\ redis_list r' k = redis_list r k;
  redis_ltrim_up k s e r : redis_list_up r ->
    exists r', redis_ltrim k s e r = (Ok tt, r') /\ redis_list_up r'
               /\ redis_list r' k = lrange_slice s e (redis_list r k);
}.

Class RedisStream (R : Type) := {
  (** [xadd(name, fields, maxlen)]: the identifier of the new entry *)
  redis_xadd : string -> list (string * string) -> option Z -> R -> result string * R;
  (** [xrevrange(name, max="+", min="-", count=n)]: the newest [n] entries *)
  redis_xrevrange : string -> Z -> R -> result (list (list (string * string))) * R;
}.

(** An entry that was added is the newest one; a read that succeeds returns the
    newest entries first. *)
Class RedisStreamLaws (R : Type) `{RedisStream R} := {
  (** oldest entry first *)
  redis_stream : R -> string -> list (list (string * string));
  redis_xadd_spec k fields maxlen r id r' :
    redis_xadd k fields maxlen r = (Ok id, r') -> (forall n, maxlen = Some n -> (0 < n)%Z) ->
    last (redis_stream r' k) = Some fields;
  redis_xrevrange_spec k n r l r' :
    redis_xrevrange k n r = (Ok l, r') ->
    l = take (Z.to_nat n) (rev (redis_stream r k)) /\ redis_stream r' = redis_stream r;
}.

(** ** A concrete server *)

Record MemRedis := {
  mem_kv : gmap string string;
  mem_lists : gmap string (list json);
  (** oldest entry first *)
  mem_streams : gmap string (list (list (string * string)));
  (** [false] models an unreachable server: every call raises *)
  mem_up : bool;
}.

Definition mem_empty : MemRedis := {| mem_kv := ∅; mem_lists := ∅; mem_streams := ∅; mem_up := true |}.

Definition mem_down : MemRedis := {| mem_kv := ∅; mem_lists := ∅; mem_streams := ∅; mem_up := false |}.

Definition mem_guard {A} (r : MemRedis) (x : result A * MemRedis) : result A * MemRedis :=
  if mem_up r then x else (Raise (RedisError "connection refused"), r).

#[export] Instance MemRedis_KV : RedisKV MemRedis := {
  redis_get k r := mem_guard r (Ok (mem_kv r !! k), r);
  redis_set k x _ r := mem_guard r
    (Ok tt, {| mem_kv := <[k := x]> (mem_kv r); mem_lists := mem_lists r;
              mem_streams := mem_streams r; mem_up := true |});
  redis_delete k r := mem_guard r
    (Ok tt, {| mem_kv := delete k (mem_kv r); mem_lists := mem_lists r;
              mem_streams := mem_streams r; mem_up := true |});
}.

#[export] Program Instance MemRedis_KVLaws : RedisKVLaws MemRedis := {
  redis_kv := mem_kv;
  redis_up r := mem_up r = true;
}.
Next Obligation.
  intros k r v r'. unfold redis_get; cbn. unfold mem_guard.
  destruct (mem_up r); intros [= <- <-]; split; [done | | done |]; intros o [=]; done.
Qed.
Next Obligation.
  intros k x r v r'. unfold redis_set; cbn. unfold mem_guard.
  destruct (mem_up r); intros [= <- <-]; auto.
Qed.
Next Obligation.
  intros k r v r'. unfold redis_delete; cbn. unfold mem_guard.
  destruct (mem_up r); intros [= <- <-]; auto.
Qed.
Next Obligation. intros k r Hr. unfold redis_get; cbn. unfold mem_guard. rewrite Hr. by eexists. Qed.
Next Obligation. intros k x ex r Hr. unfold redis_set; cbn. unfold mem_guard. rewrite Hr. by eexists. Qed.
Next Obligation. intros k r Hr. unfold redis_delete; cbn. unfold mem_guard. rewrite Hr. by eexists. Qed.

Definition mem_list (k : string) (r : MemRedis) : list json := default [] (mem_lists r !! k).

Definition mem_set_list (k : string) (l : list json) (r : MemRedis) : MemRedis :=
  {| mem_kv := mem_kv r; mem_lists := <[k := l]> (mem_lists r);
     mem_streams := mem_streams r; mem_up := mem_up r |}.

#[export] Instance MemRedis_List : RedisList MemRedis := {
  redis_rpush k x r := mem_guard r (Ok tt, mem_set_list k (mem_list k r ++ [x]) r);
  redis_lrange k s e r := mem_guard r (Ok (lrange_slice s e (mem_list k r)), r);
  redis_llen k r := mem_guard r (Ok (Z.of_nat (length (mem_list k r))), r);
  redis_ltrim k s e r := mem_guard r (Ok tt, mem_set_list k (lrange_slice s e (mem_list k r)) r);
}.

#[export] Program Instance MemRedis_ListLaws : RedisListLaws MemRedis := {
  redis_list r k := mem_list k r;
  redis_list_up r := mem_up r = true;
}.
Next Obligation.
  intros k x r v r'. unfold redis_rpush; cbn. unfold mem_guard.
  destruct (mem_up r); intros [= <- <-]; [left|by right].
  unfold mem_list at 1, mem_set_list. cbn. by rewrite lookup_insert_eq.
Qed.
Next Obligation. intros k x r Hr. unfold redis_rpush; cbn. unfold mem_guard. rewrite Hr. by eexists. Qed.
Next Obligation. intros k r Hr. unfold redis_llen; cbn. unfold mem_guard. rewrite Hr. by eexists. Qed.
Next Obligation. intros k s e r Hr. unfold redis_lrange; cbn. unfold mem_guard. rewrite Hr. by eexists. Qed.
Next Obligation.
  intros k s e r Hr. unfold redis_ltrim; cbn. unfold mem_guard. rewrite Hr. eexists. split_and!; [done|done|].
  unfold mem_list at 1, mem_set_list. cbn. by rewrite lookup_insert_eq.
Qed.

Definition mem_stream (k : string) (r : MemRedis) : list (list (string * string)) :=
  default [] (mem_streams r !! k).

(** Entries are numbered by their position; [maxlen] keeps the newest ones. *)
#[export] Instance MemRedis_Stream : RedisStream MemRedis := {
  redis_xadd k fields maxlen r := mem_guard r
    (let l := mem_stream k r ++ [fields] in
     let l := match maxlen with Some n => last_n (Z.to_nat n) l | None => l end in
     (Ok (pretty (Z.of_nat (length l)) +:+ "-0"),
      {| mem_kv := mem_kv r; mem_lists := mem_lists r;
         mem_streams := <[k := l]> (mem_streams r); mem_up := true |}));
  redis_xrevrange k n r := mem_guard r (Ok (take (Z.to_nat n) (rev (mem_stream k r))), r);
}.

#[export] Program Instance MemRedis_StreamLaws : RedisStreamLaws MemRedis := {
  redis_stream r k := mem_stream k r;
}.
Next Obligation.
  intros k fields maxlen r id r'. unfold redis_xadd; cbn. unfold mem_guard.
  destruct (mem_up r); [|done]. intros [= _ <-] Hn. unfold mem_stream at 1. cbn. rewrite lookup_insert_eq. cbn.
  destruct maxlen as [n|]; [|by rewrite last_snoc].
  unfold last_n. rewrite drop_app_le; [by rewrite last_snoc|].
  specialize (Hn n eq_refl). rewrite length_app. cbn. lia.
Qed.
Next Obligation.
  intros k n r l r'. unfold redis_xrevrange; cbn. unfold mem_guard.
  destruct (mem_up r); [|done]. by intros [= <- <-].
Qed.

(** The newest entry, as a reader that asks for one entry sees it. *)
Lemma xrevrange_newest {R} `{RedisStreamLaws R} k r l r' fields :
  last (redis_stream r k) = Some fields -> redis_xrevrange k 1 r = (Ok l, r') -> l = [fields].
Proof.
  intros Hl Hr. apply redis_xrevrange_spec in Hr as [-> _].
  apply last_Some in Hl as [l' ->]. by rewrite rev_app_distr.
Qed.
