(* ===== verification/Constants.v ===== *)
(** * System-wide constants ([shared/core/constants.py])

    Integers are [Z], floats are the binary64 value of the decimal literal. *)

From S2P Require Import Prelude PyFloat.
Local Open Scope Z_scope.

Definition DAILY_LOSS_LIMIT_PCT : float := dec (-20) 1.
Definition MAX_DAILY_TRADES : Z := 10.
Definition MAX_SINGLE_TRADE_LOSS_PCT : float := dec 30 1.
Definition MAX_SECTOR_EXPOSURE_PCT : float := dec 50 1.
Definition MAX_PORTFOLIO_HEAT_PCT : float := dec 70 1.
Definition RISK_PCT_BULL_TREND : float := dec 10 1.
Definition RISK_PCT_BEAR_TREND : float := dec 75 2.
Definition RISK_PCT_MEAN_REVERTING : float := dec 5 1.
Definition RISK_PCT_HIGH_VOL_CHAOS : float := dec 0 1.
Definition SNAPSHOT_WINDOW_SIZE_MULTIPLIER : float := dec 5 1.
Definition ATR_STOP_LOSS_MULTIPLIER : float := dec 15 1.
Definition TARGET_1_REWARD_RISK_RATIO : float := dec 15 1.
Definition TARGET_2_REWARD_RISK_RATIO : float := dec 30 1.

Definition MWPL_EXCLUSION_THRESHOLD_PCT : float := dec 900 1.
Definition MAX_LEVERAGE : float := dec 50 1.
Definition STRATEGY_ID_MAX_LENGTH : nat := 8.
Definition MPP_SLIPPAGE_BUFFER_PCT : float := dec 25 2.
Definition WASH_TRADE_LOOKBACK_SECONDS : Z := 60.

Definition GATE_2_MIN_INDICATORS_AGREEING : Z := 3.
Definition GATE_2_TOTAL_INDICATORS : Z := 8.
Definition GATE_5_MIN_TIMEFRAMES_AGREEING : Z := 2.
Definition GATE_7_OPENING_NOISE_FILTER_MINUTES : Z := 15.
Definition GATE_7_CLOSING_WINDOW_MINUTES : Z := 30.
Definition GATE_9_CONFIDENCE_THRESHOLD : float := dec 70 2.
Definition GATE_9_CONFIDENCE_THRESHOLD_SNAPSHOT_WINDOW : float := dec 80 2.
Definition VOLUME_CONFIRMATION_MULTIPLIER : float := dec 15 1.
Definition RSI_BULLISH_LEVEL : float := dec 550 1.
Definition RSI_BEARISH_LEVEL : float := dec 450 1.

Definition MAX_POSITION_CORRELATION : float := dec 7 1.
Definition KELLY_FRACTION : float := dec 25 2.
Definition CORRELATION_LOOKBACK_DAYS : nat := 20.
Definition MIN_STOP_DISTANCE_PCT : float := dec 5 2.

Definition FORCE_SQUARE_OFF_IST_HOUR : Z := 15.
Definition FORCE_SQUARE_OFF_IST_MINUTE : Z := 10.
Definition ASX_POST_CLOSE_CUTOFF_HOUR : Z := 16.
Definition ASX_POST_CLOSE_CUTOFF_MINUTE : Z := 21.
Definition ASX_POST_CLOSE_CUTOFF_SECOND : Z := 30.
Definition ASX_STAGGERED_OPEN_NOISE_FILTER_MINUTES : Z := 15.

Definition KILL_SWITCH_HALTED_KEY : string := "system:status:halted".
Definition KILL_SWITCH_TIER_KEY : string := "system:kill_switch:tier".
Definition KILL_SWITCH_REASON_KEY : string := "system:kill_switch:reason".

Definition MAX_RETRIES : Z := 3.
Definition RETRY_BASE_DELAY_SECONDS : float := dec 5 1.
Definition DLQ_REDIS_KEY : string := "dlq:orders".

Definition SQUARE_OFF_WARNING_LEAD_MINUTES : Z := 20.
Definition HOLIDAY_CACHE_MAX_AGE_DAYS : Z := 7.

Definition RECONCILIATION_BLOCKED_REDIS_KEY_PREFIX : string := "reconciliation:blocked".
Definition RECONCILIATION_MISMATCH_REDIS_STREAM : string := "reconciliation:mismatches".
Definition RECONCILIATION_TOLERANCE_PRICE_PCT : float := dec 1 3.

Definition SIGNAL_EXPIRY_MINUTES : Z := 5.
Definition SIGNAL_DEDUP_WINDOW_SECONDS : Z := 60.
Definition GATE_6_SR_PROXIMITY_PCT : float := dec 5 1.
Definition GATE_3_ABSORPTION_VOLUME_RATIO : float := dec 20 1.
Definition GATE_3_ABSORPTION_DELTA_RATIO : float := dec 2 1.
Definition GATE_2_INDICATOR_BASE_CONFIDENCE : float := dec 40 2.
Definition GATE_2_PER_INDICATOR_BONUS : float := dec 2 2.
Definition GATE_3_CONFIDENCE_BONUS : float := dec 7 2.
Definition GATE_4_CONFIDENCE_BONUS : float := dec 7 2.
Definition GATE_5_CONFIDENCE_BONUS : float := dec 10 2.
Definition GATE_6_CONFIDENCE_BONUS : float := dec 5 2.
Definition GATE_8_DIVERGENCE_PENALTY : float := dec 10 2.
Definition GATE_8_ALIGNMENT_BONUS : float := dec 5 2.

Definition RISK_DAILY_PNL_REDIS_KEY_PREFIX : string := "risk:daily:pnl:".
Definition HEARTBEAT_INTERVAL_SECONDS : Z := 30.
Definition MAX_MISSED_HEARTBEATS_BEFORE_KILL : Z := 2.
Definition MONITOR_HEARTBEAT_REDIS_KEY_PREFIX : string := "monitor:heartbeat".
Definition ORCHESTRATOR_STATE_REDIS_KEY : string := "orchestrator:state".
Definition HITL_CAPITAL_THRESHOLD_PCT : float := dec 5 2.
Definition WORKING_MEMORY_MAX_TOKENS : Z := 2000.
Definition SHORT_TERM_MEMORY_TTL_SECONDS : Z := 3600.
Definition SHORT_TERM_MEMORY_REDIS_KEY_PREFIX : string := "orchestrator:stm".
Definition REGIME_REDIS_STREAM : string := "regime:changes".
Definition SIGNAL_REDIS_STREAM : string := "signals:generated".
Definition INGESTION_DEGRADED_REDIS_KEY : string := "system:status:degraded".

Definition TICK_MAX_BACKWARD_MS : Z := 500.
Definition TICK_MAX_FUTURE_MS : Z := 2000.
Definition TICK_BUFFER_REDIS_KEY : string := "ticker:buffer:queue".
Definition TICK_BUFFER_FLUSH_COUNT : Z := 1000.
Definition TICK_BUFFER_FLUSH_INTERVAL_SECONDS : Z := 5.
Definition CANDLE_INTERVAL_1M : Z := 60.
Definition CANDLE_INTERVAL_5M : Z := 300.
Definition WS_FALLBACK_TIMEOUT_SECONDS : Z := 2.

Definition KITE_SESSION_TTL_SECONDS : Z := 30600.
Definition KITE_DAILY_REFRESH_IST_HOUR : Z := 8.
Definition KITE_DAILY_REFRESH_IST_MINUTE : Z := 30.
Definition KITE_TOKEN_REDIS_KEY : string := "auth:kite:access_token".
Definition KITE_LOGIN_URL : string := "https://kite.zerodha.com/api/login".
Definition KITE_TWOFA_URL : string := "https://kite.zerodha.com/api/twofa".
Definition IBKR_PAPER_PORT : Z := 7497.
Definition IBKR_LIVE_PORT : Z := 7496.
Definition IBKR_CLIENT_ID_POOL_MAX : Z := 8.
Definition IBKR_CONNECTION_TIMEOUT_SECONDS : Z := 10.

Definition PAPER_TRADING_MIN_DAYS : Z := 20.
Definition PAPER_TRADING_MIN_SHARPE : float := dec 15 1.
Definition PAPER_TRADING_MIN_WIN_RATE_PCT : float := dec 500 1.
Definition PAPER_TRADING_MAX_DRAWDOWN_PCT : float := dec 50 1.
Definition SLIPPAGE_BUCKET_OPEN_MU : float := dec 20 1.
Definition SLIPPAGE_BUCKET_OPEN_SIGMA : float := dec 5 1.
Definition SLIPPAGE_BUCKET_MID_MU : float := dec 14 1.
Definition SLIPPAGE_BUCKET_MID_SIGMA : float := dec 4 1.
Definition SLIPPAGE_BUCKET_CLOSE_MU : float := dec 18 1.
Definition SLIPPAGE_BUCKET_CLOSE_SIGMA : float := dec 5 1.
Definition SLIPPAGE_REFERENCE_SPREAD_BPS : float := dec 50 1.
Definition SLIPPAGE_MIN_FIT_SAMPLES : Z := 30.
Definition WALK_FORWARD_IN_SAMPLE_DAYS : Z := 60.
Definition WALK_FORWARD_OUT_OF_SAMPLE_DAYS : Z := 20.
Definition WALK_FORWARD_STEP_DAYS : Z := 10.
Definition MARKOUT_OFFSET_1M : Z := 1.
Definition MARKOUT_OFFSET_5M : Z := 5.

Definition LLM_COMPLEX_DAILY_COUNTER_KEY : string := "orchestrator:llm:complex:{date}".
Definition ALERT_TELEGRAM_RATE_LIMIT_PER_MINUTE : Z := 20.
Definition LLM_COST_ALERT_THRESHOLD_USD : float := dec 80 2.
Definition LLM_DAILY_COST_TARGET_USD : float := dec 10 1.

Definition WATCHLIST_TOP_N : Z := 20.
Definition WATCHLIST_REDIS_TTL_SECONDS : Z := 28800.
Definition WATCHLIST_MIN_CANDLES : Z := 50.
Definition COMPLIANCE_CACHE_MAX_AGE_HOURS : Z := 24.
Definition COMPLIANCE_CACHE_DIR : string := "shared/data/compliance_cache".
Definition ALPHA_TREND_ADX_SCALE : float := dec 500 1.
Definition ALPHA_VOL_BB_WIDTH_SCALE : float := dec 50 1.
Definition ALPHA_LIQ_VOLUME_RATIO_CAP : float := dec 30 1.
Definition ALPHA_LIQ_RECENT_BARS : nat := 5.
Definition ALPHA_LIQ_AVERAGE_BARS : nat := 20.
Definition ALPHA_BETA_BULL_TREND : float * float * float * float := (dec 50 2, dec 20 2, dec 20 2, dec 10 2).
Definition ALPHA_BETA_BEAR_TREND : float * float * float * float := (dec 45 2, dec 25 2, dec 20 2, dec 10 2).
Definition ALPHA_BETA_MEAN_REVERTING : float * float * float * float := (dec 20 2, dec 45 2, dec 25 2, dec 10 2).
Definition STRATEGY_TREND_SCORE_THRESHOLD : float := dec 6 1.

Definition SENTIMENT_BATCH_MAX_HEADLINES : nat := 20.
Definition GPTCACHE_SIMILARITY_THRESHOLD : float := dec 95 2.
Definition SENTIMENT_CACHE_REDIS_TTL_SECONDS : Z := 86400.
Definition SENTIMENT_MAX_FEED_AGE_HOURS : Z := 24.
Definition SENTIMENT_MAX_HEADLINES_PER_RUN : Z := 100.
Definition SENTIMENT_GROQ_COST_PER_1M_INPUT_USD : float := dec 5 2.
Definition SENTIMENT_GROQ_COST_PER_1M_OUTPUT_USD : float := dec 8 2.
Definition SENTIMENT_EMBEDDING_DIM : Z := 384.
Definition SENTIMENT_COST_REDIS_KEY_PREFIX : string := "sentiment:cost:daily".
Definition SENTIMENT_CACHE_REDIS_KEY_PREFIX : string := "sentiment:cache".
Definition SENTIMENT_DEFAULT_MODEL : string := "groq/llama-3.1-8b-instant".

Definition REGIME_ADX_TREND_THRESHOLD : float := dec 250 1.
Definition REGIME_ADX_MEAN_REVERT_THRESHOLD : float := dec 200 1.
Definition REGIME_VIX_CHAOS_THRESHOLD : float := dec 250 1.
Definition REGIME_RSI_MEAN_REVERT_LOW : float := dec 400 1.
Definition REGIME_RSI_MEAN_REVERT_HIGH : float := dec 600 1.
Definition REGIME_ATR_SPIKE_MULTIPLIER : float := dec 20 1.
Definition REGIME_HMM_N_COMPONENTS : nat := 4.
Definition REGIME_CONFIDENCE_THRESHOLD : float := dec 60 2.
Definition REGIME_FEATURE_LOOKBACK : nat := 50.
Definition REGIME_ATR_SPIKE_LOOKBACK : nat := 20.

Definition ORB_OPENING_RANGE_MINUTES : Z := 15.
Definition SR_LOOKBACK_CANDLES : nat := 100.
Definition SR_SWING_WINDOW : nat := 5.
Definition SR_TOUCH_TOLERANCE_PCT : float := dec 5 1.
Definition SR_MIN_TOUCHES : Z := 2.
Definition SR_CLUSTER_TOLERANCE_PCT : float := dec 3 1.
Definition VOLUME_PROFILE_BUCKETS : Z := 50.
Definition CDL_MIN_CANDLES : nat := 10.

(** Indicators *)
Definition ATR_PERIOD : Z := 14.
Definition INDICATOR_CACHE_TTL_SECONDS : Z := 30.
Definition EMA_PERIODS : list Z := [9; 21; 50; 200].
Definition ADX_PERIOD : Z := 14.
Definition RSI_PERIOD : Z := 14.
Definition MACD_FAST_PERIOD : Z := 12.
Definition MACD_SLOW_PERIOD : Z := 26.
Definition MACD_SIGNAL_PERIOD : Z := 9.
Definition STOCH_FASTK_PERIOD : Z := 14.
Definition STOCH_SLOWK_PERIOD : Z := 3.
Definition STOCH_SLOWD_PERIOD : Z := 3.
Definition CCI_PERIOD : Z := 20.
Definition MFI_PERIOD : Z := 14.
Definition ROC_PERIOD : Z := 10.
Definition WILLR_PERIOD : Z := 14.
Definition BBANDS_PERIOD : Z := 20.
Definition BBANDS_STDDEV : float := dec 20 1.
Definition VWAP_BAND_STDDEV_MULTIPLIER : float := dec 20 1.
Definition CAMARILLA_RANGE_MULTIPLIER : float := dec 11 1.

(** Instrument master *)
Definition NSE_EQUITY_TICK_SIZE : float := dec 5 2.
Definition CORPORATE_ACTIONS_REFRESH_WINDOW_DAYS : Z := 365.

(** Dashboard and API *)
Definition API_KEY_HEADER : string := "X-API-Key".
Definition API_WS_HEARTBEAT_INTERVAL_SECONDS : Z := 30.
Definition API_SIGNALS_STREAM_MAX_READ : Z := 50.
Definition API_PAUSE_REDIS_KEY : string := "system:status:paused".

(** The rest of the module. *)
Definition ORDERS_PER_SECOND_SELF_THROTTLE : Z := 10.
Definition REWARD_RISK_RATIO_BULL_TREND : float := dec 30 1.
Definition REWARD_RISK_RATIO_BEAR_TREND : float := dec 20 1.
Definition REWARD_RISK_RATIO_MEAN_REVERTING : float := dec 15 1.
Definition TARGET_1_LIQUIDATE_PCT : float := dec 500 1.
Definition TRAILING_STOP_ATR_MULTIPLIER : float := dec 5 1.
Definition UPFRONT_MARGIN_PCT : float := dec 200 1.
Definition PROFIT_LOCK_PCT : float := dec 20 1.
Definition RISK_HALTED_REDIS_KEY : string := "system:status:halted".
Definition RISK_DAILY_TRADES_REDIS_KEY : string := "risk:daily:trades:{date}".
Definition SNAPSHOT_WINDOW_START_IST_HOUR : Z := 14.
Definition SNAPSHOT_WINDOW_START_IST_MINUTE : Z := 45.
Definition SNAPSHOT_WINDOW_END_IST_HOUR : Z := 15.
Definition SNAPSHOT_WINDOW_END_IST_MINUTE : Z := 30.
Definition PRICE_CACHE_TTL_SECONDS : Z := 5.
Definition BATCH_FLUSH_MAX_TICKS : Z := 1000.
Definition BATCH_FLUSH_MAX_SECONDS : float := dec 50 1.
Definition ACT_R_DECAY_PARAMETER_D : float := dec 5 1.
Definition TICK_DATA_RETENTION_YEARS : Z := 2.
Definition OHLCV_DATA_RETENTION_YEARS : Z := 5.
Definition AUSTRALIA_TRADE_LOG_RETENTION_YEARS : Z := 7.
Definition ASX_GROUP_OPEN_TOLERANCE_SECONDS : Z := 15.
Definition RECONCILIATION_INTERVAL_SECONDS : Z := 90.
Definition RECONCILIATION_SQUAREOFF_DELAY_SECONDS : Z := 30.
Definition ORCHESTRATOR_THREAD_ID_REDIS_KEY : string := "orchestrator:thread_id".
Definition ACT_R_DECAY_PARAM : float := dec 5 1.
Definition MONITOR_POLL_INTERVAL_SECONDS : Z := 30.
Definition PROMETHEUS_METRICS_PORT : Z := 8000.
Definition GPTCACHE_TARGET_HIT_RATE_PCT : float := dec 900 1.
Definition COMPLEX_MODEL_MAX_CALLS_PER_DAY : Z := 2.
Definition DAILY_SUMMARY_MAX_CALLS_PER_DAY : Z := 1.
Definition INDICATOR_LATENCY_BUDGET_MS : float := dec 500 1.
Definition INDICATOR_LOOKBACK_CANDLES : Z := 250.
Definition PATTERN_CACHE_TTL_SECONDS : Z := 30.
Definition BACKTEST_INITIAL_CAPITAL : float := dec 1000000 1.
Definition BACKTEST_POSITION_SIZE_PCT : float := dec 2 2.
Definition BACKTEST_RISK_FREE_RATE_ANNUAL : float := dec 65 3.
Definition REGIME_RF_N_ESTIMATORS : Z := 100.
Definition REGIME_RF_MAX_DEPTH : Z := 6.
Definition REGIME_UPDATE_INTERVAL_MINUTES : Z := 5.
Definition REGIME_MLFLOW_EXPERIMENT : string := "market_regime_classifier".
Definition REGIME_MIN_TRAINING_SAMPLES : Z := 500.
Definition WATCHLIST_CANDLE_LOOKBACK_DAYS : Z := 5.
Definition MWPL_OI_THRESHOLD_BARS : Z := 1.
Definition STRATEGY_ID_COMPRESSED : list (string * string) :=
  [("EMA_VWAP_TREND", "EMAVWAP1");
   ("ORB_BREAKOUT", "ORBBRK01");
   ("MOMENTUM_RSI", "MOMRSI01");
   ("MEAN_REVERT_PIVOT", "MRVPVT01");
   ("ORDER_FLOW_ABSORPTION", "ORDFLW01")].
Definition SIGNAL_EXPLAIN_MODEL : string := "groq/llama-3.1-70b-versatile".
Definition IBKR_HEARTBEAT_INTERVAL_SECONDS : Z := 30.
Definition AUTH_TOKEN_REDIS_KEY_PREFIX : string := "auth".
