(* ===== verification/Regime.v ===== *)
(** * Market regime data model ([shared/regime/models.py]) *)

From S2P Require Import Prelude PyFloat.

Inductive MarketRegime : Type :=
| BULL_TREND
| BEAR_TREND
| MEAN_REVERTING
| HIGH_VOL_CHAOS.

#[export] Instance MarketRegime_eq_dec : EqDecision MarketRegime.
Proof. solve_decision. Defined.

(** The [str] value of the enum member. *)
Definition regime_value (r : MarketRegime) : string :=
  match r with
  | BULL_TREND => "BULL_TREND"
  | BEAR_TREND => "BEAR_TREND"
  | MEAN_REVERTING => "MEAN_REVERTING"
  | HIGH_VOL_CHAOS => "HIGH_VOL_CHAOS"
  end.

Module RegimeFeatures.
Record t := mk {
  adx : float;
  rsi : float;
  bb_width_pct : float;
  atr_pct : float;
  vwap_deviation_pct : float;
  volume_ratio : float;
  vix : float;
  atr_spike : bool;
}.

Definition to_feature_array (self : t) : list float :=
  [adx self; rsi self; bb_width_pct self; atr_pct self; vwap_deviation_pct self;
   volume_ratio self; vix self; if atr_spike self then dec 10 1 else dec 0 1].
End RegimeFeatures.

Module RegimeClassification.
Record t := mk {
  regime : MarketRegime;
  confidence : float;
  features : RegimeFeatures.t;
  hmm_state : Z;
  (** UTC microseconds since the epoch *)
  classified_at : Z;
}.
End RegimeClassification.
