(* ===== verification/Risk.v ===== *)
(** * Risk and position sizing ([shared/risk])

    [circuit_breaker.py], [correlation.py], [sizing.py] and [engine.py] as
    pure functions.  NumPy is an external package: [NumPy] lists the two
    functions of it that the correlation guard calls. *)

From Stdlib Require Import SpecFloat.
From S2P Require Import Prelude PyFloat Constants Regime.
Local Open Scope Z_scope.

(** ** Data models ([models.py]) *)

Module RiskCheck.
Record t := mk { name : string; passed : bool; detail : string }.
End RiskCheck.

Module PositionSize.
Record t := mk {
  quantity : Z;
  notional_value : float;
  risk_amount : float;
  risk_pct : float;
  sizing_method : string;
  regime_multiplier : float;
  snapshot_multiplier : float;
}.
End PositionSize.

Module OpenPosition.
Record t := mk {
  symbol : string;
  exchange : string;
  direction : string;
  quantity : Z;
  entry_price : float;
  stop_loss : float;
  sector : string;
  risk_amount : float;
  returns : list float;
}.
End OpenPosition.

Module RiskParameters.
Record t := mk {
  capital : float;
  open_positions : list OpenPosition.t;
  daily_pnl : float;
  daily_trade_count : Z;
  is_snapshot_window : bool;
  regime : RegimeClassification.t;
  proposed_sector : string;
  proposed_returns : list float;
  use_kelly : bool;
  win_rate : option float;
  avg_win_loss_ratio : option float;
  halted : bool;
}.
End RiskParameters.

Module RiskDecision.
Record t := mk {
  approved : bool;
  position_size : option PositionSize.t;
  rejection_reason : option string;
  checks : list RiskCheck.t;
}.
End RiskDecision.

(** ** Circuit breaker ([circuit_breaker.py]) *)

Definition check_halted_flag (halted : bool) : RiskCheck.t :=
  if halted then
    RiskCheck.mk "SYSTEM_HALTED" false "system:status:halted=true — all new entries blocked"
  else
    RiskCheck.mk "SYSTEM_HALTED" true "System not halted".

(** [(x / capital) * 100.0] *)
Definition pct_of (x capital : float) : result float :=
  q ← pydiv x capital; mret (q * dec 1000 1)%pf.

Definition check_daily_loss_limit (daily_pnl capital : float) : result RiskCheck.t :=
  if (capital <=? f_zero)%pf then
    mret (RiskCheck.mk "CIRCUIT_BREAKER" false ("Invalid capital value: " +:+ repr capital))
  else
    pnl_pct ← pct_of daily_pnl capital;
    if (pnl_pct <=? DAILY_LOSS_LIMIT_PCT)%pf then
      mret (RiskCheck.mk "CIRCUIT_BREAKER" false
        ("Daily P&L " +:+ fmt_fixed 2 pnl_pct +:+ "% ≤ circuit-breaker limit " +:+
         repr DAILY_LOSS_LIMIT_PCT +:+ "% — Kill Switch must be triggered"))
    else
      mret (RiskCheck.mk "CIRCUIT_BREAKER" true
        ("Daily P&L " +:+ fmt_fixed 2 pnl_pct +:+ "% within limit " +:+
         repr DAILY_LOSS_LIMIT_PCT +:+ "%")).

Definition check_circuit_breaker (daily_pnl capital : float) (halted : bool)
    : result RiskCheck.t :=
  let halted_check := check_halted_flag halted in
  if negb (RiskCheck.passed halted_check) then mret halted_check
  else check_daily_loss_limit daily_pnl capital.

Definition check_daily_trade_count (daily_trade_count : Z) : RiskCheck.t :=
  if MAX_DAILY_TRADES <=? daily_trade_count then
    RiskCheck.mk "DAILY_TRADE_LIMIT" false
      ("Daily trade count " +:+ pretty daily_trade_count +:+ " ≥ limit " +:+
       pretty MAX_DAILY_TRADES)
  else
    RiskCheck.mk "DAILY_TRADE_LIMIT" true
      ("Daily trade count " +:+ pretty daily_trade_count +:+ "/" +:+ pretty MAX_DAILY_TRADES).

(** ** Correlation guard ([correlation.py]) *)

(** [np.std(a)] and [np.corrcoef(a, b)[0, 1]]. *)
Class NumPy := {
  np_std : list float -> float;
  np_corrcoef01 : list float -> list float -> float;
}.

Section Correlation.
Context `{NumPy}.

Definition pearson_correlation (returns_a returns_b : list float) : float :=
  let n := ((length returns_a `min` length returns_b) `min` CORRELATION_LOOKBACK_DAYS)%nat in
  if (n <? 2)%nat then f_zero
  else
    let a := last_n n returns_a in
    let b := last_n n returns_b in
    if feq (np_std a) f_zero || feq (np_std b) f_zero then f_zero
    else np_corrcoef01 a b.

Definition correlation_breach (proposed_returns : list float) (max_correlation : float)
    (pos : OpenPosition.t) : bool :=
  (fabs (pearson_correlation proposed_returns (OpenPosition.returns pos))
     >? max_correlation)%pf.

Definition check_correlation_guard (proposed_returns : list float)
    (open_positions : list OpenPosition.t) (max_correlation : float) : RiskCheck.t :=
  match open_positions with
  | [] => RiskCheck.mk "CORRELATION_GUARD" true "No open positions — correlation guard skipped"
  | _ =>
      if (length proposed_returns <? 2)%nat then
        RiskCheck.mk "CORRELATION_GUARD" true
          "Insufficient return history for proposed symbol (< 2 points) — correlation guard skipped"
      else
        match find_first (correlation_breach proposed_returns max_correlation) open_positions with
        | Some pos =>
            let corr := pearson_correlation proposed_returns (OpenPosition.returns pos) in
            RiskCheck.mk "CORRELATION_GUARD" false
              ("Correlation with open position " +:+ OpenPosition.symbol pos +:+ " = " +:+
               fmt_fixed 3 corr +:+ " exceeds threshold ±" +:+ repr max_correlation)
        | None =>
            RiskCheck.mk "CORRELATION_GUARD" true
              ("All open-position correlations within ±" +:+ repr max_correlation +:+ " (" +:+
               pretty (Z.of_nat (length open_positions)) +:+ " checked)")
        end
  end.

End Correlation.

(** ** Position sizing ([sizing.py]) *)

(** The tail shared by the two methods: quantity, actual risk, rounding. *)
Definition build_position_size (capital entry_price stop_distance raw_qty : float)
    (method : string) (regime_multiplier snapshot_mult : float) : result PositionSize.t :=
  fl ← floor raw_qty;
  let quantity := Z.max 1 fl in
  qf ← float_of_int quantity;
  let actual_risk := (qf * stop_distance)%pf in
  actual_risk_pct ←
    (if (capital >? f_zero)%pf then pct_of actual_risk capital else mret f_zero);
  mret {| PositionSize.quantity := quantity;
          PositionSize.notional_value := pyround (qf * entry_price)%pf 4;
          PositionSize.risk_amount := pyround actual_risk 4;
          PositionSize.risk_pct := pyround actual_risk_pct 4;
          PositionSize.sizing_method := method;
          PositionSize.regime_multiplier := regime_multiplier;
          PositionSize.snapshot_multiplier := snapshot_mult |}.

Definition snapshot_multiplier_of (is_snapshot_window : bool) : float :=
  if is_snapshot_window then SNAPSHOT_WINDOW_SIZE_MULTIPLIER else dec 10 1.

Definition min_stop_distance (entry_price : float) : result float :=
  r ← pydiv MIN_STOP_DISTANCE_PCT (dec 1000 1); mret (entry_price * r)%pf.

Definition compute_atr_position_size (capital entry_price stop_loss base_risk_pct
    regime_multiplier : float) (is_snapshot_window : bool) : result PositionSize.t :=
  if (entry_price <=? f_zero)%pf then
    Raise (ValueError ("entry_price must be > 0, got " +:+ repr entry_price))
  else
    let stop_distance := fabs (entry_price - stop_loss)%pf in
    min_distance ← min_stop_distance entry_price;
    if (stop_distance <? min_distance)%pf then
      Raise (ValueError
        ("stop_distance " +:+ fmt_fixed 4 stop_distance +:+ " below minimum " +:+
         fmt_fixed 4 min_distance +:+ " (" +:+ repr MIN_STOP_DISTANCE_PCT +:+ "% of entry)"))
    else
      let snapshot_mult := snapshot_multiplier_of is_snapshot_window in
      let effective_risk_pct := (base_risk_pct * regime_multiplier * snapshot_mult)%pf in
      eff ← pydiv effective_risk_pct (dec 1000 1);
      let risk_amount := (capital * eff)%pf in
      raw_qty ← pydiv risk_amount stop_distance;
      build_position_size capital entry_price stop_distance raw_qty
        "ATR_FIXED_RISK" regime_multiplier snapshot_mult.

Definition compute_kelly_position_size (capital entry_price stop_loss win_rate
    avg_win_loss_ratio regime_multiplier : float) (is_snapshot_window : bool)
    : result PositionSize.t :=
  if negb ((f_zero <? win_rate)%pf && (win_rate <? dec 10 1)%pf) then
    Raise (ValueError ("win_rate must be in (0, 1), got " +:+ repr win_rate))
  else if (avg_win_loss_ratio <=? f_zero)%pf then
    Raise (ValueError ("avg_win_loss_ratio must be > 0, got " +:+ repr avg_win_loss_ratio))
  else
    let b := avg_win_loss_ratio in
    let q := (dec 10 1 - win_rate)%pf in
    kelly ← pydiv (b * win_rate - q)%pf b;
    let kelly_full := pymax f_zero kelly in
    let fraction := (KELLY_FRACTION * kelly_full)%pf in
    let snapshot_mult := snapshot_multiplier_of is_snapshot_window in
    let effective_fraction := (fraction * regime_multiplier * snapshot_mult)%pf in
    let risk_amount := (capital * effective_fraction)%pf in
    let stop_distance := fabs (entry_price - stop_loss)%pf in
    min_distance ← min_stop_distance entry_price;
    if (stop_distance <? min_distance)%pf then
      Raise (ValueError
        ("stop_distance " +:+ fmt_fixed 4 stop_distance +:+ " below minimum " +:+
         fmt_fixed 4 min_distance))
    else
      raw_qty ← (if (stop_distance >? f_zero)%pf then pydiv risk_amount stop_distance
                 else mret f_zero);
      build_position_size capital entry_price stop_distance raw_qty
        "KELLY" regime_multiplier snapshot_mult.

(** ** Risk engine ([engine.py]) *)

Definition regime_risk_pct (regime : RegimeClassification.t) : float :=
  match RegimeClassification.regime regime with
  | BULL_TREND => RISK_PCT_BULL_TREND
  | BEAR_TREND => RISK_PCT_BEAR_TREND
  | MEAN_REVERTING => RISK_PCT_MEAN_REVERTING
  | HIGH_VOL_CHAOS => RISK_PCT_HIGH_VOL_CHAOS
  end.

(** Sum of the risk amounts of the open positions satisfying [p]. *)
Definition risk_of (p : OpenPosition.t -> bool) (params : RiskParameters.t) : float :=
  pysum (OpenPosition.risk_amount <$>
           List.filter p (RiskParameters.open_positions params)).

Definition same_sector (params : RiskParameters.t) (pos : OpenPosition.t) : bool :=
  String.eqb (OpenPosition.sector pos) (RiskParameters.proposed_sector params).

Definition sector_risk (params : RiskParameters.t) : float := risk_of (same_sector params) params.
Definition total_heat (params : RiskParameters.t) : float := risk_of (fun _ => true) params.

Definition limit_check (name prefix : string) (pct limit : float) : RiskCheck.t :=
  let ok := (pct <=? limit)%pf in
  RiskCheck.mk name ok
    (prefix +:+ fmt_fixed 2 pct +:+ "% " +:+
     (if ok then "≤ limit " else "exceeds limit ") +:+ repr limit +:+ "%").

Definition check_three_five_seven (params : RiskParameters.t) (proposed_risk_amount : float)
    : result (list RiskCheck.t) :=
  let capital := RiskParameters.capital params in
  if (capital <=? f_zero)%pf then
    mret [RiskCheck.mk "THREE_FIVE_SEVEN" false "Capital is zero or negative"]
  else
    proposed_pct ← pct_of proposed_risk_amount capital;
    let per_trade_check :=
      limit_check "MAX_PER_TRADE_RISK" "Proposed risk " proposed_pct MAX_SINGLE_TRADE_LOSS_PCT in
    if negb (RiskCheck.passed per_trade_check) then mret [per_trade_check]
    else
      sector_total_pct ← pct_of (sector_risk params + proposed_risk_amount)%pf capital;
      let sector_check :=
        limit_check "MAX_SECTOR_RISK"
          ("Sector '" +:+ RiskParameters.proposed_sector params +:+ "' total risk ")
          sector_total_pct MAX_SECTOR_EXPOSURE_PCT in
      if negb (RiskCheck.passed sector_check) then mret [per_trade_check; sector_check]
      else
        heat_pct ← pct_of (total_heat params + proposed_risk_amount)%pf capital;
        let heat_check :=
          limit_check "MAX_PORTFOLIO_HEAT" "Portfolio heat " heat_pct MAX_PORTFOLIO_HEAT_PCT in
        mret [per_trade_check; sector_check; heat_check].

(** [capital * (regime_pct / 100.0) * snapshot_mult] *)
Definition preliminary_risk (params : RiskParameters.t) : result float :=
  r ← pydiv (regime_risk_pct (RiskParameters.regime params)) (dec 1000 1);
  mret (RiskParameters.capital params * r *
        snapshot_multiplier_of (RiskParameters.is_snapshot_window params))%pf.

(** The [try] block of step 8. *)
Definition size_position (entry_price stop_loss : float) (params : RiskParameters.t)
    : result PositionSize.t :=
  let regime_pct := regime_risk_pct (RiskParameters.regime params) in
  regime_multiplier ← pydiv regime_pct RISK_PCT_BULL_TREND;
  match RiskParameters.use_kelly params, RiskParameters.win_rate params,
        RiskParameters.avg_win_loss_ratio params with
  | true, Some win_rate, Some avg_wl =>
      compute_kelly_position_size (RiskParameters.capital params) entry_price stop_loss
        win_rate avg_wl regime_multiplier (RiskParameters.is_snapshot_window params)
  | _, _, _ =>
      compute_atr_position_size (RiskParameters.capital params) entry_price stop_loss
        regime_pct regime_multiplier (RiskParameters.is_snapshot_window params)
  end.

Definition reject (checks : list RiskCheck.t) (reason : string) : RiskDecision.t :=
  RiskDecision.mk false None (Some reason) checks.

Definition sizing_ok_check (size : PositionSize.t) : RiskCheck.t :=
  RiskCheck.mk "SIZING" true
    ("qty=" +:+ pretty (PositionSize.quantity size) +:+
     " notional=" +:+ fmt_fixed 2 (PositionSize.notional_value size) +:+
     " risk=" +:+ fmt_fixed 3 (PositionSize.risk_pct size) +:+
     "% method=" +:+ PositionSize.sizing_method size).

Section Engine.
Context `{NumPy}.

Definition evaluate (entry_price stop_loss : float) (params : RiskParameters.t)
    : result RiskDecision.t :=
  let halted_check := check_halted_flag (RiskParameters.halted params) in
  let checks := [halted_check] in
  if negb (RiskCheck.passed halted_check) then mret (reject checks (RiskCheck.detail halted_check))
  else
  cb_check ← check_daily_loss_limit (RiskParameters.daily_pnl params) (RiskParameters.capital params);
  let checks := checks ++ [cb_check] in
  if negb (RiskCheck.passed cb_check) then mret (reject checks (RiskCheck.detail cb_check))
  else
  let tc_check := check_daily_trade_count (RiskParameters.daily_trade_count params) in
  let checks := checks ++ [tc_check] in
  if negb (RiskCheck.passed tc_check) then mret (reject checks (RiskCheck.detail tc_check))
  else
  prelim ← preliminary_risk params;
  three_five_seven ← check_three_five_seven params prelim;
  let checks := checks ++ three_five_seven in
  match find_first (fun c => negb (RiskCheck.passed c)) three_five_seven with
  | Some c => mret (reject checks (RiskCheck.detail c))
  | None =>
  let corr_check := check_correlation_guard (RiskParameters.proposed_returns params)
                      (RiskParameters.open_positions params) MAX_POSITION_CORRELATION in
  let checks := checks ++ [corr_check] in
  if negb (RiskCheck.passed corr_check) then mret (reject checks (RiskCheck.detail corr_check))
  else
  match size_position entry_price stop_loss params with
  | Raise (ValueError msg) =>
      mret (reject (checks ++ [RiskCheck.mk "SIZING" false msg]) msg)
  | Raise e => Raise e
  | Ok size =>
      let checks := checks ++ [sizing_ok_check size] in
      if (PositionSize.risk_pct size >? MAX_SINGLE_TRADE_LOSS_PCT)%pf then
        let final_check :=
          RiskCheck.mk "FINAL_PER_TRADE_CAP" false
            ("Computed risk " +:+ fmt_fixed 3 (PositionSize.risk_pct size) +:+ "% exceeds " +:+
             repr MAX_SINGLE_TRADE_LOSS_PCT +:+ "% per-trade cap after sizing") in
        mret (reject (checks ++ [final_check]) (RiskCheck.detail final_check))
      else
        let final_check :=
          RiskCheck.mk "FINAL_PER_TRADE_CAP" true
            ("Computed risk " +:+ fmt_fixed 3 (PositionSize.risk_pct size) +:+ "% within cap") in
        mret (RiskDecision.mk true (Some size) None (checks ++ [final_check]))
  end
  end.

End Engine.

#[global] Arguments pct_of : simpl never.
#[global] Arguments preliminary_risk : simpl never.
#[global] Arguments check_halted_flag : simpl never.
#[global] Arguments check_daily_loss_limit : simpl never.
#[global] Arguments check_daily_trade_count : simpl never.
#[global] Arguments check_three_five_seven : simpl never.
#[global] Arguments check_correlation_guard {_} _ _ _ : simpl never.
#[global] Arguments size_position : simpl never.

(** ** Guards: what a pass means, and that none of them can raise *)

Definition pct (x capital : float) : float := (fdiv x capital * dec 1000 1)%pf.

Lemma pct_of_positive x capital :
  fle capital f_zero = false -> pct_of x capital = Ok (pct x capital).
Proof.
  intros H. unfold pct_of. rewrite pydiv_nonzero by auto with pyfloat. reflexivity.
Qed.

Lemma preliminary_risk_ok params : exists r, preliminary_risk params = Ok r.
Proof. unfold preliminary_risk. rewrite pydiv_nonzero by reflexivity. by eexists. Qed.

Lemma daily_loss_limit_ok pnl capital :
  exists c, check_daily_loss_limit pnl capital = Ok c /\
    (RiskCheck.passed c = true <->
     fle capital f_zero = false /\ fle (pct pnl capital) DAILY_LOSS_LIMIT_PCT = false).
Proof.
  unfold check_daily_loss_limit. destruct (fle capital f_zero) eqn:Hc.
  - eexists; split; [reflexivity|]; simpl; intuition congruence.
  - rewrite pct_of_positive by done. rewrite bind_ok.
    destruct (fle (pct _ _) _) eqn:Hp; eexists; (split; [reflexivity|]); simpl; intuition congruence.
Qed.

Lemma halted_check_passed h : RiskCheck.passed (check_halted_flag h) = negb h.
Proof. by destruct h. Qed.

Lemma trade_count_passed n : RiskCheck.passed (check_daily_trade_count n) = (n <? MAX_DAILY_TRADES).
Proof.
  unfold check_daily_trade_count. rewrite Z.ltb_antisym.
  by destruct (MAX_DAILY_TRADES <=? n).
Qed.

(** A list of checks that stops at its first failure. *)
Definition fail_fast (checks : list RiskCheck.t) (reason : string) : Prop :=
  exists passes failed, checks = passes ++ [failed]
    /\ Forall (fun c => RiskCheck.passed c = true) passes
    /\ RiskCheck.passed failed = false /\ RiskCheck.detail failed = reason.

Definition all_passed (checks : list RiskCheck.t) : Prop :=
  Forall (fun c => RiskCheck.passed c = true) checks.

Lemma fail_fast_app pre l reason :
  all_passed pre -> fail_fast l reason -> fail_fast (pre ++ l) reason.
Proof.
  intros Hp (ps & f & -> & Hps & Hf & Hd). exists (pre ++ ps), f.
  rewrite app_assoc. repeat split; try done. by apply Forall_app.
Qed.

Lemma fail_fast_one c : RiskCheck.passed c = false -> fail_fast [c] (RiskCheck.detail c).
Proof. intros. exists [], c. by repeat split; try constructor. Qed.

(** The three exposure limits, on the amount at risk the rule is given. *)
Definition exposure_ok (params : RiskParameters.t) (amount : float) : Prop :=
  let capital := RiskParameters.capital params in
  fle (pct amount capital) MAX_SINGLE_TRADE_LOSS_PCT = true
  /\ fle (pct (sector_risk params + amount)%pf capital) MAX_SECTOR_EXPOSURE_PCT = true
  /\ fle (pct (total_heat params + amount)%pf capital) MAX_PORTFOLIO_HEAT_PCT = true.

Lemma three_five_seven_cases params amount :
  fle (RiskParameters.capital params) f_zero = false ->
  exists l, check_three_five_seven params amount = Ok l /\
    ((all_passed l /\ exposure_ok params amount /\
      RiskCheck.name <$> l = ["MAX_PER_TRADE_RISK"; "MAX_SECTOR_RISK"; "MAX_PORTFOLIO_HEAT"]
      /\ find_first (fun c => negb (RiskCheck.passed c)) l = None)
     \/ exists c, find_first (fun c => negb (RiskCheck.passed c)) l = Some c
                  /\ fail_fast l (RiskCheck.detail c) /\ ~ exposure_ok params amount).
Proof.
  intros Hc. unfold check_three_five_seven, exposure_ok. rewrite Hc.
  rewrite !pct_of_positive, !bind_ok by done. simpl.
  destruct (fle (pct amount _) _) eqn:H1; simpl.
  2: { eexists; split; [reflexivity|]; right; simpl; rewrite H1; eexists; split; [reflexivity|].
       split; [by apply fail_fast_one | intuition congruence]. }
  destruct (fle (pct (sector_risk _ + _)%pf _) _) eqn:H2; simpl.
  2: { eexists; split; [reflexivity|]; right; simpl; rewrite H1, H2; eexists; split; [reflexivity|].
       split; [|intuition congruence].
       apply (fail_fast_app [_]); [by constructor | by apply fail_fast_one]. }
  destruct (fle (pct (total_heat _ + _)%pf _) _) eqn:H3; simpl.
  - eexists; split; [reflexivity|]; left. unfold all_passed; simpl. rewrite H1, H2, H3.
    repeat split; repeat constructor; simpl; done.
  - eexists; split; [reflexivity|]; right; simpl; rewrite H1, H2, H3; eexists; split; [reflexivity|].
    split; [|intuition congruence].
    apply (fail_fast_app [_; _]); [by repeat constructor | by apply fail_fast_one].
Qed.

(** Every size that is built holds at least one unit. *)
Lemma build_position_size_quantity c e d q m r s size :
  build_position_size c e d q m r s = Ok size ->
  exists fl, floor q = Ok fl /\ PositionSize.quantity size = Z.max 1 fl.
Proof.
  unfold build_position_size. intros H. bind_inv H. bind_inv H. bind_inv H.
  injection H as <-. eauto.
Qed.

Lemma atr_size_inv capital e s base mult snap size :
  compute_atr_position_size capital e s base mult snap = Ok size ->
  exists raw fl, floor raw = Ok fl /\ PositionSize.quantity size = Z.max 1 fl
    /\ fle e f_zero = false
    /\ pydiv (capital * fdiv (base * mult * snapshot_multiplier_of snap) (dec 1000 1))%pf
         (fabs (e - s)%pf) = Ok raw.
Proof.
  unfold compute_atr_position_size. destruct (fle e f_zero) eqn:He; [done|].
  intros H. bind_inv H. destruct (flt (fabs _) a) eqn:?; [done|].
  bind_inv H. bind_inv H. apply build_position_size_quantity in H as (fl & Hf & Hq).
  rewrite pydiv_nonzero in Ha0 by reflexivity. injection Ha0 as <-. eauto 10.
Qed.

Lemma size_position_quantity e s params size :
  size_position e s params = Ok size -> 1 <= PositionSize.quantity size.
Proof.
  unfold size_position. intros H. bind_inv H.
  assert (Hatr : forall b m w, compute_atr_position_size (RiskParameters.capital params) e s b m w
            = Ok size -> 1 <= PositionSize.quantity size).
  { intros b m w (? & ? & ? & -> & _)%atr_size_inv. lia. }
  destruct (RiskParameters.use_kelly params); [|by eapply Hatr].
  destruct (RiskParameters.win_rate params); [|by eapply Hatr].
  destruct (RiskParameters.avg_win_loss_ratio params); [|by eapply Hatr].
  unfold compute_kelly_position_size in H.
  do 2 (case_match; [done|]). bind_inv H. bind_inv H. case_match; [done|]. bind_inv H.
  apply build_position_size_quantity in H as (? & ? & ->). lia.
Qed.

(** ** The engine *)

Section EngineFacts.
Context `{NumPy}.

(** What approval commits the engine to. *)
Definition approval_facts (entry_price stop_loss : float) (params : RiskParameters.t)
    (d : RiskDecision.t) : Prop :=
  RiskParameters.halted params = false
  /\ fle (RiskParameters.capital params) f_zero = false
  /\ fle (pct (RiskParameters.daily_pnl params) (RiskParameters.capital params))
         DAILY_LOSS_LIMIT_PCT = false
  /\ RiskParameters.daily_trade_count params < MAX_DAILY_TRADES
  /\ (exists amount, preliminary_risk params = Ok amount /\ exposure_ok params amount)
  /\ RiskCheck.passed (check_correlation_guard (RiskParameters.proposed_returns params)
       (RiskParameters.open_positions params) MAX_POSITION_CORRELATION) = true
  /\ (exists size, size_position entry_price stop_loss params = Ok size
        /\ RiskDecision.position_size d = Some size
        /\ 1 <= PositionSize.quantity size
        /\ flt MAX_SINGLE_TRADE_LOSS_PCT (PositionSize.risk_pct size) = false)
  /\ all_passed (RiskDecision.checks d)
  /\ RiskDecision.rejection_reason d = None.

Definition rejection_facts (d : RiskDecision.t) : Prop :=
  RiskDecision.position_size d = None
  /\ exists reason, RiskDecision.rejection_reason d = Some reason
       /\ fail_fast (RiskDecision.checks d) reason.

Lemma reject_facts pre l reason :
  all_passed pre -> fail_fast l reason -> rejection_facts (reject (pre ++ l) reason).
Proof. intros. split; [done|]. eexists; split; [done|]. by apply fail_fast_app. Qed.

(** The single case analysis behind the engine's theorems. *)
Lemma evaluate_cases e s params :
  match evaluate e s params with
  | Ok d => if RiskDecision.approved d then approval_facts e s params d else rejection_facts d
  | Raise x => size_position e s params = Raise x /\ forall msg, x <> ValueError msg
  end.
Proof.
  unfold evaluate. rewrite halted_check_passed, trade_count_passed.
  destruct (preliminary_risk_ok params) as [amount Hamt]. rewrite Hamt.
  destruct (RiskParameters.halted params) eqn:Hh; simpl.
  { apply (reject_facts []); [constructor|]. by apply fail_fast_one. }
  destruct (daily_loss_limit_ok (RiskParameters.daily_pnl params) (RiskParameters.capital params))
    as (cb & -> & Hcb). simpl.
  destruct (RiskCheck.passed cb) eqn:Ecb; simpl.
  2: { apply (reject_facts [_]); [by constructor|]. by apply fail_fast_one. }
  destruct (proj1 Hcb eq_refl) as [Hcap Hpnl].
  destruct (_ <? _) eqn:Htc; simpl.
  2: { apply (reject_facts [_; _]); [by repeat constructor|]. apply fail_fast_one.
       by rewrite trade_count_passed. }
  destruct (three_five_seven_cases params amount Hcap)
    as (l & -> & [(Hall & Hexp & Hnames & Hff) | (c & Hff & Hfast & _)]); simpl; rewrite Hff.
  2: { apply (reject_facts [_; _; _]); [|done]. repeat constructor; try done.
       by rewrite trade_count_passed. }
  set (pre := check_halted_flag false :: cb ::
                check_daily_trade_count (RiskParameters.daily_trade_count params) :: l).
  assert (Hpre : all_passed pre).
  { unfold pre. repeat (apply Forall_cons; split; [first [done | by rewrite trade_count_passed]|]).
    exact Hall. }
  destruct (RiskCheck.passed (check_correlation_guard _ _ _)) eqn:Hcorr; simpl.
  2: { apply (reject_facts pre); [done|]. by apply fail_fast_one. }
  destruct (size_position e s params) as [size|x] eqn:Hsize.
  2: { destruct x; try (by split); simpl. rewrite <- app_assoc.
       apply (reject_facts pre [_; RiskCheck.mk _ false _]); [done|].
       apply (fail_fast_app [_]); [by constructor|]. by apply (fail_fast_one (RiskCheck.mk _ false _)). }
  destruct (flt MAX_SINGLE_TRADE_LOSS_PCT _) eqn:Hcap3; simpl; rewrite <- !app_assoc.
  - apply (reject_facts pre [_; _; RiskCheck.mk _ false _]); [done|].
    apply (fail_fast_app [_; _]); [by repeat constructor|].
    by apply (fail_fast_one (RiskCheck.mk _ false _)).
  - repeat split; try done; try by apply Z.ltb_lt.
    + eauto.
    + exists size. repeat split; try done. by eapply size_position_quantity.
    + apply (Forall_app _ pre); split; [done|]. by repeat constructor.
Qed.

(** C1. Approval is sound: [evaluate] approves only when the system is not
    halted, capital is positive, today's P&L is above the -2% circuit breaker,
    fewer than ten trades were taken, the preliminary risk respects the 3%,
    5% and 7% limits, the correlation guard passed, and the returned size
    holds at least one unit and does not exceed 3% of capital. *)
Theorem evaluate_approved_sound entry_price stop_loss params d :
  evaluate entry_price stop_loss params = Ok d ->
  RiskDecision.approved d = true ->
  approval_facts entry_price stop_loss params d.
Proof. pose proof (evaluate_cases entry_price stop_loss params) as H0. intros E Ha. by rewrite E, Ha in H0. Qed.

(** Rejection is fail-fast and explained: a decision that is not approved
    carries no size, its list of checks is a run of passes ended by the one
    failure, and the rejection reason is that failure's detail. *)
Theorem evaluate_rejected_fail_fast entry_price stop_loss params d :
  evaluate entry_price stop_loss params = Ok d ->
  RiskDecision.approved d = false ->
  rejection_facts d.
Proof. pose proof (evaluate_cases entry_price stop_loss params) as H0. intros E Ha. by rewrite E, Ha in H0. Qed.

(** The seven guards never raise: an exception that escapes [evaluate]
    was raised by the position sizing, after every guard passed, and is not
    the [ValueError] that the engine turns into a rejection. *)
Theorem evaluate_raises_only_from_sizing entry_price stop_loss params e :
  evaluate entry_price stop_loss params = Raise e ->
  size_position entry_price stop_loss params = Raise e /\ forall msg, e <> ValueError msg.
Proof. pose proof (evaluate_cases entry_price stop_loss params) as H0. intros E. by rewrite E in H0. Qed.

(** RULE 2 is not a zero-size rule in the sizing code: in
    [HIGH_VOL_CHAOS] the fixed-risk budget is zero, yet every approved
    decision carries exactly one share, because the quantity is floored at
    one after the budget is applied. *)
Theorem chaos_regime_sizes_one_share entry_price stop_loss params d :
  evaluate entry_price stop_loss params = Ok d ->
  RiskDecision.approved d = true ->
  RegimeClassification.regime (RiskParameters.regime params) = HIGH_VOL_CHAOS ->
  RiskParameters.use_kelly params = false ->
  is_finite (RiskParameters.capital params) = true ->
  PositionSize.quantity <$> RiskDecision.position_size d = Some 1.
Proof.
  pose proof (evaluate_cases entry_price stop_loss params) as H0. intros E Ha Hr Hk Hf.
  rewrite E, Ha in H0. destruct H0 as (_ & _ & _ & _ & _ & _ & (size & Hs & -> & _) & _).
  simpl. f_equal. revert Hs. unfold size_position, regime_risk_pct. rewrite Hr, Hk.
  intros Hs. bind_inv Hs. injection Ha0 as <-.
  apply atr_size_inv in Hs as (raw & fl & Hfl & -> & _ & Hraw).
  assert (Hz : is_zero (RiskParameters.capital params *
     fdiv (RISK_PCT_HIGH_VOL_CHAOS * fdiv RISK_PCT_HIGH_VOL_CHAOS RISK_PCT_BULL_TREND *
           snapshot_multiplier_of (RiskParameters.is_snapshot_window params)) (dec 1000 1))%pf = true).
  { destruct (RiskParameters.is_snapshot_window params); by apply fmul_zero_r. }
  by rewrite (floor_zero_div _ _ _ _ Hz Hraw Hfl).
Qed.

(** The correlation guard passes exactly when there is nothing to compare
    or no open position's correlation exceeds the threshold in absolute value
    (a NaN correlation exceeds nothing). *)
Theorem correlation_guard_iff proposed open_positions limit :
  RiskCheck.passed (check_correlation_guard proposed open_positions limit) = true <->
  open_positions = [] \/ (length proposed < 2)%nat
  \/ forall pos, pos ∈ open_positions ->
       flt limit (fabs (pearson_correlation proposed (OpenPosition.returns pos))) = false.
Proof.
  unfold check_correlation_guard. destruct open_positions as [|p ps]; [simpl; tauto|].
  destruct (Nat.ltb_spec (length proposed) 2) as [Hl|Hl]; [simpl; tauto|].
  destruct (find_first _ _) as [q|] eqn:Hff; simpl.
  - apply find_first_Some in Hff as [Hin Hb]. split; [done|].
    intros [?|[?|Hall]]; [done|lia|]. unfold correlation_breach in Hb.
    by rewrite Hall in Hb by done.
  - split; [|done]. intros _. right; right. by apply find_first_None.
Qed.

End EngineFacts.

(** ** Evaluation on concrete inputs

    The textbook formulas stand in for NumPy. *)

Definition mean (l : list float) : float :=
  fdiv (pysum l) (dec (Z.of_nat (length l)) 0).

Definition covariance (a b : list float) : float :=
  mean (zip_with (fun x y => (x - mean a) * (y - mean b))%pf a b).

Definition fsqrt (x : float) : float := SFsqrt prec emax x.

Definition textbook_numpy : NumPy := {|
  np_std a := fsqrt (covariance a a);
  np_corrcoef01 a b :=
    fdiv (covariance a b) (fsqrt (covariance a a) * fsqrt (covariance b b))%pf;
|}.

Definition sample_features : RegimeFeatures.t :=
  RegimeFeatures.mk (dec 30 0) (dec 50 0) (dec 2 0) (dec 1 0) (dec 0 0) (dec 1 0) (dec 15 0) false.

Definition sample_regime (r : MarketRegime) : RegimeClassification.t :=
  RegimeClassification.mk r (dec 9 1) sample_features 0 0.

Definition sample_position : OpenPosition.t :=
  OpenPosition.mk "TCS" "NSE" "LONG" 10 (dec 3500 0) (dec 3400 0) "IT" (dec 1000 0)
    [dec 1 2; dec (-1) 2; dec 0 2; dec 1 2].

Definition sample_params (r : MarketRegime) : RiskParameters.t :=
  RiskParameters.mk (dec 1000000 1) [sample_position] (dec (-500) 0) 3 false (sample_regime r)
    "BANKING" [dec 1 2; dec 2 2; dec (-1) 2; dec 0 0] false None None false.

Definition decision_of (r : result RiskDecision.t) : RiskDecision.t :=
  match r with Ok d => d | Raise _ => reject [] "" end.

Definition sample_decision (r : MarketRegime) : RiskDecision.t :=
  decision_of (@evaluate textbook_numpy (dec 1000 0) (dec 980 0) (sample_params r)).

Definition halted_params : RiskParameters.t :=
  RiskParameters.mk (dec 1000000 1) [] (dec 0 0) 0 false (sample_regime BULL_TREND)
    "IT" [] false None None true.

(** A subnormal price makes the minimum stop distance underflow to zero. *)
Definition tiny : float := S754_finite false 1 (-1074).

Lemma evaluate_approved_sound_witness :
  approval_facts (H := textbook_numpy) (dec 1000 0) (dec 980 0) (sample_params BULL_TREND)
    (sample_decision BULL_TREND).
Proof.
  apply (@evaluate_approved_sound textbook_numpy).
  - vm_compute. reflexivity.
  - vm_compute. reflexivity.
Defined.

Lemma evaluate_rejected_fail_fast_witness :
  rejection_facts (decision_of (@evaluate textbook_numpy (dec 1000 0) (dec 980 0) halted_params)).
Proof.
  apply (@evaluate_rejected_fail_fast textbook_numpy (dec 1000 0) (dec 980 0) halted_params).
  - vm_compute. reflexivity.
  - vm_compute. reflexivity.
Defined.

Lemma evaluate_raises_only_from_sizing_witness :
  size_position tiny tiny (sample_params BULL_TREND) = Raise ZeroDivisionError
  /\ forall msg, ZeroDivisionError <> ValueError msg.
Proof.
  apply (@evaluate_raises_only_from_sizing textbook_numpy). vm_compute. reflexivity.
Defined.

Lemma chaos_regime_sizes_one_share_witness :
  PositionSize.quantity <$> RiskDecision.position_size (sample_decision HIGH_VOL_CHAOS) = Some 1.
Proof.
  apply (@chaos_regime_sizes_one_share textbook_numpy (dec 1000 0) (dec 980 0)
           (sample_params HIGH_VOL_CHAOS)).
  - vm_compute. reflexivity.
  - vm_compute. reflexivity.
  - reflexivity.
  - reflexivity.
  - vm_compute. reflexivity.
Defined.
