(* ===== verification/MarketData.v ===== *)
(** * Market data models

    [shared/storage/models.py], [shared/patterns/models.py] and
    [shared/sentiment/models.py].  A timezone-aware [datetime] is its number
    of microseconds since the epoch, a [date] its day number. *)

From S2P Require Import Prelude PyFloat PyDict.
Local Open Scope Z_scope.

(** Microseconds. *)
Definition SECOND : Z := 1000000.
Definition MINUTE : Z := 60 * SECOND.
Definition HOUR : Z := 60 * MINUTE.
Definition DAY : Z := 24 * HOUR.

(** [timedelta.total_seconds()] *)
Definition total_seconds (delta : Z) : result float := int_truediv delta SECOND.

(** ** Ticks and candles ([storage/models.py]) *)

Module Tick.
Record t := mk {
  time : Z;
  symbol : string;
  exchange : string;
  price : float;
  volume : Z;
  bid : option float;
  ask : option float;
}.
End Tick.

Module OHLCVCandle.
Record t := mk {
  time : Z;
  symbol : string;
  exchange : string;
  open : float;
  high : float;
  low : float;
  close : float;
  volume : Z;
}.
End OHLCVCandle.

(** ** Patterns ([patterns/models.py]) *)

Module CandlestickSignal.
Record t := mk { name : string; direction : Z; bar_index : Z }.
End CandlestickSignal.

Module ORBState.
Record t := mk {
  orb_high : float;
  orb_low : float;
  orb_range : float;
  session_open : Z;
  range_formed : bool;
  breakout_direction : option Z;
  breakout_price : option float;
}.
End ORBState.

Module SRLevel.
Record t := mk {
  price : float;
  level_type : string;
  strength : float;
  touches : Z;
  last_touch_bar : Z;
}.
End SRLevel.

Module PatternSnapshot.
Record t := mk {
  symbol : string;
  exchange : string;
  timeframe : string;
  computed_at : Z;
  candle_time : Z;
  candlestick_signals : list CandlestickSignal.t;
  orb_state : option ORBState.t;
  sr_levels : list SRLevel.t;
}.
End PatternSnapshot.

Module MultiTimeframePatterns.
Record t := mk {
  symbol : string;
  exchange : string;
  computed_at : Z;
  snapshots : dict string PatternSnapshot.t;
  confirmed_bullish_patterns : list string;
  confirmed_bearish_patterns : list string;
}.
End MultiTimeframePatterns.

(** ** Sentiment ([sentiment/models.py])

    The [make] functions are the dataclass constructors with their
    [__post_init__] validation; the timezone checks hold by construction. *)

Module Headline.
Record t := mk {
  text : string;
  url : option string;
  source : string;
  published_at : Z;
  exchange : option string;
}.

Definition make (text : string) (url : option string) (source : string) (published_at : Z)
    (exchange : option string) : result t :=
  if String.eqb (str_strip text) "" then Raise (ValueError "Headline.text must not be blank")
  else
    match exchange with
    | Some e =>
        if bool_decide (e ∈ ["NSE"; "ASX"]) then mret (mk text url source published_at exchange)
        else Raise (ValueError ("Unknown exchange: '" +:+ e +:+ "'"))
    | None => mret (mk text url source published_at exchange)
    end.
End Headline.

Module SentimentScore.
Record t := mk {
  headline : string;
  score : float;
  label : string;
  confidence : float;
  tokens_used : Z;
  from_cache : bool;
  model_version : string;
}.

Definition make (headline : string) (score : float) (label : string) (confidence : float)
    (tokens_used : Z) (from_cache : bool) (model_version : string) : result t :=
  if negb ((dec (-10) 1 <=? score)%pf && (score <=? dec 10 1)%pf) then
    Raise (ValueError ("score must be in [-1, 1], got " +:+ repr score))
  else if negb (bool_decide (label ∈ ["BULLISH"; "BEARISH"; "NEUTRAL"])) then
    Raise (ValueError ("Unknown label: '" +:+ label +:+ "'"))
  else if negb ((f_zero <=? confidence)%pf && (confidence <=? dec 10 1)%pf) then
    Raise (ValueError ("confidence must be in [0, 1], got " +:+ repr confidence))
  else if tokens_used <? 0 then
    Raise (ValueError ("tokens_used must be >= 0, got " +:+ pretty tokens_used))
  else mret (mk headline score label confidence tokens_used from_cache model_version).
End SentimentScore.

Module FIIDIIData.
Record t := mk {
  date : Z;
  fii_net_crore : float;
  dii_net_crore : float;
  fetched_at : Z;
}.

Definition net_institutional (self : t) : float := (fii_net_crore self + dii_net_crore self)%pf.
End FIIDIIData.

Module VIXData.
Record t := mk { vix : float; put_call_ratio : option float; fetched_at : Z }.

Definition make (vix : float) (put_call_ratio : option float) (fetched_at : Z) : result t :=
  if (vix <? f_zero)%pf then
    Raise (ValueError ("VIX must be non-negative, got " +:+ repr vix))
  else
    match put_call_ratio with
    | Some p =>
        if (p <? f_zero)%pf then
          Raise (ValueError ("put_call_ratio must be non-negative, got " +:+ repr p))
        else mret (mk vix put_call_ratio fetched_at)
    | None => mret (mk vix put_call_ratio fetched_at)
    end.
End VIXData.

Module MarketSentiment.
Record t := mk {
  exchange : string;
  headlines : list Headline.t;
  scores : list SentimentScore.t;
  aggregate_score : float;
  fii_dii : option FIIDIIData.t;
  vix_data : option VIXData.t;
  total_tokens_used : Z;
  total_cost_usd : float;
  cache_hits : Z;
  cache_misses : Z;
  scored_at : Z;
}.

Definition cache_hit_rate (self : t) : result float :=
  let total := cache_hits self + cache_misses self in
  if 0 <? total then int_truediv (cache_hits self) total else mret f_zero.

(** [now] is [datetime.now(tz=timezone.utc)]. *)
Definition empty (exchange : string) (now : Z) : t :=
  mk exchange [] [] f_zero None None 0 f_zero 0 0 now.
End MarketSentiment.
