(* ===== verification/PyDate.v ===== *)
(** * Calendar dates of Python's [datetime] module

    A [date] is its number of days since 1970-01-01 and an aware UTC
    [datetime] its number of microseconds since the epoch.  This file holds
    the proleptic Gregorian calendar, [strftime("%Y%m%d")], [isoformat] and
    [fromisoformat] in the form [isoformat] writes, and their round trips. *)

From S2P Require Import Prelude PyFloat PyText MarketData.
Local Open Scope Z_scope.

(** ** The Gregorian calendar

    Years are counted from March, so that the leap day is the last of the
    year; 400 years are 146097 days. *)

Record civil := { year : Z; month : Z; day : Z }.

Definition year_of_era (doe : Z) : Z := (doe - doe / 1460 + doe / 36524 - doe / 146096) / 365.
Definition day_of_year (doe : Z) : Z :=
  let yoe := year_of_era doe in doe - (365 * yoe + yoe / 4 - yoe / 100).
Definition month_index (doy : Z) : Z := (5 * doy + 2) / 153.

Definition civil_of_days (days : Z) : civil :=
  let z := days + 719468 in
  let era := z / 146097 in
  let doe := z mod 146097 in
  let doy := day_of_year doe in
  let mp := month_index doy in
  let m := if mp <? 10 then mp + 3 else mp - 9 in
  {| year := year_of_era doe + era * 400 + (if m <=? 2 then 1 else 0);
     month := m;
     day := doy - (153 * mp + 2) / 5 + 1 |}.

Definition days_of_civil (c : civil) : Z :=
  let y := if month c <=? 2 then year c - 1 else year c in
  let era := y / 400 in
  let yoe := y mod 400 in
  let mp := if 2 <? month c then month c - 3 else month c + 9 in
  let doy := (153 * mp + 2) / 5 + day c - 1 in
  era * 146097 + (yoe * 365 + yoe / 4 - yoe / 100 + doy) - 719468.

Lemma year_of_era_range doe : 0 <= doe < 146097 -> 0 <= year_of_era doe < 400.
Proof. intros H. unfold year_of_era. Z.to_euclidean_division_equations. lia. Qed.

Lemma day_of_year_range doe : 0 <= doe < 146097 -> 0 <= day_of_year doe <= 365.
Proof.
  intros H. unfold day_of_year, year_of_era. Z.to_euclidean_division_equations. lia.
Qed.

Lemma month_range doy : 0 <= doy <= 365 ->
  0 <= month_index doy < 12 /\ 1 <= doy - (153 * month_index doy + 2) / 5 + 1 <= 31.
Proof. intros H. unfold month_index. Z.to_euclidean_division_equations. lia. Qed.

Lemma era_day doe : 0 <= doe < 146097 ->
  0 <= year_of_era doe < 400 /\ 0 <= month_index (day_of_year doe) < 12
  /\ 1 <= day_of_year doe - (153 * month_index (day_of_year doe) + 2) / 5 + 1 <= 31.
Proof.
  intros H. split; [by apply year_of_era_range|]. apply month_range, day_of_year_range, H.
Qed.

Lemma civil_range days :
  1 <= month (civil_of_days days) <= 12 /\ 1 <= day (civil_of_days days) <= 31.
Proof.
  pose proof (era_day ((days + 719468) mod 146097) ltac:(apply Z.mod_pos_bound; lia)) as (Hy & Hm & Hd).
  unfold civil_of_days. cbv zeta. cbn [month day].
  destruct (Z.ltb_spec (month_index (day_of_year ((days + 719468) mod 146097))) 10); lia.
Qed.

Lemma days_of_civil_of_days days : days_of_civil (civil_of_days days) = days.
Proof.
  set (z := days + 719468).
  pose proof (era_day (z mod 146097) ltac:(apply Z.mod_pos_bound; lia)) as (Hy & Hm & _).
  unfold days_of_civil, civil_of_days. cbv zeta. cbn [month day year]. fold z.
  remember (year_of_era (z mod 146097)) as yoe eqn:Hyoe.
  remember (month_index (day_of_year (z mod 146097))) as mp eqn:Hmp.
  set (m := if mp <? 10 then mp + 3 else mp - 9).
  assert (Hback : (if 2 <? m then m - 3 else m + 9) = mp).
  { unfold m. destruct (Z.ltb_spec mp 10); destruct (Z.ltb_spec 2 (mp + 3)); destruct (Z.ltb_spec 2 (mp - 9)); lia. }
  assert (Hyear : (if m <=? 2 then yoe + z / 146097 * 400 + (if m <=? 2 then 1 else 0) - 1
                   else yoe + z / 146097 * 400 + (if m <=? 2 then 1 else 0)) = yoe + z / 146097 * 400)
    by (destruct (m <=? 2); lia).
  rewrite Hback, Hyear, Z.div_add, Z.mod_add, Z.div_small, Z.mod_small by lia.
  unfold day_of_year. cbv zeta. rewrite <- Hyoe.
  pose proof (Z.div_mod z 146097 ltac:(lia)). unfold z in *. lia.
Qed.

(** Two dates with the same year, month and day are the same. *)
Lemma civil_of_days_inj a b : civil_of_days a = civil_of_days b -> a = b.
Proof. intros E. by rewrite <- (days_of_civil_of_days a), <- (days_of_civil_of_days b), E. Qed.

(** ** Fields of a fixed width

    [f"{z:0{w}d}"] for [0 <= z < 10 ** w], most significant digit first. *)

Definition digit_char (d : Z) : ascii := ascii_of_N (48 + Z.to_N d).

Fixpoint fixed (w : nat) (z : Z) : string :=
  match w with
  | O => ""
  | S w => String (digit_char (z / 10 ^ Z.of_nat w mod 10)) (fixed w z)
  end.

(** The value of the next [w] characters, which must be digits. *)
Fixpoint read_fixed (w : nat) (acc : Z) (s : string) : option (Z * string) :=
  match w with
  | O => Some (acc, s)
  | S w =>
      match s with
      | String c s =>
          if is_digit c then read_fixed w (acc * 10 + (Z.of_N (N_of_ascii c) - 48)) s else None
      | EmptyString => None
      end
  end.

Lemma digit_char_spec d : 0 <= d < 10 ->
  is_digit (digit_char d) = true /\ Z.of_N (N_of_ascii (digit_char d)) - 48 = d.
Proof.
  intros Hd. assert (d = 0 \/ d = 1 \/ d = 2 \/ d = 3 \/ d = 4 \/ d = 5 \/ d = 6 \/ d = 7 \/ d = 8 \/ d = 9)
    as Hc by lia. by destruct_or! Hc; subst.
Qed.

Lemma read_fixed_app w z acc s :
  read_fixed w acc (fixed w z +:+ s) = Some (acc * 10 ^ Z.of_nat w + z mod 10 ^ Z.of_nat w, s).
Proof.
  revert acc. induction w as [|w IH]; intros acc.
  - cbn. rewrite Z.mod_1_r. do 2 f_equal. lia.
  - cbn [fixed]. rewrite str_cons_app. cbn [read_fixed].
    destruct (digit_char_spec (z / 10 ^ Z.of_nat w mod 10)) as [-> ->]; [apply Z.mod_pos_bound; lia|].
    rewrite IH, Nat2Z.inj_succ, Z.pow_succ_r, (Z.mul_comm 10 (10 ^ _)), Z.rem_mul_r by lia.
    do 2 f_equal. lia.
Qed.

Lemma read_fixed_in w z s : 0 <= z < 10 ^ Z.of_nat w -> read_fixed w 0 (fixed w z +:+ s) = Some (z, s).
Proof. intros Hz. by rewrite read_fixed_app, Z.mod_small. Qed.

Lemma fixed_app_inj w a b s t :
  0 <= a < 10 ^ Z.of_nat w -> 0 <= b < 10 ^ Z.of_nat w ->
  fixed w a +:+ s = fixed w b +:+ t -> a = b /\ s = t.
Proof.
  intros Ha Hb E. apply (f_equal (read_fixed w 0)) in E. rewrite !read_fixed_in in E by done.
  by injection E.
Qed.

(** ** [strftime("%Y%m%d")] and [isoformat] *)

Definition strftime_ymd (days : Z) : string :=
  let c := civil_of_days days in fixed 4 (year c) +:+ fixed 2 (month c) +:+ fixed 2 (day c).

Definition isoformat_date (days : Z) : string :=
  let c := civil_of_days days in
  fixed 4 (year c) +:+ "-" +:+ fixed 2 (month c) +:+ "-" +:+ fixed 2 (day c).

(** Years that Python's [datetime] can hold. *)
Definition in_datetime (days : Z) : Prop := 1 <= year (civil_of_days days) <= 9999.

Lemma strftime_ymd_inj a b :
  in_datetime a -> in_datetime b -> strftime_ymd a = strftime_ymd b -> a = b.
Proof.
  intros Ha Hb E. apply civil_of_days_inj. unfold strftime_ymd, in_datetime in *. cbv zeta in *.
  pose proof (civil_range a) as (Hma & Hda). pose proof (civil_range b) as (Hmb & Hdb).
  destruct (civil_of_days a) as [ya ma da], (civil_of_days b) as [yb mb db]. cbn [year month day] in *.
  apply fixed_app_inj in E as [-> E]; [|lia..]. apply fixed_app_inj in E as [-> E]; [|lia..].
  apply (f_equal (fun s => s +:+ "")) in E. apply fixed_app_inj in E as [-> _]; [done|lia..].
Qed.

(** [isoformat()] of an aware UTC [datetime]: the microseconds are written when
    they are not zero. *)
Definition isoformat (t : Z) : string :=
  let rest := t mod DAY in
  let us := rest mod SECOND in
  isoformat_date (t / DAY) +:+ "T" +:+ fixed 2 (rest / HOUR) +:+ ":" +:+ fixed 2 (rest / MINUTE mod 60)
  +:+ ":" +:+ fixed 2 (rest / SECOND mod 60)
  +:+ (if us =? 0 then "" else "." +:+ fixed 6 us) +:+ "+00:00".

(** [datetime.fromisoformat] on the forms [isoformat] writes, with an offset
    [+HH:MM] or [-HH:MM] or none: the instant and whether the text is aware.
    The other ISO 8601 spellings it accepts are not modelled. *)
Definition iso_offset (s : string) : option (Z * bool) :=
  match s with
  | EmptyString => Some (0, false)
  | String c s =>
      '(h, s) ← read_fixed 2 0 s;
      s ← strip_prefix ":" s;
      '(m, s) ← read_fixed 2 0 s;
      if negb (is_empty s) || (24 <=? h) || (60 <=? m) then None
      else if Ascii.eqb c "+" then Some (h * HOUR + m * MINUTE, true)
      else if Ascii.eqb c "-" then Some (- (h * HOUR + m * MINUTE), true)
      else None
  end.

Definition iso_date (s : string) : option (Z * string) :=
  '(y, s) ← read_fixed 4 0 s;
  s ← strip_prefix "-" s;
  '(m, s) ← read_fixed 2 0 s;
  s ← strip_prefix "-" s;
  '(d, s) ← read_fixed 2 0 s;
  let c := {| year := y; month := m; day := d |} in
  let back := civil_of_days (days_of_civil c) in
  if (1 <=? y) && (year back =? y) && (month back =? m) && (day back =? d)
  then Some (days_of_civil c, s) else None.

Definition iso_micros (s : string) : option (Z * string) :=
  match strip_prefix "." s with
  | Some s => read_fixed 6 0 s
  | None => Some (0, s)
  end.

Definition iso_time (s : string) : option (Z * string) :=
  '(h, s) ← read_fixed 2 0 s;
  s ← strip_prefix ":" s;
  '(mi, s) ← read_fixed 2 0 s;
  s ← strip_prefix ":" s;
  '(sec, s) ← read_fixed 2 0 s;
  '(us, s) ← iso_micros s;
  if (24 <=? h) || (60 <=? mi) || (60 <=? sec) then None
  else Some (h * HOUR + mi * MINUTE + sec * SECOND + us, s).

Definition read_iso (s : string) : option (Z * bool) :=
  '(days, s) ← iso_date s;
  s ← strip_prefix "T" s;
  '(time, s) ← iso_time s;
  '(offset, aware) ← iso_offset s;
  Some (days * DAY + time - offset, aware).

Definition fromisoformat (s : string) : result (Z * bool) :=
  match read_iso s with
  | Some r => Ok r
  | None => Raise (ValueError "Invalid isoformat string")
  end.

Lemma iso_date_back days s : in_datetime days -> iso_date (isoformat_date days +:+ s) = Some (days, s).
Proof.
  intros Hy. unfold iso_date, isoformat_date, in_datetime in *. cbv zeta.
  pose proof (civil_range days) as (Hm & Hd). pose proof (days_of_civil_of_days days) as Hb.
  rewrite !str_app_assoc, read_fixed_in by lia. cbn [mbind option_bind].
  rewrite strip_prefix_app. cbn [mbind option_bind].
  rewrite read_fixed_in by lia. cbn [mbind option_bind].
  rewrite strip_prefix_app. cbn [mbind option_bind].
  rewrite read_fixed_in by lia. cbn [mbind option_bind].
  replace {| year := _; month := _; day := _ |} with (civil_of_days days) by (by destruct (civil_of_days days)).
  rewrite Hb, !Z.eqb_refl. by destruct (Z.leb_spec 1 (year (civil_of_days days))); [|lia].
Qed.

Lemma iso_micros_back us s : 0 <= us < SECOND -> strip_prefix "." s = None ->
  iso_micros ((if us =? 0 then "" else "." +:+ fixed 6 us) +:+ s) = Some (us, s).
Proof.
  intros Hus Hs. unfold iso_micros. destruct (Z.eqb_spec us 0) as [->|Hne].
  - by rewrite str_nil_app, Hs.
  - rewrite str_app_assoc, strip_prefix_app. apply read_fixed_in. exact Hus.
Qed.

(** The fields of a time of day give it back. *)
Lemma time_fields rest : 0 <= rest < DAY ->
  rest / HOUR * HOUR + rest / MINUTE mod 60 * MINUTE + rest / SECOND mod 60 * SECOND + rest mod SECOND = rest
  /\ 0 <= rest / HOUR < 24.
Proof. unfold DAY, HOUR, MINUTE, SECOND. intros H. Z.to_euclidean_division_equations. lia. Qed.

Theorem fromisoformat_isoformat t :
  in_datetime (t / DAY) -> fromisoformat (isoformat t) = Ok (t, true).
Proof.
  intros Hd. unfold fromisoformat, read_iso, isoformat, iso_time. cbv zeta.
  assert (Hr : 0 <= t mod DAY < DAY) by (apply Z.mod_pos_bound; reflexivity).
  destruct (time_fields _ Hr) as [Hsum Hh].
  pose proof (Z.mod_pos_bound (t mod DAY / MINUTE) 60 ltac:(lia)) as Hmi.
  pose proof (Z.mod_pos_bound (t mod DAY / SECOND) 60 ltac:(lia)) as Hse.
  pose proof (Z.mod_pos_bound (t mod DAY) SECOND ltac:(reflexivity)) as Hus.
  rewrite iso_date_back by done. cbn [mbind option_bind]. rewrite strip_prefix_app. cbn [mbind option_bind].
  rewrite read_fixed_in by lia. cbn [mbind option_bind]. rewrite strip_prefix_app. cbn [mbind option_bind].
  rewrite read_fixed_in by lia. cbn [mbind option_bind]. rewrite strip_prefix_app. cbn [mbind option_bind].
  rewrite read_fixed_in by lia. cbn [mbind option_bind].
  rewrite iso_micros_back by done. cbn [mbind option_bind].
  destruct (Z.leb_spec 24 (t mod DAY / HOUR)); [lia|].
  destruct (Z.leb_spec 60 (t mod DAY / MINUTE mod 60)); [lia|].
  destruct (Z.leb_spec 60 (t mod DAY / SECOND mod 60)); [lia|].
  cbn [orb mbind option_bind]. change (iso_offset "+00:00") with (Some (0, true)). cbn [mbind option_bind].
  do 2 f_equal. pose proof (Z.div_mod t DAY ltac:(done)). lia.
Qed.

(** ** Timestamps *)

(** [dt.timestamp()] of an aware UTC [datetime]. *)
Definition timestamp (t : Z) : result float := total_seconds t.

(** [int(dt.timestamp() * 1000)] *)
Definition timestamp_ms (t : Z) : result Z :=
  x ← timestamp t;
  int_of_float (x * dec 1000 0)%pf.

(** [datetime.fromtimestamp(x, tz=timezone.utc)]: the fraction is rounded to
    microseconds, ties to even. *)
Definition fromtimestamp (x : float) : result Z :=
  secs ← int_of_float x;
  whole ← float_of_int secs;
  us ← int_of_float (pyround ((x - whole) * dec 1000000 0)%pf 0);
  let t := secs * SECOND + us in
  if bool_decide (in_datetime (t / DAY)) then mret t
  else Raise (ValueError "year is out of range").
