(* ===== verification/NumPy.v ===== *)
(** * Third-party numeric code as parameters

    NumPy's reductions and array functions and TA-Lib's indicators.  An array
    is a list; element-wise arithmetic on it is binary64 and does not raise. *)

From S2P Require Import Prelude PyFloat.

(** Reductions and scalar functions of NumPy. *)
Class NumPyStats := {
  np_sum : list float -> float;
  np_mean : list float -> float;
  np_median : list float -> float;
  (** [np.std(a, ddof=1)] *)
  np_std1 : list float -> float;
  np_max : list float -> float;
  np_fmax : float -> float -> float;
  np_log : float -> float;
  (** [x ** y] and [round(x, n)] of a [np.float64] *)
  np_power : float -> float -> float;
  np_round : float -> nat -> float;
  (** [math.sqrt] *)
  math_sqrt : float -> result float;
}.

(** Functions on whole arrays: positions of maxima, counts of small integers,
    norms and inner products. *)
Class NumPyArrays := {
  np_argmax : list float -> Z;
  np_argmax_int : list Z -> Z;
  (** [np.bincount(a, minlength=n)] *)
  np_bincount : list Z -> nat -> list Z;
}.

(** TA-Lib's indicators: one value per candle, NaN while warming up.  [ADX]
    and [ATR] take the high, low and close series; [BBANDS] returns the upper,
    middle and lower bands. *)
Class TALib := {
  talib_EMA : list float -> Z -> list float;
  talib_ADX : list float -> list float -> list float -> Z -> list float;
  talib_RSI : list float -> Z -> list float;
  talib_ATR : list float -> list float -> list float -> Z -> list float;
  talib_BBANDS : list float -> Z -> list float * list float * list float;
}.
