(* ===== verification/Web.v ===== *)
(** * HTTP requests with [urllib.request] and [requests]

    The network is a parameter: [urlopen] returns the [Set-Cookie] header (or
    the empty string) and the body.  [URLError] and [OSError] are
    [RequestException]; a call may raise other exceptions too. *)

From S2P Require Import Prelude PyDict.

Class UrlOpen (W : Type) := {
  (** [urlopen(Request(url, headers=headers), timeout=timeout)] *)
  urlopen : string -> dict string string -> Z -> M W (string * string);
}.

(** [s.split(";")[0]] *)
Definition before_semicolon (s : string) : string :=
  match str_split1 ";" s with Some (a, _) => a | None => s end.

Definition NSE_HEADERS : dict string string :=
  [("User-Agent", "Mozilla/5.0 (X11; Linux x86_64) AppleWebKit/537.36 (KHTML, like Gecko) Chrome/124.0.0.0 Safari/537.36");
   ("Accept", "application/json, text/plain, */*"); ("Referer", "https://www.nseindia.com/")].

(** The request to the NSE home page for a session cookie; every failure gives
    the empty string. *)
Definition nse_cookie {W} `{UrlOpen W} (timeout : Z) (w : W) : string * W :=
  match urlopen "https://www.nseindia.com/" NSE_HEADERS timeout w with
  | (Ok (raw, _), w) => (before_semicolon raw, w)
  | (Raise _, w) => ("", w)
  end.

Definition with_cookie (cookie : string) : dict string string :=
  if String.eqb cookie "" then NSE_HEADERS else NSE_HEADERS ++ [("Cookie", cookie)].

(** [requests.get] and [Session.get]: the body, whatever the status, and the
    body after [raise_for_status].  [RequestException] is the exception of the
    library. *)
Class Requests (W : Type) := {
  requests_get : string -> list (string * string) -> M W string;
  requests_get_ok : string -> list (string * string) -> M W string;
}.

(** [except (RequestException, ValueError)]: the outcome that the handler
    sees, and what else is raised. *)
Definition request_failed {A} (r : result A) : bool :=
  match r with Raise (RequestException _) | Raise (ValueError _) => true | _ => false end.
