(* ===== verification/Compliance.v ===== *)
(** * Compliance engine and kill switch ([shared/compliance])

    [models.py], [strategy_registry.py], [india.py], [australia.py],
    [engine.py] and [kill_switch.py].  Wall-clock reads, the environment and
    the audit identifier are arguments; a [datetime] of which only the time
    of day is read is a [Clock]. *)

From S2P Require Import Prelude PyFloat PyDict Redis Constants.
Local Open Scope Z_scope.

(** ** Data models ([models.py]) *)

Module OrderIntent.
Record t := mk {
  symbol : string;
  exchange : string;
  direction : string;
  order_type : string;
  quantity : Z;
  price : option float;
  stop_loss : float;
  strategy_name : string;
  client_order_id : string;
  ltp : option float;
  notional_value : float;
  capital : float;
  is_exit : bool;
  mwpl_pct : option float;
  sector : string;
  is_priority : bool;
}.
End OrderIntent.

Module TaggedOrder.
Record t := mk {
  original : OrderIntent.t;
  strategy_tag : string;
  effective_order_type : string;
  mpp_price : option float;
}.
End TaggedOrder.

Module ComplianceViolation.
Record t := mk { code : string; detail : string }.
End ComplianceViolation.

Module ComplianceDecision.
Record t := mk {
  approved : bool;
  violations : list ComplianceViolation.t;
  tagged_order : option TaggedOrder.t;
  audit_id : string;
}.
End ComplianceDecision.

Module KillSwitchEvent.
Record t := mk {
  tier : Z;
  reason : string;
  triggered_at_ms : Z;
  is_priority : bool;
}.

(** The generated constructor followed by [__post_init__]. *)
Definition make (tier : Z) (reason : string) (triggered_at_ms : Z) : result t :=
  if bool_decide (tier ∈ [1; 2; 3]) then mret (mk tier reason triggered_at_ms true)
  else Raise (ValueError ("Kill switch tier must be 1, 2, or 3; got " +:+ pretty tier)).
End KillSwitchEvent.

Module RecentOrder.
Record t := mk { symbol : string; direction : string; placed_at_ms : Z }.
End RecentOrder.

Record Clock := { hour : Z; minute : Z; second : Z }.

Definition two_digits (n : Z) : string := zero_pad 2 (pretty n).

(** ** Strategy registry ([strategy_registry.py]) *)

Definition GENERIC_ALGO_TAG : string := "GENALG01".

Definition DEFAULT_TAGS : dict string string :=
  [("EMA_VWAP_TREND", "STRAT001"); ("ORB_BREAKOUT", "STRAT002");
   ("MOMENTUM_RSI", "STRAT003"); ("MEAN_REVERT_PIVOT", "STRAT004");
   ("ORDER_FLOW_ABSORPTION", "STRAT005"); ("GENERIC", GENERIC_ALGO_TAG)].

Definition env_key (strategy_name : string) : string := "STRATEGY_ID_" +:+ strategy_name.

Definition environ : Type := string -> option string.

(** The tag of one default entry after the environment override and the cut
    to the broker's field width. *)
Definition load_tag (env : environ) (name default_tag : string) : string :=
  let env_val := str_strip (default "" (env (env_key name))) in
  let tag := if String.eqb env_val "" then default_tag else env_val in
  if (STRATEGY_ID_MAX_LENGTH <? String.length tag)%nat then str_take STRATEGY_ID_MAX_LENGTH tag
  else tag.

Definition load_registry (env : environ) (use_generic : bool) : dict string string :=
  if use_generic then
    foldl (fun r '(name, _) => dset name GENERIC_ALGO_TAG r) [] DEFAULT_TAGS
  else
    foldl (fun r '(name, default_tag) => dset name (load_tag env name default_tag) r)
      [] DEFAULT_TAGS.

Record StrategyRegistry := {
  sr_use_generic : bool;
  sr_registry : dict string string;
}.

Definition new_registry (env : environ) (use_generic : option bool) : StrategyRegistry :=
  let g := match use_generic with
           | Some b => b
           | None => String.eqb (str_lower (default "false" (env "USE_GENERIC_ALGO_ID"))) "true"
           end in
  {| sr_use_generic := g; sr_registry := load_registry env g |}.

Definition resolve (self : StrategyRegistry) (strategy_name : string) : option string :=
  if sr_use_generic self then Some GENERIC_ALGO_TAG else dget strategy_name (sr_registry self).

Definition all_strategies (self : StrategyRegistry) : list string := dkeys (sr_registry self).

(** ** India ([india.py]) *)

Definition violation (code detail : string) : ComplianceViolation.t :=
  ComplianceViolation.mk code detail.

Definition is_india (order : OrderIntent.t) : bool :=
  bool_decide (OrderIntent.exchange order ∈ ["NSE"; "BSE"]).

Definition check_strategy_id (order : OrderIntent.t) (strategy_tag : option string)
    : list ComplianceViolation.t :=
  if negb (is_india order) then []
  else match strategy_tag with
  | None => [violation "NO_STRATEGY_ID"
      ("Strategy '" +:+ OrderIntent.strategy_name order +:+ "' is not registered; " +:+
       "order rejected before broker submission (SEBI April 2026).")]
  | Some _ => []
  end.

Definition compute_mpp_price (order : OrderIntent.t) : result (option float) :=
  match OrderIntent.ltp order with
  | None => mret None
  | Some ltp =>
      if (ltp <=? f_zero)%pf then mret None
      else
        buf ← pydiv MPP_SLIPPAGE_BUFFER_PCT (dec 1000 1);
        if String.eqb (OrderIntent.direction order) "LONG" then
          mret (Some (pyround (ltp * (dec 10 1 + buf))%pf 2))
        else
          mret (Some (pyround (ltp * (dec 10 1 - buf))%pf 2))
  end.

Definition check_market_order (order : OrderIntent.t)
    : result (list ComplianceViolation.t * string * option float) :=
  if negb (is_india order) || negb (String.eqb (OrderIntent.order_type order) "MARKET") then
    mret ([], OrderIntent.order_type order, None)
  else
    mpp ← compute_mpp_price order;
    match mpp with
    | None =>
        mret ([violation "MARKET_ORDER_NO_LTP"
          "MARKET order on NSE/BSE requires LTP for MPP limit conversion; LTP not provided."],
          "MARKET", None)
    | Some p => mret ([], "MPP", Some p)
    end.

Definition check_leverage (order : OrderIntent.t) : result (list ComplianceViolation.t) :=
  if negb (is_india order) then mret []
  else if OrderIntent.is_exit order then mret []
  else if (OrderIntent.capital order <=? f_zero)%pf || (OrderIntent.notional_value order <=? f_zero)%pf
  then mret []
  else
    leverage ← pydiv (OrderIntent.notional_value order) (OrderIntent.capital order);
    if (leverage >? MAX_LEVERAGE)%pf then
      mret [violation "LEVERAGE_EXCEEDED"
        ("Leverage " +:+ fmt_fixed 2 leverage +:+ "× exceeds max " +:+ repr MAX_LEVERAGE +:+
         "× (20% upfront margin required — SEBI April 2026).")]
    else mret [].

Definition check_mwpl (order : OrderIntent.t) : list ComplianceViolation.t :=
  if negb (is_india order) then []
  else if OrderIntent.is_exit order then []
  else match OrderIntent.mwpl_pct order with
  | None => []
  | Some m =>
      if (m >? MWPL_EXCLUSION_THRESHOLD_PCT)%pf then
        [violation "MWPL_EXCEEDED"
          ("Symbol '" +:+ OrderIntent.symbol order +:+ "' OI at " +:+ fmt_fixed 1 m +:+
           "% of MWPL (threshold " +:+ repr MWPL_EXCLUSION_THRESHOLD_PCT +:+
           "%) — entry blocked.")]
      else []
  end.

(** [now >= 15:10], as the source spells it. *)
Definition past_force_square_off (now_ist : Clock) : bool :=
  (FORCE_SQUARE_OFF_IST_HOUR <? hour now_ist)
  || ((hour now_ist =? FORCE_SQUARE_OFF_IST_HOUR)
      && (FORCE_SQUARE_OFF_IST_MINUTE <=? minute now_ist)).

Definition check_force_square_off (order : OrderIntent.t) (now_ist : Clock)
    : list ComplianceViolation.t :=
  if negb (is_india order) then []
  else if OrderIntent.is_exit order then []
  else if past_force_square_off now_ist then
    [violation "FORCE_SQUARE_OFF"
      ("New entry blocked at " +:+ two_digits (hour now_ist) +:+ ":" +:+
       two_digits (minute now_ist) +:+ " IST — force square-off active from " +:+
       two_digits FORCE_SQUARE_OFF_IST_HOUR +:+ ":" +:+
       two_digits FORCE_SQUARE_OFF_IST_MINUTE +:+ " IST.")]
  else [].

Definition run_india_checks (order : OrderIntent.t) (strategy_tag : option string)
    (now_ist : option Clock) : result (list ComplianceViolation.t * string * option float) :=
  '(mkt_violations, effective_type, mpp_price) ← check_market_order order;
  leverage_violations ← check_leverage order;
  mret (check_strategy_id order strategy_tag ++ mkt_violations ++ leverage_violations ++
        check_mwpl order ++
        match now_ist with
        | Some now => check_force_square_off order now
        | None => []
        end, effective_type, mpp_price).

(** ** Australia ([australia.py]) *)

Definition is_asx (order : OrderIntent.t) : bool := String.eqb (OrderIntent.exchange order) "ASX".

Definition opposite_of (direction : string) : string :=
  if String.eqb direction "LONG" then "SHORT" else "LONG".

(** The condition of the wash-trade loop. *)
Definition wash_match (order : OrderIntent.t) (now_ms : Z) (recent : RecentOrder.t) : bool :=
  String.eqb (RecentOrder.symbol recent) (OrderIntent.symbol order)
  && String.eqb (RecentOrder.direction recent) (opposite_of (OrderIntent.direction order))
  && (now_ms - WASH_TRADE_LOOKBACK_SECONDS * 1000 <=? RecentOrder.placed_at_ms recent).

Definition check_wash_trading (order : OrderIntent.t) (recent_orders : list RecentOrder.t)
    (now_ms : Z) : result (list ComplianceViolation.t) :=
  if negb (is_asx order) then mret []
  else match find_first (wash_match order now_ms) recent_orders with
  | None => mret []
  | Some recent =>
      elapsed_s ← int_truediv (now_ms - RecentOrder.placed_at_ms recent) 1000;
      mret [violation "WASH_TRADING"
        ("Opposing " +:+ RecentOrder.direction recent +:+ " order for '" +:+
         OrderIntent.symbol order +:+ "' placed " +:+ fmt_fixed 0 elapsed_s +:+
         "s ago (lookback " +:+ pretty WASH_TRADE_LOOKBACK_SECONDS +:+
         "s) — potential wash trade blocked (ASIC).")]
  end.

Definition layering_match (order : OrderIntent.t) (pending : RecentOrder.t) : bool :=
  String.eqb (RecentOrder.symbol pending) (OrderIntent.symbol order)
  && String.eqb (RecentOrder.direction pending) (opposite_of (OrderIntent.direction order)).

Definition check_layering (order : OrderIntent.t) (pending_orders : list RecentOrder.t)
    : list ComplianceViolation.t :=
  if negb (is_asx order) then []
  else match find_first (layering_match order) pending_orders with
  | None => []
  | Some _ =>
      [violation "LAYERING"
        ("Simultaneous " +:+ opposite_of (OrderIntent.direction order) +:+
         " order pending for '" +:+ OrderIntent.symbol order +:+
         "' — placing opposing direction would create layering (ASIC).")]
  end.

Definition check_short_sell (order : OrderIntent.t) (approved_short_list : gset string)
    : list ComplianceViolation.t :=
  if negb (is_asx order) then []
  else if negb (String.eqb (OrderIntent.direction order) "SHORT") then []
  else if OrderIntent.is_exit order then []
  else if negb (bool_decide (OrderIntent.symbol order ∈ approved_short_list)) then
    [violation "SHORT_SELL_NOT_APPROVED"
      ("Symbol '" +:+ OrderIntent.symbol order +:+
       "' is not on the IBKR-verified ASX short list — short entry blocked (ASIC).")]
  else [].

Definition check_staggered_open (order : OrderIntent.t) (group_open_ms : option Z) (now_ms : Z)
    : result (list ComplianceViolation.t) :=
  if negb (is_asx order) then mret []
  else if OrderIntent.is_exit order then mret []
  else match group_open_ms with
  | None => mret []
  | Some g =>
      diff ← float_of_int (now_ms - g);
      elapsed_min ← pydiv diff (dec 600000 1);
      if (elapsed_min <? dec ASX_STAGGERED_OPEN_NOISE_FILTER_MINUTES 0)%pf then
        mret [violation "STAGGERED_OPEN_NOISE_FILTER"
          ("'" +:+ OrderIntent.symbol order +:+ "' is within " +:+
           fmt_fixed 1 (dec ASX_STAGGERED_OPEN_NOISE_FILTER_MINUTES 0 - elapsed_min)%pf +:+
           " min of its ASX group open — 15-min noise filter active (ASIC staggered open).")]
      else mret []
  end.

Definition past_post_close (now_aest : Clock) : bool :=
  (ASX_POST_CLOSE_CUTOFF_HOUR <? hour now_aest)
  || ((hour now_aest =? ASX_POST_CLOSE_CUTOFF_HOUR)
      && (ASX_POST_CLOSE_CUTOFF_MINUTE <? minute now_aest))
  || ((hour now_aest =? ASX_POST_CLOSE_CUTOFF_HOUR)
      && (minute now_aest =? ASX_POST_CLOSE_CUTOFF_MINUTE)
      && (ASX_POST_CLOSE_CUTOFF_SECOND <=? second now_aest)).

Definition check_post_close_cutoff (order : OrderIntent.t) (now_aest : Clock)
    : list ComplianceViolation.t :=
  if negb (is_asx order) then []
  else if OrderIntent.is_exit order then []
  else if past_post_close now_aest then
    [violation "POST_CLOSE_CUTOFF"
      ("New entry blocked at " +:+ two_digits (hour now_aest) +:+ ":" +:+
       two_digits (minute now_aest) +:+ ":" +:+ two_digits (second now_aest) +:+
       " AEST — post-close cutoff is " +:+ two_digits ASX_POST_CLOSE_CUTOFF_HOUR +:+ ":" +:+
       two_digits ASX_POST_CLOSE_CUTOFF_MINUTE +:+ ":" +:+
       two_digits ASX_POST_CLOSE_CUTOFF_SECOND +:+ " AEST (ASIC).")]
  else [].

Definition run_australia_checks (order : OrderIntent.t)
    (recent_orders pending_orders : list RecentOrder.t) (approved_short_list : gset string)
    (now_ms : Z) (group_open_ms : option Z) (now_aest : option Clock)
    : result (list ComplianceViolation.t) :=
  wash ← check_wash_trading order recent_orders now_ms;
  staggered ← check_staggered_open order group_open_ms now_ms;
  mret (wash ++ check_layering order pending_orders ++
        check_short_sell order approved_short_list ++ staggered ++
        match now_aest with
        | Some now => check_post_close_cutoff order now
        | None => []
        end).

(** ** Engine ([engine.py]) *)

Definition check (registry : StrategyRegistry) (order : OrderIntent.t)
    (now_ist now_aest : option Clock) (recent_orders pending_orders : list RecentOrder.t)
    (approved_short_list : gset string) (now_ms : Z) (group_open_ms : option Z)
    (audit_id : string) : result ComplianceDecision.t :=
  let strategy_tag := resolve registry (OrderIntent.strategy_name order) in
  '(all_violations, effective_order_type, mpp_price) ←
    (if is_india order then run_india_checks order strategy_tag now_ist
     else if is_asx order then
       aus_violations ← run_australia_checks order recent_orders pending_orders
                          approved_short_list now_ms group_open_ms now_aest;
       mret (aus_violations, OrderIntent.order_type order, None)
     else mret ([], OrderIntent.order_type order, None));
  match all_violations with
  | _ :: _ => mret (ComplianceDecision.mk false all_violations None audit_id)
  | [] =>
      let strategy_tag :=
        match strategy_tag with
        | Some tag => tag
        | None => str_take 8 (OrderIntent.strategy_name order)
        end in
      mret (ComplianceDecision.mk true []
              (Some (TaggedOrder.mk order strategy_tag effective_order_type mpp_price)) audit_id)
  end.

(** ** Kill switch ([kill_switch.py]) *)

Inductive KillSwitchTrigger : Type :=
| TIER1_CIRCUIT_BREAKER
| TIER2_EXTERNAL_API
| TIER3_HEARTBEAT.

Definition trigger_value (t : KillSwitchTrigger) : string :=
  match t with
  | TIER1_CIRCUIT_BREAKER => "TIER1_CIRCUIT_BREAKER"
  | TIER2_EXTERNAL_API => "TIER2_EXTERNAL_API"
  | TIER3_HEARTBEAT => "TIER3_HEARTBEAT"
  end.

(** [int(c)] of a one-character string. *)
Definition int_of_digit (c : ascii) : result Z :=
  let n := Z.of_N (N_of_ascii c) - 48 in
  if (0 <=? n) && (n <=? 9) then mret n
  else Raise (ValueError "invalid literal for int() with base 10").

Definition trigger_tier (t : KillSwitchTrigger) : result Z :=
  match String.get 4 (trigger_value t) with
  | Some c => int_of_digit c
  | None => Raise (OtherError "string index out of range")
  end.

Section KillSwitch.
Context {R : Type} `{RedisKV R}.

Record KillSwitchManager := {
  ksm_redis : option R;
  ksm_halted : bool;
  ksm_last_event : option KillSwitchEvent.t;
}.

Definition new_kill_switch (redis_client : option R) : KillSwitchManager :=
  {| ksm_redis := redis_client; ksm_halted := false; ksm_last_event := None |}.

Definition ksm_with_redis (self : KillSwitchManager) (r : R) : KillSwitchManager :=
  {| ksm_redis := Some r; ksm_halted := ksm_halted self; ksm_last_event := ksm_last_event self |}.

(** [self._redis.set(name, value)] *)
Definition ksm_set (r : R) (name value : string) : M KillSwitchManager R := fun self =>
  let '(res, r') := redis_set name value None r in
  match res with
  | Ok _ => (Ok r', ksm_with_redis self r')
  | Raise e => (Raise e, ksm_with_redis self r')
  end.

Definition is_halted : M KillSwitchManager bool := fun self =>
  match ksm_redis self with
  | Some r =>
      let '(res, r') := redis_get KILL_SWITCH_HALTED_KEY r in
      (raw ← res; mret (match raw with Some v => String.eqb v "true" | None => false end),
       ksm_with_redis self r')
  | None => (Ok (ksm_halted self), self)
  end.

Definition trigger (trigger_type : KillSwitchTrigger) (reason : string) (now_ms : Z)
    : M KillSwitchManager KillSwitchEvent.t :=
  tier ← M_lift (trigger_tier trigger_type);
  event ← M_lift (KillSwitchEvent.make tier reason now_ms);
  _ ← M_modify (fun self =>
        {| ksm_redis := ksm_redis self; ksm_halted := ksm_halted self;
           ksm_last_event := Some event |});
  self ← M_get;
  _ ← match ksm_redis self with
      | Some r =>
          r ← ksm_set r KILL_SWITCH_HALTED_KEY "true";
          r ← ksm_set r KILL_SWITCH_TIER_KEY (pretty tier);
          _ ← ksm_set r KILL_SWITCH_REASON_KEY reason;
          mret tt
      | None =>
          M_put {| ksm_redis := None; ksm_halted := true; ksm_last_event := ksm_last_event self |}
      end;
  mret event.

Definition trigger_tier1 (daily_pnl_pct : float) (now_ms : Z) :=
  trigger TIER1_CIRCUIT_BREAKER
    ("Daily P&L " +:+ fmt_fixed 2 daily_pnl_pct +:+ "% breached -2% autonomous circuit breaker.")
    now_ms.

Definition trigger_tier2 (source : string) (now_ms : Z) :=
  trigger TIER2_EXTERNAL_API ("Manual kill switch activated via " +:+ source +:+ ".") now_ms.

Definition trigger_tier3 (agent_name : string) (missed_heartbeats now_ms : Z) :=
  trigger TIER3_HEARTBEAT
    ("Agent '" +:+ agent_name +:+ "' missed " +:+ pretty missed_heartbeats +:+
     " consecutive heartbeats.") now_ms.

Definition last_event (self : KillSwitchManager) : option KillSwitchEvent.t := ksm_last_event self.

End KillSwitch.

#[global] Arguments KillSwitchManager R : clear implicits.

(** ** Facts about the India checks *)

#[global] Arguments run_india_checks : simpl never.
#[global] Arguments run_australia_checks : simpl never.
#[global] Arguments past_force_square_off : simpl never.
#[global] Arguments past_post_close : simpl never.

Definition leverage_ok (order : OrderIntent.t) : bool :=
  fle (OrderIntent.capital order) f_zero || fle (OrderIntent.notional_value order) f_zero
  || negb (flt MAX_LEVERAGE (fdiv (OrderIntent.notional_value order) (OrderIntent.capital order))).

Definition mwpl_ok (order : OrderIntent.t) : bool :=
  match OrderIntent.mwpl_pct order with
  | Some m => negb (flt MWPL_EXCLUSION_THRESHOLD_PCT m)
  | None => true
  end.

Definition before_square_off (now_ist : option Clock) : bool :=
  match now_ist with Some now => negb (past_force_square_off now) | None => true end.

Definition ltp_usable (order : OrderIntent.t) : bool :=
  match OrderIntent.ltp order with Some l => negb (fle l f_zero) | None => false end.

Definition is_market (order : OrderIntent.t) : bool :=
  String.eqb (OrderIntent.order_type order) "MARKET".

(** What SEBI compliance requires of an order, written as one condition. *)
Definition india_ok (order : OrderIntent.t) (strategy_tag : option string)
    (now_ist : option Clock) : bool :=
  bool_decide (is_Some strategy_tag)
  && (negb (is_market order) || ltp_usable order)
  && (OrderIntent.is_exit order
      || (leverage_ok order && mwpl_ok order && before_square_off now_ist)).

Lemma check_leverage_ok order :
  is_india order = true ->
  exists vs, check_leverage order = Ok vs
    /\ (vs = [] <-> OrderIntent.is_exit order || leverage_ok order = true).
Proof.
  intros Hi. unfold check_leverage, leverage_ok. rewrite Hi. simpl.
  destruct (OrderIntent.is_exit order); [eexists; split; [done|]; done|].
  destruct (fle (OrderIntent.capital order) f_zero) eqn:Hc; [eexists; split; [done|]; done|].
  destruct (fle (OrderIntent.notional_value order) f_zero); [eexists; split; [done|]; done|].
  rewrite pydiv_nonzero by auto with pyfloat. simpl.
  destruct (flt MAX_LEVERAGE _); eexists; (split; [done|]); done.
Qed.

Lemma check_market_order_cases order :
  is_india order = true ->
  exists vs ty mpp, check_market_order order = Ok (vs, ty, mpp)
    /\ (vs = [] <-> negb (is_market order) || ltp_usable order = true)
    /\ (vs = [] -> if is_market order then ty = "MPP" /\ is_Some mpp
                  else ty = OrderIntent.order_type order /\ mpp = None).
Proof.
  intros Hi. unfold check_market_order, ltp_usable, compute_mpp_price, is_market.
  rewrite Hi. simpl. destruct (String.eqb _ "MARKET"); simpl.
  2: { do 3 eexists. split; [reflexivity|]. done. }
  destruct (OrderIntent.ltp order) as [l|]; simpl.
  2: { do 3 eexists. split; [reflexivity|]. done. }
  destruct (fle l f_zero); simpl.
  { do 3 eexists. split; [reflexivity|]. done. }
  destruct (String.eqb _ "LONG"); 
    do 3 eexists; (split; [reflexivity|]); (split; [done|]); intros _; (split; [done|]); by eexists.
Qed.

Lemma run_india_checks_spec order tag now :
  is_india order = true ->
  exists vs ty mpp, run_india_checks order tag now = Ok (vs, ty, mpp)
    /\ (vs = [] <-> india_ok order tag now = true)
    /\ (vs = [] -> if is_market order then ty = "MPP" /\ is_Some mpp
                  else ty = OrderIntent.order_type order /\ mpp = None).
Proof.
  intros Hi. unfold run_india_checks.
  destruct (check_market_order_cases order Hi) as (mv & ty & mpp & -> & Hmv & Hty). simpl.
  destruct (check_leverage_ok order Hi) as (lv & -> & Hlv). simpl.
  eexists _, ty, mpp. split; [reflexivity|].
  assert (Hs : check_strategy_id order tag = [] <-> is_Some tag).
  { unfold check_strategy_id. rewrite Hi. simpl.
    by destruct tag; split. }
  assert (Hm : check_mwpl order = [] <-> OrderIntent.is_exit order || mwpl_ok order = true).
  { unfold check_mwpl, mwpl_ok. rewrite Hi. simpl. destruct (OrderIntent.is_exit order); [done|].
    destruct (OrderIntent.mwpl_pct order); simpl; [|done]. by destruct (flt _ _). }
  assert (Ht : match now with Some n => check_force_square_off order n | None => [] end = []
            <-> OrderIntent.is_exit order || before_square_off now = true).
  { destruct now as [n|]; simpl; [|by rewrite orb_true_r].
    unfold check_force_square_off. rewrite Hi. simpl.
    destruct (OrderIntent.is_exit order); [done|]. by destruct (past_force_square_off n). }
  split.
  - unfold india_ok. rewrite !andb_true_iff, bool_decide_eq_true.
    rewrite app_nil, app_nil, app_nil, app_nil, Hs, Hmv, Hlv, Hm, Ht.
    destruct (OrderIntent.is_exit order), (leverage_ok order), (mwpl_ok order),
      (before_square_off now); simpl; intuition congruence.
  - intros Hn. apply Hty. by apply app_nil in Hn as [_ [? _]%app_nil].
Qed.

Lemma check_india_inv registry order ist aest recent pending shorts now group audit d :
  is_india order = true ->
  check registry order ist aest recent pending shorts now group audit = Ok d ->
  let tag := resolve registry (OrderIntent.strategy_name order) in
  (ComplianceDecision.approved d = true <-> india_ok order tag ist = true)
  /\ (ComplianceDecision.approved d = true ->
      exists t, ComplianceDecision.tagged_order d = Some t
        /\ Some (TaggedOrder.strategy_tag t) = tag
        /\ TaggedOrder.original t = order
        /\ if is_market order
           then TaggedOrder.effective_order_type t = "MPP" /\ is_Some (TaggedOrder.mpp_price t)
           else TaggedOrder.effective_order_type t = OrderIntent.order_type order
                /\ TaggedOrder.mpp_price t = None).
Proof.
  intros Hi. unfold check. rewrite Hi. cbv zeta.
  destruct (run_india_checks_spec order (resolve registry (OrderIntent.strategy_name order)) ist Hi)
    as (vs & ty & mpp & Hrun & Hok & Hty).
  rewrite Hrun. simpl. destruct vs as [|v vs]; intros [= <-]; simpl.
  - split; [tauto|]. intros _. eexists; split; [done|]. simpl.
    assert (Hi' := proj1 Hok eq_refl). unfold india_ok in Hi'.
    destruct (resolve registry _) as [tg|]; [|done].
    repeat split; [done..|]. by apply Hty.
  - split; [|done]. split; [done|]. intros Hx. by apply Hok in Hx.
Qed.

(** ** Facts about the Australia checks *)

Definition staggered_ok (order : OrderIntent.t) (group_open_ms : option Z) (now_ms : Z) : bool :=
  OrderIntent.is_exit order
  || match group_open_ms with
     | None => true
     | Some g =>
         match float_of_int (now_ms - g) with
         | Ok diff => negb (flt (fdiv diff (dec 600000 1))
                                (dec ASX_STAGGERED_OPEN_NOISE_FILTER_MINUTES 0))
         | Raise _ => true
         end
     end.

Definition short_ok (order : OrderIntent.t) (approved_short_list : gset string) : bool :=
  negb (String.eqb (OrderIntent.direction order) "SHORT") || OrderIntent.is_exit order
  || bool_decide (OrderIntent.symbol order ∈ approved_short_list).

Definition before_post_close (order : OrderIntent.t) (now_aest : option Clock) : bool :=
  OrderIntent.is_exit order
  || match now_aest with Some now => negb (past_post_close now) | None => true end.

(** What ASIC compliance requires of an order, written as one condition. *)
Definition asx_ok (order : OrderIntent.t) (recent pending : list RecentOrder.t)
    (shorts : gset string) (now_ms : Z) (group : option Z) (now_aest : option Clock) : bool :=
  forallb (fun r => negb (wash_match order now_ms r)) recent
  && forallb (fun p => negb (layering_match order p)) pending
  && short_ok order shorts && staggered_ok order group now_ms && before_post_close order now_aest.

Lemma find_first_forallb {A} (p : A -> bool) l :
  find_first p l = None <-> forallb (fun x => negb (p x)) l = true.
Proof.
  induction l as [|x l IH]; simpl; [done|]. destruct (p x); simpl; [done|]. exact IH.
Qed.

Lemma nil_or_one {A} (b : bool) (x : A) : (if b then [x] else []) = [] <-> negb b = true.
Proof. by destruct b. Qed.

Lemma run_australia_checks_spec order recent pending shorts now_ms group now_aest vs :
  is_asx order = true ->
  run_australia_checks order recent pending shorts now_ms group now_aest = Ok vs ->
  vs = [] <-> asx_ok order recent pending shorts now_ms group now_aest = true.
Proof.
  intros Ha. unfold run_australia_checks. intros E. bind_inv E. bind_inv E. injection E as <-.
  assert (Hw : a = [] <-> forallb (fun r => negb (wash_match order now_ms r)) recent = true).
  { unfold check_wash_trading in Ha0. rewrite Ha in Ha0. simpl in Ha0.
    rewrite <- find_first_forallb. destruct (find_first _ recent) eqn:F.
    - bind_inv Ha0. injection Ha0 as <-. done.
    - injection Ha0 as <-. done. }
  assert (Hst : a0 = [] <-> staggered_ok order group now_ms = true).
  { unfold check_staggered_open, staggered_ok in *. rewrite Ha in Ha1. simpl in Ha1.
    destruct (OrderIntent.is_exit order); [by injection Ha1 as <-|].
    destruct group as [g|]; [|by injection Ha1 as <-].
    bind_inv Ha1. rewrite Ha2. destruct (flt _ _); by injection Ha1 as <-. }
  assert (Hl : check_layering order pending = []
            <-> forallb (fun p => negb (layering_match order p)) pending = true).
  { unfold check_layering. rewrite Ha. simpl. rewrite <- find_first_forallb.
    by destruct (find_first _ pending). }
  assert (Hsh : check_short_sell order shorts = [] <-> short_ok order shorts = true).
  { unfold check_short_sell, short_ok. rewrite Ha. simpl.
    destruct (String.eqb _ "SHORT"); simpl; [|done]. destruct (OrderIntent.is_exit order); [done|].
    simpl. by case_bool_decide. }
  assert (Hp : match now_aest with Some n => check_post_close_cutoff order n | None => [] end = []
            <-> before_post_close order now_aest = true).
  { unfold before_post_close. destruct now_aest as [n|]; [|by rewrite orb_true_r].
    unfold check_post_close_cutoff. rewrite Ha. simpl.
    destruct (OrderIntent.is_exit order); [done|]. by destruct (past_post_close n). }
  unfold asx_ok. rewrite !andb_true_iff, !app_nil, Hw, Hl, Hsh, Hst, Hp. tauto.
Qed.

Lemma check_asx_inv registry order ist aest recent pending shorts now group audit d :
  is_asx order = true ->
  check registry order ist aest recent pending shorts now group audit = Ok d ->
  ComplianceDecision.approved d = true
  <-> asx_ok order recent pending shorts now group aest = true.
Proof.
  intros Ha. unfold check. rewrite Ha.
  assert (Hi : is_india order = false).
  { unfold is_asx, is_india in *. apply String.eqb_eq in Ha. by rewrite Ha. }
  rewrite Hi. cbv zeta. intros E. bind_inv E. bind_inv Ha0. injection Ha0 as <-.
  apply run_australia_checks_spec in Ha1; [|done]. rewrite <- Ha1.
  destruct a0; injection E as <-; done.
Qed.

(** ** Facts about the strategy registry *)

Lemma load_tag_fits env name tag :
  (String.length tag <= STRATEGY_ID_MAX_LENGTH)%nat ->
  (String.length (load_tag env name tag) <= STRATEGY_ID_MAX_LENGTH)%nat.
Proof.
  intros H. unfold load_tag. case_match eqn:E; [apply str_take_length|].
  apply Nat.ltb_ge in E. exact E.
Qed.

Lemma load_registry_fits env g name tag :
  dget name (load_registry env g) = Some tag ->
  (String.length tag <= STRATEGY_ID_MAX_LENGTH)%nat.
Proof.
  intros H. apply dget_elem in H.
  assert (Hall : Forall (fun kv => (String.length kv.2 <= STRATEGY_ID_MAX_LENGTH)%nat)
                   (load_registry env g)).
  { unfold load_registry. destruct g; [vm_compute; repeat constructor|].
    cbn [DEFAULT_TAGS foldl].
    repeat (apply dset_Forall; [|intros ? ?; apply load_tag_fits; vm_compute; lia]).
    constructor. }
  rewrite Forall_forall in Hall. by apply (Hall _ H).
Qed.

Lemma resolve_fits env use_generic name tag :
  resolve (new_registry env use_generic) name = Some tag ->
  (String.length tag <= STRATEGY_ID_MAX_LENGTH)%nat.
Proof.
  unfold resolve. case_match; [|apply load_registry_fits].
  intros [= <-]. vm_compute. lia.
Qed.

(** ** Properties of the compliance gate *)

(** C6. On NSE and BSE, [check] never raises and approves an order exactly
    when its strategy is registered, a MARKET order has a positive LTP, and
    either it is an exit or leverage, MWPL and the 15:10 cut-off all allow
    the entry. *)
Theorem india_approval_iff registry order ist aest recent pending shorts now group audit :
  is_india order = true ->
  exists d, check registry order ist aest recent pending shorts now group audit = Ok d
    /\ (ComplianceDecision.approved d = true
        <-> india_ok order (resolve registry (OrderIntent.strategy_name order)) ist = true).
Proof.
  intros Hi.
  destruct (run_india_checks_spec order (resolve registry (OrderIntent.strategy_name order)) ist Hi)
    as (vs & ty & mpp & Hrun & _).
  assert (exists d, check registry order ist aest recent pending shorts now group audit = Ok d)
    as [d Hd].
  { unfold check. rewrite Hi. cbv zeta. rewrite Hrun. simpl. destruct vs; eauto. }
  exists d. split; [done|]. by apply check_india_inv in Hd as [? _].
Qed.

(** No MARKET order leaves the gate on NSE or BSE: an approved MARKET
    order is tagged [MPP] with a computed limit price, any other type passes
    through unchanged with no price. *)
Theorem approved_market_orders_become_mpp
    registry order ist aest recent pending shorts now group audit d :
  is_india order = true ->
  check registry order ist aest recent pending shorts now group audit = Ok d ->
  ComplianceDecision.approved d = true ->
  exists t, ComplianceDecision.tagged_order d = Some t
    /\ TaggedOrder.effective_order_type t <> "MARKET"
    /\ (is_market order = true -> TaggedOrder.effective_order_type t = "MPP"
                                  /\ is_Some (TaggedOrder.mpp_price t))
    /\ (is_market order = false ->
        TaggedOrder.effective_order_type t = OrderIntent.order_type order
        /\ TaggedOrder.mpp_price t = None).
Proof.
  intros Hi Hd Ha. apply check_india_inv in Hd as [_ Ht]; [|done].
  destruct (Ht Ha) as (t & -> & _ & _ & Hk). exists t. split; [done|].
  destruct (is_market order) eqn:Em.
  - destruct Hk as [-> Hp]. done.
  - destruct Hk as [-> Hp]. repeat split; try done.
    intros Hx. unfold is_market in Em. by rewrite Hx in Em.
Qed.

(** An ASX order and another one that takes the other side of the symbol; every
    direction but LONG counts as short. *)
Definition opposes (order : OrderIntent.t) (other : RecentOrder.t) : Prop :=
  RecentOrder.symbol other = OrderIntent.symbol order
  /\ (OrderIntent.direction order = "LONG" /\ RecentOrder.direction other = "SHORT"
      \/ OrderIntent.direction order <> "LONG" /\ RecentOrder.direction other = "LONG").

Lemma layering_match_iff order p : layering_match order p = true <-> opposes order p.
Proof.
  unfold layering_match, opposes, opposite_of. rewrite andb_true_iff, !String.eqb_eq.
  destruct (String.eqb_spec (OrderIntent.direction order) "LONG"); tauto.
Qed.

Lemma wash_match_iff order now r :
  wash_match order now r = true <-> opposes order r /\ now - RecentOrder.placed_at_ms r <= 60000.
Proof.
  unfold wash_match, WASH_TRADE_LOOKBACK_SECONDS. rewrite andb_true_iff, Z.leb_le.
  rewrite <- (layering_match_iff order r). unfold layering_match. split; intros [? ?]; split; (done || lia).
Qed.

Lemma forallb_none {A} (f : A -> bool) (P : A -> Prop) (l : list A) :
  (forall x, f x = true <-> P x) -> forallb (fun x => negb (f x)) l = true <-> forall x, x ∈ l -> ~ P x.
Proof.
  intros Hf. rewrite forallb_forall. split; intros H x Hx.
  - rewrite <- Hf. apply list_elem_of_In, H in Hx. by destruct (f x).
  - apply list_elem_of_In, H in Hx. rewrite <- Hf in Hx. by destruct (f x).
Qed.

Lemma short_ok_iff order shorts :
  short_ok order shorts = true
  <-> (OrderIntent.direction order = "SHORT" -> OrderIntent.is_exit order = false -> OrderIntent.symbol order ∈ shorts).
Proof.
  unfold short_ok. rewrite !orb_true_iff, bool_decide_eq_true, negb_true_iff, String.eqb_neq.
  destruct (String.string_dec (OrderIntent.direction order) "SHORT"), (OrderIntent.is_exit order); naive_solver.
Qed.

Lemma staggered_ok_iff order group now_ms :
  staggered_ok order group now_ms = true
  <-> (OrderIntent.is_exit order = false -> forall g elapsed_ms, group = Some g -> float_of_int (now_ms - g) = Ok elapsed_ms ->
       flt (fdiv elapsed_ms (dec 600000 1)) (dec 15 0) = false).
Proof.
  unfold staggered_ok. destruct (OrderIntent.is_exit order); cbn [orb]; [by split|].
  destruct group as [g|]; [|by split]. destruct (float_of_int (now_ms - g)) as [x|e] eqn:E.
  - rewrite negb_true_iff. change (dec ASX_STAGGERED_OPEN_NOISE_FILTER_MINUTES 0) with (dec 15 0). split.
    + intros H _ g' x' [= <-] E'. rewrite E in E'. by injection E' as <-.
    + intros H. by apply (H eq_refl g).
  - split; [|done]. intros _ _ g' x' [= <-] E'. congruence.
Qed.

Lemma before_post_close_iff order now_aest :
  before_post_close order now_aest = true
  <-> (OrderIntent.is_exit order = false -> forall t, now_aest = Some t ->
       hour t < 16 \/ hour t = 16 /\ (minute t < 21 \/ minute t = 21 /\ second t < 30)).
Proof.
  unfold before_post_close. destruct (OrderIntent.is_exit order); cbn [orb]; [by split|].
  destruct now_aest as [t|]; [|by split]. rewrite negb_true_iff, <- not_true_iff_false.
  unfold past_post_close, ASX_POST_CLOSE_CUTOFF_HOUR, ASX_POST_CLOSE_CUTOFF_MINUTE, ASX_POST_CLOSE_CUTOFF_SECOND.
  rewrite !orb_true_iff, !andb_true_iff, !Z.ltb_lt, !Z.leb_le, !Z.eqb_eq. split.
  - intros H _ t' [= <-]. lia.
  - intros H. specialize (H eq_refl t eq_refl). lia.
Qed.

(** C17. The decision on an ASX order: it is approved exactly when no order for
    the other side of the symbol was placed in the last 60 seconds and none is
    pending; a short entry is in an approved symbol; an entry comes at least 15
    minutes after the open of its group, where that is known; and an entry
    comes before 16:21:30 AEST, where the time is given.  An approved order is
    passed on as it is; exits are held to the first two conditions only. *)
Theorem asx_approval_iff registry order ist aest recent pending shorts now group audit d :
  OrderIntent.exchange order = "ASX" ->
  check registry order ist aest recent pending shorts now group audit = Ok d ->
  let entry := OrderIntent.is_exit order = false in
  (ComplianceDecision.approved d = true
   <-> (forall r, r ∈ recent -> ~ (opposes order r /\ now - RecentOrder.placed_at_ms r <= 60000))
    /\ (forall p, p ∈ pending -> ~ opposes order p)
    /\ (OrderIntent.direction order = "SHORT" -> entry -> OrderIntent.symbol order ∈ shorts)
    /\ (entry -> forall g elapsed_ms, group = Some g -> float_of_int (now - g) = Ok elapsed_ms ->
        flt (fdiv elapsed_ms (dec 600000 1)) (dec 15 0) = false)
    /\ (entry -> forall t, aest = Some t ->
        hour t < 16 \/ hour t = 16 /\ (minute t < 21 \/ minute t = 21 /\ second t < 30)))
  /\ (ComplianceDecision.approved d = true -> exists t, ComplianceDecision.tagged_order d = Some t
       /\ TaggedOrder.original t = order
       /\ TaggedOrder.effective_order_type t = OrderIntent.order_type order /\ TaggedOrder.mpp_price t = None)
  /\ (ComplianceDecision.approved d = false -> ComplianceDecision.tagged_order d = None).
Proof.
  intros Hx Hd. assert (Ha : is_asx order = true) by by apply String.eqb_eq. split.
  - rewrite (check_asx_inv _ _ _ _ _ _ _ _ _ _ _ Ha Hd). unfold asx_ok.
    rewrite !andb_true_iff, short_ok_iff, staggered_ok_iff, before_post_close_iff.
    rewrite (forallb_none _ _ _ (wash_match_iff order now)), (forallb_none _ _ _ (layering_match_iff order)). tauto.
  - revert Hd. unfold check. rewrite Ha. unfold is_india. rewrite Hx. cbv zeta. intros E. bind_inv E.
    bind_inv Ha0. injection Ha0 as <-. destruct a0; injection E as <-; (split; [|done]); [|done].
    intros _. by eexists.
Qed.

(** ASX exits are not exempt from the wash-trade check: an exit order is
    rejected whenever an opposite order in the same symbol was placed in the
    last 60 seconds, whatever its priority. *)
Theorem asx_exit_blocked_by_wash_trade
    registry order ist aest recent pending shorts now group audit d r :
  is_asx order = true ->
  check registry order ist aest recent pending shorts now group audit = Ok d ->
  OrderIntent.is_exit order = true ->
  r ∈ recent -> wash_match order now r = true ->
  ComplianceDecision.approved d = false.
Proof.
  intros Ha Hd _ Hr Hw. apply not_true_is_false. rewrite check_asx_inv by done.
  unfold asx_ok. rewrite !andb_true_iff. intros [[[[Hf _] _] _] _].
  rewrite forallb_forall in Hf. apply list_elem_of_In in Hr. apply Hf in Hr.
  by rewrite Hw in Hr.
Qed.

(** Whatever the environment overrides say, the tag of an approved NSE
    or BSE order fits the broker's 8-character field. *)
Theorem approved_tag_fits_broker_field
    env use_generic order ist aest recent pending shorts now group audit d t :
  is_india order = true ->
  check (new_registry env use_generic) order ist aest recent pending shorts now group audit = Ok d ->
  ComplianceDecision.tagged_order d = Some t ->
  ComplianceDecision.approved d = true ->
  (String.length (TaggedOrder.strategy_tag t) <= 8)%nat.
Proof.
  intros Hi Hd Ht Ha. apply check_india_inv in Hd as [_ Hx]; [|done].
  destruct (Hx Ha) as (t' & Ht' & Htag & _). rewrite Ht in Ht'. injection Ht' as <-.
  symmetry in Htag. by apply resolve_fits in Htag.
Qed.

(** The two cut-offs are the wall-clock comparisons they stand for:
    15:10 IST in minutes and 16:21:30 AEST in seconds. *)
Theorem cutoff_times c :
  0 <= minute c < 60 -> 0 <= second c < 60 ->
  past_force_square_off c = (15 * 60 + 10 <=? hour c * 60 + minute c)
  /\ past_post_close c
     = ((16 * 60 + 21) * 60 + 30 <=? (hour c * 60 + minute c) * 60 + second c).
Proof.
  intros Hm Hs.
  unfold past_force_square_off, past_post_close, FORCE_SQUARE_OFF_IST_HOUR,
    FORCE_SQUARE_OFF_IST_MINUTE, ASX_POST_CLOSE_CUTOFF_HOUR, ASX_POST_CLOSE_CUTOFF_MINUTE,
    ASX_POST_CLOSE_CUTOFF_SECOND.
  split; apply eq_true_iff_eq; rewrite ?orb_true_iff, ?andb_true_iff, ?Z.ltb_lt, ?Z.leb_le, ?Z.eqb_eq;
    lia.
Qed.

(** An exchange other than NSE, BSE and ASX is not checked at all: every
    order on it is approved, tagged with its registered tag or the first
    eight characters of the strategy name. *)
Theorem other_exchange_unchecked registry order ist aest recent pending shorts now group audit :
  is_india order = false -> is_asx order = false ->
  check registry order ist aest recent pending shorts now group audit
  = Ok (ComplianceDecision.mk true []
         (Some (TaggedOrder.mk order
                  (default (str_take 8 (OrderIntent.strategy_name order))
                           (resolve registry (OrderIntent.strategy_name order)))
                  (OrderIntent.order_type order) None)) audit).
Proof.
  intros Hi Ha. unfold check. rewrite Hi, Ha. cbv zeta. simpl.
  by destruct (resolve registry _).
Qed.

(** ** The kill switch as a state machine *)

#[global] Arguments KillSwitchEvent.make : simpl never.
#[global] Arguments trigger_tier : simpl never.

Lemma trigger_event t reason now :
  exists tier, trigger_tier t = Ok tier
    /\ KillSwitchEvent.make tier reason now = Ok (KillSwitchEvent.mk tier reason now true).
Proof. by destruct t; eexists; split. Qed.

Section KillSwitchFacts.
Context {R : Type} `{RedisKVLaws R}.

Implicit Types s : KillSwitchManager R.

(** The system is halted according to the store that [is_halted] reads. *)
Definition halts (s : KillSwitchManager R) : Prop :=
  match ksm_redis s with
  | Some r => redis_kv r !! KILL_SWITCH_HALTED_KEY = Some "true"
  | None => ksm_halted s = true
  end.

(** One call on the manager by any of its clients. *)
Inductive ks_step (s : KillSwitchManager R) : KillSwitchManager R -> Prop :=
| ks_trigger t reason now : ks_step s (trigger t reason now s).2
| ks_read : ks_step s (is_halted s).2.

(** A server write that cannot undo the halt flag. *)
Lemma set_keeps_halt k v r res r' :
  (k = KILL_SWITCH_HALTED_KEY -> v = "true") ->
  redis_set k v None r = (res, r') ->
  redis_kv r !! KILL_SWITCH_HALTED_KEY = Some "true" ->
  redis_kv r' !! KILL_SWITCH_HALTED_KEY = Some "true".
Proof.
  intros Hk E Hr. apply redis_set_spec in E as [-> | [-> _]]; [|done].
  destruct (decide (k = KILL_SWITCH_HALTED_KEY)) as [->|].
  - by rewrite lookup_insert_eq, Hk.
  - by rewrite lookup_insert_ne.
Qed.

Lemma set_sets k v r r' :
  redis_set k v None r = (Ok tt, r') -> redis_kv r' !! k = Some v.
Proof.
  intros E. apply redis_set_spec in E as [-> | [_ ?]]; [|done]. by rewrite lookup_insert_eq.
Qed.

(** The three writes of [trigger] on a connected manager. *)
Lemma trigger_connected t reason now s r ev :
  ksm_redis s = Some r ->
  match trigger t reason now s with
  | (res, s') => exists r', ksm_redis s' = Some r' /\ ksm_halted s' = ksm_halted s
      /\ (redis_kv r !! KILL_SWITCH_HALTED_KEY = Some "true" ->
          redis_kv r' !! KILL_SWITCH_HALTED_KEY = Some "true")
      /\ (res = Ok ev -> redis_kv r' !! KILL_SWITCH_HALTED_KEY = Some "true"
                         /\ ksm_last_event s' = Some ev /\ KillSwitchEvent.is_priority ev = true)
  end.
Proof.
  intros Hr. unfold trigger. destruct (trigger_event t reason now) as (tier & -> & He).
  assert (Hh : KILL_SWITCH_HALTED_KEY = KILL_SWITCH_HALTED_KEY -> "true" = "true") by done.
  assert (Ht : KILL_SWITCH_TIER_KEY = KILL_SWITCH_HALTED_KEY -> pretty tier = "true")
    by (intros ?; discriminate).
  assert (Hn : KILL_SWITCH_REASON_KEY = KILL_SWITCH_HALTED_KEY -> reason = "true")
    by (intros ?; discriminate).
  M_unfold. rewrite He. cbn. rewrite Hr. cbn. unfold ksm_set.
  destruct (redis_set KILL_SWITCH_HALTED_KEY _ _ r) as [[[]|e1] r1] eqn:E1; cbn.
  2: { exists r1. split_and!; [done..| |done]. by apply (set_keeps_halt _ _ _ _ _ Hh E1). }
  assert (H1 := set_sets _ _ _ _ E1).
  destruct (redis_set KILL_SWITCH_TIER_KEY _ _ r1) as [[[]|e2] r2] eqn:E2; cbn.
  2: { exists r2. split_and!; [done..| |done]. intros _. by apply (set_keeps_halt _ _ _ _ _ Ht E2). }
  assert (H2 := set_keeps_halt _ _ _ _ _ Ht E2 H1).
  destruct (redis_set KILL_SWITCH_REASON_KEY _ _ r2) as [[[]|e3] r3] eqn:E3; cbn;
    (assert (H3 := set_keeps_halt _ _ _ _ _ Hn E3 H2));
    exists r3; split_and!; naive_solver.
Qed.

Lemma trigger_in_memory t reason now s :
  ksm_redis s = None ->
  exists ev, trigger t reason now s
    = (Ok ev, {| ksm_redis := None; ksm_halted := true; ksm_last_event := Some ev |})
    /\ KillSwitchEvent.is_priority ev = true.
Proof.
  intros Hr. unfold trigger. destruct (trigger_event t reason now) as (tier & -> & He).
  M_unfold. rewrite He. cbn. rewrite Hr. cbn. by eexists.
Qed.

Lemma is_halted_step s s' res :
  is_halted s = (res, s') ->
  ksm_halted s' = ksm_halted s
  /\ (halts s -> halts s' /\ forall b, res = Ok b -> b = true).
Proof.
  unfold is_halted, halts. destruct (ksm_redis s) as [r|] eqn:Hr.
  - destruct (redis_get _ r) as [v r'] eqn:E. intros [= <- <-]. cbn.
    apply redis_get_spec in E as [-> Hv]. split; [done|]. intros Hs. split; [done|].
    intros b Hb. destruct v as [o|]; cbn in Hb; [|done]. rewrite (Hv o eq_refl), Hs in Hb.
    cbn in Hb. by injection Hb as <-.
  - intros [= <- <-]. split; [done|]. rewrite Hr. intros ->. split; [done|]. by intros b [= <-].
Qed.

(** Triggering the kill switch halts the system and records the event:
    after a [trigger] that returns, the store read by [is_halted] says
    halted, the event is the last event and it is a priority event. *)
Theorem trigger_halts t reason now s ev s' :
  trigger t reason now s = (Ok ev, s') ->
  halts s' /\ last_event s' = Some ev /\ KillSwitchEvent.is_priority ev = true.
Proof.
  intros E. unfold halts. destruct (ksm_redis s) as [r|] eqn:Hr.
  - pose proof (trigger_connected t reason now s r ev Hr) as Hc. rewrite E in Hc.
    destruct Hc as (r' & -> & _ & _ & Hok). by apply Hok.
  - destruct (trigger_in_memory t reason now s Hr) as (ev' & E' & Hp). rewrite E' in E.
    by injection E as <- <-.
Qed.

(** C3. The halt is permanent: no sequence of calls on the manager, failing
    ones included, un-halts it, and every later read that returns says
    halted. *)
Theorem halt_is_permanent s s' :
  halts s -> rtc ks_step s s' ->
  halts s' /\ forall b s'', is_halted s' = (Ok b, s'') -> b = true.
Proof.
  intros Hh Hst. assert (Hs' : halts s').
  { induction Hst as [|s1 s2 s3 Hstep _ IH]; [done|]. apply IH. destruct Hstep.
    - destruct (ksm_redis s1) as [r|] eqn:Hr.
      + pose proof (fun ev => trigger_connected t reason now s1 r ev Hr) as Hc.
        unfold halts in *. rewrite Hr in Hh. destruct (trigger t reason now s1) as [res s2']. cbn.
        destruct (Hc (KillSwitchEvent.mk 0 "" 0 false)) as (r' & -> & _ & Hkeep & _). by apply Hkeep.
      + destruct (trigger_in_memory t reason now s1 Hr) as (ev' & -> & _). done.
    - destruct (is_halted s1) as [res s2] eqn:E. by apply is_halted_step in E as [_ [? _]]. }
  split; [done|]. intros b s'' E. apply is_halted_step in E as [_ Hx]. by apply Hx.
Qed.

(** With a Redis client the in-memory flag is no fallback: when the
    server refuses the halt write, [trigger] raises and the manager is as
    unhalted as before. *)
Theorem trigger_has_no_memory_fallback t reason now s r e r' :
  ksm_redis s = Some r ->
  redis_set KILL_SWITCH_HALTED_KEY "true" None r = (Raise e, r') ->
  exists s', trigger t reason now s = (Raise e, s')
    /\ ksm_halted s' = ksm_halted s /\ ksm_redis s' = Some r'.
Proof.
  intros Hr E. unfold trigger. destruct (trigger_event t reason now) as (tier & -> & He).
  M_unfold. rewrite He. cbn. rewrite Hr. cbn. unfold ksm_set. rewrite E. cbn. eauto.
Qed.

End KillSwitchFacts.

(** ** Evaluation on concrete inputs *)

Definition sample_order (exchange direction order_type : string) (is_exit : bool) : OrderIntent.t :=
  OrderIntent.mk "BHP" exchange direction order_type 10 None (dec 95 0) "ORB_BREAKOUT" "co-1"
    (Some (dec 100 0)) (dec 1000 0) (dec 100000 0) is_exit None "UNKNOWN" is_exit.

Definition no_env : environ := fun _ => None.
Definition long_tag_env : environ := fun k =>
  if String.eqb k "STRATEGY_ID_ORB_BREAKOUT" then Some " TOOLONGTAG99 " else None.

Definition sample_check (env : environ) (o : OrderIntent.t) (recent : list RecentOrder.t) :=
  check (new_registry env None) o (Some {| hour := 11; minute := 30; second := 0 |})
    (Some {| hour := 11; minute := 30; second := 0 |}) recent [] ∅ 100000 None "audit".

Definition decided (r : result ComplianceDecision.t) : ComplianceDecision.t :=
  match r with Ok d => d | Raise _ => ComplianceDecision.mk false [] None "" end.

Definition tagged_of (d : ComplianceDecision.t) : TaggedOrder.t :=
  default (TaggedOrder.mk (sample_order "" "" "" false) "" "" None)
    (ComplianceDecision.tagged_order d).

Definition opposite_recent : RecentOrder.t := RecentOrder.mk "BHP" "LONG" 70000.

Lemma india_approval_iff_witness :
  exists d, sample_check no_env (sample_order "NSE" "LONG" "MARKET" false) [] = Ok d
    /\ (ComplianceDecision.approved d = true
        <-> india_ok (sample_order "NSE" "LONG" "MARKET" false) (Some "STRAT002")
              (Some {| hour := 11; minute := 30; second := 0 |}) = true).
Proof. unfold sample_check. apply india_approval_iff. reflexivity. Defined.

Lemma approved_market_orders_become_mpp_witness :
  exists t, ComplianceDecision.tagged_order
      (decided (sample_check no_env (sample_order "NSE" "LONG" "MARKET" false) [])) = Some t
    /\ TaggedOrder.effective_order_type t <> "MARKET"
    /\ (true = true -> TaggedOrder.effective_order_type t = "MPP"
                       /\ is_Some (TaggedOrder.mpp_price t))
    /\ (true = false -> TaggedOrder.effective_order_type t = "MARKET"
                        /\ TaggedOrder.mpp_price t = None).
Proof.
  apply (approved_market_orders_become_mpp (new_registry no_env None)
            (sample_order "NSE" "LONG" "MARKET" false)
            (Some {| hour := 11; minute := 30; second := 0 |})
            (Some {| hour := 11; minute := 30; second := 0 |}) [] [] ∅ 100000 None "audit").
  - reflexivity.
  - vm_compute. reflexivity.
  - vm_compute. reflexivity.
Defined.

Lemma asx_approval_iff_witness :
  ComplianceDecision.approved
    (decided (sample_check no_env (sample_order "ASX" "LONG" "LIMIT" false) [])) = true.
Proof.
  apply (asx_approval_iff (new_registry no_env None) (sample_order "ASX" "LONG" "LIMIT" false)
           (Some {| hour := 11; minute := 30; second := 0 |})
           (Some {| hour := 11; minute := 30; second := 0 |}) [] [] ∅ 100000 None "audit").
  - reflexivity.
  - vm_compute. reflexivity.
  - split; [by intros r Hr%not_elem_of_nil|]. split; [by intros p Hp%not_elem_of_nil|].
    split; [discriminate|]. split; [discriminate|]. intros _ t [= <-]. left. reflexivity.
Defined.

Lemma asx_exit_blocked_by_wash_trade_witness :
  ComplianceDecision.approved
    (decided (sample_check no_env (sample_order "ASX" "SHORT" "SL" true) [opposite_recent])) = false.
Proof.
  apply (asx_exit_blocked_by_wash_trade (new_registry no_env None)
           (sample_order "ASX" "SHORT" "SL" true)
           (Some {| hour := 11; minute := 30; second := 0 |})
           (Some {| hour := 11; minute := 30; second := 0 |})
           [opposite_recent] [] ∅ 100000 None "audit" _ opposite_recent).
  - reflexivity.
  - vm_compute. reflexivity.
  - reflexivity.
  - apply elem_of_cons. left. reflexivity.
  - vm_compute. reflexivity.
Defined.

Lemma approved_tag_fits_broker_field_witness :
  (String.length (TaggedOrder.strategy_tag
     (tagged_of (decided (sample_check long_tag_env (sample_order "NSE" "LONG" "LIMIT" false) []))))
   <= 8)%nat.
Proof.
  apply (approved_tag_fits_broker_field long_tag_env None (sample_order "NSE" "LONG" "LIMIT" false)
            (Some {| hour := 11; minute := 30; second := 0 |})
            (Some {| hour := 11; minute := 30; second := 0 |})
            [] [] ∅ 100000 None "audit"
            (decided (sample_check long_tag_env (sample_order "NSE" "LONG" "LIMIT" false) []))).

  - reflexivity.
  - vm_compute. reflexivity.
  - vm_compute. reflexivity.
  - reflexivity.
Defined.

Lemma cutoff_times_witness :
  past_force_square_off {| hour := 15; minute := 10; second := 0 |} = true
  /\ past_post_close {| hour := 15; minute := 10; second := 0 |} = false.
Proof.
  destruct (cutoff_times {| hour := 15; minute := 10; second := 0 |}) as [H1 H2];
    [simpl; lia | simpl; lia | rewrite H1, H2; split; reflexivity].
Defined.

Lemma other_exchange_unchecked_witness :
  sample_check no_env (sample_order "NYSE" "SHORT" "MARKET" false) []
  = Ok (ComplianceDecision.mk true []
         (Some (TaggedOrder.mk (sample_order "NYSE" "SHORT" "MARKET" false) "STRAT002" "MARKET" None))
         "audit").
Proof.
  unfold sample_check. rewrite other_exchange_unchecked; [|reflexivity|reflexivity].
  vm_compute. reflexivity.
Defined.

Definition fresh_manager (r : MemRedis) : KillSwitchManager MemRedis := new_kill_switch (Some r).

Definition event_of (x : result KillSwitchEvent.t) : KillSwitchEvent.t :=
  match x with Ok ev => ev | Raise _ => KillSwitchEvent.mk 0 "" 0 false end.

Definition triggered : result KillSwitchEvent.t * KillSwitchManager MemRedis :=
  trigger TIER2_EXTERNAL_API "operator" 1000 (fresh_manager mem_empty).

Lemma trigger_halts_witness :
  halts triggered.2 /\ last_event triggered.2 = Some (event_of triggered.1)
  /\ KillSwitchEvent.is_priority (event_of triggered.1) = true.
Proof.
  apply (trigger_halts TIER2_EXTERNAL_API "operator" 1000 (fresh_manager mem_empty)).
  vm_compute. reflexivity.
Defined.

Lemma halt_is_permanent_witness :
  halts triggered.2 /\ forall b s'', is_halted triggered.2 = (Ok b, s'') -> b = true.
Proof.
  apply (halt_is_permanent triggered.2 triggered.2).
  - vm_compute. reflexivity.
  - apply rtc_refl.
Defined.

Lemma trigger_has_no_memory_fallback_witness :
  exists s', trigger TIER2_EXTERNAL_API "operator" 1000 (fresh_manager mem_down)
      = (Raise (RedisError "connection refused"), s')
    /\ ksm_halted s' = false /\ ksm_redis s' = Some mem_down.
Proof.
  apply (trigger_has_no_memory_fallback TIER2_EXTERNAL_API "operator" 1000
           (fresh_manager mem_down) mem_down (RedisError "connection refused") mem_down).
  - reflexivity.
  - reflexivity.
Defined.
