(* ===== verification/Signals.v ===== *)
(** * Signal generation ([shared/signals])

    [models.py], [gates.py] and [engine.py]: the nine gates, each a function
    of the signal context, and the engine that runs them in order.  The
    monotonic clock only feeds log messages and is left out; [now] is the
    [datetime.now(UTC)] of a successful evaluation. *)

From S2P Require Import Prelude PyFloat PyDict Constants Regime MarketData.
Local Open Scope Z_scope.

(** ** Data models ([models.py]) *)

Module GateResult.
Record t := mk {
  gate_number : Z;
  passed : bool;
  reason : string;
  confidence_contribution : float;
  confirming_indicators : list string;
  confirming_timeframes : list string;
  candlestick_pattern : string;
}.
End GateResult.

Module SignalContext.
Record t := mk {
  symbol : string;
  exchange : string;
  direction : string;
  strategy_id : string;
  regime : RegimeClassification.t;
  indicator_values : dict string (dict string (option float));
  pattern_snapshot : option PatternSnapshot.t;
  multi_tf_patterns : option MultiTimeframePatterns.t;
  current_price : float;
  current_volume : float;
  avg_volume : float;
  atr : float;
  is_snapshot_window : bool;
  session_open : Z;
  session_close : Z;
  evaluated_at : Z;
  candles : dict string (list OHLCVCandle.t);
  sentiment : option MarketSentiment.t;
}.
End SignalContext.

Module SignalResult.
Record t := mk {
  generated : bool;
  symbol : string;
  exchange : string;
  direction : string;
  confidence : float;
  entry_price : float;
  stop_loss : float;
  target1 : float;
  target2 : float;
  atr : float;
  strategy_id : string;
  gate_results : list GateResult.t;
  failed_at_gate : option Z;
  confirming_indicators : list string;
  confirming_timeframes : list string;
  candlestick_pattern : string;
  regime : string;
  evaluated_at : Z;
}.
End SignalResult.

(** [GateResult(gate_number=n, passed=..., reason=..., ...)] with the
    dataclass defaults. *)
Definition gate_fail (n : Z) (reason : string) : GateResult.t :=
  GateResult.mk n false reason f_zero [] [] "".

Definition gate_pass (n : Z) (reason : string) (contribution : float) : GateResult.t :=
  GateResult.mk n true reason contribution [] [] "".

(** ** Gates ([gates.py]) *)

Definition is_long (ctx : SignalContext.t) : bool :=
  String.eqb (SignalContext.direction ctx) "LONG".
Definition is_short (ctx : SignalContext.t) : bool :=
  String.eqb (SignalContext.direction ctx) "SHORT".
Definition regime_of (ctx : SignalContext.t) : MarketRegime :=
  RegimeClassification.regime (SignalContext.regime ctx).

Definition gate_1_regime (ctx : SignalContext.t) : GateResult.t :=
  let regime := regime_of ctx in
  let regime_str := regime_value regime in
  if bool_decide (regime = HIGH_VOL_CHAOS) then
    gate_fail 1 "HIGH_VOL_CHAOS — all entries blocked (RULE 2)"
  else if is_long ctx && bool_decide (regime = BEAR_TREND) then
    gate_fail 1 ("LONG entry blocked in " +:+ regime_str +:+ " regime")
  else if is_short ctx && bool_decide (regime = BULL_TREND) then
    gate_fail 1 ("SHORT entry blocked in " +:+ regime_str +:+ " regime")
  else
    gate_pass 1 ("Direction " +:+ SignalContext.direction ctx +:+ " permitted in " +:+ regime_str)
      f_zero.

(** [values.get(name, {}).get(key)] *)
Definition indicator (values : dict string (dict string (option float))) (name key : string)
    : option float :=
  match dget name values with
  | Some ind => match dget key ind with Some v => v | None => None end
  | None => None
  end.

(** The agreement test of one indicator. *)
Definition check_indicator (name : string) (values : dict string (dict string (option float)))
    (long : bool) (current_price current_volume avg_volume : float) (orb_direction : option Z)
    : bool :=
  let v := indicator values name in
  if String.eqb name "EMA" then
    match v "EMA_9", v "EMA_21" with
    | Some ema9, Some ema21 => if long then (ema9 >? ema21)%pf else (ema9 <? ema21)%pf
    | _, _ => false
    end
  else if String.eqb name "VWAP" then
    match v "VWAP" with
    | Some vwap => if long then (current_price >? vwap)%pf else (current_price <? vwap)%pf
    | None => false
    end
  else if String.eqb name "RSI" then
    match v "RSI_14" with
    | Some rsi => if long then (rsi >? RSI_BULLISH_LEVEL)%pf else (rsi <? RSI_BEARISH_LEVEL)%pf
    | None => false
    end
  else if String.eqb name "MACD" then
    match v "MACD_HIST" with
    | Some hist => if long then (hist >? f_zero)%pf else (hist <? f_zero)%pf
    | None => false
    end
  else if String.eqb name "STOCHASTIC" then
    match v "STOCH_K", v "STOCH_D" with
    | Some k, Some d =>
        if long then (k >? dec 50 0)%pf && (k >? d)%pf else (k <? dec 50 0)%pf && (k <? d)%pf
    | _, _ => false
    end
  else if String.eqb name "BBANDS" then
    match v "BB_MIDDLE" with
    | Some mid => if long then (current_price >? mid)%pf else (current_price <? mid)%pf
    | None => false
    end
  else if String.eqb name "ORB" then
    match orb_direction with
    | Some d => if long then d =? 1 else d =? -1
    | None => false
    end
  else if String.eqb name "VOLUME" then
    if (avg_volume <=? f_zero)%pf then false
    else (current_volume >? VOLUME_CONFIRMATION_MULTIPLIER * avg_volume)%pf
  else false.

Definition GATE_2_INDICATORS : list string :=
  ["EMA"; "VWAP"; "RSI"; "MACD"; "STOCHASTIC"; "BBANDS"; "ORB"; "VOLUME"].

Definition orb_direction_of (ctx : SignalContext.t) : option Z :=
  snap ← SignalContext.pattern_snapshot ctx;
  orb ← PatternSnapshot.orb_state snap;
  ORBState.breakout_direction orb.

Definition agreeing_indicators (ctx : SignalContext.t) : list string :=
  List.filter (fun name =>
      check_indicator name (SignalContext.indicator_values ctx) (is_long ctx)
        (SignalContext.current_price ctx) (SignalContext.current_volume ctx)
        (SignalContext.avg_volume ctx) (orb_direction_of ctx))
    GATE_2_INDICATORS.

(** [GATE_2_PER_INDICATOR_BONUS * count] *)
Definition indicator_bonus (count : Z) : float :=
  (GATE_2_PER_INDICATOR_BONUS * dec count 0)%pf.

Definition gate_2_indicators (ctx : SignalContext.t) : GateResult.t :=
  let agreeing := agreeing_indicators ctx in
  let count := Z.of_nat (length agreeing) in
  if count <? GATE_2_MIN_INDICATORS_AGREEING then
    gate_fail 2 ("Only " +:+ pretty count +:+ "/" +:+ pretty GATE_2_TOTAL_INDICATORS +:+
                 " indicators agree (need ≥ " +:+ pretty GATE_2_MIN_INDICATORS_AGREEING +:+ ")")
  else
    GateResult.mk 2 true
      (pretty count +:+ "/" +:+ pretty GATE_2_TOTAL_INDICATORS +:+ " indicators agree: " +:+
       str_join ", " agreeing)
      (indicator_bonus count) agreeing [] "".

Definition vol_delta_of (ctx : SignalContext.t) : option float :=
  indicator (SignalContext.indicator_values ctx) "VOLUME_DELTA" "VOLUME_DELTA".

(** The volume is high and the delta is a small share of it. *)
Definition absorption (ctx : SignalContext.t) (vol_delta : float) : result bool :=
  let vol := SignalContext.current_volume ctx in
  if (vol >? f_zero)%pf && (vol >? GATE_3_ABSORPTION_VOLUME_RATIO * SignalContext.avg_volume ctx)%pf
  then delta_ratio ← pydiv (fabs vol_delta) vol;
       mret (delta_ratio <? GATE_3_ABSORPTION_DELTA_RATIO)%pf
  else mret false.

Definition delta_matches (ctx : SignalContext.t) (vol_delta : float) : bool :=
  let delta_long := (vol_delta >? f_zero)%pf in
  (is_long ctx && delta_long) || (is_short ctx && negb delta_long).

Definition gate_3_order_flow (ctx : SignalContext.t) : result GateResult.t :=
  match vol_delta_of ctx with
  | None => mret (gate_fail 3 "VOLUME_DELTA unavailable — order flow unverifiable")
  | Some vol_delta =>
      let vol := SignalContext.current_volume ctx in
      absorbed ← absorption ctx vol_delta;
      if absorbed : bool then
        delta_ratio ← pydiv (fabs vol_delta) vol;
        times ← pydiv vol (SignalContext.avg_volume ctx);
        mret (gate_fail 3
          ("Institutional absorption detected: vol=" +:+ fmt_fixed 0 vol +:+ " (" +:+
           fmt_fixed 1 times +:+ "× avg), delta_ratio=" +:+ fmt_fixed 3 delta_ratio))
      else if negb (delta_matches ctx vol_delta) then
        mret (gate_fail 3
          ("Footprint delta (" +:+ fmt_fixed_signed 0 vol_delta +:+ ") conflicts with " +:+
           SignalContext.direction ctx +:+ " direction"))
      else
        mret (gate_pass 3
          ("Order flow confirms " +:+ SignalContext.direction ctx +:+ ": delta=" +:+
           fmt_fixed_signed 0 vol_delta) GATE_3_CONFIDENCE_BONUS)
  end.

(** The test of the scan over [reversed(signals)]. *)
Definition confirms (long : bool) (last_bar : Z) (sig : CandlestickSignal.t) : bool :=
  (last_bar - CandlestickSignal.bar_index sig <=? 3)
  && (CandlestickSignal.direction sig =? (if long then 100 else -100)).

Definition orb_confirms (long : bool) (snap : PatternSnapshot.t) : bool :=
  match PatternSnapshot.orb_state snap with
  | Some orb =>
      match ORBState.breakout_direction orb with
      | Some d => d =? (if long then 1 else -1)
      | None => false
      end
  | None => false
  end.

Definition gate_4_candlestick (ctx : SignalContext.t) : GateResult.t :=
  match SignalContext.pattern_snapshot ctx with
  | None => gate_fail 4 "No pattern snapshot available"
  | Some snap =>
      let signals := PatternSnapshot.candlestick_signals snap in
      let last_bar := Z.of_nat (length signals) in
      match find_first (confirms (is_long ctx) last_bar) (rev signals) with
      | Some sig =>
          GateResult.mk 4 true
            ("Candlestick pattern " +:+ CandlestickSignal.name sig +:+ " confirms " +:+
             SignalContext.direction ctx)
            GATE_4_CONFIDENCE_BONUS [] [] (CandlestickSignal.name sig)
      | None =>
          if orb_confirms (is_long ctx) snap then
            GateResult.mk 4 true ("ORB breakout confirms " +:+ SignalContext.direction ctx)
              GATE_4_CONFIDENCE_BONUS [] [] "ORB_BREAKOUT"
          else
            gate_fail 4 ("No candlestick pattern confirms " +:+ SignalContext.direction ctx +:+
                         " in last 3 bars")
      end
  end.

Definition has_pattern (direction : Z) (snap : PatternSnapshot.t) : bool :=
  existsb (fun s => CandlestickSignal.direction s =? direction)
    (PatternSnapshot.candlestick_signals snap).

Definition gate_5_multi_timeframe (ctx : SignalContext.t) : GateResult.t :=
  match SignalContext.multi_tf_patterns ctx with
  | None =>
      gate_fail 5 ("Multi-timeframe patterns not provided (need ≥ " +:+
                   pretty GATE_5_MIN_TIMEFRAMES_AGREEING +:+ " timeframes)")
  | Some mtf =>
      let long := is_long ctx in
      let confirmed := if long then MultiTimeframePatterns.confirmed_bullish_patterns mtf
                       else MultiTimeframePatterns.confirmed_bearish_patterns mtf in
      let tfs := fst <$> List.filter (fun tf_snap => has_pattern (if long then 100 else -100) tf_snap.2)
                           (MultiTimeframePatterns.snapshots mtf) in
      match confirmed with
      | [] =>
          gate_fail 5 ("No " +:+ SignalContext.direction ctx +:+ " pattern confirmed on ≥ " +:+
                       pretty GATE_5_MIN_TIMEFRAMES_AGREEING +:+ " timeframes")
      | _ :: _ =>
          let tf_list := take (Z.to_nat GATE_5_MIN_TIMEFRAMES_AGREEING) tfs in
          GateResult.mk 5 true
            (pretty (Z.of_nat (length confirmed)) +:+ " pattern(s) confirmed on " +:+
             pretty (Z.of_nat (length tfs)) +:+ " timeframe(s): " +:+ str_join ", " tf_list)
            GATE_5_CONFIDENCE_BONUS [] tf_list ""
      end
  end.

(** [GATE_6_SR_PROXIMITY_PCT / 100.0] *)
Definition sr_threshold : float := fdiv GATE_6_SR_PROXIMITY_PCT (dec 1000 1).

(** The scan skips levels of the other kind and non-positive prices, so the
    division is by a non-zero price. *)
Definition near_level (price : float) (target_type : string) (level : SRLevel.t) : bool :=
  String.eqb (SRLevel.level_type level) target_type
  && negb (SRLevel.price level <=? f_zero)%pf
  && (fdiv (fabs (price - SRLevel.price level)%pf) (SRLevel.price level) <=? sr_threshold)%pf.

Definition sr_target (ctx : SignalContext.t) : string :=
  if is_long ctx then "SUPPORT" else "RESISTANCE".

Definition gate_6_sr_proximity (ctx : SignalContext.t) : GateResult.t :=
  match SignalContext.pattern_snapshot ctx with
  | None => gate_fail 6 "No pattern snapshot — S/R check skipped"
  | Some snap =>
      let price := SignalContext.current_price ctx in
      match find_first (near_level price (sr_target ctx)) (PatternSnapshot.sr_levels snap) with
      | Some level =>
          let proximity := fdiv (fabs (price - SRLevel.price level)%pf) (SRLevel.price level) in
          gate_pass 6
            ("Price " +:+ fmt_fixed 2 price +:+ " within " +:+
             fmt_fixed 2 (proximity * dec 100 0)%pf +:+ "% of " +:+ sr_target ctx +:+ " at " +:+
             fmt_fixed 2 (SRLevel.price level) +:+ " (strength=" +:+
             fmt_fixed 2 (SRLevel.strength level) +:+ ")")
            GATE_6_CONFIDENCE_BONUS
      | None =>
          gate_fail 6 ("Price " +:+ fmt_fixed 2 price +:+ " not within " +:+
                       repr GATE_6_SR_PROXIMITY_PCT +:+ "% of any " +:+ sr_target ctx +:+ " level")
      end
  end.

(** [(a - b).total_seconds() / 60] *)
Definition minutes_between (a b : Z) : result float :=
  s ← total_seconds (a - b); pydiv s (dec 60 0).

Definition gate_7_session_timing (ctx : SignalContext.t) : result GateResult.t :=
  let opening_end := SignalContext.session_open ctx + GATE_7_OPENING_NOISE_FILTER_MINUTES * MINUTE in
  let closing_start := SignalContext.session_close ctx - GATE_7_CLOSING_WINDOW_MINUTES * MINUTE in
  let at_ := SignalContext.evaluated_at ctx in
  if at_ <? opening_end then
    elapsed ← minutes_between at_ (SignalContext.session_open ctx);
    mret (gate_fail 7 ("Opening noise filter: " +:+ fmt_fixed 1 elapsed +:+
                       "min elapsed (need ≥ " +:+ pretty GATE_7_OPENING_NOISE_FILTER_MINUTES +:+
                       "min)"))
  else if closing_start <=? at_ then
    remaining ← minutes_between (SignalContext.session_close ctx) at_;
    mret (gate_fail 7 ("Closing window: " +:+ fmt_fixed 1 remaining +:+
                       "min to session close (block at ≤ " +:+
                       pretty GATE_7_CLOSING_WINDOW_MINUTES +:+ "min)"))
  else mret (gate_pass 7 "Within tradeable session window" f_zero).

(** One branch of gate 8: an adjustment of the running value and a reason. *)
Definition rsi_step (ctx : SignalContext.t) (adjustment : float) (reasons : list string)
    : float * list string :=
  match indicator (SignalContext.indicator_values ctx) "RSI" "RSI_14" with
  | None => (adjustment, reasons)
  | Some rsi =>
      if is_long ctx && (rsi >? dec 75 0)%pf then
        ((adjustment - GATE_8_DIVERGENCE_PENALTY)%pf,
         reasons ++ ["RSI overbought (" +:+ fmt_fixed 1 rsi +:+ ") — divergence risk"])
      else if is_short ctx && (rsi <? dec 25 0)%pf then
        ((adjustment - GATE_8_DIVERGENCE_PENALTY)%pf,
         reasons ++ ["RSI oversold (" +:+ fmt_fixed 1 rsi +:+ ") — divergence risk"])
      else if is_long ctx && ((dec 50 0 <? rsi)%pf && (rsi <=? dec 70 0)%pf) then
        ((adjustment + GATE_8_ALIGNMENT_BONUS)%pf,
         reasons ++ ["RSI aligned bullish (" +:+ fmt_fixed 1 rsi +:+ ")"])
      else if is_short ctx && ((dec 30 0 <=? rsi)%pf && (rsi <? dec 50 0)%pf) then
        ((adjustment + GATE_8_ALIGNMENT_BONUS)%pf,
         reasons ++ ["RSI aligned bearish (" +:+ fmt_fixed 1 rsi +:+ ")"])
      else (adjustment, reasons)
  end.

Definition macd_step (ctx : SignalContext.t) (adjustment : float) (reasons : list string)
    : float * list string :=
  match indicator (SignalContext.indicator_values ctx) "MACD" "MACD_HIST" with
  | None => (adjustment, reasons)
  | Some hist =>
      if (is_long ctx && (hist >? f_zero)%pf) || (is_short ctx && (hist <? f_zero)%pf) then
        ((adjustment + GATE_8_ALIGNMENT_BONUS)%pf,
         reasons ++ ["MACD histogram aligned (" +:+ fmt_fixed_signed 4 hist +:+ ")"])
      else if (is_long ctx && (hist <? f_zero)%pf) || (is_short ctx && (hist >? f_zero)%pf) then
        ((adjustment - GATE_8_DIVERGENCE_PENALTY)%pf,
         reasons ++ ["MACD histogram diverges (" +:+ fmt_fixed_signed 4 hist +:+ ")"])
      else (adjustment, reasons)
  end.

Definition sentiment_step (ctx : SignalContext.t) (adjustment : float) (reasons : list string)
    : float * list string :=
  match SignalContext.sentiment ctx with
  | None => (adjustment, reasons)
  | Some sentiment =>
      let score := MarketSentiment.aggregate_score sentiment in
      if is_long ctx && (score >? dec 3 1)%pf then
        ((adjustment + GATE_8_ALIGNMENT_BONUS * dec 5 1)%pf,
         reasons ++ ["Sentiment bullish (" +:+ fmt_fixed 2 score +:+ ")"])
      else if is_short ctx && (score <? dec (-3) 1)%pf then
        ((adjustment + GATE_8_ALIGNMENT_BONUS * dec 5 1)%pf,
         reasons ++ ["Sentiment bearish (" +:+ fmt_fixed 2 score +:+ ")"])
      else (adjustment, reasons)
  end.

Definition gate_8_divergence (ctx : SignalContext.t) : GateResult.t :=
  let '(adjustment, reasons) := rsi_step ctx f_zero [] in
  let '(adjustment, reasons) := macd_step ctx adjustment reasons in
  let '(adjustment, reasons) := sentiment_step ctx adjustment reasons in
  gate_pass 8
    (match reasons with [] => "No divergence signals detected" | _ => str_join "; " reasons end)
    adjustment.

Definition confidence_threshold (is_snapshot_window : bool) : float :=
  if is_snapshot_window then GATE_9_CONFIDENCE_THRESHOLD_SNAPSHOT_WINDOW
  else GATE_9_CONFIDENCE_THRESHOLD.

Definition gate_9_confidence (base_confidence : float) (ctx : SignalContext.t) : GateResult.t :=
  let threshold := confidence_threshold (SignalContext.is_snapshot_window ctx) in
  if (base_confidence <? threshold)%pf then
    gate_fail 9 ("Confidence " +:+ fmt_fixed 3 base_confidence +:+ " below threshold " +:+
                 fmt_fixed 2 threshold +:+
                 (if SignalContext.is_snapshot_window ctx then " (snapshot window)" else ""))
  else
    gate_pass 9 ("Confidence " +:+ fmt_fixed 3 base_confidence +:+ " ≥ threshold " +:+
                 fmt_fixed 2 threshold) f_zero.

Definition compute_stop_loss (entry_price atr : float) (long : bool) : float :=
  let sl_distance := (ATR_STOP_LOSS_MULTIPLIER * atr)%pf in
  if long then (entry_price - sl_distance)%pf else (entry_price + sl_distance)%pf.

(** The regime's reward-risk ratio is looked up and not used. *)
Definition compute_targets (entry_price stop_loss : float) (long : bool) : float * float :=
  let risk := fabs (entry_price - stop_loss)%pf in
  let t1_dist := (TARGET_1_REWARD_RISK_RATIO * risk)%pf in
  let t2_dist := (TARGET_2_REWARD_RISK_RATIO * risk)%pf in
  if long then ((entry_price + t1_dist)%pf, (entry_price + t2_dist)%pf)
  else ((entry_price - t1_dist)%pf, (entry_price - t2_dist)%pf).

Definition compute_stop_and_targets (ctx : SignalContext.t) : float * float * float :=
  let sl := compute_stop_loss (SignalContext.current_price ctx) (SignalContext.atr ctx) (is_long ctx) in
  let '(t1, t2) := compute_targets (SignalContext.current_price ctx) sl (is_long ctx) in
  (sl, t1, t2).

(** ** Engine ([engine.py]) *)

Definition failed_result (ctx : SignalContext.t) (gate_results : list GateResult.t)
    (failed_gate : Z) : SignalResult.t :=
  {| SignalResult.generated := false;
     SignalResult.symbol := SignalContext.symbol ctx;
     SignalResult.exchange := SignalContext.exchange ctx;
     SignalResult.direction := SignalContext.direction ctx;
     SignalResult.confidence := f_zero;
     SignalResult.entry_price := SignalContext.current_price ctx;
     SignalResult.stop_loss := f_zero; SignalResult.target1 := f_zero;
     SignalResult.target2 := f_zero; SignalResult.atr := SignalContext.atr ctx;
     SignalResult.strategy_id := SignalContext.strategy_id ctx;
     SignalResult.gate_results := gate_results;
     SignalResult.failed_at_gate := Some failed_gate;
     SignalResult.confirming_indicators := []; SignalResult.confirming_timeframes := [];
     SignalResult.candlestick_pattern := "";
     SignalResult.regime := regime_value (regime_of ctx);
     SignalResult.evaluated_at := SignalContext.evaluated_at ctx |}.

Definition terminating_gates : list ((SignalContext.t -> result GateResult.t) * Z) :=
  [(fun ctx => mret (gate_1_regime ctx), 1); (fun ctx => mret (gate_2_indicators ctx), 2);
   (gate_3_order_flow, 3); (fun ctx => mret (gate_4_candlestick ctx), 4);
   (fun ctx => mret (gate_5_multi_timeframe ctx), 5);
   (fun ctx => mret (gate_6_sr_proximity ctx), 6); (gate_7_session_timing, 7)].

(** How the loop over the terminating gates ends: a gate failed, or all
    passed with the accumulated confidence. *)
Inductive GatesExit : Type :=
| FailedAt (gate_results : list GateResult.t) (gate : Z)
| AllPassed (gate_results : list GateResult.t) (confidence : float).

Fixpoint run_gates (ctx : SignalContext.t)
    (gates : list ((SignalContext.t -> result GateResult.t) * Z))
    (gate_results : list GateResult.t) (confidence : float) : result GatesExit :=
  match gates with
  | [] => mret (AllPassed gate_results confidence)
  | (gate_fn, gate_num) :: gates =>
      r ← gate_fn ctx;
      let gate_results := gate_results ++ [r] in
      if negb (GateResult.passed r) then mret (FailedAt gate_results gate_num)
      else run_gates ctx gates gate_results (confidence + GateResult.confidence_contribution r)%pf
  end.

(** [max(0.0, min(1.0, c))] *)
Definition clamp01 (c : float) : float := pymax f_zero (pymin (dec 10 1) c).

(** The last non-empty value over the gate results. *)
Definition last_nonempty {A} (sel : GateResult.t -> list A) (grs : list GateResult.t) : list A :=
  foldl (fun acc gr => match sel gr with [] => acc | l => l end) [] grs.

Definition last_pattern (grs : list GateResult.t) : string :=
  foldl (fun acc gr => if String.eqb (GateResult.candlestick_pattern gr) "" then acc
                       else GateResult.candlestick_pattern gr) "" grs.

Definition generated_result (ctx : SignalContext.t) (gate_results : list GateResult.t)
    (confidence : float) (now : Z) : SignalResult.t :=
  let '(stop_loss, target1, target2) := compute_stop_and_targets ctx in
  {| SignalResult.generated := true;
     SignalResult.symbol := SignalContext.symbol ctx;
     SignalResult.exchange := SignalContext.exchange ctx;
     SignalResult.direction := SignalContext.direction ctx;
     SignalResult.confidence := pyround confidence 4;
     SignalResult.entry_price := SignalContext.current_price ctx;
     SignalResult.stop_loss := pyround stop_loss 4;
     SignalResult.target1 := pyround target1 4;
     SignalResult.target2 := pyround target2 4;
     SignalResult.atr := SignalContext.atr ctx;
     SignalResult.strategy_id := SignalContext.strategy_id ctx;
     SignalResult.gate_results := gate_results;
     SignalResult.failed_at_gate := None;
     SignalResult.confirming_indicators := last_nonempty GateResult.confirming_indicators gate_results;
     SignalResult.confirming_timeframes := last_nonempty GateResult.confirming_timeframes gate_results;
     SignalResult.candlestick_pattern := last_pattern gate_results;
     SignalResult.regime := regime_value (regime_of ctx);
     SignalResult.evaluated_at := now |}.

Definition evaluate (ctx : SignalContext.t) (now : Z) : result SignalResult.t :=
  exit ← run_gates ctx terminating_gates [] GATE_2_INDICATOR_BASE_CONFIDENCE;
  match exit with
  | FailedAt gate_results gate => mret (failed_result ctx gate_results gate)
  | AllPassed gate_results confidence =>
      let g8 := gate_8_divergence ctx in
      let confidence := clamp01 (confidence + GateResult.confidence_contribution g8)%pf in
      let g9 := gate_9_confidence confidence ctx in
      let gate_results := gate_results ++ [g8; g9] in
      if negb (GateResult.passed g9) then mret (failed_result ctx gate_results 9)
      else mret (generated_result ctx gate_results confidence now)
  end.

(** [int((evaluated_at + timedelta(minutes=5)).timestamp() * 1000)] *)
Definition signal_expiry_ms (evaluated_at : Z) : result Z :=
  ts ← total_seconds (evaluated_at + SIGNAL_EXPIRY_MINUTES * MINUTE);
  int_of_float (ts * dec 1000 0)%pf.

(** ** What each gate tests *)

Definition regime_allows (ctx : SignalContext.t) : Prop :=
  regime_of ctx <> HIGH_VOL_CHAOS
  /\ ~ (is_long ctx = true /\ regime_of ctx = BEAR_TREND)
  /\ ~ (is_short ctx = true /\ regime_of ctx = BULL_TREND).

Definition flow_confirms (ctx : SignalContext.t) : Prop :=
  exists d, vol_delta_of ctx = Some d /\ absorption ctx d = Ok false /\ delta_matches ctx d = true.

Definition candle_confirms (ctx : SignalContext.t) : Prop :=
  exists snap, SignalContext.pattern_snapshot ctx = Some snap
    /\ let signals := PatternSnapshot.candlestick_signals snap in
       ((exists sig, sig ∈ signals
                     /\ confirms (is_long ctx) (Z.of_nat (length signals)) sig = true)
        \/ orb_confirms (is_long ctx) snap = true).

Definition timeframes_confirm (ctx : SignalContext.t) : Prop :=
  exists mtf, SignalContext.multi_tf_patterns ctx = Some mtf
    /\ (if is_long ctx then MultiTimeframePatterns.confirmed_bullish_patterns mtf
        else MultiTimeframePatterns.confirmed_bearish_patterns mtf) <> [].

Definition level_near (ctx : SignalContext.t) : Prop :=
  exists snap level, SignalContext.pattern_snapshot ctx = Some snap
    /\ level ∈ PatternSnapshot.sr_levels snap
    /\ near_level (SignalContext.current_price ctx) (sr_target ctx) level = true.

Definition in_entry_window (ctx : SignalContext.t) : Prop :=
  SignalContext.session_open ctx + 15 * MINUTE <= SignalContext.evaluated_at ctx
  < SignalContext.session_close ctx - 30 * MINUTE.

(** Gates 1 to 7, as conditions on the context. *)
Definition entry_conditions (ctx : SignalContext.t) : Prop :=
  regime_allows ctx /\ (3 <= length (agreeing_indicators ctx))%nat /\ flow_confirms ctx
  /\ candle_confirms ctx /\ timeframes_confirm ctx /\ level_near ctx /\ in_entry_window ctx.

#[global] Arguments absorption : simpl never.
#[global] Arguments agreeing_indicators : simpl never.
#[global] Arguments indicator_bonus : simpl never.
#[global] Arguments near_level : simpl never.
#[global] Arguments fadd : simpl never.

Lemma gate_1_spec ctx :
  GateResult.gate_number (gate_1_regime ctx) = 1
  /\ (GateResult.passed (gate_1_regime ctx) = true <-> regime_allows ctx)
  /\ (regime_allows ctx -> GateResult.confidence_contribution (gate_1_regime ctx) = f_zero).
Proof.
  unfold gate_1_regime, regime_allows. case_bool_decide; [by repeat split; naive_solver|].
  destruct (is_long ctx) eqn:El, (is_short ctx) eqn:Es; cbn;
    repeat (case_bool_decide; cbn); split; try done; split; try done; split; naive_solver.
Qed.

Lemma gate_2_spec ctx :
  GateResult.gate_number (gate_2_indicators ctx) = 2
  /\ (GateResult.passed (gate_2_indicators ctx) = true
      <-> (3 <= length (agreeing_indicators ctx))%nat)
  /\ ((3 <= length (agreeing_indicators ctx))%nat ->
      GateResult.confidence_contribution (gate_2_indicators ctx)
      = indicator_bonus (Z.of_nat (length (agreeing_indicators ctx)))).
Proof.
  unfold gate_2_indicators, GATE_2_MIN_INDICATORS_AGREEING.
  destruct (Z.ltb_spec (Z.of_nat (length (agreeing_indicators ctx))) 3); cbn;
    (split; [done|]); split; try (split; done); try lia; try (split; [done|lia]).
Qed.

Lemma gate_3_spec ctx r :
  gate_3_order_flow ctx = Ok r ->
  GateResult.gate_number r = 3
  /\ (GateResult.passed r = true <-> flow_confirms ctx)
  /\ (GateResult.passed r = true -> GateResult.confidence_contribution r = GATE_3_CONFIDENCE_BONUS).
Proof.
  unfold gate_3_order_flow, flow_confirms. destruct (vol_delta_of ctx) as [d|].
  2: { intros [= <-]. repeat split; [done| |done]. by intros (d & [=] & _). }
  destruct (absorption ctx d) as [ab|e] eqn:Ea; cbn; [|done]. destruct ab.
  - intros E. bind_inv E. bind_inv E. injection E as <-. split; [done|]. split; [|done].
    split; [done|]. intros (d' & [= <-] & Hx & _). by rewrite Ea in Hx.
  - destruct (delta_matches ctx d) eqn:Em; cbn; intros [= <-]; (split; [done|]); (split; [|done]);
      (split; [|done || (intros (d' & [= <-] & _ & Hx); by rewrite Em in Hx)]); [|done].
    intros _. by exists d.
Qed.

Lemma gate_4_spec ctx :
  GateResult.gate_number (gate_4_candlestick ctx) = 4
  /\ (GateResult.passed (gate_4_candlestick ctx) = true <-> candle_confirms ctx)
  /\ (candle_confirms ctx ->
      GateResult.confidence_contribution (gate_4_candlestick ctx) = GATE_4_CONFIDENCE_BONUS).
Proof.
  unfold gate_4_candlestick, candle_confirms.
  destruct (SignalContext.pattern_snapshot ctx) as [snap|]; [|naive_solver].
  set (signals := PatternSnapshot.candlestick_signals snap).
  destruct (find_first _ (rev signals)) as [sig|] eqn:F; cbn.
  - apply find_first_Some in F as [Hin Hc]. apply list_elem_of_In, in_rev, list_elem_of_In in Hin.
    naive_solver.
  - assert (Hno : ~ exists sig, sig ∈ signals
        /\ confirms (is_long ctx) (Z.of_nat (length signals)) sig = true).
    { intros (sig & Hin & Hc). rewrite find_first_None in F. rewrite F in Hc; [done|].
      by apply list_elem_of_In, in_rev; rewrite rev_involutive; apply list_elem_of_In. }
    destruct (orb_confirms (is_long ctx) snap) eqn:Eo; cbn; (split; [done|]).
    + split; [|done]. split; [|done]. intros _. exists snap. split; [done|]. by right.
    + split; [split; [done|]|]; intros (snap' & [= <-] & [Hs|Ho]);
        [by destruct Hno|congruence|by destruct Hno|congruence].
Qed.

Lemma gate_5_spec ctx :
  GateResult.gate_number (gate_5_multi_timeframe ctx) = 5
  /\ (GateResult.passed (gate_5_multi_timeframe ctx) = true <-> timeframes_confirm ctx)
  /\ (timeframes_confirm ctx ->
      GateResult.confidence_contribution (gate_5_multi_timeframe ctx) = GATE_5_CONFIDENCE_BONUS).
Proof.
  unfold gate_5_multi_timeframe, timeframes_confirm.
  destruct (SignalContext.multi_tf_patterns ctx) as [mtf|]; [|naive_solver]. cbv zeta.
  destruct (if is_long ctx then _ else _) eqn:Ec; cbn; (split; [done|]).
  - split; [split; [done|]|]; intros (m & [= <-] & Hx); by rewrite Ec in Hx.
  - split; [|done]. split; [|done]. intros _. exists mtf. by rewrite Ec.
Qed.

Lemma gate_6_spec ctx :
  GateResult.gate_number (gate_6_sr_proximity ctx) = 6
  /\ (GateResult.passed (gate_6_sr_proximity ctx) = true <-> level_near ctx)
  /\ (level_near ctx ->
      GateResult.confidence_contribution (gate_6_sr_proximity ctx) = GATE_6_CONFIDENCE_BONUS).
Proof.
  unfold gate_6_sr_proximity, level_near.
  destruct (SignalContext.pattern_snapshot ctx) as [snap|]; [|naive_solver]. cbv zeta.
  destruct (find_first _ (PatternSnapshot.sr_levels snap)) as [level|] eqn:F; cbn.
  - apply find_first_Some in F as [Hin Hc]. naive_solver.
  - rewrite find_first_None in F. split; [done|]. split; [split; [done|]|];
      intros (snap' & level & [= <-] & Hin & Hn); by rewrite F in Hn.
Qed.

Lemma gate_7_spec ctx r :
  gate_7_session_timing ctx = Ok r ->
  GateResult.gate_number r = 7
  /\ (GateResult.passed r = true <-> in_entry_window ctx)
  /\ (GateResult.passed r = true -> GateResult.confidence_contribution r = f_zero).
Proof.
  unfold gate_7_session_timing, in_entry_window, GATE_7_OPENING_NOISE_FILTER_MINUTES,
    GATE_7_CLOSING_WINDOW_MINUTES.
  destruct (Z.ltb_spec (SignalContext.evaluated_at ctx) (SignalContext.session_open ctx + 15 * MINUTE)).
  { intros E. bind_inv E. injection E as <-. cbn. split; [done|]. split; [split; [done|lia]|done]. }
  destruct (Z.leb_spec (SignalContext.session_close ctx - 30 * MINUTE) (SignalContext.evaluated_at ctx)).
  { intros E. bind_inv E. injection E as <-. cbn. split; [done|]. split; [split; [done|lia]|done]. }
  intros [= <-]. cbn. split; [done|]. split; [split; [lia|done]|done].
Qed.

(** ** Facts about the engine *)

(** A gate and its outcome, when it passes. *)
Definition passes (ctx : SignalContext.t) (g : (SignalContext.t -> result GateResult.t) * Z)
    (r : GateResult.t) : Prop :=
  g.1 ctx = Ok r /\ GateResult.passed r = true.

Definition add_confidence (c : float) (r : GateResult.t) : float :=
  (c + GateResult.confidence_contribution r)%pf.

Lemma run_gates_spec ctx gates grs c :
  match run_gates ctx gates grs c with
  | Ok (AllPassed grs' c') =>
      exists rs, grs' = grs ++ rs /\ Forall2 (passes ctx) gates rs
                 /\ c' = foldl add_confidence c rs
  | Ok (FailedAt grs' n) =>
      exists pre gate post rs r, gates = pre ++ (gate, n) :: post /\ grs' = grs ++ rs ++ [r]
        /\ Forall2 (passes ctx) pre rs /\ gate ctx = Ok r /\ GateResult.passed r = false
  | Raise e =>
      exists pre gate n post rs, gates = pre ++ (gate, n) :: post
        /\ Forall2 (passes ctx) pre rs /\ gate ctx = Raise e
  end.
Proof.
  revert grs c. induction gates as [|[gate n] gates IH]; intros grs c; cbn.
  { exists []. rewrite app_nil_r. repeat split; constructor. }
  destruct (gate ctx) as [r|e] eqn:Eg; cbn.
  2: { by exists [], gate, n, gates, []. }
  destruct (GateResult.passed r) eqn:Ep; cbn.
  - specialize (IH (grs ++ [r]) (c + GateResult.confidence_contribution r)%pf).
    assert (Hp : passes ctx (gate, n) r) by done.
    destruct (run_gates ctx gates _ _) as [[grs' n'|grs' c']|e].
    + destruct IH as (pre & g' & post & rs & r' & -> & -> & Hall & Hr & Hf).
      exists ((gate, n) :: pre), g', post, (r :: rs), r'. rewrite <- app_assoc.
      split_and!; [done..|by constructor|done|done].
    + destruct IH as (rs & -> & Hall & ->). exists (r :: rs). rewrite <- app_assoc.
      split_and!; [done|by constructor|done].
    + destruct IH as (pre & g' & n' & post & rs & -> & Hall & Hr).
      exists ((gate, n) :: pre), g', n', post, (r :: rs). split_and!; [done|by constructor|done].
  - exists [], gate, gates, [], r. by split_and!.
Qed.

(** The confidence that the terminating gates accumulate when [count]
    indicators agree. *)
Definition gates_confidence (count : Z) : float :=
  (GATE_2_INDICATOR_BASE_CONFIDENCE + f_zero + indicator_bonus count + GATE_3_CONFIDENCE_BONUS
   + GATE_4_CONFIDENCE_BONUS + GATE_5_CONFIDENCE_BONUS + GATE_6_CONFIDENCE_BONUS + f_zero)%pf.

Definition agreeing_count (ctx : SignalContext.t) : Z :=
  Z.of_nat (length (agreeing_indicators ctx)).

Lemma all_gates_pass ctx rs :
  Forall2 (passes ctx) terminating_gates rs ->
  entry_conditions ctx
  /\ foldl add_confidence GATE_2_INDICATOR_BASE_CONFIDENCE rs
     = gates_confidence (agreeing_count ctx)
  /\ GateResult.gate_number <$> rs = [1; 2; 3; 4; 5; 6; 7]
  /\ Forall (fun r => GateResult.passed r = true) rs.
Proof.
  intros Hall. unfold terminating_gates in Hall.
  repeat match goal with
  | H : Forall2 _ (_ :: _) _ |- _ => apply Forall2_cons_inv_l in H as (? & ? & [? ?] & H & ->)
  | H : Forall2 _ [] _ |- _ => apply Forall2_nil_inv_l in H as ->
  end; cbn [fst] in *; unfold mret, result_ret in *.
  repeat match goal with H : Ok _ = Ok _ |- _ => injection H as <- end.
  destruct (gate_1_spec ctx) as (N1 & P1 & C1), (gate_2_spec ctx) as (N2 & P2 & C2),
    (gate_4_spec ctx) as (N4 & P4 & C4), (gate_5_spec ctx) as (N5 & P5 & C5),
    (gate_6_spec ctx) as (N6 & P6 & C6).
  match goal with H : gate_3_order_flow _ = _ |- _ => apply gate_3_spec in H as (N3 & P3 & C3) end.
  match goal with H : gate_7_session_timing _ = _ |- _ =>
    apply gate_7_spec in H as (N7 & P7 & C7) end.
  split; [unfold entry_conditions; tauto|]. split.
  - unfold add_confidence. cbn [foldl].
    rewrite C1, C2, C3, C4, C5, C6, C7 by tauto.
    unfold gates_confidence, agreeing_count. reflexivity.
  - split; [|by repeat constructor]. cbn. congruence.
Qed.

(** Every gate reports its own number and, on a context that meets the entry
    conditions, passes. *)
Lemma gate_numbered ctx gate n r :
  (gate, n) ∈ terminating_gates -> gate ctx = Ok r ->
  GateResult.gate_number r = n /\ (entry_conditions ctx -> GateResult.passed r = true).
Proof.
  intros Hin Hr. unfold terminating_gates in Hin. unfold entry_conditions.
  repeat (apply elem_of_cons in Hin as [[= -> ->]|Hin]); [..|by apply elem_of_nil in Hin];
    try injection Hr as <-;
    [destruct (gate_1_spec ctx)|destruct (gate_2_spec ctx)|apply gate_3_spec in Hr
    |destruct (gate_4_spec ctx)|destruct (gate_5_spec ctx)|destruct (gate_6_spec ctx)
    |apply gate_7_spec in Hr]; tauto.
Qed.

Lemma numbers_passed ctx pre rs :
  (forall g, g ∈ pre -> g ∈ terminating_gates) -> Forall2 (passes ctx) pre rs ->
  GateResult.gate_number <$> rs = pre.*2 /\ Forall (fun g => GateResult.passed g = true) rs.
Proof.
  intros Hin Hall. induction Hall as [|[gate n] r pre rs [Hr Hp] _ IH]; [by split|].
  destruct IH as [IH1 IH2]; [intros; apply Hin; by right|].
  destruct (gate_numbered ctx gate n r) as [Hn _]; [apply Hin; by left|done|].
  split; [cbn; by rewrite Hn, IH1|by constructor].
Qed.

Lemma numbers_before (pre post : list ((SignalContext.t -> result GateResult.t) * Z)) gate n :
  terminating_gates = pre ++ (gate, n) :: post -> pre.*2 = seqZ 1 (n - 1) /\ 1 <= n <= 7.
Proof.
  intros E. assert (E2 : [1; 2; 3; 4; 5; 6; 7] = pre.*2 ++ n :: post.*2).
  { change [1; 2; 3; 4; 5; 6; 7] with (terminating_gates.*2). by rewrite E, fmap_app. }
  clear E. remember (pre.*2) as l eqn:El. clear El.
  do 7 (destruct l as [|? l]; [injection E2 as <- _; by vm_compute|injection E2 as <- E2]).
  by destruct l.
Qed.

(** The value gate 8 adds. *)
Definition divergence_adjustment (ctx : SignalContext.t) : float :=
  GateResult.confidence_contribution (gate_8_divergence ctx).

(** The confidence gate 9 tests. *)
Definition final_confidence (ctx : SignalContext.t) : float :=
  clamp01 (gates_confidence (agreeing_count ctx) + divergence_adjustment ctx)%pf.

Lemma generated_result_generated ctx grs c now :
  SignalResult.generated (generated_result ctx grs c now) = true.
Proof. unfold generated_result. by destruct (compute_stop_and_targets ctx) as [[sl t1] t2]. Qed.

(** How [evaluate] ends. *)
Lemma engine_evaluate_cases ctx now :
  match evaluate ctx now with
  | Ok r =>
      if SignalResult.generated r then
        entry_conditions ctx
        /\ (final_confidence ctx
              <? confidence_threshold (SignalContext.is_snapshot_window ctx))%pf = false
        /\ exists grs, r = generated_result ctx grs (final_confidence ctx) now
             /\ GateResult.gate_number <$> grs = [1; 2; 3; 4; 5; 6; 7; 8; 9]
             /\ Forall (fun g => GateResult.passed g = true) grs
      else
        (~ entry_conditions ctx
         \/ (final_confidence ctx
               <? confidence_threshold (SignalContext.is_snapshot_window ctx))%pf = true)
        /\ exists rs g n, r = failed_result ctx (rs ++ [g]) n
             /\ GateResult.gate_number g = n /\ GateResult.passed g = false
             /\ Forall (fun g => GateResult.passed g = true) rs
             /\ GateResult.gate_number <$> rs = seqZ 1 (n - 1) /\ 1 <= n <= 9 /\ n <> 8
  | Raise e =>
      exists pre gate n post rs, terminating_gates = pre ++ (gate, n) :: post
        /\ Forall2 (passes ctx) pre rs /\ gate ctx = Raise e
  end.
Proof.
  unfold evaluate. pose proof (run_gates_spec ctx terminating_gates [] GATE_2_INDICATOR_BASE_CONFIDENCE) as H.
  destruct (run_gates ctx _ _ _) as [[grs n|grs c]|e]; cbn; [| |done].
  - destruct H as (pre & gate & post & rs & r & Hg & -> & Hall & Hr & Hp).
    assert (Hsub : forall g, g ∈ pre -> g ∈ terminating_gates) by (intros; rewrite Hg; set_solver).
    destruct (gate_numbered ctx gate n r) as [Hn Hok]; [rewrite Hg; set_solver|done|].
    destruct (numbers_passed _ _ _ Hsub Hall) as [Hrs Hpass].
    destruct (numbers_before _ _ _ _ Hg) as [Hseq Hb].
    split; [left; intros He; by rewrite Hok in Hp|].
    exists rs, r, n. split_and!; [done..|congruence|lia|lia|lia].
  - destruct H as (rs & -> & Hall & ->).
    apply all_gates_pass in Hall as (Hentry & -> & Hnum & Hpass).
    unfold final_confidence, divergence_adjustment. set (conf := clamp01 _). clearbody conf.
    assert (Hp8 : GateResult.passed (gate_8_divergence ctx) = true
                  /\ GateResult.gate_number (gate_8_divergence ctx) = 8).
    { unfold gate_8_divergence. destruct (rsi_step _ _ _) as [a1 r1], (macd_step _ _ _) as [a2 r2],
        (sentiment_step _ _ _) as [a3 r3]. by split. }
    destruct Hp8 as [Hp8 Hn8]. unfold gate_9_confidence.
    destruct (conf <? _)%pf; cbn [negb GateResult.passed gate_fail gate_pass mret result_ret].
    + split; [by right|]. exists (rs ++ [gate_8_divergence ctx]). do 2 eexists.
      assert (Hsnoc : forall x, ([] ++ rs) ++ [gate_8_divergence ctx; x]
                                = (rs ++ [gate_8_divergence ctx]) ++ [x])
        by (intros x; simpl; rewrite <- app_assoc; reflexivity).
      rewrite Hsnoc. split; [reflexivity|]. cbn [gate_fail GateResult.gate_number].
      rewrite fmap_app, Hnum. cbn [fmap list_fmap]. rewrite Hn8.
      split_and!; [done|done| |done|lia|lia|lia].
      apply Forall_app. split; [done|]. by repeat constructor.
    + rewrite generated_result_generated.
      split; [done|]. split; [done|]. eexists. split; [reflexivity|].
      rewrite app_nil_l, fmap_app, Hnum. cbn [fmap list_fmap gate_pass GateResult.gate_number]. rewrite Hn8.
      split; [done|]. apply Forall_app. split; [done|]. by repeat constructor.
Qed.

(** ** The confidence that gate 9 tests *)

Definition rsi_values : list float :=
  [f_zero; (f_zero - GATE_8_DIVERGENCE_PENALTY)%pf; (f_zero + GATE_8_ALIGNMENT_BONUS)%pf].
Definition macd_values (a : float) : list float :=
  [a; (a + GATE_8_ALIGNMENT_BONUS)%pf; (a - GATE_8_DIVERGENCE_PENALTY)%pf].
Definition sentiment_values (a : float) : list float :=
  [a; (a + GATE_8_ALIGNMENT_BONUS * dec 5 1)%pf].

(** Every value gate 8 can add. *)
Definition adjustments : list float :=
  flat_map sentiment_values (flat_map macd_values rsi_values).

Lemma rsi_step_values ctx : (rsi_step ctx f_zero []).1 ∈ rsi_values.
Proof. unfold rsi_step, rsi_values. repeat case_match; cbn [fst]; set_solver. Qed.

Lemma macd_step_values ctx a l : (macd_step ctx a l).1 ∈ macd_values a.
Proof. unfold macd_step, macd_values. repeat case_match; cbn [fst]; set_solver. Qed.

Lemma sentiment_step_values ctx a l : (sentiment_step ctx a l).1 ∈ sentiment_values a.
Proof. unfold sentiment_step, sentiment_values. repeat case_match; cbn [fst]; set_solver. Qed.

Lemma divergence_adjustment_eq ctx :
  exists a1 r1 a2 r2, rsi_step ctx f_zero [] = (a1, r1) /\ macd_step ctx a1 r1 = (a2, r2)
    /\ divergence_adjustment ctx = (sentiment_step ctx a2 r2).1.
Proof.
  unfold divergence_adjustment, gate_8_divergence.
  destruct (rsi_step ctx f_zero []) as [a1 r1] eqn:E1, (macd_step ctx a1 r1) as [a2 r2] eqn:E2,
    (sentiment_step ctx a2 r2) as [a3 r3] eqn:E3.
  exists a1, r1, a2, r2. by rewrite E3.
Qed.

Lemma divergence_adjustment_values ctx : divergence_adjustment ctx ∈ adjustments.
Proof.
  destruct (divergence_adjustment_eq ctx) as (a1 & r1 & a2 & r2 & E1 & E2 & ->).
  apply list_elem_of_In, in_flat_map. exists a2.
  split; [|apply list_elem_of_In, sentiment_step_values].
  apply in_flat_map. exists a1. split; apply list_elem_of_In.
  - replace a1 with (rsi_step ctx f_zero []).1 by by rewrite E1. apply rsi_step_values.
  - replace a2 with (macd_step ctx a1 r1).1 by by rewrite E2. apply macd_step_values.
Qed.

Lemma agreeing_count_range ctx : entry_conditions ctx -> agreeing_count ctx ∈ seqZ 3 6.
Proof.
  intros (_ & H3 & _). apply elem_of_seqZ. unfold agreeing_count.
  assert (Hle : (length (agreeing_indicators ctx) <= length GATE_2_INDICATORS)%nat)
    by apply filter_length_le.
  cbn in Hle. lia.
Qed.

(** A fact about every combination of agreeing indicators and adjustment. *)
Lemma confidence_table (p : float -> bool) ctx :
  forallb (fun n => forallb (fun a => p (gates_confidence n + a)%pf) adjustments) (seqZ 3 6) = true ->
  entry_conditions ctx ->
  p (gates_confidence (agreeing_count ctx) + divergence_adjustment ctx)%pf = true.
Proof.
  intros Ht He. apply agreeing_count_range, list_elem_of_In in He.
  pose proof (divergence_adjustment_values ctx) as Ha. apply list_elem_of_In in Ha.
  rewrite forallb_forall in Ht. specialize (Ht _ He). rewrite forallb_forall in Ht. exact (Ht _ Ha).
Qed.

(** ** Properties of signal generation *)

(** C8. [evaluate] generates a signal exactly when the seven entry gates'
    conditions hold and the confidence built from the indicator count and the
    divergence adjustment reaches the threshold, which is higher in the
    snapshot window; the signal then carries nine passing gate results in
    order and the confidence rounded to four places. *)
Theorem signal_generated_iff ctx now r :
  evaluate ctx now = Ok r ->
  (SignalResult.generated r = true
   <-> entry_conditions ctx
       /\ (final_confidence ctx
             <? confidence_threshold (SignalContext.is_snapshot_window ctx))%pf = false)
  /\ (SignalResult.generated r = true ->
      exists grs, r = generated_result ctx grs (final_confidence ctx) now
        /\ GateResult.gate_number <$> grs = [1; 2; 3; 4; 5; 6; 7; 8; 9]
        /\ Forall (fun g => GateResult.passed g = true) grs).
Proof.
  intros E. pose proof (engine_evaluate_cases ctx now) as H. rewrite E in H.
  destruct (SignalResult.generated r).
  - destruct H as (He & Ht & Hr). split; [by split|done].
  - destruct H as (Hno & _). split; [|done]. split; [done|]. intros [He Ht].
    destruct Hno as [Hno|Hno]; [done|congruence].
Qed.

(** A rejected signal is explained: its gate results are passes numbered
    from one up, ended by the one failing gate, whose number is reported and
    is never eight (gate 8 cannot fail), and it carries no confidence, stop
    or target. *)
Theorem signal_rejection_explained ctx now r :
  evaluate ctx now = Ok r -> SignalResult.generated r = false ->
  exists rs g n, SignalResult.gate_results r = rs ++ [g]
    /\ SignalResult.failed_at_gate r = Some n
    /\ GateResult.gate_number g = n /\ GateResult.passed g = false
    /\ GateResult.gate_number <$> rs = seqZ 1 (n - 1)
    /\ Forall (fun g => GateResult.passed g = true) rs /\ 1 <= n <= 9 /\ n <> 8
    /\ SignalResult.confidence r = f_zero /\ SignalResult.stop_loss r = f_zero.
Proof.
  intros E Hg. pose proof (engine_evaluate_cases ctx now) as H. rewrite E, Hg in H.
  destruct H as (_ & rs & g & n & -> & H). exists rs, g, n. by split_and!; destruct_and!.
Qed.

Definition sensible (c : float) : bool :=
  (dec 54 2 <? c)%pf && (c <? dec 98 2)%pf && bool_decide (clamp01 c = c).

Lemma sensible_table :
  forallb (fun n => forallb (fun a => sensible (gates_confidence n + a)%pf) adjustments) (seqZ 3 6)
  = true.
Proof. vm_compute. reflexivity. Qed.

(** C31. The clamp never acts and the confidence is always a sensible number:
    when the entry conditions hold, the sum lies strictly between 0.54 and
    0.98, so it is what gate 9 tests. *)
Theorem confidence_never_clamped ctx :
  entry_conditions ctx ->
  let sum := (gates_confidence (agreeing_count ctx) + divergence_adjustment ctx)%pf in
  final_confidence ctx = sum /\ (dec 54 2 <? sum)%pf = true /\ (sum <? dec 98 2)%pf = true.
Proof.
  intros He. cbv zeta. pose proof (confidence_table sensible ctx sensible_table He) as H.
  unfold final_confidence. revert H.
  generalize (gates_confidence (agreeing_count ctx) + divergence_adjustment ctx)%pf as sum.
  intros sum H. unfold sensible in H.
  apply andb_true_iff in H as [[H1 H2]%andb_true_iff H3%bool_decide_eq_true]. by split_and!.
Qed.

Definition double_divergence : float :=
  (f_zero - GATE_8_DIVERGENCE_PENALTY - GATE_8_DIVERGENCE_PENALTY)%pf.

Definition vetoed (c : float) : bool :=
  (clamp01 c <? GATE_9_CONFIDENCE_THRESHOLD)%pf
  && (clamp01 c <? GATE_9_CONFIDENCE_THRESHOLD_SNAPSHOT_WINDOW)%pf.

Lemma vetoed_table :
  forallb (fun n => forallb (fun a => vetoed (gates_confidence n + a)%pf)
                      (sentiment_values double_divergence)) (seqZ 3 6) = true.
Proof. vm_compute. reflexivity. Qed.

Lemma vetoed_lookup n a :
  n ∈ seqZ 3 6 -> a ∈ sentiment_values double_divergence ->
  vetoed (gates_confidence n + a)%pf = true.
Proof.
  intros Hn Ha. apply list_elem_of_In in Hn, Ha. pose proof vetoed_table as H.
  rewrite forallb_forall in H. specialize (H _ Hn). rewrite forallb_forall in H. exact (H _ Ha).
Qed.

(** A double divergence vetoes an entry although gate 8 never fails:
    when both the RSI and the MACD histogram oppose the direction, no signal
    is generated, whatever the other inputs. *)
Theorem double_divergence_vetoes ctx now r :
  (rsi_step ctx f_zero []).1 = (f_zero - GATE_8_DIVERGENCE_PENALTY)%pf ->
  (forall a l, (macd_step ctx a l).1 = (a - GATE_8_DIVERGENCE_PENALTY)%pf) ->
  evaluate ctx now = Ok r -> SignalResult.generated r = false.
Proof.
  intros Hr Hm E. pose proof (engine_evaluate_cases ctx now) as H. rewrite E in H.
  destruct (SignalResult.generated r); [|done]. destruct H as (He & Ht & _). exfalso.
  destruct (divergence_adjustment_eq ctx) as (a1 & r1 & a2 & r2 & E1 & E2 & Ea).
  rewrite E1 in Hr. cbn [fst] in Hr. specialize (Hm a1 r1). rewrite E2, Hr in Hm. cbn [fst] in Hm.
  assert (Hin : divergence_adjustment ctx
            ∈ sentiment_values double_divergence).
  { unfold double_divergence. rewrite Ea, <- Hm. apply sentiment_step_values. }
  apply agreeing_count_range in He. revert Ht Hin. unfold final_confidence.
  generalize dependent (divergence_adjustment ctx). generalize dependent (agreeing_count ctx).
  intros n Hn adj _ Ht Hin. pose proof (vetoed_lookup n adj Hn Hin) as Hv. revert Ht Hv.
  generalize (gates_confidence n + adj)%pf as sum. intros sum Ht Hv.
  apply andb_true_iff in Hv as [H1 H2].
  destruct (SignalContext.is_snapshot_window ctx); cbn [confidence_threshold] in Ht; congruence.
Qed.

(** The calls of gates 3 and 7 that can raise. *)
Lemma absorption_ok ctx d : is_ok (absorption ctx d) = true.
Proof.
  unfold absorption. destruct (f_zero <? SignalContext.current_volume ctx)%pf eqn:Hv; [|done].
  cbn [andb]. case_if; [|done]. by rewrite pydiv_nonzero by auto with pyfloat.
Qed.

Lemma absorbed_volume ctx d :
  absorption ctx d = Ok true -> is_zero (SignalContext.current_volume ctx) = false.
Proof.
  unfold absorption. destruct (f_zero <? SignalContext.current_volume ctx)%pf eqn:Hv; [|done].
  intros _. auto with pyfloat.
Qed.

Lemma gate_3_raises ctx e :
  gate_3_order_flow ctx = Raise e
  <-> e = ZeroDivisionError /\ is_zero (SignalContext.avg_volume ctx) = true
      /\ exists d, vol_delta_of ctx = Some d /\ absorption ctx d = Ok true.
Proof.
  unfold gate_3_order_flow. destruct (vol_delta_of ctx) as [d|]; [|naive_solver].
  pose proof (absorption_ok ctx d) as Ho. destruct (absorption ctx d) as [[|]|e'] eqn:Ea; [| |done].
  - rewrite bind_ok. cbv iota.
    rewrite (pydiv_nonzero _ (SignalContext.current_volume ctx)) by (by eapply absorbed_volume).
    rewrite bind_ok. unfold pydiv.
    destruct (is_zero (SignalContext.avg_volume ctx)); cbn; split.
    + intros [= <-]. split_and!; [done|done|]. by exists d.
    + by intros (-> & _).
    + done.
    + by intros (_ & ? & _).
  - cbn. destruct (delta_matches ctx d); cbn; (split; [done|]); intros (_ & _ & d' & [= <-] & Hx);
      congruence.
Qed.

Lemma gate_7_raises ctx e : gate_7_session_timing ctx = Raise e -> e = OverflowError.
Proof.
  assert (Hm : forall a b e, minutes_between a b = Raise e -> e = OverflowError).
  { intros a b e'. unfold minutes_between, total_seconds, int_truediv. cbn.
    destruct (is_finite _); cbn; [done|by intros [= <-]]. }
  unfold gate_7_session_timing.
  do 2 (case_if; [match goal with |- context [minutes_between ?a ?b] =>
                    destruct (minutes_between a b) eqn:E end; cbn;
                  [done|intros [= <-]; by eapply Hm]|]).
  done.
Qed.

Lemma evaluate_raise_inv ctx now e :
  evaluate ctx now = Raise e ->
  (regime_allows ctx /\ (3 <= length (agreeing_indicators ctx))%nat
   /\ gate_3_order_flow ctx = Raise e) \/ gate_7_session_timing ctx = Raise e.
Proof.
  intros E. pose proof (engine_evaluate_cases ctx now) as H. rewrite E in H.
  destruct H as (pre & gate & n & post & rs & Hg & Hall & Hr). unfold terminating_gates in Hg.
  do 7 (try (destruct pre as [|? pre]; [injection Hg as <- _ _; try done|injection Hg as <- Hg])).
  - left. repeat (apply Forall2_cons_inv_l in Hall as (? & ? & [? ?] & Hall & ->)).
    cbn [fst] in *. unfold mret, result_ret in *.
    repeat match goal with H : Ok _ = Ok _ |- _ => injection H as <- end.
    by split_and!; [apply gate_1_spec|apply gate_2_spec|].
  - by right.
  - by destruct pre.
Qed.

(** The exceptions of [evaluate]: it divides by zero exactly when gates 1
    and 2 pass, the volume counts as absorbed, and the average volume used to
    word the rejection is zero; the only other exception is an overflow in
    the session-timing message. *)
Theorem evaluate_exceptions ctx now :
  (evaluate ctx now = Raise ZeroDivisionError
   <-> regime_allows ctx /\ (3 <= length (agreeing_indicators ctx))%nat
       /\ is_zero (SignalContext.avg_volume ctx) = true
       /\ exists d, vol_delta_of ctx = Some d /\ absorption ctx d = Ok true)
  /\ forall e, evaluate ctx now = Raise e -> e = ZeroDivisionError \/ e = OverflowError.
Proof.
  split; [split|].
  - intros E. apply evaluate_raise_inv in E as [(H1 & H2 & H3)|H7].
    + apply gate_3_raises in H3. naive_solver.
    + by apply gate_7_raises in H7.
  - intros (H1 & H2 & H3). unfold evaluate, terminating_gates. cbn [run_gates].
    apply (proj1 (proj2 (gate_1_spec ctx))) in H1. apply (proj1 (proj2 (gate_2_spec ctx))) in H2.
    unfold mret, result_ret.
    assert (Hg : gate_3_order_flow ctx = Raise ZeroDivisionError) by by apply gate_3_raises.
    rewrite bind_ok, H1. cbn [negb]. rewrite bind_ok, H2. cbn [negb]. by rewrite Hg.
  - intros e E. apply evaluate_raise_inv in E as [(_ & _ & H3)|H7].
    + apply gate_3_raises in H3. by left; destruct H3.
    + right. by apply gate_7_raises in H7.
Qed.

(** Gate 4 does not look at how recent a candlestick pattern is: its
    "last bar" is the number of detected patterns, not the length of the
    candle series, so with at most three detections in the snapshot any
    pattern in the signal's direction passes the gate, however old. *)
Theorem gate_4_accepts_stale_patterns ctx snap sig :
  SignalContext.pattern_snapshot ctx = Some snap ->
  (length (PatternSnapshot.candlestick_signals snap) <= 3)%nat ->
  sig ∈ PatternSnapshot.candlestick_signals snap ->
  0 <= CandlestickSignal.bar_index sig ->
  CandlestickSignal.direction sig = (if is_long ctx then 100 else -100) ->
  GateResult.passed (gate_4_candlestick ctx) = true.
Proof.
  intros Hs Hl Hin Hb Hd. apply gate_4_spec. exists snap. split; [done|]. left. exists sig.
  split; [done|]. unfold confirms. rewrite Hd, Z.eqb_refl, andb_true_r. apply Z.leb_le. lia.
Qed.

(** ** Evaluation on concrete inputs *)

Definition sample_snapshot (signals : list CandlestickSignal.t) : PatternSnapshot.t :=
  PatternSnapshot.mk "TCS" "NSE" "5m" 0 0 signals None
    [SRLevel.mk (dec 1000 1) "SUPPORT" (dec 10 1) 3 40].

Definition hammer (bar : Z) : CandlestickSignal.t := CandlestickSignal.mk "CDLHAMMER" 100 bar.

(** A LONG context: price 100.1 near support 100, EMA, VWAP and RSI bullish. *)
Definition sample_context (rsi hist volume avg : float) : SignalContext.t :=
  {| SignalContext.symbol := "TCS"; SignalContext.exchange := "NSE";
     SignalContext.direction := "LONG"; SignalContext.strategy_id := "ORB";
     SignalContext.regime := RegimeClassification.mk BULL_TREND (dec 9 1)
       (RegimeFeatures.mk f_zero f_zero f_zero f_zero f_zero f_zero f_zero false) 0 0;
     SignalContext.indicator_values :=
       [("EMA", [("EMA_9", Some (dec 101 0)); ("EMA_21", Some (dec 100 0))]);
        ("VWAP", [("VWAP", Some (dec 99 0))]); ("RSI", [("RSI_14", Some rsi)]);
        ("MACD", [("MACD_HIST", Some hist)]);
        ("VOLUME_DELTA", [("VOLUME_DELTA", Some (dec 50 0))])];
     SignalContext.pattern_snapshot := Some (sample_snapshot [hammer 0]);
     SignalContext.multi_tf_patterns := Some (MultiTimeframePatterns.mk "TCS" "NSE" 0
       [("5m", sample_snapshot [hammer 0]); ("15m", sample_snapshot [hammer 0])] ["CDLHAMMER"] []);
     SignalContext.current_price := dec 1001 1; SignalContext.current_volume := volume;
     SignalContext.avg_volume := avg; SignalContext.atr := dec 10 1;
     SignalContext.is_snapshot_window := false;
     SignalContext.session_open := 0; SignalContext.session_close := 360 * MINUTE;
     SignalContext.evaluated_at := 60 * MINUTE; SignalContext.candles := [];
     SignalContext.sentiment := None |}.

Definition quiet : SignalContext.t := sample_context (dec 60 0) (dec 1 1) (dec 100 0) (dec 100 0).
Definition diverging : SignalContext.t :=
  sample_context (dec 80 0) (dec (-1) 1) (dec 100 0) (dec 100 0).
Definition no_average : SignalContext.t := sample_context (dec 60 0) (dec 1 1) (dec 1000 0) f_zero.

Definition result_of (r : result SignalResult.t) : SignalResult.t :=
  match r with Ok s => s | Raise _ => failed_result quiet [] 0 end.

Example quiet_generated : SignalResult.generated (result_of (evaluate quiet 0)) = true.
Proof. vm_compute. reflexivity. Qed.

Example no_average_divides_by_zero : evaluate no_average 0 = Raise ZeroDivisionError.
Proof. vm_compute. reflexivity. Qed.

Lemma signal_generated_iff_witness :
  let r := result_of (evaluate quiet 0) in
  (SignalResult.generated r = true
   <-> entry_conditions quiet
       /\ (final_confidence quiet
             <? confidence_threshold (SignalContext.is_snapshot_window quiet))%pf = false)
  /\ (SignalResult.generated r = true ->
      exists grs, r = generated_result quiet grs (final_confidence quiet) 0
        /\ GateResult.gate_number <$> grs = [1; 2; 3; 4; 5; 6; 7; 8; 9]
        /\ Forall (fun g => GateResult.passed g = true) grs).
Proof. apply (signal_generated_iff quiet 0). vm_compute. reflexivity. Defined.

Lemma signal_rejection_explained_witness :
  let r := result_of (evaluate diverging 0) in
  exists rs g n, SignalResult.gate_results r = rs ++ [g]
    /\ SignalResult.failed_at_gate r = Some n
    /\ GateResult.gate_number g = n /\ GateResult.passed g = false
    /\ GateResult.gate_number <$> rs = seqZ 1 (n - 1)
    /\ Forall (fun g => GateResult.passed g = true) rs /\ 1 <= n <= 9 /\ n <> 8
    /\ SignalResult.confidence r = f_zero /\ SignalResult.stop_loss r = f_zero.
Proof.
  apply (signal_rejection_explained diverging 0).
  - vm_compute. reflexivity.
  - vm_compute. reflexivity.
Defined.

Lemma quiet_entry : entry_conditions quiet.
Proof.
  pose proof (engine_evaluate_cases quiet 0) as H. revert H. pose proof quiet_generated as Hg. revert Hg.
  destruct (evaluate quiet 0) as [r|e] eqn:E; cbn [result_of].
  - intros ->. by intros [? _].
  - intros Hg. exfalso. vm_compute in Hg. discriminate.
Qed.

Lemma confidence_never_clamped_witness :
  let sum := (gates_confidence (agreeing_count quiet) + divergence_adjustment quiet)%pf in
  final_confidence quiet = sum /\ (dec 54 2 <? sum)%pf = true /\ (sum <? dec 98 2)%pf = true.
Proof. apply (confidence_never_clamped quiet). exact quiet_entry. Defined.

Lemma double_divergence_vetoes_witness :
  SignalResult.generated (result_of (evaluate diverging 0)) = false.
Proof.
  apply (double_divergence_vetoes diverging 0).
  - vm_compute. reflexivity.
  - intros a l. reflexivity.
  - vm_compute. reflexivity.
Defined.

Lemma gate_4_accepts_stale_patterns_witness :
  GateResult.passed (gate_4_candlestick quiet) = true.
Proof.
  apply (gate_4_accepts_stale_patterns quiet (sample_snapshot [hammer 0]) (hammer 0)).
  - reflexivity.
  - simpl. lia.
  - apply elem_of_cons. left. reflexivity.
  - simpl. lia.
  - reflexivity.
Defined.
