(* ===== verification/Execution.v ===== *)
(** * Order execution ([shared/execution])

    [models.py], [dead_letter.py], the broker contract of [brokers/base.py],
    [brokers/paper.py] and [engine.py].  A broker is any instance of the
    class [Broker]; [BrokerContract] states what [base.py] documents about
    the order book, and the engine's theorems are proved against it.  The
    paper broker is the instance the platform ships.  The clock
    ([time.time()]) and [random.uniform] are sequences of readings consumed
    one by one; [time.sleep] is recorded; logging is left out, and so are the
    locks, each method being one atomic step. *)

From S2P Require Import Prelude PyFloat PyDict Json Redis Constants Compliance.
Local Open Scope Z_scope.

(** ** Data models ([models.py]) *)

Inductive OrderStatus : Type :=
| PENDING | PLACED | FILLED | PARTIALLY_FILLED | REJECTED | CANCELLED.

#[export] Instance OrderStatus_eq_dec : EqDecision OrderStatus.
Proof. solve_decision. Defined.

Module FillReport.
Record t := mk {
  client_order_id : string;
  broker_order_id : option string;
  symbol : string;
  exchange : string;
  direction : string;
  filled_quantity : Z;
  requested_quantity : Z;
  filled_price : option float;
  status : OrderStatus;
  rejection_reason : option string;
  placed_at_ms : Z;
  filled_at_ms : option Z;
  slippage_pct : option float;
  is_partial : bool;
  sl_quantity : Z;
  attempt_count : Z;
  strategy_tag : string;
  compliance_audit_id : string;
}.
End FillReport.

Module DeadLetterEntry.
Record t := mk {
  client_order_id : string;
  symbol : string;
  exchange : string;
  last_error : string;
  attempt_count : Z;
  enqueued_at_ms : Z;
  strategy_tag : string;
}.
End DeadLetterEntry.

(** ** Order constructors ([engine.py]) *)

Definition exit_direction (direction : string) : string :=
  if String.eqb direction "LONG" then "SHORT" else "LONG".

Definition make_sl_exit_order (symbol exchange direction : string) (quantity : Z)
    (stop_loss : float) (client_order_id strategy_name : string) (ltp : option float)
    : OrderIntent.t :=
  {| OrderIntent.symbol := symbol; OrderIntent.exchange := exchange;
     OrderIntent.direction := exit_direction direction;
     OrderIntent.order_type := "SL"; OrderIntent.quantity := quantity;
     OrderIntent.price := Some stop_loss; OrderIntent.stop_loss := stop_loss;
     OrderIntent.strategy_name := strategy_name;
     OrderIntent.client_order_id := client_order_id; OrderIntent.ltp := ltp;
     OrderIntent.notional_value := f_zero; OrderIntent.capital := f_zero;
     OrderIntent.is_exit := true; OrderIntent.mwpl_pct := None;
     OrderIntent.sector := "UNKNOWN"; OrderIntent.is_priority := true |}.

Definition make_kill_switch_liquidation_order (symbol exchange direction : string) (quantity : Z)
    (ltp : float) (client_order_id strategy_name : string) : OrderIntent.t :=
  {| OrderIntent.symbol := symbol; OrderIntent.exchange := exchange;
     OrderIntent.direction := exit_direction direction;
     OrderIntent.order_type := "MARKET"; OrderIntent.quantity := quantity;
     OrderIntent.price := None; OrderIntent.stop_loss := (ltp * dec 95 2)%pf;
     OrderIntent.strategy_name := strategy_name;
     OrderIntent.client_order_id := client_order_id; OrderIntent.ltp := Some ltp;
     OrderIntent.notional_value := f_zero; OrderIntent.capital := f_zero;
     OrderIntent.is_exit := true; OrderIntent.mwpl_pct := None;
     OrderIntent.sector := "UNKNOWN"; OrderIntent.is_priority := true |}.

(** [placed_at_ms] is the clock reading taken by the call. *)
Definition make_rejected_fill (order : OrderIntent.t) (reason strategy_tag audit_id : string)
    (attempt_count placed_at_ms : Z) : FillReport.t :=
  {| FillReport.client_order_id := OrderIntent.client_order_id order;
     FillReport.broker_order_id := None;
     FillReport.symbol := OrderIntent.symbol order;
     FillReport.exchange := OrderIntent.exchange order;
     FillReport.direction := OrderIntent.direction order;
     FillReport.filled_quantity := 0;
     FillReport.requested_quantity := OrderIntent.quantity order;
     FillReport.filled_price := None;
     FillReport.status := REJECTED;
     FillReport.rejection_reason := Some reason;
     FillReport.placed_at_ms := placed_at_ms;
     FillReport.filled_at_ms := None;
     FillReport.slippage_pct := None;
     FillReport.is_partial := false;
     FillReport.sl_quantity := 0;
     FillReport.attempt_count := attempt_count;
     FillReport.strategy_tag := strategy_tag;
     FillReport.compliance_audit_id := audit_id |}.

Definition finalize (fill : FillReport.t) (audit_id : string) (attempt : Z) : FillReport.t :=
  {| FillReport.client_order_id := FillReport.client_order_id fill;
     FillReport.broker_order_id := FillReport.broker_order_id fill;
     FillReport.symbol := FillReport.symbol fill;
     FillReport.exchange := FillReport.exchange fill;
     FillReport.direction := FillReport.direction fill;
     FillReport.filled_quantity := FillReport.filled_quantity fill;
     FillReport.requested_quantity := FillReport.requested_quantity fill;
     FillReport.filled_price := FillReport.filled_price fill;
     FillReport.status := FillReport.status fill;
     FillReport.rejection_reason := FillReport.rejection_reason fill;
     FillReport.placed_at_ms := FillReport.placed_at_ms fill;
     FillReport.filled_at_ms := FillReport.filled_at_ms fill;
     FillReport.slippage_pct := FillReport.slippage_pct fill;
     FillReport.is_partial := FillReport.is_partial fill;
     FillReport.sl_quantity := FillReport.sl_quantity fill;
     FillReport.attempt_count := attempt;
     FillReport.strategy_tag := FillReport.strategy_tag fill;
     FillReport.compliance_audit_id := audit_id |}.

(** ** Dead-letter queue ([dead_letter.py]) *)

Definition dead_letter_payload (entry : DeadLetterEntry.t) : json :=
  JObj [("client_order_id", JStr (DeadLetterEntry.client_order_id entry));
        ("symbol", JStr (DeadLetterEntry.symbol entry));
        ("exchange", JStr (DeadLetterEntry.exchange entry));
        ("last_error", JStr (DeadLetterEntry.last_error entry));
        ("attempt_count", JInt (DeadLetterEntry.attempt_count entry));
        ("enqueued_at_ms", JInt (DeadLetterEntry.enqueued_at_ms entry));
        ("strategy_tag", JStr (DeadLetterEntry.strategy_tag entry))].

Definition parse_dead_letter (data : json) : result DeadLetterEntry.t :=
  client_order_id ← jfield_str "client_order_id" data;
  symbol ← jfield_str "symbol" data;
  exchange ← jfield_str "exchange" data;
  last_error ← jfield_str "last_error" data;
  attempt_count ← jfield_int "attempt_count" data;
  enqueued_at_ms ← jfield_int "enqueued_at_ms" data;
  strategy_tag ← jfield_str "strategy_tag" data;
  mret (DeadLetterEntry.mk client_order_id symbol exchange last_error attempt_count
          enqueued_at_ms strategy_tag).

(** [l[-count:]]: for [count <= 0] Python drops the first [-count] elements. *)
Definition py_last {A} (count : Z) (l : list A) : list A :=
  if 0 <? count then last_n (Z.to_nat count) l else drop (Z.to_nat (- count)) l.

Section DeadLetter.
Context {R : Type} `{RedisList R}.

Record DeadLetterQueue := {
  dlq_redis : option R;
  (** whether the client is an instance of [redis.Redis] *)
  dlq_is_redis : bool;
  dlq_memory : list json;
}.

Definition new_dlq (redis_client : option R) (is_redis : bool) : DeadLetterQueue :=
  {| dlq_redis := redis_client; dlq_is_redis := is_redis; dlq_memory := [] |}.

Definition dlq_with_redis (r : R) (q : DeadLetterQueue) : DeadLetterQueue :=
  {| dlq_redis := Some r; dlq_is_redis := dlq_is_redis q; dlq_memory := dlq_memory q |}.

Definition enqueue (client_order_id symbol exchange last_error : string) (attempt_count : Z)
    (strategy_tag : string) (now_ms : Z) : M DeadLetterQueue DeadLetterEntry.t := fun q =>
  let entry := DeadLetterEntry.mk client_order_id symbol exchange last_error attempt_count
                 now_ms strategy_tag in
  let payload := dead_letter_payload entry in
  match dlq_redis q with
  | Some r =>
      match redis_rpush DLQ_REDIS_KEY payload r with
      | (Ok _, r') => (Ok entry, dlq_with_redis r' q)
      | (Raise e, r') => (Raise e, dlq_with_redis r' q)
      end
  | None =>
      (Ok entry, {| dlq_redis := None; dlq_is_redis := dlq_is_redis q;
                    dlq_memory := dlq_memory q ++ [payload] |})
  end.

Definition peek (count : Z) : M DeadLetterQueue (list DeadLetterEntry.t) := fun q =>
  let parse_all raw := mapM (M := result) parse_dead_letter raw in
  match dlq_redis q with
  | Some r =>
      match redis_lrange DLQ_REDIS_KEY (- count) (-1) r with
      | (Ok raw, r') => (parse_all raw, dlq_with_redis r' q)
      | (Raise e, r') => (Raise e, dlq_with_redis r' q)
      end
  | None => (parse_all (py_last count (dlq_memory q)), q)
  end.

Definition size : M DeadLetterQueue Z := fun q =>
  match dlq_redis q with
  | Some r =>
      if dlq_is_redis q then
        match redis_llen DLQ_REDIS_KEY r with (n, r') => (n, dlq_with_redis r' q) end
      else (Ok (Z.of_nat (length (dlq_memory q))), q)
  | None => (Ok (Z.of_nat (length (dlq_memory q))), q)
  end.

End DeadLetter.
#[global] Arguments DeadLetterQueue R : clear implicits.

(** ** Broker interface ([brokers/base.py]) *)

Class Broker (B : Type) := {
  place_order : TaggedOrder.t -> M B FillReport.t;
  query_order : string -> M B (option FillReport.t);
}.

Definition coid_of (tagged : TaggedOrder.t) : string :=
  OrderIntent.client_order_id (TaggedOrder.original tagged).

Definition has_coid (coid : string) (r : FillReport.t) : bool :=
  String.eqb (FillReport.client_order_id r) coid.

(** What the engine may assume of any broker.  A call, whether it returns or
    raises, adds at most one order, under the given idempotency key: the
    response of a call that raised may have been lost after the order was
    accepted.  An acknowledged order is in the book, and a query that returns
    reports the book. *)
Class BrokerContract (B : Type) `{Broker B} := {
  broker_ok : B -> Prop;
  order_book : B -> list FillReport.t;
  place_order_spec tagged b res b' :
    broker_ok b -> place_order tagged b = (res, b') ->
    broker_ok b'
    /\ (order_book b' = order_book b
        \/ exists r, has_coid (coid_of tagged) r = true /\ order_book b' = order_book b ++ [r])
    /\ (forall r, res = Ok r -> r ∈ order_book b' /\ has_coid (coid_of tagged) r = true);
  query_order_spec coid b res b' :
    broker_ok b -> query_order coid b = (res, b') ->
    broker_ok b' /\ order_book b' = order_book b
    /\ (forall o, res = Ok o -> o = find_first (has_coid coid) (order_book b));
}.

(** The stronger promise of [base.py]: a key already in the book is answered
    from the book. *)
Class IdempotentBroker (B : Type) `{BrokerContract B} := {
  place_order_idempotent tagged b r :
    broker_ok b -> find_first (has_coid (coid_of tagged)) (order_book b) = Some r ->
    place_order tagged b = (Ok r, b);
}.

(** ** Paper broker ([brokers/paper.py]) *)

Record PaperBroker := {
  pb_orders : dict string FillReport.t;
  pb_partial_fill_ratio : option float;
  pb_remaining_failures : Z;
  pb_seq : Z;
  pb_clock : Readings Z;
}.

Definition PAPER_BROKER_ID_PREFIX : string := "PAPER-".

Definition new_paper_broker (partial_fill_ratio : option float) (fail_count : Z)
    (clock : Readings Z) : PaperBroker :=
  {| pb_orders := []; pb_partial_fill_ratio := partial_fill_ratio;
     pb_remaining_failures := fail_count; pb_seq := 0; pb_clock := clock |}.

Definition pb_set_orders (d : dict string FillReport.t) (b : PaperBroker) : PaperBroker :=
  {| pb_orders := d; pb_partial_fill_ratio := pb_partial_fill_ratio b;
     pb_remaining_failures := pb_remaining_failures b; pb_seq := pb_seq b;
     pb_clock := pb_clock b |}.

Definition pb_set_failures (n : Z) (b : PaperBroker) : PaperBroker :=
  {| pb_orders := pb_orders b; pb_partial_fill_ratio := pb_partial_fill_ratio b;
     pb_remaining_failures := n; pb_seq := pb_seq b; pb_clock := pb_clock b |}.

Definition pb_set_seq (n : Z) (b : PaperBroker) : PaperBroker :=
  {| pb_orders := pb_orders b; pb_partial_fill_ratio := pb_partial_fill_ratio b;
     pb_remaining_failures := pb_remaining_failures b; pb_seq := n; pb_clock := pb_clock b |}.

Definition pb_set_clock (w : Readings Z) (b : PaperBroker) : PaperBroker :=
  {| pb_orders := pb_orders b; pb_partial_fill_ratio := pb_partial_fill_ratio b;
     pb_remaining_failures := pb_remaining_failures b; pb_seq := pb_seq b; pb_clock := w |}.

Definition paper_id (seq : Z) : string := PAPER_BROKER_ID_PREFIX +:+ zero_pad 6 (pretty seq).

Definition next_broker_id : M PaperBroker string := fun b =>
  let seq := pb_seq b + 1 in (Ok (paper_id seq), pb_set_seq seq b).

Definition fill_price_of (tagged : TaggedOrder.t) : float :=
  match TaggedOrder.mpp_price tagged with
  | Some p => p
  | None => default (OrderIntent.stop_loss (TaggedOrder.original tagged))
                    (OrderIntent.price (TaggedOrder.original tagged))
  end.

(** Filled quantity and status under the optional partial-fill ratio. *)
Definition fill_quantity (ratio : option float) (requested_qty : Z) : result (Z * OrderStatus) :=
  match ratio with
  | Some ratio =>
      qf ← float_of_int requested_qty;
      n ← int_of_float (qf * ratio)%pf;
      let filled_qty := Z.max 1 n in
      mret (filled_qty, if filled_qty =? requested_qty then FILLED else PARTIALLY_FILLED)
  | None => mret (requested_qty, FILLED)
  end.

Definition paper_slippage (ref_price : option float) (fill_price : float) : result (option float) :=
  match ref_price with
  | Some ref =>
      if (ref >? f_zero)%pf then
        q ← pydiv (fabs (fill_price - ref)%pf) ref; mret (Some (q * dec 1000 1)%pf)
      else mret None
  | None => mret None
  end.

Definition paper_report (tagged : TaggedOrder.t) (broker_id : string) (now_ms filled_qty : Z)
    (status : OrderStatus) (slippage : option float) : FillReport.t :=
  let original := TaggedOrder.original tagged in
  {| FillReport.client_order_id := OrderIntent.client_order_id original;
     FillReport.broker_order_id := Some broker_id;
     FillReport.symbol := OrderIntent.symbol original;
     FillReport.exchange := OrderIntent.exchange original;
     FillReport.direction := OrderIntent.direction original;
     FillReport.filled_quantity := filled_qty;
     FillReport.requested_quantity := OrderIntent.quantity original;
     FillReport.filled_price := Some (fill_price_of tagged);
     FillReport.status := status;
     FillReport.rejection_reason := None;
     FillReport.placed_at_ms := now_ms;
     FillReport.filled_at_ms := Some now_ms;
     FillReport.slippage_pct := slippage;
     FillReport.is_partial := filled_qty <? OrderIntent.quantity original;
     FillReport.sl_quantity := filled_qty;
     FillReport.attempt_count := 1;
     FillReport.strategy_tag := TaggedOrder.strategy_tag tagged;
     FillReport.compliance_audit_id := "" |}.

Definition paper_place_order (tagged : TaggedOrder.t) : M PaperBroker FillReport.t :=
  self ← M_get;
  let coid := coid_of tagged in
  match dget coid (pb_orders self) with
  | Some existing => mret existing
  | None =>
      if 0 <? pb_remaining_failures self then
        _ ← M_modify (pb_set_failures (pb_remaining_failures self - 1));
        M_raise (BrokerTransientError ("Paper broker simulated transient error (" +:+
                   pretty (pb_remaining_failures self) +:+ " remaining)"))
      else
        now_ms ← M_zoom pb_clock pb_set_clock next_reading;
        broker_id ← next_broker_id;
        '(filled_qty, status) ←
          M_lift (fill_quantity (pb_partial_fill_ratio self)
                    (OrderIntent.quantity (TaggedOrder.original tagged)));
        slippage ← M_lift (paper_slippage (OrderIntent.price (TaggedOrder.original tagged))
                             (fill_price_of tagged));
        let report := paper_report tagged broker_id now_ms filled_qty status slippage in
        _ ← M_modify (fun b => pb_set_orders (dset coid report (pb_orders b)) b);
        mret report
  end.

Definition paper_query_order (coid : string) : M PaperBroker (option FillReport.t) := fun b =>
  (Ok (dget coid (pb_orders b)), b).

Definition is_filled (r : FillReport.t) : bool :=
  bool_decide (FillReport.status r ∈ [FILLED; PARTIALLY_FILLED]).

Definition cancelled_report (existing : FillReport.t) : FillReport.t :=
  {| FillReport.client_order_id := FillReport.client_order_id existing;
     FillReport.broker_order_id := FillReport.broker_order_id existing;
     FillReport.symbol := FillReport.symbol existing;
     FillReport.exchange := FillReport.exchange existing;
     FillReport.direction := FillReport.direction existing;
     FillReport.filled_quantity := 0;
     FillReport.requested_quantity := FillReport.requested_quantity existing;
     FillReport.filled_price := None;
     FillReport.status := CANCELLED;
     FillReport.rejection_reason := Some "cancelled";
     FillReport.placed_at_ms := FillReport.placed_at_ms existing;
     FillReport.filled_at_ms := None;
     FillReport.slippage_pct := None;
     FillReport.is_partial := false;
     FillReport.sl_quantity := 0;
     FillReport.attempt_count := FillReport.attempt_count existing;
     FillReport.strategy_tag := FillReport.strategy_tag existing;
     FillReport.compliance_audit_id := FillReport.compliance_audit_id existing |}.

Definition cancel_order (client_order_id : string) : M PaperBroker bool := fun b =>
  match dget client_order_id (pb_orders b) with
  | None => (Ok false, b)
  | Some existing =>
      if is_filled existing then (Ok false, b)
      else (Ok true, pb_set_orders (dset client_order_id (cancelled_report existing) (pb_orders b)) b)
  end.

Definition open_orders (b : PaperBroker) : list FillReport.t :=
  List.filter (fun r => bool_decide (FillReport.status r ∈ [PENDING; PLACED]))
    (dvalues (pb_orders b)).

Definition all_fills (b : PaperBroker) : list FillReport.t := dvalues (pb_orders b).

#[export] Instance PaperBroker_Broker : Broker PaperBroker := {
  place_order := paper_place_order;
  query_order := paper_query_order;
}.

(** ** Execution engine ([engine.py]) *)

(** The engine object: fixed parameters and the collaborators it calls. *)
Record ExecutionEngine (B R : Type) := {
  ee_broker : B;
  ee_compliance : StrategyRegistry;
  ee_dlq : DeadLetterQueue R;
  ee_halted : option R;
  ee_max_retries : Z;
  ee_base_delay : float;
  (** environment: clock readings, [random.uniform(0, 0.1)] draws, and the
      delays slept so far *)
  ee_clock : Readings Z;
  ee_random : Readings float;
  ee_slept : list float;
}.
#[global] Arguments ee_broker {B R}.
#[global] Arguments ee_compliance {B R}.
#[global] Arguments ee_dlq {B R}.
#[global] Arguments ee_halted {B R}.
#[global] Arguments ee_max_retries {B R}.
#[global] Arguments ee_base_delay {B R}.
#[global] Arguments ee_clock {B R}.
#[global] Arguments ee_random {B R}.
#[global] Arguments ee_slept {B R}.

(** How the submission loop ends. *)
Inductive LoopExit : Type :=
| Returned (fill : FillReport.t)
| Exhausted (attempt : Z) (last_error : string)
| OutOfFuel.

Section Engine.
Context {B R : Type} `{Broker B} `{RedisKV R} `{RedisList R}.

#[local] Abbreviation ExecutionEngine := (ExecutionEngine B R).

Definition new_engine (broker : B) (compliance : StrategyRegistry) (dlq : DeadLetterQueue R)
    (redis_client : option R) (max_retries : option Z) (retry_base_delay : option float)
    (clock : Readings Z) (random : Readings float) : ExecutionEngine :=
  {| ee_broker := broker; ee_compliance := compliance; ee_dlq := dlq; ee_halted := redis_client;
     ee_max_retries := default MAX_RETRIES max_retries;
     ee_base_delay := default RETRY_BASE_DELAY_SECONDS retry_base_delay;
     ee_clock := clock; ee_random := random; ee_slept := [] |}.

Definition with_broker (b : B) (s : ExecutionEngine) : ExecutionEngine :=
  {| ee_broker := b; ee_compliance := ee_compliance s; ee_dlq := ee_dlq s;
     ee_halted := ee_halted s; ee_max_retries := ee_max_retries s;
     ee_base_delay := ee_base_delay s; ee_clock := ee_clock s; ee_random := ee_random s;
     ee_slept := ee_slept s |}.

Definition with_dlq (q : DeadLetterQueue R) (s : ExecutionEngine) : ExecutionEngine :=
  {| ee_broker := ee_broker s; ee_compliance := ee_compliance s; ee_dlq := q;
     ee_halted := ee_halted s; ee_max_retries := ee_max_retries s;
     ee_base_delay := ee_base_delay s; ee_clock := ee_clock s; ee_random := ee_random s;
     ee_slept := ee_slept s |}.

Definition with_halted (r : option R) (s : ExecutionEngine) : ExecutionEngine :=
  {| ee_broker := ee_broker s; ee_compliance := ee_compliance s; ee_dlq := ee_dlq s;
     ee_halted := r; ee_max_retries := ee_max_retries s;
     ee_base_delay := ee_base_delay s; ee_clock := ee_clock s; ee_random := ee_random s;
     ee_slept := ee_slept s |}.

Definition with_env (clock : Readings Z) (random : Readings float) (slept : list float)
    (s : ExecutionEngine) : ExecutionEngine :=
  {| ee_broker := ee_broker s; ee_compliance := ee_compliance s; ee_dlq := ee_dlq s;
     ee_halted := ee_halted s; ee_max_retries := ee_max_retries s;
     ee_base_delay := ee_base_delay s; ee_clock := clock; ee_random := random;
     ee_slept := slept |}.

Definition with_clock (w : Readings Z) (s : ExecutionEngine) : ExecutionEngine :=
  with_env w (ee_random s) (ee_slept s) s.
Definition with_random (w : Readings float) (s : ExecutionEngine) : ExecutionEngine :=
  with_env (ee_clock s) w (ee_slept s) s.

Definition on_broker {A} (m : M B A) : M ExecutionEngine A := M_zoom ee_broker with_broker m.
Definition on_dlq {A} (m : M (DeadLetterQueue R) A) : M ExecutionEngine A := M_zoom ee_dlq with_dlq m.

(** [int(time.time() * 1000)] *)
Definition time_ms : M ExecutionEngine Z := M_zoom ee_clock with_clock next_reading.
Definition uniform : M ExecutionEngine float := M_zoom ee_random with_random next_reading.
Definition sleep (delay : float) : M ExecutionEngine unit :=
  M_modify (fun s => with_env (ee_clock s) (ee_random s) (ee_slept s ++ [delay]) s).

(** [_HaltedFlag.is_halted]: any exception of the client reads as not halted. *)
Definition halted_flag : M ExecutionEngine bool := fun s =>
  match ee_halted s with
  | Some r =>
      match redis_get KILL_SWITCH_HALTED_KEY r with
      | (Ok raw, r') => (Ok (bool_decide (raw = Some "true")), with_halted (Some r') s)
      | (Raise _, r') => (Ok false, with_halted (Some r') s)
      end
  | None => (Ok false, s)
  end.

Definition rejected (order : OrderIntent.t) (reason strategy_tag audit_id : string)
    (attempt_count : Z) : M ExecutionEngine FillReport.t :=
  now_ms ← time_ms;
  mret (make_rejected_fill order reason strategy_tag audit_id attempt_count now_ms).

(** The [try] block of one iteration; [attempt] is already incremented. *)
Definition one_attempt (tagged : TaggedOrder.t) (audit_id : string) (attempt : Z)
    : M ExecutionEngine FillReport.t :=
  existing ← (if 1 <? attempt then on_broker (query_order (coid_of tagged)) else mret None);
  match existing with
  | Some existing => mret (finalize existing audit_id attempt)
  | None =>
      fill ← on_broker (place_order tagged);
      mret (finalize fill audit_id attempt)
  end.

(** [base_delay * (2 ** (attempt - 1)) + random.uniform(0, 0.1)] *)
Definition backoff (attempt : Z) : M ExecutionEngine float :=
  s ← M_get;
  factor ← M_lift (float_of_int (2 ^ (attempt - 1)));
  jitter ← uniform;
  mret (ee_base_delay s * factor + jitter)%pf.

Fixpoint submit_loop (fuel : nat) (tagged : TaggedOrder.t) (audit_id : string) (attempt : Z)
    (last_error : string) : M ExecutionEngine LoopExit :=
  match fuel with
  | O => mret OutOfFuel
  | S fuel =>
      s ← M_get;
      if attempt <=? ee_max_retries s then
        let attempt := attempt + 1 in
        outcome ← M_catch (one_attempt tagged audit_id attempt);
        match outcome with
        | Ok fill => mret (Returned fill)
        | Raise (BrokerPermanentError msg) => mret (Exhausted attempt msg)
        | Raise (BrokerTransientError msg) =>
            _ ← (if attempt <=? ee_max_retries s then
                   delay ← backoff attempt; sleep delay
                 else mret tt);
            submit_loop fuel tagged audit_id attempt msg
        | Raise e => M_raise e
        end
      else mret (Exhausted attempt last_error)
  end.

(** One test of the loop guard more than the iterations it allows. *)
Definition submit_fuel (max_retries : Z) : nat := S (Z.to_nat (max_retries + 1)).

(** The tail of [submit], for an approved order. *)
Definition submit_tagged (tagged : TaggedOrder.t) (audit_id : string)
    : M ExecutionEngine FillReport.t :=
  let order := TaggedOrder.original tagged in
  s ← M_get;
  exit ← submit_loop (submit_fuel (ee_max_retries s)) tagged audit_id 0 "";
  match exit with
  | Returned fill => mret fill
  | Exhausted attempt last_error =>
      now_ms ← time_ms;
      _ ← on_dlq (enqueue (OrderIntent.client_order_id order) (OrderIntent.symbol order)
                    (OrderIntent.exchange order) last_error attempt
                    (TaggedOrder.strategy_tag tagged) now_ms);
      rejected order ("All " +:+ pretty attempt +:+ " attempts failed: " +:+ last_error)
        (TaggedOrder.strategy_tag tagged) audit_id attempt
  | OutOfFuel => M_raise (OtherError "out of fuel")
  end.

Definition submit (order : OrderIntent.t) (now_ist now_aest : option Clock)
    (recent_orders pending_orders : list RecentOrder.t) (approved_short_list : gset string)
    (now_ms group_open_ms : option Z) (audit_id : string) : M ExecutionEngine FillReport.t :=
  now_ms ← match now_ms with Some n => mret n | None => time_ms end;
  halted ← (if OrderIntent.is_priority order then mret false else halted_flag);
  if halted : bool then rejected order "System is halted — kill switch active" "" "" 0
  else
    s ← M_get;
    compliance_dec ← M_lift (check (ee_compliance s) order now_ist now_aest recent_orders
                               pending_orders approved_short_list now_ms group_open_ms audit_id);
    if negb (ComplianceDecision.approved compliance_dec) then
      rejected order
        (str_join "; " (ComplianceViolation.detail <$> ComplianceDecision.violations compliance_dec))
        "" (ComplianceDecision.audit_id compliance_dec) 0
    else
      match ComplianceDecision.tagged_order compliance_dec with
      | None => M_raise AssertionError
      | Some tagged => submit_tagged tagged (ComplianceDecision.audit_id compliance_dec)
      end.

End Engine.

(** ** The paper broker implements the contract *)

#[global] Arguments fill_quantity : simpl never.
#[global] Arguments paper_slippage : simpl never.
#[global] Arguments paper_id : simpl never.
#[global] Arguments fill_price_of : simpl never.

Definition paper_ok (b : PaperBroker) : Prop :=
  NoDup (dkeys (pb_orders b))
  /\ Forall (fun kr => FillReport.client_order_id kr.2 = kr.1) (pb_orders b).

Lemma find_by_coid coid (d : dict string FillReport.t) :
  Forall (fun kr => FillReport.client_order_id kr.2 = kr.1) d ->
  find_first (has_coid coid) (dvalues d) = dget coid d.
Proof.
  induction d as [|[k r] d IH]; intros Hd; [done|]. apply Forall_cons in Hd as [Hk Hd].
  cbn. unfold has_coid at 1. cbn in Hk. rewrite Hk.
  destruct (decide (coid = k)) as [->|Hne]; [by rewrite String.eqb_refl|].
  apply not_eq_sym in Hne as Hne'. apply String.eqb_neq in Hne' as ->.
  by apply IH.
Qed.

(** A call under a fresh key: either it raises and leaves the orders alone, or
    it appends one report. *)
Lemma paper_place_fresh tagged b res b' :
  dget (coid_of tagged) (pb_orders b) = None ->
  paper_place_order tagged b = (res, b') ->
  (pb_orders b' = pb_orders b /\ is_ok res = false)
  \/ exists filled_qty status slippage now_ms,
      let r := paper_report tagged (paper_id (pb_seq b + 1)) now_ms filled_qty status slippage in
      res = Ok r /\ pb_orders b' = pb_orders b ++ [(coid_of tagged, r)]
      /\ pb_seq b' = pb_seq b + 1
      /\ fill_quantity (pb_partial_fill_ratio b)
           (OrderIntent.quantity (TaggedOrder.original tagged)) = Ok (filled_qty, status).
Proof.
  intros Hf. unfold paper_place_order. M_unfold. rewrite Hf.
  destruct (0 <? pb_remaining_failures b); cbn; [by intros [= <- <-]; left|].
  destruct (fill_quantity _ _) as [[q st]|e] eqn:Eq; cbn; [|by intros [= <- <-]; left].
  destruct (paper_slippage _ _) as [sl|e]; cbn; [|by intros [= <- <-]; left].
  intros [= <- <-]. right. do 4 eexists. split; [done|]. cbn.
  by rewrite dset_fresh.
Qed.

Lemma paper_place_known tagged b r :
  dget (coid_of tagged) (pb_orders b) = Some r -> paper_place_order tagged b = (Ok r, b).
Proof. intros Hk. unfold paper_place_order. M_unfold. by rewrite Hk. Qed.

Lemma paper_ok_snoc b b' k r :
  paper_ok b -> dget k (pb_orders b) = None -> FillReport.client_order_id r = k ->
  pb_orders b' = pb_orders b ++ [(k, r)] -> paper_ok b'.
Proof.
  intros [Hn Hf] Hk Hr E. unfold paper_ok. rewrite E. split.
  - rewrite <- dset_fresh by done. by apply dset_NoDup.
  - apply Forall_app. split; [done|]. by repeat constructor.
Qed.

#[export] Program Instance PaperBroker_Contract : BrokerContract PaperBroker := {
  broker_ok := paper_ok;
  order_book b := dvalues (pb_orders b);
}.
Next Obligation.
  intros tagged b res b' Hok E. cbn in E.
  assert (Hc : has_coid (coid_of tagged)
            = fun r => String.eqb (FillReport.client_order_id r) (coid_of tagged)) by done.
  destruct (dget (coid_of tagged) (pb_orders b)) as [r|] eqn:Hk.
  - rewrite (paper_place_known _ _ _ Hk) in E. injection E as <- <-.
    split; [done|]. split; [by left|]. intros r' [= <-]. apply dget_elem in Hk as Hin.
    split; [apply (list_elem_of_fmap_2 snd _ _ Hin)|].
    destruct Hok as [_ Hf]. rewrite Forall_forall in Hf. rewrite Hc. apply String.eqb_eq, (Hf _ Hin).
  - destruct (paper_place_fresh _ _ _ _ Hk E) as [[Ho Hr]|(q & st & sl & t & -> & Ho & _)].
    + unfold paper_ok. rewrite Ho. split; [done|]. split; [by left|]. by intros r' ->.
    + split; [refine (paper_ok_snoc b b' _ _ Hok Hk _ Ho); done|]. rewrite Ho. unfold dvalues. rewrite fmap_app.
      assert (Hr : has_coid (coid_of tagged) (paper_report tagged (paper_id (pb_seq b + 1)) t q st sl)
                   = true) by (rewrite Hc; apply String.eqb_refl).
      split; [right; eexists; by split|]. intros r' [= <-]. split; [|done].
      set_solver.
Qed.
Next Obligation.
  intros coid b res b' Hok E. injection E as <- <-. split; [done|]. split; [done|].
  intros o [= <-]. destruct Hok as [_ Hf]. by rewrite find_by_coid.
Qed.

#[export] Instance PaperBroker_Idempotent : IdempotentBroker PaperBroker.
Proof.
  constructor. intros tagged b r Hok Hk. destruct Hok as [_ Hf]. cbn in Hk.
  rewrite find_by_coid in Hk by done. by apply paper_place_known.
Qed.

(** ** Facts about the submission loop *)

#[global] Arguments finalize : simpl never.
#[global] Arguments check : simpl never.
#[global] Arguments submit_fuel : simpl never.

(** An approved decision tags the order that was checked. *)
Lemma check_tags registry order ist aest recent pending shorts now group audit d :
  check registry order ist aest recent pending shorts now group audit = Ok d ->
  if ComplianceDecision.approved d
  then exists t, ComplianceDecision.tagged_order d = Some t /\ TaggedOrder.original t = order
  else ComplianceDecision.tagged_order d = None.
Proof.
  unfold check. intros E. bind_inv E. destruct a as [[vs ty] mpp].
  destruct vs; injection E as <-; cbn; eauto.
Qed.

Section EngineFacts.
Context {B R : Type} `{BrokerContract B} `{RedisKV R} `{RedisList R}.

#[local] Abbreviation ExecutionEngine := (ExecutionEngine B R).
Implicit Types (s : ExecutionEngine) (b : B).

(** The broker calls of one iteration. *)
Definition broker_attempt (tagged : TaggedOrder.t) (attempt : Z) : M B FillReport.t :=
  existing ← (if 1 <? attempt then query_order (coid_of tagged) else mret None);
  match existing with
  | Some existing => mret existing
  | None => place_order tagged
  end.

Lemma one_attempt_broker tagged audit attempt s r b' :
  broker_attempt tagged attempt (ee_broker s) = (r, b') ->
  one_attempt tagged audit attempt s
  = (r ≫= (fun fill => Ok (finalize fill audit attempt)), with_broker b' s).
Proof.
  assert (Hs : with_broker (ee_broker s) s = s) by by destruct s.
  unfold broker_attempt, one_attempt, on_broker, M_zoom. M_unfold.
  destruct (1 <? attempt); cbn.
  - destruct (query_order (coid_of tagged) (ee_broker s)) as [[[e|]|e] b1]; cbn.
    + by intros [= <- <-].
    + destruct (place_order tagged b1) as [[f|e] b2]; by intros [= <- <-].
    + by intros [= <- <-].
  - destruct (place_order tagged (ee_broker s)) as [[f|e] b2]; by intros [= <- <-].
Qed.

(** What the loop leaves alone. *)
Definition loop_frame s s' : Prop :=
  ee_dlq s' = ee_dlq s /\ ee_halted s' = ee_halted s /\ ee_max_retries s' = ee_max_retries s
  /\ ee_compliance s' = ee_compliance s.

Definition sleeps s s' : Z := Z.of_nat (length (ee_slept s')) - Z.of_nat (length (ee_slept s)).

(** How the loop ends, relative to the number [a] of attempts made before it,
    its fuel and an invariant [P] of the broker. *)
Definition loop_post (P : Z -> B -> Prop) tagged audit (fuel : nat) (a : Z) s
    (res : result LoopExit) s' : Prop :=
  loop_frame s s' /\ sleeps s s' <= Z.max 0 (ee_max_retries s - a)
  /\ exists k, a <= k <= Z.max a (ee_max_retries s + 1) /\ P k (ee_broker s')
  /\ match res with
     | Ok (Returned fill) =>
         a < k /\ exists b fill0, P (k - 1) b
           /\ broker_attempt tagged k b = (Ok fill0, ee_broker s')
           /\ fill = finalize fill0 audit k
     | Ok (Exhausted n _) => n = k
     | Ok OutOfFuel => Z.of_nat fuel < ee_max_retries s + 2 - a \/ fuel = O
     | Raise _ => True
     end.

Lemma loop_post_step P tagged audit fuel a s s1 res s' :
  ee_max_retries s1 = ee_max_retries s -> ee_dlq s1 = ee_dlq s -> ee_halted s1 = ee_halted s ->
  ee_compliance s1 = ee_compliance s ->
  a <= ee_max_retries s ->
  sleeps s s1 <= (if a + 1 <=? ee_max_retries s then 1 else 0) ->
  loop_post P tagged audit fuel (a + 1) s1 res s' ->
  loop_post P tagged audit (S fuel) a s res s'.
Proof.
  intros Hm Hd Hh Hc Ha Hsl [(F1 & F2 & F3 & F4) (Hs & k & Hk & HP & Hres)].
  rewrite Hm in *. split; [repeat split; congruence|].
  unfold sleeps in *. destruct (Z.leb_spec (a + 1) (ee_max_retries s)).
  - split; [lia|]. exists k. split; [lia|]. split; [done|].
    destruct res as [[f|n m|]|e]; [|done| |done].
    + destruct Hres as [? Hx]. split; [lia|exact Hx].
    + left. lia.
  - split; [lia|]. exists k. split; [lia|]. split; [done|].
    destruct res as [[f|n m|]|e]; [|done| |done].
    + destruct Hres as [? Hx]. split; [lia|exact Hx].
    + left. lia.
Qed.

Lemma backoff_sleep a s res s' :
  (delay ← backoff a; sleep delay) s = (res, s') ->
  ee_broker s' = ee_broker s /\ loop_frame s s' /\ sleeps s s' <= 1.
Proof.
  unfold backoff, sleep, uniform, M_zoom, next_reading. M_unfold.
  destruct (float_of_int (2 ^ (a - 1))) as [f|e]; cbn; intros [= <- <-];
    (split; [done|]); (split; [done|]); unfold sleeps; cbn; rewrite ?length_app; cbn; lia.
Qed.

Lemma submit_loop_spec (P : Z -> B -> Prop) tagged audit :
  (forall a b, 0 <= a -> P a b -> P (a + 1) (broker_attempt tagged (a + 1) b).2) ->
  forall fuel a err s res s',
  0 <= a -> P a (ee_broker s) ->
  submit_loop fuel tagged audit a err s = (res, s') ->
  loop_post P tagged audit fuel a s res s'.
Proof.
  intros HP. induction fuel as [|fuel IH]; intros a err s res s' Ha HPa.
  - intros [= <- <-]. split; [done|]. unfold sleeps. split; [lia|].
    exists a. split; [lia|]. split; [done|]. by right.
  - cbn [submit_loop]. M_unfold. destruct (Z.leb_spec a (ee_max_retries s)) as [Hle|Hgt].
    2: { intros [= <- <-]. split; [done|]. unfold sleeps. split; [lia|]. exists a. by split; [lia|]. }
    unfold M_catch.
    destruct (broker_attempt tagged (a + 1) (ee_broker s)) as [r b1] eqn:Eb.
    rewrite (one_attempt_broker _ _ _ _ _ _ Eb).
    assert (HP1 : P (a + 1) b1) by (specialize (HP _ _ Ha HPa); by rewrite Eb in HP).
    assert (Hstop : forall x, match x with Ok (Returned _) | Ok OutOfFuel => False
                              | Ok (Exhausted n _) => n = a + 1 | Raise _ => True end ->
              loop_post P tagged audit (S fuel) a s x (with_broker b1 s)).
    { intros x Hx. split; [done|]. unfold sleeps. split; [cbn; lia|]. exists (a + 1).
      split; [lia|]. split; [done|]. by destruct x as [[]|]. }
    destruct r as [fill|e]; cbn.
    + intros [= <- <-]. split; [done|]. unfold sleeps. split; [cbn; lia|].
      exists (a + 1). split; [lia|]. split; [done|]. split; [lia|].
      exists (ee_broker s), fill. by replace (a + 1 - 1) with a by lia.
    + destruct e as [| | | | | | |msg|msg| | | | | | | | | | |]; cbn; try (intros [= <- <-]; by apply Hstop).
      destruct (Z.leb_spec (a + 1) (ee_max_retries s)) as [Hm|Hm].
      * destruct ((delay ← backoff (a + 1); sleep delay) (with_broker b1 s)) as [r2 s2] eqn:Es.
        pose proof Es as Es'. M_unfold. unfold mbind, M_bind in Es'. rewrite Es'.
        apply backoff_sleep in Es as (Hb & (F1 & F2 & F3 & F4) & Hs2).
        destruct r2 as [u|e2]; cbn.
        -- intros E. eapply (loop_post_step _ _ _ _ _ _ s2); [done..|lia| |].
           { apply Z.leb_le in Hm as ->. exact Hs2. }
           eapply IH; [lia| |exact E]. by rewrite Hb.
        -- intros [= <- <-]. split; [done|]. unfold sleeps in *. split; [cbn in Hs2; lia|].
           exists (a + 1). split; [lia|]. by rewrite Hb.
      * intros E. eapply (loop_post_step _ _ _ _ _ _ (with_broker b1 s)); [done..|lia| |].
        { destruct (Z.leb_spec (a + 1) (ee_max_retries s)); unfold sleeps; cbn; lia. }
        eapply IH; [lia| |exact E]. done.
Qed.

(** The clock readings and the compliance gate leave the broker alone, and the
    tail of [submit] changes it only through the loop. *)
Lemma submit_tagged_broker (P : Z -> B -> Prop) tagged audit s res s' :
  (forall a b, 0 <= a -> P a b -> P (a + 1) (broker_attempt tagged (a + 1) b).2) ->
  P 0 (ee_broker s) ->
  submit_tagged tagged audit s = (res, s') -> exists k, P k (ee_broker s').
Proof.
  intros HP HP0 E. unfold submit_tagged in E. M_unfold.
  unfold mbind, M_bind, M_get in E. cbn in E.
  destruct (submit_loop _ tagged audit 0 "" s) as [r s1] eqn:El.
  apply (submit_loop_spec P) in El; [|done|done|done].
  destruct El as (_ & _ & k & _ & Hk & _). exists k.
  destruct r as [[f|n m|]|e]; cbn in E; try (by injection E as <- <-).
  unfold time_ms, on_dlq, rejected, M_zoom, next_reading, mret, M_ret in E. cbn in E.
  destruct (enqueue _ _ _ m n _ _ _) as [[q|e] d]; cbn in E;
    unfold time_ms, M_zoom, M_bind, mbind, M_ret in E; cbn in E; by injection E as <- <-.
Qed.

Lemma rejected_broker order reason tag audit n s res s' :
  rejected order reason tag audit n s = (res, s') ->
  ee_broker s' = ee_broker s /\ ee_dlq s' = ee_dlq s
  /\ exists t, res = Ok (make_rejected_fill order reason tag audit n t).
Proof.
  unfold rejected, time_ms, M_zoom, next_reading. M_unfold. intros [= <- <-]. cbn. eauto.
Qed.

Lemma halted_flag_broker s res s' :
  halted_flag s = (res, s') ->
  is_ok res = true /\ ee_broker s' = ee_broker s /\ ee_dlq s' = ee_dlq s
  /\ ee_compliance s' = ee_compliance s /\ ee_max_retries s' = ee_max_retries s.
Proof.
  unfold halted_flag. destruct (ee_halted s) as [r|]; [|by intros [= <- <-]].
  destruct (redis_get _ r) as [[o|e] r']; by intros [= <- <-].
Qed.

(** The kill-switch gate of [submit]. *)
Lemma gate_reads order s res s' :
  (if OrderIntent.is_priority order then mret false else halted_flag) s = (res, s') ->
  is_ok res = true /\ ee_broker s' = ee_broker s /\ ee_dlq s' = ee_dlq s
  /\ ee_compliance s' = ee_compliance s.
Proof.
  destruct (OrderIntent.is_priority order); [by intros [= <- <-]|].
  intros E. by apply halted_flag_broker in E as (? & ? & ? & ? & _).
Qed.

(** [submit] after its two gates. *)
Lemma submit_cases order ist aest recent pending shorts now group audit s :
  match (if OrderIntent.is_priority order then mret false else halted_flag) s with
  | (Ok true, s1) =>
      submit order ist aest recent pending shorts (Some now) group audit s
      = rejected order "System is halted — kill switch active" "" "" 0 s1
  | (Ok false, s1) =>
      match check (ee_compliance s1) order ist aest recent pending shorts now group audit with
      | Raise e =>
          submit order ist aest recent pending shorts (Some now) group audit s = (Raise e, s1)
      | Ok d =>
          submit order ist aest recent pending shorts (Some now) group audit s
          = if ComplianceDecision.approved d then
              match ComplianceDecision.tagged_order d with
              | None => (Raise AssertionError, s1)
              | Some tagged => submit_tagged tagged (ComplianceDecision.audit_id d) s1
              end
            else rejected order
                   (str_join "; " (ComplianceViolation.detail <$> ComplianceDecision.violations d))
                   "" (ComplianceDecision.audit_id d) 0 s1
      end
  | (Raise e, s1) => True
  end.
Proof.
  unfold submit. M_unfold.
  destruct (OrderIntent.is_priority order); [|destruct (halted_flag s) as [[[|]|e] s1]; try done];
    cbn; (destruct (check _ order _ _ _ _ _ _ _ _) as [d|e]; cbn; [|done]);
    (destruct (ComplianceDecision.approved d); cbn; [|done]);
    by destruct (ComplianceDecision.tagged_order d).
Qed.

Lemma submit_reads_clock order ist aest recent pending shorts group audit s :
  submit order ist aest recent pending shorts None group audit s
  = submit order ist aest recent pending shorts
      (Some (reading (ee_clock s) (taken (ee_clock s)))) group audit
      (with_clock {| reading := reading (ee_clock s); taken := S (taken (ee_clock s)) |} s).
Proof. done. Qed.

(** Invariant rule of [submit]: a predicate on the broker that the attempts for
    this order preserve. *)
Lemma submit_broker (P : Z -> B -> Prop) order ist aest recent pending shorts now group audit
    s res s' :
  (forall tagged a b, TaggedOrder.original tagged = order -> 0 <= a -> P a b ->
     P (a + 1) (broker_attempt tagged (a + 1) b).2) ->
  P 0 (ee_broker s) ->
  submit order ist aest recent pending shorts now group audit s = (res, s') ->
  exists k, P k (ee_broker s').
Proof.
  intros HP. assert (Hnow : exists n s0, ee_broker s0 = ee_broker s
    /\ submit order ist aest recent pending shorts now group audit s
       = submit order ist aest recent pending shorts (Some n) group audit s0).
  { destruct now as [n|]; [by exists n, s|]. rewrite submit_reads_clock.
    eexists _, _. split; [|reflexivity]. done. }
  destruct Hnow as (n & s0 & Hb & ->). rewrite <- Hb. clear s Hb. intros HP0 E.
  pose proof (submit_cases order ist aest recent pending shorts n group audit s0) as Hc.
  rewrite E in Hc.
  destruct ((if OrderIntent.is_priority order then mret false else halted_flag) s0)
    as [[h|e] s1] eqn:Eh; apply gate_reads in Eh as (Hok & Hb1 & _); [|done].
  rewrite <- Hb1 in HP0. destruct h.
  - symmetry in Hc. apply rejected_broker in Hc as (Hb & _). exists 0. by rewrite Hb.
  - destruct (check _ order _ _ _ _ _ _ _ _) as [d|e] eqn:Ec.
    2: { injection Hc as -> ->. by exists 0. }
    apply check_tags in Ec. symmetry in Hc. destruct (ComplianceDecision.approved d).
    + destruct Ec as (t & Ht & Ho). rewrite Ht in Hc.
      eapply submit_tagged_broker; [|exact HP0|exact Hc]. intros a b. by apply HP.
    + apply rejected_broker in Hc as (Hb & _). exists 0. by rewrite Hb.
Qed.

(** ** Properties of order submission *)

(** C2. No order is sent twice: against any broker that keeps its contract,
    even one that accepts a duplicate key and may lose the response of an
    accepted order, a submission under a fresh idempotency key adds at most
    one order to the broker's book, under that key, however many attempts are
    made and however the submission ends. *)
Theorem submit_at_most_once order ist aest recent pending shorts now group audit s res s' :
  broker_ok (ee_broker s) ->
  find_first (has_coid (OrderIntent.client_order_id order)) (order_book (ee_broker s)) = None ->
  submit order ist aest recent pending shorts now group audit s = (res, s') ->
  order_book (ee_broker s') = order_book (ee_broker s)
  \/ exists r, has_coid (OrderIntent.client_order_id order) r = true
       /\ order_book (ee_broker s') = order_book (ee_broker s) ++ [r].
Proof.
  intros Hok Hfresh E. set (coid := OrderIntent.client_order_id order) in *.
  set (book := order_book (ee_broker s)) in *.
  apply (submit_broker (fun a b => broker_ok b /\ (order_book b = book
    \/ 0 < a /\ exists r, has_coid coid r = true /\ order_book b = book ++ [r]))) in E.
  - destruct E as (k & _ & [?|[_ ?]]); auto.
  - clear E s' res. intros tagged a b Ht Ha [Hb Hbook].
    assert (Hc : coid_of tagged = coid) by (unfold coid_of; by rewrite Ht).
    unfold broker_attempt. M_unfold.
    assert (Hplace : forall b1, broker_ok b1 -> order_book b1 = book ->
      let b2 := (place_order tagged b1).2 in broker_ok b2 /\ (order_book b2 = book
        \/ 0 < a + 1 /\ exists r, has_coid coid r = true /\ order_book b2 = book ++ [r])).
    { intros b1 Hb1 Hbk. destruct (place_order tagged b1) as [r b2] eqn:Ep.
      apply place_order_spec in Ep as (? & Hbk2 & _); [|done]. cbn. split; [done|].
      rewrite Hc, Hbk in Hbk2. destruct Hbk2; [by left|right; split; [lia|done]]. }
    destruct (Z.ltb_spec 1 (a + 1)); [|by destruct Hbook as [?|[? _]]; [apply Hplace|lia]].
    destruct (query_order (coid_of tagged) b) as [q b1] eqn:Eq.
    apply query_order_spec in Eq as (Hb1 & Hbk1 & Hq); [|done].
    destruct Hbook as [Hbook|[_ (r & Hr & Hbook)]].
    + destruct q as [o|e]; cbn; [|split; [done|left; congruence]].
      rewrite (Hq o eq_refl), Hbook, Hc, Hfresh. apply Hplace; [done|congruence].
    + assert (Hkeep : broker_ok b1 /\ (order_book b1 = book
        \/ 0 < a + 1 /\ exists r, has_coid coid r = true /\ order_book b1 = book ++ [r])).
      { split; [done|]. right. split; [lia|]. exists r. by rewrite Hbk1. }
      destruct q as [o|e]; cbn; [|done]. specialize (Hq o eq_refl).
      rewrite Hbook, Hc in Hq. assert (Hs : is_Some o).
      { destruct o; [done|]. symmetry in Hq. rewrite find_first_None in Hq.
        rewrite (Hq r) in Hr; [done|set_solver]. }
      by destruct Hs as [x ->].
  - split; [done|]. by left.
Qed.

(** Nothing bypasses the gates: when the kill switch is read as active
    and the order is not a priority order, or when compliance does not
    approve it, [submit] returns a REJECTED report without calling the broker
    or the dead-letter queue. *)
Theorem submit_blocked_touches_nothing order ist aest recent pending shorts now group audit s :
  (OrderIntent.is_priority order = false /\ (halted_flag s).1 = Ok true)
  \/ (exists d, check (ee_compliance s) order ist aest recent pending shorts now group audit = Ok d
              /\ ComplianceDecision.approved d = false) ->
  exists fill s', submit order ist aest recent pending shorts (Some now) group audit s = (Ok fill, s')
    /\ FillReport.status fill = REJECTED /\ FillReport.filled_quantity fill = 0
    /\ FillReport.broker_order_id fill = None
    /\ ee_broker s' = ee_broker s /\ ee_dlq s' = ee_dlq s.
Proof.
  assert (Hrej : forall reason tag audit n s1 x,
    ee_broker s1 = ee_broker s -> ee_dlq s1 = ee_dlq s ->
    x = rejected order reason tag audit n s1 ->
    exists fill s', x = (Ok fill, s')
    /\ FillReport.status fill = REJECTED /\ FillReport.filled_quantity fill = 0
    /\ FillReport.broker_order_id fill = None
    /\ ee_broker s' = ee_broker s /\ ee_dlq s' = ee_dlq s).
  { intros reason tag au n s1 x Hb Hd ->. destruct (rejected order reason tag au n s1) as [r s2] eqn:E.
    apply rejected_broker in E as (Hb2 & Hd2 & t & ->). do 2 eexists. split; [done|].
    repeat split; congruence. }
  pose proof (submit_cases order ist aest recent pending shorts now group audit s) as Hc.
  intros [[Hp Hh]|(d & Hd & Ha)].
  - rewrite Hp in Hc. destruct (halted_flag s) as [[h|e] s1] eqn:Eh; [|done].
    injection Hh as ->. apply halted_flag_broker in Eh as (_ & ? & ? & _).
    by eapply Hrej; [| |exact Hc].
  - destruct ((if OrderIntent.is_priority order then mret false else halted_flag) s)
      as [[h|e] s1] eqn:Eh; apply gate_reads in Eh as (Hok & ? & ? & Hco); [|done].
    destruct h; [by eapply Hrej; [| |exact Hc]|].
    rewrite Hco, Hd, Ha in Hc. by eapply Hrej; [| |exact Hc].
Qed.

(** The retry loop terminates within its budget: it never runs out of
    the fuel [submit] gives it, makes at most [max_retries + 1] attempts,
    sleeps at most [max_retries] times, and a returned report counts between
    one and [max_retries + 1] attempts. *)
Theorem submit_loop_bounded tagged audit s res s' :
  0 <= ee_max_retries s ->
  submit_loop (submit_fuel (ee_max_retries s)) tagged audit 0 "" s = (res, s') ->
  sleeps s s' <= ee_max_retries s
  /\ match res with
     | Ok (Returned fill) => 1 <= FillReport.attempt_count fill <= ee_max_retries s + 1
     | Ok (Exhausted n _) => 0 <= n <= ee_max_retries s + 1
     | Ok OutOfFuel => False
     | Raise _ => True
     end.
Proof.
  intros Hm E. apply (submit_loop_spec (fun _ _ => True)) in E; [|done..].
  destruct E as (_ & Hs & k & Hk & _ & Hres). split; [lia|].
  destruct res as [[f|n m|]|e]; [|lia| |done].
  - destruct Hres as (? & b & f0 & _ & _ & ->). unfold finalize. cbn. lia.
  - unfold submit_fuel in Hres. lia.
Qed.

(** An order whose first submission the broker answers is not retried. *)
Lemma submit_tagged_answered tagged audit s fill b :
  0 <= ee_max_retries s -> place_order tagged (ee_broker s) = (Ok fill, b) ->
  submit_tagged tagged audit s = (Ok (finalize fill audit 1), with_broker b s).
Proof.
  intros Hm Hp. unfold submit_tagged, submit_fuel.
  assert (Hb : broker_attempt tagged 1 (ee_broker s) = (Ok fill, b)) by (unfold broker_attempt; M_unfold; by rewrite Hp).
  apply one_attempt_broker with (audit := audit) in Hb.
  unfold mbind, M_bind, M_get. cbn [submit_loop]. unfold mbind, M_bind, M_get, M_catch.
  apply Z.leb_le in Hm as ->. change (0 + 1) with 1. by rewrite Hb.
Qed.

(** The price of a MARKET order that passes is the one [compute_mpp_price]
    gives. *)
Lemma run_india_checks_mpp order tag now vs ty m :
  is_india order = true -> run_india_checks order tag now = Ok (vs, ty, Some m) ->
  compute_mpp_price order = Ok (Some m).
Proof.
  intros Hi. unfold run_india_checks, check_market_order. rewrite Hi. cbn [negb orb].
  destruct (check_leverage order) as [lv|]; destruct (negb _); destruct (compute_mpp_price order) as [[p|]|];
    cbn; try done. by intros [= _ _ <-].
Qed.

(** C18. Stop-loss exits and kill-switch liquidations reach the broker on NSE
    and BSE, for a strategy that is registered and, for a liquidation, a
    positive price: whatever the kill switch, the time of day, the leverage
    and the MWPL say, the order goes to the broker with the registered tag, a
    stop-loss exit as SL and a liquidation as an MPP order at the protected
    price; when the broker answers the first submission, its answer is what
    the caller gets, after one attempt, and its state is the one that this
    submission left; otherwise the order goes through the retries of an
    approved order. *)
Theorem exits_always_routed symbol exchange direction quantity price coid strategy ltp tag
    ist aest recent pending shorts now group audit s :
  exchange = "NSE" \/ exchange = "BSE" ->
  resolve (ee_compliance s) strategy = Some tag -> 0 <= ee_max_retries s ->
  let routed order effective_type mpp :=
    let tagged := TaggedOrder.mk order tag effective_type mpp in
    let outcome := submit order ist aest recent pending shorts (Some now) group audit s in
    outcome = submit_tagged tagged audit s
    /\ forall fill b, place_order tagged (ee_broker s) = (Ok fill, b) ->
        outcome = (Ok (finalize fill audit 1), with_broker b s) in
  routed (make_sl_exit_order symbol exchange direction quantity price coid strategy ltp) "SL" None
  /\ let liq := make_kill_switch_liquidation_order symbol exchange direction quantity price coid strategy in
     (fle price f_zero = false -> exists mpp, compute_mpp_price liq = Ok (Some mpp) /\ routed liq "MPP" (Some mpp)).
Proof.
  intros Hex Hr Hm. cbv zeta.
  set (sl := make_sl_exit_order _ _ _ _ _ _ _ _). set (liq := make_kill_switch_liquidation_order _ _ _ _ _ _ _).
  assert (Hi : is_india sl = true /\ is_india liq = true).
  { unfold is_india. cbn. by destruct Hex as [-> | ->]. }
  destruct Hi as [Hi1 Hi2]. split.
  - enough (E : submit sl ist aest recent pending shorts (Some now) group audit s
              = submit_tagged (TaggedOrder.mk sl tag "SL" None) audit s)
      by (split; [exact E|]; intros fill b Hp; rewrite E; by apply submit_tagged_answered).
    pose proof (submit_cases sl ist aest recent pending shorts now group audit s) as Hc.
    change (OrderIntent.is_priority sl) with true in Hc. cbn [mret M_ret] in Hc.
    unfold check in Hc. rewrite Hi1 in Hc. cbv zeta in Hc.
    destruct (run_india_checks_spec sl (Some tag) ist Hi1) as (vs & ty & mpp & Hrun & Hok & Hty).
    change (OrderIntent.strategy_name sl) with strategy in Hc. rewrite Hr, Hrun in Hc. cbn in Hc.
    rewrite (proj2 Hok eq_refl) in *. destruct (Hty eq_refl) as [-> ->]. exact Hc.
  - intros Hp. pose proof (submit_cases liq ist aest recent pending shorts now group audit s) as Hc.
    change (OrderIntent.is_priority liq) with true in Hc. cbn [mret M_ret] in Hc.
    unfold check in Hc. rewrite Hi2 in Hc. cbv zeta in Hc.
    destruct (run_india_checks_spec liq (Some tag) ist Hi2) as (vs & ty & mpp & Hrun & Hok & Hty).
    change (OrderIntent.strategy_name liq) with strategy in Hc. rewrite Hr, Hrun in Hc. cbn in Hc.
    assert (Hi : india_ok liq (Some tag) ist = true).
    { unfold india_ok, ltp_usable. cbn. by rewrite Hp. }
    rewrite (proj2 Hok Hi) in *. destruct (Hty eq_refl) as [-> [m ->]]. exists m.
    split; [by eapply run_india_checks_mpp|].
    change (submit liq ist aest recent pending shorts (Some now) group audit s
            = submit_tagged (TaggedOrder.mk liq tag "MPP" (Some m)) audit s) in Hc.
    rewrite Hc. split; [done|]. intros fill b Hb. by apply submit_tagged_answered.
Qed.

End EngineFacts.

(** Resubmission is idempotent on any broker that answers known keys from
    its book: an approved order whose key is already booked returns the
    booked report on the first attempt and changes nothing. *)
Theorem resubmission_returns_booked_fill {B R} `{IdempotentBroker B} `{RedisKV R} `{RedisList R}
    (s : ExecutionEngine B R) tagged audit r :
  0 <= ee_max_retries s ->
  broker_ok (ee_broker s) ->
  find_first (has_coid (coid_of tagged)) (order_book (ee_broker s)) = Some r ->
  submit_tagged tagged audit s = (Ok (finalize r audit 1), s).
Proof.
  intros Hm Hok Hr. assert (Hs : with_broker (ee_broker s) s = s) by by destruct s.
  rewrite <- Hs at 2. apply submit_tagged_answered; [done|]. by apply place_order_idempotent.
Qed.

(** ** Retrying against the paper broker *)

Section PaperRetries.
Context {R : Type} `{RedisKV R} `{RedisList R}.
Implicit Types s : ExecutionEngine PaperBroker R.

(** [2 ** (attempt - 1)] converts to a float for every attempt in use. *)
Lemma backoff_factor a : 1 <= a <= 1000 -> is_ok (float_of_int (2 ^ (a - 1))) = true.
Proof.
  intros Ha.
  assert (Hall : forallb (fun n => is_ok (float_of_int (2 ^ Z.of_nat n))) (seq 0 1000) = true)
    by (vm_compute; reflexivity).
  rewrite forallb_forall in Hall. specialize (Hall (Z.to_nat (a - 1))).
  rewrite Z2Nat.id in Hall by lia. apply Hall. apply in_seq. lia.
Qed.

Lemma paper_attempt_fails tagged a b k :
  dget (coid_of tagged) (pb_orders b) = None -> 0 < k -> pb_remaining_failures b = k ->
  exists msg, broker_attempt tagged a b
    = (Raise (BrokerTransientError msg), pb_set_failures (k - 1) b).
Proof.
  intros Hf Hk Hb. eexists. unfold broker_attempt, query_order, place_order; cbn.
  unfold paper_query_order, paper_place_order. M_unfold.
  destruct (1 <? a); rewrite ?Hf; cbn; rewrite ?Hf; rewrite Hb;
    (replace (0 <? k) with true by (symmetry; by apply Z.ltb_lt)); reflexivity.
Qed.

Lemma paper_attempt_fills tagged a b filled st sl :
  dget (coid_of tagged) (pb_orders b) = None -> pb_remaining_failures b <= 0 ->
  fill_quantity (pb_partial_fill_ratio b) (OrderIntent.quantity (TaggedOrder.original tagged))
    = Ok (filled, st) ->
  paper_slippage (OrderIntent.price (TaggedOrder.original tagged)) (fill_price_of tagged) = Ok sl ->
  exists b' now, let r := paper_report tagged (paper_id (pb_seq b + 1)) now filled st sl in
    broker_attempt tagged a b = (Ok r, b')
    /\ pb_orders b' = pb_orders b ++ [(coid_of tagged, r)].
Proof.
  intros Hf Hk Hq Hs.
  assert (Hp : exists b' now, let r := paper_report tagged (paper_id (pb_seq b + 1)) now filled st sl in
    paper_place_order tagged b = (Ok r, b') /\ pb_orders b' = pb_orders b ++ [(coid_of tagged, r)]).
  { unfold paper_place_order. M_unfold. rewrite Hf.
    replace (0 <? pb_remaining_failures b) with false by (symmetry; apply Z.ltb_ge; lia).
    cbn. rewrite Hq. cbn. rewrite Hs. cbn. do 2 eexists. split; [reflexivity|]. cbn.
    by rewrite dset_fresh. }
  destruct Hp as (b' & now & Hp & Ho). exists b', now. split; [|done].
  unfold broker_attempt, query_order, place_order; cbn. unfold paper_query_order. M_unfold.
  destruct (1 <? a); cbn; rewrite ?Hf; exact Hp.
Qed.

(** The loop against a broker that fails [k] more times: it fills at attempt
    [a + k + 1] when that attempt is within the budget, and otherwise spends
    the whole budget. *)
Lemma paper_loop tagged audit filled st sl :
  forall fuel a err k s,
  0 <= a <= ee_max_retries s + 1 -> ee_max_retries s < 1000 -> 0 <= k ->
  ee_max_retries s + 2 - a <= Z.of_nat fuel ->
  dget (coid_of tagged) (pb_orders (ee_broker s)) = None ->
  pb_remaining_failures (ee_broker s) = k ->
  fill_quantity (pb_partial_fill_ratio (ee_broker s))
    (OrderIntent.quantity (TaggedOrder.original tagged)) = Ok (filled, st) ->
  paper_slippage (OrderIntent.price (TaggedOrder.original tagged)) (fill_price_of tagged) = Ok sl ->
  exists s', loop_frame s s' /\
    if a + k <=? ee_max_retries s then
      exists now, let r := paper_report tagged (paper_id (pb_seq (ee_broker s) + 1)) now filled st sl in
      submit_loop fuel tagged audit a err s = (Ok (Returned (finalize r audit (a + k + 1))), s')
      /\ pb_orders (ee_broker s') = pb_orders (ee_broker s) ++ [(coid_of tagged, r)]
    else
      exists msg,
      submit_loop fuel tagged audit a err s = (Ok (Exhausted (ee_max_retries s + 1) msg), s')
      /\ pb_orders (ee_broker s') = pb_orders (ee_broker s).
Proof.
  induction fuel as [|fuel IH]; intros a err k s Ha Hm Hk Hfuel Hf Hrem Hq Hs; [lia|].
  cbn [submit_loop]. M_unfold. unfold M_catch.
  destruct (Z.leb_spec a (ee_max_retries s)) as [Hle|Hgt].
  2: { exists s. split; [done|]. replace (a + k <=? ee_max_retries s) with false
         by (symmetry; apply Z.leb_gt; lia).
       exists err. replace (ee_max_retries s + 1) with a by lia. done. }
  destruct (decide (k = 0)) as [->|Hk0].
  - replace (a + 0 <=? ee_max_retries s) with true by (symmetry; apply Z.leb_le; lia).
    destruct (paper_attempt_fills tagged (a + 1) (ee_broker s) filled st sl) as (b' & now & Hb & Ho);
      [done|lia|done|done|].
    rewrite (one_attempt_broker _ _ _ _ _ _ Hb). exists (with_broker b' s). split; [done|].
    exists now. cbn. by replace (a + 0 + 1) with (a + 1) by lia.
  - destruct (paper_attempt_fails tagged (a + 1) (ee_broker s) k) as (msg & Hb); [done|lia|done|].
    rewrite (one_attempt_broker _ _ _ _ _ _ Hb). cbn.
    set (s1 := with_broker (pb_set_failures (k - 1) (ee_broker s)) s).
    assert (Hpost : forall s2, ee_broker s2 = ee_broker s1 -> loop_frame s1 s2 ->
      exists s', loop_frame s s' /\
        if a + k <=? ee_max_retries s then
          exists now, let r := paper_report tagged (paper_id (pb_seq (ee_broker s) + 1)) now filled st sl in
          submit_loop fuel tagged audit (a + 1) msg s2
            = (Ok (Returned (finalize r audit (a + k + 1))), s')
          /\ pb_orders (ee_broker s') = pb_orders (ee_broker s) ++ [(coid_of tagged, r)]
        else
          exists msg',
          submit_loop fuel tagged audit (a + 1) msg s2
            = (Ok (Exhausted (ee_max_retries s + 1) msg'), s')
          /\ pb_orders (ee_broker s') = pb_orders (ee_broker s)).
    { intros s2 Hbr (F1 & F2 & F3 & F4). subst s1. cbn in Hbr, F1, F2, F3, F4.
      destruct (IH (a + 1) msg (k - 1) s2) as (s' & (G1 & G2 & G3 & G4) & Hres);
        rewrite ?Hbr, ?F3; cbn; try done; [lia|lia|lia|].
      exists s'. split; [repeat split; congruence|].
      rewrite Hbr, F3 in Hres. cbn in Hres.
      replace (a + 1 + (k - 1)) with (a + k) in Hres by lia. exact Hres. }
    destruct (Z.leb_spec (a + 1) (ee_max_retries s)).
    + destruct ((delay ← backoff (a + 1); sleep delay) s1) as [r2 s2] eqn:Es.
      pose proof Es as Es'. unfold mbind, M_bind in Es'. rewrite Es'.
      assert (Hr2 : r2 = Ok tt).
      { unfold backoff, sleep, uniform, M_zoom, next_reading in Es'. 
        unfold mbind, M_bind, M_get, M_lift, M_modify, mret, M_ret in Es'. cbn in Es'.
        pose proof (backoff_factor (a + 1) ltac:(lia)) as Hf'.
        destruct (float_of_int (2 ^ (a + 1 - 1))) as [f|]; [|done]. by injection Es' as <-. }
      subst r2. apply backoff_sleep in Es as (Hb2 & Hfr & _). by apply Hpost.
    + by apply Hpost.
Qed.

(** Retrying is exact: against a paper broker that fails [k] more times,
    an approved order is filled on attempt [k + 1] with one new order in the
    book when [k <= max_retries]; otherwise it is rejected after
    [max_retries + 1] attempts, no order is booked, and exactly one entry, for
    this order, joins the dead-letter queue. *)
Theorem paper_retry_outcome tagged audit filled st sl k s :
  0 <= ee_max_retries s < 1000 -> 0 <= k ->
  dget (coid_of tagged) (pb_orders (ee_broker s)) = None ->
  pb_remaining_failures (ee_broker s) = k ->
  fill_quantity (pb_partial_fill_ratio (ee_broker s))
    (OrderIntent.quantity (TaggedOrder.original tagged)) = Ok (filled, st) ->
  paper_slippage (OrderIntent.price (TaggedOrder.original tagged)) (fill_price_of tagged) = Ok sl ->
  dlq_redis (ee_dlq s) = None ->
  exists fill s', submit_tagged tagged audit s = (Ok fill, s') /\
    if k <=? ee_max_retries s then
      FillReport.attempt_count fill = k + 1 /\ FillReport.status fill = st
      /\ FillReport.filled_quantity fill = filled /\ FillReport.sl_quantity fill = filled
      /\ length (pb_orders (ee_broker s')) = S (length (pb_orders (ee_broker s)))
      /\ ee_dlq s' = ee_dlq s
    else
      FillReport.attempt_count fill = ee_max_retries s + 1
      /\ FillReport.status fill = REJECTED
      /\ pb_orders (ee_broker s') = pb_orders (ee_broker s)
      /\ exists entry, DeadLetterEntry.client_order_id entry = coid_of tagged
           /\ DeadLetterEntry.attempt_count entry = ee_max_retries s + 1
           /\ dlq_memory (ee_dlq s') = dlq_memory (ee_dlq s) ++ [dead_letter_payload entry].
Proof.
  intros Hm Hk Hf Hr Hq Hs Hd.
  destruct (paper_loop tagged audit filled st sl (submit_fuel (ee_max_retries s)) 0 "" k s)
    as (s1 & (F1 & _ & F3 & _) & Hl); try done; [lia|lia|unfold submit_fuel; lia|].
  change (0 + k) with k in Hl. unfold submit_tagged, mbind, M_bind, M_get.
  destruct (k <=? ee_max_retries s) in Hl |- *.
  - destruct Hl as (now & -> & Ho). cbn. do 2 eexists. split; [reflexivity|]. unfold finalize. cbn.
    split_and!; [lia|done..| |done]. rewrite Ho, length_app. cbn. lia.
  - destruct Hl as (msg & -> & Ho). cbn. unfold on_dlq, rejected, time_ms, M_zoom, next_reading, enqueue.
    M_unfold. rewrite F1, Hd. cbn.
    do 2 eexists. split; [reflexivity|]. cbn. split_and!; [done..|].
    eexists. split; [|split; [|reflexivity]]; done.
Qed.

End PaperRetries.

(** ** The paper broker as a state machine *)

(** One call on the broker by any client. *)
Inductive paper_step (b : PaperBroker) : PaperBroker -> Prop :=
| paper_step_place tagged : paper_step b (paper_place_order tagged b).2
| paper_step_query coid : paper_step b (paper_query_order coid b).2
| paper_step_cancel coid : paper_step b (cancel_order coid b).2.

(** Every record was produced by a fill, under a broker identifier of its own. *)
Definition fill_recorded (seq : Z) (r : FillReport.t) : Prop :=
  is_filled r = true
  /\ FillReport.sl_quantity r = FillReport.filled_quantity r
  /\ (FillReport.status r = FILLED
      <-> FillReport.filled_quantity r = FillReport.requested_quantity r)
  /\ exists n, 0 < n <= seq /\ FillReport.broker_order_id r = Some (paper_id n).

Definition paper_inv (b : PaperBroker) : Prop :=
  paper_ok b /\ 0 <= pb_seq b
  /\ Forall (fill_recorded (pb_seq b)) (all_fills b)
  /\ NoDup (FillReport.broker_order_id <$> all_fills b).

Lemma paper_id_inj a b : 0 <= a -> 0 <= b -> paper_id a = paper_id b -> a = b.
Proof.
  intros Ha Hb E. unfold paper_id in E. apply (inj (String.append _)) in E.
  by apply (zero_pad_inj 6).
Qed.

Lemma fill_quantity_status ratio requested filled st :
  fill_quantity ratio requested = Ok (filled, st) ->
  (st = FILLED \/ st = PARTIALLY_FILLED) /\ (st = FILLED <-> filled = requested).
Proof.
  unfold fill_quantity. destruct ratio as [r|]; [|intros [= <- <-]; split; [by left|done]].
  intros E. bind_inv E. bind_inv E. injection E as <- <-.
  destruct (Z.eqb_spec (Z.max 1 a0) requested); (split; [auto|]); split; done.
Qed.

(** A failed call changes the counter at most. *)
Lemma paper_place_raises_seq tagged b res b' :
  paper_place_order tagged b = (res, b') -> is_ok res = false ->
  pb_seq b <= pb_seq b' /\ pb_orders b' = pb_orders b.
Proof.
  unfold paper_place_order. M_unfold.
  destruct (dget (coid_of tagged) (pb_orders b)); [by intros [= <- <-]|].
  destruct (0 <? pb_remaining_failures b); cbn; [intros [= <- <-]; cbn; split; [lia|done]|].
  destruct (fill_quantity _ _) as [[q st]|e]; cbn; [|intros [= <- <-]; cbn; split; [lia|done]].
  destruct (paper_slippage _ _) as [sl|e]; cbn; intros [= <- <-]; cbn; [done|split; [lia|done]].
Qed.

Lemma paper_place_inv tagged b :
  paper_inv b -> paper_inv (paper_place_order tagged b).2.
Proof.
  intros (Hok & Hseq & Hall & Hids).
  destruct (dget (coid_of tagged) (pb_orders b)) as [r|] eqn:Hk.
  { by rewrite (paper_place_known _ _ _ Hk). }
  destruct (paper_place_order tagged b) as [res b'] eqn:E. cbn.
  destruct (paper_place_fresh _ _ _ _ Hk E) as [[_ Hr]|(q & st & sl & t & -> & Ho & Hs & Hq)].
  - destruct (paper_place_raises_seq _ _ _ _ E Hr) as [Hle Ho].
    unfold paper_inv, paper_ok, all_fills. rewrite Ho. split; [done|]. split; [lia|]. split; [|done].
    eapply Forall_impl; [exact Hall|]. intros r (? & ? & ? & n & ? & ?).
    split_and!; [done..|]. exists n. split; [lia|done].
  - set (r := paper_report tagged (paper_id (pb_seq b + 1)) t q st sl) in *.
    assert (Hd : all_fills b' = all_fills b ++ [r]).
    { unfold all_fills, dvalues. by rewrite Ho, fmap_app. }
    split; [refine (paper_ok_snoc b b' _ _ Hok Hk _ Ho); done|]. split; [lia|].
    rewrite Hd, Hs. split.
    + apply Forall_app. split.
      * eapply Forall_impl; [exact Hall|]. intros x (? & ? & ? & n & ? & ?).
        split_and!; [done..|]. exists n. split; [lia|done].
      * constructor; [|constructor]. apply fill_quantity_status in Hq as [Hst Hfull].
        split_and!; [by destruct Hst as [-> | ->]|done|exact Hfull|].
        exists (pb_seq b + 1). split; [lia|done].
    + rewrite fmap_app. apply NoDup_app. split; [done|]. split; [|apply NoDup_singleton].
      intros id Hid Hin. apply list_elem_of_fmap in Hid as (x & -> & Hx).
      rewrite Forall_forall in Hall. destruct (Hall x Hx) as (_ & _ & _ & n & Hn & Hxid).
      cbn in Hin. rewrite Hxid in Hin. apply list_elem_of_singleton in Hin.
      assert (Heq : paper_id n = paper_id (pb_seq b + 1)) by congruence.
      apply paper_id_inj in Heq; lia.
Qed.

Lemma paper_inv_filled b coid r :
  paper_inv b -> dget coid (pb_orders b) = Some r -> is_filled r = true.
Proof.
  intros (_ & _ & Hall & _) Hk. rewrite Forall_forall in Hall.
  apply dget_elem in Hk. by destruct (Hall r (list_elem_of_fmap_2 snd _ _ Hk)).
Qed.

Lemma paper_cancel_refused b coid : paper_inv b -> cancel_order coid b = (Ok false, b).
Proof.
  intros Hi. unfold cancel_order. destruct (dget coid (pb_orders b)) as [r|] eqn:Hk; [|done].
  by rewrite (paper_inv_filled _ _ _ Hi Hk).
Qed.

Lemma paper_inv_reachable b b' : paper_inv b -> rtc paper_step b b' -> paper_inv b'.
Proof.
  intros Hi Hr. induction Hr as [|b1 b2 b3 Hs _ IH]; [done|]. apply IH. destruct Hs.
  - by apply paper_place_inv.
  - done.
  - by rewrite paper_cancel_refused.
Qed.

Lemma new_paper_inv ratio fails clock : paper_inv (new_paper_broker ratio fails clock).
Proof. split; [split; constructor|]. split; [done|]. split; constructor. Qed.

(** C24. In every state a paper broker can reach, the book holds fills only:
    there is no open order, no cancel is ever accepted, broker identifiers
    are pairwise distinct, the stop-loss quantity equals the filled quantity,
    and FILLED means the full quantity. *)
Theorem paper_broker_invariant ratio fails clock b :
  rtc paper_step (new_paper_broker ratio fails clock) b ->
  open_orders b = [] /\ (forall coid, cancel_order coid b = (Ok false, b))
  /\ NoDup (FillReport.broker_order_id <$> all_fills b)
  /\ forall r, r ∈ all_fills b ->
       FillReport.sl_quantity r = FillReport.filled_quantity r
       /\ (FillReport.status r = FILLED
           <-> FillReport.filled_quantity r = FillReport.requested_quantity r).
Proof.
  intros Hr. apply paper_inv_reachable in Hr as Hi; [|apply new_paper_inv].
  split; [|split; [intros; by apply paper_cancel_refused|]].
  - destruct Hi as (_ & _ & Hall & _). unfold open_orders. fold (all_fills b).
    induction Hall as [|r l Hx _ IH]; [done|]. cbn. destruct Hx as (Hx & _).
    unfold is_filled in Hx. destruct (FillReport.status r); try done; exact IH.
  - destruct Hi as (_ & _ & Hall & Hn). split; [done|]. intros r Hin.
    rewrite Forall_forall in Hall. by destruct (Hall r Hin) as (_ & ? & ? & _).
Qed.

(** ** Dead-letter queue *)

Lemma parse_dead_letter_payload entry : parse_dead_letter (dead_letter_payload entry) = Ok entry.
Proof. by destruct entry. Qed.

Lemma parse_dead_letters entries :
  mapM (M := result) parse_dead_letter (dead_letter_payload <$> entries) = Ok entries.
Proof.
  induction entries as [|x l IH]; [done|]. cbn [fmap list_fmap mapM].
  rewrite parse_dead_letter_payload. cbn. cbn in IH. by rewrite IH.
Qed.

Lemma py_last_fmap {A B} (f : A -> B) n (l : list A) : py_last n (f <$> l) = f <$> py_last n l.
Proof. unfold py_last, last_n. by destruct (0 <? n); rewrite ?length_fmap, fmap_drop. Qed.

Lemma enqueue_memory {R} `{RedisList R} (q : DeadLetterQueue R) c sy ex er n tag now :
  dlq_redis q = None ->
  enqueue c sy ex er n tag now q
  = (Ok (DeadLetterEntry.mk c sy ex er n now tag),
     {| dlq_redis := None; dlq_is_redis := dlq_is_redis q;
        dlq_memory := dlq_memory q
          ++ [dead_letter_payload (DeadLetterEntry.mk c sy ex er n now tag)] |}).
Proof. intros Hq. unfold enqueue. by rewrite Hq. Qed.

(** The in-memory dead-letter queue is append-only and reads back what
    was written: after any sequence of [enqueue] calls, [size] is the number
    of entries and [peek n] returns the last [n] of them, oldest first. *)
Theorem dead_letters_read_back {R} `{RedisList R} (calls : list DeadLetterEntry.t) (is_redis : bool)
    (count : Z) :
  let q := foldl (fun q e =>
      (enqueue (DeadLetterEntry.client_order_id e) (DeadLetterEntry.symbol e)
         (DeadLetterEntry.exchange e) (DeadLetterEntry.last_error e)
         (DeadLetterEntry.attempt_count e) (DeadLetterEntry.strategy_tag e)
         (DeadLetterEntry.enqueued_at_ms e) q).2) (new_dlq (R := R) None is_redis) calls in
  0 < count ->
  size q = (Ok (Z.of_nat (length calls)), q)
  /\ peek count q = (Ok (last_n (Z.to_nat count) calls), q).
Proof.
  intros q Hc.
  assert (Hq : dlq_redis q = None /\ dlq_memory q = dead_letter_payload <$> calls).
  { subst q. induction calls as [|e l IH] using rev_ind; [done|].
    rewrite foldl_snoc. destruct IH as [IH1 IH2]. rewrite enqueue_memory by done.
    cbn. split; [done|]. rewrite IH2, fmap_app. by destruct e. }
  destruct Hq as [Hq1 Hq2]. unfold size, peek. rewrite Hq1, Hq2. cbv zeta.
  split; [by rewrite length_fmap|]. rewrite py_last_fmap. 
  pose proof (parse_dead_letters (py_last count calls)) as Hp. rewrite Hp.
  unfold py_last. by replace (0 <? count) with true by (symmetry; by apply Z.ltb_lt).
Qed.

(** ** Evaluation on concrete inputs *)

Definition constant_clock : Readings Z := {| reading := fun _ => 100000; taken := 0 |}.
Definition no_jitter : Readings float := {| reading := fun _ => f_zero; taken := 0 |}.

(** A server that says halted. *)
Definition halted_server : MemRedis :=
  {| mem_kv := <[KILL_SWITCH_HALTED_KEY := "true"]> ∅; mem_lists := ∅;
     mem_streams := ∅; mem_up := true |}.

Definition sample_engine (fail_count : Z) (server : option MemRedis)
    : ExecutionEngine PaperBroker MemRedis :=
  new_engine (new_paper_broker None fail_count constant_clock) (new_registry no_env None)
    (new_dlq None false) server None None constant_clock no_jitter.

Definition entry_order : OrderIntent.t := sample_order "NSE" "LONG" "LIMIT" false.
Definition entry_tagged : TaggedOrder.t := TaggedOrder.mk entry_order "STRAT002" "LIMIT" None.

Definition sample_submit (order : OrderIntent.t) (s : ExecutionEngine PaperBroker MemRedis)
    : result FillReport.t * ExecutionEngine PaperBroker MemRedis :=
  submit order None None [] [] ∅ (Some 100000) None "audit" s.

Lemma submit_at_most_once_witness :
  let s' := (sample_submit entry_order (sample_engine 2 None)).2 in
  order_book (ee_broker s') = order_book (ee_broker (sample_engine 2 None))
  \/ exists r, has_coid "co-1" r = true
       /\ order_book (ee_broker s') = order_book (ee_broker (sample_engine 2 None)) ++ [r].
Proof.
  cbv zeta.
  apply (submit_at_most_once entry_order None None [] [] ∅ (Some 100000) None "audit"
           (sample_engine 2 None) (sample_submit entry_order (sample_engine 2 None)).1
           (sample_submit entry_order (sample_engine 2 None)).2).
  - split; constructor.
  - reflexivity.
  - unfold sample_submit. apply surjective_pairing.
Defined.

Lemma submit_blocked_touches_nothing_witness :
  exists fill s', sample_submit entry_order (sample_engine 0 (Some halted_server)) = (Ok fill, s')
    /\ FillReport.status fill = REJECTED /\ FillReport.filled_quantity fill = 0
    /\ FillReport.broker_order_id fill = None
    /\ ee_broker s' = ee_broker (sample_engine 0 (Some halted_server))
    /\ ee_dlq s' = ee_dlq (sample_engine 0 (Some halted_server)).
Proof.
  apply submit_blocked_touches_nothing. left. split; [reflexivity|vm_compute; reflexivity].
Defined.

Definition sample_loop : result LoopExit * ExecutionEngine PaperBroker MemRedis :=
  submit_loop (submit_fuel 3) entry_tagged "audit" 0 "" (sample_engine 2 None).

Lemma submit_loop_bounded_witness :
  sleeps (sample_engine 2 None) sample_loop.2 <= 3
  /\ match sample_loop.1 with
     | Ok (Returned fill) => 1 <= FillReport.attempt_count fill <= 3 + 1
     | Ok (Exhausted n _) => 0 <= n <= 3 + 1
     | Ok OutOfFuel => False
     | Raise _ => True
     end.
Proof.
  apply (submit_loop_bounded entry_tagged "audit" (sample_engine 2 None) sample_loop.1 sample_loop.2).
  - vm_compute. congruence.
  - unfold sample_loop. apply surjective_pairing.
Defined.

Lemma exits_always_routed_witness :
  let s := sample_engine 0 (Some halted_server) in
  let sl := make_sl_exit_order "TCS" "NSE" "LONG" 10 (dec 100 0) "x-1" "ORB_BREAKOUT" None in
  let liq := make_kill_switch_liquidation_order "TCS" "NSE" "LONG" 10 (dec 100 0) "x-1" "ORB_BREAKOUT" in
  let sold := place_order (TaggedOrder.mk sl "STRAT002" "SL" None) (ee_broker s) in
  match sold with
  | (Ok fill, b) => sample_submit sl s = (Ok (finalize fill "audit" 1), with_broker b s)
  | _ => False
  end
  /\ exists mpp, compute_mpp_price liq = Ok (Some mpp)
     /\ sample_submit liq s = submit_tagged (TaggedOrder.mk liq "STRAT002" "MPP" (Some mpp)) "audit" s.
Proof.
  pose proof (exits_always_routed "TCS" "NSE" "LONG" 10 (dec 100 0) "x-1" "ORB_BREAKOUT" None "STRAT002"
    None None [] [] ∅ 100000 None "audit" (sample_engine 0 (Some halted_server))
    (or_introl eq_refl) ltac:(vm_compute; reflexivity) ltac:(vm_compute; congruence)) as [[_ H1] H2].
  cbv zeta. destruct (place_order _ _) as [[fill|e] b] eqn:E.
  - split; [exact (H1 fill b eq_refl)|]. destruct H2 as (mpp & Hm & Ht & _); [vm_compute; reflexivity|].
    exists mpp. split; [exact Hm|exact Ht].
  - vm_compute in E. discriminate.
Defined.

Definition booked : FillReport.t :=
  paper_report entry_tagged (paper_id 1) 100000 10 FILLED None.

Definition booked_engine : ExecutionEngine PaperBroker MemRedis :=
  with_broker (pb_set_orders [("co-1", booked)] (ee_broker (sample_engine 0 None)))
    (sample_engine 0 None).

Lemma resubmission_returns_booked_fill_witness :
  submit_tagged entry_tagged "audit" booked_engine = (Ok (finalize booked "audit" 1), booked_engine).
Proof.
  apply resubmission_returns_booked_fill.
  - vm_compute. congruence.
  - split.
    + apply NoDup_singleton.
    + repeat constructor.
  - reflexivity.
Defined.

Lemma paper_retry_outcome_witness :
  exists fill s', submit_tagged entry_tagged "audit" (sample_engine 2 None) = (Ok fill, s') /\
    if 2 <=? 3 then
      FillReport.attempt_count fill = 2 + 1 /\ FillReport.status fill = FILLED
      /\ FillReport.filled_quantity fill = 10 /\ FillReport.sl_quantity fill = 10
      /\ length (pb_orders (ee_broker s')) = S (length (pb_orders (ee_broker (sample_engine 2 None))))
      /\ ee_dlq s' = ee_dlq (sample_engine 2 None)
    else
      FillReport.attempt_count fill = 3 + 1
      /\ FillReport.status fill = REJECTED
      /\ pb_orders (ee_broker s') = pb_orders (ee_broker (sample_engine 2 None))
      /\ exists entry, DeadLetterEntry.client_order_id entry = coid_of entry_tagged
           /\ DeadLetterEntry.attempt_count entry = 3 + 1
           /\ dlq_memory (ee_dlq s')
              = dlq_memory (ee_dlq (sample_engine 2 None)) ++ [dead_letter_payload entry].
Proof.
  apply (paper_retry_outcome entry_tagged "audit" 10 FILLED None 2 (sample_engine 2 None)).
  - split; vm_compute; congruence.
  - lia.
  - reflexivity.
  - reflexivity.
  - reflexivity.
  - reflexivity.
  - reflexivity.
Defined.

Definition sample_book : PaperBroker :=
  (paper_place_order entry_tagged (new_paper_broker (Some (dec 5 1)) 0 constant_clock)).2.

Lemma paper_broker_invariant_witness :
  open_orders sample_book = [] /\ (forall coid, cancel_order coid sample_book = (Ok false, sample_book))
  /\ NoDup (FillReport.broker_order_id <$> all_fills sample_book)
  /\ forall r, r ∈ all_fills sample_book ->
       FillReport.sl_quantity r = FillReport.filled_quantity r
       /\ (FillReport.status r = FILLED
           <-> FillReport.filled_quantity r = FillReport.requested_quantity r).
Proof.
  apply (paper_broker_invariant (Some (dec 5 1)) 0 constant_clock).
  apply rtc_once, paper_step_place.
Defined.

Definition sample_dead_letter : DeadLetterEntry.t :=
  DeadLetterEntry.mk "co-1" "BHP" "NSE" "timeout" 4 100000 "STRAT002".

Lemma dead_letters_read_back_witness :
  let q := (enqueue "co-1" "BHP" "NSE" "timeout" 4 "STRAT002" 100000
              (new_dlq (R := MemRedis) None false)).2 in
  size q = (Ok 1, q) /\ peek 5 q = (Ok [sample_dead_letter], q).
Proof. apply (dead_letters_read_back [sample_dead_letter] false 5). lia. Defined.
