(* ===== verification/Reconciliation.v ===== *)
(** * Reconciliation agent ([shared/reconciliation])

    [models.py], [differ.py], [block_registry.py], [publisher.py] and the
    cycle of [agent.py].  What the two state providers return in a cycle is
    an argument of the cycle; the protobuf encoder is a parameter; the
    [on_mismatch] callback, whose exceptions the agent swallows, is recorded
    as the list of its calls.  A run of the agent is a sequence of
    cycles; [Background] adds the timer that repeats them.  The iteration order of a
    Python set is unspecified; the model takes stdpp's. *)

From S2P Require Import Prelude PyFloat PyDict Json Redis Constants.
Local Open Scope Z_scope.

(** ** Data models ([models.py]) *)

Inductive MismatchField : Type :=
| QUANTITY | AVG_PRICE | ORDER_STATUS | POSITION_MISSING | ORDER_MISSING
| UNEXPECTED_POSITION | UNEXPECTED_ORDER.

#[export] Instance MismatchField_eq_dec : EqDecision MismatchField.
Proof. solve_decision. Defined.

Definition field_value (f : MismatchField) : string :=
  match f with
  | QUANTITY => "quantity" | AVG_PRICE => "avg_price" | ORDER_STATUS => "order_status"
  | POSITION_MISSING => "position_missing" | ORDER_MISSING => "order_missing"
  | UNEXPECTED_POSITION => "unexpected_position" | UNEXPECTED_ORDER => "unexpected_order"
  end.

Module BrokerPosition.
Record t := mk {
  symbol : string;
  exchange : string;
  quantity : Z;
  avg_price : float;
  product : string;
}.
End BrokerPosition.

Module BrokerOrder.
Record t := mk {
  order_id : string;
  client_order_id : string;
  symbol : string;
  exchange : string;
  status : string;
  quantity : Z;
  filled_quantity : Z;
  avg_price : float;
}.
End BrokerOrder.

Module InternalPosition.
Record t := mk { symbol : string; exchange : string; quantity : Z; avg_price : float }.
End InternalPosition.

Module InternalOrder.
Record t := mk {
  client_order_id : string;
  symbol : string;
  exchange : string;
  status : string;
  filled_quantity : Z;
}.
End InternalOrder.

Module ReconciliationMismatch.
Record t := mk {
  symbol : string;
  exchange : string;
  field : MismatchField;
  internal_value : string;
  broker_value : string;
  detected_at_ms : Z;
}.
End ReconciliationMismatch.

Module ReconciliationResult.
Record t := mk {
  cycle_started_at_ms : Z;
  cycle_completed_at_ms : Z;
  mismatches : list ReconciliationMismatch.t;
  symbols_blocked : list string;
  symbols_cleared : list string;
}.

Definition mismatch_count (self : t) : Z := Z.of_nat (length (mismatches self)).
Definition has_mismatches (self : t) : bool := 0 <? mismatch_count self.
End ReconciliationResult.

(** ** Diff ([differ.py]) *)

Definition position_key (symbol exchange : string) : string := exchange +:+ ":" +:+ symbol.

Definition broker_key (p : BrokerPosition.t) : string :=
  position_key (BrokerPosition.symbol p) (BrokerPosition.exchange p).
Definition internal_key (p : InternalPosition.t) : string :=
  position_key (InternalPosition.symbol p) (InternalPosition.exchange p).

(** [price_delta > RECONCILIATION_TOLERANCE_PRICE_PCT] for a positive internal
    price, by which the division is then by a non-zero number. *)
Definition price_diverges (broker : BrokerPosition.t) (internal : InternalPosition.t) : bool :=
  let i := InternalPosition.avg_price internal in
  (i >? f_zero)%pf
  && (fdiv (fabs (BrokerPosition.avg_price broker - i)%pf) i >? RECONCILIATION_TOLERANCE_PRICE_PCT)%pf.

Definition position_mismatch (internal : InternalPosition.t) (field : MismatchField)
    (internal_value broker_value : string) (ts : Z) : ReconciliationMismatch.t :=
  ReconciliationMismatch.mk (InternalPosition.symbol internal) (InternalPosition.exchange internal)
    field internal_value broker_value ts.

(** The body of the loop over the internal positions. *)
Definition diff_internal_position (broker_map : dict string BrokerPosition.t) (ts : Z)
    (key : string) (internal : InternalPosition.t) : list ReconciliationMismatch.t :=
  match dget key broker_map with
  | None =>
      if negb (InternalPosition.quantity internal =? 0) then
        [position_mismatch internal POSITION_MISSING (pretty (InternalPosition.quantity internal)) "0" ts]
      else []
  | Some broker =>
      (if negb (BrokerPosition.quantity broker =? InternalPosition.quantity internal) then
         [position_mismatch internal QUANTITY (pretty (InternalPosition.quantity internal))
            (pretty (BrokerPosition.quantity broker)) ts]
       else [])
      ++ (if price_diverges broker internal then
            [position_mismatch internal AVG_PRICE (fmt_fixed 4 (InternalPosition.avg_price internal))
               (fmt_fixed 4 (BrokerPosition.avg_price broker)) ts]
          else [])
  end.

Definition diff_broker_position (internal_map : dict string InternalPosition.t) (ts : Z)
    (key : string) (broker : BrokerPosition.t) : list ReconciliationMismatch.t :=
  if negb (dmem key internal_map) && negb (BrokerPosition.quantity broker =? 0) then
    [ReconciliationMismatch.mk (BrokerPosition.symbol broker) (BrokerPosition.exchange broker)
       UNEXPECTED_POSITION "0" (pretty (BrokerPosition.quantity broker)) ts]
  else [].

Definition diff_positions (broker_positions : list BrokerPosition.t)
    (internal_positions : list InternalPosition.t) (ts : Z) : list ReconciliationMismatch.t :=
  let broker_map := dict_of broker_key broker_positions in
  let internal_map := dict_of internal_key internal_positions in
  flat_map (fun '(key, internal) => diff_internal_position broker_map ts key internal) internal_map
  ++ flat_map (fun '(key, broker) => diff_broker_position internal_map ts key broker) broker_map.

Definition diff_internal_order (broker_map : dict string BrokerOrder.t) (ts : Z)
    (coid : string) (internal : InternalOrder.t) : list ReconciliationMismatch.t :=
  let m field internal_value broker_value :=
    ReconciliationMismatch.mk (InternalOrder.symbol internal) (InternalOrder.exchange internal)
      field internal_value broker_value ts in
  match dget coid broker_map with
  | None => [m ORDER_MISSING (InternalOrder.status internal) "NOT_FOUND"]
  | Some broker =>
      if negb (String.eqb (str_upper (BrokerOrder.status broker))
                 (str_upper (InternalOrder.status internal))) then
        [m ORDER_STATUS (InternalOrder.status internal) (BrokerOrder.status broker)]
      else []
  end.

Definition diff_broker_order (internal_map : dict string InternalOrder.t) (ts : Z)
    (coid : string) (broker : BrokerOrder.t) : list ReconciliationMismatch.t :=
  if negb (dmem coid internal_map) then
    [ReconciliationMismatch.mk (BrokerOrder.symbol broker) (BrokerOrder.exchange broker)
       UNEXPECTED_ORDER "NOT_FOUND" (BrokerOrder.status broker) ts]
  else [].

Definition diff_orders (broker_orders : list BrokerOrder.t)
    (internal_orders : list InternalOrder.t) (ts : Z) : list ReconciliationMismatch.t :=
  let broker_map := dict_of BrokerOrder.client_order_id broker_orders in
  let internal_map := dict_of InternalOrder.client_order_id internal_orders in
  flat_map (fun '(coid, internal) => diff_internal_order broker_map ts coid internal) internal_map
  ++ flat_map (fun '(coid, broker) => diff_broker_order internal_map ts coid broker) broker_map.

(** ** Block registry ([block_registry.py]) *)

Definition block_key (symbol exchange : string) : string :=
  RECONCILIATION_BLOCKED_REDIS_KEY_PREFIX +:+ ":" +:+ exchange +:+ ":" +:+ symbol.

Section Registry.
Context {R : Type} `{RedisKV R}.

Record BlockRegistry := {
  br_redis : option R;
  br_ttl : option Z;
  br_memory : gset string;
}.

Definition new_block_registry (redis_client : option R) (block_ttl_seconds : option Z)
    : BlockRegistry :=
  {| br_redis := redis_client; br_ttl := block_ttl_seconds; br_memory := ∅ |}.

Definition br_with (redis : option R) (memory : gset string) (self : BlockRegistry)
    : BlockRegistry :=
  {| br_redis := redis; br_ttl := br_ttl self; br_memory := memory |}.

(** Redis exceptions are caught: the methods do not raise. *)
Definition block (symbol exchange : string) (self : BlockRegistry) : BlockRegistry :=
  let key := block_key symbol exchange in
  match br_redis self with
  | Some r =>
      match redis_set key "true" (br_ttl self) r with
      | (Ok _, r') => br_with (Some r') (br_memory self) self
      | (Raise _, r') => br_with (Some r') ({[key]} ∪ br_memory self) self
      end
  | None => br_with None ({[key]} ∪ br_memory self) self
  end.

Definition clear (symbol exchange : string) (self : BlockRegistry) : BlockRegistry :=
  let key := block_key symbol exchange in
  let redis := match br_redis self with
               | Some r => Some (redis_delete key r).2
               | None => None
               end in
  br_with redis (br_memory self ∖ {[key]}) self.

Definition is_blocked (symbol exchange : string) (self : BlockRegistry) : bool * BlockRegistry :=
  let key := block_key symbol exchange in
  if bool_decide (key ∈ br_memory self) then (true, self)
  else
    match br_redis self with
    | Some r =>
        match redis_get key r with
        | (Ok raw, r') => (bool_decide (raw <> None), br_with (Some r') (br_memory self) self)
        | (Raise _, r') => (false, br_with (Some r') (br_memory self) self)
        end
    | None => (false, self)
    end.

Definition blocked_symbols (self : BlockRegistry) : gset string := br_memory self.

End Registry.
#[global] Arguments BlockRegistry R : clear implicits.

(** ** Publisher ([publisher.py]) *)

Module ProtoMismatch.
Record t := mk {
  symbol : string;
  field : string;
  internal_value : string;
  broker_value : string;
  detected_at_ms : Z;
}.
End ProtoMismatch.

(** The generated protobuf encoder, [ProtoMismatch(...).SerializeToString()]. *)
Class ProtoCodec := { serialize_mismatch : ProtoMismatch.t -> result string }.

Section Publisher.
Context {R : Type} `{RedisStream R} `{ProtoCodec}.

Record MismatchPublisher := {
  mp_redis : option R;
  mp_stream_key : string;
  mp_maxlen : option Z;
}.

Definition mp_with (r : R) (self : MismatchPublisher) : MismatchPublisher :=
  {| mp_redis := Some r; mp_stream_key := mp_stream_key self; mp_maxlen := mp_maxlen self |}.

Definition publish (mismatch : ReconciliationMismatch.t)
    : M MismatchPublisher (option string) :=
  payload ← M_lift (serialize_mismatch
    (ProtoMismatch.mk (ReconciliationMismatch.symbol mismatch)
       (field_value (ReconciliationMismatch.field mismatch))
       (ReconciliationMismatch.internal_value mismatch)
       (ReconciliationMismatch.broker_value mismatch)
       (ReconciliationMismatch.detected_at_ms mismatch)));
  self ← M_get;
  match mp_redis self with
  | None => mret None
  | Some r =>
      match redis_xadd (mp_stream_key self)
              [("proto", payload); ("symbol", ReconciliationMismatch.symbol mismatch);
               ("exchange", ReconciliationMismatch.exchange mismatch);
               ("field", field_value (ReconciliationMismatch.field mismatch));
               ("detected_at_ms", pretty (ReconciliationMismatch.detected_at_ms mismatch))]
              (mp_maxlen self) r with
      | (Ok entry_id, r') => _ ← M_put (mp_with r' self); mret (Some entry_id)
      | (Raise _, r') => _ ← M_put (mp_with r' self); mret None
      end
  end.

Definition publish_all (mismatches : list ReconciliationMismatch.t)
    : M MismatchPublisher (list string) :=
  M_fold (fun entry_ids m =>
      eid ← publish m;
      mret (match eid with Some e => entry_ids ++ [e] | None => entry_ids end)) [] mismatches.

End Publisher.
#[global] Arguments MismatchPublisher R : clear implicits.

(** ** Agent ([agent.py]) *)

(** What the providers return when the cycle queries them. *)
Record CycleInput := {
  ci_broker_positions : result (list BrokerPosition.t);
  ci_broker_orders : result (list BrokerOrder.t);
  ci_internal_positions : result (list InternalPosition.t);
  ci_internal_orders : result (list InternalOrder.t);
}.

Record ReconciliationAgent (R : Type) := {
  ra_publisher : MismatchPublisher R;
  ra_blocks : BlockRegistry R;
  ra_has_callback : bool;
  ra_last_mismatch_keys : gset string;
  ra_clock : Readings Z;
  (** calls of the [on_mismatch] callback *)
  ra_notified : list ReconciliationMismatch.t;
}.
#[global] Arguments ra_publisher {R}.
#[global] Arguments ra_blocks {R}.
#[global] Arguments ra_has_callback {R}.
#[global] Arguments ra_last_mismatch_keys {R}.
#[global] Arguments ra_clock {R}.
#[global] Arguments ra_notified {R}.

Section Agent.
Context {R : Type} `{RedisKV R} `{RedisStream R} `{ProtoCodec}.

#[local] Abbreviation ReconciliationAgent := (ReconciliationAgent R).

Definition new_agent (publisher : MismatchPublisher R) (blocks : BlockRegistry R)
    (has_callback : bool) (clock : Readings Z) : ReconciliationAgent :=
  {| ra_publisher := publisher; ra_blocks := blocks; ra_has_callback := has_callback;
     ra_last_mismatch_keys := ∅; ra_clock := clock; ra_notified := [] |}.

Definition with_publisher (p : MismatchPublisher R) (s : ReconciliationAgent) : ReconciliationAgent :=
  {| ra_publisher := p; ra_blocks := ra_blocks s; ra_has_callback := ra_has_callback s;
     ra_last_mismatch_keys := ra_last_mismatch_keys s; ra_clock := ra_clock s;
     ra_notified := ra_notified s |}.

Definition with_blocks (b : BlockRegistry R) (s : ReconciliationAgent) : ReconciliationAgent :=
  {| ra_publisher := ra_publisher s; ra_blocks := b; ra_has_callback := ra_has_callback s;
     ra_last_mismatch_keys := ra_last_mismatch_keys s; ra_clock := ra_clock s;
     ra_notified := ra_notified s |}.

Definition with_keys (ks : gset string) (s : ReconciliationAgent) : ReconciliationAgent :=
  {| ra_publisher := ra_publisher s; ra_blocks := ra_blocks s; ra_has_callback := ra_has_callback s;
     ra_last_mismatch_keys := ks; ra_clock := ra_clock s; ra_notified := ra_notified s |}.

Definition with_agent_clock (w : Readings Z) (s : ReconciliationAgent) : ReconciliationAgent :=
  {| ra_publisher := ra_publisher s; ra_blocks := ra_blocks s; ra_has_callback := ra_has_callback s;
     ra_last_mismatch_keys := ra_last_mismatch_keys s; ra_clock := w; ra_notified := ra_notified s |}.

Definition notify (m : ReconciliationMismatch.t) (s : ReconciliationAgent) : ReconciliationAgent :=
  {| ra_publisher := ra_publisher s; ra_blocks := ra_blocks s; ra_has_callback := ra_has_callback s;
     ra_last_mismatch_keys := ra_last_mismatch_keys s; ra_clock := ra_clock s;
     ra_notified := if ra_has_callback s then ra_notified s ++ [m] else ra_notified s |}.

Definition mismatch_key (m : ReconciliationMismatch.t) : string :=
  ReconciliationMismatch.exchange m +:+ ":" +:+ ReconciliationMismatch.symbol m.

(** The body of the loop over the mismatches; the accumulator is the current
    keys and the symbols blocked in this cycle. *)
Definition handle_mismatch (acc : gset string * list string) (m : ReconciliationMismatch.t)
    : M ReconciliationAgent (gset string * list string) :=
  let '(current, symbols_blocked) := acc in
  let key := mismatch_key m in
  _ ← M_zoom ra_publisher with_publisher (publish m);
  s ← M_get;
  let '(blocked, reg) :=
    is_blocked (ReconciliationMismatch.symbol m) (ReconciliationMismatch.exchange m) (ra_blocks s) in
  let reg := if blocked then reg
             else block (ReconciliationMismatch.symbol m) (ReconciliationMismatch.exchange m) reg in
  _ ← M_put (notify m (with_blocks reg s));
  mret ({[key]} ∪ current, if blocked then symbols_blocked else symbols_blocked ++ [key]).

(** [exchange, symbol = key.split(":", 1)] followed by [clear]. *)
Definition clear_stale (symbols_cleared : list string) (key : string)
    : M ReconciliationAgent (list string) :=
  match str_split1 ":" key with
  | None => M_raise (ValueError "not enough values to unpack")
  | Some (exchange, symbol) =>
      _ ← M_modify (fun s => with_blocks (clear symbol exchange (ra_blocks s)) s);
      mret (symbols_cleared ++ [key])
  end.

Definition run_cycle (inp : CycleInput) : M ReconciliationAgent ReconciliationResult.t :=
  started_at ← M_zoom ra_clock with_agent_clock next_reading;
  broker_positions ← M_lift (ci_broker_positions inp);
  broker_orders ← M_lift (ci_broker_orders inp);
  internal_positions ← M_lift (ci_internal_positions inp);
  internal_orders ← M_lift (ci_internal_orders inp);
  let all_mismatches := diff_positions broker_positions internal_positions started_at
                        ++ diff_orders broker_orders internal_orders started_at in
  '(current, symbols_blocked) ← M_fold handle_mismatch (∅, []) all_mismatches;
  s ← M_get;
  symbols_cleared ← M_fold clear_stale [] (elements (ra_last_mismatch_keys s ∖ current));
  _ ← M_modify (with_keys current);
  completed_at ← M_zoom ra_clock with_agent_clock next_reading;
  mret (ReconciliationResult.mk started_at completed_at all_mismatches symbols_blocked
          symbols_cleared).

End Agent.

(** ** Facts about the diff *)

Lemma flat_map_nil {A B} (f : A -> list B) l : flat_map f l = [] <-> forall x, x ∈ l -> f x = [].
Proof.
  induction l as [|x l IH]; cbn; [set_solver|].
  rewrite app_nil, IH. split.
  - intros [H1 H2] y [->|Hy]%elem_of_cons; auto.
  - intros H. split; [apply H; by left|]. intros y Hy. apply H. by right.
Qed.

(** A loop over a dictionary with distinct keys reports nothing exactly when
    its body reports nothing for each entry. *)
Lemma dict_loop_nil {K V B} `{EqDecision K} (f : K -> V -> list B) (d : dict K V) :
  NoDup (dkeys d) ->
  flat_map (fun '(k, v) => f k v) d = [] <-> forall k v, dget k d = Some v -> f k v = [].
Proof.
  intros Hn. rewrite flat_map_nil. split.
  - intros H k v Hk. by apply (H (k, v)), dget_elem.
  - intros H [k v] Hin. by apply H, elem_dget.
Qed.

(** The two sides agree on a position key. *)
Definition positions_agree (broker : option BrokerPosition.t) (internal : option InternalPosition.t)
    : Prop :=
  match broker, internal with
  | Some b, Some i => BrokerPosition.quantity b = InternalPosition.quantity i
                      /\ price_diverges b i = false
  | Some b, None => BrokerPosition.quantity b = 0
  | None, Some i => InternalPosition.quantity i = 0
  | None, None => True
  end.

Definition orders_agree (broker : option BrokerOrder.t) (internal : option InternalOrder.t) : Prop :=
  match broker, internal with
  | Some b, Some i => str_upper (BrokerOrder.status b) = str_upper (InternalOrder.status i)
  | None, None => True
  | _, _ => False
  end.

Lemma diff_internal_position_nil bm ts k i :
  diff_internal_position bm ts k i = [] <-> positions_agree (dget k bm) (Some i).
Proof.
  unfold diff_internal_position, positions_agree. destruct (dget k bm) as [b|].
  - rewrite app_nil.
    destruct (Z.eqb_spec (BrokerPosition.quantity b) (InternalPosition.quantity i)),
      (price_diverges b i); cbn; intuition congruence.
  - destruct (Z.eqb_spec (InternalPosition.quantity i) 0); cbn; intuition congruence.
Qed.

Lemma diff_broker_position_nil im ts k b :
  diff_broker_position im ts k b = [] <-> (dget k im = None -> positions_agree (Some b) None).
Proof.
  unfold diff_broker_position, positions_agree, dmem. destruct (dget k im); cbn; [intuition congruence|].
  destruct (Z.eqb_spec (BrokerPosition.quantity b) 0); cbn; intuition congruence.
Qed.

Lemma diff_internal_order_nil bm ts k i :
  diff_internal_order bm ts k i = [] <-> orders_agree (dget k bm) (Some i).
Proof.
  unfold diff_internal_order, orders_agree. destruct (dget k bm) as [b|]; [|done].
  destruct (String.eqb_spec (str_upper (BrokerOrder.status b)) (str_upper (InternalOrder.status i)));
    cbn; intuition congruence.
Qed.

Lemma diff_broker_order_nil im ts k b :
  diff_broker_order im ts k b = [] <-> dget k im <> None.
Proof. unfold diff_broker_order, dmem. destruct (dget k im); cbn; intuition congruence. Qed.

(** ** Facts about the registry *)

Section RegistryFacts.
Context {R : Type} `{RedisKVLaws R}.
Implicit Types reg : BlockRegistry R.

(** A block is in force: in memory or on the server. *)
Definition active reg (k : string) : Prop :=
  k ∈ br_memory reg
  \/ match br_redis reg with Some r => is_Some (redis_kv r !! k) | None => False end.

Lemma block_active symbol exchange reg :
  br_ttl reg = None ->
  br_ttl (block symbol exchange reg) = None
  /\ active (block symbol exchange reg) (block_key symbol exchange)
  /\ (forall k, active reg k -> active (block symbol exchange reg) k)
  /\ (forall k, active (block symbol exchange reg) k -> active reg k \/ k = block_key symbol exchange).
Proof.
  intros Ht. unfold block, active. rewrite Ht.
  destruct (br_redis reg) as [r|] eqn:Er; cbn; [|set_solver].
  destruct (redis_set _ "true" None r) as [[u|e] r'] eqn:Es; cbn;
    apply redis_set_spec in Es as [Hk | [Hk He]]; try done; rewrite Hk;
    (split; [done|]); (split; [|split]).
  - right. rewrite lookup_insert_eq. by eexists.
  - intros k [Hm|Hs]; [by left|right]. destruct (decide (block_key symbol exchange = k)) as [<-|].
    + rewrite lookup_insert_eq. by eexists.
    + by rewrite lookup_insert_ne.
  - intros k [?|Hs]; [by left; left|]. destruct (decide (block_key symbol exchange = k)) as [<-|];
      [by right|]. rewrite lookup_insert_ne in Hs by done. by left; right.
  - left. set_solver.
  - intros k [?|?]; [left; set_solver|right]. destruct (decide (block_key symbol exchange = k)) as [<-|].
    + rewrite lookup_insert_eq. by eexists.
    + by rewrite lookup_insert_ne.
  - intros k [Hm|Hs]; [set_solver|]. destruct (decide (block_key symbol exchange = k)) as [<-|];
      [by right|]. rewrite lookup_insert_ne in Hs by done. by left; right.
  - left. set_solver.
  - intros k [?|?]; [left; set_solver|by right].
  - intros k [Hm|Hs]; [set_solver|by left; right].
Qed.

Lemma is_blocked_spec symbol exchange reg b reg' :
  is_blocked symbol exchange reg = (b, reg') ->
  br_ttl reg' = br_ttl reg /\ br_memory reg' = br_memory reg
  /\ (forall k, active reg' k <-> active reg k)
  /\ (b = true -> active reg (block_key symbol exchange)).
Proof.
  unfold is_blocked, active. case_bool_decide.
  { intros [= <- <-]. by split_and!; [..|auto]. }
  destruct (br_redis reg) as [r|] eqn:Er; [|intros [= <- <-]; rewrite Er; by split_and!].
  destruct (redis_get _ r) as [[raw|e] r'] eqn:Eg; intros [= <- <-]; cbn;
    apply redis_get_spec in Eg as [Hk Hv]; rewrite Hk; split_and!; try done.
  intros Hr%bool_decide_eq_true. right. rewrite (Hv raw eq_refl) in Hr.
  by destruct (redis_kv r !! _); [eexists|].
Qed.

Lemma clear_active symbol exchange reg k :
  (active (clear symbol exchange reg) k -> active reg k)
  /\ (k <> block_key symbol exchange -> active reg k -> active (clear symbol exchange reg) k).
Proof.
  unfold clear, active. cbn. destruct (br_redis reg) as [r|]; [|set_solver].
  destruct (redis_delete (block_key symbol exchange) r) as [v r'] eqn:Ed. cbn.
  apply redis_delete_spec in Ed as [Hk | [Hk _]]; rewrite Hk; [|set_solver].
  split.
  - intros [?|Hs]; [set_solver|]. right.
    destruct (decide (block_key symbol exchange = k)) as [<-|].
    + rewrite lookup_delete_eq in Hs. by destruct Hs.
    + by rewrite lookup_delete_ne in Hs.
  - intros Hne [?|Hs]; [set_solver|]. right. by rewrite lookup_delete_ne.
Qed.

End RegistryFacts.

(** ** Facts about the cycle *)

(** The server key of a mismatch key. *)
Definition flag (key : string) : string := RECONCILIATION_BLOCKED_REDIS_KEY_PREFIX +:+ ":" +:+ key.

Lemma flag_inj a b : flag a = flag b -> a = b.
Proof. unfold flag. intros E. by apply (inj (String.append _)), (inj (String.append _)) in E. Qed.

Definition block_key_of (m : ReconciliationMismatch.t) : string :=
  block_key (ReconciliationMismatch.symbol m) (ReconciliationMismatch.exchange m).

Lemma block_key_flag m : block_key_of m = flag (mismatch_key m).
Proof. done. Qed.

Lemma split_key_flag key ex sym : str_split1 ":" key = Some (ex, sym) -> block_key sym ex = flag key.
Proof. intros E. apply str_split1_Some in E as ->. done. Qed.

Section AgentFacts.
Context {R : Type} `{RedisKVLaws R} `{RedisStream R} `{ProtoCodec}.

#[local] Abbreviation ReconciliationAgent := (ReconciliationAgent R).
Implicit Types s : ReconciliationAgent.

Definition blocked_now s (k : string) : Prop := active (ra_blocks s) k.

(** What a step of the cycle may do to the blocks: keep those in [keep] and
    add none outside [add]. *)
Definition blocks_step (keep add : string -> Prop) s s' : Prop :=
  (br_ttl (ra_blocks s) = None -> br_ttl (ra_blocks s') = None)
  /\ ra_last_mismatch_keys s' = ra_last_mismatch_keys s
  /\ (forall k, keep k -> blocked_now s k -> blocked_now s' k)
  /\ (forall k, blocked_now s' k -> blocked_now s k \/ add k).

Lemma handle_mismatch_spec acc m s acc' s' :
  br_ttl (ra_blocks s) = None ->
  handle_mismatch acc m s = (Ok acc', s') ->
  acc'.1 = {[mismatch_key m]} ∪ acc.1 /\ blocked_now s' (block_key_of m)
  /\ blocks_step (fun _ => True) (fun k => k = block_key_of m) s s'.
Proof.
  intros Ht. unfold handle_mismatch. destruct acc as [cur sb]. M_unfold. unfold M_zoom.
  destruct (publish m (ra_publisher s)) as [[o|e] p]; cbn; [|done].
  destruct (is_blocked _ _ (ra_blocks s)) as [b reg] eqn:Eb.
  apply is_blocked_spec in Eb as (Ht' & _ & Hiff & Htrue). rewrite Ht in Ht'.
  intros [= <- <-]. split; [done|]. unfold blocks_step, blocked_now. cbn.
  destruct b; cbn.
  - split; [by apply Hiff, Htrue|]. split_and!; [done|done| |].
    + intros k _. by apply Hiff.
    + intros k Hk. left. by apply Hiff.
  - destruct (block_active (ReconciliationMismatch.symbol m) (ReconciliationMismatch.exchange m)
                reg Ht') as (Ht2 & Ha & Hmono & Hnew).
    split; [done|]. split_and!; [done|done| |].
    + intros k _ Hk. by apply Hmono, Hiff.
    + intros k Hk. destruct (Hnew k Hk) as [Hk'| ->]; [left; by apply Hiff|by right].
Qed.

Lemma handle_all_spec ms : forall acc s acc' s',
  br_ttl (ra_blocks s) = None ->
  M_fold handle_mismatch acc ms s = (Ok acc', s') ->
  acc'.1 = list_to_set (mismatch_key <$> ms) ∪ acc.1
  /\ (forall m, m ∈ ms -> blocked_now s' (block_key_of m))
  /\ blocks_step (fun _ => True) (fun k => exists m, m ∈ ms /\ k = block_key_of m) s s'.
Proof.
  induction ms as [|m ms IH]; intros acc s acc' s' Ht.
  - intros [= <- <-]. split; [set_solver|]. split; [set_solver|]. unfold blocks_step. naive_solver.
  - cbn [M_fold]. M_unfold. destruct (handle_mismatch acc m s) as [[acc1|e] s1] eqn:E1; [|done].
    intros E2. apply handle_mismatch_spec in E1 as (Hc1 & Hb1 & Ht1 & Hl1 & Hk1 & Hn1); [|done].
    apply IH in E2 as (Hc2 & Hb2 & Ht2 & Hl2 & Hk2 & Hn2); [|by apply Ht1].
    split; [rewrite Hc2, Hc1; set_solver|]. split.
    + intros m' [->|Hm]%elem_of_cons; [by apply Hk2|by apply Hb2].
    + unfold blocks_step. split_and!; [auto|congruence|auto|].
      intros k Hk. destruct (Hn2 k Hk) as [Hk'|(m' & Hm & ->)].
      * destruct (Hn1 k Hk') as [?| ->]; [by left|right; exists m; set_solver].
      * right. exists m'. set_solver.
Qed.

Lemma clear_stale_eq acc key s :
  clear_stale acc key s
  = match str_split1 ":" key with
    | None => (Raise (ValueError "not enough values to unpack"), s)
    | Some (exchange, symbol) =>
        (Ok (acc ++ [key]), with_blocks (clear symbol exchange (ra_blocks s)) s)
    end.
Proof. unfold clear_stale. M_unfold. by destruct (str_split1 ":" key) as [[ex sym]|]. Qed.

Lemma clear_all_spec keys : forall acc s res s',
  M_fold clear_stale acc keys s = (res, s') ->
  blocks_step (fun k => forall key, key ∈ keys -> k <> flag key) (fun _ => False) s s'.
Proof.
  induction keys as [|key keys IH]; intros acc s res s'.
  - intros [= <- <-]. unfold blocks_step. naive_solver.
  - rewrite M_fold_cons, clear_stale_eq.
    destruct (str_split1 ":" key) as [[ex sym]|] eqn:Es.
    2: { intros [= <- <-]. unfold blocks_step. naive_solver. }
    apply split_key_flag in Es. intros E. apply IH in E as (Ht & Hl & Hk & Hn).
    unfold blocks_step, blocked_now in *. cbn in *. split_and!; [done|done| |].
    + intros k Hne Ha. apply Hk; [set_solver|]. apply clear_active; [|done].
      rewrite Es. apply Hne. by left.
    + intros k Ha. destruct (Hn k Ha) as [Ha'|[]]. left. by apply clear_active in Ha'.
Qed.

Lemma run_cycle_inv inp s res s' :
  run_cycle inp s = (Ok res, s') ->
  exists cur sb s0 s1 s2,
    ra_blocks s0 = ra_blocks s /\ ra_last_mismatch_keys s0 = ra_last_mismatch_keys s
    /\ M_fold handle_mismatch (∅, []) (ReconciliationResult.mismatches res) s0 = (Ok (cur, sb), s1)
    /\ M_fold clear_stale [] (elements (ra_last_mismatch_keys s1 ∖ cur)) s1
       = (Ok (ReconciliationResult.symbols_cleared res), s2)
    /\ ra_blocks s' = ra_blocks s2 /\ ra_last_mismatch_keys s' = cur.
Proof.
  unfold run_cycle. M_unfold. unfold M_zoom, next_reading. cbn.
  destruct (ci_broker_positions inp) as [bps|e]; [|done].
  destruct (ci_broker_orders inp) as [bos|e]; [|done].
  destruct (ci_internal_positions inp) as [ips|e]; [|done].
  destruct (ci_internal_orders inp) as [ios|e]; [|done].
  set (s0 := with_agent_clock _ s). set (ms := diff_positions _ _ _ ++ _).
  destruct (M_fold handle_mismatch (∅, []) ms s0) as [[[cur sb]|e] s1] eqn:E1; [|done]. cbn.
  destruct (M_fold clear_stale [] _ s1) as [[cl|e] s2] eqn:E2; [|done]. cbn.
  intros [= <- <-]. cbn. by exists cur, sb, s0, s1, s2.
Qed.

(** The effect of a completed cycle on the blocks. *)
Lemma run_cycle_blocks inp s res s' :
  br_ttl (ra_blocks s) = None ->
  run_cycle inp s = (Ok res, s') ->
  let ms := ReconciliationResult.mismatches res in
  br_ttl (ra_blocks s') = None
  /\ ra_last_mismatch_keys s' = list_to_set (mismatch_key <$> ms)
  /\ (forall m, m ∈ ms -> blocked_now s' (block_key_of m))
  /\ (forall k, (forall key, key ∈ ra_last_mismatch_keys s -> k <> flag key) ->
                blocked_now s k -> blocked_now s' k)
  /\ (forall k, blocked_now s' k -> blocked_now s k \/ exists m, m ∈ ms /\ k = block_key_of m).
Proof.
  intros Ht E. apply run_cycle_inv in E as (cur & sb & s0 & s1 & s2 & Hb0 & Hl0 & E1 & E2 & Hb & Hl).
  apply handle_all_spec in E1 as (Hc & Hm & Ht1 & Hl1 & Hk1 & Hn1); [|by rewrite Hb0].
  apply clear_all_spec in E2 as (Ht2 & Hl2 & Hk2 & Hn2).
  unfold blocked_now in *. rewrite Hb, Hl. cbn [fst] in Hc. rewrite Hb0 in *. cbv zeta. split_and!.
  - auto.
  - set_solver.
  - intros m Hin. apply Hk2; [|by apply Hm]. intros key [_ Hno]%elem_of_elements%elem_of_difference Heq.
    rewrite block_key_flag in Heq. apply flag_inj in Heq. apply Hno. rewrite Hc, <- Heq.
    apply elem_of_union_l, elem_of_list_to_set. by apply list_elem_of_fmap_2.
  - intros k Hne Hk. apply Hk2; [|by apply Hk1]. intros key [Hin _]%elem_of_elements%elem_of_difference.
    apply Hne. by rewrite <- Hl0, <- Hl1.
  - intros k Hk. destruct (Hn2 k Hk) as [Hk'|[]]. auto.
Qed.

(** Without a server the cycle never acquires one, and clearing is exact. *)
Lemma handle_all_memory ms : forall acc s res s',
  br_redis (ra_blocks s) = None ->
  M_fold handle_mismatch acc ms s = (res, s') -> br_redis (ra_blocks s') = None.
Proof.
  induction ms as [|m ms IH]; intros acc s res s' Hr; [by intros [= <- <-]|].
  rewrite M_fold_cons. destruct (handle_mismatch acc m s) as [r1 s1] eqn:E1.
  assert (Hr1 : br_redis (ra_blocks s1) = None).
  { revert E1. unfold handle_mismatch. destruct acc as [cur sb]. M_unfold. unfold M_zoom.
    destruct (publish m (ra_publisher s)) as [[o|e] p]; cbn; [|by intros [= <- <-]].
    unfold is_blocked, block. cbn. rewrite Hr.
    case_bool_decide; intros [= <- <-]; cbn; rewrite ?Hr; done. }
  destruct r1 as [a|e]; [by apply IH|by intros [= <- <-]].
Qed.

Lemma clear_all_memory keys : forall acc s,
  br_redis (ra_blocks s) = None ->
  (forall key, key ∈ keys -> is_Some (str_split1 ":" key)) ->
  exists s', M_fold clear_stale acc keys s = (Ok (acc ++ keys), s')
    /\ br_redis (ra_blocks s') = None
    /\ forall k, k ∈ br_memory (ra_blocks s') <->
         k ∈ br_memory (ra_blocks s) /\ forall key, key ∈ keys -> k <> flag key.
Proof.
  induction keys as [|key keys IH]; intros acc s Hr Hs.
  - exists s. rewrite app_nil_r. split_and!; [done|done|set_solver].
  - rewrite M_fold_cons, clear_stale_eq. destruct (Hs key) as [[ex sym] Es]; [by left|]. rewrite Es.
    apply split_key_flag in Es.
    edestruct (IH (acc ++ [key])) as (s' & -> & Hr' & Hm'); [|intros; apply Hs; by right|].
    { cbn. by rewrite Hr. }
    exists s'. rewrite <- app_assoc. split_and!; [done|done|].
    intros k. rewrite Hm'. cbn. rewrite Es. set_solver.
Qed.

Lemma handle_all_ok ms : forall acc s,
  (forall p, is_ok (serialize_mismatch p) = true) ->
  is_ok (M_fold handle_mismatch acc ms s).1 = true.
Proof.
  intros acc s Hp. revert acc s. induction ms as [|m ms IH]; intros acc s; [done|].
  rewrite M_fold_cons. assert (Hok : is_ok (handle_mismatch acc m s).1 = true).
  { unfold handle_mismatch. destruct acc as [cur sb]. M_unfold. unfold M_zoom, publish. M_unfold.
    set (pm := ProtoMismatch.mk _ _ _ _ _). specialize (Hp pm).
    destruct (serialize_mismatch pm) as [payload|e]; [|done]. cbn.
    destruct (mp_redis (ra_publisher s)) as [r|]; cbn; [destruct (redis_xadd _ _ _ r) as [[eid|e] r']; cbn|];
      by destruct (is_blocked _ _ _). }
  destruct (handle_mismatch acc m s) as [[a|e] s1]; [apply IH|done].
Qed.

(** The in-memory agent between cycles. *)
Definition memory_inv s : Prop :=
  br_redis (ra_blocks s) = None /\ br_ttl (ra_blocks s) = None
  /\ (forall key, key ∈ ra_last_mismatch_keys s -> is_Some (str_split1 ":" key))
  /\ forall k, k ∈ br_memory (ra_blocks s)
               <-> exists key, key ∈ ra_last_mismatch_keys s /\ k = flag key.

Lemma run_cycle_memory inp s res s' :
  memory_inv s -> run_cycle inp s = (Ok res, s') -> memory_inv s'.
Proof.
  intros (Hr & Ht & Hs & Hm) E. pose proof E as E'.
  apply run_cycle_blocks in E' as (Ht' & Hl' & Hb' & Hk' & Hn'); [|done].
  apply run_cycle_inv in E as (cur & sb & s0 & s1 & s2 & Hb0 & Hl0 & E1 & E2 & Hb & Hl).
  assert (Hl1 : ra_last_mismatch_keys s1 = ra_last_mismatch_keys s).
  { apply handle_all_spec in E1 as (_ & _ & _ & Hx & _); [congruence|by rewrite Hb0]. }
  apply handle_all_memory in E1; [|by rewrite Hb0].
  edestruct (clear_all_memory (elements (ra_last_mismatch_keys s1 ∖ cur)) [] s1)
    as (s3 & E3 & Hr3 & Hm3); [done| |].
  { intros key Hkey. apply Hs. rewrite <- Hl1. set_solver. }
  rewrite E3 in E2. injection E2 as _ ->.
  unfold memory_inv. rewrite Hb. split_and!; [done|by rewrite <- Hb| |].
  - intros key. rewrite Hl', elem_of_list_to_set. intros (m & -> & _)%list_elem_of_fmap.
    apply str_split1_is_Some.
  - assert (Hact : forall t k, br_redis (ra_blocks t) = None ->
               blocked_now t k <-> k ∈ br_memory (ra_blocks t)).
    { intros t k Hn. unfold blocked_now, active. rewrite Hn. tauto. }
    intros k. rewrite Hl'. split.
    + intros Hin. destruct (Hn' k) as [Hold|(m & Hin' & ->)].
      { apply Hact; rewrite Hb; done. }
      * apply Hact, Hm in Hold as (key & Hkey & ->); [|done]. exists key. split; [|done].
        destruct (decide (key ∈ cur)) as [Hc|Hc]; [by rewrite <- Hl', Hl|].
        exfalso. apply Hm3 in Hin as [_ Hne]. apply (Hne key); [|done].
        apply elem_of_elements, elem_of_difference. split; [by rewrite Hl1|done].
      * exists (mismatch_key m). split; [|done].
        apply elem_of_list_to_set. by apply list_elem_of_fmap_2.
    + intros (key & (m & -> & Hin)%elem_of_list_to_set%list_elem_of_fmap & ->).
      rewrite <- Hb. apply Hact; [by rewrite Hb|]. by apply (Hb' m).
Qed.

(** A cycle of the background timer, which drops exceptions. *)
Inductive agent_step s : ReconciliationAgent -> Prop :=
| cycle_completed inp res s' : run_cycle inp s = (Ok res, s') -> agent_step s s'
| cycle_raised inp e s' : run_cycle inp s = (Raise e, s') -> agent_step s s'.

(** A cycle raises only when a provider does, before anything changed. *)
Lemma run_cycle_raises inp s e s' :
  (forall p, is_ok (serialize_mismatch p) = true) -> memory_inv s ->
  run_cycle inp s = (Raise e, s') -> memory_inv s'.
Proof.
  intros Hp Hi. unfold run_cycle. M_unfold. unfold M_zoom, next_reading. cbn.
  set (s0 := with_agent_clock _ s). assert (Hi0 : memory_inv s0) by exact Hi.
  destruct (ci_broker_positions inp) as [bps|]; [|by intros [= _ <-]].
  destruct (ci_broker_orders inp) as [bos|]; [|by intros [= _ <-]].
  destruct (ci_internal_positions inp) as [ips|]; [|by intros [= _ <-]].
  destruct (ci_internal_orders inp) as [ios|]; [|by intros [= _ <-]].
  set (ms := diff_positions _ _ _ ++ _).
  pose proof (handle_all_ok ms (∅, []) s0 Hp) as Hok.
  destruct (M_fold handle_mismatch (∅, []) ms s0) as [[[cur sb]|] s1] eqn:E1; [|done]. cbn.
  destruct Hi0 as (Hr & Ht & Hs & _).
  edestruct (clear_all_memory (elements (ra_last_mismatch_keys s1 ∖ cur)) [] s1) as (s2 & -> & _).
  - by eapply handle_all_memory.
  - intros key Hkey. apply handle_all_spec in E1 as (_ & _ & _ & Hl & _); [|done].
    apply Hs. rewrite <- Hl. set_solver.
  - cbn. done.
Qed.

(** ** Properties of reconciliation *)

(** A cycle reports no mismatch exactly when the two sides agree: for
    every position key the quantities are equal (or the missing side counts
    as zero) and the prices are within tolerance, and for every order both
    sides know it under the same status up to case. *)
Theorem reconciled_iff_no_mismatch bps ips bos ios ts :
  diff_positions bps ips ts ++ diff_orders bos ios ts = [] <->
  (forall key, positions_agree (dget key (dict_of broker_key bps))
                 (dget key (dict_of internal_key ips)))
  /\ (forall coid, orders_agree (dget coid (dict_of BrokerOrder.client_order_id bos))
                      (dget coid (dict_of InternalOrder.client_order_id ios))).
Proof.
  unfold diff_positions, diff_orders. rewrite !app_nil, !dict_loop_nil by apply dict_of_NoDup.
  split.
  - intros [[Hip Hbp] [Hio Hbo]]. split; intros k.
    + destruct (dget k (dict_of internal_key ips)) as [i|] eqn:Ei.
      * specialize (Hip k i Ei). by apply diff_internal_position_nil in Hip.
      * destruct (dget k (dict_of broker_key bps)) as [b|] eqn:Eb; [|done].
        specialize (Hbp k b Eb). apply diff_broker_position_nil in Hbp; [exact Hbp|exact Ei].
    + destruct (dget k (dict_of InternalOrder.client_order_id ios)) as [i|] eqn:Ei.
      * specialize (Hio k i Ei). by apply diff_internal_order_nil in Hio.
      * destruct (dget k (dict_of BrokerOrder.client_order_id bos)) as [b|] eqn:Eb; [|done].
        specialize (Hbo k b Eb). by apply diff_broker_order_nil in Hbo.
  - intros [HP HO]. split_and!.
    + intros k i Hk. apply diff_internal_position_nil. specialize (HP k). by rewrite Hk in HP.
    + intros k b Hk. apply diff_broker_position_nil. intros Hn. specialize (HP k).
      by rewrite Hk, Hn in HP.
    + intros k i Hk. apply diff_internal_order_nil. specialize (HO k). by rewrite Hk in HO.
    + intros k b Hk. apply diff_broker_order_nil. intros Hn. specialize (HO k).
      by rewrite Hk, Hn in HO.
Qed.

(** C9. Every mismatched symbol is blocked when the cycle completes, however
    the Redis server behaves: the block is on the server or, when the write
    raised, in memory (no expiry being configured). *)
Theorem mismatch_blocks_entries inp s res s' m :
  br_ttl (ra_blocks s) = None ->
  run_cycle inp s = (Ok res, s') ->
  m ∈ ReconciliationResult.mismatches res ->
  active (ra_blocks s') (block_key (ReconciliationMismatch.symbol m) (ReconciliationMismatch.exchange m)).
Proof. intros Ht E Hin. apply run_cycle_blocks in E as (_ & _ & Hb & _); [|done]. by apply (Hb m). Qed.

(** C19. In memory the blocks are exact: in any run of the agent, with cycles
    that raise in between, the symbols blocked after a completed cycle are
    those that this cycle found mismatched. *)
Theorem in_memory_blocks_exact publisher has_callback clock s inp res s' symbol exchange :
  (forall p, is_ok (serialize_mismatch p) = true) ->
  rtc agent_step (new_agent publisher (new_block_registry None None) has_callback clock) s ->
  run_cycle inp s = (Ok res, s') ->
  (is_blocked symbol exchange (ra_blocks s')).1 = true <->
  exists m, m ∈ ReconciliationResult.mismatches res /\ mismatch_key m = position_key symbol exchange.
Proof.
  intros Hp Hreach E. assert (Hi : memory_inv s).
  { refine (rtc_ind_l (fun t => memory_inv t -> memory_inv s) s _ _ _ Hreach _); [done| |].
    - intros x y Hstep _ IH Hx. apply IH. destruct Hstep as [inp' r y Ey|inp' e y Ey].
      + by eapply run_cycle_memory.
      + by eapply run_cycle_raises.
    - unfold memory_inv. cbn. split_and!; [done|done|set_solver|set_solver]. }
  pose proof (run_cycle_memory _ _ _ _ Hi E) as (Hr & _ & _ & Hm).
  destruct Hi as (_ & Ht & _). apply run_cycle_blocks in E as (_ & Hl & _); [|done].
  unfold is_blocked. rewrite Hr. rewrite Hl in Hm.
  change (block_key symbol exchange) with (flag (position_key symbol exchange)).
  case_bool_decide as Hd; cbn; split; [|done|done|].
  - intros _. apply Hm in Hd as (key & (m & -> & Hin)%elem_of_list_to_set%list_elem_of_fmap & Heq).
    apply flag_inj in Heq. by exists m.
  - intros (m & Hin & Hk). exfalso. apply Hd, Hm. exists (mismatch_key m).
    split; [|by rewrite Hk]. apply elem_of_list_to_set. by apply list_elem_of_fmap_2.
Qed.

(** A block the agent does not remember is never lifted: a cycle keeps
    every block whose key is not among the mismatches of its previous cycle,
    reconciled or not.  An agent restarted on a server that still holds
    blocks therefore never clears them. *)
Theorem untracked_blocks_persist inp s res s' symbol exchange :
  br_ttl (ra_blocks s) = None ->
  run_cycle inp s = (Ok res, s') ->
  position_key symbol exchange ∉ ra_last_mismatch_keys s ->
  active (ra_blocks s) (block_key symbol exchange) ->
  active (ra_blocks s') (block_key symbol exchange).
Proof.
  intros Ht E Hno. apply run_cycle_blocks in E as (_ & _ & _ & Hk & _); [|done].
  apply Hk. intros key Hin Heq. apply flag_inj in Heq as <-. done.
Qed.

End AgentFacts.

(** ** Evaluation on concrete inputs *)

(** A stand-in for the protobuf encoder. *)
Definition plain_codec : ProtoCodec :=
  {| serialize_mismatch p := Ok (ProtoMismatch.symbol p +:+ "|" +:+ ProtoMismatch.field p) |}.
#[local] Existing Instance plain_codec.

Definition fixed_clock : Readings Z := {| reading := fun _ => 1000; taken := 0 |}.

Definition offline_publisher : MismatchPublisher MemRedis :=
  {| mp_redis := None; mp_stream_key := RECONCILIATION_MISMATCH_REDIS_STREAM; mp_maxlen := None |}.

Definition sample_agent (server : option MemRedis) : ReconciliationAgent MemRedis :=
  new_agent offline_publisher (new_block_registry server None) true fixed_clock.

(** The broker lost an internal TCS position. *)
Definition diverged : CycleInput :=
  {| ci_broker_positions := Ok []; ci_broker_orders := Ok [];
     ci_internal_positions := Ok [InternalPosition.mk "TCS" "NSE" 10 (dec 100 0)];
     ci_internal_orders := Ok [] |}.

Definition reconciled : CycleInput :=
  {| ci_broker_positions := Ok []; ci_broker_orders := Ok [];
     ci_internal_positions := Ok []; ci_internal_orders := Ok [] |}.

Definition tcs_missing : ReconciliationMismatch.t :=
  ReconciliationMismatch.mk "TCS" "NSE" POSITION_MISSING "10" "0" 1000.

Definition outcome (x : result ReconciliationResult.t * ReconciliationAgent MemRedis)
    : ReconciliationResult.t :=
  match x.1 with Ok r => r | Raise _ => ReconciliationResult.mk 0 0 [] [] [] end.

(** Two broker positions in one symbol under different products share a key,
    and only the last one is compared. *)
Example products_collapse :
  diff_positions
    [BrokerPosition.mk "TCS" "NSE" 500 (dec 100 0) "CNC"; BrokerPosition.mk "TCS" "NSE" 10 (dec 100 0) "MIS"]
    [InternalPosition.mk "TCS" "NSE" 10 (dec 100 0)] 0 = [].
Proof. vm_compute. reflexivity. Qed.

Lemma mismatch_blocks_entries_witness :
  active (ra_blocks (run_cycle diverged (sample_agent (Some mem_down))).2) (block_key "TCS" "NSE").
Proof.
  apply (mismatch_blocks_entries diverged (sample_agent (Some mem_down))
           (outcome (run_cycle diverged (sample_agent (Some mem_down))))
           (run_cycle diverged (sample_agent (Some mem_down))).2 tcs_missing).
  - reflexivity.
  - vm_compute. reflexivity.
  - vm_compute. left.
Defined.

Lemma in_memory_blocks_exact_witness :
  let x := run_cycle diverged (sample_agent None) in
  (is_blocked "TCS" "NSE" (ra_blocks x.2)).1 = true <->
  exists m, m ∈ ReconciliationResult.mismatches (outcome x)
            /\ mismatch_key m = position_key "TCS" "NSE".
Proof.
  apply (in_memory_blocks_exact offline_publisher true fixed_clock (sample_agent None) diverged).
  - intros p. reflexivity.
  - apply rtc_refl.
  - vm_compute. reflexivity.
Defined.

(** A server that holds a block from an earlier process. *)
Definition blocked_server : MemRedis :=
  {| mem_kv := <[block_key "TCS" "NSE" := "true"]> ∅; mem_lists := ∅; mem_streams := ∅;
     mem_up := true |}.

Lemma untracked_blocks_persist_witness :
  active (ra_blocks (run_cycle reconciled (sample_agent (Some blocked_server))).2)
    (block_key "TCS" "NSE").
Proof.
  apply (untracked_blocks_persist reconciled (sample_agent (Some blocked_server))
           (outcome (run_cycle reconciled (sample_agent (Some blocked_server))))).
  - reflexivity.
  - vm_compute. reflexivity.
  - apply not_elem_of_empty.
  - right. vm_compute. eexists. reflexivity.
Defined.
