(* ===== verification/Session.v ===== *)
(** * Market calendar and sessions ([shared/session_manager.py])

    The holiday calendar with its cache and fail-closed fallback, the session
    state machine, the ASX staggered-open groups, the square-off scheduler and
    the [market_hours_only] gate, for the [RegionConfig] of
    [shared/core/config.py].  The conversion of an instant to the region's
    timezone is left to the caller: operations take the local date and time
    of day.  A holiday source is a parameter and the cache directory a map
    from years to what the files hold, with the answer of the disk to a write
    as a parameter; [Config] has the sources of the exchanges and the files as
    JSON documents. *)

From S2P Require Import Prelude PyDict PyText Constants MarketData Compliance.
Local Open Scope Z_scope.

(** ** Dates and times of day *)

Record Date := { year : Z; month : Z; day : Z }.

#[export] Instance Date_eq_dec : EqDecision Date.
Proof. solve_decision. Defined.

#[export] Instance Date_countable : Countable Date.
Proof.
  refine (inj_countable' (fun d => (year d, month d, day d))
            (fun t => {| year := t.1.1; month := t.1.2; day := t.2 |}) _).
  by intros [].
Defined.

Definition is_leap (y : Z) : bool :=
  (y mod 4 =? 0) && (negb (y mod 100 =? 0) || (y mod 400 =? 0)).

Definition days_before_year (y : Z) : Z :=
  let y := y - 1 in y * 365 + y / 4 - y / 100 + y / 400.

Definition days_before_month (y m : Z) : Z :=
  nth (Z.to_nat m) [0; 0; 31; 59; 90; 120; 151; 181; 212; 243; 273; 304; 334] 0
  + (if (2 <? m) && is_leap y then 1 else 0).

(** [date.toordinal()] and [date.weekday()] (Monday is 0). *)
Definition toordinal (d : Date) : Z :=
  days_before_year (year d) + days_before_month (year d) (month d) + day d.

Definition weekday (d : Date) : Z := (toordinal d + 6) mod 7.

(** A local wall-clock reading: the date and the microseconds since midnight. *)
Record LocalTime := { lt_date : Date; lt_time : Z }.

Definition at_time (h m s : Z) : Z := h * HOUR + m * MINUTE + s * SECOND.

Definition parse_hhmm (value : string) : result Z :=
  match str_split1 ":" value with
  | Some (hour_str, minute_str) =>
      if str_has ":" minute_str then Raise (ValueError "too many values to unpack")
      else
        h ← py_int hour_str;
        m ← py_int minute_str;
        if (0 <=? h) && (h <=? 23) then
          if (0 <=? m) && (m <=? 59) then mret (at_time h m 0)
          else Raise (ValueError "minute must be in 0..59")
        else Raise (ValueError "hour must be in 0..23")
  | None => Raise (ValueError "not enough values to unpack")
  end.

(** ** Region configuration ([core/config.py], [core/types.py]) *)

Module RegionConfig.
Record t := mk {
  app_id : string;
  exchange : string;
  broker_name : string;
  timezone : string;
  pre_market_local : string;
  market_open_local : string;
  market_close_local : string;
  square_off_local : string;
  snapshot_window_start_local : option string;
}.
End RegionConfig.

(** [apps/india/config.yaml] and [apps/australia/config.yaml] *)
Definition india_region : RegionConfig.t :=
  RegionConfig.mk "india" "NSE" "zerodha_kite" "Asia/Kolkata" "08:45" "09:15" "15:30" "15:10"
    (Some "14:45").

Definition australia_region : RegionConfig.t :=
  RegionConfig.mk "australia" "ASX" "interactive_brokers" "Australia/Sydney" "09:15" "10:00" "16:00"
    "15:50" None.

Inductive SessionState : Type :=
| CLOSED | PRE_MARKET | OPEN | SNAPSHOT_WINDOW | APPROACHING_CLOSE.

#[export] Instance SessionState_eq_dec : EqDecision SessionState.
Proof. solve_decision. Defined.

Definition state_value (s : SessionState) : string :=
  match s with
  | CLOSED => "CLOSED" | PRE_MARKET => "PRE_MARKET" | OPEN => "OPEN"
  | SNAPSHOT_WINDOW => "SNAPSHOT_WINDOW" | APPROACHING_CLOSE => "APPROACHING_CLOSE"
  end.

(** ** Holiday calendar *)

(** A cache file: [None] when it cannot be read or parsed. *)
Definition CacheFile : Type := option (gset Date * Z).

(** What the disk answers to the write of a cache file: it is written, or the
    call raises before it opened the file, or it raises and leaves a file that
    reads as none. *)
Inductive WriteOutcome := Written | NotOpened (e : exn) | Truncated (e : exn).

Class CacheDisk := { write_outcome : string -> Z -> WriteOutcome }.

(** A disk on which every write succeeds. *)
Definition healthy_disk : CacheDisk := {| write_outcome _ _ := Written |}.

Section Calendar.
(** The live source of one exchange. *)
Context `{CacheDisk} (exchange : string) (fetch_holidays : Z -> result (gset Date)).

(** The cache directory, by year. *)
Definition CacheDir : Type := gmap Z CacheFile.

Definition read_cache (y : Z) (cache : CacheDir) : option (gset Date * Z) :=
  match cache !! y with Some file => file | None => None end.

(** [now] is [datetime.now(UTC)]. *)
Definition write_cache (y : Z) (holidays : gset Date) (now : Z) : M CacheDir unit :=
  match write_outcome exchange y with
  | Written => M_modify (insert y (Some (holidays, now)))
  | NotOpened e => M_raise e
  | Truncated e => _ ← M_modify (delete y); M_raise e
  end.

Definition get_holidays (y : Z) (now : Z) : M CacheDir (gset Date) :=
  cache ← M_get;
  let cached := read_cache y cache in
  let fresh_enough :=
    match cached with
    | Some (holidays, fetched_at) =>
        if now - fetched_at <=? HOLIDAY_CACHE_MAX_AGE_DAYS * DAY then Some holidays else None
    | None => None
    end in
  match fresh_enough with
  | Some holidays => mret holidays
  | None =>
      match fetch_holidays y with
      | Ok fresh => _ ← write_cache y fresh now; mret fresh
      | Raise (CalendarFetchError msg) =>
          match cached with
          | Some (holidays, _) => mret holidays
          | None =>
              M_raise (CalendarUnavailableError
                ("No cached holidays for " +:+ exchange +:+ " " +:+ pretty y +:+
                 " and the live fetch failed: " +:+ msg))
          end
      | Raise e => M_raise e
      end
  end.

Definition is_trading_day (d : Date) (now : Z) : M CacheDir bool :=
  if 5 <=? weekday d then mret false
  else
    holidays ← get_holidays (year d) now;
    mret (bool_decide (d ∉ holidays)).

(** ** Session state machine *)

(** The tests of [get_state] on a trading day, in their order. *)
Definition state_at (pre_market market_open market_close square_off : Z)
    (snapshot_start : option Z) (t : Z) : SessionState :=
  if (t <? pre_market) || (market_close <=? t) then CLOSED
  else if t <? market_open then PRE_MARKET
  else if square_off <=? t then APPROACHING_CLOSE
  else match snapshot_start with
       | Some s => if s <=? t then SNAPSHOT_WINDOW else OPEN
       | None => OPEN
       end.

(** The region's times of day. *)
Definition schedule_state (region : RegionConfig.t) (t : Z) : result SessionState :=
  pre_market ← parse_hhmm (RegionConfig.pre_market_local region);
  market_open ← parse_hhmm (RegionConfig.market_open_local region);
  market_close ← parse_hhmm (RegionConfig.market_close_local region);
  square_off ← parse_hhmm (RegionConfig.square_off_local region);
  snapshot_start ←
    match RegionConfig.snapshot_window_start_local region with
    | Some s => if String.eqb s "" then mret None else v ← parse_hhmm s; mret (Some v)
    | None => mret None
    end;
  mret (state_at pre_market market_open market_close square_off snapshot_start t).

Definition get_state (region : RegionConfig.t) (local_now : LocalTime) (now : Z)
    : M CacheDir SessionState :=
  trading ← is_trading_day (lt_date local_now) now;
  if negb trading then mret CLOSED
  else M_lift (schedule_state region (lt_time local_now)).

Definition is_snapshot_window_active (region : RegionConfig.t) (local_now : LocalTime) (now : Z)
    : M CacheDir bool :=
  s ← get_state region local_now now; mret (bool_decide (s = SNAPSHOT_WINDOW)).

End Calendar.

(** ** Square-off scheduler *)

(** Local instants, in microseconds of the local calendar. *)
Definition combine (d : Date) (t : Z) : Z := toordinal d * DAY + t.
Definition local_instant (l : LocalTime) : Z := combine (lt_date l) (lt_time l).

Definition square_off_at (region : RegionConfig.t) (d : Date) : result Z :=
  t ← parse_hhmm (RegionConfig.square_off_local region); mret (combine d t).

Definition warning_at (region : RegionConfig.t) (d : Date) : result Z :=
  t ← square_off_at region d; mret (t - SQUARE_OFF_WARNING_LEAD_MINUTES * MINUTE).

Definition warning_due (region : RegionConfig.t) (l : LocalTime) : result bool :=
  w ← warning_at region (lt_date l); mret (w <=? local_instant l).

Definition square_off_due (region : RegionConfig.t) (l : LocalTime) : result bool :=
  w ← square_off_at region (lt_date l); mret (w <=? local_instant l).

(** ** ASX staggered open *)

Definition ASX_TICKER_GROUPS : list (ascii * ascii * Z) :=
  [("A"%char, "B"%char, at_time 10 0 0); ("C"%char, "F"%char, at_time 10 2 15);
   ("G"%char, "M"%char, at_time 10 4 30); ("N"%char, "R"%char, at_time 10 6 45);
   ("S"%char, "Z"%char, at_time 10 9 0)].

Definition char_le (a b : ascii) : bool := (N_of_ascii a <=? N_of_ascii b)%N.

Definition get_ticker_open_time (symbol : string) (market_date : Date) : result Z :=
  match symbol with
  | EmptyString => Raise (ValueError "symbol must be non-empty")
  | String c _ =>
      let first_letter := ascii_upper c in
      if negb (char_le "A"%char first_letter && char_le first_letter "Z"%char) then
        Raise (ValueError ("symbol must start with a letter A-Z, got '" +:+ symbol +:+ "'"))
      else
        match find_first (fun '(start, stop, _) => char_le start first_letter
                                                   && char_le first_letter stop)
                ASX_TICKER_GROUPS with
        | Some (_, _, open_time) => mret (combine market_date open_time)
        | None => Raise AssertionError
        end
  end.

(** ** The [market_hours_only] gate *)

Definition TRADEABLE_STATES : list SessionState := [OPEN; SNAPSHOT_WINDOW].

(** The wrapped function runs only in an allowed state. *)
Definition market_hours_only {S A} (get_current_state : M S SessionState)
    (allowed_states : list SessionState) (name : string) (func : M S A) : M S A :=
  state ← get_current_state;
  if negb (bool_decide (state ∈ allowed_states)) then
    M_raise (MarketClosedError (name +:+ " not allowed in session state " +:+ state_value state))
  else func.

(** ** Facts about the schedule *)

(** The order in which a trading day visits the states. *)
Definition rank (s : SessionState) : Z :=
  match s with
  | PRE_MARKET => 1 | OPEN => 2 | SNAPSHOT_WINDOW => 3 | APPROACHING_CLOSE => 4 | CLOSED => 5
  end.

Lemma state_at_cases pre open close sq snap t :
  (state_at pre open close sq snap t = CLOSED <-> t < pre \/ close <= t)
  /\ (state_at pre open close sq snap t = PRE_MARKET <-> pre <= t < close /\ t < open)
  /\ (state_at pre open close sq snap t = APPROACHING_CLOSE <-> pre <= t < close /\ open <= t /\ sq <= t)
  /\ (state_at pre open close sq snap t = SNAPSHOT_WINDOW
      <-> pre <= t < close /\ open <= t < sq /\ exists s, snap = Some s /\ s <= t)
  /\ (state_at pre open close sq snap t = OPEN
      <-> pre <= t < close /\ open <= t < sq /\ forall s, snap = Some s -> t < s).
Proof.
  unfold state_at. destruct (Z.ltb_spec t pre), (Z.leb_spec close t), (Z.ltb_spec t open),
    (Z.leb_spec sq t); cbn; try (split_and!; split; intros; try done; lia).
  all: destruct snap as [s|]; [destruct (Z.leb_spec s t)|]; split_and!; split; intros Hx;
    try done; try lia; try (split_and!; try lia; try (by eexists); intros ? [=]; lia).
  all: try (destruct Hx as (_ & _ & s' & [=] & ?); lia).
  all: try (destruct Hx as (_ & _ & Hx); specialize (Hx _ eq_refl); lia).
Qed.

Lemma state_at_monotone pre open close sq snap t1 t2 :
  pre <= t1 -> t1 <= t2 ->
  rank (state_at pre open close sq snap t1) <= rank (state_at pre open close sq snap t2).
Proof.
  intros Hp Ht. unfold state_at.
  destruct (Z.ltb_spec t1 pre), (Z.ltb_spec t2 pre), (Z.leb_spec close t1), (Z.leb_spec close t2);
    try lia; cbn; try lia;
    destruct (Z.ltb_spec t1 open), (Z.ltb_spec t2 open), (Z.leb_spec sq t1), (Z.leb_spec sq t2);
    try lia; cbn; try lia; destruct snap as [s|]; cbn; try lia;
    try destruct (Z.leb_spec s t1); try destruct (Z.leb_spec s t2); cbn; lia.
Qed.

Lemma schedule_state_inv region t st :
  schedule_state region t = Ok st ->
  exists pre open close sq snap, forall t', schedule_state region t' = Ok (state_at pre open close sq snap t').
Proof.
  unfold schedule_state. intros E.
  bind_inv E. bind_inv E. bind_inv E. bind_inv E. bind_inv E.
  exists a, a0, a1, a2, a3. intros t'. rewrite Ha, Ha0, Ha1, Ha2, Ha3. done.
Qed.

(** The time of day as the clock the compliance rules read. *)
Definition clock_of (t : Z) : Clock :=
  {| hour := t / HOUR; minute := t mod HOUR / MINUTE; second := t mod MINUTE / SECOND |}.

Lemma clock_of_minutes t : 0 <= t ->
  0 <= minute (clock_of t) < 60 /\ hour (clock_of t) * 60 + minute (clock_of t) = t / MINUTE.
Proof.
  intros Ht. unfold clock_of, HOUR. cbn [hour minute].
  assert (Hm : 0 < MINUTE) by reflexivity. generalize dependent MINUTE. intros m Hm.
  pose proof (Z.mod_pos_bound t (60 * m)) as Hb. pose proof (Z.div_mod t (60 * m)) as Hd.
  set (r := t mod (60 * m)) in *. set (h := t / (60 * m)) in *.
  split; [split; [apply Z.div_pos; lia | apply Z.div_lt_upper_bound; lia]|].
  rewrite Hd by lia. replace (60 * m * h + r) with (r + h * 60 * m) by lia.
  rewrite Z.div_add by lia. lia.
Qed.

Lemma india_parsed t :
  schedule_state india_region t
  = Ok (state_at (at_time 8 45 0) (at_time 9 15 0) (at_time 15 30 0) (at_time 15 10 0)
          (Some (at_time 14 45 0)) t).
Proof. reflexivity. Qed.

Lemma past_force_square_off_clock t : 0 <= t ->
  past_force_square_off (clock_of t) = true <-> at_time 15 10 0 <= t.
Proof.
  intros Ht. destruct (clock_of_minutes t Ht) as [Hm Hmin].
  unfold past_force_square_off, FORCE_SQUARE_OFF_IST_HOUR, FORCE_SQUARE_OFF_IST_MINUTE.
  rewrite orb_true_iff, andb_true_iff, Z.ltb_lt, Z.eqb_eq, Z.leb_le.
  pose proof (Z.mul_div_le t MINUTE ltac:(done)) as Hlo.
  pose proof (Z.mul_succ_div_gt t MINUTE ltac:(done)) as Hhi.
  rewrite <- Hmin in Hlo, Hhi. unfold at_time, HOUR in *. unfold MINUTE, SECOND in *. lia.
Qed.

Lemma local_due d t k : (combine d k <=? combine d t) = (k <=? t).
Proof. unfold combine. apply Bool.eq_iff_eq_true. rewrite !Z.leb_le. lia. Qed.

Lemma india_square_off l :
  square_off_due india_region l = Ok true <-> at_time 15 10 0 <= lt_time l.
Proof.
  change (square_off_due india_region l)
    with (Ok (combine (lt_date l) (at_time 15 10 0) <=? combine (lt_date l) (lt_time l)) : result bool).
  rewrite local_due, <- Z.leb_le. split; [by intros [= ->]|by intros ->].
Qed.

Lemma india_warning l :
  warning_due india_region l = Ok true <-> at_time 14 50 0 <= lt_time l.
Proof.
  change (warning_due india_region l)
    with (Ok (combine (lt_date l) (at_time 15 10 0) - 20 * MINUTE
              <=? combine (lt_date l) (lt_time l)) : result bool).
  replace (combine (lt_date l) (at_time 15 10 0) - 20 * MINUTE) with (combine (lt_date l) (at_time 14 50 0)).
  2: { unfold combine, at_time, HOUR. unfold MINUTE, SECOND. lia. }
  rewrite local_due, <- Z.leb_le. split; [by intros [= ->]|by intros ->].
Qed.

(** ** Facts about the calendar *)

Section CalendarFacts.
Context `{CacheDisk} (exchange : string) (fetch_holidays : Z -> result (gset Date)).

Lemma get_holidays_cases y now cache res cache' :
  get_holidays exchange fetch_holidays y now cache = (res, cache') ->
  match res with
  | Ok hs => fetch_holidays y = Ok hs \/ exists at_, read_cache y cache = Some (hs, at_)
  | Raise e => cache' = cache \/ write_outcome exchange y = Truncated e /\ cache' = delete y cache
  end.
Proof.
  unfold get_holidays, write_cache. M_unfold.
  destruct (read_cache y cache) as [[hs at_]|].
  - destruct (now - at_ <=? _); cbn; [intros [= <- <-]; right; by eexists|].
    destruct (fetch_holidays y) as [fresh|e]; cbn; [destruct (write_outcome exchange y); intros [= <- <-]; auto|].
    destruct e; cbn; intros [= <- <-]; auto. right. by eexists.
  - destruct (fetch_holidays y) as [fresh|e]; cbn; [destruct (write_outcome exchange y); intros [= <- <-]; auto|].
    destruct e; cbn; intros [= <- <-]; by left.
Qed.

(** ** Properties of sessions *)

(** C20. The calendar fails closed: a session is reported as anything but
    CLOSED only on a weekday that a readable cache or a successful fetch for
    its year lists as no holiday; a weekend is CLOSED without any fetch; and
    with neither cache nor fetch the state is an error, not a guess. *)
Theorem calendar_fails_closed region l now cache :
  (forall st cache', get_state exchange fetch_holidays region l now cache = (Ok st, cache') ->
     st <> CLOSED ->
     weekday (lt_date l) < 5
     /\ exists hs, (lt_date l ∉ hs)
        /\ (fetch_holidays (year (lt_date l)) = Ok hs
            \/ (exists at_, read_cache (year (lt_date l)) cache = Some (hs, at_))))
  /\ (5 <= weekday (lt_date l) ->
      get_state exchange fetch_holidays region l now cache = (Ok CLOSED, cache))
  /\ (forall msg, weekday (lt_date l) < 5 -> read_cache (year (lt_date l)) cache = None ->
      fetch_holidays (year (lt_date l)) = Raise (CalendarFetchError msg) ->
      exists msg', get_state exchange fetch_holidays region l now cache
                   = (Raise (CalendarUnavailableError msg'), cache)).
Proof.
  unfold get_state, is_trading_day. split_and!.
  - intros st cache' E Hst. unfold mbind, M_bind, mret, M_ret in E.
    destruct (Z.leb_spec 5 (weekday (lt_date l))) as [Hw|Hw]; [by injection E as <- _|].
    split; [done|]. destruct (get_holidays _ _ _ _ cache) as [[hs|e] c1] eqn:Eh; [|done].
    apply get_holidays_cases in Eh. exists hs. split; [|done].
    case_bool_decide as Hd; [done|]. by injection E as <- _.
  - intros Hw. apply Z.leb_le in Hw as ->. done.
  - intros msg Hw Hc Hf. apply Z.leb_gt in Hw as ->. unfold get_holidays. M_unfold.
    rewrite Hc, Hf. cbn. by eexists.
Qed.

End CalendarFacts.

(** The session never goes back: through a trading day, from the
    pre-market time on, the state only moves forward along PRE_MARKET, OPEN,
    SNAPSHOT_WINDOW, APPROACHING_CLOSE, CLOSED, whatever the region's times
    are. *)
Theorem session_never_goes_back region t0 t1 t2 s0 s1 s2 :
  schedule_state region t0 = Ok s0 -> schedule_state region t1 = Ok s1 ->
  schedule_state region t2 = Ok s2 ->
  s0 <> CLOSED -> t0 <= t1 -> t1 <= t2 ->
  rank s0 <= rank s1 /\ rank s1 <= rank s2.
Proof.
  intros E0 E1 E2 Hs H01 H12. destruct (schedule_state_inv _ _ _ E0) as (pre & o & c & sq & sn & Hall).
  rewrite Hall in E0, E1, E2. injection E0 as <-. injection E1 as <-. injection E2 as <-.
  assert (Hpre : pre <= t0).
  { destruct (state_at_cases pre o c sq sn t0) as [Hc _].
    destruct (Z.le_gt_cases pre t0); [done|]. exfalso. apply Hs, Hc. lia. }
  split; apply state_at_monotone; lia.
Qed.

(** The Indian session, the square-off scheduler and the compliance
    cut-off agree: with the shipped configuration new entries are possible
    exactly from 09:15 to 15:10, the snapshot window is 14:45 to 15:10, the
    square-off warning is due from 14:50, and the square-off is due exactly
    when the 15:10 force-square-off rule of compliance is past. *)
Theorem india_schedule l :
  0 <= lt_time l < DAY ->
  exists st, schedule_state india_region (lt_time l) = Ok st
    /\ (st ∈ TRADEABLE_STATES <-> at_time 9 15 0 <= lt_time l < at_time 15 10 0)
    /\ (st = SNAPSHOT_WINDOW <-> at_time 14 45 0 <= lt_time l < at_time 15 10 0)
    /\ (warning_due india_region l = Ok true <-> at_time 14 50 0 <= lt_time l)
    /\ (square_off_due india_region l = Ok true <-> at_time 15 10 0 <= lt_time l)
    /\ (past_force_square_off (clock_of (lt_time l)) = true <-> at_time 15 10 0 <= lt_time l).
Proof.
  intros Ht. rewrite india_parsed. eexists. split; [reflexivity|].
  rewrite india_warning, india_square_off.
  destruct (state_at_cases (at_time 8 45 0) (at_time 9 15 0) (at_time 15 30 0) (at_time 15 10 0)
              (Some (at_time 14 45 0)) (lt_time l)) as (_ & _ & _ & Hsnap & Hopen).
  generalize dependent (lt_time l). intros t Ht. set (st := state_at _ _ _ _ _ t). intros Hsnap Hopen.
  assert (Hs : st = SNAPSHOT_WINDOW <-> at_time 14 45 0 <= t < at_time 15 10 0).
  { rewrite Hsnap. split; [intros (? & ? & s & [= <-] & ?); lia|].
    unfold at_time, HOUR, MINUTE, SECOND in *. intros Hx.
    split_and!; try lia. eexists. split; [reflexivity|]. lia. }
  split_and!; try done; [|apply past_force_square_off_clock; lia].
  unfold TRADEABLE_STATES. rewrite !elem_of_cons, elem_of_nil, Hs, Hopen.
  unfold at_time, HOUR, MINUTE, SECOND in *. split.
  - intros [(? & ? & _)|[?|[]]]; lia.
  - intros Hx. destruct (Z.le_gt_cases (14 * (60 * (60 * 1000000)) + 45 * (60 * 1000000) + 0 * 1000000) t);
      [right; left; lia|left]. split_and!; try lia. intros s [= <-]. lia.
Qed.

(** ** The staggered open *)

(** The open time of a first letter, the symbol and the date apart. *)
Definition group_open (c : ascii) : option Z :=
  '(_, _, open_time) ← find_first (fun '(start, stop, _) => char_le start c && char_le c stop)
                        ASX_TICKER_GROUPS;
  Some open_time.

Definition is_letter (c : ascii) : bool := char_le "A"%char c && char_le c "Z"%char.

Definition all_ascii : list ascii := ascii_of_nat <$> seq 0 256.

Lemma elem_of_all_ascii c : c ∈ all_ascii.
Proof.
  apply list_elem_of_fmap. exists (nat_of_ascii c). split; [by rewrite ascii_nat_embedding|].
  apply elem_of_seq. pose proof (nat_ascii_bounded c). lia.
Qed.

Lemma all_ascii_forall (p : ascii -> bool) : forallb p all_ascii = true -> forall c, p c = true.
Proof. intros H c. eapply forallb_forall; [exact H|]. apply list_elem_of_In, elem_of_all_ascii. Qed.

Lemma get_ticker_open_time_eq c rest d :
  get_ticker_open_time (String c rest) d =
    if is_letter (ascii_upper c) then
      match group_open (ascii_upper c) with
      | Some t => Ok (combine d t)
      | None => Raise AssertionError
      end
    else Raise (ValueError ("symbol must start with a letter A-Z, got '" +:+ String c rest +:+ "'")).
Proof.
  unfold get_ticker_open_time, group_open, is_letter. cbv zeta.
  destruct (char_le _ _ && char_le _ _); [|done]. cbn [negb].
  by destruct (find_first _ ASX_TICKER_GROUPS) as [[[??]?]|].
Qed.

Lemma group_open_step c : is_letter c = true ->
  exists k, 0 <= k <= 4 /\ group_open c = Some (at_time 10 0 0 + k * (135 * SECOND)).
Proof.
  intros Hc.
  set (steps := [0; 1; 2; 3; 4]).
  assert (H : existsb (fun k => bool_decide (group_open c = Some (at_time 10 0 0 + k * (135 * SECOND))))
                steps = true).
  { revert c Hc.
    assert (H : forall c, implb (is_letter c)
      (existsb (fun k => bool_decide (group_open c = Some (at_time 10 0 0 + k * (135 * SECOND)))) steps)
      = true) by (apply all_ascii_forall; vm_compute; reflexivity).
    intros c Hc. specialize (H c). by rewrite Hc in H. }
  apply existsb_exists in H as (k & Hk & E). exists k. split; [|by apply bool_decide_eq_true in E].
  repeat (destruct Hk as [<-|Hk]; [lia|]). destruct Hk.
Qed.

Lemma group_open_monotone c1 c2 t1 t2 :
  char_le c1 c2 = true -> group_open c1 = Some t1 -> group_open c2 = Some t2 -> t1 <= t2.
Proof.
  intros Hle E1 E2.
  assert (H : forall c1, forallb (fun c2 => implb (char_le c1 c2)
      match group_open c1, group_open c2 with Some t1, Some t2 => t1 <=? t2 | _, _ => true end)
      all_ascii = true) by (apply all_ascii_forall; vm_compute; reflexivity).
  pose proof (all_ascii_forall _ (H c1) c2) as Hc. cbv beta in Hc.
  rewrite Hle, E1, E2 in Hc. by apply Z.leb_le.
Qed.

(** The staggered open is total and ordered: a symbol that begins with a
    letter, in either case, opens at 10:00:00 plus a multiple of 2m15s up to
    10:09:00, so the unreachable branch is never taken; any other symbol is
    rejected as a value; and a later letter never opens before an earlier
    one. *)
Theorem staggered_open d :
  (forall c rest, is_letter (ascii_upper c) = true ->
     exists k, 0 <= k <= 4
       /\ get_ticker_open_time (String c rest) d = Ok (combine d (at_time 10 0 0 + k * (135 * SECOND))))
  /\ (forall symbol, (symbol = "" \/ exists c rest, symbol = String c rest /\ is_letter (ascii_upper c) = false) ->
     exists msg, get_ticker_open_time symbol d = Raise (ValueError msg))
  /\ (forall c1 r1 c2 r2 t1 t2, char_le (ascii_upper c1) (ascii_upper c2) = true ->
     get_ticker_open_time (String c1 r1) d = Ok t1 ->
     get_ticker_open_time (String c2 r2) d = Ok t2 -> t1 <= t2).
Proof.
  split_and!.
  - intros c rest Hc. destruct (group_open_step _ Hc) as (k & Hk & E). exists k. split; [done|].
    by rewrite get_ticker_open_time_eq, Hc, E.
  - intros symbol [->|(c & rest & -> & Hc)]; [by eexists|].
    rewrite get_ticker_open_time_eq, Hc. by eexists.
  - intros c1 r1 c2 r2 t1 t2 Hle. rewrite !get_ticker_open_time_eq.
    destruct (is_letter _), (is_letter _); try done.
    destruct (group_open (ascii_upper c1)) eqn:E1, (group_open (ascii_upper c2)) eqn:E2; try done.
    intros [= <-] [= <-]. pose proof (group_open_monotone _ _ _ _ Hle E1 E2). unfold combine. lia.
Qed.

(** ** Witnesses *)

Lemma session_never_goes_back_witness :
  schedule_state india_region (at_time 9 0 0) = Ok PRE_MARKET
  /\ schedule_state india_region (at_time 15 0 0) = Ok SNAPSHOT_WINDOW
  /\ schedule_state india_region (at_time 16 0 0) = Ok CLOSED
  /\ rank PRE_MARKET <= rank SNAPSHOT_WINDOW /\ rank SNAPSHOT_WINDOW <= rank CLOSED.
Proof.
  assert (E0 : schedule_state india_region (at_time 9 0 0) = Ok PRE_MARKET) by (vm_compute; reflexivity).
  assert (E1 : schedule_state india_region (at_time 15 0 0) = Ok SNAPSHOT_WINDOW) by (vm_compute; reflexivity).
  assert (E2 : schedule_state india_region (at_time 16 0 0) = Ok CLOSED) by (vm_compute; reflexivity).
  do 3 (split; [assumption|]).
  apply (session_never_goes_back india_region (at_time 9 0 0) (at_time 15 0 0) (at_time 16 0 0)
           PRE_MARKET SNAPSHOT_WINDOW CLOSED E0 E1 E2); [discriminate| |];
    vm_compute; discriminate.
Defined.

Lemma india_schedule_witness :
  exists st, schedule_state india_region (at_time 15 10 0) = Ok st
    /\ (st ∈ TRADEABLE_STATES
        <-> at_time 9 15 0 <= at_time 15 10 0 < at_time 15 10 0)
    /\ (st = SNAPSHOT_WINDOW <-> at_time 14 45 0 <= at_time 15 10 0 < at_time 15 10 0)
    /\ (warning_due india_region {| lt_date := {| year := 2026; month := 1; day := 2 |};
                                    lt_time := at_time 15 10 0 |} = Ok true
        <-> at_time 14 50 0 <= at_time 15 10 0)
    /\ (square_off_due india_region {| lt_date := {| year := 2026; month := 1; day := 2 |};
                                       lt_time := at_time 15 10 0 |} = Ok true
        <-> at_time 15 10 0 <= at_time 15 10 0)
    /\ (past_force_square_off (clock_of (at_time 15 10 0)) = true
        <-> at_time 15 10 0 <= at_time 15 10 0).
Proof.
  apply (india_schedule {| lt_date := {| year := 2026; month := 1; day := 2 |};
                           lt_time := at_time 15 10 0 |}).
  split; vm_compute; [discriminate|reflexivity].
Defined.

#[local] Existing Instance healthy_disk.

Lemma calendar_fails_closed_witness :
  exists msg', get_state "NSE" (fun _ => Raise (CalendarFetchError "HTTP 403")) india_region
    {| lt_date := {| year := 2026; month := 1; day := 2 |}; lt_time := at_time 10 0 0 |} 0 ∅
  = (Raise (CalendarUnavailableError msg'), ∅).
Proof.
  apply (proj2 (proj2 (calendar_fails_closed "NSE" (fun _ => Raise (CalendarFetchError "HTTP 403"))
           india_region {| lt_date := {| year := 2026; month := 1; day := 2 |};
                           lt_time := at_time 10 0 0 |} 0 ∅)) "HTTP 403").
  - vm_compute. reflexivity.
  - reflexivity.
  - reflexivity.
Defined.

(** 2 January 2026 is a Friday, 26 January 2026 a Monday. *)
Example weekdays :
  weekday {| year := 2026; month := 1; day := 2 |} = 4
  /\ weekday {| year := 2026; month := 1; day := 26 |} = 0
  /\ weekday {| year := 2024; month := 2; day := 29 |} = 3.
Proof. split_and!; reflexivity. Qed.

(** Republic Day in the cache: the exchange is closed without a fetch. *)
Example holiday_closed :
  let republic_day := {| year := 2026; month := 1; day := 26 |} in
  (get_state "NSE" (fun _ => Raise (CalendarFetchError "HTTP 403")) india_region
     {| lt_date := republic_day; lt_time := at_time 10 0 0 |} (DAY * 3)
     (<[2026 := Some ({[republic_day]}, DAY)]> ∅)).1 = Ok CLOSED.
Proof. vm_compute. reflexivity. Qed.
