(* ===== verification/Monitor.v ===== *)
(** * Real-time monitor ([shared/monitor])

    [models.py], [heartbeat.py], [pnl_tracker.py] and the poll cycle of
    [agent.py].  The kill switch a checker calls is any instance of
    [KillSwitchTrigger]; Python binds arguments by name at run time, and the
    instance for the [KillSwitchManager] of the compliance component is what
    that binding does.  The snapshots pushed to Prometheus are recorded ([Telemetry]
    has [metrics.py]).  A run is a sequence of polls; [Background] adds the
    polling thread.  [time.time() * 1000]
    and today's date are arguments. *)

From Stdlib Require Import SpecFloat.
From S2P Require Import Prelude PyFloat PyDict Json PyText Redis Constants Compliance.
Local Open Scope Z_scope.

(** ** Data models ([models.py]) *)

Module HeartbeatRecord.
Record t := mk { agent_name : string; last_seen_ms : float; missed_count : Z }.
End HeartbeatRecord.

Module AgentHealth.
Record t := mk {
  agent_name : string;
  is_healthy : bool;
  last_seen_ms : float;
  missed_count : Z;
  age_seconds : float;
}.
End AgentHealth.

Module PnLSnapshot.
Record t := mk {
  pnl_today : float;
  pnl_today_pct : float;
  starting_capital : float;
  is_circuit_breaker : bool;
}.
End PnLSnapshot.

Module MonitorSnapshot.
Record t := mk {
  timestamp_ms : float;
  pnl : PnLSnapshot.t;
  agent_health : dict string AgentHealth.t;
  open_positions_count : Z;
  signals_today : Z;
  reconciliation_mismatches : Z;
  system_halted : bool;
}.
End MonitorSnapshot.

(** ** Heartbeat checker ([heartbeat.py]) *)

(** [kill_switch.trigger_tier3(reason=reason)]. *)
Class KillSwitchTrigger (K : Type) := {
  trigger_tier3_by_reason : string -> K -> result unit * K;
}.

(** [KillSwitchManager.trigger_tier3] has parameters [agent_name] and
    [missed_heartbeats]: the keyword [reason] does not bind. *)
#[export] Instance KillSwitchManager_trigger {R} : KillSwitchTrigger (KillSwitchManager R) := {
  trigger_tier3_by_reason reason k :=
    (Raise (TypeError "trigger_tier3() got an unexpected keyword argument 'reason'"), k);
}.

Section Heartbeat.
Context {R K : Type} `{RedisKV R} `{KillSwitchTrigger K}.

Record HeartbeatChecker := {
  hc_redis : option R;
  hc_kill_switch : option K;
  hc_interval : Z;
  hc_max_misses : Z;
  hc_records : dict string HeartbeatRecord.t;
}.

Definition new_heartbeat_checker (redis_client : option R) (kill_switch : option K)
    (interval_seconds max_misses : Z) : HeartbeatChecker :=
  {| hc_redis := redis_client; hc_kill_switch := kill_switch; hc_interval := interval_seconds;
     hc_max_misses := max_misses; hc_records := [] |}.

Definition hc_with_redis (r : option R) (s : HeartbeatChecker) : HeartbeatChecker :=
  {| hc_redis := r; hc_kill_switch := hc_kill_switch s; hc_interval := hc_interval s;
     hc_max_misses := hc_max_misses s; hc_records := hc_records s |}.

Definition hc_with_switch (k : option K) (s : HeartbeatChecker) : HeartbeatChecker :=
  {| hc_redis := hc_redis s; hc_kill_switch := k; hc_interval := hc_interval s;
     hc_max_misses := hc_max_misses s; hc_records := hc_records s |}.

Definition hc_with_record (r : HeartbeatRecord.t) (s : HeartbeatChecker) : HeartbeatChecker :=
  {| hc_redis := hc_redis s; hc_kill_switch := hc_kill_switch s; hc_interval := hc_interval s;
     hc_max_misses := hc_max_misses s;
     hc_records := dset (HeartbeatRecord.agent_name r) r (hc_records s) |}.

Definition heartbeat_key (agent_name : string) : string :=
  MONITOR_HEARTBEAT_REDIS_KEY_PREFIX +:+ ":" +:+ agent_name.

(** [now_ms] is [time.time() * 1000]. *)
Definition add_watched_agent (agent_name : string) (now_ms : float) (s : HeartbeatChecker)
    : HeartbeatChecker :=
  if dmem agent_name (hc_records s) then s
  else hc_with_record (HeartbeatRecord.mk agent_name now_ms 0) s.

(** A failed Redis write is logged only; both branches leave the record with
    the new time and no misses. *)
Definition register_heartbeat (agent_name : string) (ts_ms : float) (s : HeartbeatChecker)
    : HeartbeatChecker :=
  let s := match hc_redis s with
           | Some r => hc_with_redis (Some (redis_set (heartbeat_key agent_name) (repr ts_ms) None r).2) s
           | None => s
           end in
  hc_with_record (HeartbeatRecord.mk agent_name ts_ms 0) s.

Definition refresh_from_redis (record : HeartbeatRecord.t) (s : HeartbeatChecker)
    : HeartbeatRecord.t * HeartbeatChecker :=
  match hc_redis s with
  | None => (record, s)
  | Some r =>
      let '(raw, r') := redis_get (heartbeat_key (HeartbeatRecord.agent_name record)) r in
      (match raw with
       | Ok (Some text) =>
           match py_float text with
           | Ok ts_ms =>
               if flt (HeartbeatRecord.last_seen_ms record) ts_ms then
                 HeartbeatRecord.mk (HeartbeatRecord.agent_name record) ts_ms 0
               else record
           | Raise _ => record
           end
       | _ => record
       end, hc_with_redis (Some r') s)
  end.

(** An exception of the kill switch is swallowed. *)
Definition trigger_kill (agent_name : string) (missed : Z) (s : HeartbeatChecker) : HeartbeatChecker :=
  let reason := "Tier 3: agent '" +:+ agent_name +:+ "' missed " +:+ pretty missed +:+
                " consecutive heartbeats" in
  match hc_kill_switch s with
  | Some k => hc_with_switch (Some (trigger_tier3_by_reason reason k).2) s
  | None => s
  end.

(** The body of the loop of [check_all] for one watched agent. *)
Definition check_record (ts_ms : float) (record : HeartbeatRecord.t) (s : HeartbeatChecker)
    : AgentHealth.t * HeartbeatChecker :=
  let '(record, s) := refresh_from_redis record s in
  let name := HeartbeatRecord.agent_name record in
  let age_seconds := fdiv (ts_ms - HeartbeatRecord.last_seen_ms record)%pf (dec 1000 0) in
  let missed := if float_gt_int age_seconds (hc_interval s)
                then HeartbeatRecord.missed_count record + 1 else 0 in
  let record := HeartbeatRecord.mk name (HeartbeatRecord.last_seen_ms record) missed in
  let s := hc_with_record record s in
  let s := if float_gt_int age_seconds (hc_interval s) && (hc_max_misses s <=? missed)
           then trigger_kill name missed s else s in
  (AgentHealth.mk name (missed <? hc_max_misses s) (HeartbeatRecord.last_seen_ms record) missed
     age_seconds, s).

Fixpoint check_records (ts_ms : float) (records : list (string * HeartbeatRecord.t))
    (health : dict string AgentHealth.t) (s : HeartbeatChecker)
    : dict string AgentHealth.t * HeartbeatChecker :=
  match records with
  | [] => (health, s)
  | (agent_name, record) :: records =>
      let '(h, s) := check_record ts_ms record s in
      check_records ts_ms records (dset agent_name h health) s
  end.

Definition check_all (ts_ms : float) (s : HeartbeatChecker)
    : dict string AgentHealth.t * HeartbeatChecker :=
  check_records ts_ms (hc_records s) [] s.

End Heartbeat.
#[global] Arguments HeartbeatChecker R K : clear implicits.

(** ** P&L tracker ([pnl_tracker.py]) *)

Definition CIRCUIT_BREAKER_THRESHOLD : float := dec (-2) 2.

Section Tracker.
Context {R : Type} `{RedisKV R} `{RedisStream R}.

Record PnLTracker := { pt_redis : option R; pt_starting_capital : float }.

Definition pt_with (r : R) (s : PnLTracker) : PnLTracker :=
  {| pt_redis := Some r; pt_starting_capital := pt_starting_capital s |}.

(** [redis.get(key)] with every exception caught: the value, when there is
    one, goes through [f], whose failure counts as none. *)
Definition read_key {A} (key : string) (default_ : A) (f : option string -> result A)
    (s : PnLTracker) : A * PnLTracker :=
  match pt_redis s with
  | None => (default_, s)
  | Some r =>
      let '(raw, r') := redis_get key r in
      (match raw ≫= f with Ok a => a | Raise _ => default_ end, pt_with r' s)
  end.

(** [today] is the UTC date as [YYYYMMDD]. *)
Definition read_pnl (today : string) : PnLTracker -> float * PnLTracker :=
  read_key (RISK_DAILY_PNL_REDIS_KEY_PREFIX +:+ today) f_zero
    (fun raw => match raw with Some text => py_float text | None => Ok f_zero end).

Definition snapshot (today : string) (s : PnLTracker) : PnLSnapshot.t * PnLTracker :=
  let '(pnl_today, s) := read_pnl today s in
  let capital := pt_starting_capital s in
  let pnl_pct := if flt f_zero capital then fdiv pnl_today capital else f_zero in
  (PnLSnapshot.mk pnl_today pnl_pct capital (fle pnl_pct CIRCUIT_BREAKER_THRESHOLD), s).

Definition read_system_halted : PnLTracker -> bool * PnLTracker :=
  read_key KILL_SWITCH_HALTED_KEY false (fun raw => Ok (bool_decide (raw <> None))).

(** Any JSON document is returned as it is. *)
Definition read_orchestrator_state : PnLTracker -> json * PnLTracker :=
  read_key ORCHESTRATOR_STATE_REDIS_KEY (JObj [])
    (fun raw => match raw with Some text => json_loads text | None => Ok (JObj []) end).

Definition read_reconciliation_mismatches (s : PnLTracker) : Z * PnLTracker :=
  match pt_redis s with
  | None => (0, s)
  | Some r =>
      let '(entries, r') := redis_xrevrange RECONCILIATION_MISMATCH_REDIS_STREAM 1000 r in
      (match entries with Ok l => Z.of_nat (length l) | Raise _ => 0 end, pt_with r' s)
  end.

End Tracker.
#[global] Arguments PnLTracker R : clear implicits.

(** ** Monitor agent ([agent.py]) *)

(** [orc_state.get(key, default)]: only a dictionary has [get]. *)
Definition jget (key : string) (default_ : json) (v : json) : result json :=
  match v with
  | JObj fields => mret (default default_ (dget key fields))
  | _ => Raise (OtherError "AttributeError: 'get'")
  end.

(** [len(v)] of a JSON value. *)
Definition jlen (v : json) : result Z :=
  match v with
  | JStr s => mret (Z.of_nat (String.length s))
  | JList l => mret (Z.of_nat (length l))
  | JObj fields => mret (Z.of_nat (length fields))
  | _ => Raise (TypeError "object has no len()")
  end.

(** [int(x) if isinstance(x, int) else 0]; a Python [bool] is an [int]. *)
Definition jint_or_zero (v : json) : Z :=
  match v with JInt z => z | JBool b => Z.b2z b | _ => 0 end.

Section MonitorAgent.
Context {R K : Type} `{RedisKV R} `{RedisStream R} `{KillSwitchTrigger K}.

Record MonitorAgent := {
  ma_pnl : PnLTracker R;
  ma_hb : HeartbeatChecker R K;
  ma_pushed : list MonitorSnapshot.t;
  ma_last_snapshot : option MonitorSnapshot.t;
}.

Definition ma_with_pnl (p : PnLTracker R) (s : MonitorAgent) : MonitorAgent :=
  {| ma_pnl := p; ma_hb := ma_hb s; ma_pushed := ma_pushed s;
     ma_last_snapshot := ma_last_snapshot s |}.

Definition ma_with_hb (h : HeartbeatChecker R K) (s : MonitorAgent) : MonitorAgent :=
  {| ma_pnl := ma_pnl s; ma_hb := h; ma_pushed := ma_pushed s;
     ma_last_snapshot := ma_last_snapshot s |}.

(** Run a total operation on a part of the agent. *)
Definition on_pnl {A} (f : PnLTracker R -> A * PnLTracker R) : M MonitorAgent A :=
  M_zoom ma_pnl ma_with_pnl (fun p => let '(a, p) := f p in (Ok a, p)).

Definition ma_register_heartbeat (agent_name : string) (ts_ms : float) (s : MonitorAgent)
    : MonitorAgent :=
  ma_with_hb (register_heartbeat agent_name ts_ms (ma_hb s)) s.

Definition poll_once (ts_ms : float) (today : string) : M MonitorAgent MonitorSnapshot.t :=
  pnl_snap ← on_pnl (snapshot today);
  halted ← on_pnl read_system_halted;
  let system_halted := halted || PnLSnapshot.is_circuit_breaker pnl_snap in
  orc_state ← on_pnl read_orchestrator_state;
  open_positions ← M_lift (jget "open_positions" (JObj []) orc_state);
  open_positions_count ← M_lift (jlen open_positions);
  signals_today_raw ← M_lift (jget "signals_today" (JInt 0) orc_state);
  recon_raw ← M_lift (jget "reconciliation_mismatches_today" (JInt 0) orc_state);
  recon_from_stream ← on_pnl read_reconciliation_mismatches;
  let reconciliation_mismatches := Z.max (jint_or_zero recon_raw) recon_from_stream in
  agent_health ← M_zoom ma_hb ma_with_hb (fun h => let '(a, h) := check_all ts_ms h in (Ok a, h));
  let snap := MonitorSnapshot.mk ts_ms pnl_snap agent_health open_positions_count
                (jint_or_zero signals_today_raw) reconciliation_mismatches system_halted in
  _ ← M_modify (fun s => {| ma_pnl := ma_pnl s; ma_hb := ma_hb s;
                            ma_pushed := ma_pushed s ++ [snap]; ma_last_snapshot := Some snap |});
  mret snap.

Definition get_last_snapshot (s : MonitorAgent) : option MonitorSnapshot.t := ma_last_snapshot s.

(** The loop of the polling thread swallows exceptions and goes on. *)
Definition poll_tick (ts_ms : float) (today : string) (s : MonitorAgent) : MonitorAgent :=
  (poll_once ts_ms today s).2.

End MonitorAgent.
#[global] Arguments MonitorAgent R K : clear implicits.

(** ** Facts about the heartbeat checker *)

Section HeartbeatFacts.
Context {R K : Type} `{RedisKVLaws R} `{KillSwitchTrigger K}.

Implicit Types s : HeartbeatChecker R K.

(** The records are filed under their agents' names, once each. *)
Definition hc_wf s : Prop :=
  NoDup (dkeys (hc_records s))
  /\ Forall (fun kv => HeartbeatRecord.agent_name kv.2 = kv.1) (hc_records s).

(** The record of an agent, given what the server holds: the heartbeat in its
    key when that is a number and fresher, which forgets the misses. *)
Definition latest (kv : gmap string string) (old : HeartbeatRecord.t) : HeartbeatRecord.t :=
  match kv !! ("monitor:heartbeat:" +:+ HeartbeatRecord.agent_name old) with
  | Some text =>
      match py_float text with
      | Ok ts => if flt (HeartbeatRecord.last_seen_ms old) ts then HeartbeatRecord.mk (HeartbeatRecord.agent_name old) ts 0 else old
      | Raise _ => old
      end
  | None => old
  end.

(** What the refresh makes of a record: without a client nothing, on a server
    that answers the latest heartbeat; a server that does not may leave it. *)
Definition refreshed (server : option R) (old new : HeartbeatRecord.t) : Prop :=
  match server with
  | None => new = old
  | Some r => new = latest (redis_kv r) old \/ (new = old /\ ~ redis_up r)
  end.

(** Reading keeps the keys, and a server that answers answers again. *)
Definition same_server (server server' : option R) : Prop :=
  match server, server' with
  | None, None => True
  | Some r, Some r' => redis_kv r' = redis_kv r /\ (redis_up r -> redis_up r')
  | _, _ => False
  end.

#[local] Instance same_server_preorder : PreOrder same_server.
Proof.
  split; [by intros [r|]|]. intros [x|] [y|] [z|]; try done. intros [Hk Hu] [Hk' Hu'].
  split; [by rewrite Hk'|auto].
Qed.

Lemma refreshed_same server server' old new :
  same_server server server' -> refreshed server' old new -> refreshed server old new.
Proof. destruct server as [r|], server' as [r'|]; try done. intros [Hk Hu] [->|[-> Hn]]; [left; by rewrite Hk|right; auto]. Qed.

Lemma refreshed_name server old new :
  refreshed server old new -> HeartbeatRecord.agent_name new = HeartbeatRecord.agent_name old.
Proof.
  destruct server as [r|]; [intros [->|[-> _]]; [|done]|by intros ->].
  unfold latest. destruct (_ !! _) as [text|]; [|done]. destruct (py_float text) as [ts|]; [|done]. by destruct (flt _ _).
Qed.

Definition age (ts_ms : float) (r : HeartbeatRecord.t) : float :=
  fdiv (ts_ms - HeartbeatRecord.last_seen_ms r)%pf (dec 1000 0).

(** The record after a check at [ts_ms] with the given interval. *)
Definition checked (interval : Z) (ts_ms : float) (r : HeartbeatRecord.t) : HeartbeatRecord.t :=
  HeartbeatRecord.mk (HeartbeatRecord.agent_name r) (HeartbeatRecord.last_seen_ms r)
    (if float_gt_int (age ts_ms r) interval then HeartbeatRecord.missed_count r + 1 else 0).

Definition health_of (max_misses : Z) (ts_ms : float) (r : HeartbeatRecord.t) : AgentHealth.t :=
  AgentHealth.mk (HeartbeatRecord.agent_name r) (HeartbeatRecord.missed_count r <? max_misses)
    (HeartbeatRecord.last_seen_ms r) (HeartbeatRecord.missed_count r) (age ts_ms r).

Definition kill_reason (r : HeartbeatRecord.t) : string :=
  "Tier 3: agent '" +:+ HeartbeatRecord.agent_name r +:+ "' missed " +:+
  pretty (HeartbeatRecord.missed_count r) +:+ " consecutive heartbeats".

Definition call_kill (k : option K) (r : HeartbeatRecord.t) : option K :=
  (fun k => (trigger_tier3_by_reason (kill_reason r) k).2) <$> k.

(** The calls made for a list of checked records: one per record at or above
    the threshold, in order. *)
Definition kills (max_misses : Z) (records : list HeartbeatRecord.t) (k : option K) : option K :=
  fold_left call_kill (filter (fun r => max_misses <= HeartbeatRecord.missed_count r) records) k.

Lemma refresh_spec record s record' s' :
  refresh_from_redis record s = (record', s') ->
  refreshed (hc_redis s) record record' /\ exists r', s' = hc_with_redis r' s /\ same_server (hc_redis s) r'.
Proof.
  unfold refresh_from_redis, refreshed. destruct (hc_redis s) as [r|] eqn:Er.
  - destruct (redis_get _ r) as [raw r'] eqn:E. intros [= <- <-].
    pose proof (redis_get_spec _ _ _ _ E) as [Hkv Hraw].
    assert (Hup : redis_up r -> exists o, raw = Ok o /\ redis_up r').
    { intros Hr. destruct (redis_get_up (heartbeat_key (HeartbeatRecord.agent_name record)) r Hr) as (r2 & E2 & Hr2).
      rewrite E in E2. injection E2 as -> ->. by eexists. }
    split; [|by exists (Some r'); split; [|split; [|intros Hr; by destruct (Hup Hr) as (? & _ & ?)]]].
    destruct raw as [o|e]; [left|right; split; [done|intros Hr; by destruct (Hup Hr) as (? & [=] & _)]].
    rewrite (Hraw o eq_refl). unfold latest. change ("monitor:heartbeat:" +:+ ?a) with (heartbeat_key a).
    by destruct (redis_kv r !! _).
  - intros [= <- <-]. split; [done|]. exists None. split; [|done]. destruct s; cbn in *. by subst.
Qed.

Lemma trigger_kill_eq r s :
  trigger_kill (HeartbeatRecord.agent_name r) (HeartbeatRecord.missed_count r) s
  = hc_with_switch (call_kill (hc_kill_switch s) r) s.
Proof. unfold trigger_kill. by destruct s as [? [k|] ? ? ?]. Qed.

Lemma kills_one max_misses r k :
  kills max_misses [r] k = if max_misses <=? HeartbeatRecord.missed_count r then call_kill k r else k.
Proof.
  unfold kills. rewrite filter_cons.
  destruct (Z.leb_spec max_misses (HeartbeatRecord.missed_count r)).
  - by rewrite decide_True.
  - by rewrite decide_False by lia.
Qed.

Lemma check_record_spec ts record s h s' :
  1 <= hc_max_misses s ->
  check_record ts record s = (h, s') ->
  exists new, refreshed (hc_redis s) record new /\ same_server (hc_redis s) (hc_redis s')
    /\ h = health_of (hc_max_misses s) ts (checked (hc_interval s) ts new)
    /\ hc_interval s' = hc_interval s /\ hc_max_misses s' = hc_max_misses s
    /\ hc_records s' = dset (HeartbeatRecord.agent_name record)
                         (checked (hc_interval s) ts new) (hc_records s)
    /\ hc_kill_switch s' = kills (hc_max_misses s) [checked (hc_interval s) ts new] (hc_kill_switch s).
Proof.
  intros Hmax. unfold check_record. destruct (refresh_from_redis record s) as [new s1] eqn:E.
  apply refresh_spec in E as (Hr & r' & -> & Hsame). intros E. exists new. split; [done|].
  pose proof (refreshed_name _ _ _ Hr) as Hn.
  set (c := checked (hc_interval s) ts new) in *.
  set (s1 := hc_with_record c (hc_with_redis r' s)).
  change ((health_of (hc_max_misses (if float_gt_int (age ts new) (hc_interval s)
             && (hc_max_misses s <=? HeartbeatRecord.missed_count c)
           then trigger_kill (HeartbeatRecord.agent_name c) (HeartbeatRecord.missed_count c) s1 else s1)) ts c,
           if float_gt_int (age ts new) (hc_interval s)
             && (hc_max_misses s <=? HeartbeatRecord.missed_count c)
           then trigger_kill (HeartbeatRecord.agent_name c) (HeartbeatRecord.missed_count c) s1 else s1)
          = (h, s')) in E.
  assert (Hc : float_gt_int (age ts new) (hc_interval s) && (hc_max_misses s <=? HeartbeatRecord.missed_count c)
               = (hc_max_misses s <=? HeartbeatRecord.missed_count c)).
  { unfold c, checked. cbn [HeartbeatRecord.missed_count].
    destruct (float_gt_int _ _); [done|]. symmetry. apply Z.leb_gt. lia. }
  rewrite Hc, trigger_kill_eq in E. injection E as <- <-. rewrite kills_one, <- Hn.
  by destruct (hc_max_misses s <=? _).
Qed.

(** The checks of all records, one after the other. *)
Lemma check_records_spec ts records health s health' s' :
  1 <= hc_max_misses s ->
  check_records ts records health s = (health', s') ->
  exists news, Forall2 (refreshed (hc_redis s)) records.*2 news /\ same_server (hc_redis s) (hc_redis s')
    /\ health' = fold_left (fun d kr => dset kr.1 (health_of (hc_max_misses s) ts kr.2) d)
                  (zip records.*1 (checked (hc_interval s) ts <$> news)) health
    /\ hc_interval s' = hc_interval s /\ hc_max_misses s' = hc_max_misses s
    /\ hc_records s' = fold_left (fun d kr => dset (HeartbeatRecord.agent_name kr) kr d)
                         (checked (hc_interval s) ts <$> news) (hc_records s)
    /\ hc_kill_switch s' = kills (hc_max_misses s) (checked (hc_interval s) ts <$> news) (hc_kill_switch s).
Proof.
  revert health s. induction records as [|[name r] records IH]; intros health s Hmax.
  - intros [= <- <-]. exists []. split_and!; done.
  - cbn [check_records]. destruct (check_record ts r s) as [h s1] eqn:E.
    apply check_record_spec in E as (new & Hr & Hsame & -> & Hi & Hm & Hrec & Hk); [|done].
    intros E. apply IH in E as (news & Hf & Hsame' & Hh & Hi' & Hm' & Hrec' & Hk'); [|lia].
    exists (new :: news). rewrite Hi, Hm in *. split_and!; [|by etrans|exact Hh|congruence|congruence| |].
    { constructor; [done|]. eapply Forall2_impl; [exact Hf|]. intros ? ?. by apply refreshed_same. }
    + rewrite Hrec', Hrec. cbn [fmap list_fmap fold_left].
      assert (Hn : HeartbeatRecord.agent_name (checked (hc_interval s) ts new)
                   = HeartbeatRecord.agent_name r) by exact (refreshed_name _ _ _ Hr).
      by rewrite Hn.
    + rewrite Hk', Hk. unfold kills. rewrite <- fold_left_app, <- filter_app. done.
Qed.

Lemma dset_app_r {V} k (v : V) (d1 d2 : dict string V) :
  k ∉ dkeys d1 -> dset k v (d1 ++ d2) = d1 ++ dset k v d2.
Proof.
  induction d1 as [|[k' v'] d1 IH]; [done|]. unfold dkeys. rewrite fmap_cons, not_elem_of_cons.
  intros [Hk Hd]. cbn. rewrite decide_False by done. f_equal. by apply IH.
Qed.

(** Overwriting every binding of a dictionary in order. *)
Lemma overwrite_all {A V} (key : A -> string) (val : A -> V) (l : list A) (d0 d : dict string V) :
  NoDup (dkeys (d0 ++ d)) -> dkeys d = key <$> l ->
  fold_left (fun d x => dset (key x) (val x) d) l (d0 ++ d) = d0 ++ zip (key <$> l) (val <$> l).
Proof.
  revert d0 d. induction l as [|x l IH]; intros d0 d Hn Hd.
  - by destruct d.
  - destruct d as [|[k v] d]; [done|]. unfold dkeys in Hd. rewrite !fmap_cons in Hd.
    injection Hd as -> Hd. cbn [fold_left]. rewrite dset_app_r.
    + cbn [dset]. rewrite decide_True by done.
      change (d0 ++ (key x, val x) :: d) with (d0 ++ ([(key x, val x)] ++ d)). rewrite app_assoc, IH.
      * by rewrite <- app_assoc.
      * rewrite <- app_assoc. unfold dkeys in *. rewrite fmap_app in *. exact Hn.
      * exact Hd.
    + unfold dkeys in Hn. rewrite fmap_app, fmap_cons in Hn.
      apply NoDup_app in Hn as (_ & Hn & _). intros Hin. apply (Hn _ Hin). by left.
Qed.

(** Filling an empty dictionary with fresh keys. *)
Lemma fill_fresh {V} (l : list (string * V)) (d0 : dict string V) :
  NoDup (dkeys (d0 ++ l)) -> fold_left (fun d kv => dset kv.1 kv.2 d) l d0 = d0 ++ l.
Proof. apply dset_items. Qed.

Lemma refreshed_names server olds news :
  Forall2 (refreshed server) olds news ->
  HeartbeatRecord.agent_name <$> news = HeartbeatRecord.agent_name <$> olds.
Proof.
  induction 1 as [|o n olds news Hr _ IH]; [done|]. rewrite !fmap_cons, IH. f_equal.
  by eapply refreshed_name.
Qed.

Lemma wf_names s : hc_wf s ->
  HeartbeatRecord.agent_name <$> (dvalues (hc_records s)) = dkeys (hc_records s).
Proof.
  intros [_ Hf]. unfold dvalues, dkeys. induction Hf as [|[k v] l Hk _ IH]; [done|].
  rewrite !fmap_cons, IH. cbn in *. by rewrite Hk.
Qed.

(** What [check_all] does: the state it leaves and the health it reports. *)
Lemma check_all_spec ts s health s' :
  hc_wf s -> 1 <= hc_max_misses s -> check_all ts s = (health, s') ->
  exists news, Forall2 (refreshed (hc_redis s)) (dvalues (hc_records s)) news /\ same_server (hc_redis s) (hc_redis s')
    /\ hc_records s' = zip (dkeys (hc_records s)) (checked (hc_interval s) ts <$> news)
    /\ health = zip (dkeys (hc_records s))
                  (health_of (hc_max_misses s) ts <$> (checked (hc_interval s) ts <$> news))
    /\ hc_kill_switch s' = kills (hc_max_misses s) (checked (hc_interval s) ts <$> news) (hc_kill_switch s)
    /\ hc_interval s' = hc_interval s /\ hc_max_misses s' = hc_max_misses s /\ hc_wf s'.
Proof.
  intros Hwf Hmax E. pose proof (wf_names s Hwf) as Hnames. destruct Hwf as [Hnd Hwf].
  apply check_records_spec in E as (news & Hf & Hsame & Hh & Hi & Hm & Hrec & Hk); [|done].
  exists news. pose proof (refreshed_names _ _ _ Hf) as Hn. fold (dvalues (hc_records s)) in Hn.
  rewrite Hnames in Hn. set (after := checked (hc_interval s) ts <$> news) in *.
  assert (Ha : HeartbeatRecord.agent_name <$> after = dkeys (hc_records s)).
  { rewrite <- Hn. unfold after. rewrite <- list_fmap_compose. done. }
  assert (Hlen : length after = length (dkeys (hc_records s))) by (rewrite <- Ha; by rewrite length_fmap).
  assert (Hrec' : hc_records s' = zip (dkeys (hc_records s)) after).
  { rewrite Hrec, <- Ha.
    pose proof (overwrite_all HeartbeatRecord.agent_name (fun x => x) after [] (hc_records s) Hnd
                  (eq_sym Ha)) as Ho. cbn [app] in Ho. by rewrite Ho, list_fmap_id. }
  split_and!; try done.
  - rewrite Hh. fold (dkeys (hc_records s)). rewrite <- Ha. clear -Hnd Ha.
    assert (Hz : forall (d : dict string AgentHealth.t) l, NoDup (dkeys d ++ (HeartbeatRecord.agent_name <$> l)) ->
      fold_left (fun d kr => dset kr.1 (health_of (hc_max_misses s) ts kr.2) d)
        (zip (HeartbeatRecord.agent_name <$> l) l) d
      = d ++ zip (HeartbeatRecord.agent_name <$> l) (health_of (hc_max_misses s) ts <$> l)).
    { intros d l. revert d. induction l as [|x l IH]; intros d Hn; cbn [fmap list_fmap zip_with fold_left];
        [by rewrite app_nil_r|]. cbn [fst snd].
      rewrite fmap_cons in Hn. rewrite dset_fresh.
      - rewrite IH; [by rewrite <- app_assoc|]. unfold dkeys in *. rewrite fmap_app, <- app_assoc. exact Hn.
      - apply dget_None. intros Hin. apply NoDup_app in Hn as (_ & Hx & _). apply (Hx _ Hin). by left. }
    rewrite (Hz []); [done|]. cbn. by rewrite Ha.
  - unfold hc_wf. rewrite Hrec'. fold (dkeys (zip (dkeys (hc_records s)) after)). unfold dkeys at 1. rewrite fst_zip by (rewrite Hlen; done).
    split; [done|].
    rewrite <- Ha. apply Forall_forall. intros [k v] Hin. cbn.
    clear -Hin. revert Hin.
    induction after as [|x l IH]; cbn; [by rewrite elem_of_nil|].
    rewrite elem_of_cons. intros [[= -> ->]|Hin]; [done|by apply IH].
Qed.

Lemma dget_zip {V} a (ks : list string) (l : list V) v i :
  NoDup ks -> ks !! i = Some a -> l !! i = Some v -> dget a (zip ks l) = Some v.
Proof.
  intros Hn Hk Hl. apply elem_dget.
  - unfold dkeys. clear Hk Hl. revert l. induction Hn as [|k ks Hk Hn IH]; intros [|x l]; cbn;
      try apply NoDup_nil_2. apply NoDup_cons. split; [|apply IH].
    intros Hin. apply Hk. clear -Hin. revert l Hin.
    induction ks as [|k' ks IH]; intros [|x l]; cbn; rewrite ?elem_of_nil, ?elem_of_cons; try tauto.
    intros [->|Hin]; [by left|right; by eapply IH].
  - revert l i Hk Hl. clear Hn. induction ks as [|k ks IH]; intros [|x l] [|i] Hk Hl; try done; cbn in *.
    + simplify_eq. by left.
    + right. by eapply IH.
Qed.

(** The position of a watched agent in the records. *)
Lemma record_index a r s :
  dget a (hc_records s) = Some r ->
  exists i, dkeys (hc_records s) !! i = Some a /\ dvalues (hc_records s) !! i = Some r.
Proof.
  intros Hd%dget_elem. apply list_elem_of_lookup in Hd as [i Hi]. exists i.
  unfold dkeys, dvalues. by rewrite !list_lookup_fmap, Hi.
Qed.

(** One agent through [check_all]. *)
Lemma check_all_agent ts s health s' a r :
  hc_wf s -> 1 <= hc_max_misses s -> check_all ts s = (health, s') ->
  dget a (hc_records s) = Some r ->
  exists new, refreshed (hc_redis s) r new
    /\ dget a (hc_records s') = Some (checked (hc_interval s) ts new)
    /\ dget a health = Some (health_of (hc_max_misses s) ts (checked (hc_interval s) ts new)).
Proof.
  intros Hwf Hmax E Ha. apply check_all_spec in E as (news & Hf & _ & Hrec & Hh & _); [|done|done].
  destruct (record_index _ _ _ Ha) as (i & Hk & Hv).
  destruct (Forall2_lookup_l _ _ _ _ _ Hf Hv) as (new & Hnew & Hr). exists new. split; [done|].
  destruct Hwf as [Hnd _]. rewrite Hrec, Hh.
  split; (eapply dget_zip; [done|exact Hk|]); by rewrite !list_lookup_fmap, Hnew.
Qed.

(** Successive checks at the given times. *)
Definition polls (tss : list float) s : HeartbeatChecker R K :=
  fold_left (fun s ts => (check_all ts s).2) tss s.

Lemma check_all_offline ts s health s' a r :
  hc_redis s = None -> hc_wf s -> 1 <= hc_max_misses s -> check_all ts s = (health, s') ->
  dget a (hc_records s) = Some r ->
  hc_redis s' = None /\ dget a (hc_records s') = Some (checked (hc_interval s) ts r).
Proof.
  intros Hr Hwf Hmax E Ha. split.
  - apply check_all_spec in E as (_ & _ & Hsame & _); [|done|done]. rewrite Hr in Hsame. by destruct (hc_redis s').
  - apply (check_all_agent _ _ _ _ _ _ Hwf Hmax E) in Ha as (new & Hnew & Hx & _). rewrite Hr in Hnew. cbn in Hnew. by subst new.
Qed.

(** The count of a silent agent without Redis: one more at every check. *)
Lemma silent_count tss s a r :
  hc_redis s = None -> hc_wf s -> 1 <= hc_max_misses s -> dget a (hc_records s) = Some r ->
  Forall (fun ts => float_gt_int (age ts r) (hc_interval s) = true) tss ->
  hc_max_misses (polls tss s) = hc_max_misses s
  /\ dget a (hc_records (polls tss s))
    = Some (HeartbeatRecord.mk (HeartbeatRecord.agent_name r) (HeartbeatRecord.last_seen_ms r)
              (HeartbeatRecord.missed_count r + Z.of_nat (length tss))).
Proof.
  revert s r. induction tss as [|ts tss IH]; intros s r Hr Hwf Hmax Ha Hlate.
  - split; [done|]. cbn. rewrite Z.add_0_r. rewrite Ha. by destruct r.
  - apply Forall_cons in Hlate as [Hts Hlate]. cbn [polls fold_left].
    destruct (check_all ts s) as [health s1] eqn:E. cbn [snd].
    pose proof (check_all_offline _ _ _ _ _ _ Hr Hwf Hmax E Ha) as [Hr1 Ha1].
    apply check_all_spec in E as (_ & _ & _ & _ & _ & _ & Hi & Hm & Hwf1); [|done|done].
    unfold checked in Ha1. rewrite Hts in Ha1.
    destruct (IH s1 _ Hr1 Hwf1 ltac:(lia) Ha1) as [Hm' Ha']; [by rewrite Hi|].
    unfold polls in Hm', Ha'. split; [congruence|]. rewrite Ha'. cbn. do 2 f_equal. lia.
Qed.

End HeartbeatFacts.

(** ** Facts about the poll *)

#[global] Arguments check_all : simpl never.
#[global] Arguments snapshot : simpl never.

Section PollFacts.
Context {R K : Type} `{RedisKVLaws R} `{RedisStream R} `{KillSwitchTrigger K}.

Implicit Types s : MonitorAgent R K.

(** The shape of the orchestrator's document that a poll can digest. *)
Definition state_shaped (v : json) : bool :=
  match v with
  | JObj fields =>
      match default (JObj []) (dget "open_positions" fields) with
      | JStr _ | JList _ | JObj _ => true
      | _ => false
      end
  | _ => false
  end.

(** The document a poll finds: an absent or unreadable one counts as empty. *)
Definition found_state (r : R) : json :=
  match redis_kv r !! ORCHESTRATOR_STATE_REDIS_KEY with
  | Some text => match json_loads text with Ok v => v | Raise _ => JObj [] end
  | None => JObj []
  end.

Lemma read_key_reachable {A} key (d : A) f (p : PnLTracker R) r :
  pt_redis p = Some r -> reachable r ->
  read_key key d f p = (match f (redis_kv r !! key) with Ok a => a | Raise _ => d end, p).
Proof.
  intros Hr Hreach. unfold read_key. rewrite Hr, Hreach. cbn. f_equal.
  destruct p; cbn in *. by subst.
Qed.

Lemma snapshot_reachable today (p : PnLTracker R) r :
  pt_redis p = Some r -> reachable r -> (snapshot today p).2 = p.
Proof.
  intros Hr Hreach. unfold snapshot, read_pnl. by rewrite (read_key_reachable _ _ _ p r).
Qed.

Lemma state_shaped_spec v :
  if state_shaped v then
    exists fields l, v = JObj fields /\ jlen (default (JObj []) (dget "open_positions" fields)) = Ok l
  else exists e, jget "open_positions" (JObj []) v ≫= jlen = Raise e.
Proof.
  destruct v as [| | | | | |fields]; try by eexists. cbn [state_shaped].
  change (jget "open_positions" (JObj []) (JObj fields) ≫= jlen)
    with (jlen (default (JObj []) (dget "open_positions" fields))).
  destruct (default (JObj []) (dget "open_positions" fields)) eqn:E; cbn; try by eexists.
  all: exists fields; rewrite E; by eexists.
Qed.

(** A read of the tracker that leaves it as it was. *)
Lemma bind_on_pnl {A B} (f : PnLTracker R -> A * PnLTracker R) (k : A -> M (MonitorAgent R K) B) s :
  (f (ma_pnl s)).2 = ma_pnl s -> (on_pnl f ≫= k) s = k (f (ma_pnl s)).1 s.
Proof.
  intros Hf. unfold on_pnl, mbind, M_bind, M_zoom. destruct (f (ma_pnl s)) as [a p]. cbn in *. subst p.
  by destruct s.
Qed.

Lemma bind_on_pnl_gen {A B} (f : PnLTracker R -> A * PnLTracker R) (k : A -> M (MonitorAgent R K) B) s :
  (on_pnl f ≫= k) s = k (f (ma_pnl s)).1 (ma_with_pnl (f (ma_pnl s)).2 s).
Proof. unfold on_pnl, mbind, M_bind, M_zoom. by destruct (f (ma_pnl s)). Qed.

Lemma bind_on_hb {A B} (f : HeartbeatChecker R K -> A * HeartbeatChecker R K)
    (k : A -> M (MonitorAgent R K) B) s :
  (M_zoom ma_hb ma_with_hb (fun h => let '(a, h) := f h in (Ok a, h)) ≫= k) s
  = k (f (ma_hb s)).1 (ma_with_hb (f (ma_hb s)).2 s).
Proof. unfold mbind, M_bind, M_zoom. by destruct (f (ma_hb s)). Qed.

Lemma bind_lift {A B} (x : result A) (k : A -> M (MonitorAgent R K) B) s :
  (M_lift x ≫= k) s = match x with Ok a => k a s | Raise e => (Raise e, s) end.
Proof. by destruct x. Qed.

Lemma bind_lift_mret {A B} (a : A) (k : A -> M (MonitorAgent R K) B) s :
  (M_lift (mret a) ≫= k) s = k a s.
Proof. reflexivity. Qed.

End PollFacts.

(** ** Properties of the monitor *)

Section MonitorProperties.
Context {R K : Type} `{RedisKVLaws R} `{RedisStream R} `{KillSwitchTrigger K}.

(** C23. A heartbeat check is exact: it keeps the watch list; for each agent it
    takes the heartbeat that Redis holds under [monitor:heartbeat:<agent>]
    when the server answers and that heartbeat is fresher than the known one,
    counts one more miss when the heartbeat so known is older than the
    interval and none otherwise, and reports the agent with that time, count
    and age, unhealthy exactly when the count reaches the threshold; and it
    calls the kill switch once, in order, for exactly the unhealthy agents. *)
Theorem heartbeat_check_exact ts (s : HeartbeatChecker R K) health s' :
  hc_wf s -> 1 <= hc_max_misses s -> check_all ts s = (health, s') ->
  hc_wf s' /\ dkeys (hc_records s') = dkeys (hc_records s)
  /\ (forall a r, dget a (hc_records s) = Some r ->
        exists new missed,
          match hc_redis s with
          | None => new = r
          | Some server => new = latest (redis_kv server) r \/ (new = r /\ ~ redis_up server)
          end
          /\ missed = (if float_gt_int (age ts new) (hc_interval s) then HeartbeatRecord.missed_count new + 1 else 0)
          /\ dget a (hc_records s') = Some (HeartbeatRecord.mk a (HeartbeatRecord.last_seen_ms new) missed)
          /\ dget a health
             = Some (AgentHealth.mk a (negb (hc_max_misses s <=? missed)) (HeartbeatRecord.last_seen_ms new) missed (age ts new)))
  /\ hc_kill_switch s' = kills (hc_max_misses s) (dvalues (hc_records s')) (hc_kill_switch s).
Proof.
  intros Hwf Hmax E. pose proof (check_all_spec _ _ _ _ Hwf Hmax E)
    as (news & Hf & _ & Hrec & _ & Hk & _ & _ & Hwf').
  assert (Hlen : length (dkeys (hc_records s)) = length (checked (hc_interval s) ts <$> news)).
  { rewrite length_fmap, <- (Forall2_length _ _ _ Hf). unfold dkeys, dvalues. by rewrite !length_fmap. }
  split_and!; [done| | |].
  - rewrite Hrec. unfold dkeys at 1. apply fst_zip. lia.
  - intros a r Ha. destruct (check_all_agent _ _ _ _ _ _ Hwf Hmax E Ha) as (new & Hr & Hs & Hh).
    assert (Hn : HeartbeatRecord.agent_name new = a).
    { rewrite (refreshed_name _ _ _ Hr). apply dget_elem in Ha. destruct Hwf as [_ Hwf]. rewrite Forall_forall in Hwf.
      exact (Hwf _ Ha). }
    exists new. eexists. split_and!; [exact Hr|reflexivity| |].
    + rewrite Hs. unfold checked. by rewrite Hn.
    + rewrite Hh. unfold health_of, checked. cbn. rewrite Hn, Z.ltb_antisym. done.
  - rewrite Hk, Hrec. unfold dvalues. rewrite snd_zip by lia. done.
Qed.

(** A crashed agent is detected but never stops the system through the
    shipped kill switch: offline, once an agent has been silent for as many
    checks as the threshold it is counted unhealthy, and yet the
    [KillSwitchManager] the checker was given is as it was, because its
    [trigger_tier3] does not accept the keyword the checker passes. *)
Theorem silent_agent_never_halts {R'} (s : HeartbeatChecker R (KillSwitchManager R')) tss a r :
  hc_redis s = None -> hc_wf s -> 1 <= hc_max_misses s -> dget a (hc_records s) = Some r ->
  Forall (fun ts => float_gt_int (age ts r) (hc_interval s) = true) tss ->
  hc_max_misses s <= HeartbeatRecord.missed_count r + Z.of_nat (length tss) ->
  (exists r', dget a (hc_records (polls tss s)) = Some r'
              /\ hc_max_misses s <= HeartbeatRecord.missed_count r')
  /\ hc_kill_switch (polls tss s) = hc_kill_switch s.
Proof.
  intros Hr Hwf Hmax Ha Hlate Hn. split.
  - destruct (silent_count tss s a r Hr Hwf Hmax Ha Hlate) as [_ Hs]. eexists. split; [exact Hs|]. exact Hn.
  - assert (Hk : forall l (k : option (KillSwitchManager R')), fold_left call_kill l k = k).
    { induction l as [|x l IH]; intros k; [done|]. cbn [fold_left]. rewrite IH. by destruct k. }
    clear Hr Ha Hlate Hn. revert s Hwf Hmax. induction tss as [|ts tss IH]; intros s Hwf Hmax; [done|].
    cbn [polls fold_left]. destruct (check_all ts s) as [health s1] eqn:E. cbn [snd].
    apply check_all_spec in E as (news & _ & _ & _ & _ & Hs1 & _ & Hm & Hwf1); [|done|done].
    unfold polls in IH. rewrite IH by (done || lia). rewrite Hs1. apply Hk.
Qed.

(** What a poll reports: with a reachable server, a poll succeeds exactly
    when the orchestrator's document is a dictionary whose open positions
    have a length; it then reports the system halted when the halt key holds
    any value or the day's loss has reached 2%, and checks the heartbeats.
    Otherwise it raises before the heartbeats are looked at and leaves the
    agent as it was: a malformed document blinds the failsafe. *)
Theorem poll_outcome ts today (s : MonitorAgent R K) r :
  pt_redis (ma_pnl s) = Some r -> reachable r ->
  if state_shaped (found_state r) then
    exists snap s', poll_once ts today s = (Ok snap, s')
      /\ MonitorSnapshot.system_halted snap
         = bool_decide (redis_kv r !! KILL_SWITCH_HALTED_KEY <> None)
           || fle (PnLSnapshot.pnl_today_pct (MonitorSnapshot.pnl snap)) (dec (-2) 2)
      /\ ma_last_snapshot s' = Some snap
      /\ (MonitorSnapshot.agent_health snap, ma_hb s') = check_all ts (ma_hb s)
  else exists e, poll_once ts today s = (Raise e, s).
Proof.
  intros Hr Hreach. pose proof (state_shaped_spec (found_state r)) as Hshape.
  assert (Hcb : forall p, PnLSnapshot.is_circuit_breaker (snapshot today p).1
                          = fle (PnLSnapshot.pnl_today_pct (snapshot today p).1) (dec (-2) 2)).
  { intros p. unfold snapshot. by destruct (read_pnl today p) as [x y]. }
  unfold poll_once. rewrite bind_on_pnl by (by eapply snapshot_reachable).
  rewrite bind_on_pnl by (unfold read_system_halted; by rewrite (read_key_reachable _ _ _ _ r)).
  rewrite bind_on_pnl by (unfold read_orchestrator_state; by rewrite (read_key_reachable _ _ _ _ r)).
  assert (Hst : (read_orchestrator_state (ma_pnl s)).1 = found_state r).
  { unfold read_orchestrator_state. rewrite (read_key_reachable _ _ _ _ r) by done. unfold found_state.
    by destruct (redis_kv r !! ORCHESTRATOR_STATE_REDIS_KEY). }
  assert (Hh : (read_system_halted (ma_pnl s)).1 = bool_decide (redis_kv r !! KILL_SWITCH_HALTED_KEY <> None)).
  { unfold read_system_halted. by rewrite (read_key_reachable _ _ _ _ r). }
  rewrite Hst, Hh. rewrite !bind_lift. destruct (state_shaped (found_state r)).
  - destruct Hshape as (fields & l & Hv & Hl). rewrite Hv. cbn [jget mret result_ret].
    rewrite bind_lift, Hl, bind_lift. cbn [jget mret result_ret].
    rewrite bind_lift_mret, bind_on_pnl_gen, bind_on_hb. cbn [ma_hb ma_with_pnl].
    destruct (check_all ts (ma_hb s)) as [health h]. cbn [fst snd].
    eexists _, _. split; [reflexivity|]. cbn. by rewrite Hcb.
  - destruct Hshape as [e He]. exists e. destruct (jget _ _ (found_state r)) as [v|e'].
    + cbn in He. by rewrite bind_lift, He.
    + cbn in He. by injection He as ->.
Qed.

End MonitorProperties.

(** ** Evaluation on concrete inputs *)

(** A kill switch that records the reasons it is called with. *)
#[export] Instance recorder : KillSwitchTrigger (list string) := {
  trigger_tier3_by_reason reason calls := (Ok tt, calls ++ [reason]);
}.

Definition signal_agent : HeartbeatRecord.t := HeartbeatRecord.mk "SignalAgent" (dec 1000000 0) 1.

(** An agent last seen at 1000 s that has already missed one check. *)
Definition sample_checker {K} (k : K) : HeartbeatChecker MemRedis K :=
  {| hc_redis := None; hc_kill_switch := Some k; hc_interval := HEARTBEAT_INTERVAL_SECONDS;
     hc_max_misses := MAX_MISSED_HEARTBEATS_BEFORE_KILL;
     hc_records := [("SignalAgent", signal_agent)] |}.

Lemma sample_checker_wf {K} (k : K) : hc_wf (sample_checker k).
Proof. split; [apply NoDup_singleton|by constructor]. Qed.

Definition at_61s : float := dec 1061000 0.

Example silent_agent_calls :
  hc_kill_switch (polls [at_61s; at_61s] (sample_checker []))
  = Some ["Tier 3: agent 'SignalAgent' missed 2 consecutive heartbeats";
          "Tier 3: agent 'SignalAgent' missed 3 consecutive heartbeats"].
Proof. vm_compute. reflexivity. Qed.

(** The same with a server that holds a heartbeat of 1050 s. *)
Definition heartbeat_server : MemRedis :=
  {| mem_kv := {["monitor:heartbeat:SignalAgent" := "1050000.0"]}; mem_lists := ∅; mem_streams := ∅; mem_up := true |}.

Definition served_checker : HeartbeatChecker MemRedis (list string) :=
  {| hc_redis := Some heartbeat_server; hc_kill_switch := Some []; hc_interval := HEARTBEAT_INTERVAL_SECONDS;
     hc_max_misses := MAX_MISSED_HEARTBEATS_BEFORE_KILL; hc_records := [("SignalAgent", signal_agent)] |}.

Lemma heartbeat_check_exact_witness :
  dget "SignalAgent" (check_all at_61s served_checker).1
  = Some (AgentHealth.mk "SignalAgent" true (dec 1050000 0) 0 (dec 11 0))
  /\ hc_kill_switch (check_all at_61s served_checker).2 = Some [].
Proof.
  destruct (heartbeat_check_exact at_61s served_checker (check_all at_61s served_checker).1 (check_all at_61s served_checker).2
    (sample_checker_wf ([] : list string) : hc_wf served_checker) ltac:(vm_compute; discriminate) (surjective_pairing _)) as (_ & _ & Ha & ->).
  destruct (Ha "SignalAgent" signal_agent eq_refl) as (new & missed & [->|[_ Hdown]] & -> & _ & Hh).
  - split; [rewrite Hh|]; vm_compute; reflexivity.
  - destruct Hdown. reflexivity.
Defined.

Lemma silent_agent_never_halts_witness :
  (exists r', dget "SignalAgent" (hc_records (polls [at_61s; at_61s]
                (sample_checker (new_kill_switch (Some mem_empty))))) = Some r'
              /\ 2 <= HeartbeatRecord.missed_count r')
  /\ hc_kill_switch (polls [at_61s; at_61s] (sample_checker (new_kill_switch (Some mem_empty))))
     = Some (new_kill_switch (Some mem_empty)).
Proof.
  apply (silent_agent_never_halts (sample_checker (new_kill_switch (Some mem_empty)))
           [at_61s; at_61s] "SignalAgent" signal_agent).
  - reflexivity.
  - apply sample_checker_wf.
  - vm_compute. discriminate.
  - vm_compute. reflexivity.
  - repeat constructor.
  - vm_compute. discriminate.
Defined.

Definition blind_server : MemRedis :=
  {| mem_kv := {[ORCHESTRATOR_STATE_REDIS_KEY := "[]"]}; mem_lists := ∅; mem_streams := ∅; mem_up := true |}.

Definition blind_agent : MonitorAgent MemRedis (list string) :=
  {| ma_pnl := {| pt_redis := Some blind_server; pt_starting_capital := dec 1000000 0 |};
     ma_hb := sample_checker []; ma_pushed := []; ma_last_snapshot := None |}.

Lemma poll_outcome_witness :
  exists e, poll_once at_61s "20260102" blind_agent = (Raise e, blind_agent).
Proof.
  assert (Hs : state_shaped (found_state blind_server) = false) by (vm_compute; reflexivity).
  pose proof (poll_outcome at_61s "20260102" blind_agent blind_server eq_refl (fun k => eq_refl)) as P.
  rewrite Hs in P. exact P.
Defined.
