(* ===== verification/Orchestrator.v ===== *)
(** * Agent orchestrator ([shared/orchestrator])

    [state.py], [nodes.py] and [graph.py].  The shared state is the Python
    dictionary it is at run time: a [TypedDict] is not checked, and a state
    restored from Redis is whatever JSON object was stored.  Nodes return
    the dictionary of the fields they update.  LangGraph is a third-party
    package: [CompiledGraph] lists the two calls made on the compiled graph,
    [CompiledGraphLaws] what its documentation promises (an invocation runs
    nodes along the edges and checkpoints the merged state), and [Interp] is
    a concrete interpreter of the wiring that satisfies the laws.  What
    [datetime.utcnow().isoformat()] returns is read from a sequence. *)

From Stdlib Require Import SpecFloat.
From S2P Require Import Prelude PyFloat PyDict Json PyText Redis Constants.
Local Open Scope Z_scope.

(** ** Shared state ([state.py]) *)

Definition TradingSystemState : Type := dict string json.

Definition make_initial_state (market_date : string) : TradingSystemState :=
  [("session_state", JStr "CLOSED"); ("market_date", JStr market_date);
   ("market_regime", JStr "MEAN_REVERTING"); ("regime_confidence", JFloat f_zero);
   ("watchlist", JList []); ("open_positions", JObj []); ("open_orders", JObj []);
   ("signals_today", JInt 0); ("trades_today", JInt 0); ("pnl_today", JFloat f_zero);
   ("pnl_today_pct", JFloat f_zero); ("circuit_breaker_active", JBool false);
   ("kill_switch_active", JBool false); ("snapshot_window_active", JBool false);
   ("pending_hitl_approval", JNull); ("strategy_ids", JObj []); ("ops_last_second", JInt 0);
   ("agent_heartbeats", JObj []); ("last_reconciliation_at", JNull);
   ("reconciliation_mismatches_today", JInt 0); ("last_error", JNull);
   ("last_error_agent", JNull); ("last_error_at", JNull)].

(** [d.update(u)] *)
Definition dupdate {V} (d u : dict string V) : dict string V :=
  fold_left (fun d kv => dset kv.1 kv.2 d) u d.

Definition state_to_json (state : TradingSystemState) : string := json_dumps (JObj state).

(** [today] is the UTC date the initial state is stamped with. *)
Definition state_from_json (raw today : string) : result TradingSystemState :=
  data ← json_loads raw;
  match data with
  | JObj fields => mret (dupdate (make_initial_state today) fields)
  | _ => Raise (TypeError "object is not iterable as a mapping")
  end.

#[global] Arguments state_to_json : simpl never.
#[global] Arguments state_from_json : simpl never.

(** ** Python operations on JSON values *)

(** [state.get(key)] *)
Definition get_or_none (key : string) (d : dict string json) : json := default JNull (dget key d).

Definition attribute_error : exn := OtherError "AttributeError".

(** [x < n] for an [int] [n], on the exact values. *)
Definition float_lt_int (x : float) (n : Z) : bool := float_gt_int (fneg x) (- n).

(** [max(prior, n)] *)
Definition json_max (prior : json) (n : Z) : result json :=
  match prior with
  | JInt z => mret (if z <? n then JInt n else prior)
  | JBool b => mret (if Z.b2z b <? n then JInt n else prior)
  | JFloat x => mret (if float_lt_int x n then JInt n else prior)
  | _ => Raise (TypeError "'>' not supported")
  end.

(** [v + 1] *)
Definition json_succ (v : json) : result json :=
  match v with
  | JInt z => mret (JInt (z + 1))
  | JBool b => mret (JInt (Z.b2z b + 1))
  | JFloat x => mret (JFloat (fadd x (dec 1 0)))
  | _ => Raise (TypeError "unsupported operand")
  end.

(** [float(v) if isinstance(v, (int, float)) else 0.0] *)
Definition float_or_zero (v : json) : result float :=
  match v with
  | JInt z => float_of_int z
  | JBool b => mret (if b then dec 1 0 else f_zero)
  | JFloat x => mret x
  | _ => mret f_zero
  end.

(** ** Nodes ([nodes.py]) *)

(** The Redis client the nodes close over, and the clock. *)
Record World (R : Type) := { w_redis : option R; w_clock : Readings string }.
#[global] Arguments w_redis {R}.
#[global] Arguments w_clock {R}.

Section Nodes.
Context {R : Type} `{RedisKV R} `{RedisStream R}.

#[local] Abbreviation World := (World R).
Definition Update : Type := dict string json.
Definition Node : Type := TradingSystemState -> M World Update.

Definition now_iso : M World string :=
  M_zoom w_clock (fun c w => {| w_redis := w_redis w; w_clock := c |}) next_reading.

(** A call on the client; without one it must not be reached. *)
Definition on_redis {A} (f : R -> result A * R) : M World A := fun w =>
  match w_redis w with
  | Some r => let '(x, r') := f r in (x, {| w_redis := Some r'; w_clock := w_clock w |})
  | None => (Raise attribute_error, w)
  end.

Definition has_redis : M World bool := fun w => (Ok (bool_decide (is_Some (w_redis w))), w).

Definition regime_node : Node := fun state =>
  connected ← has_redis;
  if negb connected then mret []
  else
    M_try
      (entries ← on_redis (redis_xrevrange REGIME_REDIS_STREAM 1);
       match entries with
       | [] => mret []
       | fields :: _ =>
           let regime := default "" (dget "regime" fields) in
           let confidence := match py_float (default "0.0" (dget "confidence" fields)) with
                             | Ok x => x
                             | Raise _ => f_zero
                             end in
           if is_empty regime then mret []
           else mret [("market_regime", JStr regime); ("regime_confidence", JFloat confidence)]
       end)
      (fun _ => mret []).

(** [reconciliation_blocked_fn], when given. *)
Definition BlockedFn : Type := option (string -> string -> result bool).

Definition halted_by_flags (state : TradingSystemState) : bool :=
  truthy (get_or_none "kill_switch_active" state)
  || truthy (get_or_none "circuit_breaker_active" state).

(** The block of [signal_node] that reads the signal stream, in its [try]. *)
Definition consume_signal (blocked_fn : BlockedFn) (state : TradingSystemState) : M World Update :=
  entries ← on_redis (redis_xrevrange SIGNAL_REDIS_STREAM 1);
  match entries with
  | [] => mret []
  | fields :: _ =>
      let symbol := default "" (dget "symbol" fields) in
      let exchange := default "" (dget "exchange" fields) in
      blocked ← match blocked_fn with
                | Some f => M_lift (f symbol exchange)
                | None => mret false
                end;
      if (blocked : bool) then mret []
      else
        n ← M_lift (match dget "signals_today" state with
                    | Some v => json_succ v
                    | None => Raise (KeyError "signals_today")
                    end);
        mret [("signals_today", n)]
  end.

(** [state.get("market_regime") == "HIGH_VOL_CHAOS"] *)
Definition in_chaos (state : TradingSystemState) : bool :=
  match get_or_none "market_regime" state with
  | JStr s => String.eqb s "HIGH_VOL_CHAOS"
  | _ => false
  end.

(** The two key reads stand outside the [try]: their exceptions escape. *)
Definition signal_node (blocked_fn : BlockedFn) : Node := fun state =>
  if halted_by_flags state then mret []
  else
    connected ← has_redis;
    halted ← (if connected : bool then on_redis (redis_get KILL_SWITCH_HALTED_KEY) else mret None);
    if bool_decide (is_Some halted) then mret [("kill_switch_active", JBool true)]
    else
      degraded ← (if connected : bool then on_redis (redis_get INGESTION_DEGRADED_REDIS_KEY)
                  else mret None);
      if bool_decide (is_Some degraded) then mret []
      else if in_chaos state then mret []
      else if negb connected then mret []
      else M_try (consume_signal blocked_fn state) (fun _ => mret []).

Definition reconciliation_node : Node := fun state =>
  now ← now_iso;
  connected ← has_redis;
  if negb connected then mret [("last_reconciliation_at", JStr now)]
  else
    M_try
      (entries ← on_redis (redis_xrevrange RECONCILIATION_MISMATCH_REDIS_STREAM 100);
       let prior := default (JInt 0) (dget "reconciliation_mismatches_today" state) in
       new_total ← M_lift (json_max prior (Z.of_nat (length entries)));
       mret [("last_reconciliation_at", JStr now); ("reconciliation_mismatches_today", new_total)])
      (fun _ => mret [("last_reconciliation_at", JStr now)]).

(** [pnl_pct <= -0.02], and the text of [f"{pnl_pct:.2%}"]. *)
Definition loss_breached (pnl_pct : json) : result bool :=
  match pnl_pct with
  | JFloat x => mret (fle x (dec (-2) 2))
  | JInt z => mret (z <? 0)
  | JBool _ => mret false
  | _ => Raise (TypeError "'<=' not supported")
  end.

Definition fmt_pnl (pnl_pct : json) : result string :=
  match pnl_pct with
  | JFloat x => mret (fmt_percent 2 x)
  | JInt z => x ← float_of_int z; mret (fmt_percent 2 x)
  | _ => mret ""
  end.

(** The loop over the positions: the first one above the threshold. *)
Fixpoint find_large (starting_capital : float) (positions : list (string * json))
    : result (option (string * float * float)) :=
  match positions with
  | [] => mret None
  | (symbol, pos) :: positions =>
      match pos with
      | JObj fields =>
          qty ← float_or_zero (default (JInt 0) (dget "quantity" fields));
          avg_price ← float_or_zero (default (JFloat f_zero) (dget "avg_price" fields));
          let position_value := fabs (qty * avg_price)%pf in
          let pct := fdiv position_value starting_capital in
          if flt f_zero starting_capital && flt HITL_CAPITAL_THRESHOLD_PCT pct then
            mret (Some (symbol, position_value, pct))
          else find_large starting_capital positions
      | _ => Raise attribute_error
      end
  end.

Definition risk_node (starting_capital : float) : Node := fun state =>
  let pnl_pct := default (JFloat f_zero) (dget "pnl_today_pct" state) in
  breached ← M_lift (loss_breached pnl_pct);
  if (breached : bool) && negb (truthy (get_or_none "circuit_breaker_active" state)) then
    text ← M_lift (fmt_pnl pnl_pct);
    now ← now_iso;
    mret [("circuit_breaker_active", JBool true);
          ("last_error", JStr ("Circuit breaker: daily P&L " +:+ text));
          ("last_error_agent", JStr "risk_node"); ("last_error_at", JStr now)]
  else if halted_by_flags state then mret []
  else
    match default (JObj []) (dget "open_positions" state) with
    | JObj positions =>
        large ← M_lift (find_large starting_capital positions);
        match large with
        | Some (symbol, position_value, pct) =>
            now ← now_iso;
            mret [("pending_hitl_approval",
                   JObj [("symbol", JStr symbol); ("position_value", JFloat position_value);
                         ("capital_pct", JFloat pct); ("requested_at", JStr now)])]
        | None => mret []
        end
    | _ => M_raise attribute_error
    end.

(** [hitl.get("symbol", "unknown")], for the log: only its failure matters. *)
Definition log_hitl (hitl : json) : result unit :=
  match hitl with
  | JNull | JObj _ => mret tt
  | _ => Raise attribute_error
  end.

Definition hitl_node : Node := fun state =>
  _ ← M_lift (log_hitl (get_or_none "pending_hitl_approval" state));
  mret [("pending_hitl_approval", JNull)].

Definition kill_switch_node : Node := fun state =>
  _ ← M_lift (log_hitl (get_or_none "pending_hitl_approval" state));
  now ← now_iso;
  mret [("kill_switch_active", JBool true); ("pending_hitl_approval", JNull);
        ("last_error", JStr "Kill switch activated");
        ("last_error_agent", JStr "kill_switch_node"); ("last_error_at", JStr now)].

(** ** Wiring ([OrchestratorGraph.__init__]) *)

Inductive NodeName : Type :=
| REGIME | SIGNAL | RECON | RISK | HITL | KILL.

Inductive RouteName : Type := ROUTE_KILL | ROUTE_HITL | ROUTE_END.

Definition route_after_risk (state : TradingSystemState) : RouteName :=
  if halted_by_flags state then ROUTE_KILL
  else match get_or_none "pending_hitl_approval" state with
       | JNull => ROUTE_END
       | _ => ROUTE_HITL
       end.

Record GraphConfig := {
  gc_starting_capital : float;
  gc_blocked_fn : BlockedFn;
  gc_enable_hitl : bool;
}.

Definition node_fn (cfg : GraphConfig) (n : NodeName) : Node :=
  match n with
  | REGIME => regime_node
  | SIGNAL => signal_node (gc_blocked_fn cfg)
  | RECON => reconciliation_node
  | RISK => risk_node (gc_starting_capital cfg)
  | HITL => hitl_node
  | KILL => kill_switch_node
  end.

Definition entry_point : NodeName := REGIME.

(** The node after [n], on the state merged with [n]'s update; [None] is END. *)
Definition successor (n : NodeName) (state : TradingSystemState) : option NodeName :=
  match n with
  | REGIME => Some SIGNAL
  | SIGNAL => Some RECON
  | RECON => Some RISK
  | RISK => match route_after_risk state with
            | ROUTE_KILL => Some KILL
            | ROUTE_HITL => Some HITL
            | ROUTE_END => None
            end
  | HITL | KILL => None
  end.

Definition interrupt_before (cfg : GraphConfig) (n : NodeName) : bool :=
  match n with HITL => gc_enable_hitl cfg | _ => false end.

End Nodes.

(** ** The compiled graph *)

Section Compiled.
Context {R : Type} `{RedisKV R} `{RedisStream R} (cfg : GraphConfig).

(** A pass over the graph: [runs n s s' stop] says that executing node [n] on
    the state [s] and following the edges leads to the state [s'] and stops
    before the node [stop], or at END. *)
Inductive runs : NodeName -> TradingSystemState -> TradingSystemState -> option NodeName -> Prop :=
| runs_end n s (w w' : World R) u :
    node_fn cfg n s w = (Ok u, w') ->
    successor n (dupdate s u) = None ->
    runs n s (dupdate s u) None
| runs_stop n s (w w' : World R) u n' :
    node_fn cfg n s w = (Ok u, w') ->
    successor n (dupdate s u) = Some n' ->
    runs n s (dupdate s u) (Some n')
| runs_next n s (w w' : World R) u n' s' stop :
    node_fn cfg n s w = (Ok u, w') ->
    successor n (dupdate s u) = Some n' ->
    interrupt_before cfg n' = false ->
    runs n' (dupdate s u) s' stop ->
    runs n s s' stop.

(** What a completed invocation returns: the final state, or [None] when the
    pass was interrupted for a human. *)
Definition invocation_result (s' : TradingSystemState) (stop : option NodeName)
    (r : option TradingSystemState) : Prop :=
  match r with
  | Some s => s = s' /\ stop = None
  | None => exists n, stop = Some n /\ interrupt_before cfg n = true
  end.

End Compiled.

(** The calls made on [self._app], for the thread of the instance. *)
Class CompiledGraph (App : Type) := {
  lg_invoke : option TradingSystemState -> App -> result (option TradingSystemState) * App;
  lg_update_state : Update -> App -> result unit * App;
}.

(** The documented behaviour of a compiled graph with a checkpointer: the
    values of the thread are merged with the input or the update; a pass
    runs along the edges and its state is checkpointed, also when a node
    raises half-way; [invoke(None)] goes on from the checkpoint. *)
Class CompiledGraphLaws (R App : Type) `{RedisKV R, RedisStream R} (cfg : GraphConfig)
    `{CompiledGraph App} := {
  lg_values : App -> option TradingSystemState;
  lg_invoke_input input a r a' :
    lg_invoke (Some input) a = (Ok r, a') ->
    exists s' stop, runs (R:=R) cfg entry_point (dupdate (default [] (lg_values a)) input) s' stop
      /\ invocation_result cfg s' stop r /\ lg_values a' = Some s';
  lg_invoke_resume a r a' :
    lg_invoke None a = (Ok r, a') ->
    exists s, lg_values a = Some s
      /\ ((r = Some s /\ lg_values a' = Some s)
          \/ exists n s' stop, runs (R:=R) cfg n s s' stop
               /\ invocation_result cfg s' stop r /\ lg_values a' = Some s');
  lg_invoke_raise input a e a' :
    lg_invoke input a = (Raise e, a') ->
    lg_values a' = lg_values a
    \/ (exists s, input = Some s
          /\ lg_values a' = Some (dupdate (default [] (lg_values a)) s))
    \/ exists n s s' stop,
         match input with
         | Some i => s = dupdate (default [] (lg_values a)) i
         | None => lg_values a = Some s
         end
         /\ runs (R:=R) cfg n s s' stop /\ lg_values a' = Some s';
  lg_update_values u a r a' :
    lg_update_state u a = (r, a') ->
    lg_values a' = Some (dupdate (default [] (lg_values a)) u)
    \/ (lg_values a' = lg_values a /\ is_ok r = false);
}.

(** ** The orchestrator ([OrchestratorGraph]) *)

Section Orchestrator.
Context {R App : Type} `{RedisKV R} `{CompiledGraph App}.

Record OrchestratorGraph := {
  og_redis : option R;
  og_app : App;
  og_state : TradingSystemState;
}.

Definition og_with_app (a : App) (self : OrchestratorGraph) : OrchestratorGraph :=
  {| og_redis := og_redis self; og_app := a; og_state := og_state self |}.
Definition og_with_state (s : TradingSystemState) (self : OrchestratorGraph) : OrchestratorGraph :=
  {| og_redis := og_redis self; og_app := og_app self; og_state := s |}.
Definition og_with_redis (r : option R) (self : OrchestratorGraph) : OrchestratorGraph :=
  {| og_redis := r; og_app := og_app self; og_state := og_state self |}.

(** [__init__]: [app] is the graph compiled for the wiring above, with a
    fresh checkpointer. *)
Definition new_orchestrator (redis_client : option R) (app : App) (today : string)
    : OrchestratorGraph :=
  {| og_redis := redis_client; og_app := app; og_state := make_initial_state today |}.

Definition invoke (input : option TradingSystemState)
    : M OrchestratorGraph (option TradingSystemState) :=
  M_zoom og_app og_with_app (lg_invoke input).

Definition update_state (u : Update) : M OrchestratorGraph unit :=
  M_zoom og_app og_with_app (lg_update_state u).

(** [if result is not None: self._state = result] *)
Definition keep_result (result_ : option TradingSystemState) : M OrchestratorGraph unit :=
  match result_ with
  | Some s => M_modify (og_with_state s)
  | None => mret tt
  end.

(** [input_state or self._state]: an empty dictionary counts as none. *)
Definition run_cycle (input_state : option TradingSystemState)
    : M OrchestratorGraph (option TradingSystemState) :=
  self ← M_get;
  let invoke_input := match input_state with
                      | Some ((_ :: _) as s) => s
                      | _ => og_state self
                      end in
  result_ ← invoke (Some invoke_input);
  _ ← keep_result result_;
  mret result_.

Definition approve_hitl : M OrchestratorGraph (option TradingSystemState) :=
  result_ ← invoke None;
  _ ← keep_result result_;
  mret result_.

Definition reject_hitl : M OrchestratorGraph unit :=
  _ ← update_state [("pending_hitl_approval", JNull)];
  result_ ← invoke None;
  keep_result result_.

Definition KILL_UPDATE : Update :=
  [("kill_switch_active", JBool true); ("pending_hitl_approval", JNull)].

(** The local state is changed before the checkpoint. *)
Definition trigger_kill_switch : M OrchestratorGraph unit :=
  _ ← M_modify (fun self => og_with_state (dupdate (og_state self) KILL_UPDATE) self);
  _ ← update_state KILL_UPDATE;
  result_ ← invoke None;
  keep_result result_.

Definition get_state (self : OrchestratorGraph) : TradingSystemState := og_state self.

Definition is_halted (self : OrchestratorGraph) : bool := halted_by_flags (og_state self).

(** Every exception is logged only. *)
Definition shutdown (self : OrchestratorGraph) : OrchestratorGraph :=
  match og_redis self with
  | None => self
  | Some r =>
      og_with_redis (Some (redis_set ORCHESTRATOR_STATE_REDIS_KEY (state_to_json (og_state self)) None r).2) self
  end.

(** [OrchestratorGraph.restore(redis_client)] *)
Definition restore (redis_client : R) (app : App) (today : string) : result OrchestratorGraph :=
  let '(raw, r) := redis_get ORCHESTRATOR_STATE_REDIS_KEY redis_client in
  raw ← raw;
  let instance := new_orchestrator (Some r) app today in
  match raw with
  | Some payload =>
      state ← state_from_json payload today;
      mret (og_with_state state instance)
  | None => mret instance
  end.

End Orchestrator.
#[global] Arguments OrchestratorGraph R App : clear implicits.

(** ** An interpreter of the wiring *)

Record Interp (R : Type) := {
  in_world : World R;
  in_values : option TradingSystemState;
  in_next : option NodeName;
}.
#[global] Arguments in_world {R}.
#[global] Arguments in_values {R}.
#[global] Arguments in_next {R}.

Section Interpreter.
Context {R : Type} `{RedisKV R} `{RedisStream R} (cfg : GraphConfig).

(** A pass from node [n]; the wiring is acyclic and no path has more than
    five nodes. *)
Fixpoint interp_run (fuel : nat) (n : NodeName) (s : TradingSystemState) (w : World R)
    : result (option TradingSystemState) * Interp R :=
  match fuel with
  | O => (Raise (OtherError "recursion limit"), {| in_world := w; in_values := Some s; in_next := Some n |})
  | S fuel =>
      match node_fn cfg n s w with
      | (Raise e, w) => (Raise e, {| in_world := w; in_values := Some s; in_next := Some n |})
      | (Ok u, w) =>
          let s := dupdate s u in
          match successor n s with
          | None => (Ok (Some s), {| in_world := w; in_values := Some s; in_next := None |})
          | Some n' =>
              if interrupt_before cfg n' then
                (Ok None, {| in_world := w; in_values := Some s; in_next := Some n' |})
              else interp_run fuel n' s w
          end
      end
  end.

Definition interp_fuel : nat := 6.

Definition interp_invoke (input : option TradingSystemState) (a : Interp R)
    : result (option TradingSystemState) * Interp R :=
  match input, in_values a, in_next a with
  | Some input, _, _ =>
      interp_run interp_fuel entry_point (dupdate (default [] (in_values a)) input) (in_world a)
  | None, None, _ => (Raise (OtherError "EmptyInputError"), a)
  | None, Some s, Some n => interp_run interp_fuel n s (in_world a)
  | None, Some s, None => (Ok (Some s), a)
  end.

Definition interp_update (u : Update) (a : Interp R) : result unit * Interp R :=
  (Ok tt, {| in_world := in_world a; in_values := Some (dupdate (default [] (in_values a)) u);
             in_next := in_next a |}).

#[local] Instance Interp_graph : CompiledGraph (Interp R) := {
  lg_invoke := interp_invoke;
  lg_update_state := interp_update;
}.

(** The outcome of a pass is a run of the wiring, cut short when a node
    raised. *)
Lemma interp_run_spec fuel n s w r a :
  interp_run fuel n s w = (r, a) ->
  match r with
  | Ok x => exists s' stop, runs (R:=R) cfg n s s' stop /\ invocation_result cfg s' stop x
                            /\ in_values a = Some s'
  | Raise _ => in_values a = Some s
               \/ exists s' stop, runs (R:=R) cfg n s s' stop /\ in_values a = Some s'
  end.
Proof.
  revert n s w. induction fuel as [|fuel IH]; intros n s w.
  - intros [= <- <-]. by left.
  - cbn [interp_run]. destruct (node_fn cfg n s w) as [[u|e] w'] eqn:En; [|intros [= <- <-]; by left].
    destruct (successor n (dupdate s u)) as [n'|] eqn:Es.
    + destruct (interrupt_before cfg n') eqn:Ei.
      * intros [= <- <-]. exists (dupdate s u), (Some n').
        split_and!; [by eapply runs_stop|by eexists|done].
      * intros E. apply IH in E. destruct r as [x|e].
        -- destruct E as (s' & stop & Hr & Hx). exists s', stop. split; [by eapply runs_next|done].
        -- destruct E as [Hv|(s' & stop & Hr & Hv)]; right.
           ++ exists (dupdate s u), (Some n'). split; [by eapply runs_stop|done].
           ++ exists s', stop. split; [by eapply runs_next|done].
    + intros [= <- <-]. exists (dupdate s u), None. split_and!; [by eapply runs_end|done|done].
Qed.

#[local] Program Instance Interp_laws : CompiledGraphLaws R (Interp R) cfg := {
  lg_values := in_values;
}.
Next Obligation.
  intros input a r a' E. by apply interp_run_spec in E.
Qed.
Next Obligation.
  intros a r a' E. unfold lg_invoke, Interp_graph, interp_invoke in E.
  destruct (in_values a) as [s|] eqn:Ev; [|done]. exists s. split; [done|].
  destruct (in_next a) as [n|]; [right|left; by injection E as <- <-].
  apply interp_run_spec in E as (s' & stop & ?). by exists n, s', stop.
Qed.
Next Obligation.
  intros input a e a' E. unfold lg_invoke, Interp_graph, interp_invoke in E.
  destruct input as [input|].
  - apply interp_run_spec in E as [Hv|(s' & stop & Hr & Hv)]; [right; left; by eexists|].
    right. right. by eexists entry_point, _, s', stop.
  - destruct (in_values a) as [s|] eqn:Ev; [|injection E as _ <-; by left; rewrite Ev].
    destruct (in_next a) as [n|]; [|done].
    apply interp_run_spec in E as [Hv|(s' & stop & Hr & Hv)]; [by left; rewrite Hv|].
    right. right. exists n, s, s', stop. done.
Qed.
Next Obligation.
  intros u a r a' E. injection E as _ <-. by left.
Qed.

End Interpreter.

(** ** Facts about the nodes *)

(** The updates each node can return. *)
Definition node_updates (n : NodeName) (u : Update) : Prop :=
  match n with
  | REGIME => u = [] \/ exists r c, u = [("market_regime", JStr r); ("regime_confidence", JFloat c)]
  | SIGNAL => u = [] \/ u = [("kill_switch_active", JBool true)] \/ exists v, u = [("signals_today", v)]
  | RECON => exists now, u = [("last_reconciliation_at", now)]
             \/ exists v, u = [("last_reconciliation_at", now); ("reconciliation_mismatches_today", v)]
  | RISK => u = []
            \/ (exists t now, u = [("circuit_breaker_active", JBool true); ("last_error", t);
                                   ("last_error_agent", JStr "risk_node"); ("last_error_at", now)])
            \/ exists fields, u = [("pending_hitl_approval", JObj fields)]
  | HITL => u = [("pending_hitl_approval", JNull)]
  | KILL => exists t now, u = [("kill_switch_active", JBool true); ("pending_hitl_approval", JNull);
                               ("last_error", t); ("last_error_agent", JStr "kill_switch_node");
                               ("last_error_at", now)]
  end.

Section NodeFacts.
Context {R : Type} `{RedisKV R} `{RedisStream R}.

Lemma try_ok {A} (m : M (World R) A) (d : A) (P : A -> Prop) w a w' :
  (forall w a w', m w = (Ok a, w') -> P a) -> P d ->
  M_try m (fun _ => mret d) w = (Ok a, w') -> P a.
Proof.
  intros Hm Hd. unfold M_try. destruct (m w) as [[x|e] w1] eqn:E.
  - intros [= -> _]. by eapply Hm.
  - by intros [= <- _].
Qed.

Lemma bind_inv_ok {S A B} (m : M S A) (k : A -> M S B) w b w' :
  (m ≫= k) w = (Ok b, w') -> exists a w1, m w = (Ok a, w1) /\ k a w1 = (Ok b, w').
Proof.
  unfold mbind, M_bind. destruct (m w) as [[a|e] w1]; [|done]. intros E. by exists a, w1.
Qed.

Lemma ret_inv {S A} (a b : A) (w w' : S) : (mret a : M S A) w = (Ok b, w') -> b = a.
Proof. by intros [= -> _]. Qed.

Lemma regime_node_updates s (w w' : World R) u : regime_node s w = (Ok u, w') -> node_updates REGIME u.
Proof.
  unfold regime_node. intros E. apply bind_inv_ok in E as (c & w1 & _ & E).
  destruct (negb c); [apply ret_inv in E; by left|].
  revert E. apply (try_ok _ [] (node_updates REGIME)); [|by left]. clear. intros w a w' E.
  apply bind_inv_ok in E as (entries & w1 & _ & E).
  destruct entries as [|fields entries]; [apply ret_inv in E; by left|].
  destruct (is_empty _); apply ret_inv in E; [by left|]. right. by eexists _, _.
Qed.

Lemma signal_node_updates f s (w w' : World R) u : signal_node f s w = (Ok u, w') -> node_updates SIGNAL u.
Proof.
  unfold signal_node. destruct (halted_by_flags s); [intros E; apply ret_inv in E; by left|].
  intros E. apply bind_inv_ok in E as (c & w1 & _ & E). apply bind_inv_ok in E as (h & w2 & _ & E).
  destruct (bool_decide (is_Some h)); [apply ret_inv in E; right; by left|].
  apply bind_inv_ok in E as (d & w3 & _ & E).
  destruct (bool_decide (is_Some d)); [apply ret_inv in E; by left|].
  destruct (in_chaos s); [apply ret_inv in E; by left|].
  destruct (negb c); [apply ret_inv in E; by left|].
  revert E. apply (try_ok _ [] (node_updates SIGNAL)); [|by left]. clear. intros w a w' E.
  unfold consume_signal in E.
  apply bind_inv_ok in E as (entries & w1 & _ & E).
  destruct entries as [|fields entries]; [apply ret_inv in E; by left|].
  apply bind_inv_ok in E as (b & w2 & _ & E). destruct (b : bool); [apply ret_inv in E; by left|].
  apply bind_inv_ok in E as (n & w3 & _ & E). apply ret_inv in E. right. right. by exists n.
Qed.

Lemma reconciliation_node_updates s (w w' : World R) u :
  reconciliation_node s w = (Ok u, w') -> node_updates RECON u.
Proof.
  unfold reconciliation_node. intros E. apply bind_inv_ok in E as (now & w1 & _ & E).
  exists (JStr now). apply bind_inv_ok in E as (c & w2 & _ & E).
  destruct (negb c); [apply ret_inv in E; by left|].
  revert E. apply (try_ok _ [("last_reconciliation_at", JStr now)] (fun u =>
    u = [("last_reconciliation_at", JStr now)]
    \/ exists v, u = [("last_reconciliation_at", JStr now); ("reconciliation_mismatches_today", v)]));
    [|by left]. clear. intros w a w' E. apply bind_inv_ok in E as (entries & w1 & _ & E).
  apply bind_inv_ok in E as (n & w2 & _ & E). apply ret_inv in E. right. by exists n.
Qed.

Lemma risk_node_updates cap s (w w' : World R) u : risk_node cap s w = (Ok u, w') -> node_updates RISK u.
Proof.
  unfold risk_node. intros E. apply bind_inv_ok in E as (b & w1 & _ & E).
  destruct (b && _).
  - apply bind_inv_ok in E as (t & w2 & _ & E). apply bind_inv_ok in E as (now & w3 & _ & E).
    apply ret_inv in E. right. left. by eexists _, _.
  - destruct (halted_by_flags s); [apply ret_inv in E; by left|].
    destruct (default _ _) as [| | | | | |positions]; try done.
    apply bind_inv_ok in E as (large & w2 & _ & E).
    destruct large as [[[symbol v] pct]|]; [|apply ret_inv in E; by left].
    apply bind_inv_ok in E as (now & w3 & _ & E). apply ret_inv in E. right. right. by eexists.
Qed.

Lemma node_fn_updates cfg n s (w w' : World R) u : node_fn cfg n s w = (Ok u, w') -> node_updates n u.
Proof.
  destruct n; cbn [node_fn].
  - apply regime_node_updates.
  - apply signal_node_updates.
  - apply reconciliation_node_updates.
  - apply risk_node_updates.
  - unfold hitl_node. intros E. apply bind_inv_ok in E as (t & w1 & _ & E). by apply ret_inv in E.
  - unfold kill_switch_node. intros E. apply bind_inv_ok in E as (t & w1 & _ & E).
    apply bind_inv_ok in E as (now & w2 & _ & E). apply ret_inv in E. by eexists _, _.
Qed.

End NodeFacts.

(** Reading a state after a literal update. *)
Ltac dget_update :=
  unfold dupdate, get_or_none; cbn [fold_left fst snd];
  repeat first [rewrite dget_dset_eq | rewrite dget_dset_ne by discriminate].

Ltac split_updates H :=
  cbn [node_updates] in H;
  repeat match type of H with
  | _ \/ _ => destruct H as [H|H]
  | exists _, _ => destruct H as [? H]
  end; subst.

(** Updates never clear a safety flag. *)
Lemma flags_latched n s u :
  node_updates n u -> halted_by_flags s = true -> halted_by_flags (dupdate s u) = true.
Proof.
  unfold halted_by_flags. intros Hu Hs.
  destruct n; split_updates Hu; revert Hs; dget_update; cbn; rewrite ?orb_true_r; done.
Qed.

(** ** Facts about passes over the graph *)

Section RunFacts.
Context {R : Type} `{RedisKV R} `{RedisStream R} (cfg : GraphConfig).

#[local] Abbreviation runs := (runs (R:=R) cfg).

Lemma runs_latched n s s' stop :
  runs n s s' stop -> halted_by_flags s = true -> halted_by_flags s' = true.
Proof.
  induction 1 as [n s w w' u En _|n s w w' u n' En _|n s w w' u n' s' stop En _ _ _ IH]; intros Hs;
    apply node_fn_updates in En; [by eapply flags_latched..|]. by eapply IH, flags_latched.
Qed.

(** The state of the kill-switch node: halted, no approval pending. *)
Definition killed (s : TradingSystemState) : Prop :=
  get_or_none "kill_switch_active" s = JBool true /\ get_or_none "pending_hitl_approval" s = JNull.

Lemma kill_update_killed s u : node_updates KILL u -> killed (dupdate s u).
Proof. intros Hu. split_updates Hu. split; by dget_update. Qed.

Lemma hitl_update_flags s u :
  node_updates HITL u -> halted_by_flags (dupdate s u) = halted_by_flags s.
Proof. intros Hu. split_updates Hu. unfold halted_by_flags. by dget_update. Qed.

(** The human is asked only when nothing is halted; the kill-switch node is
    entered only when something is. *)
Lemma successor_hitl n s : successor n s = Some HITL -> halted_by_flags s = false.
Proof.
  destruct n; try done. cbn. unfold route_after_risk. destruct (halted_by_flags s); [done|].
  by destruct (get_or_none _ s).
Qed.

Lemma successor_end n s :
  successor n s = None -> n = HITL \/ n = KILL \/ (halted_by_flags s = false).
Proof.
  destruct n; try done; cbn; auto. unfold route_after_risk. destruct (halted_by_flags s); [done|]. auto.
Qed.

(** How a pass from a node other than [HITL] and [KILL] ends. *)
Lemma runs_end_cases n s s' stop :
  runs n s s' stop ->
  (n = HITL -> halted_by_flags s = false) ->
  match stop with
  | None => killed s' \/ halted_by_flags s' = false
  | Some n' => interrupt_before cfg n' = true -> halted_by_flags s' = false
  end.
Proof.
  induction 1 as [n s w w' u En Es|n s w w' u n' En Es|n s w w' u n' s' stop En Es Ei Hr IH]; intros Hn;
    apply node_fn_updates in En.
  - apply successor_end in Es as [-> | [-> | Hs]]; [|left; by apply kill_update_killed|by right].
    right. rewrite hitl_update_flags by done. auto.
  - intros Hi. destruct n'; try done. by eapply successor_hitl.
  - apply IH. intros ->. by eapply successor_hitl.
Qed.

(** A pass keeps the day's result as it was: no node writes it. *)
Lemma update_pnl n s u : node_updates n u -> dget "pnl_today_pct" (dupdate s u) = dget "pnl_today_pct" s.
Proof. intros Hu. destruct n; split_updates Hu; by dget_update. Qed.

Lemma runs_pnl n s s' stop : runs n s s' stop -> dget "pnl_today_pct" s' = dget "pnl_today_pct" s.
Proof.
  induction 1 as [n s w w' u En _|n s w w' u n' En _|n s w w' u n' s' stop En _ _ _ IH];
    apply node_fn_updates in En; [by eapply update_pnl..|]. by rewrite IH, (update_pnl n).
Qed.

(** The risk node trips the breaker on a breached loss. *)
Lemma risk_node_breaches cap s (w w' : World R) u v :
  dget "pnl_today_pct" s = Some v -> loss_breached v = Ok true ->
  risk_node cap s w = (Ok u, w') -> halted_by_flags (dupdate s u) = true.
Proof.
  intros Hv Hb E. unfold risk_node in E. rewrite Hv in E. cbn [default from_option id] in E.
  unfold mbind at 1, M_bind at 1, M_lift at 1 in E. rewrite Hb in E. cbn [andb] in E.
  destruct (truthy (get_or_none "circuit_breaker_active" s)) eqn:Ec; cbn [negb] in E.
  - assert (Hh : halted_by_flags s = true) by (unfold halted_by_flags; by rewrite Ec, orb_true_r).
    rewrite Hh in E. apply ret_inv in E. by subst u.
  - apply bind_inv_ok in E as (t & w1 & _ & E). apply bind_inv_ok in E as (now & w2 & _ & E).
    apply ret_inv in E. subst u. unfold halted_by_flags. dget_update. cbn. by rewrite orb_true_r.
Qed.

Lemma runs_breach n s s' stop v :
  runs n s s' stop -> (n = REGIME \/ n = SIGNAL \/ n = RECON \/ n = RISK) ->
  dget "pnl_today_pct" s = Some v -> loss_breached v = Ok true ->
  stop = None \/ (exists n', stop = Some n' /\ interrupt_before cfg n' = true) ->
  halted_by_flags s' = true.
Proof.
  induction 1 as [n s w w' u En Es|n s w w' u n' En Es|n s w w' u n' s' stop En Es Ei Hr IH];
    intros Hn Hv Hb Hstop.
  - destruct Hn as [-> | [-> | [-> | ->]]]; try done. by eapply risk_node_breaches.
  - destruct Hstop as [Hx|(m & Hx & Hi)]; [done|]. injection Hx as <-. destruct n'; try done.
    destruct Hn as [-> | [-> | [-> | ->]]]; try done. by eapply risk_node_breaches.
  - destruct Hn as [-> | [-> | [-> | ->]]].
    4: { eapply runs_latched; [exact Hr|]. by eapply risk_node_breaches. }
    all: cbn in Es; injection Es as <-; apply node_fn_updates in En;
      apply IH; [tauto| |done|done]; by erewrite update_pnl.
Qed.

End RunFacts.

(** ** Facts about the orchestrator *)

Section OrchestratorFacts.
Context {R App : Type} `{RedisKV R} `{RedisStream R} (cfg : GraphConfig)
  `{HG : CompiledGraph App} {laws : CompiledGraphLaws R App cfg}.

Implicit Types o : OrchestratorGraph R App.

#[local] Abbreviation lg_values := (lg_values (CompiledGraphLaws:=laws)).

(** Both copies of the state, the instance's and the checkpoint, are halted. *)
Definition latched o : Prop :=
  is_halted o = true /\ NoDup (dkeys (og_state o))
  /\ exists s, lg_values (og_app o) = Some s /\ halted_by_flags s = true /\ NoDup (dkeys s).

(** One call on the orchestrator that passes no fresh state in; a state
    given to [run_cycle] is a halted one. *)
Inductive orch_step o : OrchestratorGraph R App -> Prop :=
| orch_cycle : orch_step o (run_cycle None o).2
| orch_cycle_with s :
    halted_by_flags s = true -> NoDup (dkeys s) -> orch_step o (run_cycle (Some s) o).2
| orch_approve : orch_step o (approve_hitl o).2
| orch_reject : orch_step o (reject_hitl o).2
| orch_trigger : orch_step o (trigger_kill_switch o).2
| orch_shutdown : orch_step o (shutdown o).

Lemma dupdate_NoDup {V} (d u : dict string V) : NoDup (dkeys d) -> NoDup (dkeys (dupdate d u)).
Proof.
  unfold dupdate. revert d. induction u as [|[k v] u IH]; intros d Hd; [done|].
  apply IH. by apply dset_NoDup.
Qed.

Lemma dget_dupdate {V} k (d u : dict string V) :
  NoDup (dkeys u) ->
  dget k (dupdate d u) = match dget k u with Some v => Some v | None => dget k d end.
Proof.
  unfold dupdate. revert d. induction u as [|[k' v] u IH]; intros d Hn; [done|].
  unfold dkeys in Hn. rewrite fmap_cons in Hn. apply NoDup_cons in Hn as [Hk Hn].
  cbn [fold_left fst snd]. rewrite IH by done. cbn [dget]. destruct (decide (k = k')) as [->|Hne].
  - assert (Hu : dget k' u = None) by (by apply dget_None). by rewrite Hu, dget_dset_eq.
  - by rewrite dget_dset_ne.
Qed.

Lemma dupdate_halted d s :
  NoDup (dkeys s) -> halted_by_flags s = true -> halted_by_flags (dupdate d s) = true.
Proof.
  intros Hn. unfold halted_by_flags, get_or_none. rewrite !dget_dupdate by done.
  intros [Hk|Hk]%orb_true_iff; apply orb_true_iff; [left|right]; revert Hk;
    by destruct (dget _ s).
Qed.

Lemma runs_NoDup n s s' stop : runs (R:=R) cfg n s s' stop -> NoDup (dkeys s) -> NoDup (dkeys s').
Proof.
  induction 1 as [n s w w' u _ _|n s w w' u n' _ _|n s w w' u n' s' stop _ _ _ _ IH]; intros Hs;
    [by apply dupdate_NoDup..|]. by apply IH, dupdate_NoDup.
Qed.

(** The state a step leaves: a result that is kept, halted like the rest. *)
Lemma keep_latched a s r o :
  is_halted o = true -> NoDup (dkeys (og_state o)) ->
  lg_values a = Some s -> halted_by_flags s = true -> NoDup (dkeys s) ->
  (forall x, r = Some x -> x = s) ->
  latched (keep_result r (og_with_app a o)).2.
Proof.
  intros Ho Hod Hv Hs Hd Hr. destruct r as [x|]; cbn.
  - rewrite (Hr x eq_refl). split_and!; [done|done|]. by exists s.
  - split_and!; [done|done|]. by exists s.
Qed.

Lemma keep_ok r o : exists o', keep_result r o = (Ok tt, o').
Proof. destruct r; by eexists. Qed.

(** An invocation on a latched orchestrator, raising or not. *)
Lemma invoke_latched input a x a' o :
  latched o -> og_app o = a ->
  (forall i, input = Some i -> halted_by_flags i = true /\ NoDup (dkeys i)) ->
  lg_invoke input a = (x, a') ->
  match x with
  | Ok r => latched (keep_result r (og_with_app a' o)).2
  | Raise _ => latched (og_with_app a' o)
  end.
Proof.
  intros (Ho & Hod & (s & Hv & Hh & Hd)) Ha Hi E. rewrite Ha in Hv.
  assert (Hin : forall i, input = Some i ->
    halted_by_flags (dupdate (default [] (lg_values a)) i) = true
    /\ NoDup (dkeys (dupdate (default [] (lg_values a)) i))).
  { intros i Ei. destruct (Hi i Ei) as [Hhi Hdi]. split; [by apply dupdate_halted|].
    apply dupdate_NoDup. by rewrite Hv. }
  destruct x as [r|e].
  - destruct input as [i|].
    + apply lg_invoke_input in E as (s' & stop & Hr & Hx & Hv').
      destruct (Hin i eq_refl) as [Hhi Hdi].
      apply (keep_latched a' s'); [done|done|done|by eapply runs_latched|by eapply runs_NoDup|].
      intros y ->. by destruct Hx as [-> _].
    + apply lg_invoke_resume in E as (s1 & Hs & [[-> Hv']|(n & s' & stop & Hr & Hx & Hv')]);
        rewrite Hv in Hs; injection Hs as <-.
      * apply (keep_latched a' s); try done. by intros ? [= ->].
      * apply (keep_latched a' s'); [done|done|done|by eapply runs_latched|by eapply runs_NoDup|].
        intros y ->. by destruct Hx as [-> _].
  - split_and!; [done|done|]. cbn [og_with_app og_app].
    apply lg_invoke_raise in E as [Hx|[(i & -> & Hx)|(n & s0 & s' & stop & Hs0 & Hr & Hx)]].
    + exists s. by rewrite Hx.
    + destruct (Hin i eq_refl). by eexists.
    + exists s'. split; [done|].
      assert (Hh0 : halted_by_flags s0 = true /\ NoDup (dkeys s0)).
      { destruct input as [i|]; [rewrite Hs0; by apply Hin|]. rewrite Hv in Hs0. by injection Hs0 as <-. }
      destruct Hh0 as [Hh0 Hd0]. split; [by eapply runs_latched|by eapply runs_NoDup].
Qed.

(** An invocation followed by [keep_result]. *)
Lemma invoke_keep input o :
  latched o ->
  (forall i, input = Some i -> halted_by_flags i = true /\ NoDup (dkeys i)) ->
  latched ((r ← invoke input; keep_result r) o).2
  /\ latched ((r ← invoke input; _ ← keep_result r; mret r) o).2.
Proof.
  intros Ho Hi. unfold invoke, mbind, M_bind, M_zoom.
  destruct (lg_invoke input (og_app o)) as [x a'] eqn:E.
  pose proof (invoke_latched input _ x a' o Ho eq_refl Hi E) as Hx. destruct x as [r|e]; [|done].
  split; [done|]. destruct (keep_ok r (og_with_app a' o)) as [o' Eo]. rewrite Eo in *. done.
Qed.

Lemma update_latched u o :
  latched o -> node_updates HITL u \/ u = KILL_UPDATE -> latched (update_state u o).2.
Proof.
  intros (Ho & Hod & (s & Hv & Hh & Hd)) Hu. unfold update_state, M_zoom.
  destruct (lg_update_state u (og_app o)) as [x a'] eqn:E. cbn.
  split_and!; [done|done|]. cbn. apply lg_update_values in E as [Hx|[Hx _]]; rewrite Hv in Hx.
  - eexists. split; [exact Hx|]. cbn. split; [|by apply dupdate_NoDup].
    destruct Hu as [Hu| ->]; [by rewrite hitl_update_flags|].
    unfold halted_by_flags, KILL_UPDATE. by dget_update.
  - by exists s.
Qed.

Lemma kill_state_latched o :
  latched o -> latched (og_with_state (dupdate (og_state o) KILL_UPDATE) o).
Proof.
  intros (Ho & Hod & Hv). split_and!; [|by apply dupdate_NoDup|done].
  unfold is_halted, halted_by_flags, KILL_UPDATE. cbn [og_state og_with_state]. by dget_update.
Qed.

(** A bind whose first part keeps the invariant also when it raises. *)
Lemma bind_latched {A B} (m : M (OrchestratorGraph R App) A) (k : A -> M (OrchestratorGraph R App) B) o :
  latched (m o).2 -> (forall a o', m o = (Ok a, o') -> latched o' -> latched (k a o').2) ->
  latched ((m ≫= k) o).2.
Proof.
  unfold mbind, M_bind. destruct (m o) as [[a|e] o'] eqn:E; cbn; [|done]. intros Ho Hk. by apply (Hk a).
Qed.

Lemma step_latched o o' : orch_step o o' -> latched o -> latched o'.
Proof.
  intros Hstep Ho. pose proof Ho as (Hh & Hd & _). destruct Hstep.
  - refine (proj2 (invoke_keep _ _ Ho _)). cbn. by intros i [= <-].
  - destruct s as [|kv s]; (refine (proj2 (invoke_keep _ _ Ho _)); cbn; by intros i [= <-]).
  - by refine (proj2 (invoke_keep _ _ Ho _)).
  - apply bind_latched; [apply update_latched; [done|by left]|].
    intros [] o1 _ Ho1. by refine (proj1 (invoke_keep _ _ Ho1 _)).
  - apply bind_latched; [by apply kill_state_latched|]. intros [] o1 _ Ho1.
    apply bind_latched; [apply update_latched; [done|by right]|].
    intros [] o2 _ Ho2. by refine (proj1 (invoke_keep _ _ Ho2 _)).
  - unfold shutdown. destruct (og_redis o) as [r|]; done.
Qed.

End OrchestratorFacts.

(** ** Facts about the signal gates *)

Section SignalFacts.
Context {R : Type} `{RedisKVLaws R} `{RedisStream R}.

(** [reconciliation_blocked_fn] lets the entry of the newest signal through. *)
Definition not_blocked (f : BlockedFn) (fields : list (string * string)) : Prop :=
  match f with
  | None => True
  | Some g => g (default "" (dget "symbol" fields)) (default "" (dget "exchange" fields)) = Ok false
  end.

(** The gates of [signal_node], as one condition on the state, the keys and
    the stream. *)
Definition entry_allowed (f : BlockedFn) (state : TradingSystemState) (r : R)
    (entries : list (list (string * string))) : Prop :=
  halted_by_flags state = false
  /\ redis_kv r !! KILL_SWITCH_HALTED_KEY = None
  /\ redis_kv r !! INGESTION_DEGRADED_REDIS_KEY = None
  /\ get_or_none "market_regime" state <> JStr "HIGH_VOL_CHAOS"
  /\ exists fields rest, entries = fields :: rest /\ not_blocked f fields.

Definition with_server (r : R) (w : World R) : World R := {| w_redis := Some r; w_clock := w_clock w |}.

Lemma on_redis_get k r (w : World R) :
  w_redis w = Some r -> reachable r -> on_redis (redis_get k) w = (Ok (redis_kv r !! k), w).
Proof. intros Hr Hreach. unfold on_redis. rewrite Hr, Hreach. destruct w; cbn in *. by subst. Qed.

Lemma consume_signal_eq f state r r' (w : World R) entries n :
  w_redis w = Some r -> redis_xrevrange SIGNAL_REDIS_STREAM 1 r = (Ok entries, r') ->
  dget "signals_today" state = Some (JInt n) ->
  exists res, consume_signal f state w = (res, with_server r' w)
    /\ match entries with
       | [] => res = Ok []
       | fields :: _ =>
           match f with
           | None => res = Ok [("signals_today", JInt (n + 1))]
           | Some g =>
               match g (default "" (dget "symbol" fields)) (default "" (dget "exchange" fields)) with
               | Ok true => res = Ok []
               | Ok false => res = Ok [("signals_today", JInt (n + 1))]
               | Raise e => res = Raise e
               end
           end
       end.
Proof.
  intros Hr Hx Hn. unfold consume_signal, on_redis, mbind, M_bind. rewrite Hr, Hx.
  destruct entries as [|fields rest]; [by eexists|].
  destruct f as [g|]; cbn; rewrite Hn; cbn; [|by eexists].
  destruct (g _ _) as [[]|e]; by eexists.
Qed.

Lemma in_chaos_spec state :
  in_chaos state = true <-> get_or_none "market_regime" state = JStr "HIGH_VOL_CHAOS".
Proof.
  unfold in_chaos. destruct (get_or_none _ _); try done.
  rewrite String.eqb_eq. split; [by intros ->|by intros [=]].
Qed.

(** The node on a reachable server, gate by gate. *)
Lemma signal_node_eq f state r r' (w : World R) entries n :
  w_redis w = Some r -> reachable r ->
  redis_xrevrange SIGNAL_REDIS_STREAM 1 r = (Ok entries, r') ->
  dget "signals_today" state = Some (JInt n) ->
  exists u w', signal_node f state w = (Ok u, w')
    /\ (u = [("signals_today", JInt (n + 1))] <-> entry_allowed f state r entries)
    /\ (halted_by_flags state = false -> redis_kv r !! KILL_SWITCH_HALTED_KEY <> None ->
        u = [("kill_switch_active", JBool true)])
    /\ (entry_allowed f state r entries -> w' = with_server r' w).
Proof.
  intros Hr Hreach Hx Hn. unfold signal_node, entry_allowed.
  destruct (halted_by_flags state) eqn:Eh.
  { exists [], w. split_and!; [done|split; [done|by intros [? _]]|done|by intros [? _]]. }
  unfold mbind at 1, M_bind at 1, has_redis. rewrite Hr. cbn [is_Some bool_decide].
  rewrite bool_decide_true by done. unfold mbind at 1, M_bind at 1. rewrite (on_redis_get _ r) by done.
  destruct (redis_kv r !! KILL_SWITCH_HALTED_KEY) as [v|] eqn:Ek.
  { rewrite bool_decide_true by done. eexists _, w.
    split_and!; [reflexivity|split; [done|by intros (_ & ? & _)]|done|by intros (_ & ? & _)]. }
  rewrite bool_decide_false by (by intros []). unfold mbind at 1, M_bind at 1.
  rewrite (on_redis_get _ r) by done.
  destruct (redis_kv r !! INGESTION_DEGRADED_REDIS_KEY) as [v|] eqn:Ed.
  { rewrite bool_decide_true by done. exists [], w.
    split_and!; [reflexivity|split; [done|by intros (_ & _ & ? & _)]|done|by intros (_ & _ & ? & _)]. }
  rewrite bool_decide_false by (by intros []).
  pose proof (in_chaos_spec state) as Hc. destruct (in_chaos state).
  { exists [], w. split_and!; [reflexivity| |done|]; [split; [done|]|]; intros (_ & _ & _ & Hne & _);
      by destruct (Hne (proj1 Hc eq_refl)). }
  assert (Hne : get_or_none "market_regime" state <> JStr "HIGH_VOL_CHAOS") by (intros Hcc; by apply Hc in Hcc).
  cbn [negb]. destruct (consume_signal_eq f state r r' w entries n Hr Hx Hn) as (res & E & Hres).
  unfold M_try. rewrite E.
  assert (Hu : forall u, (u = [("signals_today", JInt (n + 1))]
                          <-> exists fields rest, entries = fields :: rest /\ not_blocked f fields) ->
    (u = [("signals_today", JInt (n + 1))] <-> entry_allowed f state r entries)).
  { unfold entry_allowed. intros u Hu. rewrite Hu, Eh, Ek, Ed. tauto. }
  destruct entries as [|fields rest].
  - subst res. eexists _, _. split_and!; [reflexivity| |done|done].
    specialize (Hu []). unfold entry_allowed in Hu. rewrite Eh, Ek, Ed in Hu. apply Hu.
    split; [done|by intros (? & ? & ? & _)].
  - assert (Hb : forall u, (u = [("signals_today", JInt (n + 1))] <-> not_blocked f fields) ->
      (u = [("signals_today", JInt (n + 1))] <-> entry_allowed f state r (fields :: rest))).
    { intros u Hx'. apply Hu. rewrite Hx'. split; [by eexists _, _|].
      by intros (? & ? & [= <- _] & ?). }
    unfold entry_allowed in Hb. rewrite Eh, Ek, Ed in Hb. unfold not_blocked in Hb.
    destruct f as [g|].
    + destruct (g _ _) as [[]|e]; subst res; eexists _, _; (split_and!; [reflexivity| |done|done]); apply Hb;
        by split.
    + subst res. eexists _, _. (split_and!; [reflexivity| |done|done]); apply Hb; by split.
Qed.

End SignalFacts.

(** Updating a dictionary with another one that has the same keys in the same
    order gives the other. *)
Lemma overwrite_keys {V} (u d : dict string V) :
  NoDup (dkeys u) -> dkeys u = dkeys d -> dupdate d u = u.
Proof.
  intros Hn Hk.
  assert (Hgen : forall d0 u d : dict string V, NoDup (dkeys (d0 ++ u)) -> dkeys u = dkeys d ->
    dupdate (d0 ++ d) u = d0 ++ u).
  { clear. intros d0 u. revert d0. induction u as [|[k v] u IH]; intros d0 [|[k' v'] d] Hn Hk; try done.
    unfold dkeys in Hk. rewrite !fmap_cons in Hk. injection Hk as <- Hk.
    assert (Hd : dset k v (d0 ++ (k, v') :: d) = (d0 ++ [(k, v)]) ++ d).
    { unfold dkeys in Hn. rewrite fmap_app, fmap_cons in Hn. apply NoDup_app in Hn as (_ & Hn & _).
      assert (Hk0 : k ∉ d0.*1) by (intros Hin; apply (Hn _ Hin); by left). clear -Hk0.
      induction d0 as [|[k0 v0] d0 IH]; cbn; [by rewrite decide_True|].
      rewrite fmap_cons, not_elem_of_cons in Hk0. destruct Hk0 as [Hk0 Hk1].
      rewrite decide_False by done. f_equal. by apply IH. }
    change (dupdate (d0 ++ (k, v') :: d) ((k, v) :: u)) with (dupdate (dset k v (d0 ++ (k, v') :: d)) u).
    rewrite Hd, IH; [by rewrite <- app_assoc| |done]. by rewrite <- app_assoc. }
  by apply (Hgen []).
Qed.

(** ** Properties of the orchestrator *)

Section OrchestratorProperties.
Context {R App : Type} `{RedisKVLaws R} `{RedisStream R} (cfg : GraphConfig)
  `{HG : CompiledGraph App} {laws : CompiledGraphLaws R App cfg}.

Implicit Types o : OrchestratorGraph R App.

#[local] Abbreviation lg_values := (lg_values (CompiledGraphLaws:=laws)).

(** The write of a trigger to the checkpoint and what follows: when the write
    went through, both copies are halted also if the invocation raises. *)
Lemma trigger_latched o :
  NoDup (dkeys (og_state o)) ->
  (forall s, lg_values (og_app o) = Some s -> NoDup (dkeys s)) ->
  is_ok (lg_update_state KILL_UPDATE (og_app o)).1 = true -> latched cfg (trigger_kill_switch o).2.
Proof.
  intros Hd Hv Hok. unfold trigger_kill_switch, M_modify, update_state, M_zoom. unfold mbind at 1, M_bind at 1.
  unfold mbind at 1, M_bind at 1. cbn [og_with_state og_app].
  destruct (lg_update_state KILL_UPDATE (og_app o)) as [[[]|e] a] eqn:Eu; [|done].
  apply (lg_update_values (CompiledGraphLaws:=laws)) in Eu as [Hx|[_ Hx]]; [|done].
  refine (proj1 (invoke_keep cfg None _ _ _)); [|by intros i].
  split_and!.
  - unfold is_halted, halted_by_flags, KILL_UPDATE. cbn [og_with_app og_with_state og_state]. by dget_update.
  - refine (dupdate_NoDup _ KILL_UPDATE _). exact Hd.
  - eexists. split; [exact Hx|]. split.
    + unfold halted_by_flags, KILL_UPDATE. by dget_update.
    + refine (dupdate_NoDup _ KILL_UPDATE _). destruct (lg_values (og_app o)) as [s|] eqn:Es; [by apply Hv|constructor].
Qed.

(** The instance's copy alone is halted; dictionaries have distinct keys. *)
Definition half_latched o : Prop :=
  is_halted o = true /\ NoDup (dkeys (og_state o))
  /\ forall s, lg_values (og_app o) = Some s -> NoDup (dkeys s).

Lemma latched_half o : latched cfg o -> half_latched o.
Proof. intros (Hh & Hd & s & Hv & _ & Hs). split_and!; [done|done|]. intros s' E. rewrite E in Hv. by injection Hv as ->. Qed.

Lemma trigger_half o :
  NoDup (dkeys (og_state o)) -> (forall s, lg_values (og_app o) = Some s -> NoDup (dkeys s)) ->
  half_latched (trigger_kill_switch o).2.
Proof.
  intros Hd Hv. destruct (is_ok (lg_update_state KILL_UPDATE (og_app o)).1) eqn:Hok;
    [by apply latched_half, trigger_latched|].
  unfold trigger_kill_switch, M_modify, update_state, M_zoom. unfold mbind, M_bind. cbn [og_with_state og_app].
  destruct (lg_update_state KILL_UPDATE (og_app o)) as [[[]|e] a] eqn:Eu; [done|]. cbn [snd]. split_and!.
  - unfold is_halted, halted_by_flags, KILL_UPDATE. cbn [og_with_app og_with_state og_state]. by dget_update.
  - refine (dupdate_NoDup _ KILL_UPDATE _). exact Hd.
  - cbn [og_with_app og_app]. intros s Hs. apply (lg_update_values (CompiledGraphLaws:=laws)) in Eu as [Hx|[Hx _]]; rewrite Hx in Hs.
    + injection Hs as <-. refine (dupdate_NoDup _ KILL_UPDATE _). destruct (lg_values (og_app o)) as [s|]; [by apply Hv|constructor].
    + by apply Hv.
Qed.

(** A cycle that is given no state starts from the instance's copy, over the
    checkpoint. *)
Lemma cycle_half o : half_latched o -> half_latched (run_cycle None o).2.
Proof.
  intros (Hh & Hd & Hv).
  assert (Hin : halted_by_flags (dupdate (default [] (lg_values (og_app o))) (og_state o)) = true
    /\ NoDup (dkeys (dupdate (default [] (lg_values (og_app o))) (og_state o)))).
  { split; [by apply dupdate_halted|]. apply dupdate_NoDup. destruct (lg_values (og_app o)); [by apply Hv|constructor]. }
  destruct Hin as [Hhi Hdi]. unfold run_cycle, M_get, invoke, M_zoom. unfold mbind, M_bind.
  destruct (lg_invoke (Some (og_state o)) (og_app o)) as [[r|e] a] eqn:E; cbn [snd].
  - apply (lg_invoke_input (CompiledGraphLaws:=laws)) in E as (s' & stop & Hr & Hx & Hv').
    apply latched_half. destruct (keep_ok r (og_with_app a o)) as [o' Eo].
    assert (Hk : latched cfg (keep_result r (og_with_app a o)).2).
    { apply (keep_latched cfg a s'); [done|done|done|by eapply runs_latched|by eapply runs_NoDup|].
      intros y ->. by destruct Hx as [-> _]. }
    rewrite Eo in *. exact Hk.
  - split_and!; [done|done|]. cbn [og_with_app og_app]. intros s Hs.
    apply (lg_invoke_raise (CompiledGraphLaws:=laws)) in E as [Hx|[(i & [= <-] & Hx)|(n & s0 & s' & stop & -> & Hr & Hx)]];
      rewrite Hx in Hs; [by apply Hv|injection Hs as <-..]; [done|by eapply runs_NoDup].
Qed.

(** C4. The kill switch is never undone.  Whatever a trigger does, returning or
    raising, it leaves the orchestrator halted, and so does every number of
    cycles that are given no state.  Once the trigger has returned, or has
    raised after its write to the checkpoint, no sequence of cycles,
    approvals, rejections, further triggers and shutdowns, failing calls
    included, makes it live again, as long as no cycle is given a state that
    is not halted. *)
Theorem kill_switch_latched o :
  NoDup (dkeys (og_state o)) ->
  (forall s, lg_values (og_app o) = Some s -> NoDup (dkeys s)) ->
  let '(outcome, o1) := trigger_kill_switch o in
  is_halted o1 = true
  /\ (forall n, is_halted (Nat.iter n (fun x => (run_cycle None x).2) o1) = true)
  /\ (outcome = Ok tt \/ is_ok (lg_update_state KILL_UPDATE (og_app o)).1 = true ->
      forall o2, rtc (orch_step (R:=R) (App:=App)) o1 o2 -> is_halted o2 = true).
Proof.
  intros Hd Hv. destruct (trigger_kill_switch o) as [outcome o1] eqn:E.
  pose proof (trigger_half o Hd Hv) as Hhalf. rewrite E in Hhalf. cbn [snd] in Hhalf. split_and!.
  - apply Hhalf.
  - intros n. enough (half_latched (Nat.iter n (fun x => (run_cycle None x).2) o1)) as [Hn _] by exact Hn.
    induction n as [|n IH]; [exact Hhalf|]. by apply cycle_half.
  - intros Hok o2 Hst.
    assert (Hu : is_ok (lg_update_state KILL_UPDATE (og_app o)).1 = true).
    { destruct Hok as [->|Hu]; [|done]. unfold trigger_kill_switch, M_modify, update_state, M_zoom in E.
      unfold mbind, M_bind in E. cbn [og_with_state og_app] in E. by destruct (lg_update_state _ _) as [[]]. }
    pose proof (trigger_latched o Hd Hv Hu) as Ho1. rewrite E in Ho1. cbn [snd] in Ho1. clear E Hd Hv Hhalf.
    assert (Ho2 : latched cfg o2); [|by destruct Ho2].
    induction Hst as [|x y z Hs _ IH]; [done|]. by apply IH, (step_latched cfg x).
Qed.

(** C10. A cycle preempts, whatever state it is given: a completed cycle ends
    either with the kill-switch node, hence halted and with no approval
    pending, or with nothing halted; a cycle waits for a human only when
    nothing is halted; and when the day's result, in the state it starts
    from or else in the checkpoint, is a loss of 2% or more, the cycle ends
    killed.  It starts from the state it is given, when that is not empty,
    and from the orchestrator's otherwise. *)
Theorem cycle_preempts input o r o' :
  run_cycle input o = (Ok r, o') ->
  let start := match input with Some ((_ :: _) as s) => s | _ => og_state o end in
  (forall s, r = Some s -> og_state o' = s /\ (killed s \/ halted_by_flags s = false))
  /\ (r = None -> og_state o' = og_state o /\ exists s, lg_values (og_app o') = Some s /\ halted_by_flags s = false)
  /\ (forall v, NoDup (dkeys start) ->
      dget "pnl_today_pct" start = Some v
      \/ dget "pnl_today_pct" start = None /\ dget "pnl_today_pct" (default [] (lg_values (og_app o))) = Some v ->
      loss_breached v = Ok true -> exists s, r = Some s /\ killed s).
Proof.
  unfold run_cycle. intros E. apply bind_inv_ok in E as (self & oa & Ea & E). injection Ea as <- <-.
  cbv zeta in E |- *. set (start := match input with Some ((_ :: _) as s) => s | _ => og_state o end) in *.
  apply bind_inv_ok in E as (r1 & ob & Eb & E). apply bind_inv_ok in E as ([] & oc & Ec & E).
  injection E as -> ->. unfold invoke, M_zoom in Eb.
  destruct (lg_invoke (Some start) (og_app o)) as [x a] eqn:Ei. injection Eb as -> <-.
  apply (lg_invoke_input (CompiledGraphLaws:=laws)) in Ei as (s' & stop & Hr & Hx & Hv).
  pose proof (runs_end_cases cfg _ _ _ _ Hr ltac:(done)) as Hend. split_and!.
  - intros s ->. destruct Hx as [-> ->]. cbn in Ec. injection Ec as <-. done.
  - intros ->. destruct Hx as (n & -> & Hi). injection Ec as <-. split; [done|]. exists s'. cbn. auto.
  - intros v Hd Hp Hb.
    assert (Hh : halted_by_flags s' = true).
    { eapply runs_breach; [exact Hr|by left| |exact Hb|].
      - rewrite dget_dupdate by done. by destruct Hp as [-> | [-> ->]].
      - destruct r as [s|]; [by left; destruct Hx|by right]. }
    destruct r as [s|].
    + destruct Hx as [-> ->]. exists s'. split; [done|]. destruct Hend as [|Hend]; [done|].
      by rewrite Hh in Hend.
    + destruct Hx as (n & -> & Hi). by rewrite (Hend Hi) in Hh.
Qed.

(** A restart restores: when the shutdown write went through, restoring
    from the same server gives an orchestrator with the very state, halt
    flags included, for a state with the schema's keys whose numbers JSON
    writes faithfully. *)
Theorem restart_restores o r r1 r2 raw app today :
  og_redis o = Some r ->
  redis_set ORCHESTRATOR_STATE_REDIS_KEY (state_to_json (og_state o)) None r = (Ok tt, r1) ->
  redis_get ORCHESTRATOR_STATE_REDIS_KEY r1 = (Ok raw, r2) ->
  dkeys (og_state o) = dkeys (make_initial_state today) ->
  json_ok (JObj (og_state o)) ->
  og_redis (shutdown o) = Some r1
  /\ exists o', restore r1 app today = Ok o' /\ og_state o' = og_state o /\ is_halted o' = is_halted o.
Proof.
  intros Hr Hset Hget Hkeys Hok. unfold shutdown. rewrite Hr, Hset. split; [done|].
  assert (Hraw : raw = Some (state_to_json (og_state o))).
  { pose proof (redis_get_spec _ _ _ _ Hget) as [_ Hg]. rewrite (Hg raw eq_refl).
    apply redis_set_spec in Hset as [-> | [_ ?]]; [|done]. apply lookup_insert_eq. }
  assert (Hs : state_from_json (state_to_json (og_state o)) today = Ok (og_state o)).
  { unfold state_from_json, state_to_json. rewrite json_round_trip by done. cbn. f_equal.
    pose proof (overwrite_keys (og_state o) (make_initial_state today) (proj1 Hok) Hkeys). done. }
  unfold restore. rewrite Hget, Hraw. cbn. rewrite Hs. cbn. by eexists.
Qed.

End OrchestratorProperties.

Section SignalProperties.
Context {R : Type} `{RedisKVLaws R} `{RedisStream R}.

(** The entry gates: on a reachable server the signal node counts a
    signal exactly when no safety flag, halt key or degraded key is set, the
    regime is not HIGH_VOL_CHAOS and the newest stream entry is for a symbol
    that reconciliation does not block; a halt key of any value activates
    the kill switch instead. *)
Theorem signal_gates f state (w : World R) r r' entries n :
  w_redis w = Some r -> reachable r ->
  redis_xrevrange SIGNAL_REDIS_STREAM 1 r = (Ok entries, r') ->
  dget "signals_today" state = Some (JInt n) ->
  exists u w', signal_node f state w = (Ok u, w')
    /\ (u = [("signals_today", JInt (n + 1))] <-> entry_allowed f state r entries)
    /\ (halted_by_flags state = false -> redis_kv r !! KILL_SWITCH_HALTED_KEY <> None ->
        u = [("kill_switch_active", JBool true)]).
Proof.
  intros Hr Hreach Hx Hn. destruct (signal_node_eq f state r r' w entries n Hr Hreach Hx Hn)
    as (u & w' & E & Hu & Hk & _). by exists u, w'.
Qed.

(** A signal is counted at every cycle: the node reads the newest entry
    of the stream without consuming it, so run twice on an unchanged server
    it counts the same signal twice. *)
Theorem signal_counted_again f state (w : World R) r entries n :
  w_redis w = Some r -> reachable r ->
  redis_xrevrange SIGNAL_REDIS_STREAM 1 r = (Ok entries, r) ->
  dget "signals_today" state = Some (JInt n) ->
  entry_allowed f state r entries ->
  exists u1 w1 u2 w2, signal_node f state w = (Ok u1, w1)
    /\ signal_node f (dupdate state u1) w1 = (Ok u2, w2)
    /\ dget "signals_today" (dupdate (dupdate state u1) u2) = Some (JInt (n + 2)).
Proof.
  intros Hr Hreach Hx Hn Ha. destruct (signal_node_eq f state r r w entries n Hr Hreach Hx Hn)
    as (u1 & w1 & E1 & Hu1 & _ & Hw1). apply Hu1 in Ha as Hu. subst u1. rewrite (Hw1 Ha) in E1.
  set (s1 := dupdate state [("signals_today", JInt (n + 1))]).
  assert (Hn1 : dget "signals_today" s1 = Some (JInt (n + 1))) by (unfold s1; by dget_update).
  assert (Ha1 : entry_allowed f s1 r entries).
  { revert Ha. unfold entry_allowed, halted_by_flags, s1. by dget_update. }
  destruct (signal_node_eq f s1 r r (with_server r w) entries (n + 1) eq_refl Hreach Hx Hn1)
    as (u2 & w2 & E2 & Hu2 & _ & _). apply Hu2 in Ha1 as ->.
  eexists _, _, _, _. split_and!; [exact E1|exact E2|]. dget_update. do 2 f_equal. lia.
Qed.

End SignalProperties.

(** ** Evaluation on concrete inputs *)

Definition sample_cfg : GraphConfig :=
  {| gc_starting_capital := dec 1000000 0; gc_blocked_fn := None; gc_enable_hitl := true |}.

#[local] Instance sample_graph : CompiledGraph (Interp MemRedis) := Interp_graph sample_cfg.
#[local] Instance sample_laws : CompiledGraphLaws MemRedis (Interp MemRedis) sample_cfg :=
  Interp_laws sample_cfg.

Definition noon : Readings string := {| reading := fun _ => "2026-01-02T06:30:00"; taken := 0 |}.

Definition signal_server : MemRedis :=
  {| mem_kv := ∅; mem_lists := ∅;
     mem_streams := {[SIGNAL_REDIS_STREAM := [[("symbol", "TCS"); ("exchange", "NSE")]]]};
     mem_up := true |}.

Definition sample_world (r : MemRedis) : World MemRedis := {| w_redis := Some r; w_clock := noon |}.

Definition fresh_app (r : MemRedis) : Interp MemRedis :=
  {| in_world := sample_world r; in_values := None; in_next := None |}.

Definition sample_orch (r : MemRedis) : OrchestratorGraph MemRedis (Interp MemRedis) :=
  new_orchestrator (Some r) (fresh_app r) "2026-01-02".

Definition started : OrchestratorGraph MemRedis (Interp MemRedis) :=
  (run_cycle None (sample_orch signal_server)).2.

(** A state with a 2.5% loss. *)
Definition losing : OrchestratorGraph MemRedis (Interp MemRedis) :=
  og_with_state (dset "pnl_today_pct" (JFloat (dec (-25) 3)) (make_initial_state "2026-01-02"))
    (sample_orch mem_empty).

(** One position above 5% of the capital: the cycle waits for a human, and a
    kill switch pulled meanwhile ends the wait. *)
Definition waiting : OrchestratorGraph MemRedis (Interp MemRedis) :=
  og_with_state (dset "open_positions"
      (JObj [("TCS", JObj [("quantity", JInt 100); ("avg_price", JFloat (dec 3500 0))])])
      (make_initial_state "2026-01-02")) (sample_orch mem_empty).

Example hitl_then_kill :
  (run_cycle None waiting).1 = Ok None
  /\ is_halted (trigger_kill_switch (run_cycle None waiting).2).2 = true
  /\ get_or_none "pending_hitl_approval" (og_state (trigger_kill_switch (run_cycle None waiting).2).2) = JNull.
Proof. vm_compute. auto. Qed.

(** A fresh state given to a cycle resets the flags. *)
Example fresh_input_resets :
  is_halted (trigger_kill_switch started).2 = true
  /\ is_halted (run_cycle (Some (make_initial_state "2026-01-03")) (trigger_kill_switch started).2).2 = false.
Proof. vm_compute. auto. Qed.

Definition triggered : OrchestratorGraph MemRedis (Interp MemRedis) := (trigger_kill_switch started).2.

Lemma kill_switch_latched_witness :
  is_halted triggered = true
  /\ (forall n, is_halted (Nat.iter n (fun x => (run_cycle None x).2) triggered) = true)
  /\ forall o2, rtc (orch_step (R:=MemRedis) (App:=Interp MemRedis)) triggered o2 -> is_halted o2 = true.
Proof.
  assert (E : trigger_kill_switch started = (Ok tt, triggered)) by (vm_compute; reflexivity).
  pose proof (kill_switch_latched (R:=MemRedis) (HG:=sample_graph) (laws:=sample_laws) sample_cfg started) as H.
  rewrite E in H. destruct H as (H1 & H2 & H3).
  - apply (bool_decide_unpack _). vm_compute. exact I.
  - intros s Hs. vm_compute in Hs. injection Hs as <-. apply (bool_decide_unpack _). vm_compute. exact I.
  - split; [exact H1|]. split; [exact H2|]. intros o2. apply H3. left. reflexivity.
Defined.

Definition losing_result : option TradingSystemState :=
  match (run_cycle None losing).1 with Ok r => r | Raise _ => None end.

Definition losing_after : OrchestratorGraph MemRedis (Interp MemRedis) := (run_cycle None losing).2.

Lemma cycle_preempts_witness : exists s, losing_result = Some s /\ killed s.
Proof.
  assert (E : run_cycle None losing = (Ok losing_result, losing_after)) by (vm_compute; reflexivity).
  apply (proj2 (proj2 (cycle_preempts (R:=MemRedis) (HG:=sample_graph) (laws:=sample_laws) sample_cfg
           None losing losing_result losing_after E)) (JFloat (dec (-25) 3))).
  - apply (bool_decide_unpack _). vm_compute. exact I.
  - left. vm_compute. reflexivity.
  - vm_compute. reflexivity.
Defined.

Lemma restart_restores_witness :
  og_redis (shutdown losing)
  = Some (redis_set ORCHESTRATOR_STATE_REDIS_KEY (state_to_json (og_state losing)) None mem_empty).2
  /\ exists o', restore (redis_set ORCHESTRATOR_STATE_REDIS_KEY (state_to_json (og_state losing)) None mem_empty).2
                  (fresh_app mem_empty) "2026-01-03" = Ok o'
       /\ og_state o' = og_state losing /\ is_halted o' = is_halted losing.
Proof.
  apply (restart_restores (R:=MemRedis) (App:=Interp MemRedis) losing mem_empty
           (redis_set ORCHESTRATOR_STATE_REDIS_KEY (state_to_json (og_state losing)) None mem_empty).2
           (redis_set ORCHESTRATOR_STATE_REDIS_KEY (state_to_json (og_state losing)) None mem_empty).2
           (Some (state_to_json (og_state losing))) (fresh_app mem_empty) "2026-01-03").
  - reflexivity.
  - reflexivity.
  - vm_compute. reflexivity.
  - reflexivity.
  - split; [apply (bool_decide_unpack _); vm_compute; exact I|].
    cbn [foldr snd og_state og_with_state losing dset make_initial_state].
    repeat split; try (intros _; vm_compute; repeat split; discriminate).
    all: try apply NoDup_nil_2; vm_compute; discriminate.
Defined.

Lemma signal_gates_witness :
  exists u w', signal_node None (make_initial_state "2026-01-02") (sample_world signal_server) = (Ok u, w')
    /\ (u = [("signals_today", JInt (0 + 1))]
        <-> entry_allowed None (make_initial_state "2026-01-02") signal_server
              [[("symbol", "TCS"); ("exchange", "NSE")]])
    /\ (halted_by_flags (make_initial_state "2026-01-02") = false ->
        redis_kv signal_server !! KILL_SWITCH_HALTED_KEY <> None ->
        u = [("kill_switch_active", JBool true)]).
Proof.
  apply (signal_gates None (make_initial_state "2026-01-02") (sample_world signal_server)
           signal_server signal_server [[("symbol", "TCS"); ("exchange", "NSE")]] 0).
  - reflexivity.
  - intros k. reflexivity.
  - vm_compute. reflexivity.
  - vm_compute. reflexivity.
Defined.

Lemma signal_counted_again_witness :
  exists u1 w1 u2 w2,
    signal_node None (make_initial_state "2026-01-02") (sample_world signal_server) = (Ok u1, w1)
    /\ signal_node None (dupdate (make_initial_state "2026-01-02") u1) w1 = (Ok u2, w2)
    /\ dget "signals_today" (dupdate (dupdate (make_initial_state "2026-01-02") u1) u2) = Some (JInt (0 + 2)).
Proof.
  apply (signal_counted_again None (make_initial_state "2026-01-02") (sample_world signal_server)
           signal_server [[("symbol", "TCS"); ("exchange", "NSE")]] 0).
  - reflexivity.
  - intros k. reflexivity.
  - vm_compute. reflexivity.
  - vm_compute. reflexivity.
  - split_and!; [reflexivity|reflexivity|reflexivity|discriminate|].
    exists [("symbol", "TCS"); ("exchange", "NSE")], []. by split.
Defined.
