(* ===== verification/Memory.v ===== *)
(** * Orchestrator memory tiers ([shared/orchestrator/memory.py])

    The working memory with its token budget and the Redis-backed short-term
    memory.  The long-term tier and the facade are in [LongTerm]. *)

From S2P Require Import Prelude PyDict Redis Constants.
Local Open Scope Z_scope.

(** ** Working memory *)

Definition approx_tokens (text : string) : Z := Z.max 1 (Z.of_nat (String.length text) / 4).

Record WorkingMemory := {
  wm_max_tokens : Z;
  wm_store : dict string string;
  wm_order : list string;
}.

Definition new_working_memory (max_tokens : Z) : WorkingMemory :=
  {| wm_max_tokens := max_tokens; wm_store := []; wm_order := [] |}.

Definition wm_with (store : dict string string) (order : list string) (s : WorkingMemory)
    : WorkingMemory :=
  {| wm_max_tokens := wm_max_tokens s; wm_store := store; wm_order := order |}.

(** [l.remove(x)]: the first occurrence, [ValueError] when there is none. *)
Fixpoint list_remove (x : string) (l : list string) : result (list string) :=
  match l with
  | [] => Raise (ValueError "list.remove(x): x not in list")
  | y :: l => if String.eqb y x then mret l else l' ← list_remove x l; mret (y :: l')
  end.

(** [del d[k]] *)
Definition dict_del {V} (k : string) (d : dict string V) : result (dict string V) :=
  if dmem k d then mret (ddel k d) else Raise (KeyError k).

Definition sum_tokens (store : dict string string) : Z :=
  foldr Z.add 0 (approx_tokens <$> dvalues store).

Definition token_count (s : WorkingMemory) : Z := sum_tokens (wm_store s).

(** The [while] loop of [_prune]; every iteration shortens the order. *)
Fixpoint prune (fuel : nat) : M WorkingMemory unit := fun s =>
  if wm_max_tokens s <? token_count s then
    match fuel, wm_order s with
    | _, [] => (Ok tt, s)
    | O, _ => (Raise (OtherError "out of fuel"), s)
    | S fuel, evicted_key :: order =>
        match dict_del evicted_key (wm_store s) with
        | Ok store => prune fuel (wm_with store order s)
        | Raise e => (Raise e, wm_with (wm_store s) order s)
        end
    end
  else (Ok tt, s).

Definition wm_put (key value : string) : M WorkingMemory unit :=
  s ← M_get;
  order ← M_lift (if dmem key (wm_store s) then list_remove key (wm_order s) else mret (wm_order s));
  _ ← M_put (wm_with (dset key value (wm_store s)) (order ++ [key]) s);
  prune (S (length order)).

Definition wm_get (key : string) (s : WorkingMemory) : option string := dget key (wm_store s).

Definition wm_delete (key : string) : M WorkingMemory unit :=
  s ← M_get;
  if dmem key (wm_store s) then
    store ← M_lift (dict_del key (wm_store s));
    _ ← M_put (wm_with store (wm_order s) s);
    order ← M_lift (list_remove key (wm_order s));
    M_put (wm_with store order s)
  else mret tt.

Definition wm_keys (s : WorkingMemory) : list string := wm_order s.

(** ** Short-term memory *)

Section ShortTerm.
Context {R : Type} `{RedisKV R}.

Record ShortTermMemory := {
  stm_redis : option R;
  stm_ttl : Z;
  stm_prefix : string;
  stm_memory : dict string string;
}.

Definition new_short_term_memory (redis_client : option R) : ShortTermMemory :=
  {| stm_redis := redis_client; stm_ttl := SHORT_TERM_MEMORY_TTL_SECONDS;
     stm_prefix := SHORT_TERM_MEMORY_REDIS_KEY_PREFIX; stm_memory := [] |}.

Definition stm_with (r : option R) (m : dict string string) (s : ShortTermMemory) : ShortTermMemory :=
  {| stm_redis := r; stm_ttl := stm_ttl s; stm_prefix := stm_prefix s; stm_memory := m |}.

Definition stm_key (s : ShortTermMemory) (key : string) : string := stm_prefix s +:+ ":" +:+ key.

Definition stm_put (key value : string) (s : ShortTermMemory) : ShortTermMemory :=
  match stm_redis s with
  | Some r =>
      match redis_set (stm_key s key) value (Some (stm_ttl s)) r with
      | (Ok _, r') => stm_with (Some r') (stm_memory s) s
      | (Raise _, r') => stm_with (Some r') (dset key value (stm_memory s)) s
      end
  | None => stm_with None (dset key value (stm_memory s)) s
  end.

Definition stm_get (key : string) (s : ShortTermMemory) : option string * ShortTermMemory :=
  match stm_redis s with
  | Some r =>
      match redis_get (stm_key s key) r with
      | (Ok raw, r') => (raw, stm_with (Some r') (stm_memory s) s)
      | (Raise _, r') => (dget key (stm_memory s), stm_with (Some r') (stm_memory s) s)
      end
  | None => (dget key (stm_memory s), s)
  end.

Definition stm_delete (key : string) (s : ShortTermMemory) : ShortTermMemory :=
  let r := match stm_redis s with
           | Some r => Some (redis_delete (stm_key s key) r).2
           | None => None
           end in
  stm_with r (ddel key (stm_memory s)) s.

End ShortTerm.
#[global] Arguments ShortTermMemory R : clear implicits.

(** ** Facts about the working memory *)

(** The order lists the stored keys, each once. *)
Definition wm_inv (s : WorkingMemory) : Prop :=
  NoDup (dkeys (wm_store s)) /\ NoDup (wm_order s)
  /\ forall k, k ∈ wm_order s <-> k ∈ dkeys (wm_store s).

Lemma dmem_elem {V} k (d : dict string V) : dmem k d = true <-> k ∈ dkeys d.
Proof.
  unfold dmem. destruct (dget k d) as [s|] eqn:E.
  - split; [|done]. intros _. apply dget_elem in E. apply list_elem_of_fmap. by exists (k, s).
  - apply dget_None in E. split; [done|tauto].
Qed.

Lemma dkeys_ddel_iff {V} k (d : dict string V) x :
  NoDup (dkeys d) -> x ∈ dkeys (ddel k d) <-> x ∈ dkeys d /\ x <> k.
Proof.
  intros Hn. split.
  - intros Hin. split; [by eapply dkeys_ddel|]. intros ->.
    pose proof (dget_ddel_eq k d Hn) as He. by apply dget_None in He.
  - intros [Hin Hne]. apply dmem_elem. apply dmem_elem in Hin. revert Hin. unfold dmem.
    by rewrite dget_ddel_ne.
Qed.

Lemma list_remove_ok x l :
  x ∈ l -> NoDup l ->
  exists l', list_remove x l = Ok l' /\ NoDup l' /\ length l = S (length l')
    /\ forall y, y ∈ l' <-> y ∈ l /\ y <> x.
Proof.
  induction l as [|y l IH]; [by intros ?%elem_of_nil|]. intros Hin [Hy Hn]%NoDup_cons. cbn.
  destruct (String.eqb_spec y x) as [->|Hne].
  - exists l. split_and!; [done|done|done|]. intros z. rewrite elem_of_cons.
    split; [|tauto]. intros Hz. split; [by right|]. intros ->. done.
  - apply elem_of_cons in Hin as [Hin|Hin]; [congruence|].
    destruct (IH Hin Hn) as (l' & -> & Hn' & Hlen & Hl). exists (y :: l'). cbn.
    split_and!; [done| |by rewrite Hlen|].
    + apply NoDup_cons. split; [|done]. rewrite Hl. tauto.
    + intros z. rewrite !elem_of_cons, Hl. split; [|tauto]. intros [->|]; tauto.
Qed.

Lemma sum_tokens_app a b : sum_tokens (a ++ b) = sum_tokens a + sum_tokens b.
Proof.
  unfold sum_tokens, dvalues. induction a as [|[k v] a IH]; [done|]. cbn in *. lia.
Qed.

Lemma sum_tokens_nonneg d : 0 <= sum_tokens d.
Proof.
  unfold sum_tokens, dvalues, approx_tokens. induction d as [|[k v] d IH]; [done|]. cbn in *. lia.
Qed.

Lemma sum_tokens_single k v d : NoDup (dkeys d) -> dget k d = Some v ->
  sum_tokens d = approx_tokens v + sum_tokens (ddel k d).
Proof.
  unfold sum_tokens, dvalues. induction d as [|[k' v'] d IH]; [done|]. intros [_ Hn]%NoDup_cons.
  cbn. destruct (decide (k = k')) as [->|]; [by intros [= ->]|]. intros Hd. cbn.
  rewrite (IH Hn Hd). lia.
Qed.

(** Evicting the oldest key. *)
Lemma evict_inv k order s :
  wm_inv s -> wm_order s = k :: order ->
  exists v, dget k (wm_store s) = Some v
    /\ dict_del k (wm_store s) = Ok (ddel k (wm_store s))
    /\ wm_inv (wm_with (ddel k (wm_store s)) order s)
    /\ token_count s = approx_tokens v + token_count (wm_with (ddel k (wm_store s)) order s).
Proof.
  intros (Hs & Ho & Hk) E. rewrite E in *. apply NoDup_cons in Ho as [Hko Ho].
  assert (Hin : dmem k (wm_store s) = true) by (apply dmem_elem, Hk; by left).
  unfold dict_del. rewrite Hin. unfold dmem in Hin. destruct (dget k (wm_store s)) as [v|] eqn:Ev; [|done].
  exists v. split_and!; [done|done| |by apply sum_tokens_single].
  split_and!; [by apply ddel_NoDup|done|]. intros x.
  change (x ∈ order <-> x ∈ dkeys (ddel k (wm_store s))). rewrite dkeys_ddel_iff, <- Hk, elem_of_cons by done.
  split; [intros Hx; split; [by right|by intros ->]|tauto].
Qed.

(** What pruning does: it never raises, keeps the order and the store in
    step, drops the oldest entries only and no more than needed, and stops
    within the budget. *)
Lemma prune_spec fuel s :
  wm_inv s -> 0 <= wm_max_tokens s -> (length (wm_order s) <= fuel)%nat ->
  exists s' evicted, prune fuel s = (Ok tt, s') /\ wm_inv s'
    /\ wm_max_tokens s' = wm_max_tokens s
    /\ wm_order s = evicted ++ wm_order s'
    /\ (forall k, k ∈ wm_order s' -> dget k (wm_store s') = dget k (wm_store s))
    /\ token_count s' <= wm_max_tokens s
    /\ (forall pre k, evicted = pre ++ [k] ->
          exists v, dget k (wm_store s) = Some v /\ wm_max_tokens s < approx_tokens v + token_count s')
    /\ (evicted = [] -> s' = s).
Proof.
  revert s. induction fuel as [|fuel IH]; intros s Hinv Hmax Hlen.
  - destruct (wm_order s) as [|k order] eqn:Eo; [|cbn in Hlen; lia].
    exists s, []. cbn [prune]. rewrite Eo.
    assert (Ht : token_count s = 0).
    { destruct Hinv as (_ & _ & Hk). unfold token_count. destruct (wm_store s) as [|[k v] d]; [done|].
      rewrite Eo in Hk. exfalso. apply (elem_of_nil k), Hk. by left. }
    rewrite Ht. destruct (Z.ltb_spec (wm_max_tokens s) 0); [lia|].
    split_and!; try done. intros [|]; discriminate.
  - cbn [prune]. destruct (Z.ltb_spec (wm_max_tokens s) (token_count s)) as [Hover|Hfit].
    + destruct (wm_order s) as [|k order] eqn:Eo.
      { exfalso. destruct Hinv as (_ & _ & Hk). unfold token_count in Hover.
        destruct (wm_store s) as [|[k v] d]; [cbn in Hover; lia|].
        rewrite Eo in Hk. apply (elem_of_nil k), Hk. by left. }
      destruct (evict_inv k order s Hinv Eo) as (v & Hv & -> & Hinv1 & Ht).
      destruct (IH (wm_with (ddel k (wm_store s)) order s) Hinv1 Hmax)
        as (s' & evicted & E & Hinv' & Hm & Hord & Hget & Hbud & Hmin & Hnil'); [cbn in *; lia|].
      exists s', (k :: evicted). cbn [wm_order wm_with wm_store wm_max_tokens] in *.
      assert (Hne : forall x, x ∈ order -> x <> k).
      { destruct Hinv as (_ & Hnd & _). rewrite Eo in Hnd. apply NoDup_cons in Hnd as [Hk _]. by intros x Hx ->. }
      split_and!; [exact E|done|done|by rewrite Hord| |done| |done].
      * intros x Hx. rewrite Hget by done. apply dget_ddel_ne, Hne. rewrite Hord. set_solver.
      * intros [|k0 pre] x Heq; cbn in Heq.
        -- injection Heq as <- Hnil. exists v. split; [done|]. subst evicted.
           rewrite (Hnil' eq_refl). unfold token_count in *. cbn in *. lia.
        -- injection Heq as <- Heq. destruct (Hmin pre x Heq) as (v' & Hv' & Hlt).
           exists v'. split; [|done]. rewrite <- Hv'. symmetry. apply dget_ddel_ne, Hne. rewrite Hord. set_solver.
    + exists s, []. split_and!; try done. intros [|]; discriminate.
Qed.

Lemma empty_order_tokens s : wm_inv s -> wm_order s = [] -> token_count s = 0.
Proof.
  intros (_ & _ & Hk) E. unfold token_count. destruct (wm_store s) as [|[k v] d]; [done|].
  rewrite E in Hk. exfalso. apply (elem_of_nil k), Hk. by left.
Qed.

Lemma stored_tokens s k v : wm_inv s -> dget k (wm_store s) = Some v -> approx_tokens v <= token_count s.
Proof.
  intros (Hn & _) Hv. unfold token_count. rewrite (sum_tokens_single k v _ Hn Hv).
  pose proof (sum_tokens_nonneg (ddel k (wm_store s))). lia.
Qed.

(** The state in which [put] starts pruning. *)
Lemma put_before_prune key value s :
  wm_inv s ->
  exists order, (if dmem key (wm_store s) then list_remove key (wm_order s) else mret (wm_order s)) = Ok order
    /\ wm_inv (wm_with (dset key value (wm_store s)) (order ++ [key]) s).
Proof.
  intros (Hs & Ho & Hk). destruct (dmem key (wm_store s)) eqn:Em.
  - destruct (list_remove_ok key (wm_order s)) as (order & -> & Hn & _ & Hl);
      [by apply Hk, dmem_elem|done|]. exists order. split; [done|]. split_and!.
    + by apply dset_NoDup.
    + apply NoDup_app. split_and!; [done| |apply NoDup_singleton].
      intros x Hx ->%list_elem_of_singleton. apply Hl in Hx as [_ []]. done.
    + intros x. cbn [wm_store wm_order wm_with]. rewrite dkeys_dset, Em.
      rewrite elem_of_app, list_elem_of_singleton, Hl, <- Hk.
      assert (Hkin : key ∈ wm_order s) by (by apply Hk, dmem_elem).
      destruct (decide (x = key)) as [->|]; tauto.
  - exists (wm_order s). split; [done|].
    assert (Hnk : key ∉ wm_order s) by (rewrite Hk, <- dmem_elem; by rewrite Em). split_and!.
    + by apply dset_NoDup.
    + apply NoDup_app. split_and!; [done| |apply NoDup_singleton].
      intros x Hx ->%list_elem_of_singleton. done.
    + intros x. cbn [wm_store wm_order wm_with]. rewrite dkeys_dset, Em.
      by rewrite !elem_of_app, Hk.
Qed.

Lemma put_spec key value s :
  wm_inv s -> 0 <= wm_max_tokens s ->
  exists s', wm_put key value s = (Ok tt, s') /\ wm_inv s'
    /\ wm_max_tokens s' = wm_max_tokens s /\ token_count s' <= wm_max_tokens s
    /\ wm_get key s' = (if approx_tokens value <=? wm_max_tokens s then Some value else None)
    /\ (wm_max_tokens s < approx_tokens value -> wm_keys s' = []).
Proof.
  intros Hinv Hmax. destruct (put_before_prune key value s Hinv) as (order & Eo & Hinv1).
  set (s1 := wm_with (dset key value (wm_store s)) (order ++ [key]) s) in *.
  destruct (prune_spec (S (length order)) s1 Hinv1 Hmax)
    as (s' & evicted & E & Hinv' & Hm & Hord & Hget & Hbud & Hmin & _).
  { cbn. rewrite length_app. cbn. lia. }
  exists s'. split.
  { unfold wm_put, mbind, M_bind, M_get, M_lift, M_put. rewrite Eo. exact E. }
  do 3 (split; [done|]). unfold wm_get.
  assert (Hv1 : dget key (wm_store s1) = Some value) by apply dget_dset_eq.
  destruct (decide (key ∈ wm_order s')) as [Hin|Hin].
  - assert (Hv : dget key (wm_store s') = Some value) by (by rewrite Hget).
    pose proof (stored_tokens s' key value Hinv' Hv). cbn in Hbud.
    destruct (Z.leb_spec (approx_tokens value) (wm_max_tokens s)); [split; [done|lia]|lia].
  - assert (Hnil : wm_order s' = []).
    { destruct (wm_order s') as [|x l _] using rev_ind; [done|]. exfalso. apply Hin.
      cbn in Hord. rewrite app_assoc in Hord. apply app_inj_tail in Hord as [_ ->]. set_solver. }
    rewrite Hnil, app_nil_r in Hord. destruct (Hmin order key) as (v & Hv & Hlt); [done|].
    rewrite Hv1 in Hv. injection Hv as <-. rewrite (empty_order_tokens s' Hinv' Hnil) in Hlt. cbn in Hlt.
    split; [|done]. destruct (Z.leb_spec (approx_tokens value) (wm_max_tokens s)); [lia|].
    apply dget_None. destruct Hinv' as (_ & _ & Hk). rewrite <- Hk, Hnil. apply not_elem_of_nil.
Qed.

Lemma delete_spec key s :
  wm_inv s ->
  exists s', wm_delete key s = (Ok tt, s') /\ wm_inv s'
    /\ wm_max_tokens s' = wm_max_tokens s /\ token_count s' <= token_count s.
Proof.
  intros Hinv. pose proof Hinv as (Hs & Ho & Hk). unfold wm_delete. M_unfold.
  destruct (dmem key (wm_store s)) eqn:Em; [|by exists s].
  unfold dict_del. rewrite Em. cbn.
  destruct (list_remove_ok key (wm_order s)) as (order & -> & Hn & _ & Hl);
    [by apply Hk, dmem_elem|done|]. eexists. split; [reflexivity|]. split_and!; try done.
  - split_and!; [by apply ddel_NoDup|done|].
    intros x. change (x ∈ order <-> x ∈ dkeys (ddel key (wm_store s))).
    by rewrite dkeys_ddel_iff, Hl, Hk by done.
  - change (sum_tokens (ddel key (wm_store s)) <= sum_tokens (wm_store s)).
    unfold dmem in Em. destruct (dget key (wm_store s)) as [v|] eqn:Ev; [|done].
    rewrite (sum_tokens_single key v _ Hs Ev). pose proof (Z.le_max_l 1 (Z.of_nat (String.length v) / 4)).
    unfold approx_tokens. lia.
Qed.

(** A call on the working memory. *)
Inductive wm_op : Type := WmPut (key value : string) | WmDelete (key : string).

Definition run_op (op : wm_op) : M WorkingMemory unit :=
  match op with WmPut k v => wm_put k v | WmDelete k => wm_delete k end.

(** The working memory keeps its budget: after any sequence of puts and
    deletes, none of which ever raises, the order lists exactly the stored
    keys and the tokens fit the budget; a value just put is readable exactly
    when it fits the budget on its own, and otherwise empties the memory. *)
Theorem working_memory_budget max_tokens ops :
  0 <= max_tokens ->
  exists s, M_for run_op ops (new_working_memory max_tokens) = (Ok tt, s)
    /\ wm_inv s /\ token_count s <= max_tokens
    /\ forall key value, exists s', wm_put key value s = (Ok tt, s')
         /\ wm_get key s' = (if approx_tokens value <=? max_tokens then Some value else None)
         /\ (max_tokens < approx_tokens value -> wm_keys s' = []).
Proof.
  intros Hmax.
  assert (Hrun : forall ops s, wm_inv s -> wm_max_tokens s = max_tokens -> token_count s <= max_tokens ->
    exists s', M_for run_op ops s = (Ok tt, s') /\ wm_inv s' /\ wm_max_tokens s' = max_tokens
               /\ token_count s' <= max_tokens).
  { clear ops. induction ops as [|op ops IH]; intros s Hi Hm Ht; [by exists s|].
    cbn [M_for]. unfold mbind, M_bind. destruct op as [k v|k]; cbn [run_op].
    - destruct (put_spec k v s Hi ltac:(lia)) as (s1 & -> & Hi1 & Hm1 & Ht1 & _). apply IH; [done|lia|lia].
    - destruct (delete_spec k s Hi) as (s1 & -> & Hi1 & Hm1 & Ht1). apply IH; [done|lia|lia]. }
  destruct (Hrun ops (new_working_memory max_tokens)) as (s & E & Hi & Hm & Ht); [|done|done|].
  { split_and!; [constructor|constructor|]. intros k. cbn. by rewrite !elem_of_nil. }
  exists s. split_and!; try done. intros key value.
  destruct (put_spec key value s Hi ltac:(lia)) as (s' & E' & Hi' & Hm' & Ht' & Hg). exists s'.
  by rewrite Hm in Hg.
Qed.

Lemma working_memory_budget_witness :
  exists s, M_for run_op [WmPut "regime" "BULL_TREND"; WmPut "last" "TCS LONG"; WmPut "regime" "CHAOS"]
              (new_working_memory 4) = (Ok tt, s)
    /\ wm_inv s /\ token_count s <= 4
    /\ forall key value, exists s', wm_put key value s = (Ok tt, s')
         /\ wm_get key s' = (if approx_tokens value <=? 4 then Some value else None)
         /\ (4 < approx_tokens value -> wm_keys s' = []).
Proof. apply (working_memory_budget 4). discriminate. Defined.

(** The short-term memory forgets its fallback: what was put while the
    server was down is not found once it answers again. *)
Example fallback_forgotten :
  let s := stm_put "k" "v" (new_short_term_memory (Some mem_down)) in
  (stm_get "k" s).1 = Some "v"
  /\ (stm_get "k" (stm_with (Some mem_empty) (stm_memory s) s)).1 = None.
Proof. split; reflexivity. Qed.
