(* ===== verification/Ingestion.v ===== *)
(** * Data ingestion ([shared/ingestion])

    [models.py], [validator.py], [aggregator.py] and [buffer.py]; the agent
    and its feeds are in [IngestionAgent].  [np.maximum] and [np.minimum] are
    parameters, clock readings are arguments.  Payloads of the Redis list are
    JSON values, and one whose symbol is not a string, which [push] never
    writes, counts as malformed. *)

From S2P Require Import Prelude PyFloat PyDict Json PyText Redis Constants.
Local Open Scope Z_scope.

(** ** Data models ([models.py]) *)

Inductive IngestionStatus : Type := LIVE | DEGRADED | PAPER.

#[export] Instance IngestionStatus_eq_dec : EqDecision IngestionStatus.
Proof. solve_decision. Defined.

Module RawTick.
Record t := mk {
  symbol : string;
  exchange : string;
  ltp : float;
  volume : Z;
  timestamp_ms : Z;
}.
End RawTick.

Module OHLCVCandle.
Record t := mk {
  symbol : string;
  exchange : string;
  interval_seconds : Z;
  open : float;
  high : float;
  low : float;
  close : float;
  volume : Z;
  timestamp_ms : Z;
  tick_count : Z;
}.
End OHLCVCandle.

Definition book_key (symbol exchange : string) : string := exchange +:+ ":" +:+ symbol.
Definition tick_key (tick : RawTick.t) : string := book_key (RawTick.symbol tick) (RawTick.exchange tick).

(** ** Tick validation ([validator.py]) *)

(** The state is [_last_ts_ms]; [now_ms] is [int(time.time() * 1000)]. *)
Definition TickSequenceValidator : Type := dict string Z.

Definition validate (now_ms : Z) (tick : RawTick.t) : M TickSequenceValidator unit :=
  let key := tick_key tick in
  if fle (RawTick.ltp tick) f_zero then
    M_raise (TickValidationError ("zero/negative price: " +:+ RawTick.symbol tick +:+ " ltp=" +:+
                                  repr (RawTick.ltp tick)))
  else if RawTick.volume tick <? 0 then
    M_raise (TickValidationError ("negative volume: " +:+ RawTick.symbol tick +:+ " volume=" +:+
                                  pretty (RawTick.volume tick)))
  else if now_ms + TICK_MAX_FUTURE_MS <? RawTick.timestamp_ms tick then
    M_raise (TickValidationError ("timestamp in the future: " +:+ RawTick.symbol tick +:+ " ts=" +:+
                                  pretty (RawTick.timestamp_ms tick) +:+ " now=" +:+ pretty now_ms))
  else
    last_ts ← M_get;
    match dget key last_ts with
    | Some last =>
        if RawTick.timestamp_ms tick <? last - TICK_MAX_BACKWARD_MS then
          M_raise (TickValidationError ("out-of-sequence tick: " +:+ RawTick.symbol tick +:+ " ts=" +:+
                                        pretty (RawTick.timestamp_ms tick) +:+ " last=" +:+ pretty last))
        else M_put (dset key (RawTick.timestamp_ms tick) last_ts)
    | None => M_put (dset key (RawTick.timestamp_ms tick) last_ts)
    end.

(** [k.endswith(suffix)] *)
Definition str_endswith (suffix k : string) : bool :=
  String.prefix (str_rev suffix "") (str_rev k "").

Definition validator_reset (symbol exchange : string) (self : TickSequenceValidator)
    : TickSequenceValidator :=
  if is_empty exchange then
    filter (fun kv => str_endswith (":" +:+ symbol) kv.1 = false) self
  else ddel (book_key symbol exchange) self.

(** ** Candle aggregation ([aggregator.py]) *)

Class NumPyMinMax := {
  np_maximum : float -> float -> float;
  np_minimum : float -> float -> float;
}.

Module BarState.
Record t := mk {
  interval_start_ms : Z;
  open : float;
  high : float;
  low : float;
  close : float;
  volume : Z;
  tick_count : Z;
}.
End BarState.

(** Floor division: the bar's start. *)
Definition bar_start_ms (timestamp_ms interval_seconds : Z) : result Z :=
  let interval_ms := interval_seconds * 1000 in
  if interval_ms =? 0 then Raise ZeroDivisionError
  else mret (timestamp_ms / interval_ms * interval_ms).

Record CandleAggregator := {
  ca_interval : Z;
  ca_bars : dict string BarState.t;
}.

Definition new_aggregator (interval_seconds : Z) : CandleAggregator :=
  {| ca_interval := interval_seconds; ca_bars := [] |}.

Definition ca_with (bars : dict string BarState.t) (self : CandleAggregator) : CandleAggregator :=
  {| ca_interval := ca_interval self; ca_bars := bars |}.

Section Aggregator.
Context `{NumPyMinMax}.

Definition fresh_bar (bar_start : Z) (tick : RawTick.t) : BarState.t :=
  let p := RawTick.ltp tick in BarState.mk bar_start p p p p (RawTick.volume tick) 1.

Definition update_bar (tick : RawTick.t) (bar : BarState.t) : BarState.t :=
  BarState.mk (BarState.interval_start_ms bar) (BarState.open bar)
    (np_maximum (BarState.high bar) (RawTick.ltp tick))
    (np_minimum (BarState.low bar) (RawTick.ltp tick))
    (RawTick.ltp tick) (BarState.volume bar + RawTick.volume tick) (BarState.tick_count bar + 1).

Definition candle_of (symbol exchange : string) (interval : Z) (bar : BarState.t) : OHLCVCandle.t :=
  OHLCVCandle.mk symbol exchange interval (BarState.open bar) (BarState.high bar) (BarState.low bar)
    (BarState.close bar) (BarState.volume bar) (BarState.interval_start_ms bar)
    (BarState.tick_count bar).

Definition ingest (tick : RawTick.t) : M CandleAggregator (option OHLCVCandle.t) :=
  self ← M_get;
  let key := tick_key tick in
  bar_start ← M_lift (bar_start_ms (RawTick.timestamp_ms tick) (ca_interval self));
  let put bar := M_put (ca_with (dset key bar (ca_bars self)) self) in
  match dget key (ca_bars self) with
  | None => _ ← put (fresh_bar bar_start tick); mret None
  | Some existing =>
      if bar_start =? BarState.interval_start_ms existing then
        _ ← put (update_bar tick existing); mret None
      else
        _ ← put (fresh_bar bar_start tick);
        mret (Some (candle_of (RawTick.symbol tick) (RawTick.exchange tick) (ca_interval self) existing))
  end.

(** The loop of [flush]: [exchange, symbol = key.split(":", 1)]. *)
Fixpoint flush_bars (interval : Z) (bars : list (string * BarState.t))
    (acc : dict string OHLCVCandle.t) : result (dict string OHLCVCandle.t) :=
  match bars with
  | [] => mret acc
  | (key, bar) :: bars =>
      match str_split1 ":" key with
      | Some (exchange, symbol) =>
          flush_bars interval bars (dset key (candle_of symbol exchange interval bar) acc)
      | None => Raise (ValueError "not enough values to unpack")
      end
  end.

Definition flush : M CandleAggregator (dict string OHLCVCandle.t) :=
  self ← M_get;
  candles ← M_lift (flush_bars (ca_interval self) (ca_bars self) []);
  _ ← M_put (ca_with [] self);
  mret candles.

Definition aggregator_reset (symbol exchange : string) (self : CandleAggregator) : CandleAggregator :=
  ca_with (ddel (book_key symbol exchange) (ca_bars self)) self.

End Aggregator.

(** ** Tick buffer ([buffer.py]) *)

Definition tick_to_json (tick : RawTick.t) : json :=
  JObj [("symbol", JStr (RawTick.symbol tick)); ("exchange", JStr (RawTick.exchange tick));
        ("ltp", JFloat (RawTick.ltp tick)); ("volume", JInt (RawTick.volume tick));
        ("timestamp_ms", JInt (RawTick.timestamp_ms tick))].

Definition json_str (v : json) : result string :=
  match v with JStr s => mret s | _ => Raise (ValueError "not a string") end.

Definition json_to_tick (d : json) : result RawTick.t :=
  symbol ← jfield "symbol" d ≫= json_str;
  exchange ← jfield "exchange" d ≫= json_str;
  ltp ← jfield "ltp" d ≫= json_to_float;
  volume ← jfield "volume" d ≫= json_to_int;
  timestamp_ms ← jfield "timestamp_ms" d ≫= json_to_int;
  mret (RawTick.mk symbol exchange ltp volume timestamp_ms).

(** Append what the payload decodes to; [KeyError] and [ValueError] are
    logged and the payload dropped, other exceptions escape. *)
Definition decode_into (ticks : list RawTick.t) (raw : json) : result (list RawTick.t) :=
  match json_to_tick raw with
  | Ok tick => mret (ticks ++ [tick])
  | Raise (KeyError _) | Raise (ValueError _) => mret ticks
  | Raise e => Raise e
  end.

(** The decoding loop of [drain] over the server's payloads, whose exceptions
    end it. *)
Fixpoint decode_while (ticks : list RawTick.t) (raws : list json) : list RawTick.t :=
  match raws with
  | [] => ticks
  | raw :: raws =>
      match decode_into ticks raw with
      | Ok ticks => decode_while ticks raws
      | Raise _ => ticks
      end
  end.

Section Buffer.
Context {R : Type} `{RedisList R}.

Record TickBuffer := {
  tb_redis : option R;
  tb_flush_count : Z;
  tb_flush_interval : Z;
  tb_memory : list json;
  tb_last_flush_ts : float;
}.

Definition tb_with (redis : option R) (memory : list json) (self : TickBuffer) : TickBuffer :=
  {| tb_redis := redis; tb_flush_count := tb_flush_count self;
     tb_flush_interval := tb_flush_interval self; tb_memory := memory;
     tb_last_flush_ts := tb_last_flush_ts self |}.

Definition tb_flushed (now : float) (self : TickBuffer) : TickBuffer :=
  {| tb_redis := tb_redis self; tb_flush_count := tb_flush_count self;
     tb_flush_interval := tb_flush_interval self; tb_memory := tb_memory self;
     tb_last_flush_ts := now |}.

Definition push (tick : RawTick.t) (self : TickBuffer) : TickBuffer :=
  let payload := tick_to_json tick in
  match tb_redis self with
  | Some r =>
      match redis_rpush TICK_BUFFER_REDIS_KEY payload r with
      | (Ok _, r') => tb_with (Some r') (tb_memory self) self
      | (Raise _, r') => tb_with (Some r') (tb_memory self ++ [payload]) self
      end
  | None => tb_with None (tb_memory self ++ [payload]) self
  end.

Definition pending_count (self : TickBuffer) : Z * TickBuffer :=
  let n := Z.of_nat (length (tb_memory self)) in
  match tb_redis self with
  | Some r =>
      match redis_llen TICK_BUFFER_REDIS_KEY r with
      | (Ok c, r') => (c + n, tb_with (Some r') (tb_memory self) self)
      | (Raise _, r') => (n, tb_with (Some r') (tb_memory self) self)
      end
  | None => (n, self)
  end.

(** [l[:k]] and [l[k:]] *)
Definition py_split {A} (k : Z) (l : list A) : list A * list A :=
  let i := Z.to_nat (if k <? 0 then Z.of_nat (length l) + k else k) in (take i l, drop i l).

(** The part of [drain] that reads the server, inside its [try]: the ticks so
    far are kept when it raises. *)
Definition drain_redis (remaining : Z) (ticks : list RawTick.t) (r : R) : list RawTick.t * R :=
  match redis_lrange TICK_BUFFER_REDIS_KEY 0 (remaining - 1) r with
  | (Raise _, r) => (ticks, r)
  | (Ok raw_redis, r) =>
      let '(trimmed, r) :=
        match raw_redis with
        | [] => (Ok tt, r)
        | _ => redis_ltrim TICK_BUFFER_REDIS_KEY (Z.of_nat (length raw_redis)) (-1) r
        end in
      match trimmed with
      | Raise _ => (ticks, r)
      | Ok _ =>
          (decode_while ticks raw_redis, r)
      end
  end.

(** [n = None] drains everything; [now] is the flush time. *)
Definition drain (n : option Z) (now : float) : M TickBuffer (list RawTick.t) := fun self =>
  let '(limit, self) := match n with Some n => (n, self) | None => pending_count self end in
  let memory_take := Z.min limit (Z.of_nat (length (tb_memory self))) in
  let '(raw_memory, memory) := py_split memory_take (tb_memory self) in
  let self := tb_with (tb_redis self) memory self in
  match for_each decode_into [] raw_memory with
  | Raise e => (Raise e, self)
  | Ok ticks =>
      let remaining := limit - Z.of_nat (length ticks) in
      let '(ticks, self) :=
        match tb_redis self with
        | Some r =>
            if 0 <? remaining then
              let '(ticks, r) := drain_redis remaining ticks r in
              (ticks, tb_with (Some r) (tb_memory self) self)
            else (ticks, self)
        | None => (ticks, self)
        end in
      (Ok ticks, tb_flushed now self)
  end.

(** [x >= n] on a float and an [int], compared exactly. *)
Definition float_ge_int (x : float) (n : Z) : bool :=
  negb (is_nan x) && negb (float_gt_int (fneg x) (- n)).

Definition should_flush (now : float) (self : TickBuffer) : bool * TickBuffer :=
  let elapsed := (now - tb_last_flush_ts self)%pf in
  let '(pending, self) := pending_count self in
  ((tb_flush_count self <=? pending)
   || float_ge_int elapsed (tb_flush_interval self), self).

End Buffer.
#[global] Arguments TickBuffer R : clear implicits.

(** * Theorems *)

(** ** Validation *)

(** The condition under which a tick is accepted. *)
Definition acceptable (now_ms : Z) (tick : RawTick.t) (self : TickSequenceValidator) : bool :=
  negb (fle (RawTick.ltp tick) f_zero) && (0 <=? RawTick.volume tick)
  && (RawTick.timestamp_ms tick <=? now_ms + TICK_MAX_FUTURE_MS)
  && match dget (tick_key tick) self with
     | Some last => last - TICK_MAX_BACKWARD_MS <=? RawTick.timestamp_ms tick
     | None => true
     end.

(** A tick is rejected, with a [TickValidationError] and without touching
    the validator, exactly when its price is not positive, its volume is
    negative, its time is more than two seconds ahead of the clock or more
    than 500 ms before the last accepted tick of its book; otherwise its time
    becomes the book's last time and no other book changes. *)
Theorem tick_validation_exact now_ms tick self :
  match validate now_ms tick self with
  | (Ok _, self') =>
      acceptable now_ms tick self = true
      /\ forall k, dget k self' = if decide (k = tick_key tick) then Some (RawTick.timestamp_ms tick)
                                  else dget k self
  | (Raise e, self') =>
      acceptable now_ms tick self = false /\ self' = self /\ exists m, e = TickValidationError m
  end.
Proof.
  unfold validate, acceptable.
  destruct (fle (RawTick.ltp tick) f_zero); cbn; [eauto|].
  destruct (Z.ltb_spec (RawTick.volume tick) 0), (Z.leb_spec 0 (RawTick.volume tick)); try lia; cbn; [eauto|].
  destruct (Z.ltb_spec (now_ms + TICK_MAX_FUTURE_MS) (RawTick.timestamp_ms tick)),
    (Z.leb_spec (RawTick.timestamp_ms tick) (now_ms + TICK_MAX_FUTURE_MS)); try lia; cbn; [eauto|].
  M_unfold. destruct (dget (tick_key tick) self) as [last|]; cbn.
  - destruct (Z.ltb_spec (RawTick.timestamp_ms tick) (last - TICK_MAX_BACKWARD_MS)),
      (Z.leb_spec (last - TICK_MAX_BACKWARD_MS) (RawTick.timestamp_ms tick)); try lia; cbn; [eauto|].
    split; [done|]. intros k. apply dget_dset.
  - split; [done|]. intros k. apply dget_dset.
Qed.

(** A NaN price is not [<= 0]: it passes. *)
Lemma nan_price_accepted now_ms symbol exchange :
  validate now_ms (RawTick.mk symbol exchange f_nan 0 now_ms) []
  = (Ok tt, [(book_key symbol exchange, now_ms)]).
Proof.
  unfold validate. cbn -[book_key TICK_MAX_FUTURE_MS].
  change (fle f_nan f_zero) with false. cbn -[book_key TICK_MAX_FUTURE_MS].
  destruct (Z.ltb_spec (now_ms + TICK_MAX_FUTURE_MS) now_ms); [unfold TICK_MAX_FUTURE_MS in *; lia|done].
Qed.

Definition at_time (t : Z) (tick : RawTick.t) : RawTick.t :=
  RawTick.mk (RawTick.symbol tick) (RawTick.exchange tick) (RawTick.ltp tick) (RawTick.volume tick) t.

(** The guard compares with the last tick, not the newest one: a feed may
    replay arbitrarily far back in steps of 500 ms. *)
Lemma validator_walks_back now_ms tick n j self :
  fle (RawTick.ltp tick) f_zero = false -> 0 <= RawTick.volume tick -> 0 <= j ->
  RawTick.timestamp_ms tick <= now_ms + TICK_MAX_FUTURE_MS ->
  dget (tick_key tick) self = Some (RawTick.timestamp_ms tick - 500 * j) ->
  exists self',
    M_for (fun i => validate now_ms (at_time (RawTick.timestamp_ms tick - 500 * i) tick))
      (seqZ (j + 1) (Z.of_nat n)) self = (Ok tt, self')
    /\ dget (tick_key tick) self' = Some (RawTick.timestamp_ms tick - 500 * (j + Z.of_nat n)).
Proof.
  intros Hp Hv Hj Hf. revert j self Hj. induction n as [|n IH]; intros j self Hj Hs.
  - exists self. split; [done|]. rewrite Hs. f_equal. lia.
  - rewrite seqZ_cons by lia. cbn [M_for]. unfold mbind at 1, M_bind at 1.
    set (t := at_time (RawTick.timestamp_ms tick - 500 * (j + 1)) tick).
    pose proof (tick_validation_exact now_ms t self) as E.
    assert (Ha : acceptable now_ms t self = true).
    { unfold acceptable. change (tick_key t) with (tick_key tick). rewrite Hs.
      subst t. cbn -[TICK_MAX_FUTURE_MS TICK_MAX_BACKWARD_MS]. rewrite Hp. unfold TICK_MAX_BACKWARD_MS.
      repeat (apply andb_true_intro; split); [done | apply Z.leb_le; lia..]. }
    destruct (validate now_ms t self) as [[[]|e] s1]; [|destruct E; congruence].
    destruct E as [_ E]. specialize (E (tick_key tick)).
    rewrite decide_True in E by done.
    destruct (IH (j + 1) s1) as (s2 & H2 & H3); [lia|exact E|].
    exists s2. split; [|rewrite H3; f_equal; lia].
    rewrite <- H2. do 2 f_equal. lia.
Qed.

(** ** Candles *)

(** The window of a tick, for an interval that is not zero. *)
Definition window (interval : Z) (tick : RawTick.t) : Z :=
  RawTick.timestamp_ms tick / (interval * 1000) * (interval * 1000).

(** The maximal runs of consecutive elements with the same [f]. *)
Fixpoint runs {A} (f : A -> Z) (l : list A) : list (list A) :=
  match l with
  | [] => []
  | x :: l =>
      match runs f l with
      | (y :: r) :: rs => if f x =? f y then (x :: y :: r) :: rs else [x] :: (y :: r) :: rs
      | _ => [[x]]
      end
  end.

Lemma runs_concat {A} (f : A -> Z) l : concat (runs f l) = l.
Proof.
  induction l as [|x l IH]; [done|]. cbn [runs].
  destruct (runs f l) as [|[|y r] rs] eqn:E.
  - by rewrite <- IH.
  - exfalso. clear IH. revert rs E. destruct l as [|z l]; [done|]. cbn [runs].
    intros rs. destruct (runs f l) as [|[|w r] rs']; [done..|]. by destruct (f z =? f w).
  - destruct (f x =? f y); cbn in *; by rewrite IH.
Qed.

(** A run ends where [f] changes. *)
Lemma runs_head {A} (f : A -> Z) x l : exists r rs, runs f (x :: l) = (x :: r) :: rs.
Proof.
  cbn [runs]. destruct (runs f l) as [|[|y r] rs]; [eauto..|]. destruct (f x =? f y); eauto.
Qed.

Lemma runs_same {A} (f : A -> Z) x r :
  (forall y, y ∈ r -> f y = f x) -> runs f (x :: r) = [x :: r].
Proof.
  revert x. induction r as [|y r IH]; intros x Hr; [done|]. cbn [runs].
  change (match runs f r with
          | (y0 :: r0) :: rs => if f y =? f y0 then (y :: y0 :: r0) :: rs else [y] :: (y0 :: r0) :: rs
          | _ => [[y]] end) with (runs f (y :: r)).
  rewrite IH.
  - rewrite (Hr y) by set_solver. by rewrite Z.eqb_refl.
  - intros z Hz. rewrite (Hr z), (Hr y) by set_solver. done.
Qed.

Lemma runs_break {A} (f : A -> Z) x r y l :
  (forall z, z ∈ r -> f z = f x) -> f y <> f x ->
  runs f ((x :: r) ++ y :: l) = (x :: r) :: runs f (y :: l).
Proof.
  revert x. induction r as [|z r IH]; intros x Hr Hy.
  - destruct (runs_head f y l) as (r' & rs & E).
    change ([x] ++ y :: l) with (x :: y :: l).
    cbn [runs] in E |- *. rewrite E. destruct (Z.eqb_spec (f x) (f y)); [congruence|done].
  - specialize (IH z).
    change ((x :: z :: r) ++ y :: l) with (x :: ((z :: r) ++ y :: l)).
    assert (f z = f x) as Hz by (apply Hr; set_solver).
    assert (E : runs f ((z :: r) ++ y :: l) = (z :: r) :: runs f (y :: l)).
    { apply IH; [|congruence]. intros w Hw. rewrite Hz. apply Hr. set_solver. }
    cbn [runs] in E |- *. cbn [app] in E. cbn [app]. rewrite E, Hz. by rewrite Z.eqb_refl.
Qed.

Section Candles.
Context `{NumPyMinMax} (iv : Z) (Hiv : iv * 1000 <> 0).

(** The bar of a run of ticks. *)
Definition bar_of_run (run : list RawTick.t) : option BarState.t :=
  match run with
  | [] => None
  | t :: r =>
      Some (BarState.mk (window iv t) (RawTick.ltp t)
              (foldl np_maximum (RawTick.ltp t) (RawTick.ltp <$> r))
              (foldl np_minimum (RawTick.ltp t) (RawTick.ltp <$> r))
              (default (RawTick.ltp t) (last (RawTick.ltp <$> r)))
              (foldl Z.add (RawTick.volume t) (RawTick.volume <$> r))
              (Z.of_nat (length run)))
  end.

Definition candle_of_run (symbol exchange : string) (run : list RawTick.t) : option OHLCVCandle.t :=
  candle_of symbol exchange iv <$> bar_of_run run.

(** Feed a stream of ticks, collecting the completed candles. *)
Fixpoint ingest_all (ticks : list RawTick.t) : M CandleAggregator (list OHLCVCandle.t) :=
  match ticks with
  | [] => mret []
  | t :: ticks =>
      c ← ingest t;
      cs ← ingest_all ticks;
      mret (option_list c ++ cs)
  end.

Definition tick_of_book (symbol exchange : string) (t : RawTick.t) : Prop :=
  RawTick.symbol t = symbol /\ RawTick.exchange t = exchange.
Definition candle_of_book (symbol exchange : string) (c : OHLCVCandle.t) : Prop :=
  OHLCVCandle.symbol c = symbol /\ OHLCVCandle.exchange c = exchange.
#[local] Instance tick_of_book_dec s e t : Decision (tick_of_book s e t).
Proof. unfold tick_of_book. apply _. Defined.
#[local] Instance candle_of_book_dec s e c : Decision (candle_of_book s e c).
Proof. unfold candle_of_book. apply _. Defined.

Definition no_colon (exchange : string) : Prop := str_has ":" exchange = false.

Lemma book_key_inj s e s' e' :
  no_colon e -> no_colon e' -> book_key s e = book_key s' e' -> s = s' /\ e = e'.
Proof.
  intros He He' E. unfold book_key in E.
  pose proof (str_split1_app ":" e s He) as H1. pose proof (str_split1_app ":" e' s' He') as H2.
  change (String ":" s) with (":" +:+ s) in H1. change (String ":" s') with (":" +:+ s') in H2.
  rewrite E in H1. rewrite H1 in H2. by injection H2.
Qed.

Lemma bar_start_window t : bar_start_ms (RawTick.timestamp_ms t) iv = Ok (window iv t).
Proof. unfold bar_start_ms. destruct (Z.eqb_spec (iv * 1000) 0); done. Qed.

Lemma bar_of_run_fresh t : Some (fresh_bar (window iv t) t) = bar_of_run [t].
Proof. done. Qed.

Lemma bar_of_run_snoc t r x b :
  bar_of_run (t :: r) = Some b -> bar_of_run (t :: r ++ [x]) = Some (update_bar x b).
Proof.
  intros [= <-]. unfold bar_of_run, update_bar. f_equal. cbn [BarState.interval_start_ms BarState.open
    BarState.high BarState.low BarState.close BarState.volume BarState.tick_count].
  rewrite !fmap_app, !fmap_cons, !fmap_nil, !foldl_snoc, last_snoc. f_equal.
  cbn [length]. rewrite length_app. cbn. lia.
Qed.

Lemma bar_of_run_start t r b : bar_of_run (t :: r) = Some b -> BarState.interval_start_ms b = window iv t.
Proof. by intros [= <-]. Qed.

(** One tick, by the bar that is open for its book. *)
Lemma ingest_step t bars :
  ingest t {| ca_interval := iv; ca_bars := bars |} =
  let put b := {| ca_interval := iv; ca_bars := dset (tick_key t) b bars |} in
  match dget (tick_key t) bars with
  | None => (Ok None, put (fresh_bar (window iv t) t))
  | Some b =>
      if window iv t =? BarState.interval_start_ms b then (Ok None, put (update_bar t b))
      else (Ok (Some (candle_of (RawTick.symbol t) (RawTick.exchange t) iv b)), put (fresh_bar (window iv t) t))
  end.
Proof.
  unfold ingest. M_unfold. rewrite bar_start_window. cbn.
  destruct (dget (tick_key t) bars) as [b|]; [|done]. by destruct (_ =? _).
Qed.

Lemma ingest_all_ok l bars : exists emitted bars',
  ingest_all l {| ca_interval := iv; ca_bars := bars |} = (Ok emitted, {| ca_interval := iv; ca_bars := bars' |}).
Proof.
  revert bars. induction l as [|t l IH]; intros bars; cbn [ingest_all]; [by eexists _, _|].
  unfold mbind, M_bind. rewrite ingest_step. cbv zeta.
  destruct (dget (tick_key t) bars) as [b|]; [destruct (_ =? _)|];
    edestruct IH as (em & bars' & ->); by eexists _, _.
Qed.

Lemma filter_option_candle s e (b : option OHLCVCandle.t) cs :
  (forall c, b = Some c -> ~ candle_of_book s e c) ->
  filter (candle_of_book s e) (option_list b ++ cs) = filter (candle_of_book s e) cs.
Proof.
  intros Hb. destruct b as [c|]; [|done]. cbn [option_list option_rect app].
  by rewrite filter_cons_False by (by apply Hb).
Qed.

(** A tick of another book leaves the book alone. *)
Lemma ingest_other_book s e t bars :
  no_colon e -> no_colon (RawTick.exchange t) -> ~ tick_of_book s e t ->
  exists c bars',
    ingest t {| ca_interval := iv; ca_bars := bars |} = (Ok c, {| ca_interval := iv; ca_bars := bars' |})
    /\ dget (book_key s e) bars' = dget (book_key s e) bars
    /\ forall c', c = Some c' -> ~ candle_of_book s e c'.
Proof.
  intros He Ht Hn.
  assert (Hk : book_key s e <> tick_key t).
  { intros Hk. apply book_key_inj in Hk as [-> ->]; [|done..]. by apply Hn. }
  rewrite ingest_step. cbv zeta.
  destruct (dget (tick_key t) bars) as [b|]; [destruct (_ =? _)|]; eexists _, _; split_and!;
    first [reflexivity | by rewrite dget_dset_ne | done | by intros ? [= <-]].
Qed.

(** The tick [t] of the book follows the run [x :: r]. *)
Lemma runs_next x r t l :
  (forall y, y ∈ r -> window iv y = window iv x) -> window iv t <> window iv x ->
  let rs := runs (window iv) ((x :: r) ++ t :: l) in
  let rs' := runs (window iv) (t :: l) in
  removelast rs = (x :: r) :: removelast rs' /\ last rs = last rs'.
Proof.
  intros Hr Ht. cbv zeta. rewrite runs_break by done.
  destruct (runs_head (window iv) t l) as (r' & rs' & E). by rewrite E.
Qed.

Lemma run_extended t x r :
  (forall y y', y ∈ x :: r -> y' ∈ x :: r -> window iv y = window iv y') ->
  window iv t = window iv x ->
  forall y y', y ∈ x :: r ++ [t] -> y' ∈ x :: r ++ [t] -> window iv y = window iv y'.
Proof.
  intros Hr Ht.
  assert (Hx : forall y, y ∈ x :: r ++ [t] -> window iv y = window iv x).
  { intros y Hy. rewrite app_comm_cons in Hy.
    apply elem_of_app in Hy as [Hy|Hy]; [by apply Hr; [|left]|].
    by apply list_elem_of_singleton in Hy as ->. }
  intros y y' Hy Hy'. by rewrite (Hx _ Hy), (Hx _ Hy').
Qed.

(** The books do not interfere, and the open bar of a book is the bar of
    its current run. *)
Lemma ingest_all_book s e l : no_colon e -> Forall (fun t => no_colon (RawTick.exchange t)) l ->
  forall bars run, (forall t t', t ∈ run -> t' ∈ run -> window iv t = window iv t') ->
  dget (book_key s e) bars = bar_of_run run ->
  forall emitted bars',
  ingest_all l {| ca_interval := iv; ca_bars := bars |} = (Ok emitted, {| ca_interval := iv; ca_bars := bars' |}) ->
  let rs := runs (window iv) (run ++ filter (tick_of_book s e) l) in
  filter (candle_of_book s e) emitted = omap (candle_of_run s e) (removelast rs)
  /\ dget (book_key s e) bars' = last rs ≫= bar_of_run.
Proof.
  intros He Hl. induction Hl as [|t l Ht Hl IH]; intros bars run Hrun Hbar emitted bars' E; cbn [ingest_all] in E.
  { injection E as <- <-. rewrite filter_nil, app_nil_r. cbv zeta.
    destruct run as [|x r]; [done|]. rewrite runs_same by (intros; apply Hrun; set_solver). done. }
  unfold mbind, M_bind in E. destruct (decide (tick_of_book s e t)) as [[<- <-]|Hn].
  - rewrite filter_cons_True by done. rewrite ingest_step in E. cbv zeta in E.
    change (tick_key t) with (book_key (RawTick.symbol t) (RawTick.exchange t)) in *. rewrite Hbar in E.
    assert (Hfresh : forall b em b',
      ingest_all l {| ca_interval := iv; ca_bars := dset (book_key (RawTick.symbol t) (RawTick.exchange t))
        (fresh_bar (window iv t) t) b |} = (Ok em, {| ca_interval := iv; ca_bars := b' |}) ->
      let rs := runs (window iv) (t :: filter (tick_of_book (RawTick.symbol t) (RawTick.exchange t)) l) in
      filter (candle_of_book (RawTick.symbol t) (RawTick.exchange t)) em
        = omap (candle_of_run (RawTick.symbol t) (RawTick.exchange t)) (removelast rs)
      /\ dget (book_key (RawTick.symbol t) (RawTick.exchange t)) b' = last rs ≫= bar_of_run).
    { intros b em b' E'. apply (IH _ [t]) in E'; [done| |by rewrite dget_dset_eq].
      intros ? ? ->%list_elem_of_singleton ->%list_elem_of_singleton. done. }
    destruct run as [|x r].
    + cbn [bar_of_run] in E. match type of E with context [ingest_all l ?a] => destruct (ingest_all_ok l (ca_bars a)) as (em & b' & E') end.
      cbn [ca_bars] in E'. rewrite E' in E. injection E as <- <-. by apply Hfresh in E'.
    + destruct (bar_of_run (x :: r)) as [b|] eqn:Hb; [|done].
      rewrite (bar_of_run_start _ _ _ Hb) in E.
      destruct (Z.eqb_spec (window iv t) (window iv x)) as [Hw|Hw].
      * match type of E with context [ingest_all l ?a] => destruct (ingest_all_ok l (ca_bars a)) as (em & b' & E') end.
        cbn [ca_bars] in E'. rewrite E' in E. injection E as <- <-.
        apply (IH _ (x :: r ++ [t])) in E'.
        -- rewrite app_comm_cons, <- app_assoc in E'. exact E'.
        -- by apply run_extended.
        -- by rewrite dget_dset_eq, (bar_of_run_snoc _ _ _ b).
      * match type of E with context [ingest_all l ?a] => destruct (ingest_all_ok l (ca_bars a)) as (em & b' & E') end.
        cbn [ca_bars] in E'. rewrite E' in E. injection E as <- <-.
        apply Hfresh in E' as [E1 E2]. cbn [option_list option_rect app]. rewrite filter_cons_True by done.
        destruct (runs_next x r t (filter (tick_of_book (RawTick.symbol t) (RawTick.exchange t)) l)) as [R1 R2];
          [intros; apply Hrun; set_solver|done|]. cbv zeta in R1, R2 |- *.
        cbn [app] in R1, R2 |- *. rewrite R1, R2, E2. split; [|done].
        cbn [omap list_omap]. unfold candle_of_run at 1. rewrite Hb. cbn. by rewrite E1.
  - rewrite filter_cons_False by done.
    destruct (ingest_other_book s e t bars) as (c & b1 & E1 & H1 & H2); [done..|]. rewrite E1 in E.
    destruct (ingest_all_ok l b1) as (em & b' & E'). rewrite E' in E. injection E as <- <-.
    rewrite filter_option_candle by done. apply (IH _ run) in E'; [done|done|by rewrite H1].
Qed.

(** C26. The candles of a stream of ticks are, book by book and in order, the
    bars of the maximal runs of consecutive ticks that fall in one window,
    the last run being the bar left open; books never mix. *)
Theorem candles_are_runs ticks :
  Forall (fun t => no_colon (RawTick.exchange t)) ticks ->
  exists emitted bars,
    ingest_all ticks (new_aggregator iv) = (Ok emitted, {| ca_interval := iv; ca_bars := bars |})
    /\ forall symbol exchange, no_colon exchange ->
         let rs := runs (window iv) (filter (tick_of_book symbol exchange) ticks) in
         filter (candle_of_book symbol exchange) emitted
           = omap (candle_of_run symbol exchange) (removelast rs)
         /\ dget (book_key symbol exchange) bars = last rs ≫= bar_of_run.
Proof.
  intros Ht. destruct (ingest_all_ok ticks []) as (em & bars & E). exists em, bars.
  split; [exact E|]. intros s e He.
  refine (ingest_all_book s e ticks He Ht [] [] _ eq_refl em bars E).
  by intros ? ? ?%elem_of_nil.
Qed.
End Candles.

(** [ingest] succeeds for any interval but zero, and opens a bar for the
    tick's book. *)
Lemma ingest_total `{NumPyMinMax} t a : ca_interval a * 1000 <> 0 ->
  exists c a', ingest t a = (Ok c, a') /\ ca_interval a' = ca_interval a
  /\ forall k, is_Some (dget k (ca_bars a')) <-> is_Some (dget k (ca_bars a)) \/ k = tick_key t.
Proof.
  destruct a as [iv bars]. intros Hiv. rewrite (ingest_step iv Hiv). cbv zeta.
  assert (Hk : forall b k, is_Some (dget k (dset (tick_key t) b bars)) <-> is_Some (dget k bars) \/ k = tick_key t).
  { intros b k. rewrite dget_dset. case_decide as E; [subst k|].
    - split; [by right|by eexists].
    - split; [by left|]. by intros [?|?]. }
  destruct (dget (tick_key t) bars) as [b|]; [destruct (_ =? _)|];
    eexists _, _; (split; [reflexivity|split; [reflexivity|apply Hk]]).
Qed.

(** Every key is the key of a book. *)
Definition book_keys {V} (d : dict string V) : Prop :=
  Forall (fun kv => exists s e, kv.1 = book_key s e /\ no_colon e) d.

(** A well-formed bar: aligned, not empty, with no negative volume. *)
Definition bar_ok (iv : Z) (b : BarState.t) : Prop :=
  BarState.interval_start_ms b mod (iv * 1000) = 0 /\ 1 <= BarState.tick_count b /\ 0 <= BarState.volume b.

Definition candle_ok (symbol : string) (iv : Z) (c : OHLCVCandle.t) : Prop :=
  OHLCVCandle.symbol c = symbol /\ OHLCVCandle.interval_seconds c = iv
  /\ OHLCVCandle.timestamp_ms c mod (iv * 1000) = 0
  /\ 1 <= OHLCVCandle.tick_count c /\ 0 <= OHLCVCandle.volume c.

Lemma candle_of_ok s e iv b : bar_ok iv b -> candle_ok s iv (candle_of s e iv b).
Proof. by intros (? & ? & ?). Qed.

(** A well-formed aggregator: a non-zero interval and one well-formed bar per
    book. *)
Definition aggregator_wf (a : CandleAggregator) : Prop :=
  ca_interval a * 1000 <> 0 /\ book_keys (ca_bars a) /\ NoDup (dkeys (ca_bars a))
  /\ Forall (fun kv => bar_ok (ca_interval a) kv.2) (ca_bars a).

Lemma new_aggregator_wf iv : iv * 1000 <> 0 -> aggregator_wf (new_aggregator iv).
Proof. intros. split_and!; [done|constructor..]. Qed.

Lemma ingest_wf `{NumPyMinMax} t a c a' :
  no_colon (RawTick.exchange t) -> 0 <= RawTick.volume t -> aggregator_wf a -> ingest t a = (Ok c, a') ->
  aggregator_wf a' /\ forall c', c = Some c' -> candle_ok (RawTick.symbol t) (ca_interval a) c'.
Proof.
  destruct a as [iv bars]. intros Ht Hv (Hiv & Hb & Hn & Hok). cbn in *. rewrite (ingest_step iv Hiv). cbv zeta.
  assert (Hput : forall b, bar_ok iv b ->
    aggregator_wf {| ca_interval := iv; ca_bars := dset (tick_key t) b bars |}).
  { intros b Hbar. split_and!; [done| |by apply dset_NoDup|].
    - apply dset_Forall; [done|]. intros k <-. by exists (RawTick.symbol t), (RawTick.exchange t).
    - by apply dset_Forall. }
  assert (Hfresh : bar_ok iv (fresh_bar (window iv t) t)).
  { split_and!; [apply Z.mod_mul; done|done|done]. }
  destruct (dget (tick_key t) bars) as [b|] eqn:G; [destruct (_ =? _)|]; intros [= <- <-].
  - assert (Hbar : bar_ok iv b) by (apply dget_elem in G; rewrite Forall_forall in Hok; exact (Hok _ G)).
    split; [|done]. apply Hput. destruct Hbar as (? & ? & ?). split_and!; cbn; [done|lia|lia].
  - assert (Hbar : bar_ok iv b) by (apply dget_elem in G; rewrite Forall_forall in Hok; exact (Hok _ G)).
    split; [by apply Hput|]. intros c' [= <-]. by apply candle_of_ok.
  - split; [by apply Hput|done].
Qed.

(** The NumPy functions on finite operands, with NaN propagated. *)
Definition numpy_min_max : NumPyMinMax := {|
  np_maximum a b := if is_nan a then a else if is_nan b then b else pymax a b;
  np_minimum a b := if is_nan a then a else if is_nan b then b else pymin a b;
|}.

Definition sample_ticks : list RawTick.t :=
  [RawTick.mk "INFY" "NSE" (dec 100 0) 5 60000; RawTick.mk "TCS" "NSE" (dec 30 0) 1 61000;
   RawTick.mk "INFY" "NSE" (dec 102 0) 7 90000; RawTick.mk "INFY" "NSE" (dec 99 0) 1 121000].

Lemma candles_are_runs_witness :
  exists emitted bars,
    ingest_all (H := numpy_min_max) sample_ticks (new_aggregator 60)
      = (Ok emitted, {| ca_interval := 60; ca_bars := bars |})
    /\ emitted = [OHLCVCandle.mk "INFY" "NSE" 60 (dec 100 0) (dec 102 0) (dec 100 0) (dec 102 0) 12 60000 2].
Proof.
  destruct (candles_are_runs (H := numpy_min_max) 60 ltac:(done) sample_ticks ltac:(repeat constructor))
    as (em & bars & E & _).
  exists em, bars. split; [exact E|]. vm_compute in E. by injection E as <- <-.
Defined.

(** A late tick splits a window over two candles with the same start. *)
Example late_tick_splits_a_bar :
  exists c1 c2 bars,
  ingest_all (H := numpy_min_max)
    [RawTick.mk "INFY" "NSE" (dec 100 0) 5 119900; RawTick.mk "INFY" "NSE" (dec 101 0) 5 120000;
     RawTick.mk "INFY" "NSE" (dec 102 0) 5 119950; RawTick.mk "INFY" "NSE" (dec 103 0) 5 120100]
    (new_aggregator 60)
  = (Ok [c1; c2; OHLCVCandle.mk "INFY" "NSE" 60 (dec 102 0) (dec 102 0) (dec 102 0) (dec 102 0) 5 60000 1], bars)
  /\ OHLCVCandle.timestamp_ms c1 = 60000 /\ OHLCVCandle.timestamp_ms c2 = 120000.
Proof. vm_compute. by eexists _, _, _. Qed.

(** [flush] closes every open bar, under its book's key. *)
Lemma split_book_key s e : no_colon e -> str_split1 ":" (book_key s e) = Some (e, s).
Proof. intros He. exact (str_split1_app ":" e s He). Qed.

Lemma flush_bars_spec iv bars acc :
  book_keys bars -> NoDup (dkeys bars) -> NoDup (dkeys acc) ->
  exists cs, flush_bars iv bars acc = Ok cs /\ NoDup (dkeys cs)
  /\ forall s e, no_colon e ->
       dget (book_key s e) cs =
       match dget (book_key s e) bars with
       | Some b => Some (candle_of s e iv b)
       | None => dget (book_key s e) acc
       end.
Proof.
  intros Hb. revert acc. induction Hb as [|[k b] bars (s & e & Hk & He) Hb IH]; intros acc Hn Ha; [by eexists|].
  cbn in Hk. subst k. apply NoDup_cons in Hn as [Hn Hnd]. cbn [flush_bars]. rewrite split_book_key by done.
  destruct (IH (dset (book_key s e) (candle_of s e iv b) acc) Hnd) as (cs & -> & Hc & Hcs);
    [by apply dset_NoDup|].
  exists cs. split; [done|]. split; [done|]. intros s' e' He'. rewrite (Hcs s' e' He'). cbn [dget].
  destruct (decide (book_key s' e' = book_key s e)) as [E|E].
  - assert (dget (book_key s' e') bars = None) as -> by (rewrite E; by apply dget_None).
    apply book_key_inj in E as [-> ->]; [|done..]. by rewrite dget_dset_eq.
  - by rewrite dget_dset_ne.
Qed.

Lemma flush_spec iv bars :
  book_keys bars -> NoDup (dkeys bars) ->
  exists cs, flush {| ca_interval := iv; ca_bars := bars |} = (Ok cs, new_aggregator iv) /\ NoDup (dkeys cs)
  /\ forall s e, no_colon e ->
       dget (book_key s e) cs = candle_of s e iv <$> dget (book_key s e) bars.
Proof.
  intros Hb Hn. destruct (flush_bars_spec iv bars [] Hb Hn) as (cs & E & Hc & Hcs); [constructor|].
  exists cs. split_and!; [|done|].
  - unfold flush. M_unfold. by rewrite E.
  - intros s e He. rewrite Hcs by done. by destruct (dget _ bars).
Qed.

(** ** The buffer *)

Lemma tick_round_trip t : json_to_tick (tick_to_json t) = Ok t.
Proof. by destruct t. Qed.

Lemma decode_tick acc t : decode_into acc (tick_to_json t) = Ok (acc ++ [t]).
Proof. unfold decode_into. by rewrite tick_round_trip. Qed.

Lemma decode_all acc ts : for_each decode_into acc (tick_to_json <$> ts) = Ok (acc ++ ts).
Proof.
  revert acc. induction ts as [|t ts IH]; intros acc.
  - by rewrite app_nil_r.
  - rewrite fmap_cons. cbn [for_each]. by rewrite decode_tick, bind_ok, IH, <- app_assoc.
Qed.

Section BufferTheory.
Context {R : Type} `{RL : RedisListLaws R}.

(** What the buffer holds, in the order it is drained. *)
Definition tb_contents (self : TickBuffer R) : list json :=
  tb_memory self ++
  match tb_redis self with Some r => redis_list r TICK_BUFFER_REDIS_KEY | None => [] end.

Definition tb_up (self : TickBuffer R) : Prop :=
  match tb_redis self with Some r => redis_list_up r | None => True end.

(** Whatever the server does, a pushed tick is held at least once and nothing
    is dropped; it is held twice when the server stored it and then raised. *)
Lemma push_never_loses t (self : TickBuffer R) :
  exists copies, (copies = [tick_to_json t] \/ copies = [tick_to_json t; tick_to_json t]) /\
  tb_contents (push t self) ≡ₚ copies ++ tb_contents self.
Proof.
  unfold push, tb_contents. destruct (tb_redis self) as [r|]; cbn [tb_redis tb_memory tb_with].
  - destruct (redis_rpush _ _ r) as [v r'] eqn:E. pose proof E as E'.
    apply redis_rpush_spec in E as [E|[E Hv]]; destruct v; try done; cbn [tb_redis tb_memory tb_with]; rewrite E.
    + eexists; split; [by left|]. rewrite app_assoc. by rewrite (Permutation_app_comm _ [_]).
    + eexists; split; [by right|]. rewrite <- app_assoc, (app_assoc (tb_memory self)). 
      rewrite (Permutation_app_comm _ [_]). rewrite <- app_assoc. solve_Permutation.
    + eexists; split; [by left|]. rewrite <- app_assoc. solve_Permutation.
  - eexists; split; [by left|]. rewrite !app_nil_r. by rewrite (Permutation_app_comm _ [_]).
Qed.

Lemma decode_while_all acc ts : decode_while acc (tick_to_json <$> ts) = acc ++ ts.
Proof.
  revert acc. induction ts as [|t ts IH]; intros acc; [by rewrite app_nil_r|].
  rewrite fmap_cons. cbn [decode_while]. by rewrite decode_tick, IH, <- app_assoc.
Qed.

Lemma lrange_prefix n l : 0 < n -> lrange_slice 0 (n - 1) l = take (Z.to_nat n) l.
Proof.
  intros Hn. unfold lrange_slice. destruct (Z.ltb_spec 0 0); [lia|].
  destruct (Z.ltb_spec (n - 1) 0); [lia|]. f_equal. lia.
Qed.

Lemma lrange_suffix n (l : list json) : lrange_slice (Z.of_nat n) (-1) l = drop n l.
Proof.
  unfold lrange_slice. destruct (Z.ltb_spec (Z.of_nat n) 0); [lia|]. cbn [Z.ltb Z.compare].
  rewrite Z.max_r by lia. rewrite Nat2Z.id. apply take_ge. rewrite length_drop. lia.
Qed.

Lemma drain_redis_up r tr acc n : 0 < n -> redis_list_up r ->
  redis_list r TICK_BUFFER_REDIS_KEY = tick_to_json <$> tr ->
  exists r', drain_redis n acc r = (acc ++ take (Z.to_nat n) tr, r')
  /\ redis_list r' TICK_BUFFER_REDIS_KEY = tick_to_json <$> drop (Z.to_nat n) tr /\ redis_list_up r'.
Proof.
  intros Hn Hup Hl. unfold drain_redis.
  destruct (redis_lrange_up TICK_BUFFER_REDIS_KEY 0 (n - 1) r Hup) as (r1 & -> & Hup1 & Hl1).
  rewrite Hl, lrange_prefix, <- fmap_take by done. rewrite Hl in Hl1.
  destruct (tick_to_json <$> take (Z.to_nat n) tr) as [|x xs] eqn:E.
  - apply fmap_nil_inv in E. exists r1. rewrite E. split_and!; [by rewrite app_nil_r| |done].
    rewrite Hl1, <- (take_drop (Z.to_nat n) tr) at 1. by rewrite E.
  - rewrite <- E, length_fmap.
    destruct (redis_ltrim_up TICK_BUFFER_REDIS_KEY (Z.of_nat (length (take (Z.to_nat n) tr))) (-1) r1 Hup1)
      as (r2 & -> & Hup2 & Hl2).
    exists r2. rewrite decode_while_all. split_and!; [done| |done].
    rewrite Hl2, lrange_suffix, Hl1, fmap_drop. rewrite length_take.
    destruct (decide (Z.to_nat n <= length tr)%nat); [by rewrite Nat.min_l|].
    rewrite Nat.min_r by lia. rewrite !drop_ge; [done|rewrite length_fmap; lia..].
Qed.

Lemma py_split_nonneg {A} k (l : list A) : 0 <= k -> py_split k l = (take (Z.to_nat k) l, drop (Z.to_nat k) l).
Proof. intros Hk. unfold py_split. by destruct (Z.ltb_spec k 0); [lia|]. Qed.

Definition redis_ticks (self : TickBuffer R) : list json :=
  match tb_redis self with Some r => redis_list r TICK_BUFFER_REDIS_KEY | None => [] end.

Lemma drain_some n now (self : TickBuffer R) tm tr : 0 <= n -> tb_up self ->
  tb_memory self = tick_to_json <$> tm -> redis_ticks self = tick_to_json <$> tr ->
  exists self', drain (Some n) now self = (Ok (take (Z.to_nat n) (tm ++ tr)), self')
  /\ tb_contents self' = tick_to_json <$> drop (Z.to_nat n) (tm ++ tr) /\ tb_up self'.
Proof.
  intros Hn Hup Hm Hr. unfold drain. rewrite Hm, length_fmap, py_split_nonneg by lia.
  set (k := Z.to_nat (Z.min n (Z.of_nat (length tm)))).
  assert (Hk : take k tm = take (Z.to_nat n) tm /\ drop k tm = drop (Z.to_nat n) tm).
  { subst k. destruct (decide (n <= Z.of_nat (length tm))).
    - rewrite Z.min_l by lia. done.
    - rewrite Z.min_r, Nat2Z.id by lia. rewrite !take_ge, !drop_ge by lia. done. }
  rewrite <- fmap_take, <- fmap_drop. destruct Hk as [-> ->].
  rewrite decode_all, app_nil_l. rewrite length_take.
  rewrite take_app, drop_app, fmap_app. unfold tb_contents, tb_up, redis_ticks in *.
  cbn [tb_redis tb_with tb_memory]. destruct (tb_redis self) as [r|].
  - destruct (Z.ltb_spec 0 (n - Z.of_nat (Z.to_nat n `min` length tm))) as [Hlt|Hge].
    + destruct (drain_redis_up r tr (take (Z.to_nat n) tm)
        (n - Z.of_nat (Z.to_nat n `min` length tm)) Hlt Hup Hr) as (r' & -> & Hl & Hup').
      refine (ex_intro _ _ (conj (f_equal2 pair (f_equal Ok _) eq_refl) (conj _ Hup'))).
      * do 2 f_equal. lia.
      * cbn. rewrite Hl. do 3 f_equal. lia.
    + assert (Z.to_nat n - length tm = 0)%nat as -> by lia.
      eexists. split; [by rewrite take_0, app_nil_r|]. split; [|done]. cbn. by rewrite Hr, drop_0.
  - destruct tr; [|done]. rewrite take_nil, drop_nil, app_nil_r. eexists. split; [done|]. split; [|done]. done.
Qed.

Lemma pending_count_up (self : TickBuffer R) : tb_up self ->
  exists self', pending_count self = (Z.of_nat (length (tb_contents self)), self')
  /\ tb_up self' /\ tb_memory self' = tb_memory self /\ redis_ticks self' = redis_ticks self.
Proof.
  intros Hup. unfold pending_count, tb_contents, tb_up, redis_ticks in *.
  rewrite length_app, Nat2Z.inj_add.
  destruct (tb_redis self) as [r|] eqn:E.
  - destruct (redis_llen_up TICK_BUFFER_REDIS_KEY r Hup) as (r' & -> & Hup' & Hl).
    eexists. split_and!; [f_equal; lia|done..].
  - exists self. rewrite E. split_and!; [f_equal; cbn; lia|done..].
Qed.

(** While the server answers, a drain returns the oldest waiting ticks in
    the order memory first, then Redis, at most [n] of them or all of them,
    and leaves exactly the rest: nothing is lost, reordered or delivered
    twice. *)
Theorem buffer_drains_in_order n now (self : TickBuffer R) ts :
  tb_up self -> tb_contents self = tick_to_json <$> ts ->
  match n with Some k => 0 <= k | None => True end ->
  let k := match n with Some k => Z.to_nat k | None => length ts end in
  exists self', drain n now self = (Ok (take k ts), self')
  /\ tb_contents self' = tick_to_json <$> drop k ts /\ tb_up self'.
Proof.
  intros Hup Hc Hn. pose proof Hc as Hc'. symmetry in Hc'. unfold tb_contents in Hc'.
  apply fmap_app_inv in Hc' as (tm & tr & Hm & Hr & ->). destruct n as [n|]; cbv zeta.
  - by apply drain_some.
  - destruct (pending_count_up self Hup) as (self1 & E & Hup1 & Hm1 & Hr1).
    rewrite Hc, length_fmap in E.
    destruct (drain_some (Z.of_nat (length (tm ++ tr))) now self1 tm tr) as (self2 & E2 & H2);
      [lia|done|congruence|unfold redis_ticks in *; congruence|].
    exists self2. rewrite Nat2Z.id in *. split; [|done]. rewrite <- E2. unfold drain. by rewrite E.
Qed.

End BufferTheory.

Definition sample_buffer : TickBuffer MemRedis :=
  {| tb_redis := Some (mem_set_list TICK_BUFFER_REDIS_KEY (tick_to_json <$> drop 1 sample_ticks) mem_empty);
     tb_flush_count := 1000; tb_flush_interval := 5; tb_memory := tick_to_json <$> take 1 sample_ticks;
     tb_last_flush_ts := f_zero |}.

Lemma buffer_drains_in_order_witness :
  exists self', drain (Some 2) f_zero sample_buffer = (Ok (take 2 sample_ticks), self')
  /\ tb_contents self' = tick_to_json <$> drop 2 sample_ticks /\ tb_up self'.
Proof. exact (buffer_drains_in_order (Some 2) f_zero sample_buffer sample_ticks eq_refl eq_refl ltac:(done)). Defined.
