(* ===== verification/Auth.v ===== *)
(** * Broker authentication ([shared/auth])

    [models.py], [token_store.py], [kite_auth.py], [ibkr_auth.py] and
    [scheduler.py].  HTTP sessions, the TOTP generator, [kiteconnect] and
    [ibapi] are third-party code and enter as type classes or parameters; a
    package that may be missing is an [option].  A slot of the connection
    pool is named by its position in the pool, which is how the shared object
    is referred to.  Fields of the stored and received documents have the
    types the code annotates; a value of another type raises [TypeError]. *)

From S2P Require Import Prelude PyFloat PyDict Json PyText Redis Constants.
Local Open Scope Z_scope.

(** ** Models ([models.py]) *)

Inductive AuthMode : Type := PAPER | LIVE.

#[export] Instance AuthMode_eq_dec : EqDecision AuthMode.
Proof. solve_decision. Defined.

Definition AuthMode_value (m : AuthMode) : string := match m with PAPER => "PAPER" | LIVE => "LIVE" end.

(** [AuthMode(value)] *)
Definition AuthMode_of (s : string) : result AuthMode :=
  if String.eqb s "PAPER" then mret PAPER
  else if String.eqb s "LIVE" then mret LIVE
  else Raise (ValueError "not a valid AuthMode").

Module TokenRecord.
Record t := mk {
  broker : string;
  access_token : string;
  issued_at_ms : Z;
  expires_at_ms : Z;
  user_id : string;
  mode : AuthMode;
}.
End TokenRecord.

Definition is_valid (self : TokenRecord.t) (now_ms : Z) : bool := now_ms <? TokenRecord.expires_at_ms self.

(** ** Token store ([token_store.py]) *)

Section TokenStore.
Context {K : Type} `{RedisKV K}.

Record TokenStore := {
  ts_redis : option K;
  ts_memory : dict string string;
}.

Definition token_key (broker : string) : string :=
  if String.eqb broker "kite" then KITE_TOKEN_REDIS_KEY else "auth:" +:+ broker +:+ ":access_token".

Definition token_to_json (record : TokenRecord.t) : json :=
  JObj [("broker", JStr (TokenRecord.broker record));
        ("access_token", JStr (TokenRecord.access_token record));
        ("issued_at_ms", JInt (TokenRecord.issued_at_ms record));
        ("expires_at_ms", JInt (TokenRecord.expires_at_ms record));
        ("user_id", JStr (TokenRecord.user_id record));
        ("mode", JStr (AuthMode_value (TokenRecord.mode record)))].

Definition json_to_token (data : json) : result TokenRecord.t :=
  broker ← jfield_str "broker" data;
  access_token ← jfield_str "access_token" data;
  issued_at_ms ← jfield_int "issued_at_ms" data;
  expires_at_ms ← jfield_int "expires_at_ms" data;
  user_id ← jfield_str "user_id" data;
  mode ← jfield_str "mode" data ≫= AuthMode_of;
  mret (TokenRecord.mk broker access_token issued_at_ms expires_at_ms user_id mode).

Definition read_token (raw : string) : result TokenRecord.t := json_loads raw ≫= json_to_token.

Definition save (record : TokenRecord.t) (ttl_seconds : Z) : M TokenStore unit := fun self =>
  let key := token_key (TokenRecord.broker record) in
  let payload := json_dumps (token_to_json record) in
  match ts_redis self with
  | Some r =>
      let '(v, r) := redis_set key payload (Some ttl_seconds) r in
      (v, {| ts_redis := Some r; ts_memory := ts_memory self |})
  | None => (Ok tt, {| ts_redis := None; ts_memory := dset key payload (ts_memory self) |})
  end.

Definition token_get (broker : string) : M TokenStore (option string) := fun self =>
  let key := token_key broker in
  match ts_redis self with
  | Some r =>
      let '(v, r) := redis_get key r in (v, {| ts_redis := Some r; ts_memory := ts_memory self |})
  | None => (Ok (dget key (ts_memory self)), self)
  end.

Definition token_delete (broker : string) : M TokenStore unit := fun self =>
  let key := token_key broker in
  match ts_redis self with
  | Some r =>
      let '(v, r) := redis_delete key r in (v, {| ts_redis := Some r; ts_memory := ts_memory self |})
  | None => (Ok tt, {| ts_redis := None; ts_memory := ddel key (ts_memory self) |})
  end.

(** [load]: the clock is read when a token is present. *)
Definition load (now_ms : Z) (broker : string) : M TokenStore (option TokenRecord.t) :=
  raw ← token_get broker;
  match raw with
  | None => mret None
  | Some raw =>
      record ← M_lift (read_token raw);
      if negb (is_valid record now_ms) then
        _ ← token_delete broker;
        mret None
      else mret (Some record)
  end.

End TokenStore.
#[global] Arguments TokenStore K : clear implicits.

(** ** Kite login ([kite_auth.py]) *)

(** [session.post(url, data=..)] followed by [raise_for_status] and [json]. *)
Class HttpSession (H : Type) := {
  http_post_json : string -> list (string * string) -> H -> result json * H;
}.

(** The packages and values of the process environment. *)
Class KiteEnv := {
  (** [pyotp.TOTP(secret).now()] *)
  totp_now : string -> string;
  (** [KiteConnect(api_key).generate_session(request_token, api_secret)], when
      [kiteconnect] is installed *)
  generate_session : option (string -> string -> string -> result json);
}.

Section KiteAuth.
Context {K H : Type} `{RedisKV K} `{HttpSession H} `{KiteEnv}.

Record KiteAuthManager := {
  ka_user_id : string;
  ka_password : string;
  ka_totp_secret : string;
  ka_api_key : string;
  ka_api_secret : string;
  ka_store : TokenStore K;
  ka_mode : AuthMode;
  ka_http : H;
  ka_clock : Readings Z;
}.

Definition ka_with (store : TokenStore K) (http : H) (clock : Readings Z) (self : KiteAuthManager)
    : KiteAuthManager :=
  {| ka_user_id := ka_user_id self; ka_password := ka_password self;
     ka_totp_secret := ka_totp_secret self; ka_api_key := ka_api_key self;
     ka_api_secret := ka_api_secret self; ka_store := store; ka_mode := ka_mode self;
     ka_http := http; ka_clock := clock |}.

Definition on_store {A} (m : M (TokenStore K) A) : M KiteAuthManager A :=
  M_zoom ka_store (fun st s => ka_with st (ka_http s) (ka_clock s) s) m.
Definition on_http {A} (m : M H A) : M KiteAuthManager A :=
  M_zoom ka_http (fun h s => ka_with (ka_store s) h (ka_clock s) s) m.

(** [int(time.time() * 1000)] *)
Definition ka_time_ms : M KiteAuthManager Z :=
  M_zoom ka_clock (fun c s => ka_with (ka_store s) (ka_http s) c s) next_reading.

Definition issue (access_token user_id : string) (mode : AuthMode) : M KiteAuthManager TokenRecord.t :=
  now_ms ← ka_time_ms;
  let record := TokenRecord.mk "kite" access_token now_ms (now_ms + KITE_SESSION_TTL_SECONDS * 1000)
                  user_id mode in
  _ ← on_store (save record KITE_SESSION_TTL_SECONDS);
  mret record.

Definition paper_token : M KiteAuthManager TokenRecord.t :=
  self ← M_get;
  issue "PAPER_TOKEN_SIMULATED" (if is_empty (ka_user_id self) then "PAPER_USER" else ka_user_id self) PAPER.

Definition exchange_token (self : KiteAuthManager) (request_token : string) : result string :=
  match generate_session with
  | Some f => f (ka_api_key self) request_token (ka_api_secret self) ≫= jfield_str "access_token"
  | None => mret request_token
  end.

(** [document["data"][field]] *)
Definition data_field (field : string) (document : json) : result string :=
  jfield "data" document ≫= jfield_str field.

(** The body of the [try] of [_live_login]. *)
Definition login_flow : M KiteAuthManager string :=
  self ← M_get;
  login_data ← on_http (http_post_json KITE_LOGIN_URL
    [("user_id", ka_user_id self); ("password", ka_password self)]);
  request_id ← M_lift (data_field "request_id" login_data);
  twofa_data ← on_http (http_post_json KITE_TWOFA_URL
    [("user_id", ka_user_id self); ("request_id", request_id);
     ("twofa_value", totp_now (ka_totp_secret self)); ("twofa_type", "totp")]);
  request_token ← M_lift (data_field "request_token" twofa_data);
  M_lift (exchange_token self request_token).

Definition live_login : M KiteAuthManager TokenRecord.t :=
  access_token ← M_try login_flow (fun e =>
    match e with
    | RequestException _ | KeyError _ | ValueError _ => M_raise (AuthError "Kite login failed")
    | _ => M_raise e
    end);
  self ← M_get;
  issue access_token (ka_user_id self) LIVE.

Definition login : M KiteAuthManager TokenRecord.t :=
  self ← M_get;
  if decide (ka_mode self = PAPER) then paper_token else live_login.

(** [self._store.load("kite")], reading the clock first, whether or not it
    is used. *)
Definition load_token : M KiteAuthManager (option TokenRecord.t) :=
  now_ms ← ka_time_ms;
  on_store (load now_ms "kite").

Definition get_token : M KiteAuthManager TokenRecord.t :=
  record ← load_token;
  match record with
  | Some record => mret record
  | None => login
  end.

Definition invalidate : M KiteAuthManager unit := on_store (token_delete "kite").

End KiteAuth.
#[global] Arguments KiteAuthManager K H : clear implicits.

(** ** IBKR connection pool ([ibkr_auth.py]) *)

(** [ibapi.EClient]; the type lists what the pool calls. *)
Class EClient (E : Type) := {
  (** the state of a fresh client, and [connect(host, port, client_id)] *)
  ec_connect : string -> Z -> Z -> result E;
  ec_isConnected : E -> bool;
  ec_run : E -> result E;
  ec_reqCurrentTime : E -> result unit * E;
  ec_disconnect : E -> result unit * E;
}.

Section Pool.
Context {E : Type} `{EClient E}.

Record IBKRClientSlot := {
  client_id : Z;
  host : string;
  port : Z;
  in_use : bool;
  connection : option E;
}.

Definition slot_use (b : bool) (s : IBKRClientSlot) : IBKRClientSlot :=
  {| client_id := client_id s; host := host s; port := port s; in_use := b; connection := connection s |}.
Definition slot_connection (c : option E) (s : IBKRClientSlot) : IBKRClientSlot :=
  {| client_id := client_id s; host := host s; port := port s; in_use := in_use s; connection := c |}.

Record IBKRConnectionPool := {
  pool_host : string;
  pool_port : Z;
  pool_mode : AuthMode;
  pool_slots : list IBKRClientSlot;
  (** whether [ibapi] can be imported *)
  pool_ibapi : bool;
  pool_heartbeat_stop : bool;
}.

Definition pool_with (slots : list IBKRClientSlot) (self : IBKRConnectionPool) : IBKRConnectionPool :=
  {| pool_host := pool_host self; pool_port := pool_port self; pool_mode := pool_mode self;
     pool_slots := slots; pool_ibapi := pool_ibapi self; pool_heartbeat_stop := pool_heartbeat_stop self |}.

Definition new_pool (host : string) (mode : AuthMode) (pool_size start_client_id : Z) (ibapi : bool)
    : result IBKRConnectionPool :=
  if IBKR_CLIENT_ID_POOL_MAX <? pool_size then
    Raise (ValueError ("pool_size=" +:+ pretty pool_size +:+ " exceeds IBKR_CLIENT_ID_POOL_MAX=" +:+
                       pretty IBKR_CLIENT_ID_POOL_MAX))
  else
    let port := if decide (mode = PAPER) then IBKR_PAPER_PORT else IBKR_LIVE_PORT in
    mret {| pool_host := host; pool_port := port; pool_mode := mode;
            pool_slots := (fun i => {| client_id := start_client_id + i; host := host; port := port;
                                       in_use := false; connection := None |}) <$> seqZ 0 pool_size;
            pool_ibapi := ibapi; pool_heartbeat_stop := false |}.

(** The position of the first free slot. *)
Fixpoint first_free (slots : list IBKRClientSlot) : option nat :=
  match slots with
  | [] => None
  | s :: slots => if negb (in_use s) then Some O else S <$> first_free slots
  end.

Definition acquire : M IBKRConnectionPool nat := fun self =>
  match first_free (pool_slots self) with
  | Some i => (Ok i, pool_with (alter (slot_use true) i (pool_slots self)) self)
  | None =>
      (Raise (AuthError ("IBKR connection pool exhausted (all " +:+
                         pretty (Z.of_nat (length (pool_slots self))) +:+ " slots in use)")), self)
  end.

Definition release (slot : nat) : M IBKRConnectionPool unit :=
  M_modify (fun self => pool_with (alter (slot_use false) slot (pool_slots self)) self).

(** [while not client.isConnected() and time.time() < deadline: client.run()]:
    the argument lists the clock readings that are still before the deadline,
    one per iteration. *)
Fixpoint run_until_connected (ticks : list unit) (client : E) : result E :=
  match ticks with
  | [] => mret client
  | _ :: ticks =>
      if ec_isConnected client then mret client
      else client ← ec_run client; run_until_connected ticks client
  end.

(** [connect(slot)]: [ticks] has one element per reading before the deadline. *)
Definition connect (ticks : list unit) (slot : nat) : M IBKRConnectionPool bool := fun self =>
  match pool_slots self !! slot with
  | None => (Raise IndexError, self)
  | Some s =>
      if negb (pool_ibapi self) then (Ok false, self)
      else
        match ec_connect (host s) (port s) (client_id s) ≫= run_until_connected ticks with
        | Raise e => (Raise e, self)
        | Ok client =>
            if negb (ec_isConnected client) then (Ok false, self)
            else (Ok true, pool_with (alter (slot_connection (Some client)) slot (pool_slots self)) self)
        end
  end.

(** One round of [_heartbeat_loop]; exceptions of a client are swallowed. *)
Definition heartbeat (self : IBKRConnectionPool) : IBKRConnectionPool :=
  pool_with ((fun s => match connection s with
                       | Some c => slot_connection (Some (ec_reqCurrentTime c).2) s
                       | None => s
                       end) <$> pool_slots self) self.

Definition shutdown (self : IBKRConnectionPool) : IBKRConnectionPool :=
  {| pool_host := pool_host self; pool_port := pool_port self; pool_mode := pool_mode self;
     pool_slots := (fun s => slot_use false (slot_connection None s)) <$> pool_slots self;
     pool_ibapi := pool_ibapi self; pool_heartbeat_stop := true |}.

Definition available_count (self : IBKRConnectionPool) : Z :=
  Z.of_nat (length (filter (fun s => in_use s = false) (pool_slots self))).

Definition pool_size (self : IBKRConnectionPool) : Z := Z.of_nat (length (pool_slots self)).

End Pool.
#[global] Arguments IBKRClientSlot E : clear implicits.
#[global] Arguments IBKRConnectionPool E : clear implicits.

(** ** The daily refresh ([scheduler.py])

    Local times of the refresh zone, which has no daylight saving, are
    microseconds since midnight of some day zero. *)

Definition US_PER_DAY : Z := 86400000000.

(** [target - now]: the time to the next [hour:minute]. *)
Definition us_until (hour minute now : Z) : result Z :=
  if negb ((0 <=? hour) && (hour <=? 23)) || negb ((0 <=? minute) && (minute <=? 59)) then
    Raise (ValueError "hour must be in 0..23")
  else
    let target := now / US_PER_DAY * US_PER_DAY + (hour * 3600 + minute * 60) * 1000000 in
    let target := if target <=? now then target + US_PER_DAY else target in
    mret (target - now).

(** [.total_seconds()]: at most a day, so the division cannot overflow. *)
Definition seconds_until (hour minute now : Z) : result float :=
  us ← us_until hour minute now;
  mret (fZ_sign us 1000000).

Record DailyRefreshScheduler := {
  rs_hour : Z;
  rs_minute : Z;
  (** the delay of the pending timer *)
  rs_timer : option float;
  rs_running : bool;
}.

Definition rs_with (timer : option float) (running : bool) (self : DailyRefreshScheduler)
    : DailyRefreshScheduler :=
  {| rs_hour := rs_hour self; rs_minute := rs_minute self; rs_timer := timer; rs_running := running |}.

Definition schedule_next (now : Z) : M DailyRefreshScheduler unit :=
  self ← M_get;
  if negb (rs_running self) then mret tt
  else
    delay ← M_lift (seconds_until (rs_hour self) (rs_minute self) now);
    M_put (rs_with (Some delay) (rs_running self) self).

Definition scheduler_start (now : Z) : M DailyRefreshScheduler unit :=
  self ← M_get;
  if rs_running self then mret tt
  else
    _ ← M_put (rs_with (rs_timer self) true self);
    schedule_next now.

Definition scheduler_stop : M DailyRefreshScheduler unit :=
  M_modify (rs_with None false).

(** The callback runs outside the scheduler: [callback] is its outcome and
    [during] what it did to the scheduler (a [stop] from another thread). *)
Definition fire (callback : result unit) (during : DailyRefreshScheduler -> DailyRefreshScheduler)
    (now : Z) : M DailyRefreshScheduler unit :=
  _ ← M_modify during;
  schedule_next now.

(** * Theorems *)

(** ** Tokens *)

Lemma AuthMode_of_value m : AuthMode_of (AuthMode_value m) = Ok m.
Proof. by destruct m. Qed.

Lemma token_json_round_trip r : json_to_token (token_to_json r) = Ok r.
Proof. by destruct r as [b t i e u []]. Qed.

Lemma token_text_round_trip r : read_token (json_dumps (token_to_json r)) = Ok r.
Proof.
  unfold read_token. rewrite json_round_trip; [apply token_json_round_trip|].
  cbn. split_and!; try done. apply (bool_decide_unpack _). vm_compute. exact I.
Qed.

Section TokenTheory.
Context {K : Type} `{KL : RedisKVLaws K}.

(** A store whose server, if any, answers. *)
Definition store_up (self : TokenStore K) : Prop :=
  match ts_redis self with Some r => redis_up r | None => NoDup (dkeys (ts_memory self)) end.

(** The document stored for a broker. *)
Definition stored (broker : string) (self : TokenStore K) : option string :=
  match ts_redis self with
  | Some r => redis_kv r !! token_key broker
  | None => dget (token_key broker) (ts_memory self)
  end.

Lemma token_get_up b self : store_up self ->
  exists self', token_get b self = (Ok (stored b self), self') /\ store_up self'
  /\ forall b', stored b' self' = stored b' self.
Proof.
  unfold token_get, stored, store_up. destruct (ts_redis self) as [r|] eqn:E.
  - intros Hup. destruct (redis_get_up (token_key b) r Hup) as (r' & Hg & Hup'). rewrite Hg.
    eexists; split_and!; [done|done|]. intros b'. cbn. by apply redis_get_spec in Hg as [-> _].
  - intros Hn. exists self. rewrite E. done.
Qed.

Lemma save_up r ttl self : store_up self ->
  exists self', save r ttl self = (Ok tt, self') /\ store_up self'
  /\ stored (TokenRecord.broker r) self' = Some (json_dumps (token_to_json r)).
Proof.
  unfold save, stored, store_up. destruct (ts_redis self) as [s|] eqn:E.
  - intros Hup.
    destruct (redis_set_up (token_key (TokenRecord.broker r)) (json_dumps (token_to_json r)) (Some ttl) s Hup)
      as (s' & -> & Hup' & Hs').
    eexists; split_and!; [done|done|]. cbn. by rewrite Hs', lookup_insert_eq.
  - intros Hn. eexists; split_and!; [done|by apply dset_NoDup|]. cbn. by rewrite dget_dset_eq.
Qed.

Lemma token_delete_up b self : store_up self ->
  exists self', token_delete b self = (Ok tt, self') /\ store_up self' /\ stored b self' = None.
Proof.
  unfold token_delete, stored, store_up. destruct (ts_redis self) as [s|] eqn:E.
  - intros Hup. destruct (redis_delete_up (token_key b) s Hup) as (s' & -> & Hup' & Hs').
    eexists; split_and!; [done|done|]. cbn. by rewrite Hs', lookup_delete_eq.
  - intros Hn. eexists; split_and!; [done|by apply ddel_NoDup|cbn; by apply dget_ddel_eq].
Qed.

(** A token that was saved is read back unchanged until it expires; once
    it has expired it reads as absent and is removed from the store. *)
Theorem token_round_trip r ttl now_ms self : store_up self ->
  exists self1 self2,
    save r ttl self = (Ok tt, self1)
    /\ load now_ms (TokenRecord.broker r) self1
       = (Ok (if now_ms <? TokenRecord.expires_at_ms r then Some r else None), self2)
    /\ store_up self2
    /\ (stored (TokenRecord.broker r) self2 = None <-> TokenRecord.expires_at_ms r <= now_ms).
Proof.
  intros Hup. destruct (save_up r ttl self Hup) as (s1 & H1 & Hup1 & Hs1). exists s1.
  destruct (token_get_up (TokenRecord.broker r) s1 Hup1) as (s2 & H2 & Hup2 & Hs2).
  unfold load. unfold mbind, M_bind. rewrite H2, Hs1. unfold M_lift. rewrite token_text_round_trip.
  unfold is_valid. destruct (Z.ltb_spec now_ms (TokenRecord.expires_at_ms r)) as [Hlt|Hge]; cbn [negb].
  - exists s2. split_and!; [done..|]. rewrite Hs2, Hs1. split; [done|lia].
  - destruct (token_delete_up (TokenRecord.broker r) s2 Hup2) as (s3 & -> & Hup3 & Hs3).
    exists s3. by rewrite Hs3.
Qed.

End TokenTheory.

Definition sample_token : TokenRecord.t := TokenRecord.mk "kite" "abc" 1000 31000 "AB1234" LIVE.

Lemma token_round_trip_witness :
  exists self1 self2,
    save sample_token 30 {| ts_redis := Some mem_empty; ts_memory := [] |} = (Ok tt, self1)
    /\ load 31000 "kite" self1 = (Ok None, self2)
    /\ store_up self2 /\ (stored "kite" self2 = None <-> 31000 <= 31000).
Proof.
  exact (token_round_trip sample_token 30 31000 {| ts_redis := Some mem_empty; ts_memory := [] |} eq_refl).
Defined.

(** ** Login *)

Section LoginTheory.
Context {K H : Type} `{KL : RedisKVLaws K} `{HttpSession H} `{KiteEnv}.
#[local] Abbreviation Manager := (KiteAuthManager K H).

(** [r] is valid at one of the clock readings taken between two states. *)
Definition fresh_between (m m' : Manager) (r : TokenRecord.t) : Prop :=
  exists k, (taken (ka_clock m) <= k < taken (ka_clock m'))%nat
  /\ is_valid r (reading (ka_clock m) k) = true.

Lemma issue_spec token user mode (m : Manager) r m' :
  issue token user mode m = (Ok r, m') ->
  fresh_between m m' r /\ ka_http m' = ka_http m /\ TokenRecord.mode r = mode.
Proof.
  unfold issue, ka_time_ms, on_store, M_zoom, next_reading. M_unfold.
  destruct (save _ _ (ka_store m)) as [[[]|e] st]; intros [= <- <-].
  split_and!; [|done|done]. exists (taken (ka_clock m)). cbn. split; [lia|].
  unfold is_valid. cbn. apply Z.ltb_lt. unfold KITE_SESSION_TTL_SECONDS. lia.
Qed.

(** The login flow talks to the HTTP session only. *)
Lemma login_flow_frame (m : Manager) r m' : login_flow m = (r, m') ->
  ka_clock m' = ka_clock m /\ ka_store m' = ka_store m /\ ka_mode m' = ka_mode m.
Proof.
  unfold login_flow, on_http, M_zoom. M_unfold.
  destruct (http_post_json _ _ _) as [[d|e] h]; cbn; [|by intros [= <- <-]].
  destruct (data_field "request_id" d) as [q|e]; cbn; [|by intros [= <- <-]].
  destruct (http_post_json _ _ h) as [[d2|e] h2]; cbn; [|by intros [= <- <-]].
  destruct (data_field "request_token" d2) as [t|e]; cbn; by intros [= <- <-].
Qed.

Lemma login_spec (m : Manager) r m' : login m = (Ok r, m') ->
  fresh_between m m' r /\ TokenRecord.mode r = ka_mode m
  /\ (ka_mode m = PAPER -> ka_http m' = ka_http m).
Proof.
  unfold login. unfold mbind, M_bind, M_get. destruct (decide (ka_mode m = PAPER)) as [Hm|Hm].
  - unfold paper_token. unfold mbind, M_bind, M_get. intros E. apply issue_spec in E as (Hf & Hh & Hmo). by rewrite Hm.
  - unfold live_login, M_try. unfold mbind at 1, M_bind at 1.
    destruct (login_flow m) as [[t|e] m1] eqn:Ef.
    + unfold mbind, M_bind, M_get. intros E. apply issue_spec in E as (Hf & _ & Hmo).
      apply login_flow_frame in Ef as (Hc & _). unfold fresh_between in *. rewrite Hc in Hf.
      split_and!; [done| |done]. rewrite Hmo. by destruct (ka_mode m).
    + by destruct e.
Qed.

Lemma load_token_spec (m : Manager) o m' : load_token m = (Ok o, m') ->
  (forall r, o = Some r -> fresh_between m m' r)
  /\ ka_http m' = ka_http m /\ ka_mode m' = ka_mode m /\ (taken (ka_clock m) <= taken (ka_clock m'))%nat
  /\ reading (ka_clock m') = reading (ka_clock m).
Proof.
  unfold load_token, ka_time_ms, on_store, M_zoom, next_reading. unfold mbind, M_bind. cbn.
  destruct (load _ "kite" (ka_store m)) as [v st] eqn:E. intros [= -> <-]. cbn.
  split_and!; [|done|done|lia|done]. intros r ->. exists (taken (ka_clock m)). split; [cbn; lia|].
  revert E. unfold load. unfold mbind, M_bind. destruct (token_get "kite" (ka_store m)) as [[[raw|]|e] s1]; try done.
  unfold M_lift. destruct (read_token raw) as [r'|e]; [|done].
  destruct (is_valid r' (reading (ka_clock m) (taken (ka_clock m)))) eqn:Hv; cbn [negb].
  - by intros [= <- <-].
  - unfold mbind, M_bind. by destruct (token_delete "kite" s1) as [[[]|e] s2].
Qed.

(** Whatever the token store, the HTTP session and the environment do, a
    token that [get_token] returns had not expired at a clock reading taken
    during the call; in paper mode the HTTP session is never used. *)
Theorem get_token_valid (m : Manager) r m' : get_token m = (Ok r, m') ->
  fresh_between m m' r /\ (ka_mode m = PAPER -> ka_http m' = ka_http m).
Proof.
  unfold get_token. unfold mbind, M_bind. destruct (load_token m) as [[o|e] m1] eqn:E; [|done].
  apply load_token_spec in E as (Hv & Hh & Hm & Ht & Hr). destruct o as [r'|].
  - intros [= <- <-]. split; [by apply Hv|done].
  - intros El. apply login_spec in El as ((k & Hk & Hval) & _ & Hp). rewrite Hm, Hh in Hp.
    split; [|done]. exists k. rewrite Hr in Hval. split; [lia|done].
Qed.
End LoginTheory.

#[local] Instance no_http : HttpSession unit := {
  http_post_json _ _ h := (Raise (RequestException "no network"), h);
}.
#[local] Instance bare_env : KiteEnv := { totp_now _ := "000000"; generate_session := None }.

Definition sample_manager : KiteAuthManager MemRedis unit :=
  {| ka_user_id := ""; ka_password := ""; ka_totp_secret := ""; ka_api_key := ""; ka_api_secret := "";
     ka_store := {| ts_redis := None; ts_memory := [] |}; ka_mode := PAPER; ka_http := tt;
     ka_clock := {| reading k := 1000 * Z.of_nat k; taken := 0 |} |}.

Definition issued_token : TokenRecord.t := TokenRecord.mk "kite" "PAPER_TOKEN_SIMULATED" 1000 30601000 "PAPER_USER" PAPER.

Lemma get_token_valid_witness :
  fresh_between sample_manager (get_token sample_manager).2 issued_token
  /\ (PAPER = PAPER -> ka_http (get_token sample_manager).2 = tt).
Proof. exact (get_token_valid sample_manager issued_token (get_token sample_manager).2 eq_refl). Defined.

(** ** The pool *)

Section PoolTheory.
Context {E : Type}.

Lemma first_free_Some (slots : list (IBKRClientSlot E)) i : first_free slots = Some i ->
  (exists s, slots !! i = Some s /\ in_use s = false)
  /\ forall j s, (j < i)%nat -> slots !! j = Some s -> in_use s = true.
Proof.
  revert i. induction slots as [|s slots IH]; intros i; cbn; [done|].
  destruct (in_use s) eqn:Hu; cbn.
  - destruct (first_free slots) as [k|]; [|done]. intros [= <-].
    destruct (IH k eq_refl) as [(s' & Hs' & Hf) Hlt]. split; [by exists s'|].
    intros [|j] s''; cbn; [by intros _ [= <-]|]. intros Hj. apply Hlt. lia.
  - intros [= <-]. split; [by exists s|]. lia.
Qed.

Lemma first_free_None (slots : list (IBKRClientSlot E)) : first_free slots = None <->
  Forall (fun s => in_use s = true) slots.
Proof.
  induction slots as [|s slots IH]; cbn; [done|]. rewrite Forall_cons.
  destruct (in_use s); cbn; [|split; [done|by intros [? _]]].
  rewrite <- IH. destruct (first_free slots); cbn; split; try done. by intros [_ ?].
Qed.

Lemma free_after_use i (slots : list (IBKRClientSlot E)) s b : slots !! i = Some s -> in_use s = negb b ->
  Z.of_nat (length (filter (fun s => in_use s = false) (alter (slot_use b) i slots)))
  = Z.of_nat (length (filter (fun s => in_use s = false) slots)) + (if b then -1 else 1).
Proof.
  revert i. induction slots as [|s0 slots IH]; intros [|i]; cbn [lookup list_lookup]; try done.
  - intros [= ->] Hu. change (alter (slot_use b) O (s :: slots)) with (slot_use b s :: slots).
    rewrite !filter_cons. change (in_use (slot_use b s)) with b.
    destruct b; cbn [negb] in Hu; repeat case_decide; try congruence; cbn [length]; lia.
  - intros Hl Hu. change (alter (slot_use b) (S i) (s0 :: slots)) with (s0 :: alter (slot_use b) i slots).
    specialize (IH i Hl Hu). rewrite !filter_cons. destruct (decide (in_use s0 = false)); cbn [length]; lia.
Qed.

(** [acquire] hands out the first free slot and marks it; it fails exactly
    when every slot is in use, and then nothing changes. *)
Lemma acquire_exact (self : IBKRConnectionPool E) :
  match acquire self with
  | (Ok i, self') =>
      (exists s, pool_slots self !! i = Some s /\ in_use s = false)
      /\ pool_slots self' = alter (slot_use true) i (pool_slots self)
      /\ available_count self' = available_count self - 1
  | (Raise e, self') =>
      self' = self /\ available_count self = 0 /\ exists m, e = AuthError m
  end.
Proof.
  unfold acquire. destruct (first_free (pool_slots self)) as [i|] eqn:F.
  - apply first_free_Some in F as [(s & Hs & Hf) _]. split_and!; [by exists s|done|].
    unfold available_count. cbn. rewrite (free_after_use i _ s true) by done. lia.
  - split_and!; [done| |by eexists]. apply first_free_None in F.
    unfold available_count. rewrite filter_none; [done|].
    apply (Forall_impl _ _ _ F). intros s Hs. cbn. congruence.
Qed.

Lemma release_lookup i j (self : IBKRConnectionPool E) :
  pool_slots (release i self).2 !! j
  = (if decide (j = i) then slot_use false <$> pool_slots self !! j else pool_slots self !! j).
Proof.
  unfold release, M_modify. cbn. destruct (decide (j = i)) as [->|Hn].
  - by rewrite list_lookup_alter_eq.
  - by rewrite list_lookup_alter_ne.
Qed.

(** A fresh pool has distinct client identifiers, at most eight slots, all
    free. *)
Lemma new_pool_spec h m n start ib (self : IBKRConnectionPool E) :
  new_pool h m n start ib = Ok self ->
  client_id <$> pool_slots self = seqZ start n /\ n <= IBKR_CLIENT_ID_POOL_MAX
  /\ NoDup (client_id <$> pool_slots self) /\ available_count self = Z.max 0 n
  /\ pool_port self = (if decide (m = LIVE) then IBKR_LIVE_PORT else IBKR_PAPER_PORT).
Proof.
  unfold new_pool. destruct (Z.ltb_spec IBKR_CLIENT_ID_POOL_MAX n); [done|]. intros [= <-].
  cbn [pool_slots pool_port].
  assert (Hids : client_id (E := E) <$> ((fun i => {| client_id := start + i; host := h;
     port := if decide (m = PAPER) then IBKR_PAPER_PORT else IBKR_LIVE_PORT;
     in_use := false; connection := None |}) <$> seqZ 0 n) = seqZ start n).
  { rewrite <- list_fmap_compose. unfold compose. cbn. rewrite fmap_add_seqZ. f_equal. lia. }
  split_and!; [done|lia|rewrite Hids; apply NoDup_seqZ| |by destruct m].
  unfold available_count. cbn [pool_slots]. rewrite filter_all.
  - rewrite length_fmap, length_seqZ. lia.
  - apply Forall_forall. intros s (i & -> & _)%list_elem_of_fmap. done.
Qed.
End PoolTheory.

(** ** The scheduler *)

(** For a valid time of day, the next refresh is due after more than zero
    microseconds and at most a day, exactly at that time of day. *)
Theorem refresh_due_at_time_of_day hour minute now :
  0 <= hour <= 23 -> 0 <= minute <= 59 ->
  exists us, us_until hour minute now = Ok us /\ 0 < us <= US_PER_DAY
  /\ (now + us) mod US_PER_DAY = (hour * 3600 + minute * 60) * 1000000.
Proof.
  intros Hh Hm. unfold us_until.
  assert (((0 <=? hour) && (hour <=? 23)) = true) as -> by (apply andb_true_iff; split; apply Z.leb_le; lia).
  assert (((0 <=? minute) && (minute <=? 59)) = true) as -> by (apply andb_true_iff; split; apply Z.leb_le; lia).
  cbn [negb orb]. pose proof (Z.div_mod now US_PER_DAY ltac:(done)) as Hdm.
  pose proof (Z.mod_pos_bound now US_PER_DAY ltac:(done)) as Hb. set (q := now / US_PER_DAY) in *.
  assert (Ht : 0 <= (hour * 3600 + minute * 60) * 1000000 < US_PER_DAY) by (unfold US_PER_DAY; lia).
  set (t := (hour * 3600 + minute * 60) * 1000000) in *.
  destruct (Z.leb_spec (q * US_PER_DAY + t) now) as [Hle|Hgt]; eexists; split_and!; try done; try lia.
  - replace (now + _) with (t + (q + 1) * US_PER_DAY) by lia.
    rewrite Z.mod_add by done. by apply Z.mod_small.
  - replace (now + _) with (t + q * US_PER_DAY) by lia.
    rewrite Z.mod_add by done. by apply Z.mod_small.
Qed.

Lemma fire_running cb now self :
  0 <= rs_hour self <= 23 -> 0 <= rs_minute self <= 59 -> rs_running self = true ->
  exists delay, fire cb id now self = (Ok tt, rs_with (Some delay) true self).
Proof.
  intros Hh Hm Hr. destruct (refresh_due_at_time_of_day _ _ now Hh Hm) as (us & Hus & _).
  unfold fire, schedule_next, seconds_until. M_unfold. rewrite Hr. cbn. rewrite Hus. by eexists.
Qed.

(** A running scheduler always has its next timer, however the callbacks of
    the past rounds ended. *)
Lemma scheduler_keeps_firing rounds (self : DailyRefreshScheduler) :
  0 <= rs_hour self <= 23 -> 0 <= rs_minute self <= 59 -> rs_running self = true ->
  exists self', M_for (fun r : result unit * Z => fire r.1 id r.2) rounds self = (Ok tt, self')
  /\ rs_running self' = true /\ (rounds <> [] -> is_Some (rs_timer self')).
Proof.
  revert self. induction rounds as [|[cb now] rounds IH]; intros self Hh Hm Hr; [by exists self|].
  cbn [M_for]. unfold mbind, M_bind. cbn [fst snd].
  destruct (fire_running cb now self Hh Hm Hr) as [d ->].
  destruct rounds as [|r rounds]; [by eexists|].
  destruct (IH (rs_with (Some d) true self)) as (s' & -> & E2 & E3); [done..|].
  exists s'. split_and!; [done..|]. intros _. by apply E3.
Qed.

Lemma refresh_due_at_time_of_day_witness :
  exists us, us_until 8 30 30600000000 = Ok us /\ 0 < us <= US_PER_DAY
  /\ (30600000000 + us) mod US_PER_DAY = (8 * 3600 + 30 * 60) * 1000000.
Proof. apply (refresh_due_at_time_of_day 8 30 30600000000); lia. Defined.
