(* ===== verification/Feeds.v ===== *)
(** * Market data feeds ([shared/ingestion])

    The Kite websocket adapter ([kite_ws.py]), the IBKR stream adapter
    ([ibkr_ws.py]) over the connection pool of [Auth], and the REST fallback
    ([yfinance_fallback.py]).  [KiteTicker] and [yfinance] are third-party
    packages.  A payload value is a JSON value. *)

From S2P Require Import Prelude PyFloat PyDict Json PyText Redis Constants Ingestion Auth.
Local Open Scope Z_scope.

(** ** Kite ([kite_ws.py]) *)

Class KiteTicker (T : Type) := {
  kt_connect : T -> result unit * T;
  kt_close : T -> result unit * T;
  kt_subscribe : list Z -> T -> result unit * T;
  kt_set_mode : string -> list Z -> T -> result unit * T;
}.

Definition to_int (v : json) (default : Z) : result Z :=
  match v with
  | JInt z => mret z
  | JBool b => mret (Z.b2z b)
  | JFloat x => int_of_float x
  | JStr s =>
      match py_float s ≫= int_of_float with
      | Ok z => mret z
      | Raise (ValueError _) => mret default
      | Raise e => Raise e
      end
  | _ => mret default
  end.

Definition to_float (v : json) (default : float) : result float :=
  match v with
  | JInt z => float_of_int z
  | JBool b => mret (if b then dec 1 0 else f_zero)
  | JFloat x => mret x
  | JStr s =>
      match py_float s with
      | Ok x => mret x
      | Raise (ValueError _) => mret default
      | Raise e => Raise e
      end
  | _ => mret default
  end.

(** [raw.get(key)] *)
Definition raw_get (key : string) (raw : dict string json) : json := default JNull (dget key raw).

(** The four fields [_handle_ticks] reads. *)
Definition read_payload (raw : dict string json) : result (Z * float * Z * Z) :=
  token ← to_int (raw_get "instrument_token" raw) 0;
  ltp ← to_float (raw_get "last_price" raw) f_zero;
  cum_vol ← to_int (raw_get "volume_traded" raw) 0;
  ts_ms ← to_int (raw_get "timestamp" raw) 0;
  mret (token, ltp, cum_vol, ts_ms).

Section Kite.
Context {T : Type} `{KiteTicker T}.

Record KiteWebSocketAdapter := {
  kw_tokens : list Z;
  kw_symbol_map : dict Z (string * string);
  (** the package's constructor, when [kiteconnect] is installed *)
  kw_package : option T;
  kw_ticker : option T;
  kw_connected : bool;
  kw_prev_vol : dict Z Z;
}.

Definition kw_with (ticker : option T) (connected : bool) (prev_vol : dict Z Z) (self : KiteWebSocketAdapter)
    : KiteWebSocketAdapter :=
  {| kw_tokens := kw_tokens self; kw_symbol_map := kw_symbol_map self; kw_package := kw_package self;
     kw_ticker := ticker; kw_connected := connected; kw_prev_vol := prev_vol |}.

Definition kw_connect : M KiteWebSocketAdapter unit := fun self =>
  match kw_package self with
  | Some t =>
      let '(v, t) := kt_connect t in (v, kw_with (Some t) (kw_connected self) (kw_prev_vol self) self)
  | None => (Ok tt, self)
  end.

Definition kw_disconnect (self : KiteWebSocketAdapter) : KiteWebSocketAdapter :=
  kw_with (snd ∘ kt_close <$> kw_ticker self) false (kw_prev_vol self) self.

Definition kw_is_connected : KiteWebSocketAdapter -> bool := kw_connected.

Definition handle_connect : M KiteWebSocketAdapter unit := fun self =>
  let self := kw_with (kw_ticker self) true (kw_prev_vol self) self in
  match kw_ticker self with
  | Some t =>
      match kt_subscribe (kw_tokens self) t with
      | (Ok _, t) =>
          let '(v, t) := kt_set_mode "full" (kw_tokens self) t in
          (v, kw_with (Some t) true (kw_prev_vol self) self)
      | (Raise e, t) => (Raise e, kw_with (Some t) true (kw_prev_vol self) self)
      end
  | None => (Ok tt, self)
  end.

Definition handle_close (self : KiteWebSocketAdapter) : KiteWebSocketAdapter :=
  kw_with (kw_ticker self) false (kw_prev_vol self) self.

(** The body of the loop of [_handle_ticks]; [on_tick] acts on the state of
    the subscriber, and its exceptions are swallowed. *)
Definition handle_raw {S} (on_tick : RawTick.t -> M S unit) (raw : dict string json)
    : M (KiteWebSocketAdapter * S) unit := fun '(self, s) =>
  match read_payload raw with
  | Raise e => (Raise e, (self, s))
  | Ok (token, ltp, cum_vol, ts_ms) =>
      if fle ltp f_zero then (Ok tt, (self, s))
      else
        let prev := default cum_vol (dget token (kw_prev_vol self)) in
        let delta_vol := Z.max 0 (cum_vol - prev) in
        let self := kw_with (kw_ticker self) (kw_connected self) (dset token cum_vol (kw_prev_vol self)) self in
        let '(symbol, exchange) := default (pretty token, "NSE") (dget token (kw_symbol_map self)) in
        (Ok tt, (self, (on_tick (RawTick.mk symbol exchange ltp delta_vol ts_ms) s).2))
  end.

Definition handle_ticks {S} (on_tick : RawTick.t -> M S unit) (ticks : list (dict string json))
    : M (KiteWebSocketAdapter * S) unit := M_for (handle_raw on_tick) ticks.

End Kite.
#[global] Arguments KiteWebSocketAdapter T : clear implicits.

(** ** IBKR ([ibkr_ws.py]) *)

Record IBKRStreamAdapter := {
  st_symbols : list string;
  st_exchange : string;
  st_slot : option nat;
  st_connected : bool;
}.

Definition st_with (slot : option nat) (connected : bool) (self : IBKRStreamAdapter) : IBKRStreamAdapter :=
  {| st_symbols := st_symbols self; st_exchange := st_exchange self;
     st_slot := slot; st_connected := connected |}.

Section Stream.
Context {E : Type}.

(** [connect]: the body of the [try]; every exception is swallowed. *)
Definition stream_connect (ec : EClient E) (ticks : list unit)
    (self : IBKRStreamAdapter) (pool : IBKRConnectionPool E) : IBKRStreamAdapter * IBKRConnectionPool E :=
  match acquire pool with
  | (Raise _, pool) => (self, pool)
  | (Ok slot, pool) =>
      match connect ticks slot pool with
      | (Raise _, pool) => (self, pool)
      | (Ok true, pool) => (st_with (Some slot) true self, pool)
      | (Ok false, pool) => (self, (release slot pool).2)
      end
  end.

Definition stream_disconnect (self : IBKRStreamAdapter) (pool : IBKRConnectionPool E)
    : IBKRStreamAdapter * IBKRConnectionPool E :=
  (st_with None false self,
   match st_slot self with Some slot => (release slot pool).2 | None => pool end).

Definition stream_is_connected : IBKRStreamAdapter -> bool := st_connected.

End Stream.

(** [inject_tick]: the subscriber's exceptions are swallowed. *)
Definition stream_inject_tick {S} (on_tick : option (RawTick.t -> M S unit)) (tick : RawTick.t) (s : S) : S :=
  match on_tick with Some f => (f tick s).2 | None => s end.

(** ** The REST fallback ([yfinance_fallback.py]) *)

Module YFBar.
Record t := mk {
  Close : float;
  Volume : json;
  (** [idx.timestamp()] *)
  timestamp : float;
}.
End YFBar.

(** [yf.download(ticker, period=.., interval="1m")]: the rows of the frame. *)
Class YFinance (Y : Type) := {
  yf_download : string -> string -> Y -> result (option (list YFBar.t)) * Y;
}.

Definition yf_ticker (symbol exchange : string) : string :=
  if String.eqb exchange "NSE" then symbol +:+ ".NS"
  else if String.eqb exchange "BSE" then symbol +:+ ".BO"
  else if String.eqb exchange "ASX" then symbol +:+ ".AX"
  else symbol.

Definition tick_of_bar (symbol exchange : string) (ticks : list RawTick.t) (row : YFBar.t)
    : result (list RawTick.t) :=
  volume ← json_to_int (YFBar.Volume row);
  ts_ms ← int_of_float (YFBar.timestamp row * dec 1000 0)%pf;
  if fle (YFBar.Close row) f_zero then mret ticks
  else mret (ticks ++ [RawTick.mk symbol exchange (YFBar.Close row) volume ts_ms]).

Section Fallback.
Context {Y : Type} `{YFinance Y}.

Record YFinanceFallback := {
  fb_period_minutes : Z;
  (** the package, when it is installed *)
  fb_package : option Y;
}.

Definition fetch_ticks (symbol exchange : string) (self : YFinanceFallback) : list RawTick.t * YFinanceFallback :=
  match fb_package self with
  | None => ([], self)
  | Some y =>
      let '(df, y) := yf_download (yf_ticker symbol exchange)
                        (pretty (fb_period_minutes self + 1) +:+ "m") y in
      (match df with
       | Ok (Some rows) =>
           match for_each (tick_of_bar symbol exchange) [] rows with
           | Ok ticks => ticks
           | Raise _ => []
           end
       | _ => []
       end, {| fb_period_minutes := fb_period_minutes self; fb_package := Some y |})
  end.

End Fallback.
#[global] Arguments YFinanceFallback Y : clear implicits.

Definition fetch_synthetic_ticks (symbol exchange : string) (base_price : float) (count now_ms : Z)
    : result (list RawTick.t) :=
  for_each (fun ticks i =>
    f ← float_of_int i;
    mret (ticks ++ [RawTick.mk symbol exchange (pyround (base_price + f * dec 5 2)%pf 2) (100 + i * 10)
                      (now_ms - (count - i) * 1000)])) [] (seqZ 0 count).

(** * Theorems *)

(** ** Volumes

    Kite reports the day's cumulative volume; the adapter passes on the
    difference with the previous message. *)

Definition kite_message (token : Z) (m : float * Z * Z) : dict string json :=
  let '(price, cum_vol, ts) := m in
  [("instrument_token", JInt token); ("last_price", JFloat price);
   ("volume_traded", JInt cum_vol); ("timestamp", JInt ts)].

(** A subscriber that records what it gets and may then raise. *)
Definition recorder (outcome : RawTick.t -> result unit) (t : RawTick.t) : M (list RawTick.t) unit :=
  fun s => (outcome t, s ++ [t]).

Definition total_volume (l : list RawTick.t) : Z := foldr (fun t n => RawTick.volume t + n) 0 l.

Lemma total_volume_app l1 l2 : total_volume (l1 ++ l2) = total_volume l1 + total_volume l2.
Proof. unfold total_volume. induction l1 as [|t l1 IH]; cbn; [done|]. rewrite IH. lia. Qed.

(** The messages with a positive (or NaN) price. *)
Definition priced (m : float * Z * Z) : Prop := fle m.1.1 f_zero = false.

Section KiteTheory.
Context {T : Type} `{KiteTicker T} (outcome : RawTick.t -> result unit) (token : Z).
#[local] Abbreviation Kite := (KiteWebSocketAdapter T).

Lemma handle_message m (self : Kite) got :
  exists self' t, handle_raw (recorder outcome) (kite_message token m) (self, got)
    = (Ok tt, (self', if fle m.1.1 f_zero then got else got ++ [t]))
  /\ dget token (kw_prev_vol self')
     = (if fle m.1.1 f_zero then dget token (kw_prev_vol self) else Some m.1.2)
  /\ RawTick.volume t = Z.max 0 (m.1.2 - default m.1.2 (dget token (kw_prev_vol self)))
  /\ RawTick.ltp t = m.1.1 /\ RawTick.timestamp_ms t = m.2.
Proof.
  destruct m as [[price cum] ts]. unfold handle_raw.
  change (read_payload (kite_message token (price, cum, ts))) with (Ok (token, price, cum, ts)). cbn.
  destruct (default (pretty token, "NSE") (dget token (kw_symbol_map self))) as [symbol exchange] eqn:Hs.
  destruct (fle price f_zero).
  - exists self, (RawTick.mk symbol exchange price
      (Z.max 0 (cum - default cum (dget token (kw_prev_vol self)))) ts). split_and!; done.
  - eexists _, _. split; [done|]. cbn. by rewrite dget_dset_eq.
Qed.

(** The sum of the differences of a non-decreasing sequence telescopes. *)
Fixpoint climbs (prev : Z) (l : list Z) : Prop :=
  match l with
  | [] => True
  | c :: l => prev <= c /\ climbs c l
  end.

Lemma handle_ticks_volume msgs prev (self : Kite) got :
  dget token (kw_prev_vol self) = Some prev ->
  climbs prev ((fun m => m.1.2) <$> filter priced msgs) ->
  exists self' new, handle_ticks (recorder outcome) (kite_message token <$> msgs) (self, got)
    = (Ok tt, (self', got ++ new))
  /\ length new = length (filter priced msgs)
  /\ total_volume new = default prev (last ((fun m => m.1.2) <$> filter priced msgs)) - prev.
Proof.
  revert prev self got. induction msgs as [|m msgs IH]; intros prev self got Hp Hc.
  { exists self, []. rewrite app_nil_r. split_and!; [done..|]. cbn. lia. }
  unfold handle_ticks in *. rewrite fmap_cons. cbn [M_for]. unfold mbind, M_bind.
  destruct (handle_message m self got) as (s1 & t & -> & Hp1 & Hv & _). rewrite Hp in Hp1, Hv.
  unfold priced in *. destruct (fle m.1.1 f_zero) eqn:Hz.
  - rewrite filter_cons_False in Hc |- * by congruence. by apply IH.
  - rewrite filter_cons_True in Hc |- * by done. rewrite fmap_cons in Hc |- *. destruct Hc as [Hle Hc].
    destruct (IH m.1.2 s1 (got ++ [t]) Hp1 Hc) as (s2 & new & -> & Hl & Ht).
    exists s2, (t :: new). split_and!.
    + by rewrite <- app_assoc.
    + cbn. by rewrite Hl.
    + change (RawTick.volume t + total_volume new = default prev (last (m.1.2 :: ((fun m => m.1.2) <$>
        filter (fun m => fle m.1.1 f_zero = false) msgs))) - prev).
      rewrite Ht, Hv. cbn [default]. rewrite last_cons.
      destruct (last ((fun m => m.1.2) <$> _)) as [c|]; cbn [default] in *; unfold default, id in *; lia.
Qed.

(** Over any run of messages of one instrument whose cumulative volume
    does not fall, the volumes handed to the subscriber add up to the day's
    volume gained since the first message: skipped prices carry their volume
    to the next tick, and exceptions of the subscriber lose nothing. *)
Theorem kite_volume_conserved first msgs (self : Kite) :
  dget token (kw_prev_vol self) = None -> priced first ->
  climbs first.1.2 ((fun m => m.1.2) <$> filter priced msgs) ->
  exists self' delivered,
    handle_ticks (recorder outcome) (kite_message token <$> first :: msgs) (self, [])
      = (Ok tt, (self', delivered))
    /\ length delivered = S (length (filter priced msgs))
    /\ total_volume delivered
       = default first.1.2 (last ((fun m => m.1.2) <$> filter priced msgs)) - first.1.2.
Proof.
  intros Hn Hf Hc. unfold handle_ticks. rewrite fmap_cons. cbn [M_for]. unfold mbind, M_bind.
  destruct (handle_message first self []) as (s1 & t & -> & Hp1 & Hv & _).
  unfold priced in Hf. rewrite Hf in *. rewrite Hn in Hv. cbn [default] in Hv.
  destruct (handle_ticks_volume msgs first.1.2 s1 [t] Hp1 Hc) as (s2 & new & E & Hl & Ht).
  exists s2, ([t] ++ new). split_and!; [exact E|cbn; by rewrite Hl|].
  rewrite total_volume_app, Ht. cbn. lia.
Qed.
End KiteTheory.

#[local] Instance no_ticker : KiteTicker unit := {
  kt_connect t := (Ok tt, t); kt_close t := (Ok tt, t);
  kt_subscribe _ t := (Ok tt, t); kt_set_mode _ _ t := (Ok tt, t);
}.

Definition sample_kite : KiteWebSocketAdapter unit :=
  {| kw_tokens := [738561]; kw_symbol_map := [(738561, ("RELIANCE", "NSE"))]; kw_package := None;
     kw_ticker := None; kw_connected := true; kw_prev_vol := [] |}.

Definition sample_messages : list (float * Z * Z) :=
  [(dec 2500 0, 1040, 2000); (f_zero, 1070, 3000); (dec 2501 0, 1100, 4000)].

Lemma kite_volume_conserved_witness :
  exists self' delivered,
    handle_ticks (recorder (fun _ => Raise AssertionError))
      (kite_message 738561 <$> (dec 2499 0, 1000, 1000) :: sample_messages) (sample_kite, [])
      = (Ok tt, (self', delivered))
    /\ length delivered = 3%nat /\ total_volume delivered = 100.
Proof.
  apply (kite_volume_conserved (fun _ => Raise AssertionError) 738561 (dec 2499 0, 1000, 1000)
    sample_messages sample_kite); [done|vm_compute; done|vm_compute; intuition discriminate].
Defined.

(** ** Streams sharing a pool *)

(** Several adapters over one pool, which [connect] and [disconnect] in any
    order; TWS and [ibapi] behave differently at every call. *)
Record Streams (E : Type) := {
  sys_adapters : list IBKRStreamAdapter;
  sys_pool : IBKRConnectionPool E;
}.
#[local] Arguments sys_adapters {E}.
#[local] Arguments sys_pool {E}.

Section StreamTheory.
Context {E : Type}.

Inductive stream_step : Streams E -> Streams E -> Prop :=
| step_connect ec ticks i a sys r :
    sys_adapters sys !! i = Some a ->
    stream_connect ec ticks a (sys_pool sys) = r ->
    stream_step sys {| sys_adapters := <[i := r.1]> (sys_adapters sys); sys_pool := r.2 |}
| step_disconnect i a sys r :
    sys_adapters sys !! i = Some a ->
    stream_disconnect a (sys_pool sys) = r ->
    stream_step sys {| sys_adapters := <[i := r.1]> (sys_adapters sys); sys_pool := r.2 |}.

Definition slot_taken (pool : IBKRConnectionPool E) (slot : nat) : Prop :=
  exists s, pool_slots pool !! slot = Some s /\ in_use s = true.

(** Every slot an adapter holds is marked in use, and no two adapters hold
    the same one. *)
Definition slots_exclusive (sys : Streams E) : Prop :=
  (forall i a slot, sys_adapters sys !! i = Some a -> st_slot a = Some slot -> slot_taken (sys_pool sys) slot)
  /\ (forall i j a b slot, sys_adapters sys !! i = Some a -> sys_adapters sys !! j = Some b ->
       st_slot a = Some slot -> st_slot b = Some slot -> i = j).

(** Replacing one adapter keeps the slots exclusive when the slots of the
    others stay taken and its own slot, if any, is taken and new or its own. *)
Lemma slots_exclusive_replace sys i a a' pool :
  slots_exclusive sys -> sys_adapters sys !! i = Some a ->
  (forall j b slot, j <> i -> sys_adapters sys !! j = Some b -> st_slot b = Some slot -> slot_taken pool slot) ->
  (forall slot, st_slot a' = Some slot -> slot_taken pool slot
     /\ forall j b, j <> i -> sys_adapters sys !! j = Some b -> st_slot b <> Some slot) ->
  slots_exclusive {| sys_adapters := <[i := a']> (sys_adapters sys); sys_pool := pool |}.
Proof.
  intros [Ht Hx] Hi Hother Hown. assert (Hlt : (i < length (sys_adapters sys))%nat) by by eapply lookup_lt_Some.
  split; cbn.
  - intros j b slot Hj Hs. destruct (decide (j = i)) as [->|Hn].
    + rewrite list_lookup_insert_eq in Hj by done. injection Hj as <-. by apply Hown.
    + rewrite list_lookup_insert_ne in Hj by done. by eapply Hother.
  - intros j k b c slot Hj Hk Hb Hc.
    destruct (decide (j = i)) as [->|Hj'], (decide (k = i)) as [->|Hk']; [done| | |].
    + rewrite list_lookup_insert_eq in Hj by done. rewrite list_lookup_insert_ne in Hk by done.
      injection Hj as <-. by destruct (proj2 (Hown slot Hb) k c Hk' Hk).
    + rewrite list_lookup_insert_eq in Hk by done. rewrite list_lookup_insert_ne in Hj by done.
      injection Hk as <-. by destruct (proj2 (Hown slot Hc) j b Hj' Hj).
    + rewrite list_lookup_insert_ne in Hj by done. rewrite list_lookup_insert_ne in Hk by done. by eapply Hx.
Qed.

Lemma connect_keeps_use (ec : EClient E) ticks slot pool v pool' :
  connect ticks slot pool = (v, pool') ->
  forall k, in_use <$> pool_slots pool' !! k = in_use <$> pool_slots pool !! k.
Proof.
  unfold connect. intros Eq k. destruct (pool_slots pool !! slot) as [s|]; [|by injection Eq as <- <-].
  destruct (pool_ibapi pool); cbn [negb] in Eq; [|by injection Eq as <- <-].
  destruct (_ ≫= _) as [c|e]; [|by injection Eq as <- <-].
  destruct (ec_isConnected c); injection Eq as <- <-; cbn; [|done].
  destruct (decide (k = slot)) as [->|]; [|by rewrite list_lookup_alter_ne].
  rewrite list_lookup_alter_eq. by destruct (pool_slots pool !! slot).
Qed.

Lemma taken_iff pool slot : slot_taken pool slot <-> in_use <$> pool_slots pool !! slot = Some true.
Proof.
  unfold slot_taken. destruct (pool_slots pool !! slot) as [s|]; cbn; split; try done.
  - by intros (s' & [= <-] & ->).
  - intros [= Hs]. by exists s.
  - by intros (s' & ? & _).
Qed.

(** After [acquire] gave [slot], it is taken, and so is what was taken. *)
Lemma acquire_taken pool slot pool' : acquire pool = (Ok slot, pool') ->
  ~ slot_taken pool slot /\ slot_taken pool' slot
  /\ forall k, slot_taken pool k -> slot_taken pool' k.
Proof.
  intros Ha. pose proof (acquire_exact pool) as H. rewrite Ha in H.
  destruct H as ((s & Hs & Hf) & Hp & _). split_and!.
  - intros (s' & Hs' & Hu). rewrite Hs in Hs'. injection Hs' as <-. congruence.
  - exists (slot_use true s). rewrite Hp, list_lookup_alter_eq, Hs. done.
  - intros k (s' & Hs' & Hu). destruct (decide (k = slot)) as [->|Hn].
    + rewrite Hs in Hs'. injection Hs' as <-. congruence.
    + exists s'. by rewrite Hp, list_lookup_alter_ne.
Qed.

Lemma release_taken pool slot k : k <> slot -> slot_taken pool k -> slot_taken (release slot pool).2 k.
Proof. intros Hn. rewrite !taken_iff, release_lookup. by rewrite decide_False. Qed.

Lemma stream_connect_exclusive ec ticks sys i a :
  slots_exclusive sys -> sys_adapters sys !! i = Some a ->
  let r := stream_connect ec ticks a (sys_pool sys) in
  slots_exclusive {| sys_adapters := <[i := r.1]> (sys_adapters sys); sys_pool := r.2 |}.
Proof.
  intros Hx Hi. pose proof Hx as [Ht Hd]. unfold stream_connect.
  destruct (acquire (sys_pool sys)) as [[slot|e] p1] eqn:Ha; cbv zeta.
  2: { pose proof (acquire_exact (sys_pool sys)) as H. rewrite Ha in H. destruct H as [-> _].
       apply (slots_exclusive_replace sys i a); [done..|by eauto|].
       intros slot Hs. split; [by eapply Ht|]. intros j b Hj Hb Hsb. by apply Hj; eapply Hd. }
  apply acquire_taken in Ha as (Hfree & Hnew & Hkeep).
  destruct (connect ticks slot p1) as [v p2] eqn:Hc.
  assert (Hsame : forall k, slot_taken p1 k -> slot_taken p2 k).
  { intros k. rewrite !taken_iff. by rewrite (connect_keeps_use _ _ _ _ _ _ Hc). }
  destruct v as [[]|e]; apply (slots_exclusive_replace sys i a); cbn [fst snd]; try done; eauto.
  - intros s [= <-]. split; [auto|]. intros j b _ Hb Hs. by apply Hfree; eapply Ht.
  - intros j b s Hj Hb Hs. apply release_taken; [|by eauto].
    intros ->. by apply Hfree; eapply Ht.
  - intros s Hs. split; [|by intros j b Hj Hb Hsb; apply Hj; eapply Hd].
    apply release_taken; [|by eauto]. intros ->. by apply Hfree; eapply Ht.
  - intros s Hs. split; [by eauto|]. by intros j b Hj Hb Hsb; apply Hj; eapply Hd.
Qed.

Lemma stream_disconnect_exclusive sys i a :
  slots_exclusive sys -> sys_adapters sys !! i = Some a ->
  let r := stream_disconnect a (sys_pool sys) in
  slots_exclusive {| sys_adapters := <[i := r.1]> (sys_adapters sys); sys_pool := r.2 |}.
Proof.
  intros Hx Hi. pose proof Hx as [Ht Hd]. cbv zeta.
  apply (slots_exclusive_replace sys i a); [done..| |done].
  unfold stream_disconnect. cbn [snd]. intros j b s Hj Hb Hs.
  destruct (st_slot a) as [slot|] eqn:Ha; [|by eauto].
  apply release_taken; [|by eauto]. intros ->. by apply Hj; eapply Hd.
Qed.

(** Streams that share a pool never hold the same client slot, and a held
    slot is always marked in use, whatever sequence of connects and
    disconnects they go through and however TWS fails in between. *)
Theorem streams_never_share_a_slot (pool : IBKRConnectionPool E) adapters sys :
  (forall a, a ∈ adapters -> st_slot a = None) ->
  rtc stream_step {| sys_adapters := adapters; sys_pool := pool |} sys ->
  slots_exclusive sys.
Proof.
  intros Hn Hr.
  assert (Hinit : slots_exclusive {| sys_adapters := adapters; sys_pool := pool |}).
  { split; cbn.
    - intros i a slot Ha Hs. rewrite Hn in Hs; [done|]. by eapply list_elem_of_lookup_2.
    - intros i j a b slot Ha _ Hs. rewrite Hn in Hs; [done|]. by eapply list_elem_of_lookup_2. }
  revert Hinit. induction Hr as [|s1 s2 s3 Hstep _ IH]; [done|]. intros Hx. apply IH.
  destruct Hstep as [ec ticks i a sys r Hi <-|i a sys r Hi <-].
  - by apply stream_connect_exclusive.
  - by apply stream_disconnect_exclusive.
Qed.

(** When the client raises while connecting, the slot just taken is neither
    held by the adapter nor given back. *)
Lemma failed_connect_leaks_slot (ec : EClient E) ticks a pool slot p1 e p2 :
  acquire pool = (Ok slot, p1) -> connect ticks slot p1 = (Raise e, p2) ->
  stream_connect ec ticks a pool = (a, p2) /\ available_count p2 = available_count pool - 1.
Proof.
  intros Ha Hc. unfold stream_connect. rewrite Ha, Hc. split; [done|].
  pose proof (acquire_exact pool) as H. rewrite Ha in H. destruct H as (_ & _ & <-).
  revert Hc. unfold connect. destruct (pool_slots p1 !! slot); [|by intros [= _ <-]].
  destruct (pool_ibapi p1); cbn [negb]; [|done].
  destruct (_ ≫= _) as [c|e']; [by destruct (ec_isConnected c)|]. by intros [= _ <-].
Qed.
End StreamTheory.

(** A client that always fails to connect. *)
Definition unreachable_tws : EClient unit := {|
  ec_connect _ _ _ := Raise (OtherError "connection refused");
  ec_isConnected _ := false; ec_run c := Ok c;
  ec_reqCurrentTime c := (Ok tt, c); ec_disconnect c := (Ok tt, c);
|}.

Definition idle_stream : IBKRStreamAdapter :=
  {| st_symbols := ["CBA"]; st_exchange := "ASX"; st_slot := None; st_connected := false |}.

Definition two_slots : IBKRConnectionPool unit :=
  {| pool_host := "127.0.0.1"; pool_port := 7497; pool_mode := PAPER;
     pool_slots := (fun i => {| client_id := i; host := "127.0.0.1"; port := 7497; in_use := false;
                                connection := None |}) <$> [0; 1];
     pool_ibapi := true; pool_heartbeat_stop := false |}.

(** Two failures exhaust a pool of two although nothing is connected. *)
Example failures_exhaust_the_pool :
  let p1 := (stream_connect unreachable_tws [] idle_stream two_slots).2 in
  let p2 := (stream_connect unreachable_tws [] idle_stream p1).2 in
  available_count p2 = 0 /\ is_ok (acquire p2).1 = false.
Proof. done. Qed.

(** A client that connects at once. *)
Definition reachable_tws : EClient unit := {|
  ec_connect _ _ _ := Ok tt; ec_isConnected _ := true; ec_run c := Ok c;
  ec_reqCurrentTime c := (Ok tt, c); ec_disconnect c := (Ok tt, c);
|}.

Definition connected_pair : Streams unit :=
  let r1 := stream_connect reachable_tws [] idle_stream two_slots in
  let r2 := stream_connect reachable_tws [] idle_stream r1.2 in
  {| sys_adapters := [r1.1; r2.1]; sys_pool := r2.2 |}.

Lemma streams_never_share_a_slot_witness :
  slots_exclusive connected_pair /\ st_slot <$> sys_adapters connected_pair = [Some 0%nat; Some 1%nat].
Proof.
  split; [|reflexivity].
  apply (streams_never_share_a_slot two_slots [idle_stream; idle_stream]).
  - intros a Ha. apply elem_of_cons in Ha as [->|Ha]; [done|]. by apply list_elem_of_singleton in Ha as ->.
  - eapply rtc_l; [by apply (step_connect reachable_tws [] 0 idle_stream)|].
    eapply rtc_l; [by apply (step_connect reachable_tws [] 1 idle_stream)|]. apply rtc_refl.
Defined.
