(* ===== verification/IngestionAgent.v ===== *)
(** * The data ingestion agent ([shared/ingestion/agent.py])

    [DataIngestionAgent] composes the validator, the two candle aggregators
    and the tick buffer of [Ingestion] with a websocket provider, the REST
    fallback of [Feeds] and the degraded flag in Redis.  The watchdog thread
    is a sequence of iterations; [threading] and the locks are left out, each
    iteration and each injected tick being one step.  Clock readings are
    consumed one by one. *)

From S2P Require Import Prelude PyFloat PyDict Json PyText Redis Constants Ingestion Feeds.
Local Open Scope Z_scope.

Class WebSocketProvider (W : Type) := {
  ws_connect : W -> result unit * W;
  ws_disconnect : W -> result unit * W;
  ws_is_connected : W -> result bool * W;
}.

Section Agent.
Context {W Y R K : Type} `{WebSocketProvider W} `{YFinance Y} `{RedisList R} `{RedisKV K} `{NumPyMinMax}.

Record DataIngestionAgent := {
  ia_symbols : list string;
  ia_exchange : string;
  ia_ws : option W;
  ia_fallback : YFinanceFallback Y;
  ia_validator : TickSequenceValidator;
  ia_agg1m : CandleAggregator;
  ia_agg5m : CandleAggregator;
  ia_buffer : TickBuffer R;
  ia_status_redis : option K;
  ia_mode : IngestionStatus;
  ia_last_tick_ts : float;
  ia_latest_1m : dict string OHLCVCandle.t;
  ia_latest_5m : dict string OHLCVCandle.t;
  ia_running : bool;
  ia_watchdog : bool;
  ia_clock : Readings float;
}.

Definition set_ws (v : option W) (s : DataIngestionAgent) : DataIngestionAgent :=
  {| ia_symbols := ia_symbols s; ia_exchange := ia_exchange s; ia_ws := v; ia_fallback :=
     ia_fallback s; ia_validator := ia_validator s; ia_agg1m := ia_agg1m s; ia_agg5m := ia_agg5m
     s; ia_buffer := ia_buffer s; ia_status_redis := ia_status_redis s; ia_mode := ia_mode s;
     ia_last_tick_ts := ia_last_tick_ts s; ia_latest_1m := ia_latest_1m s; ia_latest_5m :=
     ia_latest_5m s; ia_running := ia_running s; ia_watchdog := ia_watchdog s; ia_clock :=
     ia_clock s |}.
Definition set_fallback (v : YFinanceFallback Y) (s : DataIngestionAgent) : DataIngestionAgent :=
  {| ia_symbols := ia_symbols s; ia_exchange := ia_exchange s; ia_ws := ia_ws s; ia_fallback :=
     v; ia_validator := ia_validator s; ia_agg1m := ia_agg1m s; ia_agg5m := ia_agg5m s;
     ia_buffer := ia_buffer s; ia_status_redis := ia_status_redis s; ia_mode := ia_mode s;
     ia_last_tick_ts := ia_last_tick_ts s; ia_latest_1m := ia_latest_1m s; ia_latest_5m :=
     ia_latest_5m s; ia_running := ia_running s; ia_watchdog := ia_watchdog s; ia_clock :=
     ia_clock s |}.
Definition set_validator (v : TickSequenceValidator) (s : DataIngestionAgent) : DataIngestionAgent :=
  {| ia_symbols := ia_symbols s; ia_exchange := ia_exchange s; ia_ws := ia_ws s; ia_fallback :=
     ia_fallback s; ia_validator := v; ia_agg1m := ia_agg1m s; ia_agg5m := ia_agg5m s; ia_buffer
     := ia_buffer s; ia_status_redis := ia_status_redis s; ia_mode := ia_mode s; ia_last_tick_ts
     := ia_last_tick_ts s; ia_latest_1m := ia_latest_1m s; ia_latest_5m := ia_latest_5m s;
     ia_running := ia_running s; ia_watchdog := ia_watchdog s; ia_clock := ia_clock s |}.
Definition set_agg1m (v : CandleAggregator) (s : DataIngestionAgent) : DataIngestionAgent :=
  {| ia_symbols := ia_symbols s; ia_exchange := ia_exchange s; ia_ws := ia_ws s; ia_fallback :=
     ia_fallback s; ia_validator := ia_validator s; ia_agg1m := v; ia_agg5m := ia_agg5m s;
     ia_buffer := ia_buffer s; ia_status_redis := ia_status_redis s; ia_mode := ia_mode s;
     ia_last_tick_ts := ia_last_tick_ts s; ia_latest_1m := ia_latest_1m s; ia_latest_5m :=
     ia_latest_5m s; ia_running := ia_running s; ia_watchdog := ia_watchdog s; ia_clock :=
     ia_clock s |}.
Definition set_agg5m (v : CandleAggregator) (s : DataIngestionAgent) : DataIngestionAgent :=
  {| ia_symbols := ia_symbols s; ia_exchange := ia_exchange s; ia_ws := ia_ws s; ia_fallback :=
     ia_fallback s; ia_validator := ia_validator s; ia_agg1m := ia_agg1m s; ia_agg5m := v;
     ia_buffer := ia_buffer s; ia_status_redis := ia_status_redis s; ia_mode := ia_mode s;
     ia_last_tick_ts := ia_last_tick_ts s; ia_latest_1m := ia_latest_1m s; ia_latest_5m :=
     ia_latest_5m s; ia_running := ia_running s; ia_watchdog := ia_watchdog s; ia_clock :=
     ia_clock s |}.
Definition set_buffer (v : TickBuffer R) (s : DataIngestionAgent) : DataIngestionAgent :=
  {| ia_symbols := ia_symbols s; ia_exchange := ia_exchange s; ia_ws := ia_ws s; ia_fallback :=
     ia_fallback s; ia_validator := ia_validator s; ia_agg1m := ia_agg1m s; ia_agg5m := ia_agg5m
     s; ia_buffer := v; ia_status_redis := ia_status_redis s; ia_mode := ia_mode s;
     ia_last_tick_ts := ia_last_tick_ts s; ia_latest_1m := ia_latest_1m s; ia_latest_5m :=
     ia_latest_5m s; ia_running := ia_running s; ia_watchdog := ia_watchdog s; ia_clock :=
     ia_clock s |}.
Definition set_status_redis (v : option K) (s : DataIngestionAgent) : DataIngestionAgent :=
  {| ia_symbols := ia_symbols s; ia_exchange := ia_exchange s; ia_ws := ia_ws s; ia_fallback :=
     ia_fallback s; ia_validator := ia_validator s; ia_agg1m := ia_agg1m s; ia_agg5m := ia_agg5m
     s; ia_buffer := ia_buffer s; ia_status_redis := v; ia_mode := ia_mode s; ia_last_tick_ts :=
     ia_last_tick_ts s; ia_latest_1m := ia_latest_1m s; ia_latest_5m := ia_latest_5m s;
     ia_running := ia_running s; ia_watchdog := ia_watchdog s; ia_clock := ia_clock s |}.
Definition set_mode (v : IngestionStatus) (s : DataIngestionAgent) : DataIngestionAgent :=
  {| ia_symbols := ia_symbols s; ia_exchange := ia_exchange s; ia_ws := ia_ws s; ia_fallback :=
     ia_fallback s; ia_validator := ia_validator s; ia_agg1m := ia_agg1m s; ia_agg5m := ia_agg5m
     s; ia_buffer := ia_buffer s; ia_status_redis := ia_status_redis s; ia_mode := v;
     ia_last_tick_ts := ia_last_tick_ts s; ia_latest_1m := ia_latest_1m s; ia_latest_5m :=
     ia_latest_5m s; ia_running := ia_running s; ia_watchdog := ia_watchdog s; ia_clock :=
     ia_clock s |}.
Definition set_last_tick_ts (v : float) (s : DataIngestionAgent) : DataIngestionAgent :=
  {| ia_symbols := ia_symbols s; ia_exchange := ia_exchange s; ia_ws := ia_ws s; ia_fallback :=
     ia_fallback s; ia_validator := ia_validator s; ia_agg1m := ia_agg1m s; ia_agg5m := ia_agg5m
     s; ia_buffer := ia_buffer s; ia_status_redis := ia_status_redis s; ia_mode := ia_mode s;
     ia_last_tick_ts := v; ia_latest_1m := ia_latest_1m s; ia_latest_5m := ia_latest_5m s;
     ia_running := ia_running s; ia_watchdog := ia_watchdog s; ia_clock := ia_clock s |}.
Definition set_latest_1m (v : dict string OHLCVCandle.t) (s : DataIngestionAgent) : DataIngestionAgent :=
  {| ia_symbols := ia_symbols s; ia_exchange := ia_exchange s; ia_ws := ia_ws s; ia_fallback :=
     ia_fallback s; ia_validator := ia_validator s; ia_agg1m := ia_agg1m s; ia_agg5m := ia_agg5m
     s; ia_buffer := ia_buffer s; ia_status_redis := ia_status_redis s; ia_mode := ia_mode s;
     ia_last_tick_ts := ia_last_tick_ts s; ia_latest_1m := v; ia_latest_5m := ia_latest_5m s;
     ia_running := ia_running s; ia_watchdog := ia_watchdog s; ia_clock := ia_clock s |}.
Definition set_latest_5m (v : dict string OHLCVCandle.t) (s : DataIngestionAgent) : DataIngestionAgent :=
  {| ia_symbols := ia_symbols s; ia_exchange := ia_exchange s; ia_ws := ia_ws s; ia_fallback :=
     ia_fallback s; ia_validator := ia_validator s; ia_agg1m := ia_agg1m s; ia_agg5m := ia_agg5m
     s; ia_buffer := ia_buffer s; ia_status_redis := ia_status_redis s; ia_mode := ia_mode s;
     ia_last_tick_ts := ia_last_tick_ts s; ia_latest_1m := ia_latest_1m s; ia_latest_5m := v;
     ia_running := ia_running s; ia_watchdog := ia_watchdog s; ia_clock := ia_clock s |}.
Definition set_running (v : bool) (s : DataIngestionAgent) : DataIngestionAgent :=
  {| ia_symbols := ia_symbols s; ia_exchange := ia_exchange s; ia_ws := ia_ws s; ia_fallback :=
     ia_fallback s; ia_validator := ia_validator s; ia_agg1m := ia_agg1m s; ia_agg5m := ia_agg5m
     s; ia_buffer := ia_buffer s; ia_status_redis := ia_status_redis s; ia_mode := ia_mode s;
     ia_last_tick_ts := ia_last_tick_ts s; ia_latest_1m := ia_latest_1m s; ia_latest_5m :=
     ia_latest_5m s; ia_running := v; ia_watchdog := ia_watchdog s; ia_clock := ia_clock s |}.
Definition set_watchdog (v : bool) (s : DataIngestionAgent) : DataIngestionAgent :=
  {| ia_symbols := ia_symbols s; ia_exchange := ia_exchange s; ia_ws := ia_ws s; ia_fallback :=
     ia_fallback s; ia_validator := ia_validator s; ia_agg1m := ia_agg1m s; ia_agg5m := ia_agg5m
     s; ia_buffer := ia_buffer s; ia_status_redis := ia_status_redis s; ia_mode := ia_mode s;
     ia_last_tick_ts := ia_last_tick_ts s; ia_latest_1m := ia_latest_1m s; ia_latest_5m :=
     ia_latest_5m s; ia_running := ia_running s; ia_watchdog := v; ia_clock := ia_clock s |}.
Definition set_clock (v : Readings float) (s : DataIngestionAgent) : DataIngestionAgent :=
  {| ia_symbols := ia_symbols s; ia_exchange := ia_exchange s; ia_ws := ia_ws s; ia_fallback :=
     ia_fallback s; ia_validator := ia_validator s; ia_agg1m := ia_agg1m s; ia_agg5m := ia_agg5m
     s; ia_buffer := ia_buffer s; ia_status_redis := ia_status_redis s; ia_mode := ia_mode s;
     ia_last_tick_ts := ia_last_tick_ts s; ia_latest_1m := ia_latest_1m s; ia_latest_5m :=
     ia_latest_5m s; ia_running := ia_running s; ia_watchdog := ia_watchdog s; ia_clock := v |}.

(** [time.time()] *)
Definition time_time : M DataIngestionAgent float := M_zoom ia_clock set_clock next_reading.

(** [self._ws], when there is one. *)
Definition on_ws {A} (none : A) (f : W -> result A * W) : M DataIngestionAgent A := fun s =>
  match ia_ws s with
  | Some w => let '(v, w) := f w in (v, set_ws (Some w) s)
  | None => (Ok none, s)
  end.

Definition set_degraded : M DataIngestionAgent unit := M_modify (fun s =>
  match ia_status_redis s with
  | Some r => set_status_redis (Some (redis_set INGESTION_DEGRADED_REDIS_KEY "true" None r).2) s
  | None => s
  end).

Definition clear_degraded : M DataIngestionAgent unit := M_modify (fun s =>
  match ia_status_redis s with
  | Some r => set_status_redis (Some (redis_delete INGESTION_DEGRADED_REDIS_KEY r).2) s
  | None => s
  end).

Definition start : M DataIngestionAgent unit :=
  s ← M_get;
  if ia_running s then mret tt
  else
    _ ← M_modify (set_running true);
    match ia_ws s with
    | Some _ =>
        if decide (ia_mode s = LIVE) then
          _ ← on_ws tt ws_connect;
          M_modify (set_watchdog true)
        else mret tt
    | None => mret tt
    end.

Definition stop : M DataIngestionAgent unit :=
  _ ← M_modify (set_running false);
  _ ← on_ws tt ws_disconnect;
  clear_degraded.

Definition inject_tick (tick : RawTick.t) : M DataIngestionAgent (list OHLCVCandle.t) :=
  now ← time_time;
  now_ms ← M_lift (int_of_float (now * dec 1000 0)%pf);
  _ ← M_zoom ia_validator set_validator (validate now_ms tick);
  now ← time_time;
  _ ← M_modify (set_last_tick_ts now);
  c1m ← M_zoom ia_agg1m set_agg1m (ingest tick);
  _ ← M_modify (fun s =>
        match c1m with
        | Some c => set_latest_1m (dset (RawTick.symbol tick) c (ia_latest_1m s)) s
        | None => s
        end);
  c5m ← M_zoom ia_agg5m set_agg5m (ingest tick);
  _ ← M_modify (fun s =>
        match c5m with
        | Some c => set_latest_5m (dset (RawTick.symbol tick) c (ia_latest_5m s)) s
        | None => s
        end);
  _ ← M_modify (fun s => set_buffer (push tick (ia_buffer s)) s);
  mret (option_list c1m ++ option_list c5m).

Definition get_latest_candle (symbol : string) (interval : Z) (s : DataIngestionAgent)
    : option OHLCVCandle.t :=
  if interval =? CANDLE_INTERVAL_5M then dget symbol (ia_latest_5m s) else dget symbol (ia_latest_1m s).

(** [d.update(d')] *)
Definition dict_update {V} (d d' : dict string V) : dict string V :=
  foldl (fun d kv => dset kv.1 kv.2 d) d d'.

Definition flush_open_bars : M DataIngestionAgent (dict string OHLCVCandle.t) :=
  r1 ← M_zoom ia_agg1m set_agg1m flush;
  r5 ← M_zoom ia_agg5m set_agg5m flush;
  mret (dict_update r1 r5).

(** [self._fallback.fetch_ticks(symbol, self._exchange)] *)
Definition fetch (symbol : string) : M DataIngestionAgent (list RawTick.t) := fun s =>
  let '(ticks, fb) := fetch_ticks symbol (ia_exchange s) (ia_fallback s) in (Ok ticks, set_fallback fb s).

Definition inject_swallowed (tick : RawTick.t) : M DataIngestionAgent unit :=
  M_try (_ ← inject_tick tick; mret tt) (fun _ => mret tt).

Definition run_fallback : M DataIngestionAgent unit :=
  s ← M_get;
  M_for (fun symbol => ticks ← fetch symbol; M_for inject_swallowed ticks) (ia_symbols s).

Definition enter_degraded : M DataIngestionAgent unit :=
  s ← M_get;
  if decide (ia_mode s = DEGRADED) then mret tt
  else _ ← M_modify (set_mode DEGRADED); set_degraded.

Definition exit_degraded : M DataIngestionAgent unit :=
  _ ← M_modify (set_mode LIVE);
  clear_degraded.

(** One iteration of [_watchdog_loop]; [false] when the loop ends. *)
Definition watchdog_iteration : M DataIngestionAgent bool :=
  s ← M_get;
  if negb (ia_running s) then mret false
  else
    now ← time_time;
    let elapsed := (now - ia_last_tick_ts s)%pf in
    ws_connected ← on_ws false ws_is_connected;
    if bool_decide (ia_mode s = LIVE) && float_gt_int elapsed WS_FALLBACK_TIMEOUT_SECONDS
       && float_gt_int (ia_last_tick_ts s) 0 then
      _ ← enter_degraded;
      _ ← run_fallback;
      mret true
    else if bool_decide (ia_mode s = DEGRADED) && ws_connected then
      _ ← exit_degraded;
      mret true
    else mret true.

End Agent.
#[global] Arguments DataIngestionAgent W Y R K : clear implicits.

(** * Theorems *)

Section AgentTheory.
Context {W Y R K : Type} `{WebSocketProvider W} `{YFinance Y} `{RedisList R} `{KL : RedisKVLaws K} `{NumPyMinMax}.
#[local] Abbreviation Agent := (DataIngestionAgent W Y R K).

(** ** Ticks *)

Definition tick_clock (s : Agent) : Agent :=
  set_clock {| reading := reading (ia_clock s); taken := S (taken (ia_clock s)) |} s.

Definition now_of (s : Agent) : float := reading (ia_clock s) (taken (ia_clock s)).

Lemma time_time_spec (s : Agent) : time_time s = (Ok (now_of s), tick_clock s).
Proof. done. Qed.

Lemma zoom_spec {T A} get set (m : M T A) (s : Agent) :
  M_zoom get set m s = ((m (get s)).1, set (m (get s)).2 s).
Proof. unfold M_zoom. by destruct (m (get s)). Qed.

Definition note_candle (symbol : string) (c : option OHLCVCandle.t) (d : dict string OHLCVCandle.t) :=
  match c with Some c => dset symbol c d | None => d end.

(** The agent after an accepted tick. *)
Definition accepted (tick : RawTick.t) (v : TickSequenceValidator) c1 a1 c5 a5 (s : Agent) : Agent :=
  let s1 := tick_clock (set_validator v (tick_clock s)) in
  let s2 := set_agg1m a1 (set_last_tick_ts (now_of (tick_clock s)) s1) in
  let s3 := set_latest_1m (note_candle (RawTick.symbol tick) c1 (ia_latest_1m s)) s2 in
  let s4 := set_latest_5m (note_candle (RawTick.symbol tick) c5 (ia_latest_5m s)) (set_agg5m a5 s3) in
  set_buffer (push tick (ia_buffer s)) s4.

Lemma set_latest_1m_id (s : Agent) : set_latest_1m (ia_latest_1m s) s = s.
Proof. by destruct s. Qed.
Lemma set_latest_5m_id (s : Agent) : set_latest_5m (ia_latest_5m s) s = s.
Proof. by destruct s. Qed.
Lemma set_validator_id (s : Agent) : set_validator (ia_validator s) s = s.
Proof. by destruct s. Qed.

(** A tick that fails validation is reported and changes nothing but the
    clock; an accepted tick stamps the agent, goes through both aggregators,
    updates the latest candles of its symbol, is pushed to the buffer once,
    and the candles it completed are returned, one-minute first. *)
Theorem inject_tick_outcome tick (s : Agent) now_ms :
  int_of_float (now_of s * dec 1000 0)%pf = Ok now_ms ->
  ca_interval (ia_agg1m s) * 1000 <> 0 -> ca_interval (ia_agg5m s) * 1000 <> 0 ->
  match validate now_ms tick (ia_validator s) with
  | (Raise e, _) => inject_tick tick s = (Raise e, tick_clock s)
  | (Ok _, v) =>
      exists c1 a1 c5 a5,
        ingest tick (ia_agg1m s) = (Ok c1, a1) /\ ingest tick (ia_agg5m s) = (Ok c5, a5)
        /\ inject_tick tick s = (Ok (option_list c1 ++ option_list c5), accepted tick v c1 a1 c5 a5 s)
  end.
Proof.
  intros Hnow Hiv1 Hiv5. unfold inject_tick. unfold mbind, M_bind, M_modify, M_lift.
  rewrite time_time_spec, Hnow, zoom_spec. cbn [ia_validator tick_clock set_clock].
  pose proof (tick_validation_exact now_ms tick (ia_validator s)) as Hv.
  destruct (validate now_ms tick (ia_validator s)) as [[[]|e] v]; cbn [fst snd].
  - destruct (ingest_total tick (ia_agg1m s) Hiv1) as (c1 & a1 & E1 & _).
    destruct (ingest_total tick (ia_agg5m s) Hiv5) as (c5 & a5 & E5 & _).
    exists c1, a1, c5, a5. split_and!; [done..|].
    rewrite time_time_spec, zoom_spec. cbn [ia_agg1m tick_clock set_clock set_validator set_last_tick_ts].
    rewrite E1. cbn [fst snd]. rewrite zoom_spec.
    destruct c1; cbn [ia_agg5m set_agg1m set_latest_1m tick_clock set_clock set_validator set_last_tick_ts];
      rewrite E5; cbn [fst snd]; destruct c5; done.
  - destruct Hv as (_ & -> & _). by destruct s.
Qed.

(** ** The watchdog *)

(** Injecting ticks never touches what the watchdog controls. *)
Definition same_control (s s' : Agent) : Prop :=
  ia_mode s' = ia_mode s /\ ia_status_redis s' = ia_status_redis s /\ ia_ws s' = ia_ws s
  /\ ia_running s' = ia_running s /\ ia_symbols s' = ia_symbols s.

Lemma same_control_refl s : same_control s s.
Proof. done. Qed.

Lemma same_control_trans s1 s2 s3 : same_control s1 s2 -> same_control s2 s3 -> same_control s1 s3.
Proof. unfold same_control. intuition congruence. Qed.

Lemma inject_tick_control tick (s : Agent) : same_control s (inject_tick tick s).2.
Proof.
  unfold inject_tick. unfold mbind, M_bind, M_modify, M_lift. rewrite time_time_spec.
  destruct (int_of_float _) as [z|e]; [|done]. rewrite zoom_spec.
  destruct (validate z tick _) as [[u|e] v]; [|done]. cbn [fst snd]. rewrite time_time_spec, zoom_spec.
  destruct (ingest tick _) as [[c1|e] a1]; [|done]. cbn [fst snd].
  destruct c1; rewrite zoom_spec; (destruct (ingest tick _) as [[[c5|]|e] a5]; done).
Qed.

Lemma inject_swallowed_control tick (s : Agent) :
  exists s', inject_swallowed tick s = (Ok tt, s') /\ same_control s s'.
Proof.
  unfold inject_swallowed, M_try. unfold mbind, M_bind. pose proof (inject_tick_control tick s) as Hc.
  destruct (inject_tick tick s) as [[l|e] s']; by exists s'.
Qed.

(** A loop of steps that succeed and keep a reflexive, transitive relation. *)
Lemma M_for_relation {S A} (R' : S -> S -> Prop) (body : A -> M S unit) l :
  (forall s, R' s s) -> (forall s1 s2 s3, R' s1 s2 -> R' s2 s3 -> R' s1 s3) ->
  (forall x s, exists s', body x s = (Ok tt, s') /\ R' s s') ->
  forall s, exists s', M_for body l s = (Ok tt, s') /\ R' s s'.
Proof.
  intros Hr Ht Hb. induction l as [|x l IH]; intros s; [by exists s|].
  cbn [M_for]. unfold mbind, M_bind. destruct (Hb x s) as (s1 & -> & H01).
  destruct (IH s1) as (s2 & E & H12). exists s2. split; [exact E|by eapply Ht].
Qed.

Lemma run_fallback_control (s : Agent) : exists s', run_fallback s = (Ok tt, s') /\ same_control s s'.
Proof.
  unfold run_fallback. unfold mbind at 1, M_bind at 1, M_get.
  apply M_for_relation; [apply same_control_refl|apply same_control_trans|].
  intros symbol s0. unfold mbind, M_bind, fetch.
  destruct (fetch_ticks symbol (ia_exchange s0) (ia_fallback s0)) as [ticks fb].
  destruct (M_for_relation same_control inject_swallowed ticks same_control_refl same_control_trans
    inject_swallowed_control (set_fallback fb s0)) as (s1 & -> & Hc).
  by exists s1.
Qed.

(** The condition under which the watchdog leaves LIVE: the last tick is more
    than two seconds old. *)
Definition stale (now : float) (s : Agent) : bool :=
  bool_decide (ia_mode s = LIVE)
  && float_gt_int (now - ia_last_tick_ts s)%pf WS_FALLBACK_TIMEOUT_SECONDS
  && float_gt_int (ia_last_tick_ts s) 0.

(** The status server answers, and its degraded key. *)
Definition status_up (s : Agent) : Prop :=
  match ia_status_redis s with Some r => redis_up r | None => False end.

Definition degraded_flag (s : Agent) : option string :=
  match ia_status_redis s with
  | Some r => redis_kv r !! INGESTION_DEGRADED_REDIS_KEY
  | None => None
  end.

Lemma set_degraded_up (s : Agent) : status_up s ->
  exists s', set_degraded s = (Ok tt, s') /\ degraded_flag s' = Some "true" /\ status_up s'
  /\ ia_mode s' = ia_mode s /\ ia_running s' = ia_running s /\ ia_ws s' = ia_ws s /\ ia_symbols s' = ia_symbols s.
Proof.
  unfold set_degraded, M_modify, status_up, degraded_flag. destruct (ia_status_redis s) as [r|] eqn:E; [|done].
  intros Hup. destruct (redis_set_up INGESTION_DEGRADED_REDIS_KEY "true" None r Hup) as (r' & -> & Hup' & Hkv).
  eexists. split_and!; [done| |done..]. cbn. by rewrite Hkv, lookup_insert_eq.
Qed.

Lemma clear_degraded_up (s : Agent) : status_up s ->
  exists r, clear_degraded s = (Ok tt, set_status_redis (Some r) s)
  /\ redis_up r /\ redis_kv r !! INGESTION_DEGRADED_REDIS_KEY = None.
Proof.
  unfold clear_degraded, M_modify, status_up. destruct (ia_status_redis s) as [r|] eqn:E; [|done].
  intros Hup. destruct (redis_delete_up INGESTION_DEGRADED_REDIS_KEY r Hup) as (r' & -> & Hup' & Hkv).
  exists r'. split_and!; [done..|]. by rewrite Hkv, lookup_delete_eq.
Qed.

(** What one iteration reads: the clock and the socket. *)
Definition observed (w' : option W) (s : Agent) : Agent :=
  match w' with Some w' => set_ws (Some w') (tick_clock s) | None => tick_clock s end.

Definition socket (s : Agent) (connected : bool) (w' : option W) : Prop :=
  match ia_ws s with
  | Some w => exists w1, ws_is_connected w = (Ok connected, w1) /\ w' = Some w1
  | None => connected = false /\ w' = None
  end.

Lemma on_ws_socket (s : Agent) connected w' : socket (tick_clock s) connected w' ->
  on_ws false ws_is_connected (tick_clock s) = (Ok connected, observed w' s).
Proof.
  unfold socket, on_ws, observed. destruct (ia_ws (tick_clock s)) as [w|].
  - intros (w1 & -> & ->). done.
  - by intros [-> ->].
Qed.

(** One watchdog iteration of a running agent goes from LIVE to DEGRADED
    exactly when the last tick is more than two seconds old, and from
    DEGRADED back to LIVE exactly when the socket says it is connected; the
    degraded flag in Redis is set, respectively removed, at these two
    moments only, and no tick is ingested except when DEGRADED is entered. *)
Theorem watchdog_iteration_exact (s : Agent) connected w' :
  ia_running s = true -> status_up s -> socket (tick_clock s) connected w' ->
  exists s', watchdog_iteration s = (Ok true, s') /\ status_up s' /\
  if stale (now_of s) s then ia_mode s' = DEGRADED /\ degraded_flag s' = Some "true"
  else if bool_decide (ia_mode s = DEGRADED) && connected
  then degraded_flag s' = None
       /\ exists r, s' = set_status_redis (Some r) (set_mode LIVE (observed w' s))
  else s' = observed w' s.
Proof.
  intros Hrun Hup Hws. unfold watchdog_iteration. unfold mbind, M_bind, M_get. rewrite Hrun. cbn [negb].
  rewrite time_time_spec, (on_ws_socket s connected w' Hws). fold (stale (now_of s) s).
  assert (Hobs : ia_mode (observed w' s) = ia_mode s /\ ia_status_redis (observed w' s) = ia_status_redis s)
    by (by destruct w').
  destruct Hobs as [Hm Hst].
  destruct (stale (now_of s) s) eqn:Hs.
  - unfold enter_degraded. unfold mbind, M_bind, M_get, M_modify. rewrite Hm.
    assert (ia_mode s = LIVE) as Hl.
    { unfold stale in Hs. destruct (ia_mode s); done. }
    rewrite Hl. rewrite decide_False by done.
    destruct (set_degraded_up (set_mode DEGRADED (observed w' s))) as (s1 & -> & Hf & Hup1 & Hm1 & _).
    { unfold status_up in *. cbn. by rewrite Hst. }
    destruct (run_fallback_control s1) as (s2 & -> & Hc). destruct Hc as (Hc1 & Hc2 & _).
    exists s2. split; [done|]. unfold status_up, degraded_flag in *. rewrite Hc1, Hc2, Hm1. done.
  - destruct (bool_decide (ia_mode s = DEGRADED) && connected) eqn:Hd.
    + unfold exit_degraded. unfold mbind, M_bind, M_modify.
      destruct (clear_degraded_up (set_mode LIVE (observed w' s))) as (r & -> & Hr & Hk).
      { unfold status_up in *. cbn. by rewrite Hst. }
      eexists. split; [done|]. split; [exact Hr|]. split; [exact Hk|]. by exists r.
    + eexists. split; [done|]. split; [|done]. unfold status_up in *. by rewrite Hst.
Qed.

(** [n] iterations of the watchdog. *)
Definition polls (n : nat) : M Agent unit :=
  M_for (fun _ => _ ← watchdog_iteration; mret tt) (replicate n tt).

Lemma polls_S n (s s1 : Agent) b :
  watchdog_iteration s = (Ok b, s1) -> polls (S n) s = polls n s1.
Proof. intros E. unfold polls. cbn [replicate M_for]. unfold mbind, M_bind. by rewrite E. Qed.

Lemma observed_spec w' (s : Agent) :
  ia_mode (observed w' s) = ia_mode s /\ ia_running (observed w' s) = ia_running s
  /\ ia_last_tick_ts (observed w' s) = ia_last_tick_ts s
  /\ ia_clock (observed w' s) = {| reading := reading (ia_clock s); taken := S (taken (ia_clock s)) |}.
Proof. by destruct w'. Qed.

Lemma socket_answers (s : Agent) :
  (forall w : W, exists b w', ws_is_connected w = (Ok b, w')) -> exists connected w', socket s connected w'.
Proof.
  intros Hws. unfold socket. destruct (ia_ws s) as [w|]; [|by exists false, None].
  destruct (Hws w) as (b & w1 & E). by exists b, (Some w1), w1.
Qed.

(** Until a first tick, iterations observe and do nothing else. *)
Lemma polls_before_first_tick (s : Agent) n :
  (forall w : W, exists b w', ws_is_connected w = (Ok b, w')) ->
  ia_running s = true -> status_up s -> ia_mode s = LIVE -> float_gt_int (ia_last_tick_ts s) 0 = false ->
  exists s', polls n s = (Ok tt, s') /\ ia_mode s' = LIVE /\ degraded_flag s' = degraded_flag s.
Proof.
  intros Hws. revert s. induction n as [|n IH]; intros s Hrun Hup Hm Hlast; [by exists s|].
  destruct (socket_answers (tick_clock s) Hws) as (b & w' & Hsock).
  destruct (watchdog_iteration_exact s b w' Hrun Hup Hsock) as (s1 & E & Hup1 & Hs1).
  assert (Hst : stale (now_of s) s = false) by (unfold stale; by rewrite Hlast, andb_false_r).
  rewrite Hst, Hm, bool_decide_false in Hs1 by done. cbn [andb] in Hs1. subst s1.
  destruct (observed_spec w' s) as (Om & Or & Ol & _).
  destruct (IH (observed w' s)) as (s2 & Hp & Hm2 & Hf); [by rewrite Or|done|by rewrite Om|by rewrite Ol|].
  exists s2. rewrite (polls_S n s _ true E), Hf. split_and!; [done|done|]. by destruct w'.
Qed.

(** C40. What silence does to a live agent whose watchdog runs, whose socket
    object answers and whose status Redis is reachable.  When a tick was
    already received and some later clock reading is more than two seconds past
    it, then after at most as many iterations the mode is DEGRADED and the flag
    that blocks new entries is set.  When no tick was ever received, the agent
    stays LIVE and the flag as it was, however many iterations run and
    whatever the clock says: a feed that is silent from the start is never
    degraded. *)
Theorem silent_feed_degrades (s : Agent) :
  (forall w : W, exists b w', ws_is_connected w = (Ok b, w')) ->
  ia_running s = true -> status_up s -> ia_mode s = LIVE ->
  if float_gt_int (ia_last_tick_ts s) 0 then
    forall k, (taken (ia_clock s) <= k)%nat ->
    float_gt_int (reading (ia_clock s) k - ia_last_tick_ts s)%pf 2 = true ->
    exists n s', (n <= S (k - taken (ia_clock s)))%nat /\ polls n s = (Ok tt, s')
    /\ ia_mode s' = DEGRADED /\ degraded_flag s' = Some "true"
  else forall n, exists s', polls n s = (Ok tt, s') /\ ia_mode s' = LIVE /\ degraded_flag s' = degraded_flag s.
Proof.
  intros Hws Hrun Hup Hm. destruct (float_gt_int (ia_last_tick_ts s) 0) eqn:Hlast;
    [|intros n; by apply polls_before_first_tick].
  intros k. remember (k - taken (ia_clock s))%nat as d eqn:Hd. revert s Hd Hrun Hup Hm Hlast.
  induction d as [|d IH]; intros s Hd Hrun Hup Hm Hlast Hle Hk;
    destruct (socket_answers (tick_clock s) Hws) as (b & w' & Hsock);
    destruct (watchdog_iteration_exact s b w' Hrun Hup Hsock) as (s1 & E & Hup1 & Hs1);
    destruct (stale (now_of s) s) eqn:Hst.
  1,3: exists 1%nat, s1; rewrite (polls_S 0 s s1 true E); split_and!; [lia|done|apply Hs1..].
  - exfalso. unfold stale, now_of in Hst. rewrite bool_decide_true, Hlast in Hst by done.
    replace (taken (ia_clock s)) with k in Hst by lia.
    change WS_FALLBACK_TIMEOUT_SECONDS with 2 in Hst. by rewrite Hk in Hst.
  - rewrite Hm in Hs1. rewrite bool_decide_false in Hs1 by done. cbn [andb] in Hs1. subst s1.
    destruct (observed_spec w' s) as (Om & Or & Ol & Oc).
    destruct (IH (observed w' s)) as (n & s2 & Hn & Hp & Hend).
    all: rewrite ?Oc, ?Om, ?Or, ?Ol; cbn [taken reading]; try done; try lia.
    exists (S n), s2. split; [lia|]. by rewrite (polls_S n s _ true E).
Qed.

Lemma degraded_not_stale now (s : Agent) : ia_mode s = DEGRADED -> stale now s = false.
Proof. intros Hm. unfold stale. by rewrite bool_decide_false by congruence. Qed.

(** A socket that is connected but silent makes the agent flap: an iteration
    after it was degraded it is live again and the flag is gone, although no
    tick has arrived. *)
Lemma silent_socket_flaps (s : Agent) w' :
  ia_running s = true -> status_up s -> ia_mode s = DEGRADED -> socket (tick_clock s) true w' ->
  exists s', watchdog_iteration s = (Ok true, s') /\ ia_mode s' = LIVE /\ degraded_flag s' = None
  /\ ia_last_tick_ts s' = ia_last_tick_ts s.
Proof.
  intros Hrun Hup Hm Hs. destruct (watchdog_iteration_exact s true w' Hrun Hup Hs) as (s' & E & _ & H').
  rewrite degraded_not_stale, bool_decide_true in H' by done. destruct H' as (Hf & r & ->). eexists. split_and!; [exact E|done|done|].
  cbn. apply (observed_spec w' s).
Qed.

(** While degraded and disconnected, an iteration reads the clock and the
    socket and does nothing else: the fallback is polled only on entry. *)
Lemma degraded_polls_nothing (s : Agent) w' :
  ia_running s = true -> status_up s -> ia_mode s = DEGRADED -> socket (tick_clock s) false w' ->
  watchdog_iteration s = (Ok true, observed w' s).
Proof.
  intros Hrun Hup Hm Hs. destruct (watchdog_iteration_exact s false w' Hrun Hup Hs) as (s' & E & _ & H').
  rewrite degraded_not_stale, bool_decide_true in H' by done. cbn in H'. by subst.
Qed.

(** An agent stopped while degraded and started again neither connects its
    socket nor starts a watchdog, and its flag is gone. *)
Lemma restart_while_degraded (s : Agent) w w1 :
  ia_running s = true -> status_up s -> ia_mode s = DEGRADED -> ia_watchdog s = false ->
  ia_ws s = Some w -> ws_disconnect w = (Ok tt, w1) ->
  exists s', (_ ← stop; start) s = (Ok tt, s') /\ ia_running s' = true /\ ia_mode s' = DEGRADED
  /\ ia_ws s' = Some w1 /\ ia_watchdog s' = false /\ degraded_flag s' = None.
Proof.
  intros Hrun Hup Hm Hwd Hw Hd. unfold stop. unfold mbind, M_bind, M_modify, on_ws. cbn.
  rewrite Hw, Hd.
  destruct (clear_degraded_up (set_ws (Some w1) (set_running false s))) as (r & -> & Hr & Hk); [exact Hup|].
  unfold start. unfold mbind, M_bind, M_get, M_modify. cbn. rewrite Hm.
  rewrite decide_False by done. eexists. split_and!; [done..|exact Hwd|exact Hk].
Qed.

(** ** Closing the session *)

Lemma dict_update_get {V} (d d' : dict string V) k : NoDup (dkeys d') ->
  dget k (dict_update d d') = match dget k d' with Some v => Some v | None => dget k d end.
Proof.
  unfold dict_update. revert d. induction d' as [|[k1 v1] d' IH]; intros d Hn; [done|].
  unfold dkeys in Hn. apply NoDup_cons in Hn as [Hn Hd]. cbn [foldl dget fst snd].
  rewrite IH by done. destruct (decide (k = k1)) as [->|Hne].
  - assert (dget k1 d' = None) as -> by by apply dget_None. by rewrite dget_dset_eq.
  - by rewrite dget_dset_ne.
Qed.


(** ** Well-formedness *)

(** The aggregators are well formed, have their intervals and see the same
    books; the latest candles are well formed and filed under their symbol;
    the fallback's exchange is a valid one. *)
Definition agent_wf (s : Agent) : Prop :=
  aggregator_wf (ia_agg1m s) /\ aggregator_wf (ia_agg5m s)
  /\ ca_interval (ia_agg1m s) = CANDLE_INTERVAL_1M /\ ca_interval (ia_agg5m s) = CANDLE_INTERVAL_5M
  /\ (forall k, is_Some (dget k (ca_bars (ia_agg1m s))) <-> is_Some (dget k (ca_bars (ia_agg5m s))))
  /\ Forall (fun kv => candle_ok kv.1 CANDLE_INTERVAL_1M kv.2) (ia_latest_1m s)
  /\ Forall (fun kv => candle_ok kv.1 CANDLE_INTERVAL_5M kv.2) (ia_latest_5m s)
  /\ no_colon (ia_exchange s).

(** The parts [agent_wf] speaks of. *)
Definition same_bars (s s' : Agent) : Prop :=
  ia_agg1m s' = ia_agg1m s /\ ia_agg5m s' = ia_agg5m s
  /\ ia_latest_1m s' = ia_latest_1m s /\ ia_latest_5m s' = ia_latest_5m s /\ ia_exchange s' = ia_exchange s.

Lemma agent_wf_same s s' : same_bars s s' -> agent_wf s -> agent_wf s'.
Proof. unfold agent_wf. by intros (-> & -> & -> & -> & ->). Qed.

Lemma note_candle_ok symbol iv c d :
  Forall (fun kv => candle_ok kv.1 iv kv.2) d -> (forall c', c = Some c' -> candle_ok symbol iv c') ->
  Forall (fun kv => candle_ok kv.1 iv kv.2) (note_candle symbol c d).
Proof.
  intros Hd Hc. destruct c as [c|]; [|done]. apply dset_Forall; [done|]. intros k <-. by apply Hc.
Qed.

Lemma accepted_volume now_ms tick v u v' : validate now_ms tick v = (Ok u, v') -> 0 <= RawTick.volume tick.
Proof.
  intros E. pose proof (tick_validation_exact now_ms tick v) as Hv. rewrite E in Hv.
  destruct Hv as [Ha _]. unfold acceptable in Ha. rewrite !andb_true_iff in Ha.
  destruct Ha as [[[_ Ha] _] _]. by apply Z.leb_le in Ha.
Qed.

Lemma inject_tick_wf tick (s : Agent) :
  no_colon (RawTick.exchange tick) -> agent_wf s -> agent_wf (inject_tick tick s).2.
Proof.
  intros Ht Hs. pose proof Hs as (W1 & W5 & I1 & I5 & Hk & L1 & L5 & He).
  destruct (int_of_float (now_of s * dec 1000 0)%pf) as [now_ms|e] eqn:Hnow.
  2: { unfold inject_tick. unfold mbind, M_bind, M_lift. rewrite time_time_spec, Hnow. done. }
  pose proof (inject_tick_outcome tick s now_ms Hnow (proj1 W1) (proj1 W5)) as Hi.
  destruct (validate now_ms tick (ia_validator s)) as [[[]|e] v] eqn:Ev; [|rewrite Hi; done].
  apply accepted_volume in Ev. destruct Hi as (c1 & a1 & c5 & a5 & E1 & E5 & ->). cbn [fst snd].
  destruct (ingest_total tick (ia_agg1m s) (proj1 W1)) as (c1' & a1' & E1' & J1 & K1).
  destruct (ingest_total tick (ia_agg5m s) (proj1 W5)) as (c5' & a5' & E5' & J5 & K5).
  rewrite E1 in E1'. injection E1' as <- <-. rewrite E5 in E5'. injection E5' as <- <-.
  destruct (ingest_wf tick _ _ _ Ht Ev W1 E1) as [W1' C1].
  destruct (ingest_wf tick _ _ _ Ht Ev W5 E5) as [W5' C5]. rewrite I1 in C1. rewrite I5 in C5.
  split_and!; [exact W1'|exact W5'|exact (eq_trans J1 I1)|exact (eq_trans J5 I5)| | | |exact He].
  - intros k. change (is_Some (dget k (ca_bars a1)) <-> is_Some (dget k (ca_bars a5))).
    rewrite K1, K5. by rewrite Hk.
  - by apply (note_candle_ok _ _ c1).
  - by apply (note_candle_ok _ _ c5).
Qed.

Lemma inject_swallowed_wf tick : no_colon (RawTick.exchange tick) -> keeps agent_wf (inject_swallowed tick).
Proof.
  intros Ht. unfold inject_swallowed. repeat keeps_step. intros s. by apply inject_tick_wf.
Qed.

(** The fallback's ticks carry the exchange that was asked for. *)
Lemma fetch_ticks_exchange symbol exchange (fb : YFinanceFallback Y) :
  Forall (fun t => RawTick.exchange t = exchange) (fetch_ticks symbol exchange fb).1.
Proof.
  unfold fetch_ticks. destruct (fb_package fb) as [y|]; [|constructor].
  destruct (yf_download _ _ y) as [[[rows|]|e] y']; try constructor. cbn [fst].
  destruct (for_each _ [] rows) as [ticks|] eqn:E; [|constructor].
  refine (for_each_invariant (Forall (fun t => RawTick.exchange t = exchange)) _ rows _ [] ticks _ E);
    [|constructor].
  intros acc row acc' _ Ha. unfold tick_of_bar. intros Hr. bind_inv Hr. bind_inv Hr.
  destruct (fle _ _); injection Hr as <-; [done|]. by apply Forall_app_2, Forall_singleton.
Qed.

Lemma run_fallback_wf : keeps agent_wf run_fallback.
Proof.
  intros s Hs. unfold run_fallback. unfold mbind at 1, M_bind at 1, M_get.
  generalize (ia_symbols s). intros symbols. apply M_for_invariant; [|done]. clear s Hs. intros symbol s _ Hs.
  unfold mbind, M_bind, fetch. pose proof (fetch_ticks_exchange symbol (ia_exchange s) (ia_fallback s)) as Hx.
  destruct (fetch_ticks symbol (ia_exchange s) (ia_fallback s)) as [ticks fb]. cbn [fst] in Hx.
  apply M_for_invariant.
  - intros t s0 Hin. apply inject_swallowed_wf. rewrite Forall_forall in Hx. rewrite (Hx t Hin).
    by destruct Hs as (_ & _ & _ & _ & _ & _ & _ & He).
  - revert Hs. by apply agent_wf_same.
Qed.

Lemma degraded_same (s : Agent) : same_bars s (set_degraded s).2 /\ same_bars s (clear_degraded s).2.
Proof. unfold set_degraded, clear_degraded, M_modify. cbn. by destruct (ia_status_redis s). Qed.

Lemma on_ws_same {A} (a : A) f (s : Agent) : same_bars s (on_ws a f s).2.
Proof. unfold on_ws. destruct (ia_ws s) as [w|]; [|done]. by destruct (f w). Qed.

Lemma same_bars_keeps {A} (m : M Agent A) : (forall s, same_bars s (m s).2) -> keeps agent_wf m.
Proof. intros Hm s Hs. exact (agent_wf_same _ _ (Hm s) Hs). Qed.

Lemma set_degraded_keeps : keeps agent_wf set_degraded.
Proof. apply same_bars_keeps. intros s. apply degraded_same. Qed.
Lemma clear_degraded_keeps : keeps agent_wf clear_degraded.
Proof. apply same_bars_keeps. intros s. apply degraded_same. Qed.
Lemma on_ws_keeps {A} (a : A) f : keeps agent_wf (on_ws a f).
Proof. apply same_bars_keeps. intros s. apply on_ws_same. Qed.
Lemma time_time_keeps : keeps agent_wf time_time.
Proof. by apply same_bars_keeps. Qed.
#[local] Hint Resolve set_degraded_keeps clear_degraded_keeps on_ws_keeps time_time_keeps run_fallback_wf : keeps.

Lemma watchdog_iteration_wf : keeps agent_wf watchdog_iteration.
Proof. unfold watchdog_iteration, enter_degraded, exit_degraded. repeat keeps_step; assumption. Qed.

Lemma start_wf : keeps agent_wf start.
Proof. unfold start. repeat keeps_step; assumption. Qed.

Lemma stop_wf : keeps agent_wf stop.
Proof. unfold stop. repeat keeps_step; assumption. Qed.

(** Closing a session returns, for every book seen, the five-minute bar and
    only it: the open one-minute bars share its keys and are overwritten. *)
Lemma close_returns_five_minute_bars (s : Agent) ticks :
  agent_wf s -> Forall (fun t => no_colon (RawTick.exchange t)) ticks ->
  let s1 := (M_for inject_swallowed ticks s).2 in
  exists r s2, flush_open_bars s1 = (Ok r, s2)
  /\ forall symbol exchange, no_colon exchange ->
       dget (book_key symbol exchange) r
       = candle_of symbol exchange CANDLE_INTERVAL_5M <$> dget (book_key symbol exchange) (ca_bars (ia_agg5m s1)).
Proof.
  intros Hs Ht s1.
  assert (agent_wf s1) as (W1 & W5 & I1 & I5 & Hk & _).
  { apply M_for_invariant; [|done]. intros t s0 Hin. apply inject_swallowed_wf.
    rewrite Forall_forall in Ht. by apply Ht. }
  destruct (ia_agg1m s1) as [iv1 b1] eqn:A1, (ia_agg5m s1) as [iv5 b5] eqn:A5. cbn in *. subst iv1 iv5.
  destruct (flush_spec CANDLE_INTERVAL_1M b1) as (c1 & F1 & _ & D1); [apply W1..|].
  destruct (flush_spec CANDLE_INTERVAL_5M b5) as (c5 & F5 & N5 & D5); [apply W5..|].
  unfold flush_open_bars. unfold mbind, M_bind. rewrite zoom_spec, A1, F1. cbn [fst snd].
  rewrite zoom_spec. cbn [ia_agg5m set_agg1m]. rewrite A5, F5. cbn [fst snd].
  eexists _, _. split; [done|]. intros symbol exchange He.
  rewrite dict_update_get by done.
  rewrite D5, D1 by done. specialize (Hk (book_key symbol exchange)).
  destruct (dget (book_key symbol exchange) b5) as [b|]; [done|]. cbn.
  destruct (dget (book_key symbol exchange) b1); [|done]. destruct Hk as [Hk _]. by destruct Hk.
Qed.

Lemma flush_open_bars_wf : keeps agent_wf flush_open_bars.
Proof.
  intros s (W1 & W5 & I1 & I5 & _ & L1 & L5 & He).
  destruct (ia_agg1m s) as [iv1 b1] eqn:A1, (ia_agg5m s) as [iv5 b5] eqn:A5. cbn in *. subst iv1 iv5.
  destruct (flush_spec CANDLE_INTERVAL_1M b1) as (c1 & F1 & _); [apply W1..|].
  destruct (flush_spec CANDLE_INTERVAL_5M b5) as (c5 & F5 & _); [apply W5..|].
  unfold flush_open_bars. unfold mbind, M_bind. rewrite zoom_spec, A1, F1. cbn [fst snd].
  rewrite zoom_spec. cbn [ia_agg5m set_agg1m]. rewrite A5, F5. cbn [fst snd].
  split_and!; try done; apply new_aggregator_wf; done.
Qed.

(** The public methods and the iterations of the watchdog. *)
Inductive agent_call : Type :=
| CallStart
| CallStop
| CallInject (tick : RawTick.t)
| CallWatchdog
| CallFlush.

Definition run_call (c : agent_call) : M Agent unit :=
  match c with
  | CallStart => start
  | CallStop => stop
  | CallInject tick => _ ← inject_tick tick; mret tt
  | CallWatchdog => _ ← watchdog_iteration; mret tt
  | CallFlush => _ ← flush_open_bars; mret tt
  end.

(** Calls whose exceptions the caller handles. *)
Definition run_calls (calls : list agent_call) : M Agent unit :=
  M_for (fun c => M_try (run_call c) (fun _ => mret tt)) calls.

(** Every method of the agent keeps its data well formed, whatever the
    clock, the sockets, Redis and the fallback answer and also when it
    raises: the aggregators keep one bar per book, aligned and not empty,
    both see the same books, and the latest candles have the interval of
    their table, the symbol they are filed under, an aligned start, at least
    one tick and no negative volume. *)
Theorem agent_stays_well_formed calls (s : Agent) :
  (forall tick, CallInject tick ∈ calls -> no_colon (RawTick.exchange tick)) ->
  agent_wf s -> agent_wf (run_calls calls s).2.
Proof.
  intros Hc Hs. revert s Hs. change (keeps agent_wf (run_calls calls)). apply keeps_for. intros c Hin.
  pose proof start_wf. pose proof stop_wf. pose proof watchdog_iteration_wf. pose proof flush_open_bars_wf.
  assert (Hinj : forall tick, c = CallInject tick -> keeps agent_wf (inject_tick tick)).
  { intros tick -> s'. apply inject_tick_wf. by apply Hc. }
  destruct c; cbn [run_call]; repeat keeps_step; auto.
Qed.

End AgentTheory.

(** ** Sample agents *)

#[local] Instance fixed_socket : WebSocketProvider bool := {
  ws_connect w := (Ok tt, true); ws_disconnect w := (Ok tt, false); ws_is_connected w := (Ok w, w);
}.
#[local] Instance no_yfinance : YFinance unit := { yf_download _ _ y := (Ok None, y) }.
#[local] Existing Instance numpy_min_max.

(** One clock reading per second from 100 s; the last tick arrived at 100 s. *)
Definition sample_agent : DataIngestionAgent bool unit MemRedis MemRedis :=
  {| ia_symbols := ["INFY"]; ia_exchange := "NSE"; ia_ws := Some true;
     ia_fallback := {| fb_period_minutes := 5; fb_package := None |}; ia_validator := [];
     ia_agg1m := new_aggregator CANDLE_INTERVAL_1M; ia_agg5m := new_aggregator CANDLE_INTERVAL_5M;
     ia_buffer := sample_buffer; ia_status_redis := Some mem_empty; ia_mode := LIVE;
     ia_last_tick_ts := dec 100 0; ia_latest_1m := []; ia_latest_5m := []; ia_running := true;
     ia_watchdog := true;
     ia_clock := {| reading k := dec (100 + Z.of_nat k) 0; taken := 0 |} |}.

Definition sample_tick : RawTick.t := RawTick.mk "INFY" "NSE" (dec 1500 0) 10 99000.

Lemma inject_tick_outcome_witness :
  exists c1 a1 c5 a5,
    ingest sample_tick (ia_agg1m sample_agent) = (Ok c1, a1)
    /\ ingest sample_tick (ia_agg5m sample_agent) = (Ok c5, a5)
    /\ inject_tick sample_tick sample_agent
       = (Ok (option_list c1 ++ option_list c5), accepted sample_tick [("NSE:INFY", 99000)] c1 a1 c5 a5 sample_agent).
Proof.
  exact (inject_tick_outcome sample_tick sample_agent 100000 eq_refl ltac:(discriminate) ltac:(discriminate)).
Defined.

(** Three seconds after the last tick. *)
Definition silent_agent : DataIngestionAgent bool unit MemRedis MemRedis :=
  set_clock {| reading k := dec (100 + Z.of_nat k) 0; taken := 3 |} sample_agent.

Lemma watchdog_iteration_exact_witness :
  exists s', watchdog_iteration silent_agent = (Ok true, s') /\ status_up s' /\
    (ia_mode s' = DEGRADED /\ degraded_flag s' = Some "true").
Proof.
  apply (watchdog_iteration_exact silent_agent true (Some true)); [done|done|].
  exists true. done.
Defined.

Lemma silent_feed_degrades_witness :
  exists n s', (n <= 4)%nat /\ polls n sample_agent = (Ok tt, s')
    /\ ia_mode s' = DEGRADED /\ degraded_flag s' = Some "true".
Proof.
  apply (silent_feed_degrades sample_agent ltac:(intros w; by exists w, w) eq_refl eq_refl eq_refl 3%nat);
    [cbn; lia|vm_compute; done].
Defined.

(** The mode alternates while the connected socket stays silent. *)
Example flapping :
  ia_mode (polls 1 silent_agent).2 = DEGRADED /\ ia_mode (polls 2 silent_agent).2 = LIVE
  /\ ia_mode (polls 3 silent_agent).2 = DEGRADED.
Proof. vm_compute. done. Qed.

Lemma agent_stays_well_formed_witness :
  agent_wf (run_calls [CallInject sample_tick; CallWatchdog; CallFlush; CallStop; CallStart] sample_agent).2.
Proof.
  apply (agent_stays_well_formed [CallInject sample_tick; CallWatchdog; CallFlush; CallStop; CallStart] sample_agent).
  - intros tick Hin. repeat (apply elem_of_cons in Hin as [Hin|Hin]; [by injection Hin as -> || discriminate Hin|]).
    by apply elem_of_nil in Hin.
  - split_and!; try done; try apply new_aggregator_wf; try done; constructor.
Defined.
