(* ===== verification/Backtesting.v ===== *)
(** * Backtesting ([shared/backtesting])

    [models.py], [slippage.py], [promotion_gate.py], [metrics.py],
    [markout.py], [engine.py] and [walk_forward.py].  NumPy's reductions, the
    random generator, TA-Lib's EMA and vectorbt are parameters; element-wise
    NumPy arithmetic is binary64, which does not raise.  A candle's [time] is
    its local time in microseconds, so that [time.date()] is a division.  The
    run identifier and the completion time of a result are arguments. *)

From Stdlib Require Import SpecFloat.
From stdpp Require Import sorting.
From S2P Require Import Prelude PyFloat PyDict Constants MarketData NumPy.
Local Open Scope Z_scope.

(** ** Third-party interfaces *)

(** [Generator.lognormal(mean, sigma)] *)
Class NumPyGenerator (G : Type) := {
  rng_lognormal : float -> float -> G -> float * G;
}.

(** ** Models ([models.py]) *)

Definition DIRECTION_LONG : Z := 1.
Definition DIRECTION_SHORT : Z := -1.

Module SlippageBucket.
Record t := mk {
  name : string;
  start_hour : Z;
  start_minute : Z;
  end_hour : Z;
  end_minute : Z;
  mu : float;
  sigma : float;
}.
End SlippageBucket.

Module Trade.
Record t := mk {
  trade_id : string;
  symbol : string;
  exchange : string;
  strategy_id : string;
  direction : Z;
  entry_time : Z;
  exit_time : Z;
  entry_price : float;
  exit_price : float;
  entry_slippage_bps : float;
  exit_slippage_bps : float;
  quantity : float;
  pnl : float;
  pnl_pct : float;
}.
End Trade.

Module MarkoutPoint.
Record t := mk {
  offset_label : string;
  avg_return_pct : float;
  median_return_pct : float;
  win_rate_at_offset : float;
  sample_count : Z;
}.
End MarkoutPoint.

Module BacktestMetrics.
Record t := mk {
  sharpe_ratio : float;
  sortino_ratio : float;
  max_drawdown_pct : float;
  win_rate_pct : float;
  expectancy_per_trade : float;
  profit_factor : float;
  calmar_ratio : float;
  avg_slippage_bps : float;
  total_trades : Z;
  trading_days : Z;
  total_return_pct : float;
  annualized_return_pct : float;
}.
End BacktestMetrics.

Module BacktestConfig.
Record t := mk {
  strategy_id : string;
  symbol : string;
  exchange : string;
  start_date : Z;
  end_date : Z;
  initial_capital : float;
  position_size_pct : float;
  risk_free_rate_annual : float;
}.
End BacktestConfig.

Module BacktestResult.
Record t := mk {
  run_id : string;
  config : BacktestConfig.t;
  trades : list Trade.t;
  metrics : BacktestMetrics.t;
  markout_curves : list MarkoutPoint.t;
  equity_curve : list (Z * float);
  passed_promotion_gate : bool;
  promotion_failures : list string;
  report_html_path : option string;
  report_csv_path : option string;
  completed_at : Z;
}.
End BacktestResult.

Module WalkForwardWindow.
Record t := mk {
  window_index : Z;
  in_sample_start : Z;
  in_sample_end : Z;
  out_of_sample_start : Z;
  out_of_sample_end : Z;
  best_params : dict string float;
  in_sample_metrics : BacktestMetrics.t;
  out_of_sample_metrics : BacktestMetrics.t;
  passed_oos_gate : bool;
}.
End WalkForwardWindow.

Module WalkForwardResult.
Record t := mk {
  strategy_id : string;
  symbol : string;
  exchange : string;
  windows : list WalkForwardWindow.t;
  avg_oos_sharpe : float;
  avg_oos_drawdown_pct : float;
  avg_oos_win_rate_pct : float;
  windows_passed : Z;
}.
End WalkForwardResult.

(** ** Promotion gate ([promotion_gate.py]) *)

Definition GATE_LABEL_days : string := "min_trading_days >= 20".
Definition GATE_LABEL_sharpe : string := "sharpe_ratio > 1.5".
Definition GATE_LABEL_win_rate : string := "win_rate_pct > 50.0".
Definition GATE_LABEL_drawdown : string := "max_drawdown_pct < 5.0".

Definition check_promotion_gate (metrics : BacktestMetrics.t) : list string :=
  let failures := [] in
  let failures :=
    if BacktestMetrics.trading_days metrics <? PAPER_TRADING_MIN_DAYS
    then failures ++ [GATE_LABEL_days] else failures in
  let failures :=
    if fle (BacktestMetrics.sharpe_ratio metrics) PAPER_TRADING_MIN_SHARPE
    then failures ++ [GATE_LABEL_sharpe] else failures in
  let failures :=
    if fle (BacktestMetrics.win_rate_pct metrics) PAPER_TRADING_MIN_WIN_RATE_PCT
    then failures ++ [GATE_LABEL_win_rate] else failures in
  let failures :=
    if fle PAPER_TRADING_MAX_DRAWDOWN_PCT (BacktestMetrics.max_drawdown_pct metrics)
    then failures ++ [GATE_LABEL_drawdown] else failures in
  failures.

(** ** Slippage ([slippage.py]) *)

Definition OPEN_BUCKET : SlippageBucket.t :=
  SlippageBucket.mk "OPEN" 9 15 10 0 SLIPPAGE_BUCKET_OPEN_MU SLIPPAGE_BUCKET_OPEN_SIGMA.
Definition MID_SESSION_BUCKET : SlippageBucket.t :=
  SlippageBucket.mk "MID_SESSION" 10 0 14 30 SLIPPAGE_BUCKET_MID_MU SLIPPAGE_BUCKET_MID_SIGMA.
Definition CLOSE_BUCKET : SlippageBucket.t :=
  SlippageBucket.mk "CLOSE" 14 30 15 10 SLIPPAGE_BUCKET_CLOSE_MU SLIPPAGE_BUCKET_CLOSE_SIGMA.

Definition ALL_BUCKETS : list SlippageBucket.t := [OPEN_BUCKET; MID_SESSION_BUCKET; CLOSE_BUCKET].

(** [t.hour] and [t.minute] of a local time *)
Definition hour_of (t : Z) : Z := t mod DAY / HOUR.
Definition minute_of (t : Z) : Z := t mod HOUR / MINUTE.

(** [t.date()] *)
Definition date_of (t : Z) : Z := t / DAY.

Definition bucket_contains (bucket : SlippageBucket.t) (h m : Z) : bool :=
  let t := h * 60 + m in
  let start := SlippageBucket.start_hour bucket * 60 + SlippageBucket.start_minute bucket in
  let stop := SlippageBucket.end_hour bucket * 60 + SlippageBucket.end_minute bucket in
  (start <=? t) && (t <? stop).

Definition get_bucket (signal_time : Z) : SlippageBucket.t :=
  let h := hour_of signal_time in
  let m := minute_of signal_time in
  default MID_SESSION_BUCKET (find_first (fun b => bucket_contains b h m) ALL_BUCKETS).

Definition sample_slippage_bps {G} `{NumPyGenerator G} (signal_time : Z) (spread_bps : float)
    : M G float := fun rng =>
  let bucket := get_bucket signal_time in
  let '(raw_bps, rng) := rng_lognormal (SlippageBucket.mu bucket) (SlippageBucket.sigma bucket) rng in
  let scale := fdiv (pymax spread_bps f_zero) SLIPPAGE_REFERENCE_SPREAD_BPS in
  (Ok (raw_bps * scale)%pf, rng).

(** One observation of [fit_from_fills]. *)
Definition observe_fill (observations : dict string (list float)) (fill : Z * float * float)
    : result (dict string (list float)) :=
  let '(signal_time, signal_price, fill_price) := fill in
  if fle signal_price f_zero then mret observations
  else
    q ← pydiv (fabs (fill_price - signal_price)%pf) signal_price;
    let bps := (q * dec 100000 1)%pf in
    if fle bps f_zero then mret observations
    else
      let name := SlippageBucket.name (get_bucket signal_time) in
      mret (dset name (default [] (dget name observations) ++ [bps]) observations).

Definition fit_from_fills `{NumPyStats} (fills : list (Z * float * float))
    : result (dict string (float * float)) :=
  observations ← for_each observe_fill ((fun b => (SlippageBucket.name b, [])) <$> ALL_BUCKETS) fills;
  let defaults := (fun b => (SlippageBucket.name b, (SlippageBucket.mu b, SlippageBucket.sigma b))) <$> ALL_BUCKETS in
  for_each (fun res '(bucket_name, obs) =>
    if Z.of_nat (length obs) <? SLIPPAGE_MIN_FIT_SAMPLES then
      match dget bucket_name defaults with
      | Some d => mret (dset bucket_name d res)
      | None => Raise (KeyError bucket_name)
      end
    else
      let log_obs := np_log <$> obs in
      mret (dset bucket_name (np_mean log_obs, np_std1 log_obs) res)) [] observations.

(** ** Markout curves ([markout.py]) *)

(** [{c.time: i for i, c in enumerate(candles)}] *)
Definition time_index_of (candles : list OHLCVCandle.t) : dict Z Z :=
  foldl (fun d ic => dset (OHLCVCandle.time ic.2) ic.1 d) []
    (zip (seqZ 0 (Z.of_nat (length candles))) candles).

Definition close_at (candles : list OHLCVCandle.t) (idx : Z) : result float :=
  c ← py_index candles idx;
  mret (OHLCVCandle.close c).

Definition find_candle_at_offset (entry_time offset_minutes : Z) (time_index : dict Z Z)
    (candles : list OHLCVCandle.t) : result (option float) :=
  let target := entry_time + offset_minutes * MINUTE in
  match dget target time_index with
  | Some idx => x ← close_at candles idx; mret (Some x)
  | None =>
      for_each (fun found extra =>
        match found with
        | Some _ => mret found
        | None =>
            match dget (target + extra * MINUTE) time_index with
            | Some idx => x ← close_at candles idx; mret (Some x)
            | None => mret None
            end
        end) None [1; 2]
  end.

(** The return of one trade at an offset, when there is a candle. *)
Definition markout_return (offset_min : Z) (time_index : dict Z Z) (candles : list OHLCVCandle.t)
    (returns : list float) (trade : Trade.t) : result (list float) :=
  future_close ← find_candle_at_offset (Trade.entry_time trade) offset_min time_index candles;
  match future_close with
  | None => mret returns
  | Some future_close =>
      if fle (Trade.entry_price trade) f_zero then mret returns
      else
        q ← pydiv (future_close - Trade.entry_price trade)%pf (Trade.entry_price trade);
        d ← float_of_int (Trade.direction trade);
        mret (returns ++ [(q * dec 1000 1 * d)%pf])
  end.

Definition OFFSETS : list (string * Z) := [("T+1m", MARKOUT_OFFSET_1M); ("T+5m", MARKOUT_OFFSET_5M)].

(** [arr > 0.0] as numbers, for the mean of booleans. *)
Definition positive_part (arr : list float) : list float :=
  (fun x => if flt f_zero x then dec 1 0 else f_zero) <$> arr.

Definition markout_point `{NumPyStats} (label : string) (returns : list float) : MarkoutPoint.t :=
  match returns with
  | [] => MarkoutPoint.mk label f_zero f_zero f_zero 0
  | _ =>
      MarkoutPoint.mk label (pyround (np_mean returns) 4) (pyround (np_median returns) 4)
        (pyround (np_mean (positive_part returns)) 4) (Z.of_nat (length returns))
  end.

Definition compute_markout_curves `{NumPyStats} (trades : list Trade.t) (candles : list OHLCVCandle.t)
    : result (list MarkoutPoint.t) :=
  match trades, candles with
  | [], _ | _, [] => mret []
  | _, _ =>
      let time_index := time_index_of candles in
      for_each (fun points '(label, offset_min) =>
        returns ← for_each (markout_return offset_min time_index candles) [] trades;
        mret (points ++ [markout_point label returns])) [] OFFSETS
  end.

(** ** Metrics ([metrics.py]) *)

Definition ANNUALISATION_FACTOR : float := dec 2520 1.
Definition MIN_TRADES_FOR_RATIO : nat := 2.

(** [numerator / denominator if denominator != 0.0 else fallback] *)
Definition safe_div (numerator denominator fallback : float) : float :=
  if feq denominator f_zero then fallback else fdiv numerator denominator.

(** A number that is a [np.float64] or a Python [float]: [round] differs. *)
Definition round_num `{NumPyStats} (n : bool * float) : float :=
  if n.1 then np_round n.2 4 else pyround n.2 4.

(** [np.maximum.accumulate(a)] *)
Fixpoint accumulate_max `{NumPyStats} (m : float) (l : list float) : list float :=
  match l with
  | [] => []
  | x :: l => let m := np_fmax m x in m :: accumulate_max m l
  end.

Definition cummax `{NumPyStats} (l : list float) : list float :=
  match l with [] => [] | x :: l => x :: accumulate_max x l end.

Definition drawdowns `{NumPyStats} (equity_values : list float) : list float :=
  zip_with (fun c e => fdiv (c - e)%pf c) (cummax equity_values) equity_values.

(** [np.diff(equity) / equity[:-1]] *)
Definition bar_returns (equity_values : list float) : list float :=
  zip_with (fun a b => fdiv (b - a)%pf a) equity_values (tail equity_values).

Definition annualized `{NumPyStats} (total_return_pct : bool * float) (trading_days : Z)
    : result (bool * float) :=
  if (0 <? trading_days) && flt (dec (-1000) 1) total_return_pct.2 then
    days ← float_of_int trading_days;
    ann_factor ← pydiv ANNUALISATION_FACTOR days;
    let base := (dec 10 1 + fdiv total_return_pct.2 (dec 1000 1))%pf in
    (* without an equity series the return is the Python float 0.0 and
       1.0 ** x is 1.0 *)
    let power := if total_return_pct.1 then np_power base ann_factor else dec 10 1 in
    mret (total_return_pct.1, ((power - dec 10 1) * dec 1000 1)%pf)
  else mret (false, f_zero).

(** The Sharpe and Sortino ratios of the equity curve. *)
Definition ratios `{NumPyStats} (equity_values : list float) (risk_free candle_bars_per_day : float)
    : result (float * float) :=
  if (MIN_TRADES_FOR_RATIO + 1 <=? length equity_values)%nat then
    rfr_per_bar ← pydiv risk_free (ANNUALISATION_FACTOR * candle_bars_per_day)%pf;
    let excess := (fun r => (r - rfr_per_bar)%pf) <$> bar_returns equity_values in
    let std_excess := np_std1 excess in
    let annualise std :=
      if flt f_zero std then
        root ← math_sqrt (ANNUALISATION_FACTOR * candle_bars_per_day)%pf;
        q ← pydiv (np_mean excess) std;
        mret (q * root)%pf
      else mret f_zero in
    sharpe_ratio ← annualise std_excess;
    let downside := filter (fun x => flt x f_zero = true) excess in
    let std_downside := if (1 <? length downside)%nat then np_std1 downside else f_zero in
    sortino_ratio ← annualise std_downside;
    mret (sharpe_ratio, sortino_ratio)
  else mret (f_zero, f_zero).

Definition compute_metrics `{NumPyStats} (trades : list Trade.t) (equity_values : list float)
    (config_initial_capital config_risk_free_rate_annual : float) (trading_days : Z)
    (candle_bars_per_day : float) : result BacktestMetrics.t :=
  let total_trades := Z.of_nat (length trades) in
  let total_return_pct :=
    match last equity_values with
    | Some e => (negb (feq config_initial_capital f_zero), (safe_div (e - config_initial_capital)%pf config_initial_capital f_zero * dec 1000 1)%pf)
    | None => (false, f_zero)
    end in
  annualized_return_pct ← annualized total_return_pct trading_days;
  if total_trades =? 0 then
    mret (BacktestMetrics.mk f_zero f_zero f_zero f_zero f_zero f_zero f_zero f_zero 0 trading_days
            total_return_pct.2 annualized_return_pct.2)
  else
    let pnl_pcts := Trade.pnl_pct <$> trades in
    let slippages := (fun t => (Trade.entry_slippage_bps t + Trade.exit_slippage_bps t)%pf) <$> trades in
    let wins := filter (fun x => flt f_zero x = true) pnl_pcts in
    let losses := filter (fun x => fle x f_zero = true) pnl_pcts in
    win_fraction ← int_truediv (Z.of_nat (length wins)) total_trades;
    let win_rate_pct := (win_fraction * dec 1000 1)%pf in
    let gross_profit := match wins with [] => f_zero | _ => np_sum wins end in
    let gross_loss := match losses with [] => f_zero | _ => fabs (np_sum losses) end in
    let fallback_pf := if feq gross_profit f_zero then f_zero else dec 9990 1 in
    let profit_factor := safe_div gross_profit gross_loss fallback_pf in
    let expectancy_per_trade := np_mean pnl_pcts in
    let avg_slippage_bps := np_mean slippages in
    let max_drawdown_pct :=
      if (1 <? length equity_values)%nat then (np_max (drawdowns equity_values) * dec 1000 1)%pf
      else f_zero in
    '(sharpe_ratio, sortino_ratio) ← ratios equity_values config_risk_free_rate_annual candle_bars_per_day;
    let calmar_ratio :=
      if feq max_drawdown_pct f_zero then (false, f_zero)
      else (annualized_return_pct.1, fdiv annualized_return_pct.2 max_drawdown_pct) in
    mret (BacktestMetrics.mk (pyround sharpe_ratio 4) (pyround sortino_ratio 4)
            (pyround max_drawdown_pct 4) (pyround win_rate_pct 4) (pyround expectancy_per_trade 4)
            (pyround profit_factor 4) (round_num calmar_ratio) (pyround avg_slippage_bps 4)
            total_trades trading_days (round_num total_return_pct) (round_num annualized_return_pct)).

(** ** The engine ([engine.py]) *)

Definition MIN_CANDLES : nat := 30.

(** The loop of [ema_crossover_signals] over the pairs (fast, slow), one
    (entry, exit) pair per bar after the first. *)
Fixpoint crossover_loop (prev : float * float) (bars : list (float * float)) (in_trade : bool)
    : list (bool * bool) :=
  match bars with
  | [] => []
  | (fast, slow) :: bars =>
      if is_nan fast || is_nan slow || is_nan prev.1 || is_nan prev.2 then
        (false, false) :: crossover_loop (fast, slow) bars in_trade
      else
        let cross_up := flt slow fast && fle prev.1 prev.2 in
        let cross_down := flt fast slow && fle prev.2 prev.1 in
        if cross_up && negb in_trade then (true, false) :: crossover_loop (fast, slow) bars true
        else if cross_down && in_trade then (false, true) :: crossover_loop (fast, slow) bars false
        else (false, false) :: crossover_loop (fast, slow) bars in_trade
  end.

Definition crossover_signals (emas : list (float * float)) : list (bool * bool) :=
  match emas with
  | [] => []
  | first :: bars => (false, false) :: crossover_loop first bars false
  end.

Definition ema_crossover_signals `{TALib} (candles : list OHLCVCandle.t) (fast_period slow_period : Z)
    : list bool * list bool :=
  let n := length candles in
  if Z.of_nat n <? slow_period + 1 then (replicate n false, replicate n false)
  else
    let close := OHLCVCandle.close <$> candles in
    let signals := crossover_signals (zip (talib_EMA close fast_period) (talib_EMA close slow_period)) in
    (signals.*1, signals.*2).

(** The seconds between the first two candles. *)
Definition bar_seconds (candles : list OHLCVCandle.t) : result (option float) :=
  match candles with
  | c0 :: c1 :: _ => d ← total_seconds (OHLCVCandle.time c1 - OHLCVCandle.time c0); mret (Some d)
  | _ => mret None
  end.

Definition infer_bars_per_day (candles : list OHLCVCandle.t) : result float :=
  delta_secs ← bar_seconds candles;
  match delta_secs with
  | None => mret (dec 10 1)
  | Some d =>
      if fle d f_zero then mret (dec 10 1)
      else pydiv (dec 3750 1 * dec 60 0)%pf d
  end.

Definition infer_freq (candles : list OHLCVCandle.t) : result string :=
  delta_secs ← bar_seconds candles;
  match delta_secs with
  | None => mret "1D"
  | Some d =>
      let d := fabs d in
      mret (if fle d (dec 60 0) then "1T" else if fle d (dec 300 0) then "5T"
            else if fle d (dec 900 0) then "15T" else if fle d (dec 3600 0) then "1h" else "1D")
  end.

Definition dates_of (candles : list OHLCVCandle.t) : list Z :=
  remove_dups ((fun c => date_of (OHLCVCandle.time c)) <$> candles).

Definition count_trading_days (candles : list OHLCVCandle.t) : Z := Z.of_nat (length (dates_of candles)).

(** A row of [pf.trades.records_readable]; a missing column is [None]. *)
Module TradeRecord.
Record t := mk {
  index : Z;
  open_index : option Z;
  close_index : option Z;
  open_price : option float;
  close_price : option float;
  return_ : option float;
  size : option float;
}.
End TradeRecord.

(** [vbt.Portfolio.from_signals(..)]: the equity values and the trade records. *)
Class VectorBT := {
  vbt_from_signals :
    forall (close : list float) (entries exits : list bool) (price : list float)
      (size init_cash : float) (freq : string), result (list float * list TradeRecord.t);
}.

(** [candles[i].time if i < len(candles) else candles[-1].time] *)
Definition time_at (candles : list OHLCVCandle.t) (i : Z) : result Z :=
  c ← py_index candles (if i <? Z.of_nat (length candles) then i else -1);
  mret (OHLCVCandle.time c).

Definition slip_at (slips : list float) (i : Z) : result float :=
  if i <? Z.of_nat (length slips) then py_index slips i else mret f_zero.

Definition extract_trade (config : BacktestConfig.t) (candles : list OHLCVCandle.t)
    (entry_slippage exit_slippage : list float) (row : TradeRecord.t) : result Trade.t :=
  let entry_idx := default 0 (TradeRecord.open_index row) in
  let exit_idx := default 0 (TradeRecord.close_index row) in
  let entry_price := default f_zero (TradeRecord.open_price row) in
  let exit_price := default f_zero (TradeRecord.close_price row) in
  let pnl_pct := (default f_zero (TradeRecord.return_ row) * dec 1000 1)%pf in
  let quantity := default f_zero (TradeRecord.size row) in
  entry_time ← time_at candles entry_idx;
  exit_time ← time_at candles exit_idx;
  let pnl := ((exit_price - entry_price) * quantity)%pf in
  entry_slip ← slip_at entry_slippage entry_idx;
  exit_slip ← slip_at exit_slippage exit_idx;
  mret (Trade.mk (pretty (TradeRecord.index row)) (BacktestConfig.symbol config)
          (BacktestConfig.exchange config) (BacktestConfig.strategy_id config) DIRECTION_LONG
          entry_time exit_time entry_price exit_price entry_slip exit_slip quantity
          (pyround pnl 4) (pyround pnl_pct 4)).

Definition extract_trades (records : list TradeRecord.t) (config : BacktestConfig.t)
    (candles : list OHLCVCandle.t) (entry_slippage exit_slippage : list float) : result (list Trade.t) :=
  for_each (fun trades row =>
    t ← extract_trade config candles entry_slippage exit_slippage row;
    mret (trades ++ [t])) [] records.

(** A parameter set of a strategy, and the strategy. *)
Abbreviation params := (dict string float).
Abbreviation SignalFn := (list OHLCVCandle.t -> params -> result (list bool * list bool)).

Section Engine.
Context {G : Type} `{NumPyGenerator G} `{NumPyStats} `{VectorBT}.

(** Fill price and slippage of one bar: (price, entry bps, exit bps). *)
Definition fill_bar (spread_bps : float) (c : OHLCVCandle.t) (entry exit : bool)
    : M G (float * float * float) :=
  let close := OHLCVCandle.close c in
  if entry then
    slip ← sample_slippage_bps (OHLCVCandle.time c) spread_bps;
    mret ((close * (dec 10 1 + fdiv slip (dec 100000 1)))%pf, slip, f_zero)
  else if exit then
    slip ← sample_slippage_bps (OHLCVCandle.time c) spread_bps;
    mret ((close * (dec 10 1 - fdiv slip (dec 100000 1)))%pf, f_zero, slip)
  else mret (close, f_zero, f_zero).

Fixpoint fill_bars (spread_bps : float) (bars : list (OHLCVCandle.t * (bool * bool)))
    : M G (list (float * float * float)) :=
  match bars with
  | [] => mret []
  | (c, (entry, exit)) :: bars =>
      f ← fill_bar spread_bps c entry exit;
      fs ← fill_bars spread_bps bars;
      mret (f :: fs)
  end.

Definition run_backtest (run_id : string) (completed_at : Z) (config : BacktestConfig.t)
    (candles : list OHLCVCandle.t) (entry_signals exit_signals : list bool) (spread_bps : float)
    : M G BacktestResult.t :=
  if (length candles <? MIN_CANDLES)%nat then
    M_raise (ValueError ("Need at least 30 candles for a backtest, got " +:+
                         pretty (Z.of_nat (length candles))))
  else if negb (length entry_signals =? length candles)%nat || negb (length exit_signals =? length candles)%nat then
    M_raise (ValueError "entry_signals and exit_signals must have the same length as candles")
  else
    fills ← fill_bars spread_bps (zip candles (zip entry_signals exit_signals));
    M_lift (
      freq ← infer_freq candles;
      bars_per_day ← infer_bars_per_day candles;
      let trading_days := count_trading_days candles in
      '(equity_values, records) ← vbt_from_signals (OHLCVCandle.close <$> candles) entry_signals exit_signals
         (fills.*1.*1) (BacktestConfig.position_size_pct config) (BacktestConfig.initial_capital config) freq;
      trades ← extract_trades records config candles (fills.*1.*2) (fills.*2);
      metrics ← compute_metrics trades equity_values (BacktestConfig.initial_capital config)
                  (BacktestConfig.risk_free_rate_annual config) trading_days bars_per_day;
      markout_curves ← compute_markout_curves trades candles;
      let failures := check_promotion_gate metrics in
      mret (BacktestResult.mk run_id config trades metrics markout_curves
              (zip (OHLCVCandle.time <$> candles) equity_values)
              (bool_decide (failures = [])) failures None None completed_at)).

(** ** Walk-forward optimisation ([walk_forward.py]) *)

Definition ZERO_METRICS : BacktestMetrics.t :=
  BacktestMetrics.mk f_zero f_zero f_zero f_zero f_zero f_zero f_zero f_zero 0 0 f_zero f_zero.

Definition candles_in_range (candles : list OHLCVCandle.t) (start stop : Z) : list OHLCVCandle.t :=
  filter (fun c => start <= date_of (OHLCVCandle.time c) /\ date_of (OHLCVCandle.time c) <= stop) candles.

Definition run_with_params (config : BacktestConfig.t) (candles : list OHLCVCandle.t)
    (signal_fn : SignalFn) (p : params) : M G BacktestMetrics.t :=
  if (length candles <? 30)%nat then mret ZERO_METRICS
  else
    '(entries, exits) ← M_lift (signal_fn candles p);
    M_try (r ← run_backtest "" 0 config candles entries exits (dec 50 1); mret (BacktestResult.metrics r))
      (fun e => match e with
                | ValueError _ | RuntimeError _ => mret ZERO_METRICS
                | _ => M_raise e
                end).

Definition fold_config (config : BacktestConfig.t) (start stop : Z) : BacktestConfig.t :=
  BacktestConfig.mk (BacktestConfig.strategy_id config) (BacktestConfig.symbol config)
    (BacktestConfig.exchange config) start stop (BacktestConfig.initial_capital config)
    (BacktestConfig.position_size_pct config) (BacktestConfig.risk_free_rate_annual config).

(** The loop over the grid: (best_sharpe, best_params, best_is_metrics). *)
Definition try_params (config : BacktestConfig.t) (candles : list OHLCVCandle.t) (signal_fn : SignalFn)
    (best : float * params * BacktestMetrics.t) (p : params) : M G (float * params * BacktestMetrics.t) :=
  m ← run_with_params config candles signal_fn p;
  if flt best.1.1 (BacktestMetrics.sharpe_ratio m) then
    mret (BacktestMetrics.sharpe_ratio m, p, m)
  else mret best.

Definition optimise (config : BacktestConfig.t) (candles : list OHLCVCandle.t) (signal_fn : SignalFn)
    (param_grid : list params) : M G (float * params * BacktestMetrics.t) :=
  M_fold (try_params config candles signal_fn)
    (dec (-9990) 1, default [] (head param_grid), ZERO_METRICS) param_grid.

(** One window; [all_dates] are the trading dates. *)
Definition run_window (config : BacktestConfig.t) (candles : list OHLCVCandle.t) (signal_fn : SignalFn)
    (param_grid : list params) (all_dates : list Z) (in_sample_days out_of_sample_days window_idx cursor : Z)
    : M G WalkForwardWindow.t :=
  let is_end := cursor + in_sample_days in
  let oos_end := is_end + out_of_sample_days in
  is_start_date ← M_lift (py_index all_dates cursor);
  is_end_date ← M_lift (py_index all_dates (is_end - 1));
  oos_start_date ← M_lift (py_index all_dates is_end);
  oos_end_date ← M_lift (py_index all_dates (Z.min (oos_end - 1) (Z.of_nat (length all_dates) - 1)));
  let is_candles := candles_in_range candles is_start_date is_end_date in
  let oos_candles := candles_in_range candles oos_start_date oos_end_date in
  '(_, best_params, best_is_metrics) ←
    optimise (fold_config config is_start_date is_end_date) is_candles signal_fn param_grid;
  oos_metrics ← run_with_params (fold_config config oos_start_date oos_end_date) oos_candles signal_fn best_params;
  mret (WalkForwardWindow.mk window_idx is_start_date is_end_date oos_start_date oos_end_date best_params
          best_is_metrics oos_metrics (bool_decide (check_promotion_gate oos_metrics = []))).

(** The [while True] loop; [None] when the fuel runs out. *)
Fixpoint walk (fuel : nat) (config : BacktestConfig.t) (candles : list OHLCVCandle.t) (signal_fn : SignalFn)
    (param_grid : list params) (all_dates : list Z) (in_sample_days out_of_sample_days step_days : Z)
    (window_idx cursor : Z) : M G (option (list WalkForwardWindow.t)) :=
  let is_end := cursor + in_sample_days in
  let oos_end := is_end + out_of_sample_days in
  let n := Z.of_nat (length all_dates) in
  if (n <? is_end) || (n <? oos_end) then mret (Some [])
  else
    match fuel with
    | O => mret None
    | S fuel =>
        w ← run_window config candles signal_fn param_grid all_dates in_sample_days out_of_sample_days
              window_idx cursor;
        ws ← walk fuel config candles signal_fn param_grid all_dates in_sample_days out_of_sample_days
               step_days (window_idx + 1) (cursor + step_days);
        mret (cons w <$> ws)
    end.

(** [sorted({c.time.date() for c in candles})] *)
Definition sorted_dates (candles : list OHLCVCandle.t) : list Z := merge_sort Z.le (dates_of candles).

(** [round(sum(l) / len(l), 4) if l else 0.0] *)
Definition rounded_mean (l : list float) : result float :=
  match l with
  | [] => mret f_zero
  | _ => n ← float_of_int (Z.of_nat (length l)); q ← pydiv (pysum l) n; mret (pyround q 4)
  end.

Definition summarise (config : BacktestConfig.t) (windows : list WalkForwardWindow.t)
    : result WalkForwardResult.t :=
  let oos := WalkForwardWindow.out_of_sample_metrics <$> windows in
  avg_sharpe ← rounded_mean (BacktestMetrics.sharpe_ratio <$> oos);
  avg_dd ← rounded_mean (BacktestMetrics.max_drawdown_pct <$> oos);
  avg_wr ← rounded_mean (BacktestMetrics.win_rate_pct <$> oos);
  mret (WalkForwardResult.mk (BacktestConfig.strategy_id config) (BacktestConfig.symbol config)
          (BacktestConfig.exchange config) windows avg_sharpe avg_dd avg_wr
          (Z.of_nat (length (filter (fun w => WalkForwardWindow.passed_oos_gate w = true) windows)))).

(** The generator is [default_rng(42)]; [None] when the fuel runs out. *)
Definition run_walk_forward (fuel : nat) (config : BacktestConfig.t) (candles : list OHLCVCandle.t)
    (signal_fn : SignalFn) (param_grid : list params) (in_sample_days out_of_sample_days step_days : Z)
    : M G (option WalkForwardResult.t) :=
  match candles with
  | [] => r ← M_lift (summarise config []); mret (Some r)
  | _ =>
      windows ← walk fuel config candles signal_fn param_grid (sorted_dates candles)
                  in_sample_days out_of_sample_days step_days 0 0;
      match windows with
      | Some windows => r ← M_lift (summarise config windows); mret (Some r)
      | None => mret None
      end
  end.
End Engine.

(** * Theorems *)

(** ** The promotion gate *)

Lemma snoc_if_nil {A} (b : bool) (l : list A) x : (if b then l ++ [x] else l) = [] <-> b = false /\ l = [].
Proof. destruct b; split; [by intros [_ ?]%app_nil|by intros [? _]|done|by intros [_ ?]]. Qed.

(** The gate, with the negated comparisons of the code. *)
Lemma promotion_gate_nil m : check_promotion_gate m = [] <->
  PAPER_TRADING_MIN_DAYS <= BacktestMetrics.trading_days m
  /\ fle (BacktestMetrics.sharpe_ratio m) PAPER_TRADING_MIN_SHARPE = false
  /\ fle (BacktestMetrics.win_rate_pct m) PAPER_TRADING_MIN_WIN_RATE_PCT = false
  /\ fle PAPER_TRADING_MAX_DRAWDOWN_PCT (BacktestMetrics.max_drawdown_pct m) = false.
Proof.
  unfold check_promotion_gate. rewrite !snoc_if_nil, Z.ltb_ge. tauto.
Qed.

Lemma not_le_lt x y : is_nan x = false -> is_nan y = false -> fle x y = false <-> flt y x = true.
Proof. intros. split; intros; float_order. Qed.

(** A comparison with a limit fails for the values beyond it and for NaN. *)
Lemma not_at_most x limit : is_nan limit = false -> fle x limit = false <-> is_nan x = true \/ flt limit x = true.
Proof.
  intros Hl. destruct (is_nan x) eqn:Hx.
  - rewrite fle_nan_l by done. by split; [left|].
  - rewrite not_le_lt by done. split; [by right|by intros [|]].
Qed.

Lemma not_at_least x limit : is_nan limit = false -> fle limit x = false <-> is_nan x = true \/ flt x limit = true.
Proof.
  intros Hl. destruct (is_nan x) eqn:Hx.
  - replace (fle limit x) with false by (by destruct limit, x). by split; [left|].
  - rewrite not_le_lt by done. split; [by right|by intros [|]].
Qed.

(** A NaN metric is not caught by any of the comparisons. *)
Example nan_metrics_pass_the_gate :
  check_promotion_gate (BacktestMetrics.mk f_nan f_nan f_nan f_nan f_nan f_nan f_nan f_nan 0 20 f_nan f_nan) = [].
Proof. reflexivity. Qed.

Section MetricsTheory.
Context `{NumPyStats}.

(** Without trades the ratios are zero. *)
Lemma no_trades_metrics eq cap rf days bars m :
  compute_metrics [] eq cap rf days bars = Ok m ->
  BacktestMetrics.sharpe_ratio m = f_zero /\ BacktestMetrics.trading_days m = days.
Proof. unfold compute_metrics. intros Hm. bind_inv Hm. cbn in Hm. injection Hm as <-. done. Qed.

Lemma metrics_days trades eq cap rf days bars m :
  compute_metrics trades eq cap rf days bars = Ok m -> BacktestMetrics.trading_days m = days.
Proof.
  unfold compute_metrics. intros Hm. bind_inv Hm. case_match_in Hm; [by injection Hm as <-|].
  bind_inv Hm. bind_inv Hm. destruct a1 as [sh so]. by injection Hm as <-.
Qed.

Context {G : Type} `{NumPyGenerator G} `{VectorBT}.

(** C29. A backtest passes the promotion gate exactly when its candles cover at
    least 20 distinct trading days and its Sharpe ratio is above 1.5, its win
    rate above 50% and its drawdown below 5%, each of the three on its own
    except that a metric that is not a number passes; and a backtest that
    passes made at least one trade and lists no failure. *)
Theorem promoted_backtest run_id at_ config candles entries exits spread rng r rng' :
  run_backtest run_id at_ config candles entries exits spread rng = (Ok r, rng') ->
  let m := BacktestResult.metrics r in
  (BacktestResult.passed_promotion_gate r = true
   <-> 20 <= count_trading_days candles
     /\ (is_nan (BacktestMetrics.sharpe_ratio m) = true \/ flt (dec 15 1) (BacktestMetrics.sharpe_ratio m) = true)
     /\ (is_nan (BacktestMetrics.win_rate_pct m) = true \/ flt (dec 500 1) (BacktestMetrics.win_rate_pct m) = true)
     /\ (is_nan (BacktestMetrics.max_drawdown_pct m) = true \/ flt (BacktestMetrics.max_drawdown_pct m) (dec 50 1) = true))
  /\ (BacktestResult.passed_promotion_gate r = true ->
      BacktestResult.trades r <> [] /\ BacktestResult.promotion_failures r = []).
Proof.
  unfold run_backtest. destruct (_ <? _)%nat; [done|]. destruct (_ || _); [done|].
  unfold mbind at 1, M_bind at 1. destruct (fill_bars _ _ rng) as [[fills|e] g]; [|done].
  unfold M_lift. intros Hr. injection Hr as Hr <-.
  bind_inv Hr. bind_inv Hr. bind_inv Hr. destruct a1 as [equity records].
  bind_inv Hr. bind_inv Hr. bind_inv Hr. injection Hr as <-. cbn.
  pose proof (metrics_days _ _ _ _ _ _ _ Ha3) as Hdays. rewrite bool_decide_eq_true. split.
  - rewrite promotion_gate_nil, Hdays, !not_at_most, not_at_least by done. done.
  - intros Hp. split; [|exact Hp]. apply promotion_gate_nil in Hp as (_ & Hs & _). intros ->.
    apply no_trades_metrics in Ha3 as [Ha3 _]. by rewrite Ha3 in Hs.
Qed.
End MetricsTheory.

(** ** Sample environment *)

Fixpoint insert_float (x : float) (l : list float) : list float :=
  match l with [] => [x] | y :: l' => if fle x y then x :: l else y :: insert_float x l' end.

Definition sample_mean (l : list float) : float :=
  fdiv (pysum l) (fZ_sign (Z.of_nat (length l)) 1).

(** Plain definitions of the reductions; the logarithm and the power are not
    needed on the samples. *)
Definition sample_numpy : NumPyStats := {|
  np_sum := pysum;
  np_mean := sample_mean;
  np_median l := default f_nan (foldr insert_float [] l !! (length l / 2)%nat);
  np_std1 l :=
    let m := sample_mean l in
    SFsqrt prec emax (fdiv (pysum ((fun x => ((x - m) * (x - m))%pf) <$> l))
                        (fZ_sign (Z.of_nat (length l) - 1) 1));
  np_max l := foldr pymax f_ninf l;
  np_fmax := pymax;
  np_log x := x;
  np_power x _ := x;
  np_round := pyround;
  math_sqrt x := if flt x f_zero then Raise (ValueError "math domain error") else Ok (SFsqrt prec emax x);
|}.

(** A generator that always draws four basis points. *)
#[local] Instance fixed_generator : NumPyGenerator unit := {
  rng_lognormal _ _ g := (dec 4 0, g);
}.

Definition daily_candles (n : nat) : list OHLCVCandle.t :=
  (fun i => OHLCVCandle.mk (i * DAY + 15 * HOUR) "INFY" "NSE" (dec 100 0) (dec 100 0) (dec 100 0)
              (dec (100 + i) 0) 1000) <$> seqZ 0 (Z.of_nat n).

(** A portfolio that gains on every bar, a little more on every other, with
    two winning trades. *)
#[local] Instance rising_portfolio : VectorBT := {
  vbt_from_signals close _ _ price _ cash _ :=
    Ok ((fun i => (cash + dec (i * 500 + (if Z.even i then 0 else 20)) 0)%pf) <$> seqZ 0 (Z.of_nat (length close)),
        [TradeRecord.mk 0 (Some 2) (Some 5) (Some (dec 102 0)) (Some (dec 105 0)) (Some (dec 29 3)) (Some (dec 1 0));
         TradeRecord.mk 1 (Some 8) (Some 9) (Some (dec 108 0)) (Some (dec 109 0)) (Some (dec 9 3)) (Some (dec 1 0))]);
}.

Definition sample_config : BacktestConfig.t :=
  BacktestConfig.mk "EMA9X21" "INFY" "NSE" 0 30 (dec 100000 0) (dec 2 2) (dec 65 3).

Definition sample_signals (l : list Z) : list bool := (fun i => bool_decide (i ∈ l)) <$> seqZ 0 30.

Definition sample_run : result BacktestResult.t * unit :=
  run_backtest (H0 := sample_numpy) "0a1b2c3d" 0 sample_config (daily_candles 30)
    (sample_signals [2; 8]) (sample_signals [5; 9]) (dec 50 1) tt.

Definition sample_result : BacktestResult.t :=
  match sample_run.1 with
  | Ok r => r
  | Raise _ => BacktestResult.mk "" sample_config [] ZERO_METRICS [] [] false [] None None 0
  end.

Example sample_result_passes : BacktestResult.passed_promotion_gate sample_result = true.
Proof. vm_compute. reflexivity. Qed.

Lemma promoted_backtest_witness :
  BacktestResult.passed_promotion_gate sample_result = true
  /\ BacktestResult.trades sample_result <> [] /\ BacktestResult.promotion_failures sample_result = []
  /\ 20 <= count_trading_days (daily_candles 30).
Proof.
  assert (E : run_backtest (H0 := sample_numpy) "0a1b2c3d" 0 sample_config (daily_candles 30)
    (sample_signals [2; 8]) (sample_signals [5; 9]) (dec 50 1) tt = (Ok sample_result, tt)) by (vm_compute; reflexivity).
  pose proof (promoted_backtest (H := sample_numpy) "0a1b2c3d" 0 sample_config (daily_candles 30)
    (sample_signals [2; 8]) (sample_signals [5; 9]) (dec 50 1) tt sample_result tt E) as [Hiff Hok].
  split; [exact sample_result_passes|]. destruct (Hok sample_result_passes) as [Ht Hf].
  split; [exact Ht|]. split; [exact Hf|]. apply Hiff. exact sample_result_passes.
Defined.

(** ** Crossover signals *)

Definition count_true (l : list bool) : nat := length (filter (fun b => b = true) l).

Lemma count_true_cons b l : count_true (b :: l) = ((if b then 1 else 0) + count_true l)%nat.
Proof. unfold count_true. by destruct b. Qed.

Lemma crossover_loop_position prev bars in_trade k :
  let signals := take k (crossover_loop prev bars in_trade) in
  (count_true signals.*2 <= count_true signals.*1 + (if in_trade then 1 else 0) <= S (count_true signals.*2))%nat.
Proof.
  revert prev in_trade k. induction bars as [|[fast slow] bars IH]; intros prev in_trade k; cbn [crossover_loop].
  { rewrite take_nil. cbn. destruct in_trade; lia. }
  destruct k as [|k]; [rewrite take_0; unfold count_true; cbn; destruct in_trade; lia|].
  repeat case_if; cbn [take fmap list_fmap fst snd]; rewrite !count_true_cons;
    match goal with |- context [crossover_loop ?p bars ?b] => specialize (IH p b k) end;
    cbv zeta in IH; repeat match goal with
    | Hb : _ && _ = true |- _ => apply andb_true_iff in Hb as [_ Hb]
    end; destruct in_trade; cbn [negb] in *; try discriminate; lia.
Qed.

Lemma crossover_loop_exclusive prev bars in_trade e x :
  (e, x) ∈ crossover_loop prev bars in_trade -> e && x = false.
Proof.
  revert prev in_trade. induction bars as [|[fast slow] bars IH]; intros prev in_trade; cbn [crossover_loop].
  { by intros ?%elem_of_nil. }
  repeat case_if; intros [[= -> ->]|Hin]%elem_of_cons; try done; by eapply IH.
Qed.

Lemma crossover_loop_length prev bars in_trade : length (crossover_loop prev bars in_trade) = length bars.
Proof.
  revert prev in_trade. induction bars as [|[fast slow] bars IH]; intros; cbn [crossover_loop]; [done|].
  repeat case_if; cbn; by rewrite IH.
Qed.

(** Whatever values TA-Lib returns, one per candle, the crossover signals
    are one per candle, never enter and exit on the same bar, and at every
    bar the entries so far exceed the exits so far by zero or one: the
    strategy holds at most one position and never sells what it does not
    hold. *)
Theorem crossover_holds_one_position `{TALib} candles fast slow :
  (forall close p, length (talib_EMA close p) = length close) ->
  let '(entries, exits) := ema_crossover_signals candles fast slow in
  length entries = length candles /\ length exits = length candles
  /\ (forall i e x, entries !! i = Some e -> exits !! i = Some x -> e && x = false)
  /\ forall k, (count_true (take k exits) <= count_true (take k entries) <= S (count_true (take k exits)))%nat.
Proof.
  intros Hlen. unfold ema_crossover_signals. destruct (_ <? _) eqn:Hn.
  { rewrite !length_replicate. split_and!; try done.
    - intros i e x [-> _]%lookup_replicate_1 _. done.
    - intros k. lia. }
  set (emas := zip _ _). assert (Hz : length emas = length candles).
  { unfold emas. rewrite length_zip_with, !Hlen, length_fmap. lia. }
  destruct emas as [|first bars] eqn:He.
  { destruct candles; [|done]. cbn. split_and!; try done. intros k. rewrite take_nil. cbn. lia. }
  set (signals := crossover_signals (first :: bars)).
  assert (Hl : length signals = length candles).
  { cbn. rewrite crossover_loop_length. exact Hz. }
  split_and!; [by rewrite length_fmap|by rewrite length_fmap| |].
  - intros i e x Hi Hx. apply list_lookup_fmap_Some in Hi as ([e1 x1] & -> & Hi).
    rewrite list_lookup_fmap, Hi in Hx. injection Hx as <-. cbn [fst snd].
    destruct i as [|i]; [cbn in Hi; by simplify_eq|].
    change (crossover_loop first bars false !! i = Some (e1, x1)) in Hi. apply list_elem_of_lookup_2 in Hi.
    by eapply crossover_loop_exclusive.
  - intros [|k]; [rewrite !take_0; cbn; lia|]. rewrite <- !fmap_take. subst signals.
    cbn [crossover_signals take]. rewrite !fmap_cons, !count_true_cons.
    pose proof (crossover_loop_position first bars false k) as Hp. cbv zeta in Hp. cbn [fst snd]. cbv iota in *. lia.
Qed.

(** Stand-ins: every indicator is its input, except the slow average. *)
Definition sample_talib : TALib := {|
  talib_EMA close p := if p =? 9 then close else (fun _ => dec 105 0) <$> close;
  talib_ADX high _ _ _ := high;
  talib_RSI close _ := close;
  talib_ATR high _ _ _ := high;
  talib_BBANDS close _ := (close, close, close);
|}.

Lemma crossover_holds_one_position_witness :
  let ta : TALib := sample_talib in
  let '(entries, exits) := ema_crossover_signals (daily_candles 30) 9 21 in
  length entries = 30%nat /\ count_true entries = 1%nat
  /\ forall k, (count_true (take k exits) <= count_true (take k entries) <= S (count_true (take k exits)))%nat.
Proof.
  intros ta. pose proof (crossover_holds_one_position (H := ta) (daily_candles 30) 9 21) as Hc.
  destruct (ema_crossover_signals (daily_candles 30) 9 21) as [entries exits] eqn:He.
  destruct Hc as (H1 & _ & _ & H2).
  - intros close p. cbn. destruct (p =? 9); [done|]. by rewrite length_fmap.
  - split; [exact H1|]. split; [|exact H2]. vm_compute in He. by injection He as <- <-.
Defined.

(** ** Walk-forward windows *)

Lemma sorted_dates_increasing candles i j a b :
  sorted_dates candles !! i = Some a -> sorted_dates candles !! j = Some b -> (i < j)%nat -> a < b.
Proof.
  intros Hi Hj Hij. unfold sorted_dates in *.
  assert (Hs : StronglySorted Z.le (merge_sort Z.le (dates_of candles))) by apply (StronglySorted_merge_sort Z.le).
  assert (Hn : NoDup (merge_sort Z.le (dates_of candles))).
  { rewrite merge_sort_Permutation. apply NoDup_remove_dups. }
  assert (Hne : a <> b).
  { intros ->. assert (i = j); [|lia]. by eapply NoDup_lookup. }
  assert (a <= b); [|lia].
  rewrite <- (take_drop_middle _ _ _ Hi) in Hs.
  apply StronglySorted_app in Hs as (_ & _ & Hs). apply StronglySorted_cons in Hs as [Hs _].
  rewrite Forall_forall in Hs. apply Hs.
  apply (list_elem_of_lookup_2 _ (j - S i)). rewrite lookup_drop. by replace (S i + (j - S i))%nat with j by lia.
Qed.

Lemma py_index_Z {A} (l : list A) i : 0 <= i < Z.of_nat (length l) ->
  exists x, py_index l i = Ok x /\ l !! Z.to_nat i = Some x.
Proof.
  intros Hi. destruct (lookup_lt_is_Some_2 l (Z.to_nat i)) as [x Hx]; [lia|].
  exists x. split; [|done]. rewrite <- (Z2Nat.id i) by lia. by apply py_index_lookup.
Qed.

Section WalkTheory.
Context {G : Type} `{NumPyGenerator G} `{NumPyStats} `{VectorBT}.
Context (config : BacktestConfig.t) (candles : list OHLCVCandle.t) (signal_fn : SignalFn) (grid : list params).
Context (is_days oos_days step : Z) (Hpos : 0 < is_days /\ 0 < oos_days /\ 0 < step).
#[local] Abbreviation dates := (sorted_dates candles).
#[local] Abbreviation n := (Z.of_nat (length dates)).

(** Window [k]: its dates, in order, and its verdict. *)
Definition window_ok (k : Z) (w : WalkForwardWindow.t) : Prop :=
  dates !! Z.to_nat (k * step) = Some (WalkForwardWindow.in_sample_start w)
  /\ WalkForwardWindow.in_sample_start w <= WalkForwardWindow.in_sample_end w
  /\ WalkForwardWindow.in_sample_end w < WalkForwardWindow.out_of_sample_start w
  /\ WalkForwardWindow.out_of_sample_start w <= WalkForwardWindow.out_of_sample_end w
  /\ WalkForwardWindow.passed_oos_gate w
     = bool_decide (check_promotion_gate (WalkForwardWindow.out_of_sample_metrics w) = []).

Lemma dates_le i j a b : dates !! i = Some a -> dates !! j = Some b -> (i <= j)%nat -> a <= b.
Proof.
  intros Hi Hj Hij. destruct (decide (i = j)) as [->|]; [by rewrite Hi in Hj; injection Hj as ->; lia|].
  apply Z.lt_le_incl. apply (sorted_dates_increasing candles i j); [done..|lia].
Qed.

Lemma run_window_ok idx cursor k rng w rng' :
  cursor = k * step -> 0 <= k -> cursor + is_days + oos_days <= n ->
  run_window config candles signal_fn grid dates is_days oos_days idx cursor rng = (Ok w, rng') ->
  window_ok k w /\ WalkForwardWindow.window_index w = idx.
Proof.
  intros Hc Hk Hn. unfold run_window.
  destruct (py_index_Z dates cursor) as (a & -> & Ha); [nia|].
  destruct (py_index_Z dates (cursor + is_days - 1)) as (b & -> & Hb); [nia|].
  destruct (py_index_Z dates (cursor + is_days)) as (c & -> & Hcc); [nia|].
  rewrite Z.min_l by lia.
  destruct (py_index_Z dates (cursor + is_days + oos_days - 1)) as (d & -> & Hd); [nia|].
  unfold M_lift. unfold mbind, M_bind, mret, M_ret.
  destruct (optimise _ _ _ _ rng) as [[[[bs bp] bm]|e] g1]; [|done].
  destruct (run_with_params _ _ _ _ g1) as [[m|e] g2]; [|done]. intros [= <- <-].
  unfold window_ok. cbn. split; [|done]. split_and!; try done.
  - by rewrite <- Hc.
  - apply (dates_le _ _ _ _ Ha Hb). nia.
  - apply (sorted_dates_increasing candles _ _ _ _ Hb Hcc). nia.
  - apply (dates_le _ _ _ _ Hcc Hd). nia.
Qed.

(** The number of windows from a cursor on. *)
Definition windows_from (cursor : Z) : Z :=
  if n <? cursor + is_days + oos_days then 0 else (n - cursor - is_days - oos_days) / step + 1.

Lemma windows_from_step cursor : cursor + is_days + oos_days <= n ->
  windows_from cursor = windows_from (cursor + step) + 1.
Proof.
  intros Hn. unfold windows_from. destruct (Z.ltb_spec n (cursor + is_days + oos_days)); [lia|].
  destruct (Z.ltb_spec n (cursor + step + is_days + oos_days)) as [Hlt|Hge].
  - rewrite Z.div_small by lia. lia.
  - replace (n - cursor - is_days - oos_days) with (n - (cursor + step) - is_days - oos_days + 1 * step) by lia.
    rewrite Z.div_add by lia. lia.
Qed.

Lemma walk_spec fuel k rng o rng' : 0 <= k -> n < k * step + is_days + oos_days + Z.of_nat fuel ->
  walk fuel config candles signal_fn grid dates is_days oos_days step k (k * step) rng = (Ok o, rng') ->
  exists ws, o = Some ws /\ Z.of_nat (length ws) = windows_from (k * step)
  /\ forall i w, ws !! i = Some w -> window_ok (k + Z.of_nat i) w
       /\ WalkForwardWindow.window_index w = k + Z.of_nat i.
Proof.
  revert k rng o rng'. induction fuel as [|fuel IH]; intros k rng o rng' Hk Hf; cbn [walk];
    destruct (Z.ltb_spec n (k * step + is_days)), (Z.ltb_spec n (k * step + is_days + oos_days)); cbn [orb]; try lia.
  1-4: unfold mret, M_ret; intros [= <- <-]; exists []; split_and!; [done| |done];
    unfold windows_from; destruct (Z.ltb_spec n (k * step + is_days + oos_days)); [done|lia].
  unfold mbind, M_bind.
  destruct (run_window _ _ _ _ _ _ _ k (k * step) rng) as [[w|e] g1] eqn:Hw; [|done].
  apply (run_window_ok k (k * step) k) in Hw as [Hw Hidx]; [|done|done|lia].
  replace (k * step + step) with ((k + 1) * step) by lia.
  destruct (walk fuel _ _ _ _ _ _ _ _ (k + 1) ((k + 1) * step) g1) as [[o1|e] g2] eqn:Hr; [|done].
  intros [= <- <-]. apply IH in Hr as (ws & -> & Hl & Hws); [|lia|lia].
  exists (w :: ws). split; [done|]. split.
  - rewrite (windows_from_step (k * step)) by lia. cbn [length]. rewrite Nat2Z.inj_succ, Hl.
    replace (k * step + step) with ((k + 1) * step) by lia. lia.
  - intros [|i] w' Hi; cbn in Hi.
    + injection Hi as <-. by rewrite Z.add_0_r.
    + apply Hws in Hi. by replace (k + Z.of_nat (S i)) with (k + 1 + Z.of_nat i) by lia.
Qed.

(** With a step of zero the loop never ends, whatever the fuel. *)
Lemma walk_step_zero fuel k cursor rng ws rng' :
  cursor + is_days + oos_days <= n ->
  walk fuel config candles signal_fn grid dates is_days oos_days 0 k cursor rng <> (Ok (Some ws), rng').
Proof.
  intros Hn. revert k cursor rng ws rng' Hn. induction fuel as [|fuel IH]; intros k cursor rng ws rng' Hn;
    cbn [walk]; destruct (Z.ltb_spec n (cursor + is_days)), (Z.ltb_spec n (cursor + is_days + oos_days));
    cbn [orb]; try lia; [done|].
  unfold mbind, M_bind. destruct (run_window _ _ _ _ _ _ _ k cursor rng) as [[w|e] g1]; [|done].
  destruct (walk fuel _ _ _ _ _ _ _ _ (k + 1) (cursor + 0) g1) as [[o1|e] g2] eqn:Hr; [|done].
  destruct o1 as [ws1|]; [|done]. exfalso. revert Hr. apply IH. lia.
Qed.

(** C28. With positive window sizes and a positive step the walk-forward loop
    ends (fuel above the number of trading dates always suffices) with as
    many windows as fit; window [k] starts at trading date [k * step], each
    out-of-sample window lies strictly after its in-sample window, so that
    no candle the parameters were chosen on is used to judge them, and the
    verdicts are those of the promotion gate. *)
Theorem walk_forward_windows fuel rng o rng' :
  (length dates < fuel)%nat -> candles <> [] ->
  run_walk_forward fuel config candles signal_fn grid is_days oos_days step rng = (Ok o, rng') ->
  exists r, o = Some r
  /\ Z.of_nat (length (WalkForwardResult.windows r)) = windows_from 0
  /\ forall i w, WalkForwardResult.windows r !! i = Some w ->
       WalkForwardWindow.window_index w = Z.of_nat i /\ window_ok (Z.of_nat i) w
       /\ forall c c',
            c ∈ candles_in_range candles (WalkForwardWindow.in_sample_start w)
                  (WalkForwardWindow.in_sample_end w) ->
            c' ∈ candles_in_range candles (WalkForwardWindow.out_of_sample_start w)
                   (WalkForwardWindow.out_of_sample_end w) ->
            date_of (OHLCVCandle.time c) < date_of (OHLCVCandle.time c').
Proof.
  intros Hf Hc. unfold run_walk_forward. destruct candles as [|c0 cs] eqn:Hcs; [done|]. rewrite <- Hcs in *.
  unfold mbind at 1, M_bind at 1.
  destruct (walk fuel _ _ _ _ _ _ _ _ 0 0 rng) as [[o1|e] g1] eqn:Hw; [|done].
  apply (walk_spec fuel 0) in Hw as (ws & -> & Hl & Hws); [|lia|lia].
  unfold mbind, M_bind, M_lift. destruct (summarise config ws) as [r|e] eqn:Hs; [|done].
  intros [= <- <-]. exists r. split; [done|].
  assert (WalkForwardResult.windows r = ws) as ->.
  { revert Hs. unfold summarise. intros Hs. bind_inv Hs. bind_inv Hs. bind_inv Hs. by injection Hs as <-. }
  split; [exact Hl|]. intros i w Hi. apply Hws in Hi as [Hok Hidx].
  split; [lia|]. split; [exact Hok|].
  intros c c' [[_ Hin] _]%list_elem_of_filter [[Hout _] _]%list_elem_of_filter.
  destruct Hok as (_ & _ & Hlt & _). lia.
Qed.
End WalkTheory.

(** ** The choice of parameters *)

Section OptimiseTheory.
Context {G : Type} `{NumPyGenerator G} `{NumPyStats} `{VectorBT}.
Context (config : BacktestConfig.t) (candles : list OHLCVCandle.t) (signal_fn : SignalFn).

(** The metrics of each parameter set, tried in order. *)
Inductive evaluated : list params -> G -> list BacktestMetrics.t -> G -> Prop :=
| evaluated_nil g : evaluated [] g [] g
| evaluated_cons p m ps ms g g1 g2 :
    run_with_params config candles signal_fn p g = (Ok m, g1) ->
    evaluated ps g1 ms g2 -> evaluated (p :: ps) g (m :: ms) g2.

Lemma optimise_fold ps best g b g' :
  M_fold (try_params config candles signal_fn) best ps g = (Ok b, g') ->
  is_nan best.1.1 = false ->
  exists ms, evaluated ps g ms g' /\ is_nan b.1.1 = false /\ fle best.1.1 b.1.1 = true
  /\ (forall m, m ∈ ms -> is_nan (BacktestMetrics.sharpe_ratio m) = false ->
        fle (BacktestMetrics.sharpe_ratio m) b.1.1 = true)
  /\ (b = best \/ exists i p m, ps !! i = Some p /\ ms !! i = Some m
                     /\ b = (BacktestMetrics.sharpe_ratio m, p, m)).
Proof.
  revert best g. induction ps as [|p ps IH]; intros best g.
  { intros [= <- <-] Hn. exists []. split_and!; [constructor|done| |by intros m ?%elem_of_nil|by left].
    float_order. }
  rewrite M_fold_cons. unfold try_params at 1. unfold mbind at 1, M_bind at 1.
  destruct (run_with_params _ _ _ p g) as [[m|e] g1] eqn:Hm; [|done].
  destruct (flt best.1.1 (BacktestMetrics.sharpe_ratio m)) eqn:Hlt; unfold mret, M_ret; intros E Hn.
  - pose proof Hlt as Hlt'. apply flt_spec in Hlt' as (_ & Hm' & _).
    apply IH in E as (ms & He & Hb & Hle & Hall & Hwho); [|exact Hm'].
    exists (m :: ms). split_and!; [by econstructor|done| | |].
    + cbn in *. float_order.
    + intros m1 [->|Hin]%elem_of_cons; [done|by apply Hall].
    + right. destruct Hwho as [->|(i & p1 & m1 & Hi & Hi' & ->)].
      * by exists 0%nat, p, m.
      * by exists (S i), p1, m1.
  - apply IH in E as (ms & He & Hb & Hle & Hall & Hwho); [|exact Hn].
    exists (m :: ms). split_and!; [by econstructor|done|done| |].
    + intros m1 [->|Hin]%elem_of_cons Hn1; [|by apply Hall]. float_order.
    + destruct Hwho as [->|(i & p1 & m1 & Hi & Hi' & ->)]; [by left|]. right. by exists (S i), p1, m1.
Qed.

(** The in-sample choice is the best of the grid: every parameter set is
    evaluated once, in order, no evaluated Sharpe ratio exceeds the chosen
    one, and the chosen parameters and metrics are those of one evaluation,
    unless every evaluation was NaN or at most -999, when the first set is
    kept. *)
Theorem optimise_picks_best grid g best_sharpe best_params best_metrics g' :
  optimise config candles signal_fn grid g = (Ok (best_sharpe, best_params, best_metrics), g') ->
  exists ms, evaluated grid g ms g'
  /\ (forall m, m ∈ ms -> is_nan (BacktestMetrics.sharpe_ratio m) = false ->
        fle (BacktestMetrics.sharpe_ratio m) best_sharpe = true)
  /\ ((exists i, grid !! i = Some best_params /\ ms !! i = Some best_metrics
                 /\ best_sharpe = BacktestMetrics.sharpe_ratio best_metrics)
      \/ (best_sharpe = dec (-9990) 1 /\ best_params = default [] (head grid)
          /\ best_metrics = ZERO_METRICS)).
Proof.
  intros E. apply optimise_fold in E as (ms & He & _ & _ & Hall & Hwho); [|done].
  exists ms. split_and!; [done|exact Hall|].
  destruct Hwho as [Hw|(i & p & m & Hi & Hm & Hw)]; injection Hw as -> -> ->; [by right|left]. by exists i.
Qed.
End OptimiseTheory.

(** The strategy that enters on every [fast]-th bar and leaves on the next. *)
Definition sample_strategy : SignalFn := fun candles p =>
  match dget "fast" p with
  | Some f =>
      k ← int_of_float f;
      let bars := seqZ 0 (Z.of_nat (length candles)) in
      mret ((fun i => i mod k =? 0) <$> bars, (fun i => i mod k =? 1) <$> bars)
  | None => Raise (KeyError "fast")
  end.

Definition sample_grid : list params := [[("fast", dec 9 0)]; [("fast", dec 5 0)]].

Definition sample_choice : float * params * BacktestMetrics.t :=
  match (optimise (H0 := sample_numpy) sample_config (daily_candles 60) sample_strategy sample_grid tt).1 with
  | Ok b => b
  | Raise _ => (f_nan, [], ZERO_METRICS)
  end.

Lemma optimise_picks_best_witness :
  exists ms, evaluated (H0 := sample_numpy) sample_config (daily_candles 60) sample_strategy sample_grid tt ms tt
  /\ (forall m, m ∈ ms -> is_nan (BacktestMetrics.sharpe_ratio m) = false ->
        fle (BacktestMetrics.sharpe_ratio m) sample_choice.1.1 = true).
Proof.
  destruct (optimise_picks_best (H0 := sample_numpy) sample_config (daily_candles 60) sample_strategy
    sample_grid tt sample_choice.1.1 sample_choice.1.2 sample_choice.2 tt) as (ms & He & Hall & _).
  - vm_compute. reflexivity.
  - exists ms. split; [exact He|exact Hall].
Defined.

Definition sample_walk : option WalkForwardResult.t :=
  match (run_walk_forward (H0 := sample_numpy) 101 sample_config (daily_candles 100) sample_strategy sample_grid
           60 20 10 tt).1 with
  | Ok o => o
  | Raise _ => None
  end.

Lemma walk_forward_windows_witness :
  exists r, sample_walk = Some r /\ length (WalkForwardResult.windows r) = 3%nat.
Proof.
  destruct (walk_forward_windows (H0 := sample_numpy) sample_config (daily_candles 100) sample_strategy sample_grid
    60 20 10 ltac:(lia) 101 tt sample_walk tt) as (r & E & Hl & _).
  - vm_compute. lia.
  - discriminate.
  - vm_compute. reflexivity.
  - exists r. split; [exact E|]. apply Nat2Z.inj. rewrite Hl. vm_compute. reflexivity.
Defined.
