(* ===== verification/Alerts.v ===== *)
(** * Alerting and notification ([shared/alerts])

    [models.py], [dispatcher.py], [telegram.py], [email_sender.py] and
    [cost_alert.py].  The channels are protocol classes of the code
    ([_AlertChannel], [_EmailChannel], [_HttpSession], [_Dispatcher]); the
    HTTP session and the SMTP server are parameters.  The clock is a sequence
    of readings.  Building the PDF (fpdf) and encoding the MIME message are
    not modelled: a message is the record of its parts. *)

From Stdlib Require Import SpecFloat.
From stdpp Require Import sorting.
From S2P Require Import Prelude PyFloat PyDict PyText Redis Constants MarketData PyDate.
Local Open Scope Z_scope.

(** ** Models ([models.py]) *)

Module AlertLevel.
Inductive t : Type := INFO | WARNING | CRITICAL.

Definition value (l : t) : string :=
  match l with INFO => "INFO" | WARNING => "WARNING" | CRITICAL => "CRITICAL" end.
End AlertLevel.

Module AlertType.
Inductive t : Type :=
| SIGNAL | FILL | ERROR | PNL | CIRCUIT_BREAKER | KILL_SWITCH
| RECONCILIATION_MISMATCH | LLM_COST | DEAD_LETTER | HEARTBEAT.

#[global] Instance t_eq_dec : EqDecision t.
Proof. solve_decision. Defined.

Definition value (a : t) : string :=
  match a with
  | SIGNAL => "SIGNAL"
  | FILL => "FILL"
  | ERROR => "ERROR"
  | PNL => "PNL"
  | CIRCUIT_BREAKER => "CIRCUIT_BREAKER"
  | KILL_SWITCH => "KILL_SWITCH"
  | RECONCILIATION_MISMATCH => "RECONCILIATION_MISMATCH"
  | LLM_COST => "LLM_COST"
  | DEAD_LETTER => "DEAD_LETTER"
  | HEARTBEAT => "HEARTBEAT"
  end.
End AlertType.

Module Alert.
Record t := mk {
  alert_type : AlertType.t;
  level : AlertLevel.t;
  message : string;
  timestamp_ms : float;
  metadata : dict string string;
}.
End Alert.

(** ** Channels *)

(** [send(message)] *)
Class AlertChannel (C : Type) := {
  channel_send : string -> C -> result bool * C;
}.

(** [send_daily_report(subject, body, pdf_bytes)] *)
Class EmailChannel (E : Type) := {
  email_report : string -> string -> option string -> E -> result bool * E;
}.

(** [post(url, json=payload, timeout=timeout)]: the status code. *)
Class HttpSession (H : Type) := {
  http_post : string -> dict string string -> float -> H -> result Z * H;
}.

(** ** Telegram ([telegram.py]) *)

Section Telegram.
Context {H : Type} `{HttpSession H}.

Record TelegramAlerter := {
  tg_token : string;
  tg_chat_id : string;
  tg_session : H;
}.

Definition telegram_url (token : string) : string :=
  "https://api.telegram.org/bot" +:+ token +:+ "/sendMessage".

Definition telegram_payload (chat_id message : string) : dict string string :=
  [("chat_id", chat_id); ("text", message); ("parse_mode", "HTML")].

Definition telegram_send (message : string) (self : TelegramAlerter) : result bool * TelegramAlerter :=
  if is_empty (tg_token self) || is_empty (tg_chat_id self) then (Ok false, self)
  else
    let '(r, h) := http_post (telegram_url (tg_token self))
                     (telegram_payload (tg_chat_id self) message) (dec 50 1) (tg_session self) in
    let self := {| tg_token := tg_token self; tg_chat_id := tg_chat_id self; tg_session := h |} in
    match r with
    | Ok status => (Ok (status =? 200), self)
    | Raise _ => (Ok false, self)
    end.

#[export] Instance Telegram_Channel : AlertChannel TelegramAlerter := {
  channel_send := telegram_send;
}.
End Telegram.
Arguments TelegramAlerter : clear implicits.

(** ** Email ([email_sender.py]) *)

Record Mime := {
  mime_from : string;
  mime_to : string;
  mime_subject : string;
  mime_body : string;
  mime_pdf : option string;
}.

(** The connection [smtplib.SMTP(host, port, timeout=10)] and its methods. *)
Class SmtpServer (S : Type) := {
  smtp_connect : string -> Z -> M S unit;
  smtp_starttls : M S unit;
  smtp_login : string -> string -> M S unit;
  smtp_sendmail : string -> list string -> Mime -> M S unit;
  (** leaving the [with] block *)
  smtp_quit : S -> S;
}.

Section Email.
Context {S : Type} `{SmtpServer S}.

Record EmailAlerter := {
  em_host : string;
  em_port : Z;
  em_username : string;
  em_password : string;
  em_from : string;
  em_to : list string;
  em_server : S;
}.

Definition set_server (v : S) (self : EmailAlerter) : EmailAlerter :=
  {| em_host := em_host self; em_port := em_port self; em_username := em_username self;
     em_password := em_password self; em_from := em_from self; em_to := em_to self; em_server := v |}.

(** The body of the [with] block. *)
Definition smtp_session (self : EmailAlerter) (msg : Mime) : M S unit :=
  _ ← smtp_starttls;
  _ ← (if is_empty (em_username self) then mret tt
       else smtp_login (em_username self) (em_password self));
  smtp_sendmail (em_from self) (em_to self) msg.

(** [__exit__] runs on every way out of the block. *)
Definition closing (m : M S unit) : M S unit := fun server =>
  match m server with (r, server) => (r, smtp_quit server) end.

Definition deliver (self : EmailAlerter) (msg : Mime) : M S unit :=
  _ ← smtp_connect (em_host self) (em_port self);
  closing (smtp_session self msg).

Definition send_daily_report (subject body : string) (pdf_bytes : option string)
    (self : EmailAlerter) : result bool * EmailAlerter :=
  if is_empty (em_host self) || bool_decide (em_to self = []) then (Ok false, self)
  else
    let msg := {| mime_from := em_from self; mime_to := str_join ", " (em_to self);
                  mime_subject := subject; mime_body := body; mime_pdf := pdf_bytes |} in
    match deliver self msg (em_server self) with
    | (Ok _, server) => (Ok true, set_server server self)
    | (Raise _, server) => (Ok false, set_server server self)
    end.

Definition email_send (message : string) : EmailAlerter -> result bool * EmailAlerter :=
  send_daily_report ("[Trading Alert] " +:+ str_take 80 message) message None.

Definition newline : string := String "010"%char "".

Definition from_alert (alert : Alert.t) : string :=
  str_join newline
    (["Type:    " +:+ AlertType.value (Alert.alert_type alert);
      "Level:   " +:+ AlertLevel.value (Alert.level alert);
      "Message: " +:+ Alert.message alert]
     ++ (match Alert.metadata alert with
         | [] => []
         | md => "Context:" :: ((fun kv => "  " +:+ kv.1 +:+ ": " +:+ kv.2) <$> md)
         end)).

#[export] Instance Email_Channel : EmailChannel EmailAlerter := {
  email_report := send_daily_report;
}.

#[export] Instance Email_AlertChannel : AlertChannel EmailAlerter := {
  channel_send := email_send;
}.
End Email.
Arguments EmailAlerter : clear implicits.

(** ** The dispatcher ([dispatcher.py]) *)

Definition bypasses_rate_limit (a : AlertType.t) : bool :=
  bool_decide (a ∈ [AlertType.KILL_SWITCH; AlertType.CIRCUIT_BREAKER]).

Definition format_alert (alert : Alert.t) : result string :=
  ts ← int_of_float (fdiv (Alert.timestamp_ms alert) (dec 1000 0));
  mret ("[" +:+ AlertLevel.value (Alert.level alert) +:+ "]["
        +:+ AlertType.value (Alert.alert_type alert) +:+ "] "
        +:+ Alert.message alert +:+ " (ts=" +:+ pretty ts +:+ ")").

(** [while times and times[0] < cutoff: times.popleft()] *)
Fixpoint pop_before (cutoff : float) (times : list float) : list float :=
  match times with
  | t :: rest => if (t <? cutoff)%pf then pop_before cutoff rest else times
  | [] => []
  end.

Section Dispatcher.
Context {C E : Type} `{AlertChannel C} `{EmailChannel E}.

Record AlertDispatcher := {
  ad_telegram : option C;
  ad_email : option E;
  ad_rate_limit : Z;
  ad_send_times : list float;
  ad_clock : Readings float;
}.

Definition new_dispatcher (telegram : option C) (email : option E) (rate_limit_per_minute : Z)
    (clock : Readings float) : AlertDispatcher :=
  {| ad_telegram := telegram; ad_email := email; ad_rate_limit := rate_limit_per_minute;
     ad_send_times := []; ad_clock := clock |}.

Definition set_telegram (v : option C) (s : AlertDispatcher) : AlertDispatcher :=
  {| ad_telegram := v; ad_email := ad_email s; ad_rate_limit := ad_rate_limit s;
     ad_send_times := ad_send_times s; ad_clock := ad_clock s |}.
Definition set_send_times (v : list float) (s : AlertDispatcher) : AlertDispatcher :=
  {| ad_telegram := ad_telegram s; ad_email := ad_email s; ad_rate_limit := ad_rate_limit s;
     ad_send_times := v; ad_clock := ad_clock s |}.
Definition set_ad_clock (v : Readings float) (s : AlertDispatcher) : AlertDispatcher :=
  {| ad_telegram := ad_telegram s; ad_email := ad_email s; ad_rate_limit := ad_rate_limit s;
     ad_send_times := ad_send_times s; ad_clock := v |}.
Definition set_email (v : option E) (s : AlertDispatcher) : AlertDispatcher :=
  {| ad_telegram := ad_telegram s; ad_email := v; ad_rate_limit := ad_rate_limit s;
     ad_send_times := ad_send_times s; ad_clock := ad_clock s |}.

Definition dispatcher_time : M AlertDispatcher float := M_zoom ad_clock set_ad_clock next_reading.

Definition is_rate_limited : M AlertDispatcher bool :=
  now ← dispatcher_time;
  _ ← M_modify (fun s => set_send_times (pop_before (now - dec 600 1)%pf (ad_send_times s)) s);
  s ← M_get;
  mret (ad_rate_limit s <=? Z.of_nat (length (ad_send_times s))).

(** [self._telegram.send(message)] *)
Definition send_on (c : C) (message : string) : M AlertDispatcher bool := fun s =>
  let '(r, c) := channel_send message c in (r, set_telegram (Some c) s).

Definition dispatch (alert : Alert.t) : M AlertDispatcher bool :=
  limited ← (if bypasses_rate_limit (Alert.alert_type alert) then mret false else is_rate_limited);
  if (limited : bool) then mret false
  else
    s ← M_get;
    match ad_telegram s with
    | None => mret false
    | Some c =>
        message ← M_lift (format_alert alert);
        ok ← send_on c message;
        _ ← (if ok : bool then
               now ← dispatcher_time;
               M_modify (fun s => set_send_times (ad_send_times s ++ [now]) s)
             else mret tt);
        mret ok
    end.

Definition dispatch_daily_report (subject body : string) (pdf_bytes : option string)
    : M AlertDispatcher bool := fun s =>
  match ad_email s with
  | None => (Ok false, s)
  | Some e => let '(r, e) := email_report subject body pdf_bytes e in (r, set_email (Some e) s)
  end.
End Dispatcher.
Arguments AlertDispatcher : clear implicits.

(** ** The LLM cost monitor ([cost_alert.py]) *)

(** [dispatch(alert)] *)
Class Dispatcher (D : Type) := {
  dispatcher_dispatch : Alert.t -> D -> result bool * D;
}.

#[export] Instance AlertDispatcher_Dispatcher {C E} `{AlertChannel C} : Dispatcher (AlertDispatcher C E) := {
  dispatcher_dispatch := dispatch;
}.

(** [template.format(field=value)] for a template with one replacement field. *)
Fixpoint format_field (field value template : string) : string :=
  match strip_prefix field template with
  | Some rest => value +:+ rest
  | None =>
      match template with
      | EmptyString => ""
      | String c s => String c (format_field field value s)
      end
  end.

Section CostAlert.
Context {R D : Type} `{RedisKV R} `{Dispatcher D}.

(** [ca_alerted_today] is a date. *)
Record LLMCostAlerter := {
  ca_redis : R;
  ca_dispatcher : D;
  ca_threshold : float;
  ca_alerted_today : option Z;
}.

Definition new_cost_alerter (redis_client : R) (dispatcher : D) (threshold_usd : float) : LLMCostAlerter :=
  {| ca_redis := redis_client; ca_dispatcher := dispatcher; ca_threshold := threshold_usd;
     ca_alerted_today := None |}.

Definition set_ca_redis (v : R) (s : LLMCostAlerter) : LLMCostAlerter :=
  {| ca_redis := v; ca_dispatcher := ca_dispatcher s; ca_threshold := ca_threshold s;
     ca_alerted_today := ca_alerted_today s |}.
Definition set_ca_dispatcher (v : D) (s : LLMCostAlerter) : LLMCostAlerter :=
  {| ca_redis := ca_redis s; ca_dispatcher := v; ca_threshold := ca_threshold s;
     ca_alerted_today := ca_alerted_today s |}.
Definition set_alerted_today (v : Z) (s : LLMCostAlerter) : LLMCostAlerter :=
  {| ca_redis := ca_redis s; ca_dispatcher := ca_dispatcher s; ca_threshold := ca_threshold s;
     ca_alerted_today := Some v |}.

Definition parse_cost (raw : option string) : result float :=
  match raw with
  | None => mret f_zero
  | Some raw =>
      value ← py_float raw;
      mret (if is_finite value then value else f_zero)
  end.

(** [self._redis.get(key)] *)
Definition get_cost (key : string) : M LLMCostAlerter (option string) := M_zoom ca_redis set_ca_redis (redis_get key).

Definition read_cost (key : string) : M LLMCostAlerter float :=
  M_try
    (raw ← get_cost key;
     M_lift (parse_cost raw))
    (fun _ => mret f_zero).

Lemma read_cost_spec key s : exists x v, read_cost key s = (Ok x, set_ca_redis v s).
Proof.
  unfold read_cost, M_try, mbind, M_bind, get_cost, M_zoom, M_lift.
  destruct (redis_get key (ca_redis s)) as [[raw|e] v]; [|by eexists _, v].
  by destruct (parse_cost raw); eexists _, v.
Qed.

Definition cost_message (total : float) : string :=
  let pct := pyround (fdiv total LLM_DAILY_COST_TARGET_USD * dec 1000 1)%pf 1 in
  "LLM daily cost $" +:+ fmt_fixed 4 total +:+ " (" +:+ repr pct +:+ "% of $"
  +:+ repr LLM_DAILY_COST_TARGET_USD +:+ "/day target)".

Definition cost_alert (total threshold : float) (date_str : string) (timestamp_ms : float) : Alert.t :=
  {| Alert.alert_type := AlertType.LLM_COST;
     Alert.level := AlertLevel.WARNING;
     Alert.message := cost_message total;
     Alert.timestamp_ms := timestamp_ms;
     Alert.metadata := [("total_usd", repr (pyround total 4)); ("threshold_usd", repr threshold);
                        ("date", date_str)] |}.

(** [today] is [now_date or datetime.now(tz=timezone.utc).date()], and
    [timestamp_ms] the clock reading of the alert, if one is made. *)
Definition check (today : Z) (timestamp_ms : float) : M LLMCostAlerter float :=
  let date_str := strftime_ymd today in
  let sentiment_key := SENTIMENT_COST_REDIS_KEY_PREFIX +:+ ":" +:+ date_str in
  let orchestrator_key := format_field "{date}" date_str LLM_COMPLEX_DAILY_COUNTER_KEY in
  sentiment ← read_cost sentiment_key;
  orchestrator ← read_cost orchestrator_key;
  let total := (sentiment + orchestrator)%pf in
  s ← M_get;
  if (ca_threshold s <=? total)%pf && bool_decide (ca_alerted_today s <> Some today) then
    _ ← M_modify (set_alerted_today today);
    _ ← M_zoom ca_dispatcher set_ca_dispatcher
          (dispatcher_dispatch (cost_alert total (ca_threshold s) date_str timestamp_ms));
    mret total
  else mret total.
End CostAlert.
Arguments LLMCostAlerter : clear implicits.

Example counter_key : format_field "{date}" (strftime_ymd 20637) LLM_COMPLEX_DAILY_COUNTER_KEY
  = "orchestrator:llm:complex:20260703".
Proof. vm_compute. reflexivity. Qed.

(** ** The rate limiter against a reference

    The code keeps a queue that it pops from the left and to which it appends.
    The reference is a function of its own: it remembers every message that was
    ever accepted, counts those of the last 60 seconds, and knows which two
    types of alert are critical. *)

(** Clocks that do not run backwards, also after the subtraction of the window. *)
Definition steady (clock : Readings float) : Prop := forall i j, (i <= j)%nat ->
  fle (reading clock i) (reading clock j) = true
  /\ fle (reading clock i - dec 600 1)%pf (reading clock j - dec 600 1)%pf = true
  /\ fle (reading clock i - dec 600 1)%pf (reading clock j) = true.

Definition recent (cutoff : float) (times : list float) : list float :=
  filter (fun t => flt t cutoff = false) times.

Lemma pop_before_le c1 c2 l : fle c1 c2 = true -> pop_before c2 (pop_before c1 l) = pop_before c2 l.
Proof.
  intros Hc. induction l as [|t l IH]; [done|]. cbn [pop_before].
  destruct (flt t c1) eqn:Hlt; [|done]. by rewrite IH, (flt_fle_trans _ _ _ Hlt Hc).
Qed.

Lemma pop_before_snoc c l x : flt x c = false -> pop_before c (l ++ [x]) = pop_before c l ++ [x].
Proof.
  intros Hx. induction l as [|t l IH]; cbn [pop_before app]; [by rewrite Hx|].
  by destruct (flt t c).
Qed.

(** On a queue in order, popping from the left removes every old entry. *)
Lemma pop_before_recent c l :
  StronglySorted (fun x y => fle x y = true) l -> pop_before c l = recent c l.
Proof.
  unfold recent. induction 1 as [|t l Hl IH Ht]; [done|]. cbn [pop_before].
  destruct (flt t c) eqn:Hlt.
  - by rewrite filter_cons_False, IH by (by rewrite Hlt).
  - rewrite filter_cons_True by done. rewrite filter_all; [done|].
    eapply Forall_impl; [exact Ht|]. intros x Hx. destruct (flt x c) eqn:Ex; [|done].
    by rewrite (fle_flt_trans _ _ _ Hx Ex) in Hlt.
Qed.

Lemma sorted_snoc l x :
  StronglySorted (fun x y => fle x y = true) l -> Forall (fun t => fle t x = true) l ->
  StronglySorted (fun x y => fle x y = true) (l ++ [x]).
Proof.
  induction 1 as [|t l Hl IH Ht]; intros Hx; cbn [app]; [repeat constructor|].
  apply Forall_cons in Hx as [Htx Hx]. constructor; [by apply IH|].
  apply Forall_app. split; [done|by repeat constructor].
Qed.

Section Limiter.
Context {C E : Type} `{AlertChannel C}.
#[local] Abbreviation Disp := (AlertDispatcher C E).

Fixpoint dispatch_all (alerts : list Alert.t) : M Disp (list bool) :=
  match alerts with
  | [] => mret []
  | a :: alerts => b ← dispatch a; bs ← dispatch_all alerts; mret (b :: bs)
  end.

(** The channel, the times of the accepted messages and the number of readings
    of the clock. *)
Record Reference := { rf_channel : option C; rf_log : list float; rf_readings : nat }.

Definition critical (a : AlertType.t) : bool :=
  match a with AlertType.KILL_SWITCH | AlertType.CIRCUIT_BREAKER => true | _ => false end.

(** One message: a critical one asks no clock; another one is refused when
    [limit] messages were accepted since a minute ago; an accepted one is
    remembered with the time after it was sent. *)
Definition reference_dispatch (limit : Z) (clock : nat -> float) (alert : Alert.t) (r : Reference) : result bool * Reference :=
  let free := critical (Alert.alert_type alert) in
  let minute_ago := (clock (rf_readings r) - dec 60 0)%pf in
  let now := if free then rf_readings r else S (rf_readings r) in
  if negb free && (limit <=? Z.of_nat (length (recent minute_ago (rf_log r)))) then
    (Ok false, {| rf_channel := rf_channel r; rf_log := rf_log r; rf_readings := now |})
  else
    match rf_channel r, format_alert alert with
    | None, _ => (Ok false, {| rf_channel := None; rf_log := rf_log r; rf_readings := now |})
    | Some c, Raise e => (Raise e, {| rf_channel := Some c; rf_log := rf_log r; rf_readings := now |})
    | Some c, Ok text =>
        let '(answer, c) := channel_send text c in
        match answer with
        | Ok true => (Ok true, {| rf_channel := Some c; rf_log := rf_log r ++ [clock now]; rf_readings := S now |})
        | _ => (answer, {| rf_channel := Some c; rf_log := rf_log r; rf_readings := now |})
        end
    end.

Fixpoint reference_all (limit : Z) (clock : nat -> float) (alerts : list Alert.t) (r : Reference) : result (list bool) * Reference :=
  match alerts with
  | [] => (Ok [], r)
  | a :: alerts =>
      match reference_dispatch limit clock a r with
      | (Raise e, r) => (Raise e, r)
      | (Ok b, r) =>
          match reference_all limit clock alerts r with
          | (Ok bs, r) => (Ok (b :: bs), r)
          | (Raise e, r) => (Raise e, r)
          end
      end
  end.

(** The dispatcher [s] and the reference [r] agree: the queue is what is left of
    the log when it was last popped. *)
Record agree (s : Disp) (r : Reference) : Prop := {
  ag_channel : ad_telegram s = rf_channel r;
  ag_readings : taken (ad_clock s) = rf_readings r;
  ag_sorted : StronglySorted (fun x y => fle x y = true) (rf_log r);
  ag_past : Forall (fun t => fle t (reading (ad_clock s) (taken (ad_clock s))) = true) (rf_log r);
  ag_popped : exists i, (i <= taken (ad_clock s))%nat
    /\ ad_send_times s = pop_before (reading (ad_clock s) i - dec 600 1)%pf (rf_log r);
}.

Definition fresh_reference (s : Disp) : Reference :=
  {| rf_channel := ad_telegram s; rf_log := []; rf_readings := taken (ad_clock s) |}.

Lemma agree_fresh s : ad_send_times s = [] -> agree s (fresh_reference s).
Proof.
  intros Hs. constructor; try done; cbn; [constructor|]. exists (taken (ad_clock s)). by rewrite Hs.
Qed.

(** One reading of the clock, and the queue popped up to it. *)
Definition now_of (s : Disp) : float := reading (ad_clock s) (taken (ad_clock s)).
Definition tick (s : Disp) : Disp :=
  set_ad_clock {| reading := reading (ad_clock s); taken := S (taken (ad_clock s)) |} s.
Definition popped (s : Disp) : Disp :=
  set_send_times (pop_before (now_of s - dec 600 1)%pf (ad_send_times s)) (tick s).

(** An accepted message is recorded at the next reading of the clock. *)
Definition recorded (s : Disp) : Disp := set_send_times (ad_send_times s ++ [now_of s]) (tick s).

Definition with_readings (n : nat) (r : Reference) : Reference :=
  {| rf_channel := rf_channel r; rf_log := rf_log r; rf_readings := n |}.

Lemma is_rate_limited_eq s :
  is_rate_limited s = (Ok (ad_rate_limit s <=? Z.of_nat (length (ad_send_times (popped s)))), popped s).
Proof. reflexivity. Qed.

(** [dispatch], branch by branch. *)
Lemma dispatch_eq alert s :
  dispatch alert s
  = let '(limited, s) := if bypasses_rate_limit (Alert.alert_type alert) then (Ok false, s) else is_rate_limited s in
    match limited with
    | Raise e => (Raise e, s)
    | Ok true => (Ok false, s)
    | Ok false =>
        match ad_telegram s with
        | None => (Ok false, s)
        | Some c =>
            match format_alert alert with
            | Raise e => (Raise e, s)
            | Ok text =>
                let s' := set_telegram (Some (channel_send text c).2) s in
                match (channel_send text c).1 with
                | Raise e => (Raise e, s')
                | Ok true => (Ok true, recorded s')
                | Ok false => (Ok false, s')
                end
            end
        end
    end.
Proof.
  unfold dispatch. unfold mbind, M_bind at 1.
  destruct (bypasses_rate_limit _); cbn [mret M_ret].
  2: destruct (is_rate_limited s) as [[limited|e] s']; [|done]; destruct limited; [done|]; revert s'; intros s1.
  all: unfold M_get; cbn [mbind M_bind].
  all: match goal with |- context [ad_telegram ?x] => destruct (ad_telegram x) as [c|] end; [|done].
  all: unfold M_lift; destruct (format_alert alert) as [text|e]; [|done].
  all: unfold M_bind, send_on; destruct (channel_send text c) as [[[]|e] c']; reflexivity.
Qed.

Lemma bypasses_critical a : bypasses_rate_limit a = critical a.
Proof. by destruct a. Qed.

Lemma set_telegram_agree c s r : agree s r ->
  agree (set_telegram c s) {| rf_channel := c; rf_log := rf_log r; rf_readings := rf_readings r |}.
Proof. intros [? ? ? ? ?]. by constructor. Qed.

Section Steady.
Context (clock : Readings float) (Hsteady : steady clock).

(** Only the number of readings of the clock changes. *)
Definition on_clock (s : Disp) : Prop := reading (ad_clock s) = reading clock.

(** The queue after the pop is the recent part of the log. *)
Lemma popped_agree s r : on_clock s -> agree s r ->
  ad_send_times (popped s) = recent (reading clock (rf_readings r) - dec 60 0)%pf (rf_log r)
  /\ agree (popped s) (with_readings (S (rf_readings r)) r).
Proof.
  intros Hc [Ht Hn Hso Hp (i & Hi & Hs)]. unfold on_clock in Hc.
  assert (Hpop : ad_send_times (popped s) = pop_before (now_of s - dec 600 1)%pf (rf_log r)).
  { cbn. rewrite Hs. apply pop_before_le. unfold now_of. rewrite Hc. by apply Hsteady. }
  split.
  - rewrite Hpop, (pop_before_recent _ _ Hso). unfold now_of. by rewrite Hc, Hn.
  - constructor; cbn; [done|by f_equal|done| |].
    + eapply Forall_impl; [exact Hp|]. intros t Hle. cbn in Hle |- *. rewrite Hc in *.
      pose proof (Hsteady (taken (ad_clock s)) (S (taken (ad_clock s))) ltac:(lia)) as (Hstep & _). float_order.
    + exists (taken (ad_clock s)). split; [lia|]. exact Hpop.
Qed.

Lemma recorded_agree s r : on_clock s -> agree s r ->
  agree (recorded s) {| rf_channel := rf_channel r; rf_log := rf_log r ++ [reading clock (rf_readings r)];
                        rf_readings := S (rf_readings r) |}.
Proof.
  intros Hc [Ht Hn Hso Hp (i & Hi & Hs)]. unfold on_clock in Hc. rewrite Hc in *. rewrite <- Hn.
  assert (Hnext : fle (reading clock (taken (ad_clock s))) (reading clock (S (taken (ad_clock s)))) = true)
    by (apply Hsteady; lia).
  constructor; cbn; rewrite ?Hc; try done.
  - by apply sorted_snoc.
  - apply Forall_app. split; [|by repeat constructor].
    eapply Forall_impl; [exact Hp|]. intros t Hle. cbn in Hle. float_order.
  - exists i. split; [lia|]. rewrite Hs, pop_before_snoc; [unfold now_of; by rewrite Hc|].
    pose proof (Hsteady i (taken (ad_clock s)) Hi) as (_ & _ & Hb). float_order.
Qed.

(** The end of both dispatches, once the message was let through. *)
Lemma sent_agree text c s r : on_clock s -> agree s r ->
  let s' := set_telegram (Some (channel_send text c).2) s in
  let x := match (channel_send text c).1 with
           | Raise e => (Raise e, s')
           | Ok true => (Ok true, recorded s')
           | Ok false => (Ok false, s')
           end in
  let y := let '(answer, c) := channel_send text c in
           match answer with
           | Ok true => (Ok true, {| rf_channel := Some c; rf_log := rf_log r ++ [reading clock (rf_readings r)];
                                     rf_readings := S (rf_readings r) |})
           | _ => (answer, {| rf_channel := Some c; rf_log := rf_log r; rf_readings := rf_readings r |})
           end in
  x.1 = y.1 /\ agree x.2 y.2 /\ on_clock x.2 /\ ad_rate_limit x.2 = ad_rate_limit s.
Proof.
  intros Hc Ha. cbv zeta. destruct (channel_send text c) as [[[]|e] c']; cbn [fst snd].
  all: pose proof (set_telegram_agree (Some c') _ _ Ha) as Ha'; split_and!; try done.
  exact (recorded_agree (set_telegram (Some c') s) _ Hc Ha').
Qed.

Lemma dispatch_agree alert s r : on_clock s -> agree s r ->
  let x := dispatch alert s in
  let y := reference_dispatch (ad_rate_limit s) (reading clock) alert r in
  x.1 = y.1 /\ agree x.2 y.2 /\ on_clock x.2 /\ ad_rate_limit x.2 = ad_rate_limit s.
Proof.
  intros Hc Ha. cbv zeta. rewrite dispatch_eq, bypasses_critical. unfold reference_dispatch.
  destruct (popped_agree s r Hc Ha) as [Hpop Ha']. destruct (critical _); cbn [negb andb].
  - rewrite (ag_channel _ _ Ha) in *. destruct (rf_channel r) as [c|] eqn:Er.
    + destruct (format_alert alert) as [text|e]; [by apply sent_agree|].
      split_and!; try done. rewrite <- Er. by destruct r.
    + split_and!; try done. rewrite <- Er. by destruct r.
  - rewrite is_rate_limited_eq, Hpop. destruct (ad_rate_limit s <=? _); [done|].
    change (ad_telegram (popped s)) with (ad_telegram s). rewrite (ag_channel _ _ Ha).
    destruct (rf_channel r) as [c|] eqn:Er.
    + destruct (format_alert alert) as [text|e].
      * apply (sent_agree text c (popped s) (with_readings (S (rf_readings r)) r)); [exact Hc|exact Ha'].
      * split_and!; try done. unfold with_readings in Ha'. by rewrite Er in Ha'.
    + split_and!; try done. unfold with_readings in Ha'. by rewrite Er in Ha'.
Qed.

Lemma dispatch_all_agree alerts s r : on_clock s -> agree s r ->
  let x := dispatch_all alerts s in
  let y := reference_all (ad_rate_limit s) (reading clock) alerts r in
  x.1 = y.1 /\ agree x.2 y.2.
Proof.
  cbv zeta. revert s r. induction alerts as [|a alerts IH]; intros s r Hc Ha; [done|].
  cbn [dispatch_all reference_all]. unfold mbind, M_bind. destruct (dispatch_agree a s r Hc Ha) as (Ho & Hs & Hc' & Hl).
  destruct (dispatch a s) as [[b|e] s1], (reference_dispatch _ _ a r) as [[b'|e'] r1]; cbn [fst snd] in *;
    simplify_eq; [|done].
  rewrite <- Hl. destruct (IH s1 r1 Hc' Hs) as [Hos Hss].
  destruct (dispatch_all alerts s1) as [[bs|e] s2], (reference_all _ _ alerts r1) as [[bs'|e'] r2]; cbn [fst snd] in *;
    by simplify_eq.
Qed.
End Steady.

(** C30. Rate limiting is exact: over a clock that does not run backwards, a
    fresh dispatcher gives every message the answer, and the channel the
    texts, of a reference that remembers all the messages the channel
    accepted, critical ones included, and refuses a message that is not
    critical when the limit of them was accepted in the last 60 seconds. *)
Theorem rate_limiter_exact alerts (s : Disp) :
  steady (ad_clock s) -> ad_send_times s = [] ->
  let reference := reference_all (ad_rate_limit s) (reading (ad_clock s)) alerts
                     {| rf_channel := ad_telegram s; rf_log := []; rf_readings := taken (ad_clock s) |} in
  (dispatch_all alerts s).1 = reference.1
  /\ ad_telegram (dispatch_all alerts s).2 = rf_channel reference.2.
Proof.
  intros Hc Hs. cbv zeta. destruct (dispatch_all_agree (ad_clock s) Hc alerts s _ eq_refl (agree_fresh s Hs)) as [Ho Ha].
  split; [exact Ho|]. exact (ag_channel _ _ Ha).
Qed.

(** A kill-switch or circuit-breaker alert is never rate limited: with a
    Telegram channel it is sent exactly once, whatever was sent before and
    whatever the limit, and the answer of the channel is returned. *)
Theorem critical_alert_never_limited alert (s : Disp) c text :
  Alert.alert_type alert = AlertType.KILL_SWITCH \/ Alert.alert_type alert = AlertType.CIRCUIT_BREAKER ->
  ad_telegram s = Some c -> format_alert alert = Ok text ->
  (dispatch alert s).1 = (channel_send text c).1
  /\ ad_telegram (dispatch alert s).2 = Some (channel_send text c).2.
Proof.
  intros Ha Hc Ht. rewrite dispatch_eq.
  assert (bypasses_rate_limit (Alert.alert_type alert) = true) as -> by (by destruct Ha as [-> | ->]).
  cbn beta iota zeta. rewrite Hc, Ht. by destruct (channel_send text c) as [[[]|e] c'].
Qed.
End Limiter.

(** ** One LLM cost alert per day *)

(** A dispatcher that records what it is given. *)
#[export] Instance Recorder : Dispatcher (list Alert.t) := {
  dispatcher_dispatch a l := (Ok true, l ++ [a]);
}.

Definition alert_date (a : Alert.t) : option string := dget "date" (Alert.metadata a).

Section CostAlerts.
Context {R : Type} `{RedisKV R}.
#[local] Abbreviation Alerter := (LLMCostAlerter R (list Alert.t)).

(** Checks on the dates of [l], with the clock reading of each: the date and the
    total of each check. *)
Fixpoint run_checks (l : list (Z * float)) : M Alerter (list (Z * float)) :=
  match l with
  | [] => mret []
  | (today, ts) :: l =>
      total ← check today ts;
      rest ← run_checks l;
      mret ((today, total) :: rest)
  end.

(** What one check does: it adds one alert when the total reaches the threshold
    and the date is not the last one alerted. *)
Lemma check_spec today ts (s : Alerter) : exists total s',
  check today ts s = (Ok total, s') /\ ca_threshold s' = ca_threshold s
  /\ if fle (ca_threshold s) total && bool_decide (ca_alerted_today s <> Some today)
     then ca_alerted_today s' = Some today
          /\ alert_date <$> ca_dispatcher s' = (alert_date <$> ca_dispatcher s) ++ [Some (strftime_ymd today)]
     else ca_alerted_today s' = ca_alerted_today s /\ ca_dispatcher s' = ca_dispatcher s.
Proof.
  unfold check. cbv zeta. unfold mbind, M_bind.
  destruct (read_cost_spec (SENTIMENT_COST_REDIS_KEY_PREFIX +:+ ":" +:+ strftime_ymd today) s)
    as (x & v & ->).
  destruct (read_cost_spec (format_field "{date}" (strftime_ymd today) LLM_COMPLEX_DAILY_COUNTER_KEY)
              (set_ca_redis v s)) as (y & w & ->).
  cbn [M_get]. exists (x + y)%pf. unfold M_get.
  change (ca_threshold (set_ca_redis w (set_ca_redis v s))) with (ca_threshold s).
  change (ca_alerted_today (set_ca_redis w (set_ca_redis v s))) with (ca_alerted_today s).
  destruct (fle (ca_threshold s) (x + y)%pf && bool_decide (ca_alerted_today s <> Some today)).
  - eexists. split; [reflexivity|]. split; [done|]. split; [done|].
    cbn. by rewrite fmap_app.
  - eexists. split; [reflexivity|]. done.
Qed.

(** The dates alerted so far: in order, the last one remembered, none after [b]. *)
Definition alerted (days : list Z) (b : Z) (s : Alerter) : Prop :=
  alert_date <$> ca_dispatcher s = (fun d => Some (strftime_ymd d)) <$> days
  /\ StronglySorted Z.lt days /\ last days = ca_alerted_today s /\ Forall (fun d => d <= b) days.

Lemma sorted_lt_snoc l (x : Z) :
  StronglySorted Z.lt l -> Forall (fun d => d < x) l -> StronglySorted Z.lt (l ++ [x]).
Proof.
  induction 1 as [|t l Hl IH Ht]; intros Hx; cbn [app]; [repeat constructor|].
  apply Forall_cons in Hx as [Htx Hx]. constructor; [by apply IH|].
  apply Forall_app. split; [done|by repeat constructor].
Qed.

Lemma sorted_last_below l (b x : Z) :
  StronglySorted Z.lt l -> Forall (fun d => d <= b) l -> b <= x -> last l <> Some x ->
  Forall (fun d => d < x) l.
Proof.
  induction 1 as [|t l Hl IH Ht]; intros Hb Hx Hlast; [constructor|].
  apply Forall_cons in Hb as [Htb Hb]. destruct l as [|u l].
  - constructor; [|constructor]. cbn in Hlast. assert (t <> x) by congruence. lia.
  - specialize (IH Hb Hx Hlast). constructor; [|done].
    apply Forall_cons in Ht as [Htu _]. apply Forall_cons in IH as [Hu _]. lia.
Qed.

Lemma check_alerted today ts days b (s : Alerter) : alerted days b s -> b <= today ->
  exists total s' days', check today ts s = (Ok total, s') /\ ca_threshold s' = ca_threshold s
    /\ alerted days' today s'
    /\ forall d, d ∈ days' <-> d ∈ days \/ d = today /\ fle (ca_threshold s) total = true.
Proof.
  intros (Hd & Hs & Hl & Hb) Hle. destruct (check_spec today ts s) as (total & s' & He & Ht & Hcase).
  exists total, s'. assert (Hb' : Forall (fun d => d <= today) days) by (eapply Forall_impl; [exact Hb|]; cbn; lia).
  destruct (fle (ca_threshold s) total) eqn:Hover; cbn [andb] in Hcase.
  - destruct (bool_decide_reflect (ca_alerted_today s <> Some today)) as [Hne|Heq].
    + destruct Hcase as [Ha Hr]. exists (days ++ [today]). split_and!; [done|done| |].
      * split_and!; [by rewrite Hr, Hd, fmap_app | |by rewrite last_snoc|].
        2: { apply Forall_app. split; [done|by repeat constructor]. }
        apply sorted_lt_snoc; [done|]. apply (sorted_last_below days b); [done..|]. by rewrite Hl.
      * intros d. rewrite elem_of_app, list_elem_of_singleton. naive_solver.
    + destruct Hcase as [Ha Hr]. exists days. split_and!; [done|done| |].
      * split_and!; [by rewrite Hr|done|by rewrite Ha|done].
      * apply dec_stable in Heq. intros d. split; [by left|]. intros [?|[-> _]]; [done|].
        apply last_Some_elem_of. by rewrite Hl.
  - destruct Hcase as [Ha Hr]. exists days. split_and!; [done|done| |].
    + split_and!; [by rewrite Hr|done|by rewrite Ha|done].
    + naive_solver.
Qed.

Lemma run_checks_alerted l days b (s : Alerter) :
  alerted days b s -> StronglySorted Z.le l.*1 -> Forall (fun d => b <= d) l.*1 ->
  exists trace s' days' b', run_checks l s = (Ok trace, s') /\ trace.*1 = l.*1 /\ alerted days' b' s'
    /\ forall d, d ∈ days' <-> d ∈ days \/ exists total, (d, total) ∈ trace /\ fle (ca_threshold s) total = true.
Proof.
  revert days b s. induction l as [|[today ts] l IH]; intros days b s Ha Hs Hb.
  - exists [], s, days, b. split_and!; [done|done|done|]. set_solver.
  - rewrite fmap_cons in Hs, Hb. cbn [fst] in Hs, Hb.
    apply StronglySorted_inv in Hs as [Hs Hall]. apply Forall_cons in Hb as [Hle _].
    destruct (check_alerted today ts days b s Ha Hle) as (total & s1 & days1 & He & Ht & Ha1 & Hd1).
    destruct (IH days1 today s1 Ha1 Hs Hall) as (trace & s2 & days2 & b2 & Hr & Hk & Ha2 & Hd2).
    exists ((today, total) :: trace), s2, days2, b2. split_and!; [| |done|].
    + cbn [run_checks]. unfold mbind, M_bind. by rewrite He, Hr.
    + rewrite !fmap_cons. by rewrite Hk.
    + intros d. rewrite Hd2, Hd1, Ht. setoid_rewrite elem_of_cons. naive_solver.
Qed.

(** The cost monitor alerts at most once per calendar day, and exactly on
    the days it should: over checks on dates in order, the alerts handed to
    the dispatcher carry strictly increasing dates, and a date has an alert
    if and only if some check on it found a total at the threshold or above. *)
Theorem cost_alert_once_per_day l (s : Alerter) :
  ca_dispatcher s = [] -> ca_alerted_today s = None -> StronglySorted Z.le l.*1 ->
  exists trace s' days, run_checks l s = (Ok trace, s') /\ trace.*1 = l.*1
    /\ alert_date <$> ca_dispatcher s' = (fun d => Some (strftime_ymd d)) <$> days
    /\ StronglySorted Z.lt days
    /\ forall d, d ∈ days <-> exists total, (d, total) ∈ trace /\ fle (ca_threshold s) total = true.
Proof.
  intros Hd Ha Hs.
  assert (H0 : alerted [] (default 0 (head l.*1)) s) by (split_and!; [by rewrite Hd|constructor|by rewrite Ha|done]).
  destruct (run_checks_alerted l [] (default 0 (head l.*1)) s H0 Hs) as (trace & s' & days & b & Hr & Hk & Hal & Hin).
  - destruct Hs as [|x xs Hs Hall]; constructor; [done|exact Hall].
  - exists trace, s', days. destruct Hal as (Hm & Hsd & _). split_and!; [done..|].
    intros d. rewrite Hin. set_solver.
Qed.
End CostAlerts.

(** A refused alert is not tried again: once the date is recorded, no later
    check of the day reaches the dispatcher. *)
Theorem refused_cost_alert_is_lost {R D} `{RedisKV R} `{Dispatcher D} today ts (s : LLMCostAlerter R D) :
  ca_alerted_today s = Some today ->
  ca_dispatcher (check today ts s).2 = ca_dispatcher s
  /\ ca_alerted_today (check today ts s).2 = Some today.
Proof.
  intros Ha.
  unfold check. cbv zeta. unfold mbind, M_bind.
  destruct (read_cost_spec (SENTIMENT_COST_REDIS_KEY_PREFIX +:+ ":" +:+ strftime_ymd today) s) as (x & v & ->).
  destruct (read_cost_spec (format_field "{date}" (strftime_ymd today) LLM_COMPLEX_DAILY_COUNTER_KEY)
              (set_ca_redis v s)) as (y & w & ->).
  unfold M_get. change (ca_alerted_today (set_ca_redis w (set_ca_redis v s))) with (ca_alerted_today s).
  rewrite Ha, bool_decide_eq_false_2, andb_false_r by tauto. done.
Qed.

(** ** Witnesses *)

(** A channel that keeps the texts it accepts. *)
#[export] Instance Log_Channel : AlertChannel (list string) := {
  channel_send text l := (Ok true, l ++ [text]);
}.

Definition sample_alert (a : AlertType.t) : Alert.t :=
  {| Alert.alert_type := a; Alert.level := AlertLevel.INFO; Alert.message := "x";
     Alert.timestamp_ms := dec 1000 0; Alert.metadata := [] |}.

(** A clock that jumps by 1000 seconds at its fourth reading. *)
Definition sample_clock : Readings float :=
  {| reading := fun i => if (i <? 3)%nat then dec 1000 0 else dec 2000 0; taken := 0 |}.

Lemma sample_clock_steady : steady sample_clock.
Proof.
  intros i j Hij. unfold sample_clock. cbn [reading].
  destruct (Nat.ltb_spec i 3), (Nat.ltb_spec j 3); try lia; vm_compute; auto.
Qed.

Definition sample_dispatcher (limit : Z) : AlertDispatcher (list string) unit :=
  new_dispatcher (Some []) None limit sample_clock.

Definition sample_alerts : list Alert.t := sample_alert <$> [AlertType.FILL; AlertType.FILL; AlertType.FILL].

Lemma rate_limiter_exact_witness :
  let reference := reference_all 1 (reading sample_clock) sample_alerts
                     {| rf_channel := Some []; rf_log := []; rf_readings := 0 |} in
  steady (ad_clock (sample_dispatcher 1)) /\ ad_send_times (sample_dispatcher 1) = []
  /\ reference.1 = Ok [true; false; true]
  /\ (dispatch_all sample_alerts (sample_dispatcher 1)).1 = reference.1
  /\ ad_telegram (dispatch_all sample_alerts (sample_dispatcher 1)).2 = rf_channel reference.2.
Proof.
  split; [exact sample_clock_steady|]. split; [reflexivity|]. split; [vm_compute; reflexivity|].
  exact (rate_limiter_exact sample_alerts (sample_dispatcher 1) sample_clock_steady eq_refl).
Defined.

Lemma critical_alert_never_limited_witness :
  (dispatch (sample_alert AlertType.FILL) (sample_dispatcher 0)).1 = Ok false
  /\ (dispatch (sample_alert AlertType.KILL_SWITCH) (sample_dispatcher 0)).1 = Ok true
  /\ ad_telegram (dispatch (sample_alert AlertType.KILL_SWITCH) (sample_dispatcher 0)).2
     = Some ["[INFO][KILL_SWITCH] x (ts=1)"].
Proof.
  split; [vm_compute; reflexivity|].
  refine (critical_alert_never_limited (sample_alert AlertType.KILL_SWITCH) (sample_dispatcher 0) ([] : list string)
           "[INFO][KILL_SWITCH] x (ts=1)" _ _ _).
  - left. reflexivity.
  - reflexivity.
  - vm_compute. reflexivity.
Defined.

Definition cost_redis : MemRedis :=
  {| mem_kv := {[ "sentiment:cost:daily:20260703" := "0.5"; "orchestrator:llm:complex:20260703" := "0.4" ]};
     mem_lists := ∅; mem_streams := ∅; mem_up := true |}.

Definition cost_checks : list (Z * float) := [(20636, dec 1000 0); (20637, dec 1000 0); (20637, dec 2000 0)].

Definition sample_alerter : LLMCostAlerter MemRedis (list Alert.t) :=
  new_cost_alerter cost_redis [] LLM_COST_ALERT_THRESHOLD_USD.

Lemma cost_alert_once_per_day_witness :
  length (ca_dispatcher (run_checks cost_checks sample_alerter).2) = 1%nat
  /\ exists trace s' days, run_checks cost_checks sample_alerter = (Ok trace, s') /\ trace.*1 = cost_checks.*1
    /\ alert_date <$> ca_dispatcher s' = (fun d => Some (strftime_ymd d)) <$> days
    /\ StronglySorted Z.lt days
    /\ forall d, d ∈ days <-> exists total, (d, total) ∈ trace /\ fle (ca_threshold sample_alerter) total = true.
Proof.
  split; [vm_compute; reflexivity|].
  apply (cost_alert_once_per_day cost_checks sample_alerter); [reflexivity|reflexivity|].
  unfold cost_checks. cbn. repeat constructor; lia.
Defined.

(** With the rate limit reached, the alert of the day never leaves. *)
Example cost_alert_lost :
  let s := new_cost_alerter cost_redis (sample_dispatcher 0) LLM_COST_ALERT_THRESHOLD_USD in
  let s1 := (check 20637 (dec 1000 0) s).2 in
  let s2 := (check 20637 (dec 2000 0) s1).2 in
  ca_alerted_today s1 = Some 20637 /\ ad_telegram (ca_dispatcher s2) = Some [].
Proof. vm_compute. split; reflexivity. Qed.
