(* ===== verification/RegimeClassifier.v ===== *)
(** * The regime classifier and its publisher ([shared/regime])

    [features.py], [classifier.py], [publisher.py] and the promotion gate of
    [mlflow_registry.py].  TA-Lib, NumPy, the scikit-learn forest, the HMM,
    MLflow and the generated protobuf code are parameters.  A [datetime] is
    its number of microseconds since the epoch; the time of a classification
    is an argument. *)

From Stdlib Require Import SpecFloat.
From S2P Require Import Prelude PyFloat PyDict Json PyText Redis Constants Regime MarketData PyDate NumPy Backtesting.
Local Open Scope Z_scope.

(** ** Features ([features.py]) *)

Definition MIN_CANDLES_FOR_FEATURES : nat := 30.

(** [arr[~np.isnan(arr)]] *)
Definition valid (arr : list float) : list float := filter (fun x => is_nan x = false) arr.

Definition last_valid (arr : list float) : float := default f_zero (last (valid arr)).

(** [a / b * 100.0 if b > 0.0 else 0.0] *)
Definition pct_of (a b : float) : float := if flt f_zero b then (fdiv a b * dec 1000 1)%pf else f_zero.

(** [(high + low + close) / 3.0], element by element. *)
Definition typical_price (high low close : list float) : list float :=
  zip_with (fun hl c => fdiv (hl + c)%pf (dec 30 1)) (zip_with fadd high low) close.

Definition volume_ratio_of `{NumPyStats} (volume : list float) : float :=
  let vol_window := last_n REGIME_ATR_SPIKE_LOOKBACK volume in
  let current := default f_zero (last volume) in
  let vol_mean := if (1 <? length vol_window)%nat then np_mean (removelast vol_window) else current in
  if flt f_zero vol_mean then fdiv current vol_mean else dec 10 1.

Definition vwap_of `{NumPyStats} (high low close volume : list float) (current_close : float) : float :=
  let total_vol := np_sum volume in
  if flt f_zero total_vol then
    fdiv (np_sum (zip_with fmul (typical_price high low close) volume)) total_vol
  else current_close.

Definition atr_spike_of `{NumPyStats} (atr_arr : list float) (atr : float) : bool :=
  let valid_atr := valid atr_arr in
  if (2 <=? length valid_atr)%nat then
    let rolling_mean_atr := np_mean (last_n REGIME_ATR_SPIKE_LOOKBACK valid_atr) in
    flt (REGIME_ATR_SPIKE_MULTIPLIER * rolling_mean_atr)%pf atr
  else false.

Definition extract_features `{NumPyStats} `{TALib} (candles : list OHLCVCandle.t) (vix : float)
    : result RegimeFeatures.t :=
  if (length candles <? MIN_CANDLES_FOR_FEATURES)%nat then
    Raise (ValueError ("Need at least 30 candles for feature extraction, got "
                       +:+ pretty (Z.of_nat (length candles))))
  else
    let window := last_n REGIME_FEATURE_LOOKBACK candles in
    let high := OHLCVCandle.high <$> window in
    let low := OHLCVCandle.low <$> window in
    let close := OHLCVCandle.close <$> window in
    volume ← mapM (fun c => float_of_int (OHLCVCandle.volume c)) window;
    let adx_arr := talib_ADX high low close 14 in
    let rsi_arr := talib_RSI close 14 in
    let atr_arr := talib_ATR high low close 14 in
    let '(upper, middle, lower) := talib_BBANDS close 20 in
    let adx := last_valid adx_arr in
    let rsi := last_valid rsi_arr in
    let atr := last_valid atr_arr in
    let bb_mid := last_valid middle in
    let bb_upper := last_valid upper in
    let bb_lower := last_valid lower in
    let current_close := default f_zero (last close) in
    let bb_width_pct := pct_of (bb_upper - bb_lower)%pf bb_mid in
    let atr_pct := pct_of atr current_close in
    let vwap := vwap_of high low close volume current_close in
    let vwap_deviation_pct := pct_of (current_close - vwap)%pf vwap in
    mret (RegimeFeatures.mk (pyround adx 4) (pyround rsi 4) (pyround bb_width_pct 4) (pyround atr_pct 4)
            (pyround vwap_deviation_pct 4) (pyround (volume_ratio_of volume) 4) vix
            (atr_spike_of atr_arr atr)).

(** ** The classifier ([classifier.py]) *)

Definition REGIME_ORDER : list MarketRegime := [BEAR_TREND; BULL_TREND; HIGH_VOL_CHAOS; MEAN_REVERTING].

Definition regime_to_label (regime : MarketRegime) : Z :=
  match regime with BEAR_TREND => 0 | BULL_TREND => 1 | HIGH_VOL_CHAOS => 2 | MEAN_REVERTING => 3 end.

Definition label_to_regime (label : Z) : result MarketRegime := py_index REGIME_ORDER label.

(** [RandomForestClassifier(...)] and [GaussianHMM(...)] with the parameters of
    the code, and the methods it calls; [rf_predict_proba] is the first row. *)
Class SkModels (RF HMM : Type) := {
  rf_new : RF;
  rf_fit : list (list float) -> list Z -> M RF unit;
  rf_predict : RF -> list (list float) -> result (list Z);
  rf_predict_proba : RF -> list float -> result (list float);
  hmm_new : HMM;
  hmm_fit : list (list float) -> M HMM unit;
  hmm_predict : HMM -> list (list float) -> result (list Z);
}.

Definition is_chaos (features : RegimeFeatures.t) : bool :=
  flt REGIME_VIX_CHAOS_THRESHOLD (RegimeFeatures.vix features) || RegimeFeatures.atr_spike features.

(** The labels of the samples in hidden state [state]: [rf_labels[hmm_states == state]]. *)
Definition masked (hmm_states rf_labels : list Z) (state : Z) : list Z :=
  (filter (fun p => p.1 = state) (zip hmm_states rf_labels)).*2.

Definition majority_regime `{NumPyArrays} (hmm_states rf_labels : list Z) (state : Z) : result MarketRegime :=
  match masked hmm_states rf_labels state with
  | [] => mret MEAN_REVERTING
  | labels => label_to_regime (np_argmax_int (np_bincount labels (length REGIME_ORDER)))
  end.

Definition build_state_map `{NumPyArrays} (hmm_states rf_labels : list Z) : result (dict Z MarketRegime) :=
  for_each (fun state_map state =>
              regime ← majority_regime hmm_states rf_labels state;
              mret (dset state regime state_map))
    [] (Z.of_nat <$> seq 0 REGIME_HMM_N_COMPONENTS).

Section Classifier.
Context {RF HMM : Type} `{SkModels RF HMM} `{NumPyArrays}.

Record RegimeClassifier := {
  rc_rf : option RF;
  rc_hmm : option HMM;
  rc_state_map : dict Z MarketRegime;
  rc_is_fitted : bool;
}.

Definition new_classifier (rf_model : option RF) (hmm_model : option HMM) : RegimeClassifier :=
  {| rc_rf := rf_model; rc_hmm := hmm_model; rc_state_map := [];
     rc_is_fitted := bool_decide (is_Some rf_model) && bool_decide (is_Some hmm_model) |}.

Definition set_rf (v : RF) (s : RegimeClassifier) : RegimeClassifier :=
  {| rc_rf := Some v; rc_hmm := rc_hmm s; rc_state_map := rc_state_map s; rc_is_fitted := rc_is_fitted s |}.
Definition set_hmm (v : HMM) (s : RegimeClassifier) : RegimeClassifier :=
  {| rc_rf := rc_rf s; rc_hmm := Some v; rc_state_map := rc_state_map s; rc_is_fitted := rc_is_fitted s |}.
Definition set_fitted (m : dict Z MarketRegime) (s : RegimeClassifier) : RegimeClassifier :=
  {| rc_rf := rc_rf s; rc_hmm := rc_hmm s; rc_state_map := m; rc_is_fitted := true |}.

(** [self._rf = RandomForestClassifier(...); self._rf.fit(x, labels)]: the new
    forest is in place even when fitting it raises. *)
Definition refit_rf (x : list (list float)) (labels : list Z) : M RegimeClassifier RF := fun s =>
  match rf_fit x labels rf_new with
  | (Ok _, rf) => (Ok rf, set_rf rf s)
  | (Raise e, rf) => (Raise e, set_rf rf s)
  end.

Definition refit_hmm (x : list (list float)) : M RegimeClassifier HMM := fun s =>
  match hmm_fit x hmm_new with
  | (Ok _, hmm) => (Ok hmm, set_hmm hmm s)
  | (Raise e, hmm) => (Raise e, set_hmm hmm s)
  end.

Definition fit (x_train : list (list float)) (y : list MarketRegime) : M RegimeClassifier unit :=
  if (length x_train <? 2)%nat then
    M_raise (ValueError ("Need at least 2 samples to fit, got " +:+ pretty (Z.of_nat (length x_train))))
  else
    let labels := regime_to_label <$> y in
    rf ← refit_rf x_train labels;
    hmm ← refit_hmm x_train;
    hmm_states ← M_lift (hmm_predict hmm x_train);
    rf_preds ← M_lift (rf_predict rf x_train);
    state_map ← M_lift (build_state_map hmm_states rf_preds);
    M_modify (set_fitted state_map).

(** [int(self._hmm.predict(x)[0])] *)
Definition hmm_state_of (hmm : HMM) (x : list float) : result Z :=
  states ← hmm_predict hmm [x];
  py_index states 0.

Definition model_classify (self : RegimeClassifier) (features : RegimeFeatures.t) (now : Z)
    : result RegimeClassification.t :=
  match rc_rf self, rc_hmm self with
  | Some rf, Some hmm =>
      let x := RegimeFeatures.to_feature_array features in
      proba ← rf_predict_proba rf x;
      let rf_label := np_argmax proba in
      rf_regime ← label_to_regime rf_label;
      rf_confidence ← py_index proba rf_label;
      hmm_state ← hmm_state_of hmm x;
      let hmm_regime := default rf_regime (dget hmm_state (rc_state_map self)) in
      let regime := if flt rf_confidence REGIME_CONFIDENCE_THRESHOLD then hmm_regime else rf_regime in
      mret (RegimeClassification.mk regime (pyround rf_confidence 4) features hmm_state now)
  | _, _ => Raise AssertionError
  end.

Definition rule_based_regime (features : RegimeFeatures.t) : MarketRegime :=
  if fle REGIME_ADX_TREND_THRESHOLD (RegimeFeatures.adx features) then
    if fle f_zero (RegimeFeatures.vwap_deviation_pct features) then BULL_TREND else BEAR_TREND
  else if flt (RegimeFeatures.adx features) REGIME_ADX_MEAN_REVERT_THRESHOLD
          && fle REGIME_RSI_MEAN_REVERT_LOW (RegimeFeatures.rsi features)
          && fle (RegimeFeatures.rsi features) REGIME_RSI_MEAN_REVERT_HIGH then MEAN_REVERTING
  else if fle REGIME_ADX_TREND_THRESHOLD (RegimeFeatures.adx features) then BULL_TREND
  else MEAN_REVERTING.

Definition rule_based_classify (features : RegimeFeatures.t) (now : Z) : RegimeClassification.t :=
  RegimeClassification.mk (rule_based_regime features) f_zero features (-1) now.

Definition classify (self : RegimeClassifier) (features : RegimeFeatures.t) (now : Z)
    : result RegimeClassification.t :=
  if is_chaos features then
    mret (RegimeClassification.mk HIGH_VOL_CHAOS (dec 10 1) features (-1) now)
  else if negb (rc_is_fitted self) then mret (rule_based_classify features now)
  else model_classify self features now.
End Classifier.
Arguments RegimeClassifier : clear implicits.

(** ** Promotion ([mlflow_registry.py]) *)

(** [client.search_model_versions(name=...)] as (run_id, version) pairs, and
    [client.transition_model_version_stage(version, "Production")]. *)
Class ModelRegistry (L : Type) := {
  search_versions : L -> result (list (string * string)) * L;
  promote_version : string -> L -> result unit * L;
}.

Definition promote_classifier {L} `{ModelRegistry L} (run_id : string) (metrics : BacktestMetrics.t)
    : M L (list string) :=
  match check_promotion_gate metrics with
  | _ :: _ as failures => mret failures
  | [] =>
      versions ← (search_versions : M L _);
      match find_first (fun mv => String.eqb mv.1 run_id) versions with
      | Some mv => _ ← (promote_version mv.2 : M L unit); mret []
      | None => mret ["No registered model version found for run_id=" +:+ run_id]
      end
  end.

(** ** The publisher ([publisher.py]) *)

Definition MAX_STREAM_LENGTH : Z := 1000.

Module RegimeChanged.
Record t := mk {
  regime : string;
  confidence : float;
  adx : float;
  rsi : float;
  vwap_deviation : float;
  volume_delta : float;
  vix : float;
  classified_at_ms : Z;
}.

Definition map_floats (f : float -> float) (m : t) : t :=
  mk (regime m) (f (confidence m)) (f (adx m)) (f (rsi m)) (f (vwap_deviation m)) (f (volume_delta m))
    (f (vix m)) (classified_at_ms m).
End RegimeChanged.

(** [SerializeToString] and [ParseFromString] of the generated class.  Its
    float fields have single precision: [single] is the rounding. *)
Class RegimeCodec := {
  serialize_regime : RegimeChanged.t -> result string;
  parse_regime : string -> result RegimeChanged.t;
  single : float -> float;
}.

Definition regime_of_value (s : string) : option MarketRegime :=
  find_first (fun r => String.eqb (regime_value r) s) [BULL_TREND; BEAR_TREND; MEAN_REVERTING; HIGH_VOL_CHAOS].

Section RegimePublisher.
Context {R : Type} `{RedisStream R} `{RegimeCodec}.

Definition regime_message (c : RegimeClassification.t) : result RegimeChanged.t :=
  let f := RegimeClassification.features c in
  ms ← timestamp_ms (RegimeClassification.classified_at c);
  mret (RegimeChanged.mk (regime_value (RegimeClassification.regime c)) (RegimeClassification.confidence c)
          (RegimeFeatures.adx f) (RegimeFeatures.rsi f) (RegimeFeatures.vwap_deviation_pct f)
          (RegimeFeatures.volume_ratio f) (RegimeFeatures.vix f) ms).

(** [msg.SerializeToString()] of the message. *)
Definition regime_payload (c : RegimeClassification.t) : result string :=
  msg ← regime_message c;
  serialize_regime msg.

Definition publish_regime_change (classification : RegimeClassification.t) : M R string :=
  payload ← M_lift (regime_payload classification);
  redis_xadd REGIME_REDIS_STREAM [("data", payload)] (Some MAX_STREAM_LENGTH).

Definition decode_regime (payload : string) : result (option RegimeClassification.t) :=
  msg ← parse_regime payload;
  match regime_of_value (RegimeChanged.regime msg) with
  | None => mret None
  | Some regime =>
      let features := RegimeFeatures.mk (RegimeChanged.adx msg) (RegimeChanged.rsi msg) f_zero f_zero
        (RegimeChanged.vwap_deviation msg) (RegimeChanged.volume_delta msg) (RegimeChanged.vix msg) false in
      ms ← float_of_int (RegimeChanged.classified_at_ms msg);
      classified_at ← fromtimestamp (fdiv ms (dec 10000 1));
      mret (Some (RegimeClassification.mk regime (RegimeChanged.confidence msg) features (-1) classified_at))
  end.

Definition read_latest_regime : M R (option RegimeClassification.t) :=
  raw_entries ← (redis_xrevrange REGIME_REDIS_STREAM 1 : M R _);
  match raw_entries with
  | [] => mret None
  | fields :: _ =>
      match dget "data" fields with
      | None => mret None
      | Some payload => M_lift (decode_regime payload)
      end
  end.
End RegimePublisher.

(** ** The hard override *)

(** The newest of at least two values stands out: it is above twice the mean of
    the last twenty. *)
Lemma atr_spike_of_iff `{NumPyStats} (arr : list float) :
  atr_spike_of arr (last_valid arr) = true
  <-> exists older current, filter (fun x => is_nan x = false) arr = older ++ [current]
      /\ (1 <= length older)%nat
      /\ flt (dec 20 1 * np_mean (last_n 20 (older ++ [current])))%pf current = true.
Proof.
  unfold atr_spike_of, last_valid, valid. set (l := filter _ arr). clearbody l. destruct (Nat.leb_spec 2 (length l)) as [Hl|Hl].
  - destruct l as [|x older _] using rev_ind; [cbn in Hl; lia|].
    rewrite last_snoc. cbn [default]. rewrite length_app in Hl. cbn in Hl. split.
    + intros Hs. exists older, x. split_and!; [done|lia|exact Hs].
    + intros (o & c & E & _ & Hs). apply app_inj_2 in E as [<- [= <-]]; [exact Hs|done].
  - split; [done|]. intros (older & c & E & Ho & _). rewrite E, length_app in Hl. cbn in Hl. lia.
Qed.

Lemma extract_features_inputs `{NumPyStats} `{TALib} candles vix f :
  extract_features candles vix = Ok f ->
  (30 <= length candles)%nat /\ RegimeFeatures.vix f = vix
  /\ let window := last_n 50 candles in
     let atrs := talib_ATR (OHLCVCandle.high <$> window) (OHLCVCandle.low <$> window) (OHLCVCandle.close <$> window) 14 in
     RegimeFeatures.atr_spike f = atr_spike_of atrs (last_valid atrs).
Proof.
  unfold extract_features, MIN_CANDLES_FOR_FEATURES. destruct (Nat.ltb_spec (length candles) 30); [done|].
  change REGIME_FEATURE_LOOKBACK with 50%nat. cbv zeta. destruct (mapM _ _) as [volume|e]; [|done]. cbn [mbind result_bind].
  destruct (talib_BBANDS _ 20) as [[upper middle] lower]. by intros [= <-].
Qed.

(** C13. RULE 2: the override is exactly its two triggers.  With a VIX above 25
    or an ATR spike [classify] returns [HIGH_VOL_CHAOS] with confidence 1 and
    no hidden state, whatever the models are and would answer.  Without them a
    fitted classifier answers what its models do, and one that is not fitted
    answers one of the other regimes.  Of features extracted from candles the
    VIX is the given one, and the spike is that the newest valid 14-bar ATR of
    the last 50 candles, of at least two, is above twice the mean of the last
    20 valid ones. *)
Theorem chaos_override_exact {RF HMM} `{SkModels RF HMM} `{NumPyArrays} `{NumPyStats} `{TALib}
    (self : RegimeClassifier RF HMM) (features : RegimeFeatures.t) (now : Z) :
  let chaos := flt (dec 250 1) (RegimeFeatures.vix features) = true \/ RegimeFeatures.atr_spike features = true in
  (chaos -> classify self features now = Ok (RegimeClassification.mk HIGH_VOL_CHAOS (dec 10 1) features (-1) now))
  /\ (~ chaos -> rc_is_fitted self = true -> classify self features now = model_classify self features now)
  /\ (~ chaos -> rc_is_fitted self = false ->
      exists regime, classify self features now = Ok (RegimeClassification.mk regime f_zero features (-1) now)
        /\ regime <> HIGH_VOL_CHAOS)
  /\ (forall candles vix, extract_features candles vix = Ok features ->
      let window := last_n 50 candles in
      let atrs := talib_ATR (OHLCVCandle.high <$> window) (OHLCVCandle.low <$> window) (OHLCVCandle.close <$> window) 14 in
      RegimeFeatures.vix features = vix
      /\ (RegimeFeatures.atr_spike features = true <->
          exists older current, filter (fun x => is_nan x = false) atrs = older ++ [current]
            /\ (1 <= length older)%nat
            /\ flt (dec 20 1 * np_mean (last_n 20 (older ++ [current])))%pf current = true)).
Proof.
  cbv zeta. set (chaos := flt _ _ = true \/ _).
  assert (Hc : is_chaos features = true <-> chaos) by (unfold chaos, is_chaos; by rewrite orb_true_iff).
  unfold classify. split_and!.
  - by intros ->%Hc.
  - intros Hn ->. destruct (is_chaos features); [|done]. by destruct Hn; apply Hc.
  - intros Hn ->. destruct (is_chaos features); [by destruct Hn; apply Hc|]. eexists. split; [reflexivity|].
    unfold rule_based_regime. by repeat case_if.
  - intros candles vix (_ & Hv & Hs)%extract_features_inputs. split; [exact Hv|]. cbv zeta in Hs.
    rewrite Hs. apply atr_spike_of_iff.
Qed.

(** A VIX that is not a number does not trigger the override: the comparison
    with the threshold is false. *)
Theorem nan_vix_is_not_chaos (f : RegimeFeatures.t) :
  is_nan (RegimeFeatures.vix f) = true -> is_chaos f = RegimeFeatures.atr_spike f.
Proof. intros Hn. unfold is_chaos. by rewrite flt_nan_r. Qed.

(** The last [BULL_TREND] branch of the rules is never taken: the rules are
    the trend test and [MEAN_REVERTING] otherwise. *)
Theorem rule_based_default (f : RegimeFeatures.t) :
  rule_based_regime f
  = if fle REGIME_ADX_TREND_THRESHOLD (RegimeFeatures.adx f) then
      if fle f_zero (RegimeFeatures.vwap_deviation_pct f) then BULL_TREND else BEAR_TREND
    else MEAN_REVERTING.
Proof.
  unfold rule_based_regime. destruct (fle REGIME_ADX_TREND_THRESHOLD _); [done|]. by destruct (_ && _).
Qed.

(** ** Training *)

(** What NumPy documents of the two functions that count votes: [bincount]
    counts each label, [argmax] is the position of a greatest element. *)
Class NumPyArraysLaws `{NumPyArrays} : Prop := {
  bincount_lookup l n k : Forall (fun x => 0 <= x) l -> (k < n)%nat ->
    np_bincount l n !! k = Some (Z.of_nat (length (filter (eq (Z.of_nat k)) l)));
  argmax_int_spec l : l <> [] -> exists k x,
    np_argmax_int l = Z.of_nat k /\ l !! k = Some x /\ Forall (fun y => y <= x) l;
  bincount_length l n : Forall (fun x => 0 <= x < Z.of_nat n) l -> length (np_bincount l n) = n;
}.

(** The votes for label [k] among the samples in hidden state [state]. *)
Definition votes (hmm_states rf_labels : list Z) (state k : Z) : nat :=
  length (filter (eq k) (masked hmm_states rf_labels state)).

(** A regime with the most votes in [state], [MEAN_REVERTING] for a state that
    no sample is in. *)
Definition elected (hmm_states rf_labels : list Z) (state : Z) (regime : MarketRegime) : Prop :=
  if bool_decide (masked hmm_states rf_labels state = []) then regime = MEAN_REVERTING
  else forall k, 0 <= k < 4 ->
    (votes hmm_states rf_labels state k <= votes hmm_states rf_labels state (regime_to_label regime))%nat.

Section Training.
Context `{NumPyArraysLaws}.

Lemma masked_labels hmm_states rf_labels state :
  Forall (fun x => 0 <= x < 4) rf_labels -> Forall (fun x => 0 <= x < 4) (masked hmm_states rf_labels state).
Proof.
  intros Hl. unfold masked. apply Forall_fmap, Forall_forall. intros [a b] Hin.
  apply list_elem_of_filter in Hin as [_ Hin]. cbn.
  rewrite Forall_forall in Hl. apply Hl. by eapply elem_of_zip_r.
Qed.

Lemma majority_elected hmm_states rf_labels state :
  Forall (fun x => 0 <= x < 4) rf_labels ->
  exists regime, majority_regime hmm_states rf_labels state = Ok regime
    /\ elected hmm_states rf_labels state regime.
Proof.
  intros Hl. pose proof (masked_labels hmm_states rf_labels state Hl) as Hm.
  unfold majority_regime, elected, votes.
  destruct (masked hmm_states rf_labels state) as [|l0 ls] eqn:Hmask; [by eexists|].
  rewrite bool_decide_eq_false_2 by done. rewrite <- Hmask in *.
  change (length REGIME_ORDER) with 4%nat.
  set (labels := masked hmm_states rf_labels state) in *. clearbody labels.
  assert (Hpos : Forall (fun x => 0 <= x) labels) by (eapply Forall_impl; [exact Hm|]; cbn; lia).
  assert (Hlen : length (np_bincount labels 4) = 4%nat) by by apply bincount_length.
  destruct (argmax_int_spec (np_bincount labels 4)) as (k & x & -> & Hk & Hmax).
  { intros Hn. by rewrite Hn in Hlen. }
  assert (Hk4 : (k < 4)%nat) by (rewrite <- Hlen; by eapply lookup_lt_Some).
  assert (Hregime : exists r, label_to_regime (Z.of_nat k) = Ok r /\ regime_to_label r = Z.of_nat k).
  { destruct k as [|[|[|[|k]]]]; [by eexists..|lia]. }
  destruct Hregime as (r & Hr & Hlab). exists r. split; [exact Hr|]. intros j Hj. rewrite Hlab.
  pose proof (bincount_lookup labels 4 k Hpos Hk4) as Hck. rewrite Hk in Hck. injection Hck as ->.
  pose proof (bincount_lookup labels 4 (Z.to_nat j) Hpos ltac:(lia)) as Hcj.
  rewrite Z2Nat.id in Hcj by lia. rewrite Forall_lookup in Hmax. specialize (Hmax _ _ Hcj). cbn in Hmax. lia.
Qed.

Lemma state_map_elected hmm_states rf_labels :
  Forall (fun x => 0 <= x < 4) rf_labels ->
  exists m, build_state_map hmm_states rf_labels = Ok m
    /\ forall state, 0 <= state < 4 -> exists regime, dget state m = Some regime
         /\ elected hmm_states rf_labels state regime.
Proof.
  intros Hl.
  destruct (majority_elected hmm_states rf_labels 0 Hl) as (r0 & Hr0 & He0).
  destruct (majority_elected hmm_states rf_labels 1 Hl) as (r1 & Hr1 & He1).
  destruct (majority_elected hmm_states rf_labels 2 Hl) as (r2 & Hr2 & He2).
  destruct (majority_elected hmm_states rf_labels 3 Hl) as (r3 & Hr3 & He3).
  eexists. split.
  - unfold build_state_map, REGIME_HMM_N_COMPONENTS.
    change (Z.of_nat <$> seq 0 4) with [0; 1; 2; 3]. cbn [for_each].
    rewrite Hr0. cbn [mbind result_bind]. rewrite Hr1. cbn [mbind result_bind].
    rewrite Hr2. cbn [mbind result_bind]. rewrite Hr3. reflexivity.
  - intros state Hs. assert (state = 0 \/ state = 1 \/ state = 2 \/ state = 3) as Hc by lia.
    destruct_or! Hc; subst; eexists; (split; [reflexivity|done]).
Qed.
End Training.

Section FitFacts.
Context {RF HMM : Type} `{SkModels RF HMM} `{NumPyArraysLaws}.

(** A fit that returns leaves a fitted classifier whose map covers every
    hidden state of the model, each with a regime that no other outvotes
    among the forest's predictions on the samples of that state, and with
    [MEAN_REVERTING] for a state without samples. *)
Theorem fit_elects_regimes (x : list (list float)) (y : list MarketRegime)
    (self self' : RegimeClassifier RF HMM) :
  (forall rf labels, rf_predict rf x = Ok labels -> Forall (fun k => 0 <= k < 4) labels) ->
  fit x y self = (Ok tt, self') ->
  rc_is_fitted self' = true
  /\ exists rf hmm hmm_states rf_labels, rc_rf self' = Some rf /\ rc_hmm self' = Some hmm
     /\ hmm_predict hmm x = Ok hmm_states /\ rf_predict rf x = Ok rf_labels
     /\ forall state, 0 <= state < 4 -> exists regime, dget state (rc_state_map self') = Some regime
          /\ elected hmm_states rf_labels state regime.
Proof.
  intros Hlabels. unfold fit. destruct (_ <? _)%nat; [done|]. unfold mbind, M_bind, refit_rf, refit_hmm, M_lift.
  destruct (rf_fit x (regime_to_label <$> y) rf_new) as [[[]|e] rf]; [|done].
  destruct (hmm_fit x hmm_new) as [[[]|e] hmm]; [|done].
  destruct (hmm_predict hmm x) as [hmm_states|e] eqn:Hh; [|done].
  destruct (rf_predict rf x) as [rf_labels|e] eqn:Hr; [|done].
  destruct (state_map_elected hmm_states rf_labels (Hlabels _ _ Hr)) as (m & -> & Hm).
  intros [= <-]. split; [done|]. by exists rf, hmm, hmm_states, rf_labels.
Qed.

(** A re-fit in which training the HMM raises leaves the classifier marked as
    fitted, with the new forest, an HMM that was never trained and the map of
    the old one. *)
Theorem failed_refit_mixes_models (x : list (list float)) (y : list MarketRegime)
    (self : RegimeClassifier RF HMM) rf hmm e :
  (2 <= length x)%nat -> rc_is_fitted self = true ->
  rf_fit x (regime_to_label <$> y) rf_new = (Ok tt, rf) -> hmm_fit x hmm_new = (Raise e, hmm) ->
  fit x y self = (Raise e, {| rc_rf := Some rf; rc_hmm := Some hmm;
                              rc_state_map := rc_state_map self; rc_is_fitted := true |}).
Proof.
  intros Hx Hf Hrf Hh. unfold fit. destruct (Nat.ltb_spec (length x) 2); [lia|].
  unfold mbind, M_bind, refit_rf, refit_hmm. rewrite Hrf, Hh. unfold set_hmm, set_rf. cbn. by rewrite Hf.
Qed.
End FitFacts.

(** ** Promotion *)

(** A model is promoted only when every check of the paper-trading gate
    passes: with a failed check the registry is not called at all and the
    failures are returned; otherwise exactly the version registered by this
    run is moved to production, if there is one. *)
Theorem promotion_follows_gate {L} `{ModelRegistry L} run_id metrics (registry : L) :
  promote_classifier run_id metrics registry
  = match check_promotion_gate metrics with
    | _ :: _ as failures => (Ok failures, registry)
    | [] =>
        match search_versions registry with
        | (Raise e, registry) => (Raise e, registry)
        | (Ok versions, registry) =>
            match find_first (fun mv => String.eqb mv.1 run_id) versions with
            | None => (Ok ["No registered model version found for run_id=" +:+ run_id], registry)
            | Some mv =>
                match promote_version mv.2 registry with
                | (Raise e, registry) => (Raise e, registry)
                | (Ok _, registry) => (Ok [], registry)
                end
            end
        end
    end.
Proof.
  unfold promote_classifier. destruct (check_promotion_gate metrics); [|done].
  unfold mbind, M_bind. destruct (search_versions registry) as [[versions|e] l1]; [|done].
  destruct (find_first _ versions) as [mv|]; [|done].
  by destruct (promote_version mv.2 l1) as [[[]|e] l2].
Qed.

(** ** Publishing and reading back *)

Class RegimeCodecLaws `{RegimeCodec} : Prop := {
  parse_serialize_regime msg payload :
    serialize_regime msg = Ok payload -> parse_regime payload = Ok (RegimeChanged.map_floats single msg);
}.

Lemma regime_of_value_value r : regime_of_value (regime_value r) = Some r.
Proof. by destruct r. Qed.

Section PublisherFacts.
Context {R : Type} `{RedisStreamLaws R} `{RegimeCodecLaws}.

(** What [read_latest_regime] makes of a published classification: the same
    regime, the transmitted features and the confidence in single precision,
    the millisecond of the classification; the Bollinger width, the ATR and
    the ATR spike, which the message does not carry, are reset. *)
Theorem published_regime_read_back c id (r r1 r2 : R) out ms t :
  publish_regime_change c r = (Ok id, r1) -> read_latest_regime r1 = (Ok out, r2) ->
  timestamp_ms (RegimeClassification.classified_at c) = Ok ms ->
  (x ← float_of_int ms; fromtimestamp (fdiv x (dec 10000 1))) = Ok t ->
  let f := RegimeClassification.features c in
  out = Some (RegimeClassification.mk (RegimeClassification.regime c)
    (single (RegimeClassification.confidence c))
    (RegimeFeatures.mk (single (RegimeFeatures.adx f)) (single (RegimeFeatures.rsi f)) f_zero f_zero
       (single (RegimeFeatures.vwap_deviation_pct f)) (single (RegimeFeatures.volume_ratio f))
       (single (RegimeFeatures.vix f)) false)
    (-1) t).
Proof.
  unfold publish_regime_change, read_latest_regime. unfold mbind, M_bind, M_lift. intros Hp Hr Hms Ht.
  destruct (regime_payload c) as [payload|e] eqn:Hpay; [|done].
  apply redis_xadd_spec in Hp; [|by intros n [= <-]].
  destruct (redis_xrevrange REGIME_REDIS_STREAM 1 r1) as [[l|e] r3] eqn:Hx; [|done].
  rewrite (xrevrange_newest _ _ _ _ _ Hp Hx) in Hr. cbn in Hr. injection Hr as Hr _.
  unfold regime_payload, regime_message in Hpay. cbv zeta in Hpay. rewrite Hms in Hpay. cbn in Hpay.
  apply parse_serialize_regime in Hpay. unfold decode_regime in Hr. rewrite Hpay in Hr. cbn -[regime_of_value] in Hr.
  rewrite regime_of_value_value in Hr.
  destruct (float_of_int ms) as [x|e]; [|done]. cbn in Hr, Ht. rewrite Ht in Hr. cbn in Hr. by injection Hr as <-.
Qed.
End PublisherFacts.

(** ** Evaluation on concrete inputs *)

(** A codec over JSON text without loss of precision, which refuses a message
    that it could not read back. *)
#[export] Instance RegimeChanged_eq_dec : EqDecision RegimeChanged.t.
Proof. solve_decision. Defined.

Definition regime_text (m : RegimeChanged.t) : string :=
  json_dumps (JList [JStr (RegimeChanged.regime m); JFloat (RegimeChanged.confidence m);
    JFloat (RegimeChanged.adx m); JFloat (RegimeChanged.rsi m); JFloat (RegimeChanged.vwap_deviation m);
    JFloat (RegimeChanged.volume_delta m); JFloat (RegimeChanged.vix m); JInt (RegimeChanged.classified_at_ms m)]).

Definition read_regime_text (s : string) : result RegimeChanged.t :=
  v ← json_loads s;
  match v with
  | JList [JStr r; JFloat c; JFloat a; JFloat rs; JFloat vw; JFloat vo; JFloat vi; JInt ms] =>
      Ok (RegimeChanged.mk r c a rs vw vo vi ms)
  | _ => Raise (ValueError "message")
  end.

#[export] Instance json_codec : RegimeCodec := {
  serialize_regime m :=
    if bool_decide (read_regime_text (regime_text m) = Ok m) then Ok (regime_text m)
    else Raise (ValueError "message");
  parse_regime := read_regime_text;
  single x := x;
}.

#[export] Instance json_codec_laws : RegimeCodecLaws.
Proof.
  constructor. intros m payload. unfold serialize_regime, parse_regime, single, json_codec.
  destruct (bool_decide_reflect (read_regime_text (regime_text m) = Ok m)) as [Hm|]; [|done].
  intros [= <-]. rewrite Hm. by destruct m.
Qed.

Definition stormy : RegimeFeatures.t :=
  RegimeFeatures.mk (dec 180 1) (dec 405 1) (dec 61 1) (dec 22 1) (dec (-8) 1) (dec 35 1) (dec 315 1) true.

Definition storm : RegimeClassification.t :=
  RegimeClassification.mk HIGH_VOL_CHAOS (dec 10 1) stormy (-1) 1783036800250000.

Definition storm_published : result string * MemRedis := publish_regime_change storm mem_empty.

Lemma published_regime_read_back_witness :
  exists id r1 out r2, publish_regime_change storm mem_empty = (Ok id, r1)
    /\ read_latest_regime r1 = (Ok out, r2)
    /\ out = Some (RegimeClassification.mk HIGH_VOL_CHAOS (dec 10 1)
        (RegimeFeatures.mk (dec 180 1) (dec 405 1) f_zero f_zero (dec (-8) 1) (dec 35 1) (dec 315 1) false)
        (-1) 1783036800250000).
Proof.
  exists "1-0", storm_published.2, (match (read_latest_regime storm_published.2).1 with Ok o => o | _ => None end),
    storm_published.2.
  split; [vm_compute; reflexivity|]. split; [vm_compute; reflexivity|].
  apply (published_regime_read_back (R := MemRedis) (H1 := json_codec) (H2 := json_codec_laws) storm "1-0" mem_empty storm_published.2 storm_published.2 _ 1783036800250
           1783036800250000); vm_compute; reflexivity.
Defined.

(** Two models: the forest answers with fixed labels, the HMM with the parity
    of the first feature. *)
#[local] Instance sample_models : SkModels unit unit := {
  rf_new := tt;
  rf_fit _ _ := mret tt;
  rf_predict _ x := Ok ((fun row => match row with [_; l] => if feq l f_zero then 0 else 1 | _ => 3 end) <$> x);
  rf_predict_proba _ _ := Ok [dec 1 1; dec 7 1; dec 1 1; dec 1 1];
  hmm_new := tt;
  hmm_fit _ := mret tt;
  hmm_predict _ x := Ok ((fun row => match row with h :: _ => if feq h f_zero then 0 else 2 | [] => 3 end) <$> x);
}.

(** [argmax] and [bincount] by their documentation. *)
Definition count_label (l : list Z) (k : nat) : Z := Z.of_nat (length (filter (eq (Z.of_nat k)) l)).

Fixpoint max_position (l : list Z) : nat * Z :=
  match l with
  | [] => (O, 0)
  | [x] => (O, x)
  | x :: l => let '(k, y) := max_position l in if y <=? x then (O, x) else (S k, y)
  end.

#[local] Instance sample_arrays : NumPyArrays := {
  np_argmax _ := 1;
  np_argmax_int l := Z.of_nat (max_position l).1;
  np_bincount l n := count_label l <$> seq 0 (Z.to_nat (foldr Z.max (Z.of_nat n) (Z.succ <$> l)));
}.

Lemma max_position_spec x l :
  (x :: l) !! (max_position (x :: l)).1 = Some (max_position (x :: l)).2
  /\ Forall (fun y => y <= (max_position (x :: l)).2) (x :: l).
Proof.
  revert x. induction l as [|y l IH]; intros x; [by repeat constructor|].
  change (max_position (x :: y :: l)) with
    (let '(k, z) := max_position (y :: l) in if z <=? x then (O, x) else (S k, z)).
  specialize (IH y). destruct (max_position (y :: l)) as [k z]. cbn [fst snd] in *. destruct IH as [Hk Hall].
  destruct (Z.leb_spec z x); cbn [fst snd]; (split; [done|constructor]); try lia.
  - eapply Forall_impl; [exact Hall|]. cbn. lia.
  - exact Hall.
Qed.

Lemma fold_max_small n (l : list Z) :
  Forall (fun x => 0 <= x < Z.of_nat n) l -> foldr Z.max (Z.of_nat n) (Z.succ <$> l) = Z.of_nat n.
Proof. induction 1 as [|x l Hx Hl IH]; [done|]. rewrite fmap_cons. cbn [foldr]. rewrite IH. lia. Qed.

Lemma fold_max_ge n (l : list Z) : Z.of_nat n <= foldr Z.max (Z.of_nat n) (Z.succ <$> l).
Proof. induction l as [|x l IH]; [done|]. rewrite fmap_cons. cbn [foldr]. lia. Qed.

#[local] Instance sample_arrays_laws : NumPyArraysLaws.
Proof.
  constructor.
  - intros l n k _ Hk. cbn. rewrite list_lookup_fmap, lookup_seq_lt; [done|].
    pose proof (fold_max_ge n l). cbn in *. lia.
  - intros [|x l] Hl; [done|]. destruct (max_position_spec x l). by eexists _, _.
  - intros l n Hl. cbn. by rewrite length_fmap, length_seq, fold_max_small, Nat2Z.id.
Qed.

Definition training_set : list (list float) :=
  [[f_zero; f_zero]; [f_zero; dec 1 0]; [f_zero; dec 1 0]; [dec 1 0; f_zero]].

Definition trained : RegimeClassifier unit unit :=
  (fit training_set [BULL_TREND; BULL_TREND; BULL_TREND; BEAR_TREND] (new_classifier None None)).2.

Lemma fit_elects_regimes_witness :
  rc_state_map trained = [(0, BULL_TREND); (1, MEAN_REVERTING); (2, BEAR_TREND); (3, MEAN_REVERTING)]
  /\ rc_is_fitted trained = true
  /\ exists rf hmm hmm_states rf_labels, rc_rf trained = Some rf /\ rc_hmm trained = Some hmm
     /\ hmm_predict hmm training_set = Ok hmm_states /\ rf_predict rf training_set = Ok rf_labels
     /\ forall state, 0 <= state < 4 -> exists regime, dget state (rc_state_map trained) = Some regime
          /\ elected hmm_states rf_labels state regime.
Proof.
  split; [vm_compute; reflexivity|].
  apply (fit_elects_regimes training_set [BULL_TREND; BULL_TREND; BULL_TREND; BEAR_TREND]
           (new_classifier None None) trained).
  - intros rf labels [= <-]. apply Forall_cons. split; [lia|]. repeat (apply Forall_cons; split; [lia|]). constructor.
  - vm_compute. reflexivity.
Defined.
