(* ===== verification/SignalPublisher.v ===== *)
(** * The signal publisher ([shared/signals/publisher.py]) and what reaches the orchestrator

    [SignalPublisher] with the script [shared/lua/signal_dedup.lua], which
    Redis runs atomically: its commands are the calls of the client classes.
    The generated protobuf code is a parameter; [uuid.uuid4()] and the clock
    are arguments.  The last section composes the publishers with the nodes
    of the orchestrator that read the same streams. *)

From S2P Require Import Prelude PyFloat PyDict Json Redis Constants Regime MarketData PyDate Compliance Signals RegimeClassifier Orchestrator.
Local Open Scope Z_scope.

Module SignalGenerated.
Record t := mk {
  signal_id : string;
  symbol : string;
  exchange : string;
  direction : string;
  confidence : float;
  entry_price : float;
  stop_loss : float;
  target1 : float;
  target2 : float;
  atr : float;
  confirming_indicators : list string;
  confirming_timeframes : list string;
  candlestick_pattern : string;
  strategy_id : string;
  generated_at_ms : Z;
  expires_at_ms : Z;
  regime : string;
}.
End SignalGenerated.

(** [SerializeToString()] of the generated class. *)
Class SignalCodec := { serialize_signal : SignalGenerated.t -> result string }.

(** [now] is the clock, [uuid] the fresh identifier. *)
Definition build_proto (res : SignalResult.t) (uuid : string) (now : Z) : result SignalGenerated.t :=
  now_ms ← timestamp_ms now;
  let expiry_ms := now_ms + SIGNAL_EXPIRY_MINUTES * 60 * 1000 in
  mret (SignalGenerated.mk uuid (SignalResult.symbol res) (SignalResult.exchange res)
    (SignalResult.direction res) (SignalResult.confidence res) (SignalResult.entry_price res)
    (SignalResult.stop_loss res) (SignalResult.target1 res) (SignalResult.target2 res)
    (SignalResult.atr res) (SignalResult.confirming_indicators res) (SignalResult.confirming_timeframes res)
    (SignalResult.candlestick_pattern res) (str_take 8 (SignalResult.strategy_id res)) now_ms expiry_ms
    (SignalResult.regime res)).

(** What the script returns. *)
Inductive DedupReply : Type :=
| HALTED
| DUPLICATE
| PUBLISHED (entry_id : string).

Definition dedup_key (res : SignalResult.t) : string :=
  "signal:dedup:" +:+ SignalResult.symbol res +:+ ":" +:+ SignalResult.direction res.

Section Publisher.
Context {R : Type} `{RedisKV R} `{RedisStream R} `{SignalCodec}.

(** [signal_dedup.lua] *)
Definition signal_dedup (key stream_key : string) (ttl_secs : Z) (payload : string) : M R DedupReply :=
  halted ← (redis_get "system:status:halted" : M R _);
  if bool_decide (halted = Some "true") then mret HALTED
  else
    existing ← (redis_get key : M R _);
    if bool_decide (is_Some existing) then mret DUPLICATE
    else
      _ ← (redis_set key "1" (Some ttl_secs) : M R unit);
      entry_id ← (redis_xadd stream_key [("data", payload)] None : M R string);
      mret (PUBLISHED entry_id).

(** [_build_proto(result, None).SerializeToString()] *)
Definition signal_payload (res : SignalResult.t) (uuid : string) (now : Z) : result string :=
  msg ← build_proto res uuid now;
  serialize_signal msg.

Definition publish_signal (res : SignalResult.t) (uuid : string) (now : Z) : M R (option string) :=
  if negb (SignalResult.generated res) then mret None
  else
    payload ← M_lift (signal_payload res uuid now);
    reply ← signal_dedup (dedup_key res) SIGNAL_REDIS_STREAM SIGNAL_DEDUP_WINDOW_SECONDS payload;
    match reply with
    | HALTED | DUPLICATE => mret None
    | PUBLISHED entry_id => mret (Some entry_id)
    end.
End Publisher.

(** ** What is published *)

Section PublisherFacts.
Context {R : Type} `{RedisKVLaws R} `{RedisStreamLaws R} `{SignalCodec}.

(** The conditions of the script. *)
Definition publishable (res : SignalResult.t) (r : R) : Prop :=
  SignalResult.generated res = true
  /\ redis_kv r !! "system:status:halted" <> Some "true"
  /\ redis_kv r !! dedup_key res = None.

#[export] Instance publishable_dec res r : Decision (publishable res r).
Proof. unfold publishable. apply _. Defined.

(** On a reachable server the publisher does nothing, or sets the dedup key and
    adds the entry. *)
Lemma publish_signal_eq res uuid now payload (r : R) :
  reachable r -> signal_payload res uuid now = Ok payload ->
  publish_signal res uuid now r
  = if decide (publishable res r) then
      match redis_set (dedup_key res) "1" (Some SIGNAL_DEDUP_WINDOW_SECONDS) r with
      | (Raise e, r1) => (Raise e, r1)
      | (Ok _, r1) =>
          match redis_xadd SIGNAL_REDIS_STREAM [("data", payload)] None r1 with
          | (Raise e, r2) => (Raise e, r2)
          | (Ok id, r2) => (Ok (Some id), r2)
          end
      end
    else (Ok None, r).
Proof.
  intros Hr Hp. unfold publish_signal, signal_dedup. destruct (SignalResult.generated res) eqn:Hg.
  2: { rewrite decide_False; [done|]. intros (? & _). congruence. }
  cbn [negb]. unfold mbind, M_bind, M_lift. rewrite Hp, Hr.
  destruct (bool_decide_reflect (redis_kv r !! "system:status:halted" = Some "true")) as [Hh|Hh].
  { rewrite decide_False; [done|]. by intros (_ & ? & _). }
  rewrite Hr. destruct (redis_kv r !! dedup_key res) eqn:Hd.
  { rewrite bool_decide_eq_true_2 by done. rewrite decide_False; [done|]. intros (_ & _ & ?). congruence. }
  rewrite bool_decide_eq_false_2 by (by intros []). rewrite decide_True by done.
  destruct (redis_set _ _ _ r) as [[u|e] r1]; [|done].
  by destruct (redis_xadd _ _ _ r1) as [[id|e] r2].
Qed.

Lemma publish_signal_newest res uuid now payload (r : R) id r' :
  reachable r -> signal_payload res uuid now = Ok payload ->
  publish_signal res uuid now r = (Ok (Some id), r') ->
  last (redis_stream r' SIGNAL_REDIS_STREAM) = Some [("data", payload)].
Proof.
  intros Hr Hp. rewrite (publish_signal_eq _ _ _ payload) by done.
  destruct (decide (publishable res r)); [|done].
  destruct (redis_set _ _ _ r) as [[u|e] r1]; [|done].
  destruct (redis_xadd _ _ _ r1) as [[id'|e] r2] eqn:Hx; [|done]. intros [= _ <-].
  by eapply redis_xadd_spec.
Qed.

(** What Redis documents of the two writes of the script: [SET] with an expiry
    stores the value and touches no stream; [XADD] without a length limit
    appends one entry to its stream and stores no string.  Until the expiry
    the key is there; afterwards the server is one without it. *)
Class DedupWriteLaws (S : Type) `{RedisKVLaws S} `{RedisStreamLaws S} := {
  redis_set_ex_spec k x ttl s s' :
    redis_set k x (Some ttl) s = (Ok tt, s') -> 0 < ttl ->
    redis_kv s' = <[k := x]> (redis_kv s) /\ redis_stream s' = redis_stream s;
  redis_xadd_all_spec k fields s id s' :
    redis_xadd k fields None s = (Ok id, s') ->
    redis_kv s' = redis_kv s
    /\ forall k', redis_stream s' k' = if decide (k' = k) then redis_stream s k ++ [fields] else redis_stream s k';
}.

(** A signal is not published when the key of its symbol and direction is
    there. *)
Lemma publish_signal_duplicate res uuid now payload (r : R) v :
  reachable r -> signal_payload res uuid now = Ok payload ->
  redis_kv r !! ("signal:dedup:" +:+ SignalResult.symbol res +:+ ":" +:+ SignalResult.direction res) = Some v ->
  publish_signal res uuid now r = (Ok None, r).
Proof.
  intros Hr Hp Hd. rewrite (publish_signal_eq _ _ _ payload) by done. rewrite decide_False; [done|].
  intros (_ & _ & Hn). unfold dedup_key in Hn. congruence.
Qed.

(** C12. A signal is published at most once in the dedup window and never while
    the system is halted.  On a reachable server the publisher returns an entry
    only for a generated signal, without the halt flag and without the dedup
    key of its symbol and direction: it then sets that key, to expire after
    60 seconds, writes no other key, appends exactly the serialized message to
    the signal stream, and as long as that server, reachable, has the key, no
    signal with that symbol and direction is published on it.  In every other
    case it returns [None] and the server is untouched. *)
Theorem signal_published_once `{!DedupWriteLaws R} res uuid now payload (r : R) out r' :
  reachable r -> signal_payload res uuid now = Ok payload ->
  publish_signal res uuid now r = (Ok out, r') ->
  if decide (publishable res r) then
    let key := "signal:dedup:" +:+ SignalResult.symbol res +:+ ":" +:+ SignalResult.direction res in
    exists id r1, out = Some id
    /\ redis_set key "1" (Some 60) r = (Ok tt, r1)
    /\ redis_kv r' = <[key := "1"]> (redis_kv r)
    /\ redis_stream r' "signals:generated" = redis_stream r "signals:generated" ++ [[("data", payload)]]
    /\ forall again uuid' now' payload' r2,
         SignalResult.symbol again = SignalResult.symbol res ->
         SignalResult.direction again = SignalResult.direction res ->
         signal_payload again uuid' now' = Ok payload' ->
         reachable r2 -> redis_kv r2 !! key = redis_kv r' !! key ->
         publish_signal again uuid' now' r2 = (Ok None, r2)
  else out = None /\ r' = r.
Proof.
  intros Hr Hp. rewrite (publish_signal_eq _ _ _ payload) by done.
  destruct (decide (publishable res r)); [|by intros [= <- <-]]. cbv zeta.
  change ("signal:dedup:" +:+ SignalResult.symbol res +:+ ":" +:+ SignalResult.direction res) with (dedup_key res).
  destruct (redis_set _ _ _ r) as [[[]|e] r1] eqn:Es; [|done].
  destruct (redis_xadd _ _ _ r1) as [[id|e] r2] eqn:Ex; [|done]. intros [= <- <-].
  apply redis_set_ex_spec in Es as Hs; [|done]. destruct Hs as [Hk1 Hs1].
  apply redis_xadd_all_spec in Ex as [Hk2 Hs2]. exists id, r1. split_and!; [done|done| | |].
  - by rewrite Hk2.
  - rewrite (Hs2 "signals:generated"). by rewrite decide_True, Hs1.
  - intros again uuid' now' payload' r3 Hsym Hdir Hp' Hr3 Hk. eapply publish_signal_duplicate; [done|done|].
    rewrite Hsym, Hdir. change ("signal:dedup:" +:+ _) with (dedup_key res). rewrite Hk, Hk2, Hk1. apply lookup_insert_eq.
Qed.

(** ** What the orchestrator sees *)

(** A published regime never reaches the orchestrator: the publisher
    writes the serialized message under the field [data], the regime node
    reads the fields [regime] and [confidence], so after any successful
    publication, of [HIGH_VOL_CHAOS] included, it updates nothing. *)
Theorem published_regime_invisible `{RegimeCodec} c id (r r1 : R) (w : World R) state :
  publish_regime_change c r = (Ok id, r1) -> w_redis w = Some r1 ->
  (regime_node state w).1 = Ok [].
Proof.
  unfold publish_regime_change, mbind, M_bind, M_lift. intros Hp Hw.
  destruct (regime_payload c) as [payload|e]; [|done].
  apply redis_xadd_spec in Hp; [|by intros n [= <-]].
  unfold regime_node, has_redis. unfold mbind, M_bind. rewrite Hw, bool_decide_eq_true_2 by done. cbn [negb].
  unfold M_try, on_redis. rewrite Hw.
  destruct (redis_xrevrange REGIME_REDIS_STREAM 1 r1) as [[l|e] r2] eqn:Hx; [|done].
  by rewrite (xrevrange_newest _ _ _ _ _ Hp Hx).
Qed.

(** A published signal has no symbol for the orchestrator: its signal node
    asks the reconciliation block about the empty symbol and exchange, so a
    block on the symbol of the signal does not stop it from being counted. *)
Theorem published_signal_escapes_block res uuid now payload id (r r1 r2 : R) entries (w : World R) state f n :
  reachable r -> signal_payload res uuid now = Ok payload ->
  publish_signal res uuid now r = (Ok (Some id), r1) ->
  w_redis w = Some r1 -> reachable r1 -> redis_xrevrange SIGNAL_REDIS_STREAM 1 r1 = (Ok entries, r2) ->
  halted_by_flags state = false -> get_or_none "market_regime" state <> JStr "HIGH_VOL_CHAOS" ->
  redis_kv r1 !! KILL_SWITCH_HALTED_KEY = None -> redis_kv r1 !! INGESTION_DEGRADED_REDIS_KEY = None ->
  dget "signals_today" state = Some (JInt n) -> f "" "" = Ok false ->
  (signal_node (Some f) state w).1 = Ok [("signals_today", JInt (n + 1))].
Proof.
  intros Hr Hp Hpub Hw Hr1 Hx Hf Hc Hh Hd Hn Hblock.
  pose proof (publish_signal_newest _ _ _ _ _ _ _ Hr Hp Hpub) as Hlast.
  rewrite (xrevrange_newest _ _ _ _ _ Hlast Hx) in Hx.
  destruct (signal_node_eq (Some f) state r1 r2 w [[("data", payload)]] n Hw Hr1 Hx Hn) as (u & w' & -> & Hu & _).
  cbn [fst]. f_equal. apply Hu. split_and!; [done..|]. by eexists _, _.
Qed.
End PublisherFacts.

(** ** Evaluation on concrete inputs *)

(** A stand-in for the generated code: the message is its identifier. *)
Definition id_codec : SignalCodec := {| serialize_signal m := Ok (SignalGenerated.signal_id m) |}.

Definition tcs_signal : SignalResult.t :=
  SignalResult.mk true "TCS" "NSE" "LONG" (dec 8 1) (dec 3500 0) (dec 3450 0) (dec 3600 0) (dec 3700 0)
    (dec 25 0) "EMAVWAP1" [] None ["ema"] ["5m"] "CDLHAMMER" "BULL_TREND" 1783036800000000.

Definition now0 : Z := 1783036800000000.

Definition after_publish : MemRedis :=
  (publish_signal (H1 := id_codec) tcs_signal "s-1" now0 mem_empty).2.

Lemma mem_empty_reachable : reachable mem_empty.
Proof. by intros k. Qed.

#[export] Instance MemRedis_DedupWriteLaws : DedupWriteLaws MemRedis.
Proof.
  constructor.
  - intros k x ttl s s'. unfold redis_set; cbn. unfold mem_guard. destruct (mem_up s); [|done]. by intros [= <-].
  - intros k fields s id s'. unfold redis_xadd; cbn. unfold mem_guard. destruct (mem_up s); [|done].
    intros [= _ <-]. split; [done|]. intros k'. unfold mem_stream at 1. cbn. case_decide as Hk.
    + subst k'. by rewrite lookup_insert_eq.
    + by rewrite lookup_insert_ne.
Qed.

Lemma signal_published_once_witness :
  publishable tcs_signal mem_empty
  /\ redis_kv after_publish !! "signal:dedup:TCS:LONG" = Some "1"
  /\ redis_stream after_publish "signals:generated" = [[("data", "s-1")]]
  /\ publish_signal (H1 := id_codec) tcs_signal "s-2" now0 after_publish = (Ok None, after_publish).
Proof.
  assert (Hp : publishable tcs_signal mem_empty) by (repeat split; vm_compute; congruence).
  split; [exact Hp|].
  pose proof (signal_published_once (H3 := id_codec) tcs_signal "s-1" now0 "s-1" mem_empty (Some "1-0") after_publish
    mem_empty_reachable ltac:(vm_compute; reflexivity) ltac:(vm_compute; reflexivity)) as Hs.
  destruct (decide (publishable tcs_signal mem_empty)); [|contradiction].
  cbv zeta in Hs. destruct Hs as (id & r1 & _ & _ & Hk & Hx & Hagain).
  split; [rewrite Hk; vm_compute; reflexivity|]. split; [rewrite Hx; vm_compute; reflexivity|].
  apply (Hagain tcs_signal "s-2" now0 "s-2" after_publish); try reflexivity. by intros k.
Defined.

(** The state of a fresh session, and a block on the symbol of the signal. *)
Definition session_state : TradingSystemState := make_initial_state "2026-07-03".

Definition block_tcs (symbol exchange : string) : result bool := Ok (String.eqb symbol "TCS").

Lemma published_signal_escapes_block_witness :
  block_tcs "TCS" "NSE" = Ok true
  /\ publish_signal (H1 := id_codec) tcs_signal "s-1" now0 mem_empty = (Ok (Some "1-0"), after_publish)
  /\ (signal_node (Some block_tcs) session_state (sample_world after_publish)).1
     = Ok [("signals_today", JInt 1)].
Proof.
  split; [reflexivity|]. split; [vm_compute; reflexivity|].
  apply (published_signal_escapes_block (H3 := id_codec) tcs_signal "s-1" now0 "s-1" "1-0" mem_empty
    after_publish after_publish [[("data", "s-1")]] (sample_world after_publish) session_state block_tcs 0
    mem_empty_reachable); try (vm_compute; congruence).
Defined.

Definition after_storm : MemRedis := (publish_regime_change storm mem_empty).2.

Lemma published_regime_invisible_witness :
  publish_regime_change storm mem_empty = (Ok "1-0", after_storm)
  /\ (regime_node session_state (sample_world after_storm)).1 = Ok [].
Proof.
  split; [vm_compute; reflexivity|].
  apply (published_regime_invisible storm "1-0" mem_empty after_storm); vm_compute; reflexivity.
Defined.
