(* ===== verification/Universe.v ===== *)
(** * Stock universe filter ([shared/universe])

    [models.py], [scoring.py], [compliance.py], [filter.py] and
    [repository.py].  NumPy's [mean] and TA-Lib are parameters, as are the
    file system with the compliance cache, the HTTP client and the PostgreSQL
    connection.  A [datetime] is its number of microseconds since the epoch;
    the clock is an argument where it is read once. *)

From Stdlib Require Import SpecFloat.
From stdpp Require Import sorting.
From S2P Require Import Prelude PyFloat PyDict Json PyText Redis Constants Regime MarketData PyDate NumPy Web Backtesting RegimeClassifier.
Local Open Scope Z_scope.

(** ** Models ([models.py]) *)

Module AlphaWeights.
Record t := mk { trend : float; vol : float; liq : float; sent : float }.
End AlphaWeights.

Module AlphaComponents.
Record t := mk { trend_score : float; vol_score : float; liq_score : float; sent_score : float }.
End AlphaComponents.

Module WatchlistEntry.
Record t := mk {
  symbol : string;
  exchange : string;
  rank : Z;
  composite_score : float;
  components : AlphaComponents.t;
  regime : MarketRegime;
  strategy_id : string;
  scored_at : Z;
}.
End WatchlistEntry.

(** ** Scoring ([scoring.py]) *)

Definition weights_of (b : float * float * float * float) : AlphaWeights.t :=
  let '(t, v, l, s) := b in AlphaWeights.mk t v l s.

Definition BETA_WEIGHTS (regime : MarketRegime) : result AlphaWeights.t :=
  match regime with
  | BULL_TREND => mret (weights_of ALPHA_BETA_BULL_TREND)
  | BEAR_TREND => mret (weights_of ALPHA_BETA_BEAR_TREND)
  | MEAN_REVERTING => mret (weights_of ALPHA_BETA_MEAN_REVERTING)
  | HIGH_VOL_CHAOS => Raise (KeyError "HIGH_VOL_CHAOS")
  end.

Section Scoring.
Context `{NumPyStats} `{TALib}.

Definition trend_score (close high low : list float) (regime : MarketRegime) : result float :=
  let ema21 := talib_EMA close 21 in
  let adx := talib_ADX high low close 14 in
  last_close ← py_index close (-1);
  last_ema ← py_index ema21 (-1);
  last_adx ← py_index adx (-1);
  if is_nan last_ema || is_nan last_adx then mret f_zero
  else
    let adx_norm := pymin (fdiv last_adx ALPHA_TREND_ADX_SCALE) (dec 10 1) in
    match regime with
    | BULL_TREND => mret (adx_norm * (if flt last_ema last_close then dec 10 1 else f_zero))%pf
    | BEAR_TREND => mret (adx_norm * (if flt last_close last_ema then dec 10 1 else f_zero))%pf
    | _ => mret (pymax f_zero (dec 10 1 - adx_norm)%pf)
    end.

Definition vol_score (close : list float) : result float :=
  let '(upper, middle, lower) := talib_BBANDS close 20 in
  mid ← py_index middle (-1);
  if is_nan mid || feq mid f_zero then mret f_zero
  else
    up ← py_index upper (-1);
    lo ← py_index lower (-1);
    let width_pct := (fdiv (up - lo) mid * dec 1000 1)%pf in
    if is_nan width_pct then mret f_zero
    else mret (pymin (fdiv width_pct ALPHA_VOL_BB_WIDTH_SCALE) (dec 10 1)).

Definition liq_score (volume : list float) : result float :=
  if (length volume <? ALPHA_LIQ_AVERAGE_BARS)%nat then mret f_zero
  else
    let avg := np_mean (last_n ALPHA_LIQ_AVERAGE_BARS volume) in
    if feq avg f_zero then mret f_zero
    else
      let recent := np_mean (last_n ALPHA_LIQ_RECENT_BARS volume) in
      let ratio := pymin (fdiv recent avg) ALPHA_LIQ_VOLUME_RATIO_CAP in
      mret (fdiv ratio ALPHA_LIQ_VOLUME_RATIO_CAP).

Definition score_stock (close high low volume : list float) (regime : MarketRegime) : result AlphaComponents.t :=
  if Z.of_nat (length close) <? WATCHLIST_MIN_CANDLES then
    mret (AlphaComponents.mk f_zero f_zero f_zero f_zero)
  else
    trend ← trend_score close high low regime;
    vol ← vol_score close;
    liq ← liq_score volume;
    mret (AlphaComponents.mk trend vol liq f_zero).
End Scoring.

Definition compute_composite (components : AlphaComponents.t) (weights : AlphaWeights.t) : float :=
  (AlphaWeights.trend weights * AlphaComponents.trend_score components
   + AlphaWeights.vol weights * AlphaComponents.vol_score components
   + AlphaWeights.liq weights * AlphaComponents.liq_score components
   + AlphaWeights.sent weights * AlphaComponents.sent_score components)%pf.

Definition assign_strategy_id (regime : MarketRegime) (trend_score : float) : string :=
  match regime with
  | BULL_TREND | BEAR_TREND =>
      if fle STRATEGY_TREND_SCORE_THRESHOLD trend_score then "EMA_VWAP_TREND" else "MOMENTUM_RSI"
  | _ => "MEAN_REVERT_PIVOT"
  end.

Definition with_rank (rank : Z) (e : WatchlistEntry.t) : WatchlistEntry.t :=
  WatchlistEntry.mk (WatchlistEntry.symbol e) (WatchlistEntry.exchange e) rank
    (WatchlistEntry.composite_score e) (WatchlistEntry.components e) (WatchlistEntry.regime e)
    (WatchlistEntry.strategy_id e) (WatchlistEntry.scored_at e).

(** [sorted(entries, key=composite_score, reverse=True)]: equal scores keep
    their order. *)
Definition better (x y : WatchlistEntry.t) : bool :=
  flt (WatchlistEntry.composite_score y) (WatchlistEntry.composite_score x).

Definition rank_entries (entries : list WatchlistEntry.t) : list WatchlistEntry.t :=
  imap (fun idx e => with_rank (Z.of_nat idx + 1) e) (py_sorted better entries).

(** ** Compliance exclusions ([compliance.py]) *)

Module ComplianceExclusionList.
Record t := mk {
  asm_symbols : gset string;
  esm_symbols : gset string;
  ban_symbols : gset string;
  mwpl_exceeded_symbols : gset string;
  fetched_at : Z;
}.

Definition is_excluded (self : t) (symbol : string) : bool :=
  let sym := str_upper symbol in
  bool_decide (sym ∈ asm_symbols self) || bool_decide (sym ∈ esm_symbols self)
  || bool_decide (sym ∈ ban_symbols self) || bool_decide (sym ∈ mwpl_exceeded_symbols self).

Definition exclusion_reason (self : t) (symbol : string) : option string :=
  let sym := str_upper symbol in
  let reasons :=
    (if bool_decide (sym ∈ asm_symbols self) then ["ASM"] else [])
    ++ (if bool_decide (sym ∈ esm_symbols self) then ["ESM"] else [])
    ++ (if bool_decide (sym ∈ ban_symbols self) then ["F&O ban"] else [])
    ++ (if bool_decide (sym ∈ mwpl_exceeded_symbols self) then ["MWPL≥90%"] else []) in
  match reasons with [] => None | _ => Some (str_join ", " reasons) end.
End ComplianceExclusionList.

Inductive Category : Type := ASM | ESM | BAN | MWPL.

Definition category_url (c : Category) : string :=
  match c with
  | ASM => "https://nseindia.com/api/reportASM"
  | ESM => "https://nseindia.com/api/reportESM"
  | BAN => "https://nseindia.com/api/fo-sec-ban-list"
  | MWPL => "https://nseindia.com/api/reportMwpl"
  end.

Definition CACHE_FILE_NAMES (c : Category) : string :=
  match c with
  | ASM => "nse_asm.json"
  | ESM => "nse_esm.json"
  | BAN => "nse_ban.json"
  | MWPL => "nse_mwpl.json"
  end.

Definition MWPL_OI_THRESHOLD_PCT : float := dec 900 1.

Definition cache_path (c : Category) : string := COMPLIANCE_CACHE_DIR +:+ "/" +:+ CACHE_FILE_NAMES c.

(** The file system and the clock.  [path_mtime] is [None] for
    a file that does not exist, [path_read] when reading raises [OSError];
    [path_write] swallows [OSError]. *)
Class NseWorld (W : Type) := {
  path_mtime : string -> W -> option float * W;
  clock_time : W -> float * W;
  path_read : string -> W -> option string * W;
  path_write : string -> string -> W -> W;
}.

(** The list in a payload: a bare list, or the one under [data]. *)
Definition payload_list (payload : json) : option (list json) :=
  match payload with
  | JList l => Some l
  | JObj fields => match dget "data" fields with Some (JList l) => Some l | _ => None end
  | _ => None
  end.

Section Compliance.
Context {W : Type} `{NseWorld W} `{UrlOpen W}.

Definition is_cache_fresh (path : string) (w : W) : bool * W :=
  match path_mtime path w with
  | (None, w) => (false, w)
  | (Some mtime, w) =>
      let '(now, w) := clock_time w in
      (flt (now - mtime)%pf (dec (COMPLIANCE_CACHE_MAX_AGE_HOURS * 3600) 0), w)
  end.

Definition read_cache (path : string) (w : W) : option (list json) * W :=
  match path_read path w with
  | (None, w) => (None, w)
  | (Some text, w) =>
      (match json_loads text with Ok (JList l) => Some l | _ => None end, w)
  end.

Definition write_cache (path : string) (data : list json) (w : W) : W :=
  path_write path (json_dumps (JList data)) w.

Definition fetch_url (url : string) (w : W) : option (list json) * W :=
  let '(cookie, w) := nse_cookie 10 w in
  match urlopen url (with_cookie cookie) 15 w with
  | (Ok (_, body), w) =>
      (match json_loads body with Ok payload => payload_list payload | Raise _ => None end, w)
  | (Raise _, w) => (None, w)
  end.

(** The cached list, when the file is fresh and readable. *)
Definition fresh_data (path : string) (w : W) : option (list json) * W :=
  let '(fresh, w) := is_cache_fresh path w in
  if fresh then read_cache path w else (None, w).

Definition get_category_data (c : Category) (w : W) : list json * W :=
  let path := cache_path c in
  match fresh_data path w with
  | (Some cached, w) => (cached, w)
  | (None, w) =>
      match fetch_url (category_url c) w with
      | (Some live, w) => (live, write_cache path live w)
      | (None, w) =>
          match read_cache path w with
          | (Some stale, w) => (stale, w)
          | (None, w) => ([], w)
          end
      end
  end.
End Compliance.

(** [row.get(k1) or row.get(k2) or ...]: the first true value, or the last one. *)
Fixpoint get_first (keys : list string) (fields : dict string json) : json :=
  match keys with
  | [] => JNull
  | [k] => default JNull (dget k fields)
  | k :: keys => let v := default JNull (dget k fields) in if truthy v then v else get_first keys fields
  end.

(** [row.get] needs a dictionary. *)
Definition row_fields (row : json) : result (dict string json) :=
  match row with
  | JObj fields => mret fields
  | _ => Raise (AttributeError "object has no attribute 'get'")
  end.

(** [if isinstance(sym, str) and sym: symbols.add(sym.upper())] *)
Definition add_symbol (sym : json) (symbols : gset string) : gset string :=
  match sym with
  | JStr s => if is_empty s then symbols else {[str_upper s]} ∪ symbols
  | _ => symbols
  end.

Definition symbols_from (keys : list string) (data : list json) : result (gset string) :=
  for_each (fun symbols row => fields ← row_fields row; mret (add_symbol (get_first keys fields) symbols)) ∅ data.

Definition symbols_from_asm : list json -> result (gset string) := symbols_from ["symbol"; "Symbol"; "scrip_cd"].
Definition symbols_from_esm : list json -> result (gset string) := symbols_from ["symbol"; "Symbol"; "scrip"].
Definition symbols_from_ban : list json -> result (gset string) := symbols_from ["symbol"; "Symbol"].

(** [float(str(raw_pct).replace("%", ""))] *)
Definition parse_pct (raw_pct : json) : result float := py_float (str_without "%" (py_str raw_pct)).

Definition add_mwpl (symbols : gset string) (row : json) : result (gset string) :=
  fields ← row_fields row;
  let sym := get_first ["symbol"; "Symbol"] fields in
  let raw_pct := get_first ["pct_mwpl"; "mwplPct"; "utilPct"] fields in
  match sym with
  | JStr s =>
      if is_empty s then mret symbols
      else
        match parse_pct raw_pct with
        | Raise (ValueError _) | Raise (TypeError _) => mret symbols
        | Raise e => Raise e
        | Ok pct => mret (if fle MWPL_OI_THRESHOLD_PCT pct then {[str_upper s]} ∪ symbols else symbols)
        end
  | _ => mret symbols
  end.

Definition symbols_from_mwpl (data : list json) : result (gset string) := for_each add_mwpl ∅ data.

(** [NSEComplianceSource.fetch], which [load_compliance_list] calls; [now] is
    the clock. *)
Definition fetch_exclusions {W} `{NseWorld W} `{UrlOpen W} (now : Z) : M W ComplianceExclusionList.t := fun w =>
  let '(asm_data, w) := get_category_data ASM w in
  let '(esm_data, w) := get_category_data ESM w in
  let '(ban_data, w) := get_category_data BAN w in
  let '(mwpl_data, w) := get_category_data MWPL w in
  (asm ← symbols_from_asm asm_data;
   esm ← symbols_from_esm esm_data;
   ban ← symbols_from_ban ban_data;
   mwpl ← symbols_from_mwpl mwpl_data;
   mret (ComplianceExclusionList.mk asm esm ban mwpl now), w).

(** ** The filter ([filter.py]) *)

Definition CandleArrays : Type := dict string (list float).

Definition array_of (name : string) (candles : CandleArrays) : list float := default [] (dget name candles).

(** [d[key]] *)
Definition dict_item {V} (key : string) (d : dict string V) : result V :=
  match dget key d with Some v => Ok v | None => Raise (KeyError key) end.

Section Filter.
Context `{NumPyStats} `{TALib}.

(** One iteration of the loop over the instruments. *)
Definition score_instrument (candles_by_symbol : dict string CandleArrays) (regime : MarketRegime)
    (exclusion_list : ComplianceExclusionList.t) (weights : AlphaWeights.t) (scored_at : Z)
    (unranked : list WatchlistEntry.t) (instrument : dict string string) : result (list WatchlistEntry.t) :=
  symbol ← dict_item "symbol" instrument;
  exchange ← dict_item "exchange" instrument;
  if ComplianceExclusionList.is_excluded exclusion_list symbol then mret unranked
  else
    match dget symbol candles_by_symbol with
    | None => mret unranked
    | Some candles =>
        let close := array_of "close" candles in
        let high := array_of "high" candles in
        let low := array_of "low" candles in
        let volume := array_of "volume" candles in
        if Z.of_nat (length close) <? WATCHLIST_MIN_CANDLES then mret unranked
        else
          components ← score_stock close high low volume regime;
          mret (unranked ++
            [WatchlistEntry.mk symbol exchange 0 (compute_composite components weights) components regime
               (assign_strategy_id regime (AlphaComponents.trend_score components)) scored_at])
    end.

Definition run_universe_filter (instruments : list (dict string string))
    (candles_by_symbol : dict string CandleArrays) (regime : MarketRegime)
    (exclusion_list : ComplianceExclusionList.t) (top_n : Z) (scored_at : Z) : result (list WatchlistEntry.t) :=
  if bool_decide (regime = HIGH_VOL_CHAOS) then mret []
  else
    weights ← BETA_WEIGHTS regime;
    unranked ← for_each (score_instrument candles_by_symbol regime exclusion_list weights scored_at) [] instruments;
    mret (slice_to top_n (rank_entries unranked)).
End Filter.

(** ** Storage ([repository.py]) *)

Definition entry_to_redis_dict (e : WatchlistEntry.t) : json :=
  let c := WatchlistEntry.components e in
  JObj [("symbol", JStr (WatchlistEntry.symbol e)); ("exchange", JStr (WatchlistEntry.exchange e));
        ("rank", JInt (WatchlistEntry.rank e)); ("composite_score", JFloat (WatchlistEntry.composite_score e));
        ("trend_score", JFloat (AlphaComponents.trend_score c)); ("vol_score", JFloat (AlphaComponents.vol_score c));
        ("liq_score", JFloat (AlphaComponents.liq_score c)); ("sent_score", JFloat (AlphaComponents.sent_score c));
        ("regime", JStr (regime_value (WatchlistEntry.regime e)));
        ("strategy_id", JStr (WatchlistEntry.strategy_id e));
        ("scored_at", JStr (isoformat (WatchlistEntry.scored_at e)))].

(** A field that the code casts to [str] without converting it; the fields of
    the record are strings. *)
Definition str_field (key : string) (data : json) : result string := jfield_str key data.

Definition iso_field (key : string) (data : json) : result Z :=
  text ← jfield_str key data;
  p ← fromisoformat text;
  mret p.1.

Definition regime_field (key : string) (data : json) : result MarketRegime :=
  text ← jfield_str key data;
  match regime_of_value text with
  | Some r => mret r
  | None => Raise (ValueError ("'" +:+ text +:+ "' is not a valid MarketRegime"))
  end.

Definition float_field (key : string) (data : json) : result float := jfield key data ≫= json_to_float.

Definition redis_dict_to_entry (data : json) : result WatchlistEntry.t :=
  scored_at ← iso_field "scored_at" data;
  symbol ← str_field "symbol" data;
  exchange ← str_field "exchange" data;
  rank ← jfield "rank" data ≫= json_to_int;
  composite_score ← float_field "composite_score" data;
  trend ← float_field "trend_score" data;
  vol ← float_field "vol_score" data;
  liq ← float_field "liq_score" data;
  sent ← float_field "sent_score" data;
  regime ← regime_field "regime" data;
  strategy_id ← str_field "strategy_id" data;
  mret (WatchlistEntry.mk symbol exchange rank composite_score (AlphaComponents.mk trend vol liq sent)
          regime strategy_id scored_at).

Definition watchlist_key (exchange : string) : string := "universe:watchlist:" +:+ str_upper exchange.

(** The PostgreSQL connection: inserting a batch and committing, and the rows
    of the newest watchlist of an exchange, at most [top_n], by rank. *)
Class Postgres (P : Type) := {
  pg_insert_batch : list WatchlistEntry.t -> M P unit;
  pg_commit : M P unit;
  pg_select_latest : string -> Z -> M P (list WatchlistEntry.t);
}.

(** The stores of a pipeline run. *)
Record Stores (P R : Type) := { st_pg : P; st_redis : R }.
Arguments st_pg {P R}.
Arguments st_redis {P R}.

Section Repository.
Context {P R : Type} `{Postgres P} `{RedisKV R}.

Definition on_pg {A} (m : M P A) : M (Stores P R) A :=
  M_zoom st_pg (fun p s => {| st_pg := p; st_redis := st_redis s |}) m.
Definition on_redis {A} (m : M R A) : M (Stores P R) A :=
  M_zoom st_redis (fun r s => {| st_pg := st_pg s; st_redis := r |}) m.

Definition watchlist_payload (entries : list WatchlistEntry.t) : string :=
  json_dumps (JList (entry_to_redis_dict <$> entries)).

Definition store_watchlist (entries : list WatchlistEntry.t) : M (Stores P R) unit :=
  match entries with
  | [] => mret tt
  | first :: _ =>
      _ ← on_pg (pg_insert_batch entries);
      _ ← on_pg pg_commit;
      on_redis (redis_set (watchlist_key (WatchlistEntry.exchange first)) (watchlist_payload entries)
                  (Some WATCHLIST_REDIS_TTL_SECONDS))
  end.

(** The [try] block: what the cached text holds. *)
Definition decode_watchlist (cached : string) (top_n : Z) : result (list WatchlistEntry.t) :=
  raw ← json_loads cached;
  match raw with
  | JList l => mapM redis_dict_to_entry (slice_to top_n l)
  | _ => Raise (TypeError "not a list")
  end.

Definition load_watchlist (exchange : string) (top_n : Z) : M (Stores P R) (list WatchlistEntry.t) :=
  cached ← on_redis (redis_get (watchlist_key exchange));
  let from_db := on_pg (pg_select_latest (str_upper exchange) top_n) in
  match cached with
  | None => from_db
  | Some text =>
      match decode_watchlist text top_n with
      | Ok entries => mret entries
      | Raise (ValueError _) | Raise (KeyError _) => from_db
      | Raise e => M_raise e
      end
  end.
End Repository.

(** ** The exclusion list *)

Lemma excluded_iff (l : ComplianceExclusionList.t) symbol :
  ComplianceExclusionList.is_excluded l symbol = true
  <-> str_upper symbol ∈ ComplianceExclusionList.asm_symbols l ∪ ComplianceExclusionList.esm_symbols l
      ∪ ComplianceExclusionList.ban_symbols l ∪ ComplianceExclusionList.mwpl_exceeded_symbols l.
Proof.
  unfold ComplianceExclusionList.is_excluded. rewrite !orb_true_iff, !bool_decide_eq_true. set_solver.
Qed.

(** A reason is given exactly for an excluded symbol. *)
Theorem exclusion_has_reason (l : ComplianceExclusionList.t) symbol :
  ComplianceExclusionList.is_excluded l symbol = true
  <-> is_Some (ComplianceExclusionList.exclusion_reason l symbol).
Proof.
  unfold ComplianceExclusionList.is_excluded, ComplianceExclusionList.exclusion_reason.
  repeat (match goal with |- context [bool_decide ?P] => destruct (bool_decide P) end; cbn;
    try (split; [intros _; by eexists|done])).
  split; [done|]. by intros [].
Qed.

(** ** What a watchlist holds *)

Section FilterFacts.
Context `{NumPyStats} `{TALib}.

(** An entry that the loop scored. *)
Definition eligible (instruments : list (dict string string)) (candles : dict string CandleArrays)
    (regime : MarketRegime) (exclusions : ComplianceExclusionList.t) (e : WatchlistEntry.t) : Prop :=
  (exists i, i ∈ instruments /\ dget "symbol" i = Some (WatchlistEntry.symbol e)
             /\ dget "exchange" i = Some (WatchlistEntry.exchange e))
  /\ ComplianceExclusionList.is_excluded exclusions (WatchlistEntry.symbol e) = false
  /\ (exists arrays, dget (WatchlistEntry.symbol e) candles = Some arrays
        /\ WATCHLIST_MIN_CANDLES <= Z.of_nat (length (array_of "close" arrays))
        /\ score_stock (array_of "close" arrays) (array_of "high" arrays) (array_of "low" arrays)
             (array_of "volume" arrays) regime = Ok (WatchlistEntry.components e))
  /\ WatchlistEntry.regime e = regime
  /\ WatchlistEntry.strategy_id e
     = assign_strategy_id regime (AlphaComponents.trend_score (WatchlistEntry.components e))
  /\ exists weights, BETA_WEIGHTS regime = Ok weights
       /\ WatchlistEntry.composite_score e = compute_composite (WatchlistEntry.components e) weights.

Lemma eligible_rank instruments candles regime exclusions k e :
  eligible instruments candles regime exclusions (with_rank k e)
  <-> eligible instruments candles regime exclusions e.
Proof. reflexivity. Qed.

Lemma dict_item_ok {V} key (d : dict string V) v : dict_item key d = Ok v <-> dget key d = Some v.
Proof. unfold dict_item. destruct (dget key d); split; congruence. Qed.

Lemma score_instrument_eligible instruments candles regime exclusions weights now l i l' :
  BETA_WEIGHTS regime = Ok weights -> i ∈ instruments ->
  Forall (eligible instruments candles regime exclusions) l ->
  score_instrument candles regime exclusions weights now l i = Ok l' ->
  Forall (eligible instruments candles regime exclusions) l'.
Proof.
  intros Hw Hi Hl Hs. unfold score_instrument in Hs. bind_inv Hs. bind_inv Hs.
  apply dict_item_ok in Ha, Ha0. rename a into symbol, a0 into exchange.
  destruct (ComplianceExclusionList.is_excluded exclusions symbol) eqn:He; [by injection Hs as <-|].
  destruct (dget symbol candles) as [arrays|] eqn:Hc; [|by injection Hs as <-].
  cbv zeta in Hs. destruct (Z.ltb_spec (Z.of_nat (length (array_of "close" arrays))) WATCHLIST_MIN_CANDLES) as [|Hn];
    [by injection Hs as <-|].
  bind_inv Hs. injection Hs as <-. apply Forall_app. split; [done|]. constructor; [|done].
  repeat split; cbn; eauto 10.
Qed.

Lemma unranked_eligible instruments candles regime exclusions weights now l :
  BETA_WEIGHTS regime = Ok weights ->
  for_each (score_instrument candles regime exclusions weights now) [] instruments = Ok l ->
  Forall (eligible instruments candles regime exclusions) l.
Proof.
  intros Hw. apply (for_each_invariant (Forall (eligible instruments candles regime exclusions))); [|constructor].
  intros s i s' Hi Hs. by eapply score_instrument_eligible.
Qed.

Lemma rank_entries_lookup l i e :
  rank_entries l !! i = Some e ->
  exists e0, py_sorted better l !! i = Some e0 /\ e = with_rank (Z.of_nat i + 1) e0.
Proof. unfold rank_entries. rewrite list_lookup_imap. intros Hi. apply fmap_Some in Hi as (e0 & He & ->). by exists e0. Qed.

Lemma ranked_scores l :
  WatchlistEntry.composite_score <$> rank_entries l = WatchlistEntry.composite_score <$> py_sorted better l.
Proof.
  unfold rank_entries. generalize (py_sorted better l). clear l. intros l.
  assert (Hgen : forall (f : nat -> Z), WatchlistEntry.composite_score <$> imap (fun i e => with_rank (f i) e) l
                 = WatchlistEntry.composite_score <$> l); [|apply Hgen].
  induction l as [|e l IH]; intros f; [done|]. cbn. f_equal. apply (IH (fun i => f (S i))).
Qed.

Lemma sorted_scores l :
  Forall (fun e => is_nan (WatchlistEntry.composite_score e) = false) l ->
  StronglySorted (fun x y => fle y x = true) (WatchlistEntry.composite_score <$> py_sorted better l).
Proof.
  intros Hnan.
  assert (Hs : StronglySorted (fun x y => fle (WatchlistEntry.composite_score y) (WatchlistEntry.composite_score x) = true)
                 (py_sorted better l)).
  { apply (py_sorted_ordered (fun e => is_nan (WatchlistEntry.composite_score e) = false)); [| | |done];
      unfold better; intros; float_order. }
  clear Hnan. induction Hs as [|e l' Hl IH He]; [constructor|]. cbn. constructor; [done|]. by apply Forall_fmap.
Qed.

(** The watchlist is empty in HIGH_VOL_CHAOS and otherwise holds at most
    [top_n] entries, ranked 1, 2, 3, ... in order; each is for a listed
    instrument that no compliance list names, with at least 50 candles, and
    carries the components, the weighted score and the strategy of its
    regime. *)
Theorem watchlist_sound instruments candles regime exclusions top_n now w :
  run_universe_filter instruments candles regime exclusions top_n now = Ok w ->
  (regime = HIGH_VOL_CHAOS -> w = [])
  /\ (0 <= top_n -> Z.of_nat (length w) <= top_n)
  /\ forall i e, w !! i = Some e ->
       WatchlistEntry.rank e = Z.of_nat i + 1 /\ eligible instruments candles regime exclusions e.
Proof.
  unfold run_universe_filter. case_bool_decide as Hc; [intros [= <-]; split_and!; [done|cbn; lia|done]|].
  intros Hr. bind_inv Hr. bind_inv Hr. injection Hr as <-. rename a into weights, a0 into unranked.
  split_and!; [done| |].
  - intros Hn. unfold slice_to. rewrite length_take. destruct (Z.ltb_spec top_n 0); lia.
  - intros i e Hi. unfold slice_to in Hi. apply lookup_take_Some in Hi as [Hi _].
    apply rank_entries_lookup in Hi as (e0 & He0 & ->). split; [done|]. apply eligible_rank.
    pose proof (unranked_eligible _ _ _ _ _ _ _ Ha Ha0) as Hall. rewrite Forall_forall in Hall. apply Hall.
    rewrite <- (py_sorted_perm better unranked). by eapply list_elem_of_lookup_2.
Qed.

(** The watchlist is the top of the ranking: when no score is NaN, the
    scores of the watchlist never increase with the rank, and no instrument
    that was scored and left out has a higher score than one that was kept. *)
Theorem watchlist_is_top_n instruments candles regime exclusions top_n now w weights unranked :
  regime <> HIGH_VOL_CHAOS -> BETA_WEIGHTS regime = Ok weights -> 0 <= top_n ->
  for_each (score_instrument candles regime exclusions weights now) [] instruments = Ok unranked ->
  Forall (fun e => is_nan (WatchlistEntry.composite_score e) = false) unranked ->
  run_universe_filter instruments candles regime exclusions top_n now = Ok w ->
  exists out, (WatchlistEntry.composite_score <$> w) ++ out ≡ₚ WatchlistEntry.composite_score <$> unranked
    /\ StronglySorted (fun x y => fle y x = true) (WatchlistEntry.composite_score <$> w)
    /\ (forall x y, x ∈ WatchlistEntry.composite_score <$> w -> y ∈ out -> fle y x = true)
    /\ length w = Nat.min (Z.to_nat top_n) (length unranked).
Proof.
  intros Hc Hw Hn Hu Hnan. unfold run_universe_filter. rewrite bool_decide_eq_false_2 by done.
  rewrite Hw. cbn [mbind result_bind]. rewrite Hu. cbn [mbind result_bind]. intros [= <-].
  unfold slice_to. destruct (Z.ltb_spec top_n 0); [lia|].
  set (scores := WatchlistEntry.composite_score <$> py_sorted better unranked).
  assert (Hs := sorted_scores unranked Hnan). fold scores in Hs.
  exists (drop (Z.to_nat top_n) scores).
  rewrite fmap_take, ranked_scores. fold scores. rewrite take_drop.
  rewrite <- (take_drop (Z.to_nat top_n) scores) in Hs.
  apply StronglySorted_app in Hs as (Hcross & Ht & _). split_and!; [|done| |].
  - unfold scores. by rewrite (py_sorted_perm better unranked).
  - intros x y Hx Hy. by apply Hcross.
  - unfold rank_entries. by rewrite length_take, length_imap, (py_sorted_perm better unranked).
Qed.
End FilterFacts.

(** ** The exclusion lists reach the filter *)

Lemma add_symbol_mono sym s symbols : s ∈ symbols -> s ∈ add_symbol sym symbols.
Proof. intros Hs. destruct sym; cbn; try done. destruct (is_empty _); [done|set_solver]. Qed.

Lemma symbols_from_loop keys data acc out :
  for_each (fun symbols row => fields ← row_fields row; mret (add_symbol (get_first keys fields) symbols)) acc data
    = Ok out ->
  (forall s, s ∈ acc -> s ∈ out)
  /\ forall fields s, JObj fields ∈ data -> get_first keys fields = JStr s -> s <> "" -> str_upper s ∈ out.
Proof.
  revert acc. induction data as [|row data IH]; intros acc Hf.
  - injection Hf as <-. split; [done|]. intros fields s Hin. by apply elem_of_nil in Hin.
  - cbn [for_each] in Hf. bind_inv Hf. bind_inv Ha. injection Ha as <-.
    destruct (IH _ Hf) as [Hkeep Hin]. split; [intros s Hs; by apply Hkeep, add_symbol_mono|].
    intros fields s [<-|Hd]%elem_of_cons Hg Hs; [|by apply (Hin fields)].
    injection Ha0 as <-. apply Hkeep. rewrite Hg. cbn.
    destruct (is_empty s) eqn:He; [by apply String.eqb_eq in He|set_solver].
Qed.

(** A row that names a symbol under the key [symbol] puts it on the list. *)
Lemma listed_row keys data out fields s :
  symbols_from ("symbol" :: keys) data = Ok out -> JObj fields ∈ data ->
  dget "symbol" fields = Some (JStr s) -> s <> "" -> str_upper s ∈ out.
Proof.
  intros Hs Hin Hd Hne. eapply symbols_from_loop; [exact Hs|exact Hin| |done].
  unfold get_first; fold get_first. rewrite Hd. cbn.
  destruct keys; [done|]. destruct (is_empty s) eqn:He; [by apply String.eqb_eq in He|done].
Qed.

Section ExclusionFacts.
Context {W : Type} `{NseWorld W} `{UrlOpen W} `{NumPyStats} `{TALib}.

(** C16. A symbol that the surveillance list names is never on the watchlist,
    from the fetch to the filter and whatever the case of its letters: if the
    ASM data, cached or live, has a row for it, no entry is for it. *)
Theorem surveillance_symbol_never_listed now (w w' : W) exclusions fields s instruments candles regime top_n
    scored_at entries e :
  fetch_exclusions now w = (Ok exclusions, w') ->
  JObj fields ∈ (get_category_data ASM w).1 -> dget "symbol" fields = Some (JStr s) -> s <> "" ->
  run_universe_filter instruments candles regime exclusions top_n scored_at = Ok entries ->
  e ∈ entries -> str_upper (WatchlistEntry.symbol e) <> str_upper s.
Proof.
  intros Hf Hin Hs Hne Hr He Heq. unfold fetch_exclusions in Hf.
  destruct (get_category_data ASM w) as [asm_data w1]. cbn [fst] in Hin.
  destruct (get_category_data ESM w1) as [esm_data w2], (get_category_data BAN w2) as [ban_data w3],
    (get_category_data MWPL w3) as [mwpl_data w4].
  injection Hf as Hf _. bind_inv Hf. do 3 bind_inv Hf. injection Hf as <-.
  pose proof (listed_row _ _ _ _ _ Ha Hin Hs Hne) as Hlisted.
  apply list_elem_of_lookup_1 in He as [i Hi].
  apply watchlist_sound in Hr as (_ & _ & Hall). destruct (Hall i e Hi) as (_ & _ & Hex & _).
  assert (Htrue : ComplianceExclusionList.is_excluded
                    (ComplianceExclusionList.mk a a0 a1 a2 now) (WatchlistEntry.symbol e) = true).
  { apply excluded_iff. cbn. rewrite Heq. set_solver. }
  congruence.
Qed.

(** The lists are documented to fail open; a row that is not a dictionary, in
    the cache or in the response, raises out of the fetch instead. *)
Theorem malformed_row_breaks_fetch now (w : W) (row : json) data :
  (get_category_data ASM w).1 = row :: data -> (forall fields, row <> JObj fields) ->
  (fetch_exclusions now w).1 = Raise (AttributeError "object has no attribute 'get'").
Proof.
  intros Hd Hrow. unfold fetch_exclusions. destruct (get_category_data ASM w) as [asm_data w1]. cbn in Hd. subst.
  destruct (get_category_data ESM w1) as [esm_data w2], (get_category_data BAN w2) as [ban_data w3],
    (get_category_data MWPL w3) as [mwpl_data w4].
  destruct row; try done. by destruct (Hrow fields).
Qed.
End ExclusionFacts.

(** ** Storing and loading *)

(** What the JSON text and the ISO date keep: floats whose numeral reads back,
    and a year that [datetime] can hold. *)
Definition storable (e : WatchlistEntry.t) : Prop :=
  let c := WatchlistEntry.components e in
  Forall (fun x => json_ok (JFloat x))
    [WatchlistEntry.composite_score e; AlphaComponents.trend_score c; AlphaComponents.vol_score c;
     AlphaComponents.liq_score c; AlphaComponents.sent_score c]
  /\ in_datetime (WatchlistEntry.scored_at e / DAY).

Lemma storable_json e : storable e -> json_ok (entry_to_redis_dict e).
Proof.
  intros [Hf _]. cbv zeta in Hf. rewrite !Forall_cons in Hf. destruct Hf as (? & ? & ? & ? & ? & _).
  split; [by apply (bool_decide_unpack _)|]. unfold entry_to_redis_dict. cbn [foldr snd]. by split_and!.
Qed.

Lemma entry_round_trip e : in_datetime (WatchlistEntry.scored_at e / DAY) ->
  redis_dict_to_entry (entry_to_redis_dict e) = Ok e.
Proof.
  intros Hd.
  assert (Hiso : iso_field "scored_at" (entry_to_redis_dict e) = Ok (WatchlistEntry.scored_at e)).
  { change (iso_field "scored_at" (entry_to_redis_dict e))
      with (p ← fromisoformat (isoformat (WatchlistEntry.scored_at e)); mret (M := result) p.1).
    by rewrite fromisoformat_isoformat. }
  assert (Hreg : regime_field "regime" (entry_to_redis_dict e) = Ok (WatchlistEntry.regime e)).
  { change (regime_field "regime" (entry_to_redis_dict e))
      with (match regime_of_value (regime_value (WatchlistEntry.regime e)) with
            | Some r => mret (M := result) r
            | None => Raise (ValueError ("'" +:+ regime_value (WatchlistEntry.regime e) +:+ "' is not a valid MarketRegime"))
            end).
    by rewrite regime_of_value_value. }
  unfold redis_dict_to_entry. rewrite Hiso, Hreg. by destruct e as [? ? ? ? [] ? ? ?].
Qed.

Lemma mapM_entries l :
  Forall (fun e => in_datetime (WatchlistEntry.scored_at e / DAY)) l ->
  mapM redis_dict_to_entry (entry_to_redis_dict <$> l) = Ok l.
Proof.
  induction 1 as [|e l He Hl IH]; [done|]. rewrite fmap_cons. cbn [mapM].
  rewrite entry_round_trip by done. cbn [mbind result_bind]. by rewrite IH.
Qed.

Lemma slice_to_fmap {A B} (f : A -> B) n l : slice_to n (f <$> l) = f <$> slice_to n l.
Proof. unfold slice_to. by rewrite length_fmap, fmap_take. Qed.

Lemma decode_payload entries n : Forall storable entries ->
  decode_watchlist (watchlist_payload entries) n = Ok (slice_to n entries).
Proof.
  intros Hs. unfold decode_watchlist, watchlist_payload.
  assert (Hjson : json_ok (JList (entry_to_redis_dict <$> entries))).
  { cbn. apply foldr_Forall, Forall_fmap. eapply Forall_impl; [exact Hs|]. exact storable_json. }
  rewrite json_round_trip by done. cbn [mbind result_bind]. rewrite slice_to_fmap. apply mapM_entries.
  unfold slice_to. apply Forall_take. eapply Forall_impl; [exact Hs|]. by intros e [].
Qed.

Section RepositoryFacts.
Context {P R : Type} `{Postgres P} `{RedisKVLaws R}.

Lemma store_then_load entries first rest (s s1 : Stores P R) exchange n :
  entries = first :: rest -> Forall storable entries -> redis_up (st_redis s) ->
  str_upper exchange = str_upper (WatchlistEntry.exchange first) ->
  store_watchlist entries s = (Ok tt, s1) ->
  exists s2, load_watchlist exchange n s1 = (Ok (slice_to n entries), s2).
Proof.
  intros -> Hs Hup Hex. unfold store_watchlist. unfold mbind, M_bind, on_pg, on_redis, M_zoom.
  destruct (pg_insert_batch (first :: rest) (st_pg s)) as [[[]|e] p1]; [|done]. cbn [st_pg st_redis].
  destruct (pg_commit p1) as [[[]|e] p2]; [|done]. cbn [st_pg st_redis].
  destruct (redis_set_up (watchlist_key (WatchlistEntry.exchange first)) (watchlist_payload (first :: rest))
              (Some WATCHLIST_REDIS_TTL_SECONDS) (st_redis s) Hup) as (r1 & -> & Hup1 & Hkv).
  intros [= <-]. unfold load_watchlist. unfold mbind, M_bind, on_redis, M_zoom. cbn [st_pg st_redis].
  destruct (redis_get_up (watchlist_key exchange) r1 Hup1) as (r2 & -> & _).
  assert (Hk : watchlist_key exchange = watchlist_key (WatchlistEntry.exchange first))
    by (unfold watchlist_key; by rewrite Hex).
  rewrite Hkv, Hk, lookup_insert_eq. cbv beta iota zeta. rewrite decode_payload by done. by eexists.
Qed.

(** A stored watchlist is loaded back: after a store that returns on an
    answering Redis, loading the exchange, in any case of its letters, gives
    the stored entries, cut to [top_n], every field unchanged. *)
Theorem watchlist_round_trip entries first rest (s s1 : Stores P R) exchange n :
  entries = first :: rest -> Forall storable entries -> redis_up (st_redis s) ->
  str_upper exchange = str_upper (WatchlistEntry.exchange first) ->
  store_watchlist entries s = (Ok tt, s1) ->
  exists s2, load_watchlist exchange n s1 = (Ok (slice_to n entries), s2).
Proof. apply store_then_load. Qed.

(** A regime that turns to HIGH_VOL_CHAOS does not withdraw the watchlist:
    the filter then returns no entry, storing no entry changes nothing, and
    a load still returns the watchlist stored before. *)
Theorem chaos_keeps_stored_watchlist `{NumPyStats} `{TALib} entries first rest (s s1 : Stores P R) exchange n
    instruments candles exclusions top_n now :
  entries = first :: rest -> Forall storable entries -> redis_up (st_redis s) ->
  str_upper exchange = str_upper (WatchlistEntry.exchange first) ->
  store_watchlist entries s = (Ok tt, s1) ->
  exists w s2, run_universe_filter instruments candles HIGH_VOL_CHAOS exclusions top_n now = Ok w
    /\ store_watchlist w s1 = (Ok tt, s1)
    /\ load_watchlist exchange n s1 = (Ok (slice_to n entries), s2).
Proof.
  intros He Hs Hup Hex Hst. destruct (store_then_load _ _ _ _ _ exchange n He Hs Hup Hex Hst) as (s2 & Hl).
  by exists [], s2.
Qed.
End RepositoryFacts.

(** ** Evaluation on concrete inputs *)

#[local] Existing Instance sample_numpy.
#[local] Existing Instance sample_talib.

Definition instrument (symbol : string) : dict string string := [("symbol", symbol); ("exchange", "NSE")].

(** Fifty flat candles; the stand-in for ADX is the high. *)
Definition arrays (close adx : Z) (bars : nat) : CandleArrays :=
  [("close", replicate bars (dec close 0)); ("high", replicate bars (dec adx 0));
   ("low", replicate bars (dec close 0))].

Definition sample_instruments : list (dict string string) := instrument <$> ["TCS"; "INFY"; "WIPRO"; "XYZ"; "NEW"].

Definition sample_candles : dict string CandleArrays :=
  [("TCS", arrays 110 20 50); ("INFY", arrays 110 40 50); ("WIPRO", arrays 100 45 50);
   ("XYZ", arrays 110 50 50); ("NEW", arrays 110 50 49)].

(** No cache file; the ASM list is served, the other requests fail. *)
#[local] Instance sample_nse : NseWorld unit := {
  path_mtime _ w := (None, w);
  clock_time w := (f_zero, w);
  path_read _ w := (None, w);
  path_write _ _ w := w;
}.

#[local] Instance sample_web : UrlOpen unit := {
  urlopen url _ _ w :=
    if String.eqb url (category_url ASM) then
      (Ok ("", json_dumps (JObj [("data", JList [JObj [("symbol", JStr "xyz")]])])), w)
    else (Raise (OtherError "HTTP 403"), w);
}.

Definition sample_exclusions : ComplianceExclusionList.t :=
  ComplianceExclusionList.mk {["XYZ"]} ∅ ∅ ∅ 0.

Definition sample_watchlist : list WatchlistEntry.t :=
  match run_universe_filter sample_instruments sample_candles BULL_TREND sample_exclusions 2 1783036800250000 with
  | Ok w => w
  | Raise _ => []
  end.

Definition sample_unranked : list WatchlistEntry.t :=
  match for_each (score_instrument sample_candles BULL_TREND sample_exclusions
                    (weights_of ALPHA_BETA_BULL_TREND) 1783036800250000) [] sample_instruments with
  | Ok l => l
  | Raise _ => []
  end.

Lemma watchlist_sound_witness :
  ((fun e => (WatchlistEntry.symbol e, WatchlistEntry.rank e, WatchlistEntry.strategy_id e)) <$> sample_watchlist)
    = [("INFY", 1, "EMA_VWAP_TREND"); ("TCS", 2, "MOMENTUM_RSI")]
  /\ forall i e, sample_watchlist !! i = Some e ->
       WatchlistEntry.rank e = Z.of_nat i + 1
       /\ eligible sample_instruments sample_candles BULL_TREND sample_exclusions e.
Proof.
  split; [vm_compute; reflexivity|].
  apply (watchlist_sound sample_instruments sample_candles BULL_TREND sample_exclusions 2 1783036800250000).
  vm_compute. reflexivity.
Defined.

Lemma watchlist_is_top_n_witness :
  length sample_unranked = 3%nat
  /\ exists out, (WatchlistEntry.composite_score <$> sample_watchlist) ++ out
        ≡ₚ WatchlistEntry.composite_score <$> sample_unranked
    /\ StronglySorted (fun x y => fle y x = true) (WatchlistEntry.composite_score <$> sample_watchlist)
    /\ (forall x y, x ∈ WatchlistEntry.composite_score <$> sample_watchlist -> y ∈ out -> fle y x = true)
    /\ length sample_watchlist = Nat.min (Z.to_nat 2) (length sample_unranked).
Proof.
  split; [vm_compute; reflexivity|].
  apply (watchlist_is_top_n sample_instruments sample_candles BULL_TREND sample_exclusions 2 1783036800250000
           sample_watchlist (weights_of ALPHA_BETA_BULL_TREND) sample_unranked).
  - discriminate.
  - reflexivity.
  - lia.
  - vm_compute. reflexivity.
  - unfold sample_unranked. vm_compute. repeat constructor.
  - vm_compute. reflexivity.
Defined.

Definition fetched : ComplianceExclusionList.t :=
  match (fetch_exclusions 0 tt).1 with Ok l => l | Raise _ => sample_exclusions end.

Lemma surveillance_symbol_never_listed_witness :
  Forall (fun e => str_upper (WatchlistEntry.symbol e) <> "XYZ") sample_watchlist.
Proof.
  apply Forall_forall. intros e He.
  apply (surveillance_symbol_never_listed 0 tt tt fetched [("symbol", JStr "xyz")] "xyz" sample_instruments
           sample_candles BULL_TREND 2 1783036800250000 sample_watchlist e).
  - vm_compute. reflexivity.
  - vm_compute. by left.
  - reflexivity.
  - discriminate.
  - vm_compute. reflexivity.
  - exact He.
Defined.

(** A database that accepts everything and is empty. *)
#[local] Instance sample_postgres : Postgres unit := {
  pg_insert_batch _ := mret tt;
  pg_commit := mret tt;
  pg_select_latest _ _ := mret [];
}.

Definition sample_stores : Stores unit MemRedis := {| st_pg := tt; st_redis := mem_empty |}.

Definition sample_stored : Stores unit MemRedis := (store_watchlist sample_watchlist sample_stores).2.

Definition entry_floats (e : WatchlistEntry.t) : list float :=
  let c := WatchlistEntry.components e in
  [WatchlistEntry.composite_score e; AlphaComponents.trend_score c; AlphaComponents.vol_score c;
   AlphaComponents.liq_score c; AlphaComponents.sent_score c].

Lemma sample_storable : Forall storable sample_watchlist.
Proof.
  assert (Hw : forallb (fun e => forallb float_reads (entry_floats e)
                                 && bool_decide (in_datetime (WatchlistEntry.scored_at e / DAY))) sample_watchlist
               = true) by (vm_compute; reflexivity).
  apply Forall_forall. intros e He. rewrite forallb_forall in Hw. specialize (Hw e). rewrite <- list_elem_of_In in Hw.
  specialize (Hw He). apply andb_true_iff in Hw as [Hf Hd%bool_decide_eq_true]. split; [|exact Hd].
  apply Forall_forall. intros x Hx. rewrite forallb_forall in Hf. by apply float_reads_ok, Hf, list_elem_of_In.
Qed.

Lemma watchlist_round_trip_witness :
  length sample_watchlist = 2%nat
  /\ exists s2, load_watchlist "nse" 20 sample_stored = (Ok (slice_to 20 sample_watchlist), s2).
Proof.
  split; [vm_compute; reflexivity|].
  apply (watchlist_round_trip sample_watchlist (default (WatchlistEntry.mk "" "" 0 f_zero
           (AlphaComponents.mk f_zero f_zero f_zero f_zero) BULL_TREND "" 0) (head sample_watchlist))
           (tail sample_watchlist) sample_stores sample_stored "nse" 20).
  - vm_compute. reflexivity.
  - exact sample_storable.
  - reflexivity.
  - vm_compute. reflexivity.
  - vm_compute. reflexivity.
Defined.

Lemma chaos_keeps_stored_watchlist_witness :
  exists w s2, run_universe_filter sample_instruments sample_candles HIGH_VOL_CHAOS sample_exclusions 2 0 = Ok w
    /\ store_watchlist w sample_stored = (Ok tt, sample_stored)
    /\ load_watchlist "NSE" 20 sample_stored = (Ok (slice_to 20 sample_watchlist), s2).
Proof.
  apply (chaos_keeps_stored_watchlist sample_watchlist (default (WatchlistEntry.mk "" "" 0 f_zero
           (AlphaComponents.mk f_zero f_zero f_zero f_zero) BULL_TREND "" 0) (head sample_watchlist))
           (tail sample_watchlist) sample_stores sample_stored "NSE" 20).
  - vm_compute. reflexivity.
  - exact sample_storable.
  - reflexivity.
  - vm_compute. reflexivity.
  - vm_compute. reflexivity.
Defined.

Example malformed_cache :
  symbols_from_asm [JObj [("symbol", JStr "abc")]; JStr "XYZ"] = Raise (AttributeError "object has no attribute 'get'").
Proof. reflexivity. Qed.
