(* ===== verification/NewsFeeds.v ===== *)
(** * News feeds and market indicators ([shared/sentiment/feeds.py], [market_indicators.py])

    The network is [UrlOpen]; feedparser is a parameter that turns a body into
    entries.  A [datetime] is its number of microseconds since the epoch; the
    clock readings are arguments. *)

From Stdlib Require Import SpecFloat.
From S2P Require Import Prelude PyFloat PyDict Json PyText Constants MarketData Web.
Local Open Scope Z_scope.

(** ** Feeds ([feeds.py]) *)

(** An entry of feedparser: [published_parsed] as the UTC instant it denotes,
    in seconds, and what [parsedate_to_datetime] makes of [published], when
    it reads it. *)
Module Entry.
Record t := mk {
  title : string;
  link : option string;
  published_parsed : option Z;
  published : option Z;
}.
End Entry.

(** [feedparser.parse(data).entries], and the offset of the local time zone
    from UTC in seconds, which [time.mktime] subtracts. *)
Class FeedParser := {
  feed_entries : string -> list Entry.t;
  utc_offset : Z;
}.

Definition NSE_RSS : list (string * string) :=
  [("economic_times", "https://economictimes.indiatimes.com/rssfeedstopstories.cms");
   ("moneycontrol", "https://www.moneycontrol.com/rss/MCtopnews.xml")].
Definition ASX_RSS : list (string * string) :=
  [("asx_newsroom", "https://www.asx.com.au/content/asx/home/news/news_releases.html.rss.xml")].
Definition NSE_ANNOUNCEMENT_URL : string :=
  "https://nsearchives.nseindia.com/web/sites/default/files/nse_corporate_announcements_rss.xml".
Definition USER_AGENT_HEADER : dict string string :=
  [("User-Agent", "Mozilla/5.0 (X11; Linux x86_64) AppleWebKit/537.36 (KHTML, like Gecko) Chrome/124.0.0.0 Safari/537.36")].

Definition cutoff_utc (now max_age_hours : Z) : Z := now - max_age_hours * HOUR.

Section Feeds.
Context {W : Type} `{UrlOpen W} `{FeedParser}.

(** [time.mktime(published_parsed)] reads the UTC fields as local time. *)
Definition parse_entry_time (entry : Entry.t) : option Z :=
  match Entry.published_parsed entry with
  | Some utc => Some ((utc - utc_offset) * SECOND)
  | None => Entry.published entry
  end.

Definition fetch_feed_raw (url : string) : M W (list Entry.t) := fun w =>
  match urlopen url USER_AGENT_HEADER 15 w with
  | (Ok (_, data), w) => (Ok (feed_entries data), w)
  | (Raise (RequestException _), w) => (Ok (feed_entries ""), w)
  | (Raise e, w) => (Raise e, w)
  end.

(** One iteration of the loop over the entries; [now] is the clock, read when
    the entry has no time. *)
Definition entry_headline (now cutoff : Z) (source : string) (exchange : option string) (entry : Entry.t)
    : option Headline.t :=
  let title := str_strip (Entry.title entry) in
  if is_empty title then None
  else
    let pub := default now (parse_entry_time entry) in
    if pub <? cutoff then None
    else
      let link := match Entry.link entry with
                  | Some l => if is_empty l then None else Some l
                  | None => None
                  end in
      match Headline.make title link source pub exchange with
      | Ok h => Some h
      | Raise _ => None
      end.

Definition fetch_rss_headlines (now : Z) (url source : string) (exchange : option string) (max_age_hours : Z)
    : M W (list Headline.t) :=
  let cutoff := cutoff_utc now max_age_hours in
  entries ← fetch_feed_raw url;
  mret (omap (entry_headline now cutoff source exchange) entries).

Definition fetch_nse_announcements (now max_age_hours : Z) : M W (list Headline.t) :=
  fetch_rss_headlines now NSE_ANNOUNCEMENT_URL "nse_announcements" (Some "NSE") max_age_hours.

(** [for h in l: if h.text not in seen: seen.add(h.text); unique.append(h)] *)
Fixpoint unique_texts (seen : gset string) (l : list Headline.t) : list Headline.t :=
  match l with
  | [] => []
  | h :: l =>
      if bool_decide (Headline.text h ∈ seen) then unique_texts seen l
      else h :: unique_texts ({[Headline.text h]} ∪ seen) l
  end.

Definition newer (x y : Headline.t) : bool := Headline.published_at y <? Headline.published_at x.

Fixpoint fetch_feed_map (now : Z) (exchange : string) (max_age_hours : Z) (feeds : list (string * string))
    : M W (list Headline.t) :=
  match feeds with
  | [] => mret []
  | (source, url) :: feeds =>
      hs ← fetch_rss_headlines now url source (Some exchange) max_age_hours;
      rest ← fetch_feed_map now exchange max_age_hours feeds;
      mret (hs ++ rest)
  end.

Definition fetch_all_feeds (now : Z) (exchange : string) (max_age_hours : Z) : M W (list Headline.t) :=
  let upper := str_upper exchange in
  if negb (String.eqb upper "NSE") && negb (String.eqb upper "ASX") then mret []
  else
    all_headlines ← fetch_feed_map now upper max_age_hours (if String.eqb upper "NSE" then NSE_RSS else ASX_RSS);
    announcements ← (if String.eqb upper "NSE" then fetch_nse_announcements now max_age_hours else mret []);
    let unique := unique_texts ∅ (py_sorted newer (all_headlines ++ announcements)) in
    mret (slice_to SENTIMENT_MAX_HEADLINES_PER_RUN unique).
End Feeds.

(** ** Market indicators ([market_indicators.py]) *)

Definition NSE_ALL_INDICES : string := "https://www.nseindia.com/api/allIndices".
Definition NSE_FII_DII : string := "https://www.nseindia.com/api/fiidiiTradeReact".
Definition NSE_OPTION_CHAIN : string := "https://www.nseindia.com/api/option-chain-indices?symbol=NIFTY".
Definition VIX_INDEX_NAME : string := "INDIA VIX".

(** [d.get(key, fallback)] *)
Definition get_or (key : string) (fallback : json) (d : dict string json) : json := default fallback (dget key d).

Section Indicators.
Context {W : Type} `{UrlOpen W}.

Definition fetch_nse_json (url cookie : string) : M W (option json) := fun w =>
  match urlopen url (with_cookie cookie) 15 w with
  | (Ok (_, body), w) => (Ok (match json_loads body with Ok v => Some v | Raise _ => None end), w)
  | (Raise (RequestException _), w) => (Ok None, w)
  | (Raise e, w) => (Raise e, w)
  end.

Definition get_nse_cookie : M W string := fun w => let '(c, w) := nse_cookie 15 w in (Ok c, w).

(** The loop over the indices: the value of the first entry named INDIA VIX,
    if its [last] is a numeral. *)
Fixpoint find_vix (indices : list json) : option float :=
  match indices with
  | [] => None
  | JObj entry :: indices =>
      if String.eqb (str_upper (py_str (get_or "indexName" (JStr "") entry))) VIX_INDEX_NAME then
        match json_text_float (get_or "last" (JStr "") entry) with
        | Ok v => Some v
        | Raise _ => None
        end
      else find_vix indices
  | _ :: indices => find_vix indices
  end.

Definition indices_list (data : json) : list json :=
  match data with
  | JObj fields => match get_or "data" JNull fields with JList l => l | _ => [] end
  | _ => []
  end.

(** [float(str(filtered.get(side, {}).get("totOI", 0) or 0))] *)
Definition total_oi (side : string) (filtered : dict string json) : result float :=
  match get_or side (JObj []) filtered with
  | JObj fields =>
      let v := get_or "totOI" (JInt 0) fields in
      json_text_float (if truthy v then v else JInt 0)
  | _ => Raise (AttributeError "object has no attribute 'get'")
  end.

Definition put_call_ratio (data : option json) : option float :=
  match data with
  | Some (JObj fields) =>
      match get_or "filtered" (JObj []) fields with
      | JObj filtered =>
          match total_oi "CE" filtered, total_oi "PE" filtered with
          | Ok total_ce_oi, Ok total_pe_oi =>
              if fle total_ce_oi f_zero then None
              else Some (pyround (fdiv total_pe_oi total_ce_oi) 4)
          | _, _ => None
          end
      | _ => None
      end
  | _ => None
  end.

Definition fetch_put_call_ratio (cookie : string) : M W (option float) :=
  data ← fetch_nse_json NSE_OPTION_CHAIN cookie;
  mret (put_call_ratio data).

Definition fetch_india_vix (now : Z) : M W (option VIXData.t) :=
  cookie ← get_nse_cookie;
  data ← fetch_nse_json NSE_ALL_INDICES cookie;
  match data with
  | None => mret None
  | Some data =>
      match find_vix (indices_list data) with
      | None => mret None
      | Some vix_val =>
          pcr ← fetch_put_call_ratio cookie;
          mret (match VIXData.make vix_val pcr now with Ok v => Some v | Raise _ => None end)
      end
  end.

(** [str(row.get("netValue", row.get("net", "0")) or "0").replace(",", "")] *)
Definition net_text (row : dict string json) : string :=
  let v := get_or "netValue" (get_or "net" (JStr "0") row) row in
  str_without "," (py_str (if truthy v then v else JStr "0")).

(** One iteration over the rows: the FII and DII values so far. *)
Definition note_row (acc : option float * option float) (row : json) : option float * option float :=
  match row with
  | JObj row =>
      let category := str_upper (py_str (get_or "category" (JStr "") row)) in
      match py_float (net_text row) with
      | Ok net_val =>
          if str_contains "FII" category || str_contains "FPI" category then (Some net_val, acc.2)
          else if str_contains "DII" category then (acc.1, Some net_val)
          else acc
      | Raise _ => acc
      end
  | _ => acc
  end.

Definition fetch_fii_dii (now today : Z) : M W (option FIIDIIData.t) :=
  cookie ← get_nse_cookie;
  data ← fetch_nse_json NSE_FII_DII cookie;
  match data with
  | Some (JList rows) =>
      mret (match foldl note_row (None, None) rows with
            | (Some fii_net, Some dii_net) => Some (FIIDIIData.mk today fii_net dii_net now)
            | _ => None
            end)
  | _ => mret None
  end.
End Indicators.

(** ** What the feeds return *)

(** A sublist keeps what holds of every element, and the order. *)
Lemma sublist_forall {A} (P : A -> Prop) (l1 l2 : list A) : l1 `sublist_of` l2 -> Forall P l2 -> Forall P l1.
Proof. induction 1; intros Hl; [done| |]; apply Forall_cons in Hl as [? ?]; auto. Qed.

Lemma sublist_sorted {A} (R : A -> A -> Prop) (l1 l2 : list A) :
  l1 `sublist_of` l2 -> StronglySorted R l2 -> StronglySorted R l1.
Proof.
  induction 1 as [|x l1 l2 Hl IH|x l1 l2 Hl IH]; intros Hs; [done| |];
    apply StronglySorted_inv in Hs as [Hs Hx]; [|auto].
  constructor; [auto|by eapply sublist_forall].
Qed.

Section FeedFacts.
Context {W : Type} `{UrlOpen W} `{FeedParser}.

Lemma unique_texts_spec seen l :
  NoDup (Headline.text <$> unique_texts seen l)
  /\ (forall h, h ∈ unique_texts seen l -> h ∈ l /\ Headline.text h ∉ seen)
  /\ forall h, h ∈ l -> Headline.text h ∈ seen \/ Headline.text h ∈ Headline.text <$> unique_texts seen l.
Proof.
  revert seen. induction l as [|h l IH]; intros seen; [split_and!; [constructor|set_solver|set_solver]|].
  cbn [unique_texts]. case_bool_decide as Hin.
  - destruct (IH seen) as (Hn & Hs & Hc). split_and!; [done| |].
    + intros x Hx. destruct (Hs x Hx). split; [by right|done].
    + intros x [->|Hx]%elem_of_cons; [by left|by apply Hc].
  - destruct (IH ({[Headline.text h]} ∪ seen)) as (Hn & Hs & Hc). split_and!.
    + rewrite fmap_cons. constructor; [|done]. intros (x & Hx & Hin')%list_elem_of_fmap.
      destruct (Hs x Hin') as [_ Hns]. apply Hns. rewrite <- Hx. set_solver.
    + intros x [->|Hx]%elem_of_cons; [by split; [left|]|]. destruct (Hs x Hx). split; [by right|set_solver].
    + rewrite fmap_cons. intros x [->|Hx]%elem_of_cons; [right; by left|].
      destruct (Hc x Hx) as [Ht|Ht]; [|right; by right].
      apply elem_of_union in Ht as [->%elem_of_singleton|?]; [right; by left|by left].
Qed.

Lemma unique_texts_sublist seen l : unique_texts seen l `sublist_of` l.
Proof.
  revert seen. induction l as [|h l IH]; intros seen; [constructor|]. cbn [unique_texts].
  case_bool_decide; by constructor.
Qed.

Definition young (cutoff : Z) (h : Headline.t) : Prop := cutoff <= Headline.published_at h.

Lemma entry_headline_young now cutoff source exchange e h :
  entry_headline now cutoff source exchange e = Some h -> young cutoff h.
Proof.
  unfold entry_headline. destruct (is_empty _); [done|].
  destruct (Z.ltb_spec (default now (parse_entry_time e)) cutoff); [done|].
  unfold Headline.make. destruct (String.eqb _ _); [done|].
  destruct exchange as [x|]; [destruct (bool_decide _); [|done]|]; by intros [= <-].
Qed.

Lemma fetch_rss_young now url source exchange age w hs w' :
  fetch_rss_headlines now url source exchange age w = (Ok hs, w') -> Forall (young (cutoff_utc now age)) hs.
Proof.
  unfold fetch_rss_headlines, mbind, M_bind. destruct (fetch_feed_raw url w) as [[entries|e] w1]; [|done].
  intros [= <- _]. apply Forall_forall. intros h Hh. apply list_elem_of_omap in Hh as (e & _ & He).
  by eapply entry_headline_young.
Qed.

Lemma fetch_map_young now exchange age feeds w hs w' :
  fetch_feed_map now exchange age feeds w = (Ok hs, w') -> Forall (young (cutoff_utc now age)) hs.
Proof.
  revert w hs w'. induction feeds as [|[source url] feeds IH]; intros w hs w'; [by intros [= <- _]|].
  cbn [fetch_feed_map]. unfold mbind, M_bind.
  destruct (fetch_rss_headlines now url source (Some exchange) age w) as [[hs1|e] w1] eqn:E1; [|done].
  destruct (fetch_feed_map now exchange age feeds w1) as [[rest|e] w2] eqn:E2; [|done].
  intros [= <- _]. apply Forall_app. split; [by eapply fetch_rss_young|by eapply IH].
Qed.

(** Whatever the feeds contain, the headlines of a run are at most 100,
    newest first, without two of the same text, and none older than the
    maximal age, by the times the code reads. *)
Theorem headlines_fresh_and_unique now exchange age w hs w' :
  fetch_all_feeds now exchange age w = (Ok hs, w') ->
  (Z.of_nat (length hs) <= SENTIMENT_MAX_HEADLINES_PER_RUN)
  /\ NoDup (Headline.text <$> hs)
  /\ StronglySorted (fun x y => Headline.published_at y <= Headline.published_at x) hs
  /\ Forall (young (cutoff_utc now age)) hs.
Proof.
  unfold fetch_all_feeds. destruct (_ && _).
  { intros [= <- _]. split_and!; [by vm_compute|constructor..]. }
  unfold mbind, M_bind.
  destruct (fetch_feed_map _ _ _ _ w) as [[all|e] w1] eqn:Hall; [|done].
  set (ann := if String.eqb (str_upper exchange) "NSE" then fetch_nse_announcements now age else mret []).
  destruct (ann w1) as [[announcements|e] w2] eqn:Hann; [|done]. intros [= <- _].
  assert (Hy : Forall (young (cutoff_utc now age)) (all ++ announcements)).
  { apply Forall_app. split; [by eapply fetch_map_young|]. unfold ann in Hann.
    destruct (String.eqb _ _); [by eapply fetch_rss_young|]. by injection Hann as <-. }
  set (sorted := py_sorted newer (all ++ announcements)).
  assert (Hs : StronglySorted (fun x y => Headline.published_at y <= Headline.published_at x) sorted).
  { apply (py_sorted_ordered (fun _ => True)); [| | |by apply Forall_true].
    - unfold newer. intros x y _ _ Hlt. apply Z.ltb_lt in Hlt. cbn. lia.
    - unfold newer. intros x y _ _ Hge. apply Z.ltb_ge in Hge. cbn. lia.
    - intros x y z _ _ _ Hxy Hyz. cbn in *. lia. }
  assert (Hys : Forall (young (cutoff_utc now age)) sorted) by (unfold sorted; by rewrite py_sorted_perm).
  pose proof (unique_texts_spec ∅ sorted) as (Hn & _ & _).
  assert (Hsub : take 100 (unique_texts ∅ sorted) `sublist_of` sorted).
  { etrans; [apply sublist_take|apply unique_texts_sublist]. }
  change (slice_to SENTIMENT_MAX_HEADLINES_PER_RUN (unique_texts ∅ sorted)) with (take 100 (unique_texts ∅ sorted)).
  split_and!.
  - rewrite length_take. unfold SENTIMENT_MAX_HEADLINES_PER_RUN. lia.
  - rewrite <- (take_drop 100 (unique_texts ∅ sorted)), fmap_app in Hn. by apply NoDup_app in Hn as (? & _ & _).
  - by eapply sublist_sorted.
  - by eapply sublist_forall.
Qed.
End FeedFacts.

(** ** Defects *)

(** [published_parsed] is in UTC and [time.mktime] subtracts the local offset:
    on a server in India a headline of 19 hours ago is dropped as older than
    24 hours. *)
Example local_offset_shifts_headlines :
  entry_headline (H0 := {| feed_entries _ := []; utc_offset := 19800 |})
    (100 * HOUR) (cutoff_utc (100 * HOUR) 24) "moneycontrol" (Some "NSE")
    (Entry.mk "Rates held" None (Some (81 * 3600)) None) = None
  /\ entry_headline (H0 := {| feed_entries _ := []; utc_offset := 0 |})
    (100 * HOUR) (cutoff_utc (100 * HOUR) 24) "moneycontrol" (Some "NSE")
    (Entry.mk "Rates held" None (Some (81 * 3600)) None)
    = Some (Headline.mk "Rates held" None "moneycontrol" (81 * HOUR) (Some "NSE")).
Proof. split; vm_compute; reflexivity. Qed.

(** A JSON index with the text [nan] is a VIX: [float] reads it, and the
    check that the value is positive compares it with [<=]. *)
Example nan_vix_accepted (now : Z) :
  find_vix [JObj [("indexName", JStr "India VIX"); ("last", JStr "nan")]] = Some S754_nan
  /\ VIXData.make S754_nan None now = Ok (VIXData.mk S754_nan None now).
Proof. split; vm_compute; reflexivity. Qed.

(** ** Witness *)

#[local] Instance sample_web : UrlOpen unit := {
  urlopen url _ _ w := (Ok ("", url), w);
}.

#[local] Instance sample_parser : FeedParser := {
  feed_entries data :=
    if String.eqb data NSE_ANNOUNCEMENT_URL then
      [Entry.mk "Results" None (Some (90 * 3600)) None; Entry.mk "Old" None (Some (10 * 3600)) None]
    else [Entry.mk " Rates held " None (Some (81 * 3600)) None; Entry.mk "" None None None];
  utc_offset := 0;
}.

Definition sample_headlines : list Headline.t :=
  [Headline.mk "Results" None "nse_announcements" (90 * HOUR) (Some "NSE");
   Headline.mk "Rates held" None "economic_times" (81 * HOUR) (Some "NSE")].

Lemma headlines_fresh_and_unique_witness :
  fetch_all_feeds (100 * HOUR) "nse" 24 tt = (Ok sample_headlines, tt)
  /\ NoDup (Headline.text <$> sample_headlines).
Proof.
  assert (Hf : fetch_all_feeds (100 * HOUR) "nse" 24 tt = (Ok sample_headlines, tt)) by (vm_compute; reflexivity).
  split; [done|]. apply (headlines_fresh_and_unique (100 * HOUR) "nse" 24 tt sample_headlines tt Hf).
Defined.
