(* ===== verification/Sentiment.v ===== *)
(** * Sentiment scoring ([shared/sentiment/scorer.py], [cache.py], [cost_tracker.py], [agent.py])

    The LLM, the embedding model and the vector functions of NumPy are
    parameters.  The cost tracker and the cache live on the world [W], which
    holds the Redis server, the network and the LLM.  Payloads of Redis lists
    are JSON at the level of values. *)

From Stdlib Require Import SpecFloat.
From S2P Require Import Prelude PyFloat PyDict Json PyText Redis Constants MarketData PyDate Web NewsFeeds.
Local Open Scope Z_scope.

(** ** Interfaces *)

(** The part of LiteLLM's [ModelResponse] that the scorer reads: the
    [total_tokens] of the usage, if any, and the contents of the choices. *)
Module ModelResponse.
Record t := mk {
  usage : option json;
  choices : list (option string);
}.
End ModelResponse.

(** [litellm.completion(model=..., messages=[system, user], temperature=0.0,
    max_tokens=..., api_key=...)], given the user message. *)
Class Litellm (W : Type) := {
  completion : string -> string -> Z -> option string -> M W ModelResponse.t;
}.

(** Redis commands of the counter and of the expiry. *)
Class RedisCounter (R : Type) := {
  redis_incrbyfloat : string -> float -> M R unit;
  redis_expire : string -> Z -> M R unit;
}.

Class EmbeddingModel (W : Type) := {
  embed : string -> M W (list float);
}.

(** [np.array(l, dtype=np.float32)] of a JSON list, [np.linalg.norm],
    [np.dot], and the division of a [np.float32] by a float. *)
Class NumPyVectors := {
  np_array32 : list json -> result (list float);
  np_norm : list float -> float;
  np_dot : list float -> list float -> float;
  np_div32 : float -> float -> float;
}.

(** ** Cost tracker ([cost_tracker.py]) *)

Definition COST_TABLE : dict string (float * float) :=
  [("groq/llama-3.1-8b-instant", (SENTIMENT_GROQ_COST_PER_1M_INPUT_USD, SENTIMENT_GROQ_COST_PER_1M_OUTPUT_USD));
   ("groq/llama-3.3-70b-versatile", (dec 27 2, dec 27 2));
   ("claude-sonnet-4-6", (dec 300 2, dec 1500 2));
   ("claude-haiku-4-5-20251001", (dec 25 2, dec 125 2))].
Definition DEFAULT_COST_PER_1M : float * float :=
  (SENTIMENT_GROQ_COST_PER_1M_INPUT_USD, SENTIMENT_GROQ_COST_PER_1M_OUTPUT_USD).
Definition COST_REDIS_TTL_SECONDS : Z := 90000.

(** The date is the number of days since the epoch. *)
Definition cost_redis_key (today : Z) : string :=
  SENTIMENT_COST_REDIS_KEY_PREFIX +:+ ":" +:+ strftime_ymd today.

Definition compute_cost (model : string) (input_tokens output_tokens : Z) : result float :=
  let '(cost_in, cost_out) := default DEFAULT_COST_PER_1M (dget model COST_TABLE) in
  i ← float_of_int input_tokens;
  o ← float_of_int output_tokens;
  mret (fdiv (i * cost_in + o * cost_out)%pf (dec 1000000 0)).

(** [ct_redis] says whether the tracker was given a client. *)
Record CostTracker := { ct_redis : bool; ct_session_total : float }.

Definition new_cost_tracker (redis_client : bool) : CostTracker :=
  {| ct_redis := redis_client; ct_session_total := f_zero |}.

Section CostTracker.
Context {W : Type} `{RedisKV W} `{RedisCounter W}.

Definition on_world {S A} (m : M W A) : M (S * W) A := M_zoom snd (fun w sw => (sw.1, w)) m.

Definition add_session_total (cost : float) (sw : CostTracker * W) : CostTracker * W :=
  ({| ct_redis := ct_redis sw.1; ct_session_total := (ct_session_total sw.1 + cost)%pf |}, sw.2).

(** [today] is the UTC date, read once per call. *)
Definition get_daily_total_usd (today : Z) : M (CostTracker * W) float :=
  '(s, _) ← M_get;
  if negb (ct_redis s) then mret (ct_session_total s)
  else
    raw ← on_world (redis_get (cost_redis_key today));
    mret (match raw with
          | None => f_zero
          | Some v => match py_float v with Ok x => x | Raise _ => ct_session_total s end
          end).

(** The comparison of the daily total with the budget only logs. *)
Definition record_cost (today : Z) (model : string) (input_tokens output_tokens : Z) : M (CostTracker * W) float :=
  cost ← M_lift (compute_cost model input_tokens output_tokens);
  _ ← M_modify (add_session_total cost);
  '(s, _) ← M_get;
  _ ← (if ct_redis s then
         _ ← on_world (redis_incrbyfloat (cost_redis_key today) cost);
         on_world (redis_expire (cost_redis_key today) COST_REDIS_TTL_SECONDS)
       else mret tt);
  _ ← get_daily_total_usd today;
  mret cost.

Definition reset_daily (today : Z) : M (CostTracker * W) unit :=
  '(s, _) ← M_get;
  _ ← (if ct_redis s then on_world (redis_delete (cost_redis_key today)) else mret tt);
  M_modify (fun sw => ({| ct_redis := ct_redis sw.1; ct_session_total := f_zero |}, sw.2)).
End CostTracker.

(** ** Scorer ([scorer.py]) *)

Definition clamp (value lo hi : float) : float := pymax lo (pymin hi value).

(** [re.sub(r"```(?:json)?\s*", "", content)]: each match is at least three
    characters long, so the length of the text is enough fuel. *)
Fixpoint strip_fences (fuel : nat) (s : string) : string :=
  match fuel, s with
  | O, _ => s
  | _, EmptyString => ""
  | S fuel, String c r =>
      match strip_prefix "```" s with
      | Some r => strip_fences fuel (str_lstrip (default r (strip_prefix "json" r)))
      | None => String c (strip_fences fuel r)
      end
  end.

Definition remove_fences (content : string) : string := strip_fences (String.length content) content.

Definition fallback_score (model_version : string) (from_cache : bool) (i : nat) : SentimentScore.t :=
  SentimentScore.mk ("headline_" +:+ pretty (Z.of_nat i)) f_zero "NEUTRAL" f_zero 0 from_cache model_version.

Definition valid_labels : list string := ["BULLISH"; "BEARISH"; "NEUTRAL"].

(** The body of the [try] for one item that is a dict. *)
Definition parse_item (item : dict string json) (i : nat) (from_cache : bool) (model_version : string)
    : result SentimentScore.t :=
  raw_score ← json_text_float (get_or "score" (JFloat f_zero) item);
  let raw_label := str_strip (str_upper (py_str (get_or "label" (JStr "NEUTRAL") item))) in
  raw_conf ← json_text_float (get_or "confidence" (JFloat (dec 5 1)) item);
  let label := if bool_decide (raw_label ∈ valid_labels) then raw_label else "NEUTRAL" in
  SentimentScore.make ("headline_" +:+ pretty (Z.of_nat i)) (clamp raw_score (dec (-10) 1) (dec 10 1)) label
    (clamp raw_conf f_zero (dec 10 1)) 0 from_cache model_version.

Definition score_item (from_cache : bool) (model_version : string) (i : nat) (item : json)
    : result SentimentScore.t :=
  match item with
  | JObj fields =>
      match parse_item fields i from_cache model_version with
      | Ok s => Ok s
      | Raise (ValueError _) | Raise (TypeError _) => Ok (fallback_score model_version from_cache i)
      | Raise e => Raise e
      end
  | _ => Ok (fallback_score model_version from_cache i)
  end.

(** [results_raw], unless the document has another shape. *)
Definition results_of (data : json) : option (list json) :=
  match data with
  | JObj fields => match get_or "results" (JList []) fields with JList l => Some l | _ => None end
  | JList l => Some l
  | _ => None
  end.

Fixpoint score_items (from_cache : bool) (model_version : string) (i : nat) (items : list json)
    : result (list SentimentScore.t) :=
  match items with
  | [] => mret []
  | item :: items =>
      s ← score_item from_cache model_version i item;
      rest ← score_items from_cache model_version (S i) items;
      mret (s :: rest)
  end.

Definition parse_llm_response (content : string) (n_headlines : nat) (model_version : string) (from_cache : bool)
    : result (list SentimentScore.t) :=
  let fallback := map (fallback_score model_version from_cache) (seq 0 n_headlines) in
  match json_loads (str_strip (remove_fences content)) with
  | Raise _ => mret fallback
  | Ok data =>
      match results_of data with
      | None => mret fallback
      | Some results_raw =>
          scores ← score_items from_cache model_version 0 (take n_headlines results_raw);
          mret (scores ++ drop (length scores) fallback)
      end
  end.

Definition neutral : float * string * float := (f_zero, "NEUTRAL", f_zero).

(** [int(getattr(usage, "total_tokens", 0)) if usage else 0] and the content of
    the first choice. *)
Definition read_response (raw : ModelResponse.t) : result (Z * string) :=
  tokens ← match ModelResponse.usage raw with Some v => json_to_int v | None => mret 0 end;
  mret (tokens, match ModelResponse.choices raw with Some content :: _ => content | _ => "" end).

Definition NEWLINE : string := String "010"%char "".

Definition numbered (headlines : list string) : string :=
  str_join NEWLINE (imap (fun i h => pretty (Z.of_nat i + 1) +:+ ". " +:+ h) headlines).

(** The triple of a score: what [_call_llm] returns for a headline. *)
Definition triple (s : SentimentScore.t) : float * string * float :=
  (SentimentScore.score s, SentimentScore.label s, SentimentScore.confidence s).

Section Scorer.
Context {W : Type} `{Litellm W}.

Definition call_llm (headlines : list string) (model : string) (api_key : option string)
    : M W (list (float * string * float) * Z) :=
  raw ← M_catch (completion model ("Score these headlines:" +:+ NEWLINE +:+ numbered headlines)
                   (Z.of_nat (length headlines) * 40) api_key);
  match raw with
  | Raise _ => mret (repeat neutral (length headlines), 0)
  | Ok raw =>
      match read_response raw with
      | Ok (tokens, content) =>
          parsed ← M_lift (parse_llm_response content (length headlines) model false);
          mret (map triple parsed, tokens)
      | Raise (TypeError _) | Raise (AttributeError _) | Raise IndexError =>
          mret (repeat neutral (length headlines), 0)
      | Raise e => M_raise e
      end
  end.

(** [SentimentScore(headline=batch[i], ...)] for each raw result. *)
Fixpoint batch_scores (batch : list string) (model : string) (tokens : Z) (i : nat)
    (raw : list (float * string * float)) : result (list SentimentScore.t) :=
  match raw with
  | [] => mret []
  | (score_val, label, confidence) :: raw =>
      h ← py_index batch (Z.of_nat i);
      s ← SentimentScore.make h score_val label confidence tokens false model;
      rest ← batch_scores batch model tokens (S i) raw;
      mret (s :: rest)
  end.

Definition score_batch (model : string) (api_key : option string) (batch : list string)
    : M W (list SentimentScore.t * Z) :=
  '(raw_results, batch_tokens) ← call_llm batch model api_key;
  let tokens_per_headline := if 0 <? batch_tokens then batch_tokens / Z.of_nat (length batch) else 0 in
  scores ← M_lift (batch_scores batch model tokens_per_headline 0 raw_results);
  mret (scores, batch_tokens).

(** [headlines[start : start + n]] for [start] in [range(0, len(headlines), n)]. *)
Fixpoint batches {A} (fuel n : nat) (l : list A) : list (list A) :=
  match fuel, l with
  | S fuel, _ :: _ => take n l :: batches fuel n (drop n l)
  | _, _ => []
  end.

Definition add_batch (model : string) (api_key : option string) (acc : list SentimentScore.t * Z) (batch : list string)
    : M W (list SentimentScore.t * Z) :=
  '(scores, batch_tokens) ← score_batch model api_key batch;
  mret (acc.1 ++ scores, acc.2 + batch_tokens).

Definition score_headlines_batch (headlines : list string) (model : string) (api_key : option string)
    : M W (list SentimentScore.t * Z) :=
  M_fold (add_batch model api_key) ([], 0)
    (batches (length headlines) SENTIMENT_BATCH_MAX_HEADLINES headlines).
End Scorer.

(** ** Semantic cache ([cache.py]) *)

Definition score_to_dict (s : SentimentScore.t) : dict string json :=
  [("headline", JStr (SentimentScore.headline s)); ("score", JFloat (SentimentScore.score s));
   ("label", JStr (SentimentScore.label s)); ("confidence", JFloat (SentimentScore.confidence s));
   ("tokens_used", JInt (SentimentScore.tokens_used s)); ("model_version", JStr (SentimentScore.model_version s))].

Definition dict_to_score (d : dict string json) (from_cache : bool) : result SentimentScore.t :=
  let field key := jfield key (JObj d) in
  headline ← field "headline";
  score ← field "score" ≫= json_text_float;
  label ← field "label";
  confidence ← field "confidence" ≫= json_text_float;
  tokens_used ← (if from_cache then mret 0 else field "tokens_used" ≫= (fun v => py_int (py_str v)));
  model_version ← field "model_version";
  SentimentScore.make (py_str headline) score (py_str label) confidence tokens_used from_cache (py_str model_version).

(** The namespace of a model. *)
Definition cache_key (model_version : string) : string :=
  SENTIMENT_CACHE_REDIS_KEY_PREFIX +:+ ":" +:+ model_version.

Section Cache.
Context `{NumPyVectors}.

Definition cosine_similarity (a b : list float) : float :=
  let norm_a := np_norm a in
  let norm_b := np_norm b in
  if (norm_a =? f_zero)%pf || (norm_b =? f_zero)%pf then f_zero
  else np_div32 (np_dot a b) (norm_a * norm_b)%pf.

(** The similarity of an entry to the query, when their vectors compare. *)
Definition entry_similarity (query_emb : list float) (entry : dict string json) : result (option float) :=
  match dget "embedding" entry with
  | Some (JList l) =>
      stored_emb ← np_array32 l;
      mret (if bool_decide (length stored_emb = length query_emb)
            then Some (cosine_similarity query_emb stored_emb) else None)
  | _ => mret None
  end.

Definition best_step (query_emb : list float) (best : float * option (dict string json)) (entry : dict string json)
    : result (float * option (dict string json)) :=
  sim ← entry_similarity query_emb entry;
  mret (match sim with
        | Some sim => if (best.1 <? sim)%pf then (sim, Some entry) else best
        | None => best
        end).

Context {W : Type} `{RedisList W} `{RedisCounter W} `{RedisKV W} `{EmbeddingModel W}.

Definition load_entries (model_version : string) : M W (list (dict string json)) :=
  raw_list ← redis_lrange (cache_key model_version) 0 (-1);
  mret (omap (fun raw => match raw with JObj entry => Some entry | _ => None end) raw_list).

Definition cache_get (model_version headline : string) : M W (option SentimentScore.t) :=
  raw_entries ← load_entries model_version;
  match raw_entries with
  | [] => mret None
  | _ =>
      query_emb ← embed headline;
      '(best_sim, best_entry) ← M_lift (for_each (best_step query_emb) (f_zero, None) raw_entries);
      match best_entry with
      | Some entry =>
          if (GPTCACHE_SIMILARITY_THRESHOLD <=? best_sim)%pf then
            s ← M_lift (dict_to_score (ddel "embedding" entry) true);
            mret (Some s)
          else mret None
      | None => mret None
      end
  end.

Definition cache_entry (score : SentimentScore.t) (emb : list float) : dict string json :=
  score_to_dict score ++ [("embedding", JList (JFloat <$> emb))].

(** An unexpected dimension only logs. *)
Definition cache_put (model_version headline : string) (score : SentimentScore.t) : M W unit :=
  emb ← embed headline;
  _ ← redis_rpush (cache_key model_version) (JObj (cache_entry score emb));
  redis_expire (cache_key model_version) SENTIMENT_CACHE_REDIS_TTL_SECONDS.

Definition cache_clear (model_version : string) : M W unit := redis_delete (cache_key model_version).
Definition cache_size (model_version : string) : M W Z := redis_llen (cache_key model_version).
End Cache.

(** ** Agent ([agent.py]) *)

(** One score of [_compute_aggregate_score]'s loop. *)
Definition weigh (acc : float * float) (s : SentimentScore.t) : float * float :=
  if (f_zero <? SentimentScore.confidence s)%pf then
    ((acc.1 + SentimentScore.score s * SentimentScore.confidence s)%pf,
     (acc.2 + SentimentScore.confidence s)%pf)
  else acc.

Definition compute_aggregate_score (scores : list SentimentScore.t) : float :=
  let '(weighted_sum, total_weight) := foldl weigh (f_zero, f_zero) scores in
  if (f_zero <? total_weight)%pf then fdiv weighted_sum total_weight else f_zero.

(** [redis_client is not None] gives both the persistent counter and the cache. *)
Record SentimentAgent := {
  sa_model : string;
  sa_api_key : option string;
  sa_redis : bool;
}.

Definition custom_exchange (exchange : string) : option string :=
  if bool_decide (str_upper exchange ∈ ["NSE"; "ASX"]) then Some (str_upper exchange) else None.

Fixpoint custom_headlines_of (now : Z) (exchange : string) (texts : list string) : result (list Headline.t) :=
  match texts with
  | [] => mret []
  | h :: texts =>
      x ← Headline.make h None "custom" now (custom_exchange exchange);
      rest ← custom_headlines_of now exchange texts;
      mret (x :: rest)
  end.

Section Agent.
Context {W : Type} `{UrlOpen W} `{FeedParser} `{Litellm W} `{NumPyVectors}
  `{RedisList W} `{RedisCounter W} `{RedisKV W} `{EmbeddingModel W}.
Variable self : SentimentAgent.

#[local] Abbreviation St := (CostTracker * W)%type.

Definition fetch_headlines (now : Z) (exchange : string) (custom : option (list string)) : M St (list Headline.t) :=
  match custom with
  | Some texts => M_lift (custom_headlines_of now exchange texts)
  | None => M_try (on_world (fetch_all_feeds now exchange SENTIMENT_MAX_FEED_AGE_HOURS)) (fun _ => mret [])
  end.

(** The loop over the headlines: a cached score, or [None] as a placeholder. *)
Fixpoint lookup_cached (headlines : list Headline.t) : M St (list (option SentimentScore.t)) :=
  match headlines with
  | [] => mret []
  | h :: headlines =>
      cached ← (if sa_redis self then on_world (cache_get (sa_model self) (Headline.text h)) else mret None);
      rest ← lookup_cached headlines;
      mret (cached :: rest)
  end.

(** The positions of the placeholders. *)
Fixpoint to_score_indices (i : nat) (scores : list (option SentimentScore.t)) : list nat :=
  match scores with
  | [] => []
  | Some _ :: scores => to_score_indices (S i) scores
  | None :: scores => i :: to_score_indices (S i) scores
  end.

Definition text_at (headlines : list Headline.t) (i : nat) : string :=
  match headlines !! i with Some h => Headline.text h | None => "" end.

(** [scores[original_idx] = new_score], and the cache. *)
Definition fill (headlines : list Headline.t) (scores : list (option SentimentScore.t))
    (p : nat * SentimentScore.t) : M St (list (option SentimentScore.t)) :=
  _ ← (if sa_redis self then on_world (cache_put (sa_model self) (text_at headlines p.1) p.2) else mret tt);
  mret (<[p.1 := Some p.2]> scores).

Definition INPUT_SHARE : float := dec 8 1.

(** The cost of the LLM calls is recorded with 80 % of the tokens as input. *)
Definition score_misses (today : Z) (headlines : list Headline.t) (scores : list (option SentimentScore.t))
    : M St (list (option SentimentScore.t) * Z) :=
  let indices := to_score_indices 0 scores in
  match indices with
  | [] => mret (scores, 0)
  | _ =>
      '(new_scores, total_tokens) ←
        on_world (score_headlines_batch (map (text_at headlines) indices) (sa_model self) (sa_api_key self));
      input_toks ← M_lift (x ← float_of_int total_tokens; int_of_float (x * INPUT_SHARE)%pf);
      _ ← record_cost today (sa_model self) input_toks (total_tokens - input_toks);
      scores ← M_fold (fill headlines) scores (zip indices new_scores);
      mret (scores, total_tokens)
  end.

Definition blended_rate : float :=
  (SENTIMENT_GROQ_COST_PER_1M_INPUT_USD * dec 8 1 + SENTIMENT_GROQ_COST_PER_1M_OUTPUT_USD * dec 2 1)%pf.

Definition call_cost (total_tokens : Z) : result float :=
  x ← float_of_int total_tokens;
  mret (fdiv (x * blended_rate)%pf (dec 1000000 0)).

(** Indian market indicators, each failing open. *)
Definition fetch_indicators (now today : Z) (exchange : string) (custom : option (list string))
    : M St (option VIXData.t * option FIIDIIData.t) :=
  if String.eqb (str_upper exchange) "NSE" && negb (bool_decide (is_Some custom)) then
    vix_data ← M_try (on_world (fetch_india_vix now)) (fun _ => mret None);
    fii_dii ← M_try (on_world (fetch_fii_dii now today)) (fun _ => mret None);
    mret (vix_data, fii_dii)
  else mret (None, None).

(** [SentimentAgent.run]; [now] is the clock and [today] its UTC date. *)
Definition run (now today : Z) (exchange : string) (custom : option (list string)) : M St MarketSentiment.t :=
  headlines ← fetch_headlines now exchange custom;
  match headlines with
  | [] => mret (MarketSentiment.empty exchange now)
  | _ =>
      cached ← lookup_cached headlines;
      let cache_misses := Z.of_nat (length (to_score_indices 0 cached)) in
      let cache_hits := Z.of_nat (length headlines) - cache_misses in
      '(scores, total_tokens) ← score_misses today headlines cached;
      cost ← M_lift (call_cost total_tokens);
      '(vix_data, fii_dii) ← fetch_indicators now today exchange custom;
      let final_scores := omap id scores in
      mret (MarketSentiment.mk (str_upper exchange) headlines final_scores (compute_aggregate_score final_scores)
              fii_dii vix_data total_tokens cost cache_hits cache_misses now)
  end.
End Agent.

(** ** The scorer always answers *)

(** Ranges that [SentimentScore] demands. *)
Definition in_range (t : float * string * float) : Prop :=
  fle (dec (-10) 1) t.1.1 = true /\ fle t.1.1 (dec 10 1) = true /\ t.1.2 ∈ valid_labels
  /\ fle f_zero t.2 = true /\ fle t.2 (dec 10 1) = true.

Lemma make_in_range h x l c n b m : in_range (x, l, c) -> 0 <= n ->
  SentimentScore.make h x l c n b m = Ok (SentimentScore.mk h x l c n b m).
Proof.
  intros (H1 & H2 & H3 & H4 & H5) Hn. cbn [fst snd] in *. unfold SentimentScore.make.
  rewrite H1, H2, H4, H5, (bool_decide_true _ H3). cbn. by destruct (Z.ltb_spec n 0); [lia|].
Qed.

Lemma make_ok_in_range h x l c n b m s : SentimentScore.make h x l c n b m = Ok s ->
  s = SentimentScore.mk h x l c n b m /\ in_range (triple s) /\ 0 <= n.
Proof.
  unfold SentimentScore.make.
  destruct (_ <=? x)%pf eqn:E1; [|done]. destruct (x <=? _)%pf eqn:E2; [|done]. cbn [andb negb].
  case_bool_decide as E3; [|done]. cbn [negb].
  destruct (_ <=? c)%pf eqn:E4; [|done]. destruct (c <=? _)%pf eqn:E5; [|done]. cbn [andb negb].
  destruct (Z.ltb_spec n 0); [done|]. intros [= <-]. by split_and!.
Qed.

Lemma neutral_in_range : in_range neutral.
Proof. split_and!; try done. unfold valid_labels. set_solver. Qed.

Lemma clamped_in_range x l c : l ∈ valid_labels ->
  in_range (clamp x (dec (-10) 1) (dec 10 1), l, clamp c f_zero (dec 10 1)).
Proof.
  intros Hl. unfold clamp. destruct (clamp_bounds (dec (-10) 1) (dec 10 1) x) as [? ?]; [done|].
  destruct (clamp_bounds f_zero (dec 10 1) c) as [? ?]; [done|]. by split_and!.
Qed.

Lemma py_float_raises s e : py_float s = Raise e -> exists msg, e = ValueError msg.
Proof.
  unfold py_float, not_a_float. destruct (read_sign _) as [neg t]. destruct (_ || _); [done|].
  destruct (String.eqb _ "nan"); [done|]. destruct (span _ t) as [ip r].
  destruct (match r with EmptyString => _ | String _ _ => _ end) as [fp r'].
  destruct (_ && _); [intros [= <-]; eauto|]. destruct r' as [|c r']; [done|].
  destruct (Ascii.eqb _ _); [|intros [= <-]; eauto].
  destruct (read_sign r') as [eneg r'']. destruct (span _ r'') as [ed r3].
  destruct (_ || _); [intros [= <-]; eauto|done].
Qed.

Lemma score_item_ok from_cache model i item :
  exists s, score_item from_cache model i item = Ok s /\ in_range (triple s).
Proof.
  assert (Hf : in_range (triple (fallback_score model from_cache i))) by apply neutral_in_range.
  unfold score_item. destruct item as [| | | | |l|fields]; try (by eexists).
  unfold parse_item, json_text_float.
  destruct (py_float (py_str (get_or "score" _ fields))) as [x|e] eqn:Ex;
    [|apply py_float_raises in Ex as [msg ->]; cbn; by eexists].
  rewrite bind_ok. destruct (py_float (py_str (get_or "confidence" _ fields))) as [c|e] eqn:Ec;
    [|apply py_float_raises in Ec as [msg ->]; cbn; by eexists].
  rewrite bind_ok. set (lab := str_strip _).
  assert (Hr : in_range (clamp x (dec (-10) 1) (dec 10 1),
    (if bool_decide (lab ∈ valid_labels) then lab else "NEUTRAL"), clamp c f_zero (dec 10 1))).
  { apply clamped_in_range. case_bool_decide; [done|]. unfold valid_labels. set_solver. }
  rewrite make_in_range by (done || lia). by eexists.
Qed.

Lemma score_items_ok from_cache model i items : exists l,
  score_items from_cache model i items = Ok l /\ length l = length items /\ Forall (in_range ∘ triple) l.
Proof.
  revert i. induction items as [|item items IH]; intros i; [by exists []|]. cbn [score_items].
  destruct (score_item_ok from_cache model i item) as (s & -> & Hs).
  destruct (IH (S i)) as (l & Hl & Hn & Hf). rewrite bind_ok, Hl, bind_ok.
  exists (s :: l). split_and!; [done|cbn; lia|by constructor].
Qed.

(** Whatever the LLM wrote, the parser returns one score in range per headline. *)
Lemma parse_llm_response_ok content n model from_cache : exists l,
  parse_llm_response content n model from_cache = Ok l /\ length l = n /\ Forall (in_range ∘ triple) l.
Proof.
  set (fallback := map (fallback_score model from_cache) (seq 0 n)).
  assert (Hlen : length fallback = n) by (unfold fallback; by rewrite length_map, length_seq).
  assert (Hfall : Forall (in_range ∘ triple) fallback).
  { apply Forall_forall. intros s Hs. apply list_elem_of_In, in_map_iff in Hs as (i & <- & _).
    apply neutral_in_range. }
  unfold parse_llm_response. fold fallback. destruct (json_loads _) as [data|e]; [|by exists fallback].
  destruct (results_of data) as [results|]; [|by exists fallback].
  destruct (score_items_ok from_cache model 0 (take n results)) as (l & -> & Hn & Hl). rewrite bind_ok.
  rewrite length_take in Hn. eexists. split_and!; [done| |].
  - rewrite length_app, length_drop. lia.
  - apply Forall_app. split; [done|by apply Forall_drop].
Qed.

Section ScorerFacts.
Context {W : Type} `{Litellm W}.

(** What LiteLLM documents of its responses: the token count, when there is
    one, is an integer. *)
Definition tokens_are_int : Prop := forall model msg n key (w w' : W) raw v,
  completion model msg n key w = (Ok raw, w') -> ModelResponse.usage raw = Some v -> exists z, json_to_int v = Ok z.

Lemma call_llm_ok headlines model key (w : W) : tokens_are_int ->
  exists raw tokens w', call_llm headlines model key w = (Ok (raw, tokens), w')
    /\ length raw = length headlines /\ Forall in_range raw.
Proof.
  intros Hint. unfold call_llm. unfold mbind at 1, M_bind at 1, M_catch.
  set (msg := "Score these headlines:" +:+ _).
  destruct (completion model msg _ key w) as [[raw|e] w'] eqn:Hc.
  2: { eexists _, _, _. split_and!; [done|by rewrite repeat_length|].
       apply Forall_forall. intros t Ht. apply list_elem_of_In, repeat_spec in Ht as ->. apply neutral_in_range. }
  assert (Hr : exists tokens content, read_response raw = Ok (tokens, content)).
  { unfold read_response. destruct (ModelResponse.usage raw) as [v|] eqn:Hu; [|by eexists _, _].
    destruct (Hint _ _ _ _ _ _ _ _ Hc Hu) as [z ->]. by eexists _, _. }
  destruct Hr as (tokens & content & ->).
  destruct (parse_llm_response_ok content (length headlines) model false) as (l & Hl & Hn & Hf).
  M_unfold. rewrite Hl. eexists _, _, _. split_and!; [done|by rewrite length_map|].
  rewrite Forall_map. done.
Qed.

Lemma batch_scores_ok batch model tokens i raw :
  (i + length raw <= length batch)%nat -> 0 <= tokens -> Forall in_range raw ->
  exists scores, batch_scores batch model tokens i raw = Ok scores
    /\ SentimentScore.headline <$> scores = take (length raw) (drop i batch)
    /\ triple <$> scores = raw.
Proof.
  revert i. induction raw as [|[[x l] c] raw IH]; intros i Hlen Ht Hf; [by exists []|].
  apply Forall_cons in Hf as [Hx Hf]. cbn [batch_scores length] in *.
  destruct (lookup_lt_is_Some_2 batch i) as [h Hh]; [lia|].
  rewrite (py_index_lookup _ _ _ Hh), bind_ok, make_in_range, bind_ok by done.
  destruct (IH (S i)) as (scores & -> & Hs & Htr); [lia|done|done|]. rewrite bind_ok.
  eexists. split_and!; [done| |by rewrite fmap_cons, Htr].
  rewrite fmap_cons, Hs, (drop_S _ _ _ Hh). done.
Qed.

Lemma score_batch_ok model key batch (w : W) : tokens_are_int ->
  exists scores tokens w', score_batch model key batch w = (Ok (scores, tokens), w')
    /\ SentimentScore.headline <$> scores = batch /\ Forall (in_range ∘ triple) scores.
Proof.
  intros Hint. destruct (call_llm_ok batch model key w Hint) as (raw & tokens & w' & Hc & Hn & Hf).
  unfold score_batch. unfold mbind at 1, M_bind at 1. rewrite Hc.
  set (per := if 0 <? tokens then _ else 0).
  assert (Hper : 0 <= per).
  { unfold per. destruct (Z.ltb_spec 0 tokens); [|lia]. apply Z_div_nonneg_nonneg; lia. }
  destruct (batch_scores_ok batch model per 0 raw) as (scores & Hs & Hh & Ht); [lia|done|done|].
  M_unfold. rewrite Hs. eexists _, _, _. split_and!; [done| |].
  - rewrite Hh, Hn. cbn. by rewrite take_ge.
  - rewrite <- Ht in Hf. by apply (proj1 (Forall_fmap triple _ _)) in Hf.
Qed.

Lemma batches_concat {A} fuel n (l : list A) : (0 < n)%nat -> (length l <= fuel)%nat -> concat (batches fuel n l) = l.
Proof.
  intros Hn. revert l. induction fuel as [|fuel IH]; intros [|x l] Hl; try done; [cbn in Hl; lia|].
  cbn [batches concat]. rewrite IH; [apply take_drop|]. rewrite length_drop. cbn in *. lia.
Qed.

Lemma add_batches_ok model key bs acc (w : W) : tokens_are_int ->
  exists scores tokens w', M_fold (add_batch model key) acc bs w = (Ok (acc.1 ++ scores, tokens), w')
    /\ SentimentScore.headline <$> scores = concat bs /\ Forall (in_range ∘ triple) scores.
Proof.
  intros Hint. revert acc w. induction bs as [|b bs IH]; intros [acc n] w.
  { exists [], n, w. rewrite app_nil_r. by split_and!. }
  destruct (score_batch_ok model key b w Hint) as (s & t & w1 & Hb & Hh & Hf).
  assert (Hab : add_batch model key (acc, n) b w = (Ok (acc ++ s, n + t), w1)).
  { unfold add_batch. unfold mbind, M_bind. by rewrite Hb. }
  rewrite M_fold_cons, Hab. destruct (IH (acc ++ s, n + t) w1) as (s' & t' & w2 & -> & Hh' & Hf').
  exists (s ++ s'), t', w2. cbn [fst]. rewrite app_assoc, fmap_app, Hh, Hh'. split_and!; [done|done|].
  by apply Forall_app.
Qed.

Lemma score_headlines_ok headlines model key (w : W) : tokens_are_int ->
  exists scores tokens w', score_headlines_batch headlines model key w = (Ok (scores, tokens), w')
    /\ SentimentScore.headline <$> scores = headlines /\ Forall (in_range ∘ triple) scores.
Proof.
  intros Hint. unfold score_headlines_batch.
  destruct (add_batches_ok model key (batches (length headlines) SENTIMENT_BATCH_MAX_HEADLINES headlines)
    ([], 0) w Hint) as (s & t & w' & -> & Hh & Hf).
  exists s, t, w'. split_and!; [done| |done]. rewrite Hh. by apply batches_concat; [unfold SENTIMENT_BATCH_MAX_HEADLINES; lia|].
Qed.

(** Whatever the LLM does (it fails, writes no JSON, too few or malformed
    items), every headline gets exactly one score, in order and in range: the
    scorer never raises as long as token counts are integers. *)
Theorem scores_every_headline headlines model key (w : W) : tokens_are_int ->
  exists scores tokens w', score_headlines_batch headlines model key w = (Ok (scores, tokens), w')
    /\ SentimentScore.headline <$> scores = headlines
    /\ Forall (fun s => SentimentScore.make (SentimentScore.headline s) (SentimentScore.score s)
         (SentimentScore.label s) (SentimentScore.confidence s) 0 false model
         = Ok (SentimentScore.mk (SentimentScore.headline s) (SentimentScore.score s) (SentimentScore.label s)
             (SentimentScore.confidence s) 0 false model)) scores.
Proof.
  intros Hint. destruct (score_headlines_ok headlines model key w Hint) as (s & t & w' & Hs & Hh & Hf).
  exists s, t, w'. split_and!; [done|done|]. eapply Forall_impl; [exact Hf|].
  intros x Hx. by apply make_in_range.
Qed.
End ScorerFacts.

(** The fuel of [strip_fences] suffices: more changes nothing. *)
Lemma str_lstrip_length s : (String.length (str_lstrip s) <= String.length s)%nat.
Proof. induction s as [|c s IH]; cbn; [done|]. destruct (is_space c); cbn; lia. Qed.

Lemma strip_prefix_length p s r : strip_prefix p s = Some r -> (String.length r + String.length p = String.length s)%nat.
Proof.
  revert s. induction p as [|c p IH]; intros [|d s]; cbn; try (intros [= <-]; cbn; lia).
  destruct (Ascii.eqb c d); [|done]. intros Hs. apply IH in Hs. lia.
Qed.

Lemma strip_fences_fuel n m s : (String.length s <= n)%nat -> (String.length s <= m)%nat ->
  strip_fences n s = strip_fences m s.
Proof.
  revert m s. induction n as [|n IH]; intros [|m] [|c s] Hn Hm; try done; try (cbn in *; lia).
  cbn [strip_fences]. destruct (strip_prefix "```" (String c s)) as [r|] eqn:Hp.
  - apply strip_prefix_length in Hp. cbn in Hn, Hm, Hp.
    assert (Hr : (String.length (str_lstrip (default r (strip_prefix "json" r))) <= String.length r)%nat).
    { pose proof (str_lstrip_length (default r (strip_prefix "json" r))) as Hl.
      destruct (strip_prefix "json" r) as [r'|] eqn:Hj; cbn [default] in *; [|done].
      apply strip_prefix_length in Hj. cbn in Hj. unfold id in *. lia. }
    apply IH; lia.
  - f_equal. cbn in *. apply IH; lia.
Qed.

(** ** The cache answers with the nearest entry *)

Section CacheFacts.
Context `{NumPyVectors}.

(** What the loop of [get] keeps: the best similarity so far, and its entry. *)
Definition nearest (q : list float) (seen : list (dict string json)) (best : float * option (dict string json)) : Prop :=
  (forall x v, x ∈ seen -> entry_similarity q x = Ok (Some v) -> flt best.1 v = false)
  /\ match best.2 with
     | None => best.1 = f_zero
     | Some x => x ∈ seen /\ entry_similarity q x = Ok (Some best.1) /\ flt f_zero best.1 = true
     end.

Lemma nearest_step q seen best x best' : nearest q seen best -> best_step q best x = Ok best' ->
  (flt f_zero best.1 = true \/ best.1 = f_zero) -> nearest q (x :: seen) best'
  /\ (flt f_zero best'.1 = true \/ best'.1 = f_zero).
Proof.
  intros [Hall Hb] Hs Hpos. unfold best_step in Hs. bind_inv Hs. injection Hs as <-.
  assert (Hkeep : (forall v, a = Some v -> flt best.1 v = false) -> nearest q (x :: seen) best).
  { intros Hx. split.
    - intros y v [->|Hy]%elem_of_cons Hv; [|by eapply Hall]. rewrite Ha in Hv. injection Hv as Hv. by apply Hx.
    - destruct best as [b [y|]]; [|done]. destruct Hb as (? & ? & ?). split_and!; [by right|done|done]. }
  destruct a as [v|]; [|by split; [apply Hkeep|]]. destruct (flt best.1 v) eqn:Hlt; [|by split; [apply Hkeep; intros ? [= <-]|]].
  assert (Hz : flt f_zero v = true).
  { destruct Hpos as [Hp|Hp]; [by eapply flt_trans|by rewrite <- Hp]. }
  split; [|by left]. split; cbn.
  - intros y u [->|Hy]%elem_of_cons Hu.
    + rewrite Ha in Hu. injection Hu as <-. apply flt_irrefl.
    + destruct (flt v u) eqn:E; [|done]. specialize (Hall y u Hy Hu). rewrite (flt_trans best.1 v u) in Hall by done. done.
  - split_and!; [by left|done|done].
Qed.

Lemma nearest_loop q entries seen best best' :
  nearest q seen best -> (flt f_zero best.1 = true \/ best.1 = f_zero) ->
  for_each (best_step q) best entries = Ok best' -> exists seen', nearest q seen' best'
    /\ (forall x, x ∈ seen' <-> x ∈ seen \/ x ∈ entries).
Proof.
  revert seen best. induction entries as [|x entries IH]; intros seen best Hn Hp.
  { intros [= <-]. exists seen. split; [done|]. set_solver. }
  cbn [for_each]. intros Hf. bind_inv Hf. destruct (nearest_step _ _ _ _ _ Hn Ha Hp) as [Hn' Hp'].
  destruct (IH _ _ Hn' Hp' Hf) as (seen' & Hs & Hm). exists seen'. split; [done|]. intros y. rewrite Hm, !elem_of_cons. tauto.
Qed.

(** At or above the threshold means positive. *)
Lemma threshold_positive v : fle GPTCACHE_SIMILARITY_THRESHOLD v = true -> flt f_zero v = true.
Proof. intros Hv. eapply flt_fle_trans; [|exact Hv]. by vm_compute. Qed.

Context {W : Type} `{RedisList W} `{RedisCounter W} `{RedisKV W} `{EmbeddingModel W}.

(** A lookup answers with the score of a stored entry at or above the
    similarity threshold that no stored entry is nearer than; it misses only
    if no comparable entry reaches the threshold. *)
Theorem cache_get_exact model headline (w w1 w2 w' : W) entries q r :
  load_entries model w = (Ok entries, w1) -> embed headline w1 = (Ok q, w2) ->
  cache_get model headline w = (Ok r, w') ->
  match r with
  | Some s => exists x v, x ∈ entries /\ entry_similarity q x = Ok (Some v)
      /\ fle GPTCACHE_SIMILARITY_THRESHOLD v = true
      /\ (forall y u, y ∈ entries -> entry_similarity q y = Ok (Some u) -> flt v u = false)
      /\ dict_to_score (ddel "embedding" x) true = Ok s
  | None => forall y u, y ∈ entries -> entry_similarity q y = Ok (Some u) ->
      fle GPTCACHE_SIMILARITY_THRESHOLD u = false
  end.
Proof.
  intros Hl He. unfold cache_get. unfold mbind at 1, M_bind at 1. rewrite Hl.
  destruct entries as [|e0 entries]; [intros [= <- _]; set_solver|].
  unfold mbind at 1, M_bind at 1. rewrite He. unfold mbind at 1, M_bind at 1, M_lift at 1.
  destruct (for_each _ _ _) as [[b best]|] eqn:Hf; [|done].
  apply (nearest_loop q _ []) in Hf as (seen & [Hall Hb] & Hm); [| |by right].
  2: { split; [set_solver|done]. }
  assert (Hiff : forall x, x ∈ seen <-> x ∈ e0 :: entries) by (intros x; rewrite Hm; set_solver). clear Hm.
  cbn [fst snd] in Hall, Hb. destruct best as [x|].
  - destruct Hb as (Hx & Hv & Hz). destruct (fle GPTCACHE_SIMILARITY_THRESHOLD b) eqn:Ht.
    + unfold mbind, M_bind, M_lift. destruct (dict_to_score (ddel "embedding" x) true) as [s|] eqn:Hd; [|done].
      intros [= <- _].
      exists x, b. split_and!; [by apply Hiff|done|done| |done]. intros y u Hy. apply Hall. by apply Hiff.
    + intros [= <- _] y u Hy Hu. apply Hiff in Hy. specialize (Hall y u Hy Hu).
      destruct (fle GPTCACHE_SIMILARITY_THRESHOLD u) eqn:E; [|done].
      destruct (fle_not_nan _ _ E) as [_ Hnu]. destruct (flt_not_nan _ _ Hz) as [_ Hnb].
      apply flt_false_fle in Hall; [|done..]. by rewrite (fle_trans _ u b) in Ht.
  - subst b. intros [= <- _] y u Hy Hu. apply Hiff in Hy. specialize (Hall y u Hy Hu).
    destruct (fle GPTCACHE_SIMILARITY_THRESHOLD u) eqn:E; [|done].
    by rewrite threshold_positive in Hall.
Qed.
End CacheFacts.

(** ** A run scores every headline *)

(** [scores] with its placeholders filled from [new], in order. *)
Fixpoint merge (scores : list (option SentimentScore.t)) (new : list SentimentScore.t) : list (option SentimentScore.t) :=
  match scores, new with
  | [], _ => []
  | Some s :: scores, _ => Some s :: merge scores new
  | None :: scores, n :: new => Some n :: merge scores new
  | None :: scores, [] => None :: merge scores []
  end.

Lemma foldl_fill (pre scores : list (option SentimentScore.t)) (new : list SentimentScore.t) :
  length new = length (to_score_indices (length pre) scores) ->
  foldl (fun acc (p : nat * SentimentScore.t) => <[p.1 := Some p.2]> acc) (pre ++ scores)
    (zip (to_score_indices (length pre) scores) new) = pre ++ merge scores new.
Proof.
  revert pre new. induction scores as [|[s|] scores IH]; intros pre new Hn; [by destruct new| |].
  - cbn [to_score_indices merge] in *.
    pose proof (IH (pre ++ [Some s]) new) as Hs. rewrite length_app, Nat.add_1_r, <- !app_assoc in Hs.
    by apply Hs.
  - cbn [to_score_indices merge] in *. destruct new as [|n new]; [done|]. cbn [zip zip_with foldl fst snd].
    rewrite (insert_app_r_alt pre (None :: scores) (length pre)) by done. rewrite Nat.sub_diag. cbn [insert list_insert].
    pose proof (IH (pre ++ [Some n]) new) as Hs. rewrite length_app, Nat.add_1_r, <- !app_assoc in Hs.
    apply Hs. cbn in Hn. lia.
Qed.

Lemma merge_complete scores new i : length new = length (to_score_indices i scores) ->
  Forall (in_range ∘ triple) new -> Forall (fun s => forall x, s = Some x -> in_range (triple x)) scores ->
  length (omap id (merge scores new)) = length scores /\ Forall (in_range ∘ triple) (omap id (merge scores new)).
Proof.
  revert new i. induction scores as [|[s|] scores IH]; intros new i Hn Hf Hs; [done| |].
  - apply Forall_cons in Hs as [Hx Hs]. cbn [to_score_indices merge] in *.
    destruct (IH new (S i) Hn Hf Hs) as [Hl Hr]. cbn. split; [by rewrite Hl|]. constructor; [by apply Hx|done].
  - apply Forall_cons in Hs as [_ Hs]. cbn [to_score_indices merge] in *. destruct new as [|n new]; [done|].
    apply Forall_cons in Hf as [Hx Hf]. cbn in Hn.
    destruct (IH new (S i)) as [Hl Hr]; [lia|done|done|]. cbn. split; [by rewrite Hl|]. by constructor.
Qed.

Lemma indices_bound i scores : (length (to_score_indices i scores) <= length scores)%nat.
Proof. revert i. induction scores as [|[s|] scores IH]; intros i; cbn; [done|..]; specialize (IH (S i)); lia. Qed.

Lemma indices_none i scores : to_score_indices i scores = [] -> omap id scores = omap id (merge scores []).
Proof. revert i. induction scores as [|[s|] scores IH]; intros i Hi; [done| |done]. cbn in *. f_equal. by eapply IH. Qed.

(** The texts at the placeholders, when everything is a placeholder. *)
Lemma indices_all_none (headlines : list Headline.t) i :
  to_score_indices i (repeat None (length headlines)) = seq i (length headlines).
Proof. revert i. induction headlines as [|h l IH]; intros i; cbn; [done|]. by rewrite IH. Qed.

Section RunFacts.
Context {W : Type} `{UrlOpen W} `{FeedParser} `{Litellm W} `{NumPyVectors}
  `{RedisList W} `{RedisCounter W} `{RedisKV W} `{EmbeddingModel W}.
Variable self : SentimentAgent.

#[local] Abbreviation St := (CostTracker * W)%type.

Lemma cache_get_in_range model headline (w w' : W) s :
  cache_get model headline w = (Ok (Some s), w') -> in_range (triple s).
Proof.
  unfold cache_get. unfold mbind at 1, M_bind at 1. destruct (load_entries model w) as [[entries|e] w1]; [|done].
  destruct entries as [|e0 entries]; [done|]. unfold mbind at 1, M_bind at 1.
  destruct (embed headline w1) as [[q|e] w2]; [|done]. unfold mbind at 1, M_bind at 1, M_lift at 1.
  destruct (for_each _ _ _) as [[b [x|]]|]; try done. destruct (_ <=? b)%pf; [|done].
  unfold mbind, M_bind, M_lift. destruct (dict_to_score (ddel "embedding" x) true) as [s'|] eqn:Hd; [|done].
  intros [= <- _]. unfold dict_to_score in Hd. repeat bind_inv Hd. by apply make_ok_in_range in Hd as (_ & ? & _).
Qed.

Lemma lookup_cached_spec headlines (st st' : St) cached :
  lookup_cached self headlines st = (Ok cached, st') -> length cached = length headlines
  /\ Forall (fun s => forall x, s = Some x -> in_range (triple x)) cached
  /\ (sa_redis self = false -> cached = repeat None (length headlines)).
Proof.
  revert st st' cached. induction headlines as [|h l IH]; intros st st' cached; [by intros [= <- _]|].
  cbn [lookup_cached]. unfold mbind at 1, M_bind at 1.
  destruct (if sa_redis self then _ else _) as [c st1] eqn:Hc. destruct c as [c|e]; [|done].
  unfold mbind, M_bind. destruct (lookup_cached self l st1) as [[rest|e] st2] eqn:Hr; [|done].
  intros [= <- _]. destruct (IH _ _ _ Hr) as (Hl & Hf & Hn). split_and!; [cbn; lia| |].
  - constructor; [|done]. intros x ->. destruct (sa_redis self); [|done].
    unfold on_world, M_zoom in Hc. destruct (cache_get _ _ _) as [r w1] eqn:Hg. injection Hc as -> _.
    by eapply cache_get_in_range.
  - intros Hs. rewrite Hs in Hc. injection Hc as <- _. cbn. by rewrite Hn.
Qed.

Lemma fill_all headlines pairs scores (st st' : St) filled :
  M_fold (fill self headlines) scores pairs st = (Ok filled, st') ->
  filled = foldl (fun acc (p : nat * SentimentScore.t) => <[p.1 := Some p.2]> acc) scores pairs.
Proof.
  revert scores st. induction pairs as [|p pairs IH]; intros scores st; [by intros [= <- _]|].
  rewrite M_fold_cons. unfold fill at 1. unfold mbind, M_bind.
  destruct (if sa_redis self then _ else _) as [[u|e] st1]; [|done]. cbn. apply IH.
Qed.

Lemma score_misses_spec today headlines cached (st st' : St) scores tokens : tokens_are_int ->
  score_misses self today headlines cached st = (Ok (scores, tokens), st') ->
  exists new, length new = length (to_score_indices 0 cached) /\ Forall (in_range ∘ triple) new
    /\ omap id scores = omap id (merge cached new)
    /\ SentimentScore.headline <$> new = map (text_at headlines) (to_score_indices 0 cached)
    /\ (to_score_indices 0 cached = [] -> tokens = 0 /\ st' = st).
Proof.
  intros Hint. unfold score_misses. destruct (to_score_indices 0 cached) as [|i0 ixs] eqn:Hi.
  { intros [= <- <- <-]. exists []. split_and!; try done. by eapply indices_none. }
  set (texts := map (text_at headlines) (i0 :: ixs)).
  destruct (score_headlines_ok texts (sa_model self) (sa_api_key self) st.2 Hint) as (new & t & w1 & Hs & Hh & Hf).
  unfold mbind at 1, M_bind at 1, on_world at 1, M_zoom at 1. rewrite Hs.
  unfold mbind at 1, M_bind at 1, M_lift at 1. destruct (_ ≫= _) as [inp|e]; [|done].
  unfold mbind at 1, M_bind at 1. destruct (record_cost _ _ _ _ _) as [[c|e] st1]; [|done].
  unfold mbind, M_bind. destruct (M_fold _ _ _ _) as [[filled|e] st2] eqn:Hfill; [|done].
  intros [= <- <- _]. apply fill_all in Hfill.
  assert (Hn : length new = length (i0 :: ixs)).
  { rewrite <- (length_fmap SentimentScore.headline), Hh. unfold texts. by rewrite length_map. }
  pose proof (foldl_fill [] cached new) as Hm. cbn [length app] in Hm. rewrite Hi in Hm.
  exists new. split_and!; [done|done| |done|done]. by rewrite Hfill, Hm.
Qed.

Lemma texts_at_all headlines : map (text_at headlines) (seq 0 (length headlines)) = Headline.text <$> headlines.
Proof.
  apply list_eq. intros i.
  change (map (text_at headlines) (seq 0 (length headlines))) with (text_at headlines <$> seq 0 (length headlines)).
  rewrite list_lookup_fmap. destruct (decide (i < length headlines)%nat) as [Hl|Hl].
  - rewrite lookup_seq_lt by done. cbn. destruct (lookup_lt_is_Some_2 headlines i Hl) as [h Hh].
    rewrite list_lookup_fmap. unfold text_at. cbn. by rewrite Hh.
  - rewrite lookup_seq_ge, list_lookup_fmap, lookup_ge_None_2 by lia. done.
Qed.
(** The scores after the LLM calls, from what the loop over the cache found. *)
Lemma scored today headlines cached (st0 st st' : St) scores tokens : tokens_are_int ->
  lookup_cached self headlines st0 = (Ok cached, st) ->
  score_misses self today headlines cached st = (Ok (scores, tokens), st') ->
  length (omap id scores) = length headlines /\ Forall (in_range ∘ triple) (omap id scores)
  /\ (sa_redis self = false -> SentimentScore.headline <$> omap id scores = Headline.text <$> headlines).
Proof.
  intros Hint Hc Hs. destruct (lookup_cached_spec _ _ _ _ Hc) as (Hl & Hf & Hnone).
  destruct (score_misses_spec _ _ _ _ _ _ _ Hint Hs) as (new & Hn & Hr & Hm & Hh & _). rewrite Hm.
  destruct (merge_complete cached new 0 Hn Hr Hf) as [Hlen Hrange]. rewrite Hl in Hlen. split_and!; [done|done|].
  intros Hsa. specialize (Hnone Hsa). subst cached. rewrite indices_all_none in Hn, Hh.
  rewrite texts_at_all in Hh. rewrite <- Hh. f_equal. rewrite length_seq in Hn. clear -Hn.
  revert new Hn. induction headlines as [|h l IH]; intros [|n new] Hn; try done.
  cbn in *. f_equal. apply IH. lia.
Qed.

(** A completed run has exactly one score in range per headline, hits and
    misses add up to the headlines, and without a cache the scores are for
    the headlines, in order. *)
Theorem run_scores_every_headline now today exchange custom (st st' : St) r : tokens_are_int ->
  run self now today exchange custom st = (Ok r, st') ->
  length (MarketSentiment.scores r) = length (MarketSentiment.headlines r)
  /\ MarketSentiment.cache_hits r + MarketSentiment.cache_misses r = Z.of_nat (length (MarketSentiment.headlines r))
  /\ 0 <= MarketSentiment.cache_hits r /\ 0 <= MarketSentiment.cache_misses r
  /\ Forall (in_range ∘ triple) (MarketSentiment.scores r)
  /\ MarketSentiment.aggregate_score r = compute_aggregate_score (MarketSentiment.scores r)
  /\ (sa_redis self = false ->
      SentimentScore.headline <$> MarketSentiment.scores r = Headline.text <$> MarketSentiment.headlines r).
Proof.
  intros Hint. unfold run. unfold mbind at 1, M_bind at 1.
  destruct (fetch_headlines now exchange custom st) as [[[|h0 hs]|e] st1]; [|intros Hr|done].
  { intros [= <- _]. by split_and!. }
  revert Hr. generalize (h0 :: hs) as headlines. intros headlines.
  unfold mbind at 1, M_bind at 1. destruct (lookup_cached self headlines st1) as [[cached|e] st2] eqn:Hc; [|done].
  unfold mbind at 1, M_bind at 1. destruct (score_misses _ _ _ _ _) as [[[scores tokens]|e] st3] eqn:Hs; [|done].
  unfold mbind at 1, M_bind at 1, M_lift at 1. destruct (call_cost tokens) as [cost|e]; [|done].
  unfold mbind at 1, M_bind at 1. destruct (fetch_indicators _ _ _ _ _) as [[[v f]|e] st4]; [|done].
  intros [= <- _]. cbn -[omap].
  destruct (lookup_cached_spec _ _ _ _ Hc) as (Hl & _ & _). pose proof (indices_bound 0 cached).
  destruct (scored _ _ _ _ _ _ _ _ Hint Hc Hs) as (Hlen & Hr & Hh). split_and!; try done; lia.
Qed.
End RunFacts.

(** ** A concrete world *)

(** A Redis server and an LLM that may be down; when it is up it answers
    [sw_answer]. *)
Record SampleWorld := { sw_redis : MemRedis; sw_answer : option string }.

#[local] Instance sample_kv : RedisKV SampleWorld := {
  redis_get k := M_zoom sw_redis (fun r w => {| sw_redis := r; sw_answer := sw_answer w |}) (redis_get k);
  redis_set k x ex := M_zoom sw_redis (fun r w => {| sw_redis := r; sw_answer := sw_answer w |}) (redis_set k x ex);
  redis_delete k := M_zoom sw_redis (fun r w => {| sw_redis := r; sw_answer := sw_answer w |}) (redis_delete k);
}.

#[local] Instance sample_list : RedisList SampleWorld := {
  redis_rpush k x := M_zoom sw_redis (fun r w => {| sw_redis := r; sw_answer := sw_answer w |}) (redis_rpush k x);
  redis_lrange k s e := M_zoom sw_redis (fun r w => {| sw_redis := r; sw_answer := sw_answer w |}) (redis_lrange k s e);
  redis_llen k := M_zoom sw_redis (fun r w => {| sw_redis := r; sw_answer := sw_answer w |}) (redis_llen k);
  redis_ltrim k s e := M_zoom sw_redis (fun r w => {| sw_redis := r; sw_answer := sw_answer w |}) (redis_ltrim k s e);
}.

#[local] Instance sample_counter : RedisCounter SampleWorld := {
  redis_incrbyfloat k x := fun w => (Ok tt, w);
  redis_expire k ttl := fun w => (Ok tt, w);
}.

#[local] Instance sample_llm : Litellm SampleWorld := {
  completion _ _ _ _ := fun w =>
    (match sw_answer w with
     | Some content => Ok (ModelResponse.mk (Some (JInt 100)) [Some content])
     | None => Raise (OtherError "APIConnectionError")
     end, w);
}.

#[local] Instance sample_embedder : EmbeddingModel SampleWorld := {
  embed text := fun w => (Ok [dec (Z.of_nat (String.length text)) 0; dec 10 1], w);
}.

#[local] Instance sample_vectors : NumPyVectors := {
  np_array32 l := Ok (omap (fun v => match v with JFloat x => Some x | _ => None end) l);
  np_norm _ := dec 10 1;
  np_dot a b := if bool_decide (a = b) then dec 10 1 else f_zero;
  np_div32 := fdiv;
}.

#[local] Instance sample_urlopen : UrlOpen SampleWorld := {
  urlopen _ _ _ := fun w => (Raise (RequestException "down"), w);
}.

#[local] Instance sample_feedparser : FeedParser := {
  feed_entries _ := [];
  utc_offset := 0;
}.

Definition sample_agent : SentimentAgent :=
  {| sa_model := SENTIMENT_DEFAULT_MODEL; sa_api_key := None; sa_redis := true |}.

Definition sample_state (answer : option string) : CostTracker * SampleWorld :=
  (new_cost_tracker true, {| sw_redis := mem_empty; sw_answer := answer |}).

Definition sample_headlines : list string := ["Rates held"; "Exports fall"].

Definition bullish_answer : string :=
  json_dumps (JObj [("results", JList [JObj [("score", JFloat (dec 8 1)); ("label", JStr "bullish");
                                            ("confidence", JFloat (dec 5 1))]])]).

(** Scores, labels, hits and misses of two runs over the same headlines, the
    LLM answering [a1] during the first and [a2] during the second. *)
Definition two_runs (a1 a2 : option string) : result (list string * Z * Z * list string * Z * Z) :=
  match run sample_agent 0 0 "NSE" (Some sample_headlines) (sample_state a1) with
  | (Ok r1, (ct, w)) =>
      match run sample_agent 0 0 "NSE" (Some sample_headlines) (ct, {| sw_redis := sw_redis w; sw_answer := a2 |}) with
      | (Ok r2, _) =>
          Ok (map SentimentScore.label (MarketSentiment.scores r1), MarketSentiment.cache_hits r1,
              MarketSentiment.cache_misses r1, map SentimentScore.label (MarketSentiment.scores r2),
              MarketSentiment.cache_hits r2, MarketSentiment.cache_misses r2)
      | (Raise e, _) => Raise e
      end
  | (Raise e, _) => Raise e
  end.

(** ** Defects *)

(** The neutral placeholders of a failed LLM call are put into the cache like
    scores: after one outage the headlines stay neutral and the LLM is not
    asked again. *)
Example outage_poisons_cache :
  two_runs None (Some bullish_answer)
  = Ok (["NEUTRAL"; "NEUTRAL"], 0, 2, ["NEUTRAL"; "NEUTRAL"], 2, 0).
Proof. vm_compute. reflexivity. Qed.

(** A score that is NaN is clamped to the most bullish one: [min(1.0, nan)]
    is [1.0]. *)
Example nan_score_is_bullish :
  match parse_llm_response (json_dumps (JList [JObj [("score", JFloat S754_nan)]])) 1 "m" false with
  | Ok [s] => SentimentScore.score s = dec 10 1
  | _ => False
  end.
Proof. vm_compute. reflexivity. Qed.

(** ** Witnesses *)

Lemma sample_tokens : tokens_are_int (W := SampleWorld).
Proof.
  intros model msg n key w w' raw v. unfold completion, sample_llm. destruct (sw_answer w) as [c|]; [|done].
  intros [= <- _]. cbn. intros [= <-]. by exists 100.
Qed.

Lemma scores_every_headline_witness :
  exists scores tokens w', score_headlines_batch sample_headlines SENTIMENT_DEFAULT_MODEL None
    (sample_state (Some bullish_answer)).2 = (Ok (scores, tokens), w')
  /\ SentimentScore.headline <$> scores = sample_headlines.
Proof.
  destruct (scores_every_headline sample_headlines SENTIMENT_DEFAULT_MODEL None
    (sample_state (Some bullish_answer)).2 sample_tokens) as (s & t & w' & Hs & Hh & _).
  exists s, t, w'. exact (conj Hs Hh).
Defined.

Definition sample_run := run sample_agent 0 0 "NSE" (Some sample_headlines) (sample_state (Some bullish_answer)).

Lemma run_scores_every_headline_witness :
  match sample_run with
  | (Ok r, _) => length (MarketSentiment.scores r) = length (MarketSentiment.headlines r)
                 /\ MarketSentiment.aggregate_score r = dec 8 1
  | _ => False
  end.
Proof.
  destruct sample_run as [[r|e] st'] eqn:Hr; [|by vm_compute in Hr].
  pose proof (run_scores_every_headline sample_agent 0 0 "NSE" (Some sample_headlines)
    (sample_state (Some bullish_answer)) st' r sample_tokens Hr) as [Hl _].
  split; [exact Hl|]. vm_compute in Hr. injection Hr as <- _. reflexivity.
Defined.

Definition sample_cached : SampleWorld :=
  (cache_put "m" "abc" (SentimentScore.mk "abc" (dec 8 1) "BULLISH" (dec 5 1) 50 false "m")
     (sample_state None).2).2.

Definition cached_score : SentimentScore.t := SentimentScore.mk "abc" (dec 8 1) "BULLISH" (dec 5 1) 0 true "m".

Lemma cache_get_exact_witness :
  (cache_get "m" "xyz" sample_cached).1 = Ok (Some cached_score)
  /\ exists x v, entry_similarity [dec 30 1; dec 10 1] x = Ok (Some v)
       /\ fle GPTCACHE_SIMILARITY_THRESHOLD v = true.
Proof.
  assert (Hg : cache_get "m" "xyz" sample_cached = (Ok (Some cached_score), sample_cached)) by (vm_compute; reflexivity).
  split; [by rewrite Hg|].
  destruct (cache_get_exact "m" "xyz" sample_cached sample_cached sample_cached sample_cached
    [cache_entry (SentimentScore.mk "abc" (dec 8 1) "BULLISH" (dec 5 1) 50 false "m") [dec 30 1; dec 10 1]]
    [dec 30 1; dec 10 1] (Some cached_score)) as (x & v & _ & Hv & Ht & _); [vm_compute; reflexivity..|exact Hg|].
  exists x, v. exact (conj Hv Ht).
Defined.
