(* ===== verification/Patterns.v ===== *)
(** * Pattern detection ([shared/patterns])

    Candlestick scan ([candlestick.py]), opening-range breakout ([orb.py]),
    support and resistance ([support_resistance.py]) and their aggregation over
    timeframes ([engine.py]).  TA-Lib and NumPy are parameters.  Candle times
    are UTC, as the repositories return them, so [time.date()] is the UTC
    day. *)

From Stdlib Require Import SpecFloat.
From S2P Require Import Prelude PyFloat PyDict Constants MarketData NumPy Regime Signals Backtesting.
Local Open Scope Z_scope.

(** ** Interfaces *)

(** The [CDL*] functions of TA-Lib, sorted by name: one integer per candle
    from the open, high, low and close series. *)
Class CandlePatterns := {
  cdl_functions : list (string * (list float -> list float -> list float -> list float -> result (list Z)));
}.

Class NumPyMin := {
  np_min : list float -> float;
}.

(** ** Candlesticks ([candlestick.py]) *)

Definition series (field : OHLCVCandle.t -> float) (candles : list OHLCVCandle.t) : list float := map field candles.

(** The signals of one function: [for i, val in enumerate(result)]. *)
Fixpoint signals_of (name : string) (i : Z) (vals : list Z) : list CandlestickSignal.t :=
  match vals with
  | [] => []
  | val :: vals =>
      (if val =? 0 then [] else [CandlestickSignal.mk name (if 0 <? val then 100 else -100) i])
      ++ signals_of name (i + 1) vals
  end.

Definition earlier_bar (x y : CandlestickSignal.t) : bool :=
  CandlestickSignal.bar_index x <? CandlestickSignal.bar_index y.

Section Candlestick.
Context `{CandlePatterns}.

Definition detect_all (candles : list OHLCVCandle.t) : list CandlestickSignal.t :=
  if (length candles <? CDL_MIN_CANDLES)%nat then []
  else
    let o := series OHLCVCandle.open candles in
    let h := series OHLCVCandle.high candles in
    let lo := series OHLCVCandle.low candles in
    let c := series OHLCVCandle.close candles in
    py_sorted earlier_bar
      (concat (map (fun '(name, fn) => match fn o h lo c with
                                       | Ok result => signals_of name 0 result
                                       | Raise _ => []
                                       end) cdl_functions)).

Definition detect_recent (candles : list OHLCVCandle.t) (lookback_bars : Z) : list CandlestickSignal.t :=
  let cutoff := Z.of_nat (length candles) - lookback_bars in
  List.filter (fun s => cutoff <=? CandlestickSignal.bar_index s) (detect_all candles).
End Candlestick.

(** ** Opening range ([orb.py]) *)

Definition date_of (time : Z) : Z := time / DAY.

(** [max(...)] and [min(...)] of a non-empty sequence. *)
Definition max_of (x : float) (l : list float) : float := foldl pymax x l.
Definition min_of (x : float) (l : list float) : float := foldl pymin x l.
Definition min_time (x : Z) (l : list Z) : Z := foldl Z.min x l.

(** The direction in which a candle leaves the range. *)
Definition breakout_of (orb_high orb_low : float) (candle : OHLCVCandle.t) : option Z :=
  if (orb_high <? OHLCVCandle.close candle)%pf then Some 1
  else if (OHLCVCandle.close candle <? orb_low)%pf then Some (-1)
  else None.

(** The loop over the candles after the range. *)
Fixpoint first_breakout (orb_high orb_low : float) (candles : list OHLCVCandle.t) : option (Z * float) :=
  match candles with
  | [] => None
  | candle :: candles =>
      match breakout_of orb_high orb_low candle with
      | Some d => Some (d, OHLCVCandle.close candle)
      | None => first_breakout orb_high orb_low candles
      end
  end.

Definition session_candles (candles : list OHLCVCandle.t) (last_candle : OHLCVCandle.t) : list OHLCVCandle.t :=
  List.filter (fun c => date_of (OHLCVCandle.time c) =? date_of (OHLCVCandle.time last_candle)) candles.

Definition detect_orb (candles : list OHLCVCandle.t) (opening_range_minutes : Z) (session_open : option Z)
    : option ORBState.t :=
  match last candles with
  | None => None
  | Some last_candle =>
      match session_candles candles last_candle with
      | [] => None
      | (c0 :: cs) as session =>
          let inferred_open := match session_open with
                               | None => min_time (OHLCVCandle.time c0) (map OHLCVCandle.time cs)
                               | Some t => t
                               end in
          let orb_cutoff := inferred_open + opening_range_minutes * MINUTE in
          let orb_candles := List.filter (fun c => (inferred_open <=? OHLCVCandle.time c)
                                                   && (OHLCVCandle.time c <=? orb_cutoff)) session in
          let post_orb_candles := List.filter (fun c => orb_cutoff <? OHLCVCandle.time c) session in
          match orb_candles with
          | [] => Some (ORBState.mk f_zero f_zero f_zero inferred_open false None None)
          | r0 :: rs =>
              let orb_high := max_of (OHLCVCandle.high r0) (map OHLCVCandle.high rs) in
              let orb_low := min_of (OHLCVCandle.low r0) (map OHLCVCandle.low rs) in
              let breakout := first_breakout orb_high orb_low post_orb_candles in
              Some (ORBState.mk orb_high orb_low (orb_high - orb_low)%pf inferred_open true
                      (fst <$> breakout) (snd <$> breakout))
          end
      end
  end.

(** ** Support and resistance ([support_resistance.py]) *)

(** [sum(l) / len(l)] *)
Definition mean_of (l : list float) : result float :=
  n ← float_of_int (Z.of_nat (length l)); pydiv (pysum l) n.

(** The scan over the sorted prices; the current cluster comes last. *)
Fixpoint cluster_scan (tolerance_pct : float) (clusters : list (list float)) (current : list float) (prices : list float)
    : result (list (list float)) :=
  match prices with
  | [] => mret (clusters ++ [current])
  | p :: prices =>
      centre ← mean_of current;
      q ← pydiv (fabs (p - centre)%pf) centre;
      if (q * dec 1000 1 <=? tolerance_pct)%pf
      then cluster_scan tolerance_pct clusters (current ++ [p]) prices
      else cluster_scan tolerance_pct (clusters ++ [current]) [p] prices
  end.

Definition cluster (prices : list float) (tolerance_pct : float) : result (list float) :=
  match py_sorted flt prices with
  | [] => mret []
  | p :: rest => clusters ← cluster_scan tolerance_pct [] [p] rest; mapM mean_of clusters
  end.

Section SupportResistance.
Context `{NumPyStats} `{NumPyMin}.

(** [np.max] and [np.min] raise on an empty window. *)
Definition amax (l : list float) : result float :=
  match l with [] => Raise (ValueError "zero-size array to reduction operation maximum") | _ => mret (np_max l) end.
Definition amin (l : list float) : result float :=
  match l with [] => Raise (ValueError "zero-size array to reduction operation minimum") | _ => mret (np_min l) end.

(** [a[i - w : i]] and [a[i + 1 : i + w + 1]] for [w <= i < len(a) - w]. *)
Definition left_of (w i : nat) (a : list float) : list float := take w (drop (i - w) a).
Definition right_of (w i : nat) (a : list float) : list float := take w (drop (S i) a).

(** [float(a[i]) > float(np.max(left)) and float(a[i]) > float(np.max(right))] *)
Definition is_pivot_high (w i : nat) (high : list float) : result bool :=
  match high !! i with
  | None => Raise IndexError
  | Some x =>
      l ← amax (left_of w i high);
      if (l <? x)%pf then r ← amax (right_of w i high); mret (r <? x)%pf else mret false
  end.

Definition is_pivot_low (w i : nat) (low : list float) : result bool :=
  match low !! i with
  | None => Raise IndexError
  | Some x =>
      l ← amin (left_of w i low);
      if (x <? l)%pf then r ← amin (right_of w i low); mret (x <? r)%pf else mret false
  end.

(** The resistance and support candidates so far. *)
Definition swing_step (w : nat) (high low : list float) (acc : list float * list float) (i : nat)
    : result (list float * list float) :=
  up ← is_pivot_high w i high;
  down ← is_pivot_low w i low;
  mret (if (up : bool) then acc.1 ++ [default f_nan (high !! i)] else acc.1,
        if (down : bool) then acc.2 ++ [default f_nan (low !! i)] else acc.2).

Definition swing_pivots (w : nat) (high low : list float) : result (list float * list float) :=
  for_each (swing_step w high low) ([], []) (seq w (length high - 2 * w)).

(** [vol_buckets[min(int((close - price_min) / bucket_size), n - 1)] += volume];
    NumPy counts a negative index from the end. *)
Definition add_volume (n : nat) (price_min bucket_size : float) (buckets : list float) (bar : float * float)
    : result (list float) :=
  q ← pydiv (bar.1 - price_min)%pf bucket_size;
  k ← int_of_float q;
  let idx := Z.min k (Z.of_nat n - 1) in
  let idx := if idx <? 0 then idx + Z.of_nat n else idx in
  if idx <? 0 then Raise IndexError
  else
    match buckets !! Z.to_nat idx with
    | None => Raise IndexError
    | Some v => mret (<[Z.to_nat idx := (v + bar.2)%pf]> buckets)
    end.

(** A bucket that is a strict local maximum adds its middle. *)
Definition bucket_step (price_min bucket_size last_close : float) (buckets : list float) (acc : list float * list float)
    (i : nat) : list float * list float :=
  let v j := default f_nan (buckets !! j) in
  if (v (i - 1)%nat <? v i)%pf && (v (i + 1)%nat <? v i)%pf then
    let bucket_mid := (price_min + (dec (Z.of_nat i) 0 + dec 5 1) * bucket_size)%pf in
    if (bucket_mid <? last_close)%pf then (acc.1, acc.2 ++ [bucket_mid]) else (acc.1 ++ [bucket_mid], acc.2)
  else acc.

Definition volume_profile (n : nat) (price_min price_max last_close : float) (close volume : list float)
    (acc : list float * list float) : result (list float * list float) :=
  if (price_min <? price_max)%pf && (2 <? n)%nat then
    d ← float_of_int (Z.of_nat n);
    bucket_size ← pydiv (price_max - price_min)%pf d;
    buckets ← for_each (add_volume n price_min bucket_size) (repeat f_zero n) (zip close volume);
    mret (foldl (bucket_step price_min bucket_size last_close buckets) acc (seq 1 (n - 2)))
  else mret acc.

(** [_touch_count]: the touches so far and the last bar that touched. *)
Definition touch_step (level tol : float) (acc : Z * Z) (bar : Z * float) : Z * Z :=
  if (fabs (bar.2 - level) <=? tol)%pf then (acc.1 + 1, bar.1) else acc.

Definition touch_count (touch_tolerance_pct level : float) (wicks : list float) : Z * Z :=
  let tol := fdiv (level * touch_tolerance_pct)%pf (dec 1000 1) in
  foldl (touch_step level tol) (0, 0) (imap (fun i wick => (Z.of_nat i, wick)) wicks).

Definition Candidate : Type := float * string * Z * Z.
Definition touches_of (c : Candidate) : Z := c.1.2.

(** The loop over the cluster prices of one kind. *)
Definition count_step (touch_tolerance_pct : float) (min_touches : Z) (kind : string) (wicks : list float)
    (acc : list Candidate * Z) (price : float) : list Candidate * Z :=
  let '(tc, last_bar) := touch_count touch_tolerance_pct price wicks in
  if min_touches <=? tc then (acc.1 ++ [(price, kind, tc, last_bar)], Z.max acc.2 tc) else acc.

Definition level_of (max_touches : Z) (c : Candidate) : result SRLevel.t :=
  let '(price, level_type, tc, last_bar) := c in
  strength ← int_truediv tc max_touches;
  mret (SRLevel.mk (pyround price 6) level_type strength tc last_bar).

Definition lower_price (x y : SRLevel.t) : bool := flt (SRLevel.price x) (SRLevel.price y).

Definition detect_sr_levels (candles : list OHLCVCandle.t) (swing_window : nat) (touch_tolerance_pct : float)
    (min_touches : Z) (cluster_tolerance_pct : float) (volume_profile_buckets : nat) : result (list SRLevel.t) :=
  if (length candles <? 2 * swing_window + 1)%nat then mret []
  else
    let high := series OHLCVCandle.high candles in
    let low := series OHLCVCandle.low candles in
    let close := series OHLCVCandle.close candles in
    volume ← mapM (fun c => float_of_int (OHLCVCandle.volume c)) candles;
    pivots ← swing_pivots swing_window high low;
    price_min ← amin low;
    price_max ← amax high;
    last_close ← py_index close (-1);
    '(pivot_resistance, pivot_support) ←
      volume_profile volume_profile_buckets price_min price_max last_close close volume pivots;
    resistance_prices ← cluster pivot_resistance cluster_tolerance_pct;
    support_prices ← cluster pivot_support cluster_tolerance_pct;
    let acc := foldl (count_step touch_tolerance_pct min_touches "RESISTANCE" high) ([], 1) resistance_prices in
    let '(candidates, max_touches) :=
      foldl (count_step touch_tolerance_pct min_touches "SUPPORT" low) acc support_prices in
    levels ← mapM (level_of max_touches) candidates;
    mret (py_sorted lower_price levels).

(** ** Engine ([engine.py]) *)

Context `{CandlePatterns}.

Definition sr_window (sr_lookback_candles : nat) (candles : list OHLCVCandle.t) : list OHLCVCandle.t :=
  if (sr_lookback_candles <? length candles)%nat then last_n sr_lookback_candles candles else candles.

(** [now] is the clock. *)
Definition compute_snapshot (now : Z) (symbol exchange timeframe : string) (candles : list OHLCVCandle.t)
    (opening_range_minutes : Z) (session_open : option Z) (sr_lookback_candles : nat) : result PatternSnapshot.t :=
  let candle_time := match last candles with Some c => OHLCVCandle.time c | None => now end in
  let cdl_signals := detect_all candles in
  let orb_state := detect_orb candles opening_range_minutes session_open in
  sr_levels ← detect_sr_levels (sr_window sr_lookback_candles candles) SR_SWING_WINDOW SR_TOUCH_TOLERANCE_PCT
                SR_MIN_TOUCHES SR_CLUSTER_TOLERANCE_PCT (Z.to_nat VOLUME_PROFILE_BUCKETS);
  mret (PatternSnapshot.mk symbol exchange timeframe now candle_time cdl_signals orb_state sr_levels).

(** The set [{s.name for s in signals if ...}], without duplicates. *)
Definition names_where (p : Z -> bool) (snap : PatternSnapshot.t) : list string :=
  remove_dups (map CandlestickSignal.name
    (List.filter (fun s => p (CandlestickSignal.direction s)) (PatternSnapshot.candlestick_signals snap))).

(** [Counter.update] with a set of names. *)
Definition counter_update (counts : dict string Z) (names : list string) : dict string Z :=
  foldl (fun counts name => dset name (default 0 (dget name counts) + 1) counts) counts names.

Definition confirmed (p : Z -> bool) (snapshots : dict string PatternSnapshot.t) : list string :=
  let counts := foldl counter_update [] (map (names_where p) (dvalues snapshots)) in
  let min_tfs := Z.min GATE_5_MIN_TIMEFRAMES_AGREEING (Z.of_nat (length snapshots)) in
  py_sorted String.ltb (dkeys (List.filter (fun kv => min_tfs <=? kv.2) counts)).

Definition bullish (direction : Z) : bool := 0 <? direction.
Definition bearish (direction : Z) : bool := direction <? 0.

Definition snapshot_step (now : Z) (symbol exchange : string) (opening_range_minutes : Z) (session_open : option Z)
    (sr_lookback_candles : nat) (snapshots : dict string PatternSnapshot.t) (p : string * list OHLCVCandle.t)
    : result (dict string PatternSnapshot.t) :=
  snap ← compute_snapshot now symbol exchange p.1 p.2 opening_range_minutes session_open sr_lookback_candles;
  mret (dset p.1 snap snapshots).

Definition compute_multi_timeframe (now : Z) (symbol exchange : string)
    (timeframe_candles : dict string (list OHLCVCandle.t)) (opening_range_minutes : Z) (session_open : option Z)
    (sr_lookback_candles : nat) : result MultiTimeframePatterns.t :=
  snapshots ← for_each (snapshot_step now symbol exchange opening_range_minutes session_open sr_lookback_candles)
                [] timeframe_candles;
  mret (MultiTimeframePatterns.mk symbol exchange now snapshots (confirmed bullish snapshots)
          (confirmed bearish snapshots)).
End SupportResistance.

(** ** The opening range and its first breakout *)

(** A fold that keeps the better of two values, for an order in which a value
    (NaN) may be incomparable to everything. *)
Section Pick.
Context {A : Type} (lt : A -> A -> bool)
  (Hirr : forall x, lt x x = false)
  (Htrans : forall x y z, lt x y = true -> lt y z = true -> lt x z = true)
  (Hco : forall x y z, lt x z = true -> lt x y = true \/ lt y z = true \/ forall u, lt y u = false).

Definition pick (a b : A) : A := if lt a b then b else a.

Lemma pick_incomparable x l : (forall u, lt x u = false) -> foldl pick x l = x.
Proof. intros Hx. induction l as [|y l IH]; [done|]. cbn [foldl]. assert (Hp : pick x y = x) by (unfold pick; by rewrite Hx). by rewrite Hp. Qed.

Lemma pick_spec x l : (forall y, y ∈ x :: l -> lt (foldl pick x l) y = false) /\ foldl pick x l ∈ x :: l.
Proof.
  revert x. induction l as [|z l IH]; intros x.
  { split; [|by left]. intros y [->|Hy]%elem_of_cons; [apply Hirr|by apply elem_of_nil in Hy]. }
  cbn [foldl]. destruct (IH (pick x z)) as [Hall Hin].
  assert (Hp : pick x z = if lt x z then z else x) by done. rewrite Hp in *. clear Hp. split.
  - intros y Hy. destruct (lt x z) eqn:E.
    + apply elem_of_cons in Hy as [->|Hy]; [|by apply Hall].
      destruct (lt (foldl pick z l) x) eqn:F; [|done]. specialize (Hall z ltac:(left)).
      by rewrite (Htrans _ x z) in Hall.
    + rewrite !elem_of_cons in Hy. destruct Hy as [->|[->|Hy]]; [by apply Hall; left| |by apply Hall; right].
      destruct (lt (foldl pick x l) z) eqn:F; [|done]. exfalso.
      destruct (Hco _ x _ F) as [Hm|[Hz|Hn]]; [by rewrite Hall in Hm by left|congruence|].
      by rewrite (pick_incomparable x l Hn), E in F.
  - destruct (lt x z); [by right|].
    apply elem_of_cons in Hin as [->|Hin]; [by left|by do 2 right].
Qed.
End Pick.

Lemma flt_cotrans x y z : flt x z = true -> flt x y = true \/ flt y z = true \/ forall u, flt y u = false.
Proof.
  intros Hxz. destruct (is_nan y) eqn:Hy; [right; right; intros u; by apply flt_nan_l|].
  destruct (flt x y) eqn:Hxy; [by left|]. right; left. destruct (flt_not_nan _ _ Hxz).
  apply (fle_flt_trans _ x); [by apply flt_false_fle|done].
Qed.

Lemma max_of_spec x l : (forall y, y ∈ x :: l -> flt (max_of x l) y = false) /\ max_of x l ∈ x :: l.
Proof. apply (pick_spec flt); [apply flt_irrefl|apply flt_trans|apply flt_cotrans]. Qed.

Lemma min_of_spec x l : (forall y, y ∈ x :: l -> flt y (min_of x l) = false) /\ min_of x l ∈ x :: l.
Proof.
  apply (pick_spec (fun a b => flt b a)); [apply flt_irrefl|intros ? ? ? ? ?; by eapply flt_trans|].
  intros a b c Hca. destruct (is_nan b) eqn:Hb; [right; right; intros u; by apply flt_nan_r|].
  destruct (flt_cotrans c b a Hca) as [?|[?|Hn]]; [by right; left|by left|].
  destruct (flt b a) eqn:Hba; [by left|]. right; left. destruct (flt_not_nan _ _ Hca).
  apply (flt_fle_trans _ a); [exact Hca|]. by apply flt_false_fle.
Qed.

Lemma first_breakout_spec hi lo l :
  match first_breakout hi lo l with
  | None => forall c, c ∈ l -> breakout_of hi lo c = None
  | Some (d, p) => exists l1 c l2, l = l1 ++ c :: l2 /\ (forall b, b ∈ l1 -> breakout_of hi lo b = None)
      /\ breakout_of hi lo c = Some d /\ p = OHLCVCandle.close c
  end.
Proof.
  induction l as [|c l IH]; cbn; [set_solver|]. destruct (breakout_of hi lo c) as [d|] eqn:Hb.
  { exists [], c, l. split_and!; try done. set_solver. }
  destruct (first_breakout hi lo l) as [[d p]|].
  - destruct IH as (l1 & c' & l2 & -> & Hn & Hd & Hp). exists (c :: l1), c', l2. split_and!; try done. set_solver.
  - set_solver.
Qed.

(** Candles of the session, of its opening window and after it. *)
Definition opening_window (s : ORBState.t) (minutes : Z) (c : OHLCVCandle.t) : Prop :=
  ORBState.session_open s <= OHLCVCandle.time c <= ORBState.session_open s + minutes * MINUTE.
Definition after_window (s : ORBState.t) (minutes : Z) (c : OHLCVCandle.t) : bool :=
  ORBState.session_open s + minutes * MINUTE <? OHLCVCandle.time c.

(** A formed opening range is spanned by the candles of the window (its
    high and low are theirs and none goes beyond), and the breakout is the
    first later candle of the session that closes outside it. *)
Theorem orb_first_breakout candles minutes session_open last_candle s :
  last candles = Some last_candle ->
  detect_orb candles minutes session_open = Some s -> ORBState.range_formed s = true ->
  let session := session_candles candles last_candle in
  (forall c, c ∈ session -> opening_window s minutes c ->
     flt (ORBState.orb_high s) (OHLCVCandle.high c) = false /\ flt (OHLCVCandle.low c) (ORBState.orb_low s) = false)
  /\ (exists c, c ∈ session /\ opening_window s minutes c /\ OHLCVCandle.high c = ORBState.orb_high s)
  /\ (exists c, c ∈ session /\ opening_window s minutes c /\ OHLCVCandle.low c = ORBState.orb_low s)
  /\ match first_breakout (ORBState.orb_high s) (ORBState.orb_low s) (List.filter (after_window s minutes) session) with
     | Some (d, p) => ORBState.breakout_direction s = Some d /\ ORBState.breakout_price s = Some p
     | None => ORBState.breakout_direction s = None /\ ORBState.breakout_price s = None
     end.
Proof.
  intros Hlast. unfold detect_orb. rewrite Hlast. destruct (session_candles candles last_candle) as [|c0 cs] eqn:Hs; [done|].
  set (open := match session_open with None => _ | Some t => t end).
  set (window := fun c => _ && _). intros Hd Hf. revert Hd.
  destruct (List.filter window (c0 :: cs)) as [|r0 rs] eqn:Hr; [intros [= <-]; done|].
  intros [= <-]. cbn [ORBState.orb_high ORBState.orb_low ORBState.session_open ORBState.breakout_direction
    ORBState.breakout_price].
  assert (Hiff : forall c, c ∈ r0 :: rs <-> c ∈ c0 :: cs /\ open <= OHLCVCandle.time c <= open + minutes * MINUTE).
  { intros c. rewrite <- Hr, !list_elem_of_In, filter_In. unfold window. by rewrite andb_true_iff, !Z.leb_le. }
  destruct (max_of_spec (OHLCVCandle.high r0) (map OHLCVCandle.high rs)) as [Hmax Hmaxin].
  destruct (min_of_spec (OHLCVCandle.low r0) (map OHLCVCandle.low rs)) as [Hmin Hminin].
  assert (Hmap : forall (f : OHLCVCandle.t -> float) y, y ∈ f r0 :: map f rs <-> exists c, c ∈ r0 :: rs /\ f c = y).
  { intros f y. change (f r0 :: map f rs) with (f <$> (r0 :: rs)). rewrite list_elem_of_fmap. naive_solver. }
  split_and!.
  - intros c Hc Hw. assert (Hin : c ∈ r0 :: rs) by by apply Hiff. split; [apply Hmax|apply Hmin]; apply Hmap; eauto.
  - apply Hmap in Hmaxin as (c & Hc & Hh). apply Hiff in Hc as [? ?]. by exists c.
  - apply Hmap in Hminin as (c & Hc & Hh). apply Hiff in Hc as [? ?]. by exists c.
  - unfold after_window. cbn [ORBState.session_open]. by destruct (first_breakout _ _ _) as [[d p]|].
Qed.

(** ** Candlestick signals *)

Section CandleFacts.
Context `{CandlePatterns}.

Lemma signals_of_spec name i vals s :
  s ∈ signals_of name i vals <->
  exists (k : nat) v, vals !! k = Some v /\ v <> 0
    /\ s = CandlestickSignal.mk name (if 0 <? v then 100 else -100) (i + Z.of_nat k).
Proof.
  revert i. induction vals as [|v vals IH]; intros i; cbn [signals_of].
  { split; [set_solver|]. intros (k & v & Hk & _). by rewrite lookup_nil in Hk. }
  rewrite elem_of_app, IH. split.
  - intros [Hs|(k & u & Hk & Hu & ->)].
    + destruct (Z.eqb_spec v 0); [set_solver|]. apply list_elem_of_singleton in Hs as ->. exists 0%nat, v.
      split_and!; [done|done|]. f_equal. lia.
    + exists (S k), u. split_and!; [done|done|]. f_equal. lia.
  - intros ([|k] & u & Hk & Hu & ->); cbn in Hk.
    + injection Hk as ->. left. destruct (Z.eqb_spec u 0); [done|]. apply list_elem_of_singleton. f_equal. lia.
    + right. exists k, u. split_and!; [done|done|]. f_equal. lia.
Qed.

Definition fires (candles : list OHLCVCandle.t) (s : CandlestickSignal.t) : Prop :=
  exists fn vals v, (CandlestickSignal.name s, fn) ∈ cdl_functions
    /\ fn (series OHLCVCandle.open candles) (series OHLCVCandle.high candles)
         (series OHLCVCandle.low candles) (series OHLCVCandle.close candles) = Ok vals
    /\ vals !! Z.to_nat (CandlestickSignal.bar_index s) = Some v /\ v <> 0
    /\ 0 <= CandlestickSignal.bar_index s
    /\ CandlestickSignal.direction s = (if 0 <? v then 100 else -100).

Lemma detect_all_spec candles s :
  s ∈ detect_all candles <-> (CDL_MIN_CANDLES <= length candles)%nat /\ fires candles s.
Proof.
  unfold detect_all. destruct (Nat.ltb_spec (length candles) CDL_MIN_CANDLES) as [Hl|Hl].
  { split; [set_solver|]. lia. }
  rewrite py_sorted_perm, list_elem_of_In, in_concat. split.
  - intros (l & Hin & Hs). apply in_map_iff in Hin as ([name fn] & <- & Hin).
    destruct (fn _ _ _ _) as [vals|e] eqn:Hf; [|done]. apply list_elem_of_In, signals_of_spec in Hs as (k & v & Hk & Hv & ->).
    split; [done|]. exists fn, vals, v. cbn [CandlestickSignal.name CandlestickSignal.bar_index CandlestickSignal.direction]. rewrite Z.add_0_l, Nat2Z.id. split_and!; try done; [by apply list_elem_of_In|lia].
  - intros [_ (fn & vals & v & Hin & Hf & Hv & Hn & Hb & Hd)]. eexists. split.
    + apply in_map_iff. exists (CandlestickSignal.name s, fn). split; [reflexivity|by apply list_elem_of_In].
    + rewrite Hf. apply list_elem_of_In, signals_of_spec. exists (Z.to_nat (CandlestickSignal.bar_index s)), v.
      split_and!; [done|done|]. destruct s as [n d b]. cbn in *. rewrite Z2Nat.id by done. by rewrite Hd.
Qed.

(** The recent signals are exactly what TA-Lib reports as non-zero on the
    last bars, of a function that does not raise, with the sign as the
    direction, oldest bar first; fewer than ten candles give none. *)
Theorem detect_recent_exact candles lookback :
  StronglySorted (fun x y => CandlestickSignal.bar_index x <= CandlestickSignal.bar_index y) (detect_recent candles lookback)
  /\ forall s, s ∈ detect_recent candles lookback
       <-> (CDL_MIN_CANDLES <= length candles)%nat /\ fires candles s
           /\ Z.of_nat (length candles) - lookback <= CandlestickSignal.bar_index s.
Proof.
  split.
  - assert (Hall : StronglySorted (fun x y => CandlestickSignal.bar_index x <= CandlestickSignal.bar_index y)
      (detect_all candles)).
    { unfold detect_all. destruct (_ <? _)%nat; [constructor|].
      apply (py_sorted_ordered (fun _ => True)); [| | |by apply Forall_true].
      - unfold earlier_bar. intros x y _ _ Hlt. apply Z.ltb_lt in Hlt. cbn. lia.
      - unfold earlier_bar. intros x y _ _ Hge. apply Z.ltb_ge in Hge. cbn. lia.
      - intros x y z _ _ _ Hxy Hyz. cbn in *. lia. }
    unfold detect_recent. induction Hall as [|x l Hl IH Hx]; cbn; [constructor|].
    destruct (_ <=? _); [|done]. constructor; [done|]. rewrite Forall_forall in Hx |- *. intros y Hy.
    apply Hx. apply list_elem_of_In in Hy. apply filter_In in Hy as [Hy _]. by apply list_elem_of_In.
  - intros s. unfold detect_recent. rewrite list_elem_of_In, filter_In, <- list_elem_of_In, detect_all_spec, Z.leb_le. tauto.
Qed.
End CandleFacts.

(** ** Agreement of the timeframes *)

(** The number of timeframes that show the pattern. *)
Definition agreeing (p : Z -> bool) (name : string) (snaps : list PatternSnapshot.t) : Z :=
  Z.of_nat (length (filter (fun snap => name ∈ names_where p snap) snaps)).

Lemma names_where_spec p snap name :
  NoDup (names_where p snap)
  /\ (name ∈ names_where p snap <-> exists s, s ∈ PatternSnapshot.candlestick_signals snap
        /\ p (CandlestickSignal.direction s) = true /\ CandlestickSignal.name s = name).
Proof.
  split; [apply NoDup_remove_dups|]. unfold names_where. rewrite elem_of_remove_dups, list_elem_of_In, in_map_iff.
  setoid_rewrite filter_In. setoid_rewrite list_elem_of_In. naive_solver.
Qed.

Lemma counter_update_spec counts names name : NoDup (dkeys counts) -> NoDup names ->
  NoDup (dkeys (counter_update counts names))
  /\ default 0 (dget name (counter_update counts names))
     = default 0 (dget name counts) + (if bool_decide (name ∈ names) then 1 else 0)
  /\ (is_Some (dget name (counter_update counts names)) <-> is_Some (dget name counts) \/ name ∈ names).
Proof.
  unfold counter_update. revert counts. induction names as [|n names IH]; intros counts Hd Hn.
  { cbn. split_and!; [done|by rewrite Z.add_0_r|]. set_solver. }
  apply NoDup_cons in Hn as [Hni Hn]. cbn [foldl].
  destruct (IH (dset n (default 0 (dget n counts) + 1) counts) (dset_NoDup _ _ _ Hd) Hn) as (H1 & H2 & H3).
  split_and!; [done| |].
  - rewrite H2. destruct (decide (n = name)) as [->|Hne].
    + rewrite dget_dset_eq, (bool_decide_false (name ∈ names)), bool_decide_true by (done || by left). cbn. lia.
    + rewrite dget_dset_ne by done. f_equal.
      destruct (decide (name ∈ names)); [rewrite !bool_decide_true by (done || by right)|
        rewrite !bool_decide_false by (done || (intros [->|?]%elem_of_cons; done))]; done.
  - rewrite H3. destruct (decide (n = name)) as [->|Hne].
    + rewrite dget_dset_eq. split; [intros _; right; by left|intros _; left; by eexists].
    + rewrite dget_dset_ne, elem_of_cons by done. naive_solver.
Qed.

Lemma counts_spec p snaps counts name : NoDup (dkeys counts) ->
  let r := foldl counter_update counts (map (names_where p) snaps) in
  NoDup (dkeys r)
  /\ default 0 (dget name r) = default 0 (dget name counts) + agreeing p name snaps
  /\ (is_Some (dget name r) <-> is_Some (dget name counts) \/ 0 < agreeing p name snaps).
Proof.
  unfold agreeing. revert counts. induction snaps as [|s snaps IH]; intros counts Hd.
  { cbn. split_and!; [done|lia|]. split; [by left|]. intros [?|?]; [done|lia]. }
  cbn [map foldl]. destruct (counter_update_spec counts (names_where p s) name Hd (proj1 (names_where_spec p s name)))
    as (Hc1 & Hc2 & Hc3).
  destruct (IH _ Hc1) as (H1 & H2 & H3). rewrite filter_cons. split_and!; [done| |].
  - rewrite H2, Hc2. destruct (decide (name ∈ names_where p s)).
    + rewrite bool_decide_true by done. cbn. lia.
    + rewrite bool_decide_false by done. lia.
  - rewrite H3, Hc3. destruct (decide (name ∈ names_where p s)); cbn; [|naive_solver].
    split; [intros _; right; lia|tauto].
Qed.

Lemma confirmed_spec p snapshots name :
  name ∈ confirmed p snapshots
  <-> 0 < agreeing p name (dvalues snapshots)
      /\ Z.min GATE_5_MIN_TIMEFRAMES_AGREEING (Z.of_nat (length snapshots)) <= agreeing p name (dvalues snapshots).
Proof.
  unfold confirmed. rewrite py_sorted_perm.
  set (r := foldl counter_update [] _).
  destruct (counts_spec p (dvalues snapshots) [] name (NoDup_nil_2)) as (Hn & Hd & Hs). fold r in Hn, Hd, Hs.
  cbn [dget default] in Hd, Hs. change (default 0 None) with 0 in Hd.
  unfold dkeys. rewrite list_elem_of_fmap. setoid_rewrite list_elem_of_In. setoid_rewrite filter_In.
  setoid_rewrite Z.leb_le. split.
  - intros ([k v] & -> & Hin & Hv). apply list_elem_of_In in Hin. apply elem_dget in Hin; [|done]. cbn in *.
    rewrite Hin in Hd, Hs. cbn in Hd. split; [|lia]. destruct Hs as [Hs _].
    destruct Hs as [[? ?]|?]; [by eexists|done|done].
  - intros [Hpos Hmin]. destruct (proj2 Hs (or_intror Hpos)) as [v Hv]. exists (name, v).
    split_and!; [done|by apply list_elem_of_In, dget_elem|]. rewrite Hv in Hd. cbn in *. lia.
Qed.

Section EngineFacts.
Context `{NumPyStats} `{NumPyMin} `{CandlePatterns}.

(** From the candles to gate 5: with the patterns of the engine, the gate
    passes exactly when some pattern shows in the direction of the trade on
    at least two timeframes, or on all of them when fewer are given. *)
Theorem gate_5_follows_engine now symbol exchange timeframe_candles minutes open lookback mtf (ctx : SignalContext.t) :
  compute_multi_timeframe now symbol exchange timeframe_candles minutes open lookback = Ok mtf ->
  SignalContext.multi_tf_patterns ctx = Some mtf ->
  GateResult.passed (gate_5_multi_timeframe ctx) = true
  <-> exists name, let snaps := dvalues (MultiTimeframePatterns.snapshots mtf) in
        let n := agreeing (if is_long ctx then bullish else bearish) name snaps in
        0 < n /\ Z.min GATE_5_MIN_TIMEFRAMES_AGREEING (Z.of_nat (length snaps)) <= n.
Proof.
  unfold compute_multi_timeframe. intros Hc Hm. bind_inv Hc. injection Hc as <-.
  unfold gate_5_multi_timeframe. rewrite Hm. cbn [MultiTimeframePatterns.snapshots
    MultiTimeframePatterns.confirmed_bullish_patterns MultiTimeframePatterns.confirmed_bearish_patterns].
  set (p := if is_long ctx then bullish else bearish).
  assert (Hp : (if is_long ctx then confirmed bullish a else confirmed bearish a) = confirmed p a).
  { unfold p. by destruct (is_long ctx). }
  rewrite Hp. assert (Hlen : length (dvalues a) = length a) by apply length_fmap. rewrite Hlen.
  pose proof (confirmed_spec p a) as Hspec. split.
  - destruct (confirmed p a) as [|name l]; [done|]. intros _. exists name. apply Hspec. by left.
  - intros (name & Hname). apply Hspec in Hname. destruct (confirmed p a) as [|x l]; [by apply elem_of_nil in Hname|done].
Qed.

(** ** Support and resistance levels *)

Definition touching (touch_tolerance_pct level wick : float) : bool :=
  fle (fabs (wick - level)%pf) (fdiv (level * touch_tolerance_pct)%pf (dec 1000 1)).

(** What [_touch_count] returns: the number of bars that touch, and the last one. *)
Definition counts_touches (pct level : float) (wicks : list float) (tc last_bar : Z) : Prop :=
  tc = Z.of_nat (length (List.filter (touching pct level) wicks))
  /\ (0 < tc -> exists i wick, last_bar = Z.of_nat i /\ wicks !! i = Some wick /\ touching pct level wick = true
        /\ forall j w, wicks !! j = Some w -> touching pct level w = true -> (j <= i)%nat).

Lemma touch_count_spec pct level wicks :
  counts_touches pct level wicks (touch_count pct level wicks).1 (touch_count pct level wicks).2.
Proof.
  unfold touch_count. induction wicks as [|w wicks [IH1 IH2]] using rev_ind; [split; [done|cbn; lia]|].
  rewrite imap_app, foldl_app. cbn [imap foldl]. unfold compose. rewrite Nat.add_0_r.
  set (r := foldl _ _ _) in *. unfold touch_step at 1 2. cbn [fst snd]. fold (touching pct level w).
  unfold counts_touches. rewrite List.filter_app, length_app. cbn [List.filter].
  destruct (touching pct level w) eqn:Ht; cbn [fst snd length].
  - split; [lia|]. intros _. exists (length wicks), w. split_and!; [done|by rewrite list_lookup_middle|done|].
    intros j u Hj _. apply lookup_lt_Some in Hj. rewrite length_app in Hj. cbn in Hj. lia.
  - split; [lia|]. intros Hp. destruct IH2 as (i & wick & Hl & Hi & Hw & Hlast); [lia|].
    exists i, wick. split_and!; [done|by rewrite lookup_app_l by (by eapply lookup_lt_Some)|done|].
    intros j u Hj Hu. apply lookup_app_Some in Hj as [Hj|[_ Hj]]; [by eapply Hlast|].
    apply list_lookup_singleton_Some in Hj as [_ <-]. congruence.
Qed.

(** A candidate of the right shape: [wicks_of] gives the series of its kind. *)
Definition candidate_ok (pct : float) (min_touches : Z) (wicks_of : string -> list float) (c : Candidate) : Prop :=
  let '(price, kind, tc, last_bar) := c in
  (kind = "RESISTANCE" \/ kind = "SUPPORT") /\ min_touches <= tc /\ counts_touches pct price (wicks_of kind) tc last_bar.

Definition max_ok (m : Z) (l : list Candidate) : Prop :=
  1 <= m /\ Forall (fun c => touches_of c <= m) l /\ (m = 1 \/ Exists (fun c => touches_of c = m) l).

Lemma count_steps pct min_touches kind wicks_of prices acc :
  kind = "RESISTANCE" \/ kind = "SUPPORT" ->
  Forall (candidate_ok pct min_touches wicks_of) acc.1 -> max_ok acc.2 acc.1 ->
  let r := foldl (count_step pct min_touches kind (wicks_of kind)) acc prices in
  Forall (candidate_ok pct min_touches wicks_of) r.1 /\ max_ok r.2 r.1.
Proof.
  intros Hk. revert acc. induction prices as [|p prices IH]; intros acc Hf Hm; [done|].
  cbn [foldl]. apply IH; unfold count_step; pose proof (touch_count_spec pct p (wicks_of kind)) as Ht;
    destruct (touch_count pct p (wicks_of kind)) as [tc last_bar]; destruct (Z.leb_spec min_touches tc); try done; cbn.
  - apply Forall_app. split; [done|]. apply Forall_singleton. by split_and!.
  - destruct Hm as (Hm1 & Hm2 & Hm3). split_and!; [lia| |].
    + apply Forall_app. split; [|apply Forall_singleton; unfold touches_of; cbn; lia].
      eapply Forall_impl; [exact Hm2|]. cbn. lia.
    + rewrite Exists_app, Exists_cons. unfold touches_of. cbn.
      destruct (Z.max_spec acc.2 tc) as [[_ ->]|[Hle ->]]; [right; right; by left|].
      destruct Hm3 as [->|Hm3]; [by left|right; by left].
Qed.

Definition sr_wicks (candles : list OHLCVCandle.t) (kind : string) : list float :=
  if String.eqb kind "RESISTANCE" then series OHLCVCandle.high candles else series OHLCVCandle.low candles.

(** Every level is the rounding of a price that at least [min_touches]
    bars touch (highs for resistance, lows for support), [touches] counts
    them, the last of them is [last_touch_bar], and the strength is the share
    of the most touched level's count. *)
Theorem sr_levels_sound candles w pct min_touches cluster_pct buckets levels :
  1 <= min_touches -> detect_sr_levels candles w pct min_touches cluster_pct buckets = Ok levels ->
  exists m, (forall l, l ∈ levels -> exists p,
      SRLevel.price l = pyround p 6
      /\ (SRLevel.level_type l = "RESISTANCE" \/ SRLevel.level_type l = "SUPPORT")
      /\ min_touches <= SRLevel.touches l <= m
      /\ counts_touches pct p (sr_wicks candles (SRLevel.level_type l)) (SRLevel.touches l) (SRLevel.last_touch_bar l)
      /\ int_truediv (SRLevel.touches l) m = Ok (SRLevel.strength l))
    /\ (m = 1 \/ exists top, top ∈ levels /\ SRLevel.touches top = m).
Proof.
  intros Hmin. unfold detect_sr_levels. destruct (_ <? _)%nat.
  { intros [= <-]. exists 1. split; [set_solver|by left]. }
  intros Hd. do 6 bind_inv Hd. destruct a4 as [pivot_resistance pivot_support]. do 2 bind_inv Hd. revert Hd.
  destruct (foldl _ (foldl _ _ _) _) as [candidates max_touches] eqn:Hacc. intros Hd. bind_inv Hd. injection Hd as <-.
  destruct (count_steps pct min_touches "RESISTANCE" (sr_wicks candles) a4 ([], 1)) as [Hok1 Hm1];
    [by left|constructor|by split_and!; [|constructor|left]|].
  destruct (count_steps pct min_touches "SUPPORT" (sr_wicks candles) a5 _ (or_intror eq_refl) Hok1 Hm1) as [Hok Hm].
  change (sr_wicks candles "SUPPORT") with (series OHLCVCandle.low candles) in Hok, Hm.
  change (sr_wicks candles "RESISTANCE") with (series OHLCVCandle.high candles) in Hok, Hm.
  rewrite Hacc in Hok, Hm. cbn [fst snd] in Hok, Hm. destruct Hm as (Hm & Hle & Htop).
  apply mapM_result in Ha7. exists max_touches. setoid_rewrite py_sorted_perm. split.
  - intros l Hl. destruct (Forall2_elem_r _ _ _ _ Ha7 Hl) as ([[[p kind] tc] last_bar] & Hc & Hlv).
    rewrite Forall_forall in Hok, Hle. destruct (Hok _ Hc) as (Hk & Ht & Hct). pose proof (Hle _ Hc).
    unfold level_of in Hlv. bind_inv Hlv. injection Hlv as <-. exists p. by split_and!.
  - destruct Htop as [?|Htop]; [by left|right]. apply Exists_exists in Htop as (c & Hc & Ht).
    destruct (Forall2_elem_l _ _ _ _ Ha7 Hc) as (l & Hl & Hlv). exists l. split; [done|].
    destruct c as [[[p kind] tc] last_bar]. unfold level_of in Hlv. bind_inv Hlv. by injection Hlv as <-.
Qed.
End EngineFacts.

(** ** Samples *)

#[local] Instance sample_min : NumPyMin := { np_min l := foldr pymin f_inf l }.

(** A TA-Lib with one pattern, which sees a hammer on the last of ten bars,
    and a function that raises. *)
#[local] Instance sample_cdl : CandlePatterns := {
  cdl_functions :=
    [("CDLDOJI", fun _ _ _ _ => Raise (OtherError "inputs are all NaN"));
     ("CDLHAMMER", fun o _ _ _ => Ok (repeat 0 (length o - 1) ++ [200]))];
}.

Definition bar (time high low close : Z) : OHLCVCandle.t :=
  OHLCVCandle.mk time "INFY" "NSE" (dec close 0) (dec high 0) (dec low 0) (dec close 0) 1000.

Definition minute_bars (n : nat) : list OHLCVCandle.t :=
  (fun i => bar (4 * HOUR + i * MINUTE) 10 9 10) <$> seqZ 0 (Z.of_nat n).

(** The first minute is the range; the candle that starts with the second one
    still counts, the third breaks out. *)
Definition orb_bars : list OHLCVCandle.t :=
  [bar (4 * HOUR) 10 9 10; bar (4 * HOUR + MINUTE) 12 9 11; bar (4 * HOUR + 2 * MINUTE) 15 12 14].

Definition orb_state_of (candles : list OHLCVCandle.t) (minutes : Z) (open : option Z) : ORBState.t :=
  default (ORBState.mk f_zero f_zero f_zero 0 false None None) (detect_orb candles minutes open).

Lemma orb_first_breakout_witness :
  ORBState.breakout_direction (orb_state_of orb_bars 1 None) = Some 1
  /\ flt (ORBState.orb_high (orb_state_of orb_bars 1 None)) (dec 10 0) = false.
Proof.
  split; [by vm_compute|].
  refine (proj1 (proj1 (orb_first_breakout orb_bars 1 None (bar (4 * HOUR + 2 * MINUTE) 15 12 14)
    (orb_state_of orb_bars 1 None) _ _ _) (bar (4 * HOUR) 10 9 10) _ _)).
  - reflexivity.
  - vm_compute. reflexivity.
  - vm_compute. reflexivity.
  - by left.
  - by vm_compute.
Defined.

Definition one_timeframe : dict string (list OHLCVCandle.t) := [("5m", minute_bars 10)].

Definition one_timeframe_patterns : MultiTimeframePatterns.t :=
  match compute_multi_timeframe (H := sample_numpy) 0 "INFY" "NSE" one_timeframe 15 None 100 with
  | Ok mtf => mtf
  | Raise _ => MultiTimeframePatterns.mk "" "" 0 [] [] []
  end.

Definition pattern_context : SignalContext.t :=
  let c := sample_context (dec 50 0) (dec 1 0) (dec 1 0) (dec 1 0) in
  SignalContext.mk (SignalContext.symbol c) (SignalContext.exchange c) "LONG" (SignalContext.strategy_id c)
    (SignalContext.regime c) (SignalContext.indicator_values c) (SignalContext.pattern_snapshot c)
    (Some one_timeframe_patterns) (SignalContext.current_price c) (SignalContext.current_volume c)
    (SignalContext.avg_volume c) (SignalContext.atr c) (SignalContext.is_snapshot_window c)
    (SignalContext.session_open c) (SignalContext.session_close c) (SignalContext.evaluated_at c)
    (SignalContext.candles c) (SignalContext.sentiment c).

Lemma gate_5_follows_engine_witness :
  GateResult.passed (gate_5_multi_timeframe pattern_context) = true.
Proof.
  apply (gate_5_follows_engine (H := sample_numpy) 0 "INFY" "NSE" one_timeframe 15 None 100 one_timeframe_patterns
    pattern_context); [vm_compute; reflexivity|reflexivity|].
  exists "CDLHAMMER". split; vm_compute; [reflexivity|discriminate].
Defined.

Definition peak_bars : list OHLCVCandle.t :=
  [bar 0 10 9 10; bar MINUTE 12 9 10; bar (2 * MINUTE) 10 9 10].

Definition peak_levels : list SRLevel.t :=
  match detect_sr_levels (H := sample_numpy) peak_bars 1 SR_TOUCH_TOLERANCE_PCT 1 SR_CLUSTER_TOLERANCE_PCT 0 with
  | Ok l => l
  | Raise _ => []
  end.

Lemma sr_levels_sound_witness :
  map SRLevel.price peak_levels = [dec 12 0]
  /\ exists m, m = 1 \/ exists top, top ∈ peak_levels /\ SRLevel.touches top = m.
Proof.
  split; [by vm_compute|].
  destruct (sr_levels_sound (H := sample_numpy) peak_bars 1 SR_TOUCH_TOLERANCE_PCT 1 SR_CLUSTER_TOLERANCE_PCT 0
    peak_levels) as (m & _ & Hm); [lia|vm_compute; reflexivity|].
  exists m. exact Hm.
Defined.

(** ** Defects *)

(** With a single timeframe every pattern is confirmed, and gate 5, which
    asks for two timeframes, passes. *)
Example single_timeframe_confirms :
  length (MultiTimeframePatterns.snapshots one_timeframe_patterns) = 1%nat
  /\ MultiTimeframePatterns.confirmed_bullish_patterns one_timeframe_patterns = ["CDLHAMMER"]
  /\ GateResult.passed (gate_5_multi_timeframe pattern_context) = true.
Proof. split_and!; vm_compute; reflexivity. Qed.

(** The window includes the candle that starts when it ends: a range of one
    minute takes two one-minute candles, so the high of the second one is not
    a breakout but raises the range. *)
Example orb_window_includes_cutoff :
  ORBState.orb_high (orb_state_of (take 2 orb_bars) 1 None) = dec 12 0
  /\ ORBState.breakout_direction (orb_state_of (take 2 orb_bars) 1 None) = None.
Proof. split; vm_compute; reflexivity. Qed.

(** A Sydney session in summer opens at 23:00 UTC.  The candles before
    midnight are dropped by the filter on the UTC date, also when the caller
    gives the open: there is no range at all. *)
Definition sydney_bars : list OHLCVCandle.t :=
  (fun i => bar (23 * HOUR + i * 30 * MINUTE) 10 9 10) <$> seqZ 0 6.

Example session_over_midnight_has_no_range :
  ORBState.range_formed (orb_state_of sydney_bars 15 (Some (23 * HOUR))) = false
  /\ ORBState.session_open (orb_state_of sydney_bars 15 None) = 24 * HOUR.
Proof. split; vm_compute; reflexivity. Qed.
