(* ===== verification/Indicators.v ===== *)
(** * Technical indicators ([shared/indicators])

    The registry ([registry.py]), the indicators ([definitions/]), the engine
    ([engine.py]) and the Redis cache ([cache.py]).  TA-Lib and the functions of
    NumPy are parameters; the indicators that the code computes itself (VWAP
    and its bands, volume delta, pivot points) are translated.  Candle times
    are UTC. *)

From Stdlib Require Import SpecFloat.
From S2P Require Import Prelude PyFloat PyDict Json PyText Redis Constants MarketData PyDate NumPy Regime Signals Backtesting.
Local Open Scope Z_scope.

(** ** Data ([models.py]) *)

Module CandleArrays.
Record t := mk {
  time : list Z;
  open : list float;
  high : list float;
  low : list float;
  close : list float;
  volume : list float;
}.

Definition len (self : t) : nat := length (time self).
End CandleArrays.

(** The volumes are integers; a float64 array holds them rounded. *)
Definition candle_arrays_from_candles (candles : list OHLCVCandle.t) : result CandleArrays.t :=
  volume ← mapM (fun c => float_of_int (OHLCVCandle.volume c)) candles;
  mret (CandleArrays.mk (map OHLCVCandle.time candles) (map OHLCVCandle.open candles) (map OHLCVCandle.high candles)
          (map OHLCVCandle.low candles) (map OHLCVCandle.close candles) volume).

Definition IndicatorOutputDict : Type := dict string (option float).

Module IndicatorSnapshot.
Record t := mk {
  symbol : string;
  exchange : string;
  timeframe : string;
  candle_time : Z;
  computed_at : Z;
  values : dict string IndicatorOutputDict;
}.
End IndicatorSnapshot.

(** ** Registry ([registry.py]) *)

Module IndicatorSpec.
Record t := mk {
  name : string;
  min_candles : nat;
  compute : CandleArrays.t -> result IndicatorOutputDict;
}.
End IndicatorSpec.

Definition Registry : Type := dict string IndicatorSpec.t.

(** [DuplicateIndicatorError] is an exception class of the platform. *)
Definition register_indicator (spec : IndicatorSpec.t) (registry : Registry) : result Registry :=
  if dmem (IndicatorSpec.name spec) registry then
    Raise (OtherError ("indicator '" +:+ IndicatorSpec.name spec +:+ "' is already registered"))
  else mret (dset (IndicatorSpec.name spec) spec registry).

(** ** Helpers ([utils.py]) *)

Definition last_value (arr : list float) : option float :=
  match last arr with
  | None => None
  | Some value => if is_nan value then None else Some value
  end.

(** ** Indicators ([definitions/]) *)

(** The TA-Lib functions that [TALib] does not have; [BBANDS_dev] takes the
    deviations, [STOCH] returns the slow %K and %D. *)
Class TALibIndicators := {
  talib_MACD : list float -> Z -> Z -> Z -> list float * list float * list float;
  talib_STOCH : list float -> list float -> list float -> Z -> Z -> Z -> list float * list float;
  talib_CCI : list float -> list float -> list float -> Z -> list float;
  talib_MFI : list float -> list float -> list float -> list float -> Z -> list float;
  talib_OBV : list float -> list float -> list float;
  talib_ROC : list float -> Z -> list float;
  talib_WILLR : list float -> list float -> list float -> Z -> list float;
  talib_BBANDS_dev : list float -> Z -> float -> float -> list float * list float * list float;
}.

(** [np.cumsum] and [np.nanstd]. *)
Class NumPySeries := {
  np_cumsum : list float -> list float;
  np_nanstd : list float -> float;
}.

(** [f"EMA_{period}"] *)
Definition with_period (name : string) (period : Z) : string := name +:+ "_" +:+ pretty period.

Section Definitions.
Context `{TALib} `{TALibIndicators} `{NumPyStats} `{NumPySeries}.

Definition ema_compute (c : CandleArrays.t) : result IndicatorOutputDict :=
  mret (map (fun period => (with_period "EMA" period, last_value (talib_EMA (CandleArrays.close c) period))) EMA_PERIODS).

Definition adx_compute (c : CandleArrays.t) : result IndicatorOutputDict :=
  mret [(with_period "ADX" ADX_PERIOD,
         last_value (talib_ADX (CandleArrays.high c) (CandleArrays.low c) (CandleArrays.close c) ADX_PERIOD))].

Definition atr_compute (c : CandleArrays.t) : result IndicatorOutputDict :=
  mret [(with_period "ATR" ATR_PERIOD,
         last_value (talib_ATR (CandleArrays.high c) (CandleArrays.low c) (CandleArrays.close c) ATR_PERIOD))].

Definition bbands_compute (c : CandleArrays.t) : result IndicatorOutputDict :=
  let '(upper, middle, lower) := talib_BBANDS_dev (CandleArrays.close c) BBANDS_PERIOD BBANDS_STDDEV BBANDS_STDDEV in
  mret [("BB_UPPER", last_value upper); ("BB_MIDDLE", last_value middle); ("BB_LOWER", last_value lower)].

Definition cci_compute (c : CandleArrays.t) : result IndicatorOutputDict :=
  mret [(with_period "CCI" CCI_PERIOD,
         last_value (talib_CCI (CandleArrays.high c) (CandleArrays.low c) (CandleArrays.close c) CCI_PERIOD))].

Definition macd_compute (c : CandleArrays.t) : result IndicatorOutputDict :=
  let '(macd, signal, hist) := talib_MACD (CandleArrays.close c) MACD_FAST_PERIOD MACD_SLOW_PERIOD MACD_SIGNAL_PERIOD in
  mret [("MACD", last_value macd); ("MACD_SIGNAL", last_value signal); ("MACD_HIST", last_value hist)].

Definition mfi_compute (c : CandleArrays.t) : result IndicatorOutputDict :=
  mret [(with_period "MFI" MFI_PERIOD,
         last_value (talib_MFI (CandleArrays.high c) (CandleArrays.low c) (CandleArrays.close c)
                       (CandleArrays.volume c) MFI_PERIOD))].

Definition obv_compute (c : CandleArrays.t) : result IndicatorOutputDict :=
  mret [("OBV", last_value (talib_OBV (CandleArrays.close c) (CandleArrays.volume c)))].

Definition roc_compute (c : CandleArrays.t) : result IndicatorOutputDict :=
  mret [(with_period "ROC" ROC_PERIOD, last_value (talib_ROC (CandleArrays.close c) ROC_PERIOD))].

Definition rsi_compute (c : CandleArrays.t) : result IndicatorOutputDict :=
  mret [(with_period "RSI" RSI_PERIOD, last_value (talib_RSI (CandleArrays.close c) RSI_PERIOD))].

Definition stochastic_compute (c : CandleArrays.t) : result IndicatorOutputDict :=
  let '(slowk, slowd) := talib_STOCH (CandleArrays.high c) (CandleArrays.low c) (CandleArrays.close c)
                           STOCH_FASTK_PERIOD STOCH_SLOWK_PERIOD STOCH_SLOWD_PERIOD in
  mret [("STOCH_K", last_value slowk); ("STOCH_D", last_value slowd)].

Definition willr_compute (c : CandleArrays.t) : result IndicatorOutputDict :=
  mret [(with_period "WILLR" WILLR_PERIOD,
         last_value (talib_WILLR (CandleArrays.high c) (CandleArrays.low c) (CandleArrays.close c) WILLR_PERIOD))].

(** [np.where(close >= open, volume, -volume)] *)
Definition signed_volume (c : CandleArrays.t) : list float :=
  zip_with (fun oc v => if (oc.1 <=? oc.2)%pf then v else (- v)%pf)
    (zip (CandleArrays.open c) (CandleArrays.close c)) (CandleArrays.volume c).

Definition volume_delta_compute (c : CandleArrays.t) : result IndicatorOutputDict :=
  last_signed ← py_index (signed_volume c) (-1);
  mret [("VOLUME_DELTA", Some last_signed); ("VOLUME_DELTA_CUMULATIVE", Some (np_sum (signed_volume c)))].

(** The candle before the last one. *)
Definition pivot_points_compute (c : CandleArrays.t) : result IndicatorOutputDict :=
  high ← py_index (CandleArrays.high c) (-2);
  low ← py_index (CandleArrays.low c) (-2);
  close ← py_index (CandleArrays.close c) (-2);
  let pivot_range := (high - low)%pf in
  let pivot := fdiv ((high + low) + close)%pf (dec 30 1) in
  let two := dec 2 0 in
  let cam (n : Z) := fdiv (pivot_range * CAMARILLA_RANGE_MULTIPLIER)%pf (dec n 0) in
  mret [("PIVOT", Some pivot);
        ("PIVOT_R1", Some (two * pivot - low)%pf); ("PIVOT_S1", Some (two * pivot - high)%pf);
        ("PIVOT_R2", Some (pivot + pivot_range)%pf); ("PIVOT_S2", Some (pivot - pivot_range)%pf);
        ("PIVOT_R3", Some (high + two * (pivot - low))%pf); ("PIVOT_S3", Some (low - two * (high - pivot))%pf);
        ("PIVOT_FIB_R1", Some (pivot + dec 382 3 * pivot_range)%pf);
        ("PIVOT_FIB_S1", Some (pivot - dec 382 3 * pivot_range)%pf);
        ("PIVOT_FIB_R2", Some (pivot + dec 618 3 * pivot_range)%pf);
        ("PIVOT_FIB_S2", Some (pivot - dec 618 3 * pivot_range)%pf);
        ("PIVOT_FIB_R3", Some (pivot + dec 10 1 * pivot_range)%pf);
        ("PIVOT_FIB_S3", Some (pivot - dec 10 1 * pivot_range)%pf);
        ("PIVOT_CAM_R1", Some (close + cam 12)%pf); ("PIVOT_CAM_S1", Some (close - cam 12)%pf);
        ("PIVOT_CAM_R2", Some (close + cam 6)%pf); ("PIVOT_CAM_S2", Some (close - cam 6)%pf);
        ("PIVOT_CAM_R3", Some (close + cam 4)%pf); ("PIVOT_CAM_S3", Some (close - cam 4)%pf);
        ("PIVOT_CAM_R4", Some (close + cam 2)%pf); ("PIVOT_CAM_S4", Some (close - cam 2)%pf)].

(** [session_dates == session_dates[-1]]; an empty array has no last element. *)
Definition current_session_mask (c : CandleArrays.t) : result (list bool) :=
  last_time ← py_index (CandleArrays.time c) (-1);
  mret (map (fun t => t / DAY =? last_time / DAY) (CandleArrays.time c)).

(** [a[mask]] *)
Definition masked_by (mask : list bool) (a : list float) : list float :=
  omap (fun bx => if bx.1 : bool then Some bx.2 else None) (zip mask a).

Definition typical_price (mask : list bool) (c : CandleArrays.t) : list float :=
  zip_with (fun hl x => fdiv ((hl.1 + hl.2) + x)%pf (dec 30 1))
    (zip (masked_by mask (CandleArrays.high c)) (masked_by mask (CandleArrays.low c)))
    (masked_by mask (CandleArrays.close c)).

(** [np.where(cumulative_vol > 0, np.cumsum(typical_price * volume) / cumulative_vol, np.nan)] *)
Definition session_vwap_series (c : CandleArrays.t) : result (list float) :=
  mask ← current_session_mask c;
  let volume := masked_by mask (CandleArrays.volume c) in
  let cumulative_vol := np_cumsum volume in
  let cumulative_value := np_cumsum (zip_with fmul (typical_price mask c) volume) in
  mret (zip_with (fun value vol => if (f_zero <? vol)%pf then fdiv value vol else f_nan) cumulative_value cumulative_vol).

Definition vwap_compute (c : CandleArrays.t) : result IndicatorOutputDict :=
  series ← session_vwap_series c; mret [("VWAP", last_value series)].

Definition vwap_bands_compute (c : CandleArrays.t) : result IndicatorOutputDict :=
  series ← session_vwap_series c;
  match last_value series with
  | None => mret [("VWAP_BAND_UPPER", None); ("VWAP_BAND_LOWER", None)]
  | Some vwap =>
      mask ← current_session_mask c;
      let deviation := np_nanstd (zip_with fsub (typical_price mask c) series) in
      mret [("VWAP_BAND_UPPER", Some (vwap + VWAP_BAND_STDDEV_MULTIPLIER * deviation)%pf);
            ("VWAP_BAND_LOWER", Some (vwap - VWAP_BAND_STDDEV_MULTIPLIER * deviation)%pf)]
  end.

(** The decorated functions, in the order of the imports of [__init__.py]. *)
Definition definitions : list IndicatorSpec.t :=
  [IndicatorSpec.mk "ADX" (Z.to_nat ADX_PERIOD) adx_compute; IndicatorSpec.mk "ATR" (Z.to_nat ATR_PERIOD) atr_compute;
   IndicatorSpec.mk "BBANDS" (Z.to_nat BBANDS_PERIOD) bbands_compute;
   IndicatorSpec.mk "CCI" (Z.to_nat CCI_PERIOD) cci_compute;
   IndicatorSpec.mk "EMA" (Z.to_nat (foldl Z.max 0 EMA_PERIODS)) ema_compute;
   IndicatorSpec.mk "MACD" (Z.to_nat (MACD_SLOW_PERIOD + MACD_SIGNAL_PERIOD)) macd_compute;
   IndicatorSpec.mk "MFI" (Z.to_nat MFI_PERIOD) mfi_compute; IndicatorSpec.mk "OBV" 2 obv_compute;
   IndicatorSpec.mk "PIVOT_POINTS" 2 pivot_points_compute; IndicatorSpec.mk "ROC" (Z.to_nat ROC_PERIOD) roc_compute;
   IndicatorSpec.mk "RSI" (Z.to_nat RSI_PERIOD) rsi_compute;
   IndicatorSpec.mk "STOCHASTIC" (Z.to_nat (STOCH_FASTK_PERIOD + STOCH_SLOWK_PERIOD)) stochastic_compute;
   IndicatorSpec.mk "VOLUME_DELTA" 1 volume_delta_compute; IndicatorSpec.mk "VWAP" 1 vwap_compute;
   IndicatorSpec.mk "VWAP_BANDS" 2 vwap_bands_compute; IndicatorSpec.mk "WILLR" (Z.to_nat WILLR_PERIOD) willr_compute].

(** The registry after the import of the package. *)
Definition builtin_registry : result Registry :=
  for_each (fun registry spec => register_indicator spec registry) [] definitions.
End Definitions.

(** ** Engine ([engine.py]) *)

Definition compute_one (arrays : CandleArrays.t) (results : dict string IndicatorOutputDict)
    (p : string * IndicatorSpec.t) : result (dict string IndicatorOutputDict) :=
  if (CandleArrays.len arrays <? IndicatorSpec.min_candles p.2)%nat then mret (dset p.1 [] results)
  else out ← IndicatorSpec.compute p.2 arrays; mret (dset p.1 out results).

Definition compute_all (registry : Registry) (candles : list OHLCVCandle.t)
    : result (dict string IndicatorOutputDict) :=
  arrays ← candle_arrays_from_candles candles;
  for_each (compute_one arrays) [] registry.

(** [now] is the clock. *)
Definition compute_snapshot (registry : Registry) (now : Z) (symbol exchange timeframe : string)
    (candles : list OHLCVCandle.t) : result IndicatorSnapshot.t :=
  values ← compute_all registry candles;
  let candle_time := match last candles with Some c => OHLCVCandle.time c | None => now end in
  mret (IndicatorSnapshot.mk symbol exchange timeframe candle_time now values).

(** ** Cache ([cache.py]) *)

Definition cache_key (symbol exchange timeframe : string) : string :=
  "indicators:" +:+ exchange +:+ ":" +:+ symbol +:+ ":" +:+ timeframe.

Definition output_json (o : IndicatorOutputDict) : json :=
  JObj (map (fun kv => (kv.1, match kv.2 with Some x => JFloat x | None => JNull end)) o).

Definition snapshot_json (s : IndicatorSnapshot.t) : json :=
  JObj [("symbol", JStr (IndicatorSnapshot.symbol s)); ("exchange", JStr (IndicatorSnapshot.exchange s));
        ("timeframe", JStr (IndicatorSnapshot.timeframe s));
        ("candle_time", JStr (isoformat (IndicatorSnapshot.candle_time s)));
        ("computed_at", JStr (isoformat (IndicatorSnapshot.computed_at s)));
        ("values", JObj (map (fun kv => (kv.1, output_json kv.2)) (IndicatorSnapshot.values s)))].

(** The values of the model are dictionaries of floats and nulls: what the
    annotated type says; another document has no value here. *)
Definition float_or_null (v : json) : result (option float) :=
  match v with JFloat x => mret (Some x) | JNull => mret None | _ => Raise (TypeError "float expected") end.

Definition named {A} (f : json -> result A) (kv : string * json) : result (string * A) := v ← f kv.2; mret (kv.1, v).

Definition json_output (v : json) : result IndicatorOutputDict :=
  match v with JObj fields => mapM (named float_or_null) fields | _ => Raise (TypeError "dict expected") end.

Definition json_values (v : json) : result (dict string IndicatorOutputDict) :=
  match v with JObj fields => mapM (named json_output) fields | _ => Raise (TypeError "dict expected") end.

Definition iso_time_field (key : string) (payload : json) : result Z :=
  text ← jfield_str key payload; p ← fromisoformat text; mret p.1.

Definition decode_snapshot (raw : string) : result IndicatorSnapshot.t :=
  payload ← json_loads raw;
  symbol ← jfield_str "symbol" payload;
  exchange ← jfield_str "exchange" payload;
  timeframe ← jfield_str "timeframe" payload;
  candle_time ← iso_time_field "candle_time" payload;
  computed_at ← iso_time_field "computed_at" payload;
  values ← jfield "values" payload ≫= json_values;
  mret (IndicatorSnapshot.mk symbol exchange timeframe candle_time computed_at values).

Section Cache.
Context {R : Type} `{RedisKV R}.

Definition store_snapshot (snapshot : IndicatorSnapshot.t) : M R unit :=
  redis_set (cache_key (IndicatorSnapshot.symbol snapshot) (IndicatorSnapshot.exchange snapshot)
               (IndicatorSnapshot.timeframe snapshot))
    (json_dumps (snapshot_json snapshot)) (Some INDICATOR_CACHE_TTL_SECONDS).

(** The client decodes responses, so that [str(raw)] is the stored text. *)
Definition load_snapshot (symbol exchange timeframe : string) : M R (option IndicatorSnapshot.t) :=
  raw ← redis_get (cache_key symbol exchange timeframe);
  match raw with
  | None => mret None
  | Some text => snapshot ← M_lift (decode_snapshot text); mret (Some snapshot)
  end.
End Cache.

(** ** What the engine computes *)

(** The output of one indicator: empty below its minimum history. *)
Definition output_of (arrays : CandleArrays.t) (spec : IndicatorSpec.t) : result IndicatorOutputDict :=
  if (CandleArrays.len arrays <? IndicatorSpec.min_candles spec)%nat then mret [] else IndicatorSpec.compute spec arrays.

Lemma compute_fold arrays (registry : Registry) results values :
  NoDup (dkeys registry) -> (forall k, k ∈ dkeys registry -> dget k results = None) ->
  for_each (compute_one arrays) results registry = Ok values ->
  (forall k, k ∉ dkeys registry -> dget k values = dget k results)
  /\ forall k spec, dget k registry = Some spec ->
       exists out, output_of arrays spec = Ok out /\ dget k values = Some out.
Proof.
  revert results. induction registry as [|[k spec] registry IH]; intros results Hn Hf.
  { intros [= <-]. split; [done|]. by intros. }
  change (dkeys ((k, spec) :: registry)) with (k :: dkeys registry) in *. apply NoDup_cons in Hn as [Hk Hn].
  cbn [for_each]. intros Hv. bind_inv Hv.
  assert (Hout : exists out, output_of arrays spec = Ok out /\ a = dset k out results).
  { unfold compute_one in Ha. cbn [fst snd] in Ha. unfold output_of. destruct (_ <? _)%nat.
    - injection Ha as <-. by eexists.
    - bind_inv Ha. injection Ha as <-. by eexists. }
  destruct Hout as (out & Hout & ->).
  destruct (IH (dset k out results) Hn) as [Hother Hget]; [|done|].
  { intros k' Hk'. rewrite dget_dset_ne by (intros ->; done). apply Hf. by right. }
  split.
  - intros k' Hk'. rewrite Hother by (intros ?; apply Hk'; by right). apply dget_dset_ne. intros ->. apply Hk'. by left.
  - intros k' spec' Hs. cbn [dget] in Hs. case_decide as E.
    + subst k'. injection Hs as <-. exists out. split; [done|]. rewrite Hother by done. apply dget_dset_eq.
    + by apply Hget.
Qed.

Lemma arrays_len candles arrays : candle_arrays_from_candles candles = Ok arrays -> CandleArrays.len arrays = length candles.
Proof. unfold candle_arrays_from_candles. intros Ha. bind_inv Ha. injection Ha as <-. apply length_map. Qed.

(** Every registered indicator has its output, empty below its minimum. *)
Lemma compute_all_output (registry : Registry) candles values name spec :
  NoDup (dkeys registry) -> compute_all registry candles = Ok values -> dget name registry = Some spec ->
  exists arrays out, candle_arrays_from_candles candles = Ok arrays /\ output_of arrays spec = Ok out
    /\ dget name values = Some out.
Proof.
  intros Hn Hc Hs. unfold compute_all in Hc. bind_inv Hc.
  apply compute_fold in Hc as [_ Hget]; [|done|done]. destruct (Hget _ _ Hs) as (out & Ho & Hv). by exists a, out.
Qed.

Lemma registered_get (specs : list IndicatorSpec.t) spec :
  NoDup (dkeys (map (fun spec => (IndicatorSpec.name spec, spec)) specs)) -> spec ∈ specs ->
  dget (IndicatorSpec.name spec) (map (fun spec => (IndicatorSpec.name spec, spec)) specs) = Some spec.
Proof.
  intros Hn Hs. apply elem_dget; [exact Hn|]. apply list_elem_of_In, in_map_iff. exists spec.
  split; [done|by apply list_elem_of_In].
Qed.

Section EngineFacts.
Context `{TALib} `{TALibIndicators} `{NumPyStats} `{NumPySeries}.

Lemma builtin_is_definitions :
  builtin_registry = Ok (map (fun spec => (IndicatorSpec.name spec, spec)) definitions).
Proof. reflexivity. Qed.

(** Importing the package registers the sixteen indicators, each under
    its own name and with its function: no definition shadows another and
    none raises [DuplicateIndicatorError]. *)
Theorem builtin_indicators_registered :
  exists registry, builtin_registry = Ok registry /\ NoDup (dkeys registry) /\ length registry = 16%nat
    /\ forall spec, spec ∈ definitions -> dget (IndicatorSpec.name spec) registry = Some spec.
Proof.
  exists (map (fun spec => (IndicatorSpec.name spec, spec)) definitions).
  assert (Hn : NoDup (dkeys (map (fun spec => (IndicatorSpec.name spec, spec)) definitions)))
    by (apply (bool_decide_unpack _); reflexivity).
  split_and!; [apply builtin_is_definitions|exact Hn|done|].
  intros spec. exact (registered_get _ _ Hn).
Qed.

Lemma builtin_spec registry : builtin_registry = Ok registry ->
  NoDup (dkeys registry) /\ forall spec, spec ∈ definitions -> dget (IndicatorSpec.name spec) registry = Some spec.
Proof.
  intros Hr. rewrite builtin_is_definitions in Hr. injection Hr as <-.
  assert (Hn : NoDup (dkeys (map (fun spec => (IndicatorSpec.name spec, spec)) definitions)))
    by (apply (bool_decide_unpack _); reflexivity).
  split; [exact Hn|]. intros spec. exact (registered_get _ _ Hn).
Qed.

Definition spec_EMA : IndicatorSpec.t := IndicatorSpec.mk "EMA" 200 ema_compute.
Definition spec_VOLUME_DELTA : IndicatorSpec.t := IndicatorSpec.mk "VOLUME_DELTA" 1 volume_delta_compute.

(** From the candles to gate 2: with the indicators of the engine, fewer
    than 200 candles leave EMA out of the vote, the 9 and 21 period averages
    included, because one minimum serves all four periods. *)
Theorem short_history_has_no_ema_vote registry candles (ctx : SignalContext.t) :
  builtin_registry = Ok registry -> compute_all registry candles = Ok (SignalContext.indicator_values ctx) ->
  (length candles < 200)%nat -> "EMA" ∉ agreeing_indicators ctx.
Proof.
  intros Hr Hc Hlen. destruct (builtin_spec _ Hr) as [Hn Hspec].
  assert (Hin : spec_EMA ∈ definitions) by (apply list_elem_of_In; cbn; tauto).
  destruct (compute_all_output _ _ _ _ _ Hn Hc (Hspec _ Hin)) as (arrays & out & Ha & Ho & Hv).
  apply arrays_len in Ha. unfold output_of in Ho. cbn [IndicatorSpec.min_candles spec_EMA] in Ho.
  destruct (Nat.ltb_spec (CandleArrays.len arrays) 200); [|lia]. injection Ho as <-.
  change (IndicatorSpec.name spec_EMA) with "EMA" in Hv. intros He. apply list_elem_of_In, filter_In in He as [_ He].
  unfold check_indicator in He. cbn [String.eqb Ascii.eqb Bool.eqb] in He. unfold indicator in He. unfold IndicatorOutputDict in Hv. by rewrite Hv in He.
Qed.

Lemma last_zip_with {A B C} (f : A -> B -> C) l k x y :
  last l = Some x -> last k = Some y -> length l = length k -> last (zip_with f l k) = Some (f x y).
Proof.
  rewrite !last_lookup, length_zip_with. intros Hx Hy Hlen. rewrite lookup_zip_with.
  rewrite Nat.min_l by lia. rewrite Hx. cbn. by rewrite Hlen, Hy.
Qed.

Lemma py_index_last {A} (l : list A) x : last l = Some x -> py_index l (-1) = Ok x.
Proof.
  rewrite last_lookup. intros Hl. pose proof (lookup_lt_Some _ _ _ Hl) as Hlt. unfold py_index. cbn [Z.ltb Z.compare].
  destruct (Z.ltb_spec (-1 + Z.of_nat (length l)) 0); [lia|].
  replace (Z.to_nat (-1 + Z.of_nat (length l))) with (Nat.pred (length l)) by lia. by rewrite Hl.
Qed.

Lemma mapM_length_last {A B} (f : A -> result B) l k : mapM f l = Ok k ->
  length k = length l /\ forall x, last l = Some x -> exists y, f x = Ok y /\ last k = Some y.
Proof.
  revert k. induction l as [|x l IH]; intros k Hk; [by injection Hk as <-|].
  cbn in Hk. bind_inv Hk. bind_inv Hk. injection Hk as <-. destruct (IH _ Ha0) as [Hl Hlast]. split; [cbn; lia|].
  intros y Hy. destruct l as [|z l]; cbn in Hy.
  - injection Hy as <-. exists a. split; [done|]. by destruct a0.
  - destruct (Hlast y Hy) as (u & Hu & Hlu). exists u. split; [done|]. destruct a0; [done|]. by rewrite last_cons_cons.
Qed.

(** From the candles to gate 3: the order flow of the gate is the volume
    of the last candle, counted for the buyers when it closes at or above its
    open and for the sellers otherwise. *)
Theorem order_flow_is_last_candle registry candles last_candle (ctx : SignalContext.t) :
  builtin_registry = Ok registry -> compute_all registry candles = Ok (SignalContext.indicator_values ctx) ->
  last candles = Some last_candle ->
  exists v, float_of_int (OHLCVCandle.volume last_candle) = Ok v
    /\ vol_delta_of ctx = Some (if (OHLCVCandle.open last_candle <=? OHLCVCandle.close last_candle)%pf then v else (- v)%pf)
    /\ (flt f_zero v = true -> is_long ctx = true ->
        delta_matches ctx (if (OHLCVCandle.open last_candle <=? OHLCVCandle.close last_candle)%pf then v else (- v)%pf)
        = fle (OHLCVCandle.open last_candle) (OHLCVCandle.close last_candle)).
Proof.
  intros Hr Hc Hlast. destruct (builtin_spec _ Hr) as [Hn Hspec].
  assert (Hin : spec_VOLUME_DELTA ∈ definitions) by (apply list_elem_of_In; cbn; tauto).
  destruct (compute_all_output _ _ _ _ _ Hn Hc (Hspec _ Hin)) as (arrays & out & Ha & Ho & Hv).
  pose proof (arrays_len _ _ Ha) as Hlen. unfold candle_arrays_from_candles in Ha. bind_inv Ha. injection Ha as <-.
  destruct (mapM_length_last _ _ _ Ha0) as [Hla Hlastv]. destruct (Hlastv _ Hlast) as (v & Hfv & Hlv). exists v.
  assert (Hsigned : last (signed_volume (CandleArrays.mk (map OHLCVCandle.time candles) (map OHLCVCandle.open candles)
      (map OHLCVCandle.high candles) (map OHLCVCandle.low candles) (map OHLCVCandle.close candles) a))
    = Some (if (OHLCVCandle.open last_candle <=? OHLCVCandle.close last_candle)%pf then v else (- v)%pf)).
  { unfold signed_volume. cbn [CandleArrays.open CandleArrays.close CandleArrays.volume].
    rewrite (last_zip_with _ _ _ (OHLCVCandle.open last_candle, OHLCVCandle.close last_candle) v); [done| |done|].
    - apply last_zip_with; [| |by rewrite !length_map].
      all: change (map ?f candles) with (f <$> candles); by rewrite fmap_last, Hlast.
    - rewrite length_zip_with, !length_map. lia. }
  split_and!; [done| |].
  - unfold output_of in Ho. cbn [IndicatorSpec.min_candles spec_VOLUME_DELTA] in Ho.
    destruct (Nat.ltb_spec (CandleArrays.len (CandleArrays.mk (map OHLCVCandle.time candles) (map OHLCVCandle.open candles)
      (map OHLCVCandle.high candles) (map OHLCVCandle.low candles) (map OHLCVCandle.close candles) a)) 1) as [Hz|Hz].
    { destruct candles; [done|]. cbn in Hlen, Hz. unfold CandleArrays.len in Hz. cbn in Hz. lia. }
    cbn [IndicatorSpec.compute spec_VOLUME_DELTA] in Ho. unfold volume_delta_compute in Ho.
    rewrite (py_index_last _ _ Hsigned), bind_ok in Ho. injection Ho as <-.
    unfold vol_delta_of, indicator. change (IndicatorSpec.name spec_VOLUME_DELTA) with "VOLUME_DELTA" in Hv.
    unfold IndicatorOutputDict in Hv. by rewrite Hv.
  - intros Hpos Hlong. unfold delta_matches. rewrite Hlong. unfold is_short. destruct (_ <=? _)%pf.
    + rewrite Hpos. done.
    + assert (Hneg : flt f_zero (- v)%pf = false) by (destruct v as [|[]| |[]]; done). rewrite Hneg.
      unfold is_long in Hlong. apply String.eqb_eq in Hlong. by rewrite Hlong.
Qed.
End EngineFacts.

(** ** The cache *)

Lemma mapM_named {A} (f : json -> result A) (g : A -> json) (l : dict string A) :
  (forall x, f (g x) = Ok x) -> mapM (named f) (map (fun kv => (kv.1, g kv.2)) l) = Ok l.
Proof.
  intros Hfg. induction l as [|[k x] l IH]; [done|]. cbn [map mapM fst snd].
  assert (Hx : named f (k, g x) = Ok (k, x)) by (unfold named; cbn [fst snd]; by rewrite Hfg).
  rewrite Hx, bind_ok, IH. done.
Qed.

(** What survives the text: times that [datetime] can hold, and a document
    whose floats read back and whose keys are distinct. *)
Definition cacheable (s : IndicatorSnapshot.t) : Prop :=
  in_datetime (IndicatorSnapshot.candle_time s / DAY) /\ in_datetime (IndicatorSnapshot.computed_at s / DAY)
  /\ json_ok (snapshot_json s).

Lemma json_values_back values : json_values (JObj (map (fun kv => (kv.1, output_json kv.2)) values)) = Ok values.
Proof.
  apply (mapM_named json_output output_json). intros o. unfold output_json.
  apply (mapM_named float_or_null (fun v => match v with Some x => JFloat x | None => JNull end)). by intros [x|].
Qed.

Lemma decode_back s : cacheable s -> decode_snapshot (json_dumps (snapshot_json s)) = Ok s.
Proof.
  intros (Hc & Hk & Hj). unfold decode_snapshot. rewrite json_round_trip by done. rewrite bind_ok.
  assert (Hct : iso_time_field "candle_time" (snapshot_json s) = Ok (IndicatorSnapshot.candle_time s)).
  { change (iso_time_field "candle_time" (snapshot_json s))
      with (p ← fromisoformat (isoformat (IndicatorSnapshot.candle_time s)); mret (M := result) p.1).
    by rewrite fromisoformat_isoformat. }
  assert (Hcm : iso_time_field "computed_at" (snapshot_json s) = Ok (IndicatorSnapshot.computed_at s)).
  { change (iso_time_field "computed_at" (snapshot_json s))
      with (p ← fromisoformat (isoformat (IndicatorSnapshot.computed_at s)); mret (M := result) p.1).
    by rewrite fromisoformat_isoformat. }
  assert (Hv : (jfield "values" (snapshot_json s) ≫= json_values) = Ok (IndicatorSnapshot.values s))
    by apply json_values_back.
  rewrite Hct, Hcm, Hv. by destruct s.
Qed.

Section CacheFacts.
Context {R : Type} `{RedisKVLaws R}.

(** A stored snapshot is loaded back unchanged under its symbol, exchange
    and timeframe: the values, the missing ones among them, and both times. *)
Theorem indicator_snapshot_round_trip s (r r1 : R) :
  cacheable s -> redis_up r -> store_snapshot s r = (Ok tt, r1) ->
  exists r2, load_snapshot (IndicatorSnapshot.symbol s) (IndicatorSnapshot.exchange s) (IndicatorSnapshot.timeframe s) r1
             = (Ok (Some s), r2).
Proof.
  intros Hs Hup Hst. unfold store_snapshot in Hst.
  set (key := cache_key _ _ _) in Hst. set (text := json_dumps _) in Hst.
  destruct (redis_set_up key text (Some INDICATOR_CACHE_TTL_SECONDS) r Hup) as (r' & Hset & Hup' & Hkv).
  rewrite Hset in Hst. injection Hst as <-. unfold load_snapshot. fold key. unfold mbind, M_bind.
  destruct (redis_get_up key r' Hup') as (r2 & -> & _). rewrite Hkv, lookup_insert_eq. cbv beta iota.
  unfold M_lift, text. rewrite decode_back by done. by exists r2.
Qed.
End CacheFacts.

(** ** Samples *)

#[local] Instance sample_series : NumPySeries := {
  np_cumsum l := (fix go acc l := match l with [] => [] | x :: l => (acc + x)%pf :: go (acc + x)%pf l end) f_zero l;
  np_nanstd _ := f_zero;
}.

#[local] Instance sample_more : TALibIndicators := {
  talib_MACD l _ _ _ := (l, l, l);
  talib_STOCH h _ _ _ _ _ := (h, h);
  talib_CCI h _ _ _ := h;
  talib_MFI h _ _ _ _ := h;
  talib_OBV c _ := c;
  talib_ROC c _ := c;
  talib_WILLR h _ _ _ := h;
  talib_BBANDS_dev c _ _ _ := (c, c, c);
}.

Definition sample_candles (n : nat) : list OHLCVCandle.t :=
  (fun i => OHLCVCandle.mk (4 * HOUR + i * 5 * MINUTE) "INFY" "NSE" (dec 100 0) (dec 102 0) (dec 99 0) (dec 101 0) 500)
    <$> seqZ 0 (Z.of_nat n).

Definition sample_values (n : nat) : dict string IndicatorOutputDict :=
  match builtin_registry (H := sample_talib) (H1 := sample_numpy) with
  | Ok registry => match compute_all registry (sample_candles n) with Ok v => v | Raise _ => [] end
  | Raise _ => []
  end.

Definition indicator_context (n : nat) : SignalContext.t :=
  let c := sample_context (dec 50 0) (dec 1 0) (dec 1 0) (dec 1 0) in
  SignalContext.mk (SignalContext.symbol c) (SignalContext.exchange c) "LONG" (SignalContext.strategy_id c)
    (SignalContext.regime c) (sample_values n) (SignalContext.pattern_snapshot c)
    (SignalContext.multi_tf_patterns c) (SignalContext.current_price c) (SignalContext.current_volume c)
    (SignalContext.avg_volume c) (SignalContext.atr c) (SignalContext.is_snapshot_window c)
    (SignalContext.session_open c) (SignalContext.session_close c) (SignalContext.evaluated_at c)
    (SignalContext.candles c) (SignalContext.sentiment c).

Definition sample_registry : Registry :=
  map (fun spec => (IndicatorSpec.name spec, spec)) (definitions (H := sample_talib) (H1 := sample_numpy)).

Lemma sample_computed :
  compute_all sample_registry (sample_candles 60) = Ok (SignalContext.indicator_values (indicator_context 60)).
Proof. vm_compute. reflexivity. Qed.

Lemma short_history_has_no_ema_vote_witness :
  length (sample_candles 60) = 60%nat /\ "EMA" ∉ agreeing_indicators (indicator_context 60).
Proof.
  split; [reflexivity|].
  apply (short_history_has_no_ema_vote (H := sample_talib) (H1 := sample_numpy) sample_registry (sample_candles 60)
    (indicator_context 60)); [reflexivity|exact sample_computed|]. apply (Nat.ltb_lt _ 200). reflexivity.
Defined.

Lemma order_flow_is_last_candle_witness :
  exists v, float_of_int 500 = Ok v /\ vol_delta_of (indicator_context 60) = Some v.
Proof.
  destruct (order_flow_is_last_candle (H := sample_talib) (H1 := sample_numpy) sample_registry (sample_candles 60)
    (OHLCVCandle.mk (4 * HOUR + 59 * 5 * MINUTE) "INFY" "NSE" (dec 100 0) (dec 102 0) (dec 99 0) (dec 101 0) 500)
    (indicator_context 60)) as (v & Hv & Hd & _); [reflexivity|exact sample_computed|reflexivity|].
  exists v. split; [exact Hv|exact Hd].
Defined.

Definition sample_snapshot_1 : IndicatorSnapshot.t :=
  IndicatorSnapshot.mk "INFY" "NSE" "5m" (4 * HOUR) (5 * HOUR)
    [("RSI", [("RSI_14", Some (dec 625 1))]); ("EMA", []); ("VWAP", [("VWAP", None)])].

Lemma sample_cacheable : cacheable sample_snapshot_1.
Proof.
  assert (Hf : json_ok (JFloat (dec 625 1))) by (apply float_reads_ok; vm_compute; reflexivity).
  split_and!; [by vm_compute|by vm_compute|].
  refine (conj _ (conj I (conj I (conj I (conj I (conj I (conj
    (conj _ (conj (conj _ (conj Hf I)) (conj (conj _ I) (conj (conj _ (conj I I)) I)))) I)))))));
    apply (bool_decide_unpack _); reflexivity.
Qed.

Lemma indicator_snapshot_round_trip_witness :
  (load_snapshot "INFY" "NSE" "5m" (store_snapshot sample_snapshot_1 mem_empty).2).1 = Ok (Some sample_snapshot_1).
Proof.
  destruct (indicator_snapshot_round_trip sample_snapshot_1 mem_empty (store_snapshot sample_snapshot_1 mem_empty).2
    sample_cacheable) as [r2 Hr]; [reflexivity|vm_compute; reflexivity|].
  apply (f_equal fst) in Hr. exact Hr.
Defined.

(** ** Defects *)

(** The session is the UTC date of the last candle.  A Sydney session in
    summer opens at 23:00 UTC: the VWAP of the session leaves out the first
    hour, which the module calls exact for both regions. *)
Example sydney_vwap_drops_first_hour :
  current_session_mask (CandleArrays.mk (map (fun i => 23 * HOUR + i * 30 * MINUTE) [0; 1; 2; 3]) [] [] [] [] [])
  = Ok [false; false; true; true].
Proof. reflexivity. Qed.
