(* ===== verification/PyParse.v ===== *)
(** * Regular expressions and CSV

    Python's [re] on the constructs that the platform uses (character classes,
    greedy repetition of a class, greedy options, sequences and groups), with
    the backtracking of the engine: the first alternative that lets the rest
    match wins.  Python's [csv.DictReader] with the default dialect, as the
    automaton of the [csv] module; and the dates that the platform reads with
    [strptime]. *)

From S2P Require Import Prelude PyFloat PyDict Json PyText PyDate.

(** ** Regular expressions *)

Inductive re : Type :=
| RChar (p : ascii -> bool)
| RSeq (a b : re)
| ROpt (a : re)
| RStar (p : ascii -> bool)
| RGroup (a : re).

(** The rest of the match after a greedy run of the class. *)
Fixpoint match_star {X} (p : ascii -> bool) (s : string) (k : string -> option X) : option X :=
  match s with
  | String c s' =>
      if p c then match match_star p s' k with Some x => Some x | None => k s end else k s
  | EmptyString => k s
  end.

(** [k] matches the rest, given the groups so far. *)
Fixpoint rmatch {X} (r : re) (s : string) (groups : list string) (k : string -> list string -> option X) : option X :=
  match r with
  | RChar p => match s with String c s' => if p c then k s' groups else None | EmptyString => None end
  | RSeq a b => rmatch a s groups (fun s' groups' => rmatch b s' groups' k)
  | ROpt a => match rmatch a s groups k with Some x => Some x | None => k s groups end
  | RStar p => match_star p s (fun s' => k s' groups)
  | RGroup a =>
      rmatch a s groups (fun s' groups' =>
        k s' (groups' ++ [str_take (String.length s - String.length s')%nat s]))
  end.

(** [pattern.search(s)]: the groups of the leftmost match. *)
Fixpoint research (r : re) (s : string) : option (list string) :=
  match rmatch r s [] (fun _ groups => Some groups) with
  | Some groups => Some groups
  | None => match s with String _ s' => research r s' | EmptyString => None end
  end.

(** [RPlus p] is [p+]; a literal matches without regard to case
    ([re.IGNORECASE]). *)
Definition RPlus (p : ascii -> bool) : re := RSeq (RChar p) (RStar p).

Definition same_letter (c d : ascii) : bool := Ascii.eqb (ascii_lower c) (ascii_lower d).

Fixpoint RLit (s : string) (rest : re) : re :=
  match s with
  | EmptyString => rest
  | String c s => RSeq (RChar (same_letter c)) (RLit s rest)
  end.

(** The empty match. *)
Definition REps : re := RStar (fun _ => false).

(** ** CSV *)

Inductive csv_state : Type :=
| START_RECORD | START_FIELD | IN_FIELD | IN_QUOTED_FIELD | QUOTE_IN_QUOTED_FIELD | EAT_CRNL.

Definition CR : ascii := "013"%char.
Definition LF : ascii := "010"%char.

Definition csv_error : result (list (list string)) := Raise (OtherError "csv.Error: new-line character seen in unquoted field").

(** The rows of a text; a blank line is an empty row.  [field] is the current
    field, reversed, and [fields] the fields before it in the row, latest
    first. *)
Fixpoint csv_rows (state : csv_state) (field : string) (fields : list string) (s : string) : result (list (list string)) :=
  let saved := str_rev field "" :: fields in
  match s with
  | EmptyString =>
      match state with
      | START_RECORD | EAT_CRNL => mret []
      | _ => mret [rev saved]
      end
  | String c s =>
      let end_record :=
        (rows ← csv_rows (if Ascii.eqb c LF then START_RECORD else EAT_CRNL) "" [] s; mret (rev saved :: rows)) in
      let newline := Ascii.eqb c LF || Ascii.eqb c CR in
      match state with
      | EAT_CRNL =>
          if Ascii.eqb c LF then csv_rows START_RECORD "" [] s
          else if Ascii.eqb c CR then csv_rows EAT_CRNL "" [] s
          else csv_error
      | IN_QUOTED_FIELD =>
          if Ascii.eqb c dquote then csv_rows QUOTE_IN_QUOTED_FIELD field fields s
          else csv_rows IN_QUOTED_FIELD (String c field) fields s
      | START_RECORD | START_FIELD =>
          if newline then
            match state with
            | START_RECORD =>
                rows ← csv_rows (if Ascii.eqb c LF then START_RECORD else EAT_CRNL) "" [] s; mret ([] :: rows)
            | _ => end_record
            end
          else if Ascii.eqb c dquote then csv_rows IN_QUOTED_FIELD field fields s
          else if Ascii.eqb c "," then csv_rows START_FIELD "" saved s
          else csv_rows IN_FIELD (String c field) fields s
      | IN_FIELD | QUOTE_IN_QUOTED_FIELD =>
          if newline then end_record
          else if Ascii.eqb c "," then csv_rows START_FIELD "" saved s
          else if Ascii.eqb c dquote then
            match state with
            | QUOTE_IN_QUOTED_FIELD => csv_rows IN_QUOTED_FIELD (String c field) fields s
            | _ => csv_rows IN_FIELD (String c field) fields s
            end
          else csv_rows IN_FIELD (String c field) fields s
      end
  end.

(** A row as a dictionary: a column that the row is too short for is [None];
    the surplus of a long row is under no name. *)
Definition dict_row (fieldnames row : list string) : dict string (option string) :=
  foldl (fun d nv => dset nv.1 nv.2 d) [] (zip fieldnames (map Some row ++ replicate (length fieldnames) None)).

(** The field names and the rows that are not blank. *)
Definition csv_reader (text : string) : result (list string * list (list string)) :=
  rows ← csv_rows START_RECORD "" [] text;
  match rows with
  | [] => mret ([], [])
  | fieldnames :: rows => mret (fieldnames, List.filter (fun r => negb (bool_decide (r = []))) rows)
  end.

(** ** Dates *)

Local Open Scope Z_scope.

Definition is_digits (s : string) : bool := negb (is_empty s) && str_forall is_digit s.

Definition month_names : list string :=
  ["jan"; "feb"; "mar"; "apr"; "may"; "jun"; "jul"; "aug"; "sep"; "oct"; "nov"; "dec"].

Definition month_of (s : string) : option Z :=
  m ← list_find (fun n => n = str_lower s) month_names;
  mret (Z.of_nat m.1 + 1).

(** [datetime.strptime(s, "%d-%b-%Y").date()]: a day of one digit may follow a
    space; a date that the calendar does not have is refused. *)
Definition strptime_day (d : string) : option Z :=
  let d := match strip_prefix " " d with Some r => if (String.length r =? 1)%nat then r else d | None => d end in
  if is_digits d && (String.length d <=? 2)%nat then Some (digits_value d) else None.

(** The day number of a date that the calendar has. *)
Definition civil_date (y m d : Z) : option Z :=
  let c := {| year := y; month := m; day := d |} in
  let back := civil_of_days (days_of_civil c) in
  if (1 <=? y) && (y <=? 9999) && (PyDate.year back =? y) && (PyDate.month back =? m) && (PyDate.day back =? d)
  then Some (days_of_civil c) else None.

Definition strptime_year (y : string) : option Z :=
  if is_digits y && (String.length y =? 4)%nat then Some (digits_value y) else None.

Definition strptime_dby (s : string) : option Z :=
  '(d, r) ← str_split1 "-" s;
  '(b, y) ← str_split1 "-" r;
  d ← strptime_day d;
  m ← month_of b;
  y ← strptime_year y;
  civil_date y m d.

(** [datetime.strptime(s, "%Y-%m-%d").date()] *)
Definition strptime_ymd (s : string) : option Z :=
  '(y, r) ← str_split1 "-" s;
  '(m, d) ← str_split1 "-" r;
  y ← strptime_year y;
  m ← (if is_digits m && (String.length m <=? 2)%nat then Some (digits_value m) else None);
  d ← strptime_day d;
  civil_date y m d.

Lemma civil_date_in y m d days : civil_date y m d = Some days -> in_datetime days.
Proof.
  unfold civil_date, in_datetime. cbv zeta. destruct (_ && _) eqn:E; [|done]. intros [= <-].
  rewrite !andb_true_iff, !Z.leb_le, !Z.eqb_eq in E. lia.
Qed.

Ltac option_inv H :=
  match type of H with
  | (match ?x with Some _ => _ | None => None end) = Some _ => destruct x eqn:?; [|discriminate H]
  end.

Lemma strptime_dby_in s days : strptime_dby s = Some days -> in_datetime days.
Proof.
  unfold strptime_dby, mbind, option_bind. intros Hs. do 2 (option_inv Hs; destruct p). do 3 option_inv Hs.
  by eapply civil_date_in.
Qed.

Lemma strptime_ymd_in s days : strptime_ymd s = Some days -> in_datetime days.
Proof.
  unfold strptime_ymd, mbind, option_bind. intros Hs. do 2 (option_inv Hs; destruct p). do 3 option_inv Hs.
  by eapply civil_date_in.
Qed.

(** [date.fromisoformat] on the extended format. *)
Definition date_fromisoformat (s : string) : result Z :=
  match iso_date s with
  | Some (d, r) => if is_empty r then mret d else Raise (ValueError "Invalid isoformat string")
  | None => Raise (ValueError "Invalid isoformat string")
  end.


(** ** Iteration *)

(** [for entry in raw_entries]: the keys of an object, the characters of a
    string. *)
Definition json_iter (v : json) : result (list json) :=
  match v with
  | JList l => mret l
  | JObj fields => mret (map (fun kv => JStr kv.1) fields)
  | JStr s => mret (map (fun c => JStr (String c "")) (String.list_ascii_of_string s))
  | _ => Raise (TypeError "object is not iterable")
  end.

(** ** [int] of a numeral *)

Lemma str_rev_rev s a b : str_rev (str_rev s a) b = str_rev a (s +:+ b).
Proof. revert a. induction s as [|c s IH]; intros a; [done|]. cbn [str_rev]. by rewrite IH. Qed.

Lemma str_forall_rev p s a : str_forall p (str_rev s a) = str_forall p s && str_forall p a.
Proof.
  revert a. induction s as [|c s IH]; intros a; [done|]. cbn [str_rev str_forall]. rewrite IH. cbn [str_forall].
  by destruct (p c), (str_forall p s), (str_forall p a).
Qed.

Lemma str_lstrip_id s : str_forall (fun c => negb (is_space c)) s = true -> str_lstrip s = s.
Proof. destruct s as [|c s]; [done|]. cbn. by destruct (is_space c). Qed.

Lemma str_strip_id s : str_forall (fun c => negb (is_space c)) s = true -> str_strip s = s.
Proof.
  intros Hs. unfold str_strip. rewrite (str_lstrip_id s) by done. rewrite str_lstrip_id.
  - rewrite str_rev_rev. by rewrite str_app_nil_r.
  - by rewrite str_forall_rev, Hs.
Qed.

Lemma digit_not_space c : is_digit c = true -> negb (is_space c) = true.
Proof. destruct c as [[] [] [] [] [] [] [] []]; done. Qed.

(** [int(str(z))] *)
Lemma py_int_pretty z : py_int (pretty z) = Ok z.
Proof.
  assert (Hpos : forall p, str_strip (pretty (Zpos p)) = pretty (Zpos p)
    /\ span is_digit (pretty (Zpos p)) = (pretty (Zpos p), "") /\ digits_value (pretty (Zpos p)) = Zpos p
    /\ exists c r, pretty (Zpos p) = String c r /\ is_digit c = true).
  { intros p. destruct (pretty_pos p) as (c & r & E & Hd & _). split_and!.
    - apply str_strip_id. rewrite E. exact (str_forall_impl is_digit _ (String c r) digit_not_space Hd).
    - apply span_all. by rewrite E.
    - unfold digits_value. rewrite dec_value_pretty by lia. done.
    - exists c, r. split; [done|]. by eapply str_forall_head. }
  assert (Hne : forall p, is_empty (pretty (Zpos p)) = false).
  { intros p. destruct (Hpos p) as (_ & _ & _ & c & r & -> & _). done. }
  destruct z as [|p|p]; [done| |].
  - destruct (Hpos p) as (Hs & Hsp & Hv & c & r & E & Hc). unfold py_int. rewrite Hs.
    assert (Hr : read_sign (pretty (Zpos p)) = (false, pretty (Zpos p))).
    { rewrite E. cbn. by destruct c as [[] [] [] [] [] [] [] []]. }
    rewrite Hr, Hsp, Hv. by rewrite (Hne p).
  - destruct (Hpos p) as (Hs & Hsp & Hv & c & r & E & Hc). unfold py_int.
    assert (Hn : str_strip (pretty (Zneg p)) = String "-" (pretty (Zpos p))).
    { rewrite pretty_neg. apply str_strip_id. cbn [str_forall]. rewrite E. change (negb (is_space "-")) with true.
      destruct (pretty_pos p) as (c' & r' & E' & Hd & _). rewrite E in E'. injection E' as <- <-.
      exact (str_forall_impl is_digit _ (String c r) digit_not_space Hd). }
    rewrite Hn. change (read_sign (String "-" (pretty (Zpos p)))) with (true, pretty (Zpos p)).
    cbv beta iota. rewrite Hsp, Hv. by rewrite (Hne p).
Qed.

(** ** Writing CSV

    [csv.writer] with the default dialect: a field with a comma, a quote or a
    line break is quoted, a quote is doubled, a row ends in CR LF.  (A row of
    one empty field, which the writer quotes, does not occur.) *)

Definition csv_special (c : ascii) : bool :=
  Ascii.eqb c "," || Ascii.eqb c dquote || Ascii.eqb c CR || Ascii.eqb c LF.

Fixpoint csv_doubled (s : string) : string :=
  match s with
  | EmptyString => ""
  | String c s => if Ascii.eqb c dquote then String c (String c (csv_doubled s)) else String c (csv_doubled s)
  end.

Definition csv_field (s : string) : string :=
  if str_forall (fun c => negb (csv_special c)) s then s else String dquote (csv_doubled s +:+ String dquote "").

Definition csv_row (fields : list string) : string := str_join "," (map csv_field fields) +:+ String CR (String LF "").

Definition csv_text (rows : list (list string)) : string := foldr (fun r t => csv_row r +:+ t) "" rows.

Lemma csv_plain state s : forall field fields rest,
  str_forall (fun c => negb (csv_special c)) s = true -> state = IN_FIELD ->
  csv_rows state field fields (s +:+ rest) = csv_rows IN_FIELD (str_rev s field) fields rest.
Proof.
  induction s as [|c s IH]; intros field fields rest Hs ->; [done|]. cbn [str_forall] in Hs.
  apply andb_prop in Hs as [Hc Hs]. rewrite str_cons_app. cbn [csv_rows str_rev].
  unfold csv_special in Hc. rewrite !negb_orb, !andb_true_iff, !negb_true_iff in Hc.
  destruct Hc as [[[-> ->] ->] ->]. cbn [orb]. by apply IH.
Qed.

Lemma csv_quoted s : forall field fields rest, head_not (fun c => Ascii.eqb c dquote) rest = true ->
  csv_rows IN_QUOTED_FIELD field fields (csv_doubled s +:+ String dquote rest)
  = csv_rows QUOTE_IN_QUOTED_FIELD (str_rev s field) fields rest.
Proof.
  induction s as [|c s IH]; intros field fields rest Hr; [done|]. cbn [csv_doubled str_rev].
  destruct (Ascii.eqb_spec c dquote) as [-> | Hc].
  - rewrite !str_cons_app. rewrite <- IH by done. done.
  - rewrite str_cons_app. rewrite <- IH by done. cbn [csv_rows].
    by rewrite (proj2 (Ascii.eqb_neq c dquote) Hc).
Qed.

(** Where a field ends: the comma or the line end follows. *)
Definition csv_at_end (state0 state : csv_state) (s : string) : Prop :=
  state = IN_FIELD \/ state = QUOTE_IN_QUOTED_FIELD \/ (state = state0 /\ s = "").

Lemma csv_field_back s state fields rest : state = START_FIELD \/ state = START_RECORD ->
  head_not (fun c => negb (Ascii.eqb c "," || Ascii.eqb c CR)) rest = true ->
  exists state', csv_at_end state state' s
    /\ csv_rows state "" fields (csv_field s +:+ rest) = csv_rows state' (str_rev s "") fields rest.
Proof.
  intros Hst Hr. unfold csv_field, csv_at_end. destruct (str_forall _ s) eqn:Hs.
  - destruct s as [|c s]; [exists state; by auto|].
    exists IN_FIELD. split; [auto|]. cbn [str_forall] in Hs. apply andb_prop in Hs as [Hc Hs].
    rewrite <- (csv_plain IN_FIELD s (String c "")), str_cons_app by done.
    unfold csv_special in Hc. rewrite !negb_orb, !andb_true_iff, !negb_true_iff in Hc.
    destruct Hc as [[[H1 H2] H3] H4].
    destruct Hst as [-> | ->]; cbn [csv_rows]; by rewrite H1, H2, H3, H4.
  - exists QUOTE_IN_QUOTED_FIELD. split; [auto|]. rewrite <- csv_quoted.
    + rewrite str_cons_app, str_app_assoc. by destruct Hst as [-> | ->].
    + destruct rest as [|c rest]; [done|]. cbn in Hr |- *. apply negb_true_iff in Hr.
      by destruct (Ascii.eqb_spec c dquote) as [-> | ].
Qed.

Lemma csv_comma state0 state s fields rest : state0 = START_FIELD \/ state0 = START_RECORD ->
  csv_at_end state0 state s ->
  csv_rows state (str_rev s "") fields (String "," rest) = csv_rows START_FIELD "" (s :: fields) rest.
Proof.
  intros H0 Hst. assert (Hs : str_rev (str_rev s "") "" = s) by (rewrite str_rev_rev; apply str_app_nil_r).
  destruct Hst as [-> | [-> | [-> ->]]]; [by cbn; rewrite Hs..|]. by destruct H0 as [-> | ->].
Qed.

Lemma csv_end state s fields rest : csv_at_end START_FIELD state s ->
  csv_rows state (str_rev s "") fields (String CR (String LF rest))
  = (rows ← csv_rows START_RECORD "" [] rest; mret (rev (s :: fields) :: rows)).
Proof.
  intros Hst. assert (Hs : str_rev (str_rev s "") "" = s) by (rewrite str_rev_rev; apply str_app_nil_r).
  destruct Hst as [-> | [-> | [-> ->]]]; cbn [csv_rows]; by rewrite ?Hs.
Qed.

Lemma str_join_cons sep x y l : str_join sep (x :: y :: l) = x +:+ sep +:+ str_join sep (y :: l).
Proof. done. Qed.

Lemma csv_fields_back l : forall s fields rest,
  csv_rows START_FIELD "" fields (str_join "," (map csv_field (s :: l)) +:+ String CR (String LF rest))
  = (rows ← csv_rows START_RECORD "" [] rest; mret ((rev fields ++ s :: l) :: rows)).
Proof.
  induction l as [|x l IH]; intros s fields rest.
  - cbn [map str_join]. destruct (csv_field_back s START_FIELD fields (String CR (String LF rest))) as (state & Hst & ->); [auto|done|].
    by rewrite csv_end.
  - cbn [map]. rewrite str_join_cons, !str_app_assoc, str_cons_app, str_nil_app.
    edestruct (csv_field_back s START_FIELD fields) as (state & Hst & ->); [auto| |]; [done|].
    rewrite (csv_comma START_FIELD) by auto. cbn [map] in IH. rewrite (IH x (s :: fields) rest). cbn [rev]. by rewrite <- app_assoc.
Qed.

(** What is written is what is read: rows of at least two fields, whatever
    characters the fields have. *)
Lemma csv_round_trip rows : Forall (fun r => (2 <= length r)%nat) rows ->
  csv_rows START_RECORD "" [] (csv_text rows) = Ok rows.
Proof.
  induction 1 as [|r rows Hr _ IH]; [done|]. cbn [csv_text foldr]. fold (csv_text rows).
  destruct r as [|s [|x l]]; cbn in Hr; [lia..|]. unfold csv_row. cbn [map].
  rewrite str_join_cons, !str_app_assoc, str_cons_app, !str_nil_app.
  edestruct (csv_field_back s START_RECORD []) as (state & Hst & ->); [auto| |]; [done|].
  rewrite (csv_comma START_RECORD) by auto.
  rewrite (str_cons_app CR), (str_cons_app LF), str_nil_app.
  pose proof (csv_fields_back l x [s] (csv_text rows)) as Hl. cbn [map] in Hl. by rewrite Hl, IH.
Qed.

(** A header and rows of two fields or more are read back. *)
Lemma csv_reader_text header rows : (2 <= length header)%nat -> Forall (fun r => (2 <= length r)%nat) rows ->
  csv_reader (csv_text (header :: rows)) = Ok (header, rows).
Proof.
  intros Hh Hr. unfold csv_reader. rewrite csv_round_trip by by constructor. rewrite bind_ok. f_equal. f_equal.
  induction Hr as [|r rows Hl Hr IH]; [done|]. cbn [List.filter]. rewrite IH. destruct r; [cbn in Hl; lia|done].
Qed.
