(* ===== verification/Instruments.v ===== *)
(** * Instrument master and corporate actions ([shared/instruments])

    Models with their validation ([models.py]), back-adjustment
    ([adjustment.py]), the live sources with their CSV and free-text parsing
    ([sources.py]), the tables behind the repositories ([repositories.py],
    with the keys of [storage/schema.sql]), the manual overrides
    ([manual_overrides.py]) and the refresh ([service.py]).  [requests] and
    the number of rows that [execute_values] sends in one statement are
    parameters; the tables follow the SQL of the repositories.  A [date] is its
    day number; the date of a candle is that of its time in UTC. *)

From Stdlib Require Import SpecFloat.
From stdpp Require Import sorting.
From S2P Require Import Prelude PyFloat PyDict Json PyText Constants MarketData PyDate Web PyParse.
Local Open Scope Z_scope.

(** ** Models ([models.py]) *)

Module Instrument.
Record t := mk {
  symbol : string;
  exchange : string;
  name : string;
  isin : option string;
  lot_size : option Z;
  tick_size : option float;
}.
End Instrument.

Module CorporateActionType.
Inductive t := SPLIT | BONUS | DIVIDEND | SYMBOL_CHANGE.

#[global] Instance eq_dec : EqDecision t.
Proof. solve_decision. Defined.

Definition value (x : t) : string :=
  match x with SPLIT => "SPLIT" | BONUS => "BONUS" | DIVIDEND => "DIVIDEND" | SYMBOL_CHANGE => "SYMBOL_CHANGE" end.

Definition all : list t := [SPLIT; BONUS; DIVIDEND; SYMBOL_CHANGE].

Definition of_value (s : string) : result t :=
  match find_first (fun x => String.eqb (value x) s) all with
  | Some x => mret x
  | None => Raise (ValueError ("'" +:+ s +:+ "' is not a valid CorporateActionType"))
  end.
End CorporateActionType.

Module CorporateAction.
Record t := mk {
  symbol : string;
  exchange : string;
  ex_date : Z;
  action_type : CorporateActionType.t;
  source : string;
  ratio_numerator : option float;
  ratio_denominator : option float;
  dividend_amount : option float;
  new_symbol : option string;
}.

(** [not x] of an optional float: [None] and zero. *)
Definition missing (x : option float) : bool := match x with None => true | Some v => is_zero v end.
Definition not_positive (x : option float) : bool := match x with None => false | Some v => fle v f_zero end.

(** [__post_init__]. *)
Definition check (a : t) : result unit :=
  match action_type a with
  | CorporateActionType.SPLIT | CorporateActionType.BONUS =>
      if missing (ratio_numerator a) || missing (ratio_denominator a) then
        Raise (ValueError "requires positive ratio_numerator and ratio_denominator")
      else if not_positive (ratio_numerator a) || not_positive (ratio_denominator a) then
        Raise (ValueError "ratio must be positive")
      else mret tt
  | CorporateActionType.DIVIDEND =>
      if missing (dividend_amount a) || not_positive (dividend_amount a) then
        Raise (ValueError "DIVIDEND requires a positive dividend_amount")
      else mret tt
  | CorporateActionType.SYMBOL_CHANGE =>
      match new_symbol a with
      | Some s => if is_empty s then Raise (ValueError "SYMBOL_CHANGE requires new_symbol") else mret tt
      | None => Raise (ValueError "SYMBOL_CHANGE requires new_symbol")
      end
  end.

Definition make (symbol exchange : string) (ex_date : Z) (action_type : CorporateActionType.t) (source : string)
    (ratio_numerator ratio_denominator dividend_amount : option float) (new_symbol : option string) : result t :=
  let a := mk symbol exchange ex_date action_type source ratio_numerator ratio_denominator dividend_amount new_symbol in
  _ ← check a; mret a.
End CorporateAction.

(** ** Back-adjustment ([adjustment.py]) *)

Definition price_adjusting (a : CorporateAction.t) : bool :=
  bool_decide (CorporateAction.action_type a ∈ [CorporateActionType.SPLIT; CorporateActionType.BONUS]).

Definition earlier_ex_date (x y : CorporateAction.t) : bool :=
  CorporateAction.ex_date x <? CorporateAction.ex_date y.

(** One action for a candle of [candle_date]: the price and volume multipliers
    so far. *)
Definition apply_action (candle_date : Z) (mults : float * float) (action : CorporateAction.t) : result (float * float) :=
  if candle_date <? CorporateAction.ex_date action then
    match CorporateAction.ratio_numerator action, CorporateAction.ratio_denominator action with
    | Some n, Some d =>
        p ← pydiv d n;
        v ← pydiv n d;
        mret (fst mults * p, snd mults * v)%pf
    | _, _ => Raise AssertionError
    end
  else mret mults.

(** [round(x)]: the nearest integer, ties to even. *)
Definition round_int (x : float) : result Z :=
  match x with
  | S754_nan => Raise (ValueError "cannot convert float NaN to integer")
  | S754_infinity _ => Raise OverflowError
  | S754_zero _ => Ok 0
  | S754_finite s m e =>
      let '(n, d) := to_rational m e in
      Ok (if s then - round_half_even n d else round_half_even n d)
  end.

Definition candle_date (c : OHLCVCandle.t) : Z := OHLCVCandle.time c / DAY.

Definition adjust_candle (relevant : list CorporateAction.t) (c : OHLCVCandle.t) : result OHLCVCandle.t :=
  '(price_mult, volume_mult) ← for_each (apply_action (candle_date c)) (dec 10 1, dec 10 1) relevant;
  v ← float_of_int (OHLCVCandle.volume c);
  volume ← round_int (v * volume_mult)%pf;
  mret (OHLCVCandle.mk (OHLCVCandle.time c) (OHLCVCandle.symbol c) (OHLCVCandle.exchange c)
          (OHLCVCandle.open c * price_mult)%pf (OHLCVCandle.high c * price_mult)%pf
          (OHLCVCandle.low c * price_mult)%pf (OHLCVCandle.close c * price_mult)%pf volume).

Definition adjusted_candles (candles : list OHLCVCandle.t) (actions : list CorporateAction.t) : result (list OHLCVCandle.t) :=
  mapM (adjust_candle (py_sorted earlier_ex_date (List.filter price_adjusting actions))) candles.

(** ** Sources ([sources.py]) *)

Definition NSE_URL : string := "https://archives.nseindia.com/content/equities/EQUITY_L.csv".
Definition ASX_URL : string := "https://www.asx.com.au/asx/research/ASXListedCompanies.csv".
Definition BASE_URL : string := "https://www.nseindia.com/api/corporates-corporateActions".
Definition KEY_STATISTICS_URL (symbol : string) : string :=
  "https://asx.api.markitdigital.com/asx-research/1.0/companies/" +:+ symbol +:+ "/key-statistics".

Definition InstrumentFetchError (msg : string) : exn := OtherError ("InstrumentFetchError: " +:+ msg).
Definition CorporateActionFetchError (msg : string) : exn := OtherError ("CorporateActionFetchError: " +:+ msg).

Definition no_attribute {A} : result A := Raise (AttributeError "object has no such attribute").

(** [row.get(key, "").strip()]: the cell of a short row is [None], which has
    no [strip]. *)
Definition stripped (key : string) (row : dict string (option string)) : result string :=
  match default (Some "") (dget key row) with
  | Some v => mret (str_strip v)
  | None => no_attribute
  end.

(** [(row.get(key) or "").strip()] *)
Definition stripped_or (key : string) (row : dict string (option string)) : string :=
  str_strip (default "" (default None (dget key row))).

Definition nse_instrument (row : dict string (option string)) : result (option Instrument.t) :=
  symbol ← stripped "SYMBOL" row;
  if is_empty symbol then mret None
  else
    lot_size_raw ← stripped "MARKET LOT" row;
    isin ← stripped "ISIN NUMBER" row;
    name ← stripped "NAME OF COMPANY" row;
    mret (Some (Instrument.mk symbol "NSE" name (if is_empty isin then None else Some isin)
                  (if is_digits lot_size_raw then Some (digits_value lot_size_raw) else None)
                  (Some NSE_EQUITY_TICK_SIZE))).

Definition asx_instrument (row : dict string (option string)) : option Instrument.t :=
  let code := stripped_or "ASX code" row in
  if is_empty code then None
  else Some (Instrument.mk code "ASX" (stripped_or "Company name" row) None None None).

(** [text[text.find(sub):]], unless it is not found. *)
Fixpoint from_first (sub s : string) : option string :=
  match strip_prefix sub s with
  | Some _ => Some s
  | None => match s with EmptyString => None | String _ s => from_first sub s end
  end.

(** The items that a loop appends: those that are not [None]. *)
Fixpoint collect {A B} (f : A -> result (option B)) (l : list A) : result (list B) :=
  match l with
  | [] => mret []
  | x :: l => y ← f x; ys ← collect f l; mret (match y with Some y => y :: ys | None => ys end)
  end.

(** *** The text of an NSE corporate action *)

Definition digit_or_dot (c : ascii) : bool := is_digit c || Ascii.eqb c ".".
Definition is_char (d : ascii) (c : ascii) : bool := Ascii.eqb c d.
Definition ws : re := RStar is_space.

(** [\s+] followed by [rest]. *)
Definition wsp (rest : re) : re := RSeq (RPlus is_space) rest.

(** [Re?s?\.?\s*([\d.]+)] *)
Definition rupees (rest : re) : re :=
  RSeq (RChar (same_letter "r")) (RSeq (ROpt (RChar (same_letter "e"))) (RSeq (ROpt (RChar (same_letter "s")))
    (RSeq (ROpt (RChar (is_char "."))) (RSeq ws (RSeq (RGroup (RPlus digit_or_dot)) rest))))).

(** [\s*/?-?\s*Per\s+Share] *)
Definition per_share (rest : re) : re :=
  RSeq ws (RSeq (ROpt (RChar (is_char "/"))) (RSeq (ROpt (RChar (is_char "-"))) (RSeq ws
    (RLit "per" (wsp (RLit "share" rest)))))).

Definition SPLIT_PATTERN : re :=
  RLit "from" (wsp (rupees (per_share (wsp (RLit "to" (wsp (rupees (per_share REps)))))))).

(** [(\d+(?:\.\d+)?)] *)
Definition number (rest : re) : re :=
  RSeq (RGroup (RSeq (RPlus is_digit) (ROpt (RSeq (RChar (is_char ".")) (RPlus is_digit))))) rest.

Definition BONUS_PATTERN : re :=
  RLit "bonus" (wsp (number (RSeq ws (RSeq (RChar (is_char ":")) (RSeq ws (number REps)))))).

(** [Rs\.?\s*([\d.]+)] *)
Definition DIVIDEND_AMOUNT_PATTERN : re :=
  RLit "rs" (RSeq (ROpt (RChar (is_char "."))) (RSeq ws (RGroup (RPlus digit_or_dot)))).

(** [match.group(i)] of a pattern whose groups all take part in a match. *)
Definition group (i : nat) (groups : list string) : string := default "" (groups !! (i - 1)%nat).

(** [entry.get(key) or ""] *)
Definition entry_field (key : string) (entry : json) : result json :=
  match entry with
  | JObj fields => let v := default JNull (dget key fields) in mret (if truthy v then v else JStr "")
  | _ => no_attribute
  end.

(** An action that its constructor rejects with [ValueError] is skipped. *)
Definition skip_invalid (r : result CorporateAction.t) : result (option CorporateAction.t) :=
  match r with
  | Ok a => Ok (Some a)
  | Raise (ValueError _) => Ok None
  | Raise e => Raise e
  end.

Definition live_source (exchange : string) : string := exchange +:+ "_LIVE".

(** The action that a subject describes. *)
Definition parse_subject (symbol exchange : string) (ex_date : Z) (subject : string) : result (option CorporateAction.t) :=
  match research SPLIT_PATTERN subject with
  | Some m =>
      from_face ← py_float (group 1 m);
      to_face ← py_float (group 2 m);
      skip_invalid (CorporateAction.make symbol exchange ex_date CorporateActionType.SPLIT (live_source exchange)
                      (Some from_face) (Some to_face) None None)
  | None =>
      match research BONUS_PATTERN subject with
      | Some m =>
          new_shares ← py_float (group 1 m);
          held_shares ← py_float (group 2 m);
          skip_invalid (CorporateAction.make symbol exchange ex_date CorporateActionType.BONUS (live_source exchange)
                          (Some (new_shares + held_shares)%pf) (Some held_shares) None None)
      | None =>
          if str_contains "dividend" (str_lower subject) then
            match research DIVIDEND_AMOUNT_PATTERN subject with
            | Some m =>
                skip_invalid (amount ← py_float (group 1 m);
                              CorporateAction.make symbol exchange ex_date CorporateActionType.DIVIDEND
                                (live_source exchange) None None (Some amount) None)
            | None => mret None
            end
          else mret None
      end
  end.

Definition is_dash (v : json) : bool := match v with JStr s => String.eqb s "-" | _ => false end.

(** [_parse_nse_entry]. *)
Definition parse_nse_entry (exchange : string) (entry : json) : result (option CorporateAction.t) :=
  symbol ← entry_field "symbol" entry ≫= (fun v => match v with JStr s => mret (str_strip s) | _ => no_attribute end);
  subject ← entry_field "subject" entry;
  ex_date_raw ← entry_field "exDate" entry;
  if is_empty symbol || negb (truthy subject) || negb (truthy ex_date_raw) || is_dash ex_date_raw then
    mret None
  else
    raw ← jstr ex_date_raw;
    match strptime_dby raw with
    | None => mret None
    | Some ex_date => subject ← jstr subject; parse_subject symbol exchange ex_date subject
    end.

(** [default_refresh_window], in days. *)
Definition default_refresh_window (today : Z) : Z * Z :=
  (today - CORPORATE_ACTIONS_REFRESH_WINDOW_DAYS, today + CORPORATE_ACTIONS_REFRESH_WINDOW_DAYS).

Definition strftime_dmy (days : Z) : string :=
  let c := civil_of_days days in fixed 2 (day c) +:+ "-" +:+ fixed 2 (month c) +:+ "-" +:+ fixed 4 (year c).

Section Sources.
Context {W : Type} `{Requests W}.

(** [NSEInstrumentSource.fetch]. *)
Definition fetch_nse_instruments : M W (list Instrument.t) := fun w =>
  match requests_get_ok NSE_URL [] w with
  | (Ok text, w) =>
      (reader ← csv_reader text;
       collect nse_instrument (map (dict_row (map str_strip reader.1)) reader.2), w)
  | (Raise (RequestException msg), w) => (Raise (InstrumentFetchError msg), w)
  | (Raise e, w) => (Raise e, w)
  end.

(** [ASXInstrumentSource.fetch]. *)
Definition fetch_asx_instruments : M W (list Instrument.t) := fun w =>
  match requests_get_ok ASX_URL [] w with
  | (Ok text, w) =>
      (match from_first "Company name" text with
       | None => Raise (InstrumentFetchError "no 'Company name' CSV header")
       | Some table =>
           reader ← csv_reader table;
           mret (omap asx_instrument (map (dict_row reader.1) reader.2))
       end, w)
  | (Raise (RequestException msg), w) => (Raise (InstrumentFetchError msg), w)
  | (Raise e, w) => (Raise e, w)
  end.

(** [NSECorporateActionSource.fetch]: the home page for the cookies, then the
    window. *)
Definition fetch_nse_actions (from_date to_date : Z) : M W (list CorporateAction.t) :=
  response ← M_catch
    (_ ← requests_get "https://www.nseindia.com" [];
     text ← requests_get_ok BASE_URL [("index", "equities"); ("from_date", strftime_dmy from_date);
                                      ("to_date", strftime_dmy to_date)];
     M_lift (json_loads text));
  if request_failed response then M_raise (CorporateActionFetchError "NSE corporate actions fetch failed")
  else M_lift (raw_entries ← response; entries ← json_iter raw_entries; collect (parse_nse_entry "NSE") entries).

(** [ASXCorporateActionSource._fetch_one]: the endpoint has no amount, so no
    action can be made of it. *)
Definition fetch_one (symbol : string) (from_date to_date : Z) : M W (option CorporateAction.t) :=
  response ← M_catch
    (text ← requests_get_ok (KEY_STATISTICS_URL symbol) [];
     M_lift (v ← json_loads text;
             match v with JObj fields => mret (default (JObj []) (dget "data" fields)) | _ => no_attribute end));
  if request_failed response then mret None
  else M_lift
    (data ← response;
     ex_date_raw ← match data with JObj fields => mret (default JNull (dget "dateExDate" fields)) | _ => no_attribute end;
     if negb (truthy ex_date_raw) then mret None
     else
       raw ← jstr ex_date_raw;
       match date_fromisoformat raw with
       | Ok ex_date => if (from_date <=? ex_date) && (ex_date <=? to_date) then mret None else mret None
       | Raise _ => mret None
       end).

(** [ASXCorporateActionSource.fetch]. *)
Fixpoint fetch_asx_actions (from_date to_date : Z) (symbols : list string) : M W (list CorporateAction.t) :=
  match symbols with
  | [] => mret []
  | symbol :: symbols =>
      action ← fetch_one symbol from_date to_date;
      actions ← fetch_asx_actions from_date to_date symbols;
      mret (match action with Some a => a :: actions | None => actions end)
  end.
End Sources.

(** ** Repositories ([repositories.py]) *)

(** [upsert_many] on a table with a unique key: [execute_values] sends one
    [INSERT ... ON CONFLICT (key) DO UPDATE] per page of rows.  PostgreSQL
    refuses to affect a row twice in one statement; an exception leaves the
    transaction uncommitted. *)
Section Upserts.
Context {K R : Type} `{EqDecision K} (key_of : R -> K).
Variable page_size : nat.

Definition upsert_page (table : dict K R) (page : list R) : result (dict K R) :=
  if bool_decide (NoDup (key_of <$> page)) then mret (foldl (fun t r => dset (key_of r) r t) table page)
  else Raise (OtherError "CardinalityViolation: ON CONFLICT DO UPDATE command cannot affect row a second time").

(** Enough fuel: the number of rows. *)
Fixpoint pages (fuel : nat) (l : list R) : list (list R) :=
  match fuel, l with
  | S fuel, _ :: _ => take page_size l :: pages fuel (drop page_size l)
  | _, _ => []
  end.

Definition upsert_many (rows : list R) : M (dict K R) Z := fun table =>
  match for_each upsert_page table (pages (length rows) rows) with
  | Ok table' => (Ok (Z.of_nat (length rows)), table')
  | Raise e => (Raise e, table)
  end.
End Upserts.

Definition InstrumentKey : Type := string * string.
Definition instrument_key (i : Instrument.t) : InstrumentKey := (Instrument.symbol i, Instrument.exchange i).

Definition ActionKey : Type := string * string * Z * CorporateActionType.t.
Definition action_key (a : CorporateAction.t) : ActionKey :=
  (CorporateAction.symbol a, CorporateAction.exchange a, CorporateAction.ex_date a, CorporateAction.action_type a).

(** The tables [instruments] and [corporate_actions]. *)
Definition Instruments : Type := dict InstrumentKey Instrument.t.
Definition Actions : Type := dict ActionKey CorporateAction.t.

(** [InstrumentRepository.get] and [count]. *)
Definition get (table : Instruments) (symbol exchange : string) : option Instrument.t := dget (symbol, exchange) table.

Definition count (table : Instruments) (exchange : string) : nat :=
  length (List.filter (fun i => String.eqb (Instrument.exchange i) exchange) (dvalues table)).

Definition is_for (symbol exchange : string) (a : CorporateAction.t) : bool :=
  String.eqb (CorporateAction.symbol a) symbol && String.eqb (CorporateAction.exchange a) exchange.

(** [CorporateActionRepository.list_for_symbol]: [ORDER BY ex_date], through
    the constructor; rows of one date come in the order of the table. *)
Definition list_for_symbol (table : Actions) (symbol exchange : string) : result (list CorporateAction.t) :=
  mapM (fun a => _ ← CorporateAction.check a; mret a)
    (py_sorted earlier_ex_date (List.filter (is_for symbol exchange) (dvalues table))).

(** ** Manual overrides ([manual_overrides.py]) *)

(** An entry of the YAML document, with the fields of the schema at its head;
    [None] is a field that the entry does not have. *)
Module OverrideEntry.
Record t := mk {
  symbol : option string;
  exchange : option string;
  ex_date : option string;
  action_type : option string;
  ratio_numerator : option float;
  ratio_denominator : option float;
  dividend_amount : option float;
  new_symbol : option string;
}.
End OverrideEntry.

(** [entry[key]] *)
Definition required {A} (key : string) (x : option A) : result A :=
  match x with Some v => mret v | None => Raise (KeyError key) end.

Definition override_of (e : OverrideEntry.t) : result CorporateAction.t :=
  symbol ← required "symbol" (OverrideEntry.symbol e);
  exchange ← required "exchange" (OverrideEntry.exchange e);
  ex_date ← required "ex_date" (OverrideEntry.ex_date e) ≫= date_fromisoformat;
  action_type ← required "action_type" (OverrideEntry.action_type e) ≫= CorporateActionType.of_value;
  CorporateAction.make symbol exchange ex_date action_type "MANUAL" (OverrideEntry.ratio_numerator e)
    (OverrideEntry.ratio_denominator e) (OverrideEntry.dividend_amount e) (OverrideEntry.new_symbol e).

Definition ConfigValidationError (msg : string) : exn := OtherError ("ConfigValidationError: " +:+ msg).

Definition load_override (e : OverrideEntry.t) : result CorporateAction.t :=
  match override_of e with
  | Ok a => Ok a
  | Raise (KeyError _) | Raise (ValueError _) => Raise (ConfigValidationError "Invalid manual override entry")
  | Raise x => Raise x
  end.

(** [load_manual_overrides]; [None] is a file that cannot be read or parsed. *)
Definition load_manual_overrides (raw : option (list OverrideEntry.t)) : result (list CorporateAction.t) :=
  match raw with
  | None => Raise (ConfigValidationError "Failed to read")
  | Some entries => mapM load_override entries
  end.

(** ** Service ([service.py]) *)

(** The network, the two tables and the override file. *)
Module Store.
Record t {W : Type} := mk {
  net : W;
  instruments : Instruments;
  actions : Actions;
  overrides : option (list OverrideEntry.t);
}.
Arguments t W : clear implicits.
Arguments mk {W} net instruments actions overrides.
End Store.

Section Service.
Context {W : Type} `{Requests W}.
Variable page_size : nat.

Definition on_net {A} (m : M W A) : M (Store.t W) A :=
  M_zoom Store.net
    (fun w s => Store.mk w (Store.instruments s) (Store.actions s) (Store.overrides s)) m.
Definition on_instruments {A} (m : M Instruments A) : M (Store.t W) A :=
  M_zoom Store.instruments
    (fun t s => Store.mk (Store.net s) t (Store.actions s) (Store.overrides s)) m.
Definition on_actions {A} (m : M Actions A) : M (Store.t W) A :=
  M_zoom Store.actions
    (fun t s => Store.mk (Store.net s) (Store.instruments s) t (Store.overrides s)) m.

(** [_INSTRUMENT_SOURCES]. *)
Definition INSTRUMENT_SOURCES (exchange : string) : M W (list Instrument.t) :=
  if String.eqb exchange "NSE" then fetch_nse_instruments
  else if String.eqb exchange "ASX" then fetch_asx_instruments
  else M_raise (KeyError exchange).

Definition refresh_instrument_master (exchange : string) : M (Store.t W) Z :=
  instruments ← on_net (INSTRUMENT_SOURCES exchange);
  on_instruments (upsert_many instrument_key page_size instruments).

Definition refresh_corporate_actions (today : Z) : M (Store.t W) Z :=
  let '(from_date, to_date) := default_refresh_window today in
  live_actions ← on_net (fetch_nse_actions from_date to_date);
  live_written ← on_actions (upsert_many action_key page_size live_actions);
  s ← M_get;
  manual_overrides ← M_lift (load_manual_overrides (Store.overrides s));
  manual_written ← on_actions (upsert_many action_key page_size manual_overrides);
  mret (live_written + manual_written).
End Service.

Definition get_adjusted_series (table : Actions) (symbol exchange : string) (candles : list OHLCVCandle.t)
    : result (list OHLCVCandle.t) :=
  actions ← list_for_symbol table symbol exchange;
  adjusted_candles candles actions.

(** ** Tables *)

Section UpsertFacts.
Context {K R : Type} `{EqDecision K} (key_of : R -> K).
Variable page_size : nat.
Hypothesis Hpage : (0 < page_size)%nat.

(** The last row with a key. *)
Definition last_row (k : K) (rows : list R) : option R :=
  find_first (fun r => bool_decide (key_of r = k)) (rev rows).

(** What a table has under [k] after the rows, if it had [old]. *)
Definition written (k : K) (old : option R) (rows : list R) : option R :=
  match last_row k rows with Some r => Some r | None => old end.

Lemma written_cons k old r rows :
  written k old (r :: rows) = written k (if bool_decide (key_of r = k) then Some r else old) rows.
Proof.
  unfold written, last_row. cbn [rev]. induction (rev rows) as [|x l IH]; cbn.
  - by case_bool_decide.
  - by destruct (bool_decide (key_of x = k)).
Qed.

Lemma written_app k old rows rows' : written k old (rows ++ rows') = written k (written k old rows) rows'.
Proof. revert old. induction rows as [|r rows IH]; intros old; [done|]. cbn [app]. by rewrite !written_cons. Qed.

Lemma written_fresh k old rows : k ∉ key_of <$> rows -> written k old rows = old.
Proof.
  revert old. induction rows as [|r rows IH]; intros old; [done|]. rewrite written_cons. cbn. intros Hk.
  rewrite bool_decide_eq_false_2 by set_solver. apply IH. set_solver.
Qed.

Lemma written_distinct old rows r : NoDup (key_of <$> rows) -> r ∈ rows -> written (key_of r) old rows = Some r.
Proof.
  revert old. induction rows as [|x rows IH]; intros old; cbn; [set_solver|].
  intros [Hx Hd]%NoDup_cons [-> | Hr]%elem_of_cons; rewrite written_cons; [|by apply IH].
  rewrite bool_decide_eq_true_2 by done. by apply written_fresh.
Qed.

Lemma upsert_page_written t page t' k :
  upsert_page key_of t page = Ok t' -> dget k t' = written k (dget k t) page.
Proof.
  unfold upsert_page. case_bool_decide as Hd; [|done]. intros [= <-]. clear Hd.
  revert t. induction page as [|r page IH]; intros t; [done|]. cbn [foldl].
  rewrite IH, written_cons. f_equal. rewrite dget_dset. case_bool_decide; case_decide; naive_solver.
Qed.

Lemma concat_pages n (rows : list R) : (length rows <= n)%nat -> List.concat (pages page_size n rows) = rows.
Proof.
  revert rows. induction n as [|n IH]; intros [|r rows] Hn; cbn in *; [done|lia|done|].
  destruct page_size as [|m]; [lia|]. cbn. f_equal. rewrite IH; [by rewrite take_drop|]. rewrite length_drop. lia.
Qed.

Lemma upserts_written ps : forall t t' k,
  for_each (upsert_page key_of) t ps = Ok t' -> dget k t' = written k (dget k t) (List.concat ps).
Proof.
  induction ps as [|p ps IH]; intros t t' k; cbn; [by intros [= <-]|].
  intros Hf. bind_inv Hf. rewrite written_app, (IH _ _ _ Hf). f_equal. by apply upsert_page_written.
Qed.

Lemma upsert_many_count rows t n t' :
  upsert_many key_of page_size rows t = (Ok n, t') -> n = Z.of_nat (length rows).
Proof. unfold upsert_many. destruct (for_each _ _ _); [|done]. by intros [= <- _]. Qed.

Lemma upsert_many_written rows t n t' k :
  upsert_many key_of page_size rows t = (Ok n, t') -> dget k t' = written k (dget k t) rows.
Proof.
  unfold upsert_many. destruct (for_each _ _ _) as [t1|e] eqn:E; [|done]. intros [= <- <-].
  rewrite (upserts_written _ _ _ k E). by rewrite concat_pages.
Qed.

Lemma upsert_many_raise rows t e t' : upsert_many key_of page_size rows t = (Raise e, t') -> t' = t.
Proof. unfold upsert_many. destruct (for_each _ _ _); [done|]. by intros [= _ <-]. Qed.

Lemma pages_sublist n (rows p : list R) : p ∈ pages page_size n rows -> p `sublist_of` rows.
Proof.
  revert rows. induction n as [|n IH]; intros [|r rows]; cbn; [set_solver..|].
  rewrite elem_of_cons. intros [-> | Hp]; [apply sublist_take|].
  etrans; [by apply IH|apply sublist_drop].
Qed.

(** Rows with distinct keys are always written. *)
Lemma upsert_many_distinct rows t : NoDup (key_of <$> rows) ->
  exists t', upsert_many key_of page_size rows t = (Ok (Z.of_nat (length rows)), t').
Proof.
  intros Hd. unfold upsert_many.
  assert (Hp : Forall (fun p => NoDup (key_of <$> p)) (pages page_size (length rows) rows)).
  { apply Forall_forall. intros p Hp. apply pages_sublist in Hp.
    eapply sublist_NoDup; [exact Hd|]. by apply fmap_sublist. }
  assert (He : exists t', for_each (upsert_page key_of) t (pages page_size (length rows) rows) = Ok t').
  { revert t. induction Hp as [|p ps Hp Hps IH]; intros t; [by eexists|]. cbn [for_each].
    unfold upsert_page at 2. rewrite bool_decide_eq_true_2 by done. apply IH. }
  destruct He as [t' ->]. by eexists.
Qed.

(** A key that the first page has twice makes every call raise. *)
Lemma upsert_many_duplicate rows t : ~ NoDup (key_of <$> take page_size rows) ->
  exists e, upsert_many key_of page_size rows t = (Raise e, t).
Proof.
  intros Hd. unfold upsert_many. destruct rows as [|r rows].
  { exfalso. apply Hd. destruct page_size; constructor. }
  cbn [length pages for_each]. unfold upsert_page at 2. rewrite bool_decide_eq_false_2 by done.
  cbn. by eexists.
Qed.

(** What holds of a table and is kept by writing one of the rows. *)
Lemma upsert_many_invariant (I : dict K R -> Prop) rows t :
  (forall r t, r ∈ rows -> I t -> I (dset (key_of r) r t)) -> I t -> I (upsert_many key_of page_size rows t).2.
Proof.
  intros Hr Ht. unfold upsert_many. destruct (for_each _ _ _) as [t1|e] eqn:E; [|done]. cbn.
  revert E. apply for_each_invariant with (P := I); [|done].
  intros t0 p t0' Hp Ht0. unfold upsert_page. case_bool_decide; [|done]. intros [= <-].
  assert (Hpr : forall r, r ∈ p -> r ∈ rows).
  { intros r Hr'. apply pages_sublist in Hp. apply (elem_of_submseteq p); [done|by apply sublist_submseteq]. }
  clear -Ht0 Hpr Hr. revert t0 Ht0. induction p as [|r p IH]; intros t0 Ht0; [done|].
  cbn. apply IH; [set_solver|]. apply Hr; set_solver.
Qed.

Lemma upsert_many_Forall (P : R -> Prop) rows t : Forall P rows -> Forall P (dvalues t) ->
  Forall P (dvalues (upsert_many key_of page_size rows t).2).
Proof.
  intros Hr. rewrite Forall_forall in Hr. apply (upsert_many_invariant (fun t => Forall P (dvalues t))).
  intros r t0 Hi Ht0. unfold dvalues in *. rewrite Forall_fmap in *. apply dset_Forall; [done|]. cbn. auto.
Qed.

(** A table as the server keeps it: unique keys, every row under its own. *)
Definition keyed (t : dict K R) : Prop := NoDup (dkeys t) /\ Forall (fun kv => kv.1 = key_of kv.2) t.

Lemma upsert_many_keyed rows t : keyed t -> keyed (upsert_many key_of page_size rows t).2.
Proof.
  apply upsert_many_invariant. intros r t0 _ [Hd Hk]. split; [by apply dset_NoDup|].
  apply dset_Forall; [done|]. by intros k' <-.
Qed.

Lemma keyed_elem t r : keyed t -> r ∈ dvalues t <-> dget (key_of r) t = Some r.
Proof.
  intros [Hd Hk]. unfold dvalues. rewrite list_elem_of_fmap. split.
  - intros ([k r'] & -> & Hi). rewrite Forall_forall in Hk. pose proof (Hk _ Hi) as E. cbn in E. subst k.
    by apply elem_dget.
  - intros Hg. exists (key_of r, r). split; [done|]. by apply dget_elem.
Qed.

Lemma keyed_NoDup t : keyed t -> NoDup (key_of <$> dvalues t).
Proof.
  intros [Hd Hk]. unfold dkeys, dvalues in *. rewrite <- list_fmap_compose.
  rewrite (list_fmap_ext (key_of ∘ snd) fst t); [done|].
  intros i [k r] Hi. rewrite Forall_forall in Hk. symmetry. apply (Hk (k, r)). by eapply list_elem_of_lookup_2.
Qed.
End UpsertFacts.

(** ** Valid actions *)

Definition valid (a : CorporateAction.t) : Prop := CorporateAction.check a = Ok tt.

Lemma make_ok s e d t src n dn amount ns a :
  CorporateAction.make s e d t src n dn amount ns = Ok a ->
  a = CorporateAction.mk s e d t src n dn amount ns /\ valid a.
Proof.
  unfold CorporateAction.make, valid. destruct (CorporateAction.check _) as [[]|x] eqn:E; cbn; [|done].
  intros [= <-]. done.
Qed.

Lemma skip_invalid_ok r a : skip_invalid r = Ok (Some a) -> r = Ok a.
Proof. destruct r as [b|[]]; cbn; congruence. Qed.

(** What the NSE parser makes of an entry. *)
Definition live (exchange : string) (a : CorporateAction.t) : Prop :=
  valid a /\ CorporateAction.exchange a = exchange /\ CorporateAction.source a = live_source exchange
  /\ CorporateAction.action_type a <> CorporateActionType.SYMBOL_CHANGE.

Lemma parse_subject_live symbol exchange d subject a :
  parse_subject symbol exchange d subject = Ok (Some a) -> live exchange a /\ CorporateAction.symbol a = symbol.
Proof.
  unfold parse_subject, live. intros Hp.
  destruct (research SPLIT_PATTERN subject) as [m|]; [|destruct (research BONUS_PATTERN subject) as [m|]].
  - bind_inv Hp. bind_inv Hp. by apply skip_invalid_ok, make_ok in Hp as [-> Hv].
  - bind_inv Hp. bind_inv Hp. by apply skip_invalid_ok, make_ok in Hp as [-> Hv].
  - destruct (str_contains _ _); [|done]. destruct (research _ _) as [m|]; [|done].
    apply skip_invalid_ok in Hp. bind_inv Hp. by apply make_ok in Hp as [-> Hv].
Qed.

Lemma parse_nse_entry_live exchange entry a :
  parse_nse_entry exchange entry = Ok (Some a) -> live exchange a /\ CorporateAction.symbol a <> "".
Proof.
  unfold parse_nse_entry. intros Hp. bind_inv Hp. rename a0 into symbol. bind_inv Hp. bind_inv Hp.
  destruct (is_empty symbol) eqn:Es; [done|]. cbn [orb] in Hp.
  destruct (_ || _ || _) in Hp; [done|]. bind_inv Hp.
  destruct (strptime_dby _); [|done]. bind_inv Hp.
  apply parse_subject_live in Hp as [Hl <-]. split; [done|].
  unfold is_empty in Es. by apply String.eqb_neq in Es.
Qed.

Lemma collect_Forall {A B} (f : A -> result (option B)) (P : B -> Prop) l ys :
  (forall x y, f x = Ok (Some y) -> P y) -> collect f l = Ok ys -> Forall P ys.
Proof.
  intros Hf. revert ys. induction l as [|x l IH]; intros ys Hc; cbn in Hc; [injection Hc as <-; constructor|].
  bind_inv Hc. bind_inv Hc. injection Hc as <-. destruct a as [y|]; [constructor|]; eauto.
Qed.

Lemma load_manual_overrides_valid raw actions : load_manual_overrides raw = Ok actions -> Forall valid actions.
Proof.
  destruct raw as [entries|]; [|done]. cbn. revert actions.
  induction entries as [|e entries IH]; intros actions Hm; cbn in Hm; [injection Hm as <-; constructor|].
  bind_inv Hm. bind_inv Hm. injection Hm as <-. constructor; [|by apply IH].
  unfold load_override in Ha. destruct (override_of e) as [b|[]] eqn:Eo; try done. injection Ha as ->.
  unfold override_of in Eo. do 4 bind_inv Eo. by apply make_ok in Eo as [_ Hv].
Qed.

(** ** Refresh *)

Section RefreshFacts.
Context {W : Type} `{Requests W}.
Variable page_size : nat.
Hypothesis Hpage : (0 < page_size)%nat.

Lemma fetch_nse_actions_live from_date to_date w actions w' :
  fetch_nse_actions from_date to_date w = (Ok actions, w') -> Forall (live "NSE") actions.
Proof.
  unfold fetch_nse_actions, mbind, M_bind, M_catch. destruct (requests_get _ _ w) as [[t|e] w1].
  - destruct (requests_get_ok _ _ w1) as [[t'|e] w2]; cbn [M_lift].
    + destruct (request_failed _); [done|]. unfold M_lift. intros [= Hc _]. bind_inv Hc. bind_inv Hc.
      revert Hc. apply collect_Forall. intros x y Hp. by apply (parse_nse_entry_live "NSE" x).
    + destruct (request_failed _); done.
  - destruct (request_failed _); done.
Qed.

#[local] Abbreviation upsert := (upsert_many action_key page_size).

Lemma refresh_steps today s :
  refresh_corporate_actions page_size today s =
  let with_net w t := Store.mk w (Store.instruments s) t (Store.overrides s) in
  let '(from_date, to_date) := default_refresh_window today in
  match fetch_nse_actions from_date to_date (Store.net s) with
  | (Raise e, w) => (Raise e, with_net w (Store.actions s))
  | (Ok live_actions, w) =>
      match upsert live_actions (Store.actions s) with
      | (Raise e, t) => (Raise e, with_net w t)
      | (Ok live_written, t) =>
          match load_manual_overrides (Store.overrides s) with
          | Raise e => (Raise e, with_net w t)
          | Ok manual =>
              match upsert manual t with
              | (Raise e, t) => (Raise e, with_net w t)
              | (Ok manual_written, t) => (Ok (live_written + manual_written), with_net w t)
              end
          end
      end
  end.
Proof.
  unfold refresh_corporate_actions, on_net, on_actions, M_zoom, mbind, M_bind, M_get, M_lift.
  destruct (default_refresh_window today) as [from_date to_date].
  destruct (fetch_nse_actions _ _ _) as [[l|e] w]; [|done]. cbn.
  destruct (upsert l _) as [[n|e] t]; [|done]. cbn.
  destruct (load_manual_overrides _) as [m|e]; [|done]. cbn.
  by destruct (upsert m _) as [[n'|e] t'].
Qed.

(** The rows of the table of actions are valid. *)
Definition rows_valid (s : Store.t W) : Prop := Forall valid (dvalues (Store.actions s)).

(** A refresh, completed or not, leaves only rows that the constructor of
    [CorporateAction] accepts: no split or bonus without a positive ratio, no
    dividend without a positive amount. *)
Theorem refresh_keeps_rows_valid today s :
  rows_valid s -> rows_valid (refresh_corporate_actions page_size today s).2.
Proof.
  unfold rows_valid. intros Hs. rewrite refresh_steps. cbv zeta.
  destruct (default_refresh_window today) as [from_date to_date].
  destruct (fetch_nse_actions _ _ _) as [[l|e] w] eqn:Ef; [|done].
  assert (Hl : Forall valid l).
  { eapply Forall_impl; [by eapply fetch_nse_actions_live|]. by intros a [Hv _]. }
  pose proof (upsert_many_Forall action_key page_size Hpage valid l _ Hl Hs) as Ht.
  destruct (upsert l _) as [[n|e] t]; [|done]. cbn in Ht.
  destruct (load_manual_overrides _) as [m|e] eqn:Em; [|done].
  pose proof (upsert_many_Forall action_key page_size Hpage valid m _ (load_manual_overrides_valid _ _ Em) Ht) as Ht'.
  by destruct (upsert m _) as [[n'|e] t'].
Qed.

(** C15. Manual overrides win: after a completed refresh the row of every key is the
    last manual override with that key, failing that the last live action,
    failing that the row from before; the result counts both. *)
Theorem manual_overrides_win today s written_rows s' :
  refresh_corporate_actions page_size today s = (Ok written_rows, s') ->
  exists live_actions manual,
    (let '(from_date, to_date) := default_refresh_window today in
     fetch_nse_actions from_date to_date (Store.net s)) = (Ok live_actions, Store.net s')
    /\ load_manual_overrides (Store.overrides s) = Ok manual
    /\ written_rows = Z.of_nat (length live_actions + length manual)
    /\ forall k, dget k (Store.actions s') =
         match last_row action_key k manual with
         | Some a => Some a
         | None => match last_row action_key k live_actions with
                   | Some a => Some a
                   | None => dget k (Store.actions s)
                   end
         end.
Proof.
  rewrite refresh_steps. cbv zeta. destruct (default_refresh_window today) as [from_date to_date].
  destruct (fetch_nse_actions _ _ _) as [[l|e] w]; [|done].
  destruct (upsert l _) as [[n|e] t] eqn:El; [|done].
  destruct (load_manual_overrides _) as [m|e]; [|done].
  destruct (upsert m t) as [[n'|e] t'] eqn:Em; [|done]. intros [= <- <-]. exists l, m.
  repeat split.
  - rewrite (upsert_many_count _ _ _ _ _ _ El), (upsert_many_count _ _ _ _ _ _ Em). lia.
  - intros k. cbn. rewrite (upsert_many_written action_key page_size Hpage _ _ _ _ k Em).
    by rewrite (upsert_many_written action_key page_size Hpage _ _ _ _ k El).
Qed.

(** A refresh whose live actions have distinct keys, and whose overrides load
    and have distinct keys, completes. *)
Lemma refresh_completes today s live_actions w manual :
  (let '(from_date, to_date) := default_refresh_window today in
   fetch_nse_actions from_date to_date (Store.net s)) = (Ok live_actions, w) ->
  load_manual_overrides (Store.overrides s) = Ok manual ->
  NoDup (action_key <$> live_actions) -> NoDup (action_key <$> manual) ->
  exists s', refresh_corporate_actions page_size today s
             = (Ok (Z.of_nat (length live_actions + length manual)), s').
Proof.
  rewrite refresh_steps. cbv zeta. destruct (default_refresh_window today) as [from_date to_date].
  intros -> -> Hl Hm.
  destruct (upsert_many_distinct action_key page_size Hpage live_actions (Store.actions s) Hl) as [t ->].
  destruct (upsert_many_distinct action_key page_size Hpage manual t Hm) as [t' ->].
  eexists. by rewrite Nat2Z.inj_add.
Qed.

(** Two live actions of one key in the same statement, such as two dividends
    with one ex-date, fail every refresh: the table stays as it was, and the
    manual overrides are not applied. *)
Theorem duplicate_action_fails_refresh today s live_actions w :
  (let '(from_date, to_date) := default_refresh_window today in
   fetch_nse_actions from_date to_date (Store.net s)) = (Ok live_actions, w) ->
  ~ NoDup (action_key <$> take page_size live_actions) ->
  exists e, refresh_corporate_actions page_size today s
            = (Raise e, Store.mk w (Store.instruments s) (Store.actions s) (Store.overrides s)).
Proof.
  rewrite refresh_steps. cbv zeta. destruct (default_refresh_window today) as [from_date to_date].
  intros -> Hd. destruct (upsert_many_duplicate action_key page_size Hpage _ (Store.actions s) Hd) as [e He].
  exists e. by rewrite He.
Qed.
End RefreshFacts.

(** ** Adjustment *)

Definition no_later (x y : CorporateAction.t) : Prop := CorporateAction.ex_date x <= CorporateAction.ex_date y.

Lemma sorted_by_date l : StronglySorted no_later (py_sorted earlier_ex_date l).
Proof.
  unfold earlier_ex_date, no_later. apply (py_sorted_ordered (fun _ => True)); [intros; lia..|].
  by apply Forall_true.
Qed.

Lemma same_image {A B} (f : A -> B) l x y : NoDup (f <$> l) -> x ∈ l -> y ∈ l -> f x = f y -> x = y.
Proof.
  induction l as [|z l IH]; [set_solver|]. cbn. rewrite NoDup_cons, !elem_of_cons.
  intros [Hz Hd] [-> | Hx] [-> | Hy] E; [done| | |by apply IH];
    exfalso; apply Hz; [rewrite E|rewrite <- E]; by apply list_elem_of_fmap_2.
Qed.

Lemma filter_perm {A} (p : A -> bool) l l' : l ≡ₚ l' -> List.filter p l ≡ₚ List.filter p l'.
Proof.
  induction 1 as [|x l l' Hl IH|x y l|l l' l'' H1 IH1 H2 IH2]; cbn; [done| | |by rewrite IH1].
  - destruct (p x); by rewrite IH.
  - destruct (p x), (p y); try done. constructor.
Qed.

(** The order in which the actions of a symbol are given does not matter when
    no two of its splits and bonuses have the same ex-date. *)
Theorem adjustment_order_irrelevant candles actions actions' :
  actions ≡ₚ actions' -> NoDup (CorporateAction.ex_date <$> List.filter price_adjusting actions) ->
  adjusted_candles candles actions = adjusted_candles candles actions'.
Proof.
  intros Hp Hd. unfold adjusted_candles. f_equal. f_equal.
  apply (filter_perm price_adjusting) in Hp.
  apply (StronglySorted_unique_strong no_later); [|apply sorted_by_date..|by rewrite !py_sorted_perm].
  unfold no_later. intros x y Hx Hy H1 H2.
  rewrite py_sorted_perm in Hx. rewrite py_sorted_perm, <- Hp in Hy.
  apply (same_image CorporateAction.ex_date _ x y Hd Hx Hy). lia.
Qed.

(** *** Errors of the adjustment *)

Lemma valid_ratio a : valid a -> price_adjusting a = true ->
  exists n d, CorporateAction.ratio_numerator a = Some n /\ CorporateAction.ratio_denominator a = Some d
              /\ is_zero n = false /\ is_zero d = false.
Proof.
  unfold valid, CorporateAction.check, price_adjusting. intros Hv Ht.
  destruct (CorporateAction.action_type a); try (vm_compute in Ht; discriminate).
  all: destruct (CorporateAction.ratio_numerator a) as [n|]; [|done].
  all: destruct (CorporateAction.ratio_denominator a) as [d|]; cbn in Hv; [|by rewrite orb_true_r in Hv].
  all: exists n, d; destruct (is_zero n), (is_zero d); done.
Qed.

Lemma apply_action_ok day mults a : valid a -> price_adjusting a = true ->
  exists mults', apply_action day mults a = Ok mults'.
Proof.
  intros Hv Ht. destruct (valid_ratio a Hv Ht) as (n & d & Hn & Hd & Zn & Zd).
  unfold apply_action. destruct (day <? _); [|by eexists]. rewrite Hn, Hd, !pydiv_nonzero by done. by eexists.
Qed.

Lemma apply_actions_ok day relevant mults :
  Forall (fun a => valid a /\ price_adjusting a = true) relevant ->
  exists mults', for_each (apply_action day) mults relevant = Ok mults'.
Proof.
  intros Hr. revert mults. induction Hr as [|a l [Hv Ht] Hl IH]; intros mults; [by eexists|].
  cbn. destruct (apply_action_ok day mults a Hv Ht) as [m ->]. apply IH.
Qed.

Definition volume_error (e : exn) : Prop := e = OverflowError \/ exists msg, e = ValueError msg.

Lemma round_int_error x e : round_int x = Raise e -> volume_error e.
Proof. unfold volume_error. destruct x; cbn; [done|intros [= <-]; by left|intros [= <-]; right; by eexists|by destruct (to_rational _ _)]. Qed.

Lemma adjust_candle_error relevant c e :
  Forall (fun a => valid a /\ price_adjusting a = true) relevant -> adjust_candle relevant c = Raise e -> volume_error e.
Proof.
  intros Hr. unfold adjust_candle. destruct (apply_actions_ok (candle_date c) _ (dec 10 1, dec 10 1) Hr) as [[p v] ->].
  unfold mbind, result_bind, float_of_int. destruct (is_finite _); [|intros [= <-]; by left].
  destruct (round_int _) as [z|e'] eqn:Er; [done|]. intros [= <-]. by eapply round_int_error.
Qed.

(** On valid actions the adjustment fails neither its assertions nor its
    divisions: all that can fail is the volume, which may be too large. *)
Theorem adjustment_only_fails_on_volume candles actions e :
  Forall valid actions -> adjusted_candles candles actions = Raise e -> volume_error e.
Proof.
  intros Hv. unfold adjusted_candles.
  assert (Hr : Forall (fun a => valid a /\ price_adjusting a = true)
                 (py_sorted earlier_ex_date (List.filter price_adjusting actions))).
  { rewrite py_sorted_perm. rewrite Forall_forall in Hv |- *. intros a Ha.
    apply list_elem_of_In, filter_In in Ha as [Ha Ht]. split; [|done]. by apply Hv, list_elem_of_In. }
  induction candles as [|c candles IH]; cbn; [done|].
  destruct (adjust_candle _ c) as [c'|e'] eqn:Ec; cbn; [|intros [= <-]; by eapply adjust_candle_error].
  destruct (mapM _ candles) as [cs|e']; cbn; [done|]. intros [= ->]. by apply IH.
Qed.

Lemma check_rows l : Forall valid l -> mapM (fun a => _ ← CorporateAction.check a; mret a) l = Ok l.
Proof. induction 1 as [|a l Hv Hl IH]; [done|]. cbn. rewrite Hv. cbn. by rewrite IH. Qed.

(** Reading the actions of a symbol from valid rows gives exactly its rows, by
    date, and the adjusted series fails only on a volume. *)
Theorem adjusted_series_of_valid_rows table symbol exchange :
  Forall valid (dvalues table) ->
  (exists actions, list_for_symbol table symbol exchange = Ok actions
     /\ actions ≡ₚ List.filter (is_for symbol exchange) (dvalues table) /\ StronglySorted no_later actions)
  /\ forall candles e, get_adjusted_series table symbol exchange candles = Raise e -> volume_error e.
Proof.
  intros Hv. set (rows := List.filter (is_for symbol exchange) (dvalues table)).
  assert (Hr : Forall valid (py_sorted earlier_ex_date rows)).
  { rewrite py_sorted_perm. rewrite Forall_forall in Hv |- *. intros a Ha.
    apply list_elem_of_In, filter_In in Ha as [Ha _]. by apply Hv, list_elem_of_In. }
  assert (El : list_for_symbol table symbol exchange = Ok (py_sorted earlier_ex_date rows)) by by apply check_rows.
  split.
  - eexists. split; [exact El|]. split; [apply py_sorted_perm|apply sorted_by_date].
  - intros candles e. unfold get_adjusted_series. rewrite El. cbn. by apply adjustment_only_fails_on_volume.
Qed.

(** ** Sample runs *)

(** The network: the body of the corporate-actions request; the other requests
    return nothing. *)
#[local] Instance sample_requests : Requests string := {
  requests_get := fun _ _ w => (Ok "", w);
  requests_get_ok := fun url _ w => (Ok w, w);
}.

Definition sample_entry (symbol subject ex_date : string) : json :=
  JObj [("symbol", JStr symbol); ("subject", JStr subject); ("exDate", JStr ex_date)].

Definition sample_body (entries : list json) : string := json_dumps (JList entries).

Definition sample_store (entries : list json) (overrides : list OverrideEntry.t) : Store.t string :=
  Store.mk (sample_body entries) [] [] (Some overrides).

Definition sample_split : json :=
  sample_entry "XYZ" "Face Value Split (Sub-Division) - From Rs10/- Per Share To Re 1/- Per Share" "05-Jan-2024".

(** The feed says 1:10, the override 1:5. *)
Definition sample_override : OverrideEntry.t :=
  OverrideEntry.mk (Some "XYZ") (Some "NSE") (Some "2024-01-05") (Some "SPLIT") (Some (dec 5 0)) (Some (dec 1 0)) None None.

Definition sample_key : ActionKey := ("XYZ", "NSE", 19727, CorporateActionType.SPLIT).

Lemma refresh_keeps_rows_valid_witness :
  rows_valid (sample_store [sample_split] [sample_override])
  /\ rows_valid (refresh_corporate_actions 100 19700 (sample_store [sample_split] [sample_override])).2.
Proof.
  assert (Hs : rows_valid (sample_store [sample_split] [sample_override])) by constructor.
  exact (conj Hs (refresh_keeps_rows_valid 100 ltac:(lia) 19700 _ Hs)).
Defined.

(** What a refresh leaves under a key: the source and the ratio. *)
Definition row_summary (s : Store.t string) (k : ActionKey) : option (string * option string) :=
  a ← dget k (Store.actions s);
  mret (CorporateAction.source a, repr <$> CorporateAction.ratio_numerator a).

Example manual_over_live :
  let run overrides := refresh_corporate_actions 100 19700 (sample_store [sample_split] overrides) in
  row_summary (run []).2 sample_key = Some ("NSE_LIVE", Some "10.0")
  /\ row_summary (run [sample_override]).2 sample_key = Some ("MANUAL", Some "5.0").
Proof. vm_compute. done. Qed.

Lemma manual_overrides_win_witness :
  exists n s', refresh_corporate_actions 100 19700 (sample_store [sample_split] [sample_override]) = (Ok n, s')
    /\ exists live_actions manual,
         fetch_nse_actions 19335 20065 (sample_body [sample_split]) = (Ok live_actions, Store.net s')
         /\ load_manual_overrides (Some [sample_override]) = Ok manual
         /\ n = Z.of_nat (length live_actions + length manual)
         /\ forall k, dget k (Store.actions s') =
              match last_row action_key k manual with
              | Some a => Some a
              | None => match last_row action_key k live_actions with Some a => Some a | None => None end
              end.
Proof.
  destruct (refresh_corporate_actions 100 19700 (sample_store [sample_split] [sample_override])) as [[n|e] s'] eqn:E.
  - exists n, s'. split; [reflexivity|]. exact (manual_overrides_win 100 ltac:(lia) 19700 _ n s' E).
  - exfalso. vm_compute in E. discriminate.
Defined.

(** An interim and a special dividend with one ex-date: the refresh raises and
    writes nothing, not even the override of another symbol. *)
Definition sample_dividends : list json :=
  [sample_entry "ABC" "Interim Dividend - Rs 5 Per Share" "05-Jan-2024";
   sample_entry "ABC" "Special Dividend - Rs 10 Per Share" "05-Jan-2024"].

Example two_dividends_block_refresh :
  let r := refresh_corporate_actions 100 19700 (sample_store sample_dividends [sample_override]) in
  (exists msg, r.1 = Raise (OtherError msg)) /\ Store.actions r.2 = [].
Proof. vm_compute. split; [by eexists|done]. Qed.

Lemma duplicate_action_fails_refresh_witness :
  exists live_actions w e, fetch_nse_actions 19335 20065 (sample_body sample_dividends) = (Ok live_actions, w)
    /\ refresh_corporate_actions 100 19700 (sample_store sample_dividends [sample_override])
       = (Raise e, Store.mk w [] [] (Some [sample_override])).
Proof.
  destruct (fetch_nse_actions 19335 20065 (sample_body sample_dividends)) as [[l|e] w] eqn:E.
  - assert (Hd : ~ NoDup (action_key <$> take 100 l)).
    { apply (bool_decide_eq_false_1 (NoDup (action_key <$> take 100 l))). vm_compute in E.
      injection E as <- <-. vm_compute. reflexivity. }
    destruct (duplicate_action_fails_refresh 100 ltac:(lia) 19700
                (sample_store sample_dividends [sample_override]) l w E Hd) as [e He].
    exists l, w, e. split; [reflexivity|exact He].
  - exfalso. vm_compute in E. discriminate.
Defined.

(** What the parser makes of a subject: the type of the action. *)
Definition parsed (subject : string) : result (option (CorporateActionType.t * option string * option string)) :=
  a ← parse_nse_entry "NSE" (sample_entry "XYZ" subject "05-Jan-2024");
  mret (option_map (fun a => (CorporateAction.action_type a, repr <$> CorporateAction.ratio_numerator a,
                              repr <$> CorporateAction.dividend_amount a)) a).

Example parsed_subjects :
  parsed "Bonus 3:1" = Ok (Some (CorporateActionType.BONUS, Some "4.0", None))
  /\ parsed "Dividend - Rs 130 Per Share" = Ok (Some (CorporateActionType.DIVIDEND, None, Some "130.0"))
  /\ parsed "Annual General Meeting/Dividend" = Ok None.
Proof. vm_compute. done. Qed.

(** Amounts of one rupee are written Re, which the pattern of splits accepts
    and the pattern of dividends does not: the dividend is not recorded. *)
Example one_rupee_dividend_skipped : parsed "Dividend - Re 1 Per Share" = Ok None.
Proof. vm_compute. done. Qed.

(** Of a subject with a split and a bonus only the split is recorded. *)
Example split_hides_bonus :
  parsed "Bonus 1:1 And Face Value Split From Rs 10/- Per Share To Rs 5/- Per Share"
  = Ok (Some (CorporateActionType.SPLIT, Some "10.0", None)).
Proof. vm_compute. done. Qed.

(** A malformed number in a split subject raises out of the fetch, while in a
    dividend subject it is skipped. *)
Example malformed_split_raises :
  (exists msg, parsed "Split From Rs 10. Per Share To Rs 1.0.0 Per Share" = Raise (ValueError msg))
  /\ parsed "Dividend - Rs 1.0.0 Per Share" = Ok None.
Proof. vm_compute. split; [by eexists|done]. Qed.

(** *** A morning in Sydney *)

(** A 2:1 split with ex-date 2024-01-05, and a candle of 10:15 that morning in
    Sydney, at 23:15 UTC the day before: the date in UTC is before the ex-date,
    and the price, which is already the new one, is halved. *)
Definition sydney_split : CorporateAction.t :=
  CorporateAction.mk "BHP" "ASX" 19727 CorporateActionType.SPLIT "MANUAL" (Some (dec 2 0)) (Some (dec 1 0)) None None.

Definition sydney_candle : OHLCVCandle.t :=
  OHLCVCandle.mk (19726 * DAY + 23 * HOUR + 15 * MINUTE) "BHP" "ASX" (dec 20 0) (dec 20 0) (dec 20 0) (dec 20 0) 100.

Example sydney_morning_adjusted :
  (cs ← adjusted_candles [sydney_candle] [sydney_split];
   mret (map (fun c => (repr (OHLCVCandle.close c), OHLCVCandle.volume c)) cs)) = Ok [("10.0", 200)].
Proof. vm_compute. done. Qed.

Lemma adjustment_order_irrelevant_witness :
  let bonus := CorporateAction.mk "BHP" "ASX" 19800 CorporateActionType.BONUS "MANUAL" (Some (dec 3 0)) (Some (dec 2 0)) None None in
  adjusted_candles [sydney_candle] [sydney_split; bonus] = adjusted_candles [sydney_candle] [bonus; sydney_split].
Proof.
  intros bonus. apply (adjustment_order_irrelevant [sydney_candle] [sydney_split; bonus] [bonus; sydney_split]).
  - apply perm_swap.
  - apply (bool_decide_eq_true_1 (NoDup _)). vm_compute. reflexivity.
Defined.

Lemma adjusted_series_of_valid_rows_witness :
  let table : Actions := [(action_key sydney_split, sydney_split)] in
  Forall valid (dvalues table)
  /\ ((exists actions, list_for_symbol table "BHP" "ASX" = Ok actions
        /\ actions ≡ₚ List.filter (is_for "BHP" "ASX") (dvalues table) /\ StronglySorted no_later actions)
      /\ forall candles e, get_adjusted_series table "BHP" "ASX" candles = Raise e -> volume_error e).
Proof.
  intros table. assert (Hv : Forall valid (dvalues table)) by (constructor; [vm_compute; reflexivity|constructor]).
  exact (conj Hv (adjusted_series_of_valid_rows table "BHP" "ASX" Hv)).
Defined.
