(* ===== verification/Api.v ===== *)
(** * The REST API and its dashboard client ([api/], [dashboard/fetcher.py])

    The routers as functions of the Redis server, with the two key checks of
    [auth.py], and the loop of the WebSocket endpoint as a step relation over
    the signal stream.  FastAPI is left out: an endpoint is its function, a
    reply, an HTTP error or an exception that FastAPI turns into a 500.  The
    settings and the clock are arguments.  The last sections compose the API
    with the components that write what it reads. *)

From stdpp Require Import gmap.
From S2P Require Import Prelude PyFloat PyDict Json PyText Redis Constants Regime MarketData PyDate Compliance Monitor Orchestrator.
From S2P Require Import Signals Execution RegimeClassifier SignalPublisher Universe PyParse Config.
Local Open Scope Z_scope.

(** ** Responses ([models.py]) *)

Module SystemStatus.
Record t := mk {
  trading_mode : string;
  is_halted : bool;
  is_paused : bool;
  is_degraded : bool;
  kill_switch_active : bool;
  circuit_breaker_active : bool;
  regime : option string;
  pnl_today : float;
  pnl_today_pct : float;
  open_positions_count : Z;
  signals_today : Z;
  trades_today : Z;
  reconciliation_mismatches : Z;
  timestamp_ms : Z;
}.
End SystemStatus.

Module PositionOut.
Record t := mk { symbol : string; exchange : string; direction : string; quantity : Z; entry_price : float }.
End PositionOut.

Module SignalOut.
Record t := mk {
  signal_id : string;
  symbol : string;
  exchange : string;
  direction : string;
  confidence : float;
  strategy_tag : string;
  timestamp_ms : Z;
}.
End SignalOut.

Module PnLOut.
Record t := mk {
  date : string;
  total_pnl : float;
  total_pnl_pct : float;
  starting_capital : float;
  open_positions_count : Z;
  is_halted : bool;
}.
End PnLOut.

Module WatchlistOut.
Record t := mk { symbol : string; exchange : string; composite_score : option float }.
End WatchlistOut.

Module ControlResponse.
Record t := mk { success : bool; action : string; reason : string }.
End ControlResponse.

Inductive Response (A : Type) : Type :=
| Reply (a : A)
| HttpError (status : Z) (detail : string)
| ServerError (e : exn).
Arguments Reply {A} a.
Arguments HttpError {A} status detail.
Arguments ServerError {A} e.

Definition respond {A} (r : result A) : Response A :=
  match r with Ok a => Reply a | Raise e => ServerError e end.

(** [str(exc)] *)
Definition exn_text (e : exn) : string :=
  match e with
  | KeyError m => "'" +:+ m +:+ "'"
  | ValueError m | TypeError m | RedisError m | BrokerTransientError m | BrokerPermanentError m | MarketClosedError m
  | CalendarFetchError m | CalendarUnavailableError m | TickValidationError m | AuthError m | RequestException m
  | NotImplementedError m | RuntimeError m | AttributeError m | OtherError m => m
  | AssertionError | ZeroDivisionError | OverflowError | IndexError => ""
  end.

(** ** Authentication ([auth.py]) *)

(** [require_api_key] and [optional_api_key]: [None] lets the request pass,
    otherwise the status and the detail of the [HTTPException]. *)
Definition key_check (configured : string) (api_key : option string) : option (Z * string) :=
  match api_key with
  | None => Some (401, API_KEY_HEADER +:+ " header required")
  | Some k => if String.eqb k configured then None else Some (403, "Invalid API key")
  end.

Definition require_api_key (settings : Settings.t) (api_key : option string) : option (Z * string) :=
  if is_empty (Settings.api_key settings) then Some (403, "API key not configured on server")
  else key_check (Settings.api_key settings) api_key.

Definition optional_api_key (settings : Settings.t) (api_key : option string) : option (Z * string) :=
  if is_empty (Settings.api_key settings) then None else key_check (Settings.api_key settings) api_key.

(** An endpoint behind a check: a refused request does not run it. *)
Definition guarded {R A} (check : option (Z * string)) (body : R -> Response A * R) (r : R) : Response A * R :=
  match check with
  | Some (status, detail) => (HttpError status detail, r)
  | None => body r
  end.

(** ** JSON values of the state blob ([routers/status.py]) *)

(** [isinstance(v, (int, float))] *)
Definition is_number (v : json) : bool := match v with JInt _ | JFloat _ | JBool _ => true | _ => false end.

(** [state.get(key)]: only an object has [get]. *)
Definition state_get (state : json) (key : string) : result json := jget key JNull state.

Definition state_bool (state : json) (key : string) : result bool := v ← state_get state key; mret (truthy v).

Definition state_float (state : json) (key : string) : result float :=
  v ← state_get state key; if is_number v then json_to_float v else mret f_zero.

Definition state_int (state : json) (key : string) : result Z :=
  v ← state_get state key; if is_number v then json_to_int v else mret 0.

Definition state_str_opt (state : json) (key : string) : result (option string) :=
  v ← state_get state key; mret (match v with JNull => None | v => Some (py_str v) end).

Definition state_dict_len (state : json) (key : string) : result Z :=
  v ← state_get state key; mret (match v with JObj fields => Z.of_nat (length fields) | _ => 0 end).

(** [bool(v and v not in ("0", "false", "False"))] *)
Definition flag_text (v : option string) : bool :=
  match v with
  | Some s => negb (is_empty s) && negb (bool_decide (s ∈ ["0"; "false"; "False"]))
  | None => false
  end.

(** ** Endpoints ([routers/]) *)

(** Entries of a stream with their identifiers: [xrevrange(name, count=n)], and
    [xread({name: id}, count=n, block=ms)] without the name of the stream. *)
Class RedisStreamRead (R : Type) := {
  redis_xrevrange_ids : string -> Z -> R -> result (list (string * list (string * string))) * R;
  redis_xread : string -> string -> Z -> R -> result (list (string * list (string * string))) * R;
}.

Section Routers.
Context {R : Type} `{RedisKV R} `{RedisStreamRead R} (settings : Settings.t).

(** [_read_state]: any JSON document is returned as it is. *)
Definition read_state (r : R) : json * R :=
  let '(raw, r) := redis_get ORCHESTRATOR_STATE_REDIS_KEY r in
  match raw with
  | Ok (Some text) => if is_empty text then (JObj [], r)
                      else (match json_loads text with Ok v => v | Raise _ => JObj [] end, r)
  | _ => (JObj [], r)
  end.

(** [_bool_key]. *)
Definition bool_key (key : string) (r : R) : bool * R :=
  let '(v, r) := redis_get key r in
  (match v with Ok v => flag_text v | Raise _ => false end, r).

Definition status_of (state : json) (halted_key paused degraded : bool) (now_ms : Z) : result SystemStatus.t :=
  ks_active ← state_bool state "kill_switch_active";
  cb_active ← state_bool state "circuit_breaker_active";
  regime ← state_str_opt state "regime";
  pnl_today ← state_float state "pnl_today";
  pnl_today_pct ← state_float state "pnl_today_pct";
  open_positions_count ← state_dict_len state "open_positions";
  signals_today ← state_int state "signals_today";
  trades_today ← state_int state "trades_today";
  mismatches ← state_int state "reconciliation_mismatches_today";
  mret (SystemStatus.mk (TradingMode.value (Settings.trading_mode settings)) (halted_key || ks_active || cb_active)
          paused degraded ks_active cb_active regime pnl_today pnl_today_pct open_positions_count signals_today
          trades_today mismatches now_ms).

Definition get_status (now_ms : Z) (r : R) : Response SystemStatus.t * R :=
  let '(state, r) := read_state r in
  let '(halted_key, r) := bool_key KILL_SWITCH_HALTED_KEY r in
  let '(paused, r) := bool_key API_PAUSE_REDIS_KEY r in
  let '(degraded, r) := bool_key INGESTION_DEGRADED_REDIS_KEY r in
  (respond (status_of state halted_key paused degraded now_ms), r).

(** One position; [None] is the [continue] of the handler. *)
Definition position_out (pos : dict string json) : result (option PositionOut.t) :=
  let field key default_ := default default_ (dget key pos) in
  let converted :=
    let qty := field "quantity" (JInt 0) in
    let price := field "entry_price" (JFloat f_zero) in
    quantity ← (if is_number qty then json_to_int qty else mret 0);
    entry_price ← (if is_number price then json_to_float price else mret f_zero);
    mret (PositionOut.mk (py_str (field "symbol" (JStr ""))) (py_str (field "exchange" (JStr "")))
            (py_str (field "direction" (JStr ""))) quantity entry_price) in
  match converted with
  | Ok p => Ok (Some p)
  | Raise (TypeError _) | Raise (ValueError _) => Ok None
  | Raise e => Raise e
  end.

Definition positions_of (state : json) : result (list PositionOut.t) :=
  raw ← state_get state "open_positions";
  match raw with
  | JObj items =>
      ps ← mapM (fun kv => match kv.2 with JObj pos => position_out pos | _ => mret None end) items;
      mret (omap id ps)
  | _ => mret []
  end.

Definition get_positions (r : R) : Response (list PositionOut.t) * R :=
  let '(state, r) := read_state r in (respond (positions_of state), r).

(** One entry of the stream; [None] is the [continue] of the handler. *)
Definition signal_out (now_ms : Z) (entry : string * list (string * string)) : option SignalOut.t :=
  let '(entry_id, fields) := entry in
  let field key default_ := default default_ (dget key fields) in
  match py_float (field "confidence" "0"), py_int (field "timestamp_ms" (pretty now_ms)) with
  | Ok confidence, Ok timestamp_ms =>
      Some (SignalOut.mk entry_id (field "symbol" "") (field "exchange" "") (field "direction" "") confidence
              (field "strategy_tag" "") timestamp_ms)
  | _, _ => None
  end.

(** [limit] is between 1 and [API_SIGNALS_STREAM_MAX_READ]. *)
Definition get_signals (limit now_ms : Z) (r : R) : Response (list SignalOut.t) * R :=
  let '(raw, r) := redis_xrevrange_ids SIGNAL_REDIS_STREAM limit r in
  match raw with
  | Ok raw => (Reply (omap (signal_out now_ms) (rev raw)), r)
  | Raise _ => (Reply [], r)
  end.

(** [today] is the UTC date, in days. *)
Definition pnl_key (today : Z) : string := RISK_DAILY_PNL_REDIS_KEY_PREFIX +:+ isoformat_date today.

Definition finite_or_zero (v : float) : float := if is_finite v then v else f_zero.

Definition read_total_pnl (today : Z) (r : R) : float * R :=
  let '(raw, r) := redis_get (pnl_key today) r in
  (match raw with
   | Ok (Some text) =>
       if is_empty text then f_zero else match py_float text with Ok v => finite_or_zero v | Raise _ => f_zero end
   | _ => f_zero
   end, r).

Definition starting_capital_of (state : json) : result float :=
  sc ← state_get state "starting_capital";
  if is_number sc then
    v ← json_to_float sc;
    mret (if is_finite v && flt f_zero v then v else f_zero)
  else mret f_zero.

Definition get_pnl (today : Z) (r : R) : Response PnLOut.t * R :=
  let '(total_pnl, r) := read_total_pnl today r in
  let '(state, r) := read_state r in
  match starting_capital_of state with
  | Raise e => (ServerError e, r)
  | Ok starting_capital =>
      let total_pnl_pct := if is_zero starting_capital then f_zero
                           else (fdiv total_pnl starting_capital * dec 100 0)%pf in
      let '(is_halted, r) := bool_key KILL_SWITCH_HALTED_KEY r in
      (respond (n ← state_dict_len state "open_positions";
                mret (PnLOut.mk (isoformat_date today) total_pnl total_pnl_pct starting_capital n is_halted)), r)
  end.

(** One entry of the watchlist; [None] is the [continue] of the handler. *)
Definition watchlist_out (entry : json) : result (option WatchlistOut.t) :=
  match entry with
  | JObj fields =>
      match dget "symbol" fields, dget "exchange" fields with
      | Some (JStr sym), Some (JStr exch) =>
          let score_raw := default JNull (dget "composite_score" fields) in
          score ← (if is_number score_raw then v ← json_to_float score_raw; mret (Some v) else mret None);
          mret (Some (WatchlistOut.mk sym exch score))
      | _, _ => mret None
      end
  | _ => mret None
  end.

Definition get_watchlist (exchange : string) (r : R) : Response (list WatchlistOut.t) * R :=
  let '(raw, r) := redis_get (watchlist_key exchange) r in
  match raw with
  | Ok (Some text) =>
      if is_empty text then (Reply [], r)
      else
        match json_loads text with
        | Ok entries => (respond (l ← json_iter entries; out ← mapM watchlist_out l; mret (omap id out)), r)
        | Raise _ => (Reply [], r)
        end
  | _ => (Reply [], r)
  end.

(** [POST /api/v1/controls/kill]. *)
Definition control {A} (action reason : string) (outcome : result A) : Response ControlResponse.t :=
  match outcome with
  | Ok _ => Reply (ControlResponse.mk true action reason)
  | Raise e => Reply (ControlResponse.mk false action (exn_text e))
  end.

Definition kill (now_ms : Z) (r : R) : Response ControlResponse.t * R :=
  let '(outcome, manager) := trigger_tier2 "rest_api" now_ms (new_kill_switch (Some r)) in
  (control "kill" "Tier 2 kill switch triggered" outcome, default r (ksm_redis manager)).

Definition pause (r : R) : Response ControlResponse.t * R :=
  let '(outcome, r) := redis_set API_PAUSE_REDIS_KEY "1" None r in (control "pause" "New entries paused" outcome, r).

Definition resume (r : R) : Response ControlResponse.t * R :=
  let '(outcome, r) := redis_delete API_PAUSE_REDIS_KEY r in (control "resume" "New entries resumed" outcome, r).

(** The routes, with their checks. *)
Inductive Control := KILL | PAUSE | RESUME.

Definition run_control (c : Control) (now_ms : Z) : R -> Response ControlResponse.t * R :=
  match c with KILL => kill now_ms | PAUSE => pause | RESUME => resume end.

Definition post_control (c : Control) (api_key : option string) (now_ms : Z) : R -> Response ControlResponse.t * R :=
  guarded (require_api_key settings api_key) (run_control c now_ms).

Definition read_route {A} (api_key : option string) (body : R -> Response A * R) : R -> Response A * R :=
  guarded (optional_api_key settings api_key) body.
End Routers.

(** ** The live stream ([routers/ws.py]) *)

(** What the server sends. *)
Inductive WsMessage : Type :=
| Ping (ts : Z)
| Signal (id : string) (data : list (string * string)) (ts : Z).

Definition _XREAD_BLOCK_MS : Z := 500.

(** The check before [accept]: [true] closes the connection with code 4001. *)
Definition ws_rejected (settings : Settings.t) (api_key : option string) : bool :=
  negb (is_empty (Settings.api_key settings)) && bool_decide (api_key <> Some (Settings.api_key settings)).

(** The variables of the handler and what it has sent. *)
Record WsState := { last_id : string; last_ping_ts : float; ws_sent : list WsMessage }.

Definition ws_accepted (now : float) (now_ms : Z) : WsState :=
  {| last_id := "$"; last_ping_ts := now; ws_sent := [Ping now_ms] |}.

(** The ping of an iteration at [now]. *)
Definition ws_ping (now : float) (s : WsState) : result WsState :=
  if fle (dec API_WS_HEARTBEAT_INTERVAL_SECONDS 0) (now - last_ping_ts s)%pf then
    ts ← int_of_float (now * dec 1000 0)%pf;
    mret {| last_id := last_id s; last_ping_ts := now; ws_sent := ws_sent s ++ [Ping ts] |}
  else mret s.

(** The messages of a poll, sent in order. *)
Definition ws_forward (now_ms : Z) (messages : list (string * list (string * string))) (s : WsState) : WsState :=
  foldl (fun s m => {| last_id := m.1; last_ping_ts := last_ping_ts s; ws_sent := ws_sent s ++ [Signal m.1 m.2 now_ms] |})
    s messages.

(** [_poll]: every exception is an empty result. *)
Definition ws_poll {R} `{RedisStreamRead R} (stream_id : string) (r : R) : list (string * list (string * string)) * R :=
  let '(res, r) := redis_xread SIGNAL_REDIS_STREAM stream_id 10 r in
  (match res with Ok messages => messages | Raise _ => [] end, r).

(** One iteration of [while True]. *)
Definition ws_iteration {R} `{RedisStreamRead R} (now : float) (now_ms : Z) (s : WsState) (r : R) : result WsState * R :=
  match ws_ping now s with
  | Ok s => let '(messages, r) := ws_poll (last_id s) r in (Ok (ws_forward now_ms messages s), r)
  | Raise e => (Raise e, r)
  end.

(** *** The stream while the handler runs

    An entry is its identifier and its fields; publishers append.  [xread]
    after an entry returns up to ten of its successors; when there are none,
    or after the special identifier [$], it blocks and returns what arrives
    meanwhile.  A poll that fails returns nothing. *)

#[local] Abbreviation Entry := (string * list (string * string))%type.

Inductive reads (stream : list Entry) : string -> list Entry -> list Entry -> Prop :=
| reads_after i id fields :
    stream !! i = Some (id, fields) -> drop (S i) stream <> [] ->
    reads stream id stream (take 10 (drop (S i) stream))
| reads_blocked i id fields new :
    stream !! i = Some (id, fields) -> drop (S i) stream = [] ->
    reads stream id (stream ++ new) (take 10 new)
| reads_new new : reads stream "$" (stream ++ new) (take 10 new)
| reads_nothing id : reads stream id stream [].

Inductive ws_step : list Entry * WsState -> list Entry * WsState -> Prop :=
| ws_publish stream s e : ws_step (stream, s) (stream ++ [e], s)
| ws_tick stream s now s' : ws_ping now s = Ok s' -> ws_step (stream, s) (stream, s')
| ws_receive stream s stream' messages now_ms :
    reads stream (last_id s) stream' messages ->
    ws_step (stream, s) (stream', ws_forward now_ms messages s).

(** The entries that were sent. *)
Definition sent_entry (m : WsMessage) : option Entry :=
  match m with Signal id data _ => Some (id, data) | Ping _ => None end.

Definition delivered (s : WsState) : list Entry := omap sent_entry (ws_sent s).

(** ** The dashboard's client ([dashboard/fetcher.py]) *)

(** [httpx]: the body of a successful GET as JSON, and the body of a POST as
    JSON whatever the status. *)
Class Httpx (W : Type) := {
  httpx_get : string -> list (string * string) -> dict string string -> M W json;
  httpx_post : string -> dict string string -> M W json;
}.

Section Fetcher.
Context {W : Type} `{Httpx W} (settings : Settings.t).

Definition headers : dict string string :=
  if is_empty (Settings.api_key settings) then [] else [("X-API-Key", Settings.api_key settings)].

(** [s.rstrip("/")] *)
Fixpoint lstrip_slash (s : string) : string :=
  match s with String c r => if Ascii.eqb c "/" then lstrip_slash r else s | EmptyString => s end.

Definition base : string := str_rev (lstrip_slash (str_rev (Settings.api_dashboard_base_url settings) "")) "".

Definition fetch (path : string) (params : list (string * string)) (default_ : json) : M W json :=
  M_try (httpx_get (base +:+ path) params headers) (fun _ => mret default_).

Definition fetch_status : M W json := fetch "/api/v1/status" [] (JObj []).
Definition fetch_positions : M W json := fetch "/api/v1/positions" [] (JList []).
Definition fetch_signals (limit : Z) : M W json := fetch "/api/v1/signals" [("limit", pretty limit)] (JList []).
Definition fetch_pnl : M W json := fetch "/api/v1/pnl" [] (JObj []).
Definition fetch_watchlist (exchange : string) : M W json := fetch "/api/v1/watchlist" [("exchange", exchange)] (JList []).

Definition post (action api_key : string) : M W json :=
  M_try (httpx_post (base +:+ "/api/v1/controls/" +:+ action) [("X-API-Key", api_key)])
    (fun _ => mret (JObj [("success", JBool false); ("action", JStr action); ("reason", JStr "Request failed")])).

Definition post_kill : string -> M W json := post "kill".
Definition post_pause : string -> M W json := post "pause".
Definition post_resume : string -> M W json := post "resume".
End Fetcher.

(** ** Facts *)

(** A key is accepted exactly when one is configured and it is that key. *)
Lemma require_api_key_spec settings key :
  require_api_key settings key = None <-> Settings.api_key settings <> "" /\ key = Some (Settings.api_key settings).
Proof.
  unfold require_api_key, key_check, is_empty.
  destruct (String.eqb_spec (Settings.api_key settings) ""); [by split; [|intros []]|].
  destruct key as [k|]; [|by split; [|intros []]].
  destruct (String.eqb_spec k (Settings.api_key settings)) as [->|]; [done|]. split; [done|]. by intros [_ [=]].
Qed.

Section ControlFacts.
Context {R : Type} `{RedisKV R}.

(** The controls need the key: a request runs a control only with the
    configured key, and without one configured never; a refused request is
    answered with 401 or 403 and does not reach Redis. *)
Theorem controls_need_key settings c key now_ms (r : R) :
  (Settings.api_key settings <> "" /\ key = Some (Settings.api_key settings) ->
   post_control settings c key now_ms r = run_control c now_ms r)
  /\ (~ (Settings.api_key settings <> "" /\ key = Some (Settings.api_key settings)) ->
      exists status detail, (status = 401 \/ status = 403) /\ post_control settings c key now_ms r = (HttpError status detail, r)).
Proof.
  rewrite <- require_api_key_spec. unfold post_control, guarded. split.
  - by intros ->.
  - destruct (require_api_key settings key) as [[status detail]|] eqn:E; [|done]. intros _. exists status, detail.
    split; [|done]. unfold require_api_key, key_check in E. repeat case_match; simplify_eq; auto.
Qed.
End ControlFacts.

Section ReadFacts.
Context {R : Type} `{RedisKVLaws R}.

Lemma get_key_up k r : redis_up r ->
  exists r', redis_get k r = (Ok (redis_kv r !! k), r') /\ redis_up r' /\ redis_kv r' = redis_kv r.
Proof.
  intros Hr. destruct (redis_get_up k r Hr) as (r' & E & Hr'). exists r'. split_and!; [done..|].
  by apply redis_get_spec in E as [? _].
Qed.

Lemma bool_key_up k r : redis_up r ->
  exists r', bool_key k r = (flag_text (redis_kv r !! k), r') /\ redis_up r' /\ redis_kv r' = redis_kv r.
Proof.
  intros Hr. unfold bool_key. destruct (get_key_up k r Hr) as (r' & -> & Hr' & Hkv). by exists r'.
Qed.

(** The state that the API reads. *)
Definition blob (r : R) : json :=
  match redis_kv r !! ORCHESTRATOR_STATE_REDIS_KEY with
  | Some text => if is_empty text then JObj [] else match json_loads text with Ok v => v | Raise _ => JObj [] end
  | None => JObj []
  end.

Lemma read_state_up r : redis_up r ->
  exists r', read_state r = (blob r, r') /\ redis_up r' /\ redis_kv r' = redis_kv r.
Proof.
  intros Hr. unfold read_state, blob. destruct (get_key_up ORCHESTRATOR_STATE_REDIS_KEY r Hr) as (r' & -> & Hr' & Hkv).
  exists r'. destruct (redis_kv r !! ORCHESTRATOR_STATE_REDIS_KEY) as [text|]; [|done]. by destruct (is_empty text).
Qed.

Lemma get_status_up `{RedisStreamRead R} settings now_ms r : redis_up r ->
  exists r', get_status settings now_ms r
    = (respond (status_of settings (blob r) (flag_text (redis_kv r !! KILL_SWITCH_HALTED_KEY))
                  (flag_text (redis_kv r !! API_PAUSE_REDIS_KEY)) (flag_text (redis_kv r !! INGESTION_DEGRADED_REDIS_KEY))
                  now_ms), r').
Proof.
  intros Hr. unfold get_status. destruct (read_state_up r Hr) as (r1 & -> & Hr1 & K1).
  destruct (bool_key_up KILL_SWITCH_HALTED_KEY r1 Hr1) as (r2 & -> & Hr2 & K2).
  destruct (bool_key_up API_PAUSE_REDIS_KEY r2 Hr2) as (r3 & -> & Hr3 & K3).
  destruct (bool_key_up INGESTION_DEGRADED_REDIS_KEY r3 Hr3) as (r4 & -> & _).
  exists r4. by rewrite K3, K2, K1.
Qed.

Lemma status_of_halted settings state paused degraded now_ms s :
  status_of settings state true paused degraded now_ms = Ok s -> SystemStatus.is_halted s = true.
Proof. unfold status_of. intros Hs. do 9 bind_inv Hs. by injection Hs as <-. Qed.
End ReadFacts.

Section KillFacts.
Context {R : Type} `{RedisKVLaws R}.

(** On a server that answers, the kill endpoint always succeeds. *)
Lemma kill_up now_ms r : redis_up r ->
  exists r', kill now_ms r = (Reply (ControlResponse.mk true "kill" "Tier 2 kill switch triggered"), r')
    /\ redis_up r' /\ redis_kv r' !! KILL_SWITCH_HALTED_KEY = Some "true"
    /\ (forall k, k ∉ [KILL_SWITCH_HALTED_KEY; KILL_SWITCH_TIER_KEY; KILL_SWITCH_REASON_KEY] ->
        redis_kv r' !! k = redis_kv r !! k).
Proof.
  intros Hr. unfold kill, trigger_tier2, trigger.
  destruct (trigger_event TIER2_EXTERNAL_API ("Manual kill switch activated via " +:+ "rest_api" +:+ ".") now_ms)
    as (tier & -> & He).
  M_unfold. rewrite He. cbn. unfold ksm_set.
  destruct (redis_set_up KILL_SWITCH_HALTED_KEY "true" None r Hr) as (r1 & -> & Hr1 & K1). cbn.
  destruct (redis_set_up KILL_SWITCH_TIER_KEY (pretty tier) None r1 Hr1) as (r2 & -> & Hr2 & K2). cbn.
  match goal with |- context [redis_set KILL_SWITCH_REASON_KEY ?x None r2] =>
    destruct (redis_set_up KILL_SWITCH_REASON_KEY x None r2 Hr2) as (r3 & -> & Hr3 & K3) end. cbn.
  exists r3. split_and!; [done..| |]; [rewrite K3, K2, K1; by simplify_map_eq|].
  intros k Hk. rewrite !not_elem_of_cons in Hk. destruct Hk as (N1 & N2 & N3 & _). by rewrite K3, K2, K1, !lookup_insert_ne.
Qed.

Lemma signal_node_halted `{RedisStream R} f state r clock :
  redis_up r -> redis_kv r !! KILL_SWITCH_HALTED_KEY = Some "true" -> halted_by_flags state = false ->
  (signal_node f state {| w_redis := Some r; w_clock := clock |}).1 = Ok [("kill_switch_active", JBool true)].
Proof.
  intros Hr Hk Hf. unfold signal_node. rewrite Hf. unfold mbind, M_bind, has_redis. cbn.
  unfold on_redis. cbn. destruct (get_key_up KILL_SWITCH_HALTED_KEY r Hr) as (r' & -> & _). rewrite Hk. cbn. done.
Qed.

(** C5. The kill endpoint reaches the readers of the halt key: on a server that
    answers, a kill with the configured key succeeds, and on the server that
    it leaves the status and the P&L endpoints, where they answer, report a
    halt; the compliance component's kill-switch manager, the monitor's P&L
    tracker and the execution engine's halted flag read one; the signal
    publisher's script refuses every signal; and the orchestrator's signal
    node, on a state that is not halted yet, activates the kill switch. *)
Theorem kill_reaches_every_reader `{RedisStream R} `{RedisStreamRead R} `{SignalCodec} settings now_ms r :
  Settings.api_key settings <> "" -> redis_up r ->
  exists reason r', post_control settings KILL (Some (Settings.api_key settings)) now_ms r
               = (Reply (ControlResponse.mk true "kill" reason), r')
  /\ (forall now s r2, get_status settings now r' = (Reply s, r2) -> SystemStatus.is_halted s = true)
  /\ (forall today p r2, get_pnl today r' = (Reply p, r2) -> PnLOut.is_halted p = true)
  /\ (forall m, ksm_redis m = Some r' -> (Compliance.is_halted m).1 = Ok true)
  /\ (forall capital, (read_system_halted {| pt_redis := Some r'; pt_starting_capital := capital |}).1 = true)
  /\ (forall (B : Type) (e : ExecutionEngine B R), ee_halted e = Some r' -> (halted_flag e).1 = Ok true)
  /\ (forall key stream ttl payload, (signal_dedup key stream ttl payload r').1 = Ok HALTED)
  /\ (forall f state clock, halted_by_flags state = false ->
      (signal_node f state {| w_redis := Some r'; w_clock := clock |}).1 = Ok [("kill_switch_active", JBool true)]).
Proof.
  intros Hkey Hr. destruct (kill_up now_ms r Hr) as (r' & E & Hr' & Hk & _). eexists _, r'. split_and!.
  - unfold post_control, guarded. rewrite (proj2 (require_api_key_spec settings _) (conj Hkey eq_refl)). exact E.
  - intros now s r2. destruct (get_status_up settings now r' Hr') as (r3 & ->). rewrite Hk. intros [= Hs _].
    unfold respond in Hs. destruct (status_of _ _ _ _ _ _) eqn:Es; [|done]. injection Hs as ->.
    by eapply status_of_halted.
  - intros today p r2. unfold get_pnl, read_total_pnl.
    destruct (get_key_up (pnl_key today) r' Hr') as (r3 & -> & Hr3 & K3).
    destruct (read_state_up r3 Hr3) as (r4 & -> & Hr4 & K4).
    destruct (starting_capital_of _); [|done].
    destruct (bool_key_up KILL_SWITCH_HALTED_KEY r4 Hr4) as (r5 & -> & _). rewrite K4, K3, Hk.
    intros [= Hs _]. unfold respond in Hs. destruct (state_dict_len _ _); [|done]. by injection Hs as <-.
  - intros m Hm. unfold Compliance.is_halted. rewrite Hm.
    destruct (get_key_up KILL_SWITCH_HALTED_KEY r' Hr') as (r3 & -> & _). by rewrite Hk.
  - intros capital. unfold read_system_halted, read_key. cbn [pt_redis].
    destruct (get_key_up KILL_SWITCH_HALTED_KEY r' Hr') as (r3 & -> & _). by rewrite Hk.
  - intros B e He. unfold halted_flag. rewrite He.
    destruct (get_key_up KILL_SWITCH_HALTED_KEY r' Hr') as (r3 & -> & _). by rewrite Hk.
  - intros key stream ttl payload. unfold signal_dedup. unfold mbind, M_bind.
    destruct (get_key_up "system:status:halted" r' Hr') as (r3 & -> & _).
    change "system:status:halted" with KILL_SWITCH_HALTED_KEY. by rewrite Hk.
  - intros f state clock. by apply signal_node_halted.
Qed.
End KillFacts.

(** ** What the endpoints show of the other components *)

Lemma fixed_length w z : String.length (fixed w z) = w.
Proof. revert z. induction w as [|w IH]; intros z; [done|]. cbn [fixed String.length]. by rewrite IH. Qed.

(** The P&L endpoint reads another key than the monitor: the date has dashes
    in one and none in the other, so no day's key of the API is the key of any
    day of the tracker. *)
Theorem pnl_keys_disjoint a b : pnl_key a <> RISK_DAILY_PNL_REDIS_KEY_PREFIX +:+ strftime_ymd b.
Proof.
  intros E. apply (f_equal String.length) in E. unfold pnl_key, isoformat_date, strftime_ymd in E. cbv zeta in E.
  rewrite !str_length_app, !fixed_length in E. cbn in E. lia.
Qed.

Section ServedFacts.
Context {R : Type} `{RedisKVLaws R}.

Definition served (e : WatchlistEntry.t) : WatchlistOut.t :=
  WatchlistOut.mk (WatchlistEntry.symbol e) (WatchlistEntry.exchange e) (Some (WatchlistEntry.composite_score e)).

Lemma watchlist_outs entries :
  mapM watchlist_out (entry_to_redis_dict <$> entries) = Ok (Some <$> (served <$> entries)).
Proof.
  induction entries as [|e entries IH]; [done|]. rewrite !fmap_cons. cbn [mapM].
  change (watchlist_out (entry_to_redis_dict e)) with (Ok (Some (served e))).
  cbn [mbind result_bind]. by rewrite IH.
Qed.

Lemma omap_somes {A} (l : list A) : omap id (Some <$> l) = l.
Proof. induction l as [|x l IH]; [done|]. cbn. by f_equal. Qed.

(** C32. What the universe filter stores is what the API serves: after a store that
    returns, the watchlist of the exchange, in any case of its letters, has
    every stored entry in rank order with its score. *)
Theorem stored_watchlist_served {P} `{Postgres P} entries first rest (s s1 : Stores P R) exchange :
  entries = first :: rest -> Forall storable entries -> redis_up (st_redis s) ->
  str_upper exchange = str_upper (WatchlistEntry.exchange first) ->
  store_watchlist entries s = (Ok tt, s1) ->
  exists r2, get_watchlist exchange (st_redis s1) = (Reply (served <$> entries), r2).
Proof.
  intros -> Hs Hup Hex. unfold store_watchlist. unfold mbind, M_bind, on_pg, Universe.on_redis, M_zoom.
  destruct (pg_insert_batch (first :: rest) (st_pg s)) as [[[]|e] p1]; [|done]. cbn [st_pg st_redis].
  destruct (pg_commit p1) as [[[]|e] p2]; [|done]. cbn [st_pg st_redis].
  destruct (redis_set_up (watchlist_key (WatchlistEntry.exchange first)) (watchlist_payload (first :: rest))
              (Some WATCHLIST_REDIS_TTL_SECONDS) (st_redis s) Hup) as (r1 & -> & Hup1 & Hkv).
  intros [= <-]. cbn [st_redis]. unfold get_watchlist.
  assert (Hk : watchlist_key exchange = watchlist_key (WatchlistEntry.exchange first))
    by (unfold watchlist_key; by rewrite Hex).
  destruct (get_key_up (watchlist_key exchange) r1 Hup1) as (r2 & -> & _). rewrite Hkv, Hk, lookup_insert_eq.
  exists r2. change (is_empty (watchlist_payload (first :: rest))) with false. unfold watchlist_payload.
  rewrite json_round_trip.
  - cbn [json_iter]. unfold mbind, result_bind, mret, result_ret. rewrite watchlist_outs. cbn [respond].
    by rewrite omap_somes.
  - apply (proj2 (foldr_Forall json_ok _)), Forall_fmap. eapply Forall_impl; [exact Hs|]. exact storable_json.
Qed.

Lemma status_of_flags settings state halted paused degraded now_ms s :
  status_of settings (JObj state) halted paused degraded now_ms = Ok s ->
  SystemStatus.is_halted s = halted || halted_by_flags state
  /\ SystemStatus.is_paused s = paused /\ SystemStatus.is_degraded s = degraded
  /\ SystemStatus.regime s = match dget "regime" state with
                             | None | Some JNull => None
                             | Some v => Some (py_str v)
                             end.
Proof.
  unfold status_of, state_bool, state_str_opt, state_get, jget. intros Hs. unfold mbind at 1 2 3, result_bind at 1 2 3 in Hs.
  unfold mret, result_ret in Hs. do 6 bind_inv Hs. injection Hs as <-. cbn. split_and!; [|done..|].
  - unfold halted_by_flags, get_or_none. by rewrite orb_assoc.
  - destruct (dget "regime" state) as [[]|]; done.
Qed.

(** What the status shows of an orchestrator that has shut down: the halt
    flags of its state, but never its regime, which the state holds under
    another name than the one that the endpoint reads. *)
Theorem status_of_shut_down `{RedisStreamRead R} {App} (o : OrchestratorGraph R App) r today settings now_ms s r1 r2 :
  og_redis o = Some r -> redis_up r -> dkeys (og_state o) = dkeys (make_initial_state today) -> json_ok (JObj (og_state o)) ->
  og_redis (shutdown o) = Some r1 -> get_status settings now_ms r1 = (Reply s, r2) ->
  SystemStatus.regime s = None /\ (is_halted o = true -> SystemStatus.is_halted s = true).
Proof.
  intros Ho Hr Hkeys Hok. unfold shutdown. rewrite Ho.
  destruct (redis_set_up ORCHESTRATOR_STATE_REDIS_KEY (state_to_json (og_state o)) None r Hr) as (r' & -> & Hr' & Hkv).
  intros [= <-]. destruct (get_status_up settings now_ms r' Hr') as (r3 & ->). intros [= Hs _].
  assert (Hb : blob r' = JObj (og_state o)).
  { unfold blob. rewrite Hkv, lookup_insert_eq. unfold state_to_json. rewrite json_round_trip by done. done. }
  rewrite Hb in Hs. unfold respond in Hs. destruct (status_of _ _ _ _ _ _) eqn:Es; [|done]. injection Hs as ->.
  apply status_of_flags in Es as (Hh & _ & _ & Hreg).
  assert (Hn : dget "regime" (og_state o) = None).
  { apply dget_None. rewrite Hkeys. apply (bool_decide_unpack _). vm_compute. done. }
  rewrite Hn in Hreg. split; [done|]. intros Hi. rewrite Hh. unfold is_halted in Hi. by rewrite Hi, orb_true_r.
Qed.
End ServedFacts.

(** ** The signal endpoints *)

(** [xrevrange] gives the newest entries, newest first, with identifiers. *)
Class RedisStreamReadLaws (R : Type) `{RedisStreamLaws R} `{RedisStreamRead R} := {
  redis_xrevrange_ids_spec k n r l r' :
    redis_xrevrange_ids k n r = (Ok l, r') -> l.*2 = take (Z.to_nat n) (rev (redis_stream r k));
}.

Section SignalFacts.
Context {R : Type} `{RedisKVLaws R} `{RedisStreamReadLaws R} `{SignalCodec}.

(** A published signal is blank at the API: its stream entry has only the
    serialized message, so the endpoint shows it with empty symbol, exchange,
    direction and strategy, confidence 0 and the time of the request. *)
Theorem published_signal_is_blank res uuid now payload id (r r1 r2 : R) limit now_ms entries :
  reachable r -> signal_payload res uuid now = Ok payload ->
  publish_signal res uuid now r = (Ok (Some id), r1) -> 1 <= limit <= API_SIGNALS_STREAM_MAX_READ ->
  redis_xrevrange_ids SIGNAL_REDIS_STREAM limit r1 = (Ok entries, r2) ->
  exists out entry_id, get_signals limit now_ms r1 = (Reply out, r2)
    /\ last out = Some (SignalOut.mk entry_id "" "" "" f_zero "" now_ms).
Proof.
  intros Hr Hp Hpub Hl Hx. pose proof (publish_signal_newest _ _ _ _ _ _ _ Hr Hp Hpub) as Hlast.
  pose proof (redis_xrevrange_ids_spec _ _ _ _ _ Hx) as He.
  apply last_Some in Hlast as (older & Hs). rewrite Hs, rev_app_distr in He. cbn [rev app] in He.
  destruct (Z.to_nat limit) as [|n] eqn:En; [lia|]. cbn [take] in He.
  destruct entries as [|[entry_id fields] entries]; [done|]. cbn in He. injection He as -> _.
  exists (omap (signal_out now_ms) (rev ((entry_id, [("data", payload)]) :: entries))), entry_id.
  unfold get_signals. rewrite Hx. split; [done|]. cbn [rev]. rewrite omap_app.
  assert (Ho : signal_out now_ms (entry_id, [("data", payload)])
               = Some (SignalOut.mk entry_id "" "" "" f_zero "" now_ms)).
  { unfold signal_out. cbn [dget]. repeat (rewrite decide_False by done). unfold default, from_option.
    change (py_float "0") with (@Ok float f_zero). by rewrite py_int_pretty. }
  cbn [omap list_omap]. rewrite Ho. by rewrite last_snoc.
Qed.
End SignalFacts.

(** ** The WebSocket forwards a gap-free run of the stream *)

Lemma delivered_app s m : delivered s ++ omap sent_entry m = omap sent_entry (ws_sent s ++ m).
Proof. unfold delivered. by rewrite omap_app. Qed.

Lemma forward_delivered now_ms messages s :
  delivered (ws_forward now_ms messages s) = delivered s ++ messages
  /\ last_id (ws_forward now_ms messages s) = match last messages with Some m => m.1 | None => last_id s end.
Proof.
  unfold ws_forward. revert s. induction messages as [|m messages IH]; intros s; cbn [foldl]; [by rewrite app_nil_r|].
  destruct (IH {| last_id := m.1; last_ping_ts := last_ping_ts s; ws_sent := ws_sent s ++ [Signal m.1 m.2 now_ms] |})
    as [-> ->]. split.
  - unfold delivered at 1. cbn [ws_sent]. rewrite omap_app. cbn. rewrite <- app_assoc. by destruct m.
  - cbn [last_id]. rewrite last_cons. by destruct (last messages).
Qed.

Lemma ping_delivered now s s' : ws_ping now s = Ok s' -> delivered s' = delivered s /\ last_id s' = last_id s.
Proof.
  unfold ws_ping. destruct (fle _ _); [|by intros [= <-]]. intros Hs. bind_inv Hs. injection Hs as <-.
  unfold delivered. cbn. rewrite omap_app. cbn. by rewrite app_nil_r.
Qed.

(** The handler has sent a run of the stream that ends at its last identifier:
    every entry from the first that it sent, once each, in order. *)
Definition run_sent (c : list Entry * WsState) : Prop :=
  let '(stream, s) := c in
  (last_id s = "$" /\ delivered s = [])
  \/ exists before after, stream = before ++ delivered s ++ after
       /\ exists e, last (delivered s) = Some e /\ last_id s = e.1.

(** Redis identifiers are distinct and none of them is [$]. *)
Definition well_numbered (stream : list Entry) : Prop := NoDup stream.*1 /\ "$" ∉ stream.*1.

Lemma reads_prefix stream id stream' messages : reads stream id stream' messages -> stream `prefix_of` stream'.
Proof. destruct 1; try done; by apply prefix_app_r. Qed.

Lemma step_prefix c c' : ws_step c c' -> c.1 `prefix_of` c'.1.
Proof. destruct 1; cbn; [by apply prefix_app_r|done|by eapply reads_prefix]. Qed.

Lemma well_numbered_prefix stream stream' :
  stream `prefix_of` stream' -> well_numbered stream' -> well_numbered stream.
Proof.
  intros [more ->] [Hd Hn]. rewrite fmap_app in *. apply NoDup_app in Hd as (Hd & _).
  split; [done|]. intros Hx. apply Hn, elem_of_app. by left.
Qed.

Lemma id_position stream i j (x y : Entry) :
  NoDup stream.*1 -> stream !! i = Some x -> stream !! j = Some y -> x.1 = y.1 -> i = j.
Proof.
  intros Hd Hi Hj E. eapply NoDup_lookup; [exact Hd| |]; rewrite list_lookup_fmap.
  - rewrite Hi. reflexivity.
  - rewrite Hj. cbn. by rewrite E.
Qed.

(** What follows the last entry of a run. *)
Lemma after_run before d after e i id fields :
  well_numbered (before ++ d ++ after) -> last d = Some e -> (before ++ d ++ after) !! i = Some (id, fields) ->
  id = e.1 -> drop (S i) (before ++ d ++ after) = after.
Proof.
  intros [Hd _] Hl Hi Hid. apply last_Some in Hl as (d0 & ->).
  assert (Hj : (before ++ (d0 ++ [e]) ++ after) !! (length before + length d0)%nat = Some e).
  { rewrite lookup_app_r by lia. replace (length before + length d0 - length before)%nat with (length d0) by lia.
    rewrite <- app_assoc. cbn [app]. by rewrite list_lookup_middle. }
  rewrite (id_position _ i (length before + length d0) (id, fields) e Hd Hi Hj Hid).
  rewrite app_assoc. replace (S (length before + length d0)) with (length (before ++ d0 ++ [e]))
    by (rewrite !length_app; cbn; lia). by rewrite drop_app_length.
Qed.

Lemma last_in_run before d after (e : Entry) : last d = Some e -> e.1 ∈ (before ++ d ++ after).*1.
Proof.
  intros Hl. apply last_Some in Hl as (d0 & ->). rewrite !fmap_app, !elem_of_app. cbn. set_solver.
Qed.

(** Extending a run by messages that follow it. *)
Lemma sent_run_extended before d after e messages rest s now_ms :
  last d = Some e -> delivered s = d -> last_id s = e.1 -> after = messages ++ rest ->
  run_sent (before ++ d ++ after, ws_forward now_ms messages s).
Proof.
  intros Hl Hd Hid ->. right. destruct (forward_delivered now_ms messages s) as [E1 E2]. rewrite E1, E2, Hd.
  exists before, rest. split; [by rewrite <- !app_assoc|]. destruct (last messages) as [m|] eqn:Em.
  - exists m. rewrite last_app, Em. done.
  - exists e. rewrite last_app, Em. done.
Qed.

Lemma receive_run stream s stream' messages now_ms :
  run_sent (stream, s) -> well_numbered stream' -> reads stream (last_id s) stream' messages ->
  run_sent (stream', ws_forward now_ms messages s).
Proof.
  intros Hrun Hw Hr. pose proof (well_numbered_prefix _ _ (reads_prefix _ _ _ _ Hr) Hw) as Hw0.
  destruct Hrun as [[Hid Hd]|(before & after & Es & e & Hl & Hid)].
  - rewrite Hid in Hr. inversion Hr as [i id fields Hi Hne|i id fields new Hi Hempty|new|id]; subst.
    1, 2: exfalso; apply Hw0; apply (list_elem_of_fmap_2' fst _ ("$", fields)); [by eapply list_elem_of_lookup_2|done].
    + destruct (forward_delivered now_ms (take 10 new) s) as [E1 E2]. rewrite Hd in E1. unfold run_sent. rewrite E1, E2.
      destruct new as [|m new]; [by left|]. right. exists stream, (drop 10 (m :: new)).
      split; [by rewrite app_nil_l, take_drop|]. cbn [take].
      destruct (last (m :: take 9 new)) as [m'|] eqn:Em; [|by apply last_None in Em]. exists m'. by rewrite app_nil_l.
    + left. exact (conj Hid Hd).
  - subst stream. rewrite Hid in Hr. inversion Hr as [i id fields Hi Hne|i id fields new Hi Hempty|new|id]; subst.
    + rewrite (after_run before (delivered s) after e i e.1 fields) in * by done.
      apply (sent_run_extended _ _ _ e _ (drop 10 after)); try done. by rewrite take_drop.
    + rewrite (after_run before (delivered s) after e i e.1 fields) in Hempty by done. subst after.
      rewrite app_nil_r, <- app_assoc. apply (sent_run_extended _ _ _ e _ (drop 10 new)); try done. by rewrite take_drop.
    + exfalso. apply Hw0. match goal with E : "$" = e.1 |- _ => rewrite E end. by apply last_in_run.
    + by apply (sent_run_extended _ _ _ e _ after).
Qed.

(** C22. The live stream has no gap and no repetition after its first signal:
    whatever is published and polled, in any order and with failing polls, the
    signals that a client was sent are a run of consecutive entries of the
    stream, in order, that ends at the identifier from which the next poll
    reads. *)
Theorem ws_sends_a_run stream0 now now_ms c :
  rtc ws_step (stream0, ws_accepted now now_ms) c -> well_numbered c.1 -> run_sent c.
Proof.
  intros Hsteps. pattern c. revert c Hsteps.
  apply rtc_ind_r; [intros _; by left|].
  intros c c' Hsteps Hstep IH Hw. pose proof (well_numbered_prefix _ _ (step_prefix _ _ Hstep) Hw) as Hw0.
  specialize (IH Hw0). destruct Hstep as [stream s e|stream s t s' Hp|stream s stream' messages ms Hr].
  - destruct IH as [Hl|(before & after & -> & He)]; [by left|right].
    exists before, (after ++ [e]). split; [by rewrite <- !app_assoc|done].
  - unfold run_sent in *. destruct (ping_delivered _ _ _ Hp) as [-> ->]. done.
  - by eapply receive_run.
Qed.

(** An iteration whose poll reads as above is a step of the handler, after its
    ping. *)
Lemma iteration_steps {R} `{RedisStreamRead R} now now_ms s s1 (r r' : R) stream stream' messages :
  ws_ping now s = Ok s1 -> ws_poll (last_id s1) r = (messages, r') -> reads stream (last_id s1) stream' messages ->
  ws_iteration now now_ms s r = (Ok (ws_forward now_ms messages s1), r')
  /\ rtc ws_step (stream, s) (stream', ws_forward now_ms messages s1).
Proof.
  intros Hp Hx Hr. unfold ws_iteration. rewrite Hp, Hx. split; [done|].
  eapply rtc_l; [by eapply ws_tick|]. eapply rtc_l; [by eapply ws_receive|]. constructor.
Qed.

(** ** Sample runs *)

Definition numbered (l : list (list (string * string))) : list (string * list (string * string)) :=
  imap (fun i fields => (pretty (Z.of_nat i + 1) +:+ "-0", fields)) l.

#[export] Instance MemRedis_StreamRead : RedisStreamRead MemRedis := {
  redis_xrevrange_ids k n r := mem_guard r (Ok (take (Z.to_nat n) (rev (numbered (mem_stream k r)))), r);
  redis_xread k id n r :=
    mem_guard r
      (Ok (match list_find (fun e => e.1 = id) (numbered (mem_stream k r)) with
           | Some (i, _) => take (Z.to_nat n) (drop (S i) (numbered (mem_stream k r)))
           | None => []
           end), r);
}.

Lemma numbered_fields l : (numbered l).*2 = l.
Proof. unfold numbered. rewrite fmap_imap. trans (imap (const Datatypes.id) l); [by apply imap_ext|]. rewrite imap_const. apply list_fmap_id. Qed.

#[local] Instance MemRedis_StreamReadLaws : RedisStreamReadLaws MemRedis.
Proof.
  constructor. intros k n r l r'. unfold redis_xrevrange_ids; cbn. unfold mem_guard.
  destruct (mem_up r); [|done]. intros [= <- _]. rewrite fmap_take. f_equal. change (@fmap list _ _ _) with (@map (string * list (string * string)) (list (string * string))). rewrite map_rev. f_equal. apply numbered_fields.
Qed.

#[local] Existing Instance sample_pydantic.
#[local] Existing Instance sample_postgres.
#[local] Existing Instance sample_graph.
#[local] Existing Instance sample_laws.

Definition keyed : Settings.t :=
  module_settings (env_of [("app_id", "india"); ("api_key", "secret")]).

#[local] Existing Instance id_codec.

Lemma kill_reaches_every_reader_witness :
  exists reason r', post_control keyed KILL (Some "secret") 0 mem_empty
               = (Reply (ControlResponse.mk true "kill" reason), r')
  /\ (forall now s r2, get_status keyed now r' = (Reply s, r2) -> SystemStatus.is_halted s = true).
Proof.
  destruct (kill_reaches_every_reader keyed 0 mem_empty ltac:(vm_compute; congruence) eq_refl)
    as (reason & r' & E & Hs & _).
  exists reason, r'. split; [exact E|exact Hs].
Defined.

(** A request without the key, or with another, does not reach Redis; without a
    configured key the controls are closed, and the reads open. *)
Example key_checks :
  post_control keyed KILL None 0 mem_empty = (HttpError 401 "X-API-Key header required", mem_empty)
  /\ post_control keyed PAUSE (Some "guess") 0 mem_empty = (HttpError 403 "Invalid API key", mem_empty)
  /\ post_control constructed_settings KILL (Some "") 0 mem_empty = (HttpError 403 "API key not configured on server", mem_empty)
  /\ (read_route constructed_settings None (get_signals 20 0) mem_empty).1 = Reply [].
Proof. vm_compute. done. Qed.

(** An invalid variable opens the reads that a key was set to protect. *)
Example invalid_variable_opens_reads :
  let env vars := module_settings (env_of ([("app_id", "india"); ("api_key", "secret")] ++ vars)) in
  optional_api_key (env []) None = Some (401, "X-API-Key header required")
  /\ optional_api_key (env [("api_port", "80a0")]) None = None.
Proof. vm_compute. done. Qed.

(** A pause is shown by the status and stops nothing: the orchestrator still
    takes the signal. *)
Example pause_stops_nothing :
  let paused := (pause signal_server).2 in
  match (get_status keyed 0 paused).1 with Reply s => SystemStatus.is_paused s | _ => false end = true
  /\ (signal_node None (make_initial_state "2026-01-02") (sample_world paused)).1 = Ok [("signals_today", JInt 1)].
Proof. vm_compute. done. Qed.

(** With Redis unreachable the status says that the system runs. *)
Example unreachable_is_not_halted :
  match (get_status keyed 0 mem_down).1 with
  | Reply s => SystemStatus.is_halted s = false /\ SystemStatus.is_paused s = false
  | _ => False
  end.
Proof. vm_compute. done. Qed.

(** The positions of the state have an average price, the endpoint reads an
    entry price: every position is shown at 0. *)
Example positions_have_no_price :
  match (get_positions (default mem_empty (og_redis (shutdown waiting)))).1 with
  | Reply ps => map (fun p => (PositionOut.quantity p, repr (PositionOut.entry_price p))) ps = [(100, "0.0")]
  | _ => False
  end.
Proof. vm_compute. done. Qed.

(** A stored number that does not fit makes the endpoint fail. *)
Example infinite_quantity_fails :
  (get_positions (redis_set ORCHESTRATOR_STATE_REDIS_KEY
                    (json_dumps (JObj [("open_positions", JObj [("1", JObj [("quantity", JFloat f_inf)])])])) None mem_empty).2).1
  = ServerError OverflowError.
Proof. vm_compute. done. Qed.

Lemma stored_watchlist_served_witness :
  exists first rest r2, sample_watchlist = first :: rest
    /\ get_watchlist "nse" (st_redis sample_stored) = (Reply (served <$> sample_watchlist), r2).
Proof.
  assert (Hw : exists first rest, sample_watchlist = first :: rest /\ WatchlistEntry.exchange first = "NSE").
  { destruct sample_watchlist as [|e l] eqn:E; [vm_compute in E; discriminate|].
    exists e, l. split; [reflexivity|]. vm_compute in E. injection E as <- _. reflexivity. }
  destruct Hw as (first & rest & Hw & Hx). exists first, rest.
  destruct (stored_watchlist_served (H0 := MemRedis_KVLaws) sample_watchlist first rest sample_stores sample_stored "nse"
              Hw sample_storable) as [r2 Hr].
  - reflexivity.
  - rewrite Hx. vm_compute. reflexivity.
  - vm_compute. reflexivity.
  - exists r2. split; [exact Hw|exact Hr].
Defined.

Lemma status_of_shut_down_witness :
  exists s r1 r2, og_redis (shutdown losing) = Some r1 /\ get_status keyed 0 r1 = (Reply s, r2)
    /\ SystemStatus.regime s = None /\ (is_halted losing = true -> SystemStatus.is_halted s = true).
Proof.
  destruct (og_redis (shutdown losing)) as [r1|] eqn:Eo; [|vm_compute in Eo; discriminate].
  destruct (get_status keyed 0 r1) as [[s|status detail|e] r2] eqn:Es.
  - exists s, r1, r2. split; [reflexivity|]. split; [exact Es|].
    apply (status_of_shut_down losing mem_empty "2026-01-02" keyed 0 s r1 r2); try reflexivity.
    + split; [apply (bool_decide_unpack _); vm_compute; exact I|].
      cbn [foldr snd og_state og_with_state losing dset make_initial_state].
      repeat split; try (intros _; vm_compute; repeat split; discriminate).
      all: try apply NoDup_nil_2; vm_compute; discriminate.
    + exact Eo.
    + exact Es.
  - exfalso. vm_compute in Eo. injection Eo as <-. vm_compute in Es. discriminate.
  - exfalso. vm_compute in Eo. injection Eo as <-. vm_compute in Es. discriminate.
Defined.

Lemma published_signal_is_blank_witness :
  exists out entry_id, get_signals 20 5 after_publish = (Reply out, after_publish)
    /\ last out = Some (SignalOut.mk entry_id "" "" "" f_zero "" 5).
Proof.
  apply (published_signal_is_blank tcs_signal "s-1" now0 "s-1" "1-0" mem_empty after_publish after_publish 20 5
           [("1-0", [("data", "s-1")])] mem_empty_reachable).
  - vm_compute. reflexivity.
  - vm_compute. reflexivity.
  - vm_compute. split; discriminate.
  - vm_compute. reflexivity.
Defined.

(** *** A signal that the live stream misses

    The handler still asks for what is new when the first signal has been
    published between two polls: the client gets the second one only. *)

Definition first_signal : string * list (string * string) := ("1-0", [("data", "a")]).
Definition second_signal : string * list (string * string) := ("2-0", [("data", "b")]).

Definition after_gap : WsState := ws_forward 0 [second_signal] (ws_accepted f_zero 0).

Lemma gap_reachable : rtc ws_step ([], ws_accepted f_zero 0) ([first_signal; second_signal], after_gap).
Proof.
  eapply rtc_l; [apply (ws_receive [] _ [] [] 0), reads_nothing|].
  eapply rtc_l; [apply (ws_publish _ _ first_signal)|].
  eapply rtc_l; [|constructor].
  apply (ws_receive [first_signal] _ [first_signal; second_signal] [second_signal] 0), (reads_new [first_signal] [second_signal]).
Qed.

Lemma ws_sends_a_run_witness :
  rtc ws_step ([], ws_accepted f_zero 0) ([first_signal; second_signal], after_gap)
  /\ delivered after_gap = [second_signal]
  /\ run_sent ([first_signal; second_signal], after_gap).
Proof.
  split; [exact gap_reachable|]. split; [reflexivity|].
  apply (ws_sends_a_run [] f_zero 0 ([first_signal; second_signal], after_gap) gap_reachable).
  split; [apply (bool_decide_unpack _); vm_compute; exact I|apply (bool_decide_unpack _); vm_compute; exact I].
Defined.
