(* ===== verification/Storage.v ===== *)
(** * Time-series storage ([shared/storage])

    Tick validation ([validation.py]), the local failover buffer
    ([sqlite_buffer.py]), the repositories of ticks and candles
    ([repositories.py]) and the backfill ([backfill.py]).  The tables follow
    the SQL of the modules.  The connection to TimescaleDB is an interface with
    its documented transaction states; yfinance is a parameter. *)

From Stdlib Require Import SpecFloat.
From stdpp Require Import sorting gmap.
From S2P Require Import Prelude PyFloat PyDict Json PyText Constants MarketData PyDate PyParse Instruments.
Local Open Scope Z_scope.

(** ** Validation ([validation.py]) *)

Definition DataValidationError (msg : string) : exn := OtherError ("DataValidationError: " +:+ msg).

Definition validate_tick_shape (tick : Tick.t) : result unit :=
  if is_empty (Tick.symbol tick) || is_empty (Tick.exchange tick) then
    Raise (DataValidationError "corrupt tick: missing symbol/exchange")
  else if fle (Tick.price tick) f_zero then Raise (DataValidationError "non-positive price tick rejected")
  else if Tick.volume tick <? 0 then Raise (DataValidationError "negative volume tick rejected")
  else mret tt.

(** [TickSequenceValidator._last_seen]. *)
Definition LastSeen : Type := dict (string * string) Z.

Definition tick_key (tick : Tick.t) : string * string := (Tick.symbol tick, Tick.exchange tick).

(** [TickSequenceValidator.validate]. *)
Definition validate (tick : Tick.t) : M LastSeen unit :=
  _ ← M_lift (validate_tick_shape tick);
  last_seen ← M_get;
  match dget (tick_key tick) last_seen with
  | Some t =>
      if Tick.time tick <? t then M_raise (DataValidationError "out-of-sequence tick")
      else M_put (dset (tick_key tick) (Tick.time tick) last_seen)
  | None => M_put (dset (tick_key tick) (Tick.time tick) last_seen)
  end.

(** [TickSequenceValidator.reset]. *)
Definition reset (symbol exchange : option string) (last_seen : LastSeen) : LastSeen :=
  match symbol, exchange with
  | Some s, Some e => ddel (s, e) last_seen
  | _, _ => []
  end.

(** ** The failover buffer ([sqlite_buffer.py]) *)

(** A row of [buffered_ticks]; the rows are in the order of their [id]. *)
Module BufferedTick.
Record t := mk {
  time : string;
  symbol : string;
  exchange : string;
  price : float;
  volume : Z;
  bid : option float;
  ask : option float;
  synced : bool;
}.
End BufferedTick.

(** A [float] as SQLite stores it: NaN is NULL, and a zero has no sign. *)
Definition sqlite_real (x : float) : option float :=
  if is_nan x then None else if is_zero x then Some f_zero else Some x.

(** An [int] must fit in 64 bits. *)
Definition sqlite_integer (z : Z) : result Z :=
  if (- 2 ^ 63 <=? z) && (z <? 2 ^ 63) then mret z else Raise OverflowError.

Definition buffer_row (tick : Tick.t) : result BufferedTick.t :=
  volume ← sqlite_integer (Tick.volume tick);
  match sqlite_real (Tick.price tick) with
  | None => Raise (OtherError "IntegrityError: NOT NULL constraint failed: buffered_ticks.price")
  | Some price =>
      mret (BufferedTick.mk (isoformat (Tick.time tick)) (Tick.symbol tick) (Tick.exchange tick) price volume
              (Tick.bid tick ≫= sqlite_real) (Tick.ask tick ≫= sqlite_real) false)
  end.

Definition Buffer : Type := list BufferedTick.t.

(** [append]: one transaction for all rows. *)
Definition append (ticks : list Tick.t) : M Buffer Z := fun buffer =>
  match mapM buffer_row ticks with
  | Ok rows => (Ok (Z.of_nat (length ticks)), buffer ++ rows)
  | Raise e => (Raise e, buffer)
  end.

Definition unsynced (buffer : Buffer) : Buffer := List.filter (fun r => negb (BufferedTick.synced r)) buffer.

Definition tick_of_row (r : BufferedTick.t) : result Tick.t :=
  p ← fromisoformat (BufferedTick.time r);
  mret (Tick.mk p.1 (BufferedTick.symbol r) (BufferedTick.exchange r) (BufferedTick.price r) (BufferedTick.volume r)
          (BufferedTick.bid r) (BufferedTick.ask r)).

Definition pending (buffer : Buffer) : result (list Tick.t) := mapM tick_of_row (unsynced buffer).

Definition pending_count (buffer : Buffer) : Z := Z.of_nat (length (unsynced buffer)).

Definition set_synced (r : BufferedTick.t) : BufferedTick.t :=
  BufferedTick.mk (BufferedTick.time r) (BufferedTick.symbol r) (BufferedTick.exchange r) (BufferedTick.price r)
    (BufferedTick.volume r) (BufferedTick.bid r) (BufferedTick.ask r) true.

(** The [UPDATE] of the oldest [count] rows that are not synced. *)
Fixpoint mark_oldest (count : nat) (buffer : Buffer) : Buffer :=
  match count, buffer with
  | O, _ | _, [] => buffer
  | S n, r :: buffer => if BufferedTick.synced r then r :: mark_oldest count buffer else set_synced r :: mark_oldest n buffer
  end.

Definition mark_synced (count : Z) (buffer : Buffer) : Buffer :=
  if count <=? 0 then buffer else mark_oldest (Z.to_nat count) buffer.

(** ** The connection

    A statement that the server refuses aborts the transaction, and so does the
    loss of the connection: every later statement fails.  A statement that
    fails before it is sent leaves what was sent of it (a page of
    [execute_values]).  A [commit] that raises may or may not have taken
    effect. *)
Class Timescale (W : Type) := {
  ts_insert_ticks : list Tick.t -> M W unit;
  ts_commit : M W unit;
}.

Class TimescaleLaws (W : Type) `{Timescale W} := {
  ts_ticks : W -> list Tick.t;
  (** the rows of the open transaction *)
  ts_open : W -> list Tick.t;
  ts_aborted : W -> bool;
  ts_insert_spec ticks w r w' : ts_insert_ticks ticks w = (r, w') ->
    ts_ticks w' = ts_ticks w
    /\ match r with
       | Ok _ => ts_aborted w = false /\ ts_aborted w' = false /\ ts_open w' = ts_open w ++ ticks
       | Raise _ => ts_aborted w' = true
                    \/ (ts_aborted w' = ts_aborted w /\ exists k, ts_open w' = ts_open w ++ take k ticks)
       end;
  ts_commit_spec w r w' : ts_commit w = (r, w') -> ts_aborted w = false ->
    match r with
    | Ok _ => ts_aborted w' = false /\ ts_open w' = [] /\ ts_ticks w' = ts_ticks w ++ ts_open w
    | Raise _ => ts_ticks w' = ts_ticks w ++ ts_open w \/ ts_ticks w' = ts_ticks w
    end;
}.

(** ** Repositories ([repositories.py]) *)

Section Ticks.
Context {W : Type} `{Timescale W}.

(** [TickRepository.insert_many]. *)
Definition insert_many (ticks : list Tick.t) : M W Z :=
  match ticks with
  | [] => mret 0
  | _ => _ ← ts_insert_ticks ticks; _ ← ts_commit; mret (Z.of_nat (length ticks))
  end.

(** [mark_synced] over its connection: [refused] is what SQLite raises, if it
    refuses the update (a locked database, a full disk); the transaction is
    then rolled back. *)
Definition update_synced (refused : option exn) (count : Z) : M Buffer unit :=
  match refused with None => M_modify (mark_synced count) | Some e => M_raise e end.

(** [SQLiteFailoverBuffer.sync_to_timescale]. *)
Definition sync_to_timescale (refused : option exn) : M (Buffer * W) Z :=
  s ← M_get;
  rows ← M_lift (pending s.1);
  match rows with
  | [] => mret 0
  | _ =>
      _ ← M_zoom snd (fun w s => (s.1, w)) (insert_many rows);
      _ ← M_zoom fst (fun b s => (b, s.2)) (update_synced refused (Z.of_nat (length rows)));
      mret (Z.of_nat (length rows))
  end.
End Ticks.

(** [TickRepository.count]. *)
Definition count_ticks (table : list Tick.t) (symbol exchange : string) (start stop : Z) : Z :=
  Z.of_nat (length (List.filter (fun t => String.eqb (Tick.symbol t) symbol && String.eqb (Tick.exchange t) exchange
                                          && (start <=? Tick.time t) && (Tick.time t <? stop)) table)).

Definition CandleKey : Type := string * string * Z.
Definition candle_key (c : OHLCVCandle.t) : CandleKey := (OHLCVCandle.symbol c, OHLCVCandle.exchange c, OHLCVCandle.time c).
Definition Candles : Type := dict CandleKey OHLCVCandle.t.

(** [OHLCVRepository.upsert_1m], with the page size of [execute_values]. *)
Definition upsert_1m (page_size : nat) (candles : list OHLCVCandle.t) : M Candles Z := upsert_many candle_key page_size candles.

(** The tables by name: [ohlcv_1m] and its continuous aggregates. *)
Definition OHLCV_TABLE_BY_TIMEFRAME : dict string string :=
  [("1m", "ohlcv_1m"); ("5m", "ohlcv_5m"); ("15m", "ohlcv_15m"); ("1h", "ohlcv_1h")].

Definition earlier (x y : OHLCVCandle.t) : bool := OHLCVCandle.time x <? OHLCVCandle.time y.

Definition in_query (symbol exchange : string) (start stop : Z) (c : OHLCVCandle.t) : bool :=
  String.eqb (OHLCVCandle.symbol c) symbol && String.eqb (OHLCVCandle.exchange c) exchange
  && (start <=? OHLCVCandle.time c) && (OHLCVCandle.time c <? stop).

(** [OHLCVRepository.query_candles]. *)
Definition query_candles (tables : string -> list OHLCVCandle.t) (symbol exchange timeframe : string) (start stop : Z)
    : result (list OHLCVCandle.t) :=
  match dget timeframe OHLCV_TABLE_BY_TIMEFRAME with
  | None => Raise (ValueError "unsupported timeframe")
  | Some table => mret (py_sorted earlier (List.filter (in_query symbol exchange start stop) (tables table)))
  end.

(** ** Backfill ([backfill.py]) *)

Definition ONE_MINUTE_INTERVAL : string := "1m".
Definition COARSE_BACKFILL_INTERVAL : string := "5m".
Definition ONE_MINUTE_MAX_BACKFILL_DAYS : Z := 7.

Definition ends_with (suffix s : string) : bool :=
  match strip_prefix (str_rev suffix "") (str_rev s "") with Some _ => true | None => false end.

Definition exchange_for_symbol (symbol : string) : string :=
  if ends_with ".NS" symbol || ends_with ".BO" symbol then "NSE"
  else if ends_with ".AX" symbol then "ASX"
  else "UNKNOWN".

(** A row of the data frame: its time and Open, High, Low, Close, Volume. *)
Module HistoryRow.
Record t := mk { time : Z; open : float; high : float; low : float; close : float; volume : float }.
End HistoryRow.

Definition candle_from_row (symbol exchange : string) (row : HistoryRow.t) : result OHLCVCandle.t :=
  volume ← int_of_float (HistoryRow.volume row);
  mret (OHLCVCandle.mk (HistoryRow.time row) symbol exchange (HistoryRow.open row) (HistoryRow.high row)
          (HistoryRow.low row) (HistoryRow.close row) volume).

Definition candles_from_history (symbol exchange : string) (df : list HistoryRow.t) : result (list OHLCVCandle.t) :=
  mapM (candle_from_row symbol exchange) df.

(** [fetch_history] with the period in days and the interval. *)
Definition backfill (fetch_history : string -> string -> string -> result (list HistoryRow.t)) (page_size : nat)
    (symbol : string) (days : Z) (exchange : option string) : M Candles Z :=
  let resolved_exchange := match exchange with
                           | Some e => if is_empty e then exchange_for_symbol symbol else e
                           | None => exchange_for_symbol symbol
                           end in
  let interval := if days <=? ONE_MINUTE_MAX_BACKFILL_DAYS then ONE_MINUTE_INTERVAL else COARSE_BACKFILL_INTERVAL in
  df ← M_lift (fetch_history symbol (pretty days +:+ "d") interval);
  candles ← M_lift (candles_from_history symbol resolved_exchange df);
  upsert_1m page_size candles.

(** ** Validated sequences *)

(** The ticks that one validator lets through. *)
Fixpoint accepted (ticks : list Tick.t) (last_seen : LastSeen) : list Tick.t :=
  match ticks with
  | [] => []
  | tick :: ticks =>
      match validate tick last_seen with
      | (Ok _, last_seen') => tick :: accepted ticks last_seen'
      | (Raise _, last_seen') => accepted ticks last_seen'
      end
  end.

Lemma validate_inv tick last_seen r last_seen' : validate tick last_seen = (r, last_seen') ->
  match r with
  | Ok _ => validate_tick_shape tick = Ok tt
            /\ (forall t, dget (tick_key tick) last_seen = Some t -> t <= Tick.time tick)
            /\ last_seen' = dset (tick_key tick) (Tick.time tick) last_seen
  | Raise _ => last_seen' = last_seen
  end.
Proof.
  unfold validate. M_unfold. destruct (validate_tick_shape tick) as [[]|e]; [|by intros [= <- <-]].
  destruct (dget (tick_key tick) last_seen) as [t|]; [destruct (Z.ltb_spec (Tick.time tick) t)|].
  - by intros [= <- <-].
  - intros [= <- <-]. split_and!; [done| |done]. by intros u [= <-].
  - intros [= <- <-]. by split_and!.
Qed.

Definition of_key (key : string * string) (ticks : list Tick.t) : list Tick.t :=
  List.filter (fun t => bool_decide (tick_key t = key)) ticks.

Definition no_sooner (x y : Tick.t) : Prop := Tick.time x <= Tick.time y.

Lemma accepted_after key ticks last_seen t : dget key last_seen = Some t ->
  Forall (fun x => t <= Tick.time x) (of_key key (accepted ticks last_seen)).
Proof.
  revert last_seen t. induction ticks as [|tick ticks IH]; intros last_seen t Ht; cbn; [constructor|].
  destruct (validate tick last_seen) as [[u|e] last_seen'] eqn:E; apply validate_inv in E; [|subst; by apply IH].
  destruct E as (_ & Hle & ->). unfold of_key. cbn. case_bool_decide as Hk.
  - subst key. constructor; [by apply Hle|].
    eapply Forall_impl; [by apply IH, dget_dset_eq|]. cbn. intros x Hx. specialize (Hle _ Ht). lia.
  - apply IH. by rewrite dget_dset_ne.
Qed.

(** A validator lets through only ticks of good shape, and for every
    (symbol, exchange) pair in non-decreasing time order, also when rejected
    ticks come between them; it loses no tick of good shape of a pair whose
    ticks do come in order. *)
Theorem accepted_ticks_ordered ticks last_seen :
  Forall (fun t => validate_tick_shape t = Ok tt) (accepted ticks last_seen)
  /\ (forall key, StronglySorted no_sooner (of_key key (accepted ticks last_seen)))
  /\ (Forall (fun t => validate_tick_shape t = Ok tt) ticks ->
      (forall key, StronglySorted no_sooner (of_key key ticks)) ->
      (forall key t x, dget key last_seen = Some t -> x ∈ of_key key ticks -> t <= Tick.time x) ->
      accepted ticks last_seen = ticks).
Proof.
  revert last_seen. induction ticks as [|tick ticks IH]; intros last_seen; cbn [accepted].
  { split_and!; [constructor|intros key; constructor|done]. }
  destruct (validate tick last_seen) as [[u|e] last_seen'] eqn:E; pose proof (validate_inv _ _ _ _ E) as Hv.
  - destruct Hv as (Hs & Hle & ->). destruct (IH (dset (tick_key tick) (Tick.time tick) last_seen)) as (I1 & I2 & I3).
    split_and!; [by constructor| |].
    + intros key. unfold of_key. cbn. case_bool_decide as Hk; [|apply I2].
      constructor; [apply I2|]. apply accepted_after. subst key. apply dget_dset_eq.
    + intros [_ Hsh]%Forall_cons Hso Hla. f_equal. apply I3; [done| |].
      * intros key. specialize (Hso key). unfold of_key in Hso. cbn in Hso. case_bool_decide; [|done].
        by apply StronglySorted_inv in Hso as [? _].
      * intros key t x Ht Hx. specialize (Hso key). specialize (Hla key t x).
        unfold of_key in Hso, Hla. cbn in Hso, Hla. case_bool_decide as Hk.
        -- subst key. rewrite dget_dset_eq in Ht. injection Ht as <-.
           apply StronglySorted_inv in Hso as [_ Hso]. rewrite Forall_forall in Hso. by apply Hso.
        -- rewrite dget_dset_ne in Ht by done. by apply Hla.
  - cbn in Hv. subst last_seen'. destruct (IH last_seen) as (I1 & I2 & I3). split_and!; [done|done|].
    intros [Hsh _]%Forall_cons Hso Hla. exfalso. unfold validate in E. revert E. M_unfold. rewrite Hsh.
    destruct (dget (tick_key tick) last_seen) as [t|] eqn:Et; [|done].
    assert (t <= Tick.time tick) by (apply (Hla _ _ _ Et); unfold of_key; cbn;
      rewrite bool_decide_eq_true_2 by done; by left).
    destruct (Z.ltb_spec (Tick.time tick) t); [lia|done].
Qed.

(** ** The buffer *)

(** A tick as the buffer gives it back. *)
Definition stored_tick (t : Tick.t) : Tick.t :=
  Tick.mk (Tick.time t) (Tick.symbol t) (Tick.exchange t) (default f_zero (sqlite_real (Tick.price t)))
    (Tick.volume t) (Tick.bid t ≫= sqlite_real) (Tick.ask t ≫= sqlite_real).

(** The time of a tick is a [datetime]. *)
Definition dated (t : Tick.t) : Prop := in_datetime (Tick.time t / DAY).

Lemma buffer_row_back t r : dated t -> buffer_row t = Ok r ->
  BufferedTick.synced r = false /\ tick_of_row r = Ok (stored_tick t).
Proof.
  intros Hd Hr. unfold buffer_row, sqlite_integer in Hr.
  destruct ((- 2 ^ 63 <=? Tick.volume t) && (Tick.volume t <? 2 ^ 63)); [|done]. cbn in Hr.
  destruct (sqlite_real (Tick.price t)) as [p|] eqn:Ep; [|done]. injection Hr as <-.
  split; [done|]. unfold tick_of_row. cbn. rewrite fromisoformat_isoformat by done. cbn.
  unfold stored_tick. by rewrite Ep.
Qed.

Lemma pending_app buffer rows p q : pending buffer = Ok p -> mapM tick_of_row rows = Ok q ->
  Forall (fun r => BufferedTick.synced r = false) rows -> pending (buffer ++ rows) = Ok (p ++ q).
Proof.
  unfold pending, unsynced. intros Hp Hq Hr. apply mapM_result in Hp, Hq. apply result_mapM.
  rewrite List.filter_app. apply Forall2_app; [done|]. clear Hp.
  assert (List.filter (fun r => negb (BufferedTick.synced r)) rows = rows) as ->; [|done].
  clear Hq. induction Hr as [|r rows Hr _ IH]; cbn; [done|]. by rewrite Hr, IH.
Qed.

Lemma append_pending ticks buffer n buffer' p : Forall dated ticks -> pending buffer = Ok p ->
  append ticks buffer = (Ok n, buffer') ->
  n = Z.of_nat (length ticks) /\ pending buffer' = Ok (p ++ map stored_tick ticks).
Proof.
  intros Hd Hp. unfold append. destruct (mapM buffer_row ticks) as [rows|e] eqn:E; [|done].
  intros [= <- <-]. split; [done|]. apply mapM_result in E.
  assert (Hr : Forall (fun r => BufferedTick.synced r = false) rows
               /\ Forall2 (fun r t => tick_of_row r = Ok t) rows (map stored_tick ticks)).
  { induction E as [|t r ticks rows Hr E IH]; [split; constructor|].
    apply Forall_cons in Hd as [Hd Hds]. apply buffer_row_back in Hr as [Hs Hb]; [|done].
    destruct (IH Hds). split; by constructor. }
  apply pending_app; [done| |apply Hr]. apply result_mapM, Hr.
Qed.

Lemma unsynced_mark_oldest n buffer : unsynced (mark_oldest n buffer) = drop n (unsynced buffer).
Proof.
  revert n. induction buffer as [|r buffer IH]; intros [|n]; [done..|]. cbn.
  destruct (BufferedTick.synced r) eqn:E; cbn; rewrite ?E; cbn; [by apply (IH (S n))|apply IH].
Qed.

Lemma pending_mark_synced n buffer p : pending buffer = Ok p ->
  pending (mark_synced n buffer) = Ok (drop (Z.to_nat n) p).
Proof.
  intros Hp. unfold mark_synced. destruct (Z.leb_spec n 0).
  { replace (Z.to_nat n) with 0%nat by lia. by rewrite drop_0. }
  unfold pending in *. rewrite unsynced_mark_oldest. apply mapM_result in Hp.
  apply result_mapM. by apply Forall2_drop.
Qed.

Lemma pending_length buffer p : pending buffer = Ok p -> pending_count buffer = Z.of_nat (length p).
Proof. intros Hp%mapM_result%Forall2_length. unfold pending_count. by rewrite Hp. Qed.

(** Ticks that are good to store: a [datetime], a price, a volume of 64 bits. *)
Definition storable (t : Tick.t) : Prop :=
  dated t /\ is_nan (Tick.price t) = false /\ - 2 ^ 63 <= Tick.volume t < 2 ^ 63.

Lemma append_ok ticks buffer : Forall storable ticks ->
  exists buffer', append ticks buffer = (Ok (Z.of_nat (length ticks)), buffer').
Proof.
  intros Hs. unfold append. assert (exists rows, mapM buffer_row ticks = Ok rows) as [rows ->]; [|by eexists].
  induction Hs as [|t ticks (_ & Hp & Hv) _ [rows IH]]; [by eexists|]. cbn. rewrite IH. unfold buffer_row, sqlite_integer.
  replace ((-2 ^ 63 <=? Tick.volume t) && (Tick.volume t <? 2 ^ 63)) with true by lia. cbn.
  unfold sqlite_real. rewrite Hp. destruct (is_zero (Tick.price t)); by eexists.
Qed.

(** What the buffer is for: ticks that are appended come back from
    [pending], behind those that already wait and in the order they came, with
    their times, and [pending_count] counts them; marking the oldest [n] as
    synced drops exactly the first [n], also when other ticks were appended
    since they were read. *)
Theorem buffer_reads_back ticks buffer p n :
  Forall storable ticks -> pending buffer = Ok p -> (n <= length p)%nat ->
  exists buffer', append ticks buffer = (Ok (Z.of_nat (length ticks)), buffer')
    /\ pending buffer' = Ok (p ++ map stored_tick ticks)
    /\ pending_count buffer' = pending_count buffer + Z.of_nat (length ticks)
    /\ pending (mark_synced (Z.of_nat n) buffer') = Ok (drop n p ++ map stored_tick ticks).
Proof.
  intros Hs Hp Hn. destruct (append_ok ticks buffer Hs) as [buffer' Ha]. exists buffer'.
  assert (Hd : Forall dated ticks) by (eapply Forall_impl; [exact Hs|]; by intros t []).
  destruct (append_pending _ _ _ _ _ Hd Hp Ha) as [_ Hp'].
  split_and!; [done|done| |].
  - rewrite (pending_length _ _ Hp'), (pending_length _ _ Hp). autorewrite with pydb. lia.
  - rewrite (pending_mark_synced _ _ _ Hp'), Nat2Z.id, drop_app_le by done. done.
Qed.

(** ** The flush to TimescaleDB *)

Section Sync.
Context {W : Type} `{TimescaleLaws W}.

Lemma insert_many_spec ticks w r w' : insert_many ticks w = (r, w') ->
  match r with
  | Ok n => n = Z.of_nat (length ticks)
            /\ (ticks = [] /\ w' = w
                \/ ts_aborted w = false /\ ts_open w' = [] /\ ts_ticks w' = ts_ticks w ++ ts_open w ++ ticks)
  | Raise _ => exists l, ts_ticks w' = ts_ticks w ++ l
  end.
Proof.
  unfold insert_many. destruct ticks as [|t ticks]; [intros [= <- <-]; auto|]. revert t. M_unfold. intros t.
  destruct (ts_insert_ticks (t :: ticks) w) as [[[]|e] w1] eqn:E1; apply ts_insert_spec in E1 as [Et E1].
  - destruct E1 as (Ha & Ha1 & Ho). destruct (ts_commit w1) as [[[]|e] w2] eqn:E2;
      (apply ts_commit_spec in E2; [|done]).
    + intros [= <- <-]. destruct E2 as (_ & Ho2 & Ht). split; [done|]. right. by rewrite Ht, Et, Ho.
    + intros [= <- <-]. destruct E2 as [Ht|Ht]; rewrite Ht, Et; [by eexists|]. exists []. by rewrite app_nil_r.
  - intros [= <- <-]. exists []. by rewrite app_nil_r.
Qed.

Lemma sync_eq refused buffer w p : pending buffer = Ok p ->
  sync_to_timescale refused (buffer, w) =
    match p with
    | [] => (Ok 0, (buffer, w))
    | _ => match insert_many p w, refused with
           | (Ok _, w'), None => (Ok (Z.of_nat (length p)), (mark_synced (Z.of_nat (length p)) buffer, w'))
           | (Ok _, w'), Some e | (Raise e, w'), _ => (Raise e, (buffer, w'))
           end
    end.
Proof.
  intros Hp. unfold sync_to_timescale, update_synced, M_zoom, mbind, M_bind, M_get, M_lift, M_modify, mret, M_ret. cbn [fst snd].
  rewrite Hp. destruct p as [|t p]; [done|]. cbn [fst snd]. destruct (insert_many (t :: p) w) as [[n|e] w'], refused; done.
Qed.

Lemma sync_spec refused buffer w p r buffer' w' : pending buffer = Ok p ->
  sync_to_timescale refused (buffer, w) = (r, (buffer', w')) ->
  match r with
  | Ok n => n = Z.of_nat (length p) /\ pending buffer' = Ok []
            /\ (p = [] /\ w' = w
                \/ ts_aborted w = false /\ ts_open w' = [] /\ ts_ticks w' = ts_ticks w ++ ts_open w ++ p)
  | Raise _ => buffer' = buffer /\ exists l, ts_ticks w' = ts_ticks w ++ l
  end.
Proof.
  intros Hp. rewrite (sync_eq _ _ _ _ Hp). destruct p as [|t p]; [intros [= <- <- <-]; by auto|].
  destruct (insert_many (t :: p) w) as [[n|e] w1] eqn:E; apply insert_many_spec in E; [destruct refused|].
  - intros [= <- <- <-]. split; [done|]. destruct E as (_ & [[] | (_ & _ & E)]); [done|by eexists].
  - intros [= <- <- <-]. destruct E as [-> Ht]. split_and!; [done| |done].
    rewrite (pending_mark_synced _ _ _ Hp), Nat2Z.id. f_equal. apply (drop_all (t :: p)).
  - intros [= <- <- <-]. by auto.
Qed.

(** What happens to one buffer and one connection: batches are appended, some
    in vain, and flushes are tried, whose update SQLite may refuse.  The index says whether every flush so far
    returned; the list is what the appends that returned were given. *)
Inductive history (w0 : W) : bool -> list Tick.t -> Buffer * W -> Prop :=
  | h_start : history w0 true [] ([], w0)
  | h_append ok log buffer w ticks n buffer' : history w0 ok log (buffer, w) -> Forall dated ticks ->
      append ticks buffer = (Ok n, buffer') -> history w0 ok (log ++ ticks) (buffer', w)
  | h_append_raises ok log buffer w ticks e buffer' : history w0 ok log (buffer, w) ->
      append ticks buffer = (Raise e, buffer') -> history w0 ok log (buffer', w)
  | h_sync ok log s refused r s' : history w0 ok log s -> sync_to_timescale refused s = (r, s') ->
      history w0 (ok && is_ok r) log s'.

(** C11. No tick is lost between the buffer and the database: whatever
    statements, commits and updates of the buffer fail, every tick that was ever appended either
    still waits or is in the table, and in the order of the appends; what the
    table had stays.  While all flushes return, each flushed tick is in the
    table exactly once. *)
Theorem no_buffered_tick_lost w0 ok log s : history w0 ok log s ->
  exists flushed waiting, pending s.1 = Ok waiting
    /\ map stored_tick log = flushed ++ waiting
    /\ (exists l, ts_ticks s.2 = ts_ticks w0 ++ l /\ flushed `sublist_of` l)
    /\ (ok = true -> ts_open w0 = [] -> ts_open s.2 = [] /\ ts_ticks s.2 = ts_ticks w0 ++ flushed).
Proof.
  induction 1 as [|ok log buffer w ticks n buffer' Hh IH Hd Ha|ok log buffer w ticks e buffer' Hh IH Ha|ok log [b w] refused r [b' w'] Hh IH Hs];
    [|destruct IH as (flushed & waiting & Hp & Hl & (l & Ht & Hsub) & Hc); cbn [fst snd] in *..].
  - exists [], []. cbn. split_and!; [done|done| |intros; by rewrite app_nil_r].
    exists []. by rewrite app_nil_r.
  - destruct (append_pending _ _ _ _ _ Hd Hp Ha) as [_ Hp']. exists flushed, (waiting ++ map stored_tick ticks).
    split_and!; [done| |by exists l|done]. by rewrite map_app, Hl, app_assoc.
  - unfold append in Ha. destruct (mapM buffer_row ticks); [done|]. injection Ha as _ <-.
    exists flushed, waiting. split_and!; [done|done|by exists l|done].
  - apply (sync_spec _ _ _ _ _ _ _ Hp) in Hs. destruct r as [n|e].
    + destruct Hs as (_ & Hp' & Hw). exists (flushed ++ waiting), []. rewrite app_nil_r, andb_true_r.
      split_and!; [done|done| |].
      * destruct Hw as [[-> ->]|(_ & _ & Hw)]; [rewrite app_nil_r; by exists l|].
        exists (l ++ ts_open w ++ waiting). rewrite Hw, Ht, <- app_assoc. split; [done|].
        apply sublist_app; [done|]. by apply sublist_inserts_l.
      * intros Hok H1. destruct (Hc Hok H1) as [Ho Hf].
        destruct Hw as [[-> ->]|(_ & Ho' & Hw)]; [by rewrite app_nil_r|].
        by rewrite Hw, Ho, Hf, <- app_assoc.
    + destruct Hs as (-> & l' & Hl'). exists flushed, waiting. split_and!; [done|done| |by rewrite andb_false_r].
      exists (l ++ l'). rewrite Hl', Ht, <- app_assoc. split; [done|]. by apply sublist_inserts_r.
Qed.

Lemma aborted_sync buffer w p : pending buffer = Ok p -> p <> [] -> ts_aborted w = true ->
  exists e w', sync_to_timescale None (buffer, w) = (Raise e, (buffer, w'))
    /\ ts_aborted w' = true /\ ts_ticks w' = ts_ticks w.
Proof.
  intros Hp Hne Ha. rewrite (sync_eq _ _ _ _ Hp). destruct p as [|t p]; [done|]. unfold insert_many. M_unfold.
  destruct (ts_insert_ticks (t :: p) w) as [[[]|e] w1] eqn:E1; apply ts_insert_spec in E1 as [Et E1].
  - destruct E1 as [? _]. congruence.
  - exists e, w1. split_and!; [done| |done]. destruct E1 as [?|[-> _]]; done.
Qed.

(** [n] flushes, one after the other. *)
Fixpoint flushes (n : nat) (s : Buffer * W) : Buffer * W :=
  match n with O => s | S n => (sync_to_timescale None (flushes n s)).2 end.

(** The repositories never roll back: once the server has refused a
    statement, every later flush over that connection fails, also when the
    database is back; the ticks wait for ever. *)
Theorem refused_statement_blocks_sync buffer w p n : pending buffer = Ok p -> p <> [] -> ts_aborted w = true ->
  let s := flushes n (buffer, w) in
  is_ok (sync_to_timescale None s).1 = false /\ s.1 = buffer /\ ts_ticks s.2 = ts_ticks w.
Proof.
  intros Hp Hne Ha. cbv zeta.
  assert (exists w', flushes n (buffer, w) = (buffer, w') /\ ts_aborted w' = true /\ ts_ticks w' = ts_ticks w)
    as (w' & -> & Ha' & Ht').
  { induction n as [|n (w' & IH & Ha' & Ht')]; [by exists w|]. cbn. rewrite IH.
    destruct (aborted_sync buffer w' p Hp Hne Ha') as (e & w2 & -> & Ha2 & Ht2). exists w2. cbn.
    split_and!; [done|done|congruence]. }
  destruct (aborted_sync buffer w' p Hp Hne Ha') as (e & w2 & -> & _). done.
Qed.
End Sync.

(** ** Candles *)

Definition not_later (x y : OHLCVCandle.t) : Prop := OHLCVCandle.time x <= OHLCVCandle.time y.
Definition before (x y : OHLCVCandle.t) : Prop := OHLCVCandle.time x < OHLCVCandle.time y.

Lemma in_query_key symbol exchange start stop c : in_query symbol exchange start stop c = true ->
  candle_key c = (symbol, exchange, OHLCVCandle.time c).
Proof.
  unfold in_query, candle_key. rewrite !andb_true_iff, !String.eqb_eq. by intros [[[-> ->] _] _].
Qed.

Lemma sorted_strictly symbol exchange l :
  Forall (fun c => candle_key c = (symbol, exchange, OHLCVCandle.time c)) l ->
  NoDup (candle_key <$> l) -> StronglySorted not_later l -> StronglySorted before l.
Proof.
  intros Hk Hd Hs. induction Hs as [|c l Hs IH Hc]; [constructor|].
  apply Forall_cons in Hk as [Hkc Hk]. cbn in Hd. apply NoDup_cons in Hd as [Hn Hd].
  constructor; [by apply IH|]. rewrite Forall_forall in Hc, Hk |- *. intros x Hx.
  specialize (Hc x Hx). unfold before, not_later in *.
  destruct (decide (OHLCVCandle.time c = OHLCVCandle.time x)) as [E|]; [|lia].
  exfalso. apply Hn. rewrite Hkc, E, <- (Hk x Hx). by apply list_elem_of_fmap_2.
Qed.

Lemma filter_fmap_NoDup {A B} (f : A -> B) p l : NoDup (f <$> l) -> NoDup (f <$> List.filter p l).
Proof.
  induction l as [|x l IH]; cbn; [done|]. rewrite NoDup_cons. intros [Hx Hd].
  destruct (p x); [|by apply IH]. cbn. rewrite NoDup_cons. split; [|by apply IH].
  rewrite list_elem_of_fmap in Hx |- *. intros (y & Hy & Hi). apply Hx. exists y. split; [done|].
  apply list_elem_of_In, filter_In in Hi as [Hi _]. by apply list_elem_of_In.
Qed.

Lemma query_table tables t symbol exchange start stop : keyed candle_key t -> tables "ohlcv_1m" = dvalues t ->
  exists l, query_candles tables symbol exchange "1m" start stop = Ok l
    /\ StronglySorted before l
    /\ forall c, c ∈ l <-> in_query symbol exchange start stop c = true /\ dget (candle_key c) t = Some c.
Proof.
  intros Hk Ht. unfold query_candles. change (dget "1m" OHLCV_TABLE_BY_TIMEFRAME) with (Some "ohlcv_1m").
  cbv iota beta. rewrite Ht. eexists. split; [done|]. split.
  - assert (Hf : Forall (fun c => in_query symbol exchange start stop c = true)
                   (List.filter (in_query symbol exchange start stop) (dvalues t))).
    { apply Forall_forall. intros c Hc. apply list_elem_of_In, filter_In in Hc. apply Hc. }
    apply (sorted_strictly symbol exchange).
    + rewrite py_sorted_perm. eapply Forall_impl; [exact Hf|]. cbn. apply in_query_key.
    + rewrite py_sorted_perm. by apply filter_fmap_NoDup, keyed_NoDup.
    + apply (py_sorted_ordered (fun _ => True)); [| | |by apply Forall_true]; unfold earlier, not_later; intros; lia.
  - intros c. rewrite py_sorted_perm, list_elem_of_In, filter_In, <- list_elem_of_In, (keyed_elem _ t c Hk). tauto.
Qed.

(** Candles that are written are what a query gives: after an upsert, the
    query of a symbol over [[start, stop)] gives, in strictly increasing time,
    exactly the last candle written for every minute of the range, and the
    older rows of the table for the minutes that were not written. *)
Theorem query_gives_written_candles page_size candles t n t' tables symbol exchange start stop :
  (0 < page_size)%nat -> keyed candle_key t -> upsert_1m page_size candles t = (Ok n, t') ->
  tables "ohlcv_1m" = dvalues t' ->
  exists l, query_candles tables symbol exchange "1m" start stop = Ok l
    /\ StronglySorted before l
    /\ forall c, c ∈ l <-> in_query symbol exchange start stop c = true
                         /\ written candle_key (candle_key c) (dget (candle_key c) t) candles = Some c.
Proof.
  intros Hpg Hk Hu Ht. pose proof (upsert_many_keyed candle_key page_size Hpg candles t Hk) as Hk'.
  unfold upsert_1m in Hu. rewrite Hu in Hk'.
  destruct (query_table tables t' symbol exchange start stop Hk' Ht) as (l & Hq & Hs & Hl).
  exists l. split_and!; [done|done|]. intros c. rewrite Hl.
  by rewrite (upsert_many_written candle_key page_size Hpg _ _ _ _ (candle_key c) Hu).
Qed.

Lemma history_keys symbol exchange df candles : mapM (candle_from_row symbol exchange) df = Ok candles ->
  candle_key <$> candles = pair (symbol, exchange) <$> (HistoryRow.time <$> df).
Proof.
  intros Hm%mapM_result. induction Hm as [|row c df candles Hr _ IH]; [done|]. cbn. rewrite IH. f_equal.
  unfold candle_from_row in Hr. bind_inv Hr. by injection Hr as <-.
Qed.

Lemma history_candles symbol exchange df : Forall (fun row => is_finite (HistoryRow.volume row) = true) df ->
  exists candles, candles_from_history symbol exchange df = Ok candles.
Proof.
  unfold candles_from_history. induction 1 as [|row df Hr _ [candles IH]]; [by eexists|]. cbn. rewrite IH.
  unfold candle_from_row. unfold int_of_float.
  destruct (HistoryRow.volume row); try done; [|destruct (to_rational _ _)]; by eexists.
Qed.

(** A backfill whose rows have finite volumes and distinct times writes a
    candle for every row of the history, with the exchange it resolved, and
    returns their number; it asks for minutes when the days are few enough and
    for five minutes otherwise. *)
Theorem backfill_writes_history fetch_history page_size symbol days exchange df t :
  (0 < page_size)%nat -> keyed candle_key t ->
  let interval := if days <=? 7 then "1m" else "5m" in
  let resolved := match exchange with Some e => if is_empty e then exchange_for_symbol symbol else e
                                    | None => exchange_for_symbol symbol end in
  fetch_history symbol (pretty days +:+ "d") interval = Ok df ->
  Forall (fun row => is_finite (HistoryRow.volume row) = true) df -> NoDup (HistoryRow.time <$> df) ->
  exists t', backfill fetch_history page_size symbol days exchange t = (Ok (Z.of_nat (length df)), t')
    /\ keyed candle_key t'
    /\ forall row, row ∈ df -> exists c, candle_from_row symbol resolved row = Ok c
                                       /\ dget (candle_key c) t' = Some c.
Proof.
  intros Hpg Hk interval resolved Hf Hv Hd.
  destruct (history_candles symbol resolved df Hv) as [candles Hc].
  assert (Hdk : NoDup (candle_key <$> candles)).
  { rewrite (history_keys _ _ _ _ Hc). apply NoDup_fmap_2; [|done]. by intros x y [= ->]. }
  destruct (upsert_many_distinct candle_key page_size Hpg candles t Hdk) as [t' Hu].
  pose proof (upsert_many_keyed candle_key page_size Hpg candles t Hk) as Hk'. rewrite Hu in Hk'.
  exists t'. split_and!; [|done|].
  - unfold backfill, M_lift, mbind, M_bind. cbv zeta. fold interval resolved. unfold interval in Hf.
    unfold ONE_MINUTE_MAX_BACKFILL_DAYS, ONE_MINUTE_INTERVAL, COARSE_BACKFILL_INTERVAL. rewrite Hf, Hc.
    unfold upsert_1m. rewrite Hu. apply mapM_result, Forall2_length in Hc. by rewrite Hc.
  - intros row Hrow. apply mapM_result in Hc. destruct (Forall2_elem_l _ _ _ _ Hc Hrow) as (c & Hci & Hrc).
    exists c. split; [done|]. rewrite (upsert_many_written candle_key page_size Hpg _ _ _ _ (candle_key c) Hu).
    by apply (written_distinct candle_key page_size).
Qed.

(** ** Witnesses *)

Module MemTimescale.
Record t := mk { ticks : list Tick.t; open : list Tick.t; aborted : bool; refuse : list bool }.

(** The server refuses a statement as the list says, and everything in an
    aborted transaction. *)
Definition insert (rows : list Tick.t) (w : t) : result unit * t :=
  if aborted w then (Raise (OtherError "InFailedSqlTransaction"), w)
  else match refuse w with
       | true :: refuse => (Raise (OtherError "DiskFull"), mk (ticks w) (open w) true refuse)
       | _ :: refuse => (Ok tt, mk (ticks w) (open w ++ rows) false refuse)
       | [] => (Ok tt, mk (ticks w) (open w ++ rows) false [])
       end.

Definition commit (w : t) : result unit * t :=
  if aborted w then (Ok tt, mk (ticks w) [] false (refuse w))
  else (Ok tt, mk (ticks w ++ open w) [] false (refuse w)).
End MemTimescale.

#[local] Instance MemTimescale_Timescale : Timescale MemTimescale.t :=
  { ts_insert_ticks := MemTimescale.insert; ts_commit := MemTimescale.commit }.

#[local] Instance MemTimescale_Laws : TimescaleLaws MemTimescale.t.
Proof.
  refine {| ts_ticks := MemTimescale.ticks; ts_open := MemTimescale.open; ts_aborted := MemTimescale.aborted |}.
  - intros rows [ticks open [] refuse] r w'; cbn; [intros [= <- <-]; auto|].
    destruct refuse as [|[] refuse]; intros [= <- <-]; cbn; auto.
  - intros [ticks open [] refuse] r w'; cbn; [done|]. intros [= <- <-] _. done.
Defined.

Definition sample_tick (minute : Z) (price : float) : Tick.t :=
  Tick.mk (Z.of_nat 20000 * DAY + minute * MINUTE) "RELIANCE" "NSE" price 10 None (Some (dec 101 0)).

Definition three_ticks : list Tick.t :=
  [sample_tick 0 (dec 100 0); sample_tick 1 (dec 101 0); sample_tick 2 (dec 99 0)].

Lemma three_storable : Forall storable three_ticks.
Proof. unfold three_ticks. repeat constructor; vm_compute; done. Qed.

(** One tick comes late: it is rejected, the next one is not. *)
Example late_tick_rejected :
  accepted [sample_tick 5 (dec 100 0); sample_tick 4 (dec 100 0); sample_tick 5 (dec 101 0); sample_tick 6 f_zero] []
  = [sample_tick 5 (dec 100 0); sample_tick 5 (dec 101 0)].
Proof. vm_compute. done. Qed.

Lemma buffer_reads_back_witness :
  exists buffer', append three_ticks [] = (Ok 3, buffer')
    /\ pending buffer' = Ok ([] ++ map stored_tick three_ticks)
    /\ pending_count buffer' = pending_count [] + 3
    /\ pending (mark_synced 0 buffer') = Ok (drop 0 [] ++ map stored_tick three_ticks).
Proof. apply (buffer_reads_back three_ticks [] [] 0); [exact three_storable|done|cbn; lia]. Defined.

Definition clean_connection : MemTimescale.t := MemTimescale.mk [] [] false [].
Definition buffered : Buffer := (append three_ticks []).2.
Definition flushed_state : Buffer * MemTimescale.t := (sync_to_timescale None (buffered, clean_connection)).2.

Lemma flushed_history : history clean_connection true three_ticks flushed_state.
Proof.
  change true with (true && is_ok (sync_to_timescale None (buffered, clean_connection)).1).
  apply (h_sync _ true three_ticks (buffered, clean_connection) None); [|apply surjective_pairing].
  apply (h_append _ true [] [] clean_connection three_ticks 3 buffered); [constructor| |vm_compute; done].
  eapply Forall_impl; [exact three_storable|]. by intros t [].
Qed.

Lemma no_buffered_tick_lost_witness :
  exists flushed waiting, pending flushed_state.1 = Ok waiting
    /\ map stored_tick three_ticks = flushed ++ waiting
    /\ (exists l, ts_ticks flushed_state.2 = ts_ticks clean_connection ++ l /\ flushed `sublist_of` l)
    /\ (true = true -> ts_open clean_connection = [] ->
        ts_open flushed_state.2 = [] /\ ts_ticks flushed_state.2 = ts_ticks clean_connection ++ flushed).
Proof. exact (no_buffered_tick_lost clean_connection true three_ticks flushed_state flushed_history). Defined.

(** The disk was full once; it is not any more. *)
Definition refused_connection : MemTimescale.t :=
  (sync_to_timescale None (buffered, MemTimescale.mk [] [] false [true])).2.2.

Lemma refused_statement_blocks_sync_witness :
  MemTimescale.refuse refused_connection = []
  /\ let s := flushes 5 (buffered, refused_connection) in
     is_ok (sync_to_timescale None s).1 = false /\ s.1 = buffered /\ ts_ticks s.2 = ts_ticks refused_connection.
Proof.
  split; [vm_compute; done|].
  apply (refused_statement_blocks_sync buffered refused_connection (map stored_tick three_ticks) 5);
    [vm_compute; done|done|vm_compute; done].
Defined.

Definition sample_row (minute : Z) (price : Z) : HistoryRow.t :=
  HistoryRow.mk (Z.of_nat 20000 * DAY + minute * MINUTE) (dec price 0) (dec (price + 2) 0) (dec (price - 2) 0)
    (dec (price + 1) 0) (dec 1000 0).

Definition sample_history : list HistoryRow.t := [sample_row 0 100; sample_row 1 101; sample_row 2 102].

Lemma keyed_nil {K R} `{EqDecision K} (key_of : R -> K) : keyed key_of [].
Proof. split; constructor. Qed.

Lemma backfill_writes_history_witness :
  exists t', backfill (fun _ _ _ => Ok sample_history) 100 "RELIANCE.NS" 5 None [] = (Ok 3, t')
    /\ keyed candle_key t'
    /\ forall row, row ∈ sample_history -> exists c, candle_from_row "RELIANCE.NS" "NSE" row = Ok c
                                                  /\ dget (candle_key c) t' = Some c.
Proof.
  apply (backfill_writes_history (fun _ _ _ => Ok sample_history) 100 "RELIANCE.NS" 5 None sample_history []).
  - lia.
  - apply keyed_nil.
  - done.
  - repeat constructor.
  - apply (bool_decide_unpack _). vm_compute. done.
Defined.

Definition sample_candles : list OHLCVCandle.t :=
  match candles_from_history "RELIANCE.NS" "NSE" sample_history with Ok l => l | Raise _ => [] end.

Lemma query_gives_written_candles_witness :
  exists l, query_candles (fun name => if String.eqb name "ohlcv_1m" then dvalues (upsert_1m 100 sample_candles []).2 else [])
              "RELIANCE.NS" "NSE" "1m" 0 (20001 * DAY) = Ok l
    /\ StronglySorted before l
    /\ forall c, c ∈ l <-> in_query "RELIANCE.NS" "NSE" 0 (20001 * DAY) c = true
                         /\ written candle_key (candle_key c) (dget (candle_key c) []) sample_candles = Some c.
Proof.
  apply (query_gives_written_candles 100 sample_candles [] 3 (upsert_1m 100 sample_candles []).2);
    [lia|apply keyed_nil|vm_compute; done|done].
Defined.

(** ** What the checks let through *)

(** A NaN price passes the validation (no comparison with NaN holds), but the
    table of the buffer refuses it, and with it the whole batch. *)
Example nan_price_loses_batch :
  let nan_tick := sample_tick 1 f_nan in
  validate_tick_shape nan_tick = Ok tt
  /\ is_ok (append [sample_tick 0 (dec 100 0); nan_tick] []).1 = false
  /\ (append [sample_tick 0 (dec 100 0); nan_tick] []).2 = [].
Proof. vm_compute. done. Qed.

(** Symbols of the Bombay exchange count as NSE. *)
Example bombay_is_nse : exchange_for_symbol "RELIANCE.BO" = "NSE" /\ exchange_for_symbol "BHP.AX" = "ASX".
Proof. vm_compute. done. Qed.

(** A row without a volume ends the whole backfill. *)
Example nan_volume_ends_backfill :
  backfill (fun _ _ _ => Ok (sample_history ++ [HistoryRow.mk 0 f_zero f_zero f_zero f_zero f_nan])) 100 "BHP.AX" 30 None []
  = (Raise (ValueError "cannot convert float NaN to integer"), []).
Proof. vm_compute. done. Qed.

Example unknown_timeframe tables :
  query_candles tables "RELIANCE" "NSE" "30m" 0 1 = Raise (ValueError "unsupported timeframe").
Proof. done. Qed.
