(* ===== verification/Reporting.v ===== *)
(** * Reports ([shared/reporting])

    The report records ([models.py]), the performance metrics ([metrics.py])
    and the CSV and Excel exports ([csv_export.py]); [ReportDocs] has the HTML
    and PDF documents.  NumPy's mean and standard deviations are parameters;
    its cumulative product and running maximum are defined here.  A workbook
    is its sheets with their cells and column widths; fonts, fills and the
    bytes of the file are openpyxl's. *)

From Stdlib Require Import SpecFloat.
From S2P Require Import Prelude PyFloat PyDict PyText PyDate PyParse NumPy.
Local Open Scope Z_scope.

(** ** Records ([models.py]) *)

Module TradeRecord.
Record t := mk {
  trade_id : string;
  symbol : string;
  exchange : string;
  direction : string;
  entry_time_ms : Z;
  exit_time_ms : option Z;
  entry_price : float;
  exit_price : option float;
  quantity : Z;
  pnl : float;
  pnl_pct : float;
  strategy_tag : string;
  slippage_pct : option float;
  markout_1m_pct : option float;
  markout_5m_pct : option float;
}.
End TradeRecord.

Module MarkoutPoint.
Record t := mk { offset_label : string; avg_pct : float; sample_count : Z }.
End MarkoutPoint.

(** A [date] is its day number. *)
Module DailyReport.
Record t := mk {
  date : Z;
  trades : list TradeRecord.t;
  total_pnl : float;
  total_pnl_pct : float;
  starting_capital : float;
  sharpe : option float;
  sortino : option float;
  max_drawdown_pct : float;
  win_rate_pct : float;
  total_trades : Z;
  winning_trades : Z;
  losing_trades : Z;
  avg_slippage_pct : option float;
  markout_curve : list MarkoutPoint.t;
}.
End DailyReport.

Module MonthlyReport.
Record t := mk {
  year : Z;
  month : Z;
  daily_reports : list DailyReport.t;
  total_pnl : float;
  total_pnl_pct : float;
  starting_capital : float;
  sharpe : option float;
  sortino : option float;
  max_drawdown_pct : float;
  win_rate_pct : float;
  total_trades : Z;
}.
End MonthlyReport.

(** ** Metrics ([metrics.py]) *)

(** [np.std(a)] *)
Class NumPyStd := { np_std : list float -> float }.

(** [math.sqrt(252)], correctly rounded. *)
Definition ANNUALIZATION : float := SFsqrt prec emax (dec 252 0).

(** [math.isfinite(std)] and not zero. *)
Definition usable_std (std : float) : bool := negb (feq std f_zero) && is_finite std.

Definition compute_sharpe `{NumPyStats} (returns : list float) (annualize : bool) : option float :=
  if (length returns <? 2)%nat then None
  else
    let std := np_std1 returns in
    if usable_std std then
      let sharpe := fdiv (np_mean returns) std in
      Some (if annualize then (sharpe * ANNUALIZATION)%pf else sharpe)
    else None.

Definition downside (returns : list float) : list float := List.filter (fun r => flt r f_zero) returns.

Definition compute_sortino `{NumPyStats} `{NumPyStd} (returns : list float) (annualize : bool) : option float :=
  if (length returns <? 2)%nat then None
  else
    let mean := np_mean returns in
    match downside returns with
    | [] => None
    | d =>
        let ds_std := np_std d in
        if usable_std ds_std then
          let sortino := fdiv mean ds_std in
          Some (if annualize then (sortino * ANNUALIZATION)%pf else sortino)
        else None
    end.

(** [np.cumprod] multiplies from the left; [np.maximum] passes NaN on. *)
Fixpoint cumprod_from (w : float) (l : list float) : list float :=
  match l with [] => [] | x :: l => let w := (w * x)%pf in w :: cumprod_from w l end.
Definition cumprod (l : list float) : list float :=
  match l with [] => [] | x :: l => x :: cumprod_from x l end.

Definition nan_max (x y : float) : float := if is_nan x then x else if is_nan y then y else pymax x y.

Fixpoint running_max (m : float) (l : list float) : list float :=
  match l with [] => [] | x :: l => let m := nan_max m x in m :: running_max m l end.
Definition max_accumulate (l : list float) : list float :=
  match l with [] => [] | x :: l => x :: running_max x l end.

Definition drawdown_at (peak wealth : float) : float :=
  if flt f_zero peak then fdiv (peak - wealth)%pf peak else f_zero.

Definition wealth_path (returns : list float) : list float := cumprod (map (fun r => (dec 1 0 + r)%pf) returns).

Definition drawdown_path (returns : list float) : list float :=
  let wealth := wealth_path returns in zip_with drawdown_at (max_accumulate wealth) wealth.

Definition compute_max_drawdown (returns : list float) : float :=
  match drawdown_path returns with [] => f_zero | d :: l => foldl nan_max d l end.

Definition markout_point `{NumPyStats} (label : string) (values : list float) : option MarkoutPoint.t :=
  match values with
  | [] => None
  | _ => Some (MarkoutPoint.mk label (np_mean values) (Z.of_nat (length values)))
  end.

Definition build_markout_curve `{NumPyStats} (trades : list TradeRecord.t) : list MarkoutPoint.t :=
  omap id [markout_point "T+1m" (omap TradeRecord.markout_1m_pct trades);
           markout_point "T+5m" (omap TradeRecord.markout_5m_pct trades)].

(** [total_pnl / starting_capital * 100] for a positive capital. *)
Definition pnl_pct_of (total_pnl starting_capital : float) : float :=
  if flt f_zero starting_capital then (fdiv total_pnl starting_capital * dec 100 0)%pf else f_zero.

(** [a / n * 100] of two lengths. *)
Definition share_pct (a n : nat) : result float :=
  match n with
  | O => mret f_zero
  | _ => q ← int_truediv (Z.of_nat a) (Z.of_nat n); mret (q * dec 100 0)%pf
  end.

(** A sum over an empty list is the integer 0, which is 0.0 wherever it is
    used. *)
Definition compute_daily_report `{NumPyStats} `{NumPyStd} (report_date : Z) (trades : list TradeRecord.t)
    (starting_capital : float) : result DailyReport.t :=
  let total_pnl := pysum (map TradeRecord.pnl trades) in
  let total_pnl_pct := pnl_pct_of total_pnl starting_capital in
  let winning := List.filter (fun t => flt f_zero (TradeRecord.pnl t)) trades in
  let losing := List.filter (fun t => flt (TradeRecord.pnl t) f_zero) trades in
  win_rate ← share_pct (length winning) (length trades);
  let slippages := omap TradeRecord.slippage_pct trades in
  let avg_slip := match slippages with [] => None | _ => Some (np_mean slippages) end in
  let returns := map (fun t => fdiv (TradeRecord.pnl_pct t) (dec 100 0)) trades in
  mret (DailyReport.mk report_date trades total_pnl total_pnl_pct starting_capital
          (compute_sharpe returns true) (compute_sortino returns true)
          (compute_max_drawdown returns * dec 100 0)%pf win_rate (Z.of_nat (length trades))
          (Z.of_nat (length winning)) (Z.of_nat (length losing)) avg_slip (build_markout_curve trades)).

Definition compute_monthly_report `{NumPyStats} `{NumPyStd} (year month : Z) (daily_reports : list DailyReport.t)
    : result MonthlyReport.t :=
  let starting_capital := match daily_reports with [] => f_zero | r :: _ => DailyReport.starting_capital r end in
  let total_pnl := pysum (map DailyReport.total_pnl daily_reports) in
  let total_pnl_pct := pnl_pct_of total_pnl starting_capital in
  let all_trades := List.concat (map DailyReport.trades daily_reports) in
  let winning_days := List.filter (fun r => flt f_zero (DailyReport.total_pnl r)) daily_reports in
  win_rate ← share_pct (length winning_days) (length daily_reports);
  let daily_returns := map (fun r => fdiv (DailyReport.total_pnl_pct r) (dec 100 0)) daily_reports in
  mret (MonthlyReport.mk year month daily_reports total_pnl total_pnl_pct starting_capital
          (compute_sharpe daily_returns true) (compute_sortino daily_returns true)
          (compute_max_drawdown daily_returns * dec 100 0)%pf win_rate (Z.of_nat (length all_trades))).

(** ** Exports ([csv_export.py]) *)

Definition TRADE_HEADERS : list string :=
  ["trade_id"; "symbol"; "exchange"; "direction"; "entry_time_ms"; "exit_time_ms"; "entry_price"; "exit_price";
   "quantity"; "pnl"; "pnl_pct"; "strategy_tag"; "slippage_pct"; "markout_1m_pct"; "markout_5m_pct"].

(** A value of a cell. *)
Inductive Cell := CText (s : string) | CInt (z : Z) | CFloat (x : float).

(** [str(value)]; the CSV writer uses [repr] for floats, which is the same. *)
Definition cell_text (c : Cell) : string :=
  match c with
  | CText s => s
  | CInt z => pretty z
  | CFloat x => match x with S754_nan => "nan" | S754_infinity s => if s then "-inf" else "inf" | _ => repr x end
  end.

Definition opt_cell {A} (cell : A -> Cell) (x : option A) : Cell :=
  match x with Some v => cell v | None => CText "" end.

Definition trade_row (t : TradeRecord.t) : list Cell :=
  [CText (TradeRecord.trade_id t); CText (TradeRecord.symbol t); CText (TradeRecord.exchange t);
   CText (TradeRecord.direction t); CInt (TradeRecord.entry_time_ms t); opt_cell CInt (TradeRecord.exit_time_ms t);
   CFloat (TradeRecord.entry_price t); opt_cell CFloat (TradeRecord.exit_price t); CInt (TradeRecord.quantity t);
   CFloat (TradeRecord.pnl t); CFloat (TradeRecord.pnl_pct t); CText (TradeRecord.strategy_tag t);
   opt_cell CFloat (TradeRecord.slippage_pct t); opt_cell CFloat (TradeRecord.markout_1m_pct t);
   opt_cell CFloat (TradeRecord.markout_5m_pct t)].

Definition trades_to_csv (trades : list TradeRecord.t) : string :=
  csv_text (TRADE_HEADERS :: map (fun t => map cell_text (trade_row t)) trades).

Module Sheet.
Record t := mk { title : string; rows : list (list Cell); widths : list Z }.
End Sheet.

(** The width of the column: its longest text and four more, at most 30. *)
Definition column_width (column : list Cell) : Z :=
  Z.min (foldr Z.max 0 (map (fun c => Z.of_nat (String.length (cell_text c))) column) + 4) 30.

Definition column {A} (i : nat) (rows : list (list A)) : list A := omap (fun r => r !! i) rows.

Definition fmt_opt (v : option float) : string := match v with Some x => fmt_fixed 4 x | None => "N/A" end.

Definition summary_rows (r : DailyReport.t) : list (list Cell) :=
  [[CText "Date"; CText (isoformat_date (DailyReport.date r))];
   [CText "Starting Capital"; CFloat (DailyReport.starting_capital r)];
   [CText "Total P&L"; CFloat (DailyReport.total_pnl r)];
   [CText "P&L %"; CFloat (DailyReport.total_pnl_pct r)];
   [CText "Total Trades"; CInt (DailyReport.total_trades r)];
   [CText "Win Rate %"; CFloat (DailyReport.win_rate_pct r)];
   [CText "Winning Trades"; CInt (DailyReport.winning_trades r)];
   [CText "Losing Trades"; CInt (DailyReport.losing_trades r)];
   [CText "Sharpe"; CText (fmt_opt (DailyReport.sharpe r))];
   [CText "Sortino"; CText (fmt_opt (DailyReport.sortino r))];
   [CText "Max Drawdown %"; CFloat (DailyReport.max_drawdown_pct r)];
   [CText "Avg Slippage %"; CText (fmt_opt (DailyReport.avg_slippage_pct r))]].

Definition trades_to_excel (trades : list TradeRecord.t) (daily_report : option DailyReport.t) : list Sheet.t :=
  let rows := map CText TRADE_HEADERS :: map trade_row trades in
  let widths := map (fun i => column_width (column i rows)) (seq 0 (length TRADE_HEADERS)) in
  Sheet.mk "Trades" rows widths ::
  match daily_report with
  | Some r => [Sheet.mk "Summary" ([CText "Metric"; CText "Value"] :: summary_rows r) [22; 18]]
  | None => []
  end.

(** ** The exports *)

(** Exported trades are read back: whatever characters the symbols,
    identifiers and tags have, a CSV reader gets the header and one row per
    trade with the texts of its fields. *)
Theorem csv_gives_back_trades trades :
  csv_reader (trades_to_csv trades) = Ok (TRADE_HEADERS, map (fun t => map cell_text (trade_row t)) trades).
Proof.
  apply csv_reader_text; [cbn; lia|]. apply Forall_fmap, Forall_true. intros t. cbn. lia.
Qed.

(** ** Daily and monthly reports *)

(** Neither a win nor a loss: a zero or a NaN. *)
Definition flat (t : TradeRecord.t) : bool :=
  negb (flt f_zero (TradeRecord.pnl t)) && negb (flt (TradeRecord.pnl t) f_zero).

(** Closed by contradiction: nothing is both positive and negative. *)
Lemma not_win_and_loss x : flt f_zero x = true -> flt x f_zero = true -> False.
Proof. intros H1 H2. apply flt_not_fle in H1. rewrite flt_fle in H1; done. Qed.

Lemma counts_add trades :
  (length (List.filter (fun t => flt f_zero (TradeRecord.pnl t)) trades)
   + length (List.filter (fun t => flt (TradeRecord.pnl t) f_zero) trades)
   + length (List.filter flat trades) = length trades)%nat.
Proof.
  induction trades as [|t trades IH]; [done|]. cbn [List.filter]. unfold flat at 1.
  pose proof (not_win_and_loss (TradeRecord.pnl t)).
  destruct (flt f_zero (TradeRecord.pnl t)), (flt (TradeRecord.pnl t) f_zero); cbn; [by exfalso; auto|lia..].
Qed.

Lemma omap_length {A B} (f : A -> option B) l : (length (omap f l) <= length l)%nat.
Proof. induction l as [|x l IH]; [done|]. cbn. destruct (f x); cbn; lia. Qed.

(** What a daily report counts: every trade is a win, a loss or flat; the
    profit is Python's sum of the trades' profits; the points of the markout
    curve have 1 to all trades as samples, one minute before five. *)
Theorem daily_report_counts `{NumPyStats} `{NumPyStd} report_date trades capital r :
  compute_daily_report report_date trades capital = Ok r ->
  DailyReport.trades r = trades
  /\ DailyReport.total_trades r = Z.of_nat (length trades)
  /\ DailyReport.winning_trades r + DailyReport.losing_trades r + Z.of_nat (length (List.filter flat trades))
     = DailyReport.total_trades r
  /\ DailyReport.total_pnl r = pysum (map TradeRecord.pnl trades)
  /\ Forall (fun p => 1 <= MarkoutPoint.sample_count p <= DailyReport.total_trades r) (DailyReport.markout_curve r)
  /\ map MarkoutPoint.offset_label (DailyReport.markout_curve r) `sublist_of` ["T+1m"; "T+5m"].
Proof.
  unfold compute_daily_report. intros Hr. bind_inv Hr. injection Hr as <-. cbn. split_and!; try done.
  - pose proof (counts_add trades). lia.
  - unfold build_markout_curve, markout_point.
    pose proof (omap_length TradeRecord.markout_1m_pct trades) as H1.
    pose proof (omap_length TradeRecord.markout_5m_pct trades) as H5.
    destruct (omap TradeRecord.markout_1m_pct trades), (omap TradeRecord.markout_5m_pct trades);
      cbn in *; repeat constructor; cbn; lia.
  - unfold build_markout_curve, markout_point.
    destruct (omap TradeRecord.markout_1m_pct trades), (omap TradeRecord.markout_5m_pct trades); cbn;
      repeat constructor.
Qed.

(** A month adds up its days: the number of its trades is the sum of the
    days', and its profit the sum of their profits. *)
Theorem monthly_report_adds_days `{NumPyStats} `{NumPyStd} year month days reports m :
  Forall2 (fun d r => exists trades, compute_daily_report d.1 trades d.2 = Ok r) days reports ->
  compute_monthly_report year month reports = Ok m ->
  MonthlyReport.total_trades m = foldr Z.add 0 (map DailyReport.total_trades reports)
  /\ MonthlyReport.total_pnl m = pysum (map DailyReport.total_pnl reports)
  /\ MonthlyReport.daily_reports m = reports.
Proof.
  unfold compute_monthly_report. intros Hd Hm. bind_inv Hm. injection Hm as <-. cbn. split_and!; [|done..].
  clear Ha. induction Hd as [|d r days reports (trades & Hr) _ IH]; [done|]. cbn.
  unfold compute_daily_report in Hr. bind_inv Hr. injection Hr as <-. cbn in IH |- *.
  rewrite length_app, Nat2Z.inj_add, IH. done.
Qed.

(** ** Drawdown *)

Lemma running_max_lookup l m i p : running_max m l !! i = Some p ->
  p = foldl nan_max m (take (S i) l).
Proof.
  revert m i. induction l as [|x l IH]; intros m [|i] Hp; cbn in *; [done..|by injection Hp as <-|by apply IH].
Qed.

Lemma nan_max_cases x y : is_nan x = false -> is_nan y = false ->
  is_nan (nan_max x y) = false /\ (nan_max x y = x \/ nan_max x y = y)
  /\ fle x (nan_max x y) = true /\ fle y (nan_max x y) = true.
Proof.
  intros Hx Hy. unfold nan_max. rewrite Hx, Hy. unfold pymax. destruct (flt x y) eqn:E.
  - split_and!; auto; [by apply flt_fle|by apply fle_refl].
  - split_and!; auto; [by apply fle_refl|]. by apply flt_false_fle.
Qed.

(** The running maximum of values that are not NaN: one of them, and none is
    above it. *)
Lemma fold_max_exact l m : Forall (fun x => is_nan x = false) (m :: l) ->
  let p := foldl nan_max m l in
  is_nan p = false /\ p ∈ m :: l /\ Forall (fun x => fle x p = true) (m :: l).
Proof.
  revert m. induction l as [|x l IH]; intros m [Hm Hl]%Forall_cons; cbn.
  - split_and!; [done|by left|]. constructor; [by apply fle_refl|constructor].
  - apply Forall_cons in Hl as [Hx Hl]. destruct (nan_max_cases m x Hm Hx) as (Hn & Hc & Hm' & Hx').
    destruct (IH (nan_max m x)) as (Hp & Hi & Hf); [by constructor|]. split_and!; [done| |].
    + clear IH Hf Hl. apply elem_of_cons in Hi as [-> | Hi]; [|by do 2 right].
      destruct Hc as [-> | ->]; [by left|by right; left].
    + apply Forall_cons in Hf as [Hf Hfl]. repeat constructor; [by eapply fle_trans..|done].
Qed.

(** The drawdown series is the documented one: at every step, of a wealth
    path without NaN, the peak is a wealth reached so far that none before
    exceeds, and the drawdown is the fall from it as a fraction of it. *)
Theorem drawdown_path_exact returns i w :
  Forall (fun x => is_nan x = false) (wealth_path returns) -> wealth_path returns !! i = Some w ->
  exists j peak, (j <= i)%nat /\ wealth_path returns !! j = Some peak
    /\ (forall k v, (k <= i)%nat -> wealth_path returns !! k = Some v -> fle v peak = true)
    /\ drawdown_path returns !! i = Some (drawdown_at peak w).
Proof.
  intros Hn Hw. unfold drawdown_path. set (l := wealth_path returns) in *. clearbody l.
  assert (exists p, max_accumulate l !! i = Some p
    /\ (exists j, (j <= i)%nat /\ l !! j = Some p)
    /\ forall k v, (k <= i)%nat -> l !! k = Some v -> fle v p = true) as (p & Hp & (j & Hj & Hlj) & Hmax).
  { destruct l as [|x l]; [done|]. cbn [max_accumulate].
    pose proof (fold_max_exact (take i l) x) as Hf.
    destruct Hf as (_ & Hi & Hle).
    { apply Forall_cons in Hn as [? ?]. constructor; [done|by apply Forall_take]. }
    exists (foldl nan_max x (take i l)). split_and!.
    - destruct i as [|i]; [done|]. cbn in Hw |- *.
      destruct (running_max x l !! i) as [p|] eqn:E; [by rewrite <- (running_max_lookup _ _ _ _ E)|].
      apply lookup_ge_None in E. apply lookup_lt_Some in Hw.
      assert (Hlen : forall m, length (running_max m l) = length l)
        by (clear; induction l as [|y l IH]; intros m; cbn; [done|by rewrite IH]).
      rewrite Hlen in E. lia.
    - apply list_elem_of_lookup in Hi as [j Hj]. exists j.
      assert (Hjl := lookup_lt_Some _ _ _ Hj). cbn in Hjl. rewrite length_take in Hjl. split; [lia|].
      destruct j as [|j]; [done|]. cbn in Hj |- *. rewrite lookup_take_Some in Hj. apply Hj.
    - intros k v Hk Hv. rewrite Forall_lookup in Hle. apply (Hle k v).
      destruct k as [|k]; [done|]. cbn in Hv |- *. rewrite lookup_take_Some. split; [done|lia]. }
  exists j, p. split_and!; [done|done|done|]. rewrite lookup_zip_with, Hp, Hw. done.
Qed.

(** ** Witnesses

    NumPy on fewer than eight elements, where its sums run from the left. *)

Definition small_sum (l : list float) : float := foldl fadd f_zero l.
Definition small_mean (l : list float) : float := fdiv (small_sum l) (dec (Z.of_nat (length l)) 0).
Definition small_std (ddof : Z) (l : list float) : float :=
  let mean := small_mean l in
  let squares := map (fun x => let d := (x - mean)%pf in (d * d)%pf) l in
  SFsqrt prec emax (fdiv (small_sum squares) (dec (Z.of_nat (length l) - ddof) 0)).

Definition small_numpy : NumPyStats := {|
  np_sum := small_sum;
  np_mean := small_mean;
  np_median l := hd f_nan l;
  np_std1 := small_std 1;
  np_max l := foldr pymax f_ninf l;
  np_fmax := pymax;
  np_log := fun _ => f_nan;
  np_power := fun _ _ => f_nan;
  np_round := pyround;
  math_sqrt := fun x => Ok (SFsqrt prec emax x);
|}.

Definition small_std0 : NumPyStd := {| np_std := small_std 0 |}.

#[local] Existing Instance small_numpy.
#[local] Existing Instance small_std0.

Definition make_trade (trade_id symbol : string) (pnl pnl_pct : float) : TradeRecord.t :=
  TradeRecord.mk trade_id symbol "NSE" "LONG" 1700000000000 (Some 1700003600000) (dec 29000 1) (Some (dec 29145 1)) 100
    pnl pnl_pct "STRAT001" (Some (dec 2 2)) (Some (dec 3 1)) (Some (dec 5 1)).

Definition two_trades : list TradeRecord.t :=
  [make_trade "T1" "RELIANCE" (dec 5000 1) (dec 5 1); make_trade "T2" "RELIANCE" (dec (-2000) 1) (dec (-2) 1)].

Definition sample_day : Z := 20635.

Definition two_trade_day : DailyReport.t :=
  match compute_daily_report sample_day two_trades (dec 1000000 0) with
  | Ok r => r
  | Raise _ => DailyReport.mk 0 [] f_zero f_zero f_zero None None f_zero f_zero 0 0 0 None []
  end.

Lemma daily_report_counts_witness :
  compute_daily_report sample_day two_trades (dec 1000000 0) = Ok two_trade_day
  /\ DailyReport.total_trades two_trade_day = 2
  /\ DailyReport.winning_trades two_trade_day = 1 /\ DailyReport.losing_trades two_trade_day = 1.
Proof.
  assert (E : compute_daily_report sample_day two_trades (dec 1000000 0) = Ok two_trade_day) by (vm_compute; done).
  destruct (daily_report_counts sample_day two_trades (dec 1000000 0) two_trade_day E) as (_ & Ht & _).
  split_and!; [exact E|exact Ht|vm_compute; done..].
Defined.

Lemma monthly_report_adds_days_witness :
  exists m, compute_monthly_report 2026 7 [two_trade_day; two_trade_day] = Ok m
    /\ MonthlyReport.total_trades m = 4
    /\ MonthlyReport.total_pnl m = pysum [DailyReport.total_pnl two_trade_day; DailyReport.total_pnl two_trade_day].
Proof.
  eexists. split; [vm_compute; reflexivity|].
  assert (E : compute_daily_report sample_day two_trades (dec 1000000 0) = Ok two_trade_day) by (vm_compute; done).
  edestruct (monthly_report_adds_days 2026 7 [(sample_day, dec 1000000 0); (sample_day, dec 1000000 0)]
               [two_trade_day; two_trade_day]) as (Ht & Hp & _).
  - repeat constructor; exists two_trades; exact E.
  - vm_compute. reflexivity.
  - split; [exact Ht|exact Hp].
Defined.

Definition falling : list float := [dec 1 1; dec (-1) 1; dec 101 4].

Lemma drawdown_path_exact_witness :
  exists w, wealth_path falling !! 1%nat = Some w
    /\ exists j peak, (j <= 1)%nat /\ wealth_path falling !! j = Some peak
       /\ (forall k v, (k <= 1)%nat -> wealth_path falling !! k = Some v -> fle v peak = true)
       /\ drawdown_path falling !! 1%nat = Some (drawdown_at peak w).
Proof.
  eexists. split; [vm_compute; reflexivity|].
  apply (drawdown_path_exact falling 1); [|vm_compute; reflexivity].
  repeat constructor.
Defined.

(** ** What the metrics miss *)

(** The wealth path starts after the first return, not at 1: a day whose only
    trade loses a tenth has no drawdown. *)
Example first_loss_is_no_drawdown :
  repr (compute_max_drawdown [dec (-1) 1]) = "0.0"
  /\ repr (compute_max_drawdown [f_zero; dec (-1) 1]) = "0.09999999999999998".
Proof. vm_compute. done. Qed.

(** Three returns of 0.1 have no variance, but the mean is rounded and the
    deviation is not zero: the ratio is astronomic instead of [None]. *)
Example constant_returns_have_sharpe :
  compute_sharpe [dec 1 2; dec 1 2; dec 1 2] true = None
  /\ option_map (flt (dec 1000000000 0)) (compute_sharpe [dec 1 1; dec 1 1; dec 1 1] true) = Some true.
Proof. vm_compute. done. Qed.

(** One losing trade deviates from itself by nothing: no Sortino ratio. *)
Example one_loss_has_no_sortino : compute_sortino [dec 1 2; dec (-5) 2; dec 2 2] true = None.
Proof. vm_compute. done. Qed.

(** A loss of more than everything gives a drawdown above 1. *)
Example drawdown_above_one : flt (dec 1 0) (compute_max_drawdown [dec 1 1; dec (-25) 1]) = true.
Proof. vm_compute. done. Qed.
