(* ===== verification/ReportDocs.v ===== *)
(** * Report documents ([shared/reporting/html_report.py], [pdf_report.py])

    The HTML reports as text (UTF-8) and the PDF reports as the calls that
    draw them; the bytes of the PDF are fpdf2's. *)

From Stdlib Require Import SpecFloat.
From S2P Require Import Prelude PyFloat PyDict PyText PyDate PyParse NumPy Reporting.
Local Open Scope Z_scope.

Definition concat_str (l : list string) : string := foldr String.append "" l.

(** ** Numbers *)

(** [f"{x:,.kf}"]: commas between groups of three digits. *)
Fixpoint with_commas (s : string) : string :=
  match s with
  | EmptyString => ""
  | String c r =>
      let n := String.length r in
      String c (if (0 <? n)%nat && (n mod 3 =? 0)%nat then String "," (with_commas r) else with_commas r)
  end.

Definition fmt_grouped (k : nat) (x : float) : string :=
  let '(neg, body) := read_sign (fmt_fixed k x) in
  let '(ip, fp) := span is_digit body in
  (if neg : bool then "-" else "") +:+ with_commas ip +:+ fp.

(** [f"{x:+,.kf}"] *)
Definition fmt_grouped_signed (k : nat) (x : float) : string :=
  match x with
  | S754_infinity true | S754_finite true _ _ | S754_zero true => fmt_grouped k x
  | _ => "+" +:+ fmt_grouped k x
  end.

(** [calendar.month_name[month]]; negative indices count from the end. *)
Definition MONTH_NAMES : list string :=
  [""; "January"; "February"; "March"; "April"; "May"; "June"; "July"; "August"; "September"; "October"; "November";
   "December"].
Definition month_name (month : Z) : result string := py_index MONTH_NAMES month.

(** [date.strftime("%Y-%m-%d")] *)
Definition ymd (days : Z) : string := isoformat_date days.

(** ** HTML ([html_report.py]) *)

Definition CSS : string := "
body{font-family:Arial,sans-serif;font-size:13px;color:#222;margin:20px}
h1{color:#1a5276}h2{color:#2471a3;margin-top:24px;margin-bottom:4px}
table{border-collapse:collapse;width:100%;margin-bottom:16px}
th{background:#2980b9;color:#fff;padding:6px 8px;text-align:left}
td{padding:5px 8px;border-bottom:1px solid #d6eaf8}
tr:nth-child(even){background:#eaf4fb}
.pos{color:#1e8449}.neg{color:#c0392b}.metric-val{font-weight:bold}
".

(** [html.escape(str(v))] *)
Definition escape_char (c : ascii) : string :=
  if Ascii.eqb c "&" then "&amp;"
  else if Ascii.eqb c "<" then "&lt;"
  else if Ascii.eqb c ">" then "&gt;"
  else if Ascii.eqb c dquote then "&quot;"
  else if Ascii.eqb c "'" then "&#x27;"
  else String c "".

Fixpoint html_e (s : string) : string :=
  match s with EmptyString => "" | String c s => escape_char c +:+ html_e s end.

Definition html_fmt (v : option float) (decimals : nat) : string :=
  match v with Some x => fmt_fixed decimals x | None => "N/A" end.

Definition pnl_class (pnl : float) : string := if fle f_zero pnl then "pos" else "neg".

Definition summary_row (kv : string * string) : string :=
  concat_str ["<tr><td>"; html_e kv.1; "</td><td class='metric-val'>"; html_e kv.2; "</td></tr>"].

Definition summary_table (rows : list (string * string)) : string :=
  concat_str ["<table><tr><th>Metric</th><th>Value</th></tr>"; concat_str (map summary_row rows); "</table>"].

(** The metrics of a day, the same in both documents. *)
Definition daily_metrics (r : DailyReport.t) : list (string * string) :=
  [("Starting Capital", "$" +:+ fmt_grouped 2 (DailyReport.starting_capital r));
   ("Total P&L", "$" +:+ fmt_grouped_signed 2 (DailyReport.total_pnl r));
   ("P&L %", fmt_fixed_signed 2 (DailyReport.total_pnl_pct r) +:+ "%");
   ("Total Trades", pretty (DailyReport.total_trades r));
   ("Win Rate", fmt_fixed 1 (DailyReport.win_rate_pct r) +:+ "%");
   ("Winning / Losing", pretty (DailyReport.winning_trades r) +:+ " / " +:+ pretty (DailyReport.losing_trades r));
   ("Sharpe (intraday)", html_fmt (DailyReport.sharpe r) 2);
   ("Sortino (intraday)", html_fmt (DailyReport.sortino r) 2);
   ("Max Drawdown", fmt_fixed 2 (DailyReport.max_drawdown_pct r) +:+ "%");
   ("Avg Slippage", html_fmt (DailyReport.avg_slippage_pct r) 2 +:+ "%")].

Definition monthly_metrics (r : MonthlyReport.t) : list (string * string) :=
  [("Starting Capital", "$" +:+ fmt_grouped 2 (MonthlyReport.starting_capital r));
   ("Total P&L", "$" +:+ fmt_grouped_signed 2 (MonthlyReport.total_pnl r));
   ("Monthly Return", fmt_fixed_signed 2 (MonthlyReport.total_pnl_pct r) +:+ "%");
   ("Total Trades", pretty (MonthlyReport.total_trades r));
   ("Win Rate (days)", fmt_fixed 1 (MonthlyReport.win_rate_pct r) +:+ "%");
   ("Sharpe (monthly)", html_fmt (MonthlyReport.sharpe r) 2);
   ("Sortino (monthly)", html_fmt (MonthlyReport.sortino r) 2);
   ("Max Drawdown", fmt_fixed 2 (MonthlyReport.max_drawdown_pct r) +:+ "%");
   ("Trading Days", pretty (Z.of_nat (length (MonthlyReport.daily_reports r))))].

Definition markout_row (p : MarkoutPoint.t) : string :=
  concat_str ["<tr><td>"; html_e (MarkoutPoint.offset_label p); "</td><td class='"; pnl_class (MarkoutPoint.avg_pct p);
              "'>"; fmt_fixed_signed 3 (MarkoutPoint.avg_pct p); "%</td><td>"; pretty (MarkoutPoint.sample_count p);
              "</td></tr>"].

Definition markout_html (points : list MarkoutPoint.t) : string :=
  match points with
  | [] => ""
  | _ => concat_str ["<h2>Markout Curve (Adverse Selection Monitor)</h2>";
                     "<table><tr><th>Offset</th><th>Avg P&L %</th><th>Samples</th></tr>";
                     concat_str (map markout_row points); "</table>"]
  end.

Definition trade_html (t : TradeRecord.t) : string :=
  concat_str ["<tr><td>"; html_e (TradeRecord.symbol t); "</td><td>"; html_e (TradeRecord.direction t); "</td><td>";
              pretty (TradeRecord.quantity t); "</td><td>"; fmt_fixed 2 (TradeRecord.entry_price t); "</td><td>";
              match TradeRecord.exit_price t with Some p => fmt_fixed 2 p | None => "—" end;
              "</td><td class='"; pnl_class (TradeRecord.pnl t); "'>"; fmt_fixed_signed 2 (TradeRecord.pnl t);
              "</td><td class='"; pnl_class (TradeRecord.pnl_pct t); "'>"; fmt_fixed_signed 2 (TradeRecord.pnl_pct t);
              "%</td><td>"; html_fmt (TradeRecord.slippage_pct t) 3; "%</td><td>"; html_e (TradeRecord.strategy_tag t);
              "</td></tr>"].

Definition trades_html (trades : list TradeRecord.t) : string :=
  concat_str ["<h2>Trade Detail</h2><table><tr><th>Symbol</th><th>Dir</th><th>Qty</th><th>Entry</th><th>Exit</th>";
              "<th>P&L</th><th>P&L %</th><th>Slip %</th><th>Strategy</th></tr>"; concat_str (map trade_html trades);
              "</table>"].

Definition build_daily_html (r : DailyReport.t) : string :=
  let date_str := ymd (DailyReport.date r) in
  concat_str ["<!DOCTYPE html><html><head><title>Daily Report "; html_e date_str; "</title><style>"; CSS;
              "</style></head><body><h1>Daily Trading Report &mdash; "; html_e date_str; "</h1><p class='";
              pnl_class (DailyReport.total_pnl r); "'>P&amp;L: <strong>"; fmt_grouped_signed 2 (DailyReport.total_pnl r);
              "</strong> ("; fmt_fixed_signed 2 (DailyReport.total_pnl_pct r); "%)</p><h2>Performance Summary</h2>";
              summary_table (daily_metrics r); markout_html (DailyReport.markout_curve r);
              trades_html (DailyReport.trades r); "</body></html>"].

Definition day_html (d : DailyReport.t) : string :=
  concat_str ["<tr><td>"; html_e (ymd (DailyReport.date d)); "</td><td>"; pretty (DailyReport.total_trades d);
              "</td><td class='"; pnl_class (DailyReport.total_pnl d); "'>"; fmt_grouped_signed 2 (DailyReport.total_pnl d);
              "</td><td class='"; pnl_class (DailyReport.total_pnl_pct d); "'>";
              fmt_fixed_signed 2 (DailyReport.total_pnl_pct d); "%</td><td>"; fmt_fixed 0 (DailyReport.win_rate_pct d);
              "%</td><td>"; html_fmt (DailyReport.sharpe d) 2; "</td><td>"; fmt_fixed 2 (DailyReport.max_drawdown_pct d);
              "%</td></tr>"].

Definition monthly_html (title : string) (r : MonthlyReport.t) : string :=
  concat_str
    ["<!DOCTYPE html><html><head><title>Monthly Report "; html_e title; "</title><style>"; CSS;
     "</style></head><body><h1>Monthly Trading Report &mdash; "; html_e title;
     "</h1><h2>Monthly Performance Summary</h2>"; summary_table (monthly_metrics r);
     "<h2>Daily Breakdown</h2><table><tr><th>Date</th><th>Trades</th><th>P&L</th><th>P&L %</th>";
     "<th>Win Rate</th><th>Sharpe</th><th>Drawdown</th></tr>";
     concat_str (map day_html (MonthlyReport.daily_reports r)); "</table></body></html>"].

Definition build_monthly_html (r : MonthlyReport.t) : result string :=
  name ← month_name (MonthlyReport.month r);
  mret (monthly_html (name +:+ " " +:+ pretty (MonthlyReport.year r)) r).

(** ** PDF ([pdf_report.py])

    The calls of the drawing library that a report makes, in order. *)

Inductive PdfCall : Type :=
| AddPage
| SetMargins (left_ top_ right_ : Z)
| SetFont (style : string) (size : Z)
| SetFillColor (r g b : Z)
| SetTextColor (r g b : Z)
| Cell_ (width height : Z) (text : string) (border fill to_next_line : bool)
| Ln (height : option Z).

Definition fill_header : PdfCall := SetFillColor 41 128 185.
Definition fill_alt : PdfCall := SetFillColor 235 245 251.

Definition table_header (cols : list (string * Z)) : list PdfCall :=
  [fill_header; SetTextColor 255 255 255; SetFont "B" 9]
  ++ map (fun c => Cell_ c.2 7 c.1 true true false) cols
  ++ [Ln None; SetTextColor 0 0 0; SetFont "" 9].

Definition section_title (title : string) : list PdfCall :=
  [SetFont "B" 11; Cell_ 0 8 title false false true; SetFont "" 9].

Definition metric_row (i : nat) (kv : string * string) : list PdfCall :=
  let shade := Nat.even i in
  (if shade then [fill_alt] else [])
  ++ [Cell_ 60 7 kv.1 true shade false; Cell_ 60 7 kv.2 true shade false; Ln None]
  ++ (if shade then [SetFillColor 255 255 255] else []).

(** A row of a table: every other one is shaded. *)
Definition table_row (i : nat) (cells : list (Z * string)) : list PdfCall :=
  let shade := Nat.even i in
  (if shade then [fill_alt] else []) ++ map (fun c => Cell_ c.1 7 c.2 true shade false) cells ++ [Ln None].

Definition rows_calls {A} (row : nat -> A -> list PdfCall) (l : list A) : list PdfCall :=
  List.concat (imap row l).

Definition MARKOUT_COLS : list (string * Z) := [("Offset", 40); ("Avg P&L %", 40); ("Samples", 30)].

Definition markout_cells (p : MarkoutPoint.t) : list (Z * string) :=
  [(40, MarkoutPoint.offset_label p); (40, fmt_fixed_signed 3 (MarkoutPoint.avg_pct p) +:+ "%");
   (30, pretty (MarkoutPoint.sample_count p))].

Definition TRADE_COLS : list (string * Z) :=
  [("Symbol", 28); ("Dir", 14); ("Qty", 14); ("Entry", 22); ("Exit", 22); ("P&L", 22); ("P&L%", 18); ("Slip%", 18);
   ("Strategy", 24)].

Definition trade_cells (t : TradeRecord.t) : list (Z * string) :=
  [(28, str_take 12 (TradeRecord.symbol t)); (14, str_take 1 (TradeRecord.direction t));
   (14, pretty (TradeRecord.quantity t)); (22, fmt_fixed 2 (TradeRecord.entry_price t));
   (22, match TradeRecord.exit_price t with Some p => fmt_fixed 2 p | None => "-" end);
   (22, fmt_fixed_signed 1 (TradeRecord.pnl t)); (18, fmt_fixed_signed 2 (TradeRecord.pnl_pct t) +:+ "%");
   (18, html_fmt (TradeRecord.slippage_pct t) 3 +:+ "%"); (24, str_take 10 (TradeRecord.strategy_tag t))].

Definition pdf_start (title : string) : list PdfCall :=
  [AddPage; SetMargins 15 15 15; SetFont "B" 16; Cell_ 0 10 title false false true; Ln (Some 2)].

Definition build_daily_pdf (r : DailyReport.t) : list PdfCall :=
  pdf_start ("Daily Trading Report - " +:+ ymd (DailyReport.date r))
  ++ section_title "Performance Summary" ++ rows_calls metric_row (daily_metrics r) ++ [Ln (Some 4)]
  ++ match DailyReport.markout_curve r with
     | [] => []
     | points => section_title "Markout Curve (Adverse Selection Monitor)" ++ table_header MARKOUT_COLS
                 ++ rows_calls (fun i p => table_row i (markout_cells p)) points ++ [Ln (Some 4)]
     end
  ++ section_title "Trade Detail" ++ table_header TRADE_COLS
  ++ rows_calls (fun i t => table_row i (trade_cells t)) (DailyReport.trades r).

Definition DAY_COLS : list (string * Z) :=
  [("Date", 30); ("Trades", 20); ("P&L", 30); ("P&L %", 24); ("Win Rate", 24); ("Sharpe", 24); ("Drawdown", 28)].

Definition day_cells (d : DailyReport.t) : list (Z * string) :=
  [(30, ymd (DailyReport.date d)); (20, pretty (DailyReport.total_trades d));
   (30, "$" +:+ fmt_grouped_signed 1 (DailyReport.total_pnl d));
   (24, fmt_fixed_signed 2 (DailyReport.total_pnl_pct d) +:+ "%"); (24, fmt_fixed 0 (DailyReport.win_rate_pct d) +:+ "%");
   (24, html_fmt (DailyReport.sharpe d) 2); (28, fmt_fixed 2 (DailyReport.max_drawdown_pct d) +:+ "%")].

Definition build_monthly_pdf (r : MonthlyReport.t) : result (list PdfCall) :=
  name ← month_name (MonthlyReport.month r);
  mret (pdf_start ("Monthly Trading Report - " +:+ name +:+ " " +:+ pretty (MonthlyReport.year r))
        ++ section_title "Monthly Performance Summary" ++ rows_calls metric_row (monthly_metrics r) ++ [Ln (Some 4)]
        ++ section_title "Daily Breakdown" ++ table_header DAY_COLS
        ++ rows_calls (fun i d => table_row i (day_cells d)) (MonthlyReport.daily_reports r)).

(** ** The elements of a document

    The tags of an HTML text, in order; [inside] is the tag being read,
    reversed. *)

Fixpoint tags_from (inside : option string) (s : string) : list string :=
  match s with
  | EmptyString => []
  | String c s =>
      match inside with
      | None => if Ascii.eqb c "<" then tags_from (Some "") s else tags_from None s
      | Some tag => if Ascii.eqb c ">" then str_rev tag "" :: tags_from None s else tags_from (Some (String c tag)) s
      end
  end.

Definition tags (s : string) : list string := tags_from None s.

(** [a] has the tags [l] and takes the reader from [st] to [st']. *)
Definition emits (st : option string) (a : string) (l : list string) (st' : option string) : Prop :=
  forall b, tags_from st (a +:+ b) = l ++ tags_from st' b.

Lemma emits_cons st a l st1 rest m st2 :
  emits st a l st1 -> emits st1 (concat_str rest) m st2 -> emits st (concat_str (a :: rest)) (l ++ m) st2.
Proof.
  intros Ha Hr b. change (concat_str (a :: rest)) with (a +:+ concat_str rest).
  by rewrite str_app_assoc, Ha, Hr, app_assoc.
Qed.

(** Where a text leaves the reader. *)
Fixpoint reader_after (inside : option string) (s : string) : option string :=
  match s with
  | EmptyString => inside
  | String c s =>
      match inside with
      | None => reader_after (if Ascii.eqb c "<" then Some "" else None) s
      | Some tag => reader_after (if Ascii.eqb c ">" then None else Some (String c tag)) s
      end
  end.

Lemma emits_any st a : emits st a (tags_from st a) (reader_after st a).
Proof.
  intros b. revert st. induction a as [|c a IH]; intros st; [done|]. rewrite str_cons_app. cbn.
  destruct st as [tag|]; [destruct (Ascii.eqb c ">")|destruct (Ascii.eqb c "<")]; rewrite IH; done.
Qed.

Lemma emits_literal st a l st' : tags_from st a = l -> reader_after st a = st' -> emits st a l st'.
Proof. intros <- <-. apply emits_any. Qed.

Lemma emits_nil st : emits st (concat_str []) [] st.
Proof. by intros b. Qed.

Lemma emits_map {A} (row : A -> string) (f : A -> list string) l :
  (forall x, emits None (row x) (f x) None) -> emits None (concat_str (map row l)) (List.concat (map f l)) None.
Proof. intros Hr. induction l as [|x l IH]; [apply emits_nil|]. cbn [map List.concat]. by eapply emits_cons. Qed.

(** Text without a [<]. *)
Definition plain (s : string) : bool := str_forall (fun c => negb (Ascii.eqb c "<")) s.

Lemma emits_plain s : plain s = true -> emits None s [] None.
Proof.
  intros Hs b. cbn [app]. induction s as [|c s IH]; [done|]. cbn [plain str_forall] in Hs.
  apply andb_prop in Hs as [Hc Hs]. rewrite str_cons_app. cbn [tags_from].
  apply negb_true_iff in Hc. rewrite Hc. by apply IH.
Qed.

Lemma plain_app a b : plain (a +:+ b) = plain a && plain b.
Proof. apply str_forall_app. Qed.

Lemma plain_html_e s : plain (html_e s) = true.
Proof.
  induction s as [|c s IH]; [done|]. cbn [html_e]. rewrite plain_app, IH, andb_true_r. unfold escape_char.
  destruct (Ascii.eqb c "&"); [done|]. destruct (Ascii.eqb c "<") eqn:E; [done|].
  destruct (Ascii.eqb c ">"); [done|]. destruct (Ascii.eqb c dquote); [done|]. destruct (Ascii.eqb c "'"); [done|].
  unfold plain. cbn. by rewrite E.
Qed.

Lemma plain_take n s : plain s = true -> plain (str_take n s) = true.
Proof.
  revert n. induction s as [|c s IH]; intros [|n] Hs; [done..|]. cbn in Hs |- *. apply andb_prop in Hs as [-> Hs].
  by apply IH.
Qed.

Lemma plain_substring s : forall m n, plain s = true -> plain (String.substring m n s) = true.
Proof.
  induction s as [|c s IH]; intros m n Hs; [by destruct m, n|]. apply andb_prop in Hs as [Hc Hs].
  destruct m as [|m]; cbn [String.substring]; [|by apply IH]. destruct n as [|n]; [done|].
  cbn [plain str_forall]. rewrite Hc. by apply (IH O n).
Qed.

Lemma digit_plain c : is_digit c = true -> negb (Ascii.eqb c "<") = true.
Proof. destruct c as [[] [] [] [] [] [] [] []]; done. Qed.

Lemma plain_digits s : str_forall is_digit s = true -> plain s = true.
Proof. exact (str_forall_impl is_digit _ s digit_plain). Qed.

Lemma plain_pretty_pos p : plain (pretty (Zpos p)) = true.
Proof. destruct (pretty_pos p) as (c & r & -> & Hd & _). by apply plain_digits. Qed.

Lemma plain_pretty (z : Z) : plain (pretty z) = true.
Proof.
  destruct z as [|p|p]; [done|apply plain_pretty_pos|]. rewrite pretty_neg.
  change (plain (String "-" (pretty (Zpos p)))) with (true && plain (pretty (Zpos p))). by rewrite plain_pretty_pos.
Qed.

Lemma plain_digits_of n : plain (digits_of n) = true.
Proof. unfold digits_of. destruct n as [|p|p]; [done| |done]. apply plain_pretty_pos. Qed.

Lemma plain_zero_pad w s : plain s = true -> plain (zero_pad w s) = true.
Proof.
  intros Hs. unfold zero_pad. rewrite plain_app, Hs, andb_true_r. generalize (w - String.length s)%nat.
  intros n. unfold str_repeat. induction n as [|n IH]; [done|]. done.
Qed.

Lemma plain_fmt k x : plain (fmt_fixed k x) = true.
Proof.
  assert (Hn : forall (s : bool) n, plain (let ds := zero_pad (S k) (digits_of n) in
      let ip := str_take (String.length ds - k) ds in
      let fp := String.substring (String.length ds - k) k ds in
      (if s then "-" else "") +:+ ip +:+ (match k with O => "" | _ => "." +:+ fp end)) = true).
  { intros s n. cbv zeta. assert (Hd : plain (zero_pad (S k) (digits_of n)) = true)
      by apply plain_zero_pad, plain_digits_of.
    rewrite !plain_app, plain_take by done. destruct s, k; [done| |done|];
      rewrite plain_app, plain_substring by done; done. }
  unfold fmt_fixed. destruct x as [s|s| |s m e]; [apply (Hn s 0)|by destruct s|done|].
  destruct (to_rational m e) as [n d]. apply Hn.
Qed.

Lemma plain_fmt_signed k x : plain (fmt_fixed_signed k x) = true.
Proof.
  destruct x as [[]|[]| |[] m e]; unfold fmt_fixed_signed; rewrite ?plain_app, plain_fmt; done.
Qed.

Lemma plain_commas s : plain s = true -> plain (with_commas s) = true.
Proof.
  induction s as [|c s IH]; [done|]. intros Hs. apply andb_prop in Hs as [Hc Hs]. cbn [with_commas].
  assert (Hcs : forall r, plain r = true -> plain (String c r) = true)
    by (intros r Hr; unfold plain in *; cbn; by rewrite Hc).
  apply Hcs. destruct (_ && _); by apply IH.
Qed.

Lemma plain_span p s : plain s = true -> plain (span p s).1 = true /\ plain (span p s).2 = true.
Proof.
  induction s as [|c s IH]; [done|]. intros Hs. cbn in Hs |- *. apply andb_prop in Hs as [Hc Hs].
  destruct (p c); [|by cbn; rewrite Hc]. destruct (span p s) as [a b]. cbn. rewrite Hc. by apply IH.
Qed.

Lemma plain_sign s : plain s = true -> plain (read_sign s).2 = true.
Proof.
  destruct s as [|c s]; [done|]. intros Hs. pose proof Hs as Ht. cbn in Ht. apply andb_prop in Ht as [_ Ht].
  cbn. destruct (Ascii.eqb c "-"); [done|]. by destruct (Ascii.eqb c "+").
Qed.

Lemma plain_grouped k x : plain (fmt_grouped k x) = true.
Proof.
  unfold fmt_grouped. pose proof (plain_sign _ (plain_fmt k x)) as Hs.
  destruct (read_sign (fmt_fixed k x)) as [neg body]. destruct (plain_span is_digit body Hs) as [Hi Hf].
  destruct (span is_digit body) as [ip fp]. cbn [fst snd] in Hi, Hf. rewrite !plain_app, plain_commas, Hf by done. by destruct neg.
Qed.

Lemma plain_grouped_signed k x : plain (fmt_grouped_signed k x) = true.
Proof.
  destruct x as [[]|[]| |[] m e]; unfold fmt_grouped_signed; rewrite ?plain_app, plain_grouped; done.
Qed.

Lemma plain_html_fmt v k : plain (html_fmt v k) = true.
Proof. destruct v; [apply plain_fmt|done]. Qed.

Create HintDb markup.
#[local] Hint Resolve plain_html_e plain_pretty plain_fmt plain_fmt_signed plain_grouped plain_grouped_signed
  plain_html_fmt : markup.

(** Walks through the segments of a text: plain ones, parts, literals. *)
Ltac walk :=
  repeat first
    [ apply emits_nil
    | eapply emits_cons;
      [first [apply emits_plain; solve [auto with markup] | solve [eauto with markup]
             | eapply emits_literal; vm_compute; reflexivity]|] ].

Lemma emits_eq st a l l' st' : emits st a l st' -> l = l' -> emits st a l' st'.
Proof. by intros H <-. Qed.

(** The elements of the parts, in the order of the text. *)
Definition cell_tags (n : nat) : list string := List.concat (replicate n ["td"; "/td"]).
Definition header_tags (n : nat) : list string := ["tr"] ++ List.concat (replicate n ["th"; "/th"]) ++ ["/tr"].
Definition pnl_tags (pnl : float) : list string := ["td class='" +:+ pnl_class pnl +:+ "'"; "/td"].

Definition metric_tags : list string := ["tr"; "td"; "/td"; "td class='metric-val'"; "/td"; "/tr"].

Lemma emits_summary_row kv : emits None (summary_row kv) metric_tags None.
Proof. eapply emits_eq; [unfold summary_row; walk|reflexivity]. Qed.

Definition summary_tags (n : nat) : list string :=
  ["table"] ++ header_tags 2 ++ List.concat (replicate n metric_tags) ++ ["/table"].

Lemma emits_summary rows : emits None (summary_table rows) (summary_tags (length rows)) None.
Proof.
  pose proof (emits_map summary_row (fun _ => metric_tags) rows emits_summary_row) as Hr.
  assert (Hc : map (fun _ => metric_tags) rows = replicate (length rows) metric_tags)
    by (clear; induction rows as [|x rows IH]; [done|]; cbn; by rewrite IH).
  rewrite Hc in Hr. eapply emits_eq; [unfold summary_table; walk|reflexivity].
Qed.

Definition markout_tags (points : list MarkoutPoint.t) : list string :=
  match points with
  | [] => []
  | _ => ["h2"; "/h2"; "table"] ++ header_tags 3
         ++ List.concat (map (fun p => ["tr"; "td"; "/td"] ++ pnl_tags (MarkoutPoint.avg_pct p) ++ ["td"; "/td"; "/tr"]) points)
         ++ ["/table"]
  end.

Lemma emits_markout points : emits None (markout_html points) (markout_tags points) None.
Proof.
  destruct points as [|p points]; [apply emits_nil|].
  assert (Hr : forall p, emits None (markout_row p)
     (["tr"; "td"; "/td"] ++ pnl_tags (MarkoutPoint.avg_pct p) ++ ["td"; "/td"; "/tr"]) None).
  { intros q. unfold markout_row, pnl_tags, pnl_class. destruct (fle f_zero (MarkoutPoint.avg_pct q));
      (eapply emits_eq; [walk|reflexivity]). }
  pose proof (emits_map markout_row _ (p :: points) Hr) as Hm. unfold markout_html, markout_tags.
  eapply emits_eq; [walk|reflexivity].
Qed.

Definition trade_tags (t : TradeRecord.t) : list string :=
  ["tr"] ++ cell_tags 5 ++ pnl_tags (TradeRecord.pnl t) ++ pnl_tags (TradeRecord.pnl_pct t) ++ cell_tags 2 ++ ["/tr"].

Definition trades_tags (trades : list TradeRecord.t) : list string :=
  ["h2"; "/h2"; "table"] ++ header_tags 9 ++ List.concat (map trade_tags trades) ++ ["/table"].

Lemma emits_trades trades : emits None (trades_html trades) (trades_tags trades) None.
Proof.
  assert (Hr : forall t, emits None (trade_html t) (trade_tags t) None).
  { intros t. assert (He : plain (match TradeRecord.exit_price t with Some p => fmt_fixed 2 p | None => "—" end) = true)
      by (destruct (TradeRecord.exit_price t); [apply plain_fmt|done]).
    unfold trade_html, trade_tags, pnl_tags, pnl_class.
    destruct (fle f_zero (TradeRecord.pnl t)), (fle f_zero (TradeRecord.pnl_pct t));
      (eapply emits_eq; [walk|reflexivity]). }
  pose proof (emits_map trade_html trade_tags trades Hr) as Hm. unfold trades_html, trades_tags.
  eapply emits_eq; [walk|reflexivity].
Qed.

#[local] Hint Resolve emits_summary emits_markout emits_trades : markup.

Lemma tags_of s l : emits None s l None -> tags s = l.
Proof. intros Hs. specialize (Hs ""). rewrite str_app_nil_r in Hs. unfold tags. by rewrite Hs, app_nil_r. Qed.

(** C37. No text of a report can add, close or change an element: whatever
    characters the symbols, directions, tags and labels have, the tags of the
    daily document are the fixed ones, one row for each metric, markout point
    and trade, and the signs of the profits. *)
Theorem daily_html_structure r :
  tags (build_daily_html r)
  = ["!DOCTYPE html"; "html"; "head"; "title"; "/title"; "style"; "/style"; "/head"; "body"; "h1"; "/h1";
     "p class='" +:+ pnl_class (DailyReport.total_pnl r) +:+ "'"; "strong"; "/strong"; "/p"; "h2"; "/h2"]
    ++ summary_tags 10 ++ markout_tags (DailyReport.markout_curve r) ++ trades_tags (DailyReport.trades r)
    ++ ["/body"; "/html"].
Proof.
  apply tags_of. unfold build_daily_html, pnl_class. cbv zeta.
  destruct (fle f_zero (DailyReport.total_pnl r)); (eapply emits_eq; [walk|reflexivity]).
Qed.

Definition day_tags (d : DailyReport.t) : list string :=
  ["tr"] ++ cell_tags 2 ++ pnl_tags (DailyReport.total_pnl d) ++ pnl_tags (DailyReport.total_pnl_pct d)
  ++ cell_tags 3 ++ ["/tr"].

(** The same for the monthly document, which exists for the months 1 to
    12: one row for each day. *)
Theorem monthly_html_structure r doc : build_monthly_html r = Ok doc ->
  tags doc
  = ["!DOCTYPE html"; "html"; "head"; "title"; "/title"; "style"; "/style"; "/head"; "body"; "h1"; "/h1"; "h2"; "/h2"]
    ++ summary_tags 9 ++ ["h2"; "/h2"; "table"] ++ header_tags 7
    ++ List.concat (map day_tags (MonthlyReport.daily_reports r)) ++ ["/table"; "/body"; "/html"].
Proof.
  unfold build_monthly_html. intros Hd. bind_inv Hd. injection Hd as <-. apply tags_of. unfold monthly_html.
  assert (Hr : forall d, emits None (day_html d) (day_tags d) None).
  { intros d. unfold day_html, day_tags, pnl_tags, pnl_class.
    destruct (fle f_zero (DailyReport.total_pnl d)), (fle f_zero (DailyReport.total_pnl_pct d));
      (eapply emits_eq; [walk|reflexivity]). }
  pose proof (emits_map day_html day_tags (MonthlyReport.daily_reports r) Hr) as Hm.
  eapply emits_eq; [walk|reflexivity].
Qed.

(** The escaping loses nothing: distinct texts stay distinct. *)
Lemma escape_char_inj c d a b : escape_char c +:+ a = escape_char d +:+ b -> c = d /\ a = b.
Proof.
  unfold escape_char.
  destruct (Ascii.eqb_spec c "&"), (Ascii.eqb_spec c "<"), (Ascii.eqb_spec c ">"), (Ascii.eqb_spec c dquote),
    (Ascii.eqb_spec c "'"); try (exfalso; congruence);
  destruct (Ascii.eqb_spec d "&"), (Ascii.eqb_spec d "<"), (Ascii.eqb_spec d ">"), (Ascii.eqb_spec d dquote),
    (Ascii.eqb_spec d "'"); try (exfalso; congruence); cbn; intros E; injection E; intros; subst; auto; congruence.
Qed.

Lemma html_e_inj a b : html_e a = html_e b -> a = b.
Proof.
  assert (Hne : forall c s, html_e (String c s) <> "").
  { intros c s. cbn. unfold escape_char. repeat (destruct (Ascii.eqb c _); [done|]). done. }
  revert b. induction a as [|c a IH]; intros [|d b] E; [done| | |].
  - by destruct (Hne d b).
  - by destruct (Hne c a).
  - apply escape_char_inj in E as [-> E]. f_equal. by apply IH.
Qed.

(** ** The tables of the PDF *)

(** The cells with a border: their widths and texts. *)
Definition cells (calls : list PdfCall) : list (Z * string) :=
  omap (fun c => match c with Cell_ w _ text true _ _ => Some (w, text) | _ => None end) calls.

Definition header_cells (cols : list (string * Z)) : list (Z * string) := map (fun c => (c.2, c.1)) cols.

Lemma cells_app a b : cells (a ++ b) = cells a ++ cells b.
Proof. apply omap_app. Qed.

Lemma cells_of {A} (f : A -> Z * string) fill (l : list A) :
  cells (map (fun x => Cell_ (f x).1 7 (f x).2 true fill false) l) = map f l.
Proof. induction l as [|x l IH]; [done|]. cbn. fold (cells (map (fun x => Cell_ (f x).1 7 (f x).2 true fill false) l)).
  rewrite IH. by destruct (f x). Qed.

Lemma cells_rows {A} (row : nat -> A -> list PdfCall) f l :
  (forall i x, cells (row i x) = f x) -> cells (rows_calls row l) = List.concat (map f l).
Proof.
  unfold rows_calls. intros Hr. revert row Hr. induction l as [|x l IH]; intros row Hr; [done|].
  cbn. rewrite cells_app, Hr. f_equal. apply IH. intros i y. apply Hr.
Qed.

Lemma cells_table_row i cs : cells (table_row i cs) = cs.
Proof.
  unfold table_row. rewrite !cells_app, (cells_of (fun c => c)).
  destruct (Nat.even i); cbn; by rewrite map_id, app_nil_r.
Qed.

Lemma cells_header cols : cells (table_header cols) = header_cells cols.
Proof. unfold table_header. rewrite !cells_app, (cells_of (fun c => (c.2, c.1))). cbn. by rewrite app_nil_r. Qed.

Lemma cells_metrics l : cells (rows_calls metric_row l) = List.concat (map (fun kv => [(60, kv.1); (60, kv.2)]) l).
Proof. apply cells_rows. intros i x. unfold metric_row. by destruct (Nat.even i). Qed.

(** What the tables of the daily PDF say: the metrics, the markout points
    if there are any, and the trades, row by row, under headers of the same
    widths. *)
Theorem daily_pdf_tables r :
  cells (build_daily_pdf r)
  = List.concat (map (fun kv => [(60, kv.1); (60, kv.2)]) (daily_metrics r))
    ++ match DailyReport.markout_curve r with
       | [] => []
       | points => header_cells MARKOUT_COLS ++ List.concat (map markout_cells points)
       end
    ++ header_cells TRADE_COLS ++ List.concat (map trade_cells (DailyReport.trades r))
  /\ Forall (fun t => map fst (trade_cells t) = map snd TRADE_COLS) (DailyReport.trades r)
  /\ Forall (fun p => map fst (markout_cells p) = map snd MARKOUT_COLS) (DailyReport.markout_curve r).
Proof.
  assert (Hrow : forall {A} (f : A -> list (Z * string)) l,
    cells (rows_calls (fun i x => table_row i (f x)) l) = List.concat (map f l))
    by (intros; apply cells_rows; intros; apply cells_table_row).
  split_and!; [|by apply Forall_true..].
  unfold build_daily_pdf. rewrite !cells_app, cells_metrics, cells_header, Hrow.
  destruct (DailyReport.markout_curve r) as [|p points]; [done|].
  rewrite !cells_app, cells_header, Hrow. change (cells [Ln (Some 4)]) with (@nil (Z * string)).
  by rewrite app_nil_r.
Qed.

(** ** Samples *)

#[local] Existing Instance small_numpy.
#[local] Existing Instance small_std0.

Definition sample_month : MonthlyReport.t :=
  match compute_monthly_report 2026 7 [two_trade_day; two_trade_day] with
  | Ok m => m
  | Raise _ => MonthlyReport.mk 0 0 [] f_zero f_zero f_zero None None f_zero f_zero 0
  end.

Lemma monthly_html_structure_witness :
  exists doc, build_monthly_html sample_month = Ok doc
    /\ (length (tags doc) = 13 + 62 + 3 + 16 + 2 * 16 + 3)%nat.
Proof.
  exists (monthly_html "July 2026" sample_month).
  assert (E : build_monthly_html sample_month = Ok (monthly_html "July 2026" sample_month))
    by (vm_compute; reflexivity).
  split; [exact E|]. rewrite (monthly_html_structure sample_month _ E). vm_compute. reflexivity.
Defined.

Example grouped_numbers :
  map (fmt_grouped_signed 2) [dec 1234567891 3; dec (-12345) 1; dec 9999999 4; f_zero; f_inf]
  = ["+1,234,567.89"; "-1,234.50"; "+1,000.00"; "+0.00"; "+inf"].
Proof. vm_compute. done. Qed.

(** A symbol that tries to be markup. *)
Example markup_is_escaped :
  html_e "<b>M&M</b>" = "&lt;b&gt;M&amp;M&lt;/b&gt;".
Proof. vm_compute. done. Qed.

(** A missing slippage is printed with a percent sign. *)
Example missing_slippage_percent :
  (daily_metrics (DailyReport.mk 0 [] f_zero f_zero f_zero None None f_zero f_zero 0 0 0 None [])) !! 9%nat
  = Some ("Avg Slippage", "N/A%").
Proof. vm_compute. done. Qed.

(** The trade table is 182 mm wide; the page leaves 180. *)
Example trade_table_overflows : foldr Z.add 0 (map snd TRADE_COLS) = 182.
Proof. done. Qed.
