(* ===== verification/LongTerm.v ===== *)
(** * Long-term memory ([shared/orchestrator/memory.py])

    The ACT-R tier with its activation scores, and [ACTRMemory], the facade
    over the three tiers.  The C library's power and logarithm, the clock and
    the table in PostgreSQL are parameters. *)

From Stdlib Require Import SpecFloat.
From stdpp Require Import sorting.
From S2P Require Import Prelude PyFloat PyDict Redis Constants Memory.
Local Open Scope Z_scope.

(** [x ** y] and [math.log], which raise outside their domains. *)
Class Libm := {
  libm_pow : float -> float -> result float;
  libm_log : float -> result float;
}.

(** The upsert of a row and its commit. *)
Class MemoryTable (W : Type) := { upsert_memory : string -> string -> M W unit }.

Module LongTermMemoryEntry.
Record t := mk { key : string; content : string; retrieved_at_seconds : list float }.
End LongTermMemoryEntry.

Definition record_retrieval (now_s : float) (e : LongTermMemoryEntry.t) : LongTermMemoryEntry.t :=
  LongTermMemoryEntry.mk (LongTermMemoryEntry.key e) (LongTermMemoryEntry.content e)
    (LongTermMemoryEntry.retrieved_at_seconds e ++ [now_s]).

Definition with_content (content : string) (e : LongTermMemoryEntry.t) : LongTermMemoryEntry.t :=
  LongTermMemoryEntry.mk (LongTermMemoryEntry.key e) content (LongTermMemoryEntry.retrieved_at_seconds e).

(** The guard against an elapsed time that is not positive. *)
Definition elapsed_since (ts t_retrieved : float) : float :=
  let elapsed := (ts - t_retrieved)%pf in if fle elapsed f_zero then dec 1 3 else elapsed.

Section LongTerm.
Context `{Libm} {W : Type} `{MemoryTable W}.

Definition activation_score (ts : float) (e : LongTermMemoryEntry.t) : result float :=
  match LongTermMemoryEntry.retrieved_at_seconds e with
  | [] => mret f_ninf
  | times =>
      total ← for_each (fun total t => p ← libm_pow (elapsed_since ts t) (fneg ACT_R_DECAY_PARAM); mret (total + p)%pf)
                f_zero times;
      libm_log total
  end.

Record LongTermMemory := {
  ltm_db : option W;
  ltm_memory : dict string LongTermMemoryEntry.t;
}.

Definition new_long_term_memory (db_conn : option W) : LongTermMemory := {| ltm_db := db_conn; ltm_memory := [] |}.

(** [_persist]: every exception is logged. *)
Definition ltm_persist (key content : string) (db : option W) : option W :=
  match db with Some w => Some (upsert_memory key content w).2 | None => None end.

Definition ltm_store (key content : string) (s : LongTermMemory) : LongTermMemory :=
  let entry := match dget key (ltm_memory s) with
               | Some e => with_content content e
               | None => LongTermMemoryEntry.mk key content []
               end in
  {| ltm_db := ltm_persist key content (ltm_db s); ltm_memory := dset key entry (ltm_memory s) |}.

Definition ltm_retrieve (key : string) (record_access : bool) (now_s : float) (s : LongTermMemory)
    : option LongTermMemoryEntry.t * LongTermMemory :=
  match dget key (ltm_memory s) with
  | Some e =>
      let e := if record_access then record_retrieval now_s e else e in
      (Some e, {| ltm_db := ltm_db s; ltm_memory := dset key e (ltm_memory s) |})
  | None => (None, s)
  end.

(** Descending by score. *)
Definition more_active (x y : LongTermMemoryEntry.t * float) : bool := flt y.2 x.2.

Definition retrieve_top_k (top_k : Z) (ts : float) (s : LongTermMemory) : result (list LongTermMemoryEntry.t) :=
  scored ← mapM (fun e => a ← activation_score ts e; mret (e, a)) (dvalues (ltm_memory s));
  mret (map fst (slice_to top_k (py_sorted more_active scored))).

Definition score_nightly (ts : float) (s : LongTermMemory) : result (dict string float) :=
  for_each (fun scores kv => a ← activation_score ts kv.2; mret (dset kv.1 a scores)) [] (ltm_memory s).
End LongTerm.
#[global] Arguments LongTermMemory W : clear implicits.

(** ** The facade *)

Section Facade.
Context {R W : Type} `{RedisKV R} `{MemoryTable W}.

Record ACTRMemory := {
  am_working : WorkingMemory;
  am_short_term : ShortTermMemory R;
  am_long_term : LongTermMemory W;
}.

Definition new_actr_memory (redis_client : option R) (db_conn : option W) (working_max_tokens : Z) : ACTRMemory :=
  {| am_working := new_working_memory working_max_tokens;
     am_short_term := new_short_term_memory redis_client;
     am_long_term := new_long_term_memory db_conn |}.

Definition am_with_working (w : WorkingMemory) (s : ACTRMemory) : ACTRMemory :=
  {| am_working := w; am_short_term := am_short_term s; am_long_term := am_long_term s |}.
Definition am_with_short (m : ShortTermMemory R) (s : ACTRMemory) : ACTRMemory :=
  {| am_working := am_working s; am_short_term := m; am_long_term := am_long_term s |}.
Definition am_with_long (l : LongTermMemory W) (s : ACTRMemory) : ACTRMemory :=
  {| am_working := am_working s; am_short_term := am_short_term s; am_long_term := l |}.

Definition remember (key value tier : string) : M ACTRMemory unit :=
  if String.eqb tier "short_term" then M_modify (fun s => am_with_short (stm_put key value (am_short_term s)) s)
  else if String.eqb tier "long_term" then M_modify (fun s => am_with_long (ltm_store key value (am_long_term s)) s)
  else M_zoom am_working am_with_working (wm_put key value).

Definition recall (key tier : string) (now_s : float) (s : ACTRMemory) : option string * ACTRMemory :=
  if String.eqb tier "short_term" then
    let '(v, m) := stm_get key (am_short_term s) in (v, am_with_short m s)
  else if String.eqb tier "long_term" then
    let '(e, l) := ltm_retrieve key true now_s (am_long_term s) in
    (option_map LongTermMemoryEntry.content e, am_with_long l s)
  else (wm_get key (am_working s), s).
End Facade.
#[global] Arguments ACTRMemory R W : clear implicits.

(** ** Retrieval *)

Definition well_keyed (d : dict string LongTermMemoryEntry.t) : Prop :=
  NoDup (dkeys d) /\ Forall (fun kv => LongTermMemoryEntry.key kv.2 = kv.1) d.

Lemma well_keyed_dset k e d : well_keyed d -> LongTermMemoryEntry.key e = k -> well_keyed (dset k e d).
Proof.
  intros [Hn Hk] He. split; [by apply dset_NoDup|]. apply dset_Forall; [done|]. by intros k' <-.
Qed.

Section RetrievalFacts.
Context `{Libm} {W : Type} `{MemoryTable W}.

Lemma dget_key k e (s : LongTermMemory W) : well_keyed (ltm_memory s) -> dget k (ltm_memory s) = Some e ->
  LongTermMemoryEntry.key e = k.
Proof. intros [_ Hk] He. rewrite Forall_forall in Hk. by apply (Hk (k, e)), dget_elem. Qed.

Lemma store_well_keyed key content (s : LongTermMemory W) :
  well_keyed (ltm_memory s) -> well_keyed (ltm_memory (ltm_store key content s)).
Proof.
  intros Hs. apply well_keyed_dset; [done|]. destruct (dget key (ltm_memory s)) as [e|] eqn:E; [|done].
  by apply dget_key in E.
Qed.

Lemma retrieve_well_keyed key record_access now_s (s : LongTermMemory W) :
  well_keyed (ltm_memory s) -> well_keyed (ltm_memory (ltm_retrieve key record_access now_s s).2).
Proof.
  intros Hs. unfold ltm_retrieve. destruct (dget key (ltm_memory s)) as [e|] eqn:E; [|done].
  apply well_keyed_dset; [done|]. apply dget_key in E; [|done]. by destruct record_access.
Qed.

(** The score of an entry without retrievals is below every number. *)
Lemma never_retrieved_lowest ts e x : LongTermMemoryEntry.retrieved_at_seconds e = [] -> is_nan x = false ->
  exists a, activation_score ts e = Ok a /\ fle a x = true.
Proof.
  intros He Hx. exists f_ninf. split; [unfold activation_score; by rewrite He|].
  destruct x as [s|[]| |s m e']; done.
Qed.

Definition at_least_as_active (x y : LongTermMemoryEntry.t * float) : Prop := fle y.2 x.2 = true.

(** The entries retrieved are the most active ones: at most [top_k] of
    them, in descending order of their scores, and no entry that is left out
    scores above one that is taken. *)
Theorem top_k_most_active top_k ts (s : LongTermMemory W) entries : 0 <= top_k ->
  retrieve_top_k top_k ts s = Ok entries ->
  (forall e a, e ∈ dvalues (ltm_memory s) -> activation_score ts e = Ok a -> is_nan a = false) ->
  exists scored left_out, map fst scored = entries
    /\ Forall (fun ea => activation_score ts ea.1 = Ok ea.2) (scored ++ left_out)
    /\ map fst (scored ++ left_out) ≡ₚ dvalues (ltm_memory s)
    /\ StronglySorted at_least_as_active (scored ++ left_out)
    /\ length scored = Nat.min (Z.to_nat top_k) (length (ltm_memory s)).
Proof.
  intros Hk Hr Hnan. unfold retrieve_top_k in Hr. bind_inv Hr. injection Hr as <-.
  apply mapM_result in Ha.
  assert (Hsc : Forall (fun ea => activation_score ts ea.1 = Ok ea.2 /\ is_nan ea.2 = false) a
                /\ map fst a = dvalues (ltm_memory s)).
  { clear Hk. revert Hnan. induction Ha as [|e ea l a He Ha IH]; intros Hnan; [split; constructor|].
    bind_inv He. injection He as <-. destruct IH as [IH1 IH2]; [intros; eapply Hnan; [by right|done]|].
    split; [constructor; [|done]|by cbn; rewrite IH2]. split; [done|]. eapply Hnan; [by left|done]. }
  destruct Hsc as [Hsc Hfst]. unfold slice_to. destruct (Z.ltb_spec top_k 0); [lia|].
  set (sorted := py_sorted more_active a). exists (take (Z.to_nat top_k) sorted), (drop (Z.to_nat top_k) sorted).
  rewrite take_drop. split_and!; [done| | | |].
  - unfold sorted. rewrite py_sorted_perm. eapply Forall_impl; [exact Hsc|]. by intros x [? _].
  - unfold sorted. rewrite py_sorted_perm. by rewrite Hfst.
  - apply (py_sorted_ordered (fun ea => is_nan ea.2 = false)); unfold more_active, at_least_as_active.
    + intros x y _ _. apply flt_fle.
    + intros x y Hx Hy. by apply flt_false_fle.
    + intros x y z _ _ _ Hxy Hyz. by eapply fle_trans.
    + eapply Forall_impl; [exact Hsc|]. by intros x [_ ?].
  - rewrite length_take. f_equal. unfold sorted. rewrite (Permutation_length (py_sorted_perm more_active a)).
    rewrite <- (length_map fst a), Hfst. unfold dvalues. by rewrite length_fmap.
Qed.
End RetrievalFacts.

(** ** The facade keeps what it is told *)

Section FacadeFacts.
Context {R W : Type} `{RedisKV R} `{MemoryTable W}.

Lemma store_get key content (s : LongTermMemory W) : exists e,
  dget key (ltm_memory (ltm_store key content s)) = Some e /\ LongTermMemoryEntry.content e = content.
Proof.
  unfold ltm_store. cbn. eexists. split; [apply dget_dset_eq|]. by destruct (dget key (ltm_memory s)).
Qed.

(** A fact told to the long-term tier is recalled, whatever the database
    does, until it is told anew; every recall adds one retrieval to its
    history and changes nothing else. *)
Theorem long_term_recall key value now_s (s : ACTRMemory R W) :
  let s1 := (remember key value "long_term" s).2 in
  exists e, dget key (ltm_memory (am_long_term s1)) = Some e
    /\ recall key "long_term" now_s s1
       = (Some value, am_with_long {| ltm_db := ltm_db (am_long_term s1);
                                      ltm_memory := dset key (record_retrieval now_s e) (ltm_memory (am_long_term s1)) |} s1)
    /\ (forall k, k <> key -> dget k (ltm_memory (am_long_term s1)) = dget k (ltm_memory (am_long_term s)))
    /\ am_working s1 = am_working s /\ am_short_term s1 = am_short_term s.
Proof.
  cbv zeta. change ((remember key value "long_term" s).2) with (am_with_long (ltm_store key value (am_long_term s)) s).
  destruct (store_get key value (am_long_term s)) as (e & He & Hc). exists e.
  split_and!; [exact He| | |done|done].
  - unfold recall. change (String.eqb "long_term" "short_term") with false.
    change (String.eqb "long_term" "long_term") with true. cbv iota. unfold ltm_retrieve.
    change (am_long_term (am_with_long ?l s)) with l. rewrite He. cbn. by rewrite Hc.
  - intros k Hk. cbn. by apply dget_dset_ne.
Qed.
End FacadeFacts.

(** ** Samples *)

(** A database that keeps its rows, or refuses. *)
#[local] Instance sample_table : MemoryTable (option (dict string string)) := {
  upsert_memory key content w :=
    match w with Some d => (Ok tt, Some (dset key content d)) | None => (Raise (OtherError "OperationalError"), None) end
}.

(** [elapsed ** -0.5] by the correctly rounded square root, and a logarithm of
    the right order. *)
#[local] Instance sample_libm : Libm := {
  libm_pow x y := pydiv (dec 1 0) (SFsqrt prec emax x);
  libm_log x := if fle x f_zero then Raise (ValueError "math domain error") else Ok (x - dec 1 0)%pf;
}.

Definition sample_ltm : LongTermMemory (option (dict string string)) :=
  let s := ltm_store "losses" "stopped out twice" (ltm_store "orb" "works before ten"
             (ltm_store "vwap" "fails in chop" (new_long_term_memory (Some None)))) in
  (ltm_retrieve "orb" true (dec 900 0) (ltm_retrieve "vwap" true (dec 100 0) s).2).2.

Lemma top_k_most_active_witness :
  exists entries scored left_out, retrieve_top_k 2 (dec 1000 0) sample_ltm = Ok entries
    /\ map LongTermMemoryEntry.key entries = ["orb"; "vwap"]
    /\ map fst scored = entries
    /\ Forall (fun ea => activation_score (dec 1000 0) ea.1 = Ok ea.2) (scored ++ left_out)
    /\ map fst (scored ++ left_out) ≡ₚ dvalues (ltm_memory sample_ltm)
    /\ StronglySorted at_least_as_active (scored ++ left_out)
    /\ length scored = 2%nat.
Proof.
  eexists. edestruct (top_k_most_active 2 (dec 1000 0) sample_ltm) as (scored & left_out & H1).
  - lia.
  - vm_compute. reflexivity.
  - intros e a He Ha. unfold sample_ltm in He. vm_compute in He.
    apply list_elem_of_In in He. cbn in He.
    destruct He as [<- | [<- | [<- | []]]]; vm_compute in Ha; injection Ha as <-; reflexivity.
  - exists scored, left_out. split; [vm_compute; reflexivity|]. split; [reflexivity|]. exact H1.
Defined.

(** A new process over the same database: nothing reads the table, the facts
    are gone. *)
Example restart_forgets :
  let s := ltm_store "orb" "works before ten" (new_long_term_memory (Some (Some []))) in
  ltm_db s = Some (Some [("orb", "works before ten")])
  /\ (ltm_retrieve "orb" true f_zero (new_long_term_memory (ltm_db s))).1 = None.
Proof. vm_compute. done. Qed.

(** A tier that does not exist is the working memory. *)
Example unknown_tier_is_working :
  let s := new_actr_memory (R := MemRedis) None (Some (Some [])) 100 in
  let s1 := (remember "k" "v" "longterm" s).2 in
  (recall "k" "working" f_zero s1).1 = Some "v" /\ (recall "k" "long_term" f_zero s1).1 = None.
Proof. vm_compute. done. Qed.
