(* ===== verification/Background.v ===== *)
(** * Background schedulers ([reconciliation/agent.py], [monitor/agent.py])

    The timer chain of the reconciliation agent and the polling thread of the
    monitor, as state machines over the interleavings of the callers and the
    background threads.  A section under the lock is one step, and so is each
    call between two of them; the cycles themselves are in [Reconciliation]
    and [Monitor]. *)

From stdpp Require Import gmap.
From S2P Require Import Prelude.

(** ** The reconciliation timer ([ReconciliationAgent])

    [armed] are the timers that were started and neither fired nor were
    cancelled; [firing] counts the timer threads inside [_fire], [starting]
    the callers of [start] between its lock and [_schedule_next]. *)

Record Scheduler := {
  running : bool;
  timer : option nat;
  armed : gset nat;
  firing : nat;
  starting : nat;
  next_timer : nat;
}.

Definition new_scheduler : Scheduler :=
  {| running := false; timer := None; armed := ∅; firing := 0; starting := 0; next_timer := 0 |}.

(** [_schedule_next]: the new timer replaces the old one without a look. *)
Definition schedule_next (s : Scheduler) : Scheduler :=
  if running s then
    {| running := true; timer := Some (next_timer s); armed := {[ next_timer s ]} ∪ armed s;
       firing := firing s; starting := starting s; next_timer := S (next_timer s) |}
  else s.

(** [start] up to the end of its lock *)
Definition start_agent (s : Scheduler) : Scheduler :=
  if running s then s
  else {| running := true; timer := timer s; armed := armed s; firing := firing s;
          starting := S (starting s); next_timer := next_timer s |}.

(** ... and its call of [_schedule_next]; [None] when no [start] is there. *)
Definition start_schedules (s : Scheduler) : option Scheduler :=
  match starting s with
  | O => None
  | S n => Some (schedule_next {| running := running s; timer := timer s; armed := armed s; firing := firing s;
                                  starting := n; next_timer := next_timer s |})
  end.

Definition stop_agent (s : Scheduler) : Scheduler :=
  {| running := false; timer := None;
     armed := match timer s with Some t => armed s ∖ {[ t ]} | None => armed s end;
     firing := firing s; starting := starting s; next_timer := next_timer s |}.

(** An armed timer calls [_fire], and its cycle begins. *)
Definition fire_begins (t : nat) (s : Scheduler) : option Scheduler :=
  if decide (t ∈ armed s) then
    Some {| running := running s; timer := timer s; armed := armed s ∖ {[ t ]}; firing := S (firing s);
            starting := starting s; next_timer := next_timer s |}
  else None.

(** The [finally] of [_fire]. *)
Definition fire_ends (s : Scheduler) : option Scheduler :=
  match firing s with
  | O => None
  | S n => Some (schedule_next {| running := running s; timer := timer s; armed := armed s; firing := n;
                                  starting := starting s; next_timer := next_timer s |})
  end.

Inductive TimerEvent := Start | StartSchedules | Stop | Fires (t : nat) | CycleEnds.

#[export] Instance timer_event_eq_dec : EqDecision TimerEvent.
Proof. solve_decision. Defined.

(** [None]: the event cannot happen in the state. *)
Definition timer_step (e : TimerEvent) (s : Scheduler) : option Scheduler :=
  match e with
  | Start => Some (start_agent s)
  | StartSchedules => start_schedules s
  | Stop => Some (stop_agent s)
  | Fires t => fire_begins t s
  | CycleEnds => fire_ends s
  end.

Fixpoint timer_run (es : list TimerEvent) (s : Scheduler) : option Scheduler :=
  match es with [] => Some s | e :: es => s' ← timer_step e s; timer_run es s' end.

(** The chains of cycles that are alive. *)
Definition chains (s : Scheduler) : nat := size (armed s) + firing s + starting s.

(** Identifiers of timers are fresh. *)
Definition fresh_timers (s : Scheduler) : Prop :=
  (forall t, t ∈ armed s -> t < next_timer s) /\ (forall t, timer s = Some t -> t < next_timer s).

(** A [start] that starts finds no chain alive. *)
Fixpoint quiet_starts (es : list TimerEvent) (s : Scheduler) : bool :=
  match es with
  | [] => true
  | e :: es =>
      match e with Start => running s || (chains s =? 0) | _ => true end
      && match timer_step e s with Some s' => quiet_starts es s' | None => true end
  end.

(** *** Invariants *)

Ltac timer_cases Hs :=
  cbn [timer_step] in Hs; unfold start_agent, start_schedules, stop_agent, fire_begins, fire_ends in Hs; cbn in Hs.

Lemma schedule_fresh s : fresh_timers s -> fresh_timers (schedule_next s).
Proof.
  intros [Ha Ht]. unfold schedule_next. destruct (running s); [|done]. split; cbn.
  - intros t [->%elem_of_singleton | Hin%Ha]%elem_of_union; lia.
  - intros t [= <-]. lia.
Qed.

Lemma schedule_chains s : fresh_timers s ->
  chains (schedule_next s) = chains s + (if running s then 1 else 0).
Proof.
  intros [Ha _]. unfold schedule_next, chains. destruct (running s) eqn:?; cbn; [|lia].
  rewrite size_union, size_singleton; [lia|].
  apply disjoint_singleton_l. intros Hin%Ha. lia.
Qed.

Lemma step_fresh e s s' : timer_step e s = Some s' -> fresh_timers s -> fresh_timers s'.
Proof.
  intros Hs Hf. destruct e; timer_cases Hs.
  - injection Hs as <-. by destruct (running s).
  - destruct (starting s); [done|]. injection Hs as <-. by apply schedule_fresh.
  - injection Hs as <-. destruct Hf as [Ha Ht]. split; [|done]. cbn.
    intros t. destruct (timer s); [rewrite elem_of_difference; intros [Hin _]|intros Hin]; by apply Ha.
  - case_decide; [|done]. injection Hs as <-. destruct Hf as [Ha Ht]. split; [|done]. cbn.
    intros u [Hin _]%elem_of_difference. by apply Ha.
  - destruct (firing s); [done|]. injection Hs as <-. by apply schedule_fresh.
Qed.

(** How many chains an event adds: only a [start] that starts makes one; one
    ends when its cycle or its [start] finds the agent stopped, or when [stop]
    cancels its timer. *)
Lemma step_chains e s s' : timer_step e s = Some s' -> fresh_timers s ->
  chains s' <= chains s + match e with Start => if running s then 0 else 1 | _ => 0 end
  /\ (e <> Stop -> running s = true -> chains s <= chains s').
Proof.
  intros Hs Hf. destruct e; timer_cases Hs.
  - injection Hs as <-. destruct (running s); unfold chains; cbn; lia.
  - destruct (starting s) as [|n] eqn:Hn; [done|]. injection Hs as <-.
    rewrite schedule_chains by apply Hf. unfold chains; cbn. rewrite Hn. destruct (running s); split; try intros _; done || lia.
  - injection Hs as <-. split; [|done]. unfold chains; cbn.
    assert (size match timer s with Some t => armed s ∖ {[ t ]} | None => armed s end <= size (armed s)); [|lia].
    apply subseteq_size. destruct (timer s); set_solver.
  - case_decide as Hin; [|done]. injection Hs as <-. unfold chains; cbn.
    rewrite size_difference, size_singleton by set_solver.
    assert (size (armed s) <> 0) by (rewrite size_non_empty_iff; set_solver). lia.
  - destruct (firing s) as [|n] eqn:Hn; [done|]. injection Hs as <-.
    rewrite schedule_chains by apply Hf. unfold chains; cbn. rewrite Hn. destruct (running s); split; try intros _; done || lia.
Qed.

(** The timer of the only chain is the one [stop] cancels. *)
Definition one_chain (s : Scheduler) : Prop :=
  chains s <= 1 /\ (forall t, t ∈ armed s -> timer s = Some t).

Lemma schedule_one_chain s : fresh_timers s -> armed s = ∅ -> chains (schedule_next s) <= 1 ->
  one_chain (schedule_next s).
Proof.
  intros Hf Harm Hc. split; [done|]. unfold schedule_next in *. destruct (running s); cbn in *; set_solver.
Qed.

(** A second chain leaves no timer armed when there is one chain at most. *)
Lemma busy_chain_unarmed s n : one_chain s -> firing s + starting s = S n -> armed s = ∅.
Proof. intros [Hc _] Hb. unfold chains in Hc. apply leibniz_equiv, size_empty_inv. lia. Qed.

Lemma step_one_chain e s s' : timer_step e s = Some s' -> fresh_timers s -> one_chain s ->
  (e = Start -> running s = true \/ chains s = 0) -> one_chain s'.
Proof.
  intros Hs Hf Hone Hq. destruct (step_chains _ _ _ Hs Hf) as [Hc _].
  assert (chains s' <= 1) as Hc'.
  { destruct Hone as [Hle _], e; try lia. destruct (Hq eq_refl) as [Hr | Hz]; [rewrite Hr in Hc|destruct (running s)]; lia. }
  destruct e; timer_cases Hs.
  - injection Hs as <-. split; [done|]. destruct (running s); apply Hone.
  - destruct (starting s) as [|n] eqn:Hn; [done|]. injection Hs as <-.
    apply schedule_one_chain; [apply Hf| |done]. eapply (busy_chain_unarmed s (firing s + n)); [done|lia].
  - injection Hs as <-. split; [done|]. cbn. intros t Hin. exfalso.
    destruct (timer s) as [u|] eqn:Ht.
    + apply elem_of_difference in Hin as [Hin Hu]. apply Hone in Hin. set_solver.
    + apply Hone in Hin. congruence.
  - case_decide; [|done]. injection Hs as <-. split; [done|]. cbn. intros u [Hin _]%elem_of_difference. by apply Hone.
  - destruct (firing s) as [|n] eqn:Hn; [done|]. injection Hs as <-.
    apply schedule_one_chain; [apply Hf| |done]. eapply (busy_chain_unarmed s (n + starting s)); [done|lia].
Qed.

Lemma run_fresh es : forall s s', timer_run es s = Some s' -> fresh_timers s -> fresh_timers s'.
Proof.
  induction es as [|e es IH]; intros s s' Hrun Hf; cbn in Hrun; [by simplify_eq|].
  destruct (timer_step e s) as [s1|] eqn:Hs; cbn in Hrun; [|done]. eauto using step_fresh.
Qed.

Lemma new_fresh : fresh_timers new_scheduler.
Proof. split; [set_solver|done]. Qed.

Lemma run_one_chain es : forall s s', timer_run es s = Some s' -> fresh_timers s -> one_chain s ->
  quiet_starts es s = true -> one_chain s'.
Proof.
  induction es as [|e es IH]; intros s s' Hrun Hf Hone Hq; cbn in Hrun, Hq; [by simplify_eq|].
  destruct (timer_step e s) as [s1|] eqn:Hs; cbn in Hrun; [|done].
  apply andb_true_iff in Hq as [Hq Hqs].
  apply (IH s1); eauto using step_fresh. apply (step_one_chain e s); [done..|]. intros ->.
  apply orb_true_iff in Hq as [Hq | Hq%Nat.eqb_eq]; auto.
Qed.

(** A stopped agent with nothing armed stays so until the next [start]. *)
Definition quiescent (s : Scheduler) : Prop := running s = false /\ armed s = ∅.

Lemma step_quiescent e s s' : timer_step e s = Some s' -> e <> Start -> quiescent s ->
  quiescent s' /\ forall t, e <> Fires t.
Proof.
  intros Hs He [Hr Ha]. destruct e; timer_cases Hs; try done.
  - destruct (starting s); [done|]. injection Hs as <-. unfold schedule_next; cbn. by rewrite Hr.
  - injection Hs as <-. split; [split; [done|]|done]. cbn. rewrite Ha. destruct (timer s); set_solver.
  - rewrite Ha, decide_False in Hs by set_solver. done.
  - destruct (firing s); [done|]. injection Hs as <-. unfold schedule_next; cbn. by rewrite Hr.
Qed.

Lemma run_quiescent es : forall s s', timer_run es s = Some s' -> Start ∉ es -> quiescent s ->
  forall t, Fires t ∉ es.
Proof.
  induction es as [|e es IH]; intros s s' Hrun Hns Hq t; cbn in Hrun; [set_solver|].
  destruct (timer_step e s) as [s1|] eqn:Hs; cbn in Hrun; [|done].
  apply not_elem_of_cons in Hns as [Hne Hns].
  destruct (step_quiescent _ _ _ Hs (not_eq_sym Hne) Hq) as [Hq1 Hf].
  apply not_elem_of_cons. split; [intros Heq; by destruct (Hf t)|]. by apply (IH s1 s').
Qed.

(** A running agent has a chain, whatever the interleaving. *)
Lemma run_keeps_chain es : forall s s', timer_run es s = Some s' -> fresh_timers s ->
  (running s = true -> 1 <= chains s) -> running s' = true -> 1 <= chains s'.
Proof.
  induction es as [|e es IH]; intros s s' Hrun Hf Hc; cbn in Hrun; [by simplify_eq|].
  destruct (timer_step e s) as [s1|] eqn:Hs; cbn in Hrun; [|done].
  apply (IH s1); eauto using step_fresh. destruct (running s) eqn:Hr.
  - destruct (step_chains _ _ _ Hs Hf) as [_ Hle]. intros Hr1.
    destruct (decide (e = Stop)) as [-> | Hne]; [timer_cases Hs; by simplify_eq|]. specialize (Hle Hne Hr). specialize (Hc eq_refl). lia.
  - intros Hr1. destruct e; timer_cases Hs; rewrite ?Hr in Hs.
    + injection Hs as <-. unfold chains; cbn. lia.
    + destruct (starting s); [done|]. injection Hs as <-. done.
    + by simplify_eq.
    + case_decide; [|done]. by simplify_eq.
    + destruct (firing s); [done|]. injection Hs as <-. done.
Qed.

(** C35. As long as no [start] follows a [stop] while a cycle of the earlier run
    is still on its way, at most one chain of cycles is alive, whatever the
    interleaving of the callers and the timer threads; and once [stop] has
    returned no timer fires and no cycle begins until the next [start]. *)
Theorem stop_ends_cycles es s :
  timer_run es new_scheduler = Some s -> quiet_starts es new_scheduler = true ->
  chains s <= 1 /\
  forall later s', timer_run (Stop :: later) s = Some s' -> Start ∉ later -> forall t, Fires t ∉ later.
Proof.
  intros Hrun Hq.
  assert (fresh_timers s) as Hf by eauto using run_fresh, new_fresh.
  assert (one_chain s) as Hone.
  { eapply run_one_chain; [done|apply new_fresh| |done]. split; [unfold chains; cbn; rewrite size_empty; lia|set_solver]. }
  split; [apply Hone|]. intros later s' Hlater Hns. cbn [timer_run] in Hlater.
  destruct (timer_step Stop s) as [s1|] eqn:Hs; [|done]. cbn in Hlater.
  apply (run_quiescent later s1 s' Hlater Hns). injection Hs as <-. split; [done|]. cbn.
  destruct Hone as [_ Harm]. apply leibniz_equiv. intros t. split; [|set_solver]. intros Hin. exfalso.
  destruct (timer s) as [u|].
  - apply elem_of_difference in Hin as [Hin Hu]. apply Harm in Hin. set_solver.
  - apply Harm in Hin. congruence.
Qed.

(** The chain may be between two timers. *)
Lemma stop_ends_cycles_witness :
  let es := [Start; StartSchedules; Fires 0; CycleEnds; Fires 1; Stop; CycleEnds; Start; StartSchedules] in
  exists s, timer_run es new_scheduler = Some s /\ chains s <= 1.
Proof.
  cbv zeta. eexists. split; [vm_compute; reflexivity|].
  refine (proj1 (stop_ends_cycles [Start; StartSchedules; Fires 0; CycleEnds; Fires 1; Stop; CycleEnds; Start; StartSchedules] _ _ _));
    vm_compute; reflexivity.
Defined.

(** A started agent never loses its cycles: in every state an interleaving
    reaches in which the agent runs, a timer thread or a [start] on its way
    can act, and within two such acts the next cycle begins, with no [start]
    or [stop] in between. *)
Theorem running_agent_cycles es s :
  timer_run es new_scheduler = Some s -> running s = true ->
  exists acts t s', timer_run (acts ++ [Fires t]) s = Some s' /\ length acts <= 1 /\ Start ∉ acts /\ Stop ∉ acts.
Proof.
  intros Hrun Hr.
  assert (fresh_timers s) as Hf by eauto using run_fresh, new_fresh.
  assert (1 <= chains s) as Hc by (eapply run_keeps_chain; [done|apply new_fresh|done|done]).
  assert (forall a s1, timer_step a s = Some s1 -> a <> Start -> a <> Stop ->
            (exists t, t ∈ armed s1) ->
            exists acts t s', timer_run (acts ++ [Fires t]) s = Some s' /\ length acts <= 1 /\ Start ∉ acts /\ Stop ∉ acts)
    as Hact.
  { intros a s1 Hs Ha1 Ha2 [t Ht]. exists [a], t. cbn. rewrite Hs. cbn. unfold fire_begins. rewrite decide_True by done.
    eexists. split; [done|]. set_solver. }
  destruct (decide (armed s = ∅)) as [He | [t Ht]%set_choose_L].
  - unfold chains in Hc. rewrite He, size_empty in Hc. destruct (firing s) as [|n] eqn:Hn.
    + destruct (starting s) as [|m] eqn:Hm; [lia|].
      eapply (Hact StartSchedules); [cbn; unfold start_schedules; by rewrite Hm|done..|]. unfold schedule_next. cbn. rewrite Hr. cbn. set_solver.
    + eapply (Hact CycleEnds); [cbn; unfold fire_ends; by rewrite Hn|done..|]. unfold schedule_next. cbn. rewrite Hr. cbn. set_solver.
  - exists [], t. cbn. unfold fire_begins. rewrite decide_True by done. eexists. split; [done|]. set_solver.
Qed.

Lemma running_agent_cycles_witness :
  exists acts t s', timer_run (acts ++ [Fires t]) (default new_scheduler (timer_run [Start] new_scheduler)) = Some s'
    /\ length acts <= 1 /\ Start ∉ acts /\ Stop ∉ acts.
Proof. apply (running_agent_cycles [Start]); vm_compute; reflexivity. Defined.

(** A [stop] and a [start] while a cycle runs start a second chain; the next
    [stop] cancels only one of the two timers, and a cycle begins on the
    stopped agent. *)
Example restart_doubles_the_chain :
  let es := [Start; StartSchedules; Fires 0; Stop; Start; StartSchedules; CycleEnds] in
  chains <$> timer_run es new_scheduler = Some 2
  /\ running <$> timer_run (es ++ [Stop; Fires 1]) new_scheduler = Some false
  /\ firing <$> timer_run (es ++ [Stop; Fires 1]) new_scheduler = Some 1.
Proof. vm_compute. done. Qed.

(** ** The polling thread of the monitor ([MonitorAgent]) *)

Module MonitorThread.

(** Where the thread of [_run_loop] is; [PollOnce] is inside [poll_once], whose
    exceptions the loop absorbs. *)
Inductive Phase := AtCheck | PollOnce | Waiting | Ended.

#[export] Instance phase_eq_dec : EqDecision Phase.
Proof. solve_decision. Defined.

(** [thread] is [None] before the first start; [polls] counts the polls begun. *)
Record t := mk { thread : option Phase; stop_event : bool; polls : nat }.

Definition new : t := mk None false 0.

Definition is_running (s : t) : bool :=
  match thread s with Some p => bool_decide (p <> Ended) | None => false end.

(** [start] and [stop] of the agent's owner; [join] changes nothing, so a stop
    that times out is one with fewer steps of the thread after it. *)
Definition start (s : t) : t := if is_running s then s else mk (Some AtCheck) false (polls s).
Definition stop (s : t) : t := mk (thread s) true (polls s).

(** One step of [_run_loop]; the wait ends by the event or the timeout. *)
Definition run_loop_step (s : t) : t :=
  match thread s with
  | Some AtCheck => if stop_event s then mk (Some Ended) true (polls s) else mk (Some PollOnce) false (S (polls s))
  | Some PollOnce => mk (Some Waiting) (stop_event s) (polls s)
  | Some Waiting => mk (Some AtCheck) (stop_event s) (polls s)
  | Some Ended | None => s
  end.

Inductive Event := CallStart | CallStop | ThreadStep.

Definition step (s : t) (e : Event) : t :=
  match e with CallStart => start s | CallStop => stop s | ThreadStep => run_loop_step s end.

Definition run (es : list Event) (s : t) : t := foldl step s es.

Lemma run_app es1 es2 s : run (es1 ++ es2) s = run es2 (run es1 s).
Proof. apply foldl_app. Qed.

(** A thread that is alive with the event clear stays so without a [stop]. *)
Lemma polling_stays es s : is_running s = true -> stop_event s = false -> CallStop ∉ es ->
  is_running (run es s) = true /\ stop_event (run es s) = false.
Proof.
  revert s. induction es as [|e es IH]; intros s Ha He Hns; [done|].
  apply not_elem_of_cons in Hns as [Hne Hns]. cbn. apply IH; [| |done]; destruct e; cbn; try done.
  all: unfold start, run_loop_step; rewrite ?Ha, ?He; try done.
  all: unfold is_running in *; destruct (thread s) as [[]|] eqn:Ht; rewrite ?Ht; cbn; done.
Qed.

(** With the event set the thread begins no poll and ends. *)
Lemma stopping_begins_nothing es s : stop_event s = true -> CallStart ∉ es ->
  polls (run es s) = polls s /\ stop_event (run es s) = true.
Proof.
  revert s. induction es as [|e es IH]; intros s He Hns; [done|].
  apply not_elem_of_cons in Hns as [Hne Hns]. change (run (e :: es) s) with (run es (step s e)).
  assert (polls (step s e) = polls s /\ stop_event (step s e) = true) as [Hp Hs].
  { destruct e; [done|done|]. cbn. unfold run_loop_step. destruct (thread s) as [[]|]; rewrite ?He; done. }
  destruct (IH _ Hs Hns) as [Hp' Hs']. split; [congruence|done].
Qed.

(** A [start] that finds the thread ended, or none, keeps the monitor polling
    until the next [stop]: the thread stays alive, and three of its steps
    always include the beginning of a poll. A [stop] begins no further poll,
    and three steps of the thread after it end the thread. *)
Theorem monitor_polls_until_stop es later s :
  is_running s = false -> CallStop ∉ es -> CallStart ∉ later ->
  let started := run (CallStart :: es) s in
  let stopped := run (CallStop :: later) started in
  is_running started = true
  /\ polls (run [ThreadStep; ThreadStep; ThreadStep] started) = S (polls started)
  /\ polls stopped = polls started
  /\ is_running (run [ThreadStep; ThreadStep; ThreadStep] stopped) = false.
Proof.
  intros Hs Hes Hlater started stopped.
  assert (started = run es (mk (Some AtCheck) false (polls s))) as Hst.
  { unfold started, run. cbn. unfold start. by rewrite Hs. }
  destruct (polling_stays es (mk (Some AtCheck) false (polls s)) eq_refl eq_refl Hes) as [Hr He].
  rewrite <- Hst in Hr, He.
  destruct (stopping_begins_nothing later (stop started) eq_refl Hlater) as [Hp Hse].
  split; [done|]. split; [|split; [done|]].
  - revert Hr He. generalize started. intros [[[]|] [] n]; cbn; done.
  - change stopped with (run later (stop started)). revert Hse. generalize (run later (stop started)).
    intros [[[]|] [] n]; cbn; done.
Qed.

Lemma monitor_polls_until_stop_witness :
  is_running (run [CallStart; ThreadStep; ThreadStep] new) = true.
Proof.
  refine (proj1 (monitor_polls_until_stop [ThreadStep; ThreadStep] [] new _ _ _)); [reflexivity|set_solver..].
Defined.

(** A [start] after a [stop] whose join timed out during a slow poll is refused
    as already running, the event stays set, and the thread ends after the
    poll: the last call was a start and nothing polls. *)
Example start_lost_after_slow_poll :
  let s := run [CallStart; ThreadStep; CallStop; CallStart] new in
  is_running s = true /\ is_running (run [ThreadStep; ThreadStep; ThreadStep] s) = false.
Proof. done. Qed.

End MonitorThread.
