(* ===== verification/LiveBrokers.v ===== *)
(** * Live broker adapters ([execution/brokers/kite.py], [ibkr.py])

    Both adapters are stubs whose calls raise.  They keep the broker contract
    of [Execution], and an approved order that reaches one ends in an
    exception of [submit]. *)

From S2P Require Import Prelude PyDict Redis Constants MarketData Compliance Execution.
Local Open Scope Z_scope.

(** ** The adapters

    The client is whatever object was injected; the methods only look whether
    there is one. *)

Module KiteBroker.

Record t (client : Type) := mk { kite : option client }.
#[global] Arguments mk {client} _.
#[global] Arguments kite {client} _.

Section Client.
Context {client : Type}.

Definition require_auth : M (t client) unit :=
  b ← M_get;
  match kite b with
  | None =>
      M_raise (NotImplementedError ("KiteBroker requires a live KiteConnect session from M15. "
                                    +:+ "Inject via kite_client parameter after M15 authentication."))
  | Some _ => mret tt
  end.

Definition place_order (tagged : TaggedOrder.t) : M (t client) FillReport.t :=
  _ ← require_auth; M_raise (NotImplementedError "KiteBroker.place_order requires M15 auth").

Definition query_order (client_order_id : string) : M (t client) (option FillReport.t) :=
  _ ← require_auth; M_raise (NotImplementedError "KiteBroker.query_order requires M15 auth").

Definition cancel_order (client_order_id : string) : M (t client) bool :=
  _ ← require_auth; M_raise (NotImplementedError "KiteBroker.cancel_order requires M15 auth").

Definition inject_client (kite_client : client) : M (t client) unit := fun _ => (Ok tt, mk (Some kite_client)).

#[global] Instance broker : Broker (t client) := {| Execution.place_order := place_order; Execution.query_order := query_order |}.

End Client.
End KiteBroker.

Module IBKRBroker.

Record t (client : Type) := mk { tws : option client }.
#[global] Arguments mk {client} _.
#[global] Arguments tws {client} _.

Section Client.
Context {client : Type}.

Definition require_auth : M (t client) unit :=
  b ← M_get;
  match tws b with
  | None =>
      M_raise (NotImplementedError ("IBKRBroker requires a live TWS connection from M15. "
                                    +:+ "Inject via tws_client parameter after M15 authentication."))
  | Some _ => mret tt
  end.

Definition place_order (tagged : TaggedOrder.t) : M (t client) FillReport.t :=
  _ ← require_auth; M_raise (NotImplementedError "IBKRBroker.place_order requires M15 connection").

Definition query_order (client_order_id : string) : M (t client) (option FillReport.t) :=
  _ ← require_auth; M_raise (NotImplementedError "IBKRBroker.query_order requires M15 connection").

Definition cancel_order (client_order_id : string) : M (t client) bool :=
  _ ← require_auth; M_raise (NotImplementedError "IBKRBroker.cancel_order requires M15 connection").

Definition inject_client (tws_client : client) : M (t client) unit := fun _ => (Ok tt, mk (Some tws_client)).

#[global] Instance broker : Broker (t client) := {| Execution.place_order := place_order; Execution.query_order := query_order |}.

End Client.
End IBKRBroker.

(** ** What the engine sees of a stub *)

(** A broker whose calls always raise [NotImplementedError] and change
    nothing. *)
Class StubBroker (B : Type) `{Broker B} := {
  place_raises tagged b : exists m, place_order tagged b = (Raise (NotImplementedError m), b);
  query_raises coid b : exists m, query_order coid b = (Raise (NotImplementedError m), b);
}.

#[export] Instance kite_stub {client} : StubBroker (KiteBroker.t client).
Proof. split; intros x [[c|]]; eexists; reflexivity. Qed.

#[export] Instance ibkr_stub {client} : StubBroker (IBKRBroker.t client).
Proof. split; intros x [[c|]]; eexists; reflexivity. Qed.

(** A stub keeps the contract with an empty book. *)
#[export] Instance stub_contract `{StubBroker B} : BrokerContract B.
Proof.
  refine {| broker_ok := fun _ => True; order_book := fun _ => [] |}.
  - intros tagged b res b' _. destruct (place_raises tagged b) as [m ->]. intros [= <- <-]. split; [done|]. split; [by left|done].
  - intros coid b res b' _. destruct (query_raises coid b) as [m ->]. intros [= <- <-]. done.
Defined.

#[export] Instance stub_idempotent `{StubBroker B} : IdempotentBroker B.
Proof. split. done. Qed.

Section Stub.
Context {B R : Type} `{StubBroker B} `{RedisKV R} `{RedisList R}.
Implicit Types s : ExecutionEngine B R.

Lemma first_attempt_raises tagged audit s : exists m,
  one_attempt tagged audit 1 s = (Raise (NotImplementedError m), s).
Proof.
  destruct (place_raises tagged (ee_broker s)) as [m Hm]. exists m.
  unfold one_attempt, on_broker, M_zoom. M_unfold. cbn. rewrite Hm. cbn. by destruct s.
Qed.

Lemma stub_loop_raises fuel tagged audit err s : 0 <= ee_max_retries s -> exists m,
  submit_loop (S fuel) tagged audit 0 err s = (Raise (NotImplementedError m), s).
Proof.
  intros Hmax. destruct (first_attempt_raises tagged audit s) as [m Hm]. exists m.
  cbn [submit_loop]. unfold M_get, mbind, M_bind at 1. cbn beta iota.
  replace (0 <=? ee_max_retries s) with true by (symmetry; by apply Z.leb_le).
  unfold M_catch, M_bind. change (0 + 1) with 1. rewrite Hm. done.
Qed.

(** With a live adapter no order is ever placed: a submission that passes
    the kill switch and compliance ends with [NotImplementedError] at its
    first attempt, with or without an injected client, and nothing is written
    to the dead-letter queue. *)
Theorem live_orders_raise order ist aest recent pending shorts now group audit s s1 d :
  0 <= ee_max_retries s ->
  (if OrderIntent.is_priority order then mret false else halted_flag) s = (Ok false, s1) ->
  check (ee_compliance s) order ist aest recent pending shorts now group audit = Ok d ->
  ComplianceDecision.approved d = true ->
  (exists m, submit order ist aest recent pending shorts (Some now) group audit s = (Raise (NotImplementedError m), s1))
  /\ ee_broker s1 = ee_broker s /\ ee_dlq s1 = ee_dlq s.
Proof.
  intros Hmax Hgate Hcheck Happ.
  pose proof (submit_cases order ist aest recent pending shorts now group audit s) as Hc.
  rewrite Hgate in Hc.
  assert (ee_broker s1 = ee_broker s /\ ee_dlq s1 = ee_dlq s /\ ee_compliance s1 = ee_compliance s
          /\ ee_max_retries s1 = ee_max_retries s) as (Hb & Hq & Hco & Hm).
  { destruct (OrderIntent.is_priority order); [by injection Hgate as <-|].
    apply halted_flag_broker in Hgate as (_ & ? & ? & ? & ?). done. }
  split; [|done]. rewrite Hco, Hcheck, Happ in Hc.
  apply check_tags in Hcheck. rewrite Happ in Hcheck. destruct Hcheck as (tagged & Ht & _). rewrite Ht in Hc.
  assert (0 <= ee_max_retries s1) as Hmax1 by congruence.
  destruct (stub_loop_raises (Z.to_nat (ee_max_retries s1 + 1)) tagged (ComplianceDecision.audit_id d) "" s1 Hmax1)
    as [m Hl].
  exists m. rewrite Hc. unfold submit_tagged, submit_fuel, mbind, M_bind, M_get. cbv beta iota zeta. by rewrite Hl.
Qed.

End Stub.

(** An order that compliance approves, over a Kite session. *)
Definition live_engine : ExecutionEngine (KiteBroker.t unit) MemRedis :=
  new_engine (KiteBroker.mk (Some tt)) (new_registry no_env None) (new_dlq None false) None None None
    constant_clock no_jitter.

Lemma live_orders_raise_witness : exists m,
  submit entry_order None None [] [] ∅ (Some 100000) None "audit" live_engine = (Raise (NotImplementedError m), live_engine).
Proof.
  assert (exists d, check (ee_compliance live_engine) entry_order None None [] [] ∅ 100000 None "audit" = Ok d
                    /\ ComplianceDecision.approved d = true) as (d & Hd & Ha)
    by (eexists; split; vm_compute; reflexivity).
  refine (proj1 (live_orders_raise entry_order None None [] [] ∅ 100000 None "audit" live_engine live_engine d _ _ Hd Ha)).
  - vm_compute. discriminate.
  - vm_compute. reflexivity.
Defined.

(** The contract of [base.py] asks for [BrokerTransientError] or
    [BrokerPermanentError]: what a stub raises is neither, so the retry loop
    does not see it. *)
Example kite_is_not_retried :
  (submit entry_order None None [] [] ∅ (Some 100000) None "audit" live_engine).1
  = Raise (NotImplementedError "KiteBroker.place_order requires M15 auth").
Proof. vm_compute. reflexivity. Qed.
