(* ===== verification/Telemetry.v ===== *)
(** * Explanations, metrics and the audit log ([signals/explainer.py],
    [monitor/metrics.py], [compliance/audit_log.py])

    What the platform tells its operators: the LLM's explanation of a
    published signal, the gauges that Prometheus scrapes, and the structured
    entries of the compliance engine and the kill switch. *)

From S2P Require Import Prelude PyFloat PyDict Json Redis Constants MarketData PyText Compliance Signals Monitor Sentiment.
Local Open Scope Z_scope.

(** ** Signal explanations ([explainer.py]) *)

Module Explainer.

(** The keyword arguments of [litellm.completion]; the temperature is 0.3. *)
Module Request.
Record t := mk { model : string; content : string; max_tokens : Z; api_key : option string }.
End Request.

Class ExplainLLM (W : Type) := { complete : Request.t -> M W ModelResponse.t }.

Definition or_none (s : string) : string := if is_empty s then "none" else s.

Definition build_prompt (r : SignalResult.t) : string :=
  "Explain this trade signal concisely in 2-3 sentences:" +:+ NEWLINE +:+ NEWLINE +:+
  "Symbol: " +:+ SignalResult.symbol r +:+ " (" +:+ SignalResult.exchange r +:+ ")" +:+ NEWLINE +:+
  "Direction: " +:+ SignalResult.direction r +:+ NEWLINE +:+
  "Confidence: " +:+ fmt_percent 1 (SignalResult.confidence r) +:+ NEWLINE +:+
  "Regime: " +:+ SignalResult.regime r +:+ NEWLINE +:+
  "Entry: " +:+ fmt_fixed 2 (SignalResult.entry_price r) +:+ "  Stop: " +:+ fmt_fixed 2 (SignalResult.stop_loss r) +:+ NEWLINE +:+
  "Target1: " +:+ fmt_fixed 2 (SignalResult.target1 r) +:+ "  Target2: " +:+ fmt_fixed 2 (SignalResult.target2 r) +:+ NEWLINE +:+
  "Indicators: " +:+ or_none (str_join ", " (SignalResult.confirming_indicators r)) +:+ NEWLINE +:+
  "Timeframes: " +:+ or_none (str_join ", " (SignalResult.confirming_timeframes r)) +:+ NEWLINE +:+
  "Pattern: " +:+ or_none (SignalResult.candlestick_pattern r) +:+ NEWLINE +:+ NEWLINE +:+
  "Be specific about WHY this is a valid signal given the current regime and technicals." +:+ NEWLINE.

Section Explain.
Context {W : Type} `{ExplainLLM W}.

(** The key is passed on when it is not empty. *)
Definition explain_request (result : SignalResult.t) (model : string) (api_key : option string) : Request.t :=
  Request.mk model (build_prompt result) 200
    (match api_key with Some k => if is_empty k then None else Some k | None => None end).

Definition explain_signal (result : SignalResult.t) (model : string) (api_key : option string) : M W string :=
  M_try
    (response ← complete (explain_request result model api_key);
     choice ← M_lift (match ModelResponse.choices response with c :: _ => mret c | [] => Raise IndexError end);
     mret (str_strip (default "" choice)))
    (fun _ => mret "").

End Explain.
End Explainer.

(** ** Prometheus gauges ([metrics.py])

    What [Gauge.set] was last called with. *)

Inductive GaugeValue := GInt (n : Z) | GFloat (x : float).

Record PrometheusMetrics := {
  pnl_today_pct : GaugeValue;
  pnl_today_abs : GaugeValue;
  open_positions_count : GaugeValue;
  signals_today_total : GaugeValue;
  reconciliation_mismatches_total : GaugeValue;
  system_halted : GaugeValue;
  heartbeat_age_seconds : dict string GaugeValue;
}.

(** A gauge without labels starts at 0, one with labels has no series. *)
Definition new_metrics : PrometheusMetrics :=
  {| pnl_today_pct := GInt 0; pnl_today_abs := GInt 0; open_positions_count := GInt 0; signals_today_total := GInt 0;
     reconciliation_mismatches_total := GInt 0; system_halted := GInt 0; heartbeat_age_seconds := [] |}.

Definition set_ages (health : dict string AgentHealth.t) (ages : dict string GaugeValue) : dict string GaugeValue :=
  foldl (fun ages nh => dset nh.1 (GFloat (AgentHealth.age_seconds nh.2)) ages) ages health.

Definition update (snapshot : MonitorSnapshot.t) (s : PrometheusMetrics) : PrometheusMetrics :=
  {| pnl_today_pct := GFloat (PnLSnapshot.pnl_today_pct (MonitorSnapshot.pnl snapshot));
     pnl_today_abs := GFloat (PnLSnapshot.pnl_today (MonitorSnapshot.pnl snapshot));
     open_positions_count := GInt (MonitorSnapshot.open_positions_count snapshot);
     signals_today_total := GInt (MonitorSnapshot.signals_today snapshot);
     reconciliation_mismatches_total := GInt (MonitorSnapshot.reconciliation_mismatches snapshot);
     system_halted := GFloat (if MonitorSnapshot.system_halted snapshot then dec 1 0 else f_zero);
     heartbeat_age_seconds := set_ages (MonitorSnapshot.agent_health snapshot) (heartbeat_age_seconds s) |}.

(** ** Audit log ([audit_log.py]) *)

Inductive Level := Info | Warning | Critical.

Module AuditEntry.
Record t := mk { level : Level; event : string; fields : list (string * json) }.
End AuditEntry.

(** The entries written and the clock they are stamped with. *)
Record AuditLog := { al_entries : list AuditEntry.t; al_clock : Readings Z }.

Definition emit (level : Level) (event : string) (fields : Z -> list (string * json)) : M AuditLog unit :=
  ts_ms ← M_zoom al_clock (fun c s => {| al_entries := al_entries s; al_clock := c |}) next_reading;
  M_modify (fun s => {| al_entries := al_entries s ++ [AuditEntry.mk level event (fields ts_ms)]; al_clock := al_clock s |}).

Definition jopt (x : option float) : json := match x with Some f => JFloat f | None => JNull end.

Definition log_compliance_pass (order : OrderIntent.t) (strategy_tag effective_order_type : string)
    (mpp_price : option float) (audit_id : string) : M AuditLog unit :=
  emit Info "compliance_pass" (fun ts_ms =>
    [("audit_id", JStr audit_id); ("symbol", JStr (OrderIntent.symbol order));
     ("exchange", JStr (OrderIntent.exchange order)); ("direction", JStr (OrderIntent.direction order));
     ("original_order_type", JStr (OrderIntent.order_type order)); ("effective_order_type", JStr effective_order_type);
     ("quantity", JInt (OrderIntent.quantity order)); ("price", jopt (OrderIntent.price order));
     ("stop_loss", JFloat (OrderIntent.stop_loss order)); ("strategy_name", JStr (OrderIntent.strategy_name order));
     ("strategy_tag", JStr strategy_tag); ("client_order_id", JStr (OrderIntent.client_order_id order));
     ("mpp_price", jopt mpp_price); ("is_exit", JBool (OrderIntent.is_exit order)); ("ts_ms", JInt ts_ms)]).

Definition log_compliance_rejection (order : OrderIntent.t) (violations : list ComplianceViolation.t)
    (audit_id : string) : M AuditLog unit :=
  emit Warning "compliance_rejection" (fun ts_ms =>
    [("audit_id", JStr audit_id); ("symbol", JStr (OrderIntent.symbol order));
     ("exchange", JStr (OrderIntent.exchange order)); ("direction", JStr (OrderIntent.direction order));
     ("order_type", JStr (OrderIntent.order_type order)); ("quantity", JInt (OrderIntent.quantity order));
     ("strategy_name", JStr (OrderIntent.strategy_name order));
     ("client_order_id", JStr (OrderIntent.client_order_id order));
     ("violation_codes", JList (map (fun v => JStr (ComplianceViolation.code v)) violations));
     ("violation_details", JList (map (fun v => JStr (ComplianceViolation.detail v)) violations));
     ("ts_ms", JInt ts_ms)]).

Definition log_kill_switch (event : KillSwitchEvent.t) : M AuditLog unit :=
  emit Critical "kill_switch_activated" (fun ts_ms =>
    [("tier", JInt (KillSwitchEvent.tier event)); ("reason", JStr (KillSwitchEvent.reason event));
     ("triggered_at_ms", JInt (KillSwitchEvent.triggered_at_ms event)); ("ts_ms", JInt ts_ms)]).

(** [ComplianceEngine.check] with the entry it writes before it returns. *)
Definition audited_check (registry : StrategyRegistry) (order : OrderIntent.t) (now_ist now_aest : option Clock)
    (recent_orders pending_orders : list RecentOrder.t) (approved_short_list : gset string) (now_ms : Z)
    (group_open_ms : option Z) (audit_id : string) : M AuditLog ComplianceDecision.t :=
  decision ← M_lift (check registry order now_ist now_aest recent_orders pending_orders approved_short_list now_ms
                       group_open_ms audit_id);
  _ ← match ComplianceDecision.tagged_order decision with
      | None => log_compliance_rejection order (ComplianceDecision.violations decision) audit_id
      | Some tagged =>
          log_compliance_pass order (TaggedOrder.strategy_tag tagged) (TaggedOrder.effective_order_type tagged)
            (TaggedOrder.mpp_price tagged) audit_id
      end;
  mret decision.

(** [KillSwitchManager.trigger] with its entry. *)
Definition audited_trigger {R} `{RedisKV R} (trigger_type : Compliance.KillSwitchTrigger) (reason : string) (now_ms : Z)
    : M (KillSwitchManager R * AuditLog) KillSwitchEvent.t :=
  event ← M_zoom fst (fun k s => (k, s.2)) (trigger trigger_type reason now_ms);
  _ ← M_zoom snd (fun l s => (s.1, l)) (log_kill_switch event);
  mret event.

(** ** Explanations *)

(** Asking for an explanation never fails and makes one request: the
    prompt of the signal goes to the model, and what comes back is the
    stripped text of the first choice, or the empty string when the model
    fails, offers no choice or an empty one. *)
Theorem explanation_exact {W} `{Explainer.ExplainLLM W} result model api_key w :
  let call := Explainer.complete (Explainer.explain_request result model api_key) w in
  Explainer.explain_signal result model api_key w
  = (Ok match call.1 with
        | Ok response =>
            match ModelResponse.choices response with Some text :: _ => str_strip text | _ => "" end
        | Raise _ => ""
        end, call.2).
Proof.
  cbv zeta. unfold Explainer.explain_signal, M_try. M_unfold.
  destruct (Explainer.complete _ w) as [[response|e] w']; [|done]. cbn.
  by destruct (ModelResponse.choices response) as [|[text|] rest].
Qed.

(** ** Gauges *)

Lemma set_ages_get n health : forall ages, NoDup (dkeys health) ->
  dget n (set_ages health ages)
  = match dget n health with Some h => Some (GFloat (AgentHealth.age_seconds h)) | None => dget n ages end.
Proof.
  induction health as [|[k h] health IH]; intros ages Hnd; [done|].
  apply NoDup_cons in Hnd as [Hk Hnd]. change (set_ages ((k, h) :: health) ages)
    with (set_ages health (dset k (GFloat (AgentHealth.age_seconds h)) ages)).
  rewrite IH by done. cbn [dget]. rewrite dget_dset. destruct (decide (n = k)) as [-> | Hne].
  - assert (dget k health = None) as -> by (by apply dget_None). done.
  - done.
Qed.

(** The gauges show the last poll: after any sequence of updates every
    scalar gauge has the value of the last snapshot, the halt gauge is 1
    exactly when it is halted, the age of an agent it mentions is the one it
    reports, and the age of an agent it does not mention is what an earlier
    snapshot left. *)
Theorem gauges_show_last_poll snapshots last n :
  NoDup (dkeys (MonitorSnapshot.agent_health last)) ->
  let before := foldl (fun s x => update x s) new_metrics snapshots in
  let g := foldl (fun s x => update x s) new_metrics (snapshots ++ [last]) in
  pnl_today_pct g = GFloat (PnLSnapshot.pnl_today_pct (MonitorSnapshot.pnl last))
  /\ pnl_today_abs g = GFloat (PnLSnapshot.pnl_today (MonitorSnapshot.pnl last))
  /\ open_positions_count g = GInt (MonitorSnapshot.open_positions_count last)
  /\ signals_today_total g = GInt (MonitorSnapshot.signals_today last)
  /\ reconciliation_mismatches_total g = GInt (MonitorSnapshot.reconciliation_mismatches last)
  /\ (system_halted g = GFloat (dec 1 0) <-> MonitorSnapshot.system_halted last = true)
  /\ dget n (heartbeat_age_seconds g)
     = match dget n (MonitorSnapshot.agent_health last) with
       | Some h => Some (GFloat (AgentHealth.age_seconds h))
       | None => dget n (heartbeat_age_seconds before)
       end.
Proof.
  intros Hnd before g. unfold g. rewrite foldl_app. fold before. cbn [foldl update
    pnl_today_pct pnl_today_abs open_positions_count signals_today_total reconciliation_mismatches_total
    system_halted heartbeat_age_seconds].
  repeat (split; [done|]). split; [|by apply set_ages_get].
  destruct (MonitorSnapshot.system_halted last); split; intros; done.
Qed.

(** ** Audit log *)

(** Entry [e] is new and the last. *)
Definition written (e : AuditEntry.t) (s s' : AuditLog) : Prop := al_entries s' = al_entries s ++ [e].

Lemma emit_writes level event fields s : exists s',
  emit level event fields s = (Ok tt, s')
  /\ written (AuditEntry.mk level event (fields (reading (al_clock s) (taken (al_clock s))))) s s'.
Proof. unfold emit, M_zoom, next_reading. M_unfold. cbn. eexists. split; reflexivity. Qed.

(** The audit trail of the compliance engine is complete: a decision that
    is returned has left exactly one entry under its audit identifier, at
    level info with the resolved tag and order type when the order is
    approved, and at level warning with the codes of all its violations when
    it is not; a check that raises has left none. *)
Theorem audit_trail_complete registry order ist aest recent pending shorts now group audit s :
  let checked := check registry order ist aest recent pending shorts now group audit in
  let run := audited_check registry order ist aest recent pending shorts now group audit s in
  run.1 = checked
  /\ match checked with
     | Raise _ => run.2 = s
     | Ok d => exists e, written e s run.2
         /\ dget "audit_id" (AuditEntry.fields e) = Some (JStr (ComplianceDecision.audit_id d))
         /\ if ComplianceDecision.approved d
            then AuditEntry.level e = Info /\ AuditEntry.event e = "compliance_pass"
                 /\ exists t, ComplianceDecision.tagged_order d = Some t
                    /\ dget "strategy_tag" (AuditEntry.fields e) = Some (JStr (TaggedOrder.strategy_tag t))
                    /\ dget "effective_order_type" (AuditEntry.fields e) = Some (JStr (TaggedOrder.effective_order_type t))
            else AuditEntry.level e = Warning /\ AuditEntry.event e = "compliance_rejection"
                 /\ dget "violation_codes" (AuditEntry.fields e)
                    = Some (JList (map (fun v => JStr (ComplianceViolation.code v)) (ComplianceDecision.violations d)))
     end.
Proof.
  cbv zeta. unfold audited_check. M_unfold.
  destruct (check registry order ist aest recent pending shorts now group audit) as [d|e] eqn:Hc; [|done]. cbn.
  assert (ComplianceDecision.audit_id d = audit
          /\ ComplianceDecision.approved d = bool_decide (is_Some (ComplianceDecision.tagged_order d))) as [Hid Happ].
  { unfold check in Hc. bind_inv Hc. destruct a as [[vs ty] mpp]. destruct vs; injection Hc as <-; done. }
  rewrite Hid, Happ.
  destruct (ComplianceDecision.tagged_order d) as [t|]; cbn.
  - unfold log_compliance_pass. edestruct emit_writes as (s' & -> & Hw). split; [done|].
    eexists. split; [exact Hw|]. cbn. split; [done|]. eauto 8.
  - unfold log_compliance_rejection. edestruct emit_writes as (s' & -> & Hw). split; [done|].
    eexists. split; [exact Hw|]. done.
Qed.

(** A kill switch that activates is in the audit log: when [trigger]
    returns its event, exactly one critical entry with the tier and the reason
    is written.  When it raises nothing is written, although the server may be
    halted by then. *)
Theorem audited_halt {R} `{RedisKV R} t reason now (k : KillSwitchManager R) l :
  match trigger t reason now k with
  | (Ok event, k') => exists e l', audited_trigger t reason now (k, l) = (Ok event, (k', l'))
      /\ written e l l' /\ AuditEntry.level e = Critical
      /\ dget "tier" (AuditEntry.fields e) = Some (JInt (KillSwitchEvent.tier event))
      /\ dget "reason" (AuditEntry.fields e) = Some (JStr (KillSwitchEvent.reason event))
  | (Raise x, k') => audited_trigger t reason now (k, l) = (Raise x, (k', l))
  end.
Proof.
  unfold audited_trigger, M_zoom. M_unfold. cbn [fst snd].
  destruct (trigger t reason now k) as [[event|x] k']; [|done]. cbn.
  unfold log_kill_switch. edestruct emit_writes as (l' & -> & Hw). eexists _, l'.
  split; [done|]. split; [exact Hw|]. done.
Qed.

(** ** Evaluation on concrete inputs *)

(** A server that answers [n] more writes. *)
Record Failing := { inner : MemRedis; writes_left : nat }.

#[local] Instance failing_kv : RedisKV Failing := {|
  redis_get k r := let '(v, i) := redis_get k (inner r) in (v, {| inner := i; writes_left := writes_left r |});
  redis_set k v ex r :=
    match writes_left r with
    | O => (Raise (RedisError "connection refused"), r)
    | S n => let '(x, i) := redis_set k v ex (inner r) in (x, {| inner := i; writes_left := n |})
    end;
  redis_delete k r := (Raise (RedisError "connection refused"), r);
|}.

Definition no_entries : AuditLog := {| al_entries := []; al_clock := {| reading := fun n => Z.of_nat n; taken := 0 |} |}.

(** The halt is written, the tier is refused: the system is halted and the
    audit log does not mention it. *)
Example halted_without_audit :
  let '(r, (k, l)) := audited_trigger TIER2_EXTERNAL_API "operator" 1000
                        (new_kill_switch (Some {| inner := mem_empty; writes_left := 1 |}), no_entries) in
  r = Raise (RedisError "connection refused") /\ (is_halted k).1 = Ok true /\ al_entries l = [].
Proof. vm_compute. done. Qed.

(** An agent that is no longer in the snapshots keeps its last age. *)
Definition sample_snapshot (health : list AgentHealth.t) : MonitorSnapshot.t :=
  MonitorSnapshot.mk f_zero (PnLSnapshot.mk f_zero f_zero f_zero false)
    (map (fun h => (AgentHealth.agent_name h, h)) health) 2 3 1 true.

Definition sample_health (name : string) (age : Z) : AgentHealth.t :=
  AgentHealth.mk name true f_zero 0 (dec age 0).

Lemma gauges_show_last_poll_witness :
  let g := foldl (fun s x => update x s) new_metrics
             ([sample_snapshot [sample_health "RiskAgent" 40]] ++ [sample_snapshot [sample_health "SignalAgent" 2]]) in
  system_halted g = GFloat (dec 1 0)
  /\ dget "RiskAgent" (heartbeat_age_seconds g) = Some (GFloat (dec 40 0)).
Proof.
  cbv zeta.
  destruct (gauges_show_last_poll [sample_snapshot [sample_health "RiskAgent" 40]]
              (sample_snapshot [sample_health "SignalAgent" 2]) "RiskAgent") as (_ & _ & _ & _ & _ & Hh & Ha).
  - repeat constructor; set_solver.
  - split; [by apply Hh|]. rewrite Ha. vm_compute. reflexivity.
Defined.
