(* ===== verification/BacktestReports.v ===== *)
(** * Backtest reports and their table ([backtesting/report.py],
    [backtesting/repository.py])

    The HTML document with its sparkline, the CSV of the trades, the files
    they are written to, and the PostgreSQL table of the summaries, which
    follows the SQL of the module.  Times are local, as in [Backtesting];
    [offset] is the suffix that [isoformat] writes for their zone, empty for
    naive ones. *)

From Stdlib Require Import SpecFloat.
From stdpp Require Import gmap.
From S2P Require Import Prelude PyFloat PyDict Json PyText MarketData PyDate PyParse Backtesting Reporting ReportDocs.
Local Open Scope Z_scope.

#[local] Abbreviation Trade := Backtesting.Trade.t.
#[local] Abbreviation MarkoutPoint := Backtesting.MarkoutPoint.t.

(** ** HTML ([report.py]) *)

Definition PASS_COLOUR : string := "#2e7d32".
Definition FAIL_COLOUR : string := "#c62828".
Definition TABLE_HEADER_BG : string := "#1565c0".

Definition dq : string := String dquote "".
Definition NL : string := String LF "".

Definition fmt_pct (v : float) : string := fmt_fixed_signed 2 v +:+ "%".
Definition fmt_float (v : float) : string := fmt_fixed 4 v.

Definition gate_badge (passed : bool) : string :=
  let colour := if passed then PASS_COLOUR else FAIL_COLOUR in
  let label := if passed then "PASSED" else "FAILED" in
  concat_str ["<span style="; dq; "color:"; colour; ";font-weight:bold"; dq; ">"; label; "</span>"].

Definition metrics_list (r : BacktestResult.t) : list (string * string) :=
  let m := BacktestResult.metrics r in
  let c := BacktestResult.config r in
  [("Strategy ID", BacktestConfig.strategy_id c);
   ("Symbol", BacktestConfig.symbol c +:+ " / " +:+ BacktestConfig.exchange c);
   ("Period", isoformat_date (BacktestConfig.start_date c) +:+ " → " +:+ isoformat_date (BacktestConfig.end_date c));
   ("Trading days", pretty (BacktestMetrics.trading_days m));
   ("Total trades", pretty (BacktestMetrics.total_trades m));
   ("Total return", fmt_pct (BacktestMetrics.total_return_pct m));
   ("Annualised return", fmt_pct (BacktestMetrics.annualized_return_pct m));
   ("Sharpe ratio", fmt_float (BacktestMetrics.sharpe_ratio m));
   ("Sortino ratio", fmt_float (BacktestMetrics.sortino_ratio m));
   ("Max drawdown", fmt_pct (BacktestMetrics.max_drawdown_pct m));
   ("Win rate", fmt_pct (BacktestMetrics.win_rate_pct m));
   ("Expectancy / trade", fmt_pct (BacktestMetrics.expectancy_per_trade m));
   ("Profit factor", fmt_float (BacktestMetrics.profit_factor m));
   ("Calmar ratio", fmt_float (BacktestMetrics.calmar_ratio m));
   ("Avg slippage", fmt_fixed 2 (BacktestMetrics.avg_slippage_bps m) +:+ " bps");
   ("RULE 6 gate", gate_badge (BacktestResult.passed_promotion_gate r))]
  ++ match BacktestResult.promotion_failures r with
     | [] => []
     | failures => [("Gate failures", str_join "; " failures)]
     end.

Definition metric_html (kv : string * string) : string :=
  concat_str ["<tr><td><b>"; kv.1; "</b></td><td>"; kv.2; "</td></tr>"].

Definition metrics_rows (r : BacktestResult.t) : string := str_join NL (map metric_html (metrics_list r)).

Definition markout_cells_html (p : MarkoutPoint) : string :=
  concat_str ["<tr><td>"; Backtesting.MarkoutPoint.offset_label p; "</td><td>";
              fmt_pct (Backtesting.MarkoutPoint.avg_return_pct p); "</td><td>";
              fmt_pct (Backtesting.MarkoutPoint.median_return_pct p); "</td><td>";
              fmt_pct (Backtesting.MarkoutPoint.win_rate_at_offset p * dec 100 0)%pf; "</td></tr>"].

Definition markout_rows (r : BacktestResult.t) : string :=
  match BacktestResult.markout_curves r with
  | [] => "<tr><td colspan='4'>No markout data</td></tr>"
  | points => str_join NL (map markout_cells_html points)
  end.

(** [strftime("%Y-%m-%d %H:%M")] *)
Definition minute_text (t : Z) : string :=
  ymd (t / DAY) +:+ " " +:+ fixed 2 (t mod DAY / HOUR) +:+ ":" +:+ fixed 2 (t mod HOUR / MINUTE).

Definition trade_html (t : Trade) : string :=
  let pnl_colour := if flt f_zero (Backtesting.Trade.pnl_pct t) then PASS_COLOUR else FAIL_COLOUR in
  concat_str ["<tr><td>"; Backtesting.Trade.trade_id t; "</td><td>"; minute_text (Backtesting.Trade.entry_time t);
              "</td><td>"; minute_text (Backtesting.Trade.exit_time t); "</td><td>";
              fmt_fixed 2 (Backtesting.Trade.entry_price t); "</td><td>"; fmt_fixed 2 (Backtesting.Trade.exit_price t);
              "</td><td style='color:"; pnl_colour; "'>"; fmt_pct (Backtesting.Trade.pnl_pct t); "</td><td>";
              fmt_fixed 1 (Backtesting.Trade.entry_slippage_bps t); " / ";
              fmt_fixed 1 (Backtesting.Trade.exit_slippage_bps t); "</td></tr>"].

Definition trade_rows (trades : list Trade) : string :=
  match trades with
  | [] => "<tr><td colspan='7'>No trades</td></tr>"
  | _ => str_join NL (map trade_html trades)
  end.

(** *** The sparkline *)

Definition SPARK_W : Z := 800.
Definition SPARK_H : Z := 120.

(** The pixel of the [i]-th of [n] values: [int(i / (n - 1) * w)] and
    [int(h - (v - min_v) / (max_v - min_v) * h)]. *)
Definition spark_point (n : Z) (min_v max_v : float) (i : Z) (v : float) : result (Z * Z) :=
  share ← int_truediv i (n - 1);
  x ← int_of_float (share * dec SPARK_W 0)%pf;
  level ← pydiv (v - min_v)%pf (max_v - min_v)%pf;
  y ← int_of_float (dec SPARK_H 0 - level * dec SPARK_H 0)%pf;
  mret (x, y).

Definition point_text (p : Z * Z) : string := pretty p.1 +:+ "," +:+ pretty p.2.

(** What the section shows. *)
Inductive Sparkline := NoData | Flat | Points (pts : list (Z * Z)).

Definition sparkline (values : list float) : result Sparkline :=
  match values with
  | v0 :: ((_ :: _) as rest) =>
      let min_v := foldl pymin v0 rest in
      let max_v := foldl pymax v0 rest in
      if feq max_v min_v then mret Flat
      else
        pts ← mapM (fun iv => spark_point (Z.of_nat (length values)) min_v max_v (Z.of_nat iv.1) iv.2)
                (imap pair values);
        mret (Points pts)
  | _ => mret NoData
  end.

Definition equity_sparkline (r : BacktestResult.t) : result string :=
  s ← sparkline (map snd (BacktestResult.equity_curve r));
  mret match s with
       | NoData => "<p>Insufficient data for equity curve.</p>"
       | Flat => "<p>Flat equity curve (no trades executed).</p>"
       | Points pts =>
           concat_str ["<svg width="; dq; pretty SPARK_W; dq; " height="; dq; pretty SPARK_H; dq; " style="; dq;
                       "border:1px solid #ccc"; dq; "><polyline points="; dq; str_join " " (map point_text pts); dq;
                       " fill="; dq; "none"; dq; " stroke="; dq; "#1565c0"; dq; " stroke-width="; dq; "1.5"; dq;
                       "/></svg>"]
       end.

Definition style_html : string := "<style>
  body{font-family:sans-serif;margin:24px;background:#fafafa;color:#222}
  h1{color:#1565c0}h2{color:#333;margin-top:32px}
  table{border-collapse:collapse;width:100%;max-width:900px}
  th{background:" +:+ TABLE_HEADER_BG +:+ ";color:#fff;padding:6px 12px;text-align:left}
  td{padding:5px 12px;border-bottom:1px solid #ddd}
  tr:nth-child(even){background:#f0f4ff}
</style>".

Definition build_html (r : BacktestResult.t) : result string :=
  let c := BacktestResult.config r in
  curve ← equity_sparkline r;
  mret (concat_str
    ["<!DOCTYPE html>"; NL; "<html lang="; dq; "en"; dq; ">"; NL; "<head>"; NL; "<meta charset="; dq; "UTF-8"; dq; ">"; NL;
     "<title>Backtest Report — "; BacktestConfig.strategy_id c; " "; BacktestConfig.symbol c; "</title>"; NL;
     style_html; NL; "</head>"; NL; "<body>"; NL; "<h1>Backtest Report</h1>"; NL;
     "<p>Run ID: <code>"; BacktestResult.run_id r; "</code> &nbsp;|&nbsp;"; NL;
     "   Generated: "; minute_text (BacktestResult.completed_at r); " UTC</p>"; NL; NL;
     "<h2>Performance Summary</h2>"; NL; "<table><tr><th>Metric</th><th>Value</th></tr>"; NL; metrics_rows r; NL;
     "</table>"; NL; NL; "<h2>Equity Curve</h2>"; NL; curve; NL; NL;
     "<h2>Markout Curves (adverse selection)</h2>"; NL; "<table>"; NL;
     "<tr><th>Offset</th><th>Avg return</th><th>Median return</th><th>Win rate</th></tr>"; NL; markout_rows r; NL;
     "</table>"; NL; NL; "<h2>Trade Log ("; pretty (BacktestMetrics.total_trades (BacktestResult.metrics r));
     " trades)</h2>"; NL; "<table>"; NL; "<tr><th>#</th><th>Entry</th><th>Exit</th>"; NL;
     "    <th>Entry price</th><th>Exit price</th>"; NL; "    <th>P&amp;L %</th><th>Slip (in/out bps)</th></tr>"; NL;
     trade_rows (BacktestResult.trades r); NL; "</table>"; NL; "</body>"; NL; "</html>"]).

(** ** CSV and files *)

Definition CSV_HEADERS : list string :=
  ["trade_id"; "symbol"; "exchange"; "strategy_id"; "entry_time"; "exit_time"; "entry_price"; "exit_price";
   "entry_slippage_bps"; "exit_slippage_bps"; "quantity"; "pnl"; "pnl_pct"].

(** [isoformat()] of a time whose zone is written [offset]. *)
Definition isoformat_local (offset : string) (t : Z) : string :=
  let us := t mod SECOND in
  isoformat_date (t / DAY) +:+ "T" +:+ fixed 2 (t mod DAY / HOUR) +:+ ":" +:+ fixed 2 (t mod HOUR / MINUTE)
  +:+ ":" +:+ fixed 2 (t mod MINUTE / SECOND) +:+ (if us =? 0 then "" else "." +:+ fixed 6 us) +:+ offset.

Definition csv_trade (offset : string) (t : Trade) : list string :=
  [Backtesting.Trade.trade_id t; Backtesting.Trade.symbol t; Backtesting.Trade.exchange t;
   Backtesting.Trade.strategy_id t; isoformat_local offset (Backtesting.Trade.entry_time t);
   isoformat_local offset (Backtesting.Trade.exit_time t); cell_text (CFloat (Backtesting.Trade.entry_price t));
   cell_text (CFloat (Backtesting.Trade.exit_price t)); cell_text (CFloat (Backtesting.Trade.entry_slippage_bps t));
   cell_text (CFloat (Backtesting.Trade.exit_slippage_bps t)); cell_text (CFloat (Backtesting.Trade.quantity t));
   cell_text (CFloat (Backtesting.Trade.pnl t)); cell_text (CFloat (Backtesting.Trade.pnl_pct t))].

Definition csv_report (offset : string) (r : BacktestResult.t) : string :=
  csv_text (CSV_HEADERS :: map (csv_trade offset) (BacktestResult.trades r)).

(** [os.path.join(a, b)] *)
Definition path_join (a b : string) : string :=
  if String.prefix "/" b then b
  else if is_empty a || String.eqb (String.substring (String.length a - 1) 1 a) "/" then a +:+ b
  else a +:+ "/" +:+ b.

(** [mkdir] with parents, [open(path, "w")], which truncates, and the writes
    to the open file up to its close. *)
Class FileSystem (W : Type) := {
  make_dirs : string -> M W unit;
  create_file : string -> M W unit;
  write_file : string -> string -> M W unit;
}.

Class FileSystemLaws (W : Type) `{FileSystem W} := {
  fs_files : W -> gmap string string;
  make_dirs_spec d w w' : make_dirs d w = (Ok tt, w') -> fs_files w' = fs_files w;
  create_file_spec p w w' : create_file p w = (Ok tt, w') -> fs_files w' = <[p := ""]> (fs_files w);
  write_file_spec p s w w' : write_file p s w = (Ok tt, w') -> fs_files w' = <[p := s]> (fs_files w);
}.

Definition with_paths (html csv : string) (r : BacktestResult.t) : BacktestResult.t :=
  BacktestResult.mk (BacktestResult.run_id r) (BacktestResult.config r) (BacktestResult.trades r)
    (BacktestResult.metrics r) (BacktestResult.markout_curves r) (BacktestResult.equity_curve r)
    (BacktestResult.passed_promotion_gate r) (BacktestResult.promotion_failures r) (Some html) (Some csv)
    (BacktestResult.completed_at r).

Definition html_path (r : BacktestResult.t) (report_dir : string) : string :=
  path_join report_dir (BacktestResult.run_id r +:+ "_backtest.html").
Definition csv_path (r : BacktestResult.t) (report_dir : string) : string :=
  path_join report_dir (BacktestResult.run_id r +:+ "_trades.csv").

Definition generate_reports {W} `{FileSystem W} (offset : string) (r : BacktestResult.t) (report_dir : string)
    : M W BacktestResult.t :=
  let html := html_path r report_dir in
  let csv := csv_path r report_dir in
  _ ← make_dirs report_dir;
  _ ← create_file html;
  doc ← M_lift (build_html r);
  _ ← write_file html doc;
  _ ← create_file csv;
  _ ← write_file csv (csv_report offset r);
  mret (with_paths html csv r).

(** ** The table ([repository.py]) *)

(** A row of [backtest_results]; the run identifier is its key. *)
Module ResultRow.
Record t := mk {
  strategy_id : string;
  symbol : string;
  exchange : string;
  start_date : Z;
  end_date : Z;
  metrics : BacktestMetrics.t;
  passed_promotion_gate : bool;
  promotion_failures : string;
  report_html_path : option string;
  report_csv_path : option string;
  completed_at : Z;
}.
End ResultRow.

Definition result_row (r : BacktestResult.t) : ResultRow.t :=
  let c := BacktestResult.config r in
  ResultRow.mk (BacktestConfig.strategy_id c) (BacktestConfig.symbol c) (BacktestConfig.exchange c)
    (BacktestConfig.start_date c) (BacktestConfig.end_date c) (BacktestResult.metrics r)
    (BacktestResult.passed_promotion_gate r) (json_dumps (JList (map JStr (BacktestResult.promotion_failures r))))
    (BacktestResult.report_html_path r) (BacktestResult.report_csv_path r) (BacktestResult.completed_at r).

(** [ON CONFLICT (run_id) DO UPDATE]: three columns of the old row change. *)
Definition conflict_row (old new : ResultRow.t) : ResultRow.t :=
  ResultRow.mk (ResultRow.strategy_id old) (ResultRow.symbol old) (ResultRow.exchange old) (ResultRow.start_date old)
    (ResultRow.end_date old) (ResultRow.metrics old) (ResultRow.passed_promotion_gate new)
    (ResultRow.promotion_failures old) (ResultRow.report_html_path new) (ResultRow.report_csv_path new)
    (ResultRow.completed_at old).

Definition save_result (r : BacktestResult.t) (table : gmap string ResultRow.t) : gmap string ResultRow.t :=
  let new := result_row r in
  <[BacktestResult.run_id r := match table !! BacktestResult.run_id r with Some old => conflict_row old new | None => new end]>
    table.

Module LoadedResult.
Record t := mk {
  run_id : string;
  strategy_id : string;
  symbol : string;
  sharpe_ratio : float;
  max_drawdown_pct : float;
  win_rate_pct : float;
  passed_promotion_gate : bool;
}.
End LoadedResult.

Definition load_result (run_id : string) (table : gmap string ResultRow.t) : option LoadedResult.t :=
  row ← table !! run_id;
  let m := ResultRow.metrics row in
  Some (LoadedResult.mk run_id (ResultRow.strategy_id row) (ResultRow.symbol row) (BacktestMetrics.sharpe_ratio m)
          (BacktestMetrics.max_drawdown_pct m) (BacktestMetrics.win_rate_pct m) (ResultRow.passed_promotion_gate row)).

(** ** Properties of the files *)

Lemma path_join_ends a b : exists pre, path_join a b = pre +:+ b.
Proof.
  unfold path_join. destruct (String.prefix "/" b); [by exists ""|].
  destruct (_ || _); [by exists a|]. exists (a +:+ "/"). by rewrite str_app_assoc.
Qed.

Lemma last_char_inj a b c d : a +:+ String c "" = b +:+ String d "" -> c = d.
Proof.
  revert b. induction a as [|x a IH]; intros [|y b] E; cbn in E; rewrite ?str_cons_app in E.
  - by injection E.
  - injection E as _ E. by destruct b.
  - injection E as _ E. by destruct a.
  - injection E as _ E. by eapply IH.
Qed.

Lemma paths_differ r dir : html_path r dir <> csv_path r dir.
Proof.
  unfold html_path, csv_path.
  destruct (path_join_ends dir (BacktestResult.run_id r +:+ "_backtest.html")) as [p ->].
  destruct (path_join_ends dir (BacktestResult.run_id r +:+ "_trades.csv")) as [q ->]. intros E.
  change "_backtest.html" with ("_backtest.htm" +:+ "l") in E. change "_trades.csv" with ("_trades.cs" +:+ "v") in E.
  rewrite <- !str_app_assoc in E. by apply last_char_inj in E.
Qed.

Lemma csv_report_read offset r :
  csv_reader (csv_report offset r) = Ok (CSV_HEADERS, map (csv_trade offset) (BacktestResult.trades r)).
Proof. apply csv_reader_text; [cbn; lia|]. apply Forall_fmap, Forall_true. intros t. cbn. lia. Qed.

Section Written.
Context {W : Type} `{FileSystemLaws W}.

(** A generation that returns has written both reports: the HTML file
    holds the document of the result, a CSV reader gets the header and one row
    per trade from the other file, every other file is as before, and the
    returned result is the given one with the two paths. *)
Theorem reports_written offset r dir w r' w' :
  generate_reports offset r dir w = (Ok r', w') ->
  r' = with_paths (html_path r dir) (csv_path r dir) r
  /\ (exists doc, build_html r = Ok doc /\ fs_files w' !! html_path r dir = Some doc)
  /\ (exists text, fs_files w' !! csv_path r dir = Some text
        /\ csv_reader text = Ok (CSV_HEADERS, map (csv_trade offset) (BacktestResult.trades r)))
  /\ forall p, p <> html_path r dir -> p <> csv_path r dir -> fs_files w' !! p = fs_files w !! p.
Proof.
  unfold generate_reports. M_unfold. intros E.
  destruct (make_dirs dir w) as [[[]|] w1] eqn:E1; [|done]. cbn in E.
  destruct (create_file _ w1) as [[[]|] w2] eqn:E2; [|done]. cbn in E.
  destruct (build_html r) as [doc|]; [|done]. cbn in E.
  destruct (write_file _ _ w2) as [[[]|] w3] eqn:E3; [|done]. cbn in E.
  destruct (create_file _ w3) as [[[]|] w4] eqn:E4; [|done]. cbn in E.
  destruct (write_file _ _ w4) as [[[]|] w5] eqn:E5; [|done]. cbn in E. injection E as <- <-.
  apply make_dirs_spec in E1. apply create_file_spec in E2, E4. apply write_file_spec in E3, E5.
  pose proof (paths_differ r dir). rewrite E5, E4, E3, E2, E1.
  split; [done|]. split; [|split].
  - exists doc. split; [done|]. by simplify_map_eq.
  - eexists. split; [by simplify_map_eq|apply csv_report_read].
  - intros p Hh Hc. by simplify_map_eq.
Qed.

End Written.

(** ** Properties of the table *)

Definition has_id (run_id : string) (r : BacktestResult.t) : bool := String.eqb (BacktestResult.run_id r) run_id.

(** What the saves of a run leave in its row. *)
Definition saved_row (runs : list BacktestResult.t) : option ResultRow.t :=
  match runs with
  | [] => None
  | first :: rest => Some (foldl (fun row r => conflict_row row (result_row r)) (result_row first) rest)
  end.

Lemma saved_row_snoc runs r :
  saved_row (runs ++ [r]) = Some (match saved_row runs with Some old => conflict_row old (result_row r) | None => result_row r end).
Proof. destruct runs as [|first rest]; [done|]. cbn. by rewrite foldl_app. Qed.

Lemma saves_of_run run_id saves :
  foldl (fun t r => save_result r t) ∅ saves !! run_id = saved_row (List.filter (has_id run_id) saves).
Proof.
  induction saves as [|r saves IH] using rev_ind; [done|].
  rewrite foldl_app, List.filter_app. cbn [foldl List.filter]. unfold save_result at 1.
  destruct (has_id run_id r) eqn:Hid; unfold has_id in Hid.
  - apply String.eqb_eq in Hid. rewrite Hid, lookup_insert_eq, IH, saved_row_snoc.
    by destruct (saved_row _).
  - apply String.eqb_neq in Hid. rewrite lookup_insert_ne by done. by rewrite IH, app_nil_r.
Qed.

Lemma conflict_rows first rest :
  let row := foldl (fun row r => conflict_row row (result_row r)) first rest in
  ResultRow.metrics row = ResultRow.metrics first /\ ResultRow.strategy_id row = ResultRow.strategy_id first
  /\ ResultRow.symbol row = ResultRow.symbol first
  /\ ResultRow.passed_promotion_gate row
     = default (ResultRow.passed_promotion_gate first) (BacktestResult.passed_promotion_gate <$> last rest).
Proof.
  cbv zeta. induction rest as [|r rest IH] using rev_ind; [done|]. rewrite foldl_app, last_snoc. cbn. by destruct IH as (? & ? & ? & _).
Qed.

(** What is loaded after any sequence of saves: nothing for a run that was
    never saved, and otherwise the strategy, the symbol and the metrics of the
    first save of the run with the gate verdict of the last one. *)
Theorem saved_result_loaded saves run_id :
  load_result run_id (foldl (fun t r => save_result r t) ∅ saves)
  = match List.filter (has_id run_id) saves with
    | [] => None
    | first :: rest =>
        let m := BacktestResult.metrics first in
        let c := BacktestResult.config first in
        Some (LoadedResult.mk run_id (BacktestConfig.strategy_id c) (BacktestConfig.symbol c)
                (BacktestMetrics.sharpe_ratio m) (BacktestMetrics.max_drawdown_pct m) (BacktestMetrics.win_rate_pct m)
                (BacktestResult.passed_promotion_gate (default first (last rest))))
    end.
Proof.
  unfold load_result. rewrite saves_of_run. destruct (List.filter _ saves) as [|first rest]; [done|]. cbn.
  destruct (conflict_rows (result_row first) rest) as (-> & -> & -> & ->). by destruct (last rest).
Qed.

(** ** Evaluation on concrete inputs *)

#[local] Instance gmap_files : FileSystem (gmap string string) := {|
  make_dirs _ := mret tt;
  create_file p := fun w => (Ok tt, <[p := ""]> w);
  write_file p s := fun w => (Ok tt, <[p := s]> w);
|}.

#[local] Instance gmap_files_laws : FileSystemLaws (gmap string string).
Proof.
  refine {| fs_files := fun w : gmap string string => w |}.
  - intros d w w' [= ->]. done.
  - intros p w w' [= <-]. done.
  - intros p s w w' [= <-]. done.
Defined.

Definition sample_metrics (sharpe : float) : BacktestMetrics.t :=
  BacktestMetrics.mk sharpe f_zero (dec (-12) 1) (dec 60 0) (dec 1 1) (dec 15 1) f_zero (dec 3 0) 1 2 (dec 5 1) f_zero.

Definition sample_result (strategy : string) (sharpe : float) (curve : list float) (passed : bool) : BacktestResult.t :=
  BacktestResult.mk "0badcafe" (BacktestConfig.mk strategy "BHP" "ASX" 20454 20455 (dec 100000 0) (dec 2 2) (dec 65 3))
    [Backtesting.Trade.mk "0" "BHP" "ASX" strategy 1 (20454 * DAY + 10 * HOUR) (20454 * DAY + 11 * HOUR + 30 * MINUTE)
       (dec 40 0) (dec 402 1) (dec 2 0) (dec 2 0) (dec 50 0) (dec 10 0) (dec 5 1)]
    (sample_metrics sharpe) [] (imap (fun i v => (Z.of_nat i * MINUTE, v)) curve) passed [] None None (20455 * DAY).

Definition rising : list float := [dec 100000 0; dec 100400 0; dec 100200 0; dec 101000 0].

Lemma reports_written_witness :
  let w' := (generate_reports "+10:00" (sample_result "ORB" (dec 13 1) rising true) "reports" (∅ : gmap string string)).2 in
  exists text, fs_files w' !! "reports/0badcafe_trades.csv" = Some text
    /\ csv_reader text = Ok (CSV_HEADERS, map (csv_trade "+10:00") (BacktestResult.trades (sample_result "ORB" (dec 13 1) rising true))).
Proof.
  cbv zeta.
  refine (proj1 (proj2 (proj2 (reports_written "+10:00" (sample_result "ORB" (dec 13 1) rising true) "reports" ∅
    (with_paths "reports/0badcafe_backtest.html" "reports/0badcafe_trades.csv" (sample_result "ORB" (dec 13 1) rising true))
    _ _)))).
  vm_compute. reflexivity.
Defined.

(** The pixels of a curve. *)
Example rising_points : sparkline rising = Ok (Points [(0, 120); (266, 72); (533, 96); (800, 0)]).
Proof. vm_compute. reflexivity. Qed.

(** A NaN in the equity curve makes the sparkline raise: the HTML file is left
    empty and no CSV is written. *)
Example nan_curve_leaves_empty_report :
  let '(r, w) := generate_reports "" (sample_result "ORB" (dec 13 1) [dec 100 0; f_nan; dec 101 0] true) "reports" (∅ : gmap string string) in
  is_ok r = false /\ w !! "reports/0badcafe_backtest.html" = Some "" /\ w !! "reports/0badcafe_trades.csv" = None.
Proof. vm_compute. done. Qed.

(** Texts are not escaped: a strategy name with markup adds an element. *)
Example markup_in_strategy_name :
  metric_html ("Strategy ID", "<script src=x>") = "<tr><td><b>Strategy ID</b></td><td><script src=x></td></tr>".
Proof. reflexivity. Qed.

(** A run saved again under its identifier with other metrics keeps the old
    ones next to the new verdict: a Sharpe ratio of 0.2 that passed. *)
Example resaved_run_is_stale :
  option_map (fun l => (LoadedResult.sharpe_ratio l, LoadedResult.passed_promotion_gate l))
    (load_result "0badcafe" (foldl (fun t r => save_result r t) ∅
       [sample_result "ORB" (dec 2 1) rising false; sample_result "ORB" (dec 16 1) rising true]))
  = Some (dec 2 1, true).
Proof. vm_compute. reflexivity. Qed.
