(* ===== verification/ModelStore.v ===== *)
(** * Saved regime models ([regime/mlflow_registry.py])

    Saving a fitted classifier to an MLflow run, loading it back, and listing
    the registered versions; the promotion gate of the module is in
    [RegimeClassifier].  MLflow is an interface with the laws of its artifact
    store; pickling is part of storing an artifact. *)

From stdpp Require Import gmap.
From S2P Require Import Prelude PyFloat PyDict Constants Regime RegimeClassifier.
Local Open Scope Z_scope.

Module ModelVersion.
Record t := mk { version : string; run_id : string; current_stage : string; status : string }.
End ModelVersion.

(** The calls of [mlflow] and [MlflowClient], by run; [mlflow_end_run] closes
    the run's context, as finished or failed. *)
Class MLflow (L RF HMM : Type) := {
  mlflow_set_experiment : string -> M L unit;
  mlflow_start_run : option (dict string string) -> M L string;
  mlflow_end_run : string -> bool -> M L unit;
  mlflow_log_metrics : string -> dict string float -> M L unit;
  mlflow_log_rf : string -> RF -> M L unit;
  mlflow_log_hmm : string -> HMM -> M L unit;
  mlflow_log_state_map : string -> dict Z MarketRegime -> M L unit;
  mlflow_load_rf : string -> M L RF;
  mlflow_download_hmm : string -> M L HMM;
  mlflow_download_state_map : string -> M L (dict Z MarketRegime);
  mlflow_versions : M L (list ModelVersion.t);
}.

Section Store.
Context {L RF HMM : Type} `{MLflow L RF HMM}.

#[local] Abbreviation RegimeClassifier := (RegimeClassifier RF HMM).

Definition log_given_metrics (run_id : string) (metrics : option (dict string float)) : M L unit :=
  match metrics with Some (_ :: _ as m) => mlflow_log_metrics run_id m | _ => mret tt end.

(** The body of the [with] block of [save_classifier]. *)
Definition log_classifier (run_id : string) (rf : RF) (hmm : HMM) (state_map : dict Z MarketRegime)
    (metrics : option (dict string float)) : M L unit :=
  _ ← log_given_metrics run_id metrics;
  _ ← (mlflow_log_rf run_id rf : M L unit);
  _ ← (mlflow_log_hmm run_id hmm : M L unit);
  (mlflow_log_state_map run_id state_map : M L unit).

Definition save_classifier (classifier : RegimeClassifier) (metrics : option (dict string float))
    (tags : option (dict string string)) : M L string :=
  if negb (rc_is_fitted classifier) then
    M_raise (RuntimeError "Cannot save an unfitted RegimeClassifier. Call fit() first.")
  else
    match rc_rf classifier, rc_hmm classifier with
    | Some rf, Some hmm =>
        _ ← (mlflow_set_experiment REGIME_MLFLOW_EXPERIMENT : M L unit);
        run_id ← mlflow_start_run tags;
        outcome ← M_catch (log_classifier run_id rf hmm (rc_state_map classifier) metrics);
        _ ← (mlflow_end_run run_id (is_ok outcome) : M L unit);
        _ ← M_lift outcome;
        mret run_id
    | _, _ => M_raise (RuntimeError "classifier._rf and classifier._hmm must both be set.")
    end.

Definition load_classifier (run_id : string) : M L RegimeClassifier :=
  _ ← (mlflow_set_experiment REGIME_MLFLOW_EXPERIMENT : M L unit);
  rf ← mlflow_load_rf run_id;
  hmm ← mlflow_download_hmm run_id;
  state_map ← mlflow_download_state_map run_id;
  let classifier := new_classifier (Some rf) (Some hmm) in
  mret {| rc_rf := rc_rf classifier; rc_hmm := rc_hmm classifier; rc_state_map := state_map;
          rc_is_fitted := rc_is_fitted classifier |}.

Definition list_model_versions : M L (list (dict string string)) :=
  M_try
    (versions ← mlflow_versions;
     mret (map (fun mv => [("version", ModelVersion.version mv); ("run_id", ModelVersion.run_id mv);
                           ("stage", ModelVersion.current_stage mv); ("status", ModelVersion.status mv)]) versions))
    (fun _ => mret []).

End Store.

(** ** What is saved is loaded *)

(** The artifacts of a run. *)
Record Artifacts (RF HMM : Type) := {
  art_rf : gmap string RF;
  art_hmm : gmap string HMM;
  art_map : gmap string (dict Z MarketRegime);
}.
Arguments art_rf {RF HMM}.
Arguments art_hmm {RF HMM}.
Arguments art_map {RF HMM}.

(** A call that returned stored what it was given; the other calls leave the
    artifacts alone; a load that returns gives what is stored. *)
Class MLflowLaws (L RF HMM : Type) `{MLflow L RF HMM} := {
  artifacts : L -> Artifacts RF HMM;
  set_experiment_spec n w w' : mlflow_set_experiment n w = (Ok tt, w') -> artifacts w' = artifacts w;
  log_metrics_spec r m w w' : mlflow_log_metrics r m w = (Ok tt, w') -> artifacts w' = artifacts w;
  end_run_spec r b w w' : mlflow_end_run r b w = (Ok tt, w') -> artifacts w' = artifacts w;
  log_rf_spec r x w w' : mlflow_log_rf r x w = (Ok tt, w') ->
    artifacts w' = {| art_rf := <[r := x]> (art_rf (artifacts w)); art_hmm := art_hmm (artifacts w);
                      art_map := art_map (artifacts w) |};
  log_hmm_spec r x w w' : mlflow_log_hmm r x w = (Ok tt, w') ->
    artifacts w' = {| art_rf := art_rf (artifacts w); art_hmm := <[r := x]> (art_hmm (artifacts w));
                      art_map := art_map (artifacts w) |};
  log_map_spec r x w w' : mlflow_log_state_map r x w = (Ok tt, w') ->
    artifacts w' = {| art_rf := art_rf (artifacts w); art_hmm := art_hmm (artifacts w);
                      art_map := <[r := x]> (art_map (artifacts w)) |};
  load_rf_spec r x w w' : mlflow_load_rf r w = (Ok x, w') -> artifacts w' = artifacts w /\ art_rf (artifacts w) !! r = Some x;
  load_hmm_spec r x w w' : mlflow_download_hmm r w = (Ok x, w') ->
    artifacts w' = artifacts w /\ art_hmm (artifacts w) !! r = Some x;
  load_map_spec r x w w' : mlflow_download_state_map r w = (Ok x, w') ->
    artifacts w' = artifacts w /\ art_map (artifacts w) !! r = Some x;
}.

Section RoundTrip.
Context {L RF HMM : Type} `{MLflowLaws L RF HMM}.

Lemma log_classifier_stores run rf hmm state_map metrics w w' :
  log_classifier run rf hmm state_map metrics w = (Ok tt, w') ->
  artifacts w' = {| art_rf := <[run := rf]> (art_rf (artifacts w)); art_hmm := <[run := hmm]> (art_hmm (artifacts w));
                    art_map := <[run := state_map]> (art_map (artifacts w)) |}.
Proof.
  unfold log_classifier. M_unfold. intros E.
  destruct (log_given_metrics run metrics w) as [[[]|] w0] eqn:E0; [|done]. unfold log_given_metrics in E0.
  assert (artifacts w0 = artifacts w) as Hw0.
  { destruct metrics as [[|m ms]|]; [|by eapply log_metrics_spec|]; unfold mret, M_ret in E0; by simplify_eq. }
  cbn in E. destruct (mlflow_log_rf run rf w0) as [[[]|] w1] eqn:E1; [|done]. cbn in E.
  destruct (mlflow_log_hmm run hmm w1) as [[[]|] w2] eqn:E2; [|done]. cbn in E.
  apply log_rf_spec in E1. apply log_hmm_spec in E2. apply log_map_spec in E.
  rewrite E, E2, E1, Hw0. done.
Qed.

(** A classifier that was saved is loaded as it was: from the identifier
    that [save_classifier] returned, [load_classifier] gives back the forest,
    the HMM, the map of its states and the fitted flag, when no other call
    comes between. *)
Theorem saved_classifier_loaded c metrics tags run c' w w1 w2 :
  save_classifier c metrics tags w = (Ok run, w1) -> load_classifier run w1 = (Ok c', w2) -> c' = c.
Proof.
  unfold save_classifier, load_classifier. destruct (rc_is_fitted c) eqn:Hfit; [|done].
  destruct (rc_rf c) as [rf|] eqn:Hrf; [|done]. destruct (rc_hmm c) as [hmm|] eqn:Hhmm; [|done].
  cbn [negb]. M_unfold. intros Hs Hl.
  destruct (mlflow_set_experiment _ w) as [[[]|] a1]; [|done]. cbn in Hs.
  destruct (mlflow_start_run tags a1) as [[r|] a2]; [|done]. cbn in Hs. unfold M_catch in Hs.
  destruct (log_classifier r rf hmm (rc_state_map c) metrics a2) as [out a3] eqn:Hlog. cbn in Hs.
  destruct (mlflow_end_run r (is_ok out) a3) as [[[]|] a4] eqn:He; [|done]. cbn in Hs.
  destruct out as [[]|]; [|done]. cbn in Hs. injection Hs as <- <-.
  apply log_classifier_stores in Hlog. apply end_run_spec in He.
  destruct (mlflow_set_experiment _ a4) as [[[]|] b1] eqn:H1; [|done]. cbn in Hl.
  destruct (mlflow_load_rf r b1) as [[rf'|] b2] eqn:H2; [|done]. cbn in Hl.
  destruct (mlflow_download_hmm r b2) as [[hmm'|] b3] eqn:H3; [|done]. cbn in Hl.
  destruct (mlflow_download_state_map r b3) as [[m'|] b4] eqn:H4; [|done]. cbn in Hl. injection Hl as <- _.
  apply set_experiment_spec in H1. apply load_rf_spec in H2 as [Hb2 H2]. apply load_hmm_spec in H3 as [Hb3 H3].
  apply load_map_spec in H4 as [_ H4].
  rewrite Hb3, Hb2, H1, He, Hlog in H4. rewrite Hb2, H1, He, Hlog in H3. rewrite H1, He, Hlog in H2.
  cbn in H2, H3, H4. simplify_map_eq.
  destruct c; cbn in *; simplify_eq; done.
Qed.

End RoundTrip.

(** ** Evaluation on concrete inputs *)

#[local] Instance store_mlflow : MLflow (Artifacts unit unit * nat) unit unit := {|
  mlflow_set_experiment _ := mret tt;
  mlflow_start_run _ := fun w => (Ok (pretty w.2), (w.1, S w.2));
  mlflow_end_run _ _ := mret tt;
  mlflow_log_metrics _ _ := mret tt;
  mlflow_log_rf r x := fun w => (Ok tt, ({| art_rf := <[r := x]> (art_rf w.1); art_hmm := art_hmm w.1; art_map := art_map w.1 |}, w.2));
  mlflow_log_hmm r x := fun w => (Ok tt, ({| art_rf := art_rf w.1; art_hmm := <[r := x]> (art_hmm w.1); art_map := art_map w.1 |}, w.2));
  mlflow_log_state_map r x := fun w => (Ok tt, ({| art_rf := art_rf w.1; art_hmm := art_hmm w.1; art_map := <[r := x]> (art_map w.1) |}, w.2));
  mlflow_load_rf r := fun w => (match art_rf w.1 !! r with Some x => Ok x | None => Raise (OtherError "MlflowException") end, w);
  mlflow_download_hmm r := fun w => (match art_hmm w.1 !! r with Some x => Ok x | None => Raise (OtherError "MlflowException") end, w);
  mlflow_download_state_map r := fun w => (match art_map w.1 !! r with Some x => Ok x | None => Raise (OtherError "MlflowException") end, w);
  mlflow_versions := M_raise (OtherError "MlflowException");
|}.

#[local] Instance store_laws : MLflowLaws (Artifacts unit unit * nat) unit unit.
Proof.
  refine {| artifacts := fst : Artifacts unit unit * nat -> _ |}.
  - intros n w w' [= ->]. done.
  - intros r m w w' [= ->]. done.
  - intros r b w w' [= ->]. done.
  - intros r x w w' [= <-]. done.
  - intros r x w w' [= <-]. done.
  - intros r x w w' [= <-]. done.
  - intros r x w w' E. cbn in E. destruct (art_rf w.1 !! r) eqn:?; by simplify_eq.
  - intros r x w w' E. cbn in E. destruct (art_hmm w.1 !! r) eqn:?; by simplify_eq.
  - intros r x w w' E. cbn in E. destruct (art_map w.1 !! r) eqn:?; by simplify_eq.
Defined.

Definition fitted_classifier : RegimeClassifier unit unit :=
  {| rc_rf := Some tt; rc_hmm := Some tt; rc_state_map := [(0, BULL_TREND); (1, HIGH_VOL_CHAOS)]; rc_is_fitted := true |}.

Definition empty_store : Artifacts unit unit * nat := ({| art_rf := ∅; art_hmm := ∅; art_map := ∅ |}, 7%nat).

Lemma saved_classifier_loaded_witness :
  (load_classifier "7" (save_classifier fitted_classifier None None empty_store).2).1 = Ok fitted_classifier.
Proof.
  destruct (load_classifier "7" (save_classifier fitted_classifier None None empty_store).2) as [[c|e] w2] eqn:E.
  - cbn. f_equal.
    apply (saved_classifier_loaded fitted_classifier None None "7" c empty_store
             (save_classifier fitted_classifier None None empty_store).2 w2); [vm_compute; reflexivity|exact E].
  - vm_compute in E. discriminate.
Defined.

Example unfitted_is_not_saved :
  is_ok (save_classifier (new_classifier None (Some tt) : RegimeClassifier unit unit) None None empty_store).1 = false.
Proof. reflexivity. Qed.

Example listing_survives_outage : (list_model_versions empty_store).1 = Ok [].
Proof. reflexivity. Qed.
