(* ===== verification/VerifyDoubles.v ===== *)
(** * Test doubles of the acceptance scenarios

    [_FakeRedis], which [monitor/cli.py] and [orchestrator/cli.py] declare in
    the same words. *)

From S2P Require Import Prelude PyDict PyText Redis.
Local Open Scope Z_scope.

(** [_FakeRedis]: an empty value reads as a missing one. *)
Record FakeRedis := { fr_store : dict string string; fr_streams : dict string (list (list (string * string))) }.

Definition fake_redis : FakeRedis := {| fr_store := []; fr_streams := [] |}.

Definition fr_set (name value : string) (r : FakeRedis) : FakeRedis :=
  {| fr_store := dset name value (fr_store r); fr_streams := fr_streams r |}.

Definition fr_get (name : string) (r : FakeRedis) : option string :=
  match dget name (fr_store r) with Some v => if is_empty v then None else Some v | None => None end.

Definition fr_xadd (name : string) (fields : list (string * string)) (r : FakeRedis) : FakeRedis :=
  {| fr_store := fr_store r;
     fr_streams := dset name (default [] (dget name (fr_streams r)) ++ [fields]) (fr_streams r) |}.

#[export] Instance fake_kv : RedisKV FakeRedis := {|
  redis_get k r := (Ok (fr_get k r), r);
  redis_set k v _ r := (Ok tt, fr_set k v r);
  redis_delete k r := (Ok tt, {| fr_store := List.filter (fun kv => negb (String.eqb kv.1 k)) (fr_store r); fr_streams := fr_streams r |});
|}.

#[export] Instance fake_stream : RedisStream FakeRedis := {|
  redis_xadd k fields _ r := (Ok "0-0", fr_xadd k fields r);
  redis_xrevrange k n r := (Ok (take (Z.to_nat n) (rev (default [] (dget k (fr_streams r))))), r);
|}.
