(* ===== verification/ComplianceVerify.v ===== *)
(** * Acceptance scenarios of the compliance engine ([compliance/cli.py])

    The twenty scenarios of [python -m shared.compliance verify], run against
    the model.  [now] is the wall clock at import and [audit_id] what the
    engine draws; neither matters for the outcome. *)

From S2P Require Import Prelude PyFloat PyDict Redis Constants Compliance.
Local Open Scope Z_scope.

Definition IST_OPEN : Clock := {| hour := 10; minute := 30; second := 0 |}.
Definition IST_AFTER_SQUAREOFF : Clock := {| hour := 15; minute := 15; second := 0 |}.
Definition AEST_AFTER_CUTOFF : Clock := {| hour := 16; minute := 30; second := 0 |}.

(** The keyword arguments of the two builders that scenarios change. *)
Definition nse_entry (strategy_name order_type direction coid : string) (price ltp : option float) (stop_loss : float)
    (notional_value : float) (mwpl_pct : option float) : OrderIntent.t :=
  OrderIntent.mk "RELIANCE" "NSE" direction order_type 10 price stop_loss strategy_name coid ltp notional_value
    (dec 100000 0) false mwpl_pct "UNKNOWN" false.

Definition nse_default (strategy_name : string) : OrderIntent.t :=
  nse_entry strategy_name "LIMIT" "LONG" "TEST-NSE-001" (Some (dec 2450 0)) (Some (dec 2450 0)) (dec 2413 0)
    (dec 24500 0) None.

Definition asx_entry (direction : string) : OrderIntent.t :=
  OrderIntent.mk "BHP" "ASX" direction "LIMIT" 100 (Some (dec 45 0)) (dec 435 1) "EMA_VWAP_TREND" "TEST-ASX-001"
    (Some (dec 45 0)) (dec 4500 0) (dec 100000 0) false None "UNKNOWN" false.

Section Scenarios.
Variables (registry : StrategyRegistry) (now : Z) (audit_id : string).

Definition check_at (r : StrategyRegistry) (order : OrderIntent.t) (now_ist now_aest : option Clock)
    (recent pending : list RecentOrder.t) (shorts : gset string) (group_open_ms : option Z)
    : result ComplianceDecision.t :=
  check r order now_ist now_aest recent pending shorts now group_open_ms audit_id.

Definition has_code (code : string) (d : ComplianceDecision.t) : bool :=
  existsb (fun v => String.eqb (ComplianceViolation.code v) code) (ComplianceDecision.violations d).

(** [(dec.approved, code in codes)] *)
Definition expects_code (code : string) (d : result ComplianceDecision.t) : result (bool * bool) :=
  d ← d; mret (ComplianceDecision.approved d, has_code code d).

(** [(dec.approved, tag == expected)] *)
Definition expects_tag (tag : string) (d : result ComplianceDecision.t) : result (bool * bool) :=
  d ← d;
  mret (ComplianceDecision.approved d,
        String.eqb (match ComplianceDecision.tagged_order d with Some t => TaggedOrder.strategy_tag t | None => "" end) tag).

Definition india (order : OrderIntent.t) (at_ : Clock) : result ComplianceDecision.t :=
  check_at registry order (Some at_) None [] [] ∅ None.

Definition scenario_01 := expects_code "NO_STRATEGY_ID" (india (nse_default "UNKNOWN_ALGO") IST_OPEN).
Definition scenario_02 := expects_tag "STRAT001" (india (nse_default "EMA_VWAP_TREND") IST_OPEN).
Definition scenario_03 := expects_tag "STRAT002" (india (nse_default "ORB_BREAKOUT") IST_OPEN).
Definition scenario_04 := expects_tag "STRAT003" (india (nse_default "MOMENTUM_RSI") IST_OPEN).
Definition scenario_05 := expects_tag "STRAT004" (india (nse_default "MEAN_REVERT_PIVOT") IST_OPEN).
Definition scenario_06 := expects_tag "STRAT005" (india (nse_default "ORDER_FLOW_ABSORPTION") IST_OPEN).

Definition scenario_07 (env : environ) :=
  expects_tag "GENALG01" (check_at (new_registry env (Some true)) (nse_default "UNKNOWN_ALGO") (Some IST_OPEN) None [] [] ∅ None).

(** [(dec.approved, type_ok and price_ok)] *)
Definition expects_mpp (price : float) (d : result ComplianceDecision.t) : result (bool * bool) :=
  d ← d;
  match ComplianceDecision.tagged_order d with
  | None => mret (ComplianceDecision.approved d, false)
  | Some t =>
      mret (ComplianceDecision.approved d,
            String.eqb (TaggedOrder.effective_order_type t) "MPP"
            && match TaggedOrder.mpp_price t with Some p => feq p price | None => false end)
  end.

Definition scenario_08 :=
  expects_mpp (pyround (dec 2450 0 * dec 10025 4)%pf 2)
    (india (nse_entry "EMA_VWAP_TREND" "MARKET" "LONG" "TEST-NSE-001" None (Some (dec 2450 0)) (dec 2413 0) (dec 24500 0) None) IST_OPEN).
Definition scenario_09 :=
  expects_mpp (pyround (dec 2450 0 * dec 9975 4)%pf 2)
    (india (nse_entry "EMA_VWAP_TREND" "MARKET" "SHORT" "TEST-NSE-SHORT" None (Some (dec 2450 0)) (dec 2490 0) (dec 24500 0) None) IST_OPEN).
Definition scenario_10 :=
  expects_code "LEVERAGE_EXCEEDED"
    (india (nse_entry "EMA_VWAP_TREND" "LIMIT" "LONG" "TEST-NSE-001" (Some (dec 2450 0)) (Some (dec 2450 0)) (dec 2413 0) (dec 600001 0) None) IST_OPEN).
Definition scenario_11 :=
  expects_code "MWPL_EXCEEDED"
    (india (nse_entry "EMA_VWAP_TREND" "LIMIT" "LONG" "TEST-NSE-001" (Some (dec 2450 0)) (Some (dec 2450 0)) (dec 2413 0) (dec 24500 0) (Some (dec 915 1))) IST_OPEN).
Definition scenario_12 := expects_code "FORCE_SQUARE_OFF" (india (nse_default "EMA_VWAP_TREND") IST_AFTER_SQUAREOFF).

Definition australia (order : OrderIntent.t) (now_aest : option Clock) (recent pending : list RecentOrder.t)
    (shorts : gset string) (group_open_ms : option Z) : result ComplianceDecision.t :=
  check_at registry order None now_aest recent pending shorts group_open_ms.

Definition scenario_13 :=
  expects_code "WASH_TRADING" (australia (asx_entry "LONG") None [RecentOrder.mk "BHP" "SHORT" (now - 30000)] [] ∅ None).
Definition scenario_14 :=
  expects_code "LAYERING" (australia (asx_entry "LONG") None [] [RecentOrder.mk "BHP" "SHORT" (now - 5000)] ∅ None).
Definition scenario_15 :=
  expects_code "SHORT_SELL_NOT_APPROVED" (australia (asx_entry "SHORT") None [] [] {[ "CBA"; "ANZ" ]} None).
Definition scenario_16 : result (bool * bool) :=
  d ← australia (asx_entry "SHORT") None [] [] {[ "BHP"; "CBA" ]} None;
  mret (ComplianceDecision.approved d, match ComplianceDecision.violations d with [] => true | _ => false end).
Definition scenario_17 :=
  expects_code "STAGGERED_OPEN_NOISE_FILTER" (australia (asx_entry "LONG") None [] [] ∅ (Some (now - 5 * 60 * 1000))).
Definition scenario_18 :=
  expects_code "POST_CLOSE_CUTOFF" (australia (asx_entry "LONG") (Some AEST_AFTER_CUTOFF) [] [] ∅ None).

(** A trigger on a fresh manager without Redis: the event and the flag read
    afterwards. *)
Definition triggered_in_memory (trigger : M (KillSwitchManager MemRedis) KillSwitchEvent.t)
    : result (KillSwitchEvent.t * bool) :=
  fst ((event ← trigger; halted ← is_halted; mret (event, halted)) (new_kill_switch None)).

Definition scenario_19 : result (bool * bool) :=
  '(event, halted) ← triggered_in_memory (trigger_tier1 (dec (-21) 1) now);
  mret (halted, (KillSwitchEvent.tier event =? 1) && KillSwitchEvent.is_priority event).

Definition scenario_20 : result (bool * bool) :=
  '(ev2, halted2) ← triggered_in_memory (trigger_tier2 "telegram_bot" now);
  '(ev3, halted3) ← triggered_in_memory (trigger_tier3 "SignalAgent" 2 now);
  let t2_ok := (KillSwitchEvent.tier ev2 =? 2) && KillSwitchEvent.is_priority ev2 && halted2 in
  let t3_ok := (KillSwitchEvent.tier ev3 =? 3) && KillSwitchEvent.is_priority ev3 && halted3 in
  mret (t2_ok && t3_ok, true).

(** The rows of the table: the name, whether approval is expected, and the
    scenario [_run_scenario] dispatches to. *)
Definition scenario_table (env : environ) : list (string * bool * result (bool * bool)) :=
  [("01_missing_strategy_id", false, scenario_01); ("02_ema_vwap_trend", true, scenario_02);
   ("03_orb_breakout", true, scenario_03); ("04_momentum_rsi", true, scenario_04);
   ("05_mean_revert_pivot", true, scenario_05); ("06_order_flow_absorption", true, scenario_06);
   ("07_generic_algo_id", true, scenario_07 env); ("08_market_order_buy_mpp", true, scenario_08);
   ("09_market_order_sell_mpp", true, scenario_09); ("10_leverage_exceeded", false, scenario_10);
   ("11_mwpl_exceeded", false, scenario_11); ("12_force_square_off", false, scenario_12);
   ("13_wash_trading", false, scenario_13); ("14_layering", false, scenario_14);
   ("15_short_sell_not_approved", false, scenario_15); ("16_short_sell_approved", true, scenario_16);
   ("17_staggered_open", false, scenario_17); ("18_post_close_cutoff", false, scenario_18);
   ("19_kill_switch_tier1", true, scenario_19); ("20_kill_switch_tiers_23", true, scenario_20)].

(** [result_approved == expect_approved and extra_ok] *)
Definition outcome_ok (expect_approved : bool) (r : bool * bool) : bool := Bool.eqb r.1 expect_approved && r.2.

(** The exit code, after the outcomes that are printed. *)
Definition cmd_verify (env : environ) (target : string) : result (list (string * bool) * Z) :=
  let table := if String.eqb target "all" then scenario_table env
               else List.filter (fun row => String.eqb row.1.1 target) (scenario_table env) in
  match table with
  | [] => mret ([], 1)
  | _ =>
      outcomes ← mapM (fun row => r ← row.2; mret (row.1.1, outcome_ok row.1.2 r)) table;
      mret (outcomes, if forallb snd outcomes then 0 else 1)
  end.

End Scenarios.

(** ** The scenarios hold *)

(** An environment that sets none of the variables of the registry. *)
Definition unset (env : environ) : Prop := forall k, env k = None.

Lemma default_registry env : unset env -> new_registry env None = new_registry (fun _ => None) None.
Proof.
  intros Hu. unfold new_registry, load_registry, load_tag. rewrite !Hu. cbn [DEFAULT_TAGS foldl]. by rewrite !Hu.
Qed.

Lemma ago now k : now - (now - k) = k.
Proof. lia. Qed.

(** The two checks that compare with the clock see differences only. *)
Lemma wash_sees_age order r now age : RecentOrder.placed_at_ms r = now - age ->
  check_wash_trading order [r] now
  = check_wash_trading order [RecentOrder.mk (RecentOrder.symbol r) (RecentOrder.direction r) (0 - age)] 0.
Proof.
  intros Hp. unfold check_wash_trading, find_first, wash_match. rewrite Hp. cbn [RecentOrder.symbol RecentOrder.direction RecentOrder.placed_at_ms].
  assert ((now - WASH_TRADE_LOOKBACK_SECONDS * 1000 <=? now - age) = (0 - WASH_TRADE_LOOKBACK_SECONDS * 1000 <=? 0 - age)) as ->
    by (apply Bool.eq_iff_eq_true; rewrite !Z.leb_le; lia).
  destruct (is_asx order), (_ && _); cbn; rewrite ?Hp, ?ago; done.
Qed.

Lemma staggered_sees_age order age now :
  check_staggered_open order (Some (now - age)) now = check_staggered_open order (Some (0 - age)) 0.
Proof. unfold check_staggered_open. by rewrite !ago. Qed.

Lemma scenario_13_ok registry now audit : scenario_13 registry now audit = Ok (false, true).
Proof.
  unfold scenario_13, australia, check_at, check, run_australia_checks.
  rewrite (wash_sees_age _ _ now 30000) by done. vm_compute. reflexivity.
Qed.

Lemma scenario_14_ok registry now audit : scenario_14 registry now audit = Ok (false, true).
Proof. vm_compute. reflexivity. Qed.

Lemma scenario_17_ok registry now audit : scenario_17 registry now audit = Ok (false, true).
Proof.
  unfold scenario_17, australia, check_at, check, run_australia_checks.
  rewrite staggered_sees_age. vm_compute. reflexivity.
Qed.

(** All twenty acceptance scenarios of the compliance engine hold of the
    model at every wall-clock time and for every audit identifier, in an
    environment that overrides no strategy tag: orders that must be blocked
    are blocked with their code, the others are approved with their tag and
    their converted price, and the three tiers of the kill switch halt. *)
Theorem compliance_verify_passes env now audit : unset env ->
  cmd_verify (new_registry env None) now audit env "all"
  = Ok (map (fun row => (row.1.1, true)) (scenario_table (new_registry env None) now audit env), 0).
Proof.
  intros Hu. rewrite (default_registry env Hu). unfold cmd_verify.
  change (String.eqb "all" "all") with true. cbv iota. unfold scenario_table.
  rewrite scenario_13_ok, scenario_14_ok, scenario_17_ok. vm_compute. reflexivity.
Qed.

Lemma compliance_verify_passes_witness :
  exists outcomes, cmd_verify (new_registry (fun _ => None) None) 1783000000000 "audit" (fun _ => None) "all" = Ok (outcomes, 0).
Proof. eexists. apply (compliance_verify_passes (fun _ => None) 1783000000000 "audit"). by intros k. Defined.

(** The registry reads the environment: with the generic identifier switched
    on the first scenario fails, and the command reports it. *)
Example generic_environment_fails_verify :
  let env := fun k => if String.eqb k "USE_GENERIC_ALGO_ID" then Some "true" else None in
  cmd_verify (new_registry env None) 100000 "audit" env "01_missing_strategy_id"
  = Ok ([("01_missing_strategy_id", false)], 1).
Proof. vm_compute. reflexivity. Qed.
