(* ===== verification/ExecutionVerify.v ===== *)
(** * Acceptance scenarios of the execution engine ([execution/cli.py])

    The twenty scenarios of [python -m shared.execution verify] with their
    broker doubles, run against the model.  The wall clock of each engine and
    broker, the jitter and the audit identifiers, which are not empty, are
    arguments. *)

From S2P Require Import Prelude PyFloat PyDict Json Redis Constants MarketData Compliance Execution.
Local Open Scope Z_scope.

Definition IST_AFTER_CUTOFF : Clock := {| hour := 15; minute := 15; second := 0 |}.
Definition IST_TRADING : Clock := {| hour := 10; minute := 30; second := 0 |}.

Definition make_order (symbol exchange direction : string) (quantity : Z) (price stop_loss : float)
    (strategy_name order_id order_type : string) (ltp : option float) : OrderIntent.t :=
  OrderIntent.mk symbol exchange direction order_type quantity
    (if String.eqb order_type "MARKET" then None else Some price) stop_loss strategy_name order_id ltp
    (price * dec quantity 0)%pf (dec 500000 0) false None "UNKNOWN" false.

(** ** Doubles *)

(** [_PermanentFailBroker] *)
Inductive PermanentFailBroker := permanent_fail_broker.

#[export] Instance permanent_fail : Broker PermanentFailBroker := {|
  place_order _ := M_raise (BrokerPermanentError "Simulated permanent connection failure");
  query_order _ := mret None;
|}.

(** [_TransientThenIdempotentBroker] *)
Record TransientBroker := { tb_fills : dict string FillReport.t; tb_call_count : Z; tb_clock : Readings Z }.

Definition transient_place_order (tagged : TaggedOrder.t) : M TransientBroker FillReport.t :=
  _ ← M_modify (fun b => {| tb_fills := tb_fills b; tb_call_count := tb_call_count b + 1; tb_clock := tb_clock b |});
  b ← M_get;
  if tb_call_count b =? 1 then M_raise (BrokerTransientError "Simulated network hiccup")
  else
    now_ms ← M_zoom tb_clock (fun c b => {| tb_fills := tb_fills b; tb_call_count := tb_call_count b; tb_clock := c |}) next_reading;
    let o := TaggedOrder.original tagged in
    let coid := OrderIntent.client_order_id o in
    let fill := FillReport.mk coid (Some "RETRY-000001") (OrderIntent.symbol o) (OrderIntent.exchange o)
                  (OrderIntent.direction o) (OrderIntent.quantity o) (OrderIntent.quantity o) (OrderIntent.price o)
                  FILLED None now_ms (Some now_ms) (Some f_zero) false (OrderIntent.quantity o) 1
                  (TaggedOrder.strategy_tag tagged) "" in
    _ ← M_modify (fun b => {| tb_fills := dset coid fill (tb_fills b); tb_call_count := tb_call_count b; tb_clock := tb_clock b |});
    mret fill.

#[export] Instance transient_broker : Broker TransientBroker := {|
  place_order := transient_place_order;
  query_order _ := mret None;
|}.

(** [_FakeRedis]: a dictionary; the lists are not kept. *)
Definition FakeRedis : Type := dict string string.

#[export] Instance fake_redis_kv : RedisKV FakeRedis := {|
  redis_get k r := (Ok (dget k r), r);
  redis_set k v _ r := (Ok tt, dset k v r);
  redis_delete k r := (Raise (AttributeError "'_FakeRedis' object has no attribute 'delete'"), r);
|}.

#[export] Instance fake_redis_list : RedisList FakeRedis := {|
  redis_rpush _ _ r := (Ok tt, r);
  redis_lrange _ _ _ r := (Ok [], r);
  redis_llen _ r := (Ok 0, r);
  redis_ltrim _ _ _ r := (Raise (AttributeError "'_FakeRedis' object has no attribute 'ltrim'"), r);
|}.

(** ** The scenarios *)

Section Verify.
Variables (clock broker_clock : Readings Z) (random : Readings float) (audit : nat -> string).

Definition engine_of {B} `{Broker B} (broker : B) (redis_client : option FakeRedis) (max_retries : Z)
    (retry_base_delay : option float) : ExecutionEngine B FakeRedis :=
  new_engine broker (new_registry (fun _ => None) None) (new_dlq None false) redis_client (Some max_retries)
    retry_base_delay clock random.

(** [engine.submit(order, now_ist=...)]; [n] numbers the submissions. *)
Definition submit_at {B} `{Broker B} (now_ist : Clock) (n : nat) (order : OrderIntent.t)
    : M (ExecutionEngine B FakeRedis) FillReport.t :=
  submit order (Some now_ist) None [] [] ∅ None None (audit n).

Definition has_status (st : OrderStatus) (fill : FillReport.t) : bool := bool_decide (FillReport.status fill = st).

Definition halted_reason (fill : FillReport.t) : bool :=
  match String.index 0 "halted" (default "" (FillReport.rejection_reason fill)) with Some _ => true | None => false end.

(** What a scenario appends to the audit log and whether it passed. *)
Definition Outcome : Type := list FillReport.t * bool.

Definition CASES : list (string * string * string * string * string) :=
  [("01", "RELIANCE", "NSE", "LONG", "EMA_VWAP_TREND"); ("02", "INFY", "NSE", "SHORT", "ORB_BREAKOUT");
   ("03", "TCS", "NSE", "LONG", "MOMENTUM_RSI"); ("04", "HDFC", "NSE", "SHORT", "MEAN_REVERT_PIVOT");
   ("05", "SBIN", "NSE", "LONG", "ORDER_FLOW_ABSORPTION"); ("06", "WIPRO", "BSE", "LONG", "EMA_VWAP_TREND");
   ("07", "BHP.AX", "ASX", "LONG", "ORB_BREAKOUT")].

#[local] Abbreviation Engine := (ExecutionEngine PaperBroker FakeRedis).

Fixpoint standard_fills (n : nat) (cases : list (string * string * string * string * string)) : M Engine (list Outcome) :=
  match cases with
  | [] => mret []
  | (num, symbol, exchange, direction, strategy) :: cases =>
      fill ← submit_at IST_TRADING n
               (make_order symbol exchange direction 100 (dec 200 0) (dec 190 0) strategy ("ORD-" +:+ num) "LIMIT" (Some (dec 200 0)));
      rest ← standard_fills (S n) cases;
      mret (([fill], has_status FILLED fill) :: rest)
  end.

Definition nse_long (symbol order_id strategy : string) (quantity : Z) (price stop_loss : float) : OrderIntent.t :=
  make_order symbol "NSE" "LONG" quantity price stop_loss strategy order_id "LIMIT" (Some price).

Definition scenario_08 : result Outcome :=
  fill ← fst (submit_at IST_TRADING 8 (nse_long "WIPRO" "ORD-08" "EMA_VWAP_TREND" 100 (dec 300 0) (dec 285 0))
                (engine_of (new_paper_broker (Some (dec 6 1)) 0 broker_clock) None 1 None));
  mret ([fill], has_status PARTIALLY_FILLED fill && (FillReport.sl_quantity fill =? FillReport.filled_quantity fill)).

Definition scenario_09 : M Engine Outcome :=
  let sl_order := make_sl_exit_order "RELIANCE" "NSE" "LONG" 50 (dec 190 0) "ORD-09-SL" "EMA_VWAP_TREND" (Some (dec 192 0)) in
  fill ← submit_at IST_TRADING 9 sl_order;
  mret ([fill], has_status FILLED fill && OrderIntent.is_priority sl_order).

Definition scenario_10 : M Engine Outcome :=
  let liq_order := make_kill_switch_liquidation_order "TCS" "NSE" "LONG" 200 (dec 3500 0) "ORD-10-LIQ" "EMA_VWAP_TREND" in
  fill ← submit_at IST_TRADING 10 liq_order;
  mret ([fill], has_status FILLED fill && OrderIntent.is_priority liq_order).

Definition scenario_11 : M Engine Outcome :=
  let dup_order := nse_long "INFY" "ORD-11-DUP" "EMA_VWAP_TREND" 75 (dec 1500 0) (dec 1470 0) in
  fill_a ← submit_at IST_TRADING 11 dup_order;
  fill_b ← submit_at IST_TRADING 12 dup_order;
  mret ([fill_a; fill_b],
        has_status FILLED fill_a && has_status FILLED fill_b
        && bool_decide (FillReport.broker_order_id fill_a = FillReport.broker_order_id fill_b)
        && (FillReport.filled_quantity fill_a =? FillReport.filled_quantity fill_b)).

Definition scenario_12 : result Outcome :=
  fill ← fst (submit_at IST_TRADING 13 (nse_long "HDFC" "ORD-12-RETRY" "EMA_VWAP_TREND" 50 (dec 1600 0) (dec 1550 0))
                (engine_of {| tb_fills := []; tb_call_count := 0; tb_clock := broker_clock |} None 3 (Some f_zero)));
  mret ([fill], has_status FILLED fill && (FillReport.attempt_count fill =? 2)).

Definition scenario_13 : result Outcome :=
  let run : M (ExecutionEngine PermanentFailBroker FakeRedis) (FillReport.t * list DeadLetterEntry.t) :=
    fill ← submit_at IST_TRADING 14 (nse_long "AXIS" "ORD-13-PERM" "EMA_VWAP_TREND" 100 (dec 900 0) (dec 875 0));
    items ← on_dlq (peek 5);
    mret (fill, items) in
  '(fill, items) ← fst (run (engine_of permanent_fail_broker None 1 (Some f_zero)));
  mret ([fill], has_status REJECTED fill
                && match items with [item] => String.eqb (DeadLetterEntry.client_order_id item) "ORD-13-PERM" | _ => false end).

Definition scenario_14 : M Engine Outcome :=
  fill ← submit_at IST_TRADING 15 (nse_long "RELIANCE" "ORD-14-REJ" "UNKNOWN_STRATEGY_XYZ" 100 (dec 200 0) (dec 190 0));
  mret ([fill], has_status REJECTED fill).

Definition scenario_15 : M Engine Outcome :=
  fill ← submit_at IST_AFTER_CUTOFF 16 (nse_long "ICICI" "ORD-15-FSO" "EMA_VWAP_TREND" 100 (dec 850 0) (dec 830 0));
  mret ([fill], has_status REJECTED fill).

(** Scenarios 16 to 18, on the server that the first tier halted. *)
Definition halted_redis : result FakeRedis :=
  let '(event, ks) := trigger TIER1_CIRCUIT_BREAKER "daily P&L -2.1%" (reading clock 0) (new_kill_switch (Some ([] : FakeRedis))) in
  _ ← event;
  let redis := default [] (ksm_redis ks) in
  if bool_decide (dget "system:status:halted" redis = Some "true") then mret redis else Raise AssertionError.

Definition halted_scenarios : M Engine (list Outcome) :=
  fill16 ← submit_at IST_TRADING 17 (nse_long "BAJAJ" "ORD-16-BLOCK" "EMA_VWAP_TREND" 50 (dec 5000 0) (dec 4900 0));
  fill17 ← submit_at IST_TRADING 18
             (make_sl_exit_order "BAJAJ" "NSE" "LONG" 50 (dec 4900 0) "ORD-17-SL-PRI" "EMA_VWAP_TREND" (Some (dec 4902 0)));
  fill18 ← submit_at IST_TRADING 19
             (make_kill_switch_liquidation_order "BAJAJ" "NSE" "SHORT" 30 (dec 4898 0) "ORD-18-LIQ-PRI" "EMA_VWAP_TREND");
  mret [([fill16], has_status REJECTED fill16 && halted_reason fill16); ([fill17], has_status FILLED fill17);
        ([fill18], has_status FILLED fill18)].

Definition scenario_19 : M Engine Outcome :=
  fill ← submit_at IST_TRADING 20
           (make_order "MARUTI" "NSE" "LONG" 10 f_zero (dec 11000 0) "EMA_VWAP_TREND" "ORD-19-MPP" "MARKET" (Some (dec 12000 0)));
  mret ([fill], has_status FILLED fill).

Definition count (p : FillReport.t -> bool) (l : list FillReport.t) : Z := Z.of_nat (length (List.filter p l)).

(** [audit_ids_non_empty >= expected_with_audit - 1] *)
Definition scenario_20 (audit_log : list FillReport.t) : bool :=
  let with_audit := count (fun f => negb (String.eqb (FillReport.compliance_audit_id f) "")) audit_log in
  let system_halt_rejected := count (fun f => has_status REJECTED f && halted_reason f) audit_log in
  Z.of_nat (length audit_log) - system_halt_rejected - 1 <=? with_audit.

(** The outcomes in order, the twentieth included; the command succeeds when
    all passed. *)
Definition run_verify : result (list bool) :=
  let engine := engine_of (new_paper_broker None 0 broker_clock) None 1 None in
  let first : M Engine (list Outcome) :=
    fills ← standard_fills 1 CASES;
    s9 ← scenario_09; s10 ← scenario_10; s11 ← scenario_11; s14 ← scenario_14; s15 ← scenario_15; s19 ← scenario_19;
    mret (fills ++ [s9; s10; s11; s14; s15; s19]) in
  s1 ← fst (first engine);
  s8 ← scenario_08; s12 ← scenario_12; s13 ← scenario_13;
  redis ← halted_redis;
  s16 ← fst (halted_scenarios (engine_of (new_paper_broker None 0 broker_clock) (Some redis) 1 None));
  let all := s1 ++ [s8; s12; s13] ++ s16 in
  mret (map snd all ++ [scenario_20 (List.concat (map fst all))]).

End Verify.

(** All twenty acceptance scenarios of the execution engine hold of the
    model whatever the clocks and the jitter show and whatever audit
    identifiers are drawn: fills, the partial fill, exits, liquidation, the
    duplicate, the retry, the dead letter, the rejections, the halt with its
    two bypasses, the converted market order and the audit summary. *)
Theorem execution_verify_passes clock broker_clock random (first : nat -> ascii) (rest : nat -> string) :
  run_verify clock broker_clock random (fun n => String (first n) (rest n)) = Ok (replicate 20 true).
Proof. vm_compute. reflexivity. Qed.
