(* ===== verification/ReconciliationVerify.v ===== *)
(** * Acceptance scenarios of reconciliation ([reconciliation/cli.py])

    The twenty scenarios of [python -m shared.reconciliation], run against the
    model.  The wall clock and the protobuf encoding are arguments. *)

From S2P Require Import Prelude PyFloat PyDict Json Redis Constants Reconciliation Background.
Local Open Scope Z_scope.

(** ** Stubs *)

(** What [_StubBroker] and [_StubInternal] return in a cycle. *)
Definition stub_state (broker : list BrokerPosition.t) (internal : list InternalPosition.t) : CycleInput :=
  {| ci_broker_positions := Ok broker; ci_broker_orders := Ok []; ci_internal_positions := Ok internal;
     ci_internal_orders := Ok [] |}.

Definition fields_of (ms : list ReconciliationMismatch.t) : list MismatchField := map ReconciliationMismatch.field ms.

Definition no_mismatch (ms : list ReconciliationMismatch.t) : bool := bool_decide (fields_of ms = []).
Definition only (f : MismatchField) (ms : list ReconciliationMismatch.t) : bool := bool_decide (fields_of ms = [f]).
Definition any (f : MismatchField) (ms : list ReconciliationMismatch.t) : bool :=
  existsb (fun g => bool_decide (g = f)) (fields_of ms).

Definition broker_position (symbol : string) (quantity : Z) (avg_price : float) : BrokerPosition.t :=
  BrokerPosition.mk symbol "NSE" quantity avg_price "CNC".
Definition internal_position (symbol : string) (quantity : Z) (avg_price : float) : InternalPosition.t :=
  InternalPosition.mk symbol "NSE" quantity avg_price.

Section Verify.
Variables (now_ms : Z) (clock : Readings Z) (encode : ProtoMismatch.t -> string).

#[local] Instance codec : ProtoCodec := {| serialize_mismatch m := Ok (encode m) |}.

(** ** Scenarios 1 to 10: the diffs *)

Definition scenario_01 : bool :=
  no_mismatch (diff_positions [broker_position "RELIANCE" 10 (dec 2500 0)] [internal_position "RELIANCE" 10 (dec 2500 0)] now_ms).
Definition scenario_02 : bool :=
  only QUANTITY (diff_positions [broker_position "INFY" 5 (dec 1800 0)] [internal_position "INFY" 10 (dec 1800 0)] now_ms).
Definition scenario_03 : bool :=
  any AVG_PRICE (diff_positions [broker_position "TCS" 10 (dec 3600 0)] [internal_position "TCS" 10 (dec 3565 0)] now_ms).
Definition scenario_04 : bool :=
  negb (any AVG_PRICE (diff_positions [broker_position "HDFC" 10 (dec 160005 2)] [internal_position "HDFC" 10 (dec 1600 0)] now_ms)).
Definition scenario_05 : bool :=
  only POSITION_MISSING (diff_positions [] [internal_position "WIPRO" 10 (dec 500 0)] now_ms).
Definition scenario_06 : bool :=
  only UNEXPECTED_POSITION (diff_positions [broker_position "SBIN" 20 (dec 750 0)] [] now_ms).
Definition scenario_07 : bool :=
  only ORDER_STATUS (diff_orders [BrokerOrder.mk "B001" "coid-001" "RELIANCE" "NSE" "FILLED" 5 5 (dec 2500 0)]
                       [InternalOrder.mk "coid-001" "RELIANCE" "NSE" "PLACED" 0] now_ms).
Definition scenario_08 : bool :=
  no_mismatch (diff_orders [BrokerOrder.mk "B002" "coid-002" "TCS" "NSE" "PLACED" 5 0 f_zero]
                 [InternalOrder.mk "coid-002" "TCS" "NSE" "placed" 0] now_ms).
Definition scenario_09 : bool :=
  only ORDER_MISSING (diff_orders [] [InternalOrder.mk "coid-003" "HDFC" "NSE" "PLACED" 0] now_ms).
Definition scenario_10 : bool :=
  only UNEXPECTED_ORDER (diff_orders [BrokerOrder.mk "B003" "coid-999" "INFY" "NSE" "PLACED" 10 0 f_zero] [] now_ms).

(** ** Scenarios 11 to 16: registry, publisher, results *)

Definition in_memory : BlockRegistry MemRedis := new_block_registry None None.

Definition scenario_11 : bool := fst (is_blocked "RELIANCE" "NSE" (block "RELIANCE" "NSE" in_memory)).
Definition scenario_12 : bool := negb (fst (is_blocked "TCS" "NSE" (clear "TCS" "NSE" (block "TCS" "NSE" in_memory)))).
Definition scenario_13 : bool := negb (fst (is_blocked "WIPRO" "NSE" in_memory)).

Definition log_only : MismatchPublisher MemRedis :=
  {| mp_redis := None; mp_stream_key := RECONCILIATION_MISMATCH_REDIS_STREAM; mp_maxlen := Some 10000 |}.

Definition mm14 : ReconciliationMismatch.t := ReconciliationMismatch.mk "INFY" "NSE" QUANTITY "10" "5" now_ms.

Definition scenario_14 : bool := bool_decide (fst (publish mm14 log_only) = Ok None).
Definition scenario_15 : bool :=
  let rr := ReconciliationResult.mk now_ms (now_ms + 10) [mm14] ["NSE:INFY"] [] in
  ReconciliationResult.has_mismatches rr && (ReconciliationResult.mismatch_count rr =? 1).
Definition scenario_16 : bool :=
  let rr := ReconciliationResult.mk now_ms (now_ms + 5) [] [] [] in
  negb (ReconciliationResult.has_mismatches rr) && (ReconciliationResult.mismatch_count rr =? 0).

(** ** Scenarios 17 to 20: the agent *)

Definition agent (has_callback : bool) : ReconciliationAgent MemRedis := new_agent log_only in_memory has_callback clock.

Definition empty {A} (l : list A) : bool := match l with [] => true | _ => false end.

Definition scenario_17 : bool :=
  match run_cycle (stub_state [broker_position "RELIANCE" 5 (dec 2500 0)] [internal_position "RELIANCE" 5 (dec 2500 0)]) (agent false) with
  | (Ok r, _) => negb (ReconciliationResult.has_mismatches r) && empty (ReconciliationResult.symbols_blocked r)
                 && empty (ReconciliationResult.symbols_cleared r)
  | _ => false
  end.

(** Scenarios 18 and 19: two cycles of one agent, whose broker is swapped in
    between. *)
Definition scenarios_18_19 : bool * bool :=
  let internal := [internal_position "HDFC" 10 (dec 1600 0)] in
  let '(result18, agent18) := run_cycle (stub_state [broker_position "HDFC" 5 (dec 1600 0)] internal) (agent true) in
  let s18 := match result18 with
             | Ok r => ReconciliationResult.has_mismatches r
                       && (length (ReconciliationResult.symbols_blocked r) =? 1)%nat
                       && bool_decide (fields_of (ra_notified agent18) = [QUANTITY])
                       && fst (is_blocked "HDFC" "NSE" (ra_blocks agent18))
             | _ => false
             end in
  let '(result19, agent19) := run_cycle (stub_state [broker_position "HDFC" 10 (dec 1600 0)] internal) agent18 in
  (s18, match result19 with
        | Ok r => negb (ReconciliationResult.has_mismatches r)
                  && (length (ReconciliationResult.symbols_cleared r) =? 1)%nat
                  && negb (fst (is_blocked "HDFC" "NSE" (ra_blocks agent19)))
        | _ => false
        end).

Definition has_timer (s : option Scheduler) : bool :=
  match s with Some s => match timer s with Some _ => true | None => false end | None => false end.

Definition scenario_20 : bool :=
  has_timer (timer_run [Start; StartSchedules] new_scheduler)
  && negb (has_timer (timer_run [Start; StartSchedules; Stop] new_scheduler)).

Definition run_verify : list bool * bool :=
  let results := [scenario_01; scenario_02; scenario_03; scenario_04; scenario_05; scenario_06; scenario_07; scenario_08;
                  scenario_09; scenario_10; scenario_11; scenario_12; scenario_13; scenario_14; scenario_15; scenario_16;
                  scenario_17; fst scenarios_18_19; snd scenarios_18_19; scenario_20] in
  (results, forallb id results).

End Verify.

(** All twenty acceptance scenarios of reconciliation hold of the model at
    every time and for every encoding of the events. *)
Theorem reconciliation_verify_passes now_ms clock encode :
  run_verify now_ms clock encode = (replicate 20 true, true).
Proof. vm_compute. reflexivity. Qed.
