(* ===== verification/MonitorVerify.v ===== *)
(** * Acceptance scenarios of the monitor ([monitor/cli.py])

    The twenty scenarios of [python -m shared.monitor] with their doubles, run
    against the model at one wall-clock time. *)

From Stdlib Require Import SpecFloat.
From S2P Require Import Prelude PyFloat PyDict Json PyText Redis Constants Monitor Background Telemetry VerifyDoubles.
Local Open Scope Z_scope.

(** ** Doubles *)

(** [_FakeKillSwitch] *)
Record FakeKillSwitch := { triggered : bool; reason : string }.

#[export] Instance fake_switch : Monitor.KillSwitchTrigger FakeKillSwitch := {|
  trigger_tier3_by_reason reason k := (Ok tt, {| triggered := true; reason := reason |});
|}.

Definition not_triggered : FakeKillSwitch := {| triggered := false; reason := "" |}.

(** ** Scenarios *)

Section Verify.
Variables (now_ms : float) (today : string).

Definition after (ms : Z) : float := (now_ms + dec ms 0)%pf.
Definition close (x y tolerance : float) : bool := flt (fabs (x - y)%pf) tolerance.
Definition nano : float := dec 1 9.

#[local] Abbreviation Checker := (HeartbeatChecker FakeRedis FakeKillSwitch).

(** A checker that watches one agent, registered now. *)
Definition watching (redis_client : option FakeRedis) (kill_switch : option FakeKillSwitch) (agent_name : string) : Checker :=
  register_heartbeat agent_name now_ms
    (add_watched_agent agent_name now_ms (new_heartbeat_checker redis_client kill_switch 30 2)).

(** [health[agent]] satisfies the test. *)
Definition health_is (agent_name : string) (test : AgentHealth.t -> bool) (health : dict string AgentHealth.t) : bool :=
  match dget agent_name health with Some h => test h | None => false end.

Definition scenario_01 : bool :=
  let r := HeartbeatRecord.mk "signal_agent" (dec 1000000 0) 0 in
  String.eqb (HeartbeatRecord.agent_name r) "signal_agent" && feq (HeartbeatRecord.last_seen_ms r) (dec 1000000 0)
  && (HeartbeatRecord.missed_count r =? 0).
Definition scenario_02 : bool :=
  health_is "signal_agent" (fun h => AgentHealth.is_healthy h && (AgentHealth.missed_count h =? 0))
    (fst (check_all (after 5000) (watching None None "signal_agent"))).
Definition scenario_03 : bool :=
  health_is "data_agent" (fun h => (AgentHealth.missed_count h =? 1) && AgentHealth.is_healthy h)
    (fst (check_all (after 45000) (watching None None "data_agent"))).
Definition scenario_04 : bool :=
  let checker := snd (check_all (after 90000) (snd (check_all (after 45000) (watching None (Some not_triggered) "signal_agent")))) in
  match hc_kill_switch checker with Some k => triggered k && str_contains "signal_agent" (reason k) | None => false end.
Definition scenario_05 : bool :=
  let missed := snd (check_all (after 45000) (watching None None "risk_agent")) in
  health_is "risk_agent" (fun h => (AgentHealth.missed_count h =? 0) && AgentHealth.is_healthy h)
    (fst (check_all (after 65000) (register_heartbeat "risk_agent" (after 60000) missed))).
Definition scenario_06 : bool :=
  match fst (check_all now_ms (new_heartbeat_checker None None 30 2 : Checker)) with [] => true | _ => false end.

(** [PnLTracker(redis_client=r, starting_capital=...).snapshot()] *)
Definition pnl_snapshot (redis_client : option FakeRedis) : PnLSnapshot.t :=
  fst (snapshot today {| pt_redis := redis_client; pt_starting_capital := dec 1000000 0 |}).

Definition with_pnl (text : string) : FakeRedis := fr_set ("risk:daily:pnl:" +:+ today) text fake_redis.

Definition scenario_07 : bool :=
  let snap := pnl_snapshot None in
  feq (PnLSnapshot.pnl_today snap) f_zero && feq (PnLSnapshot.pnl_today_pct snap) f_zero
  && negb (PnLSnapshot.is_circuit_breaker snap).
Definition scenario_08 : bool := close (PnLSnapshot.pnl_today (pnl_snapshot (Some (with_pnl "-15000.0")))) (dec (-15000) 0) (dec 1 2).
Definition scenario_09 : bool := close (PnLSnapshot.pnl_today_pct (pnl_snapshot (Some (with_pnl "-15000.0")))) (dec (-15) 3) nano.
Definition scenario_10 : bool := PnLSnapshot.is_circuit_breaker (pnl_snapshot (Some (with_pnl "-25000.0"))).

(** The value a gauge holds. *)
Definition gauge (g : GaugeValue) : float := match g with GInt n => dec n 0 | GFloat x => x end.

Definition flat_pnl : PnLSnapshot.t := PnLSnapshot.mk f_zero f_zero (dec 1000000 0) false.

Definition scenario_12 : bool :=
  let pnl := PnLSnapshot.mk (dec (-20000) 0) (dec (-2) 2) (dec 1000000 0) true in
  close (gauge (pnl_today_pct (update (MonitorSnapshot.mk now_ms pnl [] 0 0 0 false) new_metrics))) (dec (-2) 2) nano.
Definition scenario_13 : bool :=
  feq (gauge (reconciliation_mismatches_total (update (MonitorSnapshot.mk now_ms flat_pnl [] 0 0 5 false) new_metrics))) (dec 5 0).
Definition scenario_14 : bool :=
  feq (gauge (system_halted (update (MonitorSnapshot.mk now_ms flat_pnl [] 0 0 0 true) new_metrics))) (dec 1 0).
Definition scenario_15 : bool :=
  let health := AgentHealth.mk "signal_agent" true (now_ms - dec 10000 0)%pf 0 (dec 10 0) in
  let metrics := update (MonitorSnapshot.mk now_ms flat_pnl [("signal_agent", health)] 0 0 0 false) new_metrics in
  match dget "signal_agent" (heartbeat_age_seconds metrics) with Some g => close (gauge g) (dec 10 0) nano | None => false end.

(** [MonitorAgent(PnLTracker(redis_client=r), checker, metrics)] *)
Definition agent_of (r : FakeRedis) (checker : Checker) : MonitorAgent FakeRedis FakeKillSwitch :=
  {| ma_pnl := {| pt_redis := Some r; pt_starting_capital := dec 1000000 0 |}; ma_hb := checker; ma_pushed := [];
     ma_last_snapshot := None |}.

Definition scenario_16 : bool :=
  let checker := add_watched_agent "signal_agent" now_ms (new_heartbeat_checker (Some fake_redis) None 30 2) in
  let agent := ma_register_heartbeat "signal_agent" now_ms (agent_of fake_redis checker) in
  match hc_redis (ma_hb agent) with
  | Some r => match fr_get "monitor:heartbeat:signal_agent" r with Some _ => true | None => false end
  | None => false
  end.
Definition scenario_17 : bool :=
  match fst (poll_once now_ms today (agent_of fake_redis (new_heartbeat_checker (Some fake_redis) None 30 2))) with
  | Ok snap => feq (MonitorSnapshot.timestamp_ms snap) now_ms
  | Raise _ => false
  end.
Definition scenario_18 : bool :=
  let agent := agent_of fake_redis (watching (Some fake_redis) (Some not_triggered) "signal_agent") in
  let polled := poll_tick (after 90000) today (poll_tick (after 45000) today agent) in
  match hc_kill_switch (ma_hb polled) with Some k => triggered k | None => false end.

(** The thread polls once and waits; the stop wakes it. *)
Definition scenario_19 : bool :=
  let started := MonitorThread.run [MonitorThread.CallStart; MonitorThread.ThreadStep; MonitorThread.ThreadStep] MonitorThread.new in
  let stopped := MonitorThread.run [MonitorThread.CallStop; MonitorThread.ThreadStep; MonitorThread.ThreadStep] started in
  MonitorThread.is_running started && negb (MonitorThread.is_running stopped).

Definition scenario_20 : bool :=
  let stream := "reconciliation:mismatches" in
  let r := fr_xadd stream [("type", "position")] (fr_xadd stream [("type", "order")] (fr_xadd stream [("type", "position")] fake_redis)) in
  fst (read_reconciliation_mismatches {| pt_redis := Some r; pt_starting_capital := dec 1000000 0 |}) =? 3.

(** Scenario 11 is that the constructor of the metrics returns. *)
Definition run_verify : list bool * bool :=
  let results := [scenario_01; scenario_02; scenario_03; scenario_04; scenario_05; scenario_06; scenario_07; scenario_08;
                  scenario_09; scenario_10; true; scenario_12; scenario_13; scenario_14; scenario_15; scenario_16;
                  scenario_17; scenario_18; scenario_19; scenario_20] in
  (results, forallb id results).

End Verify.

(** All twenty acceptance scenarios of the monitor hold of the model at
    midnight of 2 July 2026 UTC: healthy and missed heartbeats, the kill switch at the
    second miss, the recovery, the P&L figures and the circuit breaker, the
    gauges, the polls, the thread's life cycle and the mismatch count. *)
Theorem monitor_verify_passes :
  run_verify (dec 1782950400000 0) "20260702" = (replicate 20 true, true).
Proof. vm_compute. reflexivity. Qed.
