(* ===== verification/OrchestratorVerify.v ===== *)
(** * Acceptance scenarios of the orchestrator ([orchestrator/cli.py])

    The twenty scenarios of [python -m shared.orchestrator], run against the
    model, with the interpreter of [Orchestrator] as the graph engine.  The
    clock of the nodes and the time of the retrievals are arguments; the
    scores are computed for one time, from the four values of the C library
    that the scenarios need. *)

From Stdlib Require Import SpecFloat.
From S2P Require Import Prelude PyFloat PyDict Json PyText Redis Constants Orchestrator Memory LongTerm VerifyDoubles.
Local Open Scope Z_scope.

Section Verify.
Variables (clock : Readings string) (today : string) (retrieved_at : float).
Context `{Libm}.

(** No database is connected. *)
#[local] Instance no_table : MemoryTable unit := {| upsert_memory _ _ := M_raise (OtherError "no connection") |}.

Definition market_date : string := "2026-07-02".

Definition field_is (key : string) (v : json) (s : TradingSystemState) : bool :=
  match dget key s, v with
  | Some (JBool a), JBool b => Bool.eqb a b
  | Some (JInt a), JInt b => a =? b
  | Some (JStr a), JStr b => String.eqb a b
  | Some JNull, JNull => true
  | _, _ => false
  end.

Definition scenario_01 : bool :=
  let state := make_initial_state market_date in
  field_is "market_date" (JStr "2026-07-02") state && field_is "kill_switch_active" (JBool false) state
  && field_is "pending_hitl_approval" JNull state && field_is "signals_today" (JInt 0) state.

Definition scenario_02 : bool :=
  let state := dset "market_regime" (JStr "BULL_TREND") (dset "signals_today" (JInt 7) (make_initial_state market_date)) in
  match state_from_json (state_to_json state) market_date with
  | Ok restored => field_is "signals_today" (JInt 7) restored && field_is "market_regime" (JStr "BULL_TREND") restored
  | Raise _ => false
  end.

(** ** Memory *)

(** A sequence of puts into a fresh working memory. *)
Definition working (max_tokens : Z) (puts : list (string * string)) : WorkingMemory :=
  snd (M_for (fun kv => wm_put kv.1 kv.2) puts (new_working_memory max_tokens)).

Definition reads (v : option string) (expected : string) : bool := bool_decide (v = Some expected).

Definition scenario_03 : bool :=
  reads (wm_get "snapshot" (working 500 [("snapshot", "RELIANCE: 2500, INFY: 1800")])) "RELIANCE: 2500, INFY: 1800".
Definition scenario_04 : bool :=
  let wm := working 10 [("k1", str_repeat 40 "a"%char); ("k2", str_repeat 40 "b"%char)] in
  bool_decide (wm_get "k1" wm = None) && bool_decide (is_Some (wm_get "k2" wm)).
Definition scenario_05 : bool :=
  bool_decide (wm_get "regime" (snd (wm_delete "regime" (working WORKING_MEMORY_MAX_TOKENS [("regime", "BULL_TREND")]))) = None).

Definition scenario_06 : bool :=
  reads (fst (stm_get "signal_flow" (stm_put "signal_flow" "RELIANCE LONG" (new_short_term_memory (None : option FakeRedis))))) "RELIANCE LONG".
Definition scenario_07 : bool :=
  reads (fst (stm_get "order_flow" (stm_put "order_flow" "absorption detected" (new_short_term_memory (Some fake_redis))))) "absorption detected".

(** [abs(score - math.log(100 ** (-0.5))) < 1e-9] *)
Definition scenario_08 (now_s : float) : bool :=
  match activation_score now_s (LongTermMemoryEntry.mk "test" "content" [(now_s - dec 100 0)%pf]),
        (p ← libm_pow (dec 100 0) (dec (-5) 1); libm_log p) with
  | Ok score, Ok expected => flt (fabs (score - expected)%pf) (dec 1 9)
  | _, _ => false
  end.
Definition scenario_09 : bool :=
  match activation_score retrieved_at (LongTermMemoryEntry.mk "empty" "no retrievals yet" []) with
  | Ok score => feq score f_ninf
  | Raise _ => false
  end.

Definition ltm : LongTermMemory unit := new_long_term_memory None.

Definition scenario_10 : bool :=
  let text := "EMA crossover on RELIANCE with volume surge" in
  match fst (ltm_retrieve "setup_001" true retrieved_at (ltm_store "setup_001" text ltm)) with
  | Some e => String.eqb (LongTermMemoryEntry.content e) text
  | None => false
  end.
Definition scenario_11 : bool :=
  let again s := snd (ltm_retrieve "setup_002" true retrieved_at s) in
  match fst (ltm_retrieve "setup_002" false retrieved_at (again (again (ltm_store "setup_002" "ORB breakout on INFY" ltm)))) with
  | Some e => (length (LongTermMemoryEntry.retrieved_at_seconds e) =? 2)%nat
  | None => false
  end.

(** [ltm._memory[key].retrieved_at_seconds = times] *)
Definition set_times (key : string) (times : list float) (s : LongTermMemory unit) : LongTermMemory unit :=
  match dget key (ltm_memory s) with
  | Some e => {| ltm_db := ltm_db s;
                 ltm_memory := dset key (LongTermMemoryEntry.mk (LongTermMemoryEntry.key e) (LongTermMemoryEntry.content e) times) (ltm_memory s) |}
  | None => s
  end.

Definition scenario_12 (now_s : float) : bool :=
  let s := set_times "old" [(now_s - dec 86400 0)%pf] (ltm_store "old" "old memory" ltm) in
  let s := set_times "fresh" [(now_s - dec 60 0)%pf] (ltm_store "fresh" "fresh memory" s) in
  match retrieve_top_k 1 now_s s with
  | Ok [e] => String.eqb (LongTermMemoryEntry.key e) "fresh"
  | _ => false
  end.

Definition scenario_13 : bool :=
  let mem : ACTRMemory FakeRedis unit :=
    snd (M_for (fun kvt => remember kvt.1.1 kvt.1.2 kvt.2)
           [("last_signal", "LONG RELIANCE 2500", "working"); ("anomaly", "absorption at 2510", "short_term");
            ("setup_classic", "EMA+RSI pattern", "long_term")]
           (new_actr_memory None None WORKING_MEMORY_MAX_TOKENS)) in
  reads (fst (recall "last_signal" "working" retrieved_at mem)) "LONG RELIANCE 2500"
  && reads (fst (recall "anomaly" "short_term" retrieved_at mem)) "absorption at 2510"
  && reads (fst (recall "setup_classic" "long_term" retrieved_at mem)) "EMA+RSI pattern".

(** ** Cycles *)

(** [OrchestratorGraph(redis_client=r, ...)]; the graph is compiled for the
    configuration. *)
Definition orchestrator (r : option FakeRedis) : OrchestratorGraph FakeRedis (Interp FakeRedis) :=
  new_orchestrator r {| in_world := {| w_redis := r; w_clock := clock |}; in_values := None; in_next := None |} today.

Definition cycle (cfg : GraphConfig) (r : option FakeRedis) (init : TradingSystemState)
    : result (option TradingSystemState) * OrchestratorGraph FakeRedis (Interp FakeRedis) :=
  run_cycle (H0 := Interp_graph cfg) (Some init) (orchestrator r).

Definition config (capital : float) (blocked_fn : BlockedFn) (enable_hitl : bool) : GraphConfig :=
  {| gc_starting_capital := capital; gc_blocked_fn := blocked_fn; gc_enable_hitl := enable_hitl |}.

Definition default_config : GraphConfig := config (dec 1000000 0) None false.

(** [result is not None] and a test of it. *)
Definition completed (test : TradingSystemState -> bool) (r : result (option TradingSystemState)) : bool :=
  match r with Ok (Some s) => test s | _ => false end.

Definition init : TradingSystemState := make_initial_state market_date.

Definition signal_of_reliance : FakeRedis := fr_xadd "signals:generated" [("symbol", "RELIANCE"); ("exchange", "NSE")] fake_redis.

Definition scenario_14 : bool :=
  completed (field_is "kill_switch_active" (JBool false)) (fst (cycle default_config None init)).
Definition scenario_15 : bool :=
  completed (field_is "circuit_breaker_active" (JBool true))
    (fst (cycle default_config None (dset "pnl_today_pct" (JFloat (dec (-25) 3)) init))).
Definition scenario_16 : bool :=
  completed (field_is "signals_today" (JInt 0))
    (fst (cycle default_config (Some signal_of_reliance) (dset "market_regime" (JStr "HIGH_VOL_CHAOS") init))).
Definition scenario_17 : bool :=
  completed (field_is "signals_today" (JInt 1))
    (fst (cycle default_config (Some (fr_xadd "regime:changes" [("regime", "BULL_TREND"); ("confidence", "0.85")] signal_of_reliance)) init)).
Definition scenario_18 : bool :=
  let blocked symbol exchange := Ok (String.eqb symbol "RELIANCE" && String.eqb exchange "NSE") in
  completed (field_is "signals_today" (JInt 0))
    (fst (cycle (config (dec 1000000 0) (Some blocked) false) (Some signal_of_reliance) init)).

(** Scenarios 19 and 20: the interrupted graph and the kill switch on it. *)
Definition scenarios_19_20 : bool * bool :=
  let cfg := config (dec 100000 0) None true in
  let position := JObj [("RELIANCE", JObj [("quantity", JInt 30); ("avg_price", JFloat (dec 2500 0))])] in
  let '(result19, orch19) := cycle cfg None (dset "open_positions" position init) in
  let pending s := match dget "pending_hitl_approval" s with Some JNull | None => false | Some _ => true end in
  let '(_, orch20) := trigger_kill_switch (H0 := Interp_graph cfg) orch19 in
  (match result19 with Ok None => pending (default [] (in_values (og_app orch19))) | _ => false end,
   field_is "kill_switch_active" (JBool true) (get_state orch20)
   && field_is "pending_hitl_approval" JNull (get_state orch20)).

Definition run_verify (now_s : float) : list bool * bool :=
  let results := [scenario_01; scenario_02; scenario_03; scenario_04; scenario_05; scenario_06; scenario_07;
                  scenario_08 now_s; scenario_09; scenario_10; scenario_11; scenario_12 now_s; scenario_13; scenario_14;
                  scenario_15; scenario_16; scenario_17; scenario_18; fst scenarios_19_20; snd scenarios_19_20] in
  (results, forallb id results).

End Verify.

(** The powers and logarithms of the scenarios, as the C library rounds
    them. *)
#[local] Instance verify_libm : Libm := {|
  libm_pow x _ := Ok (if feq x (dec 100 0) then dec 1 1 else if feq x (dec 60 0) then dec 12909944487358055 17 else dec 34020690871988585 19);
  libm_log x := Ok (if feq x (dec 1 1) then dec (-23025850929940455) 16 else if feq x (dec 12909944487358055 17) then dec (-20471722807677573) 16 else dec (-5683370929654287) 15);
|}.

(** All twenty acceptance scenarios of the orchestrator hold of the model,
    whatever the clock of the nodes shows: the initial state and its
    serialisation, the three memory tiers, the clean cycle, the circuit
    breaker, the chaos regime, the reconciliation block, the human approval
    and the kill switch that ends it. *)
Theorem orchestrator_verify_passes clock today retrieved_at :
  run_verify clock today retrieved_at (dec 1782950400 0) = (replicate 20 true, true).
Proof. vm_compute. reflexivity. Qed.
