(* ===== verification/RiskVerify.v ===== *)
(** * Acceptance scenarios of the risk engine ([risk/cli.py])

    The six scenarios of [python -m shared.risk verify], run against the model
    with the textbook definitions of the deviation and the correlation. *)

From S2P Require Import Prelude PyFloat PyDict Constants Regime Risk.
Local Open Scope Z_scope.

#[local] Existing Instance textbook_numpy.

Section Scenarios.
Variables (capital : float) (classified_at : Z).

Definition make_regime (regime_name : string) : RegimeClassification.t :=
  let regime_val :=
    if String.eqb regime_name "BEAR_TREND" then BEAR_TREND
    else if String.eqb regime_name "MEAN_REVERTING" then MEAN_REVERTING
    else if String.eqb regime_name "HIGH_VOL_CHAOS" then HIGH_VOL_CHAOS else BULL_TREND in
  RegimeClassification.mk regime_val (dec 85 2)
    (RegimeFeatures.mk (dec 30 0) (dec 60 0) (dec 2 0) (dec 1 0) (dec 2 1) (dec 15 1) (dec 14 0) false) 0 classified_at.

(** [RiskParameters] with its defaults for what no scenario sets. *)
Definition params (positions : list OpenPosition.t) (daily_pnl : float) (daily_trade_count : Z) (snapshot halted : bool)
    (sector : string) (returns : list float) : RiskParameters.t :=
  RiskParameters.mk capital positions daily_pnl daily_trade_count snapshot (make_regime "BULL_TREND") sector returns
    false None None halted.

Definition evaluated (p : RiskParameters.t) : result RiskDecision.t := evaluate (dec 2450 0) (dec 2413 0) p.

Definition scenario_normal := evaluated (params [] f_zero 2 false false "UNKNOWN" []).
Definition scenario_circuit_breaker := evaluated (params [] (dec (-2100) 0) 3 false false "UNKNOWN" []).
Definition scenario_halted := evaluated (params [] (dec 500 0) 1 false true "UNKNOWN" []).

Definition heat_position (i : nat) : OpenPosition.t :=
  OpenPosition.mk ("STOCK" +:+ pretty (Z.of_nat i)) "NSE" "LONG" 100 (dec 500 0) (dec 485 0) "IT" (dec 1500 0) [].

Definition scenario_portfolio_heat := evaluated (params (map heat_position (seq 0 5)) f_zero 5 false false "IT" []).
Definition scenario_snapshot_window := evaluated (params [] f_zero 2 true false "UNKNOWN" []).

Definition RETURNS : list float :=
  let base := [dec 1 2; dec (-5) 3; dec 8 3; dec (-3) 3; dec 12 3; dec 6 3; dec (-2) 3; dec 9 3] in base ++ base ++ base.

Definition scenario_correlation :=
  evaluated (params [OpenPosition.mk "RELIANCE" "NSE" "LONG" 100 (dec 2400 0) (dec 2364 0) "ENERGY" (dec 3600 0) RETURNS]
               f_zero 1 false false "ENERGY" RETURNS).
(** The scenarios that an option selects, with the expected verdict. *)
Definition SCENARIOS : list (string * string * bool * result RiskDecision.t) :=
  [("normal", "Normal approved trade", true, scenario_normal);
   ("circuit_breaker", "Circuit breaker (-2.1% P&L)", false, scenario_circuit_breaker);
   ("halted", "System halted flag", false, scenario_halted);
   ("heat", "Portfolio heat (7% filled)", false, scenario_portfolio_heat);
   ("snapshot", "Snapshot window (0.5× size)", true, scenario_snapshot_window);
   ("correlation", "Correlation guard (>0.7)", false, scenario_correlation)].

(** The decisions by label and the exit code. *)
Definition cmd_verify (scenario : string) : result (list (string * RiskDecision.t) * Z) :=
  let rows := List.filter (fun row => String.eqb scenario "all" || String.eqb scenario row.1.1.1) SCENARIOS in
  decisions ← mapM (fun row => d ← row.2; mret (row.1.1.2, row.1.2, d)) rows;
  let all_passed := forallb (fun led => Bool.eqb (RiskDecision.approved led.2) led.1.2) decisions in
  mret (map (fun led => (led.1.1, led.2)) decisions, if all_passed then 0 else 1).

End Scenarios.

(** The check that rejected an order. *)
Definition rejected_by (d : RiskDecision.t) : option string :=
  option_map RiskCheck.name (find_first (fun c => negb (RiskCheck.passed c)) (RiskDecision.checks d)).

Definition quantity_of (d : RiskDecision.t) : option Z := option_map PositionSize.quantity (RiskDecision.position_size d).

(** The acceptance scenarios of the risk engine hold of the model at every
    time of the classification: the normal trade is approved with 27 shares,
    the snapshot window with 13, and the others are rejected by the daily loss
    limit, the halt flag, the sector limit and the correlation guard. *)
Theorem risk_verify_passes classified_at :
  exists decisions, cmd_verify (dec 100000 0) classified_at "all" = Ok (decisions, 0)
    /\ map (fun ld => (ld.1, rejected_by ld.2, quantity_of ld.2)) decisions
       = [("Normal approved trade", None, Some 27); ("Circuit breaker (-2.1% P&L)", Some "CIRCUIT_BREAKER", None);
          ("System halted flag", Some "SYSTEM_HALTED", None); ("Portfolio heat (7% filled)", Some "MAX_SECTOR_RISK", None);
          ("Snapshot window (0.5× size)", None, Some 13); ("Correlation guard (>0.7)", Some "CORRELATION_GUARD", None)].
Proof. eexists. split; [vm_compute; reflexivity|]. vm_compute. reflexivity. Qed.
