(* ===== verification/IngestionVerify.v ===== *)
(** * Acceptance scenarios of the data ingestion ([ingestion/cli.py])

    The scenarios of [python -m shared.ingestion verify] with the fake Redis
    of the buffer, run against the model.  The wall clock shows [now_ms]
    throughout.  Scenario 20 measures the time a thousand injections take;
    what the model keeps of it is that none of them raises. *)

From S2P Require Import Prelude PyFloat PyDict Json Redis Constants Auth Ingestion Feeds IngestionAgent.
Local Open Scope Z_scope.

(** ** The fake Redis: lists only *)

Definition FakeRedis : Type := dict string (list json).

(** [lst[start: end + 1] if end >= 0 else lst[start:]] for [start >= 0] *)
Definition fake_slice (start end_ : Z) (lst : list json) : list json :=
  let n := Z.to_nat start in
  if 0 <=? end_ then drop n (take (Z.to_nat (end_ + 1)) lst) else drop n lst.

#[export] Instance fake_lists : RedisList FakeRedis := {|
  redis_rpush name v r := (Ok tt, dset name (default [] (dget name r) ++ [v]) r);
  redis_lrange name start end_ r := (Ok (fake_slice start end_ (default [] (dget name r))), r);
  redis_llen name r := (Ok (Z.of_nat (length (default [] (dget name r)))), r);
  redis_ltrim name start end_ r := (Ok tt, dset name (fake_slice start end_ (default [] (dget name r))) r);
|}.

(** ** The scenarios *)

Section Verify.
Context `{NumPyMinMax}.
Variables (now_ms : Z) (clock : Readings float).

(** [_tick(ltp=.., volume=.., ts_ms=..)] *)
Definition tick (ltp : float) (volume ts_ms : Z) : RawTick.t := RawTick.mk "RELIANCE" "NSE" ltp volume ts_ms.

Definition default_ltp : float := dec 2500 0.
Definition tick_at (ts_ms : Z) : RawTick.t := tick default_ltp 100 ts_ms.

(** [try: ... except TickValidationError: ok = True] *)
Definition rejected {A} (r : result A) : bool := match r with Raise (TickValidationError _) => true | _ => false end.

Definition accepts {A} (r : result A) : bool := match r with Ok _ => true | Raise _ => false end.

Definition validated (t : RawTick.t) (v : TickSequenceValidator) : result unit * TickSequenceValidator :=
  validate now_ms t v.

Definition scenario_01 : bool := rejected (fst (validated (tick f_zero 100 now_ms) [])).
Definition scenario_02 : bool := rejected (fst (validated (tick (dec (-1) 0) 100 now_ms) [])).
Definition scenario_03 : bool := rejected (fst (validated (tick default_ltp (-1) now_ms) [])).
Definition scenario_04 : bool := accepts (fst (validated (tick_at now_ms) [])).

(** The validator of scenarios 5 and 6. *)
Definition v05 : TickSequenceValidator := snd (validated (tick_at now_ms) []).

Definition scenario_05 : bool := rejected (fst (validated (tick_at (now_ms - 2000)) v05)).
Definition scenario_06 : bool :=
  accepts (fst (validated (tick_at (now_ms - 2000))
                  (validator_reset "RELIANCE" "NSE" (snd (validated (tick_at (now_ms - 2000)) v05))))).
Definition scenario_07 : bool := rejected (fst (validated (tick_at (now_ms + 10000)) [])).

(** *** The aggregator *)

Definition bar_start : Z := now_ms / 60000 * 60000.

(** The candle the last tick completes, and the aggregator. *)
Definition ingest_ticks (ts : list RawTick.t) : result (option OHLCVCandle.t) * CandleAggregator :=
  M_fold (fun _ t => ingest t) None ts (new_aggregator 60).

Definition last_candle (ts : list RawTick.t) : option OHLCVCandle.t :=
  match fst (ingest_ticks ts) with Ok c => c | Raise _ => None end.

Definition scenario_08 : bool :=
  match last_candle [tick_at (bar_start + 1000)] with None => true | Some _ => false end.
Definition scenario_09 : bool :=
  match last_candle [tick default_ltp 100 (bar_start + 1000); tick (dec 2510 0) 100 (bar_start + 61000)] with
  | Some _ => true
  | None => false
  end.
Definition scenario_10 : bool :=
  match last_candle [tick (dec 100 0) 10 (bar_start + 100); tick (dec 105 0) 20 (bar_start + 200);
                     tick (dec 98 0) 30 (bar_start + 300); tick (dec 102 0) 15 (bar_start + 400);
                     tick (dec 99 0) 5 (bar_start + 61000)] with
  | Some c => feq (OHLCVCandle.open c) (dec 100 0) && feq (OHLCVCandle.high c) (dec 105 0)
              && feq (OHLCVCandle.low c) (dec 98 0) && feq (OHLCVCandle.close c) (dec 102 0)
              && (OHLCVCandle.volume c =? 75)
  | None => false
  end.
Definition scenario_11 : bool :=
  match fst (flush (snd (ingest_ticks (map (fun vol => tick default_ltp vol (bar_start + 1000)) [50; 100; 200])))) with
  | Ok candles => match dget "NSE:RELIANCE" candles with Some c => OHLCVCandle.volume c =? 350 | None => false end
  | Raise _ => false
  end.

(** How many bars a flush returns, and the aggregator after it. *)
Definition flushed (a : CandleAggregator) : nat * CandleAggregator :=
  match flush a with (Ok candles, a') => (length candles, a') | (Raise _, a') => (O, a') end.

Definition scenario_12 : bool :=
  let '(n, agg) := flushed (snd (ingest_ticks [tick (dec 500 0) 100 now_ms])) in
  (n =? 1)%nat && (fst (flushed agg) =? 0)%nat.
Definition scenario_13 : bool :=
  (fst (flushed (aggregator_reset "RELIANCE" "NSE" (snd (ingest_ticks [tick_at now_ms])))) =? 0)%nat.

(** *** The buffer *)

Definition buffer (redis_client : option FakeRedis) : TickBuffer FakeRedis :=
  {| tb_redis := redis_client; tb_flush_count := TICK_BUFFER_FLUSH_COUNT;
     tb_flush_interval := TICK_BUFFER_FLUSH_INTERVAL_SECONDS; tb_memory := []; tb_last_flush_ts := reading clock 0 |}.

Definition buf14 : TickBuffer FakeRedis := push (tick (dec 2501 0) 100 now_ms) (push (tick_at now_ms) (buffer None)).

(** [len(buf.drain(k)) == got and buf.pending_count() == left]. *)
Definition drains (k : Z) (got : nat) (left_ : Z) (b : TickBuffer FakeRedis) : bool :=
  match drain (Some k) (reading clock 0) b with
  | (Ok ticks, b') => (length ticks =? got)%nat && (fst (pending_count b') =? left_)
  | (Raise _, _) => false
  end.

Definition scenario_14 : bool := fst (pending_count buf14) =? 2.
Definition scenario_15 : bool := drains 1 1 1 (snd (pending_count buf14)).
Definition scenario_16 : bool :=
  let buf16 := Nat.iter 3 (push (tick_at now_ms)) (buffer (Some [])) in
  (fst (pending_count buf16) =? 3) && drains 2 2 1 (snd (pending_count buf16)).

(** *** The agent *)

#[local] Instance no_socket : WebSocketProvider unit := {
  ws_connect w := (Ok tt, w); ws_disconnect w := (Ok tt, w); ws_is_connected w := (Ok false, w);
}.
#[local] Instance no_download : YFinance unit := { yf_download _ _ y := (Ok None, y) }.
#[local] Instance no_keys : RedisKV unit := {
  redis_get _ r := (Ok None, r); redis_set _ _ _ r := (Ok tt, r); redis_delete _ r := (Ok tt, r);
}.

(** [DataIngestionAgent(symbols=["RELIANCE"], exchange="NSE", mode=PAPER)] *)
Definition agent : DataIngestionAgent unit unit FakeRedis unit :=
  {| ia_symbols := ["RELIANCE"]; ia_exchange := "NSE"; ia_ws := None;
     ia_fallback := {| fb_period_minutes := 5; fb_package := None |};
     ia_validator := []; ia_agg1m := new_aggregator CANDLE_INTERVAL_1M; ia_agg5m := new_aggregator CANDLE_INTERVAL_5M;
     ia_buffer := buffer None; ia_status_redis := None; ia_mode := PAPER; ia_last_tick_ts := f_zero;
     ia_latest_1m := []; ia_latest_5m := []; ia_running := false; ia_watchdog := false; ia_clock := clock |}.

Definition scenario_17 : bool := bool_decide (ia_mode agent = PAPER).

(** Scenarios 18 and 19: three ticks, the third in the next minute. *)
Definition scenarios_18_19 : bool * bool :=
  let t3 := bar_start - 120000 in
  let injected := (_ ← inject_tick (tick default_ltp 100 (t3 + 500));
                   _ ← inject_tick (tick (dec 2505 0) 100 (t3 + 1000));
                   inject_tick (tick (dec 2510 0) 100 (t3 + 61000))) agent in
  match injected with
  | (Ok candles, agent18) =>
      ((1 <=? length candles)%nat && existsb (fun c => OHLCVCandle.interval_seconds c =? 60) candles,
       match get_latest_candle "RELIANCE" 60 agent18 with
       | Some latest => feq (OHLCVCandle.close latest) (dec 2505 0)
       | None => false
       end)
  | (Raise _, _) => (false, false)
  end.

Definition scenario_20 : bool :=
  let t4 := now_ms - 120000 in
  accepts (fst (M_for (fun i => _ ← inject_tick (tick (default_ltp + dec i 0 * dec 1 3)%pf 100 (t4 + i * 60)); mret tt)
                  (seqZ 0 1000) agent)).

Definition run_verify : list bool * bool :=
  let results := [scenario_01; scenario_02; scenario_03; scenario_04; scenario_05; scenario_06; scenario_07; scenario_08;
                  scenario_09; scenario_10; scenario_11; scenario_12; scenario_13; scenario_14; scenario_15; scenario_16;
                  scenario_17; fst scenarios_18_19; snd scenarios_18_19; scenario_20] in
  (results, forallb id results).

End Verify.

(** The acceptance scenarios of the data ingestion hold of the model on
    2 July 2026: the validation of ticks, the aggregation into bars, the
    buffer with and without Redis, and the agent in paper mode. *)
Theorem ingestion_verify_passes :
  run_verify (H := numpy_min_max) 1782990012345 {| reading _ := dec 1782990012345 3; taken := 0 |}
  = (replicate 20 true, true).
Proof. vm_compute. reflexivity. Qed.
