(* ===== verification/AuthVerify.v ===== *)
(** * Acceptance scenarios of the broker authentication ([auth/cli.py])

    The scenarios of [python -m shared.auth verify] with the fake Redis and
    the scripted HTTP session, run against the model.  Scenario 8, which
    captures the log, scenario 15, which looks at the heartbeat thread, and
    scenario 19, which counts the calls of a callback, are left out.  The wall clock shows [now_ms] throughout; [totp] stands for
    pyotp, and kiteconnect is not installed. *)

From S2P Require Import Prelude PyFloat PyDict Json PyText Redis Constants Auth.
Local Open Scope Z_scope.

(** ** Doubles *)

(** [_FakeRedis]: each value with its time to live. *)
Definition FakeRedis : Type := dict string (string * option Z).

#[export] Instance fake_redis_kv : RedisKV FakeRedis := {|
  redis_get name r := (Ok (fst <$> dget name r), r);
  redis_set name value ex r := (Ok tt, dset name (value, ex) r);
  redis_delete name r := (Ok tt, ddel name r);
|}.

Definition get_ttl (name : string) (r : FakeRedis) : option Z := dget name r ≫= snd.

(** [mock_session.post.side_effect = [...]]: the documents still to be
    returned. *)
Definition MockSession : Type := list json.

#[export] Instance mock_session : HttpSession MockSession := {|
  http_post_json _ _ responses :=
    match responses with
    | document :: responses => (Ok document, responses)
    | [] => (Raise (OtherError "StopIteration"), [])
    end;
|}.

(** [TokenRecord.__repr__] *)
Definition token_repr (r : TokenRecord.t) : string :=
  "TokenRecord(broker=" +:+ py_repr (JStr (TokenRecord.broker r)) +:+ ", user_id=" +:+ py_repr (JStr (TokenRecord.user_id r))
  +:+ ", mode=" +:+ py_repr (JStr (AuthMode_value (TokenRecord.mode r)))
  +:+ ", expires_at_ms=" +:+ pretty (TokenRecord.expires_at_ms r) +:+ ")".

(** ** The scenarios *)

Section Verify.
Variables (now_ms : Z) (totp : string -> string).

#[local] Instance env : KiteEnv := {| totp_now := totp; generate_session := None |}.

Definition store (redis_client : option FakeRedis) : TokenStore FakeRedis := {| ts_redis := redis_client; ts_memory := [] |}.

Definition manager (user_id password api_key api_secret : string) (token_store : TokenStore FakeRedis) (mode : AuthMode)
    (http_session : MockSession) : KiteAuthManager FakeRedis MockSession :=
  {| ka_user_id := user_id; ka_password := password; ka_totp_secret := "JBSWY3DPEHPK3PXP"; ka_api_key := api_key;
     ka_api_secret := api_secret; ka_store := token_store; ka_mode := mode; ka_http := http_session;
     ka_clock := {| reading _ := now_ms; taken := 0 |} |}.

Definition record_is (test : TokenRecord.t -> bool) (r : result TokenRecord.t) : bool :=
  match r with Ok r => test r | Raise _ => false end.
Definition loaded (test : TokenRecord.t -> bool) (r : result (option TokenRecord.t)) : bool :=
  match r with Ok (Some r) => test r | _ => false end.
Definition has_token (token : string) (r : TokenRecord.t) : bool := String.eqb (TokenRecord.access_token r) token.

Definition scenario_01 : bool :=
  let code := totp "JBSWY3DPEHPK3PXP" in (String.length code =? 6)%nat && str_forall is_digit code.

Definition login02 := login (manager "TEST_USER" "secret" "api_key" "api_secret" (store None) PAPER []).

Definition scenario_02 : bool :=
  record_is (fun r => String.eqb (TokenRecord.broker r) "kite" && bool_decide (TokenRecord.mode r = PAPER)
                      && has_token "PAPER_TOKEN_SIMULATED" r && String.eqb (TokenRecord.user_id r) "TEST_USER")
    (fst login02).

(** The store of scenarios 3 and 4. *)
Definition store03 : TokenStore FakeRedis := ka_store (snd (login (manager "U1" "p" "k" "s" (store (Some [])) PAPER []))).

Definition scenario_03 : bool :=
  match ts_redis store03 with
  | Some r => bool_decide (get_ttl "auth:kite:access_token" r = Some KITE_SESSION_TTL_SECONDS)
  | None => false
  end.

Definition loaded04 : result (option TokenRecord.t) := fst (load now_ms "kite" store03).

Definition scenario_04 : bool := loaded (has_token "PAPER_TOKEN_SIMULATED") loaded04.

Definition scenario_05 : bool :=
  is_valid (TokenRecord.mk "kite" "T" now_ms (now_ms + 10000) "U" PAPER) now_ms
  && negb (is_valid (TokenRecord.mk "kite" "T" (now_ms - 20000) (now_ms - 1) "U" PAPER) now_ms).

Definition expired_payload : string :=
  json_dumps (JObj [("broker", JStr "kite"); ("access_token", JStr "OLD"); ("issued_at_ms", JInt 0);
                    ("expires_at_ms", JInt 1); ("user_id", JStr "U"); ("mode", JStr "PAPER")]).

Definition scenario_06 : bool :=
  let redis06 := [("auth:kite:access_token", (expired_payload, Some KITE_SESSION_TTL_SECONDS))] in
  match fst (load now_ms "kite" (store (Some redis06))) with Ok None => true | _ => false end.

Definition scenario_07 : bool :=
  loaded (has_token "PAPER_TOKEN_SIMULATED")
    (fst (load now_ms "kite" (ka_store (snd (login (manager "U2" "p" "k" "s" (store None) PAPER [])))))).

(** *** The connection pool *)

Definition pool (mode : AuthMode) (pool_size : Z) : result (IBKRConnectionPool unit) := new_pool "127.0.0.1" mode pool_size 0 false.

(** A scenario that starts with a new pool. *)
Definition on_pool {A} (mode : AuthMode) (pool_size : Z) (m : M (IBKRConnectionPool unit) A) : result A :=
  p ← pool mode pool_size; fst (m p).

Definition passes (r : result bool) : bool := match r with Ok b => b | Raise _ => false end.

(** [slot.in_use == used and pool.available_count() == free]; the slot is the
    pool's own object. *)
Definition slot_state (slot : nat) (used : bool) (free : Z) (p : IBKRConnectionPool unit) : bool :=
  match pool_slots p !! slot with Some s => Bool.eqb (in_use s) used | None => false end && (available_count p =? free).

Definition scenario_09 : bool := passes (on_pool PAPER 2 (slot ← acquire; p ← M_get; mret (slot_state slot true 1 p))).
Definition scenario_10 : bool :=
  passes (on_pool PAPER 2 (slot ← acquire; _ ← release slot; p ← M_get; mret (slot_state slot false 2 p))).
Definition scenario_11 : bool :=
  match on_pool PAPER 2 (_ ← acquire; _ ← acquire; M_catch acquire) with Ok (Raise (AuthError _)) => true | _ => false end.
Definition scenario_12 : bool := match pool PAPER 4 with Ok p => pool_port p =? IBKR_PAPER_PORT | Raise _ => false end.
Definition scenario_13 : bool := match pool LIVE 4 with Ok p => pool_port p =? IBKR_LIVE_PORT | Raise _ => false end.
Definition scenario_14 : bool :=
  match pool PAPER (IBKR_CLIENT_ID_POOL_MAX + 1) with Raise (ValueError _) => true | _ => false end.

(** *** The manager *)

Definition mgr16 : KiteAuthManager FakeRedis MockSession := manager "U4" "p" "k" "s" (store None) PAPER [].

(** Scenarios 16 and 17; the [assert] between them is part of 17. *)
Definition scenarios_16_17 : bool * bool :=
  let run :=
    (r16a ← get_token;
     r16b ← get_token;
     _ ← invalidate;
     s ← M_get;
     r16c ← get_token;
     mret (String.eqb (TokenRecord.access_token r16a) (TokenRecord.access_token r16b),
           match fst (load now_ms "kite" (ka_store s)) with Ok None => true | _ => false end
           && has_token "PAPER_TOKEN_SIMULATED" r16c)) mgr16 in
  match fst run with Ok oks => oks | Raise _ => (false, false) end.

Definition login18 :=
  login (manager "LIVEUSER" "livepass" "key18" "sec18" (store None) LIVE
    [JObj [("data", JObj [("request_id", JStr "REQ123")])]; JObj [("data", JObj [("request_token", JStr "REQTOKEN456")])]]).

Definition scenario_18 : bool :=
  record_is (fun r => String.eqb (TokenRecord.broker r) "kite" && bool_decide (TokenRecord.mode r = LIVE)
                      && String.eqb (TokenRecord.user_id r) "LIVEUSER" && str_contains "REQTOKEN456" (TokenRecord.access_token r))
    (fst login18).

Definition hides_token (r : TokenRecord.t) : bool :=
  negb (str_contains "PAPER_TOKEN_SIMULATED" (token_repr r)) && negb (str_contains "REQTOKEN" (token_repr r)).

Definition scenario_20 : bool :=
  record_is hides_token (fst login02) && loaded hides_token loaded04 && record_is hides_token (fst login18).

Definition run_verify : list bool * bool :=
  let results := [scenario_01; scenario_02; scenario_03; scenario_04; scenario_05; scenario_06; scenario_07; scenario_09;
                  scenario_10; scenario_11; scenario_12; scenario_13; scenario_14; fst scenarios_16_17; snd scenarios_16_17;
                  scenario_18; scenario_20] in
  (results, forallb id results).

End Verify.

(** The acceptance scenarios of the authentication hold of the model on
    2 July 2026, up to the one that tests the code pyotp returns. *)
Theorem auth_verify_passes totp :
  run_verify 1782990012345 totp = (scenario_01 totp :: replicate 16 true, scenario_01 totp).
Proof. unfold run_verify. generalize (scenario_01 totp) as ok. intros []; vm_compute; reflexivity. Qed.
