(* ===== verification/ApiApp.v ===== *)
(** * The application of the REST API ([api/app.py], [api/routers/])

    The routers with their prefixes and the order in which [create_app]
    includes them, and the requests they serve.  Starlette's routing is a
    parameter, [Starlette], with what it documents of the choice of a route;
    a query parameter outside its bounds is 422, after the dependencies of
    the endpoint have run.  The WebSocket route is not served here. *)

From S2P Require Import Prelude PyFloat PyDict Json PyText Redis Constants Signals SignalPublisher Config Api.
Local Open Scope Z_scope.

Inductive Method := GET | POST | WEBSOCKET | OTHER_METHOD (name : string).

#[export] Instance Method_eq_dec : EqDecision Method.
Proof. solve_decision. Defined.

(** The header and the query parameters that the endpoints read. *)
Module Request.
Record t := mk {
  method : Method;
  path : string;
  x_api_key : option string;
  limit : option Z;
  exchange : option string;
}.
End Request.

(** The response models. *)
Inductive Body : Type :=
| HealthBody (fields : list (string * string))
| StatusBody (s : SystemStatus.t)
| PositionsBody (l : list PositionOut.t)
| SignalsBody (l : list SignalOut.t)
| PnLBody (p : PnLOut.t)
| WatchlistBody (l : list WatchlistOut.t)
| ControlBody (c : ControlResponse.t).

Definition body_map {A R} (f : A -> Body) (x : Response A * R) : Response Body * R :=
  (match x.1 with Reply a => Reply (f a) | HttpError s d => HttpError s d | ServerError e => ServerError e end, x.2).

(** [health]. *)
Definition health : list (string * string) := [("status", "ok")].

Section App.
Context {R : Type} `{RedisKV R} `{RedisStreamRead R} (settings : Settings.t).

(** An endpoint gets the request and the clock: the milliseconds and the UTC
    date. *)
Definition Endpoint : Type := Request.t -> Z -> Z -> R -> Response Body * R.

Record Route := { route_method : Method; route_path : string; endpoint : Endpoint }.

Record Router := { prefix : string; routes : list Route }.

(** A reading endpoint, behind [optional_api_key]. *)
Definition reading {A} (f : A -> Body) (body : Request.t -> Z -> Z -> R -> Response A * R) : Endpoint :=
  fun req now_ms today r => body_map f (read_route settings (Request.x_api_key req) (body req now_ms today) r).

(** [limit: int = Query(default=20, ge=1, le=API_SIGNALS_STREAM_MAX_READ)] *)
Definition signals_limit (req : Request.t) : option Z :=
  let limit := default 20 (Request.limit req) in
  if (1 <=? limit) && (limit <=? API_SIGNALS_STREAM_MAX_READ) then Some limit else None.

Definition signals_endpoint (req : Request.t) (now_ms today : Z) (r : R) : Response (list SignalOut.t) * R :=
  match signals_limit req with
  | Some limit => get_signals limit now_ms r
  | None => (HttpError 422 "Unprocessable Entity", r)
  end.

Definition get (path : string) (e : Endpoint) : Route := {| route_method := GET; route_path := path; endpoint := e |}.

Definition control_route (path : string) (c : Control) : Route :=
  {| route_method := POST; route_path := path;
     endpoint req now_ms _ r := body_map ControlBody (post_control settings c (Request.x_api_key req) now_ms r) |}.

Definition health_router : Router :=
  {| prefix := ""; routes := [get "/health" (fun _ _ _ r => (Reply (HealthBody health), r))] |}.
Definition status_router : Router :=
  {| prefix := "/api/v1"; routes := [get "/status" (reading StatusBody (fun _ now_ms _ => get_status settings now_ms))] |}.
Definition positions_router : Router :=
  {| prefix := "/api/v1"; routes := [get "/positions" (reading PositionsBody (fun _ _ _ => get_positions))] |}.
Definition signals_router : Router :=
  {| prefix := "/api/v1"; routes := [get "/signals" (reading SignalsBody signals_endpoint)] |}.
Definition pnl_router : Router :=
  {| prefix := "/api/v1"; routes := [get "/pnl" (reading PnLBody (fun _ _ today => get_pnl today))] |}.
Definition watchlist_router : Router :=
  {| prefix := "/api/v1";
     routes := [get "/watchlist" (reading WatchlistBody (fun req _ _ => get_watchlist (default "NSE" (Request.exchange req))))] |}.
Definition controls_router : Router :=
  {| prefix := "/api/v1/controls";
     routes := [control_route "/kill" KILL; control_route "/pause" PAUSE; control_route "/resume" RESUME] |}.
Definition ws_router : Router :=
  {| prefix := ""; routes := [{| route_method := WEBSOCKET; route_path := "/ws/live";
                                 endpoint _ _ _ r := (HttpError 404 "Not Found", r) |}] |}.

(** [app.include_router(router)]. *)
Definition include_router (router : Router) (app : list Route) : list Route :=
  app ++ map (fun rt => {| route_method := route_method rt; route_path := prefix router +:+ route_path rt;
                           endpoint := endpoint rt |}) (routes router).

Definition create_app : list Route :=
  foldl (fun app router => include_router router app) []
    [health_router; status_router; positions_router; signals_router; pnl_router; watchlist_router; controls_router; ws_router].

End App.
#[global] Arguments Route R : clear implicits.
#[global] Arguments Router R : clear implicits.
#[global] Arguments Endpoint R : clear implicits.

(** *** Routing *)

Definition matches {R} (req : Request.t) (rt : Route R) : bool :=
  bool_decide (route_path rt = Request.path req) && bool_decide (route_method rt = Request.method req)
  && negb (bool_decide (route_method rt = WEBSOCKET)).

(** What Starlette documents of its routing: the routes are tried in order and
    the first with the path and the method serves; a request that no route
    matches is answered with an error and reaches no endpoint. *)
Class Starlette (R : Type) := {
  handle : list (Route R) -> Request.t -> Z -> Z -> R -> Response Body * R;
  handle_matched app req now_ms today r rt :
    List.find (matches req) app = Some rt -> handle app req now_ms today r = endpoint rt req now_ms today r;
  handle_unmatched app req now_ms today r :
    List.find (matches req) app = None ->
    exists status detail, handle app req now_ms today r = (HttpError status detail, r);
}.

(** The routing with its two errors: 405 for a known path and 404 for another. *)
#[export] Program Instance default_routing {R} : Starlette R | 100 := {
  handle app req now_ms today r :=
    match List.find (matches req) app with
    | Some rt => endpoint rt req now_ms today r
    | None =>
        if existsb (fun rt => bool_decide (route_path rt = Request.path req) && negb (bool_decide (route_method rt = WEBSOCKET))) app
        then (HttpError 405 "Method Not Allowed", r) else (HttpError 404 "Not Found", r)
    end;
}.
Next Obligation. intros R app req now_ms today r rt E. cbn. by rewrite E. Qed.
Next Obligation. intros R app req now_ms today r E. cbn. rewrite E. destruct (existsb _ _); by eexists _, _. Qed.

Section Serving.
Context {R : Type} `{RedisKV R} `{RedisStreamRead R} `{Starlette R} (settings : Settings.t).

Definition serve : Request.t -> Z -> Z -> R -> Response Body * R := handle (create_app settings).

(** A series of requests, each with its clock. *)
Definition serve_all (reqs : list (Request.t * Z * Z)) (r : R) : R :=
  foldl (fun r req => (serve req.1.1 req.1.2 req.2 r).2) r reqs.
End Serving.

(** * Theorems *)

(** [XREVRANGE] reads: it changes no key. *)
Class RedisStreamReadKV (R : Type) `{RedisKVLaws R} `{RedisStreamRead R} := {
  redis_xrevrange_ids_kv k n r v r' : redis_xrevrange_ids k n r = (v, r') -> redis_kv r' = redis_kv r;
}.

Section AppTheory.
Context {R : Type} `{KL : RedisKVLaws R} `{SR : RedisStreamRead R} `{ST : Starlette R} (settings : Settings.t).

(** The request carries the configured key. *)
Definition keyed_post (req : Request.t) : Prop :=
  Request.method req = POST /\ Settings.api_key settings <> "" /\ Request.x_api_key req = Some (Settings.api_key settings).

Lemma read_state_kv (r : R) : redis_kv (read_state r).2 = redis_kv r.
Proof.
  unfold read_state. destruct (redis_get _ r) as [v r'] eqn:E. apply redis_get_spec in E as [K _].
  destruct v as [[text|]|e]; cbn [snd]; try done. by destruct (is_empty text).
Qed.

Lemma bool_key_kv k (r : R) : redis_kv (bool_key k r).2 = redis_kv r.
Proof. unfold bool_key. destruct (redis_get _ r) as [v r'] eqn:E. by apply redis_get_spec in E as [K _]. Qed.

Lemma read_total_pnl_kv today (r : R) : redis_kv (read_total_pnl today r).2 = redis_kv r.
Proof. unfold read_total_pnl. destruct (redis_get _ r) as [v r'] eqn:E. by apply redis_get_spec in E as [K _]. Qed.

Lemma get_status_kv now_ms (r : R) : redis_kv (get_status settings now_ms r).2 = redis_kv r.
Proof.
  unfold get_status. destruct (read_state r) as [st r1] eqn:E1. destruct (bool_key KILL_SWITCH_HALTED_KEY r1) as [b2 r2] eqn:E2.
  destruct (bool_key API_PAUSE_REDIS_KEY r2) as [b3 r3] eqn:E3. destruct (bool_key INGESTION_DEGRADED_REDIS_KEY r3) as [b4 r4] eqn:E4.
  cbn [snd]. pose proof (read_state_kv r) as K. rewrite E1 in K. cbn [snd] in K. rewrite <- K.
  pose proof (bool_key_kv KILL_SWITCH_HALTED_KEY r1) as K1. rewrite E2 in K1. cbn [snd] in K1. rewrite <- K1.
  pose proof (bool_key_kv API_PAUSE_REDIS_KEY r2) as K2. rewrite E3 in K2. cbn [snd] in K2. rewrite <- K2.
  pose proof (bool_key_kv INGESTION_DEGRADED_REDIS_KEY r3) as K3. by rewrite E4 in K3.
Qed.

Lemma get_positions_kv (r : R) : redis_kv (get_positions r).2 = redis_kv r.
Proof. unfold get_positions. pose proof (read_state_kv r) as K. by destruct (read_state r). Qed.

Lemma get_pnl_kv today (r : R) : redis_kv (get_pnl today r).2 = redis_kv r.
Proof.
  unfold get_pnl. pose proof (read_total_pnl_kv today r) as K1. destruct (read_total_pnl today r) as [p r1]. cbn [snd] in K1.
  pose proof (read_state_kv r1) as K2. destruct (read_state r1) as [st r2]. cbn [snd] in K2.
  destruct (starting_capital_of st) as [c|e]; [|cbn [snd]; congruence].
  pose proof (bool_key_kv KILL_SWITCH_HALTED_KEY r2) as K3. destruct (bool_key KILL_SWITCH_HALTED_KEY r2) as [b r3].
  cbn [snd] in *. congruence.
Qed.

Lemma get_watchlist_kv exchange (r : R) : redis_kv (get_watchlist exchange r).2 = redis_kv r.
Proof.
  unfold get_watchlist. destruct (redis_get _ r) as [v r'] eqn:E. apply redis_get_spec in E as [K _].
  destruct v as [[text|]|e]; cbn [snd]; try done. destruct (is_empty text); [done|]. by destruct (json_loads text).
Qed.

Lemma signals_endpoint_kv `{!RedisStreamReadKV R} req now_ms today (r : R) :
  redis_kv (signals_endpoint req now_ms today r).2 = redis_kv r.
Proof.
  unfold signals_endpoint, get_signals. destruct (signals_limit req) as [n|]; [|done].
  destruct (redis_xrevrange_ids _ n r) as [v r'] eqn:E. apply redis_xrevrange_ids_kv in E. by destruct v.
Qed.

Lemma reading_kv {A} (f : A -> Body) body req now_ms today (r : R) :
  (forall r, redis_kv (body req now_ms today r).2 = redis_kv r) ->
  redis_kv (reading settings f body req now_ms today r).2 = redis_kv r.
Proof. intros Hb. unfold reading, body_map, read_route, guarded. cbn [snd]. by destruct (optional_api_key _ _) as [[]|]. Qed.

(** What a route may do: a [POST] acts only for the configured key, the others
    change no key. *)
Definition route_safe (rt : Route R) : Prop :=
  forall req now_ms today r, Request.method req = route_method rt -> ~ keyed_post req ->
  redis_kv (endpoint rt req now_ms today r).2 = redis_kv r.

Lemma control_route_safe path c : route_safe (control_route settings path c).
Proof.
  intros req now_ms today r Hm Hk. unfold control_route, body_map. cbn [endpoint snd]. unfold post_control, guarded.
  destruct (require_api_key settings (Request.x_api_key req)) as [[s d]|] eqn:E; [done|].
  apply require_api_key_spec in E as [E1 E2]. destruct Hk. by split_and!.
Qed.

Lemma create_app_safe `{!RedisStreamReadKV R} : Forall route_safe (create_app settings).
Proof.
  repeat constructor; try apply control_route_safe; try done; intros req now_ms today r _ _;
    cbn [endpoint get]; apply reading_kv; intros r'; auto using get_status_kv, get_positions_kv, get_pnl_kv,
      get_watchlist_kv, signals_endpoint_kv.
Qed.

Lemma serve_safe `{!RedisStreamReadKV R} req now_ms today (r : R) :
  ~ keyed_post req -> redis_kv (serve settings req now_ms today r).2 = redis_kv r.
Proof.
  intros Hreq. unfold serve. destruct (List.find (matches req) (create_app settings)) as [rt|] eqn:E.
  - rewrite (handle_matched _ _ _ _ _ _ E). apply List.find_some in E as [Hin Hp].
    apply andb_true_iff in Hp as [[_ Hm]%andb_true_iff _]. apply bool_decide_eq_true in Hm.
    pose proof (proj1 (List.Forall_forall _ _) create_app_safe rt Hin) as Hs. by apply Hs.
  - by destruct (handle_unmatched _ _ now_ms today r E) as (status & detail & ->).
Qed.

(** C14. Only an operator with the key changes the server: any request that is
    not a [POST] with the configured key, whatever its path and parameters,
    leaves every Redis key as it is, and so does any series of them. *)
Theorem only_keyed_posts_write `{!RedisStreamReadKV R} reqs (r : R) :
  Forall (fun req => ~ keyed_post req.1.1) reqs -> redis_kv (serve_all settings reqs r) = redis_kv r.
Proof.
  unfold serve_all. revert r. induction reqs as [|[[req now_ms] today] reqs IH]; [done|]. intros r [Hreq Hreqs]%Forall_cons.
  cbn [foldl fst snd]. rewrite IH by done. by apply serve_safe.
Qed.

(** Every HTTP path of the application but the liveness probe is under
    [/api/v1/], and no two routes share a path and a method. *)
Theorem routes_well_formed :
  Forall (fun rt => route_path rt ∈ ["/health"; "/ws/live"] \/ String.prefix "/api/v1/" (route_path rt) = true)
    (create_app (R := R) settings)
  /\ NoDup (map (fun rt => (route_method rt, route_path rt)) (create_app (R := R) settings)).
Proof.
  split; [repeat (constructor; [cbn; first [by right | left; set_solver]|]); constructor|].
  apply (bool_decide_unpack _). vm_compute. exact I.
Qed.
End AppTheory.

#[export] Instance MemRedis_StreamReadKV : RedisStreamReadKV MemRedis.
Proof.
  constructor. intros k n r v r'. unfold redis_xrevrange_ids; cbn. unfold mem_guard. by destruct (mem_up r); intros [= _ <-].
Qed.

(** The server of the tests: a key is configured. *)
Definition secret_settings : Settings.t :=
  Settings.mk None "development" "INFO" TradingMode.PAPER false "" "" "" "secret" 8080 "" "" "" "" 587 "" "" "" "".

Lemma only_keyed_posts_write_witness :
  redis_kv (serve_all secret_settings
    [(Request.mk POST "/api/v1/controls/pause" (Some "guess") None None, 0, 0);
     (Request.mk GET "/api/v1/status" (Some "secret") None None, 0, 0)] mem_empty) = redis_kv mem_empty.
Proof. apply (only_keyed_posts_write secret_settings). repeat constructor; by intros (? & ? & ?). Defined.
