(* ===== verification/ApiVerify.v ===== *)
(** * Acceptance scenarios of the REST API ([api/cli.py])

    The twenty scenarios of [python -m api] with their mock of the Redis
    client, run against the application of [ApiApp]. *)

From S2P Require Import Prelude PyFloat PyDict Json PyText Redis Constants Config Api ApiApp.
Local Open Scope Z_scope.

(** [_redis_mock(halted=.., ...)] *)
Record RedisMock := {
  halted : bool;
  paused : bool;
  degraded : bool;
  state : list (string * json);
  pnl : float;
  watchlist : option (list json);
  stream_entries : list (string * list (string * string));
}.

Definition redis_mock : RedisMock :=
  {| halted := false; paused := false; degraded := false; state := []; pnl := f_zero; watchlist := None; stream_entries := [] |}.

(** [_get(key)]. *)
Definition mock_get (key : string) (r : RedisMock) : option string :=
  if String.prefix "risk:daily:pnl:" key then (if is_zero (pnl r) then None else Some (repr (pnl r)))
  else if String.eqb key "system:status:halted" then (if halted r then Some "1" else None)
  else if String.eqb key "system:status:paused" then (if paused r then Some "1" else None)
  else if String.eqb key "system:status:degraded" then (if degraded r then Some "1" else None)
  else if String.eqb key "orchestrator:state" then Some (json_dumps (JObj (state r)))
  else if String.eqb key "universe:watchlist:NSE" then (json_dumps ∘ JList) <$> watchlist r
  else None.

#[export] Instance mock_kv : RedisKV RedisMock := {|
  redis_get key r := (Ok (mock_get key r), r);
  redis_set _ _ _ r := (Ok tt, r);
  redis_delete _ r := (Ok tt, r);
|}.

#[export] Instance mock_stream : RedisStreamRead RedisMock := {|
  redis_xrevrange_ids _ _ r := (Ok (stream_entries r), r);
  redis_xread _ _ _ r := (Ok (stream_entries r), r);
|}.

Section Verify.
Variables (settings : Settings.t) (now_ms today : Z).

(** [mock_s.api_key = ...] *)
Definition with_api_key (k : string) (s : Settings.t) : Settings.t :=
  Settings.mk (Settings.app_id s) (Settings.environment s) (Settings.log_level s) (Settings.trading_mode s)
    (Settings.live_trading_confirmed s) (Settings.redis_url s) (Settings.postgres_dsn s) (Settings.timescale_dsn s) k
    (Settings.api_port s) (Settings.api_dashboard_base_url s) (Settings.telegram_bot_token s) (Settings.telegram_chat_id s)
    (Settings.smtp_host s) (Settings.smtp_port s) (Settings.smtp_username s) (Settings.smtp_password s)
    (Settings.alert_email_from s) (Settings.alert_email_to s).

Definition client (s : Settings.t) (r : RedisMock) (method : Method) (path : string) (key : option string) : Response Body :=
  fst (serve s (Request.mk method path key None None) now_ms today r).

(** [resp.status_code == 200] and a test of the body. *)
Definition ok_with (test : Body -> bool) (resp : Response Body) : bool := match resp with Reply b => test b | _ => false end.

Definition status_in (codes : list Z) (resp : Response Body) : bool :=
  match resp with HttpError s _ => bool_decide (s ∈ codes) | Reply _ => bool_decide (200 ∈ codes) | ServerError _ => bool_decide (500 ∈ codes) end.

Definition gets (r : RedisMock) (path : string) : Response Body := client settings r GET path None.

Definition status_flag (test : SystemStatus.t -> bool) : Response Body -> bool :=
  ok_with (fun b => match b with StatusBody s => test s | _ => false end).

Definition is_nil {A} (l : list A) : bool := match l with [] => true | _ => false end.

Definition s01_health_endpoint_returns_ok : bool :=
  ok_with (fun b => match b with HealthBody f => bool_decide (dget "status" f = Some "ok") | _ => false end) (gets redis_mock "/health").
Definition s02_status_no_redis_returns_defaults : bool :=
  status_flag (negb ∘ SystemStatus.is_halted) (gets redis_mock "/api/v1/status").
Definition s03_positions_empty_with_no_state : bool :=
  ok_with (fun b => match b with PositionsBody l => is_nil l | _ => false end) (gets redis_mock "/api/v1/positions").
Definition s04_signals_empty_with_no_stream : bool :=
  ok_with (fun b => match b with SignalsBody l => is_nil l | _ => false end) (gets redis_mock "/api/v1/signals").
Definition total_pnl_is (v : float) : Response Body -> bool :=
  ok_with (fun b => match b with PnLBody p => feq (PnLOut.total_pnl p) v | _ => false end).
Definition s05_pnl_zero_with_no_state : bool := total_pnl_is f_zero (gets redis_mock "/api/v1/pnl").
Definition s06_watchlist_empty_with_no_state : bool :=
  ok_with (fun b => match b with WatchlistBody l => is_nil l | _ => false end) (gets redis_mock "/api/v1/watchlist").

(** A control of the application with a configured key. *)
Definition posts (configured : string) (action : string) (key : option string) : Response Body :=
  client (with_api_key configured settings) redis_mock POST ("/api/v1/controls/" +:+ action) key.

Definition control_is (test : ControlResponse.t -> bool) : Response Body -> bool :=
  ok_with (fun b => match b with ControlBody c => test c | _ => false end).

Definition s07_kill_requires_api_key : bool := status_in [401; 403] (posts "secret" "kill" None).
(** The kill switch is a mock that triggers. *)
Definition s08_kill_with_valid_key_succeeds : bool :=
  control_is ControlResponse.success
    (fst (body_map ControlBody
            (guarded (require_api_key (with_api_key "secret" settings) (Some "secret"))
               (fun r => (control "kill" "Tier 2 kill switch triggered" (Ok tt), r)) redis_mock))).
Definition s09_pause_sets_redis_flag : bool :=
  control_is (fun c => String.eqb (ControlResponse.action c) "pause") (posts "secret" "pause" (Some "secret")).
Definition s10_resume_clears_redis_flag : bool :=
  control_is (fun c => String.eqb (ControlResponse.action c) "resume" && ControlResponse.success c)
    (posts "secret" "resume" (Some "secret")).
Definition s11_invalid_api_key_rejected : bool := status_in [403] (posts "correct-key" "kill" (Some "wrong-key")).

Definition with_flags (h p d : bool) : RedisMock :=
  {| halted := h; paused := p; degraded := d; state := []; pnl := f_zero; watchlist := None; stream_entries := [] |}.

Definition s12_status_reflects_halted_state : bool :=
  status_flag SystemStatus.is_halted (gets (with_flags true false false) "/api/v1/status").
Definition s13_status_reflects_paused_state : bool :=
  status_flag SystemStatus.is_paused (gets (with_flags false true false) "/api/v1/status").
Definition s14_status_reflects_degraded_state : bool :=
  status_flag SystemStatus.is_degraded (gets (with_flags false false true) "/api/v1/status").

Definition with_data (st : list (string * json)) (p : float) (wl : option (list json))
    (entries : list (string * list (string * string))) : RedisMock :=
  {| halted := false; paused := false; degraded := false; state := st; pnl := p; watchlist := wl; stream_entries := entries |}.

Definition s15_positions_from_orchestrator_state : bool :=
  let st := [("open_positions", JObj [("ord-1", JObj [("symbol", JStr "RELIANCE"); ("exchange", JStr "NSE"); ("direction", JStr "LONG");
                                                      ("quantity", JInt 100); ("entry_price", JFloat (dec 2900 0))])])] in
  ok_with (fun b => match b with PositionsBody [p] => String.eqb (PositionOut.symbol p) "RELIANCE" | _ => false end)
    (gets (with_data st f_zero None []) "/api/v1/positions").
Definition s16_signals_from_stream : bool :=
  let entries := [("1700000000000-0", [("symbol", "INFY"); ("exchange", "NSE"); ("direction", "LONG"); ("confidence", "0.85");
                                       ("strategy_tag", "STRAT001"); ("timestamp_ms", "1700000000000")])] in
  ok_with (fun b => match b with
                    | SignalsBody [s] => String.eqb (SignalOut.symbol s) "INFY" && feq (SignalOut.confidence s) (dec 85 2)
                    | _ => false
                    end) (gets (with_data [] f_zero None entries) "/api/v1/signals").
Definition s17_pnl_from_redis_key : bool :=
  total_pnl_is (dec 1500 0) (gets (with_data [] (dec 1500 0) None []) "/api/v1/pnl").
Definition s18_watchlist_from_redis_key : bool :=
  let wl := [JObj [("symbol", JStr "TCS"); ("exchange", JStr "NSE"); ("composite_score", JFloat (dec 75 2))]] in
  ok_with (fun b => match b with WatchlistBody [w] => String.eqb (WatchlistOut.symbol w) "TCS" | _ => false end)
    (fst (serve settings (Request.mk GET "/api/v1/watchlist" None None (Some "NSE")) now_ms today (with_data [] f_zero (Some wl) []))).

Definition s19_all_routes_have_correct_prefix : bool :=
  let paths := map route_path (create_app (R := RedisMock) settings) in
  forallb (String.prefix "/api/v1/") (List.filter (fun p => negb (bool_decide (p ∈ ["/health"; "/ws/live"]))) paths).

(** The first message after the connection is accepted. *)
Definition s20_ws_endpoint_sends_initial_ping : bool :=
  negb (ws_rejected (with_api_key "" settings) None)
  && match ws_sent (ws_accepted f_zero now_ms) with Ping _ :: _ => true | _ => false end.

Definition SCENARIOS : list bool :=
  [s01_health_endpoint_returns_ok; s02_status_no_redis_returns_defaults; s03_positions_empty_with_no_state;
   s04_signals_empty_with_no_stream; s05_pnl_zero_with_no_state; s06_watchlist_empty_with_no_state; s07_kill_requires_api_key;
   s08_kill_with_valid_key_succeeds; s09_pause_sets_redis_flag; s10_resume_clears_redis_flag; s11_invalid_api_key_rejected;
   s12_status_reflects_halted_state; s13_status_reflects_paused_state; s14_status_reflects_degraded_state;
   s15_positions_from_orchestrator_state; s16_signals_from_stream; s17_pnl_from_redis_key; s18_watchlist_from_redis_key;
   s19_all_routes_have_correct_prefix; s20_ws_endpoint_sends_initial_ping].

Definition run_verify : bool := (length (List.filter negb SCENARIOS) =? 0)%nat.

End Verify.

(** All twenty acceptance scenarios of the API hold of the model with the
    default settings, on 2 July 2026. *)
Theorem api_verify_passes :
  SCENARIOS constructed_settings 1782990012345 20636 = replicate 20 true
  /\ run_verify constructed_settings 1782990012345 20636 = true.
Proof. split; vm_compute; reflexivity. Qed.

(** With an API key configured in the environment, the reading scenarios are
    refused and the verification fails. *)
Example configured_key_fails_verify :
  run_verify secret_settings 1782990012345 20636 = false
  /\ s02_status_no_redis_returns_defaults secret_settings 1782990012345 20636 = false.
Proof. split; vm_compute; reflexivity. Qed.
