(* ===== verification/AlertsVerify.v ===== *)
(** * Acceptance scenarios of the alerting ([alerts/cli.py])

    The scenarios of [python -m shared.alerts] with their doubles of the HTTP
    session, the channels, the SMTP server, Redis and the dispatcher, run
    against the model.  Scenario 9, the bytes of a PDF file, is left out.
    The wall clock shows [now] seconds throughout. *)

From S2P Require Import Prelude PyFloat PyDict PyText Redis Constants PyDate Alerts.
Local Open Scope Z_scope.

(** ** Doubles *)

(** [_MockSession]: the status it answers with and the calls it has seen. *)
Record MockSession := { code : Z; calls : list (string * dict string string) }.

#[export] Instance mock_session : HttpSession MockSession := {|
  http_post url payload _ s := (Ok (code s), {| code := code s; calls := calls s ++ [(url, payload)] |});
|}.

(** [_ErrorSession] *)
Inductive ErrorSession := error_session.

#[export] Instance failing_session : HttpSession ErrorSession := {|
  http_post _ _ _ s := (Raise (OtherError "ConnectionError: timeout"), s);
|}.

(** [_FakeTelegram] *)
Record FakeTelegram := { returns : bool; messages : list string }.

#[export] Instance fake_telegram : AlertChannel FakeTelegram := {|
  channel_send message t := (Ok (returns t), {| returns := returns t; messages := messages t ++ [message] |});
|}.

(** [_FakeEmail]: the reports it was given. *)
Definition FakeEmail : Type := list (string * string * option string).

#[export] Instance fake_email : EmailChannel FakeEmail := {|
  email_report subject body pdf_bytes reports := (Ok true, reports ++ [(subject, body, pdf_bytes)]);
|}.

(** [_FakeRedis]: a client that only reads. *)
Definition FakeRedis : Type := dict string string.

#[export] Instance fake_redis : RedisKV FakeRedis := {|
  redis_get name r := (Ok (match dget name r with Some v => if is_empty v then None else Some v | None => None end), r);
  redis_set _ _ _ r := (Raise (AttributeError "'_FakeRedis' object has no attribute 'set'"), r);
  redis_delete _ r := (Raise (AttributeError "'_FakeRedis' object has no attribute 'delete'"), r);
|}.

(** [_FakeDispatcher]: the alerts it was given. *)
Definition FakeDispatcher : Type := list Alert.t.

#[export] Instance fake_dispatcher : Dispatcher FakeDispatcher := {|
  dispatcher_dispatch alert alerts := (Ok true, alerts ++ [alert]);
|}.

(** [patch("smtplib.SMTP")]: every call succeeds. *)
Inductive MockSmtp := mock_smtp.

#[export] Instance mock_smtp_server : SmtpServer MockSmtp := {|
  smtp_connect _ _ := mret tt;
  smtp_starttls := mret tt;
  smtp_login _ _ := mret tt;
  smtp_sendmail _ _ _ := mret tt;
  smtp_quit := id;
|}.

(** ** The scenarios *)

Section Verify.
Variable now : float.

(** [Alert(alert_type, level, message, metadata=..)]: made at [now]. *)
Definition alert (alert_type : AlertType.t) (level : AlertLevel.t) (message : string) (metadata : dict string string) : Alert.t :=
  Alert.mk alert_type level message (now * dec 1000 0)%pf metadata.

Definition is_true (r : result bool) : bool := match r with Ok b => b | Raise _ => false end.
Definition is_false (r : result bool) : bool := match r with Ok b => negb b | Raise _ => false end.

Definition levels : list AlertLevel.t := [AlertLevel.INFO; AlertLevel.WARNING; AlertLevel.CRITICAL].
Definition types : list AlertType.t :=
  [AlertType.SIGNAL; AlertType.FILL; AlertType.ERROR; AlertType.PNL; AlertType.CIRCUIT_BREAKER; AlertType.KILL_SWITCH;
   AlertType.RECONCILIATION_MISMATCH; AlertType.LLM_COST; AlertType.DEAD_LETTER; AlertType.HEARTBEAT].

Definition s01_alert_level_enum : bool := bool_decide (map AlertLevel.value levels = ["INFO"; "WARNING"; "CRITICAL"]).
Definition s02_alert_type_enum : bool :=
  bool_decide (map AlertType.value types
    = ["SIGNAL"; "FILL"; "ERROR"; "PNL"; "CIRCUIT_BREAKER"; "KILL_SWITCH"; "RECONCILIATION_MISMATCH"; "LLM_COST";
       "DEAD_LETTER"; "HEARTBEAT"]).
Definition s03_alert_defaults : bool :=
  let ms := (now * dec 1000 0)%pf in
  let a := alert AlertType.SIGNAL AlertLevel.INFO "hi" [] in
  fle ms (Alert.timestamp_ms a) && fle (Alert.timestamp_ms a) ms && bool_decide (Alert.metadata a = []).
Definition s04_alert_metadata : bool :=
  let a := alert AlertType.FILL AlertLevel.INFO "filled" [("symbol", "RELIANCE"); ("qty", "100")] in
  bool_decide (dget "symbol" (Alert.metadata a) = Some "RELIANCE") && bool_decide (dget "qty" (Alert.metadata a) = Some "100").

(** *** Channels *)

Definition telegram {H} (token chat_id : string) (session : H) : TelegramAlerter H :=
  {| tg_token := token; tg_chat_id := chat_id; tg_session := session |}.

Definition session (status : Z) : MockSession := {| code := status; calls := [] |}.

Definition s05_telegram_send_success : bool :=
  let '(r, ta) := telegram_send "hello" (telegram "token123" "chat456" (session 200)) in
  is_true r && (length (calls (tg_session ta)) =? 1)%nat.
Definition s06_telegram_send_failure : bool :=
  is_false (fst (telegram_send "hello" (telegram "token123" "chat456" (session 429)))).
Definition s07_telegram_empty_token : bool :=
  let '(r, ta) := telegram_send "hello" (telegram "" "chat456" (session 200)) in
  is_false r && (length (calls (tg_session ta)) =? 0)%nat.
Definition s08_telegram_network_error : bool := is_false (fst (telegram_send "hello" (telegram "tok" "cid" error_session))).

Definition email (host username password from : string) (to_ : list string) : EmailAlerter MockSmtp :=
  {| em_host := host; em_port := 587; em_username := username; em_password := password; em_from := from; em_to := to_;
     em_server := mock_smtp |}.

Definition s10_email_send_daily_report : bool :=
  is_true (fst (send_daily_report "Subject" "Body" None (email "smtp.test" "user" "pass" "from@x.com" ["to@x.com"]))).
Definition s11_email_not_configured : bool :=
  is_false (fst (send_daily_report "S" "B" None (email "" "" "" "" ["to@x.com"]))).

(** *** The dispatcher *)

Definition dispatcher (tg : option FakeTelegram) (em : option FakeEmail) (limit : Z) : AlertDispatcher FakeTelegram FakeEmail :=
  new_dispatcher tg em limit {| reading _ := now; taken := 0 |}.

Definition fake (b : bool) : option FakeTelegram := Some {| returns := b; messages := [] |}.

Definition sent (d : AlertDispatcher FakeTelegram FakeEmail) : Z :=
  match ad_telegram d with Some tg => Z.of_nat (length (messages tg)) | None => 0 end.

Definition plain (t : AlertType.t) (l : AlertLevel.t) (message : string) : Alert.t := alert t l message [].

Definition s12_dispatcher_no_channels : bool :=
  is_false (fst (dispatch (plain AlertType.SIGNAL AlertLevel.INFO "signal")
                   (dispatcher None None ALERT_TELEGRAM_RATE_LIMIT_PER_MINUTE))).
Definition s13_dispatcher_telegram_channel : bool :=
  let '(r, d) := dispatch (plain AlertType.FILL AlertLevel.INFO "fill ok")
                   (dispatcher (fake true) None ALERT_TELEGRAM_RATE_LIMIT_PER_MINUTE) in
  is_true r && (sent d =? 1).
Definition s14_dispatcher_rate_limit : bool :=
  let limit := ALERT_TELEGRAM_RATE_LIMIT_PER_MINUTE in
  let pnl := plain AlertType.PNL AlertLevel.INFO "pnl" in
  let '(_, d) := M_for (fun _ => _ ← dispatch pnl; mret tt) (seqZ 0 limit) (dispatcher (fake true) None limit) in
  let '(r, d) := dispatch pnl d in
  is_false r && (sent d =? limit).
Definition s15_dispatcher_kill_switch_bypasses_rate_limit : bool :=
  let '(r, d) := dispatch (plain AlertType.KILL_SWITCH AlertLevel.CRITICAL "kill!") (dispatcher (fake true) None 0) in
  is_true r && (sent d =? 1).
Definition s16_dispatcher_circuit_breaker_bypasses_rate_limit : bool :=
  is_true (fst (dispatch (plain AlertType.CIRCUIT_BREAKER AlertLevel.CRITICAL "cb!") (dispatcher (fake true) None 0))).
Definition s17_dispatcher_daily_report_email : bool :=
  let pdf := Some "%PDF-1.4 fake" in
  let '(r, d) := dispatch_daily_report "Daily Report" "P&L +500" pdf
                   (dispatcher None (Some []) ALERT_TELEGRAM_RATE_LIMIT_PER_MINUTE) in
  is_true r && bool_decide ((ad_email d ≫= head) = Some ("Daily Report", "P&L +500", pdf)).
Definition s18_dispatcher_no_email_channel : bool :=
  is_false (fst (dispatch_daily_report "Report" "body" None (dispatcher None None ALERT_TELEGRAM_RATE_LIMIT_PER_MINUTE))).

(** *** The cost monitor, on 1 January 2026 *)

Definition new_year : Z := 20454.

Definition check_cost : M (LLMCostAlerter FakeRedis FakeDispatcher) float := check new_year (now * dec 1000 0)%pf.

(** [abs(cost - expected) < 1e-6] *)
Definition cost_is (expected : float) (r : result float) : bool :=
  match r with Ok cost => flt (fabs (cost - expected)%pf) (dec 1 6) | Raise _ => false end.

Definition s19_cost_alerter_below_threshold : bool :=
  let '(r, a) := check_cost (new_cost_alerter [("sentiment:cost:daily:20260101", "0.20")] [] LLM_COST_ALERT_THRESHOLD_USD) in
  cost_is (dec 20 2) r && (length (ca_dispatcher a) =? 0)%nat.
Definition s20_cost_alerter_above_threshold : bool :=
  let redis := [("sentiment:cost:daily:20260101", "0.50"); ("orchestrator:llm:complex:20260101", "0.40")] in
  let '(r1, a) := check_cost (new_cost_alerter redis [] LLM_COST_ALERT_THRESHOLD_USD) in
  let '(r2, a) := check_cost a in
  cost_is (dec 90 2) r1 && cost_is (dec 90 2) r2
  && match ca_dispatcher a with
     | [x] => bool_decide (Alert.alert_type x = AlertType.LLM_COST)
              && match Alert.level x with AlertLevel.WARNING => true | _ => false end
     | _ => false
     end.

Definition SCENARIOS : list bool :=
  [s01_alert_level_enum; s02_alert_type_enum; s03_alert_defaults; s04_alert_metadata; s05_telegram_send_success;
   s06_telegram_send_failure; s07_telegram_empty_token; s08_telegram_network_error; s10_email_send_daily_report;
   s11_email_not_configured; s12_dispatcher_no_channels; s13_dispatcher_telegram_channel; s14_dispatcher_rate_limit;
   s15_dispatcher_kill_switch_bypasses_rate_limit; s16_dispatcher_circuit_breaker_bypasses_rate_limit;
   s17_dispatcher_daily_report_email; s18_dispatcher_no_email_channel; s19_cost_alerter_below_threshold;
   s20_cost_alerter_above_threshold].

Definition run_verify : bool := (length (List.filter negb SCENARIOS) =? 0)%nat.

End Verify.

(** The acceptance scenarios of the alerting hold of the model on 2 July
    2026: the channels and their failures, the rate limit and the two types
    that bypass it, and the cost alert that is sent once a day. *)
Theorem alerts_verify_passes :
  SCENARIOS (dec 1782990012345 3) = replicate 19 true /\ run_verify (dec 1782990012345 3) = true.
Proof. split; vm_compute; reflexivity. Qed.
