(* ===== verification/SignalsVerify.v ===== *)
(** * The replay of the signal engine ([signals/cli.py])

    The contexts that [python -m shared.signals replay] builds and what it
    concludes from the engine.  [day] is midnight UTC of the current date. *)

From S2P Require Import Prelude PyFloat PyDict Constants Regime MarketData Signals.
Local Open Scope Z_scope.

Section Replay.
Variables (day : Z) (symbol exchange : string).

(** [now.replace(hour=.., minute=..)] *)
Definition at_time (hour minute : Z) : Z := day + hour * HOUR + minute * MINUTE.

Definition price : float := dec 24500 1.
(** [price * (up if direction == "LONG" else down)] *)
Definition scaled (long : bool) (up down : float) : float := (price * (if long then up else down))%pf.

Definition mock_features (long chaos : bool) : RegimeFeatures.t :=
  RegimeFeatures.mk (if negb chaos then dec 300 1 else dec 100 1) (if long then dec 600 1 else dec 400 1) (dec 20 1) (dec 10 1)
    (dec 2 1) (dec 18 1) (if negb chaos then dec 140 1 else dec 300 1) chaos.

Definition mock_regime (long chaos : bool) : RegimeClassification.t :=
  RegimeClassification.mk (if chaos then HIGH_VOL_CHAOS else if long then BULL_TREND else BEAR_TREND) (dec 85 2)
    (mock_features long chaos) 0 (at_time 0 0).

Definition mock_indicators (long : bool) : dict string (dict string (option float)) :=
  let ema21 := scaled long (dec 998 3) (dec 1002 3) in
  let value long_v short_v := Some (if long then long_v else short_v) in
  [("EMA", [("EMA_9", Some (scaled long (dec 1001 3) (dec 999 3))); ("EMA_21", Some ema21);
            ("EMA_50", Some (ema21 * dec 99 2)%pf); ("EMA_200", Some (ema21 * dec 97 2)%pf)]);
   ("VWAP", [("VWAP", Some (scaled long (dec 998 3) (dec 1002 3)))]);
   ("RSI", [("RSI_14", value (dec 620 1) (dec 380 1))]);
   ("MACD", [("MACD", Some (dec 100 1)); ("MACD_SIGNAL", Some (dec 80 1)); ("MACD_HIST", value (dec 50 1) (dec (-50) 1))]);
   ("STOCHASTIC", [("STOCH_K", value (dec 600 1) (dec 400 1)); ("STOCH_D", value (dec 550 1) (dec 450 1))]);
   ("BBANDS", [("BB_UPPER", Some (price * dec 101 2)%pf); ("BB_MIDDLE", Some (scaled long (dec 999 3) (dec 1001 3)));
               ("BB_LOWER", Some (price * dec 99 2)%pf)]);
   ("VOLUME_DELTA", [("VOLUME_DELTA", value (dec 500000 1) (dec (-500000) 1))])].

Definition session_open : Z := at_time 3 45.

Definition mock_candle (long : bool) (i : Z) : OHLCVCandle.t :=
  OHLCVCandle.mk (session_open + i * MINUTE) symbol exchange price (price * dec 1003 3)%pf (price * dec 997 3)%pf
    (scaled long (dec 1001 3) (dec 999 3)) 120000.

Definition mock_snapshot (long : bool) (timeframe : string) (orb_state : option ORBState.t) : PatternSnapshot.t :=
  PatternSnapshot.mk symbol exchange timeframe (at_time 0 0) (session_open + 29 * MINUTE)
    [CandlestickSignal.mk "CDLHAMMER" (if long then 100 else -100) 28] orb_state
    [SRLevel.mk (scaled long (dec 999 3) (dec 1001 3)) (if long then "SUPPORT" else "RESISTANCE") (dec 8 1) 3 25].

Definition mock_orb (long : bool) : ORBState.t :=
  ORBState.mk (price * dec 1002 3)%pf (price * dec 998 3)%pf (price * dec 4 3)%pf session_open true
    (Some (if long then 1 else -1)) (Some (scaled long (dec 1002 3) (dec 998 3))).

Definition build_mock_context (direction : string) (chaos : bool) : SignalContext.t :=
  let long := String.eqb direction "LONG" in
  let snap := mock_snapshot long "5m" (Some (mock_orb long)) in
  let mtf := MultiTimeframePatterns.mk symbol exchange (at_time 0 0) [("5m", snap); ("1h", mock_snapshot long "1h" None)]
               (if long then ["CDLHAMMER"] else []) (if String.eqb direction "SHORT" then ["CDLHAMMER"] else []) in
  SignalContext.mk symbol exchange direction "EMAVWAP1" (mock_regime long chaos) (mock_indicators long) (Some snap) (Some mtf)
    price (dec 1500000 1) (dec 1000000 1) (dec 250 1) false session_open (at_time 10 0) (at_time 7 0)
    [("5m", map (mock_candle long) (seqZ 0 30))] None.

(** [--direction] and [--chaos-only]; the result is the exit status with the
    results that are printed.  A signal in chaos is an [AssertionError] of the
    first form and status 1 of the second. *)
Definition cmd_replay (direction : option string) (chaos_only : bool) (now : Z) : result (Z * list SignalResult.t) :=
  if chaos_only then
    r ← evaluate (build_mock_context "LONG" true) now;
    if SignalResult.generated r then Raise AssertionError else mret (0, [r])
  else
    results ← mapM (fun d => evaluate (build_mock_context d false) now)
                (match direction with Some d => [d] | None => ["LONG"; "SHORT"] end);
    chaos_result ← evaluate (build_mock_context "LONG" true) now;
    mret (if SignalResult.generated chaos_result then 1 else 0, results ++ [chaos_result]).

End Replay.

(** In chaos the engine stops at the first gate. *)
Lemma chaos_blocked day symbol exchange now :
  exists r, evaluate (build_mock_context day symbol exchange "LONG" true) now = Ok r
    /\ SignalResult.generated r = false /\ SignalResult.failed_at_gate r = Some 1.
Proof. eexists. split; [reflexivity|]. split; reflexivity. Qed.

(** The replay cannot fail: whatever the engine makes of the contexts
    without chaos, a replay that returns has status 0, and its last result is
    the one of the chaos context, blocked at gate 1.  A replay in which no
    signal is generated passes like the others. *)
Theorem replay_status_is_zero day symbol exchange direction chaos_only now status results :
  cmd_replay day symbol exchange direction chaos_only now = Ok (status, results) ->
  status = 0 /\ exists r, last results = Some r /\ SignalResult.generated r = false /\ SignalResult.failed_at_gate r = Some 1.
Proof.
  destruct (chaos_blocked day symbol exchange now) as (r & E & Hg & Hf). unfold cmd_replay. rewrite E.
  destruct chaos_only; cbn [mbind result_bind]; intros Hr.
  - rewrite Hg in Hr. injection Hr as <- <-. split; [done|]. by exists r.
  - bind_inv Hr. rewrite Hg in Hr. injection Hr as <- <-. split; [done|]. exists r. by rewrite last_snoc.
Qed.

(** The midnight of 2 July 2026. *)
Definition sample_day : Z := 20636 * DAY.

Lemma replay_status_is_zero_witness :
  exists results, cmd_replay sample_day "RELIANCE.NS" "NSE" (Some "LONG") true sample_day = Ok (0, results)
    /\ exists r, last results = Some r /\ SignalResult.generated r = false /\ SignalResult.failed_at_gate r = Some 1.
Proof.
  eexists. split; [reflexivity|]. eapply (replay_status_is_zero sample_day "RELIANCE.NS" "NSE" (Some "LONG") true sample_day 0).
  reflexivity.
Defined.

(** On 2 July 2026 both contexts generate their signal through the nine
    gates, with confidence 0.93. *)
Theorem signals_replay_generates :
  exists long short chaos,
    cmd_replay sample_day "RELIANCE.NS" "NSE" None false sample_day = Ok (0, [long; short; chaos])
    /\ Forall (fun r => SignalResult.generated r = true /\ forallb GateResult.passed (SignalResult.gate_results r) = true
                        /\ (length (SignalResult.gate_results r) = 9)%nat /\ repr (SignalResult.confidence r) = "0.93")
         [long; short].
Proof. do 3 eexists. split; [vm_compute; reflexivity|]. repeat constructor. Qed.
