(* ===== verification/ReportingVerify.v ===== *)
(** * Acceptance scenarios of the reporting ([reporting/cli.py])

    The scenarios of [python -m shared.reporting], run against the model.
    Scenarios 13 and 14, the bytes of the PDF files, are left out; in
    scenario 19 a workbook is its sheets, which openpyxl writes and reads. *)

From S2P Require Import Prelude PyFloat PyDict PyText PyDate PyParse NumPy Reporting ReportDocs.
Local Open Scope Z_scope.

Section Verify.
Context `{NumPyStats} `{NumPyStd}.

Definition make_trade (trade_id : string) (pnl pnl_pct : float) : TradeRecord.t :=
  TradeRecord.mk trade_id "RELIANCE" "NSE" "LONG" 1700000000000 (Some 1700003600000) (dec 29000 1) (Some (dec 29145 1)) 100
    pnl pnl_pct "STRAT001" (Some (dec 2 2)) (Some (dec 3 1)) (Some (dec 5 1)).

Definition two_trades : list TradeRecord.t :=
  [make_trade "T1" (dec 5000 1) (dec 5 1); make_trade "T2" (dec (-2000) 1) (dec (-2) 1)].

(** [date(2026, 7, 1)] *)
Definition july_1 : Z := 20635.

Definition daily (report_date : Z) : result DailyReport.t := compute_daily_report report_date two_trades (dec 10000000 1).

(** A scenario that raises fails. *)
Definition passes (r : result bool) : bool := match r with Ok b => b | Raise _ => false end.

(** [abs(x - y) < 1e-6] *)
Definition close (x y : float) : bool := flt (fabs (x - y)%pf) (dec 1 6).

Definition is_none {A} (x : option A) : bool := match x with None => true | Some _ => false end.
(** [s is not None and abs(s) < 1000.0] *)
Definition moderate (s : option float) : bool := match s with Some s => flt (fabs s) (dec 10000 1) | None => false end.

Definition s01_trade_record_fields : bool :=
  let t := make_trade "TRD001" (dec 5000 1) (dec 5 1) in
  String.eqb (TradeRecord.symbol t) "RELIANCE" && String.eqb (TradeRecord.direction t) "LONG"
  && feq (TradeRecord.pnl t) (dec 5000 1).
Definition s02_daily_report_empty_trades : bool :=
  passes (r ← compute_daily_report july_1 [] (dec 10000000 1);
          mret (feq (DailyReport.total_pnl r) f_zero && (DailyReport.total_trades r =? 0)
                && is_none (DailyReport.sharpe r) && is_none (DailyReport.sortino r))).
Definition s03_daily_report_pnl_sum : bool :=
  passes (r ← daily july_1; mret (close (DailyReport.total_pnl r) (dec 3000 1) && (DailyReport.total_trades r =? 2))).
Definition s04_win_rate_calculation : bool :=
  passes (r ← daily july_1;
          mret ((DailyReport.winning_trades r =? 1) && (DailyReport.losing_trades r =? 1)
                && close (DailyReport.win_rate_pct r) (dec 500 1))).
Definition s05_sharpe_two_data_points : bool := moderate (compute_sharpe [dec 1 2; dec (-5) 3] true).
Definition s06_sharpe_none_for_single_return : bool :=
  is_none (compute_sharpe [dec 1 2] true) && is_none (compute_sharpe [] true).
Definition s07_sharpe_none_for_zero_variance : bool := is_none (compute_sharpe [dec 1 2; dec 1 2; dec 1 2] true).
Definition s08_sortino_none_for_no_losses : bool := is_none (compute_sortino [dec 1 2; dec 2 2; dec 3 2] true).
Definition s09_sortino_finite_with_losses : bool := moderate (compute_sortino [dec 1 2; dec (-5) 3; dec 8 3; dec (-3) 3] true).
Definition s10_max_drawdown_zero_on_all_gains : bool :=
  feq (compute_max_drawdown [dec 1 2; dec 2 2; dec 0 1; dec 1 2]) f_zero.
Definition s11_max_drawdown_computed_correctly : bool :=
  let dd := compute_max_drawdown [dec 1 1; dec (-1) 1; dec 101 4] in flt (dec 9 2) dd && flt dd (dec 12 2).
Definition s12_monthly_report_aggregation : bool :=
  passes (d1 ← daily july_1; d2 ← daily (july_1 + 1);
          m ← compute_monthly_report 2026 7 [d1; d2];
          mret (close (MonthlyReport.total_pnl m) (DailyReport.total_pnl d1 + DailyReport.total_pnl d2)%pf
                && (MonthlyReport.total_trades m =? 4))).
Definition s15_html_daily_contains_metrics : bool :=
  passes (r ← daily july_1; let h := build_daily_html r in
          mret (str_contains "Sharpe" h && str_contains "Sortino" h && str_contains "RELIANCE" h)).
Definition s16_html_daily_valid_document : bool :=
  passes (r ← daily july_1; let h := build_daily_html r in
          mret (String.prefix "<!DOCTYPE html>" h && str_contains "</html>" h)).
Definition s17_html_monthly_contains_daily_breakdown : bool :=
  passes (d ← daily july_1; m ← compute_monthly_report 2026 7 [d]; h ← build_monthly_html m;
          mret (str_contains "Daily Breakdown" h && str_contains "2026-07-01" h)).
Definition s18_csv_export_header_and_rows : bool :=
  passes ('(header, rows) ← csv_reader (trades_to_csv two_trades);
          mret (bool_decide (head header = Some "trade_id") && bool_decide ("symbol" ∈ header)
                && (length rows =? length two_trades)%nat)).
Definition s19_excel_export_sheets : bool :=
  passes (r ← daily july_1; let names := map Sheet.title (trades_to_excel (DailyReport.trades r) (Some r)) in
          mret (bool_decide ("Trades" ∈ names) && bool_decide ("Summary" ∈ names))).
Definition s20_markout_curve_in_daily_report : bool :=
  passes (r ← daily july_1; let labels := map MarkoutPoint.offset_label (DailyReport.markout_curve r) in
          mret (bool_decide ("T+1m" ∈ labels) && bool_decide ("T+5m" ∈ labels)
                && forallb (fun p => 0 <? MarkoutPoint.sample_count p) (DailyReport.markout_curve r))).

Definition SCENARIOS : list bool :=
  [s01_trade_record_fields; s02_daily_report_empty_trades; s03_daily_report_pnl_sum; s04_win_rate_calculation;
   s05_sharpe_two_data_points; s06_sharpe_none_for_single_return; s07_sharpe_none_for_zero_variance;
   s08_sortino_none_for_no_losses; s09_sortino_finite_with_losses; s10_max_drawdown_zero_on_all_gains;
   s11_max_drawdown_computed_correctly; s12_monthly_report_aggregation; s15_html_daily_contains_metrics;
   s16_html_daily_valid_document; s17_html_monthly_contains_daily_breakdown; s18_csv_export_header_and_rows;
   s19_excel_export_sheets; s20_markout_curve_in_daily_report].

Definition run_verify : bool := (length (List.filter negb SCENARIOS) =? 0)%nat.

End Verify.

(** The CSV reader gives the trades back. *)
Lemma s18_ok : s18_csv_export_header_and_rows = true.
Proof. unfold s18_csv_export_header_and_rows. rewrite csv_gives_back_trades. vm_compute. reflexivity. Qed.

(** The acceptance scenarios of the reporting hold of the model, with the
    textbook mean and standard deviations. *)
Theorem reporting_verify_passes :
  SCENARIOS (H := small_numpy) (H0 := small_std0) = replicate 18 true
  /\ run_verify (H := small_numpy) (H0 := small_std0) = true.
Proof.
  assert (E : SCENARIOS (H := small_numpy) (H0 := small_std0) = replicate 18 true).
  { unfold SCENARIOS. rewrite s18_ok. vm_compute. reflexivity. }
  split; [exact E|]. unfold run_verify. by rewrite E.
Qed.
