(* ===== verification/MarketCommands.v ===== *)
(** * The regime, universe and sentiment commands
      ([regime/cli.py], [universe/cli.py], [sentiment/cli.py])

    The entry points that run the classifier, the universe filter and the
    sentiment agent over the database, Redis and the feeds.  Each function
    follows its [main] after the arguments are parsed; the logging set-up
    succeeds, the configuration and the schema too except where a command
    takes a [CommandStart], and a command ends with its exit status or with
    what it logs.  The database is the relations it has and the candles
    of each; a query of a relation that is not there raises [UndefinedTable]. *)

From S2P Require Import Prelude PyFloat PyDict Json PyText Redis Constants Regime MarketData PyDate NumPy Web.
From S2P Require Import Backtesting RegimeClassifier ModelStore Universe NewsFeeds Sentiment Storage.
Local Open Scope Z_scope.

(** How a command ends: [sys.exit(status)], or normally. *)
Inductive Outcome (A : Type) : Type :=
| Exit (status : Z)
| Finished (a : A).
Arguments Exit {A} status.
Arguments Finished {A} a.

(** What happens before a command does its work: [load_settings],
    [get_connection] and the schema succeed, or there is no connection, which
    [main] turns into status 1, or one of them raises. *)
Inductive CommandStart : Type := Started | NoConnection | SetUpRaises (e : exn).

Definition starting {St A} (start : CommandStart) (body : M St (Outcome A)) : M St (Outcome A) :=
  match start with
  | Started => body
  | NoConnection => mret (Exit 1)
  | SetUpRaises e => M_raise e
  end.

(** [now - timedelta(...)]: outside the years 1 to 9999 it raises. *)
Definition time_before (now span : Z) : result Z :=
  if bool_decide (in_datetime ((now - span) / DAY)) then mret (now - span) else Raise OverflowError.

Definition on_first {A B X} (m : M A X) : M (A * B) X := M_zoom fst (fun a s => (a, s.2)) m.
Definition on_second {A B X} (m : M B X) : M (A * B) X := M_zoom snd (fun b s => (s.1, b)) m.

(** ** The database ([storage/connection.py], [storage/schema.sql]) *)

Record Database := { db_relations : list string; db_candles : string -> list OHLCVCandle.t }.

(** [CREATE ... IF NOT EXISTS]. *)
Definition create_missing (names : list string) (db : Database) : Database :=
  {| db_relations := db_relations db ++ List.filter (fun n => negb (bool_decide (n ∈ db_relations db))) names;
     db_candles := db_candles db |}.

Definition SCHEMA_RELATIONS : list string :=
  ["ticks"; "ohlcv_1m"; "ohlcv_5m"; "ohlcv_15m"; "ohlcv_1h"; "instruments"; "corporate_actions"].

Definition apply_schema : Database -> Database := create_missing SCHEMA_RELATIONS.
Definition apply_universe_schema : Database -> Database := create_missing ["watchlist_history"].

Definition UndefinedTable (name : string) : exn :=
  OtherError ("UndefinedTable: relation " +:+ name +:+ " does not exist").

Definition relation (name : string) (db : Database) : result (list OHLCVCandle.t) :=
  if bool_decide (name ∈ db_relations db) then mret (db_candles db name) else Raise (UndefinedTable name).

(** ** [python -m shared.regime] *)

Module RegimeArgs.
Record t := mk {
  symbol : string;
  exchange : string;
  lookback_days : Z;
  vix : float;
  run_id : option string;
  publish : bool;
  no_db : bool;
}.
End RegimeArgs.

(** [if args.run_id:] *)
Definition given (s : option string) : option string :=
  match s with Some s => if is_empty s then None else Some s | None => None end.

Section RegimeCommand.
Context {L R RF HMM : Type} `{MLflow L RF HMM} `{SkModels RF HMM} `{NumPyArrays} `{NumPyStats} `{TALib}
  `{RedisStream R} `{RegimeCodec}.

(** The classifier of the run, or the one that has only the rules. *)
Definition command_classifier (run_id : option string) : M (L * R) (RegimeClassifier RF HMM) :=
  match given run_id with
  | Some run_id => on_first (load_classifier run_id)
  | None => mret (new_classifier None None)
  end.

(** [connected] is whether the database answers; [classified_at] is the clock
    of the classification. *)
Definition regime_main (a : RegimeArgs.t) (connected : bool) (db : Database) (now classified_at : Z)
    : M (L * R) (Outcome RegimeClassification.t) :=
  classifier ← command_classifier (RegimeArgs.run_id a);
  if RegimeArgs.no_db a then mret (Exit 0)
  else if negb connected then mret (Exit 1)
  else
    let db := apply_schema db in
    start_dt ← M_lift (time_before now (RegimeArgs.lookback_days a * DAY));
    candles ← M_lift (query_candles (db_candles db) (RegimeArgs.symbol a) (RegimeArgs.exchange a) "5m" start_dt now);
    if (length candles <? REGIME_FEATURE_LOOKBACK)%nat then mret (Exit 1)
    else
      features ← M_lift (extract_features candles (RegimeArgs.vix a));
      classification ← M_lift (classify classifier features classified_at);
      _ ← (if RegimeArgs.publish a then _ ← on_second (publish_regime_change classification); mret tt else mret tt);
      mret (Finished classification).
End RegimeCommand.

(** ** [python -m shared.universe] *)

Module UniverseArgs.
Record t := mk {
  exchange : string;
  lookback_days : Z;
  top_n : Z;
  regime : option MarketRegime;
  no_store : bool;
  load : bool;
}.
End UniverseArgs.

(** [_read_regime_from_redis]: any exception and an empty stream give
    [BULL_TREND]; the VIX argument is not used. *)
Definition read_regime_from_redis {R} `{RedisStream R} `{RegimeCodec} : M R MarketRegime :=
  M_try
    (classification ← read_latest_regime;
     match classification with
     | Some c => mret (RegimeClassification.regime c)
     | None => mret BULL_TREND
     end)
    (fun _ => mret BULL_TREND).

Section UniverseCommand.
Context {P R W : Type} `{Postgres P} `{RedisKV R} `{RedisStream R} `{RegimeCodec} `{NseWorld W} `{UrlOpen W}
  `{NumPyStats} `{TALib}.

(** The stores, and the NSE files and network. *)
#[local] Abbreviation St := (Stores P R * W)%type.

Definition command_regime (regime : option MarketRegime) : M St MarketRegime :=
  match regime with
  | Some regime => mret regime
  | None => on_first (on_redis read_regime_from_redis)
  end.

(** [SELECT DISTINCT symbol FROM ohlcv_raw WHERE exchange = .. AND ts >= ..
    ORDER BY symbol] *)
Definition select_symbols (db : Database) (exchange : string) (start_dt : Z) : result (list string) :=
  rows ← relation "ohlcv_raw" db;
  mret (py_sorted String.ltb
          (remove_dups (map OHLCVCandle.symbol
             (List.filter (fun c => String.eqb (OHLCVCandle.exchange c) (str_upper exchange)
                                    && (start_dt <=? OHLCVCandle.time c)) rows)))).

(** The arrays of one symbol, when it has candles. *)
Definition arrays_of (db : Database) (exchange : string) (start_dt end_dt : Z) (acc : dict string CandleArrays) (sym : string)
    : result (dict string CandleArrays) :=
  candles ← query_candles (db_candles db) sym exchange "5m" start_dt end_dt;
  match candles with
  | [] => mret acc
  | _ =>
      volume ← mapM (fun c => float_of_int (OHLCVCandle.volume c)) candles;
      mret (dset sym [("close", map OHLCVCandle.close candles); ("high", map OHLCVCandle.high candles);
                      ("low", map OHLCVCandle.low candles); ("volume", volume)] acc)
  end.

(** The watchlist of the run and whether it is stored. *)
Definition score_universe (a : UniverseArgs.t) (db : Database) (regime : MarketRegime) (end_dt scored_at : Z)
    : M St (Outcome (list WatchlistEntry.t)) :=
  start_dt ← M_lift (time_before end_dt (UniverseArgs.lookback_days a * DAY));
  symbols ← M_lift (select_symbols db (UniverseArgs.exchange a) start_dt);
  match symbols with
  | [] => mret (Exit 0)
  | _ =>
      candles_by_symbol ← M_lift (for_each (arrays_of db (UniverseArgs.exchange a) start_dt end_dt) [] symbols);
      let instruments := map (fun sym => [("symbol", sym); ("exchange", UniverseArgs.exchange a)]) symbols in
      exclusion_list ← on_second (fetch_exclusions scored_at);
      entries ← M_lift (run_universe_filter instruments candles_by_symbol regime exclusion_list (UniverseArgs.top_n a) scored_at);
      _ ← (if negb (UniverseArgs.no_store a) && (0 <? length entries)%nat then on_first (store_watchlist entries) else mret tt);
      mret (Finished entries)
  end.

Definition universe_main (a : UniverseArgs.t) (start : CommandStart) (db : Database) (end_dt scored_at : Z)
    : M St (Outcome (list WatchlistEntry.t)) :=
  starting start
    (let db := apply_universe_schema (apply_schema db) in
     if UniverseArgs.load a then
       entries ← on_first (load_watchlist (UniverseArgs.exchange a) (UniverseArgs.top_n a));
       mret (Finished entries)
     else
       regime ← command_regime (UniverseArgs.regime a);
       score_universe a db regime end_dt scored_at).
End UniverseCommand.

(** ** [python -m shared.sentiment] *)

Module SentimentArgs.
Record t := mk {
  exchange : string;
  model : option string;
  api_key : option string;
  no_cache : bool;
  headlines : option (list string);
  cost_report : bool;
}.
End SentimentArgs.

(** [redis_lib.from_url] does not connect, so that the client is there unless
    [--no-cache] is given. *)
Definition command_agent (a : SentimentArgs.t) : SentimentAgent :=
  {| sa_model := match given (SentimentArgs.model a) with Some m => m | None => SENTIMENT_DEFAULT_MODEL end;
     sa_api_key := SentimentArgs.api_key a; sa_redis := negb (SentimentArgs.no_cache a) |}.

Definition opt_json {A} (f : A -> float) (x : option A) : json := match x with Some x => JFloat (f x) | None => JNull end.

Definition score_json (s : SentimentScore.t) : json :=
  JObj [("headline", JStr (str_take 100 (SentimentScore.headline s))); ("score", JFloat (SentimentScore.score s));
        ("label", JStr (SentimentScore.label s)); ("confidence", JFloat (SentimentScore.confidence s));
        ("from_cache", JBool (SentimentScore.from_cache s))].

(** The document of [--output-json]. *)
Definition result_json (r : MarketSentiment.t) : result json :=
  rate ← MarketSentiment.cache_hit_rate r;
  mret (JObj
    [("exchange", JStr (MarketSentiment.exchange r)); ("aggregate_score", JFloat (MarketSentiment.aggregate_score r));
     ("cache_hit_rate", JFloat rate); ("total_tokens_used", JInt (MarketSentiment.total_tokens_used r));
     ("total_cost_usd", JFloat (MarketSentiment.total_cost_usd r)); ("cache_hits", JInt (MarketSentiment.cache_hits r));
     ("cache_misses", JInt (MarketSentiment.cache_misses r)); ("scored_at", JStr (isoformat (MarketSentiment.scored_at r)));
     ("fii_net_crore", opt_json FIIDIIData.fii_net_crore (MarketSentiment.fii_dii r));
     ("dii_net_crore", opt_json FIIDIIData.dii_net_crore (MarketSentiment.fii_dii r));
     ("vix", opt_json VIXData.vix (MarketSentiment.vix_data r));
     ("put_call_ratio", match MarketSentiment.vix_data r with
                        | Some v => opt_json id (VIXData.put_call_ratio v)
                        | None => JNull
                        end);
     ("scores", JList (map score_json (MarketSentiment.scores r)))]).

(** What the command prints: the day's cost, or the sentiment. *)
Inductive SentimentOutput : Type :=
| CostReport (total_usd : float)
| SentimentResult (r : MarketSentiment.t).

Section SentimentCommand.
Context {W : Type} `{UrlOpen W} `{FeedParser} `{Litellm W} `{NumPyVectors}
  `{RedisList W} `{RedisCounter W} `{RedisKV W} `{EmbeddingModel W}.

(** Each path makes its cost tracker. *)
Definition with_tracker {A} (redis_client : bool) (m : M (CostTracker * W) A) : M W A := fun w =>
  let '(r, (_, w)) := m (new_cost_tracker redis_client, w) in (r, w).

Definition sentiment_main (a : SentimentArgs.t) (now today : Z) : M W SentimentOutput :=
  if SentimentArgs.cost_report a then
    total ← with_tracker true (get_daily_total_usd today);
    mret (CostReport total)
  else
    let agent := command_agent a in
    r ← with_tracker (sa_redis agent) (run agent now today (SentimentArgs.exchange a) (SentimentArgs.headlines a));
    mret (SentimentResult r).
End SentimentCommand.

(** * Theorems *)

(** A program that returns ran each of its steps to the end. *)
Lemma M_bind_Ok {S A B} (m : M S A) (f : A -> M S B) s b s' :
  (m ≫= f) s = (Ok b, s') -> exists a s1, m s = (Ok a, s1) /\ f a s1 = (Ok b, s').
Proof. unfold mbind, M_bind. destruct (m s) as [[a|e] s1]; [|done]. intros E. by exists a, s1. Qed.

Lemma M_lift_Ok {S A} (r : result A) (s s' : S) a : M_lift r s = (Ok a, s') -> r = Ok a /\ s' = s.
Proof. unfold M_lift. by intros [= -> ->]. Qed.

Lemma on_second_Ok {A B X} (m : M B X) (s s' : A * B) x :
  on_second m s = (Ok x, s') -> m s.2 = (Ok x, s'.2) /\ s'.1 = s.1.
Proof. unfold on_second, M_zoom. destruct (m s.2) as [r b] eqn:E. by intros [= -> <-]. Qed.

Lemma on_first_Ok {A B X} (m : M A X) (s s' : A * B) x :
  on_first m s = (Ok x, s') -> m s.1 = (Ok x, s'.1) /\ s'.2 = s.2.
Proof. unfold on_first, M_zoom. destruct (m s.1) as [r b] eqn:E. by intros [= -> <-]. Qed.

Ltac step_in H :=
  apply M_bind_Ok in H as (? & ? & ?Hstep & H).

(** ** From the regime command to the universe command *)

Section RegimeFacts.
Context {L R RF HMM : Type} `{MLflow L RF HMM} `{SkModels RF HMM} `{NumPyArrays} `{NumPyStats} `{TALib}
  `{RedisStreamLaws R} `{RegimeCodecLaws}.

(** What a run that finished with a publication did. *)
Lemma regime_main_published a connected db now at_ c s s' :
  regime_main a connected db now at_ s = (Ok (Finished c), s') -> RegimeArgs.publish a = true ->
  exists classifier candles features id r,
    extract_features candles (RegimeArgs.vix a) = Ok features
    /\ classify (classifier : RegimeClassifier RF HMM) features at_ = Ok c
    /\ publish_regime_change c r = (Ok id, s'.2).
Proof.
  unfold regime_main. intros Hrun Hp. step_in Hrun. destruct (RegimeArgs.no_db a); [done|].
  destruct (negb connected); [done|]. cbv zeta in Hrun. step_in Hrun. step_in Hrun.
  destruct (_ <? _)%nat; [done|]. step_in Hrun. step_in Hrun. rewrite Hp in Hrun. step_in Hrun. step_in Hstep4.
  injection Hrun as -> <-. injection Hstep4 as _ <-.
  apply M_lift_Ok in Hstep2 as [Hf ->]. apply M_lift_Ok in Hstep3 as [Hc ->].
  apply on_second_Ok in Hstep5 as [Hpub _]. do 5 eexists. split_and!; [exact Hf|exact Hc|exact Hpub].
Qed.

Lemma extract_features_vix candles vix f : extract_features candles vix = Ok f -> RegimeFeatures.vix f = vix.
Proof.
  unfold extract_features. destruct (_ <? _)%nat; [done|]. cbv zeta. intros Hf. bind_inv Hf.
  destruct (talib_BBANDS _ _) as [[? ?] ?]. by injection Hf as <-.
Qed.
End RegimeFacts.

Lemma elem_of_created names db n : n ∈ db_relations (create_missing names db) <-> n ∈ db_relations db \/ n ∈ names.
Proof.
  unfold create_missing. cbn [db_relations]. rewrite elem_of_app. split.
  - intros [Hn|Hn]; [by left|]. apply list_elem_of_In, filter_In in Hn as [Hn _]. right. by apply list_elem_of_In.
  - intros [Hn|Hn]; [by left|]. destruct (decide (n ∈ db_relations db)) as [Hd|Hd]; [by left|]. right.
    apply list_elem_of_In, filter_In. split; [by apply list_elem_of_In|]. by rewrite bool_decide_eq_false_2.
Qed.

Section UniverseFacts.
Context {P R W : Type} `{Postgres P} `{RedisKV R} `{RedisStreamLaws R} `{RegimeCodecLaws} `{NseWorld W} `{UrlOpen W}
  `{NumPyStats} `{TALib}.

#[local] Abbreviation St := (Stores P R * W)%type.

(** In chaos the filter lists nothing and the stores are not written. *)
Lemma score_universe_chaos a db end_dt at_ entries (st st' : St) :
  score_universe a db HIGH_VOL_CHAOS end_dt at_ st = (Ok (Finished entries), st') -> entries = [] /\ st'.1 = st.1.
Proof.
  unfold score_universe. intros Hs. step_in Hs. step_in Hs. apply M_lift_Ok in Hstep as [_ ->].
  apply M_lift_Ok in Hstep0 as [_ ->]. match type of Hs with context [match ?l with [] => _ | _ => _ end] => destruct l as [|x0 symbols] end; [done|].
  cbv zeta in Hs. step_in Hs. apply M_lift_Ok in Hstep as [_ ->]. step_in Hs. apply on_second_Ok in Hstep as [_ Hst].
  step_in Hs. apply M_lift_Ok in Hstep as [He ->]. unfold run_universe_filter in He.
  rewrite bool_decide_eq_true_2 in He by done. injection He as <-. step_in Hs. injection Hs as <- <-. split; [done|].
  rewrite andb_false_r in Hstep. injection Hstep as _ <-. by rewrite <- Hst.
Qed.

(** Reading the regime always gives one and leaves what the read of the stream
    leaves. *)
Lemma read_regime_total (r : R) :
  exists m, read_regime_from_redis r = (Ok m, (redis_xrevrange REGIME_REDIS_STREAM 1 r).2).
Proof.
  unfold read_regime_from_redis, M_try, read_latest_regime, mbind, M_bind.
  destruct (redis_xrevrange REGIME_REDIS_STREAM 1 r) as [[[|fields l]|e] r2]; cbn; [by eexists| |by eexists].
  destruct (dget "data" fields) as [payload|]; cbn; [|by eexists]. unfold M_lift.
  destruct (decode_regime payload) as [[c|]|e]; cbn; by eexists.
Qed.

(** Reading the regime: the published one when the stream can be read. *)
Lemma read_regime_published c id (r r1 : R) ms t :
  publish_regime_change c r = (Ok id, r1) -> is_ok (redis_xrevrange REGIME_REDIS_STREAM 1 r1).1 = true ->
  timestamp_ms (RegimeClassification.classified_at c) = Ok ms ->
  (x ← float_of_int ms; fromtimestamp (fdiv x (dec 10000 1))) = Ok t ->
  (read_regime_from_redis r1).1 = Ok (RegimeClassification.regime c).
Proof.
  intros Hp Hx Hms Ht. unfold read_regime_from_redis, M_try.
  destruct (read_latest_regime r1) as [[out|e] r2] eqn:Hr.
  - pose proof (published_regime_read_back _ _ _ _ _ _ _ _ Hp Hr Hms Ht) as ->.
    unfold mbind, M_bind. by rewrite Hr.
  - exfalso. unfold publish_regime_change, mbind, M_bind, M_lift in Hp.
    destruct (regime_payload c) as [payload|] eqn:Hpay; [|done]. apply redis_xadd_spec in Hp; [|by intros n [= <-]].
    unfold read_latest_regime, mbind, M_bind in Hr.
    destruct (redis_xrevrange REGIME_REDIS_STREAM 1 r1) as [[l|e'] r3] eqn:E; [|done].
    rewrite (xrevrange_newest _ _ _ _ _ Hp E) in Hr. cbn in Hr.
    unfold M_lift in Hr. injection Hr as Hr _. revert Hr. unfold decode_regime.
    unfold regime_payload, regime_message in Hpay. cbv zeta in Hpay. rewrite Hms in Hpay. cbn in Hpay.
    apply parse_serialize_regime in Hpay. rewrite Hpay. cbn -[regime_of_value]. rewrite regime_of_value_value.
    destruct (float_of_int ms) as [x|]; [|done]. cbn in Ht |- *. by rewrite Ht.
Qed.

(** A server that cannot be read, and an empty stream, pass for a bull trend. *)
Theorem unreadable_regime_is_bull (r : R) :
  is_ok (redis_xrevrange REGIME_REDIS_STREAM 1 r).1 = false -> (read_regime_from_redis r).1 = Ok BULL_TREND.
Proof.
  unfold read_regime_from_redis, M_try, read_latest_regime, mbind, M_bind.
  by destruct (redis_xrevrange REGIME_REDIS_STREAM 1 r) as [[l|e] r2].
Qed.

(** What choosing the regime leaves of the server. *)
Definition after_regime (regime : option MarketRegime) (r : R) : R :=
  match regime with Some _ => r | None => (redis_xrevrange REGIME_REDIS_STREAM 1 r).2 end.

Lemma command_regime_total regime (st : St) :
  exists m, command_regime regime st
    = (Ok m, ({| st_pg := st_pg st.1; st_redis := after_regime regime (st_redis st.1) |}, st.2)).
Proof.
  destruct st as [[pg r] w]. destruct regime as [m|]; [by exists m|]. destruct (read_regime_total r) as [m Hm]. exists m.
  unfold command_regime, on_first, M_zoom, on_redis, M_zoom. cbn. by rewrite Hm.
Qed.

(** C38. The universe command cannot score: over a database that this
    repository's schemas made, which have no relation [ohlcv_raw], every run
    that does not just load raises [UndefinedTable] before it reads a candle,
    whatever the regime; PostgreSQL and the files are as before, and Redis has
    at most been read. *)
Theorem universe_command_fails a db end_dt at_ (st : St) start_dt :
  "ohlcv_raw" ∉ db_relations db -> UniverseArgs.load a = false ->
  time_before end_dt (UniverseArgs.lookback_days a * DAY) = Ok start_dt ->
  universe_main a Started db end_dt at_ st
  = (Raise (UndefinedTable "ohlcv_raw"),
     ({| st_pg := st_pg st.1; st_redis := after_regime (UniverseArgs.regime a) (st_redis st.1) |}, st.2)).
Proof.
  intros Hdb Hl Ht. destruct (command_regime_total (UniverseArgs.regime a) st) as (m & Hm).
  unfold universe_main, starting. cbv zeta. rewrite Hl. unfold mbind, M_bind. rewrite Hm.
  unfold score_universe, M_lift, mbind, M_bind. rewrite Ht. cbv iota beta. unfold select_symbols, relation.
  rewrite bool_decide_eq_false_2; [done|]. cbn [db_relations]. unfold apply_universe_schema, apply_schema.
  rewrite !elem_of_created. intros [[Hin|Hin]|Hin]; [done|..]; revert Hin; apply (bool_decide_unpack _); vm_compute; exact I.
Qed.
End UniverseFacts.

Section EndToEnd.
Context {L R RF HMM P W : Type} `{MLflow L RF HMM} `{SkModels RF HMM} `{NumPyArrays} `{NumPyStats} `{TALib}
  `{Postgres P} `{RedisKV R} `{RedisStreamLaws R} `{RegimeCodecLaws} `{NseWorld W} `{UrlOpen W}.

(** C34. A high VIX empties the watchlist: when the regime command publishes
    for a VIX above the threshold, with any models, the published regime is
    chaos, and a universe command that reads the stream of that server next
    and finishes lists nothing and writes neither PostgreSQL nor Redis. *)
Theorem high_vix_empties_universe a connected db now at_ c (s s' : L * R) ua start udb end_dt scored_at
    (st st' : Stores P R * W) entries ms t :
  regime_main a connected db now at_ s = (Ok (Finished c), s') -> RegimeArgs.publish a = true ->
  flt REGIME_VIX_CHAOS_THRESHOLD (RegimeArgs.vix a) = true ->
  timestamp_ms at_ = Ok ms -> (x ← float_of_int ms; fromtimestamp (fdiv x (dec 10000 1))) = Ok t ->
  st_redis st.1 = s'.2 -> is_ok (redis_xrevrange REGIME_REDIS_STREAM 1 s'.2).1 = true ->
  UniverseArgs.regime ua = None -> UniverseArgs.load ua = false ->
  universe_main ua start udb end_dt scored_at st = (Ok (Finished entries), st') ->
  RegimeClassification.regime c = HIGH_VOL_CHAOS /\ entries = []
  /\ st_pg st'.1 = st_pg st.1 /\ st_redis st'.1 = (redis_xrevrange REGIME_REDIS_STREAM 1 s'.2).2.
Proof.
  intros Hrun Hpub Hvix Hms Ht Hsame Hread Hreg Hload Hu.
  apply regime_main_published in Hrun as (classifier & candles & f & id & r & Hf & Hc & Hp); [|done].
  assert (Hchaos : c = RegimeClassification.mk HIGH_VOL_CHAOS (dec 10 1) f (-1) at_).
  { apply extract_features_vix in Hf. unfold classify, is_chaos in Hc. rewrite Hf, Hvix in Hc. by injection Hc. }
  subst c. split; [done|]. pose proof (read_regime_published _ _ _ _ _ _ Hp Hread Hms Ht) as Hr2.
  cbn [RegimeClassification.regime] in Hr2. unfold universe_main, starting in Hu. destruct start; [|done..].
  cbv zeta in Hu. rewrite Hload, Hreg in Hu.
  apply M_bind_Ok in Hu as (m & st1 & Hm & Hu).
  destruct st as [[pg r0] w]. cbn in Hsame. subst r0. destruct (read_regime_total s'.2) as [m' Hm'].
  unfold command_regime, on_first, M_zoom, on_redis, M_zoom in Hm. cbn in Hm. rewrite Hm' in Hm, Hr2. cbn in Hr2.
  injection Hr2 as ->. injection Hm as <- <-. by apply score_universe_chaos in Hu as [-> ->].
Qed.
End EndToEnd.

(** ** Evaluation on concrete inputs *)

#[local] Existing Instance sample_numpy.
#[local] Existing Instance sample_talib.
#[local] Existing Instance sample_models.
#[local] Existing Instance sample_arrays.
#[local] Existing Instance store_mlflow.
#[local] Existing Instance sample_postgres.
#[local] Existing Instance sample_nse.
#[local] Existing Instance Universe.sample_web.

(** 2 July 2026, 11:00:12.345 UTC. *)
Definition sample_now : Z := 1782990012345000.

(** Fifty candles of an index, one every five minutes before that. *)
Definition index_candles : list OHLCVCandle.t :=
  map (fun i => OHLCVCandle.mk (sample_now - (300 - 5 * i) * MINUTE) "NIFTY50" "NSE" (dec 100 0) (dec 101 0) (dec 99 0)
                  (dec (100 + i) 0) 1000) (seqZ 0 60).

Definition candles_of (name : string) : list OHLCVCandle.t :=
  if bool_decide (name ∈ ["ohlcv_5m"; "ohlcv_raw"]) then index_candles else [].

Definition shipped_database : Database := {| db_relations := []; db_candles := candles_of |}.
Definition database_with_raw : Database := {| db_relations := ["ohlcv_raw"]; db_candles := candles_of |}.

Definition scoring_args (regime : option MarketRegime) : UniverseArgs.t := UniverseArgs.mk "NSE" 5 20 regime false false.

Definition empty_stores : Stores unit MemRedis * unit := ({| st_pg := tt; st_redis := mem_empty |}, tt).

Lemma universe_command_fails_witness :
  universe_main (scoring_args (Some BULL_TREND)) Started shipped_database sample_now sample_now empty_stores
  = (Raise (UndefinedTable "ohlcv_raw"), empty_stores).
Proof.
  apply (universe_command_fails (scoring_args (Some BULL_TREND)) shipped_database sample_now sample_now empty_stores
           (sample_now - 5 * DAY)); [by apply not_elem_of_nil|done|vm_compute; reflexivity].
Defined.

(** A VIX of 31 is published. *)
Definition stormy_args : RegimeArgs.t := RegimeArgs.mk "NIFTY50" "NSE" 5 (dec 310 1) None true false.

Definition stormy_run := regime_main stormy_args true shipped_database sample_now sample_now (empty_store, mem_empty).

Definition stores_after : Stores unit MemRedis * unit := ({| st_pg := tt; st_redis := stormy_run.2.2 |}, tt).

Lemma high_vix_empties_universe_witness :
  exists c entries st',
    stormy_run.1 = Ok (Finished c)
    /\ universe_main (scoring_args None) Started database_with_raw sample_now sample_now stores_after = (Ok (Finished entries), st')
    /\ RegimeClassification.regime c = HIGH_VOL_CHAOS /\ entries = []
    /\ st_pg st'.1 = tt /\ st_redis st'.1 = (redis_xrevrange REGIME_REDIS_STREAM 1 stormy_run.2.2).2.
Proof.
  do 3 eexists. split; [vm_compute; reflexivity|]. split; [vm_compute; reflexivity|].
  eapply (high_vix_empties_universe stormy_args true shipped_database sample_now sample_now _ (empty_store, mem_empty) stormy_run.2
           (scoring_args None) Started database_with_raw sample_now sample_now stores_after);
    [vm_compute; reflexivity|done|vm_compute; reflexivity|vm_compute; reflexivity|vm_compute; reflexivity|reflexivity
    |vm_compute; reflexivity|done|done|vm_compute; reflexivity].
Defined.

(** The published chaos is lost when the next reader cannot reach the server:
    it takes the regime for a bull trend. *)
Example outage_turns_chaos_into_bull :
  (read_regime_from_redis stormy_run.2.2).1 = Ok HIGH_VOL_CHAOS
  /\ (read_regime_from_redis mem_down).1 = Ok BULL_TREND.
Proof. split; vm_compute; reflexivity. Qed.
