(* ===== verification/DataCommands.v ===== *)
(** * The pattern, indicator, instrument and backtest commands
      ([patterns/cli.py], [indicators/cli.py], [instruments/cli.py],
      [backtesting/cli.py])

    The entry points that run the engines over the candles of the database,
    in the manner of [MarketCommands]: each function follows its [main] after
    the arguments are parsed and ends with its exit status or with what it
    logs. *)

From stdpp Require Import gmap.
From S2P Require Import Prelude PyFloat PyDict Json PyText Redis Constants Regime MarketData PyDate NumPy Web PyParse.
From S2P Require Import Instruments RegimeClassifier Universe Sentiment Storage MarketCommands.
From S2P Require Import Backtesting BacktestReports Indicators Patterns.
Local Open Scope Z_scope.

Definition TIMEFRAME_TO_MINUTES : dict string Z := [("1m", 1); ("5m", 5); ("15m", 15); ("1h", 60)].

(** ** [python -m shared.patterns] *)

Module PatternArgs.
Record t := mk { symbol : string; exchange : string; timeframe : string; timeframes : string }.
End PatternArgs.

(** [s.split(sep)]; [field] is reversed. *)
Fixpoint split_on (sep : ascii) (field s : string) : list string :=
  match s with
  | EmptyString => [str_rev field ""]
  | String c s => if Ascii.eqb c sep then str_rev field "" :: split_on sep "" s else split_on sep (String c field) s
  end.

Definition requested_tfs (a : PatternArgs.t) : list string :=
  if is_empty (PatternArgs.timeframes a) then [PatternArgs.timeframe a]
  else List.filter (fun tf => negb (is_empty tf)) (map str_strip (split_on "," "" (PatternArgs.timeframes a))).

(** The signals that [_log_snapshot] calls recent: the bar of a signal is
    compared with the number of signals. *)
Definition recent_cdl (snapshot : PatternSnapshot.t) : list CandlestickSignal.t :=
  let signals := PatternSnapshot.candlestick_signals snapshot in
  List.filter (fun s => Z.max 0 (Z.of_nat (length signals) - 10) <=? CandlestickSignal.bar_index s) signals.

(** What the command logs. *)
Inductive PatternOutput : Type :=
| NoCandles
| OneTimeframe (s : PatternSnapshot.t)
| ManyTimeframes (m : MultiTimeframePatterns.t).

Section PatternCommand.
Context `{NumPyStats} `{NumPyMin} `{CandlePatterns}.

(** The candles of one timeframe, over as many bars as the levels need. *)
Definition timeframe_candles (a : PatternArgs.t) (db : Database) (end_ : Z) (tf : string) : result (list OHLCVCandle.t) :=
  start ← time_before end_ (default 5 (dget tf TIMEFRAME_TO_MINUTES) * Z.of_nat SR_LOOKBACK_CANDLES * MINUTE);
  query_candles (db_candles db) (PatternArgs.symbol a) (PatternArgs.exchange a) tf start end_.

Definition patterns_main (a : PatternArgs.t) (connected : bool) (db : Database) (end_ now : Z) : result (Outcome PatternOutput) :=
  if negb connected then mret (Exit 1)
  else
    let db := apply_schema db in
    match requested_tfs a with
    | [tf] =>
        candles ← timeframe_candles a db end_ tf;
        match candles with
        | [] => mret (Finished NoCandles)
        | _ =>
            snapshot ← Patterns.compute_snapshot now (PatternArgs.symbol a) (PatternArgs.exchange a) tf candles
                         ORB_OPENING_RANGE_MINUTES None SR_LOOKBACK_CANDLES;
            mret (Finished (OneTimeframe snapshot))
        end
    | tfs =>
        tf_candles ← for_each (fun d tf => candles ← timeframe_candles a db end_ tf; mret (dset tf candles d)) [] tfs;
        if forallb (fun l => match l with [] => true | _ => false end) (dvalues tf_candles) then mret (Finished NoCandles)
        else
          mtf ← compute_multi_timeframe now (PatternArgs.symbol a) (PatternArgs.exchange a) tf_candles
                  ORB_OPENING_RANGE_MINUTES None SR_LOOKBACK_CANDLES;
          mret (Finished (ManyTimeframes mtf))
    end.
End PatternCommand.

(** ** [python -m shared.indicators] *)

Section IndicatorCommand.
Context {R : Type} `{RedisKV R}.

(** [None] when there are no candles. *)
Definition indicators_main (registry : Registry) (symbol exchange timeframe : string) (connected : bool) (db : Database)
    (end_ now : Z) : M R (Outcome (option IndicatorSnapshot.t)) :=
  if negb connected then mret (Exit 1)
  else
    let db := apply_schema db in
    minutes ← M_lift (match dget timeframe TIMEFRAME_TO_MINUTES with Some m => mret m | None => Raise (KeyError timeframe) end);
    start ← M_lift (time_before end_ (minutes * INDICATOR_LOOKBACK_CANDLES * MINUTE));
    candles ← M_lift (query_candles (db_candles db) symbol exchange timeframe start end_);
    match candles with
    | [] => mret (Finished None)
    | _ =>
        snapshot ← M_lift (Indicators.compute_snapshot registry now symbol exchange timeframe candles);
        _ ← store_snapshot snapshot;
        mret (Finished (Some snapshot))
    end.
End IndicatorCommand.

(** ** [python -m shared.instruments] *)

(** [except <name> as exc: logger.error(...)] around a statement. *)
Definition tolerating {S A} (name : string) (m : M S A) : M S unit :=
  M_try (_ ← m; mret tt)
    (fun e => match e with
              | OtherError text => if String.prefix (name +:+ ": ") text then mret tt else M_raise e
              | _ => M_raise e
              end).

Section InstrumentCommand.
Context {W : Type} `{Requests W}.
Variable page_size : nat.

(** The instrument and the corporate actions of the symbol, after the
    refreshes. *)
Definition instruments_main (symbol exchange : string) (connected : bool) (today : Z)
    : M (Instruments.Store.t W) (Outcome (option Instrument.t * list CorporateAction.t)) :=
  if negb connected then mret (Exit 1)
  else
    _ ← tolerating "InstrumentFetchError" (refresh_instrument_master page_size "NSE");
    _ ← tolerating "InstrumentFetchError" (refresh_instrument_master page_size "ASX");
    _ ← tolerating "CorporateActionFetchError" (refresh_corporate_actions page_size today);
    s ← M_get;
    actions ← M_lift (list_for_symbol (Instruments.Store.actions s) symbol exchange);
    mret (Finished (Instruments.get (Instruments.Store.instruments s) symbol exchange, actions)).
End InstrumentCommand.

(** ** [python -m shared.backtesting] *)

Module BacktestArgs.
Record t := mk {
  symbol : string;
  exchange : string;
  start_date : option string;
  end_date : option string;
  timeframe : string;
  report_dir : string;  (* the temporary directory when none was given *)
  no_db : bool;
}.
End BacktestArgs.

(** The first and the last day; [today] is [date.today()]. *)
Definition backtest_dates (a : BacktestArgs.t) (today : Z) : result (Z * Z) :=
  end_date ← match given (BacktestArgs.end_date a) with Some s => date_fromisoformat s | None => mret today end;
  start_date ← match given (BacktestArgs.start_date a) with
               | Some s => date_fromisoformat s
               | None => t ← time_before (end_date * DAY) (365 * DAY); mret (t / DAY)
               end;
  mret (start_date, end_date).

Section BacktestCommand.
Context {G F : Type} `{NumPyGenerator G} `{NumPyStats} `{TALib} `{VectorBT} `{FileSystem F}.

(** The report files and the table of results. *)
#[local] Abbreviation St := (F * gmap string ResultRow.t)%type.

(** [save_result] over its connection: [refused] is what the server raises, if
    it refuses the statement. *)
Definition save_over (refused : option exn) (r : BacktestResult.t) : M St unit :=
  match refused with None => M_modify (fun s => (s.1, save_result r s.2)) | Some e => M_raise e end.

(** [default_rng(42)] is [rng]; [offset] is the zone of the stored times;
    [None] when there are no candles. *)
Definition backtest_main (a : BacktestArgs.t) (start : CommandStart) (db : Database) (today : Z) (rng : G) (run_id : string)
    (completed_at : Z) (offset : string) (refused : option exn) : M St (Outcome (option BacktestResult.t)) :=
  '(start_date, end_date) ← M_lift (backtest_dates a today);
  starting start
   (let db := apply_schema db in
    raw_candles ← M_lift (query_candles (db_candles db) (BacktestArgs.symbol a) (BacktestArgs.exchange a)
                            (BacktestArgs.timeframe a) (start_date * DAY) ((end_date + 1) * DAY - SECOND));
    match raw_candles with
    | [] => mret (Finished None)
    | _ =>
        let actions := [] in
        candles ← M_lift (adjusted_candles raw_candles actions);
        let config := BacktestConfig.mk "EMA9X21" (BacktestArgs.symbol a) (BacktestArgs.exchange a) start_date end_date
                        (dec 1000000 1) (dec 2 2) (dec 65 3) in
        let '(entries, exits) := ema_crossover_signals candles 9 21 in
        result ← M_lift (fst (run_backtest run_id completed_at config candles entries exits (dec 50 1) rng));
        result ← on_first (generate_reports offset result (BacktestArgs.report_dir a));
        _ ← (if negb (BacktestArgs.no_db a) then save_over refused result else mret tt);
        mret (Finished (Some result))
    end).
End BacktestCommand.

(** * Theorems *)

(** ** A backtest that finishes is on disk and in the table *)

Section BacktestFacts.
Context {G F : Type} `{NumPyGenerator G} `{NumPyStats} `{TALib} `{VectorBT} `{FileSystemLaws F}.

Lemma run_backtest_id run_id at_ config candles entries exits spread (rng : G) r :
  (run_backtest run_id at_ config candles entries exits spread rng).1 = Ok r ->
  BacktestResult.run_id r = run_id /\ BacktestResult.config r = config.
Proof.
  unfold run_backtest. destruct (_ <? _)%nat; [done|]. destruct (_ || _); [done|]. intros Hr.
  match type of Hr with (?p rng).1 = _ => destruct (p rng) as [v rng'] eqn:E end. cbn in Hr. subst v.
  step_in E. apply M_lift_Ok in E as [E _]. do 3 bind_inv E. destruct a1 as [curve records].
  do 3 bind_inv E. by injection E as <-.
Qed.

(** C33. A backtest command that finishes with a result has written both
    reports, whose paths the result carries: the HTML file holds the document
    of that result and a CSV reader gets its trades, one row each, from the
    other; no other file changed.  With the database, loading a run identifier
    that was new gives the metrics and the verdict of the result; with --no-db
    the table is as it was.  A command that finishes without a result, having
    found no candles, changed neither the files nor the table. *)
Theorem backtest_command_recorded a start db today rng run_id at_ offset refused s out s' :
  backtest_main (G := G) (F := F) a start db today rng run_id at_ offset refused s = (Ok (Finished out), s') ->
  match out with
  | None => s' = s
  | Some r =>
      BacktestResult.run_id r = run_id
      /\ BacktestResult.report_html_path r = Some (html_path r (BacktestArgs.report_dir a))
      /\ BacktestResult.report_csv_path r = Some (csv_path r (BacktestArgs.report_dir a))
      /\ (exists doc, build_html r = Ok doc /\ fs_files s'.1 !! html_path r (BacktestArgs.report_dir a) = Some doc)
      /\ (exists text, fs_files s'.1 !! csv_path r (BacktestArgs.report_dir a) = Some text
            /\ csv_reader text = Ok (CSV_HEADERS, map (csv_trade offset) (BacktestResult.trades r)))
      /\ (forall p, p <> html_path r (BacktestArgs.report_dir a) -> p <> csv_path r (BacktestArgs.report_dir a) ->
          fs_files s'.1 !! p = fs_files s.1 !! p)
      /\ (if BacktestArgs.no_db a then s'.2 = s.2
          else s.2 !! run_id = None ->
               load_result run_id s'.2
               = Some (LoadedResult.mk run_id "EMA9X21" (BacktestArgs.symbol a)
                         (BacktestMetrics.sharpe_ratio (BacktestResult.metrics r))
                         (BacktestMetrics.max_drawdown_pct (BacktestResult.metrics r))
                         (BacktestMetrics.win_rate_pct (BacktestResult.metrics r)) (BacktestResult.passed_promotion_gate r)))
  end.
Proof.
  unfold backtest_main. intros Hrun. step_in Hrun. destruct x as [start_date end_date].
  unfold starting in Hrun. destruct start; [|done..]. cbv zeta in Hrun.
  step_in Hrun. apply M_lift_Ok in Hstep as [_ ->]. apply M_lift_Ok in Hstep0 as [_ ->].
  destruct x as [|c cs]; [by injection Hrun as <- <-|]. cbv zeta in Hrun. step_in Hrun. apply M_lift_Ok in Hstep as [_ ->].
  destruct (ema_crossover_signals x 9 21) as [entries exits]. step_in Hrun. apply M_lift_Ok in Hstep as [Hbt ->].
  apply run_backtest_id in Hbt as [Hid Hcfg]. step_in Hrun. apply on_first_Ok in Hstep as [Hrep Hst]. step_in Hrun.
  injection Hrun as <- <-. apply reports_written in Hrep as (-> & (doc & Hbuilt & Hdoc) & Hcsv & Hrest).
  assert (x4.1 = x2.1 /\ if BacktestArgs.no_db a then x4.2 = x2.2 else x4.2 = save_result
    (with_paths (html_path x0 (BacktestArgs.report_dir a)) (csv_path x0 (BacktestArgs.report_dir a)) x0) x2.2) as [Hf Ht].
  { destruct (BacktestArgs.no_db a); cbn [negb] in Hstep; [by injection Hstep as _ <-|].
    unfold save_over in Hstep. destruct refused; [done|]. by injection Hstep as _ <-. }
  rewrite Hf. split_and!; [exact Hid|done|done|by exists doc|exact Hcsv|exact Hrest|].
  destruct (BacktestArgs.no_db a); [congruence|]. intros Hnew. rewrite Ht, Hst. unfold save_result, load_result. cbn [BacktestResult.run_id with_paths].
  rewrite Hid, Hnew, lookup_insert_eq. cbn. by rewrite Hcfg.
Qed.
End BacktestFacts.

(** ** Which signals the pattern command calls recent *)

(** With at most ten signals every one is recent, however old its bar is. *)
Lemma few_signals_are_recent s :
  (length (PatternSnapshot.candlestick_signals s) <= 10)%nat ->
  Forall (fun c => 0 <= CandlestickSignal.bar_index c) (PatternSnapshot.candlestick_signals s) ->
  recent_cdl s = PatternSnapshot.candlestick_signals s.
Proof.
  unfold recent_cdl. cbv zeta. set (l := PatternSnapshot.candlestick_signals s). intros Hlen Hall.
  rewrite Z.max_l by lia. induction Hall as [|c cs Hc _ IH]; [done|].
  cbn [List.filter]. rewrite (proj2 (Z.leb_le _ _) Hc). f_equal. apply IH. cbn in Hlen. lia.
Qed.

(** ** The indicators of a command are in the cache *)

Section IndicatorFacts.
Context {R : Type} `{RedisKVLaws R}.

(** The snapshot with which an indicator command finishes is the engine's
    answer for the candles of its window, and whoever loads the indicators of
    that symbol, exchange and timeframe from Redis afterwards gets it back. *)
Theorem indicator_command_cached registry symbol exchange timeframe db end_ now r snapshot r1 :
  redis_up r -> cacheable snapshot ->
  indicators_main registry symbol exchange timeframe true db end_ now r = (Ok (Finished (Some snapshot)), r1) ->
  (exists minutes start candles,
     dget timeframe TIMEFRAME_TO_MINUTES = Some minutes
     /\ time_before end_ (minutes * INDICATOR_LOOKBACK_CANDLES * MINUTE) = Ok start
     /\ query_candles (db_candles db) symbol exchange timeframe start end_ = Ok candles
     /\ Indicators.compute_snapshot registry now symbol exchange timeframe candles = Ok snapshot)
  /\ exists r2, load_snapshot (IndicatorSnapshot.symbol snapshot) (IndicatorSnapshot.exchange snapshot)
                 (IndicatorSnapshot.timeframe snapshot) r1 = (Ok (Some snapshot), r2).
Proof.
  intros Hup Hc. unfold indicators_main. cbn [negb]. intros Hrun.
  step_in Hrun. apply M_lift_Ok in Hstep as [Hm ->]. destruct (dget timeframe _) as [m|]; [|done]. injection Hm as ->.
  step_in Hrun. apply M_lift_Ok in Hstep as [Hstart ->]. step_in Hrun. apply M_lift_Ok in Hstep as [Hq ->].
  destruct x1 as [|c cs]; [done|]. step_in Hrun. apply M_lift_Ok in Hstep as [Hs ->]. step_in Hrun.
  injection Hrun as -> ->. destruct x2. split; [by exists x, x0, (c :: cs)|]. by eapply indicator_snapshot_round_trip.
Qed.
End IndicatorFacts.

(** ** A failed fetch keeps the manual overrides out *)

Section InstrumentFacts.
Context {W : Type} `{Requests W}.
Variable page_size : nat.

#[local] Abbreviation St := (Instruments.Store.t W).

(** Only the state of the network may differ. *)
Definition tables_kept (s s' : St) : Prop :=
  Instruments.Store.instruments s' = Instruments.Store.instruments s
  /\ Instruments.Store.actions s' = Instruments.Store.actions s
  /\ Instruments.Store.overrides s' = Instruments.Store.overrides s.

#[export] Instance tables_kept_preorder : PreOrder tables_kept.
Proof.
  split; [done|]. intros s s1 s2 (E1 & E2 & E3) (F1 & F2 & F3). split_and!; [by rewrite F1|by rewrite F2|by rewrite F3].
Qed.

Lemma prefix_app p s : String.prefix p (p +:+ s) = true.
Proof. induction p as [|c p IH]; [by destruct s|]. change ((if Ascii.ascii_dec c c then String.prefix p (p +:+ s) else false) = true). case (Ascii.ascii_dec c c); [intros _; exact IH|congruence]. Qed.

Lemma tolerating_raised {A} name msg (m : M St A) s s' :
  m s = (Raise (OtherError (name +:+ ": " +:+ msg)), s') -> tolerating name m s = (Ok tt, s').
Proof.
  intros E. unfold tolerating, M_try, mbind, M_bind. rewrite E. by rewrite <- str_app_assoc, prefix_app.
Qed.

(** No request is answered. *)
Definition offline : Prop :=
  forall url params (w : W), exists msg w1 w2,
    requests_get url params w = (Raise (RequestException msg), w1)
    /\ requests_get_ok url params w = (Raise (RequestException msg), w2).

Lemma offline_instruments exchange s :
  offline -> exchange = "NSE" \/ exchange = "ASX" ->
  exists s', tolerating "InstrumentFetchError" (refresh_instrument_master page_size exchange) s = (Ok tt, s') /\ tables_kept s s'.
Proof.
  intros Hoff Hex. set (url := if String.eqb exchange "NSE" then NSE_URL else ASX_URL).
  destruct (Hoff url [] (Instruments.Store.net s)) as (msg & w1 & w2 & _ & E).
  exists (Instruments.Store.mk w2 (Instruments.Store.instruments s) (Instruments.Store.actions s) (Instruments.Store.overrides s)).
  split; [|by split_and!]. apply tolerating_raised with (msg := msg).
  unfold refresh_instrument_master, mbind, M_bind, on_net, M_zoom.
  subst url. destruct Hex as [-> | ->]; unfold INSTRUMENT_SOURCES; cbn [String.eqb Ascii.eqb Bool.eqb] in *;
    unfold fetch_nse_instruments, fetch_asx_instruments; by rewrite E.
Qed.

Lemma offline_actions today s :
  offline ->
  exists s', tolerating "CorporateActionFetchError" (refresh_corporate_actions page_size today) s = (Ok tt, s') /\ tables_kept s s'.
Proof.
  intros Hoff. destruct (Hoff "https://www.nseindia.com" [] (Instruments.Store.net s)) as (msg & w1 & w2 & E & _).
  exists (Instruments.Store.mk w1 (Instruments.Store.instruments s) (Instruments.Store.actions s) (Instruments.Store.overrides s)).
  split; [|by split_and!]. apply tolerating_raised with (msg := "NSE corporate actions fetch failed").
  unfold refresh_corporate_actions, default_refresh_window, mbind, M_bind, on_net, M_zoom, fetch_nse_actions, M_catch, mbind, M_bind.
  by rewrite E.
Qed.

(** Without the network the command finishes and answers from the tables
    as they were, but it writes nothing: the manual overrides, which are on
    the disk and need no network, are not applied either. *)
Theorem offline_command_skips_overrides symbol exchange today s :
  offline ->
  exists s', tables_kept s s'
    /\ instruments_main page_size symbol exchange true today s
       = (match list_for_symbol (Instruments.Store.actions s) symbol exchange with
          | Ok actions => Ok (Finished (Instruments.get (Instruments.Store.instruments s) symbol exchange, actions))
          | Raise e => Raise e
          end, s').
Proof.
  intros Hoff. destruct (offline_instruments "NSE" s Hoff) as (s1 & E1 & K1); [by left|].
  destruct (offline_instruments "ASX" s1 Hoff) as (s2 & E2 & K2); [by right|].
  destruct (offline_actions today s2 Hoff) as (s3 & E3 & K3).
  assert (K : tables_kept s s3) by (etransitivity; [exact K1|]; by etransitivity). exists s3. split; [exact K|].
  unfold instruments_main. cbn [negb]. unfold mbind, M_bind. rewrite E1, E2, E3. unfold M_get, M_lift.
  destruct K as (-> & -> & _). by destruct (list_for_symbol _ _ _).
Qed.
End InstrumentFacts.

(** ** Evaluation on concrete inputs *)

#[local] Existing Instance sample_numpy.
#[local] Existing Instance sample_talib.
#[local] Existing Instance fixed_generator.
#[local] Existing Instance rising_portfolio.
#[local] Existing Instance gmap_files.
#[local] Existing Instance gmap_files_laws.

Definition month_database : Database :=
  {| db_relations := []; db_candles := fun name => if String.eqb name "ohlcv_15m" then daily_candles 30 else [] |}.

Definition month_args : BacktestArgs.t :=
  BacktestArgs.mk "INFY" "NSE" (Some "1970-01-01") (Some "1970-01-31") "15m" "reports" false.

Definition month_run :=
  backtest_main (G := unit) month_args Started month_database 40 tt "0a1b2c3d" (40 * DAY) "+00:00" None
    (∅ : gmap string string, ∅ : gmap string ResultRow.t).

Definition outcome_of {A S} (run : result (Outcome (option A)) * S) : option A :=
  match run.1 with Ok (Finished r) => r | _ => None end.

Lemma outcome_of_Some {A S} (run : result (Outcome (option A)) * S) :
  is_Some (outcome_of run) -> exists r s', run = (Ok (Finished (Some r)), s').
Proof. destruct run as [[[n|[r|]]|e] s']; intros [x Hx]; try done. by exists r, s'. Qed.

Lemma backtest_command_recorded_witness :
  exists r s', month_run = (Ok (Finished (Some r)), s')
    /\ load_result "0a1b2c3d" s'.2
       = Some (LoadedResult.mk "0a1b2c3d" "EMA9X21" "INFY"
                 (BacktestMetrics.sharpe_ratio (BacktestResult.metrics r))
                 (BacktestMetrics.max_drawdown_pct (BacktestResult.metrics r))
                 (BacktestMetrics.win_rate_pct (BacktestResult.metrics r)) (BacktestResult.passed_promotion_gate r)).
Proof.
  destruct (outcome_of_Some month_run) as (r & s' & E); [apply (bool_decide_unpack _); vm_compute; exact I|].
  exists r, s'. split; [exact E|]. unfold month_run in E.
  apply backtest_command_recorded in E. exact (proj2 (proj2 (proj2 (proj2 (proj2 (proj2 E))))) eq_refl).
Defined.

(** No host answers. *)
#[local] Instance no_network : Requests unit := {|
  requests_get _ _ := M_raise (RequestException "no route to host");
  requests_get_ok _ _ := M_raise (RequestException "no route to host");
|}.

Definition offline_store : Instruments.Store.t unit := Instruments.Store.mk tt [] [] (Some [sample_override]).

Lemma offline_command_skips_overrides_witness :
  offline (W := unit)
  /\ exists s', Instruments.Store.actions s' = []
     /\ instruments_main 100 "XYZ" "NSE" true 19700 offline_store = (Ok (Finished (None, [])), s').
Proof.
  assert (Hoff : offline (W := unit)) by (intros url params []; by exists "no route to host", tt, tt).
  split; [exact Hoff|].
  destruct (offline_command_skips_overrides 100 "XYZ" "NSE" 19700 offline_store Hoff) as (s' & (_ & Hk & _) & E).
  exists s'. split; [exact Hk|]. exact E.
Defined.
