(* ===== verification/Dashboard.v ===== *)
(** * The operational dashboard ([dashboard/app.py])

    The Streamlit script as one run over the values of its widgets: it posts
    the controls whose button is pressed, fetches the five documents and
    draws.  Streamlit is a list of the elements drawn, in order; columns and
    the style of an element are layout.  HTTP is the client of [Api]; the
    second part serves its requests with the application of [ApiApp], so that
    a run of the page is a conversation with the system itself. *)

From stdpp Require Import gmap.
From S2P Require Import Prelude PyFloat PyDict Json PyText Redis Constants Monitor Config Api ApiApp ReportDocs.
Local Open Scope Z_scope.

(** ** The script *)

(** What the widgets hold when the script runs; a button is pressed in one
    run. *)
Module Widgets.
Record t := mk {
  api_key_input : string;
  kill_pressed : bool;
  pause_pressed : bool;
  resume_pressed : bool;
  exchange_filter : string;
  auto_refresh : bool;
}.
End Widgets.

Inductive Element : Type :=
| Title (text : string)
| Header (text : string)
| Success (text : string)
| Error (text : string)
| Warning (text : string)
| Info (text : string)
| Metric (label value : string) (delta : option string)
| Subheader (text : string)
| Table (rows : json)
| Caption (text : string)
| Divider
| Sleep (seconds : Z)
| Rerun.

Definition Screen : Type := list Element.

Definition _REFRESH_INTERVAL_S : Z := 5.

(** [_f(v)] and [_i(v)]. *)
Definition _f (v : json) : result float := if is_number v then json_to_float v else mret f_zero.
Definition _i (v : json) : result Z := if is_number v then json_to_int v else mret 0.

(** The parts of the status line. *)
Definition banner (mode : string) (is_halted is_paused is_degraded : bool) : string :=
  str_join "  |  "
    (["Mode: **" +:+ mode +:+ "**";
      if is_halted then "🔴 **HALTED**" else if is_paused then "🟡 **PAUSED**" else "🟢 Running"]
     ++ (if is_degraded then ["⚠️ Degraded (exit-only)"] else [])).

Section Page.
Context {W : Type} `{Httpx W} (settings : Settings.t).

#[local] Abbreviation St := (W * Screen)%type.

Definition show (e : Element) : M St unit := M_modify (fun s => (s.1, s.2 ++ [e])).

(** A call of [dashboard.fetcher]. *)
Definition call {A} (m : M W A) : M St A := M_zoom fst (fun w s => (w, s.2)) m.

(** One of the three buttons. *)
Definition control_button (pressed : bool) (post_control : string -> M W json) (key done_text : string) : M St unit :=
  if pressed then
    if is_empty key then show (Warning "Enter API key first")
    else
      result ← call (post_control key);
      success ← M_lift (jget "success" JNull result);
      if truthy success then show (Success done_text)
      else
        reason ← M_lift (jget "reason" JNull result);
        show (Error ("Failed: " +:+ py_str reason))
  else mret tt.

Definition sidebar (w : Widgets.t) : M St unit :=
  let key := Widgets.api_key_input w in
  _ ← show (Header "System Controls");
  _ ← control_button (Widgets.kill_pressed w) (post_kill settings) key "Kill switch triggered";
  _ ← control_button (Widgets.pause_pressed w) (post_pause settings) key "Entries paused";
  _ ← control_button (Widgets.resume_pressed w) (post_resume settings) key "Entries resumed";
  show Divider.

Definition status_banner (status : json) : M St unit :=
  mode ← M_lift (jget "trading_mode" (JStr "PAPER") status);
  is_halted ← M_lift (jget "is_halted" (JBool false) status);
  is_paused ← M_lift (jget "is_paused" (JBool false) status);
  is_degraded ← M_lift (jget "is_degraded" (JBool false) status);
  show (Info (banner (py_str mode) (truthy is_halted) (truthy is_paused) (truthy is_degraded))).

Definition count_metric (label key : string) (status : json) : M St unit :=
  n ← M_lift (v ← jget key JNull status; _i v);
  show (Metric label (pretty n) None).

Definition kpi_row (status pnl : json) : M St unit :=
  regime ← M_lift (jget "regime" JNull status);
  _ ← show (Metric "Regime" (py_str (if truthy regime then regime else JStr "-")) None);
  total_pnl ← M_lift (v ← jget "total_pnl" JNull pnl; _f v);
  total_pnl_pct ← M_lift (v ← jget "total_pnl_pct" JNull pnl; _f v);
  _ ← show (Metric "P&L Today" ("$" +:+ fmt_grouped 0 total_pnl) (Some (fmt_fixed 2 total_pnl_pct +:+ "%")));
  _ ← count_metric "Open Positions" "open_positions_count" status;
  _ ← count_metric "Signals Today" "signals_today" status;
  _ ← count_metric "Recon Mismatches" "reconciliation_mismatches" status;
  show Divider.

(** A panel: the rows, or the caption when there are none. *)
Definition panel (title : string) (rows : json) (caption : string) : M St unit :=
  _ ← show (Subheader title);
  if truthy rows then show (Table rows) else show (Caption caption).

(** What is drawn from the documents. *)
Definition draw (w : Widgets.t) (status pnl positions signals watchlist : json) : M St unit :=
  _ ← status_banner status;
  _ ← kpi_row status pnl;
  _ ← panel "Open Positions" positions "No open positions.";
  _ ← panel "Recent Signals" signals "No signals received today.";
  panel ("Watchlist — " +:+ Widgets.exchange_filter w) watchlist "Watchlist not yet published.".

Definition main_area (w : Widgets.t) : M St unit :=
  status ← call (fetch_status settings);
  pnl ← call (fetch_pnl settings);
  positions ← call (fetch_positions settings);
  signals ← call (fetch_signals settings 20);
  watchlist ← call (fetch_watchlist settings (Widgets.exchange_filter w));
  _ ← draw w status pnl positions signals watchlist;
  if Widgets.auto_refresh w then _ ← show (Sleep _REFRESH_INTERVAL_S); show Rerun else mret tt.

Definition page (w : Widgets.t) : M St unit :=
  _ ← show (Title "Intraday Trading System — Operational Dashboard");
  _ ← sidebar w;
  main_area w.

(** One run of the script on an empty screen, and the runs of a session. *)
Definition run_page (w : Widgets.t) (net : W) : result unit * (W * Screen) := page w (net, []).

Definition session (ws : list Widgets.t) (net : W) : W := foldl (fun net w => (run_page w net).2.1) net ws.
End Page.

(** ** The client of the served application

    [httpx] over the application, and FastAPI's rendering of what an endpoint
    answers, are parameters: a reply whose floats are finite arrives as the
    JSON of its response model, and an error makes [raise_for_status], which
    follows a GET, raise. *)

Definition opt {A} (f : A -> json) (x : option A) : json := match x with Some a => f a | None => JNull end.

Definition status_json (s : SystemStatus.t) : json :=
  JObj [("trading_mode", JStr (SystemStatus.trading_mode s)); ("is_halted", JBool (SystemStatus.is_halted s));
        ("is_paused", JBool (SystemStatus.is_paused s)); ("is_degraded", JBool (SystemStatus.is_degraded s));
        ("kill_switch_active", JBool (SystemStatus.kill_switch_active s));
        ("circuit_breaker_active", JBool (SystemStatus.circuit_breaker_active s));
        ("regime", opt JStr (SystemStatus.regime s)); ("pnl_today", JFloat (SystemStatus.pnl_today s));
        ("pnl_today_pct", JFloat (SystemStatus.pnl_today_pct s));
        ("open_positions_count", JInt (SystemStatus.open_positions_count s));
        ("signals_today", JInt (SystemStatus.signals_today s)); ("trades_today", JInt (SystemStatus.trades_today s));
        ("reconciliation_mismatches", JInt (SystemStatus.reconciliation_mismatches s));
        ("timestamp_ms", JInt (SystemStatus.timestamp_ms s))].

Definition position_json (p : PositionOut.t) : json :=
  JObj [("symbol", JStr (PositionOut.symbol p)); ("exchange", JStr (PositionOut.exchange p));
        ("direction", JStr (PositionOut.direction p)); ("quantity", JInt (PositionOut.quantity p));
        ("entry_price", JFloat (PositionOut.entry_price p))].

Definition signal_json (s : SignalOut.t) : json :=
  JObj [("signal_id", JStr (SignalOut.signal_id s)); ("symbol", JStr (SignalOut.symbol s));
        ("exchange", JStr (SignalOut.exchange s)); ("direction", JStr (SignalOut.direction s));
        ("confidence", JFloat (SignalOut.confidence s)); ("strategy_tag", JStr (SignalOut.strategy_tag s));
        ("timestamp_ms", JInt (SignalOut.timestamp_ms s))].

Definition pnl_json (p : PnLOut.t) : json :=
  JObj [("date", JStr (PnLOut.date p)); ("total_pnl", JFloat (PnLOut.total_pnl p));
        ("total_pnl_pct", JFloat (PnLOut.total_pnl_pct p)); ("starting_capital", JFloat (PnLOut.starting_capital p));
        ("open_positions_count", JInt (PnLOut.open_positions_count p)); ("is_halted", JBool (PnLOut.is_halted p))].

Definition watchlist_json (e : WatchlistOut.t) : json :=
  JObj [("symbol", JStr (WatchlistOut.symbol e)); ("exchange", JStr (WatchlistOut.exchange e));
        ("composite_score", opt JFloat (WatchlistOut.composite_score e))].

Definition control_json (c : ControlResponse.t) : json :=
  JObj [("success", JBool (ControlResponse.success c)); ("action", JStr (ControlResponse.action c));
        ("reason", JStr (ControlResponse.reason c))].

Definition body_json (b : Body) : json :=
  match b with
  | HealthBody fields => JObj (map (fun kv => (kv.1, JStr kv.2)) fields)
  | StatusBody s => status_json s
  | PositionsBody l => JList (map position_json l)
  | SignalsBody l => JList (map signal_json l)
  | PnLBody p => pnl_json p
  | WatchlistBody l => JList (map watchlist_json l)
  | ControlBody c => control_json c
  end.

(** The floats of a body. *)
Definition body_floats (b : Body) : list float :=
  match b with
  | StatusBody s => [SystemStatus.pnl_today s; SystemStatus.pnl_today_pct s]
  | PositionsBody l => map PositionOut.entry_price l
  | SignalsBody l => map SignalOut.confidence l
  | PnLBody p => [PnLOut.total_pnl p; PnLOut.total_pnl_pct p; PnLOut.starting_capital p]
  | WatchlistBody l => omap WatchlistOut.composite_score l
  | HealthBody _ | ControlBody _ => []
  end.

(** The request for a path of the server; a limit that is no number is out of
    range. *)
Definition to_request (method : Method) (path : string) (params : list (string * string)) (headers : dict string string)
    : Request.t :=
  Request.mk method path (dget "X-API-Key" headers)
    (match dget "limit" params with
     | Some text => Some (match py_int text with Ok n => n | Raise _ => 0 end)
     | None => None
     end) (dget "exchange" params).

(** What the client makes of a response: of a GET, [raise_for_status] and
    [json], of a POST only [json]. *)
Class Rendering := {
  got : Response Body -> result json;
  posted : Response Body -> result json;
  got_reply b : forallb is_finite (body_floats b) = true -> got (Reply b) = Ok (body_json b);
  posted_reply b : forallb is_finite (body_floats b) = true -> posted (Reply b) = Ok (body_json b);
  got_error status detail : is_ok (got (HttpError status detail)) = false;
}.

(** A client whose requests to the address of the API are served by the
    application on the server [R], at one time of the clock. *)
Class Served (R : Type) `{RedisKV R} `{RedisStreamRead R} `{Starlette R} `{Httpx R} `{Rendering}
    (settings : Settings.t) (now_ms today : Z) : Prop := {
  served_get path params headers r :
    httpx_get (base settings +:+ path) params headers r
    = let '(response, r') := serve settings (to_request GET path params headers) now_ms today r in (got response, r');
  served_post path headers r :
    httpx_post (base settings +:+ path) headers r
    = let '(response, r') := serve settings (to_request POST path [] headers) now_ms today r in (posted response, r');
}.

(** * Theorems *)

(** ** What every run keeps *)

Definition pressed (w : Widgets.t) : bool := Widgets.kill_pressed w || Widgets.pause_pressed w || Widgets.resume_pressed w.

Section PageKeeps.
Context {W : Type} `{Httpx W} (settings : Settings.t) (P : W * Screen -> Prop) (w : Widgets.t).
Hypothesis (Hshow : forall e, keeps P (show e)).
Hypothesis (Hfetch : forall path params d, keeps P (call (fetch settings path params d))).
Hypothesis (Hpost : pressed w = true -> forall action, keeps P (call (post settings action (Widgets.api_key_input w)))).

#[local] Hint Resolve Hshow Hfetch : keeps.

Lemma control_button_keeps b action done_text :
  (b = true -> pressed w = true) ->
  keeps P (control_button b (post settings action) (Widgets.api_key_input w) done_text).
Proof.
  intros Hb. unfold control_button. destruct b; [|apply keeps_ret]. destruct (is_empty _); [apply Hshow|].
  apply keeps_bind; [by apply Hpost, Hb|intros result]. repeat keeps_step.
Qed.

Lemma sidebar_keeps : keeps P (sidebar settings w).
Proof.
  unfold sidebar. cbv zeta. apply keeps_bind; [apply Hshow|intros _].
  do 3 (apply keeps_bind; [apply control_button_keeps; unfold pressed; intros ->; by rewrite ?orb_true_r|intros _]).
  apply Hshow.
Qed.

Lemma kpi_row_keeps status pnl : keeps P (kpi_row status pnl).
Proof. unfold kpi_row, count_metric. repeat keeps_step. Qed.

Lemma panel_keeps title rows caption : keeps P (panel title rows caption).
Proof. unfold panel. repeat keeps_step. Qed.

#[local] Hint Resolve sidebar_keeps kpi_row_keeps panel_keeps : keeps.

Lemma drawn_keeps status pnl positions signals watchlist :
  keeps P (draw w status pnl positions signals watchlist).
Proof. unfold draw, status_banner. repeat keeps_step. Qed.

#[local] Hint Resolve drawn_keeps : keeps.

Lemma main_area_keeps : keeps P (main_area settings w).
Proof. unfold main_area, fetch_status, fetch_pnl, fetch_positions, fetch_signals, fetch_watchlist. repeat keeps_step. Qed.

#[local] Hint Resolve main_area_keeps : keeps.

Lemma page_keeps : keeps P (page settings w).
Proof. unfold page. repeat keeps_step. Qed.
End PageKeeps.

Lemma call_keeps {W A} (P : W -> Prop) (m : M W A) : keeps P m -> keeps (fun s : W * Screen => P s.1) (call m).
Proof. intros Hm s Hs. unfold call, M_zoom. specialize (Hm s.1 Hs). by destruct (m s.1). Qed.

(** ** What a run draws *)

Section Drawn.
Context {W : Type} `{Httpx W} (settings : Settings.t).

#[local] Abbreviation St := (W * Screen)%type.

Lemma show_keeps_element e e' : keeps (fun s : St => e ∈ s.2) (show e').
Proof. intros s Hs. apply elem_of_app. by left. Qed.

Lemma call_keeps_element {A} e (m : M W A) : keeps (fun s : St => e ∈ s.2) (call m).
Proof. intros s Hs. unfold call, M_zoom. by destruct (m s.1). Qed.

(** What a step has drawn stays. *)
Lemma drawn_stays {A B} e (m : M St A) (k : A -> M St B) s :
  e ∈ (m s).2.2 -> (forall a, keeps (fun s : St => e ∈ s.2) (k a)) -> e ∈ ((m ≫= k) s).2.2.
Proof. intros Hm Hk. unfold mbind, M_bind. destruct (m s) as [[a|err] s']; [by apply Hk|done]. Qed.

(** A fetch always returns. *)
Lemma call_fetch path params d (st : St) : exists v st', call (fetch settings path params d) st = (Ok v, st').
Proof. unfold call, M_zoom, fetch, M_try. destruct (httpx_get _ _ _ st.1) as [[v|e] r']; by eexists _, _. Qed.

(** The flags of a status document. *)
Definition reads (status : json) (mode h p d : json) : Prop :=
  jget "trading_mode" (JStr "PAPER") status = Ok mode /\ jget "is_halted" (JBool false) status = Ok h
  /\ jget "is_paused" (JBool false) status = Ok p /\ jget "is_degraded" (JBool false) status = Ok d.

(** The status line shows the document that was fetched. *)
Lemma main_area_banner w st status st1 mode h p d :
  call (fetch_status settings) st = (Ok status, st1) -> reads status mode h p d ->
  Info (banner (py_str mode) (truthy h) (truthy p) (truthy d)) ∈ (main_area settings w st).2.2.
Proof.
  intros Hf (E1 & E2 & E3 & E4). unfold main_area. unfold mbind at 1, M_bind at 1. rewrite Hf.
  unfold fetch_pnl, fetch_positions, fetch_signals, fetch_watchlist.
  do 4 (unfold mbind at 1, M_bind at 1; edestruct call_fetch as (? & ? & ->)).
  apply drawn_stays; [|intros _; repeat keeps_step; apply show_keeps_element].
  apply drawn_stays; [|intros _; repeat keeps_step; auto using show_keeps_element, kpi_row_keeps, panel_keeps].
  unfold status_banner, M_lift. rewrite E1, E2, E3, E4. apply elem_of_app. right. by left.
Qed.
End Drawn.

(** ** A run over the served application *)

Section ServedFacts.
Context {R : Type} `{KL : RedisKVLaws R} `{SR : RedisStreamRead R} `{ST : Starlette R} `{HX : Httpx R} `{RD : Rendering}.
Context (settings : Settings.t) (now_ms today : Z) `{SV : !Served R settings now_ms today}.

(** A button is pressed and the configured key is entered. *)
Definition commanding (w : Widgets.t) : Prop :=
  pressed w = true /\ Settings.api_key settings <> "" /\ Widgets.api_key_input w = Settings.api_key settings.

Lemma get_keeps `{!RedisStreamReadKV R} kv path params headers :
  keeps (fun r : R => redis_kv r = kv) (httpx_get (base settings +:+ path) params headers).
Proof.
  intros r Hr. rewrite served_get.
  pose proof (serve_safe settings (to_request GET path params headers) now_ms today r) as Hs.
  destruct (serve _ _ _ _ r) as [response r']. cbn [snd] in *. rewrite Hs; [done|]. by intros (? & _).
Qed.

Lemma post_keeps `{!RedisStreamReadKV R} kv path headers :
  (Settings.api_key settings <> "" -> dget "X-API-Key" headers <> Some (Settings.api_key settings)) ->
  keeps (fun r : R => redis_kv r = kv) (httpx_post (base settings +:+ path) headers).
Proof.
  intros Hk r Hr. rewrite served_post.
  pose proof (serve_safe settings (to_request POST path [] headers) now_ms today r) as Hs.
  destruct (serve _ _ _ _ r) as [response r']. cbn [snd] in *. rewrite Hs; [done|]. intros (_ & E2 & E3). by apply Hk.
Qed.

(** C25. The dashboard only watches: however long a session runs, on every
    screen refresh and with every value of the widgets, no key of Redis
    changes unless a button is pressed while the configured key is entered. *)
Theorem dashboard_only_watches `{!RedisStreamReadKV R} ws (r : R) :
  Forall (fun w => ~ commanding w) ws ->
  redis_kv (session settings ws r) = redis_kv r.
Proof.
  intros Hws. unfold session. revert r. induction Hws as [|w ws Hw _ IH]; [done|]. intros r. cbn [foldl].
  rewrite IH. apply (page_keeps settings (fun s => redis_kv s.1 = redis_kv r) w); [| | |done].
  - intros e s Hs. exact Hs.
  - intros path params d. apply (call_keeps (fun r' => redis_kv r' = redis_kv r)), keeps_try; [|intros _; apply keeps_ret]. by apply get_keeps.
  - intros Hp action. apply (call_keeps (fun r' => redis_kv r' = redis_kv r)), keeps_try; [|intros _; apply keeps_ret]. apply post_keeps.
    intros Hk [= E]. destruct Hw. by split_and!.
Qed.

(** *** The kill button *)

Lemma serve_status params headers (r : R) :
  serve settings (to_request GET "/api/v1/status" params headers) now_ms today r
  = body_map StatusBody (read_route settings (dget "X-API-Key" headers) (get_status settings now_ms) r).
Proof. unfold serve. by erewrite handle_matched by reflexivity. Qed.

Lemma serve_kill headers (r : R) :
  serve settings (to_request POST "/api/v1/controls/kill" [] headers) now_ms today r
  = body_map ControlBody (post_control settings KILL (dget "X-API-Key" headers) now_ms r).
Proof. unfold serve. by erewrite handle_matched by reflexivity. Qed.

(** The document of the status that the dashboard gets. *)
Lemma fetch_status_up (r : R) screen : redis_up r -> Settings.api_key settings <> "" ->
  exists r', call (fetch_status settings) (r, screen)
    = (Ok match got (body_map StatusBody
                       (respond (status_of settings (blob r) (flag_text (redis_kv r !! KILL_SWITCH_HALTED_KEY))
                          (flag_text (redis_kv r !! API_PAUSE_REDIS_KEY))
                          (flag_text (redis_kv r !! INGESTION_DEGRADED_REDIS_KEY)) now_ms), r)).1 with
          | Ok v => v
          | Raise _ => JObj []
          end, (r', screen))
    /\ redis_kv r' = redis_kv r.
Proof.
  intros Hup Hkey. destruct (get_status_up settings now_ms r Hup) as (r' & E).
  pose proof (get_status_kv settings now_ms r) as Hkv. rewrite E in Hkv. exists r'. split; [|done].
  unfold call, M_zoom, fetch_status, fetch, M_try. cbn [fst snd]. rewrite served_get, serve_status. unfold headers, is_empty. rewrite (proj2 (String.eqb_neq _ _) Hkey).
  unfold read_route, guarded, optional_api_key, is_empty. rewrite (proj2 (String.eqb_neq _ _) Hkey).
  change (dget "X-API-Key" _) with (Some (Settings.api_key settings)). unfold key_check. rewrite String.eqb_refl, E.
  unfold body_map. cbn [fst snd]. by destruct (got _).
Qed.

Lemma press_kill w (r : R) screen :
  commanding w -> Widgets.kill_pressed w = true -> Widgets.pause_pressed w = false -> Widgets.resume_pressed w = false ->
  redis_up r ->
  exists r', sidebar settings w (r, screen)
    = (Ok tt, (r', ((screen ++ [Header "System Controls"]) ++ [Success "Kill switch triggered"]) ++ [Divider]))
    /\ redis_up r' /\ redis_kv r' !! KILL_SWITCH_HALTED_KEY = Some "true"
    /\ (forall k, k ∉ [KILL_SWITCH_HALTED_KEY; KILL_SWITCH_TIER_KEY; KILL_SWITCH_REASON_KEY] ->
        redis_kv r' !! k = redis_kv r !! k).
Proof.
  intros (_ & Hkey & Hin) Hk Hp Hr Hup. destruct (kill_up now_ms r Hup) as (r' & E & Hrest). exists r'. split; [|exact Hrest].
  unfold sidebar. cbv zeta. rewrite Hk, Hp, Hr, Hin. unfold control_button, is_empty.
  unfold post_kill, post, call, M_zoom, M_try.
  unfold show, M_modify, M_lift, mbind, M_bind, mret, M_ret. rewrite (proj2 (String.eqb_neq _ _) Hkey). cbn [fst snd].
  change ("/api/v1/controls/" +:+ "kill") with "/api/v1/controls/kill". rewrite served_post, serve_kill.
  change (dget "X-API-Key" _) with (Some (Settings.api_key settings)). unfold post_control, guarded.
  rewrite (proj2 (require_api_key_spec settings _) (conj Hkey eq_refl)). change (run_control KILL now_ms r) with (kill now_ms r). rewrite E.
  unfold body_map. cbn [fst snd]. by rewrite posted_reply.
Qed.

(** The status line shows the status that the endpoint renders. *)
Lemma served_banner w (r : R) screen s :
  redis_up r -> Settings.api_key settings <> "" ->
  status_of settings (blob r) (flag_text (redis_kv r !! KILL_SWITCH_HALTED_KEY)) (flag_text (redis_kv r !! API_PAUSE_REDIS_KEY))
    (flag_text (redis_kv r !! INGESTION_DEGRADED_REDIS_KEY)) now_ms = Ok s ->
  is_finite (SystemStatus.pnl_today s) = true -> is_finite (SystemStatus.pnl_today_pct s) = true ->
  Info (banner (SystemStatus.trading_mode s) (SystemStatus.is_halted s) (SystemStatus.is_paused s) (SystemStatus.is_degraded s))
  ∈ (main_area settings w (r, screen)).2.2.
Proof.
  intros Hup Hkey Hs Hf1 Hf2. destruct (fetch_status_up r screen Hup Hkey) as (r1 & E & _).
  rewrite Hs in E. unfold body_map in E. cbn [fst respond] in E.
  rewrite got_reply in E by (cbn [body_floats forallb]; by rewrite Hf1, Hf2).
  eapply (main_area_banner settings w (r, screen) (status_json s) (r1, screen) (JStr _) (JBool _) (JBool _) (JBool _));
    [exact E|by split_and!].
Qed.

Lemma status_of_shown state paused degraded s :
  status_of settings state true paused degraded now_ms = Ok s ->
  SystemStatus.trading_mode s = TradingMode.value (Settings.trading_mode settings) /\ SystemStatus.is_halted s = true.
Proof. unfold status_of. intros Hs. do 9 bind_inv Hs. by injection Hs as <-. Qed.

Lemma banner_halted mode paused degraded :
  banner mode true paused degraded
  = "Mode: **" +:+ mode +:+ "**  |  🔴 **HALTED**" +:+ if degraded then "  |  ⚠️ Degraded (exit-only)" else "".
Proof. unfold banner. destruct degraded; cbn [str_join app]; by rewrite !str_app_assoc. Qed.

(** Drawing reads only. *)
Lemma main_area_reads `{!RedisStreamReadKV R} w (st : R * Screen) :
  redis_kv (main_area settings w st).2.1 = redis_kv st.1.
Proof.
  apply (main_area_keeps settings (fun s => redis_kv s.1 = redis_kv st.1)); [| |done].
  - intros e s Hs. exact Hs.
  - intros path params d. apply (call_keeps (fun r' => redis_kv r' = redis_kv st.1)), keeps_try; [|intros _; apply keeps_ret].
    by apply get_keeps.
Qed.

(** C27. The kill button works end to end: pressed, alone, while the configured
    key is entered, on a server whose Redis answers, it sets the halt key that
    every component reads and the run shows the success; and when the status
    endpoint can render the state that the orchestrator left in Redis, with a
    finite result of the day, the same run's status line reads HALTED. *)
Theorem kill_button_halts `{!RedisStreamReadKV R} w (r : R) :
  commanding w -> Widgets.kill_pressed w = true -> Widgets.pause_pressed w = false -> Widgets.resume_pressed w = false ->
  redis_up r ->
  let '(_, (r', screen)) := run_page settings w r in
  redis_kv r' !! KILL_SWITCH_HALTED_KEY = Some "true"
  /\ Success "Kill switch triggered" ∈ screen
  /\ forall s,
      status_of settings (blob r) true (flag_text (redis_kv r !! API_PAUSE_REDIS_KEY))
        (flag_text (redis_kv r !! INGESTION_DEGRADED_REDIS_KEY)) now_ms = Ok s ->
      is_finite (SystemStatus.pnl_today s) = true -> is_finite (SystemStatus.pnl_today_pct s) = true ->
      Info ("Mode: **" +:+ TradingMode.value (Settings.trading_mode settings) +:+ "**  |  🔴 **HALTED**"
            +:+ if SystemStatus.is_degraded s then "  |  ⚠️ Degraded (exit-only)" else "") ∈ screen.
Proof.
  intros Hw Hk Hp Hr Hup. unfold run_page, page, show at 1. unfold M_modify, mbind, M_bind. cbn [fst snd app].
  destruct (press_kill w r [Title "Intraday Trading System — Operational Dashboard"] Hw Hk Hp Hr Hup)
    as (r1 & E1 & Hup1 & Hhalt & Hother).
  unfold Screen in *. rewrite E1. clear E1. set (screen1 := _ ++ [Divider]).
  assert (Hb : blob r1 = blob r) by (unfold blob; by rewrite Hother by set_solver).
  pose proof (fun s => served_banner w r1 screen1 s Hup1 (proj1 (proj2 Hw))) as Hbanner.
  rewrite Hb, Hhalt, !Hother in Hbanner by set_solver.
  assert (Hdone : Success "Kill switch triggered" ∈ screen1) by set_solver.
  pose proof (main_area_keeps settings (fun s => Success "Kill switch triggered" ∈ s.2) w
    (show_keeps_element _) (fun _ _ _ => call_keeps_element _ _) (r1, screen1) Hdone) as Hsuccess.
  pose proof (main_area_reads w (r1, screen1)) as Hkv.
  destruct (main_area _ _ _) as [res [r2 screen2]]. cbn [fst snd] in *. rewrite Hkv. split_and!; [done|done|].
  intros s Hs Hf1 Hf2. specialize (Hbanner s Hs Hf1 Hf2).
  apply status_of_shown in Hs as [Hmode Hh]. by rewrite Hmode, Hh, banner_halted in Hbanner.
Qed.
End ServedFacts.

(** ** What the page shows when a request fails *)

Section FailureFacts.
Context {W : Type} `{Httpx W} (settings : Settings.t).

(** Without an answer to its requests the page says that the system runs, in
    paper mode. *)
Theorem unanswered_page_says_running w (net : W) :
  (forall url params headers n, exists e n', httpx_get url params headers n = (Raise e, n')) ->
  pressed w = false ->
  Info "Mode: **PAPER**  |  🟢 Running" ∈ (run_page settings w net).2.2.
Proof.
  intros Hdown Hp. apply orb_false_iff in Hp as [[Hk Hpa]%orb_false_iff Hr].
  unfold run_page, page, sidebar, control_button. rewrite Hk, Hpa, Hr. cbv zeta.
  unfold mbind at 1 2, M_bind at 1 2, show at 1. unfold M_modify. cbn [fst snd app].
  destruct (Hdown (base settings +:+ "/api/v1/status") [] (headers settings) net) as (e & n' & E).
  eapply (main_area_banner settings w _ (JObj []) _ (JStr "PAPER") (JBool false) (JBool false) (JBool false)); [|by split_and!].
  unfold call, M_zoom, fetch_status, fetch, M_try. cbn [fst snd]. by rewrite E.
Qed.
End FailureFacts.

(** ** Evaluation on concrete inputs *)

(** FastAPI cannot render a float that is not finite: the response is then a
    plain 500, like anything else that is raised. *)
Definition rendered (b : Body) : result json :=
  if forallb is_finite (body_floats b) then mret (body_json b)
  else Raise (ValueError "Out of range float values are not JSON compliant").

#[local] Program Instance fastapi_rendering : Rendering := {
  got response :=
    match response with
    | Reply b => match rendered b with Ok v => mret v | Raise _ => Raise (OtherError "HTTPStatusError") end
    | HttpError _ _ | ServerError _ => Raise (OtherError "HTTPStatusError")
    end;
  posted response :=
    match response with
    | Reply b => match rendered b with Ok v => mret v | Raise _ => Raise (ValueError "not JSON") end
    | HttpError _ detail => mret (JObj [("detail", JStr detail)])
    | ServerError _ => Raise (ValueError "not JSON")
    end;
}.
Next Obligation. intros b Hb. cbn. unfold rendered. by rewrite Hb. Qed.
Next Obligation. intros b Hb. cbn. unfold rendered. by rewrite Hb. Qed.
Next Obligation. done. Qed.

Section ServedClient.
Context {R : Type} `{RedisKV R} `{RedisStreamRead R} (settings : Settings.t) (now_ms today : Z).

(** Requests to another address than the application's are not answered. *)
Definition ask (method : Method) (url : string) (params : list (string * string)) (headers : dict string string)
    (answer : Response Body -> result json) : M R json := fun r =>
  match strip_prefix (base settings) url with
  | Some path =>
      let '(response, r) := serve settings (to_request method path params headers) now_ms today r in (answer response, r)
  | None => (Raise (RequestException "connection refused"), r)
  end.

#[local] Instance served_httpx : Httpx R := {|
  httpx_get url params headers := ask GET url params headers got;
  httpx_post url headers := ask POST url [] headers posted;
|}.

#[local] Instance served_httpx_served : Served R settings now_ms today.
Proof. split; intros; unfold httpx_get, httpx_post, served_httpx, ask; by rewrite strip_prefix_app. Qed.
End ServedClient.

#[local] Instance served_client : Httpx MemRedis := served_httpx secret_settings 1782990012345 20636.
#[local] Instance served_client_served : Served MemRedis secret_settings 1782990012345 20636 :=
  served_httpx_served secret_settings 1782990012345 20636.

Definition widgets (key : string) (kill : bool) : Widgets.t := Widgets.mk key kill false false "NSE" true.

(** 2 July 2026, with a server that has the given state. *)
Definition server (state : option string) : MemRedis :=
  {| mem_kv := match state with Some text => {[ORCHESTRATOR_STATE_REDIS_KEY := text]} | None => ∅ end;
     mem_lists := ∅; mem_streams := ∅; mem_up := true |}.

Definition screen_of (key : string) (kill : bool) (state : option string) : Screen :=
  (run_page secret_settings (widgets key kill) (server state)).2.2.

Lemma kill_button_halts_witness :
  let '(_, (r', screen)) := run_page secret_settings
                              (widgets "secret" true) (server None) in
  redis_kv r' !! KILL_SWITCH_HALTED_KEY = Some "true"
  /\ Success "Kill switch triggered" ∈ screen
  /\ Info "Mode: **PAPER**  |  🔴 **HALTED**" ∈ screen.
Proof.
  pose proof (kill_button_halts secret_settings 1782990012345 20636 (widgets "secret" true) (server None)
    ltac:(by split_and!) eq_refl eq_refl eq_refl eq_refl) as Hk.
  destruct (run_page _ _ _) as [res [r' screen]]. destruct Hk as (Hhalt & Hdone & Hline).
  split; [exact Hhalt|]. split; [exact Hdone|].
  apply (Hline (SystemStatus.mk "PAPER" true false false false false None f_zero f_zero 0 0 0 0 1782990012345));
    reflexivity.
Defined.

Lemma dashboard_only_watches_witness :
  redis_kv (session secret_settings
    [widgets "" true; widgets "guess" true; widgets "secret" false] (server None)) = redis_kv (server None).
Proof.
  apply (dashboard_only_watches secret_settings 1782990012345 20636).
  repeat constructor; by intros (? & ? & ?).
Defined.

(** The messages of a screen. *)
Definition messages (screen : Screen) : list string :=
  omap (fun e => match e with Success text | Error text | Warning text | Info text => Some text | _ => None end) screen.

(** The client does not look at the status of a POST: a refused control has no
    reason to show. *)
Example wrong_key_fails_without_reason :
  messages (screen_of "guess" true None) = ["Failed: None"; "Mode: **PAPER**  |  🟢 Running"].
Proof. vm_compute. reflexivity. Qed.

(** A state that holds a NaN cannot be rendered: the page of the very run
    that halts the system says that it runs. *)
Example nan_state_hides_the_halt :
  messages (screen_of "secret" true (Some (json_dumps (JObj [("pnl_today", JFloat f_nan)]))))
  = ["Kill switch triggered"; "Mode: **PAPER**  |  🟢 Running"]
  /\ messages (screen_of "secret" true None) = ["Kill switch triggered"; "Mode: **PAPER**  |  🔴 **HALTED**"].
Proof. split; vm_compute; reflexivity. Qed.
