(* ===== verification/Apps.v ===== *)
(** * The regional applications ([apps/india/main.py],
      [apps/australia/main.py], [core/logging.py])

    A process boots from its environment and its region file and then beats
    until it is interrupted, so that it is an interaction tree: it prints log
    lines and sleeps, and a sleep ends with or without Ctrl-C.  A line below
    the configured level is not printed.  The two applications differ in
    their identifier and in their region file only. *)

From ITree Require Import ITree ITreeFacts Events.State Events.StateFacts.
From Paco Require Import paco.
From S2P Require Import Prelude PyFloat PyDict Json PyText Constants Session Config.
Local Open Scope Z_scope.

(** Sequences of a tree in the notation of the library. *)
#[local] Instance itree_ret {E} : MRet (itree E) := fun A a => Ret a.
#[local] Instance itree_bind {E} : MBind (itree E) := fun A B k t => ITree.bind t k.

(** Equal up to silent steps. *)
#[local] Infix "≈" := (eutt eq) (at level 70).

(** ** Logging ([core/logging.py]) *)

(** [getattr(logging, log_level.upper(), logging.INFO)], for the names of the
    levels. *)
Definition LEVELS : dict string Z :=
  [("CRITICAL", 50); ("FATAL", 50); ("ERROR", 40); ("WARNING", 30); ("WARN", 30); ("INFO", 20); ("DEBUG", 10); ("NOTSET", 0)].

Definition configure_logging (log_level : string) : Z := default 20 (dget (str_upper log_level) LEVELS).

(** ** The process *)

Inductive LogLine : Type :=
| SystemStarting (app_id : AppId.t) (exchange broker trading_mode : string) (live : bool)
| LiveTradingEnabled
| PaperTradingModeActive
| HeartbeatLoopStarting
| Heartbeat (app_id : AppId.t)
| SystemShutdown (app_id : AppId.t).

Definition line_level (l : LogLine) : Z := match l with LiveTradingEnabled => 30 | _ => 20 end.

(** [Wait] sleeps for the interval and answers whether it was interrupted. *)
Variant appE : Type -> Type :=
| Print (l : LogLine) : appE unit
| Wait (seconds : Z) : appE bool.

Definition HEARTBEAT_INTERVAL_SECONDS : Z := 10.

Section App.
Context `{Pydantic}.

(** A logger call under the filtering wrapper. *)
Definition log (level : Z) (l : LogLine) : itree appE unit :=
  if level <=? line_level l then ITree.trigger (Print l) else Ret tt.

Definition heartbeat_loop (level : Z) (app_id : AppId.t) : itree appE unit :=
  ITree.iter (fun _ : unit =>
    _ ← log level (Heartbeat app_id);
    interrupted ← ITree.trigger (Wait HEARTBEAT_INTERVAL_SECONDS);
    if (interrupted : bool) then _ ← log level (SystemShutdown app_id); mret (inr tt) else mret (inl tt)) tt.

(** What the process says before it beats. *)
Definition announce (level : Z) (settings : Settings.t) (app_id : AppId.t) (region : RegionConfig.t) : itree appE unit :=
  _ ← log level (SystemStarting app_id (RegionConfig.exchange region) (RegionConfig.broker_name region)
               (TradingMode.value (Settings.trading_mode settings)) (is_live_trading_enabled settings));
  _ ← log level (if is_live_trading_enabled settings then LiveTradingEnabled else PaperTradingModeActive);
  log level HeartbeatLoopStarting.

(** [main]: [doc] is the region file; an exception of the configuration ends
    the process. *)
Definition main (app_id : AppId.t) (env : Environment) (doc : option json) : itree appE (result unit) :=
  match load_settings [("app_id", JStr (AppId.value app_id))] env with
  | Raise e => mret (Raise e)
  | Ok settings =>
      let level := configure_logging (Settings.log_level settings) in
      match load_region_config doc with
      | Raise e => mret (Raise e)
      | Ok region =>
          _ ← announce level settings app_id region;
          _ ← heartbeat_loop level app_id;
          mret (Ok tt)
      end
  end.
End App.

(** ** Runs

    An interruption comes in one of the sleeps: the state of a run is the
    number of sleeps before it and the lines printed. *)

Definition Run : Type := (nat * list LogLine)%type.

Definition answer : forall A, appE A -> Monads.stateT Run (itree void1) A :=
  fun _ e s =>
    match e with
    | Print l => Ret ((s.1, s.2 ++ [l]), tt)
    | Wait _ => match s.1 with O => Ret (s, true) | S n => Ret ((n, s.2), false) end
    end.

(** The lines of a list that a level lets through. *)
Definition printed (level : Z) (ls : list LogLine) : list LogLine := List.filter (fun l => level <=? line_level l) ls.

(** * Theorems *)

(** A step that ends, before the rest. *)
Lemma bind_run {A B} (m : itree appE A) (k : A -> itree appE B) (s s' : Run) a :
  interp_state answer m s ≈ Ret (s', a) -> interp_state answer (m ≫= k) s ≈ interp_state answer (k a) s'.
Proof. intros Hm. unfold mbind, itree_bind. rewrite interp_state_bind, Hm, bind_ret_l. reflexivity. Qed.

Lemma ret_run {A} (a : A) (s : Run) : interp_state answer (mret a) s ≈ Ret (s, a).
Proof. unfold mret, itree_ret. by rewrite interp_state_ret. Qed.

Lemma log_run level l (s : Run) :
  interp_state answer (log level l) s ≈ Ret ((s.1, s.2 ++ printed level [l]), tt).
Proof.
  unfold log, printed. cbn [List.filter]. destruct (level <=? line_level l).
  - rewrite interp_state_trigger. reflexivity.
  - rewrite interp_state_ret, app_nil_r. by destruct s.
Qed.

Lemma wait_ends seconds out :
  interp_state answer (ITree.trigger (Wait seconds)) (O, out) ≈ Ret ((O, out), true).
Proof. by rewrite interp_state_trigger. Qed.

Lemma wait_passes seconds n out :
  interp_state answer (ITree.trigger (Wait seconds)) (S n, out) ≈ Ret ((n, out), false).
Proof. by rewrite interp_state_trigger. Qed.

Lemma printed_app level l l' : printed level (l ++ l') = printed level l ++ printed level l'.
Proof. apply List.filter_app. Qed.

(** The beats of a process that is interrupted in its [n]th sleep. *)
Definition beats (n : nat) (app_id : AppId.t) : list LogLine := replicate (S n) (Heartbeat app_id) ++ [SystemShutdown app_id].

Lemma heartbeat_loop_run level app_id n out :
  interp_state answer (heartbeat_loop level app_id) (n, out) ≈ Ret ((O, out ++ printed level (beats n app_id)), tt).
Proof.
  revert out. induction n as [|n IH]; intros out; unfold heartbeat_loop; rewrite unfold_iter.
  - rewrite interp_state_bind, (bind_run _ _ _ _ _ (log_run _ _ _)), (bind_run _ _ _ _ _ (wait_ends _ _)).
    rewrite (bind_run _ _ _ _ _ (log_run _ _ _)). rewrite ret_run, bind_ret_l. cbn [fst snd].
    rewrite interp_state_ret. unfold beats. by rewrite printed_app, app_assoc.
  - rewrite interp_state_bind, (bind_run _ _ _ _ _ (log_run _ _ _)). cbn [fst snd].
    rewrite (bind_run _ _ _ _ _ (wait_passes _ _ _)).
    cbv beta iota. rewrite ret_run, bind_ret_l. cbn [fst snd]. rewrite interp_state_tau, tau_eutt.
    fold (heartbeat_loop level app_id). rewrite IH, <- app_assoc, <- printed_app. reflexivity.
Qed.

(** The lines of a whole run. *)
Definition opening (settings : Settings.t) (region : RegionConfig.t) (app_id : AppId.t) : list LogLine :=
  [SystemStarting app_id (RegionConfig.exchange region) (RegionConfig.broker_name region)
     (TradingMode.value (Settings.trading_mode settings)) (is_live_trading_enabled settings);
   if is_live_trading_enabled settings then LiveTradingEnabled else PaperTradingModeActive; HeartbeatLoopStarting].

Definition run_lines (settings : Settings.t) (region : RegionConfig.t) (app_id : AppId.t) (n : nat) : list LogLine :=
  opening settings region app_id ++ beats n app_id.

Lemma announce_run level settings app_id region (s : Run) :
  interp_state answer (announce level settings app_id region) s
  ≈ Ret ((s.1, s.2 ++ printed level (opening settings region app_id)), tt).
Proof.
  unfold announce. rewrite (bind_run _ _ _ _ _ (log_run _ _ _)), (bind_run _ _ _ _ _ (log_run _ _ _)), log_run.
  cbn [fst snd]. rewrite <- !app_assoc, <- !printed_app. reflexivity.
Qed.

(** A process that boots prints, through its level, its start with the mode,
    the warning of live trading exactly when both flags are set, one
    heartbeat per sleep and the shutdown, and then ends normally; one that
    cannot read its configuration ends at once with the exception and prints
    nothing. *)
Theorem app_run_exact `{Pydantic} app_id env doc n out :
  interp_state answer (main app_id env doc) (n, out)
  ≈ match load_settings [("app_id", JStr (AppId.value app_id))] env with
    | Raise e => Ret ((n, out), Raise e)
    | Ok settings =>
        match load_region_config doc with
        | Raise e => Ret ((n, out), Raise e)
        | Ok region =>
            Ret ((O, out ++ printed (configure_logging (Settings.log_level settings)) (run_lines settings region app_id n)), Ok tt)
        end
    end.
Proof.
  unfold main, mret, itree_ret. destruct (load_settings _ _) as [settings|e]; [|by rewrite interp_state_ret].
  cbv zeta. set (level := configure_logging _). destruct (load_region_config doc) as [region|e]; [|by rewrite interp_state_ret].
  rewrite (bind_run _ _ _ _ _ (announce_run _ _ _ _ _)). cbn [fst snd].
  rewrite (bind_run _ _ _ _ _ (heartbeat_loop_run _ _ _ _)), interp_state_ret. unfold run_lines.
  by rewrite printed_app, app_assoc.
Qed.

(** ** A process that is never interrupted *)

(** [alive]: without silent divergence, the tree prints a heartbeat, sleeps for ten seconds, and goes on
    so for ever; interrupted, it prints the shutdown and ends. *)
Inductive alive_genF (app_id : AppId.t) (r : itree appE unit -> Prop) : itree' appE unit -> Prop :=
| alive_beat k :
    (forall u, exists k', observe (k u) = VisF (Wait HEARTBEAT_INTERVAL_SECONDS) k'
       /\ (exists t, k' false ≈ t /\ r t)
       /\ k' true ≈ ITree.trigger (Print (SystemShutdown app_id))) ->
    alive_genF app_id r (VisF (Print (Heartbeat app_id)) k).

Definition alive_gen (app_id : AppId.t) (r : itree appE unit -> Prop) (t : itree appE unit) : Prop :=
  alive_genF app_id r (observe t).

Lemma alive_gen_mon app_id : monotone1 (alive_gen app_id).
Proof.
  intros t r r' Ht Hr. unfold alive_gen in *. destruct Ht as [k Hk]. constructor.
  intros u. destruct (Hk u) as (k' & E & (t' & Hf & Ht') & Hs). exists k'. split_and!; [done|exists t'; auto|done].
Qed.
#[local] Hint Resolve alive_gen_mon : paco.

Definition alive (app_id : AppId.t) : itree appE unit -> Prop := paco1 (alive_gen app_id) bot1.

(** C36. A process that logs at [INFO] or below beats for ever: every heartbeat
    is followed by a sleep of the interval, every sleep that is not
    interrupted by the next heartbeat, and an interrupted one by the shutdown
    line and the end. *)
Theorem app_beats_until_interrupted level app_id : level <= 20 -> alive app_id (heartbeat_loop level app_id).
Proof.
  intros Hl. unfold heartbeat_loop, log. cbn [line_level]. rewrite (proj2 (Z.leb_le _ _) Hl). pcofix CIH.
  pfold. unfold alive_gen. cbn. constructor. intros []. eexists. split; [cbn; reflexivity|]. cbn beta iota. split.
  - eexists. split; [|right; exact CIH].
    match goal with |- eutt _ ?t _ => rewrite (itree_eta t) end. cbn. rewrite tau_eutt. reflexivity.
  - match goal with |- eutt _ ?t _ => rewrite (itree_eta t) end. cbn. apply eqit_Vis. intros [].
    match goal with |- eqit _ _ _ ?t _ => rewrite (itree_eta t) end. cbn. reflexivity.
Qed.

Lemma app_beats_until_interrupted_witness : 20 <= 20 /\ alive AppId.INDIA (heartbeat_loop 20 AppId.INDIA).
Proof. split; [lia|]. apply (app_beats_until_interrupted 20). lia. Defined.
