(* ===== verification/SessionCommand.v ===== *)
(** * The session command ([session_manager.py])

    [python -m shared.session_manager]: the machine of each application, built
    from its region file and the holiday source of its exchange, asked for
    the state of this moment.  [ZoneInfo] is the table of time zones; what an
    exchange answers does not change while the command runs.  A run logs its
    lines as it goes, so that they stay when it ends with an exception. *)

From stdpp Require Import gmap.
From S2P Require Import Prelude PyFloat PyDict Json PyText Constants MarketData PyDate Session Config.
Local Open Scope Z_scope.

(** [ZoneInfo(name)]: the offset from UTC at an instant, in microseconds;
    [None] for an unknown name. *)
Class ZoneInfo := { zone_offset : string -> option (Z -> Z) }.

Section Zones.
Context `{ZoneInfo}.

Definition zone (name : string) : result (Z -> Z) :=
  match zone_offset name with Some tz => mret tz | None => Raise (OtherError ("ZoneInfoNotFoundError: " +:+ name)) end.

(** [datetime.fromtimestamp(t, tz)] *)
Definition in_zone (tz : Z -> Z) (t : Z) : LocalTime :=
  let local := t + tz t in {| lt_date := date_of_days (local / DAY); lt_time := local mod DAY |}.

(** A [datetime]: without a zone, or an instant. *)
Inductive Moment : Type :=
| Naive (l : LocalTime)
| Aware (t : Z).

(** [_local_now]; [clock] is the wall clock. *)
Definition _local_now (region : RegionConfig.t) (now : option Moment) (clock : Z) : result LocalTime :=
  tz ← zone (RegionConfig.timezone region);
  mret match now with
       | None => in_zone tz clock
       | Some (Naive l) => l
       | Some (Aware t) => in_zone tz t
       end.
End Zones.

(** What the command logs. *)
Inductive SessionLine : Type :=
| SessionStateUnavailable (app_id error : string)
| SessionStateNow (app_id exchange : string) (local_time : LocalTime) (session_state : SessionState)
    (snapshot_window_active square_off_warning_due square_off_due : bool)
| AsxStaggeredOpenExample (symbol : string) (group_open_at tolerance_seconds : Z).

Section Command.
Context `{ZoneInfo} `{CacheDisk}.
(** The region file of an application and the source of an exchange. *)
Context (config : AppId.t -> option json) (source : RegionConfig.t -> Z -> result (gset Date)).

(** The cache directory: a file per exchange and year. *)
Definition Caches : Type := string -> CacheDir.

#[local] Abbreviation St := (Caches * list SessionLine)%type.

Definition logger (l : SessionLine) : M St unit := M_modify (fun s => (s.1, s.2 ++ [l])).

Definition on_cache {A} (exchange : string) (m : M CacheDir A) : M St A :=
  M_zoom (fun s : St => s.1 exchange)
    (fun c s => (fun name => if String.eqb name exchange then c else s.1 name, s.2)) m.

(** [machine.get_state(now)] and [machine.is_snapshot_window_active(now)]. *)
Definition machine_state (region : RegionConfig.t) (local_now : LocalTime) (now : Z) : M St SessionState :=
  on_cache (RegionConfig.exchange region) (get_state (RegionConfig.exchange region) (source region) region local_now now).

Definition machine_snapshot (region : RegionConfig.t) (local_now : LocalTime) (now : Z) : M St bool :=
  on_cache (RegionConfig.exchange region)
    (is_snapshot_window_active (RegionConfig.exchange region) (source region) region local_now now).

(** One pass of the loop of [main]. *)
Definition report (now : Z) (app_id : AppId.t) : M St unit :=
  region ← M_lift (load_region_config (config app_id));
  local_now ← M_lift (_local_now region (Some (Aware now)) now);
  outcome ← M_catch (machine_state region local_now now);
  match outcome with
  | Raise (CalendarUnavailableError exc) => logger (SessionStateUnavailable (AppId.value app_id) exc)
  | Raise e => M_raise e
  | Ok state =>
      snapshot ← machine_snapshot region local_now now;
      warning ← M_lift (warning_due region local_now);
      due ← M_lift (square_off_due region local_now);
      logger (SessionStateNow (AppId.value app_id) (RegionConfig.exchange region) local_now state snapshot warning due)
  end.

Definition session_main (now : Z) : M St unit :=
  _ ← M_for (report now) [AppId.INDIA; AppId.AUSTRALIA];
  sydney_tz ← M_lift (zone "Australia/Sydney");
  open_time ← M_lift (get_ticker_open_time "BHP" (lt_date (in_zone sydney_tz now)));
  logger (AsxStaggeredOpenExample "BHP" open_time ASX_GROUP_OPEN_TOLERANCE_SECONDS).
End Command.

(** * Theorems *)

Section CalendarFacts.
Context `{CacheDisk} (exchange : string) (fetch : Z -> result (gset Date)).

(** An answer of the calendar is the answer that it keeps giving. *)
Lemma get_holidays_again y now c h c' :
  get_holidays exchange fetch y now c = (Ok h, c') -> get_holidays exchange fetch y now c' = (Ok h, c').
Proof.
  unfold get_holidays, M_get, write_cache, M_modify, M_raise, mbind, M_bind, mret, M_ret.
  destruct (read_cache y c) as [[hs at_]|] eqn:Ec.
  - destruct (now - at_ <=? HOLIDAY_CACHE_MAX_AGE_DAYS * DAY) eqn:Ea.
    + intros [= -> ->]. by rewrite Ec, Ea.
    + destruct (fetch y) as [fresh|e] eqn:Ef.
      * destruct (write_outcome exchange y); [|done..].
        intros [= -> <-]. unfold read_cache, CacheDir. rewrite lookup_insert_eq, Z.sub_diag. done.
      * destruct e; intros [= -> ->]. by rewrite Ec, Ea.
  - destruct (fetch y) as [fresh|e]; [|by destruct e]. destruct (write_outcome exchange y); [|done..].
    intros [= -> <-]. unfold read_cache, CacheDir. rewrite lookup_insert_eq, Z.sub_diag. done.
Qed.

Lemma get_state_again region l now c s c' :
  get_state exchange fetch region l now c = (Ok s, c') -> get_state exchange fetch region l now c' = (Ok s, c').
Proof.
  unfold get_state, is_trading_day. destruct (5 <=? weekday (lt_date l)); [by unfold mbind, M_bind; cbn; intros [= <- <-]|].
  unfold mbind, M_bind, mret, M_ret, M_lift. destruct (get_holidays _ _ _ _ c) as [[h|e] c1] eqn:E; [|done].
  intros Hs. assert (c1 = c') as -> by (destruct (negb _); congruence). by rewrite (get_holidays_again _ _ _ _ _ E).
Qed.
End CalendarFacts.

(** What a line says about one moment agrees with itself: the snapshot flag is
    the state, the hard deadline implies the warning, and during a session
    the deadline is what separates [APPROACHING_CLOSE] from the states in
    which entries are allowed, on a weekday. *)
Definition line_ok (line : SessionLine) : Prop :=
  match line with
  | SessionStateNow _ _ l st snapshot warning due =>
      snapshot = bool_decide (st = SNAPSHOT_WINDOW)
      /\ (due = true -> warning = true)
      /\ (st <> CLOSED -> weekday (lt_date l) < 5)
      /\ (st = APPROACHING_CLOSE -> due = true)
      /\ (st = OPEN \/ st = SNAPSHOT_WINDOW -> due = false)
  | _ => True
  end.

Lemma due_of_schedule region l st :
  schedule_state region (lt_time l) = Ok st ->
  exists sq, square_off_due region l = Ok (sq <=? lt_time l)
    /\ warning_due region l = Ok (sq - SQUARE_OFF_WARNING_LEAD_MINUTES * MINUTE <=? lt_time l)
    /\ (st = APPROACHING_CLOSE -> sq <= lt_time l)
    /\ (st = OPEN \/ st = SNAPSHOT_WINDOW -> lt_time l < sq).
Proof.
  unfold schedule_state. intros E. do 5 bind_inv E. injection E as <-. exists a2.
  destruct (state_at_cases a a0 a1 a2 a3 (lt_time l)) as (_ & _ & Hac & Hs & Ho).
  unfold square_off_due, warning_due, warning_at, square_off_at. rewrite Ha2.
  split_and!; [| |tauto|tauto].
  - cbn. f_equal. apply local_due.
  - cbn. f_equal. unfold local_instant, combine. lia.
Qed.

Lemma get_state_inv `{CacheDisk} exchange fetch region l now c st c' :
  get_state exchange fetch region l now c = (Ok st, c') ->
  st = CLOSED \/ (weekday (lt_date l) < 5 /\ schedule_state region (lt_time l) = Ok st).
Proof.
  unfold get_state, is_trading_day. destruct (Z.leb_spec 5 (weekday (lt_date l))) as [|Hw].
  - unfold mbind, M_bind. cbn. intros [= <- <-]. by left.
  - unfold mbind, M_bind, mret, M_ret, M_lift. destruct (get_holidays _ _ _ _ c) as [[h|e] c1]; [|done].
    destruct (negb _); intros [= Hs <-]; [by left|by right].
Qed.

Section CommandFacts.
Context `{ZoneInfo} `{CacheDisk} (config : AppId.t -> option json) (source : RegionConfig.t -> Z -> result (gset Date)).

#[local] Abbreviation lines_ok := (fun s : Caches * list SessionLine => Forall line_ok s.2).

Lemma keeps_logger line : line_ok line -> keeps lines_ok (logger line).
Proof. intros Hl [c ls] Hs. cbn in *. apply Forall_app_2; [done|by constructor]. Qed.

Lemma due_implies_warning region l due warning :
  square_off_due region l = Ok due -> warning_due region l = Ok warning -> due = true -> warning = true.
Proof.
  unfold square_off_due, warning_due, warning_at. intros Hd Hw ->. bind_inv Hd. rewrite Ha in Hw. cbn in Hw.
  injection Hd as Hd. injection Hw as <-. apply Z.leb_le. apply Z.leb_le in Hd.
  assert (0 <= SQUARE_OFF_WARNING_LEAD_MINUTES * MINUTE) by done. lia.
Qed.

(** The line of an application, from what the machine answers and what the
    cache then holds. *)
Lemma line_ok_of region now app l caches st caches1 snapshot caches2 warning due :
  machine_state source region l now caches = (Ok st, caches1) ->
  machine_snapshot source region l now caches1 = (Ok snapshot, caches2) ->
  warning_due region l = Ok warning -> square_off_due region l = Ok due ->
  line_ok (SessionStateNow app (RegionConfig.exchange region) l st snapshot warning due).
Proof.
  unfold machine_state, machine_snapshot, on_cache, M_zoom.
  destruct (get_state _ _ _ _ _ (caches.1 _)) as [r c1] eqn:E. intros [= -> <-]. cbn. rewrite String.eqb_refl.
  unfold is_snapshot_window_active, mbind, M_bind. rewrite (get_state_again _ _ _ _ _ _ _ _ E). cbn.
  intros [= <- _] Hw Hd. split_and!; [done|by eapply due_implies_warning| | |].
  all: apply get_state_inv in E as [->|[Hwd Hs]]; [intuition congruence|].
  - done.
  - destruct (due_of_schedule _ _ _ Hs) as (sq & Hd' & _ & Ha & _). intros Hst. specialize (Ha Hst).
    rewrite Hd in Hd'. injection Hd' as ->. by apply Z.leb_le.
  - destruct (due_of_schedule _ _ _ Hs) as (sq & Hd' & _ & _ & Ho). intros Hst. specialize (Ho Hst).
    rewrite Hd in Hd'. injection Hd' as ->. apply Z.leb_gt. lia.
Qed.

Lemma keeps_on_cache {A} exchange (m : M CacheDir A) : keeps lines_ok (on_cache exchange m).
Proof. intros s Hs. unfold on_cache, M_zoom. by destruct (m _). Qed.

#[local] Hint Resolve keeps_on_cache : keeps.

Lemma keeps_report now app : keeps lines_ok (report config source now app).
Proof.
  unfold report. keeps_step; [keeps_step|]. rename a into region. keeps_step; [keeps_step|]. rename a into l.
  intros s Hs. unfold mbind at 1, M_bind at 1, M_catch.
  destruct (machine_state source region l now s) as [[st|e] s1] eqn:Es;
    pose proof (keeps_on_cache _ _ s Hs : lines_ok (machine_state source region l now s).2) as H1; rewrite Es in H1; cbn in H1 |- *.
  - unfold mbind at 1, M_bind at 1. destruct (machine_snapshot source region l now s1) as [[b|e] s2] eqn:Eb;
      pose proof (keeps_on_cache _ _ s1 H1 : lines_ok (machine_snapshot source region l now s1).2) as H2; rewrite Eb in H2; [|done].
    unfold mbind, M_bind, M_lift.
    destruct (warning_due region l) as [w|] eqn:Ew; [|done]. destruct (square_off_due region l) as [d|] eqn:Ed; [|done].
    by apply keeps_logger; [eapply line_ok_of|].
  - destruct e; try done. by apply keeps_logger.
Qed.

(** Whatever the region files, the holiday sources, the caches and the
    clock are, and whether the run ends or raises: every line of the session
    command agrees with itself.  The snapshot flag, which is computed by a
    second evaluation of the machine, is the state that was printed; a due
    square-off has its warning due; an open state is printed on a weekday only;
    and between the opening and the closing the deadline is due exactly in
    [APPROACHING_CLOSE]. *)
Theorem session_lines_agree now caches :
  Forall line_ok (session_main config source now (caches, [])).2.2.
Proof.
  enough (Hk : keeps lines_ok (session_main config source now)) by exact (Hk (caches, []) (Forall_nil_2 _)).
  unfold session_main. keeps_step; [apply keeps_for; intros; apply keeps_report|].
  do 2 (keeps_step; [keeps_step|]). by apply keeps_logger.
Qed.
End CommandFacts.

(** ** The two applications at one moment *)

#[local] Existing Instance healthy_disk.

#[local] Instance two_zones : ZoneInfo :=
  {| zone_offset := fun name =>
       if String.eqb name "Asia/Kolkata" then Some (fun _ => 5 * HOUR + 30 * MINUTE)
       else if String.eqb name "Australia/Sydney" then Some (fun _ => 11 * HOUR)
       else None |}.

Definition region_files (app : AppId.t) : option json :=
  Some match app with AppId.INDIA => india_doc | AppId.AUSTRALIA => australia_doc end.

Definition session_lines (now : Z) : result unit * list SessionLine :=
  let '(r, (_, lines)) := session_main region_files (fun _ _ => Ok ∅) now (fun _ => ∅, []) in (r, lines).

(** Monday the 2nd of March 2026, 09:45 UTC: India in its last minutes,
    Sydney in the evening. *)
Example session_lines_on_monday :
  session_lines (20514 * DAY + 9 * HOUR + 45 * MINUTE)
  = (Ok tt,
     [SessionStateNow "india" "NSE" {| lt_date := Build_Date 2026 3 2; lt_time := 15 * HOUR + 15 * MINUTE |}
        APPROACHING_CLOSE false true true;
      SessionStateNow "australia" "ASX" {| lt_date := Build_Date 2026 3 2; lt_time := 20 * HOUR + 45 * MINUTE |}
        CLOSED false true true;
      AsxStaggeredOpenExample "BHP" (combine (Build_Date 2026 3 2) (10 * HOUR)) 15]).
Proof. vm_compute. reflexivity. Qed.

(** On the Sunday before, the machine is closed and the scheduler, which does
    not ask the calendar, reports the square-off as due. *)
Example square_off_due_on_a_sunday :
  session_lines (20513 * DAY + 10 * HOUR)
  = (Ok tt,
     [SessionStateNow "india" "NSE" {| lt_date := Build_Date 2026 3 1; lt_time := 15 * HOUR + 30 * MINUTE |}
        CLOSED false true true;
      SessionStateNow "australia" "ASX" {| lt_date := Build_Date 2026 3 1; lt_time := 21 * HOUR |}
        CLOSED false true true;
      AsxStaggeredOpenExample "BHP" (combine (Build_Date 2026 3 1) (10 * HOUR)) 15]).
Proof. vm_compute. reflexivity. Qed.
