(* ===== verification/CommandOutput.v ===== *)
(** * What commands log, and the backfill command
      ([patterns/cli.py], [sentiment/cli.py], [storage/backfill.py])

    The lines that the pattern and sentiment commands make of the result they
    finish with ([DataCommands], [MarketCommands]), and the command that fills
    the candle table from a history, in front of the queries of the other
    commands. *)

From stdpp Require Import gmap.
From S2P Require Import Prelude PyFloat PyDict Json PyText Constants MarketData PyDate NumPy Instruments Storage Patterns Backtesting BacktestReports MarketCommands DataCommands.
Local Open Scope Z_scope.

(** ** The pattern command *)

Module LevelLog.
Record t := mk { price : float; type : string; touches : Z; strength : float }.
End LevelLog.

Module SnapshotLog.
Record t := mk {
  symbol : string;
  exchange : string;
  timeframe : string;
  candle_time : string;
  total_cdl_signals : Z;
  recent_cdl_signals : list CandlestickSignal.t;
  sr_level_count : Z;
  sr_levels : list LevelLog.t;
  orb_formed : bool;
  orb_high : option float;
  orb_low : option float;
  orb_breakout_direction : option Z;
}.
End SnapshotLog.

Definition level_log (lv : SRLevel.t) : LevelLog.t :=
  LevelLog.mk (SRLevel.price lv) (SRLevel.level_type lv) (SRLevel.touches lv) (pyround (SRLevel.strength lv) 3).

(** [_log_snapshot]. *)
Definition log_snapshot (snapshot : PatternSnapshot.t) : SnapshotLog.t :=
  let orb := PatternSnapshot.orb_state snapshot in
  let formed := match orb with Some o => ORBState.range_formed o | None => false end in
  SnapshotLog.mk (PatternSnapshot.symbol snapshot) (PatternSnapshot.exchange snapshot) (PatternSnapshot.timeframe snapshot)
    (isoformat (PatternSnapshot.candle_time snapshot)) (Z.of_nat (length (PatternSnapshot.candlestick_signals snapshot)))
    (recent_cdl snapshot) (Z.of_nat (length (PatternSnapshot.sr_levels snapshot)))
    (map level_log (PatternSnapshot.sr_levels snapshot)) formed
    (match orb with Some o => if ORBState.range_formed o then Some (ORBState.orb_high o) else None | None => None end)
    (match orb with Some o => if ORBState.range_formed o then Some (ORBState.orb_low o) else None | None => None end)
    (match orb with Some o => ORBState.breakout_direction o | None => None end).

(** The snapshots that the command logs, in order. *)
Definition snapshot_logs (out : PatternOutput) : list SnapshotLog.t :=
  match out with
  | NoCandles => []
  | OneTimeframe s => [log_snapshot s]
  | ManyTimeframes m => map log_snapshot (dvalues (MultiTimeframePatterns.snapshots m))
  end.

(** ** The sentiment command *)

Inductive SentimentLine : Type :=
| Document (text : string)
| SentimentResultLine (exchange : string) (aggregate_score : float) (headlines cache_hits cache_misses : Z)
    (cache_hit_rate : float) (total_tokens : Z) (cost_usd : float) (vix fii_net dii_net : option float)
| HeadlineScore (label : string) (score confidence : float) (from_cache : bool) (headline : string).

Definition score_line (s : SentimentScore.t) : SentimentLine :=
  HeadlineScore (SentimentScore.label s) (pyround (SentimentScore.score s) 3) (pyround (SentimentScore.confidence s) 3)
    (SentimentScore.from_cache s) (str_take 100 (SentimentScore.headline s)).

(** [_print_result]; [indent] lays out the JSON document. *)
Definition print_result (indent : json -> string) (r : MarketSentiment.t) (verbose output_json : bool)
    : result (list SentimentLine) :=
  if output_json then data ← result_json r; mret [Document (indent data +:+ NL)]
  else
    rate ← MarketSentiment.cache_hit_rate r;
    mret (SentimentResultLine (MarketSentiment.exchange r) (pyround (MarketSentiment.aggregate_score r) 4)
            (Z.of_nat (length (MarketSentiment.headlines r))) (MarketSentiment.cache_hits r) (MarketSentiment.cache_misses r)
            (pyround rate 4) (MarketSentiment.total_tokens_used r) (pyround (MarketSentiment.total_cost_usd r) 6)
            (option_map VIXData.vix (MarketSentiment.vix_data r)) (option_map FIIDIIData.fii_net_crore (MarketSentiment.fii_dii r))
            (option_map FIIDIIData.dii_net_crore (MarketSentiment.fii_dii r))
          :: if verbose then map score_line (MarketSentiment.scores r) else []).

(** ** The backfill command *)

(** The relations of the database and the rows of [ohlcv_1m]. *)
Definition CandleDatabase : Type := list string * Candles.

(** [main]; [connect] is the answer of the database server. *)
Definition backfill_main (fetch_history : string -> string -> string -> result (list HistoryRow.t)) (page_size : nat)
    (connect : result unit) (symbol : string) (days : Z) : M CandleDatabase unit :=
  _ ← M_lift connect;
  _ ← M_modify (fun s : CandleDatabase =>
        (db_relations (apply_schema {| db_relations := s.1; db_candles := fun _ => [] |}), s.2));
  _ ← on_second (backfill fetch_history page_size symbol days None);
  mret tt.

(** * Theorems *)

(** Prices of an opening range are logged exactly for a range that formed. *)
Lemma orb_logged_iff_formed s :
  (is_Some (SnapshotLog.orb_high (log_snapshot s)) <-> SnapshotLog.orb_formed (log_snapshot s) = true)
  /\ (is_Some (SnapshotLog.orb_low (log_snapshot s)) <-> SnapshotLog.orb_formed (log_snapshot s) = true).
Proof.
  cbn. destruct (PatternSnapshot.orb_state s) as [o|]; [destruct (ORBState.range_formed o)|];
    split; split; intros E; try done; try (by eexists); by destruct E.
Qed.

(** A result prints as one document, or as its summary followed, if asked for,
    by a line for every score, whose headline has at most 100 characters. *)
Lemma sentiment_result_prints indent r verbose rate :
  MarketSentiment.cache_hit_rate r = Ok rate ->
  (exists text, print_result indent r verbose true = Ok [Document text])
  /\ exists summary, print_result indent r verbose false
       = Ok (summary :: if verbose then map score_line (MarketSentiment.scores r) else []).
Proof. intros E. unfold print_result, result_json. rewrite E. split; by eexists. Qed.

(** ** The symbol of a backfill *)

Section BackfillFacts.
Context (fetch_history : string -> string -> string -> result (list HistoryRow.t)) (page_size : nat).
Hypothesis (Hpage : (0 < page_size)%nat).

Lemma candle_symbol symbol exchange row c : candle_from_row symbol exchange row = Ok c -> OHLCVCandle.symbol c = symbol.
Proof. unfold candle_from_row. intros Hr. bind_inv Hr. by injection Hr as <-. Qed.

(** A backfill, whether it ends well or not, leaves candles of its symbol only
    in a table that held no others. *)
Lemma backfill_symbol connect symbol days (s : CandleDatabase) :
  Forall (fun c => OHLCVCandle.symbol c = symbol) (dvalues s.2) ->
  Forall (fun c => OHLCVCandle.symbol c = symbol) (dvalues (backfill_main fetch_history page_size connect symbol days s).2.2).
Proof.
  intros Hs. unfold backfill_main, on_second, backfill. M_unfold. unfold M_zoom. destruct connect as [u|e]; [|done]. cbn [fst snd].
  destruct (fetch_history _ _ _) as [df|e]; [|done].
  destruct (candles_from_history _ _ _) as [candles|e] eqn:E; [|done].
  assert (Hc : Forall (fun c => OHLCVCandle.symbol c = symbol) candles).
  { apply mapM_result in E. eapply Forall2_Forall_r; [exact E|]. apply Forall_true. intros row c. apply candle_symbol. }
  pose proof (upsert_many_Forall candle_key page_size Hpage _ candles s.2 Hc Hs) as Hu. unfold upsert_1m.
  by destruct (upsert_many _ _ _ _) as [[n|e] t].
Qed.

(** The tables of the database: the minutes, and aggregates that group them by
    symbol. *)
Definition aggregated (tables : string -> list OHLCVCandle.t) (minutes : Candles) : Prop :=
  forall name c, c ∈ tables name -> exists m, m ∈ dvalues minutes /\ OHLCVCandle.symbol m = OHLCVCandle.symbol c.

Lemma aggregated_copies minutes : aggregated (fun _ => dvalues minutes) minutes.
Proof. intros name c Hc. by exists c. Qed.

Lemma query_other_symbol tables minutes symbol other exchange timeframe start stop l :
  aggregated tables minutes -> Forall (fun c => OHLCVCandle.symbol c = symbol) (dvalues minutes) -> other <> symbol ->
  query_candles tables other exchange timeframe start stop = Ok l -> l = [].
Proof.
  intros Ht Hm Hne. unfold query_candles. destruct (dget _ _) as [table|]; [|done]. intros [= <-].
  rewrite Forall_forall in Hm. destruct (py_sorted _ _) as [|c cs] eqn:E; [done|]. exfalso.
  assert (Hc : c ∈ List.filter (in_query other exchange start stop) (tables table)).
  { rewrite <- (py_sorted_perm earlier), E. by left. }
  apply list_elem_of_In, filter_In in Hc as [Hc Hq]. apply list_elem_of_In in Hc.
  destruct (Ht table c Hc) as (m & Hi & Hs). apply Hm in Hi. unfold in_query in Hq.
  rewrite !andb_true_iff, String.eqb_eq in Hq. destruct Hq as [[[Hq _] _] _]. congruence.
Qed.

Context `{NumPyStats} `{NumPyMin} `{CandlePatterns}.

Lemma timeframe_other_symbol a db minutes symbol end_ tf l :
  aggregated (db_candles db) minutes -> Forall (fun c => OHLCVCandle.symbol c = symbol) (dvalues minutes) ->
  PatternArgs.symbol a <> symbol -> timeframe_candles a db end_ tf = Ok l -> l = [].
Proof. unfold timeframe_candles. intros Ht Hm Hne Hq. bind_inv Hq. by eapply query_other_symbol. Qed.

(** The candles of several timeframes when there are none of each. *)
Lemma no_candles_anywhere (candles_of : string -> result (list OHLCVCandle.t)) tfs d :
  (forall tf l, candles_of tf = Ok l -> l = []) ->
  for_each (fun d tf => candles ← candles_of tf; mret (dset tf candles d)) [] tfs = Ok d ->
  forallb (fun l : list OHLCVCandle.t => match l with [] => true | _ => false end) (dvalues d) = true.
Proof.
  intros Htf Ha. assert (Hd : Forall (fun kv : string * list OHLCVCandle.t => kv.2 = []) d).
  { revert Ha. apply for_each_invariant; [|constructor]. intros d0 tf d1 _ Hd0 E. bind_inv E. injection E as <-.
    apply dset_Forall; [done|]. by apply Htf in Ha. }
  apply forallb_forall. intros l Hl. apply list_elem_of_In, list_elem_of_fmap in Hl as ([k l'] & -> & Hi).
  rewrite Forall_forall in Hd. by rewrite (Hd _ Hi).
Qed.

(** A database that was filled by backfills of one ticker has nothing for a
    pattern command of another symbol: the command ends without candles,
    whatever timeframes it asks for. *)
Theorem pattern_command_needs_the_ticker connect symbol days r s tables a end_ now out :
  backfill_main fetch_history page_size connect symbol days ([], []) = (r, s) -> aggregated tables s.2 -> PatternArgs.symbol a <> symbol ->
  patterns_main a true {| db_relations := s.1; db_candles := tables |} end_ now = Ok out ->
  out = Finished NoCandles.
Proof.
  intros Hs Ht Hne. assert (Hm := backfill_symbol connect symbol days ([], []) (Forall_nil_2 _)). rewrite Hs in Hm. cbn [snd] in Hm.
  assert (Htf : forall tf l, timeframe_candles a (apply_schema {| db_relations := s.1; db_candles := tables |}) end_ tf = Ok l -> l = [])
    by (intros tf l; by eapply timeframe_other_symbol).
  unfold patterns_main. cbn [negb]. cbv zeta. destruct (requested_tfs a) as [|tf [|tf' tfs]]; intros E; bind_inv E.
  2: { apply Htf in Ha as ->. by injection E as <-. }
  all: rewrite (no_candles_anywhere _ _ _ Htf Ha) in E; by injection E as <-.
Qed.

Lemma schema_creates name db : name ∈ SCHEMA_RELATIONS -> name ∈ db_relations (apply_schema db).
Proof.
  intros Hn. unfold apply_schema, create_missing. apply elem_of_app.
  destruct (decide (name ∈ db_relations db)) as [Hi|Hi]; [by left|right].
  apply list_elem_of_In, filter_In. split; [by apply list_elem_of_In|]. by rewrite bool_decide_eq_false_2.
Qed.

(** A backfill of a history with finite volumes and distinct times applies the
    schema and makes every row that it got visible to the queries of the
    minutes for its ticker. *)
Theorem backfill_command_served symbol days df (s : CandleDatabase) :
  keyed candle_key s.2 ->
  fetch_history symbol (pretty days +:+ "d") (if days <=? 7 then "1m" else "5m") = Ok df ->
  Forall (fun row => is_finite (HistoryRow.volume row) = true) df -> NoDup (HistoryRow.time <$> df) ->
  exists s', backfill_main fetch_history page_size (Ok tt) symbol days s = (Ok tt, s')
    /\ "ohlcv_1m" ∈ s'.1
    /\ forall tables start stop, tables "ohlcv_1m" = dvalues s'.2 ->
       exists l, query_candles tables symbol (exchange_for_symbol symbol) "1m" start stop = Ok l
         /\ StronglySorted before l
         /\ forall row, row ∈ df -> start <= HistoryRow.time row < stop ->
            exists c, candle_from_row symbol (exchange_for_symbol symbol) row = Ok c /\ c ∈ l.
Proof.
  intros Hk Hf Hv Hd.
  destruct (backfill_writes_history fetch_history page_size symbol days None df s.2 Hpage Hk Hf Hv Hd) as (t & E & Hkt & Hrows).
  unfold backfill_main, on_second. M_unfold. unfold M_zoom. cbn [fst snd]. rewrite E. eexists. split; [done|]. split.
  - apply (schema_creates "ohlcv_1m" {| db_relations := s.1; db_candles := fun _ => [] |}). right. by left.
  - cbn [snd]. intros tables start stop Ht.
    destruct (query_table tables t symbol (exchange_for_symbol symbol) start stop Hkt Ht) as (l & Hq & Hs & Hl).
    exists l. split_and!; [done|done|]. intros row Hrow Hin. destruct (Hrows row Hrow) as (c & Hc & Hg).
    exists c. split; [done|]. apply Hl. split; [|done]. unfold candle_from_row in Hc. bind_inv Hc. injection Hc as <-.
    unfold in_query. cbn. rewrite !String.eqb_refl. cbn. lia.
Qed.
End BackfillFacts.

(** ** Evaluation on concrete inputs *)

(** The two commands with their default symbols. *)
Definition default_backfill : result unit * CandleDatabase :=
  backfill_main (fun _ _ _ => Ok sample_history) 100 (Ok tt) "RELIANCE.NS" 30 ([], []).

Definition default_database : CandleDatabase := default_backfill.2.

Lemma sample_page : (0 < 100)%nat.
Proof. lia. Qed.

Definition pattern_args (symbol : string) : PatternArgs.t := PatternArgs.mk symbol "NSE" "1m" "".

#[local] Existing Instance sample_numpy.
#[local] Existing Instance sample_min.
#[local] Existing Instance sample_cdl.

Definition after_five : Z := Z.of_nat 20000 * DAY + 5 * MINUTE.

Definition pattern_run (symbol : string) : result (Outcome PatternOutput) :=
  patterns_main (pattern_args symbol) true
    {| db_relations := default_database.1; db_candles := fun _ => dvalues default_database.2 |} after_five after_five.

#[local] Opaque backfill_main patterns_main.

(** The default symbol of the pattern command is not the default ticker of the
    backfill. *)
Lemma pattern_command_needs_the_ticker_witness : forall out, pattern_run "RELIANCE" = Ok out -> out = Finished NoCandles.
Proof.
  intros out E. unfold pattern_run in E.
  assert (Hrun : backfill_main (fun _ _ _ => Ok sample_history) 100 (Ok tt) "RELIANCE.NS" 30 ([], []) = (default_backfill.1, default_database))
    by apply surjective_pairing.
  assert (Hne : PatternArgs.symbol (pattern_args "RELIANCE") <> "RELIANCE.NS") by (intros [=]).
  exact (pattern_command_needs_the_ticker (fun _ _ _ => Ok sample_history) 100 sample_page (Ok tt) "RELIANCE.NS" 30 default_backfill.1 default_database
    (fun _ => dvalues default_database.2) (pattern_args "RELIANCE") after_five after_five out Hrun (aggregated_copies default_database.2) Hne E).
Defined.

#[local] Transparent backfill_main patterns_main.

Example default_commands_disagree :
  pattern_run "RELIANCE" = Ok (Finished NoCandles)
  /\ match pattern_run "RELIANCE.NS" with Ok (Finished (OneTimeframe _)) => True | _ => False end.
Proof. vm_compute. by split. Qed.

Lemma backfill_command_served_witness :
  exists s', backfill_main (fun _ _ _ => Ok sample_history) 100 (Ok tt) "RELIANCE.NS" 5 ([], []) = (Ok tt, s')
    /\ "ohlcv_1m" ∈ s'.1
    /\ forall tables start stop, tables "ohlcv_1m" = dvalues s'.2 ->
       exists l, query_candles tables "RELIANCE.NS" (exchange_for_symbol "RELIANCE.NS") "1m" start stop = Ok l
         /\ StronglySorted before l
         /\ forall row, row ∈ sample_history -> start <= HistoryRow.time row < stop ->
            exists c, candle_from_row "RELIANCE.NS" (exchange_for_symbol "RELIANCE.NS") row = Ok c /\ c ∈ l.
Proof.
  apply (backfill_command_served (fun _ _ _ => Ok sample_history) 100 ltac:(lia) "RELIANCE.NS" 5 sample_history ([], [])).
  - apply keyed_nil.
  - done.
  - repeat constructor.
  - apply (bool_decide_unpack _). vm_compute. done.
Defined.

